(* ===== verification/_CoqProject ===== *)
-Q . S2P
Prelude.v
Math.v
Mmu.v
Mmio.v
Tiling.v
Mutex.v
Buddy.v
BuddyProof.v
BuddySpec.v
CString.v
KString.v
Printf.v
SmartPtr.v
SmartPtrSpec.v
LinkedList.v
ListObjects.v
RingBuffer.v
Iterator.v
Deque.v
Slob.v
SlobSpec.v
Memory.v
MemInfo.v
MemorySpec.v
PageTable.v
PageTableSpec.v
Proc.v
ProcSpec.v
TaskTree.v
Encoding.v
Disk.v
Elf.v
SdCard.v
SdSpec.v
Mailbox.v
ByteMem.v
Cpio.v
Console.v
Vnode.v
TmpFS.v
ProcFS.v
Fat32.v
Fat32Spec.v
Fat32Type.v
Fat32Create.v
Vfs.v
VfsSpec.v
TmpFSSpec.v
CpioSpec.v
FilesSpec.v
FatFs.v
FatFsSpec.v
ProcFSSpec.v
Exec.v
Syscall.v
ExecSpec.v
MmapSpec.v
FreeSpec.v
ProgramSpec.v
CopySpec.v
SyscallSpec.v
UserProg.v
ShellSpec.v
