(* ===== verification/Prelude.v ===== *)
(** * Valkyrie: a verification development for the kernel under src/

    Valkyrie is a small Unix-like kernel for the Raspberry Pi 3 in C++.  This
    development translates its own logic into Rocq definitions that can be
    evaluated, and proves what makes each part correct.  The parts, bottom up:

    - include/lib and lib/: integer helpers, C strings, printf, strings, lists,
      ring buffers, deques and smart pointers;
    - mm/: a buddy allocator of page frames, a SLOB allocator of small objects,
      a double-free detector, the memory manager that puts them under the kernel
      lock and counts references to frames, and page tables with copy on write;
    - kernel/ and include/lib/Mutex.h: the recursive kernel lock, which masks
      interrupts, the tasklet queue and the timer multiplexer;
    - proc/: tasks, their descriptors and signals, the scheduler, mmap and exec
      with the ELF loader;
    - dev/, driver/: the console, block devices and partitions, and the drivers
      of the board (UART, core timer, mailbox, SD card);
    - fs/: the virtual file system, TmpFS, ProcFS and FAT32;
    - kernel/Syscall.cc, kernel/Exception.cc: how programs enter the kernel;
    - usr/: the programs.

    ** How code is translated

    An integer is a [Z], and every conversion to a machine type is written out
    ([u8], [u32], [u64], [s32] below); signed arithmetic that overflows is
    undefined and faults ([int_ck] of Math.v).  A pointer is a number, 0 for
    null.  Stateful code is a function in the monad [M], whose outcomes tell a
    return from a kernel panic, from an undefined access and from a loop that
    did not end within its fuel.  Objects that code shares by pointer are in
    maps from addresses or numbers to records, so that aliasing is visible.
    A method that holds [LockGuard] is wrapped in [guarded].  A user program,
    which may loop for ever, is an interaction tree.

    ** Files

    - Prelude: integers, outcomes, arrays, tactics.
    - Math: lib/Math.cc, include/lib/Math.h, Algorithm.h.
    - Mmu: include/mm/Page.h, include/mm/mmu.h (addresses and descriptors).
    - Mmio: device registers as the class [Device], include/driver/IO.h, GPIO.h,
      the set-up of driver/MiniUART.cc, kernel/Timer.cc and the reset of the board.
    - Tiling: the mathematics of aligned power-of-two blocks that tile a zone.
    - Mutex: include/lib/Mutex.h; the classes [HasCpu] and [HasCpuLaws] are how
      every component shares the lock.
    - Buddy, BuddyProof, BuddySpec: mm/BuddyAllocator.cc, its invariant, and its
      refinement of a set of live blocks.
    - CString, KString, Printf: lib/CString.cc, include/lib/String.h,
      lib/printf.cc.
    - SmartPtr, SmartPtrSpec: SharedPtr.h, WeakPtr.h, UniquePtr.h.
    - LinkedList, ListObjects, RingBuffer, Deque: List.h with its iterators and
      whole list objects, RingBuffer.h with the tasklet scheduler, Deque.h with the
      timer multiplexer; Iterator: Iterator.h over strings and ring buffers.
    - Slob, SlobSpec: mm/SlobAllocator.cc.
    - Memory, MemorySpec: mm/MemoryManager.cc and mm/AddressSanitizer.cc;
      MemInfo: the texts that report their state.
    - PageTable, PageTableSpec: mm/VirtualMemoryMap.cc and the page fault
      handling of kernel/Exception.cc; FreeSpec: the release of a whole map;
      CopySpec: the copy of a whole map, and fork.
    - Proc, ProcSpec: proc/Task.cc, proc/TaskScheduler.cc, proc/Signal.cc;
      TaskTree: the process tree through every operation, and its searches.
    - Console: dev/Console.cc and the I/O of driver/MiniUART.cc.
    - Vnode: the data of the file system layer and the interface [Vnodes] of
      what a file system provides; TmpFS: fs/TmpFS.cc, an instance of it;
      Vfs: fs/VirtualFileSystem.cc over the interface.
    - VfsSpec: the interface [PureVnodes] of a file system whose lookups do not
      change it, and path resolution proved against it; TmpFSSpec: TmpFS
      satisfies it, and creation of files; FilesSpec: reading, writing, mounting.
    - Encoding: lib/Encoding.cc; Disk: dev/StorageDevice.cc, dev/DiskPartition.cc
      and bytes of blocks; Fat32: fs/FAT32.cc and include/fs/FAT32.h; Fat32Spec:
      the volume as an allocation table and an array of clusters, writing and
      reading files; Fat32Type: that lookups change nothing and writing a file
      spares what is in use; Fat32Create: long names, creation of files, lookup; FatFs: FAT32 as an
      instance of [Vnodes] and the mounting of the SD card; FatFsSpec: files of
      the root file system.
    - SdCard, SdSpec: driver/SDCardDriver.cc over any device, and over one that
      keeps the promises of the class [SdHost]; Mailbox: driver/Mailbox.cc.
    - Cpio: fs/CPIOArchive.cc; CpioSpec: the archive format, and unpacking.
    - ProcFS: fs/ProcFS.cc over the tasks and memory of the kernel, with the
      vnodes of the whole kernel; ProcFSSpec: its reports.
    - Elf: include/fs/ELF.h; ByteMem: bytes in the words of physical memory.
    - Exec: mmap, the ELF loader and exec of proc/Task.cc; ExecSpec: the
      arguments on the stack; MmapSpec: the address space of a program, and
      mappings; ProgramSpec: the start of a program.
    - Syscall: kernel/Syscall.cc and kernel/Exception.cc; SyscallSpec: reading and
      writing files from a program.
    - UserProg: the shell and other programs of usr/, as interaction trees over
      the system calls; ShellSpec: what the shell does with a line.

    ** What the theorems show

    - Allocators: the buddy allocator refines a map of live blocks (disjoint,
      aligned, inside the zone), stays safe from construction on, gives a request
      whenever a block is there for it, and is whole again when all is freed; the
      double-free detector refines a set of pointers; page frames and kmalloc
      refine the allocators below them and keep reference counts; small objects
      carved from a frame do not overlap and are given back (MemorySpec, over the
      layout of a frame in SlobSpec); where SLOB loses or corrupts free chunks,
      theorems exhibit it.
    - Page tables: mapping changes one translation and unmapping restores it; a
      write fault on a copy-on-write page gives a private copy; a copy of a whole
      map shows the same bytes, and a write through either side is not seen by
      the other (CopySpec); a reset gives back what the map alone held, and
      nothing else (FreeSpec).
    - Programs: mmap adds a region to what a program sees and changes nothing
      else; exec of a page-aligned executable gives the program the bytes of its
      file, its arguments, and nothing of the program before; read and write move
      bytes between a buffer in one page and the TmpFS file behind a descriptor
      (SyscallSpec); a turn of the shell makes the system calls that a line asks
      for, whatever the kernel answers (ShellSpec).
    - Library: each string function meets its C contract on every input in
      bounds, number formatting and parsing are inverse, containers refine
      lists and queues, and the counts of smart pointers are exact through every
      operation but the ones that are wrong.
    - Tasks: schedule is round robin; exit hands a task to its parent and closes
      its files; descriptors are the lowest free ones; the process tree stays
      consistent through forks that succeed, exits and waits, and its searches
      are exact; /proc reports the tasks there are.
    - Files: a created path resolves to the new vnode (TmpFSSpec); what is
      written, closed and opened again is read back, and a mounted file system
      covers its mount point until it is unmounted (FilesSpec); a FAT32 file is
      created, written, found by its name and read back, and writing a file, on a
      full disk too, spares every cluster in use (Fat32Create, Fat32Type);
      through the VFS a file of the SD card survives its closing (FatFsSpec);
      unpacking an archive is creating its files (CpioSpec); UTF-8 and UCS-2
      conversions are inverse where they are right (Encoding).
    - Drivers: line editing of the console; with a controller of which finitely
      many transfers fail, and which is good for a single block only if it was set
      up for it and its error flags were cleared, the SD card driver ends and
      transfers exactly the blocks asked for, retries included (SdSpec).

    ** Bounds and fuel

    A loop over a list or an array recurses on it or on a count that the code
    fixes.  Other loops have fuel that the definition computes from the state (a
    string's capacity, the number of orders, of tasks or of mounts) and the
    theorems show that it suffices, by proving that the code returns.  Where a
    definition runs out of fuel the code does not end: the spin of an unbalanced
    unlock, a [recv] with nothing to read, the parent of a root mounted on
    itself, a cyclic cluster chain, a device that never becomes ready.  A loop
    that polls a device without counting takes its fuel as an argument, and the
    theorems hold for every fuel above what the device needs.

    ** Not modelled

    Machine instructions (boot/, *.S), code that only delegates (Kernel::run),
    debug output, the test programs and the copies of lib/CString.cc and
    lib/printf.cc under usr/, and type traits and wrappers without behaviour of
    their own.
    Objects the kernel allocates for itself are not taken from the modelled
    allocators, and mounts of FAT32 together with TmpFS and ProcFS are not
    combined: the VFS is proved over each of them. *)

From Stdlib Require Import ZArith Lia.
From stdpp Require Import base gmap list numbers.

(** ** Machine integers

    The kernel is built for AArch64 (Makefile: aarch64-linux-gnu-c++, without
    -fsigned-char), where plain [char] is unsigned and, by include/lib/Types.h,
    [int8_t] is plain [char].  An integer of the source is a [Z]; a conversion
    to a w-bit type is written out with the functions below. *)

Open Scope Z_scope.

Definition u8 (z : Z) : Z := z mod 2 ^ 8.
Definition u16 (z : Z) : Z := z mod 2 ^ 16.
Definition u32 (z : Z) : Z := z mod 2 ^ 32.
Definition u64 (z : Z) : Z := z mod 2 ^ 64.
Definition s32 (z : Z) : Z := (z + 2 ^ 31) mod 2 ^ 32 - 2 ^ 31.

Definition INT_MAX : Z := 2147483647.
Definition INT_MIN : Z := -2147483648.

Definition in_u32 (z : Z) : Prop := 0 <= z < 2 ^ 32.
Definition in_u64 (z : Z) : Prop := 0 <= z < 2 ^ 64.
Definition in_s32 (z : Z) : Prop := - 2 ^ 31 <= z < 2 ^ 31.

(** ** Outcomes of kernel code

    [Ret] is a normal return, [Panic] is a call of [Kernel::panic] (which does
    not return), [Fault] is an access the language leaves undefined (a null
    dereference, an index outside an array, an unmapped address) and
    [OutOfFuel] a loop that did not end within the fuel of its definition. *)

Inductive outcome (A : Type) : Type :=
| Ret (a : A)
| Panic
| Fault
| OutOfFuel.
Arguments Ret {A} a.
Arguments Panic {A}.
Arguments Fault {A}.
Arguments OutOfFuel {A}.

#[export] Instance outcome_ret : MRet outcome := fun A a => Ret a.
#[export] Instance outcome_bind : MBind outcome := fun A B f m =>
  match m with
  | Ret a => f a
  | Panic => Panic
  | Fault => Fault
  | OutOfFuel => OutOfFuel
  end.

(** Stateful code: a state [S] is threaded through, and is lost when the
    computation does not return. *)
Definition M (S A : Type) : Type := S -> outcome (A * S).

#[export] Instance M_ret {S} : MRet (M S) := fun A a s => Ret (a, s).
#[export] Instance M_bind {S} : MBind (M S) := fun A B f m s =>
  match m s with
  | Ret (a, s') => f a s'
  | Panic => Panic
  | Fault => Fault
  | OutOfFuel => OutOfFuel
  end.

Definition get {S} : M S S := fun s => Ret (s, s).
Definition put {S} (s : S) : M S unit := fun _ => Ret (tt, s).
Definition gets {S A} (f : S -> A) : M S A := fun s => Ret (f s, s).
Definition modify {S} (f : S -> S) : M S unit := fun s => Ret (tt, f s).
Definition panic {S A} : M S A := fun _ => Panic.
Definition fault {S A} : M S A := fun _ => Fault.
Definition out_of_fuel {S A} : M S A := fun _ => OutOfFuel.

(** A computation that has no state of its own. *)
Definition lift {S A} (o : outcome A) : M S A := fun s =>
  match o with
  | Ret a => Ret (a, s)
  | Panic => Panic
  | Fault => Fault
  | OutOfFuel => OutOfFuel
  end.

(** Reading through a pointer or an array index that may be invalid. *)
Definition deref {S A} (o : option A) : M S A :=
  match o with Some a => mret a | None => fault end.

(** Running a computation on a part of a larger state. *)
Definition zoom {S T A} (proj : S -> T) (inj : T -> S -> S) (m : M T A) : M S A :=
  fun s => match m (proj s) with
           | Ret (a, t) => Ret (a, inj t s)
           | Panic => Panic
           | Fault => Fault
           | OutOfFuel => OutOfFuel
           end.

(** ** C arrays

    An array is a list; an index is an integer, and an access outside the
    bounds is [None]. *)

Definition arr_get {A} (l : list A) (i : Z) : option A :=
  if decide (0 <= i) then l !! Z.to_nat i else None.

Definition arr_set {A} (l : list A) (i : Z) (x : A) : option (list A) :=
  if decide (0 <= i < Z.of_nat (length l)) then Some (<[Z.to_nat i := x]> l) else None.

(** [for (i = 0; i < len; i++) a[idx + i] = v;] *)
Fixpoint arr_fill {A} (l : list A) (idx : Z) (v : A) (len : nat) : option (list A) :=
  match len with
  | O => Some l
  | S n => match arr_set l idx v with
           | Some l' => arr_fill l' (idx + 1) v n
           | None => None
           end
  end.

(** ** Generic lemmas *)

Section arrays.
Context {A : Type}.
Implicit Types (l : list A) (i j : Z) (x y : A).

Lemma arr_get_Some_range l i x : arr_get l i = Some x -> 0 <= i < Z.of_nat (length l).
Proof.
  unfold arr_get. case_decide; [|done]. intros ?%lookup_lt_Some. lia.
Qed.

Lemma arr_get_is_Some l i : 0 <= i < Z.of_nat (length l) -> exists x, arr_get l i = Some x.
Proof.
  intros H. unfold arr_get. rewrite decide_True by lia.
  destruct (lookup_lt_is_Some_2 l (Z.to_nat i)) as [x Hx]; [lia|eauto].
Qed.

Lemma arr_get_nat l (n : nat) : arr_get l (Z.of_nat n) = l !! n.
Proof. unfold arr_get. rewrite decide_True by lia. by rewrite Nat2Z.id. Qed.

Lemma arr_set_is_Some l i x :
  0 <= i < Z.of_nat (length l) -> arr_set l i x = Some (<[Z.to_nat i := x]> l).
Proof. intros H. unfold arr_set. by rewrite decide_True. Qed.

Lemma arr_set_Some_range l i x l' :
  arr_set l i x = Some l' -> 0 <= i < Z.of_nat (length l).
Proof. unfold arr_set. by case_decide. Qed.

Lemma arr_set_length l i x l' : arr_set l i x = Some l' -> length l' = length l.
Proof.
  unfold arr_set. case_decide; [|done]. intros [= <-]. apply length_insert.
Qed.

Lemma arr_get_set_eq l i x l' : arr_set l i x = Some l' -> arr_get l' i = Some x.
Proof.
  unfold arr_set, arr_get. case_decide; [|done]. intros [= <-].
  rewrite decide_True by lia. apply list_lookup_insert_eq. lia.
Qed.

Lemma arr_get_set_ne l i j x l' :
  arr_set l i x = Some l' -> i <> j -> arr_get l' j = arr_get l j.
Proof.
  unfold arr_set, arr_get. case_decide; [|done]. intros [= <-] Hne.
  case_decide; [|done]. apply list_lookup_insert_ne. lia.
Qed.

Lemma arr_get_set l i j x l' :
  arr_set l i x = Some l' ->
  arr_get l' j = if decide (i = j) then Some x else arr_get l j.
Proof.
  intros H. case_decide; subst.
  - by eapply arr_get_set_eq.
  - by eapply arr_get_set_ne.
Qed.

Lemma arr_ext l l' :
  length l = length l' -> (forall i, 0 <= i < Z.of_nat (length l) -> arr_get l i = arr_get l' i) ->
  l = l'.
Proof.
  intros Hlen Hi. apply list_eq. intros n.
  destruct (decide (n < length l)%nat) as [Hn|Hn].
  - rewrite <- !arr_get_nat. apply Hi. lia.
  - rewrite !lookup_ge_None_2 by lia. done.
Qed.

Lemma arr_fill_spec len l idx x :
  0 <= idx -> idx + Z.of_nat len <= Z.of_nat (length l) ->
  exists l', arr_fill l idx x len = Some l' /\ length l' = length l /\
    forall j, arr_get l' j =
      if decide (idx <= j < idx + Z.of_nat len) then Some x else arr_get l j.
Proof.
  revert l idx. induction len as [|len IH]; intros l idx H0 H1; simpl.
  - exists l. split_and!; [done..|]. intros j. rewrite decide_False by lia. done.
  - rewrite arr_set_is_Some by lia.
    destruct (IH (<[Z.to_nat idx := x]> l) (idx + 1)) as (l' & -> & Hlen & Hget);
      [lia|rewrite length_insert; lia|].
    exists l'. split_and!; [done|by rewrite Hlen, length_insert|].
    intros j. rewrite Hget.
    assert (Hs : arr_set l idx x = Some (<[Z.to_nat idx := x]> l)) by (apply arr_set_is_Some; lia).
    rewrite (arr_get_set _ _ j _ _ Hs).
    repeat case_decide; try lia; done.
Qed.
End arrays.

(** A function changed at one argument. *)
Definition upd {A} (f : Z -> A) (i : Z) (x : A) : Z -> A := fun j => if decide (j = i) then x else f j.

Lemma upd_eq {A} (f : Z -> A) i x : upd f i x i = x.
Proof. unfold upd. by rewrite decide_True. Qed.

Lemma upd_ne {A} (f : Z -> A) i x j : j <> i -> upd f i x j = f j.
Proof. intros. unfold upd. by rewrite decide_False. Qed.

(** The array starts with these elements. *)
Definition holds {A} (buf text : list A) : Prop := take (length text) buf = text.

Lemma holds_nil {A} (buf : list A) : holds buf [].
Proof. done. Qed.

Lemma holds_app {A} (buf text : list A) k : holds buf text -> (length text < length buf)%nat ->
  arr_set buf (Z.of_nat (length text)) k = Some (<[length text := k]> buf) /\ holds (<[length text := k]> buf) (text ++ [k]).
Proof.
  unfold holds. intros Hh Hl. rewrite arr_set_is_Some by lia. rewrite Nat2Z.id. split; [done|].
  rewrite length_app. simpl. rewrite Nat.add_1_r, (take_S_r _ _ k) by (apply list_lookup_insert_eq; lia).
  by rewrite take_insert_ge, Hh by lia.
Qed.

Lemma holds_lookup {A} (buf text : list A) i : holds buf text -> (i < length text)%nat -> buf !! i = text !! i.
Proof. unfold holds. intros Hh Hi. rewrite <- (lookup_take_lt buf (length text) i) by done. by rewrite Hh. Qed.

(** A test on [n] consecutive integers. *)
Fixpoint all_from (n : nat) (p : Z -> bool) (z : Z) : bool :=
  match n with O => true | S n => p z && all_from n p (z + 1) end.

Lemma all_from_spec n p z x : all_from n p z = true -> z <= x < z + Z.of_nat n -> p x = true.
Proof.
  revert z. induction n as [|n IH]; intros z; cbn [all_from]; [lia|]. intros [Hz Hn]%andb_true_iff Hx.
  destruct (decide (x = z)) as [->|]; [done|]. apply (IH (z + 1)); [done|lia].
Qed.

Section integers.
Lemma u64_id z : 0 <= z < 2 ^ 64 -> u64 z = z.
Proof. intros. unfold u64. by apply Z.mod_small. Qed.
Lemma u32_id z : 0 <= z < 2 ^ 32 -> u32 z = z.
Proof. intros. unfold u32. by apply Z.mod_small. Qed.
Lemma u16_id z : 0 <= z < 2 ^ 16 -> u16 z = z.
Proof. intros. unfold u16. by apply Z.mod_small. Qed.
Lemma u8_id z : 0 <= z < 2 ^ 8 -> u8 z = z.
Proof. intros. unfold u8. by apply Z.mod_small. Qed.
Lemma s32_id z : - 2 ^ 31 <= z < 2 ^ 31 -> s32 z = z.
Proof. intros. unfold s32. rewrite Z.mod_small; lia. Qed.
Lemma u64_range z : 0 <= u64 z < 2 ^ 64.
Proof. unfold u64. by apply Z.mod_pos_bound. Qed.
Lemma u32_range z : 0 <= u32 z < 2 ^ 32.
Proof. unfold u32. by apply Z.mod_pos_bound. Qed.
Lemma u8_range z : 0 <= u8 z < 2 ^ 8.
Proof. unfold u8. by apply Z.mod_pos_bound. Qed.
Lemma s32_range z : - 2 ^ 31 <= s32 z < 2 ^ 31.
Proof. unfold s32. pose proof (Z.mod_pos_bound (z + 2 ^ 31) (2 ^ 32)). lia. Qed.

Lemma pow2_pos k : 0 <= k -> 0 < 2 ^ k.
Proof. intros. by apply Z.pow_pos_nonneg. Qed.

Lemma pow2_S k : 0 <= k -> 2 ^ (k + 1) = 2 * 2 ^ k.
Proof. intros. rewrite Z.pow_add_r by lia. lia. Qed.

Lemma pow2_divide_mono j k z : 0 <= j <= k -> (2 ^ k | z) -> (2 ^ j | z).
Proof.
  intros Hj Hz. etransitivity; [|exact Hz].
  exists (2 ^ (k - j)). rewrite <- Z.pow_add_r by lia. f_equal. lia.
Qed.
End integers.

Create HintDb valkyrie.
Create HintDb keeps.
#[export] Hint Resolve u64_range u32_range u8_range s32_range pow2_pos : valkyrie.
Create Rewrite HintDb mint.
#[export] Hint Rewrite u64_id u32_id u16_id u8_id s32_id using lia : mint.

(** ** Tactics *)

(** Symbolic execution of the first step of a monadic computation whose
    result is known. *)
Ltac mstep H := unfold mbind, M_bind at 1; rewrite H; cbn beta iota.

Lemma bind_run {S A B} (m : M S A) (k : A -> M S B) s a s' :
  m s = Ret (a, s') -> mbind k m s = k a s'.
Proof. intros H. unfold mbind, M_bind. by rewrite H. Qed.

Lemma bind_inv {S A B} (m : M S A) (k : A -> M S B) s b s' :
  mbind k m s = Ret (b, s') -> exists a s1, m s = Ret (a, s1) /\ k a s1 = Ret (b, s').
Proof. unfold mbind, M_bind. destruct (m s) as [[a s1]| | |]; [eauto|done..]. Qed.

Lemma outcome_bind_inv {A B} (o : outcome A) (k : A -> outcome B) b : mbind k o = Ret b -> exists a, o = Ret a /\ k a = Ret b.
Proof. destruct o; [eauto|done..]. Qed.
Ltac obind_inv H := let a := fresh "c" in let Ha := fresh "Hc" in apply outcome_bind_inv in H as (a & Ha & H).

(** Takes apart a hypothesis on a run that returned. *)
Tactic Notation "minv" hyp(H) "as" simple_intropattern(a) simple_intropattern(s) simple_intropattern(Hr) :=
  apply bind_inv in H as (a & s & Hr & H).

(** The first step of a computation, by a lemma on its run; the monad stays folded. *)
Ltac mrun H := rewrite (bind_run _ _ _ _ _ H); cbn beta iota.

Lemma get_run {S} (s : S) : get s = Ret (s, s).
Proof. done. Qed.
Lemma lift_run {S A} (a : A) (s : S) : lift (Ret a) s = Ret (a, s).
Proof. done. Qed.
Lemma deref_run {S A} (a : A) (s : S) : deref (Some a) s = Ret (a, s).
Proof. done. Qed.
Lemma mret_run {S A} (a : A) (s : S) : (mret a : M S A) s = Ret (a, s).
Proof. done. Qed.

(** Steps that need no hypothesis. *)
Ltac msimpl :=
  repeat first
    [ rewrite (bind_run _ _ _ _ _ (get_run _)); cbn beta iota
    | rewrite (bind_run _ _ _ _ _ (lift_run _ _)); cbn beta iota
    | rewrite (bind_run _ _ _ _ _ (deref_run _ _)); cbn beta iota
    | rewrite (bind_run _ _ _ _ _ (mret_run _ _)); cbn beta iota ].

(** The same for a first step that is a lifted outcome already evaluated. *)
Ltac mlift := unfold mbind; unfold M_bind at 1; cbn beta iota delta [lift].

(** Unfolds the monad, leaving a goal on concrete outcomes. *)
Ltac munfold :=
  unfold mbind, mret, M_bind, M_ret, get, gets, put, modify, lift, deref, panic, fault, zoom in *.
