(* ===== verification/Math.v ===== *)
(** * lib/Math.cc and include/lib/Algorithm.h: integer helpers

    Each loop is a [Fixpoint] on fuel with the loop's own variables as
    arguments; the theorems below give, for every call, the fuel the definition
    uses and the closed form of the result, or show that no fuel is enough. *)

From Stdlib Require Import ZArith Lia Znumtheory.
From stdpp Require Import base list numbers.
From S2P Require Import Prelude.

Open Scope Z_scope.

(** Signed overflow is undefined: an [int] result outside its range faults. *)
Definition int_ck (z : Z) : outcome Z :=
  if decide (- 2 ^ 31 <= z < 2 ^ 31) then Ret z else Fault.

Lemma int_ck_ok z : - 2 ^ 31 <= z < 2 ^ 31 -> int_ck z = Ret z.
Proof. intros. unfold int_ck. by rewrite decide_True. Qed.

(** ** Definitions *)

Definition max (a b : Z) : Z := if b <=? a then a else b.
Definition min (a b : Z) : Z := if a <=? b then a else b.

(** [while (exponent-- > 0) result *= base;] *)
Fixpoint pow_loop (n : nat) (base result : Z) : outcome Z :=
  match n with
  | O => Ret result
  | S n => result ← int_ck (result * base); pow_loop n base result
  end.

Definition pow (base exponent : Z) : outcome Z := pow_loop (Z.to_nat exponent) base 1.

(** Binary search on [l, r]. *)
Fixpoint sqrt_loop (fuel : nat) (x l r : Z) : outcome Z :=
  match fuel with
  | O => OutOfFuel
  | S fuel =>
      if l <=? r then
        let mid := l + (r - l) `quot` 2 in
        if mid =? x `quot` mid then Ret mid
        else if mid <? x `quot` mid then sqrt_loop fuel x (mid + 1) r
        else sqrt_loop fuel x l (mid - 1)
      else Ret (l - 1)
  end.

Definition sqrt (x : Z) : outcome Z := sqrt_loop 33 x 1 x.

(** [while (x >>= 1) ++result;] on a signed [int]: the shift is arithmetic. *)
Fixpoint log2_loop (fuel : nat) (x result : Z) : outcome Z :=
  match fuel with
  | O => OutOfFuel
  | S fuel =>
      let x := Z.shiftr x 1 in
      if x =? 0 then Ret result else log2_loop fuel x (result + 1)
  end.

Definition log2 (x : Z) : outcome Z := log2_loop 32 x 0.

(** [while (result < x) result <<= 1;] on [size_t]. *)
Fixpoint round_up_to_pow_of_2_loop (fuel : nat) (x result : Z) : outcome Z :=
  match fuel with
  | O => OutOfFuel
  | S fuel =>
      if result <? x then round_up_to_pow_of_2_loop fuel x (u64 (Z.shiftl result 1))
      else Ret result
  end.

Definition round_up_to_pow_of_2 (x : Z) : outcome Z := round_up_to_pow_of_2_loop 65 x 1.

(** [while (result < x) result += n;] on [size_t]. *)
Fixpoint round_up_to_multiple_of_n_loop (fuel : nat) (x n result : Z) : outcome Z :=
  match fuel with
  | O => OutOfFuel
  | S fuel =>
      if result <? x then round_up_to_multiple_of_n_loop fuel x n (u64 (result + n))
      else Ret result
  end.

Definition round_up_to_multiple_of_n (x n : Z) : outcome Z :=
  round_up_to_multiple_of_n_loop (Z.to_nat (x / n + 2)) x n n.

Definition is_digit (c : Z) : bool := (48 <=? c) && (c <=? 57).

(** ** Lemmas *)

Lemma max_spec a b : max a b = Z.max a b.
Proof. unfold max. destruct (Z.leb_spec b a); lia. Qed.

Lemma min_spec a b : min a b = Z.min a b.
Proof. unfold min. destruct (Z.leb_spec a b); lia. Qed.

Lemma pow_loop_2 n r :
  0 <= r -> r * 2 ^ Z.of_nat n < 2 ^ 31 -> pow_loop n 2 r = Ret (r * 2 ^ Z.of_nat n).
Proof.
  revert r. induction n as [|n IH]; intros r Hr Hb; cbn [pow_loop].
  - f_equal. lia.
  - rewrite Nat2Z.inj_succ, Z.pow_succ_r in * by lia.
    assert (1 <= 2 ^ Z.of_nat n) by (apply (Z.pow_le_mono_r 2 0); lia).
    assert (r * 2 <= r * 2 * 2 ^ Z.of_nat n) by nia.
    unfold int_ck. rewrite decide_True by lia.
    simpl. rewrite IH; [f_equal; lia | lia | lia].
Qed.

Lemma pow_2 k : 0 <= k <= 30 -> pow 2 k = Ret (2 ^ k).
Proof.
  intros Hk. unfold pow. rewrite pow_loop_2; rewrite ?Z2Nat.id by lia; [f_equal; lia|lia|].
  pose proof (Z.pow_le_mono_r 2 k 30). lia.
Qed.

Lemma sqrt_loop_correct fuel x l r :
  0 <= x < 2 ^ 31 -> 1 <= l -> l <= r + 1 -> r <= x ->
  (l - 1) * (l - 1) <= x -> x < (r + 1) * (r + 1) ->
  r - l + 1 < 2 ^ (Z.of_nat fuel - 1) ->
  sqrt_loop fuel x l r = Ret (Z.sqrt x).
Proof.
  intros Hx. revert l r. induction fuel as [|fuel IH]; intros l r Hl Hlr Hrx Hlo Hhi Hf.
  - rewrite Z.pow_neg_r in Hf by lia. lia.
  - cbn [sqrt_loop]. destruct (Z.leb_spec l r) as [Hle|Hgt].
    2:{ f_equal. symmetry. apply Z.sqrt_unique. unfold Z.succ. nia. }
    set (mid := l + (r - l) `quot` 2).
    assert (Hmid : l <= mid <= r /\ mid - 1 - l + 1 <= (r - l + 1) / 2 /\ r - (mid + 1) + 1 <= (r - l + 1) / 2).
    { unfold mid. rewrite Z.quot_div_nonneg by lia.
      pose proof (Z.div_mod (r - l) 2). pose proof (Z.mod_pos_bound (r - l) 2).
      pose proof (Z.div_mod (r - l + 1) 2). pose proof (Z.mod_pos_bound (r - l + 1) 2). lia. }
    assert (Hq : x `quot` mid = x / mid) by (apply Z.quot_div_nonneg; lia).
    pose proof (Z.div_mod x mid ltac:(lia)) as Hdm.
    pose proof (Z.mod_pos_bound x mid ltac:(lia)) as Hmb.
    rewrite Hq.
    assert (Hhalf : (r - l + 1) / 2 < 2 ^ (Z.of_nat fuel - 1)).
    { destruct fuel as [|fuel]; [simpl in Hf; lia|].
      apply Z.div_lt_upper_bound; [lia|].
      replace (2 * 2 ^ (Z.of_nat (S fuel) - 1)) with (2 ^ (Z.of_nat (S (S fuel)) - 1)); [lia|].
      rewrite <- Z.pow_succ_r by lia. f_equal. lia. }
    destruct (Z.eqb_spec mid (x / mid)) as [Heq|Hne].
    { f_equal. symmetry. apply Z.sqrt_unique. unfold Z.succ. nia. }
    destruct (Z.ltb_spec mid (x / mid)) as [Hlt|Hge].
    + apply IH; try lia. clear - Hdm Hmb Hlt Hmid Hl. nia.
    + apply IH; try lia. clear - Hdm Hmb Hge Hne Hmid Hl. nia.
Qed.

Lemma log2_loop_correct fuel x r :
  0 <= x -> x < 2 ^ Z.of_nat fuel -> (0 < fuel)%nat ->
  log2_loop fuel x r = Ret (r + Z.log2 x).
Proof.
  revert x r. induction fuel as [|fuel IH]; intros x r Hx Hb Hf; [lia|].
  cbn [log2_loop].
  destruct (Z.eqb_spec (Z.shiftr x 1) 0) as [H0|H0].
  - f_equal. rewrite Z.shiftr_div_pow2 in H0 by lia. simpl in H0.
    apply Z.div_small_iff in H0; [|lia]. rewrite (proj2 (Z.log2_null x)) by lia. lia.
  - rewrite Z.shiftr_div_pow2 in * by lia. change (2 ^ 1) with 2 in *.
    rewrite Nat2Z.inj_succ, Z.pow_succ_r in Hb by lia.
    assert (0 < x / 2) by (pose proof (Z.div_pos x 2); lia).
    assert (2 <= x) by (pose proof (Z.div_mod x 2); pose proof (Z.mod_pos_bound x 2); lia).
    assert (x / 2 < 2 ^ Z.of_nat fuel) by (apply Z.div_lt_upper_bound; lia).
    rewrite IH; [|lia|done|destruct fuel; [simpl in *; lia|lia]].
    f_equal.
    assert (Hlog : Z.log2 (Z.shiftr x 1) = Z.log2 x - 1).
    { rewrite Z.log2_shiftr by lia. pose proof (Z.log2_pos x). lia. }
    rewrite Z.shiftr_div_pow2 in Hlog by lia. change (2 ^ 1) with 2 in Hlog. lia.
Qed.

(** The closed form the clients of [log2] use. *)
Lemma log2_spec x : 0 <= x < 2 ^ 31 -> log2 x = Ret (Z.log2 x).
Proof.
  intros Hx. unfold log2. rewrite log2_loop_correct; [done|lia| |lia].
  change (Z.of_nat 32) with 32. lia.
Qed.

Lemma round_up_pow2_loop_correct fuel x k :
  0 <= k -> (forall j, 0 <= j < k -> 2 ^ j < x) -> x <= 2 ^ 63 ->
  k + Z.of_nat fuel > 64 -> k <= 63 ->
  round_up_to_pow_of_2_loop fuel x (2 ^ k) = Ret (2 ^ Z.log2_up x).
Proof.
  revert k. induction fuel as [|fuel IH]; intros k Hk Hj Hx Hf Hk63; [lia|].
  cbn [round_up_to_pow_of_2_loop].
  destruct (Z.ltb_spec (2 ^ k) x) as [Hlt|Hge].
  - assert (k < 63).
    { destruct (decide (k = 63)); [subst; lia | lia]. }
    rewrite Z.shiftl_mul_pow2 by lia. change (2 ^ 1) with 2.
    replace (2 ^ k * 2) with (2 ^ (k + 1)) by (rewrite pow2_S; lia).
    rewrite u64_id by (split; [apply Z.pow_nonneg; lia | apply Z.pow_lt_mono_r; lia]).
    apply IH; [lia| |lia|lia|lia].
    intros j Hjk. destruct (decide (j = k)); [subst; lia | apply Hj; lia].
  - f_equal. f_equal. symmetry.
    destruct (decide (k = 0)) as [->|Hk0].
    + apply Z.log2_up_eqn0. simpl in Hge. lia.
    + specialize (Hj (k - 1) ltac:(lia)).
      apply Z.log2_up_unique; [lia|]. unfold Z.pred. split; [|lia].
      by replace (k + -1) with (k - 1) by lia.
Qed.

Lemma round_up_pow2_spec x : 0 <= x <= 2 ^ 63 -> round_up_to_pow_of_2 x = Ret (2 ^ Z.log2_up x).
Proof.
  intros Hx. unfold round_up_to_pow_of_2.
  apply (round_up_pow2_loop_correct 65 x 0); intros; lia.
Qed.

Lemma round_up_pow2_loop_zero fuel x : 0 < x -> round_up_to_pow_of_2_loop fuel x 0 = OutOfFuel.
Proof.
  intros Hx. induction fuel as [|fuel IH]; cbn [round_up_to_pow_of_2_loop]; [done|].
  rewrite (proj2 (Z.ltb_lt 0 x)) by lia. exact IH.
Qed.

Lemma round_up_pow2_loop_diverges fuel x k :
  2 ^ 63 < x -> 0 <= k <= 63 -> round_up_to_pow_of_2_loop fuel x (2 ^ k) = OutOfFuel.
Proof.
  intros Hx. revert k. induction fuel as [|fuel IH]; intros k Hk; cbn [round_up_to_pow_of_2_loop]; [done|].
  assert (2 ^ k <= 2 ^ 63) by (apply Z.pow_le_mono_r; lia).
  rewrite (proj2 (Z.ltb_lt (2 ^ k) x)) by lia.
  rewrite Z.shiftl_mul_pow2 by lia. change (2 ^ 1) with 2.
  replace (2 ^ k * 2) with (2 ^ (k + 1)) by (rewrite pow2_S; lia).
  destruct (decide (k = 63)) as [->|].
  - change (u64 (2 ^ (63 + 1))) with 0. apply round_up_pow2_loop_zero. lia.
  - rewrite u64_id by (split; [apply Z.pow_nonneg; lia | apply Z.pow_lt_mono_r; lia]).
    apply IH. lia.
Qed.

Lemma round_up_multiple_loop_correct fuel x n m :
  0 < n -> 1 <= m -> x + n <= 2 ^ 64 -> m * n < 2 ^ 64 ->
  (m = 1 \/ (m - 1) * n < x) ->
  x <= (m + Z.of_nat fuel - 1) * n -> (0 < fuel)%nat ->
  exists q, round_up_to_multiple_of_n_loop fuel x n (m * n) = Ret (q * n) /\
    1 <= q /\ x <= q * n /\ (q = 1 \/ (q - 1) * n < x).
Proof.
  intros Hn. revert m. induction fuel as [|fuel IH]; intros m Hm Hx Hmn Hlow Hf Hpos; [lia|].
  cbn [round_up_to_multiple_of_n_loop].
  destruct (Z.ltb_spec (m * n) x) as [Hlt|Hge].
  - replace (m * n + n) with ((m + 1) * n) by lia.
    rewrite u64_id by nia.
    apply IH; [lia|lia|nia|right; nia| |].
    + replace (m + 1 + Z.of_nat fuel - 1) with (m + Z.of_nat (S fuel) - 1) by lia. done.
    + destruct fuel; [|lia]. replace (m + Z.of_nat 1 - 1) with m in Hf by lia. lia.
  - exists m. split_and!; [done|lia|lia|done].
Qed.

(** The least positive multiple of [n] that is at least [x]. *)
Lemma round_up_multiple_spec x n :
  0 < n -> 0 <= x -> x + n <= 2 ^ 64 -> n < 2 ^ 64 ->
  exists q, round_up_to_multiple_of_n x n = Ret (q * n) /\
    1 <= q /\ x <= q * n /\ (q = 1 \/ (q - 1) * n < x).
Proof.
  intros Hn Hx Hb Hn64. unfold round_up_to_multiple_of_n.
  replace (round_up_to_multiple_of_n_loop (Z.to_nat (x / n + 2)) x n n)
    with (round_up_to_multiple_of_n_loop (Z.to_nat (x / n + 2)) x n (1 * n)) by (f_equal; lia).
  assert (0 <= x / n) by (apply Z.div_pos; lia).
  pose proof (Z.div_mod x n ltac:(lia)). pose proof (Z.mod_pos_bound x n ltac:(lia)).
  apply round_up_multiple_loop_correct; [lia|lia|lia|lia|by left| |lia].
  rewrite Z2Nat.id by lia. nia.
Qed.

(** Rounding to a multiple of a power of two, in closed form. *)
Lemma round_up_multiple_closed x n :
  0 < n -> 0 < x -> x + n <= 2 ^ 64 -> n < 2 ^ 64 ->
  round_up_to_multiple_of_n x n = Ret ((x + n - 1) / n * n).
Proof.
  intros Hn Hx Hb Hn64.
  destruct (round_up_multiple_spec x n) as (q & -> & Hq & Hle & Hlow); [lia..|].
  do 2 f_equal. pose proof (Z.div_mod (x + n - 1) n ltac:(lia)).
  pose proof (Z.mod_pos_bound (x + n - 1) n ltac:(lia)). nia.
Qed.

(** ** Theorems *)

(** [sqrt] returns the integer square root of every non-negative [int]: the
    binary search ends within its 33 iterations and never overflows. *)
Theorem sqrt_correct x : 0 <= x < 2 ^ 31 -> sqrt x = Ret (Z.sqrt x).
Proof.
  intros Hx. unfold sqrt. apply sqrt_loop_correct; [done|lia..| |lia|].
  - nia.
  - change (Z.of_nat 33 - 1) with 32. lia.
Qed.

Lemma sqrt_correct_witness : sqrt 2147483647 = Ret 46340.
Proof. apply (sqrt_correct 2147483647). lia. Defined.

(** [round_up_to_pow_of_2] ends on every size up to 2^63 and returns the
    least power of two that is not smaller. *)
Theorem round_up_pow2_least x : 0 <= x <= 2 ^ 63 ->
  exists k, round_up_to_pow_of_2 x = Ret (2 ^ k) /\ 0 <= k /\ x <= 2 ^ k /\
    forall j, 0 <= j -> x <= 2 ^ j -> 2 ^ k <= 2 ^ j.
Proof.
  intros Hx. exists (Z.log2_up x). rewrite round_up_pow2_spec by done.
  split_and!; [done|apply Z.log2_up_nonneg| |].
  - destruct (decide (x <= 1)); [pose proof (pow2_pos (Z.log2_up x) (Z.log2_up_nonneg x)); lia|].
    apply Z.log2_log2_up_spec. lia.
  - intros j Hj Hle. apply Z.pow_le_mono_r; [lia|]. rewrite <- (Z.log2_up_pow2 j) by done.
    by apply Z.log2_up_le_mono.
Qed.

Lemma round_up_pow2_least_witness :
  exists k, round_up_to_pow_of_2 4097 = Ret (2 ^ k) /\ 0 <= k /\ 4097 <= 2 ^ k /\
    forall j, 0 <= j -> 4097 <= 2 ^ j -> 2 ^ k <= 2 ^ j.
Proof. apply (round_up_pow2_least 4097). lia. Defined.
