(* ===== verification/Mmu.v ===== *)
(** * include/mm/mmu.h and include/mm/Page.h: pages, page descriptors, indices

    Constants of the memory management unit, the index macros, and the static
    helpers of class [Page].  Addresses are [size_t] values. *)

From Stdlib Require Import ZArith Lia.
From stdpp Require Import base numbers.
From S2P Require Import Prelude.

Open Scope Z_scope.

(** ** Definitions *)

Definition KERNEL_VA_BASE : Z := 0xffff000000000000.

Definition MAIR_IDX_NORMAL_NOCACHE : Z := 1.

Definition PD_COW_PAGE : Z := Z.shiftl 1 55.
Definition PD_EL0_EXEC_NEVER : Z := Z.shiftl 1 54.
Definition PD_EL1_EXEC_NEVER : Z := Z.shiftl 1 53.
Definition PD_ACCESS : Z := Z.shiftl 1 10.
Definition PD_RDONLY : Z := Z.shiftl 1 7.
Definition PD_KERNEL_USER : Z := Z.shiftl 1 6.
Definition PD_INVALID (x : Z) : bool := Z.land x 1 =? 0.
Definition PD_BLOCK : Z := 1.
Definition PD_TABLE : Z := 3.
Definition PD_PAGE : Z := 3.

Definition USER_PAGE : Z :=
  Z.lor (Z.lor (Z.lor (Z.shiftl MAIR_IDX_NORMAL_NOCACHE 2) PD_ACCESS) PD_KERNEL_USER) PD_PAGE.
Definition USER_PAGE_RWX : Z := USER_PAGE.
Definition USER_PAGE_RX : Z := Z.lor USER_PAGE PD_RDONLY.
Definition USER_PAGE_RW : Z := Z.lor USER_PAGE PD_EL0_EXEC_NEVER.
Definition USER_PAGE_R : Z := Z.lor (Z.lor USER_PAGE PD_RDONLY) PD_EL0_EXEC_NEVER.

Definition PGD_INDEX (x : Z) : Z := Z.land (Z.shiftr x 39) 0x1ff.
Definition PUD_INDEX (x : Z) : Z := Z.land (Z.shiftr x 30) 0x1ff.
Definition PMD_INDEX (x : Z) : Z := Z.land (Z.shiftr x 21) 0x1ff.
Definition PTE_INDEX (x : Z) : Z := Z.land (Z.shiftr x 12) 0x1ff.
Definition PAGE_OFFSET (x : Z) : Z := Z.land x 0xfff.

Definition PAGE_SHIFT : Z := 12.
Definition PAGE_SIZE : Z := Z.shiftl 1 PAGE_SHIFT.
(** [PAGE_MASK] is the [int] -4096; [&] with a [size_t] converts it. *)
Definition PAGE_MASK : Z := u64 (Z.lnot (PAGE_SIZE - 1)).

Definition PD_PAGE_MASK : Z := 0x00007ffffffff000.
Definition PD_ATTR_MASK : Z := PAGE_SIZE - 1.

(** [Page::is_aligned], [Page::align_down], [Page::align_up]. *)
Definition is_aligned (addr : Z) : bool := addr mod PAGE_SIZE =? 0.
Definition align_down (addr : Z) : Z := Z.land addr PAGE_MASK.
Definition align_up (addr : Z) : Z := Z.land (u64 (addr + (PAGE_SIZE - 1))) PAGE_MASK.

(** A [Page] object: the physical and the virtual address of one frame. *)
Record Page := mkPage { p_addr : Z; v_addr : Z }.
Definition page_begin (p : Page) : Z := p_addr p.
Definition page_end (p : Page) : Z := u64 (page_begin p + PAGE_SIZE).
Definition offset_of (p : Page) (addr : Z) : Z := u64 (addr - page_begin p).
Definition add_offset (p : Page) (offset : Z) : Z := u64 (page_begin p + offset).
Definition set_v_addr (p : Page) (v : Z) : Page := mkPage (p_addr p) v.
Definition set_p_addr (p : Page) (a : Z) : Page := mkPage a (v_addr p).

(** ** Lemmas *)

Lemma PAGE_SIZE_eq : PAGE_SIZE = 4096.
Proof. reflexivity. Qed.

Lemma PAGE_MASK_eq : PAGE_MASK = 2 ^ 64 - 2 ^ 12.
Proof. reflexivity. Qed.

Lemma is_aligned_spec a : is_aligned a = true <-> a mod 4096 = 0.
Proof. unfold is_aligned. rewrite PAGE_SIZE_eq. apply Z.eqb_eq. Qed.

Lemma is_aligned_mul k : is_aligned (4096 * k) = true.
Proof. apply is_aligned_spec. rewrite Z.mul_comm. by apply Z.mod_mul. Qed.

(** Clearing the low [n] bits of a number below [2 ^ m]. *)
Lemma land_high_mask a n m :
  0 <= n <= m -> 0 <= a < 2 ^ m -> Z.land a (2 ^ m - 2 ^ n) = a - a mod 2 ^ n.
Proof.
  intros Hn Ha.
  assert (Hmask : 2 ^ m - 2 ^ n = Z.shiftl (Z.ones (m - n)) n).
  { rewrite Z.shiftl_mul_pow2, Z.ones_equiv by lia.
    replace (2 ^ m) with (2 ^ (m - n) * 2 ^ n) by (rewrite <- Z.pow_add_r by lia; f_equal; lia).
    unfold Z.pred. ring. }
  rewrite Hmask.
  replace (a - a mod 2 ^ n) with (Z.shiftl (Z.shiftr a n) n).
  2:{ rewrite Z.shiftl_mul_pow2, Z.shiftr_div_pow2 by lia.
      pose proof (Z.div_mod a (2 ^ n)). pose proof (pow2_pos n). lia. }
  apply Z.bits_inj_iff'. intros i Hi.
  rewrite Z.land_spec, !Z.shiftl_spec by lia.
  destruct (decide (i < n)).
  { rewrite !(Z.testbit_neg_r _ (i - n)) by lia. by rewrite andb_false_r. }
  rewrite Z.shiftr_spec by lia. replace (i - n + n) with i by lia.
  rewrite Z.testbit_ones_nonneg by lia.
  destruct (Z.ltb_spec (i - n) (m - n)); [by rewrite andb_true_r|].
  rewrite andb_false_r. symmetry.
  destruct (decide (a = 0)) as [->|]; [apply Z.testbit_0_l|].
  apply (Z.bits_above_log2 a i); [lia|].
  apply Z.log2_lt_pow2; [lia|]. apply (Z.lt_le_trans _ (2 ^ m)); [lia|].
  apply Z.pow_le_mono_r; lia.
Qed.

Lemma align_down_spec a : 0 <= a < 2 ^ 64 -> align_down a = a - a mod 4096.
Proof.
  intros Ha. unfold align_down. rewrite PAGE_MASK_eq.
  by rewrite land_high_mask by lia.
Qed.

Lemma align_up_spec a :
  0 <= a <= 2 ^ 64 - 4096 -> align_up a = (a + 4095) - (a + 4095) mod 4096.
Proof.
  intros Ha. unfold align_up. rewrite PAGE_SIZE_eq, PAGE_MASK_eq.
  rewrite u64_id by lia. by rewrite land_high_mask by lia.
Qed.

Lemma align_down_aligned a : 0 <= a < 2 ^ 64 -> is_aligned (align_down a) = true.
Proof.
  intros Ha. apply is_aligned_spec. rewrite align_down_spec by done.
  pose proof (Z.div_mod a 4096). replace (a - a mod 4096) with (a / 4096 * 4096) by lia.
  by apply Z.mod_mul.
Qed.
