(* ===== verification/Mmio.v ===== *)
(** * Device registers: include/driver/IO.h, and small devices

    A device is a parameter: a state, and what reading and writing one of its
    registers does to it.  Reading can change the state: a FIFO gives the next
    word, a status bit clears.  This file holds the accesses and the code that
    configures the UART (driver/MiniUART.cc), the core timer (kernel/Timer.cc)
    and the reset of the board (include/kernel/Power.h). *)

From Stdlib Require Import ZArith Lia.
From stdpp Require Import base gmap list numbers.
From S2P Require Import Prelude Mmu.

Open Scope Z_scope.

(** ** Registers *)

(** Memory-mapped ones, and those of the CPU that [msr] and [mrs] name. *)
Inductive Reg := Mmio (addr : Z) | CNTP_CTL_EL0 | CNTP_TVAL_EL0 | CNTFRQ_EL0.
#[export] Instance reg_eq_dec : EqDecision Reg.
Proof. solve_decision. Defined.

Class Device (D : Type) := { dev_get : Reg -> D -> Z * D; dev_put : Reg -> Z -> D -> D }.

Definition MMIO_BASE : Z := KERNEL_VA_BASE + 0x3f000000.
Definition reg (offset : Z) : Reg := Mmio (MMIO_BASE + offset).

Section io.
Context {D : Type} `{Device D}.

(** [io::get<uint32_t>], [io::put<uint32_t>] *)
Definition io_get (r : Reg) : M D Z := fun d => let (x, d) := dev_get r d in Ret (u32 x, d).
Definition io_put (r : Reg) (x : Z) : M D unit := modify (dev_put r (u32 x)).

(** [io::delay]: [cycles] times [nop]. *)
Fixpoint delay (cycles : nat) : M D unit := match cycles with O => mret tt | S cycles => delay cycles end.
Lemma delay_run n d : delay n d = Ret (tt, d).
Proof. induction n; done. Qed.
End io.

(** ** include/driver/GPIO.h *)

Definition GPFSEL1 : Reg := reg 0x200004.
Definition GPFSEL4 : Reg := reg 0x200010.
Definition GPFSEL5 : Reg := reg 0x200014.
Definition GPPUD : Reg := reg 0x200094.
Definition GPPUDCLK0 : Reg := reg 0x200098.
Definition GPPUDCLK1 : Reg := reg 0x20009c.
Definition PUD_DISABLED : Z := 0.

(** ** driver/MiniUART.cc: the constructor *)

Definition AUX_ENABLES : Reg := reg 0x215004.
Definition AUX_MU_IER_REG : Reg := reg 0x215044.
Definition AUX_MU_IIR_REG : Reg := reg 0x215048.
Definition AUX_MU_LCR_REG : Reg := reg 0x21504c.
Definition AUX_MU_MCR_REG : Reg := reg 0x215050.
Definition AUX_MU_CNTL_REG : Reg := reg 0x215060.
Definition AUX_MU_BAUD_REG : Reg := reg 0x215068.
Definition GPFSEL_ALT5 : Z := 2.

Definition not32 (x : Z) : Z := 2 ^ 32 - 1 - x.

(** The function selector with gpio14 and gpio15 set to ALT5. *)
Definition select_uart (r : Z) : Z :=
  let r := Z.land r (not32 (Z.shiftl 7 12)) in
  let r := Z.lor r (Z.shiftl GPFSEL_ALT5 12) in
  let r := Z.land r (not32 (Z.shiftl 7 15)) in
  Z.lor r (Z.shiftl GPFSEL_ALT5 15).

Section uart.
Context {D : Type} `{Device D}.
Definition new_mini_uart : M D unit :=
  r ← io_get GPFSEL1;
  io_put GPFSEL1 (select_uart r);;
  io_put GPPUD PUD_DISABLED;;
  delay 150;;
  io_put GPPUDCLK0 (Z.lor (Z.shiftl 1 14) (Z.shiftl 1 15));;
  delay 150;;
  io_put GPPUD PUD_DISABLED;;
  io_put GPPUDCLK0 0;;
  io_put AUX_ENABLES 1;;
  io_put AUX_MU_CNTL_REG 0;;
  io_put AUX_MU_IER_REG 3;;
  io_put AUX_MU_LCR_REG 3;;
  io_put AUX_MU_MCR_REG 0;;
  io_put AUX_MU_BAUD_REG 270;;
  io_put AUX_MU_IIR_REG 1;;
  io_put AUX_MU_CNTL_REG 3.
End uart.

(** The two pins get ALT5 and the other pins of the register keep their function. *)
Lemma select_uart_pins r n : 0 <= r < 2 ^ 32 -> 0 <= n < 32 ->
  Z.testbit (select_uart r) n = if (12 <=? n) && (n <? 18) then (n =? 13) || (n =? 16) else Z.testbit r n.
Proof.
  intros Hr Hn. unfold select_uart. rewrite Z.lor_spec, Z.land_spec, Z.lor_spec, Z.land_spec.
  assert (Hbits : forall c : Z -> bool, forallb c (map Z.of_nat (seq 0 32)) = true -> c n = true).
  { intros c Hc. rewrite forallb_forall in Hc. apply Hc, in_map_iff. exists (Z.to_nat n). split; [lia|]. apply in_seq. lia. }
  apply eqb_prop. destruct (Z.testbit r n).
  - apply (Hbits (fun n => eqb ((true && Z.testbit (not32 (Z.shiftl 7 12)) n || Z.testbit (Z.shiftl GPFSEL_ALT5 12) n) && Z.testbit (not32 (Z.shiftl 7 15)) n || Z.testbit (Z.shiftl GPFSEL_ALT5 15) n)
      (if (12 <=? n) && (n <? 18) then (n =? 13) || (n =? 16) else true))). reflexivity.
  - apply (Hbits (fun n => eqb ((false && Z.testbit (not32 (Z.shiftl 7 12)) n || Z.testbit (Z.shiftl GPFSEL_ALT5 12) n) && Z.testbit (not32 (Z.shiftl 7 15)) n || Z.testbit (Z.shiftl GPFSEL_ALT5 15) n)
      (if (12 <=? n) && (n <? 18) then (n =? 13) || (n =? 16) else false))). reflexivity.
Qed.

(** ** kernel/Timer.cc *)

Definition CORE0_TIMER_IRQ_CTRL : Reg := Mmio 0x40000040.
Definition DEFAULT_TIMER_IRQ_INTERVAL : Z := 1.
Record ARMCoreTimer := mkTimer { tm_enabled : bool; tm_interval : Z; tm_jiffies : Z }.
Definition new_arm_core_timer : ARMCoreTimer := mkTimer false DEFAULT_TIMER_IRQ_INTERVAL 0.

Section timer.
Context {D : Type} `{Device D}.
(** The delay is a constant; [second] is not used. *)
Definition arrange_next_timer_irq_after (second : Z) : M D unit :=
  _ ← io_get CNTFRQ_EL0;
  io_put CNTP_TVAL_EL0 0xffff.
Definition timer_enable (t : ARMCoreTimer) : M D ARMCoreTimer :=
  if tm_enabled t then mret t
  else
    io_put CNTP_CTL_EL0 1;;
    io_put CORE0_TIMER_IRQ_CTRL 2;;
    arrange_next_timer_irq_after (tm_interval t);;
    mret (mkTimer true (tm_interval t) (tm_jiffies t)).
Definition timer_disable (t : ARMCoreTimer) : M D ARMCoreTimer :=
  if negb (tm_enabled t) then mret t
  else
    io_put CNTP_CTL_EL0 0;;
    io_put CORE0_TIMER_IRQ_CTRL 0;;
    mret (mkTimer false (tm_interval t) (tm_jiffies t)).
Definition timer_tick (t : ARMCoreTimer) : M D ARMCoreTimer :=
  arrange_next_timer_irq_after (tm_interval t);;
  mret (mkTimer (tm_enabled t) (tm_interval t) (u32 (tm_jiffies t + 1))).
End timer.

(** ** include/kernel/Power.h *)

Definition PM_PASSWORD : Z := 0x5a000000.
Definition PM_RSTC : Reg := Mmio 0x3F10001c.
Definition PM_WDOG : Reg := Mmio 0x3F100024.
Definition board_reset {D} `{Device D} (tick : Z) : M D unit :=
  io_put PM_RSTC (Z.lor PM_PASSWORD 0x20);;
  io_put PM_WDOG (Z.lor PM_PASSWORD tick).
