(* ===== verification/Tiling.v ===== *)
(** * Tilings of a zone by aligned power-of-two blocks

    The mathematics of the buddy system, free of the allocator's data
    structures: a zone of [2 ^ 9] frames is tiled by blocks [(b, k)] of [2 ^ k]
    frames that start at a multiple of [2 ^ k].  A tile is live (handed out),
    free (on a free list) or pending (held by the operation in progress). *)

From Stdlib Require Import ZArith Lia Znumtheory.
From stdpp Require Import base gmap list numbers.
From S2P Require Import Prelude.

Open Scope Z_scope.

(** ** Definitions *)

Definition NR_ORDERS : Z := 10.
Definition NR_FRAMES : Z := 512.

Inductive kind := KLive | KFree | KPend.

Definition in_block (i b k : Z) : Prop := b <= i < b + 2 ^ k.

Definition wf_block (b k : Z) : Prop :=
  0 <= k < NR_ORDERS /\ 0 <= b /\ (2 ^ k | b) /\ b + 2 ^ k <= NR_FRAMES.

(** The block with which [(b, k)] forms a block of order [k + 1]. *)
Definition buddy_of (b k : Z) : Z := Z.lxor b (2 ^ k).

Record tiling (T : kind -> Z -> Z -> Prop) : Prop := {
  tl_wf : forall t b k, T t b k -> wf_block b k;
  tl_disj : forall t b k t' b' k' i, T t b k -> T t' b' k' ->
      in_block i b k -> in_block i b' k' -> t = t' /\ b = b' /\ k = k';
  tl_cover : forall i, 0 <= i < NR_FRAMES -> exists t b k, T t b k /\ in_block i b k
}.

(** No two free blocks are buddies of each other. *)
Definition coalesced (T : kind -> Z -> Z -> Prop) : Prop :=
  forall b k, k < NR_ORDERS - 1 -> T KFree b k -> ~ T KFree (buddy_of b k) k.

(** The tiles given by the live blocks, the free lists and the pending block. *)
Definition tile (live : gmap Z Z) (L : Z -> list Z) (pend : option (Z * Z))
    (t : kind) (b k : Z) : Prop :=
  match t with
  | KLive => live !! b = Some k
  | KFree => b ∈ L k
  | KPend => pend = Some (b, k)
  end.

(** ** Arithmetic of aligned blocks *)

Lemma multiples_lt m x y : 0 < m -> (m | x) -> (m | y) -> x < y -> x + m <= y.
Proof.
  intros Hm [p ->] [q ->] H. assert (p < q) by (eapply Z.mul_lt_mono_pos_r; eauto). nia.
Qed.

(** Two aligned blocks that meet are nested. *)
Lemma block_nested b k c j i :
  0 <= j <= k -> (2 ^ k | b) -> (2 ^ j | c) -> in_block i b k -> in_block i c j ->
  b <= c /\ c + 2 ^ j <= b + 2 ^ k.
Proof.
  intros Hj Hb Hc Hi1 Hi2. unfold in_block in *.
  pose proof (pow2_pos j ltac:(lia)) as Hp.
  assert (Hb' : (2 ^ j | b)) by (by apply (pow2_divide_mono j k)).
  assert (Hbk : (2 ^ j | b + 2 ^ k)).
  { apply Z.divide_add_r; [done|]. apply (pow2_divide_mono j k); [lia|]. exists 1. lia. }
  split.
  - destruct (Z.le_gt_cases b c); [done|].
    pose proof (multiples_lt _ c b Hp Hc Hb'). lia.
  - pose proof (multiples_lt _ c (b + 2 ^ k) Hp Hc Hbk). lia.
Qed.

Lemma lxor_1_cases q : (exists p, q = 2 * p /\ Z.lxor q 1 = q + 1) \/
                       (exists p, q = 2 * p + 1 /\ Z.lxor q 1 = q - 1).
Proof.
  assert (Heven : forall p, Z.lxor (2 * p) 1 = 2 * p + 1).
  { intros p. symmetry. apply Z.add_nocarry_lxor.
    change 1 with (Z.ones 1). rewrite Z.land_ones by lia. change (2 ^ 1) with 2.
    rewrite Z.mul_comm. by apply Z.mod_mul. }
  destruct (Z.Even_or_Odd q) as [[p ->]|[p ->]]; [left|right]; exists p; split; auto.
  rewrite <- Heven, Z.lxor_assoc, Z.lxor_nilpotent, Z.lxor_0_r. rewrite Heven. lia.
Qed.

Lemma buddy_cases b k : 0 <= k -> (2 ^ k | b) ->
  (buddy_of b k = b + 2 ^ k /\ (2 ^ (k + 1) | b)) \/
  (buddy_of b k = b - 2 ^ k /\ (2 ^ (k + 1) | b - 2 ^ k)).
Proof.
  intros Hk [q ->]. unfold buddy_of.
  assert (Hx : Z.lxor (q * 2 ^ k) (2 ^ k) = Z.lxor q 1 * 2 ^ k).
  { rewrite <- (Z.mul_1_l (2 ^ k)) at 2. rewrite <- !Z.shiftl_mul_pow2 by lia.
    by rewrite Z.shiftl_lxor. }
  rewrite Hx, pow2_S by lia.
  destruct (lxor_1_cases q) as [(p & Hq & ->)|(p & Hq & ->)]; [left|right]; split; try lia;
    exists p; subst; lia.
Qed.

Lemma buddy_aligned b k : 0 <= k -> (2 ^ k | b) -> (2 ^ k | buddy_of b k).
Proof.
  intros Hk Hb. destruct (buddy_cases b k Hk Hb) as [[-> _]|[-> _]].
  - apply Z.divide_add_r; [done|by exists 1; lia].
  - apply Z.divide_sub_r; [done|by exists 1; lia].
Qed.

Lemma buddy_involutive b k : buddy_of (buddy_of b k) k = b.
Proof.
  unfold buddy_of. by rewrite Z.lxor_assoc, Z.lxor_nilpotent, Z.lxor_0_r.
Qed.

Lemma buddy_ne b k : 0 <= k -> buddy_of b k <> b.
Proof.
  intros Hk H. unfold buddy_of in H.
  assert (2 ^ k = 0).
  { rewrite <- (Z.lxor_0_l (2 ^ k)), <- (Z.lxor_nilpotent b), Z.lxor_assoc, H. reflexivity. }
  pose proof (pow2_pos k). lia.
Qed.

(** The buddy of the lower half of a block is its upper half. *)
Lemma buddy_lower b k : 0 <= k -> (2 ^ (k + 1) | b) -> buddy_of b k = b + 2 ^ k.
Proof.
  intros Hk Hal. assert (Hd : (2 ^ k | b)) by (apply (pow2_divide_mono k (k + 1)); [lia|done]).
  destruct (buddy_cases b k Hk Hd) as [[-> _]|[_ [r Hr]]]; [done|].
  destruct Hal as [q Hq]. pose proof (pow2_pos k Hk). rewrite pow2_S in * by done.
  assert (Hz : (2 * q - 1 - 2 * r) * 2 ^ k = q * (2 * 2 ^ k) - 2 ^ k - r * (2 * 2 ^ k)) by ring.
  rewrite <- Hq, Hr, Z.sub_diag in Hz. apply Z.mul_eq_0 in Hz. lia.
Qed.

Lemma buddy_upper b k : 0 <= k -> (2 ^ (k + 1) | b) -> buddy_of (b + 2 ^ k) k = b.
Proof. intros Hk Hal. rewrite <- (buddy_lower b k) by done. apply buddy_involutive. Qed.

(** The block of order [k + 1] that a block and its buddy form. *)
Lemma buddy_parent b k : wf_block b k -> k < NR_ORDERS - 1 ->
  let p := Z.min b (buddy_of b k) in
  wf_block p (k + 1) /\ wf_block (buddy_of b k) k /\
  Z.max b (buddy_of b k) = p + 2 ^ k /\
  (forall i, in_block i p (k + 1) <-> in_block i b k \/ in_block i (buddy_of b k) k).
Proof.
  unfold wf_block, NR_ORDERS, NR_FRAMES, in_block. intros (Hk & Hb & Hal & Hend) Hk9. simpl.
  pose proof (pow2_pos k ltac:(lia)) as Hp.
  pose proof (buddy_aligned b k ltac:(lia) Hal) as Hba.
  rewrite pow2_S by lia.
  assert (Hz : (2 ^ (k + 1) | 512)).
  { exists (2 ^ (9 - (k + 1))). rewrite <- Z.pow_add_r by lia.
    replace (9 - (k + 1) + (k + 1)) with 9 by lia. done. }
  assert (Hz0 : (2 ^ (k + 1) | 0)) by apply Z.divide_0_r.
  assert (Hp1 : 0 < 2 ^ (k + 1)) by (apply pow2_pos; lia).
  destruct (buddy_cases b k ltac:(lia) Hal) as [[Hbu Hd]|[Hbu Hd]]; rewrite Hbu in *.
  - pose proof (multiples_lt _ b 512 Hp1 Hd Hz ltac:(lia)) as Hroom. rewrite pow2_S in * by lia.
    rewrite Z.min_l, Z.max_r by lia. split_and!; try lia; try done.
  - assert (0 <= b - 2 ^ k).
    { destruct (Z.le_gt_cases 0 (b - 2 ^ k)); [done|].
      pose proof (multiples_lt _ (b - 2 ^ k) 0 Hp1 Hd Hz0 ltac:(lia)). rewrite pow2_S in * by lia. lia. }
    rewrite Z.min_r, Z.max_l by lia. rewrite pow2_S in * by lia.
    split_and!; try lia; try done.
Qed.

(** ** Tilings *)

Section tilings.
Context (T : kind -> Z -> Z -> Prop) (HT : tiling T).

Lemma in_block_self b k : 0 <= k -> in_block b b k.
Proof. intros. unfold in_block. pose proof (pow2_pos k). lia. Qed.

Lemma tile_start_unique t b k t' k' : T t b k -> T t' b k' -> t = t' /\ k = k'.
Proof.
  intros H1 H2. pose proof (tl_wf T HT _ _ _ H1) as [? _]. pose proof (tl_wf T HT _ _ _ H2) as [? _].
  destruct (tl_disj T HT t b k t' b k' b H1 H2) as (? & _ & ?); [apply in_block_self; lia..|done].
Qed.

(** The tile that holds the first frame of a tile's buddy starts there and is
    no larger than the tile. *)
Lemma buddy_tile t b k : T t b k -> k < NR_ORDERS - 1 ->
  exists t' k', T t' (buddy_of b k) k' /\ k' <= k.
Proof.
  intros Ht Hk. pose proof (tl_wf T HT _ _ _ Ht) as Hwf.
  destruct (buddy_parent b k Hwf Hk) as (Hpar & Hbwf & _ & Hin).
  pose proof Hwf as (Hk0 & _). pose proof Hbwf as (_ & Hb0 & Hba & Hbend).
  pose proof (pow2_pos k ltac:(lia)) as Hp.
  destruct (tl_cover T HT (buddy_of b k)) as (t' & c & j & Hc & Hic); [lia|].
  exists t', j. pose proof (tl_wf T HT _ _ _ Hc) as (Hj & Hc0 & Hcal & _).
  destruct (Z.le_gt_cases j k) as [Hle|Hgt].
  - destruct (block_nested (buddy_of b k) k c j (buddy_of b k)) as [Hge _];
      [lia|done|done|apply in_block_self; lia|done|].
    unfold in_block in Hic. assert (c = buddy_of b k) as -> by lia. done.
  - exfalso. pose proof Hpar as (_ & _ & Hpal & _).
    assert (Hshare : in_block (buddy_of b k) (Z.min b (buddy_of b k)) (k + 1)).
    { apply Hin. right. apply in_block_self. lia. }
    destruct (block_nested c j (Z.min b (buddy_of b k)) (k + 1) (buddy_of b k)) as [Hl Hr];
      [lia|done..|].
    assert (Hbin : in_block b (Z.min b (buddy_of b k)) (k + 1)).
    { apply Hin. left. apply in_block_self. lia. }
    destruct (tl_disj T HT t b k t' c j b Ht Hc) as (_ & _ & ?);
      [apply in_block_self; lia|unfold in_block in *; lia|lia].
Qed.

(** If every frame of an aligned range is free, and free blocks are coalesced,
    some free block has at least the order of the range. *)
Lemma coalesced_complete b k :
  coalesced T -> wf_block b k ->
  (forall t c j i, T t c j -> in_block i c j -> in_block i b k -> t = KFree) ->
  exists c j, T KFree c j /\ k <= j.
Proof.
  intros Hco (Hk & Hb0 & Hal & Hend) Hfree.
  assert (Hmin : forall n : nat, Z.of_nat n <= k ->
    forall t c j i, T t c j -> in_block i c j -> in_block i b k -> Z.of_nat n <= j).
  { induction n as [|n IH]; intros Hn t c j i Ht Hic Hib.
    - pose proof (tl_wf T HT _ _ _ Ht) as [? _]. lia.
    - pose proof (IH ltac:(lia) _ _ _ _ Ht Hic Hib) as Hge.
      destruct (decide (j = Z.of_nat n)) as [Hj|]; [exfalso|lia].
      pose proof (Hfree _ _ _ _ Ht Hic Hib) as ->.
      pose proof (tl_wf T HT _ _ _ Ht) as Hwf. unfold NR_ORDERS in *.
      destruct (buddy_parent c j Hwf ltac:(unfold NR_ORDERS; lia)) as (Hpwf & Hbwf & _ & Hin).
      destruct (buddy_tile _ _ _ Ht ltac:(unfold NR_ORDERS; lia)) as (t' & j' & Ht' & Hj').
      pose proof Hpwf as (_ & _ & Hpal & _). pose proof Hwf as (Hj0 & _).
      destruct (block_nested b k (Z.min c (buddy_of c j)) (j + 1) i) as [Hl Hr];
        [lia|done|done|done|by apply Hin; left|].
      assert (Hbb : in_block (buddy_of c j) b k).
      { assert (in_block (buddy_of c j) (Z.min c (buddy_of c j)) (j + 1)) as Hx
          by (apply Hin; right; apply in_block_self; lia).
        unfold in_block in *. lia. }
      pose proof (tl_wf T HT _ _ _ Ht') as [Hj'0 _].
      assert (Hs : in_block (buddy_of c j) (buddy_of c j) j') by (apply in_block_self; lia).
      pose proof (IH ltac:(lia) _ _ _ _ Ht' Hs Hbb).
      pose proof (Hfree _ _ _ _ Ht' Hs Hbb) as ->.
      assert (j' = j) as -> by lia.
      eapply (Hco c j); [unfold NR_ORDERS; lia|done|done]. }
  pose proof (pow2_pos k ltac:(lia)).
  destruct (tl_cover T HT b) as (t & c & j & Ht & Hic); [lia|].
  assert (Hb : in_block b b k) by (apply in_block_self; lia).
  exists c, j. pose proof (Hfree _ _ _ _ Ht Hic Hb) as ->. split; [done|].
  pose proof (Hmin (Z.to_nat k) ltac:(lia) _ _ _ _ Ht Hic Hb). lia.
Qed.
End tilings.

(** ** Changing a tiling *)

(** One block changes its kind. *)
Lemma tiling_relabel (T T' : kind -> Z -> Z -> Prop) t0 t1 b k :
  tiling T -> T t0 b k ->
  (forall t x j, T' t x j <-> (T t x j /\ x <> b) \/ (t = t1 /\ x = b /\ j = k)) ->
  tiling T'.
Proof.
  intros HT H0 Heq. split.
  - intros t x j [[? _]|(_ & -> & ->)]%Heq; by eapply (tl_wf T HT).
  - intros t x j t' x' j' i Hx Hx' Hi Hi'.
    apply Heq in Hx as [[Hx Hne]|(-> & -> & ->)]; apply Heq in Hx' as [[Hx' Hne']|(-> & -> & ->)];
      [by apply (tl_disj T HT t x j t' x' j' i)| | |done].
    + by destruct (tl_disj T HT t x j t0 b k i) as (_ & ? & _).
    + by destruct (tl_disj T HT t' x' j' t0 b k i) as (_ & ? & _).
  - intros i (t & x & j & Ht & Hi)%(tl_cover T HT).
    destruct (decide (x = b)) as [->|Hne].
    + destruct (tile_start_unique T HT _ _ _ _ _ Ht H0) as [-> ->].
      exists t1, b, k. split; [|done]. apply Heq. by right.
    + exists t, x, j. split; [|done]. apply Heq. by left.
Qed.

(** One block is replaced by its two halves. *)
Lemma tiling_split (T T' : kind -> Z -> Z -> Prop) t0 t1 t2 b k :
  tiling T -> T t0 b (k + 1) -> 0 <= k ->
  (forall t x j, T' t x j <->
     (T t x j /\ x <> b) \/ (t = t1 /\ x = b /\ j = k) \/ (t = t2 /\ x = b + 2 ^ k /\ j = k)) ->
  tiling T'.
Proof.
  intros HT H0 Hk Heq.
  pose proof (tl_wf T HT _ _ _ H0) as (Hk1 & Hb0 & Hal & Hend). rewrite pow2_S in * by lia.
  pose proof (pow2_pos k Hk) as Hp.
  assert (Halk : (2 ^ k | b)).
  { apply (pow2_divide_mono k (k + 1)); [lia|]. by rewrite pow2_S. }
  assert (Hout : forall t x j i, T t x j -> x <> b -> in_block i x j -> ~ in_block i b (k + 1)).
  { intros t x j i Ht Hne Hi Hi'. destruct (tl_disj T HT t x j t0 b (k + 1) i) as (_ & ? & _); auto. }
  unfold in_block in Hout. rewrite pow2_S in Hout by lia.
  split.
  - intros t x j [[Ht _]|[(_ & -> & ->)|(_ & -> & ->)]]%Heq; [by apply (tl_wf T HT t)| |].
    + unfold wf_block. split_and!; [lia..|done|lia].
    + unfold wf_block. split_and!; [lia..| |lia]. apply Z.divide_add_r; [done|by exists 1; lia].
  - intros t x j t' x' j' i Hx Hx' Hi Hi'.
    apply Heq in Hx as [[Hx Hxb]|[(-> & -> & ->)|(-> & -> & ->)]];
      apply Heq in Hx' as [[Hx' Hxb']|[(-> & -> & ->)|(-> & -> & ->)]];
      try (by apply (tl_disj T HT t x j t' x' j' i)); try done;
      exfalso; unfold in_block in *;
      first [ eapply (Hout _ _ _ i); [eassumption|eassumption|lia|lia] | lia ].
  - intros i Hi. destruct (tl_cover T HT i Hi) as (t & x & j & Ht & Hix).
    destruct (decide (x = b)) as [->|Hne].
    + destruct (tile_start_unique T HT _ _ _ _ _ Ht H0) as [-> ->].
      unfold in_block in *. rewrite pow2_S in Hix by lia.
      destruct (decide (i < b + 2 ^ k)).
      * exists t1, b, k. rewrite Heq. split; [by right; left|lia].
      * exists t2, (b + 2 ^ k), k. rewrite Heq. split; [by right; right|lia].
    + exists t, x, j. rewrite Heq. split; [by left|done].
Qed.

(** Two buddies are replaced by the block they form. *)
Lemma tiling_merge (T T' : kind -> Z -> Z -> Prop) t0 t1 t2 b k :
  tiling T -> T t1 b k -> T t2 (b + 2 ^ k) k -> wf_block b (k + 1) ->
  (forall t x j, T' t x j <->
     (T t x j /\ x <> b /\ x <> b + 2 ^ k) \/ (t = t0 /\ x = b /\ j = k + 1)) ->
  tiling T'.
Proof.
  intros HT H1 H2 Hwf Heq.
  pose proof (tl_wf T HT _ _ _ H1) as [Hk _]. pose proof (pow2_pos k ltac:(lia)) as Hp.
  assert (Hout : forall t x j i, T t x j -> x <> b -> x <> b + 2 ^ k -> in_block i x j -> ~ in_block i b (k + 1)).
  { intros t x j i Ht Hne Hne' Hi Hi'. unfold in_block in Hi'. rewrite pow2_S in Hi' by lia.
    destruct (decide (i < b + 2 ^ k)).
    - destruct (tl_disj T HT t x j t1 b k i) as (_ & ? & _); auto. unfold in_block. lia.
    - destruct (tl_disj T HT t x j t2 (b + 2 ^ k) k i) as (_ & ? & _); auto. unfold in_block. lia. }
  split.
  - intros t x j [[Ht _]|(_ & -> & ->)]%Heq; [by apply (tl_wf T HT t)|done].
  - intros t x j t' x' j' i Hx Hx' Hi Hi'.
    apply Heq in Hx as [(Hx & ? & ?)|(-> & -> & ->)];
      apply Heq in Hx' as [(Hx' & ? & ?)|(-> & -> & ->)];
      try (by apply (tl_disj T HT t x j t' x' j' i)); try done;
      exfalso; eapply (Hout _ _ _ i); eassumption.
  - intros i Hi. destruct (tl_cover T HT i Hi) as (t & x & j & Ht & Hix).
    destruct (decide (x = b)) as [->|Hne]; [|destruct (decide (x = b + 2 ^ k)) as [->|Hne']].
    + destruct (tile_start_unique T HT _ _ _ _ _ Ht H1) as [-> ->].
      exists t0, b, (k + 1). rewrite Heq. split; [by right|].
      unfold in_block in *. rewrite pow2_S by lia. lia.
    + destruct (tile_start_unique T HT _ _ _ _ _ Ht H2) as [-> ->].
      exists t0, b, (k + 1). rewrite Heq. split; [by right|].
      unfold in_block in *. rewrite pow2_S by lia. lia.
    + exists t, x, j. rewrite Heq. split; [by left|done].
Qed.
