(* ===== verification/Mutex.v ===== *)
(** * include/lib/Mutex.h, include/kernel/Exception.h: the kernel lock

    On the single core the kernel runs on, [RecursiveMutex] masks interrupts
    and counts its nesting.  The state is the mutex together with what it acts
    on: the flag [exception::_is_activated] and the interrupt mask (DAIF). *)

From Stdlib Require Import ZArith Lia.
From stdpp Require Import base list numbers.
From S2P Require Import Prelude Math.

Open Scope Z_scope.

(** ** The lock and what it acts on *)

Record Cpu := mkCpu { is_activated : bool; irqs_enabled : bool; is_locked : bool; depth : Z }.

(** [RecursiveMutex()] before [exception::activate()]. *)
Definition boot_cpu : Cpu := mkCpu false false false 0.

Definition enable_irqs (c : Cpu) : Cpu := mkCpu (is_activated c) true (is_locked c) (depth c).
Definition disable_irqs (c : Cpu) : Cpu := mkCpu (is_activated c) false (is_locked c) (depth c).
Definition activate (c : Cpu) : Cpu := mkCpu true (irqs_enabled c) (is_locked c) (depth c).
Definition set_lock (l : bool) (d : Z) (c : Cpu) : Cpu := mkCpu (is_activated c) (irqs_enabled c) l d.

Definition lock : M Cpu unit :=
  c ← get;
  if is_activated c then
    modify disable_irqs;;
    d ← lift (int_ck (depth c + 1));
    modify (set_lock true d)
  else mret tt.

(** The [while (1);] of an unbalanced [unlock] is a loop that never ends. *)
Definition unlock : M Cpu unit :=
  c ← get;
  (if is_activated c then
     d ← lift (int_ck (depth c - 1));
     modify (set_lock (is_locked c) d);;
     if d =? 0 then modify (set_lock false d);; modify enable_irqs else mret tt
   else mret tt);;
  c ← get;
  if depth c <? 0 then out_of_fuel else mret tt.

(** ** Components that share the lock *)

(** A state with a [Cpu] in it; the laws of a field and its update. *)
Class HasCpu (S : Type) := { cpu_of : S -> Cpu; with_cpu : Cpu -> S -> S }.
Class HasCpuLaws (S : Type) `{HasCpu S} := {
  cpu_of_with c s : cpu_of (with_cpu c s) = c;
  with_cpu_of s : with_cpu (cpu_of s) s = s;
  with_cpu_with c c' s : with_cpu c (with_cpu c' s) = with_cpu c s
}.

#[export] Instance cpu_has_cpu : HasCpu Cpu := { cpu_of c := c; with_cpu c _ := c }.
#[export] Instance cpu_laws : HasCpuLaws Cpu.
Proof. by split. Qed.

(** A body run under [const LockGuard<RecursiveMutex> lock(Kernel::mutex);]. *)
Definition guarded {S A} `{HasCpu S} (body : M S A) : M S A :=
  zoom cpu_of with_cpu lock;;
  r ← body;
  zoom cpu_of with_cpu unlock;;
  mret r.

(** ** Invariant *)

(** Interrupts are masked exactly while the lock is held. *)
Definition cpu_ok (c : Cpu) : Prop :=
  if is_activated c then
    0 <= depth c < INT_MAX /\ irqs_enabled c = (depth c =? 0) /\ is_locked c = negb (depth c =? 0)
  else depth c = 0.

(** The state inside a critical section entered from [c]. *)
Definition entered (c : Cpu) : Cpu :=
  if is_activated c then mkCpu true false true (depth c + 1) else c.

Lemma lock_spec c : cpu_ok c -> lock c = Ret (tt, entered c).
Proof.
  unfold cpu_ok, lock, entered. destruct c as [[] i l d]; simpl; [|done].
  intros ([Hd Hm] & -> & ->). unfold mbind, M_bind, get. simpl.
  unfold modify. rewrite int_ck_ok; [done|]. unfold INT_MIN, INT_MAX in *. lia.
Qed.

Lemma unlock_spec c : cpu_ok c -> unlock (entered c) = Ret (tt, c).
Proof.
  unfold cpu_ok, unlock, entered. destruct c as [[] i l d]; simpl.
  - intros ([Hd Hm] & -> & ->). unfold mbind, M_bind, get, modify. simpl.
    rewrite int_ck_ok by (unfold INT_MIN, INT_MAX in *; lia). simpl.
    replace (d + 1 - 1) with d by lia. unfold set_lock, enable_irqs. simpl.
    destruct (Z.eqb_spec d 0) as [->|Hne]; simpl; [done|].
    by rewrite (proj2 (Z.ltb_ge d 0) Hd).
  - intros ->. done.
Qed.

Lemma entered_irqs c : cpu_ok c -> is_activated c = true -> irqs_enabled (entered c) = false.
Proof. unfold entered. by intros _ ->. Qed.

(** A critical section whose body leaves the lock as it found it. *)
Lemma guarded_spec {S A} `{HasCpuLaws S} (body : M S A) s s' a :
  cpu_ok (cpu_of s) ->
  body (with_cpu (entered (cpu_of s)) s) = Ret (a, with_cpu (entered (cpu_of s)) s') ->
  guarded body s = Ret (a, with_cpu (cpu_of s) s').
Proof.
  intros Hok Hb. unfold guarded, mbind, M_bind, zoom. rewrite (lock_spec _ Hok), Hb.
  rewrite cpu_of_with, (unlock_spec _ Hok), with_cpu_with. done.
Qed.

(** A body that panics takes the section with it. *)
Lemma guarded_panic {S A} `{HasCpuLaws S} (body : M S A) s :
  cpu_ok (cpu_of s) -> body (with_cpu (entered (cpu_of s)) s) = Panic -> guarded body s = Panic.
Proof.
  intros Hok Hb. unfold guarded, mbind, M_bind, zoom. by rewrite (lock_spec _ Hok), Hb.
Qed.

(** ** Nesting *)

Inductive lock_op := Lock | Unlock.
Definition run_op (o : lock_op) : M Cpu unit := match o with Lock => lock | Unlock => unlock end.
Fixpoint run_ops (w : list lock_op) : M Cpu unit :=
  match w with [] => mret tt | o :: w => run_op o;; run_ops w end.

(** How far a trace goes up, and that it never closes more than it opened. *)
Fixpoint level (w : list lock_op) : Z :=
  match w with [] => 0 | Lock :: w => level w + 1 | Unlock :: w => level w - 1 end.
Fixpoint nested (d : Z) (w : list lock_op) : bool :=
  match w with [] => true | Lock :: w => nested (d + 1) w | Unlock :: w => (0 <? d) && nested (d - 1) w end.

(** The lock held [d] times. *)
Definition held (d : Z) : Cpu := mkCpu true (d =? 0) (negb (d =? 0)) d.

Lemma held_ok d : 0 <= d < INT_MAX -> cpu_ok (held d).
Proof. done. Qed.
Lemma entered_held d : 0 <= d -> entered (held d) = held (d + 1).
Proof. intros. unfold entered, held. simpl. by rewrite (proj2 (Z.eqb_neq (d + 1) 0)) by lia. Qed.

Lemma nested_level w d : 0 <= d -> nested d w = true -> 0 <= d + level w.
Proof.
  revert d. induction w as [|[] w IH]; intros d Hd; cbn [nested level]; [lia|..].
  - intros H. specialize (IH (d + 1) ltac:(lia) H). lia.
  - intros [H1 H2]%andb_true_iff. specialize (IH (d - 1) ltac:(lia) H2). lia.
Qed.

Lemma unlock_unheld : unlock (held 0) = OutOfFuel.
Proof. done. Qed.

Lemma run_ops_spec w d :
  0 <= d -> d + Z.of_nat (length w) < INT_MAX ->
  run_ops w (held d) = if nested d w then Ret (tt, held (d + level w)) else OutOfFuel.
Proof.
  revert d. induction w as [|[] w IH]; intros d Hd Hlen; cbn [run_ops run_op level nested length] in *.
  - by rewrite Z.add_0_r.
  - unfold mbind, M_bind. rewrite lock_spec, entered_held by (try apply held_ok; lia). rewrite IH by lia.
    by replace (d + 1 + level w) with (d + (level w + 1)) by lia.
  - unfold mbind, M_bind. destruct (Z.ltb_spec 0 d) as [Hp|Hn]; cbn [andb].
    + replace (held d) with (entered (held (d - 1))) by (rewrite entered_held by lia; f_equal; lia).
      rewrite unlock_spec by (apply held_ok; lia). rewrite IH by lia.
      by replace (d - 1 + level w) with (d + (level w - 1)) by lia.
    + assert (d = 0) as -> by lia. by rewrite unlock_unheld.
Qed.

(** C36. After any sequence of [lock] and [unlock] calls on a free mutex,
    interrupts are enabled exactly if as many calls have unlocked as locked,
    so they stay masked through a whole nest of critical sections; an [unlock]
    too many, and only that, hangs the kernel. *)
Theorem mutex_masks_irqs w :
  1 + Z.of_nat (length w) < INT_MAX ->
  (nested 0 w = true ->
   exists c, run_ops w (held 0) = Ret (tt, c) /\ depth c = level w /\ 0 <= level w /\
     (irqs_enabled c = true <-> level w = 0)) /\
  (nested 0 w = false -> run_ops w (held 0) = OutOfFuel).
Proof.
  intros Hlen. pose proof (run_ops_spec w 0 ltac:(lia) ltac:(lia)) as Hr.
  split; intros Hn; rewrite Hn in Hr; [|done].
  exists (held (level w)). split_and!; [done|done|by apply (nested_level w 0)|apply Z.eqb_eq].
Qed.

(** A critical section entered with interrupts masked (as in an exception
    handler) and the lock free returns with interrupts enabled. *)
Lemma guard_unmasks :
  guarded (mret tt) (mkCpu true false false 0) = Ret (tt, mkCpu true true false 0).
Proof. done. Qed.

(** ** Witnesses *)

Lemma mutex_masks_irqs_witness :
  exists c, run_ops [Lock; Lock; Unlock] (held 0) = Ret (tt, c) /\ irqs_enabled c = false.
Proof.
  destruct (mutex_masks_irqs [Lock; Lock; Unlock]) as [H _]; [simpl; unfold INT_MAX; lia|].
  destruct (H eq_refl) as (c & Hr & _ & _ & Hi). exists c. split; [exact Hr|].
  destruct (irqs_enabled c); [|reflexivity]. destruct Hi as [Hi _]. discriminate (Hi eq_refl).
Defined.
