(* ===== verification/Buddy.v ===== *)
(** * mm/BuddyAllocator.cc, include/mm/BuddyAllocator.h: the page frame allocator

    The state is the C++ object: the frame array, the array of free list heads
    and the pool of block headers.  A [BlockHeader *] always points into
    [_headers], so it is the index of the header it points to and [nullptr] is
    [None].  [printk] output is not part of the state. *)

From Stdlib Require Import ZArith Lia.
From stdpp Require Import base list numbers.
From S2P Require Import Prelude Math Mmu.

Open Scope Z_scope.

(** ** Data *)

Definition MAX_ORDER : Z := 10.
Definition MAX_ORDER_NR_PAGES : Z := Z.shiftl 1 (MAX_ORDER - 1).

(** [static_cast<int8_t>(-1)] and [static_cast<int8_t>(-2)], with [int8_t] the
    unsigned [char] of the target. *)
Definition ALLOCATED : Z := u8 (-1).
Definition DONT_ALLOCATE : Z := u8 (-2).

Record BlockHeader := mkHeader { next : option Z; order : Z; index : Z }.

Record BuddyAllocator := mkBuddy {
  zone_begin : Z;
  frame_array : list Z;
  free_lists : list (option Z);
  headers : list BlockHeader
}.

Definition set_frame_array (f : list Z) (s : BuddyAllocator) : BuddyAllocator :=
  mkBuddy (zone_begin s) f (free_lists s) (headers s).
Definition set_free_lists (f : list (option Z)) (s : BuddyAllocator) : BuddyAllocator :=
  mkBuddy (zone_begin s) (frame_array s) f (headers s).
Definition set_headers (h : list BlockHeader) (s : BuddyAllocator) : BuddyAllocator :=
  mkBuddy (zone_begin s) (frame_array s) (free_lists s) h.

Definition with_next (n : option Z) (h : BlockHeader) : BlockHeader :=
  mkHeader n (order h) (index h).
Definition with_order (o : Z) (h : BlockHeader) : BlockHeader :=
  mkHeader (next h) o (index h).
Definition with_index (i : Z) (h : BlockHeader) : BlockHeader :=
  mkHeader (next h) (order h) i.

(** ** Memory accesses of the allocator *)

(** [*block], [block->f = v], [_free_lists[i]], [_free_lists[i] = p]. *)
Definition read_header (block : Z) : M BuddyAllocator BlockHeader :=
  s ← get; deref (arr_get (headers s) block).

Definition write_header (block : Z) (f : BlockHeader -> BlockHeader) : M BuddyAllocator unit :=
  h ← read_header block;
  s ← get;
  hs ← deref (arr_set (headers s) block (f h));
  put (set_headers hs s).

Definition read_free_list (i : Z) : M BuddyAllocator (option Z) :=
  s ← get; deref (arr_get (free_lists s) i).

Definition write_free_list (i : Z) (p : option Z) : M BuddyAllocator unit :=
  s ← get;
  fl ← deref (arr_set (free_lists s) i p);
  put (set_free_lists fl s).

(** ** Operations *)

Definition size_to_order (size : Z) : outcome Z := log2 (s32 (size / PAGE_SIZE)).

Definition order_to_size (order : Z) : outcome Z :=
  p ← pow 2 order; int_ck (p * PAGE_SIZE).

Definition normalize_size (size : Z) : outcome Z := round_up_to_pow_of_2 size.

Definition get_zone_end (s : BuddyAllocator) : outcome Z :=
  sz ← order_to_size (MAX_ORDER - 1); Ret (u64 (zone_begin s + sz)).

Definition is_block_allocated (block : Z) : M BuddyAllocator bool :=
  h ← read_header block;
  s ← get;
  x ← deref (arr_get (frame_array s) (index h));
  mret (x =? ALLOCATED).

Definition get_buddy (block : Z) : M BuddyAllocator Z :=
  h ← read_header block;
  mret (Z.lxor (index h) (Z.shiftl 1 (order h))).

Definition get_page_frame (index : Z) : M BuddyAllocator Z :=
  s ← get; mret (u64 (zone_begin s + index * PAGE_SIZE)).

Definition get_block_header (p : Z) : M BuddyAllocator Z :=
  if negb (is_aligned p) then panic
  else
    s ← get;
    let idx := s32 (u64 (p - zone_begin s) / PAGE_SIZE) in
    if (idx <? 0) || (MAX_ORDER_NR_PAGES <=? idx) then panic else mret idx.

Definition mark_block_as_allocated (block : Z) : M BuddyAllocator unit :=
  h ← read_header block;
  len ← lift (pow 2 (order h));
  s ← get;
  fa ← deref (arr_fill (frame_array s) (index h) ALLOCATED (Z.to_nat len));
  put (set_frame_array fa s).

Definition mark_block_as_allocatable (block : Z) : M BuddyAllocator unit :=
  h ← read_header block;
  len ← lift (pow 2 (order h));
  s ← get;
  fa ← deref (arr_set (frame_array s) (index h) (u8 (order h)));
  fa ← deref (arr_fill fa (index h + 1) DONT_ALLOCATE (Z.to_nat (len - 1)));
  put (set_frame_array fa s).

Definition free_list_del_head (block : option Z) : M BuddyAllocator unit :=
  match block with
  | None => panic
  | Some block =>
      h ← read_header block;
      if (order h <? 0) || (MAX_ORDER <=? order h) then panic
      else
        head ← read_free_list (order h);
        match head with
        | None => mret tt
        | Some x =>
            hx ← read_header x;
            write_free_list (order h) (next hx);;
            write_header block (with_next None)
        end
  end.

Definition free_list_add_head (block : option Z) : M BuddyAllocator unit :=
  match block with
  | None => panic
  | Some block =>
      h ← read_header block;
      if (order h <? 0) || (MAX_ORDER <=? order h) then panic
      else
        head ← read_free_list (order h);
        if bool_decide (head = Some block) then mret tt
        else
          match head with
          | None =>
              write_free_list (order h) (Some block);;
              write_header block (with_next None)
          | Some x =>
              write_header block (with_next (Some x));;
              write_free_list (order h) (Some block)
          end
  end.

(** The [while (ptr)] loop of [free_list_del_entry]. *)
Fixpoint del_entry_loop (fuel : nat) (block : Z) (prev ptr : option Z) : M BuddyAllocator unit :=
  match fuel with
  | O => out_of_fuel
  | S fuel =>
      match ptr with
      | None => mret tt
      | Some ptr =>
          if ptr =? block then
            hp ← read_header ptr;
            match prev with
            | None => fault
            | Some prev =>
                write_header prev (with_next (next hp));;
                write_header ptr (with_next None)
            end
          else
            hp ← read_header ptr;
            del_entry_loop fuel block (Some ptr) (next hp)
      end
  end.

Definition free_list_del_entry (block : option Z) : M BuddyAllocator unit :=
  match block with
  | None => panic
  | Some block =>
      h ← read_header block;
      head ← read_free_list (order h);
      if bool_decide (head = Some block) then free_list_del_head (Some block)
      else
        s ← get;
        del_entry_loop (S (length (headers s))) block None head
  end.

(** The [while] loop of [split_block]. *)
Fixpoint split_loop (fuel : nat) (block target_order : Z) : M BuddyAllocator unit :=
  match fuel with
  | O => out_of_fuel
  | S fuel =>
      h ← read_header block;
      if (0 <? order h) && (target_order <? order h) then
        write_header block (with_order (order h - 1));;
        buddy ← get_buddy block;
        write_header buddy (with_order (order h - 1));;
        mark_block_as_allocatable buddy;;
        free_list_add_head (Some buddy);;
        split_loop fuel block target_order
      else mret tt
  end.

Definition split_block (block : option Z) (target_order : Z) : M BuddyAllocator Z :=
  match block with
  | None => panic
  | Some block =>
      h ← read_header block;
      if (order h <? 0) || (MAX_ORDER <=? order h) then panic
      else
        split_loop (S (Z.to_nat MAX_ORDER)) block target_order;;
        mret block
  end.

(** [for (; order < MAX_ORDER; order++) if (_free_lists[order]) ...] *)
Fixpoint search_larger (fuel : nat) (order : Z) : M BuddyAllocator (option Z) :=
  match fuel with
  | O => out_of_fuel
  | S fuel =>
      if order <? MAX_ORDER then
        head ← read_free_list order;
        match head with
        | Some v => mret (Some v)
        | None => search_larger fuel (order + 1)
        end
      else mret None
  end.

(** The code after the label [hit]. *)
Definition hit (victim : Z) : M BuddyAllocator Z :=
  mark_block_as_allocated victim;;
  h ← read_header victim;
  get_page_frame (index h).

(** Returns the address of the block, 0 for [nullptr]. *)
Definition allocate (requested_size : Z) : M BuddyAllocator Z :=
  requested_size ← lift (normalize_size requested_size);
  order ← lift (size_to_order requested_size);
  if requested_size =? 0 then mret 0
  else if MAX_ORDER <=? order then mret 0
  else
    head ← read_free_list order;
    match head with
    | Some victim =>
        free_list_del_head (Some victim);;
        hit victim
    | None =>
        victim ← search_larger (S (Z.to_nat MAX_ORDER)) order;
        match victim with
        | None => mret 0
        | Some victim =>
            free_list_del_entry (Some victim);;
            target ← lift (size_to_order requested_size);
            victim ← split_block (Some victim) target;
            hit victim
        end
    end.

Definition allocate_one_page_frame : M BuddyAllocator Z := allocate PAGE_SIZE.

(** The [while (block->order < MAX_ORDER - 1)] loop of [deallocate]. *)
Fixpoint merge_loop (fuel : nat) (block : Z) : M BuddyAllocator Z :=
  match fuel with
  | O => out_of_fuel
  | S fuel =>
      h ← read_header block;
      if order h <? MAX_ORDER - 1 then
        buddy ← get_buddy block;
        alloc ← is_block_allocated buddy;
        hb ← read_header buddy;
        if alloc || negb (order h =? order hb) then mret block
        else
          free_list_del_entry (Some buddy);;
          let block := if buddy <? block then buddy else block in
          hl ← read_header block;
          write_header block (with_order (order hl + 1));;
          merge_loop fuel block
      else mret block
  end.

Definition deallocate (p : Z) : M BuddyAllocator unit :=
  if p =? 0 then mret tt
  else
    block ← get_block_header p;
    block ← merge_loop (S (Z.to_nat MAX_ORDER)) block;
    free_list_add_head (Some block);;
    mark_block_as_allocatable block.

(** ** Construction *)

(** [for (i = 1; i < MAX_ORDER_NR_PAGES; i++)] of the constructor. *)
Fixpoint init_loop (n : nat) (i : Z) : M BuddyAllocator unit :=
  match n with
  | O => mret tt
  | S n =>
      s ← get;
      fa ← deref (arr_set (frame_array s) i DONT_ALLOCATE);
      put (set_frame_array fa s);;
      write_header i (with_index i);;
      init_loop n (i + 1)
  end.

(** The members value-initialised by the constructor's initialiser list. *)
Definition blank_buddy (zone_begin : Z) : BuddyAllocator :=
  mkBuddy zone_begin (replicate (Z.to_nat MAX_ORDER_NR_PAGES) 0)
    (replicate (Z.to_nat MAX_ORDER) None)
    (replicate (Z.to_nat MAX_ORDER_NR_PAGES) (mkHeader None 0 0)).

Definition construct : M BuddyAllocator unit :=
  s ← get;
  zend ← lift (get_zone_end s);
  order ← lift (size_to_order (u64 (zend - zone_begin s)));
  fa ← deref (arr_set (frame_array s) 0 (u8 order));
  put (set_frame_array fa s);;
  write_header 0 (with_index 0);;
  init_loop (Z.to_nat (MAX_ORDER_NR_PAGES - 1)) 1;;
  write_free_list order (Some 0);;
  s ← get;
  f0 ← deref (arr_get (frame_array s) 0);
  write_header 0 (with_order f0);;
  write_header 0 (with_next None).

Definition new_buddy (zone_begin : Z) : outcome BuddyAllocator :=
  r ← construct (blank_buddy zone_begin); Ret (snd r).
