(* ===== verification/BuddyProof.v ===== *)
(** * Correctness of the page frame allocator

    [buddy_inv] relates the C++ state to the live blocks, the free lists as
    mathematical lists and the block an operation holds.  Low-level lemmas
    cover the list and frame array operations, and the theorems on [allocate]
    and [deallocate] follow from them and from the facts on tilings. *)

From Stdlib Require Import ZArith Lia Znumtheory.
From stdpp Require Import base gmap list numbers.
From S2P Require Import Prelude Math Mmu Tiling Buddy.

Open Scope Z_scope.

(** ** The free lists as lists *)

(** Following [next] from [p] visits exactly the headers of [l]. *)
Fixpoint lseg (hs : list BlockHeader) (p : option Z) (l : list Z) : Prop :=
  match l with
  | [] => p = None
  | x :: l => p = Some x /\ exists h, arr_get hs x = Some h /\ lseg hs (next h) l
  end.

Record lists_ok (s : BuddyAllocator) (L : Z -> list Z) : Prop := {
  lo_len : length (free_lists s) = 10%nat;
  lo_seg : forall k, 0 <= k < NR_ORDERS ->
    exists p, arr_get (free_lists s) k = Some p /\ lseg (headers s) p (L k);
  lo_nodup : forall k, NoDup (L k);
  lo_order : forall k b, b ∈ L k -> exists h, arr_get (headers s) b = Some h /\ order h = k;
  lo_range : forall k b, b ∈ L k -> 0 <= k < NR_ORDERS
}.

Record headers_ok (s : BuddyAllocator) : Prop := {
  ho_len : length (headers s) = 512%nat;
  ho_index : forall i h, arr_get (headers s) i = Some h -> index h = i
}.

(** The parts of the state that the list operations leave alone. *)
Record same_rest (s s' : BuddyAllocator) : Prop := {
  sr_frames : frame_array s' = frame_array s;
  sr_zone : zone_begin s' = zone_begin s;
  sr_order : forall i, order <$> arr_get (headers s') i = order <$> arr_get (headers s) i
}.

(** ** The invariant *)

Record buddy_inv (s : BuddyAllocator) (live : gmap Z Z) (L : Z -> list Z)
    (pend : option (Z * Z)) : Prop := {
  bi_lists : lists_ok s L;
  bi_headers : headers_ok s;
  bi_frames : length (frame_array s) = 512%nat;
  bi_zone : 0 < zone_begin s /\ zone_begin s mod 4096 = 0 /\ zone_begin s + 2 ^ 21 <= 2 ^ 64;
  bi_tiling : tiling (tile live L pend);
  bi_coalesced : coalesced (tile live L pend);
  bi_order : forall t b k, tile live L pend t b k ->
    exists h, arr_get (headers s) b = Some h /\ order h = k;
  bi_free_frame : forall b k i, b ∈ L k -> in_block i b k ->
    arr_get (frame_array s) i = Some (if decide (i = b) then k else DONT_ALLOCATE);
  bi_live_frame : forall b k i, live !! b = Some k -> in_block i b k ->
    arr_get (frame_array s) i = Some ALLOCATED
}.

(** Abstraction: the live blocks, by first frame and order. *)
Definition buddy_rep (s : BuddyAllocator) (live : gmap Z Z) : Prop :=
  exists L, buddy_inv s live L None.

(** ** Single accesses *)

Lemma read_header_run s b h :
  arr_get (headers s) b = Some h -> read_header b s = Ret (h, s).
Proof. intros H. unfold read_header. munfold. by rewrite H. Qed.

Lemma read_free_list_run s k p :
  arr_get (free_lists s) k = Some p -> read_free_list k s = Ret (p, s).
Proof. intros H. unfold read_free_list. munfold. by rewrite H. Qed.

Lemma write_header_run s b h f :
  arr_get (headers s) b = Some h ->
  exists hs, arr_set (headers s) b (f h) = Some hs /\
             write_header b f s = Ret (tt, set_headers hs s).
Proof.
  intros H. pose proof (arr_get_Some_range _ _ _ H) as Hr.
  exists (<[Z.to_nat b := f h]> (headers s)). split; [by apply arr_set_is_Some|].
  unfold write_header. mstep (read_header_run _ _ _ H). munfold.
  by rewrite arr_set_is_Some.
Qed.

Lemma write_free_list_run s k p :
  0 <= k < Z.of_nat (length (free_lists s)) ->
  exists fl, arr_set (free_lists s) k p = Some fl /\
             write_free_list k p s = Ret (tt, set_free_lists fl s).
Proof.
  intros H. exists (<[Z.to_nat k := p]> (free_lists s)). split; [by apply arr_set_is_Some|].
  unfold write_free_list. munfold. by rewrite arr_set_is_Some.
Qed.

Lemma lseg_ext hs hs' p l :
  (forall x, x ∈ l -> next <$> arr_get hs' x = next <$> arr_get hs x) ->
  lseg hs p l -> lseg hs' p l.
Proof.
  revert p. induction l as [|x l IH]; intros p Hx; simpl; [done|].
  intros [-> (h & Hh & Hl)]. split; [done|].
  pose proof (Hx x ltac:(left)) as Hn. rewrite Hh in Hn. simpl in Hn.
  destruct (arr_get hs' x) as [h'|] eqn:Hh'; [|done]. simpl in Hn. injection Hn as Hn.
  exists h'. split; [done|]. rewrite Hn. apply IH; [|done]. intros y Hy. apply Hx. by right.
Qed.

Lemma headers_ok_write s b h f hs :
  headers_ok s -> arr_get (headers s) b = Some h ->
  arr_set (headers s) b (f h) = Some hs -> index (f h) = index h -> headers_ok (set_headers hs s).
Proof.
  intros [Hlen Hidx] Hh Hs Hi. split; simpl.
  - by rewrite (arr_set_length _ _ _ _ Hs).
  - intros i h' Hg. rewrite (arr_get_set _ _ i _ _ Hs) in Hg. case_decide; [|by apply Hidx].
    injection Hg as <-. subst. rewrite Hi. by apply Hidx.
Qed.

Lemma headers_ok_ext s s' : headers s' = headers s -> headers_ok s -> headers_ok s'.
Proof. intros He [? ?]. split; by rewrite He. Qed.

Lemma same_rest_trans s1 s2 s3 : same_rest s1 s2 -> same_rest s2 s3 -> same_rest s1 s3.
Proof. intros [? ? H1] [? ? H2]. split; [congruence..|]. intros i. by rewrite H2, H1. Qed.

Lemma same_rest_order s s' b h :
  same_rest s s' -> arr_get (headers s) b = Some h ->
  exists h', arr_get (headers s') b = Some h' /\ order h' = order h.
Proof.
  intros [_ _ Ho] Hh. specialize (Ho b). rewrite Hh in Ho. simpl in Ho.
  destruct (arr_get (headers s') b) as [h'|]; [|done]. injection Ho as Ho. eauto.
Qed.

(** Changing [next] of headers outside every other list. *)
Lemma same_rest_write_next s b h n hs :
  arr_get (headers s) b = Some h -> arr_set (headers s) b (with_next n h) = Some hs ->
  same_rest s (set_headers hs s).
Proof.
  intros Hh Hs. split; [done..|]. intros i. simpl.
  rewrite (arr_get_set _ _ i _ _ Hs). case_decide; [|done]. subst. by rewrite Hh.
Qed.

Lemma lseg_write_notin hs b h' hs' p l :
  arr_set hs b h' = Some hs' -> b ∉ l -> lseg hs p l -> lseg hs' p l.
Proof.
  intros Hs Hb. apply lseg_ext. intros x Hx.
  rewrite (arr_get_set_ne _ _ x _ _ Hs); [done|]. intros ->. done.
Qed.

(** ** The free list operations *)

Lemma del_head_spec s L k v l :
  lists_ok s L -> headers_ok s -> L k = v :: l -> 0 <= k < NR_ORDERS ->
  exists s', free_list_del_head (Some v) s = Ret (tt, s') /\
    lists_ok s' (upd L k l) /\ headers_ok s' /\ same_rest s s'.
Proof.
  intros HL HH HLk Hk. unfold NR_ORDERS in *.
  destruct (lo_seg s L HL k Hk) as (p & Hp & Hseg). rewrite HLk in Hseg.
  destruct Hseg as [-> (h & Hh & Hl)].
  destruct (lo_order s L HL k v) as (h0 & Hh0 & Ho); [rewrite HLk; left|].
  rewrite Hh in Hh0. injection Hh0 as <-.
  pose proof (lo_nodup s L HL k) as Hnd. rewrite HLk in Hnd. apply list.NoDup_cons in Hnd as [Hvl Hndl].
  destruct (write_free_list_run s k (next h)) as (fl & Hfl & Hwfl); [rewrite (lo_len s L HL); lia|].
  destruct (write_header_run (set_free_lists fl s) v h (with_next None) Hh) as (hs & Hhs & Hwh).
  exists (set_headers hs (set_free_lists fl s)).
  split.
  { unfold free_list_del_head. mstep (read_header_run _ _ _ Hh). rewrite Ho.
    destruct (Z.ltb_spec k 0), (Z.leb_spec MAX_ORDER k); try (unfold MAX_ORDER in *; lia). simpl.
    mstep (read_free_list_run _ _ _ Hp). mstep (read_header_run _ _ _ Hh). mstep Hwfl. exact Hwh. }
  assert (Hsr : same_rest s (set_headers hs (set_free_lists fl s))).
  { destruct (same_rest_write_next _ _ _ _ _ Hh Hhs) as [? ? ?]. by split. }
  split_and!; [|eapply (headers_ok_write (set_free_lists fl s)); [by apply (headers_ok_ext s)|exact Hh|exact Hhs|done]|done].
  split; simpl.
  - rewrite (arr_set_length _ _ _ _ Hfl). apply (lo_len s L HL).
  - intros j Hj. rewrite (arr_get_set _ _ j _ _ Hfl). case_decide as Hkj.
    + subst j. rewrite upd_eq. exists (next h). split; [done|]. by eapply lseg_write_notin.
    + rewrite upd_ne by done. destruct (lo_seg s L HL j Hj) as (p' & Hp' & Hseg').
      exists p'. split; [done|]. eapply lseg_write_notin; [done| |done].
      intros Hin. destruct (lo_order s L HL j v Hin) as (h' & Hh' & Ho').
      rewrite Hh in Hh'. injection Hh' as <-. lia.
  - intros j. unfold upd. case_decide; [done|apply (lo_nodup s L HL)].
  - intros j b Hb. assert (Hb' : b ∈ L j).
    { revert Hb. unfold upd. case_decide; [|done]. subst. rewrite HLk. by right. }
    destruct (lo_order s L HL j b Hb') as (h' & Hh' & <-).
    by apply (same_rest_order s _ b h' Hsr).
  - intros j b Hb. revert Hb. unfold upd. case_decide; [by subst|apply (lo_range s L HL)].
Qed.

Lemma filter_ne_notin (v : Z) (l : list Z) : v ∉ l -> filter (fun x => x <> v) l = l.
Proof.
  induction l as [|x l IH]; [done|]. intros [Hne Hin]%not_elem_of_cons.
  rewrite filter_cons_True by congruence. by rewrite IH.
Qed.

(** The walk of [free_list_del_entry] from a node [pv] towards [v]. *)
Lemma del_entry_loop_spec fuel s v pv hpv l :
  arr_get (headers s) pv = Some hpv -> lseg (headers s) (next hpv) l ->
  NoDup (pv :: l) -> v ∈ l -> (length l < fuel)%nat ->
  exists hs, del_entry_loop fuel v (Some pv) (next hpv) s = Ret (tt, set_headers hs s) /\
    length hs = length (headers s) /\
    lseg hs (Some pv) (pv :: filter (fun x => x <> v) l) /\
    (forall i, i ∉ pv :: l -> arr_get hs i = arr_get (headers s) i) /\
    (forall i, order <$> arr_get hs i = order <$> arr_get (headers s) i) /\
    (forall i, index <$> arr_get hs i = index <$> arr_get (headers s) i).
Proof.
  revert pv hpv fuel. induction l as [|x l IH]; intros pv hpv fuel Hpv Hseg Hnd Hv Hf; [by apply elem_of_nil in Hv|].
  destruct fuel as [|fuel]; [simpl in Hf; lia|].
  destruct Hseg as [Hn (hx & Hx & Hl)]. rewrite Hn. cbn [del_entry_loop].
  apply list.NoDup_cons in Hnd as [Hpl Hnd]. pose proof Hnd as [Hxl Hndl]%list.NoDup_cons.
  assert (Hpx : pv <> x) by (intros ->; apply Hpl; left).
  assert (Hpl' : pv ∉ l) by (intros ?; apply Hpl; by right).
  destruct (Z.eqb_spec x v) as [->|Hxv].
  - destruct (write_header_run s pv hpv (with_next (next hx)) Hpv) as (hs1 & Hs1 & Hw1).
    assert (Hx1 : arr_get (headers (set_headers hs1 s)) v = Some hx).
    { simpl. by rewrite (arr_get_set_ne _ _ v _ _ Hs1). }
    destruct (write_header_run _ v hx (with_next None) Hx1) as (hs2 & Hs2 & Hw2).
    exists hs2. split; [by mstep (read_header_run _ _ _ Hx); mstep Hw1|]. simpl in Hs2.
    assert (Hg : forall i, arr_get hs2 i = if decide (v = i) then Some (with_next None hx)
                 else if decide (pv = i) then Some (with_next (next hx) hpv) else arr_get (headers s) i).
    { intros i. by rewrite (arr_get_set _ _ i _ _ Hs2), (arr_get_set _ _ i _ _ Hs1). }
    split_and!.
    + by rewrite (arr_set_length _ _ _ _ Hs2), (arr_set_length _ _ _ _ Hs1).
    + split; [done|]. exists (with_next (next hx) hpv). rewrite Hg.
      rewrite decide_False, decide_True by done. split; [done|]. simpl.
      rewrite filter_cons_False by naive_solver. rewrite filter_ne_notin by done.
      eapply lseg_write_notin; [exact Hs2|done|]. by eapply lseg_write_notin.
    + intros i Hi. rewrite Hg. apply not_elem_of_cons in Hi as [? Hi].
      apply not_elem_of_cons in Hi as [? ?]. by rewrite !decide_False.
    + intros i. rewrite Hg. repeat case_decide; subst; by rewrite ?Hx, ?Hpv.
    + intros i. rewrite Hg. repeat case_decide; subst; by rewrite ?Hx, ?Hpv.
  - apply elem_of_cons in Hv as [->|Hv]; [done|].
    destruct (IH x hx fuel Hx Hl Hnd Hv ltac:(simpl in Hf; lia)) as (hs & Hrun & Hlen & Hseg' & Hout & Ho & Hi).
    exists hs. split; [by mstep (read_header_run _ _ _ Hx)|]. split_and!; [done| |..].
    + split; [done|]. exists hpv. rewrite Hout by (apply not_elem_of_cons; done). split; [done|].
      rewrite Hn, filter_cons_True by done. done.
    + intros i Hi'. apply Hout. apply not_elem_of_cons in Hi' as [_ ?]. done.
    + done.
    + done.
Qed.

Lemma del_entry_spec s L k v :
  lists_ok s L -> headers_ok s -> v ∈ L k -> 0 <= k < NR_ORDERS ->
  exists s' l', free_list_del_entry (Some v) s = Ret (tt, s') /\
    (forall x, x ∈ l' <-> x ∈ L k /\ x <> v) /\
    lists_ok s' (upd L k l') /\ headers_ok s' /\ same_rest s s'.
Proof.
  intros HL HH Hv Hk. pose proof Hk as Hk'. unfold NR_ORDERS in Hk'.
  destruct (lo_seg s L HL k Hk) as (p & Hp & Hseg).
  destruct (lo_order s L HL k v Hv) as (h & Hh & Ho).
  pose proof (lo_nodup s L HL k) as Hnd.
  unfold free_list_del_entry.
  destruct (L k) as [|x l] eqn:HLk; [by apply elem_of_nil in Hv|].
  destruct Hseg as [-> (hx & Hx & Hl)].
  destruct (decide (x = v)) as [->|Hxv].
  - destruct (del_head_spec s L k v l HL HH HLk Hk) as (s' & Hrun & HL' & HH' & Hsr).
    apply list.NoDup_cons in Hnd as [Hvl _].
    exists s', l. split_and!; [|set_solver|done..].
    mstep (read_header_run _ _ _ Hh). rewrite Ho. mstep (read_free_list_run _ _ _ Hp).
    by rewrite bool_decide_true.
  - apply elem_of_cons in Hv as [?|Hv]; [done|].
    destruct (del_entry_loop_spec (length (headers s)) s v x hx l Hx Hl Hnd Hv)
      as (hs & Hrun & Hlen & Hseg & Hout & Hord & Hidx).
    { rewrite (ho_len s HH). pose proof Hnd as Hnd'. apply list.NoDup_cons in Hnd' as [_ Hndl].
      assert (Hincl : (length (x :: l) <= 512)%nat); [|simpl in Hincl; lia].
      assert (Hsub : forall y, y ∈ x :: l -> y ∈ seqZ 0 512).
      { intros y Hy. destruct (lo_order s L HL k y) as (hy & Hhy & _); [by rewrite HLk|].
        apply arr_get_Some_range in Hhy. rewrite (ho_len s HH) in Hhy. apply elem_of_seqZ. lia. }
      etransitivity; [apply (submseteq_length (x :: l) (seqZ 0 512)), NoDup_submseteq; [done|apply Hsub]|].
      by rewrite length_seqZ. }
    exists (set_headers hs s), (x :: filter (fun y => y <> v) l).
    assert (Hsr : same_rest s (set_headers hs s)) by (by split).
    split_and!; [| |split; simpl| |done].
    + mstep (read_header_run _ _ _ Hh). rewrite Ho. mstep (read_free_list_run _ _ _ Hp).
      rewrite bool_decide_false by congruence. munfold. cbn [del_entry_loop].
      rewrite (proj2 (Z.eqb_neq x v)) by done. mstep (read_header_run _ _ _ Hx). exact Hrun.
    + intros y. rewrite elem_of_cons, list_elem_of_filter, elem_of_cons. naive_solver.
    + apply (lo_len s L HL).
    + intros j Hj. destruct (decide (j = k)) as [->|Hjk].
      * rewrite upd_eq. exists (Some x). by split.
      * rewrite upd_ne by done. destruct (lo_seg s L HL j Hj) as (p' & Hp' & Hseg').
        exists p'. split; [done|]. revert Hseg'. apply lseg_ext. intros y Hy. f_equal. apply Hout.
        intros Hin. destruct (lo_order s L HL j y Hy) as (h1 & Hh1 & Ho1).
        destruct (lo_order s L HL k y) as (h2 & Hh2 & Ho2); [by rewrite HLk|]. congruence.
    + intros j. unfold upd. case_decide; [|apply (lo_nodup s L HL)].
      apply list.NoDup_cons in Hnd as [Hxl Hndl]. apply list.NoDup_cons. split.
      * rewrite list_elem_of_filter. naive_solver.
      * by apply list.NoDup_filter.
    + intros j b Hb. assert (Hb' : b ∈ L j).
      { revert Hb. unfold upd. case_decide; [|done]. subst. rewrite HLk.
        rewrite !elem_of_cons, list_elem_of_filter. naive_solver. }
      destruct (lo_order s L HL j b Hb') as (h' & Hh' & <-).
      by apply (same_rest_order s _ b h' Hsr).
    + intros j b Hb. revert Hb. unfold upd. case_decide; [by subst|apply (lo_range s L HL)].
    + split; simpl; [by rewrite Hlen; apply HH|]. intros i h' Hh'. specialize (Hidx i).
      rewrite Hh' in Hidx. destruct (arr_get (headers s) i) as [h0|] eqn:E; [|done].
      injection Hidx as ->. by apply (ho_index s HH).
Qed.

Lemma add_head_spec s L k b h :
  lists_ok s L -> headers_ok s -> arr_get (headers s) b = Some h -> order h = k ->
  0 <= k < NR_ORDERS -> (forall j, b ∉ L j) ->
  exists s', free_list_add_head (Some b) s = Ret (tt, s') /\
    lists_ok s' (upd L k (b :: L k)) /\ headers_ok s' /\ same_rest s s'.
Proof.
  intros HL HH Hh Ho Hk Hb. pose proof Hk as Hk'. unfold NR_ORDERS in Hk'.
  destruct (lo_seg s L HL k Hk) as (p & Hp & Hseg).
  assert (Hhd : p <> Some b).
  { intros ->. destruct (L k) as [|x l] eqn:HLk; [done|]. destruct Hseg as [[= <-] _].
    apply (Hb k). rewrite HLk. left. }
  destruct (write_header_run s b h (with_next p) Hh) as (hs & Hhs & Hwh).
  assert (Hlenfl : 0 <= k < Z.of_nat (length (free_lists s))) by (rewrite (lo_len s L HL); lia).
  destruct (write_free_list_run s k (Some b) Hlenfl) as (fl & Hfl & Hwfl).
  assert (Hsr : same_rest s (set_headers hs (set_free_lists fl s))).
  { destruct (same_rest_write_next _ _ _ _ _ Hh Hhs) as [? ? ?]. by split. }
  exists (set_headers hs (set_free_lists fl s)). split_and!; [|split; simpl| |done].
  - unfold free_list_add_head. mstep (read_header_run _ _ _ Hh). rewrite Ho.
    destruct (Z.ltb_spec k 0), (Z.leb_spec MAX_ORDER k); try (unfold MAX_ORDER in *; lia). simpl.
    mstep (read_free_list_run _ _ _ Hp). rewrite bool_decide_false by done.
    destruct p as [x|].
    + mstep Hwh. destruct (write_free_list_run (set_headers hs s) k (Some b) Hlenfl) as (fl' & Hfl' & ->).
      simpl in Hfl'. rewrite Hfl in Hfl'. by injection Hfl' as <-.
    + mstep Hwfl. destruct (write_header_run (set_free_lists fl s) b h (with_next None) Hh) as (hs' & Hhs' & ->).
      simpl in Hhs'. rewrite Hhs in Hhs'. by injection Hhs' as <-.
  - rewrite (arr_set_length _ _ _ _ Hfl). apply (lo_len s L HL).
  - intros j Hj. rewrite (arr_get_set _ _ j _ _ Hfl). case_decide as Hkj.
    + subst j. rewrite upd_eq. exists (Some b). split; [done|]. split; [done|].
      exists (with_next p h). rewrite (arr_get_set_eq _ _ _ _ Hhs). split; [done|].
      by eapply lseg_write_notin.
    + rewrite upd_ne by done. destruct (lo_seg s L HL j Hj) as (p' & Hp' & Hseg').
      exists p'. split; [done|]. by eapply lseg_write_notin.
  - intros j. unfold upd. case_decide; [|apply (lo_nodup s L HL)].
    apply list.NoDup_cons. split; [apply Hb|apply (lo_nodup s L HL)].
  - intros j x Hx. assert (Hx' : (x = b /\ j = k) \/ x ∈ L j).
    { revert Hx. unfold upd. case_decide; [|by right]. subst. rewrite elem_of_cons. naive_solver. }
    destruct Hx' as [[-> ->]|Hx'].
    + destruct (same_rest_order s _ b h Hsr Hh) as (h' & ? & ?). exists h'. by rewrite <- Ho.
    + destruct (lo_order s L HL j x Hx') as (h' & Hh' & <-).
      by apply (same_rest_order s _ x h' Hsr).
  - intros j x Hx. revert Hx. unfold upd. case_decide; [by subst|apply (lo_range s L HL)].
  - eapply (headers_ok_write (set_free_lists fl s)); [by apply (headers_ok_ext s)|exact Hh|exact Hhs|done].
Qed.

(** [block->order = o] for a block that is on no list. *)
Lemma set_order_spec s L b h o :
  lists_ok s L -> headers_ok s -> arr_get (headers s) b = Some h -> (forall j, b ∉ L j) ->
  exists hs, write_header b (with_order o) s = Ret (tt, set_headers hs s) /\
    lists_ok (set_headers hs s) L /\ headers_ok (set_headers hs s) /\
    arr_get hs b = Some (with_order o h) /\
    (forall i, i <> b -> arr_get hs i = arr_get (headers s) i).
Proof.
  intros HL HH Hh Hb.
  destruct (write_header_run s b h (with_order o) Hh) as (hs & Hhs & Hw).
  exists hs. split_and!; [done| |by eapply (headers_ok_write s b h (with_order o))|by eapply arr_get_set_eq|].
  - destruct HL as [H1 H2 H3 H4 H5]. split; simpl; try done.
    + intros k Hk. destruct (H2 k Hk) as (p & Hp & Hseg). exists p. split; [done|].
      by eapply lseg_write_notin.
    + intros k x Hx. rewrite (arr_get_set_ne _ _ x _ _ Hhs); [by apply H4|].
      intros <-. by apply (Hb k).
  - intros i Hi. by rewrite (arr_get_set_ne _ _ i _ _ Hhs).
Qed.

(** ** The frame array operations *)

Lemma wf_block_pow b k : wf_block b k -> pow 2 k = Ret (2 ^ k) /\ 0 < 2 ^ k <= 512 /\ u8 k = k.
Proof.
  unfold wf_block, NR_ORDERS, NR_FRAMES. intros (Hk & Hb & _ & Hend).
  pose proof (pow2_pos k ltac:(lia)). split_and!; [apply pow_2; lia|lia|lia|apply u8_id; lia].
Qed.

Lemma mark_allocated_spec s b k h :
  headers_ok s -> arr_get (headers s) b = Some h -> order h = k -> wf_block b k ->
  length (frame_array s) = 512%nat ->
  exists fa, mark_block_as_allocated b s = Ret (tt, set_frame_array fa s) /\ length fa = 512%nat /\
    forall i, arr_get fa i = if decide (b <= i < b + 2 ^ k) then Some ALLOCATED else arr_get (frame_array s) i.
Proof.
  intros HH Hh Ho Hwf Hlen. destruct (wf_block_pow b k Hwf) as (Hpow & Hp & _).
  destruct Hwf as (Hk & Hb & _ & Hend). unfold NR_FRAMES in Hend.
  destruct (arr_fill_spec (Z.to_nat (2 ^ k)) (frame_array s) b ALLOCATED) as (fa & Hfa & Hl & Hg); [lia..|].
  exists fa. rewrite Z2Nat.id in Hg by lia. split_and!; [|congruence|done].
  unfold mark_block_as_allocated. mstep (read_header_run _ _ _ Hh).
  rewrite Ho, (ho_index s HH _ _ Hh). munfold. rewrite Hpow. by rewrite Hfa.
Qed.

Lemma mark_allocatable_spec s b k h :
  headers_ok s -> arr_get (headers s) b = Some h -> order h = k -> wf_block b k ->
  length (frame_array s) = 512%nat ->
  exists fa, mark_block_as_allocatable b s = Ret (tt, set_frame_array fa s) /\ length fa = 512%nat /\
    forall i, arr_get fa i = if decide (b <= i < b + 2 ^ k)
                             then Some (if decide (i = b) then k else DONT_ALLOCATE)
                             else arr_get (frame_array s) i.
Proof.
  intros HH Hh Ho Hwf Hlen. destruct (wf_block_pow b k Hwf) as (Hpow & Hp & Hu8).
  destruct Hwf as (Hk & Hb & _ & Hend). unfold NR_FRAMES in Hend.
  assert (Hs : arr_set (frame_array s) b k = Some (<[Z.to_nat b := k]> (frame_array s))) by (apply arr_set_is_Some; lia).
  pose proof (arr_set_length _ _ _ _ Hs) as Hl0.
  set (fa0 := <[Z.to_nat b := k]> (frame_array s)) in *.
  destruct (arr_fill_spec (Z.to_nat (2 ^ k - 1)) fa0 (b + 1) DONT_ALLOCATE) as (fa & Hfa & Hl & Hg); [lia..|].
  exists fa. rewrite Z2Nat.id in Hg by lia. split_and!; [|congruence|].
  - unfold mark_block_as_allocatable. mstep (read_header_run _ _ _ Hh).
    rewrite Ho, (ho_index s HH _ _ Hh). munfold. rewrite Hpow, Hu8, Hs. munfold. by rewrite Hfa.
  - intros i. rewrite Hg, (arr_get_set _ _ i _ _ Hs). repeat case_decide; try lia; done.
Qed.

(** ** Steps of the invariant *)

Lemma upd_remove_mem (L : Z -> list Z) k (l' : list Z) v :
  (forall x, x ∈ l' <-> x ∈ L k /\ x <> v) ->
  forall j x, x ∈ upd L k l' j <-> x ∈ L j /\ ~ (x = v /\ j = k).
Proof. intros Hl j x. unfold upd. case_decide; [subst; rewrite Hl|]; naive_solver. Qed.

Lemma upd_cons_mem (L : Z -> list Z) k v j x : x ∈ upd L k (v :: L k) j <-> x ∈ L j \/ (x = v /\ j = k).
Proof. unfold upd. case_decide; [subst; rewrite elem_of_cons|]; naive_solver. Qed.

Lemma coalesced_sub (T T' : kind -> Z -> Z -> Prop) :
  (forall b k, T' KFree b k -> T KFree b k) -> coalesced T -> coalesced T'.
Proof. intros Hsub Hco b k Hk H1 H2. by apply (Hco b k Hk); apply Hsub. Qed.

(** A pending block is on no free list. *)
Lemma pend_not_free s live L b k :
  buddy_inv s live L (Some (b, k)) -> forall j, b ∉ L j.
Proof.
  intros HI j Hb. destruct (tile_start_unique _ (bi_tiling _ _ _ _ HI) KPend b k KFree j); done.
Qed.

(** A free block is taken off its list. *)
Lemma inv_take s s' live L k l' b :
  buddy_inv s live L None -> b ∈ L k -> (forall x, x ∈ l' <-> x ∈ L k /\ x <> b) ->
  lists_ok s' (upd L k l') -> headers_ok s' -> same_rest s s' ->
  buddy_inv s' live (upd L k l') (Some (b, k)).
Proof.
  intros HI Hb Hl' HL HH Hsr. pose proof (upd_remove_mem L k l' b Hl') as Hmem.
  pose proof (bi_tiling _ _ _ _ HI) as HT.
  assert (Heq : forall t x j, tile live (upd L k l') (Some (b, k)) t x j <->
    (tile live L None t x j /\ x <> b) \/ (t = KPend /\ x = b /\ j = k)).
  { intros t x j.
    assert (Hu : forall t', tile live L None t' b j -> t' = KFree /\ j = k).
    { intros t' Ht'. by apply (tile_start_unique _ HT t' b j KFree k). }
    destruct t; simpl.
    - split; [|naive_solver]. intros Hx. left. split; [done|]. intros ->. by destruct (Hu KLive Hx).
    - rewrite Hmem. split; [|naive_solver]. intros [Hx Hn]. left. split; [done|]. intros ->.
      apply Hn. by destruct (Hu KFree Hx).
    - naive_solver. }
  split; try done.
  - rewrite (sr_frames _ _ Hsr). apply (bi_frames _ _ _ _ HI).
  - rewrite (sr_zone _ _ Hsr). apply (bi_zone _ _ _ _ HI).
  - by apply (tiling_relabel _ _ KFree KPend b k HT).
  - eapply coalesced_sub; [|apply (bi_coalesced _ _ _ _ HI)].
    intros x j. rewrite Heq. by intros [[? _]|[? _]].
  - intros t x j Ht. assert (exists t0, tile live L None t0 x j) as [t0 H0].
    { apply Heq in Ht as [[? _]|(_ & -> & ->)]; [by exists t|by exists KFree]. }
    destruct (bi_order _ _ _ _ HI _ _ _ H0) as (h & Hh & <-).
    by apply (same_rest_order s s' x h).
  - intros x j i. rewrite Hmem, (sr_frames _ _ Hsr). intros [Hx _]. by apply (bi_free_frame _ _ _ _ HI).
  - rewrite (sr_frames _ _ Hsr). apply (bi_live_frame _ _ _ _ HI).
Qed.

(** Frames of the pending block belong to no other tile. *)
Lemma pend_sep s live L b k t x j i :
  buddy_inv s live L (Some (b, k)) -> t <> KPend -> tile live L (Some (b, k)) t x j ->
  in_block i x j -> ~ (b <= i < b + 2 ^ k).
Proof.
  intros HI Hne Ht Hi Hbi.
  by destruct (tl_disj _ (bi_tiling _ _ _ _ HI) t x j KPend b k i) as [? _].
Qed.

(** The pending block is handed out. *)
Lemma inv_put_live s fa live L b k :
  buddy_inv s live L (Some (b, k)) -> length fa = 512%nat ->
  (forall i, arr_get fa i = if decide (b <= i < b + 2 ^ k) then Some ALLOCATED else arr_get (frame_array s) i) ->
  live !! b = None /\ buddy_inv (set_frame_array fa s) (<[b := k]> live) L None.
Proof.
  intros HI Hlen Hfa. pose proof (bi_tiling _ _ _ _ HI) as HT.
  assert (Hu : forall t j, tile live L (Some (b, k)) t b j -> t = KPend /\ j = k).
  { intros t j Ht. by apply (tile_start_unique _ HT t b j KPend k). }
  assert (Hnone : live !! b = None).
  { destruct (live !! b) as [j|] eqn:E; [|done]. by destruct (Hu KLive j). }
  split; [done|].
  assert (Heq : forall t x j, tile (<[b := k]> live) L None t x j <->
    (tile live L (Some (b, k)) t x j /\ x <> b) \/ (t = KLive /\ x = b /\ j = k)).
  { intros t x j. destruct t; simpl.
    - rewrite lookup_insert. case_decide; naive_solver.
    - split; [|naive_solver]. intros Hx. left. split; [done|]. intros ->. by destruct (Hu KFree j).
    - naive_solver. }
  pose proof (fun t x j i => pend_sep s live L b k t x j i HI) as Hsep.
  destruct HI as [HL HH Hf Hz _ Hco Ho Hff Hlf]. split; simpl; try done.
  - by destruct HL.
  - by destruct HH.
  - by apply (tiling_relabel _ _ KPend KLive b k HT).
  - intros t x j [[? _]|(_ & -> & ->)]%Heq; [by apply (Ho t)|by apply (Ho KPend)].
  - intros x j i Hx Hi. rewrite Hfa, decide_False; [by apply Hff|]. by apply (Hsep KFree x j i).
  - intros x j i. rewrite lookup_insert, Hfa. case_decide as Hxb.
    + intros [= <-] Hi. subst x. by rewrite decide_True.
    + intros Hx Hi. rewrite decide_False; [by eapply Hlf|]. by apply (Hsep KLive x j i).
Qed.

(** A live block is given back, and held by [deallocate]. *)
Lemma inv_take_live s live L b k :
  buddy_inv s live L None -> live !! b = Some k -> buddy_inv s (delete b live) L (Some (b, k)).
Proof.
  intros HI Hb. pose proof (bi_tiling _ _ _ _ HI) as HT.
  assert (Heq : forall t x j, tile (delete b live) L (Some (b, k)) t x j <->
    (tile live L None t x j /\ x <> b) \/ (t = KPend /\ x = b /\ j = k)).
  { intros t x j. destruct t; simpl.
    - rewrite lookup_delete. case_decide; naive_solver.
    - split; [|naive_solver]. intros Hx. left. split; [done|]. intros ->.
      by destruct (tile_start_unique _ HT KFree b j KLive k).
    - naive_solver. }
  destruct HI as [HL HH Hf Hz _ Hco Ho Hff Hlf]. split; try done.
  - by apply (tiling_relabel _ _ KLive KPend b k HT).
  - intros t x j [[? _]|(_ & -> & ->)]%Heq; [by apply (Ho t)|by apply (Ho KLive)].
  - intros x j i. rewrite lookup_delete. case_decide; [done|]. apply Hlf.
Qed.

(** The pending block, marked and put on its free list, when its buddy is not free. *)
Lemma inv_put_free s s' fa live L b k :
  buddy_inv s live L (Some (b, k)) -> (k < NR_ORDERS - 1 -> buddy_of b k ∉ L k) ->
  lists_ok s' (upd L k (b :: L k)) -> headers_ok s' -> same_rest s s' -> length fa = 512%nat ->
  (forall i, arr_get fa i = if decide (b <= i < b + 2 ^ k)
                            then Some (if decide (i = b) then k else DONT_ALLOCATE)
                            else arr_get (frame_array s) i) ->
  buddy_inv (set_frame_array fa s') live (upd L k (b :: L k)) None.
Proof.
  intros HI Hbud HL' HH' Hsr Hlen Hfa. pose proof (bi_tiling _ _ _ _ HI) as HT.
  pose proof (upd_cons_mem L k b) as Hmem.
  pose proof (tl_wf _ HT KPend b k eq_refl) as (Hk & _).
  assert (Heq : forall t x j, tile live (upd L k (b :: L k)) None t x j <->
    (tile live L (Some (b, k)) t x j /\ x <> b) \/ (t = KFree /\ x = b /\ j = k)).
  { intros t x j. pose proof (pend_not_free _ _ _ _ _ HI j). destruct t; simpl.
    - split; [|naive_solver]. intros Hx. left. split; [done|]. intros ->.
      by destruct (tile_start_unique _ HT KLive b j KPend k).
    - rewrite Hmem. naive_solver.
    - naive_solver. }
  pose proof (fun t x j i => pend_sep s live L b k t x j i HI) as Hsep.
  destruct HI as [HL HH Hf Hz _ Hco Ho Hff Hlf]. split; simpl; try done.
  - by destruct HL'.
  - by destruct HH'.
  - by rewrite (sr_zone _ _ Hsr).
  - by apply (tiling_relabel _ _ KPend KFree b k HT).
  - intros x j Hj. simpl. rewrite !Hmem.
    intros [Hx|[-> ->]] [Hx'|[He He']]; subst.
    + exact (Hco x j Hj Hx Hx').
    + apply Hbud; [done|]. by rewrite buddy_involutive.
    + by apply Hbud.
    + by apply (buddy_ne b k ltac:(lia)).
  - intros t x j Ht. assert (exists t0, tile live L (Some (b, k)) t0 x j) as [t0 H0].
    { apply Heq in Ht as [[? _]|(_ & -> & ->)]; [by exists t|by exists KPend]. }
    destruct (Ho _ _ _ H0) as (h & Hh & <-). by apply (same_rest_order s s' x h).
  - intros x j i. rewrite Hmem, Hfa. intros [Hx|[-> ->]] Hi.
    + rewrite decide_False; [by apply Hff|]. by apply (Hsep KFree x j i).
    + by rewrite decide_True.
  - intros x j i Hx Hi. rewrite Hfa, decide_False; [by eapply Hlf|]. by apply (Hsep KLive x j i).
Qed.

(** The pending block is halved, and its upper half put on a free list. *)
Lemma inv_split s s' live L b k :
  buddy_inv s live L (Some (b, k + 1)) -> 0 <= k ->
  lists_ok s' (upd L k (b + 2 ^ k :: L k)) -> headers_ok s' -> zone_begin s' = zone_begin s ->
  length (frame_array s') = 512%nat ->
  (forall i, arr_get (frame_array s') i =
     if decide (b + 2 ^ k <= i < b + 2 ^ k + 2 ^ k)
     then Some (if decide (i = b + 2 ^ k) then k else DONT_ALLOCATE) else arr_get (frame_array s) i) ->
  (forall i, 0 <= i < 512 -> order <$> arr_get (headers s') i =
     if decide (i = b \/ i = b + 2 ^ k) then Some k else order <$> arr_get (headers s) i) ->
  buddy_inv s' live (upd L k (b + 2 ^ k :: L k)) (Some (b, k)).
Proof.
  intros HI Hk HL' HH' Hz' Hlen Hfa Hord. pose proof (bi_tiling _ _ _ _ HI) as HT.
  pose proof (upd_cons_mem L k (b + 2 ^ k)) as Hmem. pose proof (pow2_pos k Hk) as Hp.
  pose proof (tl_wf _ HT KPend b (k + 1) eq_refl) as (Hk1 & Hb0 & Hal & Hend).
  assert (Hup : in_block (b + 2 ^ k) b (k + 1)) by (unfold in_block; rewrite pow2_S; lia).
  assert (Hin : forall t x j, tile live L (Some (b, k + 1)) t x j -> in_block x b (k + 1) -> t = KPend /\ x = b /\ j = k + 1).
  { intros t x j Ht Hi. apply (tl_disj _ HT t x j KPend b (k + 1) x); [done..| |done].
    apply in_block_self. by destruct (tl_wf _ HT _ _ _ Ht) as [? _]; lia. }
  assert (Hb : in_block b b (k + 1)) by (apply in_block_self; lia).
  assert (Heq : forall t x j, tile live (upd L k (b + 2 ^ k :: L k)) (Some (b, k)) t x j <->
    (tile live L (Some (b, k + 1)) t x j /\ x <> b) \/ (t = KPend /\ x = b /\ j = k)
      \/ (t = KFree /\ x = b + 2 ^ k /\ j = k)).
  { intros t x j. pose proof (fun t H => Hin t x j H) as Hx.
    destruct t; simpl; rewrite ?Hmem; [pose proof (Hx KLive)|pose proof (Hx KFree)|]; naive_solver. }
  assert (HT' : tiling (tile live (upd L k (b + 2 ^ k :: L k)) (Some (b, k))))
    by (by apply (tiling_split _ _ KPend KPend KFree b k HT)).
  pose proof (fun t x j i => pend_sep s live L b (k + 1) t x j i HI) as Hsep.
  rewrite pow2_S in Hsep by done. rewrite pow2_S in Hend by done. unfold NR_FRAMES in *.
  destruct HI as [HL HH Hf Hz _ Hco Ho Hff Hlf]. split; try done.
  - by rewrite Hz'.
  - pose proof (buddy_upper b k Hk Hal) as Hbud.
    intros x j Hj. simpl. rewrite !Hmem. intros [Hx|[-> ->]] [Hx'|[He He']]; subst.
    + exact (Hco x j Hj Hx Hx').
    + rewrite <- (buddy_involutive x k), He, Hbud in Hx. by destruct (Hin KFree b k).
    + rewrite Hbud in Hx'. by destruct (Hin KFree b k).
    + rewrite Hbud in He. lia.
  - intros t x j Ht. pose proof (tl_wf _ HT' _ _ _ Ht) as (Hj & Hx0 & _ & Hxe).
    pose proof (pow2_pos j ltac:(lia)). unfold NR_FRAMES in *.
    assert (Hox : order <$> arr_get (headers s') x = Some j).
    { rewrite Hord by lia. apply Heq in Ht as [[Ht Hne]|[(-> & -> & ->)|(-> & -> & ->)]].
      - rewrite decide_False; [by destruct (Ho _ _ _ Ht) as (h & -> & <-)|].
        intros [?|Hxb]; [done|]. subst x. by destruct (Hin t (b + 2 ^ k) j Ht Hup) as (_ & ? & _).
      - by rewrite decide_True by auto.
      - by rewrite decide_True by auto. }
    destruct (arr_get (headers s') x) as [h|]; [|done]. injection Hox as Hox. eauto.
  - intros x j i. rewrite Hmem, Hfa. intros [Hx|[-> ->]] Hi.
    + rewrite decide_False; [by apply Hff|]. pose proof (Hsep KFree x j i ltac:(done) Hx Hi). lia.
    + by rewrite decide_True.
  - intros x j i Hx Hi. rewrite Hfa, decide_False; [by eapply Hlf|].
    pose proof (Hsep KLive x j i ltac:(done) Hx Hi). lia.
Qed.

(** The pending block absorbs its free buddy. *)
Lemma inv_merge s s' live L l' b k :
  buddy_inv s live L (Some (b, k)) -> k < NR_ORDERS - 1 -> buddy_of b k ∈ L k ->
  (forall x, x ∈ l' <-> x ∈ L k /\ x <> buddy_of b k) ->
  let p := Z.min b (buddy_of b k) in
  lists_ok s' (upd L k l') -> headers_ok s' -> zone_begin s' = zone_begin s ->
  frame_array s' = frame_array s ->
  (forall i, 0 <= i < 512 -> order <$> arr_get (headers s') i =
     if decide (i = p) then Some (k + 1) else order <$> arr_get (headers s) i) ->
  buddy_inv s' live (upd L k l') (Some (p, k + 1)).
Proof.
  intros HI Hk9 Hfree Hl' p HL' HH' Hz' Hfa Hord. pose proof (bi_tiling _ _ _ _ HI) as HT.
  pose proof (upd_remove_mem L k l' _ Hl') as Hmem.
  pose proof (tl_wf _ HT KPend b k eq_refl) as Hwf. pose proof Hwf as (Hk & _).
  destruct (buddy_parent b k Hwf Hk9) as (Hpwf & _ & Hmax & _). fold p in Hpwf, Hmax.
  assert (Hpq : (p = b /\ p + 2 ^ k = buddy_of b k) \/ (p = buddy_of b k /\ p + 2 ^ k = b)) by lia.
  assert (Hu : forall t j, tile live L (Some (b, k)) t b j -> t = KPend /\ j = k).
  { intros t j Ht. by apply (tile_start_unique _ HT t b j KPend k). }
  assert (Hu' : forall t j, tile live L (Some (b, k)) t (buddy_of b k) j -> t = KFree /\ j = k).
  { intros t j Ht. by apply (tile_start_unique _ HT t (buddy_of b k) j KFree k). }
  assert (Heq : forall t x j, tile live (upd L k l') (Some (p, k + 1)) t x j <->
    (tile live L (Some (b, k)) t x j /\ x <> p /\ x <> p + 2 ^ k) \/ (t = KPend /\ x = p /\ j = k + 1)).
  { intros t x j.
    assert (Hx : x <> p /\ x <> p + 2 ^ k <-> x <> b /\ x <> buddy_of b k) by (clear -Hpq; lia).
    rewrite Hx. clear Hx Hpq Hmax. clearbody p. destruct t; simpl; rewrite ?Hmem.
    - split; [|naive_solver]. intros Hx. left. split; [done|].
      split; intros ->; [by destruct (Hu KLive j)|by destruct (Hu' KLive j)].
    - split; [|naive_solver]. intros [Hx Hn]. left. split; [done|].
      split; intros ->; [by destruct (Hu KFree j)|]. destruct (Hu' KFree j); naive_solver.
    - naive_solver. }
  assert (HT' : tiling (tile live (upd L k l') (Some (p, k + 1)))).
  { clearbody p. destruct Hpq as [[Hp Hq]|[Hp Hq]].
    - apply (tiling_merge _ _ KPend KPend KFree p k HT); [by subst p|by rewrite Hq|done..].
    - apply (tiling_merge _ _ KPend KFree KPend p k HT); [by subst p|by rewrite Hq|done..]. }
  destruct HI as [HL HH Hf Hz _ Hco Ho Hff Hlf]. split; try done.
  - by rewrite Hfa.
  - by rewrite Hz'.
  - eapply coalesced_sub; [|exact Hco]. intros x j. simpl. rewrite Hmem. by intros [? _].
  - intros t x j Ht. pose proof (tl_wf _ HT' _ _ _ Ht) as (Hj & Hx0 & _ & Hxe).
    pose proof (pow2_pos j ltac:(lia)). unfold NR_FRAMES in *.
    assert (Hox : order <$> arr_get (headers s') x = Some j).
    { rewrite Hord by lia. apply Heq in Ht as [(Ht & Hne & _)|(-> & -> & ->)].
      - rewrite decide_False by done. by destruct (Ho _ _ _ Ht) as (h & -> & <-).
      - by rewrite decide_True. }
    destruct (arr_get (headers s') x) as [h|]; [|done]. injection Hox as Hox. eauto.
  - intros x j i. rewrite Hmem, Hfa. intros [Hx _]. by apply Hff.
  - intros x j i. rewrite Hfa. by apply Hlf.
Qed.
