(* ===== verification/BuddySpec.v ===== *)
(** * The contract of the page frame allocator

    [allocate] and [deallocate] refine a map of live blocks.  The lemmas follow
    the loops of the operations; the theorems at the end are the contract. *)

From Stdlib Require Import ZArith Lia Znumtheory.
From stdpp Require Import base gmap list numbers.
From S2P Require Import Prelude Math Mmu Tiling Buddy BuddyProof.

Open Scope Z_scope.

(** ** Splitting *)

Lemma lists_ok_frames s L fa : lists_ok s L -> lists_ok (set_frame_array fa s) L.
Proof. by intros [? ? ? ? ?]. Qed.

Lemma headers_ok_frames s fa : headers_ok s -> headers_ok (set_frame_array fa s).
Proof. by apply headers_ok_ext. Qed.

Lemma get_buddy_run s b h k :
  headers_ok s -> arr_get (headers s) b = Some h -> order h = k -> 0 <= k ->
  get_buddy b s = Ret (buddy_of b k, s).
Proof.
  intros HH Hh Ho Hk. unfold get_buddy. mstep (read_header_run _ _ _ Hh). munfold.
  by rewrite (ho_index s HH _ _ Hh), Ho, Z.shiftl_1_l.
Qed.

Lemma split_step s live L b k :
  buddy_inv s live L (Some (b, k + 1)) -> 0 <= k ->
  exists s1 s2 s3 s4,
    write_header b (with_order k) s = Ret (tt, s1) /\
    get_buddy b s1 = Ret (b + 2 ^ k, s1) /\
    write_header (b + 2 ^ k) (with_order k) s1 = Ret (tt, s2) /\
    mark_block_as_allocatable (b + 2 ^ k) s2 = Ret (tt, s3) /\
    free_list_add_head (Some (b + 2 ^ k)) s3 = Ret (tt, s4) /\
    zone_begin s4 = zone_begin s /\
    buddy_inv s4 live (upd L k (b + 2 ^ k :: L k)) (Some (b, k)).
Proof.
  intros HI Hk. pose proof (bi_tiling _ _ _ _ HI) as HT. pose proof (pow2_pos k Hk) as Hp.
  pose proof (tl_wf _ HT KPend b (k + 1) eq_refl) as (Hk1 & Hb0 & Hal & Hend).
  pose proof (pend_not_free _ _ _ _ _ HI) as Hnf.
  assert (Hcnf : forall j, b + 2 ^ k ∉ L j).
  { intros j Hj. destruct (tl_wf _ HT KFree _ _ Hj) as [Hj0 _].
    destruct (tl_disj _ HT KFree (b + 2 ^ k) j KPend b (k + 1) (b + 2 ^ k)); [done..| | |done];
      [apply in_block_self; lia|unfold in_block; rewrite pow2_S; lia]. }
  rewrite pow2_S in Hend by done. unfold NR_ORDERS, NR_FRAMES in *.
  assert (Hwfc : wf_block (b + 2 ^ k) k).
  { unfold wf_block, NR_ORDERS, NR_FRAMES. split_and!; try lia.
    apply Z.divide_add_r; [by apply (pow2_divide_mono k (k + 1)); [lia|]|by exists 1; lia]. }
  destruct (bi_order _ _ _ _ HI KPend b (k + 1) eq_refl) as (h & Hh & Ho).
  destruct (set_order_spec s L b h k) as (hs1 & Hw1 & HL1 & HH1 & Hb1 & Ho1); [apply HI|apply HI|done..|].
  destruct (arr_get_is_Some (headers s) (b + 2 ^ k)) as (hc & Hc); [rewrite (ho_len s); [lia|apply HI]|].
  rewrite <- (Ho1 (b + 2 ^ k)) in Hc by lia.
  destruct (set_order_spec (set_headers hs1 s) L (b + 2 ^ k) hc k)
    as (hs2 & Hw2 & HL2 & HH2 & Hc2 & Ho2); [done..|].
  destruct (mark_allocatable_spec _ (b + 2 ^ k) k _ HH2 Hc2) as (fa & Hm & Hlen & Hfa); [done..|apply HI|].
  destruct (add_head_spec (set_frame_array fa (set_headers hs2 (set_headers hs1 s))) L k (b + 2 ^ k) (with_order k hc))
    as (s4 & Ha & HL4 & HH4 & Hsr); [by apply lists_ok_frames|by apply headers_ok_frames|done|done|unfold NR_ORDERS; lia|done|].
  eexists _, _, _, s4. split_and!; [exact Hw1| |exact Hw2|exact Hm|exact Ha|by rewrite (sr_zone _ _ Hsr)|].
  - rewrite <- (buddy_lower b k) by done. by eapply get_buddy_run.
  - apply (inv_split s); try done; [by rewrite (sr_zone _ _ Hsr)|by rewrite (sr_frames _ _ Hsr)|..].
    + intros i. rewrite (sr_frames _ _ Hsr). apply Hfa.
    + intros i Hi. rewrite (sr_order _ _ Hsr). simpl in *.
      destruct (decide (i = b + 2 ^ k)) as [->|Hic]; [by rewrite Hc2, decide_True by auto|].
      rewrite Ho2 by done. destruct (decide (i = b)) as [->|Hib]; [by rewrite Hb1, decide_True by auto|].
      rewrite Ho1, decide_False by (done || lia). done.
Qed.

Lemma split_loop_spec fuel s live L b k target :
  buddy_inv s live L (Some (b, k)) -> 0 <= target <= k -> (Z.to_nat (k - target) < fuel)%nat ->
  exists s' L', split_loop fuel b target s = Ret (tt, s') /\ zone_begin s' = zone_begin s /\
    buddy_inv s' live L' (Some (b, target)).
Proof.
  revert s L k. induction fuel as [|fuel IH]; intros s L k HI Ht Hf; [lia|].
  destruct (bi_order _ _ _ _ HI KPend b k eq_refl) as (h & Hh & Ho).
  cbn [split_loop]. mstep (read_header_run _ _ _ Hh). rewrite Ho.
  destruct (Z.ltb_spec target k) as [Hlt|Hge].
  - rewrite (proj2 (Z.ltb_lt 0 k)) by lia. cbn [andb].
    replace k with (k - 1 + 1) in HI by lia.
    destruct (split_step s live L b (k - 1) HI) as (s1 & s2 & s3 & s4 & H1 & H2 & H3 & H4 & H5 & Hz & HI4); [lia|].
    mstep H1. mstep H2. mstep H3. mstep H4. mstep H5.
    destruct (IH _ _ _ HI4) as (s' & L' & Hrun & Hz' & HI'); [lia..|].
    exists s', L'. split_and!; [done|congruence|done].
  - rewrite andb_false_r. exists s, L. assert (k = target) as -> by lia. done.
Qed.

(** ** Merging *)

Lemma is_allocated_run s b h x :
  headers_ok s -> arr_get (headers s) b = Some h -> arr_get (frame_array s) b = Some x ->
  is_block_allocated b s = Ret (x =? ALLOCATED, s).
Proof.
  intros HH Hh Hx. unfold is_block_allocated. mstep (read_header_run _ _ _ Hh). munfold.
  by rewrite (ho_index s HH _ _ Hh), Hx.
Qed.

(** What [deallocate] reads of the buddy of the block it holds. *)
Lemma buddy_view s live L b k :
  buddy_inv s live L (Some (b, k)) -> k < NR_ORDERS - 1 ->
  exists hb alloc, arr_get (headers s) (buddy_of b k) = Some hb /\
    is_block_allocated (buddy_of b k) s = Ret (alloc, s) /\
    (if alloc || negb (k =? order hb) then buddy_of b k ∉ L k else buddy_of b k ∈ L k).
Proof.
  intros HI Hk. pose proof (bi_tiling _ _ _ _ HI) as HT.
  pose proof (tl_wf _ HT KPend b k eq_refl) as [Hk0 _].
  destruct (buddy_tile _ HT KPend b k eq_refl Hk) as (t' & j & Ht & Hj).
  destruct (tl_wf _ HT _ _ _ Ht) as [Hj0 _].
  destruct (bi_order _ _ _ _ HI _ _ _ Ht) as (hb & Hhb & Hob).
  pose proof (in_block_self (buddy_of b k) j ltac:(lia)) as Hself.
  exists hb. destruct t'.
  - exists true. split_and!; [done| |].
    + rewrite (is_allocated_run s _ hb ALLOCATED); [done|apply HI|done|].
      by apply (bi_live_frame _ _ _ _ HI (buddy_of b k) j).
    + simpl. intros Hin. by destruct (tile_start_unique _ HT KLive (buddy_of b k) j KFree k).
  - exists false. split_and!; [done| |].
    + rewrite (is_allocated_run s _ hb j); [|apply HI|done|].
      * replace (j =? ALLOCATED) with false; [done|]. symmetry. apply Z.eqb_neq.
        unfold NR_ORDERS in *. vm_compute (ALLOCATED). lia.
      * rewrite (bi_free_frame _ _ _ _ HI (buddy_of b k) j) by done. by rewrite decide_True.
    + simpl. rewrite Hob. destruct (Z.eqb_spec k j) as [->|Hne]; [done|]. simpl. intros Hin.
      by destruct (tile_start_unique _ HT KFree (buddy_of b k) j KFree k) as [_ ->].
  - injection Ht as Hb _. by destruct (buddy_ne b k ltac:(lia)).
Qed.

Lemma merge_step s live L b k :
  buddy_inv s live L (Some (b, k)) -> k < NR_ORDERS - 1 -> buddy_of b k ∈ L k ->
  let p := Z.min b (buddy_of b k) in
  exists s1 s2 L' hl, free_list_del_entry (Some (buddy_of b k)) s = Ret (tt, s1) /\
    read_header p s1 = Ret (hl, s1) /\ order hl = k /\
    write_header p (with_order (k + 1)) s1 = Ret (tt, s2) /\
    zone_begin s2 = zone_begin s /\ buddy_inv s2 live L' (Some (p, k + 1)).
Proof.
  intros HI Hk Hin p. pose proof (bi_tiling _ _ _ _ HI) as HT.
  pose proof (tl_wf _ HT KPend b k eq_refl) as [Hk0 _].
  pose proof (pend_not_free _ _ _ _ _ HI) as Hnf.
  destruct (del_entry_spec s L k (buddy_of b k)) as (s1 & l' & Hd & Hl' & HL1 & HH1 & Hsr);
    [apply HI|apply HI|done..|].
  assert (Hp : p = b \/ p = buddy_of b k) by lia.
  assert (Hpo : exists h, arr_get (headers s) p = Some h /\ order h = k).
  { destruct Hp as [-> | ->]; [by apply (bi_order _ _ _ _ HI KPend)|by apply (bi_order _ _ _ _ HI KFree)]. }
  destruct Hpo as (h & Hh & Ho). destruct (same_rest_order _ _ _ _ Hsr Hh) as (hl & Hhl & Hol).
  destruct (set_order_spec s1 (upd L k l') p hl (k + 1)) as (hs & Hw & HL2 & HH2 & Hp2 & Ho2); [done..| |].
  { intros j. rewrite (upd_remove_mem L k l' _ Hl'). intros [Hj Hne]. destruct Hp as [Hp|Hp]; rewrite Hp in *.
    - by apply (Hnf j).
    - apply Hne. by destruct (tile_start_unique _ HT KFree (buddy_of b k) j KFree k). }
  exists s1, (set_headers hs s1), (upd L k l'), hl.
  split_and!; [done|by apply read_header_run|by rewrite Hol|done|apply (sr_zone _ _ Hsr)|].
  apply (inv_merge s); try done; [apply (sr_zone _ _ Hsr)|apply (sr_frames _ _ Hsr)|].
  intros i _. simpl. fold p. destruct (decide (i = p)) as [->|Hne]; [by rewrite Hp2|].
  rewrite Ho2 by done. apply (sr_order _ _ Hsr).
Qed.

Lemma merge_loop_spec fuel s live L b k :
  buddy_inv s live L (Some (b, k)) -> (Z.to_nat (9 - k) < fuel)%nat ->
  exists s' L' b' k', merge_loop fuel b s = Ret (b', s') /\ zone_begin s' = zone_begin s /\
    buddy_inv s' live L' (Some (b', k')) /\ (k' < NR_ORDERS - 1 -> buddy_of b' k' ∉ L' k').
Proof.
  revert s L b k. induction fuel as [|fuel IH]; intros s L b k HI Hf; [lia|].
  pose proof (tl_wf _ (bi_tiling _ _ _ _ HI) KPend b k eq_refl) as [Hk0 _].
  destruct (bi_order _ _ _ _ HI KPend b k eq_refl) as (h & Hh & Ho).
  cbn [merge_loop]. mstep (read_header_run _ _ _ Hh). rewrite Ho.
  change (MAX_ORDER - 1) with 9. unfold NR_ORDERS in Hk0.
  destruct (Z.ltb_spec k 9) as [Hk|Hk]; [|exists s, L, b, k; unfold NR_ORDERS; split_and!; done || lia].
  mstep (get_buddy_run s b h k (bi_headers _ _ _ _ HI) Hh Ho ltac:(lia)).
  destruct (buddy_view _ _ _ _ _ HI) as (hb & alloc & Hhb & Ha & Hcase); [unfold NR_ORDERS; lia|].
  mstep Ha. mstep (read_header_run _ _ _ Hhb).
  destruct (alloc || negb (k =? order hb)) eqn:Hstop.
  - by exists s, L, b, k.
  - destruct (merge_step _ _ _ _ _ HI) as (s1 & s2 & L' & hl & H1 & H2 & Hol & H3 & Hz & HI2);
      [unfold NR_ORDERS; lia|done|].
    mstep H1. replace (if buddy_of b k <? b then buddy_of b k else b) with (Z.min b (buddy_of b k))
      by (destruct (Z.ltb_spec (buddy_of b k) b); lia).
    mstep H2. rewrite Hol. mstep H3.
    destruct (IH _ _ _ _ HI2) as (s' & L'' & b' & k' & Hrun & Hz' & HI' & Hb'); [lia|].
    exists s', L'', b', k'. split_and!; [done|congruence|done..].
Qed.

(** ** Requests *)

(** The order of the block that serves a request of [size] bytes. *)
Definition order_of_size (size : Z) : Z := Z.max 0 (Z.log2_up size - 12).

Lemma size_to_order_spec size :
  0 <= size <= 2 ^ 42 -> size_to_order (2 ^ Z.log2_up size) = Ret (order_of_size size).
Proof.
  intros Hs. unfold size_to_order, order_of_size. rewrite PAGE_SIZE_eq.
  assert (Hl : 0 <= Z.log2_up size <= 42).
  { split; [apply Z.log2_up_nonneg|]. rewrite <- (Z.log2_up_pow2 42) by lia. apply Z.log2_up_le_mono. lia. }
  destruct (Z.le_gt_cases 12 (Z.log2_up size)) as [Hge|Hlt].
  - replace (2 ^ Z.log2_up size) with (2 ^ (Z.log2_up size - 12) * 4096)
      by (change 4096 with (2 ^ 12); rewrite <- Z.pow_add_r by lia; f_equal; lia).
    rewrite Z.div_mul by lia.
    assert (2 ^ (Z.log2_up size - 12) <= 2 ^ 30) by (apply Z.pow_le_mono_r; lia).
    pose proof (pow2_pos (Z.log2_up size - 12) ltac:(lia)).
    rewrite s32_id, log2_spec, Z.log2_pow2 by lia. f_equal. lia.
  - rewrite Z.div_small; [|split; [apply Z.pow_nonneg; lia|]].
    + rewrite s32_id, log2_spec by lia. change (Z.log2 0) with 0. f_equal. lia.
    + change 4096 with (2 ^ 12). apply Z.pow_lt_mono_r; lia.
Qed.

(** Reading the head of a free list. *)
Lemma free_list_view s L k :
  lists_ok s L -> 0 <= k < NR_ORDERS -> read_free_list k s = Ret (head (L k), s).
Proof.
  intros HL Hk. destruct (lo_seg s L HL k Hk) as (p & Hp & Hseg). rewrite (read_free_list_run s k p Hp).
  destruct (L k) as [|x l]; simpl in *; [by subst|]. by destruct Hseg as [-> _].
Qed.

Lemma search_larger_spec fuel s L k :
  lists_ok s L -> 0 <= k -> (Z.to_nat (10 - k) < fuel)%nat ->
  exists r, search_larger fuel k s = Ret (r, s) /\
    match r with
    | Some v => exists j, k <= j < NR_ORDERS /\ v ∈ L j
    | None => forall j, k <= j < NR_ORDERS -> L j = []
    end.
Proof.
  unfold NR_ORDERS. revert k. induction fuel as [|fuel IH]; intros k HL Hk Hf; [lia|].
  cbn [search_larger]. change MAX_ORDER with 10. destruct (Z.ltb_spec k 10) as [Hlt|Hge].
  - mstep (free_list_view s L k HL ltac:(unfold NR_ORDERS; lia)).
    destruct (L k) as [|v l] eqn:HLk; simpl.
    + destruct (IH (k + 1) HL) as (r & Hr & Hspec); [lia..|]. exists r. split; [done|].
      destruct r as [v|].
      * destruct Hspec as (j & ? & ?). exists j. split; [lia|done].
      * intros j Hj. destruct (decide (j = k)) as [->|]; [done|]. apply Hspec. lia.
    + exists (Some v). split; [done|]. exists k. split; [lia|]. rewrite HLk. left.
  - exists None. split; [done|]. intros. lia.
Qed.

(** Every aligned block of order [k] meets a live block. *)
Definition exhausted (live : gmap Z Z) (k : Z) : Prop :=
  forall b, wf_block b k -> exists c j i, live !! c = Some j /\ in_block i c j /\ in_block i b k.

Lemma empty_exhausted s live L k :
  buddy_inv s live L None -> 0 <= k -> (forall j, k <= j < NR_ORDERS -> L j = []) -> exhausted live k.
Proof.
  intros HI Hk Hempty b Hwf. pose proof (bi_tiling _ _ _ _ HI) as HT.
  destruct (decide (Exists (fun i => Exists (fun cj => in_block i cj.1 cj.2) (map_to_list live))
                           (seqZ b (2 ^ k)))) as [Hex|Hno].
  { apply list.Exists_exists in Hex as (i & Hi & Hex). apply list.Exists_exists in Hex as ([c j] & Hcj & Hin).
    apply elem_of_seqZ in Hi. apply elem_of_map_to_list in Hcj. by exists c, j, i. }
  exfalso. destruct (coalesced_complete _ HT b k) as (c & j & Hc & Hj); [apply HI|done| |].
  { intros t c j i Ht Hic Hib. destruct t; [|done|done]. exfalso. apply Hno.
    apply list.Exists_exists. exists i. split; [by apply elem_of_seqZ|].
    apply list.Exists_exists. exists (c, j). by split; [apply elem_of_map_to_list|]. }
  destruct (tl_wf _ HT _ _ _ Hc) as [Hj0 _]. simpl in Hc. rewrite Hempty in Hc by lia.
  by apply elem_of_nil in Hc.
Qed.

Lemma frame_addr s live L pend b k :
  buddy_inv s live L pend -> wf_block b k ->
  get_page_frame b s = Ret (zone_begin s + b * 4096, s) /\ 0 < zone_begin s + b * 4096 < 2 ^ 64.
Proof.
  intros HI (Hk & Hb & _ & Hend). destruct (bi_zone _ _ _ _ HI) as (Hz0 & _ & Hz).
  pose proof (pow2_pos k ltac:(lia)). unfold NR_FRAMES in Hend.
  assert (0 < zone_begin s + b * 4096 < 2 ^ 64) by lia. split; [|done].
  unfold get_page_frame. munfold. rewrite PAGE_SIZE_eq, u64_id by lia. done.
Qed.

Lemma hit_spec s live L b k :
  buddy_inv s live L (Some (b, k)) ->
  exists s', hit b s = Ret (zone_begin s + b * 4096, s') /\ zone_begin s' = zone_begin s /\
    live !! b = None /\ buddy_rep s' (<[b := k]> live).
Proof.
  intros HI. pose proof (tl_wf _ (bi_tiling _ _ _ _ HI) KPend b k eq_refl) as Hwf.
  destruct (bi_order _ _ _ _ HI KPend b k eq_refl) as (h & Hh & Ho).
  destruct (mark_allocated_spec s b k h (bi_headers _ _ _ _ HI) Hh Ho Hwf (bi_frames _ _ _ _ HI)) as (fa & Hm & Hlen & Hfa).
  destruct (inv_put_live _ fa _ _ _ _ HI Hlen Hfa) as [Hnone HI'].
  exists (set_frame_array fa s). split_and!; [|done..|by exists L].
  unfold hit. mstep Hm. mstep (read_header_run (set_frame_array fa s) _ _ Hh).
  rewrite (ho_index s (bi_headers _ _ _ _ HI) _ _ Hh).
  by destruct (frame_addr _ _ _ _ _ _ HI' Hwf) as [-> _].
Qed.

(** A live block added to a tiling is disjoint from the others. *)
Lemma rep_live_wf s live b k : buddy_rep s live -> live !! b = Some k -> wf_block b k.
Proof. intros [L HI] Hb. by apply (tl_wf _ (bi_tiling _ _ _ _ HI) KLive). Qed.

Lemma rep_live_disjoint s live b k c j i :
  buddy_rep s live -> live !! b = Some k -> live !! c = Some j ->
  in_block i b k -> in_block i c j -> b = c.
Proof.
  intros [L HI] Hb Hc Hi Hj.
  by destruct (tl_disj _ (bi_tiling _ _ _ _ HI) KLive b k KLive c j i) as (_ & ? & _).
Qed.

(** The outcome of [allocate], on every branch. *)
Inductive allocates (s : BuddyAllocator) (live : gmap Z Z) (k : Z) : Z -> BuddyAllocator -> Prop :=
| alloc_block b s' :
    wf_block b k -> live !! b = None -> zone_begin s' = zone_begin s ->
    buddy_rep s' (<[b := k]> live) ->
    allocates s live k (zone_begin s + b * 4096) s'
| alloc_too_large : NR_ORDERS <= k -> allocates s live k 0 s
| alloc_exhausted : k < NR_ORDERS -> exhausted live k -> allocates s live k 0 s.

Lemma split_block_spec s live L b j target :
  buddy_inv s live L (Some (b, j)) -> 0 <= target <= j ->
  exists s' L', split_block (Some b) target s = Ret (b, s') /\ zone_begin s' = zone_begin s /\
    buddy_inv s' live L' (Some (b, target)).
Proof.
  intros HI Ht. pose proof (tl_wf _ (bi_tiling _ _ _ _ HI) KPend b j eq_refl) as [Hj _].
  destruct (bi_order _ _ _ _ HI KPend b j eq_refl) as (h & Hh & Ho).
  unfold NR_ORDERS in Hj. assert (HM : Z.to_nat MAX_ORDER = 10%nat) by done.
  destruct (split_loop_spec (S (Z.to_nat MAX_ORDER)) s live L b j target HI Ht) as (s' & L' & Hrun & Hz & HI'); [lia|].
  exists s', L'. split; [|done]. unfold split_block. mstep (read_header_run _ _ _ Hh). rewrite Ho.
  destruct (Z.ltb_spec j 0), (Z.leb_spec MAX_ORDER j); try (unfold MAX_ORDER in *; lia). cbn [orb].
  mstep Hrun. done.
Qed.

(** [allocate] once the size is known to need a block of order [k]. *)
Lemma allocate_order s live size k :
  buddy_rep s live -> 0 <= size <= 2 ^ 42 -> order_of_size size = k -> k < NR_ORDERS ->
  exists p s', allocate size s = Ret (p, s') /\ allocates s live k p s'.
Proof.
  intros [L HI] Hs Hk Hsmall. unfold allocate, normalize_size.
  rewrite round_up_pow2_spec by lia. mlift.
  rewrite size_to_order_spec, Hk by done. mlift.
  assert (Hk0 : 0 <= k) by (unfold order_of_size in Hk; lia).
  pose proof (pow2_pos (Z.log2_up size) (Z.log2_up_nonneg size)) as Hpos.
  rewrite (proj2 (Z.eqb_neq (2 ^ Z.log2_up size) 0)) by lia.
  rewrite (proj2 (Z.leb_gt MAX_ORDER k)) by exact Hsmall.
  pose proof (bi_lists _ _ _ _ HI) as HL. mstep (free_list_view s L k HL (conj Hk0 Hsmall)).
  assert (Hfin : forall b s1 L1, zone_begin s1 = zone_begin s -> buddy_inv s1 live L1 (Some (b, k)) ->
    exists p s', hit b s1 = Ret (p, s') /\ allocates s live k p s').
  { intros b s1 L1 Hz HI1. destruct (hit_spec _ _ _ _ _ HI1) as (s' & Hrun & Hz' & Hnone & Hrep).
    exists (zone_begin s + b * 4096), s'. rewrite <- Hz. split; [done|]. rewrite Hz.
    apply alloc_block; [|done|congruence|done].
    apply (tl_wf _ (bi_tiling _ _ _ _ HI1) KPend b k eq_refl). }
  destruct (L k) as [|v l] eqn:HLk; cbn [head].
  - destruct (search_larger_spec (S (Z.to_nat MAX_ORDER)) s L k HL Hk0) as (r & Hr & Hspec).
    { change (Z.to_nat MAX_ORDER) with 10%nat. lia. }
    mstep Hr. destruct r as [v|].
    + destruct Hspec as (j & Hj & Hv).
      destruct (del_entry_spec s L j v HL) as (s1 & l' & Hd & Hl' & HL1 & HH1 & Hsr); [apply HI|done|lia|].
      mstep Hd. mlift.
      pose proof (inv_take _ _ _ _ _ _ _ HI Hv Hl' HL1 HH1 Hsr) as HI1.
      destruct (split_block_spec _ _ _ _ _ k HI1) as (s2 & L2 & Hrun & Hz & HI2); [lia|].
      mstep Hrun. eapply Hfin; [|exact HI2]. rewrite Hz. apply (sr_zone _ _ Hsr).
    + exists 0, s. split; [done|]. apply alloc_exhausted; [done|]. by eapply empty_exhausted.
  - destruct (del_head_spec s L k v l HL (bi_headers _ _ _ _ HI) HLk (conj Hk0 Hsmall)) as (s1 & Hd & HL1 & HH1 & Hsr).
    mstep Hd. eapply Hfin; [apply (sr_zone _ _ Hsr)|]. pose proof (lo_nodup s L HL k) as Hnd.
    rewrite HLk in Hnd. apply list.NoDup_cons in Hnd as [Hvl _].
    eapply inv_take; [exact HI| | |done..]; rewrite HLk; [left|set_solver].
Qed.

Lemma allocate_spec s live size :
  buddy_rep s live -> 0 <= size <= 2 ^ 42 ->
  exists p s', allocate size s = Ret (p, s') /\ allocates s live (order_of_size size) p s'.
Proof.
  intros Hrep Hs. destruct (Z.le_gt_cases NR_ORDERS (order_of_size size)) as [Hbig|Hsmall];
    [|by apply allocate_order].
  exists 0, s. split; [|by apply alloc_too_large]. unfold allocate, normalize_size.
  rewrite round_up_pow2_spec by lia. mlift.
  rewrite size_to_order_spec by done. mlift.
  rewrite (proj2 (Z.leb_le MAX_ORDER _) Hbig). by destruct (_ =? 0).
Qed.

(** ** Releases *)

Lemma block_header_run s live b k :
  buddy_rep s live -> live !! b = Some k ->
  get_block_header (zone_begin s + b * 4096) s = Ret (b, s) /\ (zone_begin s + b * 4096 =? 0) = false.
Proof.
  intros Hrep Hb. pose proof (rep_live_wf _ _ _ _ Hrep Hb) as Hwf. destruct Hrep as [L HI].
  destruct (frame_addr _ _ _ _ _ _ HI Hwf) as [_ Haddr]. destruct (bi_zone _ _ _ _ HI) as (_ & Hz & _).
  destruct Hwf as (Hk & Hb0 & _ & Hend). pose proof (pow2_pos k ltac:(lia)). unfold NR_FRAMES in *.
  split; [|apply Z.eqb_neq; lia]. unfold get_block_header.
  assert (Hal : is_aligned (zone_begin s + b * 4096) = true).
  { unfold is_aligned. rewrite PAGE_SIZE_eq. apply Z.eqb_eq. rewrite Z.mod_add by lia. done. }
  rewrite Hal. munfold. cbn [negb].
  replace (zone_begin s + b * 4096 - zone_begin s) with (b * 4096) by lia.
  rewrite u64_id, PAGE_SIZE_eq, Z.div_mul, s32_id by lia.
  change MAX_ORDER_NR_PAGES with 512.
  by destruct (Z.ltb_spec b 0), (Z.leb_spec 512 b); try lia.
Qed.

Lemma deallocate_spec s live b k :
  buddy_rep s live -> live !! b = Some k ->
  exists s', deallocate (zone_begin s + b * 4096) s = Ret (tt, s') /\
    zone_begin s' = zone_begin s /\ buddy_rep s' (delete b live).
Proof.
  intros Hrep Hb. destruct (block_header_run _ _ _ _ Hrep Hb) as [Hgb H0].
  destruct Hrep as [L HI]. pose proof (inv_take_live _ _ _ _ _ HI Hb) as HI0.
  pose proof (tl_wf _ (bi_tiling _ _ _ _ HI0) KPend b k eq_refl) as [Hk _].
  assert (HM : Z.to_nat MAX_ORDER = 10%nat) by done.
  destruct (merge_loop_spec (S (Z.to_nat MAX_ORDER)) _ _ _ _ _ HI0)
    as (s1 & L1 & b1 & k1 & Hm & Hz1 & HI1 & Hbud); [lia|].
  pose proof (tl_wf _ (bi_tiling _ _ _ _ HI1) KPend b1 k1 eq_refl) as Hwf1.
  destruct (bi_order _ _ _ _ HI1 KPend b1 k1 eq_refl) as (h1 & Hh1 & Ho1).
  destruct (add_head_spec s1 L1 k1 b1 h1) as (s2 & Ha & HL2 & HH2 & Hsr);
    [apply HI1|apply HI1|done|done|apply Hwf1|by eapply pend_not_free|].
  destruct (same_rest_order _ _ _ _ Hsr Hh1) as (h2 & Hh2 & Ho2).
  destruct (mark_allocatable_spec s2 b1 k1 h2 HH2 Hh2) as (fa & Hma & Hlen & Hfa);
    [congruence|done|by rewrite (sr_frames _ _ Hsr); apply HI1|].
  rewrite (sr_frames _ _ Hsr) in Hfa.
  exists (set_frame_array fa s2). split_and!.
  - unfold deallocate. rewrite H0. mstep Hgb. mstep Hm. mstep Ha. exact Hma.
  - simpl. rewrite (sr_zone _ _ Hsr). done.
  - exists (upd L1 k1 (b1 :: L1 k1)). by apply (inv_put_free s1).
Qed.

(** ** Construction *)

Definition zone_ok (zb : Z) : Prop := 0 < zb /\ zb mod 4096 = 0 /\ zb + 2 ^ 21 <= 2 ^ 64.

(** The state the constructor leaves: one free block of the largest order. *)
Definition fresh_buddy (zb : Z) : BuddyAllocator :=
  mkBuddy zb (9 :: replicate 511 DONT_ALLOCATE) (replicate 9 None ++ [Some 0])
    ((fun i => mkHeader None (if decide (i = 0) then 9 else 0) i) <$> seqZ 0 512).

Lemma new_buddy_run zb : zone_ok zb -> new_buddy zb = Ret (fresh_buddy zb).
Proof.
  intros (Hz0 & _ & Hz). unfold new_buddy, construct. mlift.
  assert (He : get_zone_end (blank_buddy zb) = Ret (u64 (zb + 2 ^ 21))) by done.
  unfold get. rewrite He. mlift. cbn [zone_begin blank_buddy].
  assert (Hd : size_to_order (u64 (u64 (zb + 2 ^ 21) - zb)) = Ret 9).
  { assert (Hu : u64 (u64 (zb + 2 ^ 21) - zb) = 2 ^ 21); [|by rewrite Hu].
    unfold u64. rewrite Zminus_mod_idemp_l. replace (zb + 2 ^ 21 - zb) with (2 ^ 21) by lia. done. }
  rewrite Hd. mlift. clear. vm_compute. reflexivity.
Qed.

Definition fresh_list (k : Z) : list Z := if decide (k = 9) then [0] else [].

Lemma fresh_list_mem k b : b ∈ fresh_list k <-> b = 0 /\ k = 9.
Proof. unfold fresh_list. case_decide; set_solver. Qed.

Lemma fresh_header i : 0 <= i < 512 ->
  arr_get (headers (fresh_buddy 0)) i = Some (mkHeader None (if decide (i = 0) then 9 else 0) i).
Proof.
  intros Hi. unfold arr_get. rewrite decide_True by lia. cbn [headers fresh_buddy].
  rewrite list_lookup_fmap, lookup_seqZ_lt by lia. simpl. by rewrite Z2Nat.id by lia.
Qed.

Lemma fresh_frame i : 0 <= i < 512 ->
  arr_get (frame_array (fresh_buddy 0)) i = Some (if decide (i = 0) then 9 else DONT_ALLOCATE).
Proof.
  intros Hi. unfold arr_get. rewrite decide_True by lia. cbn [frame_array fresh_buddy].
  case_decide; [by subst|]. replace (Z.to_nat i) with (S (Z.to_nat (i - 1))) by lia.
  change (replicate 511 DONT_ALLOCATE !! Z.to_nat (i - 1) = Some DONT_ALLOCATE).
  rewrite lookup_replicate_2; [done|lia].
Qed.

Lemma fresh_lists_ok zb : lists_ok (fresh_buddy zb) fresh_list.
Proof.
  split; [done|..].
  - intros k Hk. unfold NR_ORDERS in Hk.
    assert (Hin : k ∈ seqZ 0 10) by (apply elem_of_seqZ; lia).
    assert (Hall : Forall (fun k => arr_get (free_lists (fresh_buddy zb)) k = Some (head (fresh_list k))) (seqZ 0 10))
      by (repeat constructor).
    rewrite list.Forall_forall in Hall. exists (head (fresh_list k)). split; [by apply Hall|].
    unfold fresh_list. case_decide; [|done]. simpl. split; [done|]. eexists. split; [by apply (fresh_header 0)|done].
  - intros k. unfold fresh_list. case_decide; [apply NoDup_singleton|apply NoDup_nil_2].
  - intros k b [-> ->]%fresh_list_mem. eexists. split; [by apply (fresh_header 0)|done].
  - intros k b [-> ->]%fresh_list_mem. unfold NR_ORDERS. lia.
Qed.

Lemma fresh_headers_ok zb : headers_ok (fresh_buddy zb).
Proof.
  split; [done|]. intros i h Hh. pose proof (arr_get_Some_range _ _ _ Hh) as Hi.
  change (Z.of_nat _) with 512 in Hi. change (headers (fresh_buddy zb)) with (headers (fresh_buddy 0)) in Hh.
  rewrite fresh_header in Hh by done. by injection Hh as <-.
Qed.

Lemma fresh_inv zb : zone_ok zb -> buddy_inv (fresh_buddy zb) ∅ fresh_list None.
Proof.
  intros Hz.
  assert (Htile : forall t b k, tile ∅ fresh_list None t b k -> t = KFree /\ b = 0 /\ k = 9).
  { intros [] b k; simpl; [by rewrite lookup_empty|by intros ?%fresh_list_mem|done]. }
  split; [apply fresh_lists_ok|apply fresh_headers_ok|done|done|..].
  - split.
    + intros t b k (-> & -> & ->)%Htile. unfold wf_block, NR_ORDERS, NR_FRAMES.
      split_and!; try lia. apply Z.divide_0_r.
    + intros t b k t' b' k' i (-> & -> & ->)%Htile (-> & -> & ->)%Htile. done.
    + intros i Hi. exists KFree, 0, 9. split; [by apply fresh_list_mem|done].
  - intros b k Hk (_ & -> & ->)%Htile. unfold NR_ORDERS in Hk. lia.
  - intros t b k (-> & -> & ->)%Htile. eexists. split; [by apply (fresh_header 0)|done].
  - intros b k i [-> ->]%fresh_list_mem Hi. by apply fresh_frame.
  - intros b k i. by rewrite lookup_empty.
Qed.

(** ** Sequences of requests *)

Inductive request := RAlloc (size : Z) | RFree (frame : Z).

(** The addresses handed out are those of live blocks; a client frees only those. *)
Definition serve (r : request) : M BuddyAllocator Z :=
  match r with
  | RAlloc size => allocate size
  | RFree b => s ← get; deallocate (zone_begin s + b * PAGE_SIZE);; mret 0
  end.

(** Abstract specification: the live blocks before and after a request, and
    the block a request is answered with. *)
Inductive request_step : gmap Z Z -> request -> option Z -> gmap Z Z -> Prop :=
| step_alloc live size b :
    wf_block b (order_of_size size) ->
    (forall c j i, live !! c = Some j -> in_block i c j -> ~ in_block i b (order_of_size size)) ->
    request_step live (RAlloc size) (Some b) (<[b := order_of_size size]> live)
| step_null live size :
    NR_ORDERS <= order_of_size size \/ exhausted live (order_of_size size) ->
    request_step live (RAlloc size) None live
| step_free live b k :
    live !! b = Some k -> request_step live (RFree b) None (delete b live).

(** A client that asks for sizes up to 2^42 and frees only what it holds. *)
Definition valid_request (live : gmap Z Z) (r : request) : Prop :=
  match r with
  | RAlloc size => 0 <= size <= 2 ^ 42
  | RFree b => is_Some (live !! b)
  end.

(** The address of the answer, 0 for [nullptr]. *)
Definition answer_addr (zb : Z) (a : option Z) : Z :=
  match a with Some b => zb + b * PAGE_SIZE | None => 0 end.

Lemma serve_spec s live r :
  buddy_rep s live -> valid_request live r ->
  exists a live' s', serve r s = Ret (answer_addr (zone_begin s) a, s') /\
    request_step live r a live' /\ zone_begin s' = zone_begin s /\ buddy_rep s' live'.
Proof.
  intros Hrep Hv. destruct r as [size|b]; simpl in *.
  - destruct (allocate_spec s live size Hrep Hv) as (p & s' & Hrun & Hall). inversion Hall; subst.
    + exists (Some b), (<[b := order_of_size size]> live), s'. rewrite Hrun. split_and!; [by rewrite <- PAGE_SIZE_eq| |done..].
      apply step_alloc; [done|]. intros c j i Hc Hi Hbi.
      assert (Hbc : b <> c) by (intros ->; congruence). apply Hbc.
      eapply (rep_live_disjoint s' _ b _ c j i); [done|apply lookup_insert_eq| |done..].
      by rewrite lookup_insert_ne.
    + exists None, live, s'. split_and!; [done|apply step_null; auto|done..].
    + exists None, live, s'. split_and!; [done|apply step_null; auto|done..].
  - destruct Hv as [k Hb]. destruct (deallocate_spec s live b k Hrep Hb) as (s' & Hrun & Hz & Hrep').
    exists None, (delete b live), s'. split_and!; [|by eapply step_free|done..].
    unfold mbind, M_bind, get. rewrite PAGE_SIZE_eq, Hrun. done.
Qed.

(** The states a client reaches from construction, with the blocks it holds. *)
Inductive reachable (zb : Z) : BuddyAllocator -> gmap Z Z -> Prop :=
| reach_init s : new_buddy zb = Ret s -> reachable zb s ∅
| reach_alloc s live size p s' :
    reachable zb s live -> 0 <= size <= 2 ^ 42 -> allocate size s = Ret (p, s') ->
    reachable zb s' (if p =? 0 then live else <[(p - zb) / PAGE_SIZE := order_of_size size]> live)
| reach_free s live b k s' :
    reachable zb s live -> live !! b = Some k -> deallocate (zb + b * PAGE_SIZE) s = Ret (tt, s') ->
    reachable zb s' (delete b live).

Lemma reachable_rep zb s live : zone_ok zb -> reachable zb s live -> zone_begin s = zb /\ buddy_rep s live.
Proof.
  intros Hz. induction 1 as [s Hs|s live size p s' _ [Hzb Hrep] Hsize Hrun|s live b k s' _ [Hzb Hrep] Hb Hrun].
  - rewrite new_buddy_run in Hs by done. injection Hs as <-. split; [done|].
    exists fresh_list. by apply fresh_inv.
  - destruct (allocate_spec s live size Hrep Hsize) as (p0 & s0 & Hrun' & Hall).
    rewrite Hrun in Hrun'. injection Hrun' as <- <-. destruct Hrep as [L HI].
    inversion Hall as [b s1 Hwf Hnone Hz' Hrep' Hp Hs1| |]; subst;
      [|by split; [|exists L]..].
    destruct (frame_addr _ _ _ _ _ _ HI Hwf) as [_ Haddr].
    rewrite (proj2 (Z.eqb_neq _ 0)) by lia. split; [done|].
    replace ((zone_begin s + b * 4096 - zone_begin s) / PAGE_SIZE) with b; [done|].
    rewrite PAGE_SIZE_eq. replace (zone_begin s + b * 4096 - zone_begin s) with (b * 4096) by lia.
    by rewrite Z.div_mul.
  - destruct (deallocate_spec s live b k Hrep Hb) as (s0 & Hrun' & Hz' & Hrep').
    rewrite PAGE_SIZE_eq, <- Hzb, Hrun' in Hrun. injection Hrun as <-. by split; [congruence|].
Qed.

(** ** The contract *)

(** C1. Every request of a client that asks for at most 2^42 bytes and frees
    only blocks it holds returns (no panic, no fault, no endless loop), and its
    answer and the blocks held afterwards are those of the abstract
    specification: a new block is aligned to its size, inside the zone, and
    disjoint from every block held; null is answered only when the request is
    larger than the zone or no aligned block of its order is left. *)
Theorem buddy_refines_live_blocks s live r :
  buddy_rep s live -> valid_request live r ->
  exists a live' s', serve r s = Ret (answer_addr (zone_begin s) a, s') /\
    request_step live r a live' /\ zone_begin s' = zone_begin s /\ buddy_rep s' live'.
Proof. apply serve_spec. Qed.

(** C2. In every state reached from construction by such requests, the blocks
    held are aligned, inside the zone and pairwise disjoint, every further
    request of the client returns, and the state is again a reachable one. *)
Theorem buddy_reachable_safe zb s live :
  zone_ok zb -> reachable zb s live ->
  (forall b k, live !! b = Some k -> wf_block b k) /\
  (forall b k c j i, live !! b = Some k -> live !! c = Some j ->
     in_block i b k -> in_block i c j -> b = c) /\
  (forall size, 0 <= size <= 2 ^ 42 -> exists p s', allocate size s = Ret (p, s')) /\
  (forall b, is_Some (live !! b) ->
     exists s', deallocate (zb + b * PAGE_SIZE) s = Ret (tt, s') /\ reachable zb s' (delete b live)).
Proof.
  intros Hz Hr. destruct (reachable_rep zb s live Hz Hr) as [<- Hrep]. split_and!.
  - intros b k. by apply (rep_live_wf s live).
  - intros b k c j i. by apply (rep_live_disjoint s live).
  - intros size Hs. destruct (allocate_spec s live size Hrep Hs) as (p & s' & Hrun & _). eauto.
  - intros b [k Hb]. destruct (deallocate_spec s live b k Hrep Hb) as (s' & Hrun & _).
    rewrite <- PAGE_SIZE_eq in Hrun. exists s'. split; [done|]. by eapply reach_free.
Qed.

(** C3. Coalescing is complete: once everything has been freed, in whatever
    order, the whole zone can be allocated again as one block. *)
Theorem buddy_freed_zone_is_whole zb s :
  zone_ok zb -> reachable zb s ∅ -> exists s', allocate (2 ^ 21) s = Ret (zb, s').
Proof.
  intros Hz Hr. destruct (reachable_rep zb s ∅ Hz Hr) as [<- Hrep].
  destruct (allocate_spec s ∅ (2 ^ 21) Hrep ltac:(lia)) as (p & s' & Hrun & Hall).
  exists s'. rewrite Hrun. change (order_of_size (2 ^ 21)) with 9 in Hall.
  assert (Hno : ~ exhausted ∅ 9).
  { intros Hex. destruct (Hex 0) as (c & j & i & Hc & _); [|by rewrite lookup_empty in Hc].
    unfold wf_block, NR_ORDERS, NR_FRAMES. split_and!; try lia. apply Z.divide_0_r. }
  inversion Hall as [b s1 (_ & Hb0 & _ & Hend)| |]; subst;
    [|unfold NR_ORDERS in *; lia|contradiction].
  unfold NR_FRAMES in Hend. assert (b = 0) as -> by lia. by rewrite Z.add_0_r.
Qed.

(** C4. [allocate] never answers null while an aligned block of the needed
    order is free of live frames, however fragmented the zone is. *)
Theorem buddy_allocate_complete s live size b :
  buddy_rep s live -> 0 <= size <= 2 ^ 21 -> wf_block b (order_of_size size) ->
  (forall c j i, live !! c = Some j -> in_block i c j -> ~ in_block i b (order_of_size size)) ->
  exists p s', allocate size s = Ret (p, s') /\ p <> 0.
Proof.
  intros Hrep Hs Hwf Hfree.
  destruct (allocate_spec s live size Hrep ltac:(lia)) as (p & s' & Hrun & Hall).
  exists p, s'. split; [done|]. destruct Hrep as [L HI].
  inversion Hall as [c s1 Hwfc| Hbig |_ Hex]; subst.
  - destruct (frame_addr _ _ _ _ _ _ HI Hwfc) as [_ ?]. lia.
  - destruct Hwf as [? _]. lia.
  - destruct (Hex b Hwf) as (c & j & i & Hc & Hi & Hbi). by destruct (Hfree c j i).
Qed.

(** C30. Requests beyond the range of [int] are not refused: a size in
    (2^43, 2^63] is truncated by [size_to_order] and served with a single page,
    and for a size above 2^63 the rounding loop never ends, whatever its fuel. *)
Theorem buddy_oversized_requests s size :
  (2 ^ 43 < size <= 2 ^ 63 -> allocate size s = allocate_one_page_frame s) /\
  (2 ^ 63 < size -> forall fuel, round_up_to_pow_of_2_loop fuel size 1 = OutOfFuel).
Proof.
  split.
  - intros Hs. assert (Ho : size_to_order (2 ^ Z.log2_up size) = Ret 0).
    { assert (Hl : 44 <= Z.log2_up size <= 63).
      { split; [|rewrite <- (Z.log2_up_pow2 63) by lia; apply Z.log2_up_le_mono; lia].
        assert (43 < Z.log2_up size); [|lia]. apply Z.log2_up_lt_pow2; lia. }
      unfold size_to_order. rewrite PAGE_SIZE_eq.
      replace (2 ^ Z.log2_up size) with (2 ^ (Z.log2_up size - 44) * 2 ^ 32 * 4096)
        by (change 4096 with (2 ^ 12); rewrite <- !Z.pow_add_r by lia; f_equal; lia).
      rewrite Z.div_mul by lia. unfold s32.
      rewrite <- Z.add_mod_idemp_l, Z.mod_mul by lia. done. }
    unfold allocate_one_page_frame, allocate, normalize_size.
    rewrite !round_up_pow2_spec by (rewrite ?PAGE_SIZE_eq; lia). mlift. rewrite Ho.
    change (size_to_order (2 ^ Z.log2_up PAGE_SIZE)) with (Ret 0). mlift.
    rewrite (proj2 (Z.eqb_neq (2 ^ Z.log2_up size) 0)); [done|].
    pose proof (pow2_pos (Z.log2_up size) (Z.log2_up_nonneg size)). lia.
  - intros Hs fuel. by apply (round_up_pow2_loop_diverges fuel size 0).
Qed.

(** ** Witnesses *)

Definition zone0 : Z := 0x10000000.

Lemma zone0_ok : zone_ok zone0.
Proof. split_and!; [reflexivity|reflexivity|unfold zone0; lia]. Qed.

Lemma fresh_rep zb : zone_ok zb -> buddy_rep (fresh_buddy zb) ∅.
Proof. intros Hz. exists fresh_list. by apply fresh_inv. Qed.

(** A zone with one block of two pages handed out. *)
Definition demo_state : BuddyAllocator :=
  match allocate 5000 (fresh_buddy zone0) with Ret (_, s) => s | _ => fresh_buddy zone0 end.

Lemma demo_reachable : reachable zone0 demo_state {[0 := 1]}.
Proof.
  assert (Hrun : allocate 5000 (fresh_buddy zone0) = Ret (zone0, demo_state)) by (vm_compute; reflexivity).
  pose proof (reach_alloc zone0 _ ∅ 5000 _ _ (reach_init zone0 _ (new_buddy_run _ zone0_ok)) ltac:(lia) Hrun) as H.
  exact H.
Qed.

Lemma buddy_refines_live_blocks_witness :
  exists a live' s', serve (RAlloc 5000) (fresh_buddy zone0) = Ret (answer_addr zone0 a, s') /\
    request_step ∅ (RAlloc 5000) a live' /\ zone_begin s' = zone0 /\ buddy_rep s' live'.
Proof.
  apply (buddy_refines_live_blocks (fresh_buddy zone0) ∅ (RAlloc 5000)).
  - exact (fresh_rep _ zone0_ok).
  - simpl. lia.
Defined.

Lemma buddy_reachable_safe_witness :
  exists s', deallocate (zone0 + 0 * PAGE_SIZE) demo_state = Ret (tt, s') /\
             reachable zone0 s' (delete 0 {[0 := 1]}).
Proof.
  apply (buddy_reachable_safe zone0 demo_state {[0 := 1]} zone0_ok demo_reachable).
  exists 1. reflexivity.
Defined.

Lemma buddy_freed_zone_is_whole_witness :
  exists s', allocate (2 ^ 21) (fresh_buddy zone0) = Ret (zone0, s').
Proof.
  exact (buddy_freed_zone_is_whole zone0 (fresh_buddy zone0) zone0_ok
           (reach_init zone0 _ (new_buddy_run _ zone0_ok))).
Defined.

Lemma buddy_allocate_complete_witness :
  exists p s', allocate (2 ^ 20) demo_state = Ret (p, s') /\ p <> 0.
Proof.
  apply (buddy_allocate_complete demo_state {[0 := 1]} (2 ^ 20) 256).
  - exact (proj2 (reachable_rep _ _ _ zone0_ok demo_reachable)).
  - lia.
  - change (order_of_size (2 ^ 20)) with 8. unfold wf_block, NR_ORDERS, NR_FRAMES.
    split_and!; try lia. by exists 1.
  - intros c j i [<- <-]%lookup_singleton_Some. change (order_of_size (2 ^ 20)) with 8.
    unfold in_block. lia.
Defined.

Lemma buddy_oversized_requests_witness :
  allocate (2 ^ 44) (fresh_buddy zone0) = allocate_one_page_frame (fresh_buddy zone0).
Proof. apply (buddy_oversized_requests (fresh_buddy zone0) (2 ^ 44)). lia. Defined.
