(* ===== verification/CString.v ===== *)
(** * lib/CString.cc: memory and C strings

    Memory is anything that can be read and written by address, the class
    [Store]: the flat memory of the machine ([gmap Z Z], an unmapped address
    faults) and a single [char] buffer ([list Z], an index out of bounds
    faults).  The functions that only read take a [reader]; the functions that
    write run in the store, so that source and destination may overlap.  Every
    loop over a string takes fuel: a string that is stored ends before the
    fuel, which is the number of cells of the store, is used up. *)

From Stdlib Require Import ZArith Lia.
From stdpp Require Import base gmap list numbers.
From S2P Require Import Prelude.

Open Scope Z_scope.

(** ** Stores *)

Class Store (St : Type) := {
  ld : St -> Z -> option Z;
  st : St -> Z -> Z -> option St;
  extent : St -> nat
}.

Class StoreLaws (St : Type) `{Store St} : Prop := {
  st_ok : forall s a v, is_Some (ld s a) -> exists s', st s a v = Some s';
  st_mapped : forall s a v s', st s a v = Some s' -> is_Some (ld s a);
  ld_st : forall s a v s' b, st s a v = Some s' -> ld s' b = if decide (a = b) then Some v else ld s b;
  st_extent : forall s a v s', st s a v = Some s' -> extent s' = extent s;
  ld_extent : forall s p (n : nat), (forall i, 0 <= i < Z.of_nat n -> is_Some (ld s (p + i))) ->
    (n <= extent s)%nat
}.

Abbreviation mem := (gmap Z Z).

#[export] Instance mem_store : Store mem := {
  ld m a := m !! a;
  st m a v := match m !! a with Some _ => Some (<[a := v]> m) | None => None end;
  extent m := size m
}.

#[export] Instance buf_store : Store (list Z) := {
  ld l a := arr_get l a;
  st l a v := arr_set l a v;
  extent l := length l
}.

Definition reader := Z -> option Z.

Definition rd (r : reader) (a : Z) : outcome Z :=
  match r a with Some v => Ret v | None => Fault end.

(** ** Reading functions *)

Fixpoint memcmp_loop (n : nat) (r1 r2 : reader) (p1 p2 : Z) : outcome Z :=
  match n with
  | O => Ret 0
  | S n =>
      c1 ← rd r1 p1; c2 ← rd r2 p2;
      if negb (c1 =? c2) then Ret (if c1 <? c2 then -1 else 1)
      else memcmp_loop n r1 r2 (p1 + 1) (p2 + 1)
  end.

Definition memcmp (r1 r2 : reader) (ptr1 ptr2 num : Z) : outcome Z :=
  memcmp_loop (Z.to_nat num) r1 r2 ptr1 ptr2.

Fixpoint strlen_loop (fuel : nat) (r : reader) (s len : Z) : outcome Z :=
  match fuel with
  | O => OutOfFuel
  | S fuel =>
      c ← rd r s;
      if c =? 0 then Ret len else strlen_loop fuel r (s + 1) (len + 1)
  end.

Definition strlen (fuel : nat) (r : reader) (s : Z) : outcome Z := strlen_loop fuel r s 0.

Fixpoint strcmp (fuel : nat) (r1 r2 : reader) (s1 s2 : Z) : outcome Z :=
  match fuel with
  | O => OutOfFuel
  | S fuel =>
      c1 ← rd r1 s1; c2 ← rd r2 s2;
      if (c1 =? 0) && (c2 =? 0) then Ret 0
      else if c1 =? c2 then strcmp fuel r1 r2 (s1 + 1) (s2 + 1)
      else Ret (c1 - c2)
  end.

Fixpoint strncmp (fuel : nat) (r1 r2 : reader) (s1 s2 n : Z) : outcome Z :=
  match fuel with
  | O => OutOfFuel
  | S fuel =>
      c1 ← rd r1 s1;
      more ← (if c1 =? 0 then c2 ← rd r2 s2; Ret (negb (c2 =? 0)) else Ret true);
      if negb (more : bool) then Ret 0
      else if n =? 0 then Ret 0
      else
        c2 ← rd r2 s2;
        if c1 =? c2 then strncmp fuel r1 r2 (s1 + 1) (s2 + 1) (n - 1)
        else Ret (c1 - c2)
  end.

(** The inner loop of [strstr]: does the needle occur at [h]? *)
Fixpoint strstr_match (n : nat) (rh rn : reader) (h s : Z) : outcome bool :=
  match n with
  | O => Ret true
  | S n =>
      a ← rd rh h; b ← rd rn s;
      if a =? b then strstr_match n rh rn (h + 1) (s + 1) else Ret false
  end.

(** The outer loop: [n] positions from [i] on. *)
Fixpoint strstr_loop (n : nat) (rh rn : reader) (haystack i needle needle_size : Z) : outcome (option Z) :=
  match n with
  | O => Ret None
  | S n =>
      matched ← strstr_match (Z.to_nat needle_size) rh rn (haystack + i) needle;
      if (matched : bool) then Ret (Some (haystack + i))
      else strstr_loop n rh rn haystack (i + 1) needle needle_size
  end.

Definition strstr (fuel : nat) (rh rn : reader) (haystack needle : Z) : outcome (option Z) :=
  hl ← strlen fuel rh haystack;
  nl ← strlen fuel rn needle;
  let haystack_size := s32 hl in
  let needle_size := s32 nl in
  if needle_size =? 0 then Ret None
  else strstr_loop (Z.to_nat (haystack_size - needle_size + 1)) rh rn haystack 0 needle needle_size.

(** *** atoi *)

Definition is_digit_c (c : Z) : bool := (48 <=? c) && (c <=? 57).
Definition is_alphanumeric (c : Z) : bool :=
  is_digit_c c || ((65 <=? c) && (c <=? 70)) || ((97 <=? c) && (c <=? 102)).
Definition to_decimal (c : Z) : Z :=
  if is_digit_c c then c - 48
  else if (65 <=? c) && (c <=? 70) then c - 65 + 10
  else if (97 <=? c) && (c <=? 102) then c - 97 + 10
  else 0.

Definition is_valid (base : Z) : Z -> bool := if base =? 10 then is_digit_c else is_alphanumeric.

(** [while (str[pos] == ' ') ++pos;] *)
Fixpoint skip_spaces (fuel : nat) (r : reader) (str pos : Z) : outcome Z :=
  match fuel with
  | O => OutOfFuel
  | S fuel =>
      c ← rd r (str + pos);
      if c =? 32 then skip_spaces fuel r str (pos + 1) else Ret pos
  end.

Definition saturated (is_negative : bool) : Z := if is_negative then INT_MIN else INT_MAX.

Fixpoint atoi_loop (fuel : nat) (r : reader) (str len ptr result base : Z) (is_negative : bool) : outcome Z :=
  match fuel with
  | O => OutOfFuel
  | S fuel =>
      if ptr <? s32 len then
        c ← rd r (str + ptr);
        if is_valid base c then
          if INT_MAX `quot` base <? result then Ret (saturated is_negative)
          else
            let result := result * base in
            let next_digit := to_decimal c in
            if INT_MAX - next_digit <? result then Ret (saturated is_negative)
            else atoi_loop fuel r str len (ptr + 1) (result + next_digit) base is_negative
        else Ret (if is_negative then - result else result)
      else Ret (if is_negative then - result else result)
  end.

Definition atoi (fuel : nat) (r : reader) (str base : Z) : outcome Z :=
  pos ← skip_spaces fuel r str 0;
  let str := str + pos in
  len ← strlen fuel r str;
  c0 ← rd r str;
  if negb (c0 =? 43) && negb (c0 =? 45) && negb (is_valid base c0) then Ret 0
  else
    let is_negative := c0 =? 45 in
    let ptr := if (c0 =? 45) || (c0 =? 43) then 1 else 0 in
    atoi_loop fuel r str len ptr 0 base is_negative.

(** ** Writing functions

    [src] is a reader of the current store, so that the same loop serves a copy
    inside one memory and a copy from another object. *)

Section writers.
Context {St : Type} `{Store St}.
Implicit Types (src : St -> reader).

Definition load (src : St -> reader) (a : Z) : M St Z := s ← get; lift (rd (src s) a).
Definition store (a v : Z) : M St unit :=
  s ← get; match st s a v with Some s' => put s' | None => fault end.

Fixpoint memcpy_loop (n : nat) (src : St -> reader) (dest_p src_p : Z) : M St unit :=
  match n with
  | O => mret tt
  | S n =>
      c ← load src src_p;
      store dest_p c;;
      memcpy_loop n src (dest_p + 1) (src_p + 1)
  end.

Definition memcpy (src : St -> reader) (dest source n : Z) : M St Z :=
  memcpy_loop (Z.to_nat n) src dest source;; mret dest.

Fixpoint memset_loop (n : nat) (dest_p val : Z) : M St unit :=
  match n with
  | O => mret tt
  | S n => store dest_p val;; memset_loop n (dest_p + 1) val
  end.

Definition memset (dest val n : Z) : M St Z :=
  memset_loop (Z.to_nat n) dest (u8 val);; mret dest.

(** [while ( *src) *dest++ = *src++; *dest = 0;] *)
Fixpoint strcpy_loop (fuel : nat) (src : St -> reader) (dest s : Z) : M St unit :=
  match fuel with
  | O => out_of_fuel
  | S fuel =>
      c ← load src s;
      if c =? 0 then store dest 0
      else store dest c;; strcpy_loop fuel src (dest + 1) (s + 1)
  end.

Definition strcpy (fuel : nat) (src : St -> reader) (dest s : Z) : M St Z :=
  strcpy_loop fuel src dest s;; mret dest.

Fixpoint strncpy_loop (fuel : nat) (src : St -> reader) (dest s n : Z) : M St unit :=
  match fuel with
  | O => out_of_fuel
  | S fuel =>
      c ← load src s;
      if (c =? 0) || (n =? 0) then store dest 0
      else store dest c;; strncpy_loop fuel src (dest + 1) (s + 1) (n - 1)
  end.

Definition strncpy (fuel : nat) (src : St -> reader) (dest s n : Z) : M St Z :=
  strncpy_loop fuel src dest s n;; mret dest.

Definition strcat (fuel : nat) (src : St -> reader) (dest s : Z) : M St Z :=
  st0 ← get;
  len ← lift (strlen fuel (ld st0) dest);
  strcpy_loop fuel src (dest + len) s;;
  mret dest.
End writers.

(** ** Laws of the stores *)

#[export] Instance mem_store_laws : StoreLaws mem.
Proof.
  split; unfold ld, st, extent, mem_store.
  - intros s a v [x ->]. eauto.
  - intros s a v s'. by destruct (s !! a).
  - intros s a v s' b. destruct (s !! a) eqn:E; [|done]. intros [= <-]. apply lookup_insert.
  - intros s a v s'. destruct (s !! a) eqn:E; [|done]. intros [= <-].
    rewrite map_size_insert_Some; [done|eauto].
  - intros s p n Hn.
    transitivity (size (list_to_set (seqZ p (Z.of_nat n)) : gset Z)).
    { rewrite size_list_to_set by apply NoDup_seqZ. rewrite length_seqZ. lia. }
    rewrite <- size_dom. apply subseteq_size. intros a. rewrite elem_of_list_to_set, elem_of_seqZ.
    intros Ha. apply elem_of_dom. replace a with (p + (a - p)) by lia. apply Hn. lia.
Qed.

#[export] Instance buf_store_laws : StoreLaws (list Z).
Proof.
  split; unfold ld, st, extent, buf_store.
  - intros s a v [x Hx]. exists (<[Z.to_nat a := v]> s). apply arr_set_is_Some. by eapply arr_get_Some_range.
  - intros s a v s' Hs. apply arr_set_Some_range, arr_get_is_Some in Hs as [x ->]. eauto.
  - intros s a v s' b. apply arr_get_set.
  - intros s a v s'. apply arr_set_length.
  - intros s p n Hn. destruct n as [|n]; [lia|].
    destruct (Hn 0 ltac:(lia)) as [x Hx]. destruct (Hn (Z.of_nat n) ltac:(lia)) as [y Hy].
    apply arr_get_Some_range in Hx, Hy. lia.
Qed.

(** ** Stored strings and bytes *)

(** The string [s], with its terminator, is stored at [p]. *)
Fixpoint cstr (r : reader) (p : Z) (s : list Z) : Prop :=
  match s with
  | [] => r p = Some 0
  | c :: s => r p = Some c /\ c <> 0 /\ cstr r (p + 1) s
  end.

(** The bytes [l] are stored at [p]. *)
Fixpoint bytes_at (r : reader) (p : Z) (l : list Z) : Prop :=
  match l with
  | [] => True
  | c :: l => r p = Some c /\ bytes_at r (p + 1) l
  end.

Lemma cstr_mapped r p s i : cstr r p s -> 0 <= i <= Z.of_nat (length s) -> is_Some (r (p + i)).
Proof.
  revert p i. induction s as [|c s IH]; intros p i; cbn [cstr length].
  - intros Hr Hi. replace (p + i) with p by lia. eauto.
  - intros (Hr & _ & Hs) Hi. destruct (decide (i = 0)) as [->|Hne]; [rewrite Z.add_0_r; eauto|].
    replace (p + i) with (p + 1 + (i - 1)) by lia. apply IH; [done|lia].
Qed.

Lemma cstr_extent `{StoreLaws St} (s : St) p l : cstr (ld s) p l -> (length l < extent s)%nat.
Proof.
  intros Hl. apply (ld_extent s p (S (length l))). intros i Hi. apply (cstr_mapped _ _ l); [done|lia].
Qed.

Lemma bytes_at_ext r r' p l :
  (forall a, p <= a < p + Z.of_nat (length l) -> r' a = r a) -> bytes_at r p l -> bytes_at r' p l.
Proof.
  revert p. induction l as [|c l IH]; intros p He; cbn [bytes_at length] in *; [done|].
  intros [Hr Hl]. split; [rewrite He by lia; done|]. apply IH; [|done]. intros a Ha. apply He. lia.
Qed.

Lemma cstr_ext r r' p s :
  (forall a, p <= a <= p + Z.of_nat (length s) -> r' a = r a) -> cstr r p s -> cstr r' p s.
Proof.
  revert p. induction s as [|c s IH]; intros p He; cbn [cstr length] in *; [rewrite He by lia; done|].
  intros (Hr & Hc & Hs). split_and!; [rewrite He by lia; done|done|]. apply IH; [|done].
  intros a Ha. apply He. lia.
Qed.

Lemma cstr_bytes r p s : cstr r p s <-> bytes_at r p (s ++ [0]) /\ Forall (fun c => c <> 0) s.
Proof.
  revert p. induction s as [|c s IH]; intros p; cbn [cstr bytes_at app].
  - naive_solver.
  - rewrite IH, list.Forall_cons. naive_solver.
Qed.

Lemma bytes_at_app r p l1 l2 :
  bytes_at r p (l1 ++ l2) <-> bytes_at r p l1 /\ bytes_at r (p + Z.of_nat (length l1)) l2.
Proof.
  revert p. induction l1 as [|c l1 IH]; intros p; cbn [bytes_at app length].
  - rewrite Z.add_0_r. naive_solver.
  - rewrite IH. replace (p + 1 + Z.of_nat (length l1)) with (p + Z.of_nat (S (length l1))) by lia. naive_solver.
Qed.

Lemma cstr_suffix r p s1 s2 : cstr r p (s1 ++ s2) -> cstr r (p + Z.of_nat (length s1)) s2.
Proof.
  rewrite !cstr_bytes, <- app_assoc, bytes_at_app, list.Forall_app. naive_solver.
Qed.

(** ** Reading functions *)

Lemma rd_run (r : reader) a v : r a = Some v -> rd r a = Ret v.
Proof. intros H. unfold rd. by rewrite H. Qed.

Lemma strlen_loop_spec fuel r p s len :
  cstr r p s -> (length s < fuel)%nat -> strlen_loop fuel r p len = Ret (len + Z.of_nat (length s)).
Proof.
  revert p s len. induction fuel as [|fuel IH]; intros p s len Hs Hf; [lia|].
  cbn [strlen_loop]. destruct s as [|c s]; cbn [cstr] in Hs.
  - rewrite (rd_run _ _ _ Hs). simpl. f_equal. lia.
  - destruct Hs as (Hr & Hc & Hs). rewrite (rd_run _ _ _ Hr). cbn -[Z.of_nat].
    rewrite (proj2 (Z.eqb_neq c 0)) by done. rewrite (IH _ _ _ Hs); [|simpl in Hf; lia]. f_equal. simpl. lia.
Qed.

Lemma strlen_spec fuel r p s :
  cstr r p s -> (length s < fuel)%nat -> strlen fuel r p = Ret (Z.of_nat (length s)).
Proof. intros. unfold strlen. by rewrite (strlen_loop_spec _ _ _ s). Qed.

(** The difference of the first characters at which two strings differ. *)
Fixpoint strdiff (s1 s2 : list Z) : Z :=
  match s1, s2 with
  | [], [] => 0
  | [], c :: _ => - c
  | c :: _, [] => c
  | a :: s1, b :: s2 => if a =? b then strdiff s1 s2 else a - b
  end.

Lemma strdiff_0 s1 s2 : Forall (fun c => c <> 0) s1 -> Forall (fun c => c <> 0) s2 ->
  strdiff s1 s2 = 0 <-> s1 = s2.
Proof.
  intros H1. revert s2. induction H1 as [|a s1 Ha H1 IH]; intros s2 H2.
  - destruct H2; simpl; [done|]. split; [lia|done].
  - destruct H2 as [|b s2 Hb H2]; simpl; [split; [lia|done]|].
    destruct (Z.eqb_spec a b) as [->|Hne]; [rewrite IH by done; naive_solver|].
    split; [lia|]. intros [=]. done.
Qed.

Lemma strcmp_spec fuel r1 r2 p1 p2 s1 s2 :
  cstr r1 p1 s1 -> cstr r2 p2 s2 -> (length s1 < fuel)%nat -> strcmp fuel r1 r2 p1 p2 = Ret (strdiff s1 s2).
Proof.
  revert p1 p2 s1 s2. induction fuel as [|fuel IH]; intros p1 p2 s1 s2 H1 H2 Hf; [lia|].
  cbn [strcmp].
  destruct s1 as [|a s1], s2 as [|b s2]; cbn [cstr] in H1, H2;
    repeat match goal with H : _ /\ _ |- _ => destruct H end;
    repeat match goal with H : _ = Some _ |- _ => rewrite (rd_run _ _ _ H); clear H; cbn [mbind outcome_bind] end.
  - done.
  - by destruct b.
  - cbn. rewrite (proj2 (Z.eqb_neq a 0)) by lia. cbn. rewrite Z.sub_0_r. done.
  - cbn. rewrite (proj2 (Z.eqb_neq a 0)) by lia. cbn.
    destruct (Z.eqb_spec a b) as [->|]; [|done]. apply IH; [done..|]. simpl in Hf. lia.
Qed.

Lemma strncmp_spec fuel r1 r2 p1 p2 s1 s2 n :
  cstr r1 p1 s1 -> cstr r2 p2 s2 -> 0 <= n -> (length s1 < fuel)%nat ->
  strncmp fuel r1 r2 p1 p2 n = Ret (strdiff (take (Z.to_nat n) s1) (take (Z.to_nat n) s2)).
Proof.
  revert p1 p2 s1 s2 n. induction fuel as [|fuel IH]; intros p1 p2 s1 s2 n H1 H2 Hn Hf; [lia|].
  cbn [strncmp].
  destruct s1 as [|a s1], s2 as [|b s2]; cbn [cstr] in H1, H2;
    repeat match goal with H : _ /\ _ |- _ => destruct H end;
    repeat match goal with H : _ = Some _ |- _ => rewrite !(rd_run _ _ _ H); clear H; cbn [mbind outcome_bind] end.
  - cbn. by rewrite !take_nil.
  - rewrite (proj2 (Z.eqb_neq b 0)) by lia. cbn [negb Z.eqb]. rewrite take_nil.
    destruct (Z.eqb_spec n 0) as [->|]; [done|]. replace (Z.to_nat n) with (S (Z.to_nat (n - 1))) by lia.
    by destruct b.
  - cbn. rewrite (proj2 (Z.eqb_neq a 0)) by lia. cbn. rewrite take_nil.
    destruct (Z.eqb_spec n 0) as [->|]; [done|]. replace (Z.to_nat n) with (S (Z.to_nat (n - 1))) by lia.
    by destruct a.
  - cbn. rewrite (proj2 (Z.eqb_neq a 0)) by lia. cbn.
    destruct (Z.eqb_spec n 0) as [->|]; [done|]. replace (Z.to_nat n) with (S (Z.to_nat (n - 1))) by lia.
    cbn. destruct (Z.eqb_spec a b) as [->|]; [|done]. rewrite (IH _ _ s1 s2); [done..|lia|]. simpl in Hf. lia.
Qed.

(** [strstr] *)

Lemma strstr_match_spec rh rn h p t s :
  cstr rh h t -> bytes_at rn p s -> Forall (fun c => c <> 0) s -> (length s <= length t)%nat ->
  strstr_match (length s) rh rn h p = Ret (bool_decide (s `prefix_of` t)).
Proof.
  intros Ht Hs Hnz. revert h p t Ht Hs. induction Hnz as [|b s Hb Hnz IH]; intros h p t Ht Hs Hlen; cbn [strstr_match length].
  - rewrite bool_decide_true; [done|apply prefix_nil].
  - destruct t as [|a t]; [simpl in Hlen; lia|]. cbn [cstr bytes_at] in *.
    destruct Ht as (Ha & _ & Ht), Hs as [Hb' Hs]. rewrite (rd_run _ _ _ Ha), (rd_run _ _ _ Hb'). cbn [mbind outcome_bind].
    destruct (Z.eqb_spec a b) as [->|Hne].
    + rewrite IH with (t := t); [|done..|simpl in Hlen; lia]. f_equal. apply bool_decide_ext.
      split; [apply prefix_cons|apply prefix_cons_inv_2].
    + rewrite bool_decide_false; [done|]. intros Hp. apply prefix_cons_inv_1 in Hp. congruence.
Qed.

(** The first position from [i] on at which the needle occurs. *)
Lemma strstr_loop_spec n rh rn h p t s i :
  cstr rh h t -> cstr rn p s -> 0 <= i ->
  Z.of_nat n = Z.of_nat (length t) - Z.of_nat (length s) + 1 - i ->
  exists r, strstr_loop n rh rn h i p (Z.of_nat (length s)) = Ret r /\
    match r with
    | Some a => exists k, a = h + k /\ i <= k /\ s `prefix_of` drop (Z.to_nat k) t /\
                  forall j, i <= j < k -> ~ s `prefix_of` drop (Z.to_nat j) t
    | None => forall j, i <= j -> (Z.to_nat j <= length t)%nat -> ~ s `prefix_of` drop (Z.to_nat j) t
    end.
Proof.
  intros Ht Hs. revert i. induction n as [|n IH]; intros i Hi Hn; cbn [strstr_loop].
  - exists None. split; [done|]. intros j Hj Hjt Hp. apply prefix_length in Hp. rewrite length_drop in Hp. lia.
  - assert (Hd : cstr rh (h + i) (drop (Z.to_nat i) t)).
    { pose proof (cstr_suffix rh h (take (Z.to_nat i) t) (drop (Z.to_nat i) t)) as Hsuf.
      rewrite take_drop, length_take in Hsuf. specialize (Hsuf Ht).
      replace (Z.of_nat (Z.to_nat i `min` length t)) with i in Hsuf by lia. done. }
    apply cstr_bytes in Hs as Hs'. destruct Hs' as [Hb Hnz]. apply bytes_at_app in Hb as [Hb _].
    rewrite Nat2Z.id, (strstr_match_spec rh rn (h + i) p (drop (Z.to_nat i) t) s Hd Hb Hnz);
      [|rewrite length_drop; lia].
    cbn [mbind outcome_bind]. case_bool_decide as Hp.
    + exists (Some (h + i)). split; [done|]. exists i. split_and!; [done|lia|done|]. intros; lia.
    + destruct (IH (i + 1)) as (r & Hr & Hspec); [lia..|]. exists r. split; [done|].
      destruct r as [a|].
      * destruct Hspec as (k & -> & Hk & Hpk & Hmin). exists k. split_and!; [done|lia|done|].
        intros j Hj. destruct (decide (j = i)) as [->|]; [done|]. apply Hmin. lia.
      * intros j Hj Hjt. destruct (decide (j = i)) as [->|]; [done|]. apply Hspec; lia.
Qed.

(** ** Writing functions *)

Section writer_lemmas.
Context {St : Type} `{HSL : StoreLaws St}.
Implicit Types (s : St) (src : St -> reader).

(** Writes into [[d, d + n)] do not change what [src] reads in [[q, q + m)]. *)
Definition stable (src : St -> reader) (d n q m : Z) : Prop :=
  forall s a v s' b, st s a v = Some s' -> d <= a < d + n -> q <= b < q + m -> src s' b = src s b.

(** [s'] holds the bytes [l] at [d], and what [s] holds elsewhere. *)
Definition stored (s s' : St) (d : Z) (l : list Z) : Prop :=
  bytes_at (ld s') d l /\ extent s' = extent s /\
  forall a, ~ (d <= a < d + Z.of_nat (length l)) -> ld s' a = ld s a.

Definition mapped (s : St) (d n : Z) : Prop := forall a, d <= a < d + n -> is_Some (ld s a).

Lemma stable_disjoint d n q m : d + n <= q \/ q + m <= d -> stable ld d n q m.
Proof. intros Hd s a v s' b Hs Ha Hb. rewrite (ld_st _ _ _ _ b Hs), decide_False; [done|lia]. Qed.

Lemma stable_const (r : reader) d n q m : stable (fun _ => r) d n q m.
Proof. done. Qed.

Lemma stable_tail src d n q m : stable src d n q m -> stable src (d + 1) (n - 1) (q + 1) (m - 1).
Proof. intros Hs s a v s' b H1 H2 H3. apply (Hs s a v s' b); [done|lia..]. Qed.

Lemma load_run src s a v : src s a = Some v -> load src a s = Ret (v, s).
Proof. intros Hv. unfold load. munfold. by rewrite (rd_run _ _ _ Hv). Qed.

Lemma store_run s a v : is_Some (ld s a) -> exists s', store a v s = Ret (tt, s') /\ st s a v = Some s'.
Proof.
  intros Ha. destruct (st_ok s a v Ha) as [s' Hs']. exists s'. split; [|done].
  unfold store. munfold. by rewrite Hs'.
Qed.

Lemma stored_cons s s1 s' d c l :
  st s d c = Some s1 -> stored s1 s' (d + 1) l -> stored s s' d (c :: l).
Proof.
  intros Hst (Hb & He & Ho). unfold stored. cbn [bytes_at length]. split_and!.
  - rewrite Ho by lia. by rewrite (ld_st _ _ _ _ d Hst), decide_True.
  - done.
  - rewrite He. by eapply st_extent.
  - intros a Ha. rewrite Ho by lia. rewrite (ld_st _ _ _ _ a Hst), decide_False; [done|lia].
Qed.

Lemma mapped_tail s s1 d c n : st s d c = Some s1 -> mapped s d n -> mapped s1 (d + 1) (n - 1).
Proof.
  intros Hst Hm a Ha. rewrite (ld_st _ _ _ _ a Hst). case_decide; [eauto|]. apply Hm. lia.
Qed.

Lemma bytes_tail src s s1 d c n q l :
  st s d c = Some s1 -> stable src d n q (Z.of_nat (S (length l))) -> 0 < n ->
  bytes_at (src s) (q + 1) l -> bytes_at (src s1) (q + 1) l.
Proof.
  intros Hst Hsta Hn. apply bytes_at_ext. intros a Ha. apply (Hsta s d c s1); [done|lia..].
Qed.

Lemma memcpy_loop_spec src l s d q :
  bytes_at (src s) q l -> mapped s d (Z.of_nat (length l)) ->
  stable src d (Z.of_nat (length l)) q (Z.of_nat (length l)) ->
  exists s', memcpy_loop (length l) src d q s = Ret (tt, s') /\ stored s s' d l.
Proof.
  revert s d q. induction l as [|c l IH]; intros s d q Hb Hm Hsta; cbn [memcpy_loop length].
  - exists s. split; [done|]. unfold stored. done.
  - cbn [bytes_at] in Hb. destruct Hb as [Hc Hb]. cbn [length] in *.
    mstep (load_run _ _ _ _ Hc). destruct (store_run s d c) as (s1 & Hrun & Hst); [apply Hm; lia|].
    mstep Hrun. destruct (IH s1 (d + 1) (q + 1)) as (s' & Hrun' & Hs').
    + eapply bytes_tail; [done|exact Hsta|lia|done].
    + replace (Z.of_nat (length l)) with (Z.of_nat (S (length l)) - 1) by lia. by eapply mapped_tail.
    + apply stable_tail in Hsta. by replace (Z.of_nat (S (length l)) - 1) with (Z.of_nat (length l)) in Hsta by lia.
    + exists s'. split; [done|]. by eapply stored_cons.
Qed.

Lemma memset_loop_spec n s d v :
  mapped s d (Z.of_nat n) ->
  exists s', memset_loop n d v s = Ret (tt, s') /\ stored s s' d (replicate n v).
Proof.
  revert s d. induction n as [|n IH]; intros s d Hm; cbn [memset_loop replicate].
  - exists s. done.
  - destruct (store_run s d v) as (s1 & Hrun & Hst); [apply Hm; lia|]. mstep Hrun.
    destruct (IH s1 (d + 1)) as (s' & Hrun' & Hs').
    { replace (Z.of_nat n) with (Z.of_nat (S n) - 1) by lia. by eapply mapped_tail. }
    exists s'. split; [done|]. by eapply stored_cons.
Qed.

Lemma strcpy_loop_spec fuel src t s d q :
  cstr (src s) q t -> (length t < fuel)%nat -> mapped s d (Z.of_nat (length t) + 1) ->
  stable src d (Z.of_nat (length t) + 1) q (Z.of_nat (length t) + 1) ->
  exists s', strcpy_loop fuel src d q s = Ret (tt, s') /\ stored s s' d (t ++ [0]).
Proof.
  revert t s d q. induction fuel as [|fuel IH]; intros t s d q Ht Hf Hm Hsta; [lia|].
  cbn [strcpy_loop]. destruct t as [|c t]; cbn [cstr] in Ht; cbn [length app] in *.
  - mstep (load_run _ _ _ _ Ht). destruct (store_run s d 0) as (s1 & Hrun & Hst); [apply Hm; lia|].
    exists s1. split; [done|]. eapply stored_cons; [done|]. done.
  - destruct Ht as (Hc & Hnz & Ht). mstep (load_run _ _ _ _ Hc).
    rewrite (proj2 (Z.eqb_neq c 0)) by done.
    destruct (store_run s d c) as (s1 & Hrun & Hst); [apply Hm; lia|]. mstep Hrun.
    destruct (IH t s1 (d + 1) (q + 1)) as (s' & Hrun' & Hs').
    + eapply cstr_ext; [|exact Ht]. intros a Ha. apply (Hsta s d c s1); [done|lia..].
    + lia.
    + replace (Z.of_nat (length t) + 1) with (Z.of_nat (S (length t)) + 1 - 1) by lia. by eapply mapped_tail.
    + apply stable_tail in Hsta.
      by replace (Z.of_nat (S (length t)) + 1 - 1) with (Z.of_nat (length t) + 1) in Hsta by lia.
    + exists s'. split; [done|]. by eapply stored_cons.
Qed.

Lemma strncpy_loop_spec fuel src t s d q n :
  cstr (src s) q t -> 0 <= n -> (length t < fuel)%nat ->
  let w := take (Z.to_nat n) t in
  mapped s d (Z.of_nat (length w) + 1) ->
  stable src d (Z.of_nat (length w) + 1) q (Z.of_nat (length t) + 1) ->
  exists s', strncpy_loop fuel src d q n s = Ret (tt, s') /\ stored s s' d (w ++ [0]).
Proof.
  cbv zeta. revert t s d q n. induction fuel as [|fuel IH]; intros t s d q n Ht Hn Hf Hm Hsta; [lia|].
  cbn [strncpy_loop]. destruct t as [|c t]; cbn [cstr] in Ht.
  - rewrite take_nil in *. cbn [length app] in *.
    mstep (load_run _ _ _ _ Ht). destruct (store_run s d 0) as (s1 & Hrun & Hst); [apply Hm; lia|].
    exists s1. split; [done|]. by eapply stored_cons.
  - destruct Ht as (Hc & Hnz & Ht). mstep (load_run _ _ _ _ Hc).
    rewrite (proj2 (Z.eqb_neq c 0)) by done. cbn [orb].
    destruct (Z.eqb_spec n 0) as [->|Hn0].
    + cbn [take length app] in *. change (Z.to_nat 0) with 0%nat in *. cbn [take length app] in *.
      destruct (store_run s d 0) as (s1 & Hrun & Hst); [apply Hm; lia|].
      exists s1. split; [done|]. by eapply stored_cons.
    + replace (Z.to_nat n) with (S (Z.to_nat (n - 1))) in * by lia. cbn [take length app] in *.
      destruct (store_run s d c) as (s1 & Hrun & Hst); [apply Hm; lia|]. mstep Hrun.
      destruct (IH t s1 (d + 1) (q + 1) (n - 1)) as (s' & Hrun' & Hs').
      * eapply cstr_ext; [|exact Ht]. intros a Ha. apply (Hsta s d c s1); [done|lia..].
      * lia.
      * lia.
      * replace (Z.of_nat (length (take (Z.to_nat (n - 1)) t)) + 1)
          with (Z.of_nat (S (length (take (Z.to_nat (n - 1)) t))) + 1 - 1) by lia. by eapply mapped_tail.
      * apply stable_tail in Hsta. revert Hsta. unfold stable. intros Hsta s2 a v s3 b H1 H2 H3.
        apply (Hsta s2 a v s3 b); [done|lia..].
      * exists s'. split; [done|]. by eapply stored_cons.
Qed.
End writer_lemmas.

(** ** atoi *)

(** The value of a string of digits, continuing from [v]. *)
Definition digits_value (base v : Z) (ds : list Z) : Z :=
  fold_left (fun v c => v * base + to_decimal c) ds v.

Definition clamp_int (neg : bool) (v : Z) : Z :=
  if v <=? INT_MAX then (if neg then - v else v) else saturated neg.

Lemma to_decimal_range base c : base = 10 \/ base = 16 -> is_valid base c = true -> 0 <= to_decimal c < base.
Proof.
  unfold is_valid, is_alphanumeric, to_decimal, is_digit_c. intros [-> | ->]; simpl; intros H;
    repeat match goal with
    | H : context [?a <=? ?b] |- _ => destruct (Z.leb_spec a b); simpl in *; try done
    | |- context [?a <=? ?b] => destruct (Z.leb_spec a b); simpl in *
    end; lia.
Qed.

Lemma digits_value_ge base v ds :
  base = 10 \/ base = 16 -> 0 <= v -> Forall (fun c => is_valid base c = true) ds -> v <= digits_value base v ds.
Proof.
  intros Hb Hv Hds. revert v Hv. induction Hds as [|c ds Hc Hds IH]; intros v Hv; unfold digits_value; cbn [fold_left]; [lia|].
  pose proof (to_decimal_range base c Hb Hc). specialize (IH (v * base + to_decimal c)). unfold digits_value in IH. nia.
Qed.

Lemma atoi_loop_spec fuel r str len base neg pre ds rest v :
  base = 10 \/ base = 16 -> cstr r str (pre ++ ds ++ rest) -> len = Z.of_nat (length (pre ++ ds ++ rest)) ->
  len < 2 ^ 31 -> Forall (fun c => is_valid base c = true) ds ->
  match rest with c :: _ => is_valid base c = false | [] => True end ->
  0 <= v <= INT_MAX -> (length ds < fuel)%nat ->
  atoi_loop fuel r str len (Z.of_nat (length pre)) v base neg = Ret (clamp_int neg (digits_value base v ds)).
Proof.
  intros Hb. revert pre ds v. induction fuel as [|fuel IH]; intros pre ds v Hs Hlen Hl Hds Hrest Hv Hf; [lia|].
  cbn [atoi_loop]. rewrite s32_id by lia.
  assert (Hdone : Ret (if neg then - v else v) = Ret (clamp_int neg (digits_value base v []))).
  { unfold clamp_int, digits_value. simpl. by rewrite (proj2 (Z.leb_le v INT_MAX)) by lia. }
  destruct ds as [|c ds]; cbn [app] in *.
  - rewrite length_app in Hlen. destruct rest as [|c rest].
    + rewrite (proj2 (Z.ltb_ge _ len)) by (simpl in Hlen; lia). done.
    + rewrite (proj2 (Z.ltb_lt _ len)) by (simpl in Hlen; lia).
      apply cstr_suffix in Hs as [Hc _]. rewrite (rd_run _ _ _ Hc). cbn [mbind outcome_bind].
      by rewrite Hrest.
  - pose proof Hlen as Hlen'. rewrite length_app in Hlen'. simpl in Hlen'.
    rewrite (proj2 (Z.ltb_lt _ len)) by lia.
    apply cstr_suffix in Hs as Hc. destruct Hc as [Hc _]. rewrite (rd_run _ _ _ Hc). cbn [mbind outcome_bind].
    apply list.Forall_cons in Hds as [Hvc Hds]. rewrite Hvc.
    pose proof (to_decimal_range base c Hb Hvc) as Hd.
    assert (Hq : INT_MAX `quot` base = INT_MAX / base) by (apply Z.quot_div_nonneg; unfold INT_MAX; lia).
    rewrite Hq. pose proof (Z.div_mod INT_MAX base ltac:(lia)). pose proof (Z.mod_pos_bound INT_MAX base ltac:(lia)).
    assert (Hdv : digits_value base v (c :: ds) = digits_value base (v * base + to_decimal c) ds) by done.
    pose proof (digits_value_ge base (v * base + to_decimal c) ds Hb ltac:(nia) Hds) as Hge.
    rewrite Hdv. unfold clamp_int. destruct (Z.ltb_spec (INT_MAX / base) v) as [Hov|Hov].
    { rewrite (proj2 (Z.leb_gt _ INT_MAX)) by nia. done. }
    destruct (Z.ltb_spec (INT_MAX - to_decimal c) (v * base)) as [Hov2|Hov2].
    { rewrite (proj2 (Z.leb_gt _ INT_MAX)) by lia. done. }
    replace (Z.of_nat (length pre) + 1) with (Z.of_nat (length (pre ++ [c]))) by (rewrite length_app; simpl; lia).
    apply IH; try done; rewrite <- ?app_assoc; try done; [nia|simpl in Hf; lia].
Qed.

Lemma skip_spaces_spec fuel r str n t pos :
  cstr r (str + pos) (replicate n 32 ++ t) -> match t with c :: _ => c <> 32 | [] => True end ->
  (n < fuel)%nat -> skip_spaces fuel r str pos = Ret (pos + Z.of_nat n).
Proof.
  revert n pos. induction fuel as [|fuel IH]; intros n pos Hs Ht Hf; [lia|].
  cbn [skip_spaces]. destruct n as [|n]; cbn [replicate app] in Hs.
  - assert (exists c, r (str + pos) = Some c /\ c <> 32) as (c & Hc & Hne).
    { destruct t as [|c t]; cbn [cstr] in Hs; [by exists 0|]. exists c. naive_solver. }
    rewrite (rd_run _ _ _ Hc). cbn [mbind outcome_bind]. rewrite (proj2 (Z.eqb_neq c 32)) by done. f_equal. lia.
  - cbn [cstr] in Hs. destruct Hs as (Hc & _ & Hs). rewrite (rd_run _ _ _ Hc). cbn [mbind outcome_bind]. simpl.
    rewrite <- Z.add_assoc in Hs. rewrite (IH n (pos + 1) Hs Ht) by lia. f_equal. lia.
Qed.

(** ** Theorems *)

Definition sign_chars (neg : option bool) : list Z :=
  match neg with Some true => [45] | Some false => [43] | None => [] end.

Lemma atoi_reader fuel r p base n sign ds rest :
  base = 10 \/ base = 16 -> ds <> [] -> Forall (fun c => is_valid base c = true) ds ->
  match rest with c :: _ => is_valid base c = false | [] => True end ->
  let t := sign_chars sign ++ ds ++ rest in
  cstr r p (replicate n 32 ++ t) -> Z.of_nat (length t) < 2 ^ 31 -> (n + length t < fuel)%nat ->
  atoi fuel r p base = Ret (clamp_int (default false sign) (digits_value base 0 ds)).
Proof.
  intros Hb Hne Hds Hrest t Hs Hl Hext.
  unfold atoi. destruct ds as [|d ds]; [done|]. pose proof Hds as [Hd _]%list.Forall_cons.
  assert (Hd10 : d <> 32 /\ d <> 43 /\ d <> 45).
  { destruct Hb as [-> | ->]; unfold is_valid, is_alphanumeric, is_digit_c in Hd; simpl in Hd;
      split_and!; intros ->; done. }
  assert (Ht : match t with c :: _ => c <> 32 | [] => True end) by (unfold t; destruct sign as [[]|]; simpl; lia).
  rewrite (skip_spaces_spec _ _ _ n t 0); [|by rewrite Z.add_0_r|done|lia]. cbn [mbind outcome_bind].
  apply cstr_suffix in Hs. rewrite length_replicate in Hs. rewrite Z.add_0_l.
  rewrite (strlen_spec _ _ _ t Hs) by lia. cbn [mbind outcome_bind].
  pose proof (atoi_loop_spec fuel r (p + Z.of_nat n) (Z.of_nat (length t)) base
    (default false sign) (sign_chars sign) (d :: ds) rest 0 Hb Hs eq_refl Hl Hds Hrest ltac:(unfold INT_MAX; lia)) as Hloop.
  specialize (Hloop ltac:(unfold t in Hext; rewrite !length_app in Hext; simpl in *; lia)).
  rewrite <- Hloop. clear Hloop.
  unfold t in Hs. destruct sign as [[]|]; cbn [sign_chars app cstr] in Hs; destruct Hs as [Hc _];
    rewrite (rd_run _ _ _ Hc); cbn [mbind outcome_bind]; [done|done|].
  rewrite Hd, (proj2 (Z.eqb_neq d 43)), (proj2 (Z.eqb_neq d 45)) by lia. done.
Qed.

Lemma atoi_spec (m : mem) p base n sign ds rest :
  base = 10 \/ base = 16 -> ds <> [] -> Forall (fun c => is_valid base c = true) ds ->
  match rest with c :: _ => is_valid base c = false | [] => True end ->
  let t := sign_chars sign ++ ds ++ rest in
  cstr (ld m) p (replicate n 32 ++ t) -> Z.of_nat (length t) < 2 ^ 31 ->
  atoi (S (extent m)) (ld m) p base = Ret (clamp_int (default false sign) (digits_value base 0 ds)).
Proof.
  intros Hb Hne Hds Hrest t Hs Hl. pose proof (cstr_extent m _ _ Hs) as Hext. rewrite length_app, length_replicate in Hext.
  apply (atoi_reader _ _ _ _ n sign ds rest); [done..|]. fold t. lia.
Qed.

(** [atoi] on blanks, an optional sign and a non-empty run of digits (of
    base 10 or 16) that is followed by anything else: the signed value, or
    [INT_MIN]/[INT_MAX] when it does not fit; the accumulator never overflows. *)
Theorem atoi_correct (m : mem) p base n sign ds rest :
  base = 10 \/ base = 16 -> ds <> [] -> Forall (fun c => is_valid base c = true) ds ->
  match rest with c :: _ => is_valid base c = false | [] => True end ->
  let t := sign_chars sign ++ ds ++ rest in
  cstr (ld m) p (replicate n 32 ++ t) -> Z.of_nat (length t) < 2 ^ 31 ->
  atoi (S (extent m)) (ld m) p base = Ret (clamp_int (default false sign) (digits_value base 0 ds)).
Proof. apply atoi_spec. Qed.

(** "  -2147483649x" at address 100. *)
Definition demo_mem : mem := list_to_map (zip (seqZ 100 15)
  ([32; 32; 45; 50; 49; 52; 55; 52; 56; 51; 54; 52; 57; 120] ++ [0])).

Lemma atoi_correct_witness : atoi (S (extent demo_mem)) (ld demo_mem) 100 10 = Ret INT_MIN.
Proof.
  apply (atoi_correct demo_mem 100 10 2 (Some true) [50; 49; 52; 55; 52; 56; 51; 54; 52; 57] [120]).
  - by left.
  - done.
  - repeat constructor.
  - reflexivity.
  - repeat split; done.
  - simpl. lia.
Defined.

(** [memcpy] between ranges that do not overlap copies the bytes, returns
    the destination and changes nothing else, and [memcmp] then finds the two
    ranges equal. *)
Theorem memcpy_copies (m : mem) d q l :
  bytes_at (ld m) q l -> mapped m d (Z.of_nat (length l)) ->
  d + Z.of_nat (length l) <= q \/ q + Z.of_nat (length l) <= d ->
  exists m', memcpy ld d q (Z.of_nat (length l)) m = Ret (d, m') /\ stored m m' d l /\
    memcmp (ld m') (ld m') d q (Z.of_nat (length l)) = Ret 0.
Proof.
  intros Hl Hm Hdisj. destruct (memcpy_loop_spec ld l m d q Hl Hm) as (m' & Hrun & Hst); [by apply stable_disjoint|].
  exists m'. split_and!; [|done|].
  - unfold memcpy. rewrite Nat2Z.id. by mstep Hrun.
  - destruct Hst as (Hd & _ & Ho). unfold memcmp. rewrite Nat2Z.id.
    assert (Hq : bytes_at (ld m') q l) by (eapply bytes_at_ext; [|exact Hl]; intros a Ha; apply Ho; lia).
    clear - Hd Hq. revert d q Hd Hq. induction l as [|c l IH]; intros d q Hd Hq; cbn [memcmp_loop length]; [done|].
    destruct Hd as [Hd Hd'], Hq as [Hq Hq']. rewrite (rd_run _ _ _ Hd), (rd_run _ _ _ Hq). cbn [mbind outcome_bind].
    rewrite Z.eqb_refl. cbn [negb]. by apply IH.
Qed.

Lemma memcpy_copies_witness :
  exists m', memcpy ld 100 105 3 demo_mem = Ret (100, m') /\ stored demo_mem m' 100 [52; 55; 52] /\
    memcmp (ld m') (ld m') 100 105 3 = Ret 0.
Proof.
  apply (memcpy_copies demo_mem 100 105 [52; 55; 52]).
  - repeat split; done.
  - intros a Ha. simpl in Ha. assert (a = 100 \/ a = 101 \/ a = 102) as [-> | [-> | ->]] by lia; eauto.
  - simpl. lia.
Defined.

(** [strcmp] of two stored strings returns 0 exactly when they are equal,
    and otherwise a value whose sign orders them by the first difference. *)
Theorem strcmp_decides_equality (m : mem) p1 p2 s1 s2 :
  cstr (ld m) p1 s1 -> cstr (ld m) p2 s2 ->
  exists d, strcmp (S (extent m)) (ld m) (ld m) p1 p2 = Ret d /\ (d = 0 <-> s1 = s2) /\ d = strdiff s1 s2.
Proof.
  intros H1 H2. exists (strdiff s1 s2). split_and!; [|apply strdiff_0|done].
  - apply strcmp_spec; [done..|]. pose proof (cstr_extent m p1 s1 H1). lia.
  - by apply cstr_bytes in H1 as [_ ?].
  - by apply cstr_bytes in H2 as [_ ?].
Qed.

Lemma strcmp_decides_equality_witness :
  exists d, strcmp (S (extent demo_mem)) (ld demo_mem) (ld demo_mem) 112 113 = Ret d /\
    (d = 0 <-> [57; 120] = [120]) /\ d = strdiff [57; 120] [120].
Proof. apply (strcmp_decides_equality demo_mem 112 113 [57; 120] [120]); repeat split; done. Defined.

(** [strstr] returns the address of the first occurrence of a non-empty
    needle, or null when the needle does not occur; an empty needle gives null. *)
Theorem strstr_first_occurrence (m : mem) h p t s :
  cstr (ld m) h t -> cstr (ld m) p s -> Z.of_nat (length t) < 2 ^ 31 -> Z.of_nat (length s) < 2 ^ 31 ->
  exists r, strstr (S (extent m)) (ld m) (ld m) h p = Ret r /\
    match r with
    | Some a => s <> [] /\ exists k, a = h + k /\ 0 <= k /\ s `prefix_of` drop (Z.to_nat k) t /\
                  forall j, 0 <= j < k -> ~ s `prefix_of` drop (Z.to_nat j) t
    | None => s = [] \/ forall j, (j <= length t)%nat -> ~ s `prefix_of` drop j t
    end.
Proof.
  intros Ht Hs Hlt Hls. pose proof (cstr_extent m h t Ht). pose proof (cstr_extent m p s Hs).
  unfold strstr. rewrite (strlen_spec _ _ _ t Ht), (strlen_spec _ _ _ s Hs) by lia. cbn [mbind outcome_bind].
  rewrite !s32_id by lia. destruct (Z.eqb_spec (Z.of_nat (length s)) 0) as [Hz|Hne].
  { exists None. split; [done|]. left. destruct s; [done|simpl in Hz; lia]. }
  destruct (decide (length s <= length t)%nat) as [Hle|Hgt].
  - destruct (strstr_loop_spec (Z.to_nat (Z.of_nat (length t) - Z.of_nat (length s) + 1)) (ld m) (ld m) h p t s 0)
      as (r & Hr & Hspec); [done|done|lia|lia|].
    exists r. split; [done|]. destruct r as [a|].
    + split; [by intros ->|done].
    + right. intros j Hj. specialize (Hspec (Z.of_nat j)). rewrite Nat2Z.id in Hspec. apply Hspec; lia.
  - replace (Z.to_nat (Z.of_nat (length t) - Z.of_nat (length s) + 1)) with 0%nat by lia. exists None.
    split; [done|]. right. intros j Hj Hp. apply prefix_length in Hp. rewrite length_drop in Hp. lia.
Qed.

Lemma strstr_first_occurrence_witness :
  exists r, strstr (S (extent demo_mem)) (ld demo_mem) (ld demo_mem) 112 113 = Ret r /\
    match r with
    | Some a => [120] <> [] /\ exists k, a = 112 + k /\ 0 <= k /\ [120] `prefix_of` drop (Z.to_nat k) [57; 120] /\
                  forall j, 0 <= j < k -> ~ [120] `prefix_of` drop (Z.to_nat j) [57; 120]
    | None => [120] = [] \/ forall j, (j <= length [57; 120])%nat -> ~ [120] `prefix_of` drop j [57; 120]
    end.
Proof. apply (strstr_first_occurrence demo_mem 112 113 [57; 120] [120]); repeat split; simpl; lia || done. Defined.

(** [strcpy] followed by [strcat] builds the concatenation, provided the
    destination has room for it, and leaves everything else unchanged. *)
Theorem strcpy_strcat_concat (m : mem) d p q s t :
  let n := Z.of_nat (length s) + Z.of_nat (length t) + 1 in
  cstr (ld m) p s -> cstr (ld m) q t -> mapped m d n ->
  d + n <= p \/ p + Z.of_nat (length s) < d -> d + n <= q \/ q + Z.of_nat (length t) < d ->
  exists m1 m2, strcpy (S (extent m)) ld d p m = Ret (d, m1) /\
    strcat (S (extent m)) ld d q m1 = Ret (d, m2) /\
    cstr (ld m2) d (s ++ t) /\ forall a, ~ (d <= a < d + n) -> ld m2 a = ld m a.
Proof.
  intros n Hs Ht Hm Hp Hq. subst n. pose proof (cstr_extent m p s Hs). pose proof (cstr_extent m q t Ht).
  destruct (strcpy_loop_spec (S (extent m)) ld s m d p) as (m1 & Hrun1 & Hb1 & He1 & Ho1); [done|lia| | |].
  { intros a Ha. apply Hm. lia. }
  { apply stable_disjoint. lia. }
  rewrite length_app in Ho1. cbn [length] in Ho1.
  assert (Hs1 : cstr (ld m1) d s) by (apply cstr_bytes; split; [done|by apply cstr_bytes in Hs as [_ ?]]).
  assert (Ht1 : cstr (ld m1) q t) by (eapply cstr_ext; [|exact Ht]; intros a Ha; apply Ho1; lia).
  assert (Hm1 : mapped m1 d (Z.of_nat (length s) + Z.of_nat (length t) + 1)).
  { intros a Ha. destruct (decide (a <= d + Z.of_nat (length s))) as [Hle|].
    - replace a with (d + (a - d)) by lia. apply (cstr_mapped _ _ s); [done|lia].
    - rewrite Ho1 by lia. apply Hm. lia. }
  destruct (strcpy_loop_spec (S (extent m)) ld t m1 (d + Z.of_nat (length s)) q) as (m2 & Hrun2 & Hb2 & He2 & Ho2);
    [done|lia| | |].
  { intros a Ha. apply Hm1. lia. }
  { apply stable_disjoint. lia. }
  rewrite length_app in Ho2. cbn [length] in Ho2.
  exists m1, m2. split_and!.
  - unfold strcpy. by mstep Hrun1.
  - unfold strcat. unfold mbind at 1, M_bind at 1, get.
    rewrite (strlen_spec _ _ _ s Hs1) by lia. mlift. by mstep Hrun2.
  - apply cstr_bytes. rewrite <- app_assoc, bytes_at_app. split; [split; [|done]|].
    + apply bytes_at_app in Hb1 as [Hb1 _]. eapply bytes_at_ext; [|exact Hb1]. intros a Ha. apply Ho2. lia.
    + apply list.Forall_app. split; [by apply cstr_bytes in Hs as [_ ?]|by apply cstr_bytes in Ht as [_ ?]].
  - intros a Ha. rewrite Ho2, Ho1 by lia. done.
Qed.

Lemma strcpy_strcat_concat_witness :
  exists m1 m2, strcpy (S (extent demo_mem)) ld 100 113 demo_mem = Ret (100, m1) /\
    strcat (S (extent demo_mem)) ld 100 112 m1 = Ret (100, m2) /\
    cstr (ld m2) 100 ([120] ++ [57; 120]) /\ forall a, ~ (100 <= a < 100 + 4) -> ld m2 a = ld demo_mem a.
Proof.
  apply (strcpy_strcat_concat demo_mem 100 113 112 [120] [57; 120]); try (repeat split; done); simpl.
  - intros a Ha. assert (a = 100 \/ a = 101 \/ a = 102 \/ a = 103) as [-> | [-> | [-> | ->]]] by lia; eauto.
  - lia.
  - lia.
Defined.
