(* ===== verification/KString.v ===== *)
(** * include/lib/String.h: strings

    A [String] owns a [char] buffer, or none when it was default-constructed,
    cleared or moved from.  [None] is such a string; reading through its null
    pointer faults.  [make_unique<char[]>] gives a zeroed buffer. *)

From Stdlib Require Import ZArith Lia.
From stdpp Require Import base list numbers sets.
From S2P Require Import Prelude CString.

Open Scope Z_scope.

Definition String : Type := option (list Z).

Definition chars (s : String) : reader := match s with Some b => arr_get b | None => fun _ => None end.
Definition cap (s : String) : nat := match s with Some b => S (length b) | None => 1 end.

Definition npos : Z := u64 (-1).

(** [size], [empty], [clear], [at] and [operator[]]. *)
Definition str_size (s : String) : outcome Z :=
  match s with Some _ => strlen (cap s) (chars s) 0 | None => Ret 0 end.
Definition str_empty (s : String) : outcome bool := n ← str_size s; Ret (n =? 0).
Definition str_clear (s : String) : String := None.
Definition str_at (s : String) (i : Z) : outcome Z := rd (chars s) i.
Definition str_front (s : String) : outcome Z := str_at s 0.
Definition str_back (s : String) : outcome Z := n ← str_size s; str_at s (u64 (n - 1)).

(** Assignment through [_s[i]]. *)
Definition str_put (s : String) (i c : Z) : outcome String :=
  match s with
  | Some b => match arr_set b i c with Some b => Ret (Some b) | None => Fault end
  | None => Fault
  end.

Definition make_buf (n : Z) : list Z := replicate (Z.to_nat n) 0.

(** [String(const char *s)], for a string read with [r] that ends within [fuel]. *)
Definition str_of_cstr (fuel : nat) (r : reader) (p : Z) : outcome String :=
  n ← strlen fuel r p;
  res ← strcpy fuel (fun _ => r) 0 p (make_buf (n + 1));
  Ret (Some (snd res)).

(** The copy constructor and the copy assignment. *)
Definition str_copy (r : String) : outcome String :=
  n ← str_size r;
  res ← strcpy (cap r) (fun _ => chars r) 0 0 (make_buf (n + 1));
  Ret (Some (snd res)).

Definition str_eq (a b : String) : outcome bool :=
  d ← strcmp (cap a) (chars a) (chars b) 0 0; Ret (d =? 0).

Definition str_add (a r : String) : outcome String :=
  e ← str_empty r;
  if (e : bool) then str_copy a
  else
    n ← str_size a;
    k ← str_size r;
    r1 ← strcpy (cap a) (fun _ => chars a) 0 0 (make_buf (n + k + 1));
    r2 ← strcat (S (length (snd r1)) + cap r) (fun _ => chars r) 0 0 (snd r1);
    Ret (Some (snd r2)).

(** The scans of [find_first_of] and [find_first_not_of]: [pos] is not used. *)
Fixpoint find_fwd (n : nat) (test : Z -> bool) (s : String) (i : Z) : outcome Z :=
  match n with
  | O => Ret npos
  | S n => c ← str_at s i; if test c then Ret i else find_fwd n test s (i + 1)
  end.
Definition find_first_of (s : String) (c pos : Z) : outcome Z :=
  len ← str_size s; find_fwd (Z.to_nat len) (fun x => x =? c) s 0.
Definition find_first_not_of (s : String) (c pos : Z) : outcome Z :=
  len ← str_size s; find_fwd (Z.to_nat len) (fun x => negb (x =? c)) s 0.

(** [for (int i = pos; i >= 0; i--)], with [n] = i + 1. *)
Fixpoint find_bwd (n : nat) (test : Z -> bool) (s : String) : outcome Z :=
  match n with
  | O => Ret npos
  | S n => c ← str_at s (Z.of_nat n); if test c then Ret (Z.of_nat n) else find_bwd n test s
  end.
Definition find_last (test : Z -> bool) (s : String) (pos : Z) : outcome Z :=
  e ← str_empty s;
  if (e : bool) then Ret npos
  else
    n ← str_size s;
    let pos := if pos =? npos then n - 1 else pos in
    find_bwd (Z.to_nat (s32 pos + 1)) test s.
Definition find_last_of (s : String) (c pos : Z) : outcome Z := find_last (fun x => x =? c) s pos.
Definition find_last_not_of (s : String) (c pos : Z) : outcome Z := find_last (fun x => negb (x =? c)) s pos.

(** [while (fast < size())] of [remove]. *)
Fixpoint remove_loop (fuel : nat) (val : Z) (s : String) (slow fast : Z) : outcome (String * Z * Z) :=
  match fuel with
  | O => OutOfFuel
  | S fuel =>
      n ← str_size s;
      if fast <? n then
        c ← str_at s fast;
        if c =? val then remove_loop fuel val s slow (fast + 1)
        else s ← str_put s slow c; remove_loop fuel val s (slow + 1) (fast + 1)
      else Ret (s, slow, fast)
  end.
Definition str_remove (s : String) (val : Z) : outcome String :=
  r ← remove_loop (cap s) val s 0 0;
  let '(s, slow, fast) := r in
  n ← str_size s;
  let new_size := u64 (n - (fast - slow)) in
  if 0 <? new_size then str_put s (new_size - 1) 0 else str_put s 0 0.

Definition substr (s : String) (begin len : Z) : outcome String :=
  e ← str_empty s;
  if (e : bool) then Ret None
  else
    n ← str_size s;
    let len := if (len =? npos) || (n <? u64 (begin + len)) then u64 (n - begin) else len in
    res ← strncpy (cap s) (fun _ => chars s) 0 begin len (make_buf (len + 1));
    Ret (Some (snd res)).

(** The loop of [split]: the list built so far, and where the next piece begins. *)
Fixpoint split_loop (fuel : nat) (s : String) (delimiter lim i begin : Z) (acc : list String) : outcome (list String * Z) :=
  match fuel with
  | O => OutOfFuel
  | S fuel =>
      n ← str_size s;
      if (i <? n) && negb (Z.of_nat (length acc) =? lim) then
        c ← str_at s i;
        if c =? delimiter then
          let len := i - begin in
          acc ← (if negb (len =? 0) then w ← substr s begin len; Ret (acc ++ [w]) else Ret acc);
          split_loop fuel s delimiter lim (i + 1) (i + 1) acc
        else split_loop fuel s delimiter lim (i + 1) begin acc
      else Ret (acc, begin)
  end.
Definition split (s : String) (delimiter limit : Z) : outcome (list String) :=
  e ← str_empty s;
  if (e : bool) then Ret []
  else
    r ← split_loop (cap s) s delimiter (u64 (limit - 1)) 0 0 [];
    n ← str_size s;
    let tail_len := u64 (n - snd r) in
    if negb (tail_len =? 0) then w ← substr s (snd r) tail_len; Ret (fst r ++ [w]) else Ret (fst r).

(** The loop of [join]; [i] is the index of the iterator. *)
Fixpoint join_loop (sep ret : String) (seq : list String) (i len : Z) : outcome String :=
  match seq with
  | [] => Ret ret
  | x :: seq =>
      ret ← str_add ret x;
      ret ← (if negb (i =? u64 (len - 1)) then str_add ret sep else Ret ret);
      join_loop sep ret seq (i + 1) len
  end.
Definition join (sep : String) (seq : list String) : outcome String :=
  join_loop sep None seq 0 (Z.of_nat (length seq)).

(** [for (auto &c : *this)] *)
Fixpoint map_chars (n : nat) (f : Z -> Z) (s : String) (i : Z) : outcome String :=
  match n with
  | O => Ret s
  | S n => c ← str_at s i; s ← str_put s i (f c); map_chars n f s (i + 1)
  end.
Definition upper_char (c : Z) : Z := if (97 <=? c) && (c <=? 122) then c - 32 else c.
Definition lower_char (c : Z) : Z := if (65 <=? c) && (c <=? 90) then c + 32 else c.
Definition to_upper (s : String) : outcome String := n ← str_size s; map_chars (Z.to_nat n) upper_char s 0.
Definition to_lower (s : String) : outcome String := n ← str_size s; map_chars (Z.to_nat n) lower_char s 0.

Fixpoint hash_loop (n : nat) (s : String) (i ret : Z) : outcome Z :=
  match n with
  | O => Ret ret
  | S n => c ← str_at s i; hash_loop n s (i + 1) (u64 (ret + 19 * c))
  end.
Definition hash_string (s : String) : outcome Z := n ← str_size s; hash_loop (Z.to_nat n) s 0 5.

(** ** The value of a string *)

Lemma npos_eq : npos = 2 ^ 64 - 1.
Proof. reflexivity. Qed.

Definition str_val (s : String) (l : list Z) : Prop :=
  match s with Some b => cstr (arr_get b) 0 l | None => l = [] end.

Lemma str_val_cap s l : str_val s l -> (length l < cap s)%nat.
Proof.
  destruct s as [b|]; simpl; [|intros ->; simpl; lia]. intros H. pose proof (cstr_extent b 0 l H) as He. simpl in He. lia.
Qed.

Lemma str_size_spec s l : str_val s l -> str_size s = Ret (Z.of_nat (length l)).
Proof.
  intros H. pose proof (str_val_cap s l H) as Hc. destruct s as [b|]; [|by simpl in H; subst].
  unfold str_size. by apply strlen_spec.
Qed.

Lemma str_empty_spec s l : str_val s l -> str_empty s = Ret (bool_decide (l = [])).
Proof.
  intros H. unfold str_empty. rewrite (str_size_spec s l H). simpl. f_equal. destruct l; [done|].
  rewrite bool_decide_eq_false_2 by done. apply Z.eqb_neq. simpl. lia.
Qed.

Lemma str_val_nonzero s l : str_val s l -> Forall (fun c => c <> 0) l.
Proof. destruct s as [b|]; simpl; [|by intros ->; constructor]. intros H. by apply cstr_bytes in H as [_ ?]. Qed.

Lemma str_at_spec s l i c : str_val s l -> l !! i = Some c -> str_at s (Z.of_nat i) = Ret c.
Proof.
  destruct s as [b|]; simpl; [|by intros ->]. intros Hs Hi. apply rd_run. simpl.
  rewrite <- (take_drop_middle l i c Hi) in Hs. apply cstr_suffix in Hs. apply lookup_lt_Some in Hi.
  rewrite length_take, Nat.min_l in Hs by lia. cbn [cstr] in Hs. by destruct Hs as [? _].
Qed.

(** A buffer written from its start. *)
Lemma make_buf_mapped n k : 0 <= k <= n -> mapped (make_buf n) 0 k.
Proof. intros Hk a Ha. apply arr_get_is_Some. unfold make_buf. rewrite length_replicate. lia. Qed.

Lemma stored_val b b' l : stored b b' 0 (l ++ [0]) -> Forall (fun c => c <> 0) l -> str_val (Some b') l.
Proof. intros (Hb & _ & _) Hnz. apply cstr_bytes. done. Qed.

Lemma strcpy_buf s l n : str_val s l -> is_Some s -> Z.of_nat (length l) + 1 <= n ->
  exists b, strcpy (cap s) (fun _ => chars s) 0 0 (make_buf n) = Ret (0, b) /\ str_val (Some b) l /\ length b = Z.to_nat n.
Proof.
  intros Hs [b0 ->] Hn. pose proof (str_val_cap _ _ Hs) as Hc.
  destruct (strcpy_loop_spec (cap (Some b0)) (fun _ => chars (Some b0)) l (make_buf n) 0 0) as (b & Hrun & Hst);
    [done|done|apply make_buf_mapped; lia|apply stable_const|].
  exists b. split_and!.
  - unfold strcpy. by mrun Hrun.
  - eapply stored_val; [done|by eapply str_val_nonzero].
  - destruct Hst as (_ & He & _). simpl in He. rewrite He. unfold make_buf. by rewrite length_replicate.
Qed.

Lemma str_copy_spec s l : str_val s l -> is_Some s -> exists s', str_copy s = Ret s' /\ str_val s' l /\ is_Some s'.
Proof.
  intros Hs Hn. destruct (strcpy_buf s l (Z.of_nat (length l) + 1) Hs Hn ltac:(lia)) as (b & Hrun & Hb & _).
  exists (Some b). split_and!; [|done|done]. unfold str_copy. rewrite (str_size_spec s l Hs). cbn [mbind outcome_bind].
  by rewrite Hrun.
Qed.

Lemma str_add_spec a b la lb : str_val a la -> str_val b lb -> is_Some a ->
  exists s, str_add a b = Ret s /\ str_val s (la ++ lb) /\ is_Some s.
Proof.
  intros Ha Hb Hna. unfold str_add. rewrite (str_empty_spec b lb Hb). cbn [mbind outcome_bind].
  destruct (decide (lb = [])) as [->|Hne].
  { rewrite bool_decide_eq_true_2, app_nil_r by done. by apply str_copy_spec. }
  rewrite bool_decide_eq_false_2 by done. rewrite (str_size_spec a la Ha), (str_size_spec b lb Hb). cbn [mbind outcome_bind].
  set (n := Z.of_nat (length la) + Z.of_nat (length lb) + 1).
  destruct (strcpy_buf a la n Ha Hna) as (b1 & -> & Hb1 & Hlen); [unfold n; lia|]. cbn [snd].
  pose proof (str_val_cap b lb Hb) as Hcb. destruct b as [bb|]; [|by simpl in Hb].
  pose proof (str_val_cap _ _ Hb1) as Hc1. simpl in Hc1.
  destruct (strcpy_loop_spec (S (length b1) + cap (Some bb)) (fun _ => chars (Some bb)) lb b1 (Z.of_nat (length la)) 0)
    as (b2 & Hrun & Hbytes & Hext & Hoth); [done|lia| |apply stable_const|].
  { intros x Hx. apply arr_get_is_Some. rewrite Hlen. unfold n. lia. }
  exists (Some b2). split_and!; [|simpl|done].
  - assert (Hcat : strcat (S (length b1) + cap (Some bb)) (fun _ => chars (Some bb)) 0 0 b1 = Ret (0, b2)).
    { unfold strcat. msimpl. rewrite (strlen_spec _ _ 0 la); [|exact Hb1|lia]. msimpl. mrun Hrun. done. }
    cbn [mbind outcome_bind snd]. by rewrite Hcat.
  - apply cstr_bytes. rewrite <- app_assoc, bytes_at_app. split; [split; [|done]|].
    + apply cstr_bytes in Hb1 as [Hb1 _]. apply bytes_at_app in Hb1 as [Hb1 _].
      eapply bytes_at_ext; [|exact Hb1]. intros x Hx. apply Hoth. rewrite length_app. simpl. lia.
    + apply list.Forall_app. split; by eapply str_val_nonzero.
Qed.

Lemma substr_spec s l begin len :
  str_val s l -> 0 <= begin <= Z.of_nat (length l) -> len = npos \/ 0 <= len < 2 ^ 62 -> Z.of_nat (length l) < 2 ^ 62 ->
  exists s', substr s begin len = Ret s' /\
    str_val s' (if decide (len = npos) then drop (Z.to_nat begin) l else take (Z.to_nat len) (drop (Z.to_nat begin) l)).
Proof.
  intros Hs Hb Hlen Hl. unfold substr. rewrite (str_empty_spec s l Hs). cbn [mbind outcome_bind].
  destruct (decide (l = [])) as [->|Hne].
  { rewrite bool_decide_eq_true_2 by done. exists None. split; [done|]. rewrite drop_nil, take_nil. by destruct (decide _). }
  rewrite bool_decide_eq_false_2 by done. rewrite (str_size_spec s l Hs). cbn [mbind outcome_bind].
  set (rest := drop (Z.to_nat begin) l).
  assert (Hrl : length rest = (length l - Z.to_nat begin)%nat) by (unfold rest; apply length_drop).
  set (n := if (len =? npos) || _ then _ else _).
  assert (Hn : 0 <= n /\ take (Z.to_nat n) rest = if decide (len = npos) then rest else take (Z.to_nat len) rest).
  { unfold n. destruct Hlen as [->|Hlen].
    - rewrite Z.eqb_refl. cbn [orb]. rewrite decide_True, u64_id by (done || lia). split; [lia|]. apply take_ge. lia.
    - rewrite decide_False by (rewrite npos_eq; lia). rewrite (proj2 (Z.eqb_neq len npos)) by (rewrite npos_eq; lia).
      cbn [orb]. rewrite u64_id by lia. destruct (Z.ltb_spec (Z.of_nat (length l)) (begin + len)); [|split; [lia|done]].
      rewrite u64_id by lia. split; [lia|]. rewrite !take_ge by lia. done. }
  destruct Hn as [Hn0 Hn]. rewrite <- Hn. pose proof (str_val_cap s l Hs) as Hc. destruct s as [b|]; [|by simpl in Hs].
  assert (Hrest : cstr (arr_get b) begin rest).
  { replace begin with (0 + Z.of_nat (length (take (Z.to_nat begin) l))) by (rewrite length_take; lia).
    apply cstr_suffix. unfold rest. by rewrite take_drop. }
  destruct (strncpy_loop_spec (cap (Some b)) (fun _ => chars (Some b)) rest (make_buf (n + 1)) 0 begin n) as (b' & Hrun & Hst);
    [done|done|lia| |apply stable_const|].
  { apply make_buf_mapped. rewrite length_take. lia. }
  exists (Some b'). split.
  - assert (Hcpy : strncpy (cap (Some b)) (fun _ => chars (Some b)) 0 begin n (make_buf (n + 1)) = Ret (0, b'))
      by (unfold strncpy; by mrun Hrun). by rewrite Hcpy.
  - eapply stored_val; [exact Hst|]. apply Forall_take. unfold rest. apply Forall_drop. by eapply str_val_nonzero.
Qed.

(** A [substr] of a string that is not empty has a buffer. *)
Lemma substr_some s l begin len s' : str_val s l -> l <> [] -> substr s begin len = Ret s' -> is_Some s'.
Proof.
  intros Hs Hl. unfold substr. rewrite (str_empty_spec s l Hs), bool_decide_eq_false_2 by done. cbn [mbind outcome_bind].
  rewrite (str_size_spec s l Hs). cbn [mbind outcome_bind].
  destruct (strncpy _ _ _ _ _ _); try done. simpl. intros [= <-]. eauto.
Qed.

Lemma str_eq_spec a b la lb : str_val a la -> str_val b lb -> is_Some a -> is_Some b ->
  str_eq a b = Ret (bool_decide (la = lb)).
Proof.
  intros Ha Hb [x ->] [y ->]. unfold str_eq. pose proof (str_val_cap _ _ Ha).
  rewrite (strcmp_spec _ _ _ _ _ la lb) by done. simpl. f_equal.
  pose proof (strdiff_0 la lb (str_val_nonzero _ _ Ha) (str_val_nonzero _ _ Hb)) as Hd.
  destruct (decide (la = lb)) as [->|Hne].
  - rewrite bool_decide_eq_true_2 by done. apply Z.eqb_eq. by apply Hd.
  - rewrite bool_decide_eq_false_2 by done. apply Z.eqb_neq. by intros ?%Hd.
Qed.

(** ** Splitting *)

(** [ps] are the maximal runs of characters other than [d], in order. *)
Inductive splits (d : Z) : list Z -> list (list Z) -> Prop :=
| splits_nil : splits d [] []
| splits_delim l ps : splits d l ps -> splits d (d :: l) ps
| splits_word w l ps : w <> [] -> d ∉ w -> (l = [] \/ head l = Some d) -> splits d l ps -> splits d (w ++ l) (w :: ps).

Lemma splits_pieces d l ps : splits d l ps -> Forall (fun w => w <> [] /\ (d ∉ w)) ps.
Proof. induction 1; [constructor|done|]. constructor; [done|assumption]. Qed.

Lemma splits_concat d l ps : splits d l ps -> concat ps = filter (fun c => c <> d) l.
Proof.
  induction 1 as [|l ps _ IH|w l ps _ Hw _ _ IH]; simpl; [done|by rewrite list.filter_cons, decide_False by auto|].
  rewrite filter_app, <- IH. f_equal. clear IH. induction w as [|c w IHw]; [done|].
  rewrite list.filter_cons, decide_True by set_solver. f_equal. apply IHw. set_solver.
Qed.

Definition tail_piece (t : list Z) : list (list Z) := match t with [] => [] | _ => [t] end.

Lemma splits_tail d t : d ∉ t -> splits d t (tail_piece t).
Proof.
  destruct t as [|c t]; [constructor|]. intros Hd. simpl. rewrite <- (app_nil_r (c :: t)) at 1.
  apply splits_word; [done|done|by left|constructor].
Qed.

Lemma str_size_ge s l : str_val s l -> exists n, str_size s = Ret n /\ n = Z.of_nat (length l).
Proof. intros H. exists (Z.of_nat (length l)). split; [by apply str_size_spec|done]. Qed.

Lemma split_loop_pieces s d pre cur rest acc fuel :
  str_val s (pre ++ cur ++ rest) -> d ∉ cur -> (length rest < fuel)%nat ->
  Z.of_nat (length (pre ++ cur ++ rest)) < 2 ^ 62 -> (length acc <= length pre)%nat ->
  exists ws vs b', split_loop fuel s d npos (Z.of_nat (length pre + length cur)) (Z.of_nat (length pre)) acc = Ret (acc ++ ws, Z.of_nat b') /\
    (b' <= length (pre ++ cur ++ rest))%nat /\ Forall2 str_val ws vs /\ (d ∉ drop b' (pre ++ cur ++ rest)) /\
    splits d (cur ++ rest) (vs ++ tail_piece (drop b' (pre ++ cur ++ rest))).
Proof.
  revert fuel pre cur acc. induction rest as [|c rest IH]; intros fuel pre cur acc Hs Hcur Hf Hl Hacc;
    (destruct fuel as [|fuel]; [simpl in Hf; lia|]); cbn [split_loop];
    rewrite (str_size_spec s _ Hs); cbn [mbind outcome_bind].
  { rewrite !length_app. simpl. rewrite (proj2 (Z.ltb_ge _ _)) by lia. cbn [andb].
    exists [], [], (length pre). rewrite !app_nil_r, drop_app_length. split_and!; [done|rewrite ?length_app; simpl; lia|constructor|done|].
    by apply splits_tail. }
  rewrite !length_app in *. simpl in *. rewrite (proj2 (Z.ltb_lt _ _)) by lia.
  rewrite (proj2 (Z.eqb_neq _ npos)) by (rewrite npos_eq; lia). cbn [andb negb].
  assert (Hat : (pre ++ cur ++ c :: rest) !! (length pre + length cur)%nat = Some c).
  { rewrite app_assoc, lookup_app_r; rewrite length_app; [|lia]. by rewrite Nat.sub_diag. }
  rewrite (str_at_spec s _ _ c Hs Hat). cbn [mbind outcome_bind].
  destruct (Z.eqb_spec c d) as [->|Hne].
  - replace (Z.of_nat (length pre + length cur) - Z.of_nat (length pre)) with (Z.of_nat (length cur)) by lia.
    replace (Z.of_nat (length pre + length cur) + 1) with (Z.of_nat (length (pre ++ cur ++ [d]) + length (@nil Z)))
      by (rewrite !length_app; simpl; lia).
    assert (Heq : pre ++ cur ++ d :: rest = (pre ++ cur ++ [d]) ++ [] ++ rest) by (by rewrite <- !app_assoc).
    replace (Z.of_nat (length (pre ++ cur ++ [d]) + length (@nil Z))) with (Z.of_nat (length (pre ++ cur ++ [d]) + 0)) by done.
    destruct (decide (cur = [])) as [->|Hcn].
    + simpl. destruct (IH fuel (pre ++ [] ++ [d]) [] acc) as (ws & vs & b' & Hrun & Hb & Hfa & Hd & Hsp);
        [by rewrite <- Heq|set_solver|lia|rewrite <- Heq, !length_app; simpl; lia|rewrite !length_app; simpl; lia|].
      rewrite <- Heq in *. exists ws, vs, b'. rewrite !length_app in *. simpl in *.
      split_and!; [|lia|done|done|by apply splits_delim].
      rewrite <- Hrun. do 2 f_equal; lia.
    + rewrite (proj2 (Z.eqb_neq (Z.of_nat (length cur)) 0)) by (destruct cur; simpl; [done|lia]). cbn [negb].
      destruct (substr_spec s _ (Z.of_nat (length pre)) (Z.of_nat (length cur)) Hs) as (w & -> & Hw);
        [rewrite !length_app; simpl; lia|right; lia|rewrite !length_app; simpl; lia|].
      rewrite decide_False, !Nat2Z.id, drop_app_length, take_app_length in Hw by (rewrite npos_eq; lia).
      cbn [mbind outcome_bind].
      destruct (IH fuel (pre ++ cur ++ [d]) [] (acc ++ [w])) as (ws & vs & b' & Hrun & Hb & Hfa & Hd & Hsp);
        [by rewrite <- Heq|set_solver|lia|rewrite <- Heq, !length_app; simpl; lia|rewrite !length_app; simpl; lia|].
      rewrite <- Heq in *. exists (w :: ws), (cur :: vs), b'. rewrite !length_app in *. simpl in *.
      split_and!; [|lia|by constructor|done|].
      * rewrite <- app_assoc in Hrun. simpl in Hrun. rewrite <- Hrun. f_equal; lia.
      * apply splits_word; [done|done|by right|by apply splits_delim].
  - assert (Heq : pre ++ cur ++ c :: rest = pre ++ (cur ++ [c]) ++ rest) by (by rewrite <- !app_assoc).
    destruct (IH fuel pre (cur ++ [c]) acc) as (ws & vs & b' & Hrun & Hb & Hfa & Hd & Hsp);
      [by rewrite <- Heq|set_solver|lia|rewrite <- Heq, !length_app; simpl; lia|done|].
    rewrite <- Heq in *. rewrite !length_app in *. simpl in *. exists ws, vs, b'. split_and!; [|lia|done|done|].
    + rewrite <- Hrun. f_equal; lia.
    + by rewrite <- app_assoc in Hsp.
Qed.

Lemma split_spec s l d : str_val s l -> Z.of_nat (length l) < 2 ^ 62 ->
  exists ws vs, split s d 0 = Ret ws /\ Forall2 str_val ws vs /\ splits d l vs.
Proof.
  intros Hs Hl. unfold split. rewrite (str_empty_spec s l Hs). cbn [mbind outcome_bind].
  destruct (decide (l = [])) as [->|Hne].
  { rewrite bool_decide_eq_true_2 by done. exists [], []. split_and!; constructor. }
  rewrite bool_decide_eq_false_2 by done. pose proof (str_val_cap s l Hs).
  destruct (split_loop_pieces s d [] [] l [] (cap s)) as (ws & vs & b' & Hrun & Hb & Hfa & Hd & Hsp); [done|set_solver|done|done|done|].
  change (u64 (0 - 1)) with npos. simpl in Hrun, Hsp, Hb, Hd. change (Z.of_nat 0) with 0 in Hrun. rewrite Hrun. cbn [mbind outcome_bind snd fst].
  rewrite (str_size_spec s l Hs). cbn [mbind outcome_bind]. rewrite u64_id by lia.
  destruct (decide (b' = length l)) as [->|Hlt].
  - rewrite Z.sub_diag. cbn [Z.eqb negb]. exists ws, vs. rewrite drop_ge, app_nil_r in Hsp by lia. done.
  - rewrite (proj2 (Z.eqb_neq _ 0)) by lia. cbn [negb].
    destruct (substr_spec s l (Z.of_nat b') (Z.of_nat (length l) - Z.of_nat b') Hs) as (w & -> & Hw); [lia|right; lia|done|].
    rewrite decide_False, Nat2Z.id in Hw by (rewrite npos_eq; lia). rewrite take_ge in Hw by (rewrite length_drop; lia).
    cbn [mbind outcome_bind]. exists (ws ++ [w]), (vs ++ [drop b' l]). split_and!; [done|by apply Forall2_app; [|repeat constructor]|].
    assert (Ht : tail_piece (drop b' l) = [drop b' l]).
    { destruct (drop b' l) eqn:E; [|done]. apply (f_equal length) in E. rewrite length_drop in E. simpl in E. lia. }
    by rewrite Ht in Hsp.
Qed.

(** [hash] of a string, as a function of its characters. *)
Definition hash_chars (ret : Z) (l : list Z) : Z := foldl (fun ret c => u64 (ret + 19 * c)) ret l.

Lemma hash_loop_chars s pre l ret : str_val s (pre ++ l) ->
  hash_loop (length l) s (Z.of_nat (length pre)) ret = Ret (hash_chars ret l).
Proof.
  revert pre ret. induction l as [|c l IH]; intros pre ret Hs; cbn [hash_loop length hash_chars foldl]; [done|].
  rewrite (str_at_spec s (pre ++ c :: l) (length pre) c Hs) by (by apply list_lookup_middle). cbn [mbind outcome_bind].
  replace (Z.of_nat (length pre) + 1) with (Z.of_nat (length (pre ++ [c]))) by (rewrite length_app; simpl; lia).
  apply IH. by rewrite <- app_assoc.
Qed.

Lemma hash_string_chars s l : str_val s l -> hash_string s = Ret (hash_chars 5 l).
Proof.
  intros Hs. unfold hash_string. rewrite (str_size_spec s l Hs). cbn [mbind outcome_bind]. rewrite Nat2Z.id.
  exact (hash_loop_chars s [] l 5 Hs).
Qed.

(** *** A function for the pieces *)

(** The pieces of [cur ++ l], where [cur] holds no delimiter. *)
Fixpoint pieces (d : Z) (cur l : list Z) : list (list Z) :=
  match l with
  | [] => tail_piece cur
  | c :: l => if c =? d then tail_piece cur ++ pieces d [] l else pieces d (cur ++ [c]) l
  end.
Definition components (d : Z) (l : list Z) : list (list Z) := pieces d [] l.

Lemma pieces_splits d cur l : d ∉ cur -> splits d (cur ++ l) (pieces d cur l).
Proof.
  revert cur. induction l as [|c l IH]; intros cur Hd; cbn [pieces].
  - rewrite app_nil_r. by apply splits_tail.
  - destruct (Z.eqb_spec c d) as [->|Hne].
    + specialize (IH [] (not_elem_of_nil d)). destruct cur as [|x cur]; [by constructor|].
      apply splits_word; [done|done|by right|by constructor].
    + replace (cur ++ c :: l) with ((cur ++ [c]) ++ l) by (by rewrite <- app_assoc). apply IH. set_solver.
Qed.

Lemma pieces_delim d cur l : (l = [] \/ head l = Some d) -> pieces d cur l = tail_piece cur ++ pieces d [] l.
Proof.
  intros [->|Hl]; [by rewrite app_nil_r|]. destruct l as [|c l]; [done|]. injection Hl as ->. cbn [pieces].
  by rewrite Z.eqb_refl.
Qed.

Lemma pieces_word d cur w l : d ∉ w -> pieces d cur (w ++ l) = pieces d (cur ++ w) l.
Proof.
  revert cur. induction w as [|c w IH]; intros cur Hd; [by rewrite app_nil_r|]. cbn [app pieces].
  rewrite (proj2 (Z.eqb_neq c d)) by set_solver. rewrite IH by set_solver. by rewrite <- app_assoc.
Qed.

(** The maximal runs are determined. *)
Lemma splits_components d l ps : splits d l ps -> ps = components d l.
Proof.
  unfold components. induction 1 as [|l ps _ IH|w l ps Hw Hd Hl Hs IH]; [done|by cbn [pieces]; rewrite Z.eqb_refl|].
  rewrite pieces_word by done. simpl. rewrite pieces_delim by done. rewrite <- IH. by destruct w.
Qed.

(** [split] computes [components]. *)
Lemma split_components s l d : str_val s l -> Z.of_nat (length l) < 2 ^ 62 ->
  exists ws, split s d 0 = Ret ws /\ Forall2 str_val ws (components d l).
Proof.
  intros Hs Hl. destruct (split_spec s l d Hs Hl) as (ws & vs & Hrun & Hf & Hsp). exists ws. split; [done|].
  by rewrite <- (splits_components d l vs Hsp).
Qed.

(** ** Claims *)

(** Concatenation and [substr] are inverse: cutting [a + b] at the size of
    [a] gives back strings equal to [a] and to [b], and equality is equality of
    contents. *)
Theorem string_concat_cut a b la lb :
  str_val a la -> str_val b lb -> is_Some a -> is_Some b -> lb <> [] -> Z.of_nat (length (la ++ lb)) < 2 ^ 62 ->
  exists s n x y, str_add a b = Ret s /\ str_val s (la ++ lb) /\ str_size a = Ret n /\
    substr s 0 n = Ret x /\ substr s n npos = Ret y /\ str_eq x a = Ret true /\ str_eq y b = Ret true /\
    str_eq a b = Ret (bool_decide (la = lb)).
Proof.
  intros Ha Hb Hna Hnb Hlb Hlen. destruct (str_add_spec a b la lb Ha Hb Hna) as (s & Hs & Hv & _).
  pose proof (str_size_spec a la Ha) as Hn. rewrite length_app in Hlen.
  destruct (substr_spec s _ 0 (Z.of_nat (length la)) Hv) as (x & Hx & Hxv); [lia|right; lia|rewrite length_app; lia|].
  destruct (substr_spec s _ (Z.of_nat (length la)) npos Hv) as (y & Hy & Hyv);
    [rewrite length_app; lia|by left|rewrite length_app; lia|].
  rewrite decide_False, drop_0, Nat2Z.id, take_app_length in Hxv by (rewrite npos_eq; lia).
  rewrite decide_True, Nat2Z.id, drop_app_length in Hyv by done.
  assert (Hne : la ++ lb <> []) by (intros [_ ?]%app_eq_nil; done).
  exists s, (Z.of_nat (length la)), x, y. split_and!; [done..| | |by apply str_eq_spec].
  - rewrite (str_eq_spec x a la la); [by rewrite bool_decide_eq_true_2|done|done|exact (substr_some s _ _ _ x Hv Hne Hx)|done].
  - rewrite (str_eq_spec y b lb lb); [by rewrite bool_decide_eq_true_2|done|done|exact (substr_some s _ _ _ y Hv Hne Hy)|done].
Qed.

(** C37. [split] with no limit returns the maximal runs of characters other than
    the delimiter, in order, each as a string of its own; paths are cut into
    their components this way. *)
Theorem split_into_components s l d :
  str_val s l -> Z.of_nat (length l) < 2 ^ 62 ->
  exists ws vs, split s d 0 = Ret ws /\ Forall2 str_val ws vs /\ splits d l vs /\
    Forall (fun w => w <> [] /\ (d ∉ w)) vs /\ concat vs = filter (fun c => c <> d) l.
Proof.
  intros Hs Hl. destruct (split_spec s l d Hs Hl) as (ws & vs & Hrun & Hf & Hsp).
  exists ws, vs. split_and!; [done|done|done|by eapply splits_pieces|by eapply splits_concat].
Qed.

(** ** Witnesses *)

(** "/a//bc" *)
Definition demo_path : String := Some [47; 97; 47; 47; 98; 99; 0].

Lemma split_into_components_witness :
  exists ws vs, split demo_path 47 0 = Ret ws /\ Forall2 str_val ws vs /\ splits 47 [47; 97; 47; 47; 98; 99] vs /\
    Forall (fun w => w <> [] /\ (47 ∉ w)) vs /\ concat vs = filter (fun c => c <> 47) [47; 97; 47; 47; 98; 99].
Proof. apply split_into_components; [repeat split; done|simpl; lia]. Defined.

Example split_demo : split demo_path 47 0 = Ret [Some [97; 0]; Some [98; 99; 0]].
Proof. reflexivity. Qed.

Lemma string_concat_cut_witness :
  exists s n x y, str_add (Some [97; 0]) (Some [98; 99; 0]) = Ret s /\ str_val s ([97] ++ [98; 99]) /\ str_size (Some [97; 0]) = Ret n /\
    substr s 0 n = Ret x /\ substr s n npos = Ret y /\ str_eq x (Some [97; 0]) = Ret true /\ str_eq y (Some [98; 99; 0]) = Ret true /\
    str_eq (Some [97; 0]) (Some [98; 99; 0]) = Ret (bool_decide ([97] = [98; 99])).
Proof. apply string_concat_cut; (repeat split; done) || (simpl; lia) || (eexists; reflexivity). Defined.
