(* ===== verification/Printf.v ===== *)
(** * lib/printf.cc: formatted output

    A number is converted into the digits that [ui2a] and its variants leave in
    the buffer [bf] (24 bytes, its terminator included); characters are output
    by appending them to the text printed so far.  The format is the list of
    its characters: reading at its end gives the terminator 0. *)

From Stdlib Require Import ZArith Lia.
From stdpp Require Import base gmap list numbers.
From S2P Require Import Prelude Math CString.

Open Scope Z_scope.

(** ** Conversions *)

Definition BF_SIZE : nat := 24.

(** [while (num / d >= base) d *= base;] with [d] an [unsigned int]: a division
    by zero faults. *)
Fixpoint find_d (fuel : nat) (num base d : Z) : outcome Z :=
  match fuel with
  | O => OutOfFuel
  | S fuel =>
      if d =? 0 then Fault
      else if base <=? num / d then find_d fuel num base (u32 (d * base))
      else Ret d
  end.

Definition digit_char (uc : bool) (dgt : Z) : Z :=
  u8 (dgt + (if dgt <? 10 then 48 else (if uc then 65 else 97) - 10)).

(** [while (d != 0)]: the characters written to [bf]; [n] counts them. *)
Fixpoint emit_digits (fuel : nat) (num base d n : Z) (uc : bool) : outcome (list Z) :=
  match fuel with
  | O => OutOfFuel
  | S fuel =>
      if d =? 0 then Ret []
      else
        let dgt := s32 (num / d) in
        let num := num mod d in
        let d := d / base in
        if negb (n =? 0) || (0 <? dgt) || (d =? 0) then
          rest ← emit_digits fuel num base d (n + 1) uc;
          Ret (digit_char uc dgt :: rest)
        else emit_digits fuel num base d n uc
  end.

(** The text fits in [bf] with its terminator. *)
Definition to_bf (l : list Z) : outcome (list Z) :=
  if decide (length l < BF_SIZE)%nat then Ret l else Fault.

(** On [unsigned long]. *)
Definition uli2a (num base : Z) (uc : bool) : outcome (list Z) :=
  d ← find_d 66 num base 1;
  l ← emit_digits 66 num base d 0 uc;
  to_bf l.

(** On [long]; [-num] overflows on the least number. *)
Definition li2a (num : Z) : outcome (list Z) :=
  if num <? 0 then
    if num =? - 2 ^ 63 then Fault
    else l ← uli2a (- num) 10 false; to_bf (45 :: l)
  else uli2a num 10 false.

(** On [unsigned int]: the same code at 32 bits. *)
Definition ui2a (num base : Z) (uc : bool) : outcome (list Z) :=
  d ← find_d 34 num base 1;
  l ← emit_digits 34 num base d 0 uc;
  to_bf l.

Definition i2a (num : Z) : outcome (list Z) :=
  if num <? 0 then
    num ← int_ck (- num);
    l ← ui2a (u32 num) 10 false;
    to_bf (45 :: l)
  else ui2a (u32 num) 10 false.

Definition a2d (ch : Z) : Z :=
  if (48 <=? ch) && (ch <=? 57) then ch - 48
  else if (97 <=? ch) && (ch <=? 102) then ch - 97 + 10
  else if (65 <=? ch) && (ch <=? 70) then ch - 65 + 10
  else -1.

(** [*(fmt++)] *)
Definition next_char (fmt : list Z) : Z * list Z :=
  match fmt with [] => (0, []) | c :: fmt => (c, fmt) end.

(** Returns the first character that is no digit, the rest and the number. *)
Fixpoint a2i (fuel : nat) (ch : Z) (src : list Z) (base num : Z) : outcome (Z * list Z * Z) :=
  match fuel with
  | O => OutOfFuel
  | S fuel =>
      let digit := a2d ch in
      if (0 <=? digit) && negb (base <? digit) then
        num ← int_ck (num * base + digit);
        let '(ch, src) := next_char src in
        a2i fuel ch src base num
      else Ret (ch, src, num)
  end.

(** Pads the text to [n] characters on the left. *)
Definition putchw (n : Z) (z : bool) (bf : list Z) : list Z :=
  replicate (Z.to_nat (n - Z.of_nat (length bf))) (if z then 48 else 32) ++ bf.

(** ** Formats *)

(** The variable arguments: a register-width integer or a string. *)
Inductive va_arg := VInt (z : Z) | VStr (s : list Z).

Definition va_int (va : list va_arg) : outcome (Z * list va_arg) :=
  match va with VInt z :: va => Ret (z, va) | _ => Fault end.
Definition va_str (va : list va_arg) : outcome (list Z * list va_arg) :=
  match va with VStr s :: va => Ret (s, va) | _ => Fault end.

(** One conversion [%...], after the [%]: the text it prints, the rest of the
    format and the arguments left, or [None] for [goto abort]. *)
Definition conversion (fmt : list Z) (va : list va_arg) : outcome (option (list Z * list Z * list va_arg)) :=
  let '(ch, fmt) := next_char fmt in
  let lz := ch =? 48 in
  let '(ch, fmt) := if ch =? 48 then next_char fmt else (ch, fmt) in
  cfw ← (if (48 <=? ch) && (ch <=? 57) then a2i (S (length fmt + 1)) ch fmt 10 0 else Ret (ch, fmt, 0));
  let '(ch, fmt, w) := cfw in
  let lng := ch =? 108 in
  let '(ch, fmt) := if ch =? 108 then next_char fmt else (ch, fmt) in
  let number (conv : Z -> outcome (list Z)) :=
    zva ← va_int va;
    bf ← conv (fst zva);
    Ret (Some (putchw w lz bf, fmt, snd zva)) in
  if ch =? 0 then Ret None
  else if ch =? 117 then
    number (fun z => if lng then uli2a (u64 z) 10 false else ui2a (u32 z) 10 false)
  else if ch =? 100 then
    number (fun z => if lng then li2a ((z + 2 ^ 63) mod 2 ^ 64 - 2 ^ 63) else i2a (s32 z))
  else if (ch =? 120) || (ch =? 88) then
    number (fun z => if lng then uli2a (u64 z) 16 (ch =? 88) else ui2a (u32 z) 16 (ch =? 88))
  else if ch =? 112 then
    zva ← va_int va;
    let pointer := u64 (fst zva) in
    hi ← ui2a (Z.land (Z.shiftr pointer 32) 0xffffffff) 16 false;
    lo ← ui2a (Z.land pointer 0xffffffff) 16 false;
    Ret (Some (putchw 8 true hi ++ putchw 8 true lo, fmt, snd zva))
  else if ch =? 99 then
    zva ← va_int va;
    Ret (Some ([u8 (fst zva)], fmt, snd zva))
  else if ch =? 115 then
    sva ← va_str va;
    Ret (Some (putchw w false (fst sva), fmt, snd sva))
  else if ch =? 37 then Ret (Some ([ch], fmt, va))
  else Ret (Some ([], fmt, va)).

(** [while ((ch = *(fmt++)))]: the text printed. *)
Fixpoint tfp_format (fuel : nat) (fmt : list Z) (va : list va_arg) : outcome (list Z) :=
  match fuel with
  | O => OutOfFuel
  | S fuel =>
      match fmt with
      | [] => Ret []
      | ch :: fmt =>
          if ch =? 0 then Ret []
          else if negb (ch =? 37) then
            rest ← tfp_format fuel fmt va; Ret (ch :: rest)
          else
            r ← conversion fmt va;
            match r with
            | None => Ret []
            | Some (text, fmt, va) =>
                rest ← tfp_format fuel fmt va; Ret (text ++ rest)
            end
      end
  end.

(** The text written to the buffer; the terminator follows it. *)
Definition tfp_sprintf (fmt : list Z) (va : list va_arg) : outcome (list Z) :=
  tfp_format (S (length fmt)) fmt va.

(** ** Conversions are correct *)

Definition ok_base (base : Z) : Prop := base = 10 \/ base = 16.

Lemma digit_char_spec base uc dgt :
  ok_base base -> 0 <= dgt < base ->
  to_decimal (digit_char uc dgt) = dgt /\ is_valid base (digit_char uc dgt) = true /\ 0 < digit_char uc dgt.
Proof.
  intros Hb Hd. unfold digit_char, to_decimal, is_valid, is_alphanumeric, is_digit_c.
  assert (Hle : dgt < 16) by (destruct Hb; lia).
  rewrite u8_id by (destruct (dgt <? 10), uc; lia).
  destruct Hb as [-> | ->]; simpl; destruct uc, (Z.ltb_spec dgt 10); try lia;
    repeat match goal with
    | |- context [?a <=? ?b] => destruct (Z.leb_spec a b); try lia; simpl
    end; split_and!; lia || done.
Qed.

Lemma find_d_spec fuel num base k :
  ok_base base -> 0 <= num < 2 ^ 32 -> 0 <= k -> base ^ k <= num \/ k = 0 -> 33 - k < Z.of_nat fuel ->
  exists j, find_d fuel num base (base ^ k) = Ret (base ^ j) /\ 0 <= j < 32 /\
    num < base ^ (j + 1) /\ (base ^ j <= num \/ j = 0).
Proof.
  intros Hb Hnum. assert (Hb2 : 2 < base <= 16) by (destruct Hb; lia).
  revert k. induction fuel as [|fuel IH]; intros k Hk Hle Hf.
  - exfalso. assert (2 ^ k <= base ^ k) by (apply Z.pow_le_mono_l; lia).
    assert (k < 32) by (destruct (Z.lt_ge_cases k 32); [done|]; pose proof (Z.pow_le_mono_r 2 32 k); lia). lia.
  - cbn [find_d]. assert (Hpos : 0 < base ^ k) by (apply Z.pow_pos_nonneg; lia).
    rewrite (proj2 (Z.eqb_neq _ 0)) by lia.
    pose proof (Z.div_mod num (base ^ k) ltac:(lia)). pose proof (Z.mod_pos_bound num (base ^ k) ltac:(lia)).
    assert (Hs : base ^ k * base = base ^ (k + 1)) by (rewrite Z.pow_add_r by lia; lia).
    destruct (Z.leb_spec base (num / base ^ k)) as [Hge|Hlt].
    + assert (base ^ (k + 1) <= num) by nia. rewrite Hs, u32_id by lia. apply IH; [lia|lia|lia].
    + exists k. split_and!; [done|lia| |nia|done].
      destruct Hle as [Hle| ->]; [|lia]. assert (2 ^ k <= base ^ k) by (apply Z.pow_le_mono_l; lia).
      destruct (Z.lt_ge_cases k 32); [done|]. pose proof (Z.pow_le_mono_r 2 32 k). lia.
Qed.

Lemma emit_digits_spec fuel num base k n uc v :
  ok_base base -> 0 <= num < base ^ (k + 1) -> 0 <= k -> 0 <= n -> n <> 0 \/ k = 0 \/ base ^ k <= num ->
  k + 1 < Z.of_nat fuel ->
  exists ds, emit_digits fuel num base (base ^ k) n uc = Ret ds /\
    Z.of_nat (length ds) = k + 1 /\ Forall (fun c => is_valid base c = true) ds /\
    Forall (fun c => c <> 0) ds /\
    digits_value base v ds = v * base ^ (k + 1) + num.
Proof.
  intros Hb. assert (Hb2 : 2 < base <= 16) by (destruct Hb; lia).
  revert num k n v. induction fuel as [|fuel IH]; intros num k n v Hnum Hk Hn Hlead Hf; [lia|].
  cbn [emit_digits]. assert (Hpos : 0 < base ^ k) by (apply Z.pow_pos_nonneg; lia).
  assert (Hs : base ^ (k + 1) = base ^ k * base) by (rewrite Z.pow_add_r by lia; lia).
  rewrite (proj2 (Z.eqb_neq _ 0)) by lia.
  pose proof (Z.div_mod num (base ^ k) ltac:(lia)) as Hdm. pose proof (Z.mod_pos_bound num (base ^ k) ltac:(lia)) as Hmb.
  assert (Hd : 0 <= num / base ^ k < base).
  { split; [apply Z.div_pos; lia|]. apply Z.div_lt_upper_bound; [lia|]. nia. }
  rewrite s32_id by lia. destruct (digit_char_spec base uc _ Hb Hd) as (Hc1 & Hc2 & Hc3).
  set (q := num / base ^ k) in *.
  destruct (decide (k = 0)) as [->|Hk0].
  - change (base ^ 0) with 1 in *. assert (H1 : 1 / base = 0) by (apply Z.div_small; lia). rewrite H1. cbn [Z.eqb].
    rewrite orb_true_r. destruct fuel as [|fuel]; [simpl in Hf; lia|]. cbn [emit_digits mbind outcome_bind Z.eqb].
    exists [digit_char uc q]. split_and!; [done|done|by constructor|constructor; [lia|constructor]|].
    unfold digits_value. cbn [fold_left]. rewrite Hc1. change (0 + 1) with 1. rewrite Z.pow_1_r. lia.
  - assert (Hdd : base ^ k / base = base ^ (k - 1)).
    { replace k with (k - 1 + 1) at 1 by lia. rewrite Z.pow_add_r by lia. rewrite Z.pow_1_r. apply Z.div_mul. lia. }
    rewrite Hdd. assert (Hnz : 0 < base ^ (k - 1)) by (apply Z.pow_pos_nonneg; lia).
    assert (Hcond : negb (n =? 0) || (0 <? q) || (base ^ (k - 1) =? 0) = true).
    { destruct Hlead as [Hn0|[?|Hle]]; [|lia|].
      - by rewrite (proj2 (Z.eqb_neq n 0)) by done.
      - assert (0 < q) by nia. rewrite (proj2 (Z.ltb_lt 0 q)) by done. by rewrite orb_true_r. }
    rewrite Hcond.
    destruct (IH (num mod base ^ k) (k - 1) (n + 1) (v * base + q)) as (ds & Hrun & Hlen & Hval & Hnzs & Hv);
      [by replace (k - 1 + 1) with k by lia|lia|lia|left; lia|lia|].
    rewrite Hrun. cbn [mbind outcome_bind]. exists (digit_char uc q :: ds).
    split_and!; [done|simpl; lia|by constructor|constructor; [lia|done]|].
    unfold digits_value in *. cbn [fold_left]. rewrite Hc1, Hv. replace (k - 1 + 1) with k by lia. rewrite Hs. nia.
Qed.

Lemma find_d_mono fuel fuel' num base d r :
  find_d fuel num base d = Ret r -> (fuel <= fuel')%nat -> find_d fuel' num base d = Ret r.
Proof.
  revert fuel' d. induction fuel as [|fuel IH]; intros fuel' d; [done|]. destruct fuel' as [|fuel']; [lia|].
  cbn [find_d]. intros Hr Hle. destruct (d =? 0); [done|]. destruct (base <=? num / d); [|done]. apply IH; [done|lia].
Qed.

Lemma emit_digits_mono fuel fuel' num base d n uc r :
  emit_digits fuel num base d n uc = Ret r -> (fuel <= fuel')%nat -> emit_digits fuel' num base d n uc = Ret r.
Proof.
  revert fuel' num d n r. induction fuel as [|fuel IH]; intros fuel' num d n r; [done|]. destruct fuel' as [|fuel']; [lia|].
  cbn [emit_digits]. intros Hr Hle. destruct (d =? 0); [done|].
  destruct (negb (n =? 0) || (0 <? s32 (num / d)) || (d / base =? 0)); [|apply IH; [done|lia]].
  destruct (emit_digits fuel (num mod d) base (d / base) (n + 1) uc) as [l| | |] eqn:E; cbn [mbind outcome_bind] in Hr; try done.
  rewrite (IH fuel' _ _ _ _ E) by lia. done.
Qed.

(** Both widths produce the same digits for a number below 2^32, at most ten. *)
Lemma ui2a_spec num base uc :
  ok_base base -> 0 <= num < 2 ^ 32 ->
  exists ds, ui2a num base uc = Ret ds /\ uli2a num base uc = Ret ds /\ (0 < length ds <= 10)%nat /\
    Forall (fun c => is_valid base c = true) ds /\ Forall (fun c => c <> 0) ds /\
    digits_value base 0 ds = num.
Proof.
  intros Hb Hnum.
  destruct (find_d_spec 34 num base 0) as (j & Hd & Hj & Hup & Hlo); [done|done|lia|by right|lia|].
  rewrite Z.pow_0_r in Hd.
  destruct (emit_digits_spec 34 num base j 0 uc 0) as (ds & Hrun & Hlen & Hval & Hnz & Hv);
    [done|lia|lia|lia|by destruct Hlo as [?| ->]; auto|lia|].
  assert (Hl10 : (0 < length ds <= 10)%nat).
  { split; [lia|]. destruct (Z.le_gt_cases 10 j) as [H10|]; [|lia]. exfalso.
    destruct Hlo as [Hlo| ->]; [|lia].
    assert (10 ^ 10 <= base ^ j); [|lia].
    transitivity (10 ^ j); [apply Z.pow_le_mono_r; lia|apply Z.pow_le_mono_l; destruct Hb; lia]. }
  assert (Hbf : to_bf ds = Ret ds) by (unfold to_bf, BF_SIZE; by rewrite decide_True by lia).
  exists ds. split_and!; [| |lia|lia|done|done|by rewrite Hv; lia].
  - unfold ui2a. rewrite Hd. unfold mbind, outcome_bind. rewrite Hrun. exact Hbf.
  - unfold uli2a. rewrite (find_d_mono 34 66 _ _ _ _ Hd) by lia.
    unfold mbind, outcome_bind. rewrite (emit_digits_mono 34 66 _ _ _ _ _ _ Hrun) by lia. exact Hbf.
Qed.

Lemma i2a_spec num :
  - 2 ^ 31 < num < 2 ^ 31 ->
  exists ds, i2a num = Ret (sign_chars (if num <? 0 then Some true else None) ++ ds) /\ (0 < length ds <= 10)%nat /\
    Forall (fun c => is_valid 10 c = true) ds /\ Forall (fun c => c <> 0) ds /\
    digits_value 10 0 ds = Z.abs num.
Proof.
  intros Hn. destruct (ui2a_spec (Z.abs num) 10 false) as (ds & Hr & _ & Hl & Hv & Hnz & Hd); [by left|lia|].
  exists ds. split_and!; [|lia|lia|done..]. unfold i2a. destruct (Z.ltb_spec num 0).
  - unfold int_ck. rewrite decide_True by lia. cbn [mbind outcome_bind].
    rewrite u32_id by lia. replace (- num) with (Z.abs num) by lia. rewrite Hr. cbn [mbind outcome_bind].
    unfold to_bf, BF_SIZE. rewrite decide_True by (simpl; lia). done.
  - rewrite u32_id by lia. replace num with (Z.abs num) at 1 by lia. done.
Qed.

Lemma conversion_d num :
  conversion [100] [VInt num] =
    (bf ← i2a (s32 num); Ret (Some (putchw 0 false bf, [], [] : list va_arg))).
Proof. reflexivity. Qed.

Lemma putchw_0 z bf : putchw 0 z bf = bf.
Proof. unfold putchw. by replace (Z.to_nat (0 - Z.of_nat (length bf))) with 0%nat by lia. Qed.

(** ** Theorems *)

(** C31. Printing an [int] with [%d] and reading it back with [atoi] gives the
    number again, for every [int] but the least one; the text fits in [bf]. *)
Theorem sprintf_atoi_roundtrip (m : mem) p num :
  - 2 ^ 31 < num < 2 ^ 31 ->
  exists text, tfp_sprintf [37; 100] [VInt num] = Ret text /\ (length text < BF_SIZE)%nat /\
    (cstr (ld m) p text -> atoi (S (extent m)) (ld m) p 10 = Ret num).
Proof.
  intros Hn. destruct (i2a_spec num Hn) as (ds & Hr & Hl & Hv & Hnz & Hd).
  set (sg := if num <? 0 then Some true else None) in *. exists (sign_chars sg ++ ds). split_and!.
  - unfold tfp_sprintf. cbn [tfp_format length Z.eqb Pos.eqb negb].
    rewrite conversion_d, s32_id, Hr by lia. cbn [mbind outcome_bind].
    by rewrite putchw_0, app_nil_r.
  - rewrite length_app. unfold sg, BF_SIZE. destruct (num <? 0); simpl; lia.
  - intros Hs. destruct ds as [|d ds']; [simpl in Hl; lia|]. set (ds := d :: ds') in *.
    assert (Hlen : Z.of_nat (length (sign_chars sg ++ ds ++ [])) < 2 ^ 31).
    { rewrite !length_app. unfold sg. destruct (num <? 0); simpl in *; lia. }
    pose proof (atoi_spec m p 10 0 sg ds [] ltac:(by left) ltac:(done) Hv I) as Ha. cbv zeta in Ha. rewrite app_nil_r in Ha.
    rewrite Ha; [|done|by rewrite app_nil_r in Hlen]. rewrite Hd. f_equal. unfold clamp_int, sg.
    rewrite (proj2 (Z.leb_le _ INT_MAX)) by (unfold INT_MAX; lia).
    destruct (Z.ltb_spec num 0); simpl; lia.
Qed.

(** The text -305 at address 0. *)
Definition num_mem : mem := list_to_map (zip (seqZ 0 5) [45; 51; 48; 53; 0]).

Lemma sprintf_atoi_roundtrip_witness :
  tfp_sprintf [37; 100] [VInt (-305)] = Ret [45; 51; 48; 53] /\
  atoi (S (extent num_mem)) (ld num_mem) 0 10 = Ret (-305).
Proof.
  split; [vm_compute; reflexivity|].
  destruct (sprintf_atoi_roundtrip num_mem 0 (-305)) as (text & Ht & _ & Ha); [lia|]. apply Ha.
  vm_compute in Ht. injection Ht as <-. repeat split; done.
Defined.

(** C32. [uli2a] agrees with [ui2a] on numbers that fit 32 bits, but its divisor
    is only an [unsigned int]: on a larger number, in base 16, it divides by zero. *)
Theorem uli2a_32_bits num uc :
  (0 <= num < 2 ^ 32 -> exists ds, uli2a num 16 uc = Ret ds /\ ui2a num 16 uc = Ret ds /\ digits_value 16 0 ds = num) /\
  (2 ^ 32 <= num -> uli2a num 16 uc = Fault).
Proof.
  split.
  - intros Hn. destruct (ui2a_spec num 16 uc) as (ds & H1 & H2 & _ & _ & _ & Hd); [by right|done|].
    exists ds. exact (conj H2 (conj H1 Hd)).
  - intros Hn. unfold uli2a.
    assert (Hstep : forall fuel d, 0 < d <= 2 ^ 28 -> find_d (S fuel) num 16 d = find_d fuel num 16 (u32 (d * 16))).
    { intros fuel d Hd. cbn [find_d]. rewrite (proj2 (Z.eqb_neq d 0)) by lia.
      rewrite (proj2 (Z.leb_le 16 (num / d))); [done|]. apply Z.div_le_lower_bound; lia. }
    do 8 (rewrite Hstep by (vm_compute; split; congruence)). reflexivity.
Qed.

Lemma uli2a_32_bits_witness : uli2a 0xffff000000080000 16 false = Fault.
Proof. apply (uli2a_32_bits 0xffff000000080000 false). lia. Defined.

(** ** Formats, one piece at a time *)

Lemma next_char_le fmt ch fmt' : next_char fmt = (ch, fmt') -> (length fmt' <= length fmt)%nat.
Proof. destruct fmt; simpl; intros [= <- <-]; simpl; lia. Qed.

Lemma a2i_le fuel ch src base num r : a2i fuel ch src base num = Ret r -> (length (snd (fst r)) <= length src)%nat.
Proof.
  revert ch src num. induction fuel as [|fuel IH]; intros ch src num; cbn [a2i]; [done|].
  destruct ((0 <=? a2d ch) && negb (base <? a2d ch)); [|by intros [= <-]]. intros H. obind_inv H.
  destruct (next_char src) as [ch' src'] eqn:E. apply next_char_le in E. apply IH in H. lia.
Qed.

Lemma conversion_le fmt va t fmt' va' : conversion fmt va = Ret (Some (t, fmt', va')) -> (length fmt' <= length fmt)%nat.
Proof.
  unfold conversion. destruct (next_char fmt) as [c1 f1] eqn:E1. apply next_char_le in E1.
  destruct (if c1 =? 48 then next_char f1 else (c1, f1)) as [c2 f2] eqn:E2.
  assert (H2 : (length f2 <= length f1)%nat) by (destruct (c1 =? 48); [by eapply next_char_le|by injection E2 as <- <-]).
  intros H. obind_inv H. destruct c as [[c3 f3] w].
  assert (H3 : (length f3 <= length f2)%nat).
  { destruct ((48 <=? c2) && (c2 <=? 57)); [by apply a2i_le in Hc|by injection Hc as <- <- <-]. }
  destruct (if c3 =? 108 then next_char f3 else (c3, f3)) as [c4 f4] eqn:E4.
  assert (H4 : (length f4 <= length f3)%nat) by (destruct (c3 =? 108); [by eapply next_char_le|by injection E4 as <- <-]).
  assert (Hle : (length f4 <= length fmt)%nat) by lia. clear -H Hle.
  repeat match type of H with context [if ?b then _ else _] => destruct b end;
    repeat (obind_inv H); simplify_eq; try lia; done.
Qed.

Lemma tfp_format_fuel f f' fmt va : (length fmt < f)%nat -> (length fmt < f')%nat -> tfp_format f fmt va = tfp_format f' fmt va.
Proof.
  revert f' fmt va. induction f as [|f IH]; intros [|f'] fmt va H H'; try lia. cbn [tfp_format].
  destruct fmt as [|ch fmt]; [done|]. simpl in H, H'. destruct (ch =? 0); [done|]. destruct (negb (ch =? 37)).
  - by rewrite (IH f') by lia.
  - destruct (conversion fmt va) as [[[[t fmt2] va2]|]| | |] eqn:E; simpl; try done. apply conversion_le in E. by rewrite (IH f') by lia.
Qed.

Lemma sprintf_nil va : tfp_sprintf [] va = Ret [].
Proof. done. Qed.
Definition plain (l : list Z) : bool := forallb (fun c => negb (c =? 0) && negb (c =? 37)) l.
Lemma sprintf_lit l fmt va : plain l = true -> tfp_sprintf (l ++ fmt) va = (r ← tfp_sprintf fmt va; Ret (l ++ r)).
Proof.
  unfold tfp_sprintf. induction l as [|c l IH]; cbn [app plain forallb]; intros Hp.
  - by destruct (tfp_format (S (length fmt)) fmt va).
  - apply andb_true_iff in Hp as [[Hz Hq]%andb_true_iff Hp]. cbn [length]. specialize (IH Hp). set (f := S (length (l ++ fmt))) in *.
    set (R := tfp_format (S (length fmt)) fmt va) in *. cbn [tfp_format]. apply negb_true_iff in Hz. rewrite Hz, Hq, IH. by destruct R.
Qed.
Lemma sprintf_conv fmt va t fmt' va' : conversion fmt va = Ret (Some (t, fmt', va')) ->
  tfp_sprintf (37 :: fmt) va = (r ← tfp_sprintf fmt' va'; Ret (t ++ r)).
Proof.
  intros Hc. unfold tfp_sprintf. cbn [length]. set (f := S (length fmt)). set (R := tfp_format (S (length fmt')) fmt' va'). cbn [tfp_format]. change (37 =? 0) with false. change (negb (37 =? 37)) with false.
  cbn iota. rewrite Hc. cbn [mbind outcome_bind]. pose proof (conversion_le _ _ _ _ _ Hc).
  by rewrite (tfp_format_fuel f (S (length fmt'))) by (unfold f; lia).
Qed.
(** One conversion of a number or a string. *)
Lemma sprintf_number (c : Z) (conv : Z -> outcome (list Z)) fmt z va :
  (forall fmt va, conversion (c :: fmt) va = (zva ← va_int va; bf ← conv (fst zva); Ret (Some (putchw 0 false bf, fmt, snd zva)))) ->
  tfp_sprintf (37 :: c :: fmt) (VInt z :: va) = (x ← conv z; r ← tfp_sprintf fmt va; Ret (x ++ r)).
Proof.
  intros Hc. destruct (conv z) as [x| | |] eqn:E; [apply sprintf_conv|..].
  1:{ rewrite Hc. simpl. rewrite E. simpl. by rewrite putchw_0. }
  all: unfold tfp_sprintf; cbn [length]; set (f := S (length (c :: fmt))); cbn [tfp_format]; rewrite Hc; simpl; by rewrite E.
Qed.
Lemma sprintf_d fmt z va : tfp_sprintf (37 :: 100 :: fmt) (VInt z :: va) = (x ← i2a (s32 z); r ← tfp_sprintf fmt va; Ret (x ++ r)).
Proof. by apply (sprintf_number 100 (fun z => i2a (s32 z))). Qed.
Lemma sprintf_x fmt z va : tfp_sprintf (37 :: 120 :: fmt) (VInt z :: va) = (x ← ui2a (u32 z) 16 false; r ← tfp_sprintf fmt va; Ret (x ++ r)).
Proof. by apply (sprintf_number 120 (fun z => ui2a (u32 z) 16 false)). Qed.
Lemma sprintf_s fmt t va : tfp_sprintf (37 :: 115 :: fmt) (VStr t :: va) = (r ← tfp_sprintf fmt va; Ret (t ++ r)).
Proof.
  apply sprintf_conv. unfold conversion. simpl. unfold putchw.
  by replace (Z.to_nat (0 - Z.of_nat (length t))) with 0%nat by lia.
Qed.
