(* ===== verification/SmartPtr.v ===== *)
(** * include/lib/SharedPtr.h, include/lib/WeakPtr.h, include/lib/UniquePtr.h

    The state is the heap of control blocks and objects together with the
    pointer variables of the program, by name, so that an assignment may name
    the same variable twice.  A raw pointer is an address, 0 for [nullptr].
    [delete] of an address that is not a live object faults, and so does access
    to a control block that has been deleted.  The counts are of type [int]:
    an increment, or the sum of the two, that does not fit faults. *)

From Stdlib Require Import ZArith Lia.
From stdpp Require Import base gmap list numbers.
From S2P Require Import Prelude Math.

Open Scope Z_scope.

Record ControlBlock := mkCtrl { cb_p : Z; use_count : Z; use_count_weak : Z }.
Record SharedPtr := mkSP { sp_ctrl : option Z; sp_alias : Z }.

Record PtrState := mkPS {
  ps_ctrls : gmap Z ControlBlock;
  ps_next : Z;
  ps_objs : gset Z;
  ps_shared : gmap Z SharedPtr;
  ps_weak : gmap Z (option Z);
  ps_unique : gmap Z Z
}.

Definition set_ctrls (c : gmap Z ControlBlock) (s : PtrState) : PtrState :=
  mkPS c (ps_next s) (ps_objs s) (ps_shared s) (ps_weak s) (ps_unique s).
Definition set_next (n : Z) (s : PtrState) : PtrState :=
  mkPS (ps_ctrls s) n (ps_objs s) (ps_shared s) (ps_weak s) (ps_unique s).
Definition set_objs (o : gset Z) (s : PtrState) : PtrState :=
  mkPS (ps_ctrls s) (ps_next s) o (ps_shared s) (ps_weak s) (ps_unique s).
Definition set_shared (v : gmap Z SharedPtr) (s : PtrState) : PtrState :=
  mkPS (ps_ctrls s) (ps_next s) (ps_objs s) v (ps_weak s) (ps_unique s).
Definition set_weak (v : gmap Z (option Z)) (s : PtrState) : PtrState :=
  mkPS (ps_ctrls s) (ps_next s) (ps_objs s) (ps_shared s) v (ps_unique s).
Definition set_unique (v : gmap Z Z) (s : PtrState) : PtrState :=
  mkPS (ps_ctrls s) (ps_next s) (ps_objs s) (ps_shared s) (ps_weak s) v.

Abbreviation PM := (M PtrState).

(** ** Accesses *)

Definition rd_ctrl (c : Z) : PM ControlBlock := s ← get; deref (ps_ctrls s !! c).
Definition wr_ctrl (c : Z) (f : ControlBlock -> ControlBlock) : PM unit :=
  b ← rd_ctrl c; s ← get; put (set_ctrls (<[c := f b]> (ps_ctrls s)) s).
Definition new_ctrl (p : Z) : PM Z :=
  s ← get;
  put (set_next (ps_next s + 1) (set_ctrls (<[ps_next s := mkCtrl p 1 0]> (ps_ctrls s)) s));;
  mret (ps_next s).
Definition del_ctrl (c : Z) : PM unit :=
  rd_ctrl c;; s ← get; put (set_ctrls (delete c (ps_ctrls s)) s).

(** [delete p] *)
Definition del_obj (p : Z) : PM unit :=
  if p =? 0 then mret tt
  else s ← get; if decide (p ∈ ps_objs s) then put (set_objs (ps_objs s ∖ {[p]}) s) else fault.

Definition rd_sp (v : Z) : PM SharedPtr := s ← get; deref (ps_shared s !! v).
Definition wr_sp (v : Z) (x : SharedPtr) : PM unit := modify (fun s => set_shared (<[v := x]> (ps_shared s)) s).
Definition rd_wp (v : Z) : PM (option Z) := s ← get; deref (ps_weak s !! v).
Definition wr_wp (v : Z) (x : option Z) : PM unit := modify (fun s => set_weak (<[v := x]> (ps_weak s)) s).

Definition set_use (n : Z) (b : ControlBlock) : ControlBlock := mkCtrl (cb_p b) n (use_count_weak b).
Definition set_use_weak (n : Z) (b : ControlBlock) : ControlBlock := mkCtrl (cb_p b) (use_count b) n.
Definition add_use (d : Z) (b : ControlBlock) : ControlBlock := mkCtrl (cb_p b) (use_count b + d) (use_count_weak b).
Definition add_weak (d : Z) (b : ControlBlock) : ControlBlock := mkCtrl (cb_p b) (use_count b) (use_count_weak b + d).

(** ** SharedPtr *)

Definition inc_use_count (c : option Z) : PM unit :=
  match c with
  | Some c => b ← rd_ctrl c; n ← lift (int_ck (use_count b + 1)); wr_ctrl c (set_use n)
  | None => mret tt
  end.

Definition maybe_delete_p (c : Z) : PM unit :=
  b ← rd_ctrl c;
  if use_count b =? 0 then
    del_obj (cb_p b);;
    wr_ctrl c (fun b => mkCtrl 0 (use_count b) (use_count_weak b))
  else mret tt.

(** The block the pointer refers to afterwards. *)
Definition maybe_delete_ctrl_block (c : Z) : PM (option Z) :=
  b ← rd_ctrl c;
  n ← lift (int_ck (use_count b + use_count_weak b));
  if n =? 0 then
    wr_ctrl c (fun b => mkCtrl (cb_p b) (use_count b) (-1));;
    del_ctrl c;;
    mret None
  else mret (Some c).

Definition dec_use_count (c : option Z) : PM (option Z) :=
  match c with
  | None => mret None
  | Some c =>
      b ← rd_ctrl c;
      if 0 <? use_count b then
        wr_ctrl c (add_use (-1));;
        maybe_delete_p c;;
        maybe_delete_ctrl_block c
      else mret (Some c)
  end.

Definition sp_default (v : Z) : PM unit := wr_sp v (mkSP None 0).
Definition sp_from_raw (v p : Z) : PM unit := c ← new_ctrl p; wr_sp v (mkSP (Some c) 0).
Definition sp_from_weak (v w : Z) : PM unit :=
  c ← rd_wp w; wr_sp v (mkSP c 0);; inc_use_count c.
Definition sp_aliasing (v r alias_ptr : Z) : PM unit :=
  x ← rd_sp r; wr_sp v (mkSP (sp_ctrl x) alias_ptr);; inc_use_count (sp_ctrl x).
Definition sp_copy (v r : Z) : PM unit :=
  x ← rd_sp r; wr_sp v x;; inc_use_count (sp_ctrl x).
Definition sp_move (v r : Z) : PM unit :=
  x ← rd_sp r; wr_sp v x;; wr_sp r (mkSP None 0).

(** The end of a variable's life. *)
Definition sp_destroy (v : Z) : PM unit :=
  x ← rd_sp v;
  dec_use_count (sp_ctrl x);;
  modify (fun s => set_shared (delete v (ps_shared s)) s).

(** [SharedPtr<T>(p).swap( *this)]: the temporary takes the old value and dies. *)
Definition sp_reset (v p : Z) : PM unit :=
  c ← new_ctrl p;
  x ← rd_sp v;
  wr_sp v (mkSP (Some c) 0);;
  dec_use_count (sp_ctrl x);;
  mret tt.

(** [if (_ctrl && _ctrl->use_count > 0) reset();] *)
Definition sp_release (v : Z) : PM unit :=
  x ← rd_sp v;
  match sp_ctrl x with
  | None => mret tt
  | Some c => b ← rd_ctrl c; if 0 <? use_count b then sp_reset v 0 else mret tt
  end.

Definition sp_assign (v r : Z) : PM unit :=
  sp_release v;;
  x ← rd_sp r;
  wr_sp v x;;
  inc_use_count (sp_ctrl x).

Definition sp_move_assign (v r : Z) : PM unit :=
  sp_release v;;
  x ← rd_sp r;
  wr_sp v x;;
  wr_sp r (mkSP None 0).

Definition sp_swap (v r : Z) : PM unit :=
  x ← rd_sp v; y ← rd_sp r; wr_sp v y;; wr_sp r x.

Definition sp_get (v : Z) : PM Z :=
  x ← rd_sp v;
  if negb (sp_alias x =? 0) then mret (sp_alias x)
  else match sp_ctrl x with Some c => b ← rd_ctrl c; mret (cb_p b) | None => mret 0 end.

Definition sp_use_count (v : Z) : PM Z :=
  x ← rd_sp v;
  match sp_ctrl x with Some c => b ← rd_ctrl c; mret (use_count b) | None => mret 0 end.

(** ** WeakPtr *)

Definition inc_use_count_weak (c : option Z) : PM unit :=
  match c with
  | Some c => b ← rd_ctrl c; n ← lift (int_ck (use_count_weak b + 1)); wr_ctrl c (set_use_weak n)
  | None => mret tt
  end.

Definition dec_use_count_weak (c : option Z) : PM (option Z) :=
  match c with
  | None => mret None
  | Some c =>
      b ← rd_ctrl c;
      if 0 <? use_count_weak b then
        wr_ctrl c (add_weak (-1));;
        maybe_delete_ctrl_block c
      else mret (Some c)
  end.

Definition wp_default (w : Z) : PM unit := wr_wp w None.
Definition wp_from_shared (w r : Z) : PM unit :=
  x ← rd_sp r; wr_wp w (sp_ctrl x);; inc_use_count_weak (sp_ctrl x).
Definition wp_copy (w r : Z) : PM unit := c ← rd_wp r; wr_wp w c;; inc_use_count_weak c.
Definition wp_move (w r : Z) : PM unit := c ← rd_wp r; wr_wp w c;; wr_wp r None.
Definition wp_destroy (w : Z) : PM unit :=
  c ← rd_wp w; dec_use_count_weak c;; modify (fun s => set_weak (delete w (ps_weak s)) s).

(** [if (_ctrl && _ctrl->use_count_weak > 0) dec_use_count_weak();] *)
Definition wp_release (w : Z) : PM unit :=
  c ← rd_wp w;
  match c with
  | None => mret tt
  | Some c0 => b ← rd_ctrl c0; if 0 <? use_count_weak b then c ← dec_use_count_weak c; wr_wp w c else mret tt
  end.
Definition wp_assign (w r : Z) : PM unit := wp_release w;; c ← rd_wp r; wr_wp w c;; inc_use_count_weak c.
Definition wp_move_assign (w r : Z) : PM unit := wp_release w;; c ← rd_wp r; wr_wp w c;; wr_wp r None.

(** The variable keeps its block, unless this was the last reference to it. *)
Definition wp_reset (w : Z) : PM unit := c ← rd_wp w; c ← dec_use_count_weak c; wr_wp w c.

Definition wp_use_count (w : Z) : PM Z :=
  c ← rd_wp w;
  match c with Some c => b ← rd_ctrl c; mret (use_count b) | None => mret 0 end.
Definition expired (w : Z) : PM bool := n ← wp_use_count w; mret (n =? 0).
Definition wp_lock (v w : Z) : PM unit := e ← expired w; if (e : bool) then sp_default v else sp_from_weak v w.

(** ** UniquePtr *)

Definition rd_up (v : Z) : PM Z := s ← get; deref (ps_unique s !! v).
Definition wr_up (v p : Z) : PM unit := modify (fun s => set_unique (<[v := p]> (ps_unique s)) s).
Definition up_new (v p : Z) : PM unit := wr_up v p.
Definition up_release (v : Z) : PM Z := p ← rd_up v; wr_up v 0;; mret p.
Definition up_reset (v p : Z) : PM unit :=
  q ← rd_up v; if q =? p then mret tt else del_obj q;; wr_up v p.
Definition up_move (v r : Z) : PM unit := p ← up_release r; wr_up v p.
Definition up_move_assign (v r : Z) : PM unit := p ← up_release r; up_reset v p.
Definition up_destroy (v : Z) : PM unit :=
  up_reset v 0;; modify (fun s => set_unique (delete v (ps_unique s)) s).
Definition sp_from_unique (v u : Z) : PM unit := p ← up_release u; c ← new_ctrl p; wr_sp v (mkSP (Some c) 0).

(** [swap] of Utility.h: through a temporary. *)
Definition up_swap (v r : Z) : PM unit := p ← up_release v; up_move_assign v r;; up_reset r p.
Definition wp_swap (v r : Z) : PM unit := x ← rd_wp v; wr_wp v None;; wp_move_assign v r;; wp_release r;; wr_wp r x.

(** ** Casts, comparison and hashes *)

(** The casts; [conv] is what [static_cast] does to the address, [is_a] tells
    the objects of the type that is cast to. *)
Definition static_pointer_cast (conv : Z -> Z) (v r : Z) : PM unit := p ← sp_get r; sp_aliasing v r (conv p).
Definition dynamic_pointer_cast (is_a : Z -> bool) (v r : Z) : PM unit :=
  p ← sp_get r; if negb (p =? 0) && is_a p then sp_aliasing v r p else sp_default v.
Definition const_pointer_cast (v r : Z) : PM unit := p ← sp_get r; sp_aliasing v r p.
Definition reinterpret_pointer_cast (v r : Z) : PM unit := p ← sp_get r; sp_aliasing v r p.

Definition sp_bool (v : Z) : PM bool := p ← sp_get v; mret (negb (p =? 0)).
(** The right operand is passed by value: a copy that dies at the end. *)
Definition sp_eq (v r : Z) : PM bool :=
  y ← rd_sp r;
  inc_use_count (sp_ctrl y);;
  x ← rd_sp v;
  dec_use_count (sp_ctrl y);;
  mret (bool_decide (sp_ctrl x = sp_ctrl y)).

Definition sp_hash (v : Z) : PM Z := x ← rd_sp v; mret (u64 (u64 (17 + 23 * default 0 (sp_ctrl x)) + 23 * sp_alias x)).
Definition up_hash (v : Z) : PM Z := p ← rd_up v; mret (u64 (29 + 11 * p)).

(** ** SharedPtr of an array

    The destructor of the class takes a reference away, and the one of its base
    class, which runs after it, another one. *)
Definition spa_destroy (v : Z) : PM unit :=
  x ← rd_sp v; c ← dec_use_count (sp_ctrl x); wr_sp v (mkSP c (sp_alias x));; sp_destroy v.

(** ** EnableSharedFromThis

    An object of a class derived from it has a member [_weak_this]: the variable
    of this name for the object at [p]. *)
Definition weak_this (p : Z) : Z := - p.
Definition new_shareable (p : Z) : PM unit := wp_default (weak_this p).

(** [_ctrl->p->_weak_this = *this], through a temporary [WeakPtr]. *)
Definition maybe_enable_shared_from_this (p c : Z) : PM unit :=
  inc_use_count_weak (Some c);; wp_release (weak_this p);; wr_wp (weak_this p) (Some c).
Definition sp_from_raw_this (v p : Z) : PM unit :=
  c ← new_ctrl p; wr_sp v (mkSP (Some c) 0);; maybe_enable_shared_from_this p c.

Definition shared_from_this (v p : Z) : PM unit := wp_lock v (weak_this p).
Definition weak_from_this (w p : Z) : PM unit := wp_copy w (weak_this p).

(** [delete p] runs the destructor of [_weak_this]. *)
Definition del_shareable (p : Z) : PM unit := if p =? 0 then mret tt else wp_destroy (weak_this p);; del_obj p.
Definition maybe_delete_this (c : Z) : PM unit :=
  b ← rd_ctrl c;
  if use_count b =? 0 then
    del_shareable (cb_p b);;
    wr_ctrl c (fun b => mkCtrl 0 (use_count b) (use_count_weak b))
  else mret tt.
Definition dec_use_count_this (c : option Z) : PM (option Z) :=
  match c with
  | None => mret None
  | Some c =>
      b ← rd_ctrl c;
      if 0 <? use_count b then
        wr_ctrl c (add_use (-1));;
        maybe_delete_this c;;
        maybe_delete_ctrl_block c
      else mret (Some c)
  end.
Definition sp_destroy_this (v : Z) : PM unit :=
  x ← rd_sp v;
  dec_use_count_this (sp_ctrl x);;
  modify (fun s => set_shared (delete v (ps_shared s)) s).
(** [reset()]: the constructor is called with the null pointer. *)
Definition sp_reset_this (v p : Z) : PM unit :=
  c ← new_ctrl p;
  maybe_enable_shared_from_this p c;;
  x ← rd_sp v;
  wr_sp v (mkSP (Some c) 0);;
  dec_use_count_this (sp_ctrl x);;
  mret tt.
