(* ===== verification/SmartPtrSpec.v ===== *)
(** * What the smart pointers promise

    The use count of a block is the number of [SharedPtr] variables that refer
    to it and its weak count the number of [WeakPtr] variables; an object lives
    exactly as long as a [SharedPtr] to it does.  The counts are kept through
    construction, copy, move, assignment between distinct variables, [reset],
    [swap], [lock] and destruction. *)

From Stdlib Require Import ZArith Lia.
From stdpp Require Import base gmap list numbers.
From S2P Require Import Prelude Math SmartPtr.

Open Scope Z_scope.

(** ** Counting references *)

Definition one_if (P : Prop) `{Decision P} : Z := if decide P then 1 else 0.

Section counting.
Context {A : Type} (f : A -> option Z).

Definition count (m : gmap Z A) (c : Z) : Z := Z.of_nat (size (filter (fun kv => f kv.2 = Some c) m)).

Lemma count_insert m v x c : m !! v = None -> count (<[v := x]> m) c = count m c + one_if (f x = Some c).
Proof.
  intros Hv. unfold count, one_if. destruct (decide (f x = Some c)) as [Hx|Hx].
  - rewrite map_filter_insert_True by done. rewrite map_size_insert_None; [lia|].
    apply map_lookup_filter_None. by left.
  - rewrite map_filter_insert_not' by (done || (intros y; by rewrite Hv)). lia.
Qed.

Lemma count_delete m v x c : m !! v = Some x -> count (delete v m) c = count m c - one_if (f x = Some c).
Proof.
  intros Hv. rewrite <- (insert_delete_id m v x Hv) at 2. rewrite count_insert by apply lookup_delete_eq. lia.
Qed.

Lemma count_replace m v x y c :
  m !! v = Some x -> count (<[v := y]> m) c = count m c - one_if (f x = Some c) + one_if (f y = Some c).
Proof.
  intros Hv. rewrite <- insert_delete_eq, count_insert by apply lookup_delete_eq. by rewrite (count_delete m v x c Hv).
Qed.

Lemma count_nonneg m c : 0 <= count m c.
Proof. unfold count. lia. Qed.

Lemma count_pos m v x c : m !! v = Some x -> f x = Some c -> 0 < count m c.
Proof.
  intros Hv Hx. pose proof (count_delete m v x c Hv) as Hd. pose proof (count_nonneg (delete v m) c).
  unfold one_if in Hd. rewrite decide_True in Hd by done. lia.
Qed.

Lemma count_empty c : count ∅ c = 0.
Proof. unfold count. by rewrite map_filter_empty, map_size_empty. Qed.
End counting.

(** ** The heap and its counts *)

(** All references to a block; both counts and their sum fit an [int]. *)
Definition total (b : ControlBlock) : Z := use_count b + use_count_weak b.

Record heap_ok (ctrls : gmap Z ControlBlock) (next : Z) (objs : gset Z) (sc wc : Z -> Z) : Prop := {
  ho_next : forall c b, ctrls !! c = Some b -> c < next;
  ho_shared : forall c, 0 < sc c -> is_Some (ctrls !! c);
  ho_weak : forall c, 0 < wc c -> is_Some (ctrls !! c);
  ho_counts : forall c b, ctrls !! c = Some b -> 0 <= sc c <= use_count b /\ 0 <= wc c /\ use_count_weak b = wc c;
  ho_obj : forall c b, ctrls !! c = Some b -> cb_p b <> 0 -> use_count b = sc c /\ 0 < use_count b /\ cb_p b ∈ objs;
  ho_inj : forall c b c' b', ctrls !! c = Some b -> ctrls !! c' = Some b' -> cb_p b = cb_p b' -> cb_p b <> 0 -> c = c';
  ho_zero : forall c, ctrls !! c = None -> sc c = 0 /\ wc c = 0;
  ho_int : forall c b, ctrls !! c = Some b -> total b <= INT_MAX
}.

Definition plus (sc : Z -> Z) (c : Z) (d : Z) : Z -> Z := fun x => sc x + (if decide (x = c) then d else 0).

Lemma heap_ok_ext ctrls next objs sc wc sc' wc' :
  heap_ok ctrls next objs sc wc -> (forall c, sc' c = sc c) -> (forall c, wc' c = wc c) -> heap_ok ctrls next objs sc' wc'.
Proof.
  intros [] Hs Hw. split; [done|..]; intros *; rewrite ?Hs, ?Hw; eauto.
Qed.

(** One reference more or less on a block, its object kept. *)
Lemma heap_count ctrls next objs sc wc c b d e :
  heap_ok ctrls next objs sc wc -> ctrls !! c = Some b ->
  0 <= sc c + d -> 0 <= wc c + e -> (cb_p b <> 0 -> 0 < use_count b + d) -> total b + d + e <= INT_MAX ->
  heap_ok (<[c := mkCtrl (cb_p b) (use_count b + d) (use_count_weak b + e)]> ctrls) next objs (plus sc c d) (plus wc c e).
Proof.
  intros Hok Hc Hd He Hp Hint. pose proof (ho_counts _ _ _ _ _ Hok c b Hc) as (Hsc & Hwc & Hwk).
  assert (Hlk : forall x y, <[c := mkCtrl (cb_p b) (use_count b + d) (use_count_weak b + e)]> ctrls !! x = Some y ->
     (x = c /\ y = mkCtrl (cb_p b) (use_count b + d) (use_count_weak b + e)) \/ (x <> c /\ ctrls !! x = Some y)).
  { intros x y [[<- <-]|[? ?]]%lookup_insert_Some; [by left|by right]. }
  unfold plus. split.
  - intros x y [[-> ->]|[_ Hx]]%Hlk; by eapply Hok.
  - intros x. destruct (decide (x = c)) as [->|Hne]; intros Hx; [rewrite lookup_insert_eq; eauto|].
    rewrite lookup_insert_ne by done. apply (ho_shared _ _ _ _ _ Hok). lia.
  - intros x. destruct (decide (x = c)) as [->|Hne]; intros Hx; [rewrite lookup_insert_eq; eauto|].
    rewrite lookup_insert_ne by done. apply (ho_weak _ _ _ _ _ Hok). lia.
  - intros x y [[-> ->]|[Hne Hx]]%Hlk; [rewrite !decide_True by done; simpl; lia|].
    rewrite !decide_False by done. pose proof (ho_counts _ _ _ _ _ Hok x y Hx). lia.
  - intros x y [[-> ->]|[Hne Hx]]%Hlk Hpy; [rewrite decide_True by done|rewrite decide_False by done]; simpl in *.
    + pose proof (ho_obj _ _ _ _ _ Hok c b Hc Hpy) as (? & ? & ?). split_and!; [lia|auto|done].
    + pose proof (ho_obj _ _ _ _ _ Hok x y Hx Hpy) as (? & ? & ?). split_and!; [lia|done|done].
  - intros x y x' y' [[-> ->]|[Hne Hx]]%Hlk [[-> ->]|[Hne' Hx']]%Hlk; simpl; intros Hpp Hp0; try done; by eapply (ho_inj _ _ _ _ _ Hok).
  - intros x [Hx Hne]%lookup_insert_None. rewrite !decide_False by done. pose proof (ho_zero _ _ _ _ _ Hok x Hx). lia.
  - intros x y [[-> ->]|[Hne Hx]]%Hlk; [unfold total in *; simpl; lia|by apply (ho_int _ _ _ _ _ Hok x)].
Qed.

Lemma heap_use ctrls next objs sc wc c b d :
  heap_ok ctrls next objs sc wc -> ctrls !! c = Some b -> 0 <= sc c + d -> (cb_p b <> 0 -> 0 < use_count b + d) -> total b + d <= INT_MAX ->
  heap_ok (<[c := add_use d b]> ctrls) next objs (plus sc c d) wc.
Proof.
  intros Hok Hc Hd Hp Hint. pose proof (ho_counts _ _ _ _ _ Hok c b Hc) as (_ & Hw & _). unfold add_use.
  rewrite <- (Z.add_0_r (use_count_weak b)).
  eapply heap_ok_ext; [by apply (heap_count _ _ _ _ _ c b d 0 Hok Hc); [|lia| |lia]|done|]. intros x. unfold plus. case_decide; lia.
Qed.

Lemma heap_wk ctrls next objs sc wc c b e :
  heap_ok ctrls next objs sc wc -> ctrls !! c = Some b -> 0 <= wc c + e -> total b + e <= INT_MAX ->
  heap_ok (<[c := add_weak e b]> ctrls) next objs sc (plus wc c e).
Proof.
  intros Hok Hc He Hint. pose proof (ho_counts _ _ _ _ _ Hok c b Hc) as (Hs & _ & _). unfold add_weak.
  rewrite <- (Z.add_0_r (use_count b)).
  eapply heap_ok_ext; [apply (heap_count _ _ _ _ _ c b 0 e Hok Hc); [lia|done| |lia]| |done].
  - intros Hp. pose proof (ho_obj _ _ _ _ _ Hok c b Hc Hp). lia.
  - intros x. unfold plus. case_decide; lia.
Qed.

(** The object of a block is deleted, or the block had none. *)
Lemma heap_kill ctrls next objs sc wc c b :
  heap_ok ctrls next objs sc wc -> ctrls !! c = Some b -> sc c = 1 -> use_count b = 1 ->
  heap_ok (<[c := mkCtrl 0 0 (use_count_weak b)]> ctrls) next (objs ∖ {[cb_p b]}) (plus sc c (-1)) wc.
Proof.
  intros Hok Hc Hs Hu. pose proof (ho_counts _ _ _ _ _ Hok c b Hc) as (Hsc & Hwc & Hwk).
  assert (Hlk : forall x y, <[c := mkCtrl 0 0 (use_count_weak b)]> ctrls !! x = Some y ->
     (x = c /\ y = mkCtrl 0 0 (use_count_weak b)) \/ (x <> c /\ ctrls !! x = Some y)).
  { intros x y [[<- <-]|[? ?]]%lookup_insert_Some; [by left|by right]. }
  unfold plus. split.
  - intros x y [[-> ->]|[_ Hx]]%Hlk; by eapply Hok.
  - intros x. destruct (decide (x = c)) as [->|Hne]; intros Hx; [rewrite lookup_insert_eq; eauto|].
    rewrite lookup_insert_ne by done. apply (ho_shared _ _ _ _ _ Hok). lia.
  - intros x. destruct (decide (x = c)) as [->|Hne]; intros Hx; [rewrite lookup_insert_eq; eauto|].
    rewrite lookup_insert_ne by done. apply (ho_weak _ _ _ _ _ Hok). lia.
  - intros x y [[-> ->]|[Hne Hx]]%Hlk; [rewrite decide_True by done; simpl; lia|].
    rewrite decide_False by done. pose proof (ho_counts _ _ _ _ _ Hok x y Hx). lia.
  - intros x y [[-> ->]|[Hne Hx]]%Hlk Hpy; [done|]. rewrite decide_False by done.
    pose proof (ho_obj _ _ _ _ _ Hok x y Hx Hpy) as (? & ? & ?). split_and!; [lia|done|].
    apply elem_of_difference. split; [done|]. intros Heq%elem_of_singleton. apply Hne.
    by eapply (ho_inj _ _ _ _ _ Hok x y c b).
  - intros x y x' y' [[-> ->]|[Hne Hx]]%Hlk [[-> ->]|[Hne' Hx']]%Hlk; simpl; intros Hpp Hp0; try done; try congruence.
    by eapply (ho_inj _ _ _ _ _ Hok).
  - intros x [Hx Hne]%lookup_insert_None. rewrite decide_False by done. pose proof (ho_zero _ _ _ _ _ Hok x Hx). lia.
  - pose proof (ho_int _ _ _ _ _ Hok c b Hc) as Hi. unfold total in *.
    intros x y [[-> ->]|[Hne Hx]]%Hlk; [simpl; lia|by apply (ho_int _ _ _ _ _ Hok x)].
Qed.

(** A block without references and without object is deleted. *)
Lemma heap_free ctrls next objs sc wc c b :
  heap_ok ctrls next objs sc wc -> ctrls !! c = Some b -> use_count b = 0 -> use_count_weak b = 0 ->
  heap_ok (delete c ctrls) next objs sc wc.
Proof.
  intros Hok Hc Hu Hw. pose proof (ho_counts _ _ _ _ _ Hok c b Hc) as (Hsc & Hwc & Hwk). split.
  - intros x y [_ Hx]%lookup_delete_Some. by eapply Hok.
  - intros x Hx. rewrite lookup_delete_ne by (intros ->; lia). by apply (ho_shared _ _ _ _ _ Hok).
  - intros x Hx. rewrite lookup_delete_ne by (intros ->; lia). by apply (ho_weak _ _ _ _ _ Hok).
  - intros x y [_ Hx]%lookup_delete_Some. by apply Hok.
  - intros x y [_ Hx]%lookup_delete_Some. by apply Hok.
  - intros x y x' y' [_ Hx]%lookup_delete_Some [_ Hx']%lookup_delete_Some. by eapply Hok.
  - intros x. destruct (decide (x = c)) as [->|Hne]; [lia|]. rewrite lookup_delete_ne by done. apply Hok.
  - intros x y [_ Hx]%lookup_delete_Some. by apply (ho_int _ _ _ _ _ Hok x).
Qed.

(** A new block, for no object or for one that no block owns. *)
Lemma heap_new ctrls next objs sc wc p :
  heap_ok ctrls next objs sc wc -> (p <> 0 -> p ∈ objs /\ forall c b, ctrls !! c = Some b -> cb_p b <> p) ->
  heap_ok (<[next := mkCtrl p 1 0]> ctrls) (next + 1) objs (plus sc next 1) wc.
Proof.
  intros Hok Hp.
  assert (Hn : ctrls !! next = None) by (destruct (ctrls !! next) eqn:E; [apply (ho_next _ _ _ _ _ Hok) in E; lia|done]).
  destruct (ho_zero _ _ _ _ _ Hok next Hn) as [Hs0 Hw0].
  assert (Hlk : forall x y, <[next := mkCtrl p 1 0]> ctrls !! x = Some y ->
     (x = next /\ y = mkCtrl p 1 0) \/ (x <> next /\ ctrls !! x = Some y)).
  { intros x y [[<- <-]|[? ?]]%lookup_insert_Some; [by left|by right]. }
  unfold plus. split.
  - intros x y [[-> ->]|[_ Hx]]%Hlk; [lia|]. apply (ho_next _ _ _ _ _ Hok) in Hx. lia.
  - intros x. destruct (decide (x = next)) as [->|Hne]; intros Hx; [rewrite lookup_insert_eq; eauto|].
    rewrite lookup_insert_ne by done. apply (ho_shared _ _ _ _ _ Hok). lia.
  - intros x. destruct (decide (x = next)) as [->|Hne]; intros Hx; [rewrite lookup_insert_eq; eauto|].
    rewrite lookup_insert_ne by done. apply (ho_weak _ _ _ _ _ Hok). lia.
  - intros x y [[-> ->]|[Hne Hx]]%Hlk; [rewrite decide_True by done; simpl; lia|].
    rewrite decide_False by done. pose proof (ho_counts _ _ _ _ _ Hok x y Hx). lia.
  - intros x y [[-> ->]|[Hne Hx]]%Hlk Hpy; simpl in *.
    + rewrite decide_True by done. split_and!; [lia|lia|by apply Hp].
    + rewrite decide_False by done. pose proof (ho_obj _ _ _ _ _ Hok x y Hx Hpy) as (? & ? & ?). split_and!; [lia|done|done].
  - intros x y x' y' [[-> ->]|[Hne Hx]]%Hlk [[-> ->]|[Hne' Hx']]%Hlk; simpl; intros Hpp Hp0; try done.
    + exfalso. by destruct (Hp Hp0) as [_ Hno]; eapply Hno.
    + exfalso. rewrite Hpp in Hp0. destruct (Hp Hp0) as [_ Hno]. by eapply Hno.
    + by eapply (ho_inj _ _ _ _ _ Hok).
  - intros x [Hx Hne]%lookup_insert_None. rewrite decide_False by done. pose proof (ho_zero _ _ _ _ _ Hok x Hx). lia.
  - intros x y [[-> ->]|[Hne Hx]]%Hlk; [done|by apply (ho_int _ _ _ _ _ Hok x)].
Qed.

(** ** Operations on the counts *)

Definition heap_of (s : PtrState) (sc wc : Z -> Z) : Prop :=
  heap_ok (ps_ctrls s) (ps_next s) (ps_objs s) sc wc /\ (0 ∉ ps_objs s).

(** The variables are as before. *)
Definition same_vars (s s' : PtrState) : Prop :=
  ps_shared s' = ps_shared s /\ ps_weak s' = ps_weak s /\ ps_unique s' = ps_unique s.

Lemma rd_ctrl_run s c b : ps_ctrls s !! c = Some b -> rd_ctrl c s = Ret (b, s).
Proof. intros H. unfold rd_ctrl. msimpl. by rewrite H. Qed.

Lemma wr_ctrl_run s c b f : ps_ctrls s !! c = Some b -> wr_ctrl c f s = Ret (tt, set_ctrls (<[c := f b]> (ps_ctrls s)) s).
Proof. intros H. unfold wr_ctrl. mrun (rd_ctrl_run _ _ _ H). by msimpl. Qed.

(** One more reference to the block [c] still fits. *)
Definition room (s : PtrState) (c : Z) : Prop := exists b, ps_ctrls s !! c = Some b /\ total b < INT_MAX.

(** The blocks of [s] have lost references at most. *)
Definition shrinks (s s' : PtrState) : Prop :=
  forall c b', ps_ctrls s' !! c = Some b' -> c < ps_next s -> exists b, ps_ctrls s !! c = Some b /\ total b' <= total b.

Lemma shrinks_refl s : shrinks s s.
Proof. intros c b Hb _. exists b. by split. Qed.

Lemma room_shrinks s s' c : room s c -> is_Some (ps_ctrls s' !! c) -> c < ps_next s -> shrinks s s' -> room s' c.
Proof.
  intros (b & Hb & Ht) [b' Hb'] Hn Hsh. exists b'. split; [done|]. destruct (Hsh c b' Hb' Hn) as (b2 & Hb2 & Hle). simplify_eq. lia.
Qed.

Lemma inc_use_run s c b : ps_ctrls s !! c = Some b -> 0 <= use_count b < INT_MAX ->
  inc_use_count (Some c) s = Ret (tt, set_ctrls (<[c := add_use 1 b]> (ps_ctrls s)) s).
Proof.
  intros Hb Hu. unfold inc_use_count. mrun (rd_ctrl_run _ _ _ Hb). unfold INT_MAX in *. rewrite int_ck_ok by lia.
  msimpl. by rewrite (wr_ctrl_run s c b _ Hb).
Qed.

Lemma inc_weak_run s c b : ps_ctrls s !! c = Some b -> 0 <= use_count_weak b < INT_MAX ->
  inc_use_count_weak (Some c) s = Ret (tt, set_ctrls (<[c := add_weak 1 b]> (ps_ctrls s)) s).
Proof.
  intros Hb Hu. unfold inc_use_count_weak. mrun (rd_ctrl_run _ _ _ Hb). unfold INT_MAX in *. rewrite int_ck_ok by lia.
  msimpl. by rewrite (wr_ctrl_run s c b _ Hb).
Qed.

(** The counts of a block are counts, and their sum can be formed. *)
Lemma heap_range s sc wc c b : heap_of s sc wc -> ps_ctrls s !! c = Some b ->
  0 <= use_count b /\ 0 <= use_count_weak b /\ total b <= INT_MAX.
Proof.
  intros [Hok _] Hb. pose proof (ho_counts _ _ _ _ _ Hok c b Hb). pose proof (ho_int _ _ _ _ _ Hok c b Hb). lia.
Qed.

Lemma inc_use_spec s c sc wc : heap_of s sc wc -> room s c ->
  exists s', inc_use_count (Some c) s = Ret (tt, s') /\ heap_of s' (plus sc c 1) wc /\ same_vars s s' /\ ps_objs s' = ps_objs s.
Proof.
  intros Hheap (b & Hc & Hroom). pose proof (heap_range s _ _ c b Hheap Hc) as Hrg. destruct Hheap as [Hok H0]. unfold total in *.
  eexists. split; [apply (inc_use_run s c b Hc); lia|]. split; [split; [|done]|done]. simpl.
  pose proof (ho_counts _ _ _ _ _ Hok c b Hc) as (Hs & Hw & Hwk).
  apply heap_use; [done|done|lia| |unfold total; lia]. intros Hp. pose proof (ho_obj _ _ _ _ _ Hok c b Hc Hp). lia.
Qed.

Lemma maybe_delete_ctrl_spec s c b sc wc : heap_of s sc wc -> ps_ctrls s !! c = Some b ->
  exists c' s', maybe_delete_ctrl_block c s = Ret (c', s') /\ heap_of s' sc wc /\ same_vars s s' /\ ps_objs s' = ps_objs s /\
    (forall x, x <> c -> ps_ctrls s' !! x = ps_ctrls s !! x) /\ (ps_ctrls s' !! c = None \/ s' = s).
Proof.
  intros Hheap Hc. pose proof (heap_range s _ _ c b Hheap Hc) as Hrg. destruct Hheap as [Hok H0].
  pose proof (ho_counts _ _ _ _ _ Hok c b Hc) as (Hs & Hw & Hwk). unfold total, INT_MAX in Hrg.
  unfold maybe_delete_ctrl_block. mrun (rd_ctrl_run _ _ _ Hc). rewrite int_ck_ok by lia. msimpl. destruct (Z.eqb_spec (use_count b + use_count_weak b) 0) as [Hz|Hz].
  - mrun (wr_ctrl_run s c b (fun b => mkCtrl (cb_p b) (use_count b) (-1)) Hc).
    set (s1 := set_ctrls _ s). assert (Hc1 : ps_ctrls s1 !! c = Some (mkCtrl (cb_p b) (use_count b) (-1))) by apply lookup_insert_eq.
    unfold del_ctrl. eexists None, _. split_and!.
    + unfold mbind, M_bind. rewrite (rd_ctrl_run _ _ _ Hc1). unfold get, put. cbn beta iota. reflexivity.
    + split; [|done]. simpl. rewrite delete_insert_eq. eapply heap_free; [exact Hok|exact Hc|lia|lia].
    + done.
    + done.
    + intros x Hx. simpl. by rewrite delete_insert_eq, lookup_delete_ne.
    + left. simpl. apply lookup_delete_eq.
  - exists (Some c), s. split_and!; [done..|by right].
Qed.

Lemma dec_use_spec s c sc wc : heap_of s sc wc -> 0 < sc c ->
  exists c' s', dec_use_count (Some c) s = Ret (c', s') /\ heap_of s' (plus sc c (-1)) wc /\ same_vars s s' /\
    (forall x, x <> c -> ps_ctrls s' !! x = ps_ctrls s !! x) /\ shrinks s s' /\
    forall b, ps_ctrls s !! c = Some b -> cb_p b <> 0 ->
      ps_objs s' = if decide (sc c = 1) then ps_objs s ∖ {[cb_p b]} else ps_objs s.
Proof.
  intros [Hok H0] Hsc. destruct (ho_shared _ _ _ _ _ Hok c Hsc) as [b Hc].
  pose proof (ho_counts _ _ _ _ _ Hok c b Hc) as (Hs & Hw & Hwk). unfold dec_use_count.
  mrun (rd_ctrl_run _ _ _ Hc). rewrite (proj2 (Z.ltb_lt 0 (use_count b))) by lia.
  mrun (wr_ctrl_run s c b (add_use (-1)) Hc). set (s1 := set_ctrls _ s).
  assert (Hc1 : ps_ctrls s1 !! c = Some (add_use (-1) b)) by apply lookup_insert_eq.
  assert (Hdel : exists s2 b2, maybe_delete_p c s1 = Ret (tt, s2) /\ heap_of s2 (plus sc c (-1)) wc /\ same_vars s s2 /\
     ps_ctrls s2 !! c = Some b2 /\ total b2 <= total b /\ (forall x, x <> c -> ps_ctrls s2 !! x = ps_ctrls s !! x) /\ (cb_p b <> 0 -> ps_objs s2 = if decide (sc c = 1) then ps_objs s ∖ {[cb_p b]} else ps_objs s)).
  { unfold maybe_delete_p. mrun (rd_ctrl_run _ _ _ Hc1). cbn [use_count add_use].
    destruct (Z.eqb_spec (use_count b + -1) 0) as [Hz|Hz].
    - assert (Hdo : exists s2, del_obj (cb_p (add_use (-1) b)) s1 = Ret (tt, s2) /\ ps_objs s2 = ps_objs s ∖ {[cb_p b]} /\
         ps_ctrls s2 = ps_ctrls s1 /\ ps_next s2 = ps_next s /\ same_vars s s2).
      { unfold del_obj. cbn [cb_p add_use]. destruct (Z.eqb_spec (cb_p b) 0) as [Hp|Hp].
        - exists s1. split_and!; [done| |done|done|done..]. simpl. rewrite Hp. set_solver.
        - pose proof (ho_obj _ _ _ _ _ Hok c b Hc Hp) as (_ & _ & Hin). exists (set_objs (ps_objs s1 ∖ {[cb_p b]}) s1).
          split_and!; [|done..]. msimpl. by rewrite decide_True. }
      destruct Hdo as (s2 & Hdo & Ho & Hct & Hnx & Hsv). mrun Hdo.
      assert (Hc2 : ps_ctrls s2 !! c = Some (add_use (-1) b)) by (by rewrite Hct).
      eexists _, _. split; [by apply wr_ctrl_run|]. split_and!; [|done|apply lookup_insert_eq|unfold total; simpl; lia| |].
      + split; simpl.
        * rewrite Hct, Hnx, Ho. simpl. rewrite insert_insert_eq. replace (use_count b + -1) with 0 by lia.
          apply heap_kill; [done|done|lia|lia].
        * rewrite Ho. set_solver.
      + intros x Hx. simpl. rewrite Hct. simpl. by rewrite insert_insert_eq, lookup_insert_ne.
      + intros Hp. simpl. rewrite Ho. rewrite decide_True by lia. done.
    - exists s1, (add_use (-1) b). split_and!; [done| |done|done|unfold total; simpl; lia|by intros x Hx; apply lookup_insert_ne|].
      + split; [|done]. simpl. pose proof (ho_int _ _ _ _ _ Hok c b Hc). apply heap_use; [done|done|lia|lia|lia].
      + intros Hp. pose proof (ho_obj _ _ _ _ _ Hok c b Hc Hp) as (He & _). by rewrite decide_False by lia. }
  destruct Hdel as (s2 & b2 & Hdel & Hok2 & Hsv & Hc2 & Htot & Hoth & Hobj). mrun Hdel.
  destruct (maybe_delete_ctrl_spec s2 c b2 _ _ Hok2 Hc2) as (c' & s3 & Hm & Hok3 & Hsv3 & Ho3 & Hoth3 & Hend).
  exists c', s3. split_and!; [done|done| |by intros x Hx; rewrite Hoth3, Hoth| |].
  - unfold same_vars in *. naive_solver congruence.
  - intros x b' Hb' _. destruct (decide (x = c)) as [->|Hx]; [|exists b'; rewrite <- Hoth, <- Hoth3 by done; by split].
    exists b. split; [done|]. destruct Hend as [Hnone|He]; [congruence|]. subst s3. by simplify_eq.
  - intros b' Hb'. rewrite Hc in Hb'. injection Hb' as <-. rewrite Ho3. exact Hobj.
Qed.

Lemma new_ctrl_spec s p sc wc : heap_of s sc wc ->
  (p <> 0 -> p ∈ ps_objs s /\ forall c b, ps_ctrls s !! c = Some b -> cb_p b <> p) ->
  exists s', new_ctrl p s = Ret (ps_next s, s') /\ heap_of s' (plus sc (ps_next s) 1) wc /\ same_vars s s' /\ ps_objs s' = ps_objs s /\
    ps_ctrls s' = <[ps_next s := mkCtrl p 1 0]> (ps_ctrls s).
Proof.
  intros [Hok H0] Hp. eexists. split; [reflexivity|]. split_and!; [split; [by apply heap_new|done]|done..].
Qed.

Lemma inc_weak_spec s c sc wc : heap_of s sc wc -> room s c ->
  exists s', inc_use_count_weak (Some c) s = Ret (tt, s') /\ heap_of s' sc (plus wc c 1) /\ same_vars s s' /\ ps_objs s' = ps_objs s.
Proof.
  intros Hheap (b & Hc & Hroom). pose proof (heap_range s _ _ c b Hheap Hc) as Hrg. destruct Hheap as [Hok H0]. unfold total in *.
  eexists. split; [apply (inc_weak_run s c b Hc); lia|]. split; [split; [|done]|done]. simpl.
  pose proof (ho_counts _ _ _ _ _ Hok c b Hc) as (Hs & Hw & Hwk).
  apply heap_wk; [done|done|lia|unfold total; lia].
Qed.

Lemma dec_weak_spec s c sc wc : heap_of s sc wc -> 0 < wc c ->
  exists c' s', dec_use_count_weak (Some c) s = Ret (c', s') /\ heap_of s' sc (plus wc c (-1)) /\ same_vars s s' /\ ps_objs s' = ps_objs s /\ shrinks s s'.
Proof.
  intros [Hok H0] Hwc. destruct (ho_weak _ _ _ _ _ Hok c Hwc) as [b Hc].
  pose proof (ho_counts _ _ _ _ _ Hok c b Hc) as (Hs & Hw & Hwk). unfold dec_use_count_weak.
  mrun (rd_ctrl_run _ _ _ Hc). rewrite (proj2 (Z.ltb_lt 0 (use_count_weak b))) by lia.
  mrun (wr_ctrl_run s c b (add_weak (-1)) Hc). set (s1 := set_ctrls _ s).
  assert (Hc1 : ps_ctrls s1 !! c = Some (add_weak (-1) b)) by apply lookup_insert_eq.
  assert (Hok1 : heap_of s1 sc (plus wc c (-1))).
  { split; [|done]. pose proof (ho_int _ _ _ _ _ Hok c b Hc). apply heap_wk; [done|done|lia|lia]. }
  destruct (maybe_delete_ctrl_spec s1 c _ _ _ Hok1 Hc1) as (c' & s3 & Hm & Hok3 & Hsv3 & Ho3 & Hoth & Hend).
  exists c', s3. split_and!; [done..|].
  - intros x b' Hb' _. destruct (decide (x = c)) as [->|Hx].
    + exists b. split; [done|]. destruct Hend as [Hnone|He]; [congruence|]. subst s3. simplify_eq. unfold total. simpl. lia.
    + exists b'. rewrite Hoth in Hb' by done. simpl in Hb'. rewrite lookup_insert_ne in Hb' by done. by split.
Qed.

(** ** The invariant of the program's pointers *)

Definition shared_count (s : PtrState) : Z -> Z := count sp_ctrl (ps_shared s).
Definition weak_count (s : PtrState) : Z -> Z := count (fun c => c) (ps_weak s).
Definition ps_inv (s : PtrState) : Prop := heap_of s (shared_count s) (weak_count s).

Lemma heap_of_ext s sc wc sc' wc' :
  heap_of s sc wc -> (forall c, sc' c = sc c) -> (forall c, wc' c = wc c) -> heap_of s sc' wc'.
Proof. intros [Hok H0] Hs Hw. split; [by eapply heap_ok_ext|done]. Qed.

(** Settles the counts after a change of one variable. *)
Ltac counts := intros; unfold shared_count, weak_count, plus, one_if; simpl;
  repeat first [rewrite count_insert by done | erewrite count_replace by done | erewrite count_delete by done];
  unfold one_if; simpl; repeat case_decide; simplify_eq; try lia; try congruence.

(** Objects that may be handed to a new block. *)
Definition unowned (s : PtrState) (p : Z) : Prop :=
  p <> 0 -> p ∈ ps_objs s /\ forall c b, ps_ctrls s !! c = Some b -> cb_p b <> p.

Section operations.
Context (s : PtrState) (Hinv : ps_inv s).

Lemma ctrl_of_shared v x c : ps_shared s !! v = Some x -> sp_ctrl x = Some c ->
  0 < shared_count s c /\ is_Some (ps_ctrls s !! c).
Proof.
  intros Hv Hc. assert (Hp : 0 < shared_count s c) by (by eapply count_pos). split; [done|].
  by apply (ho_shared _ _ _ _ _ (proj1 Hinv)).
Qed.

Lemma ctrl_of_weak w c : ps_weak s !! w = Some (Some c) -> 0 < weak_count s c /\ is_Some (ps_ctrls s !! c).
Proof.
  intros Hv. assert (Hp : 0 < weak_count s c) by (by eapply (count_pos (fun c => c))). split; [done|].
  by apply (ho_weak _ _ _ _ _ (proj1 Hinv)).
Qed.

Lemma sp_from_raw_spec v p : ps_shared s !! v = None -> unowned s p ->
  exists s', sp_from_raw v p s = Ret (tt, s') /\ ps_inv s'.
Proof.
  intros Hv Hp. destruct (new_ctrl_spec s p _ _ Hinv Hp) as (s1 & Hn & Hok & (Hs1 & Hw1 & _) & _).
  eexists. split; [unfold sp_from_raw; mrun Hn; reflexivity|]. eapply heap_of_ext; [exact Hok| |].
  - intros c. unfold shared_count. simpl. rewrite Hs1. counts.
  - intros c. unfold weak_count. simpl. by rewrite Hw1.
Qed.

Lemma sp_share_spec v x : (ps_shared s !! v = None \/ exists y, ps_shared s !! v = Some y /\ sp_ctrl y = None) ->
  (forall c, sp_ctrl x = Some c -> room s c) ->
  exists s', (wr_sp v x;; inc_use_count (sp_ctrl x)) s = Ret (tt, s') /\ ps_inv s' /\ ps_objs s' = ps_objs s.
Proof.
  intros Hv Hc. set (s1 := set_shared (<[v := x]> (ps_shared s)) s).
  assert (H1 : wr_sp v x s = Ret (tt, s1)) by done. destruct (sp_ctrl x) as [c|] eqn:Hx.
  - destruct (inc_use_spec s1 c _ _ Hinv (Hc c eq_refl)) as (s2 & Hi & Hok & (Hs2 & Hw2 & _) & Ho).
    exists s2. split_and!; [mrun H1; exact Hi| |exact Ho]. eapply heap_of_ext; [exact Hok| |].
    + intros d. unfold shared_count. rewrite Hs2. destruct Hv as [Hv|(y & Hv & Hy)]; counts.
    + intros d. unfold weak_count. by rewrite Hw2.
  - exists s1. split_and!; [mrun H1; done| |done]. eapply heap_of_ext; [exact Hinv| |done].
    destruct Hv as [Hv|(y & Hv & Hy)]; counts.
Qed.

Lemma rd_sp_run v x : ps_shared s !! v = Some x -> rd_sp v s = Ret (x, s).
Proof. intros H. unfold rd_sp. msimpl. by rewrite H. Qed.
Lemma rd_wp_run w x : ps_weak s !! w = Some x -> rd_wp w s = Ret (x, s).
Proof. intros H. unfold rd_wp. msimpl. by rewrite H. Qed.

(** The object of [v] dies with the last pointer to it, and not before. *)
Definition object_follows (s s' : PtrState) (x : SharedPtr) : Prop :=
  match sp_ctrl x with
  | None => ps_objs s' = ps_objs s
  | Some c => forall b, ps_ctrls s !! c = Some b -> cb_p b <> 0 ->
      ps_objs s' = if decide (shared_count s c = 1) then ps_objs s ∖ {[cb_p b]} else ps_objs s
  end.

Lemma sp_destroy_spec v x : ps_shared s !! v = Some x ->
  exists s', sp_destroy v s = Ret (tt, s') /\ ps_inv s' /\ object_follows s s' x.
Proof.
  intros Hv. unfold sp_destroy. mrun (rd_sp_run v x Hv). unfold object_follows. destruct (sp_ctrl x) as [c|] eqn:Hx.
  - destruct (ctrl_of_shared v x c Hv Hx) as [Hp _].
    destruct (dec_use_spec s c _ _ Hinv Hp) as (c' & s1 & Hd & Hok & (Hs1 & Hw1 & _) & _ & _ & Hobj). mrun Hd.
    eexists. split_and!; [reflexivity| |exact Hobj]. eapply heap_of_ext; [exact Hok| |].
    + intros d. unfold shared_count. simpl. rewrite Hs1. counts.
    + intros d. unfold weak_count. simpl. by rewrite Hw1.
  - eexists. split_and!; [reflexivity| |done]. eapply heap_of_ext; [exact Hinv| |done]. counts.
Qed.

Lemma sp_reset_spec v x p : ps_shared s !! v = Some x -> unowned s p ->
  exists s', sp_reset v p s = Ret (tt, s') /\ ps_inv s' /\ object_follows s s' x /\
    ps_shared s' = <[v := mkSP (Some (ps_next s)) 0]> (ps_shared s) /\ ps_weak s' = ps_weak s /\
    ps_ctrls s' !! ps_next s = Some (mkCtrl p 1 0) /\ shrinks s s'.
Proof.
  intros Hv Hp. destruct (new_ctrl_spec s p _ _ Hinv Hp) as (s1 & Hn & Hok1 & (Hs1 & Hw1 & _) & Ho1 & Hct1).
  assert (Hv1 : rd_sp v s1 = Ret (x, s1)) by (unfold rd_sp; msimpl; by rewrite Hs1, Hv).
  set (s2 := set_shared (<[v := mkSP (Some (ps_next s)) 0]> (ps_shared s1)) s1).
  assert (H2 : wr_sp v (mkSP (Some (ps_next s)) 0) s1 = Ret (tt, s2)) by done.
  unfold sp_reset. mrun Hn. mrun Hv1. mrun H2. unfold object_follows.
  destruct (sp_ctrl x) as [c|] eqn:Hx.
  - destruct (ctrl_of_shared v x c Hv Hx) as [Hpos [b Hb]].
    assert (Hcn : c <> ps_next s) by (pose proof (ho_next _ _ _ _ _ (proj1 Hinv) c b Hb); lia).
    assert (Hpos2 : 0 < plus (shared_count s) (ps_next s) 1 c) by (unfold plus; rewrite decide_False by done; lia).
    destruct (dec_use_spec s2 c _ _ Hok1 Hpos2) as (c' & s3 & Hd & Hok3 & (Hs3 & Hw3 & _) & Hoth & Hsh & Hobj). mrun Hd.
    exists s3. split_and!; [done| | |by rewrite Hs3; simpl; rewrite Hs1|by rewrite Hw3| |].
    + eapply heap_of_ext; [exact Hok3| |].
      * intros d. unfold shared_count. rewrite Hs3. simpl. rewrite Hs1. counts.
      * intros d. unfold weak_count. rewrite Hw3. simpl. by rewrite Hw1.
    + intros b' Hb' Hp'. rewrite (Hobj b'); [|simpl; rewrite Hct1, lookup_insert_ne by done; done|done].
      unfold plus. rewrite (decide_False (P := c = ps_next s)) by done. rewrite Z.add_0_r. simpl. by rewrite Ho1.
    + rewrite Hoth by done. simpl. rewrite Hct1. apply lookup_insert_eq.
    + intros d b' Hb' Hlt. destruct (Hsh d b' Hb') as (b2 & Hb2 & Hle).
      * assert (ps_next s1 = ps_next s + 1) by (by unfold new_ctrl in Hn; munfold; injection Hn as <-). simpl. lia.
      * exists b2. simpl in Hb2. rewrite Hct1, lookup_insert_ne in Hb2 by lia. by split.
  - exists s2. split_and!; [done| |done|simpl; by rewrite Hs1|done|simpl; rewrite Hct1; apply lookup_insert_eq|].
    2:{ intros d b' Hb' Hlt. exists b'. simpl in Hb'. rewrite Hct1, lookup_insert_ne in Hb' by lia. by split. }
    eapply heap_of_ext; [exact Hok1| |].
    + intros d. unfold shared_count. simpl. rewrite Hs1. counts.
    + intros d. unfold weak_count. simpl. by rewrite Hw1.
Qed.
End operations.

(** Dropping a reference to a block that has no object. *)
Lemma heap_leak s sc wc c b : heap_of s sc wc -> ps_ctrls s !! c = Some b -> cb_p b = 0 -> 0 < sc c ->
  heap_of s (plus sc c (-1)) wc.
Proof.
  intros [Hok H0] Hc Hp Hs. split; [|done]. pose proof (ho_counts _ _ _ _ _ Hok c b Hc). unfold plus. split.
  - apply Hok.
  - intros x Hx. apply (ho_shared _ _ _ _ _ Hok). revert Hx. case_decide; lia.
  - apply Hok.
  - intros x y Hx. pose proof (ho_counts _ _ _ _ _ Hok x y Hx). destruct (decide (x = c)) as [->|]; [|lia].
    rewrite Hc in Hx. injection Hx as <-. lia.
  - intros x y Hx Hpy. destruct (decide (x = c)) as [->|]; [congruence|]. rewrite Z.add_0_r. by apply Hok.
  - apply Hok.
  - intros x Hx. destruct (decide (x = c)) as [->|]; [congruence|]. rewrite Z.add_0_r. by apply Hok.
  - apply Hok.
Qed.

Lemma unowned_null s : unowned s 0.
Proof. done. Qed.

(** [reset] before an assignment: the variable is left with no object. *)
Lemma sp_release_spec s v x : ps_inv s -> ps_shared s !! v = Some x ->
  exists s' y, sp_release v s = Ret (tt, s') /\ ps_inv s' /\ object_follows s s' x /\
    ps_shared s' = <[v := y]> (ps_shared s) /\ ps_weak s' = ps_weak s /\
    (forall c, sp_ctrl y = Some c -> exists b, ps_ctrls s' !! c = Some b /\ cb_p b = 0) /\ shrinks s s'.
Proof.
  intros Hinv Hv. unfold sp_release. mrun (rd_sp_run s v x Hv). destruct (sp_ctrl x) as [c|] eqn:Hx.
  - destruct (ctrl_of_shared s Hinv v x c Hv Hx) as [Hpos [b Hb]]. mrun (rd_ctrl_run _ _ _ Hb).
    pose proof (ho_counts _ _ _ _ _ (proj1 Hinv) c b Hb) as (Hs & _). rewrite (proj2 (Z.ltb_lt 0 (use_count b))) by lia.
    destruct (sp_reset_spec s Hinv v x 0 Hv (unowned_null s)) as (s' & Hr & Hi & Ho & Hs' & Hw' & Hc' & Hsh).
    exists s', (mkSP (Some (ps_next s)) 0). split_and!; [done..| |done]. intros d [= <-]. eauto.
  - exists s, x. split_and!; [done|done| |by rewrite insert_id|done| |apply shrinks_refl]; [|by rewrite Hx].
    unfold object_follows. by rewrite Hx.
Qed.

(** Overwriting a variable that holds no object. *)
Lemma sp_overwrite s v x y : ps_inv s -> ps_shared s !! v = Some x ->
  (forall c, sp_ctrl x = Some c -> exists b, ps_ctrls s !! c = Some b /\ cb_p b = 0) -> sp_ctrl y = None ->
  ps_inv (set_shared (<[v := y]> (ps_shared s)) s).
Proof.
  intros Hinv Hv Hx Hy. destruct (sp_ctrl x) as [c|] eqn:Hc.
  - destruct (Hx c eq_refl) as (b & Hb & Hp). destruct (ctrl_of_shared s Hinv v x c Hv Hc) as [Hpos _].
    eapply heap_of_ext; [exact (heap_leak s _ _ c b Hinv Hb Hp Hpos)| |done]. counts.
  - eapply heap_of_ext; [exact Hinv| |done]. counts.
Qed.

Lemma sp_assign_spec s v r x z : ps_inv s -> v <> r -> ps_shared s !! v = Some x -> ps_shared s !! r = Some z ->
  (forall c, sp_ctrl z = Some c -> room s c) ->
  exists s', sp_assign v r s = Ret (tt, s') /\ ps_inv s' /\ object_follows s s' x.
Proof.
  intros Hinv Hne Hv Hr Hroom. destruct (sp_release_spec s v x Hinv Hv) as (s1 & y & Hrel & Hi1 & Hobj & Hs1 & _ & Hy & Hsh1).
  assert (Hv1 : ps_shared s1 !! v = Some y) by (rewrite Hs1; apply lookup_insert_eq).
  assert (Hr1 : ps_shared s1 !! r = Some z) by (by rewrite Hs1, lookup_insert_ne).
  set (s2 := set_shared (<[v := mkSP None 0]> (ps_shared s1)) s1).
  assert (Hi2 : ps_inv s2) by (by apply (sp_overwrite s1 v y)).
  destruct (sp_share_spec s2 Hi2 v z) as (s3 & Hsh & Hi3 & Ho3).
  { right. exists (mkSP None 0). split; [apply lookup_insert_eq|done]. }
  { intros c Hc. destruct (Hroom c Hc) as (b & Hb & Ht). eapply (room_shrinks s s1); [by exists b| | |done].
    - by apply (ctrl_of_shared s1 Hi1 r z c Hr1 Hc).
    - by apply (ho_next _ _ _ _ _ (proj1 Hinv) c b). }
  exists s3. split_and!; [|done|].
  - unfold sp_assign. mrun Hrel. mrun (rd_sp_run s1 r z Hr1). rewrite <- Hsh.
    unfold mbind, M_bind, wr_sp, modify. unfold s2, set_shared. simpl. by rewrite insert_insert_eq.
  - unfold object_follows in *. destruct (sp_ctrl x); rewrite Ho3; exact Hobj.
Qed.

Lemma sp_move_assign_spec s v r x z : ps_inv s -> v <> r -> ps_shared s !! v = Some x -> ps_shared s !! r = Some z ->
  exists s', sp_move_assign v r s = Ret (tt, s') /\ ps_inv s' /\ object_follows s s' x.
Proof.
  intros Hinv Hne Hv Hr. destruct (sp_release_spec s v x Hinv Hv) as (s1 & y & Hrel & Hi1 & Hobj & Hs1 & _ & Hy & _).
  assert (Hv1 : ps_shared s1 !! v = Some y) by (rewrite Hs1; apply lookup_insert_eq).
  assert (Hr1 : ps_shared s1 !! r = Some z) by (by rewrite Hs1, lookup_insert_ne).
  assert (Hi2 : ps_inv (set_shared (<[v := mkSP None 0]> (ps_shared s1)) s1)) by (by apply (sp_overwrite s1 v y)).
  eexists. split_and!.
  - unfold sp_move_assign. mrun Hrel. mrun (rd_sp_run s1 r z Hr1). reflexivity.
  - eapply heap_of_ext; [exact Hi2| |done]. intros c. unfold shared_count. simpl.
    assert (Hr2 : <[v := z]> (ps_shared s1) !! r = Some z) by (by rewrite lookup_insert_ne).
    rewrite (count_replace sp_ctrl _ r z _ c Hr2), !(count_replace sp_ctrl _ v y _ c Hv1). unfold one_if. simpl. repeat case_decide; lia || done.
  - exact Hobj.
Qed.

Lemma sp_move_spec s v r z : ps_inv s -> ps_shared s !! v = None -> ps_shared s !! r = Some z ->
  exists s', sp_move v r s = Ret (tt, s') /\ ps_inv s' /\ ps_objs s' = ps_objs s.
Proof.
  intros Hinv Hv Hr. assert (Hne : v <> r) by congruence. eexists. split_and!.
  - unfold sp_move. mrun (rd_sp_run s r z Hr). reflexivity.
  - eapply heap_of_ext; [exact Hinv| |done]. intros c. unfold shared_count. simpl.
    assert (Hr2 : <[v := z]> (ps_shared s) !! r = Some z) by (by rewrite lookup_insert_ne).
    rewrite (count_replace sp_ctrl _ r z _ c Hr2), count_insert by done. unfold one_if. simpl. repeat case_decide; lia || done.
  - done.
Qed.

Lemma sp_swap_spec s v r x z : ps_inv s -> v <> r -> ps_shared s !! v = Some x -> ps_shared s !! r = Some z ->
  exists s', sp_swap v r s = Ret (tt, s') /\ ps_inv s' /\ ps_objs s' = ps_objs s.
Proof.
  intros Hinv Hne Hv Hr. eexists. split_and!.
  - unfold sp_swap. mrun (rd_sp_run s v x Hv). mrun (rd_sp_run s r z Hr). reflexivity.
  - eapply heap_of_ext; [exact Hinv| |done]. intros c. unfold shared_count. simpl.
    assert (Hr2 : <[v := z]> (ps_shared s) !! r = Some z) by (by rewrite lookup_insert_ne).
    rewrite (count_replace sp_ctrl _ r z _ c Hr2), (count_replace sp_ctrl _ v x _ c Hv). lia.
  - done.
Qed.

(** *** Weak pointers *)

Lemma wp_share_spec s w c : ps_inv s -> (ps_weak s !! w = None \/ ps_weak s !! w = Some None) ->
  (forall d, c = Some d -> room s d) ->
  exists s', (wr_wp w c;; inc_use_count_weak c) s = Ret (tt, s') /\ ps_inv s' /\ ps_objs s' = ps_objs s.
Proof.
  intros Hinv Hw Hc. set (s1 := set_weak (<[w := c]> (ps_weak s)) s).
  assert (H1 : wr_wp w c s = Ret (tt, s1)) by done. destruct c as [c|].
  - destruct (inc_weak_spec s1 c _ _ Hinv (Hc c eq_refl)) as (s2 & Hi & Hok & (Hs2 & Hw2 & _) & Ho).
    exists s2. split_and!; [mrun H1; exact Hi| |exact Ho]. eapply heap_of_ext; [exact Hok| |].
    + intros d. unfold shared_count. by rewrite Hs2.
    + intros d. unfold weak_count. rewrite Hw2. destruct Hw as [Hw|Hw]; counts.
  - exists s1. split_and!; [mrun H1; done| |done]. eapply heap_of_ext; [exact Hinv|done|]. destruct Hw as [Hw|Hw]; counts.
Qed.

Lemma wp_destroy_spec s w c : ps_inv s -> ps_weak s !! w = Some c ->
  exists s', wp_destroy w s = Ret (tt, s') /\ ps_inv s' /\ ps_objs s' = ps_objs s.
Proof.
  intros Hinv Hw. unfold wp_destroy. mrun (rd_wp_run s w c Hw). destruct c as [c|].
  - destruct (ctrl_of_weak s Hinv w c Hw) as [Hp _].
    destruct (dec_weak_spec s c _ _ Hinv Hp) as (c' & s1 & Hd & Hok & (Hs1 & Hw1 & _) & Ho & _). mrun Hd.
    eexists. split_and!; [reflexivity| |exact Ho]. eapply heap_of_ext; [exact Hok| |].
    + intros d. unfold shared_count. simpl. by rewrite Hs1.
    + intros d. unfold weak_count. simpl. rewrite Hw1. counts.
  - eexists. split_and!; [reflexivity| |done]. eapply heap_of_ext; [exact Hinv|done|]. counts.
Qed.

(** [lock] gives an owner exactly if one is left. *)
Lemma wp_lock_spec s v w c : ps_inv s -> ps_shared s !! v = None -> ps_weak s !! w = Some c -> (forall d, c = Some d -> room s d) ->
  exists s', wp_lock v w s = Ret (tt, s') /\ ps_inv s' /\ ps_objs s' = ps_objs s.
Proof.
  intros Hinv Hv Hw Hroom. unfold wp_lock, expired, wp_use_count. 
  assert (Huse : exists n, (c ← rd_wp w; match c with Some c => b ← rd_ctrl c; mret (use_count b) | None => mret 0 end) s = Ret (n, s)).
  { mrun (rd_wp_run s w c Hw). destruct c as [c|]; [|by exists 0]. destruct (ctrl_of_weak s Hinv w c Hw) as [_ [b Hb]].
    exists (use_count b). by mrun (rd_ctrl_run _ _ _ Hb). }
  destruct Huse as [n Huse].
  assert (Hexp : (n ← (c ← rd_wp w; match c with Some c => b ← rd_ctrl c; mret (use_count b) | None => mret 0 end); mret (n =? 0)) s = Ret (n =? 0, s))
    by (mrun Huse; done).
  mrun Hexp. destruct (n =? 0).
  - eexists. split_and!; [reflexivity| |done]. eapply heap_of_ext; [exact Hinv| |done]. counts.
  - unfold sp_from_weak. mrun (rd_wp_run s w c Hw).
    destruct (sp_share_spec s Hinv v (mkSP c 0)) as (s' & Hsh & Hi & Ho); [by left| |by exists s'].
    intros d Hd. by apply Hroom.
Qed.

(** The old value of a variable is dropped before an assignment to it. *)
Lemma wp_release_spec s w c : ps_inv s -> ps_weak s !! w = Some c ->
  exists s1 c1, wp_release w s = Ret (tt, s1) /\ ps_weak s1 = <[w := c1]> (ps_weak s) /\
    ps_inv (set_weak (<[w := None]> (ps_weak s1)) s1) /\ ps_objs s1 = ps_objs s /\ shrinks s s1.
Proof.
  intros Hinv Hw. unfold wp_release. mrun (rd_wp_run s w c Hw). destruct c as [c|].
  - destruct (ctrl_of_weak s Hinv w c Hw) as [Hp [b Hb]]. mrun (rd_ctrl_run _ _ _ Hb).
    pose proof (ho_counts _ _ _ _ _ (proj1 Hinv) c b Hb) as (_ & _ & Hwk). rewrite (proj2 (Z.ltb_lt 0 (use_count_weak b))) by lia.
    destruct (dec_weak_spec s c _ _ Hinv Hp) as (c' & s1 & Hd & Hok & (Hs1 & Hw1 & _) & Ho & Hsh). mrun Hd.
    eexists _, c'. split_and!; [reflexivity|simpl; by rewrite Hw1| |done|exact Hsh]. eapply heap_of_ext; [exact Hok| |].
    + intros d. unfold shared_count. simpl. by rewrite Hs1.
    + intros d. unfold weak_count. simpl. rewrite Hw1, insert_insert_eq. counts.
  - exists s, None. split_and!; [done|by rewrite insert_id| |done|apply shrinks_refl]. rewrite insert_id by done. by destruct s.
Qed.

Lemma wp_assign_spec s w r c z : ps_inv s -> w <> r -> ps_weak s !! w = Some c -> ps_weak s !! r = Some z ->
  (forall d, z = Some d -> room s d) ->
  exists s', wp_assign w r s = Ret (tt, s') /\ ps_inv s' /\ ps_objs s' = ps_objs s.
Proof.
  intros Hinv Hne Hw Hr Hroom. destruct (wp_release_spec s w c Hinv Hw) as (s1 & c1 & Hrun & Hw1 & Hi1 & Ho1 & Hsh1).
  assert (Hr1 : ps_weak s1 !! r = Some z) by (by rewrite Hw1, lookup_insert_ne).
  destruct (wp_share_spec _ w z Hi1) as (s3 & Hsh & Hi3 & Ho3).
  { right. apply lookup_insert_eq. }
  { intros d ->. destruct (Hroom d eq_refl) as (b & Hb & Ht). eapply (room_shrinks s s1); [by exists b| | |done].
    - apply (ctrl_of_weak _ Hi1 r d). simpl. by rewrite lookup_insert_ne.
    - by apply (ho_next _ _ _ _ _ (proj1 Hinv) d b). }
  exists s3. split_and!; [|done|by rewrite Ho3].
  unfold wp_assign. mrun Hrun. mrun (rd_wp_run s1 r z Hr1). rewrite <- Hsh.
  unfold mbind, M_bind, wr_wp, modify, set_weak. simpl. by rewrite insert_insert_eq.
Qed.

Lemma wp_move_assign_spec s w r c z : ps_inv s -> w <> r -> ps_weak s !! w = Some c -> ps_weak s !! r = Some z ->
  exists s', wp_move_assign w r s = Ret (tt, s') /\ ps_inv s' /\ ps_objs s' = ps_objs s.
Proof.
  intros Hinv Hne Hw Hr. destruct (wp_release_spec s w c Hinv Hw) as (s1 & c1 & Hrun & Hw1 & Hi1 & Ho1 & _).
  assert (Hr1 : ps_weak s1 !! r = Some z) by (by rewrite Hw1, lookup_insert_ne).
  assert (Hlw : ps_weak s1 !! w = Some c1) by (rewrite Hw1; apply lookup_insert_eq).
  eexists. split_and!; [unfold wp_move_assign; mrun Hrun; mrun (rd_wp_run s1 r z Hr1); reflexivity| |exact Ho1].
  eapply heap_of_ext; [exact Hi1|done|]. intros d. unfold weak_count. simpl.
  assert (Hr2 : <[w := z]> (ps_weak s1) !! r = Some z) by (by rewrite lookup_insert_ne).
  rewrite (count_replace (fun c => c) _ r z _ d Hr2), !(count_replace (fun c => c) _ w c1 _ d Hlw). unfold one_if. repeat case_decide; lia || done.
Qed.

Lemma wp_move_spec s w r z : ps_inv s -> ps_weak s !! w = None -> ps_weak s !! r = Some z ->
  exists s', wp_move w r s = Ret (tt, s') /\ ps_inv s' /\ ps_objs s' = ps_objs s.
Proof.
  intros Hinv Hw Hr. assert (Hne : w <> r) by congruence.
  eexists. split_and!; [unfold wp_move; mrun (rd_wp_run s r z Hr); reflexivity| |done].
  eapply heap_of_ext; [exact Hinv|done|]. intros d. unfold weak_count. simpl.
  assert (Hr2 : <[w := z]> (ps_weak s) !! r = Some z) by (by rewrite lookup_insert_ne).
  rewrite (count_replace (fun c => c) _ r z _ d Hr2), count_insert by done. unfold one_if. repeat case_decide; lia || done.
Qed.

Lemma wp_swap_spec s w r c z : ps_inv s -> w <> r -> ps_weak s !! w = Some c -> ps_weak s !! r = Some z ->
  exists s', wp_swap w r s = Ret (tt, s') /\ ps_inv s' /\ ps_objs s' = ps_objs s /\ ps_weak s' = <[r := c]> (<[w := z]> (ps_weak s)).
Proof.
  intros Hinv Hne Hw Hr. set (s1 := set_weak (<[w := None]> (ps_weak s)) s).
  assert (Hw1 : ps_weak s1 !! w = Some None) by apply lookup_insert_eq.
  assert (Hr1 : ps_weak s1 !! r = Some z) by (simpl; by rewrite lookup_insert_ne).
  assert (Hrel : wp_release w s1 = Ret (tt, s1)) by (unfold wp_release; by mrun (rd_wp_run s1 w _ Hw1)).
  set (s2 := set_weak (<[r := None]> (<[w := z]> (ps_weak s1))) s1).
  assert (Hr2 : ps_weak s2 !! r = Some None) by apply lookup_insert_eq.
  assert (Hma : wp_move_assign w r s1 = Ret (tt, s2)) by (unfold wp_move_assign; mrun Hrel; by mrun (rd_wp_run s1 r z Hr1)).
  assert (Hrel2 : wp_release r s2 = Ret (tt, s2)) by (unfold wp_release; by mrun (rd_wp_run s2 r _ Hr2)).
  assert (Hwr : wr_wp w None s = Ret (tt, s1)) by done.
  assert (Hend : ps_weak (set_weak (<[r := c]> (ps_weak s2)) s2) = <[r := c]> (<[w := z]> (ps_weak s)))
    by (simpl; by rewrite !insert_insert_eq).
  eexists. split_and!; [unfold wp_swap; mrun (rd_wp_run s w c Hw); mrun Hwr; mrun Hma; mrun Hrel2; reflexivity| |done|exact Hend].
  eapply heap_of_ext; [exact Hinv|done|]. intros d. unfold weak_count. rewrite Hend.
  assert (Hr3 : <[w := z]> (ps_weak s) !! r = Some z) by (by rewrite lookup_insert_ne).
  rewrite (count_replace (fun c => c) _ r z _ d Hr3), (count_replace (fun c => c) _ w c _ d Hw). lia.
Qed.

(** ** Claims *)

Inductive ptr_op :=
| New (v p : Z) | Copy (v r : Z) | Alias (v r a : Z) | Move (v r : Z) | Assign (v r : Z) | MoveAssign (v r : Z)
| Reset (v p : Z) | Swap (v r : Z) | Destroy (v : Z) | Null (v : Z) | FromUnique (v u : Z) | FromWeak (v w : Z)
| Weak (w r : Z) | WeakCopy (w r : Z) | WeakMove (w r : Z) | WeakAssign (w r : Z) | WeakMoveAssign (w r : Z)
| WeakSwap (w r : Z) | WeakDestroy (w : Z) | WeakNull (w : Z) | Lock (v w : Z).

Definition exec (o : ptr_op) : PM unit :=
  match o with
  | New v p => sp_from_raw v p | Copy v r => sp_copy v r | Alias v r a => sp_aliasing v r a | Move v r => sp_move v r
  | Assign v r => sp_assign v r | MoveAssign v r => sp_move_assign v r | Reset v p => sp_reset v p
  | Swap v r => sp_swap v r | Destroy v => sp_destroy v
  | Null v => sp_default v | FromUnique v u => sp_from_unique v u | FromWeak v w => sp_from_weak v w
  | Weak w r => wp_from_shared w r | WeakCopy w r => wp_copy w r | WeakMove w r => wp_move w r
  | WeakAssign w r => wp_assign w r | WeakMoveAssign w r => wp_move_assign w r | WeakSwap w r => wp_swap w r
  | WeakDestroy w => wp_destroy w | WeakNull w => wp_default w | Lock v w => wp_lock v w
  end.

(** A constructor names a new variable, the other operations existing and
    distinct ones; a raw pointer is null or an object no block owns; and the
    block that an operation adds a reference to has room for it. *)
Definition op_ok (s : PtrState) (o : ptr_op) : Prop :=
  let new v := ps_shared s !! v = None in let old v := is_Some (ps_shared s !! v) in
  let wnew w := ps_weak s !! w = None in let wold w := is_Some (ps_weak s !! w) in
  let fits r := forall x c, ps_shared s !! r = Some x -> sp_ctrl x = Some c -> room s c in
  let wfits w := forall c, ps_weak s !! w = Some (Some c) -> room s c in
  match o with
  | New v p => new v /\ unowned s p
  | Null v => new v
  | FromUnique v u => new v /\ exists p, ps_unique s !! u = Some p /\ unowned s p
  | FromWeak v w => new v /\ wold w /\ wfits w
  | Copy v r | Alias v r _ => new v /\ old r /\ fits r
  | Move v r => new v /\ old r
  | Assign v r => v <> r /\ old v /\ old r /\ fits r
  | MoveAssign v r | Swap v r => v <> r /\ old v /\ old r
  | Reset v p => old v /\ unowned s p
  | Destroy v => old v
  | Weak w r => wnew w /\ old r /\ fits r
  | WeakNull w => wnew w
  | WeakCopy w r => wnew w /\ wold r /\ wfits r
  | WeakMove w r => wnew w /\ wold r
  | WeakAssign w r => w <> r /\ wold w /\ wold r /\ wfits r
  | WeakMoveAssign w r | WeakSwap w r => w <> r /\ wold w /\ wold r
  | WeakDestroy w => wold w
  | Lock v w => new v /\ wold w /\ wfits w
  end.

(** The variable whose old value an operation drops. *)
Definition dropped (o : ptr_op) : option Z :=
  match o with Assign v _ | MoveAssign v _ | Reset v _ | Destroy v => Some v | _ => None end.

(** What every operation guarantees, before the counts are read off. *)
Definition op_spec (s : PtrState) (o : ptr_op) : Prop :=
  exists s', exec o s = Ret (tt, s') /\ ps_inv s' /\
    match dropped o with
    | None => ps_objs s' = ps_objs s
    | Some v => forall x, ps_shared s !! v = Some x -> object_follows s s' x
    end.

Lemma new_op_spec s v p : ps_inv s -> ps_shared s !! v = None -> unowned s p ->
  exists s', sp_from_raw v p s = Ret (tt, s') /\ ps_inv s' /\ ps_objs s' = ps_objs s.
Proof.
  intros Hinv Hv Hp. destruct (new_ctrl_spec s p _ _ Hinv Hp) as (s1 & Hn & _ & _ & Ho & _).
  destruct (sp_from_raw_spec s Hinv v p Hv Hp) as (s' & Hr & Hi). exists s'. split_and!; [done|done|].
  unfold sp_from_raw in Hr. rewrite (bind_run _ _ _ _ _ Hn) in Hr. injection Hr as <-. exact Ho.
Qed.

Lemma from_unique_spec s v u p : ps_inv s -> ps_shared s !! v = None -> ps_unique s !! u = Some p -> unowned s p ->
  exists s', sp_from_unique v u s = Ret (tt, s') /\ ps_inv s' /\ ps_objs s' = ps_objs s.
Proof.
  intros Hinv Hv Hu Hp. set (s1 := set_unique (<[u := 0]> (ps_unique s)) s).
  assert (Hrel : up_release u s = Ret (p, s1)) by (unfold up_release, rd_up, wr_up; munfold; by rewrite Hu).
  destruct (new_op_spec s1 v p Hinv Hv Hp) as (s' & Hr & Hi & Ho). exists s'. split_and!; [|done|done].
  unfold sp_from_unique. mrun Hrel. exact Hr.
Qed.

(** The constructors of [SharedPtr]. *)
Lemma shared_constructors s o : ps_inv s -> op_ok s o ->
  match o with New _ _ | Null _ | FromUnique _ _ | FromWeak _ _ | Copy _ _ | Alias _ _ _ | Move _ _ | Lock _ _ => op_spec s o | _ => True end.
Proof.
  intros Hinv Hop. destruct o as [v p|v r|v r a|v r| | | | | |v|v u|v w| | | | | | | | |v w]; try exact I; unfold op_spec; simpl in *.
  - destruct Hop as [Hv Hp]. by apply new_op_spec.
  - destruct Hop as (Hv & [x Hx] & Hf). destruct (sp_share_spec s Hinv v x) as (s' & Hr & Hi & Ho); [by left|eauto|].
    exists s'. unfold sp_copy. by mrun (rd_sp_run s r x Hx).
  - destruct Hop as (Hv & [x Hx] & Hf). destruct (sp_share_spec s Hinv v (mkSP (sp_ctrl x) a)) as (s' & Hr & Hi & Ho); [by left|eauto|].
    exists s'. unfold sp_aliasing. by mrun (rd_sp_run s r x Hx).
  - destruct Hop as [Hv [x Hx]]. by apply (sp_move_spec s v r x).
  - eexists. split_and!; [reflexivity| |done]. eapply heap_of_ext; [exact Hinv| |done]. counts.
  - destruct Hop as (Hv & p & Hu & Hp). by apply (from_unique_spec s v u p).
  - destruct Hop as (Hv & [c Hc] & Hf). destruct (sp_share_spec s Hinv v (mkSP c 0)) as (s' & Hr & Hi & Ho); [by left|naive_solver|].
    exists s'. unfold sp_from_weak. by mrun (rd_wp_run s w c Hc).
  - destruct Hop as (Hv & [c Hc] & Hf). apply (wp_lock_spec s v w c); naive_solver.
Qed.

(** The operations that drop a reference or move references around. *)
Lemma shared_updates s o : ps_inv s -> op_ok s o ->
  match o with Assign _ _ | MoveAssign _ _ | Reset _ _ | Swap _ _ | Destroy _ => op_spec s o | _ => True end.
Proof.
  intros Hinv Hop. destruct o as [| | | |v r|v r|v p|v r|v| | | | | | | | | | | |]; try exact I; unfold op_spec; simpl in *.
  - destruct Hop as (Hne & [x Hx] & [z Hz] & Hf). destruct (sp_assign_spec s v r x z Hinv Hne Hx Hz) as (s' & ? & ? & ?); [eauto|].
    exists s'. split_and!; [done..|]. intros y Hy. by simplify_eq.
  - destruct Hop as (Hne & [x Hx] & [z Hz]). destruct (sp_move_assign_spec s v r x z Hinv Hne Hx Hz) as (s' & ? & ? & ?).
    exists s'. split_and!; [done..|]. intros y Hy. by simplify_eq.
  - destruct Hop as ([x Hx] & Hp). destruct (sp_reset_spec s Hinv v x p Hx Hp) as (s' & ? & ? & ? & _).
    exists s'. split_and!; [done..|]. intros y Hy. by simplify_eq.
  - destruct Hop as (Hne & [x Hx] & [z Hz]). by apply (sp_swap_spec s v r x z).
  - destruct Hop as [x Hx]. destruct (sp_destroy_spec s Hinv v x Hx) as (s' & ? & ? & ?).
    exists s'. split_and!; [done..|]. intros y Hy. by simplify_eq.
Qed.

(** The operations of [WeakPtr]. *)
Lemma weak_operations s o : ps_inv s -> op_ok s o ->
  match o with
  | Weak _ _ | WeakCopy _ _ | WeakMove _ _ | WeakAssign _ _ | WeakMoveAssign _ _ | WeakSwap _ _ | WeakDestroy _ | WeakNull _ => op_spec s o
  | _ => True
  end.
Proof.
  intros Hinv Hop. destruct o as [| | | | | | | | | | | |w r|w r|w r|w r|w r|w r|w|w|]; try exact I; unfold op_spec; simpl in *.
  - destruct Hop as (Hw & [x Hx] & Hf). destruct (wp_share_spec s w (sp_ctrl x) Hinv) as (s' & Hr & Hi & Ho); [by left|eauto|].
    exists s'. unfold wp_from_shared. by mrun (rd_sp_run s r x Hx).
  - destruct Hop as (Hw & [c Hc] & Hf). destruct (wp_share_spec s w c Hinv) as (s' & Hr & Hi & Ho); [by left|naive_solver|].
    exists s'. unfold wp_copy. by mrun (rd_wp_run s r c Hc).
  - destruct Hop as (Hw & [c Hc]). by apply (wp_move_spec s w r c).
  - destruct Hop as (Hne & [x Hx] & [z Hz] & Hf). apply (wp_assign_spec s w r x z); naive_solver.
  - destruct Hop as (Hne & [x Hx] & [z Hz]). by apply (wp_move_assign_spec s w r x z).
  - destruct Hop as (Hne & [x Hx] & [z Hz]). destruct (wp_swap_spec s w r x z Hinv Hne Hx Hz) as (s' & ? & ? & ? & _). by exists s'.
  - destruct Hop as [c Hc]. by apply (wp_destroy_spec s w c).
  - eexists. split_and!; [reflexivity| |done]. eapply heap_of_ext; [exact Hinv|done|]. counts.
Qed.


(** ** Witnesses *)

(** One object, at 4096, and no pointers. *)
Definition one_object : PtrState := mkPS ∅ 1 {[4096]} ∅ ∅ ∅.

Lemma one_object_inv : ps_inv one_object.
Proof.
  split; [|simpl; set_solver]. split; simpl; intros *; rewrite ?lookup_empty; try done.
Qed.

(** Two owners of the object and an observer. *)
Definition two_owners : PtrState :=
  mkPS {[1 := mkCtrl 4096 2 1]} 2 {[4096]} (<[2 := mkSP (Some 1) 0]> {[1 := mkSP (Some 1) 0]}) {[7 := Some 1]} ∅.

Lemma two_owners_made :
  (sp_from_raw 1 4096;; sp_copy 2 1;; wp_from_shared 7 1) one_object = Ret (tt, two_owners).
Proof. vm_compute. reflexivity. Qed.

Lemma two_owners_inv : ps_inv two_owners.
Proof.
  pose proof one_object_inv as H0.
  destruct (new_op_spec one_object 1 4096) as (s1 & Hr1 & Hi1 & _); [done|done| |].
  { intros _. split; [simpl; set_solver|]. intros c b. simpl. by rewrite lookup_empty. }
  vm_compute in Hr1. injection Hr1 as <-.
  destruct (shared_constructors _ (Copy 2 1) Hi1) as (s2 & Hr2 & Hi2 & _).
  { split; [done|]. split; [by eexists|]. intros x c Hx Hc. vm_compute in Hx. simplify_eq. cbn in Hc. simplify_eq. by eexists. }
  vm_compute in Hr2. injection Hr2 as <-.
  destruct (weak_operations _ (Weak 7 1) Hi2) as (s3 & Hr3 & Hi3 & _).
  { split; [done|]. split; [by eexists|]. intros x c Hx Hc. vm_compute in Hx. simplify_eq. cbn in Hc. simplify_eq. by eexists. }
  vm_compute in Hr3. injection Hr3 as <-. exact Hi3.
Qed.


(** Assigning a variable to itself deletes its object. *)
Lemma self_assignment_deletes :
  match (sp_from_raw 1 4096;; sp_assign 1 1;; sp_get 1) one_object with
  | Ret (p, s) => (p =? 0) && bool_decide (ps_objs s = ∅)
  | _ => false
  end = true.
Proof. vm_compute. reflexivity. Qed.

(** A [WeakPtr] that is reset and then destroyed takes away two references: the
    block goes while another [WeakPtr] still refers to it, whose use faults. *)
Lemma weak_reset_dangles :
  (sp_from_raw 1 4096;; wp_from_shared 1 1;; wp_copy 2 1;; sp_destroy 1;; wp_reset 1;; wp_destroy 1;; wp_use_count 2) one_object = Fault.
Proof. vm_compute. reflexivity. Qed.

(** ** Casts and comparison *)

(** A comparison with the copy made for it leaves everything as it was. *)
Lemma sp_eq_spec s v r x y : ps_inv s -> ps_shared s !! v = Some x -> ps_shared s !! r = Some y ->
  (forall c, sp_ctrl y = Some c -> room s c) ->
  sp_eq v r s = Ret (bool_decide (sp_ctrl x = sp_ctrl y), s).
Proof.
  intros Hinv Hv Hr Hroom. unfold sp_eq. mrun (rd_sp_run s r y Hr). destruct (sp_ctrl y) as [c|] eqn:Hc; [|cbn [inc_use_count]; cbn [dec_use_count]; msimpl; by mrun (rd_sp_run s v x Hv)].
  destruct (Hroom c eq_refl) as (b & Hb & Ht). destruct (ctrl_of_shared s Hinv r y c Hr Hc) as [Hpos _].
  pose proof (heap_range s _ _ c b Hinv Hb) as Hrg. unfold total in *. assert (Hrun := inc_use_run s c b Hb ltac:(lia)). mrun Hrun.
  set (s1 := set_ctrls _ s). assert (Hb1 : ps_ctrls s1 !! c = Some (add_use 1 b)) by apply lookup_insert_eq.
  assert (Hn : 0 < use_count b /\ 0 <= use_count_weak b) by (pose proof (ho_counts _ _ _ _ _ (proj1 Hinv) c b Hb); lia).
  assert (Hd : dec_use_count (Some c) s1 = Ret (Some c, s)).
  { cbn [dec_use_count]. mrun (rd_ctrl_run s1 c _ Hb1). rewrite (proj2 (Z.ltb_lt _ _)) by (simpl; lia). mrun (wr_ctrl_run s1 c _ (add_use (-1)) Hb1).
    replace (add_use (-1) (add_use 1 b)) with b by (destruct b; unfold add_use; simpl; f_equal; lia).
    replace (set_ctrls _ s1) with s by (destruct s; unfold s1, set_ctrls; cbn in *; by rewrite insert_insert_eq, insert_id).
    assert (Hm : maybe_delete_p c s = Ret (tt, s)) by (unfold maybe_delete_p; mrun (rd_ctrl_run s c b Hb); by rewrite (proj2 (Z.eqb_neq _ _)) by lia).
    mrun Hm. unfold maybe_delete_ctrl_block. mrun (rd_ctrl_run s c b Hb). rewrite int_ck_ok by (unfold INT_MAX in *; lia). msimpl. by rewrite (proj2 (Z.eqb_neq _ _)) by lia. }
  mrun (rd_sp_run s1 v x Hv). by mrun Hd.
Qed.

(** The casts that keep the address share the object. *)
Lemma cast_spec s v r x c b : ps_inv s -> ps_shared s !! r = Some x -> sp_ctrl x = Some c -> ps_ctrls s !! c = Some b -> total b < INT_MAX -> ps_shared s !! v = None ->
  exists s' p, sp_get r s = Ret (p, s) /\ const_pointer_cast v r s = Ret (tt, s') /\ ps_inv s' /\ ps_objs s' = ps_objs s /\
    sp_get v s' = Ret (p, s') /\ sp_use_count v s' = Ret (use_count b + 1, s').
Proof.
  intros Hinv Hr Hc Hb Ht Hv. pose proof (heap_range s _ _ c b Hinv Hb) as Hrg. set (p := if sp_alias x =? 0 then cb_p b else sp_alias x).
  assert (Hg : sp_get r s = Ret (p, s)).
  { unfold sp_get. mrun (rd_sp_run s r x Hr). unfold p. destruct (Z.eqb_spec (sp_alias x) 0); cbn [negb]; [|done]. rewrite Hc. by mrun (rd_ctrl_run s c b Hb). }
  destruct (sp_share_spec s Hinv v (mkSP (sp_ctrl x) p)) as (s' & Hrun & Hi & Ho); [by left|intros d Hd; cbn in Hd; simplify_eq; by exists b|].
  exists s', p. split; [done|]. split; [unfold const_pointer_cast, sp_aliasing; mrun Hg; by mrun (rd_sp_run s r x Hr)|]. split; [done|]. split; [done|].
  cbn [sp_ctrl] in Hrun. rewrite Hc in Hrun. set (s1 := set_shared (<[v := mkSP (Some c) p]> (ps_shared s)) s).
  assert (H1 : wr_sp v (mkSP (Some c) p) s = Ret (tt, s1)) by done. rewrite (bind_run _ _ _ _ _ H1), (inc_use_run s1 c b Hb) in Hrun by (unfold total in *; lia). injection Hrun as <-.
  set (s2 := set_ctrls _ s1). assert (Hv2 : ps_shared s2 !! v = Some (mkSP (Some c) p)) by apply lookup_insert_eq.
  assert (Hb2 : ps_ctrls s2 !! c = Some (add_use 1 b)) by apply lookup_insert_eq.
  split; [unfold sp_get|unfold sp_use_count]; mrun (rd_sp_run s2 v _ Hv2); cbn [sp_alias sp_ctrl]; [|by mrun (rd_ctrl_run s2 c _ Hb2)].
  destruct (Z.eqb_spec p 0) as [H0|H0]; [|done]. cbn [negb]. mrun (rd_ctrl_run s2 c _ Hb2). cbn [cb_p add_use]. rewrite H0. unfold p in H0. by destruct (Z.eqb_spec (sp_alias x) 0); simplify_eq; rewrite ?H0.
Qed.

(** ** shared_from_this *)

(** The pointer an object hands out for itself shares its owners' block. *)
Lemma shared_from_this_spec s v p c b : ps_inv s -> ps_shared s !! v = None -> ps_weak s !! weak_this p = Some (Some c) ->
  ps_ctrls s !! c = Some b -> cb_p b = p -> p <> 0 -> total b < INT_MAX ->
  exists s', shared_from_this v p s = Ret (tt, s') /\ ps_inv s' /\ ps_objs s' = ps_objs s /\ sp_get v s' = Ret (p, s').
Proof.
  intros Hinv Hv Hw Hb Hp Hp0 Ht. pose proof (heap_range s _ _ c b Hinv Hb) as Hrg. pose proof (ho_obj _ _ _ _ _ (proj1 Hinv) c b Hb ltac:(congruence)) as (_ & Hpos & _).
  unfold shared_from_this, wp_lock, expired, wp_use_count. 
  assert (He : (n ← (c0 ← rd_wp (weak_this p); match c0 with Some c1 => b0 ← rd_ctrl c1; mret (use_count b0) | None => mret 0 end); mret (n =? 0)) s = Ret (false, s)).
  { assert (Hn : (c0 ← rd_wp (weak_this p); match c0 with Some c1 => b0 ← rd_ctrl c1; mret (use_count b0) | None => mret 0 end) s = Ret (use_count b, s))
      by (mrun (rd_wp_run s _ _ Hw); by mrun (rd_ctrl_run s c b Hb)).
    mrun Hn. by rewrite (proj2 (Z.eqb_neq _ _)) by lia. }
  mrun He. destruct (sp_share_spec s Hinv v (mkSP (Some c) 0)) as (s' & Hrun & Hi & Ho); [by left|intros d [= <-]; by exists b|].
  exists s'. split; [unfold sp_from_weak; by mrun (rd_wp_run s _ _ Hw)|]. split; [done|]. split; [done|].
  set (s1 := set_shared (<[v := mkSP (Some c) 0]> (ps_shared s)) s). cbn [sp_ctrl] in Hrun.
  assert (H1 : wr_sp v (mkSP (Some c) 0) s = Ret (tt, s1)) by done. rewrite (bind_run _ _ _ _ _ H1), (inc_use_run s1 c b Hb) in Hrun by (unfold total in *; lia). injection Hrun as <-.
  set (s2 := set_ctrls _ s1). assert (Hv2 : ps_shared s2 !! v = Some (mkSP (Some c) 0)) by apply lookup_insert_eq.
  assert (Hb2 : ps_ctrls s2 !! c = Some (add_use 1 b)) by apply lookup_insert_eq.
  unfold sp_get. mrun (rd_sp_run s2 v _ Hv2). cbn [sp_alias sp_ctrl Z.eqb negb]. mrun (rd_ctrl_run s2 c _ Hb2). by rewrite <- Hp.
Qed.

(** When the last [SharedPtr] to such an object goes, the destructor of its
    [_weak_this] deletes the control block, which [maybe_delete_p] then writes. *)
Lemma last_owner_of_shareable s v x c b : ps_shared s !! v = Some x -> sp_ctrl x = Some c -> ps_ctrls s !! c = Some b ->
  use_count b = 1 -> use_count_weak b = 1 -> cb_p b <> 0 -> cb_p b ∈ ps_objs s -> ps_weak s !! weak_this (cb_p b) = Some (Some c) ->
  sp_destroy_this v s = Fault.
Proof.
  intros Hv Hc Hb Hu Hw Hp Ho Hwt. destruct b as [q u w]. cbn in *. subst u w.
  set (s1 := set_ctrls (<[c := mkCtrl q 0 1]> (ps_ctrls s)) s). assert (H1 : ps_ctrls s1 !! c = Some (mkCtrl q 0 1)) by apply lookup_insert_eq.
  set (s2 := set_ctrls (<[c := mkCtrl q 0 0]> (ps_ctrls s1)) s1). assert (H2 : ps_ctrls s2 !! c = Some (mkCtrl q 0 0)) by apply lookup_insert_eq.
  set (s3 := set_ctrls (<[c := mkCtrl q 0 (-1)]> (ps_ctrls s2)) s2). assert (H3 : ps_ctrls s3 !! c = Some (mkCtrl q 0 (-1))) by apply lookup_insert_eq.
  set (s4 := set_ctrls (delete c (ps_ctrls s3)) s3).
  assert (Hblock : dec_use_count_weak (Some c) s1 = Ret (None, s4)).
  { cbn [dec_use_count_weak]. mrun (rd_ctrl_run s1 c _ H1). cbn [use_count_weak Z.ltb Z.compare]. mrun (wr_ctrl_run s1 c _ (add_weak (-1)) H1). fold s2.
    unfold maybe_delete_ctrl_block. mrun (rd_ctrl_run s2 c _ H2). cbn beta iota. cbn [use_count use_count_weak]. rewrite int_ck_ok by lia. msimpl. replace (0 + 0 =? 0) with true by done. mrun (wr_ctrl_run s2 c _ (fun b => mkCtrl (cb_p b) (use_count b) (-1)) H2). fold s3.
    assert (Hd : del_ctrl c s3 = Ret (tt, s4)) by (unfold del_ctrl; by mrun (rd_ctrl_run s3 c _ H3)). by mrun Hd. }
  set (s5 := set_weak (delete (weak_this q) (ps_weak s4)) s4).
  assert (Hobj : del_shareable q s1 = Ret (tt, set_objs (ps_objs s5 ∖ {[q]}) s5)).
  { unfold del_shareable. rewrite (proj2 (Z.eqb_neq _ _)) by done.
    assert (Hwd : wp_destroy (weak_this q) s1 = Ret (tt, s5)) by (unfold wp_destroy; mrun (rd_wp_run s1 _ _ Hwt); by mrun Hblock).
    mrun Hwd. unfold del_obj. rewrite (proj2 (Z.eqb_neq _ _)) by done. msimpl. by rewrite decide_True by exact Ho. }
  assert (Hthis : maybe_delete_this c s1 = Fault).
  { unfold maybe_delete_this. mrun (rd_ctrl_run s1 c _ H1). cbn [use_count cb_p Z.eqb]. mrun Hobj. unfold wr_ctrl, rd_ctrl. munfold. simpl. by rewrite lookup_delete_eq. }
  assert (Hdec : dec_use_count_this (Some c) s = Fault).
  { cbn [dec_use_count_this]. mrun (rd_ctrl_run s c _ Hb). cbn [use_count Z.ltb Z.compare]. mrun (wr_ctrl_run s c _ (add_use (-1)) Hb). change (set_ctrls _ s) with s1.
    unfold mbind, M_bind. by rewrite Hthis. }
  unfold sp_destroy_this. mrun (rd_sp_run s v x Hv). rewrite Hc. unfold mbind, M_bind. by rewrite Hdec.
Qed.

(** An object that is made with [make_shared] and then dropped. *)
Lemma drop_shareable_faults : (new_shareable 4096;; sp_from_raw_this 1 4096;; sp_destroy_this 1) one_object = Fault.
Proof. vm_compute. reflexivity. Qed.

(** Two owners of an array: the end of one deletes it, with the control block. *)
Lemma array_owner_deletes :
  match (sp_from_raw 1 4096;; sp_copy 2 1;; spa_destroy 1) one_object with
  | Ret (_, s) => bool_decide (ps_objs s = ∅) && match sp_use_count 2 s with Fault => true | _ => false end
  | _ => false
  end = true.
Proof. vm_compute. reflexivity. Qed.

(** [reset()] of a pointer to such an object constructs a [SharedPtr] of the null
    pointer, whose [_weak_this] does not exist. *)
Lemma reset_of_shareable : (new_shareable 4096;; sp_from_raw_this 1 4096;; sp_reset_this 1 0) one_object = Fault.
Proof. vm_compute. reflexivity. Qed.
