(* ===== verification/LinkedList.v ===== *)
(** * include/lib/List.h: the circular doubly linked list

    The nodes live in a heap, a map from addresses to nodes, out of which
    [delete] takes a node: using a deleted node faults.  A list object is the
    address of its sentinel and its size. *)

From Stdlib Require Import ZArith Lia.
From stdpp Require Import base gmap list numbers.
From S2P Require Import Prelude.

Open Scope Z_scope.

(** ** Data *)

Record Node (T : Type) := mkNode { n_prev : option Z; n_next : option Z; n_data : option T }.
Arguments mkNode {T}.
Arguments n_prev {T}.
Arguments n_next {T}.
Arguments n_data {T}.

(** The heap, the next address [new] returns, and the list object. *)
Record ListState (T : Type) := mkList {
  l_heap : gmap Z (Node T); l_fresh : Z; l_head : Z; l_size : Z
}.
Arguments mkList {T}.
Arguments l_heap {T}.
Arguments l_fresh {T}.
Arguments l_head {T}.
Arguments l_size {T}.

Section list_operations.
Context {T : Type}.
Abbreviation LM := (M (ListState T)).
Implicit Types (s : ListState T).

Definition set_heap (h : gmap Z (Node T)) s : ListState T := mkList h (l_fresh s) (l_head s) (l_size s).
Definition set_size (n : Z) s : ListState T := mkList (l_heap s) (l_fresh s) (l_head s) n.

(** ** Nodes *)

Definition rd_node (p : Z) : LM (Node T) := s ← get; deref (l_heap s !! p).
Definition wr_node (p : Z) (f : Node T -> Node T) : LM unit :=
  n ← rd_node p; s ← get; put (set_heap (<[p := f n]> (l_heap s)) s).
Definition set_prev (q : option Z) (n : Node T) : Node T := mkNode q (n_next n) (n_data n).
Definition set_next (q : option Z) (n : Node T) : Node T := mkNode (n_prev n) q (n_data n).

(** [new Node(val)] and [delete node]. *)
Definition new_node (val : T) : LM Z :=
  s ← get;
  put (mkList (<[l_fresh s := mkNode None None (Some val)]> (l_heap s)) (l_fresh s + 1) (l_head s) (l_size s));;
  mret (l_fresh s).
Definition delete_node (p : Z) : LM unit :=
  rd_node p;; s ← get; put (set_heap (delete p (l_heap s)) s).

Definition ptr (o : option Z) : LM Z := deref o.

(** ** Linking *)

Definition is_list_add_valid (new_node prev next : Z) : LM bool :=
  nn ← rd_node next; np ← rd_node prev;
  mret (bool_decide (n_prev nn = Some prev) && bool_decide (n_next np = Some next)
        && negb (new_node =? prev) && negb (new_node =? next)).

Definition is_list_del_entry_valid (entry : Z) : LM bool :=
  ne ← rd_node entry;
  p ← ptr (n_prev ne); np ← rd_node p;
  if bool_decide (n_next np = Some entry) then
    q ← ptr (n_next ne); nq ← rd_node q;
    mret (bool_decide (n_prev nq = Some entry))
  else mret false.

Definition list_add (new_node prev next : Z) : LM unit :=
  v ← is_list_add_valid new_node prev next;
  if negb v then mret tt
  else
    wr_node next (set_prev (Some new_node));;
    wr_node new_node (set_next (Some next));;
    wr_node new_node (set_prev (Some prev));;
    wr_node prev (set_next (Some new_node));;
    modify (fun s => set_size (u64 (l_size s + 1)) s).

Definition list_del (prev next : Z) : LM unit :=
  wr_node next (set_prev (Some prev));;
  wr_node prev (set_next (Some next)).

Definition list_del_entry (entry : Z) : LM unit :=
  v ← is_list_del_entry_valid entry;
  if negb v then mret tt
  else
    ne ← rd_node entry;
    p ← ptr (n_prev ne); q ← ptr (n_next ne);
    list_del p q;;
    wr_node entry (set_prev None);;
    wr_node entry (set_next None);;
    delete_node entry;;
    modify (fun s => set_size (u64 (l_size s - 1)) s).

(** ** The list *)

(** [List()]: a sentinel that points to itself. *)
Definition new_list : ListState T := mkList {[0 := mkNode (Some 0) (Some 0) None]} 1 0 0.

Definition push_back (val : T) : LM unit :=
  n ← new_node val;
  s ← get; nh ← rd_node (l_head s);
  p ← ptr (n_prev nh);
  list_add n p (l_head s).

Definition push_front (val : T) : LM unit :=
  n ← new_node val;
  s ← get; nh ← rd_node (l_head s);
  q ← ptr (n_next nh);
  list_add n (l_head s) q.

Definition pop_back : LM unit :=
  s ← get; nh ← rd_node (l_head s); p ← ptr (n_prev nh); list_del_entry p.

Definition pop_front : LM unit :=
  s ← get; nh ← rd_node (l_head s); q ← ptr (n_next nh); list_del_entry q.

(** [while (index--) node = node->next;] *)
Fixpoint walk (n : nat) (node : Z) : LM Z :=
  match n with
  | O => mret node
  | S n => nd ← rd_node node; q ← ptr (n_next nd); walk n q
  end.

(** The argument is converted to [int]; a negative index counts down past the
    least [int]. *)
Definition erase (index : Z) : LM unit :=
  let index := s32 index in
  s ← get; nh ← rd_node (l_head s); q ← ptr (n_next nh);
  if index <? 0 then fault
  else
    node ← walk (Z.to_nat index) q;
    list_del_entry node.

(** [remove_if]; [remove(val)] is the case of equality with [val]. *)
Fixpoint remove_if_loop (fuel : nat) (predicate : T -> bool) (check_all : bool) (node : Z) : LM unit :=
  match fuel with
  | O => out_of_fuel
  | S fuel =>
      s ← get;
      if node =? l_head s then mret tt
      else
        nd ← rd_node node;
        v ← deref (n_data nd);
        if predicate v then
          list_del_entry node;;
          if negb check_all then mret tt
          else
            nd ← rd_node node; q ← ptr (n_next nd);
            remove_if_loop fuel predicate check_all q
        else
          q ← ptr (n_next nd);
          remove_if_loop fuel predicate check_all q
  end.

Definition remove_if (predicate : T -> bool) (check_all : bool) : LM unit :=
  s ← get; nh ← rd_node (l_head s); q ← ptr (n_next nh);
  remove_if_loop (S (size (l_heap s))) predicate check_all q.

Definition remove `{EqDecision T} (val : T) : LM unit := remove_if (fun v => bool_decide (v = val)) false.

Definition empty : LM bool :=
  s ← get; nh ← rd_node (l_head s); mret (bool_decide (n_next nh = Some (l_head s))).

Fixpoint clear_loop (fuel : nat) : LM unit :=
  match fuel with
  | O => out_of_fuel
  | S fuel => e ← empty; if negb e then pop_front;; clear_loop fuel else mret tt
  end.

Definition clear : LM unit := s ← get; clear_loop (S (size (l_heap s))).

(** Iteration from [begin()] to [end()]: the elements, in order. *)
Fixpoint iterate_loop (fuel : nat) (current : Z) : LM (list T) :=
  match fuel with
  | O => out_of_fuel
  | S fuel =>
      s ← get;
      if current =? l_head s then mret []
      else
        nd ← rd_node current;
        v ← deref (n_data nd);
        q ← ptr (n_next nd);
        rest ← iterate_loop fuel q;
        mret (v :: rest)
  end.

Definition iterate : LM (list T) :=
  s ← get; nh ← rd_node (l_head s); q ← ptr (n_next nh);
  iterate_loop (S (size (l_heap s))) q.

Definition front : LM T :=
  s ← get; nh ← rd_node (l_head s); q ← ptr (n_next nh); nq ← rd_node q; deref (n_data nq).
Definition back : LM T :=
  s ← get; nh ← rd_node (l_head s); p ← ptr (n_prev nh); np ← rd_node p; deref (n_data np).

Definition find_if (predicate : T -> bool) : LM (option T) :=
  l ← iterate; mret (find predicate l).
End list_operations.

(** ** Chains of nodes *)

Section chains.
Context {T : Type}.
Implicit Types (H : gmap Z (Node T)) (p q x : Z) (l : list Z).

Definition nx H x : option Z := H !! x ≫= n_next.
Definition pv H x : option Z := H !! x ≫= n_prev.
Definition dat H x : option T := H !! x ≫= n_data.

Definition link H p q : Prop := nx H p = Some q /\ pv H q = Some p.

(** Consecutive nodes of [l] are linked both ways. *)
Fixpoint chain H l : Prop :=
  match l with
  | p :: (q :: _) as l' => link H p q /\ chain H l'
  | _ => True
  end.

Lemma chain_split H l1 x l2 : chain H (l1 ++ x :: l2) <-> chain H (l1 ++ [x]) /\ chain H (x :: l2).
Proof.
  induction l1 as [|y l1 IH]; [simpl; naive_solver|]. destruct l1 as [|z l1]; simpl in *; naive_solver.
Qed.

(** A chain only reads [next] of all but its last node and [prev] of all but its first. *)
Lemma chain_frame H H' l :
  (forall l1 x l2, l = l1 ++ x :: l2 -> l2 <> [] -> nx H' x = nx H x) ->
  (forall l1 x l2, l = l1 ++ x :: l2 -> l1 <> [] -> pv H' x = pv H x) ->
  chain H l -> chain H' l.
Proof.
  induction l as [|p l IH]; intros Hn Hp; [done|]. destruct l as [|q l]; [done|].
  intros [[Hl1 Hl2] Hc]. split.
  - split; [rewrite (Hn [] p (q :: l)) by done; done|rewrite (Hp [p] q l) by done; done].
  - apply IH; [| |done].
    + intros l1 x l2 He. apply (Hn (p :: l1)). by rewrite He.
    + intros l1 x l2 He Hne. apply (Hp (p :: l1) x l2); [by rewrite He|done].
Qed.

(** The nodes of a circular list: the sentinel, the nodes, the sentinel. *)
Definition cycle (h : Z) (ns : list Z) : list Z := h :: ns ++ [h].

Lemma cycle_unique h ns l1 x l2 l1' l2' :
  NoDup (h :: ns) -> cycle h ns = l1 ++ x :: l2 -> cycle h ns = l1' ++ x :: l2' ->
  (l2 <> [] -> l2' <> [] -> l1 = l1') /\ (l1 <> [] -> l1' <> [] -> l1 = l1').
Proof.
  intros Hnd He He'.
  assert (Hsplit : forall (a b a' b' : list Z), NoDup (a ++ x :: b) -> a ++ x :: b = a' ++ x :: b' -> a = a').
  { clear. intros a. induction a as [|y a IH]; intros b a' b' Hnd He; destruct a' as [|y' a']; simpl in *.
    - done.
    - injection He as -> ->. apply list.NoDup_cons in Hnd as [Hn _]. destruct Hn.
      apply elem_of_app. right. left.
    - injection He as -> <-. apply list.NoDup_cons in Hnd as [Hn _]. destruct Hn.
      apply elem_of_app. right. left.
    - injection He as -> He. apply list.NoDup_cons in Hnd as [_ Hnd]. f_equal. by eapply IH. }
  split; intros Hne Hne'.
  - destruct (exists_last Hne) as (b & y & ->). destruct (exists_last Hne') as (b' & y' & ->).
    unfold cycle in He, He'. rewrite app_comm_cons in He, He'.
    rewrite (app_comm_cons b [y] x), app_assoc in He. rewrite (app_comm_cons b' [y'] x), app_assoc in He'.
    apply app_inj_tail in He as [He _]. apply app_inj_tail in He' as [He' _].
    apply (Hsplit l1 b l1' b'); [by rewrite <- He|congruence].
  - destruct l1 as [|y a]; [done|]. destruct l1' as [|y' a']; [done|].
    unfold cycle in He, He'. simpl in He, He'. injection He as <- He. injection He' as <- He'. f_equal.
    apply (Hsplit a l2 a' l2'); [|congruence]. rewrite <- He.
    apply list.NoDup_cons in Hnd as [Hn Hnd]. apply list.NoDup_app. split_and!; [done| |apply NoDup_singleton].
    intros z Hz ->%list_elem_of_singleton. done.
Qed.

(** The parts of a cycle around two neighbours. *)
Lemma cycle_parts h ns l1 p m q l2 x :
  NoDup (h :: ns) -> cycle h ns = l1 ++ p :: m ++ q :: l2 ->
  (forall a b, l1 ++ [p] = a ++ x :: b -> b <> [] -> x <> p) /\
  (forall a b, l1 ++ [p] = a ++ x :: b -> a <> [] -> x <> q) /\
  (forall a b, q :: l2 = a ++ x :: b -> b <> [] -> x <> p) /\
  (forall a b, q :: l2 = a ++ x :: b -> a <> [] -> x <> q).
Proof.
  intros Hnd He.
  assert (Heq : cycle h ns = (l1 ++ p :: m) ++ q :: l2) by (by rewrite He, <- app_assoc).
  assert (Hlen : forall (a b : list Z), a = b -> length a = length b) by (by intros ? ? ->).
  split_and!; intros a b Hab Hne Hx; subst x.
  - destruct (cycle_unique h ns l1 p (m ++ q :: l2) a (b ++ m ++ q :: l2) Hnd He) as [Hu _].
    { rewrite He. change (p :: m ++ q :: l2) with ([p] ++ m ++ q :: l2).
      rewrite app_assoc, Hab, <- app_assoc. done. }
    apply Hlen in Hab. rewrite Hu in Hab by (destruct m, b; done). rewrite !length_app in Hab.
    destruct b; [done|simpl in Hab; lia].
  - destruct (cycle_unique h ns (l1 ++ p :: m) q l2 a (b ++ m ++ q :: l2) Hnd Heq) as [_ Hu].
    { rewrite He. change (p :: m ++ q :: l2) with ([p] ++ m ++ q :: l2).
      rewrite app_assoc, Hab, <- app_assoc. done. }
    apply Hlen in Hab. rewrite <- Hu in Hab by (done || by destruct l1). rewrite !length_app in Hab. simpl in Hab. lia.
  - destruct (cycle_unique h ns l1 p (m ++ q :: l2) (l1 ++ p :: m ++ a) b Hnd He) as [Hu _].
    { rewrite He, Hab. rewrite <- !app_assoc. simpl. by rewrite <- app_assoc. }
    specialize (Hu ltac:(by destruct m) Hne). apply Hlen in Hu. rewrite length_app in Hu. simpl in Hu. lia.
  - destruct (cycle_unique h ns (l1 ++ p :: m) q l2 (l1 ++ p :: m ++ a) b Hnd Heq) as [_ Hu].
    { rewrite He, Hab. rewrite <- !app_assoc. simpl. by rewrite <- app_assoc. }
    specialize (Hu ltac:(by destruct l1) ltac:(by destruct l1)). apply Hlen in Hu.
    rewrite !length_app in Hu. simpl in Hu. rewrite length_app in Hu. destruct a; [done|simpl in Hu; lia].
Qed.

(** Relinking two nodes of a cycle, around what lies between them. *)
Lemma chain_relink H H' h ns l1 p m q l2 :
  NoDup (h :: ns) -> cycle h ns = l1 ++ p :: m ++ q :: l2 -> chain H (cycle h ns) ->
  (forall x, x ∈ cycle h ns -> x <> p -> x ∉ m -> nx H' x = nx H x) ->
  (forall x, x ∈ cycle h ns -> x <> q -> x ∉ m -> pv H' x = pv H x) ->
  (forall x, x ∈ m -> x ∉ l1 ++ [p] /\ x ∉ q :: l2) ->
  chain H' (l1 ++ [p]) /\ chain H' (q :: l2).
Proof.
  intros Hnd He Hc Hn Hp Hm. rewrite He in Hc.
  apply chain_split in Hc as [Hc1 Hc2]. rewrite app_comm_cons in Hc2. apply chain_split in Hc2 as [_ Hc2].
  pose proof (cycle_parts h ns l1 p m q l2) as Hparts.
  assert (Hin1 : forall x, x ∈ l1 ++ [p] -> x ∈ cycle h ns /\ x ∉ m) by (rewrite He; set_solver).
  assert (Hin2 : forall x, x ∈ q :: l2 -> x ∈ cycle h ns /\ x ∉ m) by (rewrite He; set_solver).
  split; [revert Hc1|revert Hc2]; apply chain_frame; intros a x b Hab Hne;
    destruct (Hparts x Hnd He) as (H1 & H2 & H3 & H4).
  - destruct (Hin1 x) as [? ?]; [rewrite Hab; set_solver|]. apply Hn; [done|by eapply H1|done].
  - destruct (Hin1 x) as [? ?]; [rewrite Hab; set_solver|]. apply Hp; [done|by eapply H2|done].
  - destruct (Hin2 x) as [? ?]; [rewrite Hab; set_solver|]. apply Hn; [done|by eapply H3|done].
  - destruct (Hin2 x) as [? ?]; [rewrite Hab; set_solver|]. apply Hp; [done|by eapply H4|done].
Qed.
End chains.

#[local] Arguments chain : simpl never.
#[local] Arguments cycle : simpl never.

(** ** Single steps *)

Section steps.
Context {T : Type}.
Implicit Types (s : ListState T) (H : gmap Z (Node T)).

(** What a step does to the heap, field by field. *)
Record heap_step (H H' : gmap Z (Node T)) (fn fp : Z -> option (option Z)) : Prop := {
  hs_nx : forall x, nx H' x = match fn x with Some o => o | None => nx H x end;
  hs_pv : forall x, pv H' x = match fp x with Some o => o | None => pv H x end;
  hs_dat : forall x, dat H' x = dat H x;
  hs_dom : forall x, is_Some (H' !! x) <-> is_Some (H !! x)
}.

Definition at_ (p : Z) (o : option Z) (x : Z) : option (option Z) := if decide (x = p) then Some o else None.
Definition nowhere (x : Z) : option (option Z) := None.

Lemma wr_next_run s p o :
  is_Some (l_heap s !! p) ->
  exists H', wr_node p (set_next o) s = Ret (tt, set_heap H' s) /\ heap_step (l_heap s) H' (at_ p o) nowhere.
Proof.
  intros [n Hn]. exists (<[p := set_next o n]> (l_heap s)). split.
  - unfold wr_node, rd_node. munfold. by rewrite Hn.
  - split; intros x; unfold nx, pv, dat, at_, nowhere; rewrite lookup_insert; repeat case_decide; subst;
      rewrite ?Hn; simplify_eq; done.
Qed.

Lemma wr_prev_run s p o :
  is_Some (l_heap s !! p) ->
  exists H', wr_node p (set_prev o) s = Ret (tt, set_heap H' s) /\ heap_step (l_heap s) H' nowhere (at_ p o).
Proof.
  intros [n Hn]. exists (<[p := set_prev o n]> (l_heap s)). split.
  - unfold wr_node, rd_node. munfold. by rewrite Hn.
  - split; intros x; unfold nx, pv, dat, at_, nowhere; rewrite lookup_insert; repeat case_decide; subst;
      rewrite ?Hn; simplify_eq; done.
Qed.

Lemma heap_step_trans H1 H2 H3 fn fp gn gp :
  heap_step H1 H2 fn fp -> heap_step H2 H3 gn gp ->
  heap_step H1 H3 (fun x => match gn x with Some o => Some o | None => fn x end)
                  (fun x => match gp x with Some o => Some o | None => fp x end).
Proof.
  intros [A1 A2 A3 A4] [B1 B2 B3 B4]. split; intros x.
  - rewrite B1, A1. by destruct (gn x).
  - rewrite B2, A2. by destruct (gp x).
  - by rewrite B3, A3.
  - by rewrite B4, A4.
Qed.

Lemma rd_node_run s p n : l_heap s !! p = Some n -> rd_node p s = Ret (n, s).
Proof. intros Hn. unfold rd_node. munfold. by rewrite Hn. Qed.

Lemma nx_lookup H p q : nx H p = Some q -> exists n, H !! p = Some n /\ n_next n = Some q.
Proof. unfold nx. destruct (H !! p); simpl; [eauto|done]. Qed.
Lemma pv_lookup H p q : pv H q = Some p -> exists n, H !! q = Some n /\ n_prev n = Some p.
Proof. unfold pv. destruct (H !! q); simpl; [eauto|done]. Qed.

Lemma list_add_run s n p q :
  link (l_heap s) p q -> n <> p -> n <> q -> is_Some (l_heap s !! n) ->
  exists H', list_add n p q s = Ret (tt, set_size (u64 (l_size s + 1)) (set_heap H' s)) /\
    heap_step (l_heap s) H'
      (fun x => if decide (x = p) then Some (Some n) else if decide (x = n) then Some (Some q) else None)
      (fun x => if decide (x = n) then Some (Some p) else if decide (x = q) then Some (Some n) else None).
Proof.
  intros [Hnx Hpv] Hnp Hnq Hn.
  destruct (nx_lookup _ _ _ Hnx) as (np & Hp & Hpn). destruct (pv_lookup _ _ _ Hpv) as (nq & Hq & Hqp).
  destruct (wr_prev_run s q (Some n)) as (H1 & Hr1 & S1); [eauto|].
  destruct (wr_next_run (set_heap H1 s) n (Some q)) as (H2 & Hr2 & S2); [by apply S1|].
  destruct (wr_prev_run (set_heap H2 (set_heap H1 s)) n (Some p)) as (H3 & Hr3 & S3); [by apply S2, S1|].
  destruct (wr_next_run (set_heap H3 (set_heap H2 (set_heap H1 s))) p (Some n)) as (H4 & Hr4 & S4).
  { apply S3, S2, S1. eauto. }
  exists H4. split.
  - assert (Hv : is_list_add_valid n p q s = Ret (true, s)).
    { unfold is_list_add_valid. mstep (rd_node_run _ _ _ Hq). mstep (rd_node_run _ _ _ Hp).
      unfold mret, M_ret. rewrite Hqp, Hpn. rewrite !bool_decide_true by done.
      by rewrite (proj2 (Z.eqb_neq n p)), (proj2 (Z.eqb_neq n q)) by done. }
    unfold list_add. mstep Hv. cbn [negb]. mstep Hr1. mstep Hr2. mstep Hr3. mstep Hr4. done.
  - pose proof (heap_step_trans _ _ _ _ _ _ _ (heap_step_trans _ _ _ _ _ _ _ (heap_step_trans _ _ _ _ _ _ _ S1 S2) S3) S4) as [A B C D].
    simpl in *. split; [| |done|done]; intros x; [rewrite A|rewrite B]; unfold at_, nowhere;
      repeat case_decide; subst; try done.
Qed.

Lemma list_del_entry_run s p e q :
  link (l_heap s) p e -> link (l_heap s) e q -> e <> p -> e <> q ->
  exists H', list_del_entry e s = Ret (tt, set_size (u64 (l_size s - 1)) (set_heap (delete e H') s)) /\
    heap_step (l_heap s) H'
      (fun x => if decide (x = e) then Some None else if decide (x = p) then Some (Some q) else None)
      (fun x => if decide (x = e) then Some None else if decide (x = q) then Some (Some p) else None).
Proof.
  intros [Hnx Hpv] [Hnx' Hpv'] Hep Heq.
  destruct (nx_lookup _ _ _ Hnx) as (np & Hp & Hpn). destruct (nx_lookup _ _ _ Hnx') as (ne & He & Hen).
  destruct (pv_lookup _ _ _ Hpv) as (ne' & He' & Hep'). assert (ne' = ne) as -> by congruence.
  destruct (pv_lookup _ _ _ Hpv') as (nq & Hq & Hqe).
  destruct (wr_prev_run s q (Some p)) as (H1 & Hr1 & S1); [eauto|].
  destruct (wr_next_run (set_heap H1 s) p (Some q)) as (H2 & Hr2 & S2); [apply S1; eauto|].
  destruct (wr_prev_run (set_heap H2 (set_heap H1 s)) e None) as (H3 & Hr3 & S3); [apply S2, S1; eauto|].
  destruct (wr_next_run (set_heap H3 (set_heap H2 (set_heap H1 s))) e None) as (H4 & Hr4 & S4); [apply S3, S2, S1; eauto|].
  exists H4. split.
  - assert (Hv : is_list_del_entry_valid e s = Ret (true, s)).
    { unfold is_list_del_entry_valid, ptr. mrun (rd_node_run _ _ _ He). rewrite Hep'. msimpl.
      mrun (rd_node_run _ _ _ Hp). rewrite Hpn, bool_decide_true by done. rewrite Hen. msimpl.
      mrun (rd_node_run _ _ _ Hq). by rewrite Hqe, bool_decide_true by done. }
    unfold list_del_entry, ptr. mrun Hv. cbn [negb]. mrun (rd_node_run _ _ _ He). rewrite Hep', Hen. msimpl.
    assert (Hd : list_del p q s = Ret (tt, set_heap H2 (set_heap H1 s))) by (unfold list_del; by mrun Hr1).
    mrun Hd. mrun Hr3. mrun Hr4.
    destruct (proj2 (hs_dom _ _ _ _ S4 e)) as [n4 Hn4]; [apply S3, S2, S1; eauto|].
    set (s4 := set_heap H4 (set_heap H3 (set_heap H2 (set_heap H1 s)))) in *.
    assert (Hdel : delete_node e s4 = Ret (tt, set_heap (delete e H4) s)).
    { unfold delete_node. by mrun (rd_node_run s4 e n4 Hn4). }
    by mrun Hdel.
  - pose proof (heap_step_trans _ _ _ _ _ _ _ (heap_step_trans _ _ _ _ _ _ _ (heap_step_trans _ _ _ _ _ _ _ S1 S2) S3) S4) as [A B C D].
    simpl in *. split; [| |done|done]; intros x; [rewrite A|rewrite B]; unfold at_, nowhere;
      repeat case_decide; subst; try done.
Qed.

Lemma nx_delete H e x : nx (delete e H) x = if decide (x = e) then None else nx H x.
Proof. unfold nx. rewrite lookup_delete. repeat case_decide; congruence || done. Qed.
Lemma pv_delete H e x : pv (delete e H) x = if decide (x = e) then None else pv H x.
Proof. unfold pv. rewrite lookup_delete. repeat case_decide; congruence || done. Qed.
Lemma dat_delete H e x : dat (delete e H) x = if decide (x = e) then None else dat H x.
Proof. unfold dat. rewrite lookup_delete. repeat case_decide; congruence || done. Qed.

Lemma Forall2_impl' {A B} (P Q : A -> B -> Prop) (l : list A) (k : list B) :
  Forall2 P l k -> (forall x y, x ∈ l -> y ∈ k -> P x y -> Q x y) -> Forall2 Q l k.
Proof.
  induction 1 as [|x y l k HP _ IH]; intros HQ; constructor; [apply HQ; [left|left|done]|].
  apply IH. intros. apply HQ; [by right|by right|done].
Qed.

(** ** Representation *)

(** The list object holds [xs], at the nodes [ns]. *)
Record list_at (s : ListState T) (ns : list Z) (xs : list T) : Prop := {
  la_nodup : NoDup (l_head s :: ns);
  la_chain : chain (l_heap s) (cycle (l_head s) ns);
  la_data : Forall2 (fun n x => dat (l_heap s) n = Some x) ns xs;
  la_size : l_size s = Z.of_nat (length xs);
  la_fresh : forall x, is_Some (l_heap s !! x) -> x < l_fresh s
}.

Definition list_rep (s : ListState T) (xs : list T) : Prop := exists ns, list_at s ns xs.

Lemma cycle_mapped s ns xs x : list_at s ns xs -> x ∈ cycle (l_head s) ns -> is_Some (l_heap s !! x).
Proof.
  intros HL Hx. pose proof (la_chain _ _ _ HL) as Hc.
  apply list_elem_of_split in Hx as (l1 & l2 & He). rewrite He in Hc.
  apply chain_split in Hc as [Hc1 Hc2]. destruct l2 as [|y l2].
  - destruct (decide (l1 = [])) as [->|Hne]; [unfold cycle in He; by destruct ns|].
    destruct (exists_last Hne) as (l1' & z & ->). rewrite <- app_assoc in Hc1. simpl in Hc1.
    apply chain_split in Hc1 as [_ [[_ Hl] _]]. apply pv_lookup in Hl as (n & -> & _). eauto.
  - destruct Hc2 as [[Hl _] _]. apply nx_lookup in Hl as (n & -> & _). eauto.
Qed.

Lemma list_at_new s ns xs v :
  list_at s ns xs ->
  exists s1, new_node v s = Ret (l_fresh s, s1) /\ list_at s1 ns xs /\ l_head s1 = l_head s /\
    l_size s1 = l_size s /\ dat (l_heap s1) (l_fresh s) = Some v /\ is_Some (l_heap s1 !! l_fresh s) /\
    l_fresh s ∉ cycle (l_head s) ns /\ l_fresh s < l_fresh s1.
Proof.
  intros HL. pose proof (cycle_mapped s ns xs) as Hm.
  assert (Hni : l_fresh s ∉ cycle (l_head s) ns).
  { intros Hin. pose proof (la_fresh _ _ _ HL _ (Hm _ HL Hin)). lia. }
  assert (Hne : forall x, x ∈ cycle (l_head s) ns -> x <> l_fresh s) by (intros x Hx ->; done).
  destruct HL as [Hnd Hc Hd Hsz Hf].
  eexists. split; [reflexivity|]. split_and!; simpl; [|done|done|by unfold dat; rewrite lookup_insert_eq|by rewrite lookup_insert_eq; eauto|done|lia].
  split; simpl.
  - done.
  - revert Hc. apply chain_frame; intros l1 x l2 He _; unfold nx, pv;
      rewrite lookup_insert_ne; try done; apply not_eq_sym, Hne; rewrite He; set_solver.
  - eapply Forall2_impl'; [exact Hd|].
    intros n x Hn _ Hx. unfold dat. rewrite lookup_insert_ne; [done|]. apply not_eq_sym, Hne.
    unfold cycle. set_solver.
  - done.
  - intros x. rewrite lookup_insert. case_decide; [lia|]. intros Hx. specialize (Hf x Hx). lia.
Qed.

(** Inserting a new node between two neighbours. *)
Lemma list_at_add s ns1 ns2 xs1 xs2 n v l1 p q l2 :
  list_at s (ns1 ++ ns2) (xs1 ++ xs2) -> length ns1 = length xs1 ->
  l_head s :: ns1 = l1 ++ [p] -> ns2 ++ [l_head s] = q :: l2 ->
  n ∉ cycle (l_head s) (ns1 ++ ns2) -> is_Some (l_heap s !! n) -> dat (l_heap s) n = Some v ->
  Z.of_nat (length (xs1 ++ xs2)) < 2 ^ 64 - 1 ->
  exists s', list_add n p q s = Ret (tt, s') /\ list_at s' (ns1 ++ n :: ns2) (xs1 ++ v :: xs2).
Proof.
  intros HL Hlen Hp Hq Hn Hmn Hdn Hsz.
  assert (Hcyc : cycle (l_head s) (ns1 ++ ns2) = l1 ++ p :: [] ++ q :: l2).
  { unfold cycle. rewrite <- app_assoc, Hq. change (l_head s :: ns1 ++ q :: l2) with ((l_head s :: ns1) ++ q :: l2).
    by rewrite Hp, <- app_assoc. }
  assert (Hcyc' : cycle (l_head s) (ns1 ++ n :: ns2) = l1 ++ p :: n :: q :: l2).
  { unfold cycle. rewrite <- app_assoc. simpl. rewrite Hq.
    change (l_head s :: ns1 ++ n :: q :: l2) with ((l_head s :: ns1) ++ n :: q :: l2). by rewrite Hp, <- app_assoc. }
  pose proof (la_chain _ _ _ HL) as Hc. pose proof Hc as Hc0. rewrite Hcyc in Hc0. simpl in Hc0.
  apply chain_split in Hc0 as [_ [Hlink _]].
  assert (Hnp : n <> p) by (intros ->; apply Hn; rewrite Hcyc; set_solver).
  assert (Hnq : n <> q) by (intros ->; apply Hn; rewrite Hcyc; set_solver).
  destruct (list_add_run s n p q Hlink Hnp Hnq Hmn) as (H' & Hrun & Hst).
  eexists. split; [exact Hrun|].
  assert (Hncyc : forall x, x ∈ cycle (l_head s) (ns1 ++ ns2) -> x <> n) by (intros x Hx ->; done).
  destruct (chain_relink (l_heap s) H' (l_head s) (ns1 ++ ns2) l1 p [] q l2 (la_nodup _ _ _ HL) Hcyc Hc) as [Ha Hb].
  { intros x Hx Hxp _. rewrite (hs_nx _ _ _ _ Hst), !decide_False; [done| |done]. by apply Hncyc. }
  { intros x Hx Hxq _. rewrite (hs_pv _ _ _ _ Hst), !decide_False; [done|done|]. by apply Hncyc. }
  { intros x Hx. by apply elem_of_nil in Hx. }
  assert (Hd1 : Forall2 (fun n x => dat H' n = Some x) (ns1 ++ ns2) (xs1 ++ xs2)).
  { eapply Forall2_impl'; [apply (la_data _ _ _ HL)|]. intros y x _ _. by rewrite (hs_dat _ _ _ _ Hst). }
  split; simpl.
  - pose proof (la_nodup _ _ _ HL) as Hnd. rewrite list.NoDup_cons, list.NoDup_app, ?list.NoDup_cons in *.
    unfold cycle in Hn. set_solver.
  - rewrite Hcyc'. apply chain_split. split; [done|]. split; [|split; [|done]]; split;
      rewrite ?(hs_nx _ _ _ _ Hst), ?(hs_pv _ _ _ _ Hst).
    + by rewrite decide_True.
    + by rewrite decide_True.
    + by rewrite decide_False, decide_True.
    + by rewrite decide_False, decide_True.
  - apply list.Forall2_app_inv in Hd1 as [Hd1 Hd2]; [|done]. apply Forall2_app; [done|].
    constructor; [by rewrite (hs_dat _ _ _ _ Hst)|done].
  - rewrite (la_size _ _ _ HL). rewrite !length_app in *. simpl. rewrite u64_id by lia. lia.
  - intros x. rewrite (hs_dom _ _ _ _ Hst). apply (la_fresh _ _ _ HL).
Qed.

(** Removing a node. *)
Lemma list_at_del s ns1 e ns2 xs1 v xs2 :
  list_at s (ns1 ++ e :: ns2) (xs1 ++ v :: xs2) -> length ns1 = length xs1 ->
  Z.of_nat (length (xs1 ++ v :: xs2)) < 2 ^ 64 ->
  exists s', list_del_entry e s = Ret (tt, s') /\ list_at s' (ns1 ++ ns2) (xs1 ++ xs2) /\
    l_heap s' !! e = None /\ l_head s' = l_head s.
Proof.
  intros HL Hlen Hsz.
  destruct (exists_last (l := l_head s :: ns1)) as (l1 & p & Hp); [done|].
  destruct (ns2 ++ [l_head s]) as [|q l2] eqn:Hq; [by destruct ns2|].
  assert (Hcyc : cycle (l_head s) (ns1 ++ e :: ns2) = l1 ++ p :: [e] ++ q :: l2).
  { unfold cycle. rewrite <- app_assoc. simpl. rewrite Hq.
    change (l_head s :: ns1 ++ e :: q :: l2) with ((l_head s :: ns1) ++ e :: q :: l2). by rewrite Hp, <- app_assoc. }
  assert (Hcyc' : cycle (l_head s) (ns1 ++ ns2) = l1 ++ p :: q :: l2).
  { unfold cycle. rewrite <- app_assoc, Hq. change (l_head s :: ns1 ++ q :: l2) with ((l_head s :: ns1) ++ q :: l2).
    by rewrite Hp, <- app_assoc. }
  pose proof (la_nodup _ _ _ HL) as Hnd.
  assert (Hed : e <> l_head s /\ e ∉ ns1 /\ e ∉ ns2).
  { rewrite list.NoDup_cons, list.NoDup_app, list.NoDup_cons in Hnd. set_solver. }
  assert (Hel1 : e ∉ l1 ++ [p]) by (rewrite <- Hp; set_solver).
  assert (Hel2 : e ∉ q :: l2) by (rewrite <- Hq; set_solver).
  pose proof (la_chain _ _ _ HL) as Hc. pose proof Hc as Hc0. rewrite Hcyc in Hc0. simpl in Hc0.
  apply chain_split in Hc0 as [_ [Hlink [Hlink' _]]].
  assert (Hep : e <> p) by set_solver. assert (Heq : e <> q) by set_solver.
  destruct (list_del_entry_run s p e q Hlink Hlink' Hep Heq) as (H' & Hrun & Hst).
  eexists. split; [exact Hrun|]. split; [|by split; simpl; [apply lookup_delete_eq|]].
  destruct (chain_relink (l_heap s) (delete e H') (l_head s) (ns1 ++ e :: ns2) l1 p [e] q l2 Hnd Hcyc Hc) as [Ha Hb].
  { intros x Hx Hxp Hxe. assert (x <> e) by set_solver. rewrite nx_delete, (hs_nx _ _ _ _ Hst), !decide_False; done. }
  { intros x Hx Hxq Hxe. assert (x <> e) by set_solver. rewrite pv_delete, (hs_pv _ _ _ _ Hst), !decide_False; done. }
  { intros x ->%list_elem_of_singleton. done. }
  assert (Hd1 : Forall2 (fun n x => dat H' n = Some x) (ns1 ++ e :: ns2) (xs1 ++ v :: xs2)).
  { eapply Forall2_impl'; [apply (la_data _ _ _ HL)|]. intros y x _ _. by rewrite (hs_dat _ _ _ _ Hst). }
  split; simpl.
  - rewrite list.NoDup_cons, list.NoDup_app, list.NoDup_cons in Hnd.
    rewrite list.NoDup_cons, list.NoDup_app. set_solver.
  - rewrite Hcyc'. apply chain_split. split; [done|]. split; [|done]. split;
      rewrite ?nx_delete, ?pv_delete, ?(hs_nx _ _ _ _ Hst), ?(hs_pv _ _ _ _ Hst), decide_False, decide_False, decide_True by done; done.
  - apply list.Forall2_app_inv in Hd1 as [Hd1 Hd2]; [|done]. apply list.Forall2_cons in Hd2 as [_ Hd2].
    apply Forall2_app.
    + eapply Forall2_impl'; [exact Hd1|]. intros y x Hy _ Hd. rewrite dat_delete, decide_False; [done|]. set_solver.
    + eapply Forall2_impl'; [exact Hd2|]. intros y x Hy _ Hd. rewrite dat_delete, decide_False; [done|]. set_solver.
  - rewrite (la_size _ _ _ HL). rewrite !length_app in *. simpl in *. rewrite u64_id by lia. lia.
  - intros x. rewrite lookup_delete. case_decide; [by intros []|]. intros Hx. apply (la_fresh _ _ _ HL).
    by apply (hs_dom _ _ _ _ Hst).
Qed.
End steps.

(** ** The operations *)

Section operations.
Context {T : Type}.
Implicit Types (s : ListState T) (xs : list T).

Lemma chain_lookup (H : gmap Z (Node T)) l (j : nat) x y :
  chain H l -> l !! j = Some x -> l !! S j = Some y -> link H x y.
Proof.
  revert j. induction l as [|a l IH]; intros j Hc Hx Hy; [done|]. destruct l as [|b l]; [by destruct j|].
  destruct Hc as [Hl Hc]. destruct j as [|j]; simpl in *; [by simplify_eq|]. by apply (IH j).
Qed.

Lemma cycle_node s ns xs (j : nat) x y :
  list_at s ns xs -> cycle (l_head s) ns !! j = Some x -> cycle (l_head s) ns !! S j = Some y ->
  exists n, l_heap s !! x = Some n /\ n_next n = Some y.
Proof.
  intros HL Hx Hy. destruct (chain_lookup _ _ _ _ _ (la_chain _ _ _ HL) Hx Hy) as [Hl _]. by apply nx_lookup.
Qed.

Lemma head_next s ns xs :
  list_at s ns xs -> exists nh q l2, l_heap s !! l_head s = Some nh /\ n_next nh = Some q /\
    ns ++ [l_head s] = q :: l2.
Proof.
  intros HL. destruct (ns ++ [l_head s]) as [|q l2] eqn:Hq; [by destruct ns|].
  destruct (cycle_node s ns xs 0 (l_head s) q HL) as (nh & Hh & Hn); [done|unfold cycle; by rewrite Hq|]. eauto 7.
Qed.

Lemma head_prev s ns xs :
  list_at s ns xs -> exists nh p l1, l_heap s !! l_head s = Some nh /\ n_prev nh = Some p /\
    l_head s :: ns = l1 ++ [p].
Proof.
  intros HL. destruct (exists_last (l := l_head s :: ns)) as (l1 & p & Hp); [done|].
  pose proof (la_chain _ _ _ HL) as Hc. unfold cycle in Hc. rewrite app_comm_cons, Hp, <- app_assoc in Hc.
  apply chain_split in Hc as [_ [[_ Hl] _]]. apply pv_lookup in Hl as (nh & Hh & Hn). eauto 7.
Qed.

Lemma push_back_spec s xs v :
  list_rep s xs -> Z.of_nat (length xs) < 2 ^ 64 - 1 ->
  exists s', push_back v s = Ret (tt, s') /\ list_rep s' (xs ++ [v]).
Proof.
  intros [ns HL] Hsz. destruct (list_at_new s ns xs v HL) as (s1 & Hnew & HL1 & Hh & _ & Hd & Hm & Hni & _).
  destruct (head_prev s1 ns xs HL1) as (nh & p & l1 & Hnh & Hp & Hl1).
  destruct (list_at_add s1 ns [] xs [] (l_fresh s) v l1 p (l_head s1) []) as (s' & Hadd & HL').
  - by rewrite !app_nil_r.
  - by apply (Forall2_length (la_data _ _ _ HL)).
  - done.
  - done.
  - by rewrite app_nil_r, Hh.
  - done.
  - done.
  - by rewrite app_nil_r.
  - exists s'. split; [|by exists (ns ++ [l_fresh s])].
    unfold push_back, ptr. mrun Hnew. msimpl. mrun (rd_node_run _ _ _ Hnh). rewrite Hp. msimpl. done.
Qed.

Lemma push_front_spec s xs v :
  list_rep s xs -> Z.of_nat (length xs) < 2 ^ 64 - 1 ->
  exists s', push_front v s = Ret (tt, s') /\ list_rep s' (v :: xs).
Proof.
  intros [ns HL] Hsz. destruct (list_at_new s ns xs v HL) as (s1 & Hnew & HL1 & Hh & _ & Hd & Hm & Hni & _).
  destruct (head_next s1 ns xs HL1) as (nh & q & l2 & Hnh & Hq & Hl2).
  destruct (list_at_add s1 [] ns [] xs (l_fresh s) v [] (l_head s1) q l2) as (s' & Hadd & HL'); try done.
  - by rewrite Hh.
  - exists s'. split; [|by exists (l_fresh s :: ns)].
    unfold push_front, ptr. mrun Hnew. msimpl. mrun (rd_node_run _ _ _ Hnh). rewrite Hq. msimpl. done.
Qed.

Lemma data_split s ns xs1 v xs2 :
  list_at s ns (xs1 ++ v :: xs2) -> exists ns1 e ns2, ns = ns1 ++ e :: ns2 /\ length ns1 = length xs1 /\
    dat (l_heap s) e = Some v.
Proof.
  intros HL. pose proof (la_data _ _ _ HL) as Hd. apply Forall2_app_inv_r in Hd as (ns1 & k & Hd1 & Hd2 & ->).
  apply Forall2_cons_inv_r in Hd2 as (e & ns2 & He & Hd2 & ->).
  exists ns1, e, ns2. split_and!; [done|by eapply Forall2_length|done].
Qed.

Lemma pop_front_spec s v xs :
  list_rep s (v :: xs) -> Z.of_nat (length (v :: xs)) < 2 ^ 64 ->
  exists s', pop_front s = Ret (tt, s') /\ list_rep s' xs /\ l_head s' = l_head s.
Proof.
  intros [ns HL] Hsz. destruct (data_split s ns [] v xs HL) as (ns1 & e & ns2 & -> & Hl & _). destruct ns1; [|done].
  destruct (list_at_del s [] e ns2 [] v xs HL eq_refl Hsz) as (s' & Hdel & HL' & _ & Hh).
  destruct (head_next s _ _ HL) as (nh & q & l2 & Hnh & Hq & Hl2). simpl in Hl2. injection Hl2 as <- _.
  exists s'. split_and!; [|by exists ns2|done]. unfold pop_front, ptr. msimpl. mrun (rd_node_run _ _ _ Hnh). rewrite Hq. msimpl. done.
Qed.

Lemma pop_back_spec s xs v :
  list_rep s (xs ++ [v]) -> Z.of_nat (length (xs ++ [v])) < 2 ^ 64 ->
  exists s', pop_back s = Ret (tt, s') /\ list_rep s' xs.
Proof.
  intros [ns HL] Hsz. destruct (data_split s ns xs v [] HL) as (ns1 & e & ns2 & -> & Hl & _).
  assert (ns2 = []) as ->.
  { pose proof (Forall2_length (la_data _ _ _ HL)) as Hlen. rewrite !length_app in Hlen. simpl in Hlen.
    destruct ns2; [done|simpl in Hlen; lia]. }
  destruct (list_at_del s ns1 e [] xs v [] HL Hl Hsz) as (s' & Hdel & HL' & _).
  destruct (head_prev s _ _ HL) as (nh & p & l1 & Hnh & Hp & Hl1).
  rewrite app_comm_cons in Hl1. apply app_inj_tail in Hl1 as [_ <-].
  exists s'. split; [|exists ns1; by rewrite !app_nil_r in HL'].
  unfold pop_back, ptr. msimpl. mrun (rd_node_run _ _ _ Hnh). rewrite Hp. msimpl. done.
Qed.

Lemma walk_spec s ns xs n (j : nat) x y :
  list_at s ns xs -> cycle (l_head s) ns !! j = Some x -> cycle (l_head s) ns !! (j + n)%nat = Some y ->
  walk n x s = Ret (y, s).
Proof.
  intros HL. revert j x. induction n as [|n IH]; intros j x Hx Hy; cbn [walk].
  - rewrite Nat.add_0_r in Hy. by simplify_eq.
  - assert (Hlt : (S j < length (cycle (l_head s) ns))%nat) by (apply lookup_lt_Some in Hy; lia).
    destruct (lookup_lt_is_Some_2 _ _ Hlt) as [z Hz].
    destruct (cycle_node s ns xs j x z HL Hx Hz) as (nd & Hnd & Hnx).
    mrun (rd_node_run _ _ _ Hnd). rewrite Hnx. unfold ptr. msimpl. apply (IH (S j) z Hz).
    by replace (S j + n)%nat with (j + S n)%nat by lia.
Qed.

Lemma erase_spec s xs1 v xs2 :
  list_rep s (xs1 ++ v :: xs2) -> Z.of_nat (length (xs1 ++ v :: xs2)) < 2 ^ 64 -> Z.of_nat (length xs1) <= INT_MAX ->
  exists s', erase (Z.of_nat (length xs1)) s = Ret (tt, s') /\ list_rep s' (xs1 ++ xs2).
Proof.
  intros [ns HL] Hsz Hint. destruct (data_split s ns xs1 v xs2 HL) as (ns1 & e & ns2 & -> & Hl & _).
  destruct (list_at_del s ns1 e ns2 xs1 v xs2 HL Hl Hsz) as (s' & Hdel & HL' & _).
  destruct (head_next s _ _ HL) as (nh & q & l2 & Hnh & Hq & Hl2).
  exists s'. split; [|by exists (ns1 ++ ns2)].
  unfold erase, ptr. rewrite s32_id by (unfold INT_MAX in *; lia). msimpl. mrun (rd_node_run _ _ _ Hnh). rewrite Hq. msimpl.
  rewrite (proj2 (Z.ltb_ge _ 0)) by lia.
  assert (Hw : walk (Z.to_nat (Z.of_nat (length xs1))) q s = Ret (e, s)).
  { apply (walk_spec s _ _ _ 1 q e HL).
    - unfold cycle. simpl. by rewrite Hl2.
    - unfold cycle. rewrite Nat2Z.id, <- Hl. simpl. rewrite <- app_assoc, lookup_app_r by lia.
      by rewrite Nat.sub_diag. }
  by mrun Hw.
Qed.

(** The heap holds at least the nodes of the list and its sentinel. *)
Lemma heap_size s ns xs : list_at s ns xs -> (length xs < size (l_heap s))%nat.
Proof.
  intros HL. rewrite <- (Forall2_length (la_data _ _ _ HL)), <- size_dom.
  assert (Hsz : size (list_to_set (l_head s :: ns) : gset Z) = S (length ns)).
  { rewrite size_list_to_set by apply HL. done. }
  enough ((S (length ns) <= size (dom (l_heap s)))%nat) by lia. rewrite <- Hsz. apply subseteq_size.
  intros x. rewrite elem_of_list_to_set. intros Hx. apply elem_of_dom. apply (cycle_mapped s ns xs x HL).
  unfold cycle. set_solver.
Qed.

Lemma cycle_head_unique s ns xs (j : nat) x :
  list_at s ns xs -> cycle (l_head s) ns !! S j = Some x -> (x =? l_head s) = bool_decide (j = length ns).
Proof.
  intros HL Hx. pose proof (la_nodup _ _ _ HL) as [Hni _]%list.NoDup_cons.
  unfold cycle in Hx. simpl in Hx. apply lookup_app_Some in Hx as [Hx|[Hge Hx]].
  - pose proof (lookup_lt_Some _ _ _ Hx). rewrite bool_decide_false by lia. apply Z.eqb_neq. intros ->.
    apply Hni. by apply list_elem_of_lookup_2 in Hx.
  - apply list_lookup_singleton_Some in Hx as [Hj <-]. rewrite bool_decide_true by lia. by rewrite Z.eqb_refl.
Qed.

(** A node in the middle of the list, with its datum and its successor. *)
Lemma cycle_datum s ns xs (j : nat) v :
  list_at s ns xs -> xs !! j = Some v ->
  exists x y nd, cycle (l_head s) ns !! S j = Some x /\ cycle (l_head s) ns !! S (S j) = Some y /\
    l_heap s !! x = Some nd /\ n_data nd = Some v /\ n_next nd = Some y /\ (x =? l_head s) = false.
Proof.
  intros HL Hv. pose proof (la_data _ _ _ HL) as Hd. pose proof (Forall2_length Hd) as Hlen.
  destruct (Forall2_lookup_r _ _ _ _ _ Hd Hv) as (x & Hx & Hdx).
  pose proof (lookup_lt_Some _ _ _ Hx) as Hj.
  assert (Hcx : cycle (l_head s) ns !! S j = Some x) by (unfold cycle; simpl; by rewrite lookup_app_l).
  destruct (lookup_lt_is_Some_2 (cycle (l_head s) ns) (S (S j))) as [y Hy].
  { unfold cycle. simpl. rewrite length_app. simpl. lia. }
  destruct (cycle_node s ns xs (S j) x y HL Hcx Hy) as (nd & Hnd & Hnx).
  exists x, y, nd. split_and!; try done.
  - unfold dat in Hdx. rewrite Hnd in Hdx. done.
  - rewrite (cycle_head_unique s ns xs j x HL Hcx). apply bool_decide_eq_false. lia.
Qed.

(** The first element that satisfies the predicate is removed. *)
Fixpoint remove_first (p : T -> bool) (l : list T) : list T :=
  match l with [] => [] | x :: l => if p x then l else x :: remove_first p l end.

Lemma remove_first_none p l1 l2 : Forall (fun x => p x = false) l1 -> remove_first p (l1 ++ l2) = l1 ++ remove_first p l2.
Proof. induction 1 as [|x l1 Hx _ IH]; simpl; [done|]. by rewrite Hx, IH. Qed.

Lemma remove_if_loop_spec fuel p s ns xs1 xs2 x :
  list_at s ns (xs1 ++ xs2) -> cycle (l_head s) ns !! S (length xs1) = Some x ->
  Forall (fun y => p y = false) xs1 -> (length xs2 < fuel)%nat -> Z.of_nat (length (xs1 ++ xs2)) < 2 ^ 64 ->
  exists s', remove_if_loop fuel p false x s = Ret (tt, s') /\ list_rep s' (remove_first p (xs1 ++ xs2)).
Proof.
  revert xs1 xs2 x. induction fuel as [|fuel IH]; intros xs1 xs2 x HL Hx Hxs Hf Hsz; [lia|].
  cbn [remove_if_loop]. msimpl. destruct xs2 as [|v xs2].
  - rewrite app_nil_r in *. rewrite (cycle_head_unique s ns xs1 _ x HL Hx).
    rewrite bool_decide_true by (symmetry; by apply (Forall2_length (la_data _ _ _ HL))).
    exists s. split; [done|]. exists ns.
    assert (Hr : remove_first p (xs1 ++ []) = xs1) by (rewrite remove_first_none by done; apply app_nil_r).
    rewrite app_nil_r in Hr. by rewrite Hr.
  - destruct (cycle_datum s ns (xs1 ++ v :: xs2) (length xs1) v HL) as (x' & y & nd & Hx' & Hy & Hnd & Hdt & Hnx & Hh).
    { rewrite lookup_app_r by lia. by rewrite Nat.sub_diag. }
    rewrite Hx in Hx'. injection Hx' as <-. rewrite Hh. mrun (rd_node_run _ _ _ Hnd). rewrite Hdt. msimpl.
    rewrite remove_first_none by done. cbn [remove_first]. destruct (p v) eqn:Hpv.
    + destruct (data_split s ns xs1 v xs2 HL) as (ns1 & e & ns2 & -> & Hl & _).
      destruct (list_at_del s ns1 e ns2 xs1 v xs2 HL Hl Hsz) as (s' & Hdel & HL' & _).
      assert (e = x) as ->.
      { unfold cycle in Hx. simpl in Hx. rewrite <- Hl, <- app_assoc, lookup_app_r, Nat.sub_diag in Hx by lia.
        by injection Hx. }
      mrun Hdel. cbn [negb]. exists s'. split; [done|]. by exists (ns1 ++ ns2).
    + rewrite Hnx. unfold ptr. msimpl.
      destruct (IH (xs1 ++ [v]) xs2 y) as (s' & Hrun & Hrep).
      * by rewrite <- app_assoc.
      * rewrite length_app, Nat.add_1_r. done.
      * apply list.Forall_app. split; [done|by constructor].
      * simpl in Hf. lia.
      * by rewrite <- app_assoc.
      * exists s'. split; [done|]. rewrite <- app_assoc, remove_first_none in Hrep by done. simpl in Hrep.
        by rewrite Hpv in Hrep.
Qed.

Lemma remove_if_spec p s xs :
  list_rep s xs -> Z.of_nat (length xs) < 2 ^ 64 ->
  exists s', remove_if p false s = Ret (tt, s') /\ list_rep s' (remove_first p xs).
Proof.
  intros [ns HL] Hsz. destruct (head_next s _ _ HL) as (nh & q & l2 & Hnh & Hq & Hl2).
  pose proof (heap_size s ns xs HL) as Hhs.
  destruct (remove_if_loop_spec (S (size (l_heap s))) p s ns [] xs q) as (s' & Hrun & Hrep);
    [done|unfold cycle; simpl; by rewrite Hl2|constructor|lia|done|].
  exists s'. split; [|done]. unfold remove_if, ptr. msimpl. mrun (rd_node_run _ _ _ Hnh). rewrite Hq. msimpl. done.
Qed.

(** With [check_all], the loop reads [next] of the node it has just deleted. *)
Lemma remove_all_faults fuel p s ns xs1 v xs2 x :
  list_at s ns (xs1 ++ v :: xs2) -> cycle (l_head s) ns !! S (length xs1) = Some x -> p v = true ->
  Z.of_nat (length (xs1 ++ v :: xs2)) < 2 ^ 64 ->
  remove_if_loop (S fuel) p true x s = Fault.
Proof.
  intros HL Hx Hpv Hsz. cbn [remove_if_loop]. msimpl.
  destruct (cycle_datum s ns (xs1 ++ v :: xs2) (length xs1) v HL) as (x' & y & nd & Hx' & Hy & Hnd & Hdt & Hnx & Hh).
  { rewrite lookup_app_r by lia. by rewrite Nat.sub_diag. }
  rewrite Hx in Hx'. injection Hx' as <-. rewrite Hh. mrun (rd_node_run _ _ _ Hnd). rewrite Hdt. msimpl. rewrite Hpv.
  destruct (data_split s ns xs1 v xs2 HL) as (ns1 & e & ns2 & -> & Hl & _).
  destruct (list_at_del s ns1 e ns2 xs1 v xs2 HL Hl Hsz) as (s' & Hdel & HL' & Hnone & _).
  assert (e = x) as ->.
  { unfold cycle in Hx. simpl in Hx. rewrite <- Hl, <- app_assoc, lookup_app_r, Nat.sub_diag in Hx by lia.
    by injection Hx. }
  mrun Hdel. cbn [negb]. unfold mbind, M_bind, rd_node. munfold. by rewrite Hnone.
Qed.

Lemma iterate_loop_spec fuel s ns xs1 xs2 x :
  list_at s ns (xs1 ++ xs2) -> cycle (l_head s) ns !! S (length xs1) = Some x -> (length xs2 < fuel)%nat ->
  iterate_loop fuel x s = Ret (xs2, s).
Proof.
  revert xs1 xs2 x. induction fuel as [|fuel IH]; intros xs1 xs2 x HL Hx Hf; [lia|].
  cbn [iterate_loop]. msimpl. destruct xs2 as [|v xs2].
  - rewrite app_nil_r in *. rewrite (cycle_head_unique s ns xs1 _ x HL Hx).
    by rewrite bool_decide_true by (symmetry; by apply (Forall2_length (la_data _ _ _ HL))).
  - destruct (cycle_datum s ns (xs1 ++ v :: xs2) (length xs1) v HL) as (x' & y & nd & Hx' & Hy & Hnd & Hdt & Hnx & Hh).
    { rewrite lookup_app_r by lia. by rewrite Nat.sub_diag. }
    rewrite Hx in Hx'. injection Hx' as <-. rewrite Hh. mrun (rd_node_run _ _ _ Hnd). rewrite Hdt. msimpl.
    rewrite Hnx. unfold ptr. msimpl. erewrite bind_run; [done|]. apply (IH (xs1 ++ [v])).
    + by rewrite <- app_assoc.
    + by rewrite length_app, Nat.add_1_r.
    + simpl in Hf. lia.
Qed.

Lemma iterate_spec s xs : list_rep s xs -> iterate s = Ret (xs, s).
Proof.
  intros [ns HL]. destruct (head_next s _ _ HL) as (nh & q & l2 & Hnh & Hq & Hl2).
  unfold iterate, ptr. msimpl. mrun (rd_node_run _ _ _ Hnh). rewrite Hq. msimpl.
  pose proof (heap_size s ns xs HL). apply (iterate_loop_spec _ s ns []); [done|unfold cycle; simpl; by rewrite Hl2|lia].
Qed.

Lemma empty_spec s xs : list_rep s xs -> empty s = Ret (bool_decide (xs = []), s).
Proof.
  intros [ns HL]. destruct (head_next s _ _ HL) as (nh & q & l2 & Hnh & Hq & Hl2).
  unfold empty. msimpl. mrun (rd_node_run _ _ _ Hnh). rewrite Hq. unfold mret, M_ret. do 2 f_equal.
  apply bool_decide_ext. pose proof (la_data _ _ _ HL) as Hd. pose proof (la_nodup _ _ _ HL) as [Hni _]%list.NoDup_cons.
  destruct Hd as [|e v ns' xs' He Hd]; simpl in Hl2; injection Hl2 as <- _; [done|].
  split; [|done]. intros [= ->]. set_solver.
Qed.

Lemma clear_loop_spec fuel s xs :
  list_rep s xs -> Z.of_nat (length xs) < 2 ^ 64 -> (length xs < fuel)%nat ->
  exists s', clear_loop fuel s = Ret (tt, s') /\ list_rep s' [].
Proof.
  revert s xs. induction fuel as [|fuel IH]; intros s xs HL Hsz Hf; [lia|].
  cbn [clear_loop]. mrun (empty_spec s xs HL). destruct xs as [|v xs].
  - rewrite bool_decide_true by done. by exists s.
  - rewrite bool_decide_false by done. cbn [negb].
    destruct (pop_front_spec s v xs HL Hsz) as (s1 & Hpop & HL1 & _). mrun Hpop.
    apply (IH s1 xs HL1); simpl in *; lia.
Qed.

Lemma clear_spec s xs :
  list_rep s xs -> Z.of_nat (length xs) < 2 ^ 64 -> exists s', clear s = Ret (tt, s') /\ list_rep s' [].
Proof.
  intros HL Hsz. unfold clear. msimpl. apply (clear_loop_spec _ s xs HL Hsz).
  destruct HL as [ns HL]. pose proof (heap_size s ns xs HL). lia.
Qed.

Lemma new_list_rep : list_rep (new_list (T := T)) [].
Proof.
  exists []. split; simpl; [apply NoDup_singleton|by repeat split|constructor|done|].
  intros x [n [<- _]%lookup_singleton_Some]. lia.
Qed.
End operations.

(** ** Theorems *)

Section contract.
Context {T : Type}.

Inductive list_op :=
| PushBack (v : T) | PushFront (v : T) | PopBack | PopFront | Erase (i : nat)
| RemoveIf (p : T -> bool) | Clear.

Definition list_run (op : list_op) : M (ListState T) unit :=
  match op with
  | PushBack v => push_back v
  | PushFront v => push_front v
  | PopBack => pop_back
  | PopFront => pop_front
  | Erase i => erase (Z.of_nat i)
  | RemoveIf p => remove_if p false
  | Clear => clear
  end.

(** The operations on mathematical lists; popping an empty list, and erasing
    beyond the end or at an index that is no [int], are outside the contract. *)
Definition list_abs (op : list_op) (xs : list T) : option (list T) :=
  match op with
  | PushBack v => Some (xs ++ [v])
  | PushFront v => Some (v :: xs)
  | PopBack => match xs with [] => None | _ => Some (take (length xs - 1) xs) end
  | PopFront => match xs with [] => None | _ :: xs => Some xs end
  | Erase i => if decide ((i < length xs)%nat /\ Z.of_nat i <= INT_MAX) then Some (take i xs ++ drop (S i) xs) else None
  | RemoveIf p => Some (remove_first p xs)
  | Clear => Some []
  end.

(** C33. Every list operation within its contract returns, implements the
    operation on mathematical lists, keeps both directions of the links and the
    size consistent, and iterating afterwards visits exactly the new elements.
    (The index of an [erase] is an [int].) *)
Theorem list_refines (s : ListState T) xs op xs' :
  list_rep s xs -> Z.of_nat (length xs) < 2 ^ 64 - 1 -> list_abs op xs = Some xs' ->
  exists s', list_run op s = Ret (tt, s') /\ list_rep s' xs' /\
    l_size s' = Z.of_nat (length xs') /\ iterate s' = Ret (xs', s').
Proof.
  intros HL Hsz Habs.
  assert (Hgoal : exists s', list_run op s = Ret (tt, s') /\ list_rep s' xs').
  { destruct op; simpl in *; simplify_eq.
    - by apply push_back_spec.
    - by apply push_front_spec.
    - destruct xs as [|x xs]; [done|]. destruct (exists_last (l := x :: xs)) as (l & v & He); [done|].
      rewrite He in *. simplify_eq. rewrite length_app, Nat.add_sub, take_app_length.
      apply (pop_back_spec s l v HL). lia.
    - destruct xs as [|x xs]; [done|]. simplify_eq. destruct (pop_front_spec s x xs' HL) as (s' & ? & ? & _); [lia|eauto].
    - case_decide as Hi; [|done]. destruct Hi as [Hi Hint]. simplify_eq.
      destruct (lookup_lt_is_Some_2 xs i Hi) as [v Hv]. pose proof (take_drop_middle xs i v Hv) as Hmid.
      destruct (erase_spec s (take i xs) v (drop (S i) xs)) as (s' & Hrun & HL'); [by rewrite Hmid|rewrite Hmid; lia|rewrite length_take_le by lia; lia|].
      rewrite length_take_le in Hrun by lia. eauto.
    - apply remove_if_spec; [done|lia].
    - apply (clear_spec s xs HL). lia. }
  destruct Hgoal as (s' & Hrun & HL'). exists s'. split_and!; [done|done| |by apply iterate_spec].
  destruct HL' as [ns HL']. apply (la_size _ _ _ HL').
Qed.

(** [remove_if] with [check_all] set reads the [next] pointer of the node it
    has just deleted: it faults as soon as the first element matches. *)
Theorem remove_if_check_all_faults (s : ListState T) p v xs :
  list_rep s (v :: xs) -> Z.of_nat (length (v :: xs)) < 2 ^ 64 -> p v = true -> remove_if p true s = Fault.
Proof.
  intros [ns HL] Hsz Hp. destruct (head_next s _ _ HL) as (nh & q & l2 & Hnh & Hq & Hl2).
  unfold remove_if, ptr. msimpl. mrun (rd_node_run _ _ _ Hnh). rewrite Hq. msimpl.
  apply (remove_all_faults _ p s ns [] v xs); [done|unfold cycle; simpl; by rewrite Hl2|done|done].
Qed.
End contract.

Lemma list_refines_witness :
  exists s', list_run (PushFront 7) (new_list (T := Z)) = Ret (tt, s') /\ list_rep s' [7] /\
    l_size s' = 1 /\ iterate s' = Ret ([7], s').
Proof.
  apply (list_refines new_list [] (PushFront 7) [7]); [apply new_list_rep|simpl; lia|reflexivity].
Defined.

(** A list that holds 7. *)
Definition demo_list : ListState Z :=
  match push_back 7 new_list with Ret (_, s) => s | _ => new_list end.

Lemma remove_if_check_all_faults_witness : remove_if (fun v => v =? 7) true demo_list = Fault.
Proof.
  apply (remove_if_check_all_faults demo_list (fun v => v =? 7) 7 []); [|simpl; lia|reflexivity].
  exists [1]. split; simpl.
  - apply (bool_decide_unpack _). vm_compute. exact I.
  - repeat split; vm_compute; reflexivity.
  - repeat constructor.
  - reflexivity.
  - intros x. change (l_heap demo_list) with (<[0 := mkNode (Some 1) (Some 1) None]> (<[1 := mkNode (Some 0) (Some 0) (Some 7)]> (∅ : gmap Z (Node Z)))).
    change (l_fresh demo_list) with 2.
    rewrite !lookup_insert, lookup_empty. repeat case_decide; [lia|lia|by intros []].
Defined.
