(* ===== verification/ListObjects.v ===== *)
(** * include/lib/List.h: iterators, and list objects as a whole

    Iterators with both directions and their index, [for_each], and the
    constructor, move and destructor of list objects that share one heap.  The
    copy operations iterate over a constant list, for which [begin] and [end] are
    commented out in the source: they cannot be instantiated, and are left out. *)

From Stdlib Require Import ZArith Lia.
From stdpp Require Import base gmap list numbers.
From S2P Require Import Prelude LinkedList.

Open Scope Z_scope.

#[local] Arguments chain : simpl never.
#[local] Arguments cycle : simpl never.

(** ** Iterators *)

Record ListIterator := mkIter { it_current : Z; it_index : Z }.

Section iterators.
Context {T : Type}.
Abbreviation LM := (M (ListState T)).

(** The constructor ignores the index it is given. *)
Definition new_iterator (current index : Z) : ListIterator := mkIter current 0.
Definition it_begin : LM ListIterator := s ← get; nh ← rd_node (l_head s); q ← ptr (n_next nh); mret (new_iterator q 0).
Definition it_end : LM ListIterator := s ← get; mret (new_iterator (l_head s) (u64 (l_size s - 1))).

(** The postfix operators return the iterator after the step. *)
Definition it_inc (it : ListIterator) : LM ListIterator :=
  nd ← rd_node (it_current it); q ← ptr (n_next nd); mret (mkIter q (u64 (it_index it + 1))).
Definition it_dec (it : ListIterator) : LM ListIterator :=
  nd ← rd_node (it_current it); p ← ptr (n_prev nd); mret (mkIter p (u64 (it_index it - 1))).
Definition it_inc_postfix (it : ListIterator) : LM (ListIterator * ListIterator) := it ← it_inc it; mret (it, it).
Definition it_dec_postfix (it : ListIterator) : LM (ListIterator * ListIterator) := it ← it_dec it; mret (it, it).

(** [*it]; the sentinel's element is not one of the list. *)
Definition it_deref (it : ListIterator) : LM T := nd ← rd_node (it_current it); deref (n_data nd).
Definition it_eq (a b : ListIterator) : bool := it_current a =? it_current b.
Definition it_is_end (it : ListIterator) : LM bool := s ← get; mret (it_current it =? l_head s).

(** [for (auto &data : *this) callback(data)], with what the callback makes of
    the element. *)
Definition set_data (v : T) (n : Node T) : Node T := mkNode (n_prev n) (n_next n) (Some v).
Fixpoint list_for_each_loop (fuel : nat) (callback : T -> T) (it last : ListIterator) : LM unit :=
  match fuel with
  | O => out_of_fuel
  | S fuel =>
      if it_eq it last then mret tt
      else
        v ← it_deref it;
        wr_node (it_current it) (set_data (callback v));;
        it ← it_inc it;
        list_for_each_loop fuel callback it last
  end.
Definition list_for_each (callback : T -> T) : LM unit :=
  s ← get; it ← it_begin; last ← it_end; list_for_each_loop (S (size (l_heap s))) callback it last.

(** The destructor's loop, and then the one of [_head]. *)
Fixpoint destroy_loop (fuel : nat) (p : Z) : LM unit :=
  match fuel with
  | O => out_of_fuel
  | S fuel =>
      s ← get;
      if p =? l_head s then mret tt
      else nd ← rd_node p; next ← ptr (n_next nd); delete_node p;; destroy_loop fuel next
  end.
Definition destroy_nodes : LM unit :=
  s ← get; nh ← rd_node (l_head s); q ← ptr (n_next nh);
  destroy_loop (S (size (l_heap s))) q;;
  delete_node (l_head s).
End iterators.

(** ** Objects that share a heap *)

Record ListObj := mkObj { o_head : Z; o_size : Z }.
Record Lists (T : Type) := mkLists { ls_heap : gmap Z (Node T); ls_fresh : Z; ls_objs : gmap Z ListObj }.
Arguments mkLists {T}.
Arguments ls_heap {T}.
Arguments ls_fresh {T}.
Arguments ls_objs {T}.

Section objects.
Context {T : Type}.
Abbreviation OM := (M (Lists T)).

Definition object (s : Lists T) (o : ListObj) : ListState T := mkList (ls_heap s) (ls_fresh s) (o_head o) (o_size o).
(** A method of the object [x]. *)
Definition on_list {A} (x : Z) (m : M (ListState T) A) : OM A :=
  s ← get; o ← deref (ls_objs s !! x);
  r ← lift (m (object s o));
  let '(a, l) := r in
  put (mkLists (l_heap l) (l_fresh l) (<[x := mkObj (l_head l) (l_size l)]> (ls_objs s)));;
  mret a.
Definition rd_obj (x : Z) : OM ListObj := s ← get; deref (ls_objs s !! x).
Definition set_obj (x : Z) (o : ListObj) (s : Lists T) : Lists T := mkLists (ls_heap s) (ls_fresh s) (<[x := o]> (ls_objs s)).
Definition wr_obj (x : Z) (o : ListObj) : OM unit := modify (set_obj x o).

(** [List()]: [make_unique<Node>()] points to itself. *)
Definition list_construct (x : Z) : OM unit :=
  s ← get;
  let h := ls_fresh s in
  put (mkLists (<[h := mkNode (Some h) (Some h) None]> (ls_heap s)) (h + 1) (<[x := mkObj h 0]> (ls_objs s))).

Definition list_move_assign (x r : Z) : OM unit :=
  a ← rd_obj x; b ← rd_obj r;
  wr_obj x (mkObj (o_head b) (o_size a));; wr_obj r (mkObj (o_head a) (o_size b));;
  b ← rd_obj r; a ← rd_obj x;
  wr_obj x (mkObj (o_head a) (o_size b));;
  b ← rd_obj r;
  wr_obj r (mkObj (o_head b) 0).
Definition list_move (x r : Z) : OM unit := list_construct x;; list_move_assign x r.
Definition list_destroy (x : Z) : OM unit :=
  on_list x destroy_nodes;; modify (fun s => mkLists (ls_heap s) (ls_fresh s) (delete x (ls_objs s))).
End objects.

(** ** Positions *)

Section positions.
Context {T : Type}.
Implicit Types (s : ListState T).

(** The iterator at position [j]; the one at the end has gone through all. *)
Definition position s (ns : list Z) (j : nat) : ListIterator := mkIter (default 0 (cycle (l_head s) ns !! S j)) (Z.of_nat j).

Lemma position_node s ns xs j : list_at s ns xs -> (j <= length xs)%nat ->
  exists x nd, cycle (l_head s) ns !! S j = Some x /\ it_current (position s ns j) = x /\ l_heap s !! x = Some nd.
Proof.
  intros HL Hj. rewrite <- (Forall2_length (la_data _ _ _ HL)) in Hj.
  destruct (lookup_lt_is_Some_2 (cycle (l_head s) ns) (S j)) as [x Hx]; [unfold cycle; simpl; rewrite length_app; simpl; lia|].
  destruct (cycle_mapped s ns xs x HL) as [nd Hnd]; [by eapply list_elem_of_lookup_2|]. exists x, nd. split_and!; [done| |done]. unfold position. by rewrite Hx.
Qed.

Lemma begin_run s ns xs : list_at s ns xs -> it_begin s = Ret (position s ns 0, s).
Proof.
  intros HL. destruct (head_next s ns xs HL) as (nh & q & l2 & Hnh & Hq & Hl2). unfold it_begin, ptr. msimpl. mrun (rd_node_run _ _ _ Hnh). rewrite Hq. msimpl.
  unfold position, cycle, new_iterator. simpl. by rewrite Hl2.
Qed.

Lemma inc_run s ns xs j : list_at s ns xs -> (j < length xs)%nat -> Z.of_nat (length xs) < 2 ^ 64 -> it_inc (position s ns j) s = Ret (position s ns (S j), s).
Proof.
  intros HL Hj Hsz. destruct (lookup_lt_is_Some_2 xs j Hj) as [v Hv]. destruct (cycle_datum s ns xs j v HL Hv) as (x & y & nd & Hx & Hy & Hnd & _ & Hnx & _).
  unfold it_inc, position, ptr. rewrite Hx, Hy. cbn [it_current it_index default]. mrun (rd_node_run _ _ _ Hnd). rewrite Hnx. msimpl. rewrite u64_id by lia. unfold mret, M_ret. do 3 f_equal. lia.
Qed.

Lemma dec_run s ns xs j : list_at s ns xs -> (j < length xs)%nat -> Z.of_nat (length xs) < 2 ^ 64 -> it_dec (position s ns (S j)) s = Ret (position s ns j, s).
Proof.
  intros HL Hj Hsz. destruct (position_node s ns xs j HL ltac:(lia)) as (x & nx' & Hx & _). destruct (position_node s ns xs (S j) HL ltac:(lia)) as (y & ny & Hy & _ & Hny).
  destruct (chain_lookup _ _ _ _ _ (la_chain _ _ _ HL) Hx Hy) as [_ Hl]. unfold pv in Hl. rewrite Hny in Hl.
  unfold it_dec, position, ptr. rewrite Hx, Hy. cbn [it_current it_index default]. mrun (rd_node_run _ _ _ Hny). simpl in Hl. rewrite Hl. msimpl. rewrite u64_id by lia. unfold mret, M_ret. do 3 f_equal. lia.
Qed.

(** Iterators go through the elements in order, in both directions: stepping
    from [begin] reaches the element at each index, and the end after the last. *)
Theorem iterator_positions s xs : list_rep s xs -> Z.of_nat (length xs) < 2 ^ 64 -> exists pos : nat -> ListIterator,
  it_begin s = Ret (pos 0%nat, s) /\
  forall j, (j <= length xs)%nat -> it_index (pos j) = Z.of_nat j /\ it_is_end (pos j) s = Ret (bool_decide (j = length xs), s) /\
    (forall v, xs !! j = Some v -> it_deref (pos j) s = Ret (v, s) /\ it_inc (pos j) s = Ret (pos (S j), s) /\ it_dec (pos (S j)) s = Ret (pos j, s)).
Proof.
  intros [ns HL] Hsz. exists (position s ns). split; [by eapply begin_run|]. intros j Hj. split; [done|]. destruct (position_node s ns xs j HL Hj) as (x & nd & Hx & Hp & Hnd). split.
  - unfold it_is_end. msimpl. rewrite Hp, (cycle_head_unique s ns xs j x HL Hx). by rewrite (Forall2_length (la_data _ _ _ HL)).
  - intros v Hv. pose proof (lookup_lt_Some _ _ _ Hv) as Hlt. split_and!; [|by eapply inc_run|by eapply dec_run].
    destruct (cycle_datum s ns xs j v HL Hv) as (x' & y & nd' & Hx' & _ & Hnd' & Hd & _). rewrite Hx in Hx'. injection Hx' as <-.
    unfold it_deref. rewrite Hp. mrun (rd_node_run _ _ _ Hnd'). by rewrite Hd.
Qed.

(** ** for_each *)

(** Replacing one element. *)
Lemma list_at_update s ns xs j x v v' nd : list_at s ns xs -> ns !! j = Some x -> xs !! j = Some v -> l_heap s !! x = Some nd ->
  list_at (set_heap (<[x := set_data v' nd]> (l_heap s)) s) ns (<[j := v']> xs).
Proof.
  intros [Hnd Hc Hd Hs Hf] Hx Hv Hn. set (H' := <[x := set_data v' nd]> (l_heap s)).
  assert (Hnx : forall a, nx H' a = nx (l_heap s) a /\ pv H' a = pv (l_heap s) a /\ dat H' a = if decide (a = x) then Some v' else dat (l_heap s) a).
  { intros a. unfold nx, pv, dat, H'. rewrite lookup_insert. destruct (decide (x = a)) as [<-|]; [rewrite Hn, decide_True by done; done|by rewrite decide_False by congruence]. }
  split; simpl; [done| | | |].
  - apply (chain_frame (l_heap s)); [intros; apply Hnx|intros; apply Hnx|done].
  - apply Forall2_same_length_lookup. rewrite length_insert. split; [by eapply Forall2_length|]. intros i a w Ha Hw. rewrite (proj2 (proj2 (Hnx a))).
    destruct (decide (i = j)) as [->|Hne].
    + rewrite list_lookup_insert_eq in Hw by (by eapply lookup_lt_Some). rewrite decide_True by congruence. congruence.
    + rewrite list_lookup_insert_ne in Hw by done. rewrite decide_False; [by eapply (Forall2_lookup_lr _ _ _ _ _ _ Hd)|]. intros ->.
      apply list.NoDup_cons in Hnd as [_ Hnd]. apply Hne. by eapply NoDup_lookup.
  - by rewrite length_insert.
  - intros a. unfold H'. rewrite lookup_insert. case_decide; [subst; intros _; apply Hf; eauto|apply Hf].
Qed.

Lemma list_for_each_loop_run fuel f last s ns xs1 xs2 : list_at s ns (xs1 ++ xs2) -> (length xs2 < fuel)%nat -> Z.of_nat (length (xs1 ++ xs2)) < 2 ^ 64 -> it_current last = l_head s ->
  exists s', list_for_each_loop fuel f (position s ns (length xs1)) last s = Ret (tt, s') /\ list_at s' ns (xs1 ++ map f xs2).
Proof.
  revert s xs1 xs2. induction fuel as [|fuel IH]; intros s xs1 xs2 HL Hf Hsz Hlast; [lia|]. cbn [list_for_each_loop]. pose proof (Forall2_length (la_data _ _ _ HL)) as Hlen. rewrite length_app in Hlen.
  destruct (position_node s ns _ (length xs1) HL ltac:(rewrite length_app; lia)) as (x & nd & Hx & Hp & Hnd).
  unfold it_eq. rewrite Hp, Hlast, (cycle_head_unique s ns _ _ x HL Hx). destruct xs2 as [|v xs2].
  - rewrite bool_decide_true by (simpl in Hlen; lia). exists s. rewrite app_nil_r in *. done.
  - assert (Hv : (xs1 ++ v :: xs2) !! length xs1 = Some v) by (rewrite lookup_app_r, Nat.sub_diag by lia; done). rewrite bool_decide_false by (simpl in Hlen; lia).
    assert (Hns : ns !! length xs1 = Some x) by (unfold cycle in Hx; simpl in Hx; rewrite lookup_app_l in Hx by (simpl in Hlen; lia); done).
    assert (Hd : it_deref (position s ns (length xs1)) s = Ret (v, s)).
    { unfold it_deref. rewrite Hp. mrun (rd_node_run _ _ _ Hnd). pose proof (Forall2_lookup_lr _ _ _ _ _ _ (la_data _ _ _ HL) Hns Hv) as Hdat. unfold dat in Hdat. rewrite Hnd in Hdat. simpl in Hdat. by rewrite Hdat. }
    mrun Hd. set (s1 := set_heap (<[x := set_data (f v) nd]> (l_heap s)) s).
    assert (Hw : wr_node x (set_data (f v)) s = Ret (tt, s1)) by (unfold wr_node; by mrun (rd_node_run _ _ _ Hnd)). mrun Hw.
    pose proof (list_at_update s ns _ _ x v (f v) nd HL Hns Hv Hnd) as HL1. fold s1 in HL1. rewrite insert_app_r_alt, Nat.sub_diag in HL1 by lia. cbn [list_insert insert] in HL1.
    change (position s ns (length xs1)) with (position s1 ns (length xs1)). rewrite length_app in Hsz. simpl in Hsz.
    mrun (inc_run s1 ns _ (length xs1) HL1 ltac:(rewrite length_app; simpl; lia) ltac:(rewrite length_app; simpl; lia)).
    replace (S (length xs1)) with (length (xs1 ++ [f v])) by (rewrite length_app; simpl; lia).
    replace (xs1 ++ map f (v :: xs2)) with ((xs1 ++ [f v]) ++ map f xs2) by (by rewrite <- app_assoc).
    apply IH; [by rewrite <- app_assoc|simpl in Hf; lia|rewrite !length_app; simpl; lia|done].
Qed.

(** [for_each] applies the callback to every element, in place. *)
Theorem list_for_each_spec f s xs : list_rep s xs -> Z.of_nat (length xs) < 2 ^ 64 -> exists s', list_for_each f s = Ret (tt, s') /\ list_rep s' (map f xs).
Proof.
  intros [ns HL] Hsz. unfold list_for_each. msimpl. mrun (begin_run s ns xs HL). pose proof (heap_size s ns xs HL) as Hh.
  destruct (list_for_each_loop_run (S (size (l_heap s))) f (new_iterator (l_head s) (u64 (l_size s - 1))) s ns [] xs HL ltac:(lia) Hsz eq_refl) as (s' & Hr & HL').
  exists s'. split; [|by exists ns]. unfold it_end. by msimpl.
Qed.
End positions.

(** ** Whole lists *)

Section lifecycle.
Context {T : Type}.
Implicit Types (H : gmap Z (Node T)).

Definition without H (l : list Z) : gmap Z (Node T) := foldl (fun H x => delete x H) H l.
Lemma without_lookup H l x : without H l !! x = if decide (x ∈ l) then None else H !! x.
Proof.
  revert H. induction l as [|y l IH]; intros H; [by rewrite decide_False by set_solver|]. cbn [without foldl]. fold (without (delete y H) l). rewrite IH.
  destruct (decide (x ∈ l)); [by rewrite decide_True by set_solver|]. rewrite lookup_delete. destruct (decide (y = x)) as [->|]; [by rewrite decide_True by set_solver|by rewrite decide_False by set_solver].
Qed.

Lemma destroy_loop_run fuel (s : ListState T) p ns : (length ns < fuel)%nat -> NoDup (l_head s :: ns) -> head (ns ++ [l_head s]) = Some p ->
  (forall j x y, (ns ++ [l_head s]) !! j = Some x -> (ns ++ [l_head s]) !! S j = Some y -> nx (l_heap s) x = Some y) ->
  destroy_loop fuel p s = Ret (tt, set_heap (without (l_heap s) ns) s).
Proof.
  revert s p ns. induction fuel as [|fuel IH]; intros s p ns Hf Hnd Hp Hl; [lia|]. cbn [destroy_loop]. msimpl. destruct ns as [|x ns]; simpl in Hp; injection Hp as ->.
  - rewrite Z.eqb_refl. by destruct s.
  - apply list.NoDup_cons in Hnd as [Hh Hnd]. apply list.NoDup_cons in Hnd as [Hpn Hnd]. rewrite (proj2 (Z.eqb_neq _ _)) by set_solver.
    destruct (ns ++ [l_head s]) as [|y l] eqn:Hy; [by destruct ns|]. assert (Hnx : nx (l_heap s) p = Some y) by (apply (Hl 0%nat); cbn [app]; by rewrite Hy).
    apply nx_lookup in Hnx as (nd & Hn & Hnn). mrun (rd_node_run s p nd Hn). rewrite Hnn. unfold ptr. msimpl.
    assert (Hdel : delete_node p s = Ret (tt, set_heap (delete p (l_heap s)) s)) by (unfold delete_node; by mrun (rd_node_run s p nd Hn)). mrun Hdel.
    rewrite (IH (set_heap (delete p (l_heap s)) s) y ns); [done|simpl in Hf; lia|apply list.NoDup_cons; set_solver|simpl; by rewrite Hy|].
    intros j a b Ha Hb. cbn [l_heap l_head set_heap] in *. rewrite nx_delete, decide_False.
    + apply (Hl (S j)); done.
    + intros ->. apply list_elem_of_lookup_2 in Ha. set_solver.
Qed.

(** The destructor takes the nodes of the list out of the heap, and no others. *)
Lemma destroy_nodes_run (s : ListState T) ns xs : list_at s ns xs ->
  destroy_nodes s = Ret (tt, set_heap (without (l_heap s) (ns ++ [l_head s])) s).
Proof.
  intros HL. pose proof HL as [Hnd Hc Hd Hs Hf]. destruct (head_next s ns xs HL) as (nh & q & l2 & Hnh & Hq & Hl2). pose proof (heap_size s ns xs HL) as Hh.
  unfold destroy_nodes. msimpl. mrun (rd_node_run s _ nh Hnh). rewrite Hq. unfold ptr. msimpl.
  assert (Hloop : destroy_loop (S (size (l_heap s))) q s = Ret (tt, set_heap (without (l_heap s) ns) s)).
  { apply destroy_loop_run; [rewrite (Forall2_length Hd); lia|done|by rewrite Hl2|]. intros j x y Hx Hy. apply (chain_lookup _ _ (S j) x y Hc); done. }
  mrun Hloop. assert (Hr : rd_node (l_head s) (set_heap (without (l_heap s) ns) s) = Ret (nh, set_heap (without (l_heap s) ns) s)).
  { apply rd_node_run. cbn [l_heap set_heap]. rewrite without_lookup, decide_False; [done|]. by apply list.NoDup_cons in Hnd as [? _]. }
  unfold delete_node. mrun Hr. unfold without. by rewrite foldl_app.
Qed.

(** A list whose nodes are as before. *)
Lemma list_at_frame (s s' : ListState T) ns xs : list_at s ns xs -> l_head s' = l_head s -> l_size s' = l_size s -> (forall x, is_Some (l_heap s' !! x) -> x < l_fresh s') ->
  (forall x, x ∈ l_head s :: ns -> l_heap s' !! x = l_heap s !! x) -> list_at s' ns xs.
Proof.
  intros [Hnd Hc Hd Hs Hf] Hh Hz Hf' He. assert (Hin : forall x l1 l2, cycle (l_head s) ns = l1 ++ x :: l2 -> l_heap s' !! x = l_heap s !! x).
  { intros x l1 l2 Hx. apply He. assert (x ∈ cycle (l_head s) ns) as Hin by (rewrite Hx; set_solver). unfold cycle in Hin. set_solver. }
  split; [by rewrite Hh| | |by rewrite Hz|done].
  - rewrite Hh. apply (chain_frame (l_heap s)); [| |done]; intros l1 x l2 Hx _; [unfold nx|unfold pv]; by erewrite Hin.
  - eapply Forall2_impl'; [exact Hd|]. intros x v Hx _ Hv. unfold dat. rewrite He; [done|set_solver].
Qed.
End lifecycle.

(** ** Theorems on objects *)

Section object_theorems.
Context {T : Type}.
Implicit Types (s : Lists T).

(** The object [x] is a list of [xs], whose nodes, the sentinel first, are [ns]. *)
Definition holds s (x : Z) (ns : list Z) (xs : list T) : Prop := exists o l, ls_objs s !! x = Some o /\ ns = o_head o :: l /\ list_at (object s o) l xs.

Definition moved (x r : Z) (o o' : ListObj) s : Lists T :=
  mkLists (ls_heap s) (ls_fresh s) (<[r := mkObj (o_head o) 0]> (<[x := mkObj (o_head o') (o_size o')]> (ls_objs s))).
Lemma rd_obj_run s x o : ls_objs s !! x = Some o -> rd_obj x s = Ret (o, s).
Proof. intros H. unfold rd_obj. msimpl. by rewrite H. Qed.
Lemma move_assign_run s x r o o' : x <> r -> ls_objs s !! x = Some o -> ls_objs s !! r = Some o' -> list_move_assign x r s = Ret (tt, moved x r o o' s).
Proof.
  intros Hne Ho Ho'. unfold list_move_assign. mrun (rd_obj_run s x o Ho). mrun (rd_obj_run s r o' Ho').
  assert (Hw : forall s y q, wr_obj y q s = Ret (tt, set_obj y q s)) by done. mrun (Hw s x (mkObj (o_head o') (o_size o))). set (s0 := set_obj _ _ s).
  mrun (Hw s0 r (mkObj (o_head o) (o_size o'))). set (s1 := set_obj _ _ s0). assert (H1 : ls_objs s1 !! r = Some (mkObj (o_head o) (o_size o'))) by apply lookup_insert_eq.
  assert (H2 : ls_objs s1 !! x = Some (mkObj (o_head o') (o_size o))) by (cbn; rewrite lookup_insert_ne by done; apply lookup_insert_eq).
  mrun (rd_obj_run s1 r _ H1). mrun (rd_obj_run s1 x _ H2). cbn [o_head o_size]. mrun (Hw s1 x (mkObj (o_head o') (o_size o'))). set (s2 := set_obj _ _ s1).
  assert (H3 : ls_objs s2 !! r = Some (mkObj (o_head o) (o_size o'))) by (cbn; rewrite lookup_insert_ne by done; apply lookup_insert_eq).
  mrun (rd_obj_run s2 r _ H3). rewrite Hw. do 2 f_equal. unfold moved, s2, s1, s0, set_obj. cbn. f_equal. apply map_eq. intros y. rewrite !lookup_insert. repeat case_decide; by simplify_eq.
Qed.

(** A destroyed list gives back all its nodes, and leaves every list alone that
    has no node in common with it. *)
Theorem list_destroy_spec s x ns xs : holds s x ns xs -> exists s', list_destroy x s = Ret (tt, s') /\
  ls_objs s' = delete x (ls_objs s) /\ (forall a, ls_heap s' !! a = if decide (a ∈ ns) then None else ls_heap s !! a) /\
  forall y ms ys, y <> x -> ns ## ms -> holds s y ms ys -> holds s' y ms ys.
Proof.
  intros (o & l & Ho & -> & HL). pose proof (destroy_nodes_run _ _ _ HL) as Hd. cbn [l_heap l_head object set_heap] in Hd.
  eexists. split; [|split_and!].
  - unfold list_destroy. erewrite bind_run; [reflexivity|]. unfold on_list. msimpl. rewrite Ho. msimpl. unfold lift. rewrite Hd. reflexivity.
  - cbn. by rewrite delete_insert_eq.
  - intros a. cbn. rewrite without_lookup. f_equal. apply decide_ext. set_solver.
  - intros y ms ys Hne Hdj (o' & l' & Ho' & -> & HL'). exists o', l'. cbn. split_and!; [by rewrite delete_insert_eq, lookup_delete_ne by done|done|].
    eapply list_at_frame; [exact HL'|done|done|..]; cbn.
    + intros a. rewrite without_lookup. case_decide; [by intros []|]. apply (la_fresh _ _ _ HL').
    + intros a Ha. rewrite without_lookup, decide_False; [done|]. set_solver.
Qed.

(** A list that is moved into a new one: the new one has its nodes, the old one
    is empty. *)
Theorem list_move_spec s x r ns xs : holds s r ns xs -> x <> r -> exists s' h, list_move x r s = Ret (tt, s') /\ ls_heap s !! h = None /\
  holds s' x ns xs /\ holds s' r [h] [] /\ (forall a, a <> h -> ls_heap s' !! a = ls_heap s !! a).
Proof.
  intros (o & l & Ho & -> & HL) Hne. set (h := ls_fresh s). assert (Hfresh : ls_heap s !! h = None).
  { destruct (ls_heap s !! h) eqn:E; [|done]. assert (Hlt : h < l_fresh (object s o)) by (apply (la_fresh _ _ _ HL); cbn; rewrite E; eauto). unfold h in Hlt. simpl in Hlt. lia. }
  set (H' := <[h := mkNode (Some h) (Some h) None]> (ls_heap s)).
  assert (Hf : forall a, is_Some (H' !! a) -> a < h + 1).
  { intros a. unfold H'. rewrite lookup_insert. case_decide; [lia|]. intros Ha. pose proof (la_fresh _ _ _ HL a Ha) as Hlt. simpl in Hlt. unfold h. lia. }
  set (s1 := mkLists H' (h + 1) (<[x := mkObj h 0]> (ls_objs s))).
  assert (Hc : list_construct x s = Ret (tt, s1)) by done.
  exists (moved x r (mkObj h 0) o s1), h. split; [unfold list_move; mrun Hc; apply move_assign_run; [done|apply lookup_insert_eq|by cbn; rewrite lookup_insert_ne]|].
  split_and!; [done| | |].
  - eexists _, l. cbn. split_and!; [rewrite lookup_insert_ne, lookup_insert_eq by done; reflexivity|done|].
    eapply list_at_frame; [exact HL|done|done|exact Hf|]. intros a Ha. cbn. unfold H'. rewrite lookup_insert_ne; [done|]. intros <-.
    destruct (cycle_mapped _ _ _ h HL) as [? E]; [unfold cycle; set_solver|]. simpl in E. congruence.
  - eexists _, []. cbn. split_and!; [apply lookup_insert_eq|done|]. split; cbn; [apply NoDup_singleton| |constructor|done|exact Hf].
    unfold cycle. simpl. split; [|done]. unfold link, nx, pv, H'. rewrite lookup_insert_eq. done.
  - intros a Ha. cbn. unfold H'. by rewrite lookup_insert_ne.
Qed.

(** Assigned over a list that has elements, the moved list has them afterwards,
    with a size of 0. *)
Theorem move_over_elements s x r ns xs ms ys : holds s x ns xs -> holds s r ms ys -> x <> r -> exists s' h l,
  list_move_assign x r s = Ret (tt, s') /\ holds s' x ms ys /\ ns = h :: l /\ ls_objs s' !! r = Some (mkObj h 0) /\ ls_heap s' = ls_heap s.
Proof.
  intros (o & l & Ho & -> & HL) (o' & l' & Ho' & -> & HL') Hne.
  exists (moved x r o o' s), (o_head o), l. split; [by apply move_assign_run|].
  split_and!; [|done|apply lookup_insert_eq|done]. eexists _, l'. split_and!; [cbn; rewrite lookup_insert_ne, lookup_insert_eq by done; reflexivity|done|exact HL'].
Qed.
End object_theorems.
