(* ===== verification/RingBuffer.v ===== *)
(** * include/lib/RingBuffer.h and kernel/TaskletScheduler.h

    A fixed array used as a queue: one cell is always unused, and a push on a
    full buffer drops the oldest element.  [TaskletScheduler] keeps pending
    handlers in such a buffer; a handler is identified by a value and running
    it appends that value to a trace. *)

From Stdlib Require Import ZArith Lia.
From stdpp Require Import base list numbers.
From S2P Require Import Prelude.

Open Scope Z_scope.

Definition DEFAULT_CAPACITY : Z := 32.

Record RingBuffer (T : Type) := mkRing {
  r_data : list T; r_head : Z; r_tail : Z; r_size : Z; r_capacity : Z
}.
Arguments mkRing {T}.
Arguments r_data {T}.
Arguments r_head {T}.
Arguments r_tail {T}.
Arguments r_size {T}.
Arguments r_capacity {T}.

Section ring.
Context {T : Type}.
Implicit Types (r : RingBuffer T).

(** [make_unique<T[]>(capacity)] value-initialises the cells. *)
Definition new_ring (dflt : T) (capacity : Z) : RingBuffer T :=
  mkRing (replicate (Z.to_nat capacity) dflt) 0 0 0 capacity.

Definition full r : bool := (r_tail r + 1) mod r_capacity r =? r_head r.
Definition ring_empty r : bool := r_tail r =? r_head r.

Definition push (val : T) r : outcome (RingBuffer T) :=
  match arr_set (r_data r) (r_tail r) val with
  | None => Fault
  | Some data =>
      let head := if full r then (r_head r + 1) mod r_capacity r else r_head r in
      let tail := (r_tail r + 1) mod r_capacity r in
      let size := if r_size r <? r_capacity r then r_size r + 1 else r_size r in
      Ret (mkRing data head tail size (r_capacity r))
  end.

Definition pop r : RingBuffer T :=
  mkRing (r_data r) ((r_head r + 1) mod r_capacity r) (r_tail r)
    (if 0 <? r_size r then r_size r - 1 else r_size r) (r_capacity r).

Definition ring_clear r : RingBuffer T := mkRing (r_data r) 0 0 0 (r_capacity r).

Definition ring_at r (i : Z) : outcome T :=
  match arr_get (r_data r) i with Some v => Ret v | None => Fault end.

Definition ring_front r : outcome T := ring_at r (r_head r).
Definition ring_back r : outcome T :=
  ring_at r (if r_tail r - 1 <? 0 then r_capacity r - 1 else r_tail r - 1).
End ring.

(** ** TaskletScheduler *)

(** The queue of handlers and the handlers run so far.  A cell is empty after
    its handler has run ([reset()]). *)
Record TaskletScheduler := mkTS { ts_queue : RingBuffer (option Z); ts_ran : list Z }.

Definition new_ts : TaskletScheduler := mkTS (new_ring None DEFAULT_CAPACITY) [].

(** [for (i = 0; i < size(); i++)]: from cell [i], [n] cells; a cell without a
    handler is a null dereference. *)
Fixpoint finish_loop (n : nat) (i : Z) (ts : TaskletScheduler) : outcome TaskletScheduler :=
  match n with
  | O => Ret ts
  | S n =>
      let q := ts_queue ts in
      cell ← ring_at q i;
      match cell with
      | None => Fault
      | Some h =>
          match arr_set (r_data q) i None with
          | None => Fault
          | Some data =>
              finish_loop n (i + 1)
                (mkTS (mkRing data (r_head q) (r_tail q) (r_size q) (r_capacity q)) (ts_ran ts ++ [h]))
          end
      end
  end.

Definition finish_all (ts : TaskletScheduler) : outcome TaskletScheduler :=
  ts ← finish_loop (Z.to_nat (r_size (ts_queue ts))) 0 ts;
  Ret (mkTS (ring_clear (ts_queue ts)) (ts_ran ts)).

Definition add_tasklet (handler : Z) (ts : TaskletScheduler) : outcome TaskletScheduler :=
  ts ← (if full (ts_queue ts) then finish_all ts else Ret ts);
  q ← push (Some handler) (ts_queue ts);
  Ret (mkTS q (ts_ran ts)).

(** ** The queue *)

Lemma mod_shift_inj c h a b :
  0 < c -> 0 <= a < c -> 0 <= b < c -> (h + a) mod c = (h + b) mod c -> a = b.
Proof.
  intros Hc Ha Hb He. pose proof (Z.div_mod (h + a) c). pose proof (Z.div_mod (h + b) c).
  set (d := (h + a) / c - (h + b) / c). assert (Hd : c * d = a - b) by lia.
  assert (Hz : d = 0 \/ 1 <= d \/ d <= -1) by lia. clear -Hd Hz Hc Ha Hb.
  destruct Hz as [Hz|[Hz|Hz]]; nia.
Qed.

Lemma mod_succ c h a : 0 < c -> ((h + a) mod c + 1) mod c = (h + (a + 1)) mod c.
Proof. intros Hc. rewrite Z.add_mod_idemp_l by lia. f_equal. lia. Qed.

Section ring_rep.
Context {T : Type}.
Implicit Types (r : RingBuffer T) (xs : list T).

(** The buffer holds [xs], oldest first. *)
Record ring_rep r xs : Prop := {
  rr_cap : 1 < r_capacity r;
  rr_len : Z.of_nat (length (r_data r)) = r_capacity r;
  rr_head : 0 <= r_head r < r_capacity r;
  rr_fit : Z.of_nat (length xs) < r_capacity r;
  rr_tail : r_tail r = (r_head r + Z.of_nat (length xs)) mod r_capacity r;
  rr_items : forall (k : nat) x, xs !! k = Some x ->
    arr_get (r_data r) ((r_head r + Z.of_nat k) mod r_capacity r) = Some x
}.

Lemma full_spec r xs : ring_rep r xs -> full r = bool_decide (Z.of_nat (length xs) = r_capacity r - 1).
Proof.
  intros [Hc _ Hh Hf Ht _]. unfold full. rewrite Ht, mod_succ by lia.
  case_bool_decide as Hl.
  - rewrite Hl. replace (r_head r + (r_capacity r - 1 + 1)) with (r_head r + 1 * r_capacity r) by lia.
    rewrite Z.mod_add, Z.mod_small by lia. apply Z.eqb_refl.
  - apply Z.eqb_neq. intros He. assert (Hz : r_head r = (r_head r + 0) mod r_capacity r) by (rewrite Z.mod_small; lia).
    rewrite Hz in He at 2. apply mod_shift_inj in He; lia.
Qed.

Lemma push_spec r xs v :
  ring_rep r xs ->
  exists r', push v r = Ret r' /\
    ring_rep r' ((if bool_decide (Z.of_nat (length xs) = r_capacity r - 1) then drop 1 xs else xs) ++ [v]) /\
    r_capacity r' = r_capacity r /\ r_size r' = (if r_size r <? r_capacity r then r_size r + 1 else r_size r) /\
    r_head r' = (if bool_decide (Z.of_nat (length xs) = r_capacity r - 1) then (r_head r + 1) mod r_capacity r else r_head r) /\
    arr_set (r_data r) (r_tail r) v = Some (r_data r').
Proof.
  intros HR. pose proof (full_spec r xs HR) as Hfull. destruct HR as [Hc Hlen Hh Hf Ht Hi].
  assert (Htb : 0 <= r_tail r < Z.of_nat (length (r_data r))) by (rewrite Ht, Hlen; by apply Z.mod_pos_bound; lia).
  assert (Hset : arr_set (r_data r) (r_tail r) v = Some (<[Z.to_nat (r_tail r) := v]> (r_data r))) by (by apply arr_set_is_Some).
  unfold push. rewrite Hset, Hfull. eexists. split; [reflexivity|]. split; [|done].
  set (data := <[Z.to_nat (r_tail r) := v]> (r_data r)) in *.
  assert (Hother : forall k, 0 <= k < r_capacity r -> k <> Z.of_nat (length xs) ->
    arr_get data ((r_head r + k) mod r_capacity r) = arr_get (r_data r) ((r_head r + k) mod r_capacity r)).
  { intros k Hk Hne. apply (arr_get_set_ne _ _ _ _ _ Hset). rewrite Ht. intros He. apply mod_shift_inj in He; lia. }
  assert (Hnew : arr_get data ((r_head r + Z.of_nat (length xs)) mod r_capacity r) = Some v).
  { rewrite <- Ht. by apply (arr_get_set_eq _ _ _ _ Hset). }
  case_bool_decide as Hl; split; cbn [r_capacity r_data r_head r_tail]; try done.
  - by rewrite (arr_set_length _ _ _ _ Hset).
  - apply Z.mod_pos_bound. lia.
  - rewrite length_app, length_drop. simpl. lia.
  - rewrite length_app, length_drop, Ht. simpl. rewrite mod_succ, Z.add_mod_idemp_l by lia. f_equal. lia.
  - intros k x Hk. rewrite Z.add_mod_idemp_l by lia.
    replace (r_head r + 1 + Z.of_nat k) with (r_head r + (Z.of_nat k + 1)) by lia.
    apply lookup_app_Some in Hk as [Hk|[Hge Hk]].
    + rewrite lookup_drop in Hk. pose proof (lookup_lt_Some _ _ _ Hk).
      rewrite Hother by lia. replace (Z.of_nat k + 1) with (Z.of_nat (1 + k)) by lia. by apply Hi.
    + apply list_lookup_singleton_Some in Hk as [Hk <-]. rewrite length_drop in *.
      replace (Z.of_nat k + 1) with (Z.of_nat (length xs)) by lia. done.
  - by rewrite (arr_set_length _ _ _ _ Hset).
  - rewrite length_app. simpl. lia.
  - rewrite length_app, Ht. simpl. rewrite mod_succ by lia. f_equal. lia.
  - intros k x Hk. apply lookup_app_Some in Hk as [Hk|[Hge Hk]].
    + pose proof (lookup_lt_Some _ _ _ Hk). rewrite Hother by lia. by apply Hi.
    + apply list_lookup_singleton_Some in Hk as [Hk <-].
      replace (Z.of_nat k) with (Z.of_nat (length xs)) by lia. done.
Qed.

Lemma pop_spec r x xs : ring_rep r (x :: xs) -> ring_front r = Ret x /\ ring_rep (pop r) xs.
Proof.
  intros [Hc Hlen Hh Hf Ht Hi]. split.
  - unfold ring_front, ring_at. specialize (Hi 0%nat x eq_refl). rewrite Z.add_0_r, Z.mod_small in Hi by lia. by rewrite Hi.
  - split; simpl; try done.
    + apply Z.mod_pos_bound. lia.
    + simpl in Hf. lia.
    + rewrite Ht, Z.add_mod_idemp_l by lia. f_equal. simpl. lia.
    + intros k y Hk. rewrite Z.add_mod_idemp_l by lia.
      replace (r_head r + 1 + Z.of_nat k) with (r_head r + Z.of_nat (S k)) by lia. by apply Hi.
Qed.

Lemma new_ring_rep (d : T) c : 1 < c -> ring_rep (new_ring d c) [].
Proof.
  intros Hc. split; simpl; try lia.
  - rewrite length_replicate. lia.
  - by rewrite Z.mod_0_l by lia.
  - done.
Qed.
End ring_rep.

(** ** Tasklets *)

(** The handlers [pending] wait in the cells from 0 on; [ran] have run. *)
Record ts_rep (ts : TaskletScheduler) (pending ran : list Z) : Prop := {
  tr_ring : ring_rep (ts_queue ts) (Some <$> pending);
  tr_head : r_head (ts_queue ts) = 0;
  tr_size : r_size (ts_queue ts) = Z.of_nat (length pending);
  tr_cap : r_capacity (ts_queue ts) = DEFAULT_CAPACITY;
  tr_ran : ts_ran ts = ran
}.

Lemma finish_loop_spec hs i ts :
  0 <= i -> (forall (k : nat) h, hs !! k = Some h -> arr_get (r_data (ts_queue ts)) (i + Z.of_nat k) = Some (Some h)) ->
  exists ts', finish_loop (length hs) i ts = Ret ts' /\ ts_ran ts' = ts_ran ts ++ hs /\
    length (r_data (ts_queue ts')) = length (r_data (ts_queue ts)) /\
    r_capacity (ts_queue ts') = r_capacity (ts_queue ts).
Proof.
  revert i ts. induction hs as [|h hs IH]; intros i ts Hi Hc; cbn [finish_loop length].
  - exists ts. by rewrite app_nil_r.
  - pose proof (Hc 0%nat h eq_refl) as H0. rewrite Z.add_0_r in H0. unfold ring_at. rewrite H0. cbn [mbind outcome_bind].
    pose proof (arr_get_Some_range _ _ _ H0) as Hr. rewrite arr_set_is_Some by done.
    assert (Hs : arr_set (r_data (ts_queue ts)) i None = Some (<[Z.to_nat i := None]> (r_data (ts_queue ts)))) by (by apply arr_set_is_Some).
    match goal with |- context [finish_loop _ _ ?t] => destruct (IH (i + 1) t) as (ts' & Hrun & Hran & Hlen & Hcap) end.
    + lia.
    + intros k h' Hk. cbn [ts_queue r_data]. rewrite (arr_get_set_ne _ _ _ _ _ Hs) by lia.
      replace (i + 1 + Z.of_nat k) with (i + Z.of_nat (S k)) by lia. by apply Hc.
    + exists ts'. split_and!; [done| | |done].
      * rewrite Hran. cbn [ts_ran]. by rewrite <- app_assoc.
      * rewrite Hlen. cbn [ts_queue r_data]. apply length_insert.
Qed.

Lemma finish_all_spec ts pending ran :
  ts_rep ts pending ran -> exists ts', finish_all ts = Ret ts' /\ ts_rep ts' [] (ran ++ pending).
Proof.
  intros [HR Hh Hs Hc Hran]. unfold finish_all. rewrite Hs, Nat2Z.id.
  destruct (finish_loop_spec pending 0 ts) as (ts' & Hrun & Hran' & Hlen & Hcap).
  - lia.
  - intros k h Hk. pose proof (rr_items _ _ HR k (Some h)) as Hit. rewrite list_lookup_fmap, Hk in Hit.
    specialize (Hit eq_refl). rewrite Hh in Hit. rewrite Z.mod_small in Hit; [done|].
    apply lookup_lt_Some in Hk. pose proof (rr_fit _ _ HR) as Hf. rewrite length_fmap in Hf. lia.
  - rewrite Hrun. cbn [mbind outcome_bind]. eexists. split; [reflexivity|].
    split; cbn [ts_queue ts_ran]; [|done|done|unfold ring_clear; cbn [r_capacity]; congruence|by rewrite Hran', Hran].
    unfold DEFAULT_CAPACITY in *.
    split; unfold ring_clear; cbn [r_capacity r_data r_head r_tail length fmap list_fmap]; rewrite ?Hcap, ?Hc; try lia.
    + rewrite Hlen, (rr_len _ _ HR). done.
    + done.
    + done.
Qed.

Lemma add_tasklet_spec ts pending ran h :
  ts_rep ts pending ran ->
  exists ts' pending' ran', add_tasklet h ts = Ret ts' /\ ts_rep ts' pending' ran' /\
    ran' ++ pending' = ran ++ pending ++ [h].
Proof.
  intros HR.
  assert (Hpush : forall ts pending ran, ts_rep ts pending ran -> full (ts_queue ts) = false ->
    exists q, push (Some h) (ts_queue ts) = Ret q /\ ts_rep (mkTS q (ts_ran ts)) (pending ++ [h]) ran).
  { clear. intros ts pending ran [HR Hh Hs Hc Hran] Hnf. rewrite (full_spec _ _ HR) in Hnf.
    destruct (push_spec _ _ (Some h) HR) as (q & Hq & HRq & Hcap & Hsz & Hhd & _).
    rewrite Hnf in HRq, Hhd. apply bool_decide_eq_false in Hnf. rewrite length_fmap in Hnf.
    pose proof (rr_fit _ _ HR) as Hf. rewrite length_fmap in Hf.
    exists q. split; [done|]. split; cbn [ts_queue ts_ran]; try congruence.
    - by rewrite fmap_app.
    - rewrite Hsz, Hs, (proj2 (Z.ltb_lt _ _)) by lia. rewrite length_app. simpl. lia. }
  unfold add_tasklet. destruct (full (ts_queue ts)) eqn:Hf.
  - destruct (finish_all_spec ts pending ran HR) as (ts1 & Hfin & HR1). rewrite Hfin. cbn [mbind outcome_bind].
    destruct (Hpush ts1 [] (ran ++ pending) HR1) as (q & Hq & HR2).
    { rewrite (full_spec _ _ (tr_ring _ _ _ HR1)), (tr_cap _ _ _ HR1). done. }
    rewrite Hq. cbn [mbind outcome_bind]. exists (mkTS q (ts_ran ts1)), ([] ++ [h]), (ran ++ pending).
    split_and!; [done|done|]. by rewrite <- app_assoc.
  - cbn [mbind outcome_bind]. destruct (Hpush ts pending ran HR Hf) as (q & Hq & HR2). rewrite Hq. cbn [mbind outcome_bind].
    by exists (mkTS q (ts_ran ts)), (pending ++ [h]), ran.
Qed.

Fixpoint add_tasklets (hs : list Z) (ts : TaskletScheduler) : outcome TaskletScheduler :=
  match hs with [] => Ret ts | h :: hs => ts ← add_tasklet h ts; add_tasklets hs ts end.

Lemma add_tasklets_spec hs ts pending ran :
  ts_rep ts pending ran ->
  exists ts' pending' ran', add_tasklets hs ts = Ret ts' /\ ts_rep ts' pending' ran' /\
    ran' ++ pending' = ran ++ pending ++ hs.
Proof.
  revert ts pending ran. induction hs as [|h hs IH]; intros ts pending ran HR; cbn [add_tasklets].
  - exists ts, pending, ran. by rewrite app_nil_r.
  - destruct (add_tasklet_spec ts pending ran h HR) as (ts1 & p1 & r1 & Hrun & HR1 & He). rewrite Hrun. cbn [mbind outcome_bind].
    destruct (IH ts1 p1 r1 HR1) as (ts2 & p2 & r2 & Hrun2 & HR2 & He2). exists ts2, p2, r2. split_and!; [done..|].
    rewrite He2, app_assoc, He, <- !app_assoc. done.
Qed.

Lemma new_ts_rep : ts_rep new_ts [] [].
Proof. split; [by apply new_ring_rep|done..]. Qed.

(** ** Theorems *)

(** C34. The ring buffer is a bounded queue: [push] appends and, when the
    buffer already holds capacity - 1 elements, drops the oldest; [front] and
    [pop] on a non-empty buffer take the oldest element. *)
Theorem ring_refines_queue {T} (r : RingBuffer T) xs :
  ring_rep r xs ->
  (forall v, exists r', push v r = Ret r' /\
     ring_rep r' ((if bool_decide (Z.of_nat (length xs) = r_capacity r - 1) then drop 1 xs else xs) ++ [v])) /\
  (forall x xs', xs = x :: xs' -> ring_front r = Ret x /\ ring_rep (pop r) xs') /\
  ring_empty r = bool_decide (xs = []).
Proof.
  intros HR. split_and!.
  - intros v. destruct (push_spec r xs v HR) as (r' & ? & ? & _). eauto.
  - intros x xs' ->. by apply pop_spec.
  - destruct HR as [Hc _ Hh Hf Ht _]. unfold ring_empty. rewrite Ht. case_bool_decide as He.
    + subst. simpl. rewrite Z.add_0_r, Z.mod_small by lia. apply Z.eqb_refl.
    + apply Z.eqb_neq. intros Heq. apply He. destruct xs; [done|].
      assert (Hz : r_head r = (r_head r + 0) mod r_capacity r) by (rewrite Z.mod_small; lia).
      rewrite Hz in Heq at 2. apply mod_shift_inj in Heq; simpl in *; lia.
Qed.

Lemma ring_refines_queue_witness :
  ring_empty (new_ring 0 4) = bool_decide ([] = ([] : list Z)).
Proof. apply (ring_refines_queue (new_ring 0 4) []). apply new_ring_rep. lia. Defined.

(** Tasklets are neither lost nor reordered: however many are added, with
    the queue flushed whenever it is full, after the final [finish_all] every
    handler has run exactly once, in the order in which it was added. *)
Theorem tasklets_run_in_order hs :
  exists ts ts', add_tasklets hs new_ts = Ret ts /\ finish_all ts = Ret ts' /\ ts_ran ts' = hs.
Proof.
  destruct (add_tasklets_spec hs new_ts [] [] new_ts_rep) as (ts & p & ran & Hrun & HR & He).
  destruct (finish_all_spec ts p ran HR) as (ts' & Hfin & HR'). exists ts, ts'. split_and!; [done..|].
  rewrite (tr_ran _ _ _ HR'). exact He.
Qed.
