(* ===== verification/Iterator.v ===== *)
(** * include/lib/Iterator.h: iterators of containers with indices

    An iterator is an index into a container that gives its size and the element
    at an index: the class [Contiguous], of which strings and ring buffers are
    instances. *)

From Stdlib Require Import ZArith Lia.
From stdpp Require Import base list numbers.
From S2P Require Import Prelude CString KString RingBuffer.

Open Scope Z_scope.

Class Contiguous (C V : Type) := { c_at : C -> Z -> outcome V; c_size : C -> outcome Z }.
#[export] Instance string_contiguous : Contiguous String Z := {| c_at := str_at; c_size := str_size |}.
#[export] Instance ring_contiguous {T} : Contiguous (RingBuffer T) T := {| c_at := ring_at; c_size r := Ret (r_size r) |}.

Section iterator.
Context {C V : Type} `{HC : Contiguous C V}.

Definition ContiguousIterator : Type := Z.

Definition ci_begin (c : C) : ContiguousIterator := 0.
Definition ci_end (c : C) : outcome ContiguousIterator := c_size c.
Definition ci_deref (c : C) (it : ContiguousIterator) : outcome V := c_at c it.
Definition ci_inc (it : ContiguousIterator) : ContiguousIterator := u64 (it + 1).
Definition ci_dec (it : ContiguousIterator) : ContiguousIterator := u64 (it - 1).
Definition ci_eq (a b : ContiguousIterator) : bool := a =? b.
Definition ci_lt (a b : ContiguousIterator) : bool := a <? b.
Definition ci_gt (a b : ContiguousIterator) : bool := b <? a.
Definition ci_le (a b : ContiguousIterator) : bool := a <=? b.
Definition ci_ge (a b : ContiguousIterator) : bool := b <=? a.
Definition ci_is_end (c : C) (it : ContiguousIterator) : outcome bool := n ← ci_end c; Ret (it =? n).

(** [for (auto x : c)]: the elements that are visited. *)
Fixpoint range_loop (fuel : nat) (c : C) (it last : ContiguousIterator) : outcome (list V) :=
  match fuel with
  | O => OutOfFuel
  | S fuel =>
      if ci_eq it last then Ret []
      else x ← ci_deref c it; rest ← range_loop fuel c (ci_inc it) last; Ret (x :: rest)
  end.
Definition range_for (c : C) : outcome (list V) := last ← ci_end c; range_loop (S (Z.to_nat last)) c (ci_begin c) last.

(** The elements of the indices below the size, in order. *)
Lemma range_loop_spec fuel c xs (j : nat) : (forall i x, xs !! i = Some x -> c_at c (Z.of_nat i) = Ret x) -> Z.of_nat (length xs) < 2 ^ 64 ->
  (j <= length xs)%nat -> (length xs - j < fuel)%nat -> range_loop fuel c (Z.of_nat j) (Z.of_nat (length xs)) = Ret (drop j xs).
Proof.
  intros Hat Hsz. revert j. induction fuel as [|fuel IH]; intros j Hj Hf; [lia|]. cbn [range_loop]. unfold ci_eq. destruct (Z.eqb_spec (Z.of_nat j) (Z.of_nat (length xs))) as [He|Hne].
  - by rewrite drop_ge by lia.
  - destruct (lookup_lt_is_Some_2 xs j) as [x Hx]; [lia|]. unfold ci_deref, ci_inc. rewrite (Hat j x Hx). cbn [mbind outcome_bind]. rewrite u64_id by lia.
    replace (Z.of_nat j + 1) with (Z.of_nat (S j)) by lia. rewrite IH by lia. cbn [mbind outcome_bind]. by rewrite (drop_S xs x j Hx).
Qed.

Theorem range_for_spec c xs : c_size c = Ret (Z.of_nat (length xs)) -> (forall i x, xs !! i = Some x -> c_at c (Z.of_nat i) = Ret x) ->
  Z.of_nat (length xs) < 2 ^ 64 -> range_for c = Ret xs.
Proof.
  intros Hn Hat Hsz. unfold range_for, ci_end. rewrite Hn. cbn [mbind outcome_bind]. rewrite Nat2Z.id. apply (range_loop_spec (S (length xs)) c xs 0 Hat Hsz); lia.
Qed.
End iterator.

(** A string is iterated by its characters. *)
Corollary string_range s l : str_val s l -> Z.of_nat (length l) < 2 ^ 64 -> range_for s = Ret l.
Proof. intros Hs Hl. apply range_for_spec; [by apply str_size_spec|intros i c; by apply str_at_spec|done]. Qed.

(** A ring buffer is iterated from the first cell of its array, not from its
    oldest element. *)
Lemma ring_range_from_cell_0 :
  match (r ← push 1 (new_ring 0 8); r ← push 2 r; r ← push 3 r; Ret (pop r)) with
  | Ret r => range_for r = Ret [1; 2] /\ ring_front r = Ret 2
  | _ => False
  end.
Proof. vm_compute. split; reflexivity. Qed.
