(* ===== verification/Deque.v ===== *)
(** * include/lib/Deque.h and kernel/TimerMultiplexer.cc

    A growable array with insertion and removal at any index, and the timer
    multiplexer, which counts down the timeouts of the events it keeps in one.
    An event's callback is identified by a value; calling it appends that value
    to a trace.  The registers of the core timer are in Mmio.v. *)

From Stdlib Require Import ZArith Lia.
From stdpp Require Import base list numbers.
From S2P Require Import Prelude Math.

Open Scope Z_scope.

Definition DEFAULT_SIZE : Z := 4.

Record Deque (T : Type) := mkDeque { d_data : list T; d_size : Z; d_capacity : Z }.
Arguments mkDeque {T}.
Arguments d_data {T}.
Arguments d_size {T}.
Arguments d_capacity {T}.

Section deque.
Context {T : Type} (dflt : T).
Implicit Types (d : Deque T).

(** Reading and writing a cell. *)
Definition cell (data : list T) (i : Z) : outcome T :=
  match arr_get data i with Some v => Ret v | None => Fault end.
Definition set_cell (data : list T) (i : Z) (v : T) : outcome (list T) :=
  match arr_set data i v with Some l => Ret l | None => Fault end.

Definition new_deque (init_capacity : Z) : Deque T :=
  mkDeque (replicate (Z.to_nat init_capacity) dflt) 0 init_capacity.

(** [for (i = 0; i < _size; i++) new_data[i] = move(_data[i]);] *)
Fixpoint migrate (n : nat) (i : Z) (data new_data : list T) : outcome (list T) :=
  match n with
  | O => Ret new_data
  | S n => v ← cell data i; new_data ← set_cell new_data i v; migrate n (i + 1) data new_data
  end.

Definition resize (new_capacity : Z) (migrate_data : bool) d : outcome (Deque T) :=
  let capacity := max DEFAULT_SIZE new_capacity in
  let blank := replicate (Z.to_nat capacity) dflt in
  new_data ← (if migrate_data then migrate (Z.to_nat (d_size d)) 0 (d_data d) blank else Ret blank);
  Ret (mkDeque new_data (d_size d) capacity).

(** [for (i = _size; i > index; i--) _data[i] = _data[i - 1];], [n] times. *)
Fixpoint shift_right (n : nat) (i : Z) (data : list T) : outcome (list T) :=
  match n with
  | O => Ret data
  | S n => v ← cell data (i - 1); data ← set_cell data i v; shift_right n (i - 1) data
  end.

(** [for (i = index; i < _size - 1; i++) _data[i] = _data[i + 1];], [n] times. *)
Fixpoint shift_left (n : nat) (i : Z) (data : list T) : outcome (list T) :=
  match n with
  | O => Ret data
  | S n => v ← cell data (i + 1); data ← set_cell data i v; shift_left n (i + 1) data
  end.

Definition insert_at (index : Z) (val : T) d : outcome (Deque T) :=
  d ← (if d_size d =? d_capacity d then resize (u64 (d_capacity d * 2)) true d else Ret d);
  data ← shift_right (Z.to_nat (d_size d - index)) (d_size d) (d_data d);
  data ← set_cell data index val;
  Ret (mkDeque data (u64 (d_size d + 1)) (d_capacity d)).

Definition erase_at (index : Z) d : outcome (Deque T) :=
  data ← shift_left (Z.to_nat (d_size d - 1 - index)) index (d_data d);
  let size := u64 (d_size d - 1) in
  let d := mkDeque data size (d_capacity d) in
  if size <=? d_capacity d / 4 then resize (d_capacity d / 2) true d else Ret d.

Definition deque_push_back (val : T) d : outcome (Deque T) := insert_at (s32 (d_size d)) val d.
Definition deque_push_front (val : T) d : outcome (Deque T) := insert_at 0 val d.
Definition deque_pop_back d : outcome (Deque T) := erase_at (s32 (d_size d - 1)) d.
Definition deque_pop_front d : outcome (Deque T) := erase_at 0 d.

Definition deque_clear d : outcome (Deque T) :=
  d ← resize DEFAULT_SIZE false d; Ret (mkDeque (d_data d) 0 (d_capacity d)).

Definition deque_empty d : bool := d_size d =? 0.

(** The index of the first element equal to [val], from [i] on, or -1. *)
Fixpoint find_loop (eq : T -> bool) (n : nat) (i : Z) (data : list T) : outcome Z :=
  match n with
  | O => Ret (-1)
  | S n => v ← cell data i; if eq v then Ret i else find_loop eq n (i + 1) data
  end.

Definition deque_find (eq : T -> bool) d : outcome Z := find_loop eq (Z.to_nat (d_size d)) 0 (d_data d).
Definition deque_remove (eq : T -> bool) d : outcome (Deque T) :=
  i ← deque_find eq d; if i =? -1 then Ret d else erase_at i d.

Definition deque_front d : outcome T := cell (d_data d) 0.
Definition deque_back d : outcome T := cell (d_data d) (u64 (d_size d - 1)).

(** [*this = r]: the elements [*this] had are moved to the new array first. *)
Definition deque_copy_assign d (r : Deque T) : outcome (Deque T) :=
  d ← resize (d_capacity r) true d;
  data ← migrate (Z.to_nat (d_size r)) 0 (d_data r) (d_data d);
  Ret (mkDeque data (d_size r) (d_capacity r)).
(** The copy constructor does not initialise the members: [size] and [capacity]
    are what their memory holds. *)
Definition deque_copy (size capacity : Z) (r : Deque T) : outcome (Deque T) := deque_copy_assign (mkDeque [] size capacity) r.
(** The deque and what is left in [r]. *)
Definition deque_move_assign d (r : Deque T) : outcome (Deque T * Deque T) :=
  r' ← deque_clear (mkDeque [] (d_size r) (d_capacity r));
  Ret (mkDeque (d_data r) (d_size r) (d_capacity r), r').
End deque.

(** ** TimerMultiplexer *)

Record Event := mkEvent { ev_callback : Z; ev_timeout : Z }.

(** [ti_enabled] is the core timer's [_is_enabled], [ti_jiffies] its counter,
    [ti_fired] the callbacks called so far. *)
Record Timers := mkTimers {
  ti_events : Deque Event; ti_enabled : bool; ti_jiffies : Z; ti_fired : list Z
}.

Definition no_event : Event := mkEvent 0 0.
Definition new_timers : Timers := mkTimers (new_deque no_event DEFAULT_SIZE) false 0 [].

Definition add_timer (callback timeout : Z) (t : Timers) : outcome Timers :=
  ev ← deque_push_back no_event (mkEvent callback (u32 timeout)) (ti_events t);
  Ret (mkTimers ev true (ti_jiffies t) (ti_fired t)).

(** The body of the loop of [tick] at index [i], and the index after [i++];
    the counter is a [size_t], so that [i--] at 0 wraps and [i++] undoes it. *)
Definition tick_step (i : Z) (t : Timers) : outcome (Z * Timers) :=
  ev ← cell (d_data (ti_events t)) i;
  let fires := ev_timeout ev =? 0 in
  data ← set_cell (d_data (ti_events t)) i (mkEvent (ev_callback ev) (u32 (ev_timeout ev - 1)));
  let d := mkDeque data (d_size (ti_events t)) (d_capacity (ti_events t)) in
  d ← (if fires then erase_at no_event i d else Ret d);
  let i := if fires then u64 (i - 1) else i in
  let fired := if fires then ti_fired t ++ [ev_callback ev] else ti_fired t in
  if deque_empty d then
    d ← deque_clear no_event d;
    Ret (u64 (i + 1), mkTimers d false (ti_jiffies t) fired)
  else Ret (u64 (i + 1), mkTimers d (ti_enabled t) (ti_jiffies t) fired).

(** [for (i = 0; i < _events.size(); i++)] *)
Fixpoint tick_loop (fuel : nat) (i : Z) (t : Timers) : outcome Timers :=
  match fuel with
  | O => OutOfFuel
  | S fuel =>
      if i <? d_size (ti_events t) then
        it ← tick_step i t;
        tick_loop fuel (fst it) (snd it)
      else Ret t
  end.

Definition tick (t : Timers) : outcome Timers :=
  tick_loop (S (Z.to_nat (d_size (ti_events t)))) 0
    (mkTimers (ti_events t) (ti_enabled t) (u32 (ti_jiffies t + 1)) (ti_fired t)).

(** ** The deque is a list *)

Section deque_rep.
Context {T : Type} (dflt : T).
Implicit Types (d : Deque T) (xs : list T).

Record deque_rep d xs : Prop := {
  dr_size : d_size d = Z.of_nat (length xs);
  dr_len : Z.of_nat (length (d_data d)) = d_capacity d;
  dr_cap : DEFAULT_SIZE <= d_capacity d < 2 ^ 31;
  dr_items : forall (k : nat) x, xs !! k = Some x -> d_data d !! k = Some x
}.

Lemma cell_nat (data : list T) (k : nat) x : data !! k = Some x -> cell data (Z.of_nat k) = Ret x.
Proof. intros H. unfold cell. by rewrite arr_get_nat, H. Qed.

Lemma set_cell_nat (data : list T) (k : nat) x :
  (k < length data)%nat -> set_cell data (Z.of_nat k) x = Ret (<[k := x]> data).
Proof. intros H. unfold set_cell. rewrite arr_set_is_Some by lia. by rewrite Nat2Z.id. Qed.

Lemma migrate_spec (n k : nat) (data new_data : list T) :
  (k + n <= length data)%nat -> (k + n <= length new_data)%nat ->
  exists l, migrate n (Z.of_nat k) data new_data = Ret l /\ length l = length new_data /\
    forall j, l !! j = if decide (k <= j < k + n)%nat then data !! j else new_data !! j.
Proof.
  revert k new_data. induction n as [|n IH]; intros k new_data H1 H2; cbn [migrate].
  - exists new_data. split_and!; [done..|]. intros j. rewrite decide_False by lia. done.
  - destruct (lookup_lt_is_Some_2 data k ltac:(lia)) as [x Hx]. rewrite (cell_nat _ _ _ Hx). cbn [mbind outcome_bind].
    rewrite set_cell_nat by lia. cbn [mbind outcome_bind].
    replace (Z.of_nat k + 1) with (Z.of_nat (S k)) by lia.
    destruct (IH (S k) (<[k := x]> new_data)) as (l & Hrun & Hlen & Hl); [lia|rewrite length_insert; lia|].
    exists l. split_and!; [done|by rewrite Hlen, length_insert|]. intros j. rewrite Hl.
    destruct (decide (j = k)) as [->|Hne].
    + rewrite decide_False by lia. rewrite decide_True by lia. rewrite list_lookup_insert_eq by lia. done.
    + rewrite list_lookup_insert_ne by done. repeat case_decide; try lia; done.
Qed.

Lemma resize_spec c d xs :
  deque_rep d xs -> Z.of_nat (length xs) <= c < 2 ^ 31 ->
  exists d', resize dflt c true d = Ret d' /\ deque_rep d' xs /\ d_capacity d' = Z.max 4 c.
Proof.
  intros [Hs Hl Hc Hi] Hle. unfold resize. rewrite Hs, Nat2Z.id, max_spec. unfold DEFAULT_SIZE in *.
  assert (Hxs : (length xs <= length (d_data d))%nat).
  { destruct xs as [|x xs]; [simpl; lia|]. destruct (lookup_lt_is_Some_2 (x :: xs) (length xs)) as [y Hy]; [simpl; lia|].
    apply Hi, lookup_lt_Some in Hy. simpl. lia. }
  destruct (migrate_spec (length xs) 0 (d_data d) (replicate (Z.to_nat (Z.max 4 c)) dflt)) as (l & Hrun & Hlen & Hlk);
    [lia|rewrite length_replicate; lia|].
  change (Z.of_nat 0) with 0 in Hrun. rewrite Hrun. cbn [mbind outcome_bind]. eexists. split; [reflexivity|]. split; [|done].
  split; cbn [d_size d_data d_capacity]; [done|rewrite Hlen, length_replicate; lia|unfold DEFAULT_SIZE; lia|].
  intros k x Hk. rewrite Hlk. pose proof (lookup_lt_Some _ _ _ Hk). rewrite decide_True by lia. by apply Hi.
Qed.

Lemma shift_right_spec (n k : nat) (data : list T) :
  (n <= k)%nat -> (k < length data)%nat ->
  exists l, shift_right n (Z.of_nat k) data = Ret l /\ length l = length data /\
    forall j, l !! j = if decide (k - n < j <= k)%nat then data !! (j - 1)%nat else data !! j.
Proof.
  revert k data. induction n as [|n IH]; intros k data Hn Hk; cbn [shift_right].
  - exists data. split_and!; [done..|]. intros j. rewrite decide_False by lia. done.
  - replace (Z.of_nat k - 1) with (Z.of_nat (k - 1)) by lia.
    destruct (lookup_lt_is_Some_2 data (k - 1) ltac:(lia)) as [x Hx]. rewrite (cell_nat _ _ _ Hx). cbn [mbind outcome_bind].
    rewrite set_cell_nat by lia. cbn [mbind outcome_bind].
    destruct (IH (k - 1)%nat (<[k := x]> data)) as (l & Hrun & Hlen & Hl); [lia|rewrite length_insert; lia|].
    exists l. split_and!; [done|by rewrite Hlen, length_insert|]. intros j. rewrite Hl.
    repeat case_decide; try lia.
    + rewrite list_lookup_insert_ne by lia. done.
    + assert (j = k) as -> by lia. rewrite list_lookup_insert_eq by lia. done.
    + rewrite list_lookup_insert_ne by lia. done.
Qed.

Lemma shift_left_spec (n k : nat) (data : list T) :
  (k + n < length data)%nat ->
  exists l, shift_left n (Z.of_nat k) data = Ret l /\ length l = length data /\
    forall j, l !! j = if decide (k <= j < k + n)%nat then data !! S j else data !! j.
Proof.
  revert k data. induction n as [|n IH]; intros k data Hk; cbn [shift_left].
  - exists data. split_and!; [done..|]. intros j. rewrite decide_False by lia. done.
  - replace (Z.of_nat k + 1) with (Z.of_nat (S k)) by lia.
    destruct (lookup_lt_is_Some_2 data (S k) ltac:(lia)) as [x Hx]. rewrite (cell_nat _ _ _ Hx). cbn [mbind outcome_bind].
    rewrite set_cell_nat by lia. cbn [mbind outcome_bind].
    destruct (IH (S k) (<[k := x]> data)) as (l & Hrun & Hlen & Hl); [rewrite length_insert; lia|].
    exists l. split_and!; [done|by rewrite Hlen, length_insert|]. intros j. rewrite Hl.
    repeat case_decide; try lia.
    + rewrite list_lookup_insert_ne by lia. done.
    + assert (j = k) as -> by lia. rewrite list_lookup_insert_eq by lia. done.
    + rewrite list_lookup_insert_ne by lia. done.
Qed.

Lemma rep_room d xs : deque_rep d xs -> (length xs <= length (d_data d))%nat.
Proof.
  intros [Hs Hl Hc Hi]. destruct xs as [|x xs]; [simpl; lia|].
  destruct (lookup_lt_is_Some_2 (x :: xs) (length xs)) as [y Hy]; [simpl; lia|].
  apply Hi, lookup_lt_Some in Hy. simpl. lia.
Qed.

Lemma insert_at_spec d xs1 xs2 v :
  deque_rep d (xs1 ++ xs2) -> Z.of_nat (length (xs1 ++ xs2)) < 2 ^ 30 ->
  exists d', insert_at dflt (Z.of_nat (length xs1)) v d = Ret d' /\ deque_rep d' (xs1 ++ v :: xs2).
Proof.
  intros HR Hsz. unfold insert_at.
  assert (Hgrow : exists d0, (if d_size d =? d_capacity d then resize dflt (u64 (d_capacity d * 2)) true d else Ret d) = Ret d0 /\
    deque_rep d0 (xs1 ++ xs2) /\ Z.of_nat (length (xs1 ++ xs2)) < d_capacity d0).
  { pose proof (rep_room d _ HR) as Hroom. destruct HR as [Hs Hl Hc Hi] eqn:E. clear E. unfold DEFAULT_SIZE in *.
    destruct (Z.eqb_spec (d_size d) (d_capacity d)) as [Heq|Hne].
    - destruct (resize_spec (u64 (d_capacity d * 2)) d (xs1 ++ xs2) HR) as (d0 & Hrun & HR0 & Hc0);
        [rewrite u64_id by lia; lia|].
      exists d0. split_and!; [done..|]. rewrite Hc0, u64_id by lia. lia.
    - exists d. split_and!; [done..|]. lia. }
  destruct Hgrow as (d0 & Hrun & [Hs Hl Hc Hi] & Hlt). rewrite Hrun. cbn [mbind outcome_bind]. rewrite Hs.
  rewrite length_app in *. replace (Z.to_nat (Z.of_nat (length xs1 + length xs2) - Z.of_nat (length xs1))) with (length xs2) by lia.
  destruct (shift_right_spec (length xs2) (length xs1 + length xs2) (d_data d0)) as (l & Hrun2 & Hlen & Hlk); [lia|lia|].
  rewrite Hrun2. cbn [mbind outcome_bind]. rewrite set_cell_nat by lia. cbn [mbind outcome_bind].
  eexists. split; [reflexivity|]. split; cbn [d_size d_data d_capacity].
  - rewrite length_app, u64_id by lia. simpl. lia.
  - rewrite length_insert. lia.
  - done.
  - intros k x Hk. destruct (decide (k = length xs1)) as [->|Hne].
    + rewrite list_lookup_insert_eq by lia. rewrite lookup_app_r, Nat.sub_diag in Hk by lia. done.
    + rewrite list_lookup_insert_ne by done. rewrite Hlk. apply lookup_app_Some in Hk as [Hk|[Hge Hk]].
      * pose proof (lookup_lt_Some _ _ _ Hk). rewrite decide_False by lia. apply Hi. by apply lookup_app_l_Some.
      * replace (k - length xs1)%nat with (S (k - 1 - length xs1)) in Hk by lia. simpl in Hk.
        pose proof (lookup_lt_Some _ _ _ Hk). rewrite decide_True by lia. apply Hi. rewrite lookup_app_r by lia. done.
Qed.

Lemma erase_at_spec d xs1 v xs2 :
  deque_rep d (xs1 ++ v :: xs2) -> Z.of_nat (length (xs1 ++ v :: xs2)) < 2 ^ 31 ->
  exists d', erase_at dflt (Z.of_nat (length xs1)) d = Ret d' /\ deque_rep d' (xs1 ++ xs2).
Proof.
  intros HR Hsz. pose proof (rep_room d _ HR) as Hroom. destruct HR as [Hs Hl Hc Hi]. unfold erase_at. rewrite Hs.
  rewrite length_app in *. simpl length in *.
  replace (Z.to_nat (Z.of_nat (length xs1 + S (length xs2)) - 1 - Z.of_nat (length xs1))) with (length xs2) by lia.
  destruct (shift_left_spec (length xs2) (length xs1) (d_data d)) as (l & Hrun & Hlen & Hlk); [lia|].
  rewrite Hrun. cbn [mbind outcome_bind].
  assert (HR' : deque_rep (mkDeque l (u64 (Z.of_nat (length xs1 + S (length xs2)) - 1)) (d_capacity d)) (xs1 ++ xs2)).
  { split; cbn [d_size d_data d_capacity]; [rewrite length_app, u64_id by lia; lia|lia|done|].
    intros k x Hk. rewrite Hlk. apply lookup_app_Some in Hk as [Hk|[Hge Hk]].
    - pose proof (lookup_lt_Some _ _ _ Hk). rewrite decide_False by lia. apply Hi. by apply lookup_app_l_Some.
    - pose proof (lookup_lt_Some _ _ _ Hk). rewrite decide_True by lia. apply Hi. rewrite lookup_app_r by lia.
      by replace (S k - length xs1)%nat with (S (k - length xs1)) by lia. }
  cbv zeta. cbn [d_capacity d_size d_data].
  destruct (Z.leb_spec (u64 (Z.of_nat (length xs1 + S (length xs2)) - 1)) (d_capacity d / 4)) as [Hle|Hgt]; [|eauto].
  unfold DEFAULT_SIZE in *. pose proof (Z.div_mod (d_capacity d) 4 ltac:(lia)). pose proof (Z.mod_pos_bound (d_capacity d) 4 ltac:(lia)).
  pose proof (Z.div_mod (d_capacity d) 2 ltac:(lia)). pose proof (Z.mod_pos_bound (d_capacity d) 2 ltac:(lia)).
  rewrite u64_id in Hle by lia.
  destruct (resize_spec (d_capacity d / 2) _ _ HR') as (d' & Hrun' & HRd & _); [rewrite length_app; lia|].
  exists d'. split; [exact Hrun'|exact HRd].
Qed.

Lemma clear_deque_spec d xs : deque_rep d xs -> exists d', deque_clear dflt d = Ret d' /\ deque_rep d' [].
Proof.
  intros _. unfold deque_clear, resize. rewrite max_spec. cbn [mbind outcome_bind]. eexists. split; [reflexivity|].
  split; cbn [d_size d_data d_capacity]; [done|by rewrite length_replicate|unfold DEFAULT_SIZE; lia|done].
Qed.

(** Copying, where the elements of the left side fit into the capacity of the
    right one, and moving. *)
Lemma copy_assign_spec d r xs ys : deque_rep d xs -> deque_rep r ys -> Z.of_nat (length xs) <= d_capacity r ->
  exists d', deque_copy_assign dflt d r = Ret d' /\ deque_rep d' ys.
Proof.
  intros Hd Hr Hle. destruct (resize_spec (d_capacity r) d xs Hd ltac:(pose proof (dr_cap _ _ Hr); lia)) as (d1 & Hrun & Hd1 & Hcap). unfold deque_copy_assign. rewrite Hrun. cbn [mbind outcome_bind].
  pose proof (rep_room r ys Hr) as Hroom. pose proof Hr as [Hs Hl Hc Hi]. unfold DEFAULT_SIZE in Hc. rewrite Hs, Nat2Z.id. pose proof (dr_len _ _ Hd1) as Hl1.
  destruct (migrate_spec (length ys) 0 (d_data r) (d_data d1)) as (l & Hm & Hlen & Hlk); [lia|lia|]. change (Z.of_nat 0) with 0 in Hm. rewrite Hm. cbn [mbind outcome_bind].
  eexists. split; [reflexivity|]. split; cbn [d_size d_data d_capacity]; [done|lia|unfold DEFAULT_SIZE; lia|].
  intros k x Hk. rewrite Hlk, decide_True; [by apply Hi|]. apply lookup_lt_Some in Hk. lia.
Qed.

Lemma move_assign_spec d r ys : deque_rep r ys -> exists d' r', deque_move_assign dflt d r = Ret (d', r') /\ deque_rep d' ys /\ deque_rep r' [].
Proof.
  intros Hr. unfold deque_move_assign, deque_clear, resize. rewrite max_spec. cbn [mbind outcome_bind]. do 2 eexists. split; [reflexivity|]. split; [by destruct r|].
  split; cbn [d_size d_data d_capacity]; [done|by rewrite length_replicate|unfold DEFAULT_SIZE; lia|done].
Qed.

(** A copy into a deque with more elements than the other has room for writes
    behind the new array. *)
Lemma copy_assign_overflows : deque_copy_assign 0 (mkDeque [1; 2; 3; 4; 5; 0; 0; 0] 5 8) (mkDeque [9; 0; 0; 0] 1 4) = Fault.
Proof. reflexivity. Qed.
End deque_rep.

(** ** Ticks *)

(** What one tick does to the pending events, and the callbacks it calls. *)
Definition survivors (evs : list Event) : list Event :=
  (fun e => mkEvent (ev_callback e) (ev_timeout e - 1)) <$> filter (fun e => ev_timeout e <> 0) evs.
Definition expired (evs : list Event) : list Z :=
  ev_callback <$> filter (fun e => ev_timeout e = 0) evs.

Record timers_rep (t : Timers) (evs : list Event) : Prop := {
  tm_deque : deque_rep (ti_events t) evs;
  tm_range : Forall (fun e => 0 <= ev_timeout e < 2 ^ 32) evs
}.

Lemma deque_rep_set {T} (d : Deque T) xs1 x xs2 y :
  deque_rep d (xs1 ++ x :: xs2) ->
  deque_rep (mkDeque (<[length xs1 := y]> (d_data d)) (d_size d) (d_capacity d)) (xs1 ++ y :: xs2).
Proof.
  intros HR. pose proof (rep_room d _ HR) as Hroom. rewrite length_app in Hroom. simpl in Hroom.
  destruct HR as [Hs Hl Hc Hi]. split; cbn [d_size d_data d_capacity]; [|by rewrite length_insert|done|].
  - rewrite Hs, !length_app. done.
  - intros k z Hk. destruct (decide (k = length xs1)) as [->|Hne].
    + rewrite list_lookup_insert_eq by lia. rewrite lookup_app_r, Nat.sub_diag in Hk by lia. done.
    + rewrite list_lookup_insert_ne by done. apply Hi. apply lookup_app_Some in Hk as [Hk|[Hge Hk]].
      * by apply lookup_app_l_Some.
      * rewrite lookup_app_r by lia. destruct (k - length xs1)%nat eqn:E; [lia|]. done.
Qed.

(** One iteration on the event [e] at index [length before]. *)
Lemma tick_step_spec t before e after :
  deque_rep (ti_events t) (before ++ e :: after) -> 0 <= ev_timeout e < 2 ^ 32 ->
  Z.of_nat (length (before ++ e :: after)) < 2 ^ 31 ->
  exists t', let before' := if decide (ev_timeout e = 0) then before
                            else before ++ [mkEvent (ev_callback e) (ev_timeout e - 1)] in
    tick_step (Z.of_nat (length before)) t = Ret (Z.of_nat (length before'), t') /\
    deque_rep (ti_events t') (before' ++ after) /\
    ti_fired t' = ti_fired t ++ (if decide (ev_timeout e = 0) then [ev_callback e] else []) /\
    ti_enabled t' = (if decide (before' ++ after = []) then false else ti_enabled t) /\
    ti_jiffies t' = ti_jiffies t.
Proof.
  intros HR He Hsz. pose proof (rep_room _ _ HR) as Hroom. rewrite length_app in Hroom, Hsz. simpl in Hroom, Hsz.
  unfold tick_step. rewrite (cell_nat _ (length before) e).
  2:{ apply (dr_items _ _ HR). rewrite lookup_app_r, Nat.sub_diag by lia. done. }
  cbn [mbind outcome_bind]. rewrite set_cell_nat by lia. cbn [mbind outcome_bind].
  pose proof (deque_rep_set _ _ _ _ (mkEvent (ev_callback e) (u32 (ev_timeout e - 1))) HR) as HR1.
  destruct (Z.eqb_spec (ev_timeout e) 0) as [H0|H0].
  - rewrite !decide_True by done.
    destruct (erase_at_spec no_event _ before _ after HR1) as (d' & Hrun & HRd); [rewrite length_app; simpl; lia|].
    rewrite Hrun. cbn [mbind outcome_bind].
    assert (Hi : u64 (u64 (Z.of_nat (length before) - 1) + 1) = Z.of_nat (length before)).
    { unfold u64. rewrite Z.add_mod_idemp_l by lia. replace (Z.of_nat (length before) - 1 + 1) with (Z.of_nat (length before)) by lia.
      apply Z.mod_small. lia. }
    unfold deque_empty. rewrite (dr_size _ _ HRd).
    destruct (Z.eqb_spec (Z.of_nat (length (before ++ after))) 0) as [Hz|Hz].
    + destruct (clear_deque_spec no_event d' _ HRd) as (d'' & Hclr & HRc). rewrite Hclr. cbn [mbind outcome_bind].
      assert (Hnil : before ++ after = []) by (destruct (before ++ after); [done|simpl in Hz; lia]).
      rewrite Hi. eexists. split_and!; [reflexivity|by rewrite Hnil|done|by rewrite decide_True|done].
    + rewrite Hi. eexists. split_and!; [reflexivity|done|done|rewrite decide_False; [done|]|done].
      intros Hnil. by rewrite Hnil in Hz.
  - rewrite !decide_False by done. cbn [mbind outcome_bind]. unfold deque_empty. cbn [d_size].
    assert (Hne0 : (d_size (ti_events t) =? 0) = false).
    { apply Z.eqb_neq. rewrite (dr_size _ _ HR), length_app. simpl. lia. }
    rewrite Hne0. rewrite u32_id in HR1 by lia. rewrite u32_id, u64_id by lia.
    replace (Z.of_nat (length before) + 1) with (Z.of_nat (length (before ++ [mkEvent (ev_callback e) (ev_timeout e - 1)])))
      by (rewrite length_app; simpl; lia).
    eexists. split_and!.
    + reflexivity.
    + rewrite <- app_assoc. exact HR1.
    + cbn [ti_fired]. by rewrite app_nil_r.
    + rewrite decide_False; [done|]. by destruct before.
    + done.
Qed.

Lemma tick_loop_spec fuel t before after :
  deque_rep (ti_events t) (before ++ after) -> Forall (fun e => 0 <= ev_timeout e < 2 ^ 32) after ->
  Z.of_nat (length (before ++ after)) < 2 ^ 31 -> (length after < fuel)%nat ->
  exists t', tick_loop fuel (Z.of_nat (length before)) t = Ret t' /\
    deque_rep (ti_events t') (before ++ survivors after) /\
    ti_fired t' = ti_fired t ++ expired after /\
    ti_enabled t' = (if decide (after <> [] /\ before ++ survivors after = []) then false else ti_enabled t) /\
    ti_jiffies t' = ti_jiffies t.
Proof.
  revert t before after. induction fuel as [|fuel IH]; intros t before after HR Hev Hsz Hf; [lia|].
  cbn [tick_loop]. rewrite (dr_size _ _ HR). destruct after as [|e after].
  - rewrite app_nil_r in *. rewrite (proj2 (Z.ltb_ge _ _)) by lia. exists t.
    change (survivors []) with (@nil Event). change (expired []) with (@nil Z).
    rewrite !app_nil_r. split_and!; [done..| |done]. by rewrite decide_False by naive_solver.
  - rewrite (proj2 (Z.ltb_lt _ _)) by (rewrite length_app; simpl; lia).
    apply list.Forall_cons in Hev as [He Hev].
    destruct (tick_step_spec t before e after HR He Hsz) as (t1 & Hrun & HR1 & Hfi & Hen & Hj).
    rewrite Hrun. cbn [mbind outcome_bind fst snd].
    set (before' := if decide (ev_timeout e = 0) then before else before ++ [mkEvent (ev_callback e) (ev_timeout e - 1)]) in *.
    assert (Hs : before ++ survivors (e :: after) = before' ++ survivors after).
    { unfold before', survivors. rewrite filter_cons. destruct (decide (ev_timeout e = 0)) as [H0|H0].
      - rewrite decide_False by naive_solver. done.
      - rewrite decide_True by done. by rewrite <- app_assoc. }
    destruct (IH t1 before' after HR1 Hev) as (t' & Hrun' & HR' & Hfi' & Hen' & Hj').
    { assert ((length before' <= S (length before))%nat) by (unfold before'; destruct (decide (ev_timeout e = 0)); rewrite ?length_app; simpl; lia).
      rewrite length_app in Hsz |- *. simpl in Hsz. lia. }
    { simpl in Hf. lia. }
    exists t'. split_and!; [done|by rewrite Hs| | |congruence].
    + rewrite Hfi', Hfi, <- app_assoc. f_equal. unfold expired. rewrite filter_cons.
      repeat case_decide; try done.
    + rewrite Hen', Hen, Hs. clearbody before'. clear. destruct after as [|e' after].
      * change (survivors []) with (@nil Event). rewrite app_nil_r. repeat case_decide; try done; naive_solver.
      * rewrite (decide_False (P := before' ++ e' :: after = [])) by (by destruct before').
        repeat case_decide; try done; naive_solver.
Qed.

(** ** Theorems *)

(** C35. A tick of the core timer calls, in order, the callbacks of exactly the
    events whose timeout has reached zero, removes them, counts every other
    event down by one without reordering, and switches the timer off when no
    event is left; removal during the walk neither skips nor repeats an event. *)
Theorem tick_spec t evs :
  timers_rep t evs -> Z.of_nat (length evs) < 2 ^ 31 ->
  exists t', tick t = Ret t' /\ timers_rep t' (survivors evs) /\ ti_fired t' = ti_fired t ++ expired evs /\
    (evs <> [] -> survivors evs = [] -> ti_enabled t' = false) /\
    (survivors evs <> [] -> ti_enabled t' = ti_enabled t).
Proof.
  intros [HR Hev] Hsz. unfold tick. rewrite (dr_size _ _ HR), Nat2Z.id.
  destruct (tick_loop_spec (S (length evs)) (mkTimers (ti_events t) (ti_enabled t) (u32 (ti_jiffies t + 1)) (ti_fired t)) [] evs)
    as (t' & Hrun & HR' & Hf & Hen & _); [done|done|done|lia|].
  exists t'. split_and!; [done| |done| |].
  - split; [done|]. unfold survivors. apply list.Forall_forall. intros e (e0 & -> & He0)%list_elem_of_fmap.
    apply list_elem_of_filter in He0 as [Hne Hin]. rewrite list.Forall_forall in Hev. specialize (Hev e0 Hin). simpl. lia.
  - intros Hne Hs. rewrite Hen, decide_True by done. done.
  - intros Hs. rewrite Hen, decide_False; [done|]. intros [_ ?]. done.
Qed.

(** Two events, one of them due. *)
Definition demo_timers : Timers :=
  mkTimers (mkDeque [mkEvent 1 0; mkEvent 2 3; no_event; no_event] 2 4) true 7 [].

Lemma tick_spec_witness :
  exists t', tick demo_timers = Ret t' /\ timers_rep t' [mkEvent 2 2] /\ ti_fired t' = [1] /\
    ([mkEvent 1 0; mkEvent 2 3] <> [] -> [mkEvent 2 2] = [] -> ti_enabled t' = false) /\
    ([mkEvent 2 2] <> [] -> ti_enabled t' = true).
Proof.
  apply (tick_spec demo_timers [mkEvent 1 0; mkEvent 2 3]); [|simpl; lia].
  split; [split; simpl; [done|done|unfold DEFAULT_SIZE; lia|]|repeat (constructor; [simpl; lia|]); constructor].
  intros k x Hk. destruct k as [|[|k]]; simpl in *; done.
Defined.

(** [Deque]: insertion and removal at any index within the elements
    implement insertion and removal in a list, through every growth and
    shrinkage of the array. *)
Theorem deque_refines_list {T} (dflt : T) (d : Deque T) xs1 xs2 v :
  Z.of_nat (length (xs1 ++ v :: xs2)) < 2 ^ 30 ->
  (deque_rep d (xs1 ++ xs2) ->
     exists d', insert_at dflt (Z.of_nat (length xs1)) v d = Ret d' /\ deque_rep d' (xs1 ++ v :: xs2)) /\
  (deque_rep d (xs1 ++ v :: xs2) ->
     exists d', erase_at dflt (Z.of_nat (length xs1)) d = Ret d' /\ deque_rep d' (xs1 ++ xs2)).
Proof.
  intros Hsz. split; intros HR.
  - apply insert_at_spec; [done|]. rewrite length_app in *. simpl in Hsz. lia.
  - eapply erase_at_spec; [done|]. lia.
Qed.

Lemma deque_refines_list_witness :
  exists d', insert_at 0 0 7 (new_deque 0 4) = Ret d' /\ deque_rep d' [7].
Proof.
  apply (deque_refines_list 0 (new_deque 0 4) [] [] 7); [simpl; lia|].
  split; simpl; [done|done|unfold DEFAULT_SIZE; lia|done].
Defined.
