(* ===== verification/Slob.v ===== *)
(** * mm/SlobAllocator.cc, include/mm/SlobAllocator.h: the small-object allocator

    The heap is the set of chunk headers in the page frames the allocator has
    requested: a 16-byte cell at a 16-byte aligned address holds a header, a
    cell outside every requested frame is unmapped and accessing it faults.
    [junk] gives the contents of a frame when it is handed out. *)

From Stdlib Require Import ZArith Lia.
From stdpp Require Import base gmap list numbers.
From S2P Require Import Prelude Math Mmu Buddy.

Open Scope Z_scope.

(** ** Data *)

Definition smallest_chunk_size : Z := 0x20.
Definition largest_chunk_size : Z := 0x80.
Definition chunk_size_gap : Z := 0x10.
Definition nr_bins : Z := (largest_chunk_size - smallest_chunk_size) / chunk_size_gap + 1.

(** A pointer is an address, 0 for [nullptr]. *)
Record ChunkHeader := mkChunk { c_next : Z; c_index : Z; c_prev_chunk_size : Z }.

(** [sizeof(ChunkHeader)] *)
Definition get_chunk_header_size : Z := 16.

Record SlobAllocator := mkSlob {
  s_buddy : BuddyAllocator;
  s_begin : Z;
  s_top : Z;
  s_end : Z;
  s_top_prev : Z;
  s_bins : list Z;
  s_unsorted : Z;
  s_mem : gmap Z ChunkHeader
}.

Definition set_buddy (b : BuddyAllocator) (s : SlobAllocator) : SlobAllocator :=
  mkSlob b (s_begin s) (s_top s) (s_end s) (s_top_prev s) (s_bins s) (s_unsorted s) (s_mem s).
Definition set_top (top top_prev : Z) (s : SlobAllocator) : SlobAllocator :=
  mkSlob (s_buddy s) (s_begin s) top (s_end s) top_prev (s_bins s) (s_unsorted s) (s_mem s).
Definition set_bins (bins : list Z) (s : SlobAllocator) : SlobAllocator :=
  mkSlob (s_buddy s) (s_begin s) (s_top s) (s_end s) (s_top_prev s) bins (s_unsorted s) (s_mem s).
Definition set_unsorted (u : Z) (s : SlobAllocator) : SlobAllocator :=
  mkSlob (s_buddy s) (s_begin s) (s_top s) (s_end s) (s_top_prev s) (s_bins s) u (s_mem s).
Definition set_mem (m : gmap Z ChunkHeader) (s : SlobAllocator) : SlobAllocator :=
  mkSlob (s_buddy s) (s_begin s) (s_top s) (s_end s) (s_top_prev s) (s_bins s) (s_unsorted s) m.

Definition new_slob (b : BuddyAllocator) : SlobAllocator :=
  mkSlob b 0 0 0 0 (replicate (Z.to_nat nr_bins) 0) 0 ∅.

(** ** Chunk headers *)

Definition get_size (c : ChunkHeader) : Z := u64 (smallest_chunk_size + c_index c * chunk_size_gap).
Definition get_prev_chunk_size (c : ChunkHeader) : Z := Z.land (c_prev_chunk_size c) (Z.lnot 1).
Definition is_allocated (c : ChunkHeader) : bool := negb (Z.land (c_prev_chunk_size c) 1 =? 0).
Definition set_allocated (allocated : bool) (c : ChunkHeader) : ChunkHeader :=
  mkChunk (c_next c) (c_index c)
    (if allocated then Z.lor (c_prev_chunk_size c) 1 else Z.land (c_prev_chunk_size c) (Z.lnot 1)).
Definition set_prev_chunk_size (size : Z) (c : ChunkHeader) : ChunkHeader :=
  set_allocated (is_allocated c) (mkChunk (c_next c) (c_index c) (s32 size)).
Definition get_prev_chunk (addr : Z) (c : ChunkHeader) : Z := u64 (addr - get_prev_chunk_size c).
Definition get_next_chunk (addr : Z) (c : ChunkHeader) : Z := u64 (addr + get_size c).

Definition with_c_next (n : Z) (c : ChunkHeader) : ChunkHeader := mkChunk n (c_index c) (c_prev_chunk_size c).
Definition with_c_index (i : Z) (c : ChunkHeader) : ChunkHeader := mkChunk (c_next c) i (c_prev_chunk_size c).
Definition with_c_prev (p : Z) (c : ChunkHeader) : ChunkHeader := mkChunk (c_next c) (c_index c) p.

Definition get_bin_index (size : Z) : Z := s32 (u64 (size - smallest_chunk_size) / chunk_size_gap).
Definition slob_normalize_size (size : Z) : outcome Z :=
  round_up_to_multiple_of_n (max size smallest_chunk_size) 16.
Definition is_chunk_size_usable (chunk_size : Z) : bool := smallest_chunk_size <=? chunk_size.

Definition get_top_chunk_size (s : SlobAllocator) : Z := u64 (s_end s - s_top s).
Definition is_top_chunk_used_up (s : SlobAllocator) : bool := get_top_chunk_size s =? 0.
Definition is_top_chunk_large_enough (requested_size : Z) (s : SlobAllocator) : bool :=
  requested_size <=? get_top_chunk_size s.

Abbreviation SM := (M SlobAllocator).

Definition rd_chunk (a : Z) : SM ChunkHeader := s ← get; deref (s_mem s !! a).
Definition wr_chunk (a : Z) (f : ChunkHeader -> ChunkHeader) : SM unit :=
  c ← rd_chunk a; s ← get; put (set_mem (<[a := f c]> (s_mem s)) s).

(** ** Bins *)

(** [*bin_get_head(chunk)] and its assignment. *)
Definition rd_bin (index : Z) : SM Z :=
  s ← get; if nr_bins <=? index then mret (s_unsorted s) else deref (arr_get (s_bins s) index).
Definition wr_bin (index p : Z) : SM unit :=
  s ← get;
  if nr_bins <=? index then put (set_unsorted p s)
  else bins ← deref (arr_set (s_bins s) index p); put (set_bins bins s).

(** The [while (ptr)] loop of [bin_del_entry]. *)
Fixpoint bin_del_loop (fuel : nat) (chunk prev ptr : Z) : SM unit :=
  match fuel with
  | O => out_of_fuel
  | S fuel =>
      if ptr =? 0 then mret tt
      else
        c ← rd_chunk ptr;
        if ptr =? chunk then
          wr_chunk prev (with_c_next (c_next c));;
          wr_chunk ptr (with_c_next 0)
        else bin_del_loop fuel chunk ptr (c_next c)
  end.

Definition bin_del_entry (chunk : Z) : SM unit :=
  if chunk =? 0 then panic
  else
    c ← rd_chunk chunk;
    head ← rd_bin (c_index c);
    if head =? chunk then
      h ← rd_chunk head;
      wr_bin (c_index c) (c_next h);;
      wr_chunk chunk (with_c_next 0)
    else
      s ← get;
      bin_del_loop (S (S (size (s_mem s)))) chunk 0 head.

Definition bin_del_head (chunk : Z) : SM unit :=
  if chunk =? 0 then panic
  else
    c ← rd_chunk chunk;
    if nr_bins <=? c_index c then bin_del_entry chunk
    else
      head ← rd_bin (c_index c);
      if head =? 0 then mret tt
      else
        h ← rd_chunk head;
        wr_bin (c_index c) (c_next h);;
        wr_chunk chunk (with_c_next 0).

Definition bin_add_head (chunk : Z) : SM unit :=
  if chunk =? 0 then panic
  else
    c ← rd_chunk chunk;
    head ← rd_bin (c_index c);
    if head =? chunk then panic
    else if head =? 0 then
      wr_bin (c_index c) chunk;;
      wr_chunk chunk (with_c_next 0)
    else
      wr_chunk chunk (with_c_next head);;
      wr_bin (c_index c) chunk.

Definition discard (chunk : Z) : SM unit := wr_chunk chunk (set_allocated true).

(** ** Splitting *)

Definition split_from_top_chunk (requested_size : Z) : SM Z :=
  s ← get;
  if get_top_chunk_size s <? requested_size then panic
  else
    let chunk := s_top s in
    wr_chunk chunk (with_c_next 0);;
    wr_chunk chunk (with_c_index (get_bin_index requested_size));;
    wr_chunk chunk (with_c_prev (s_top_prev s));;
    wr_chunk chunk (set_allocated true);;
    modify (set_top (u64 (s_top s + requested_size)) (s32 requested_size));;
    mret chunk.

Definition split_from_chunk (chunk requested_size : Z) : SM Z :=
  if chunk =? 0 then panic
  else if negb (is_chunk_size_usable requested_size) then panic
  else
    c ← rd_chunk chunk;
    if c_index c <? 0 then panic
    else if get_size c <? requested_size then panic
    else
      let remainder_size := u64 (get_size c - requested_size) in
      let remainder := u64 (chunk + requested_size) in
      wr_chunk remainder (with_c_next 0);;
      wr_chunk remainder (with_c_index (get_bin_index remainder_size));;
      wr_chunk remainder (with_c_prev (s32 requested_size));;
      bin_del_head chunk;;
      (if is_chunk_size_usable remainder_size then
         wr_chunk remainder (set_allocated false);;
         bin_add_head remainder
       else discard remainder);;
      c ← rd_chunk chunk;
      let next_chunk := get_next_chunk chunk c in
      s ← get;
      (if negb (next_chunk =? s_top s) then wr_chunk next_chunk (set_prev_chunk_size remainder_size) else mret tt);;
      wr_chunk chunk (with_c_next 0);;
      wr_chunk chunk (with_c_index (get_bin_index requested_size));;
      wr_chunk chunk (set_allocated true);;
      mret chunk.

(** ** Allocation *)

Section allocation.
Context (junk : Z -> ChunkHeader).

(** The cells of a frame that has just been handed out. *)
Definition map_frame (frame : Z) (m : gmap Z ChunkHeader) : gmap Z ChunkHeader :=
  foldr (fun i m => <[frame + i * 16 := junk (frame + i * 16)]> m) m (seqZ 0 256).

Definition request_new_page_frame : SM bool :=
  page_frame ← zoom s_buddy set_buddy allocate_one_page_frame;
  if page_frame =? 0 then mret false
  else
    modify (fun s => mkSlob (s_buddy s) page_frame page_frame (u64 (page_frame + PAGE_SIZE)) (s_top_prev s)
                       (s_bins s) (s_unsorted s) (map_frame page_frame (s_mem s)));;
    mret true.

(** [for (chunk = _unsorted_bin; chunk; chunk = chunk->next)] *)
Fixpoint search_unsorted (fuel : nat) (chunk requested_size : Z) : SM (option Z) :=
  match fuel with
  | O => out_of_fuel
  | S fuel =>
      if chunk =? 0 then mret None
      else
        c ← rd_chunk chunk;
        if requested_size <=? get_size c then
          v ← split_from_chunk chunk requested_size; mret (Some v)
        else search_unsorted fuel (c_next c) requested_size
  end.

(** [for (; idx < nr_bins; idx++)] *)
Fixpoint search_bins (n : nat) (idx requested_size : Z) : SM (option Z) :=
  match n with
  | O => mret None
  | S n =>
      b ← rd_bin idx;
      if negb (b =? 0) then v ← split_from_chunk b requested_size; mret (Some v)
      else search_bins n (idx + 1) requested_size
  end.

(** From [is_top_chunk_used_up] on: the chunk, or [None] for [nullptr]. *)
Definition take_from_top (requested_size : Z) : SM (option Z) :=
  s ← get;
  ok ← (if is_top_chunk_used_up s then request_new_page_frame
        else if negb (is_top_chunk_large_enough requested_size s) then
          chunk ← split_from_top_chunk (get_top_chunk_size s);
          c ← rd_chunk chunk;
          (if is_chunk_size_usable (get_size c) then bin_add_head chunk else discard chunk);;
          request_new_page_frame
        else mret true);
  if negb ok then mret None
  else v ← split_from_top_chunk requested_size; mret (Some v).

(** The code after the label [out]; [victim + 1] skips the header. *)
Definition slob_out (victim : option Z) : SM Z :=
  match victim with
  | None => mret 0
  | Some victim => if is_aligned (u64 (victim + 16)) then panic else mret (u64 (victim + 16))
  end.

Definition slob_allocate (requested_size : Z) : SM Z :=
  if requested_size =? 0 then mret 0
  else
    requested_size ← lift (slob_normalize_size (u64 (get_chunk_header_size + requested_size)));
    let idx := get_bin_index requested_size in
    head ← (if idx <? nr_bins then rd_bin idx else mret 0);
    if negb (head =? 0) then
      wr_chunk head (set_allocated true);;
      bin_del_head head;;
      slob_out (Some head)
    else
      s ← get;
      v ← search_unsorted (S (S (size (s_mem s)))) (s_unsorted s) requested_size;
      match v with
      | Some v => slob_out (Some v)
      | None =>
          v ← search_bins (Z.to_nat (nr_bins - idx)) idx requested_size;
          match v with
          | Some v => slob_out (Some v)
          | None => v ← take_from_top requested_size; slob_out v
          end
      end.
End allocation.

(** ** Release *)

(** The merge with the previous chunk: the resulting chunk and its size. *)
Definition merge_prev (mid_chunk prev_chunk next_chunk chunk_size : Z) : SM (Z * Z) :=
  p ← rd_chunk prev_chunk;
  if negb (is_allocated p) && negb (is_aligned mid_chunk) then
    bin_del_entry prev_chunk;;
    p ← rd_chunk prev_chunk;
    let chunk_size := u64 (chunk_size + get_size p) in
    wr_chunk prev_chunk (with_c_next next_chunk);;
    wr_chunk prev_chunk (with_c_index (get_bin_index chunk_size));;
    wr_chunk next_chunk (set_prev_chunk_size chunk_size);;
    mret (prev_chunk, chunk_size)
  else mret (mid_chunk, chunk_size).

(** The merge with the next chunk. *)
Definition merge_next (chunk next_chunk chunk_size : Z) : SM unit :=
  s ← get;
  if is_aligned next_chunk then mret tt
  else if next_chunk =? s_top s then
    c ← rd_chunk chunk;
    modify (set_top chunk (get_prev_chunk_size c))
  else
    n ← rd_chunk next_chunk;
    if negb (is_allocated n) then
      bin_del_entry next_chunk;;
      n ← rd_chunk next_chunk;
      let chunk_size := u64 (chunk_size + get_size n) in
      let after := u64 (next_chunk + get_size n) in
      wr_chunk chunk (with_c_next after);;
      wr_chunk chunk (with_c_index (get_bin_index chunk_size));;
      wr_chunk after (set_prev_chunk_size chunk_size);;
      bin_add_head chunk
    else mret tt.

Definition slob_deallocate (p : Z) : SM unit :=
  if p =? 0 then mret tt
  else
    let mid_chunk := u64 (p - 16) in
    c ← rd_chunk mid_chunk;
    let prev_chunk := get_prev_chunk mid_chunk c in
    let next_chunk := get_next_chunk mid_chunk c in
    wr_chunk mid_chunk (set_allocated false);;
    r ← merge_prev mid_chunk prev_chunk next_chunk (get_size c);
    merge_next (fst r) next_chunk (snd r).
