(* ===== verification/SlobSpec.v ===== *)
(** * Properties of the small-object allocator

    Carving a chunk off the top of the current frame and giving it back, and
    two ways in which the free chunks are mishandled: a chunk released between
    two chunks in use is lost, and an exact fit from the unsorted bin writes a
    header over the chunk that follows. *)

From Stdlib Require Import ZArith Lia.
From stdpp Require Import base gmap list numbers.
From S2P Require Import Prelude Math Mmu Tiling Buddy BuddyProof BuddySpec Slob.

Open Scope Z_scope.

(** Zone 1, of 512 frames, which serves the small objects. *)
Definition slob_zone_begin : Z := 0x10200000.
Definition slob_zone_end : Z := 0x10400000.

(** ** Single steps *)

Lemma rd_chunk_run s a c : s_mem s !! a = Some c -> rd_chunk a s = Ret (c, s).
Proof. intros H. unfold rd_chunk. munfold. by rewrite H. Qed.

Lemma wr_chunk_run s a c f :
  s_mem s !! a = Some c -> wr_chunk a f s = Ret (tt, set_mem (<[a := f c]> (s_mem s)) s).
Proof. intros H. unfold wr_chunk. by mrun (rd_chunk_run _ _ _ H). Qed.

(** The four writes that make a header out of the top of the frame. *)
Definition top_header (s : SlobAllocator) (req : Z) : ChunkHeader :=
  mkChunk 0 (get_bin_index req) (Z.lor (s_top_prev s) 1).

Lemma split_top_run s req :
  is_Some (s_mem s !! s_top s) -> req <= get_top_chunk_size s ->
  split_from_top_chunk req s =
    Ret (s_top s, set_top (u64 (s_top s + req)) (s32 req) (set_mem (<[s_top s := top_header s req]> (s_mem s)) s)).
Proof.
  intros [c Hc] Hreq. unfold split_from_top_chunk. msimpl. rewrite (proj2 (Z.ltb_ge _ _)) by done.
  mrun (wr_chunk_run _ _ _ (with_c_next 0) Hc).
  erewrite bind_run; [|apply wr_chunk_run; simpl; apply lookup_insert_eq]. simpl.
  erewrite bind_run; [|apply wr_chunk_run; simpl; apply lookup_insert_eq]. simpl.
  erewrite bind_run; [|apply wr_chunk_run; simpl; apply lookup_insert_eq]. simpl.
  rewrite !insert_insert_eq. done.
Qed.

Lemma get_bin_index_small req : 32 <= req < 2 ^ 31 -> req mod 16 = 0 -> get_bin_index req = req / 16 - 2.
Proof.
  intros Hr Hm. unfold get_bin_index, smallest_chunk_size, chunk_size_gap. rewrite u64_id by lia.
  pose proof (Z.div_mod req 16 ltac:(lia)). replace (req - 32) with ((req / 16 - 2) * 16) by lia.
  rewrite Z.div_mul, s32_id by lia. done.
Qed.

Lemma get_size_index req next p : 32 <= req < 2 ^ 31 -> req mod 16 = 0 -> get_size (mkChunk next (get_bin_index req) p) = req.
Proof.
  intros Hr Hm. unfold get_size. cbn [c_index]. rewrite get_bin_index_small by done.
  unfold smallest_chunk_size, chunk_size_gap. pose proof (Z.div_mod req 16 ltac:(lia)). rewrite u64_id; lia.
Qed.

(** The size of the chunk that serves a request of [size] bytes. *)
Definition chunk_size_of (size : Z) : Z := (Z.max (16 + size) 32 + 15) / 16 * 16.

Lemma slob_normalize_spec size : 0 < size < 2 ^ 30 ->
  slob_normalize_size (u64 (get_chunk_header_size + size)) = Ret (chunk_size_of size) /\
  32 <= chunk_size_of size < 2 ^ 31 /\ chunk_size_of size mod 16 = 0 /\ size + 16 <= chunk_size_of size.
Proof.
  intros Hs. unfold slob_normalize_size, get_chunk_header_size, chunk_size_of.
  rewrite u64_id, max_spec by lia. unfold smallest_chunk_size. split.
  - rewrite round_up_multiple_closed by lia. do 3 f_equal. lia.
  - pose proof (Z.div_mod (Z.max (16 + size) 32 + 15) 16 ltac:(lia)).
    pose proof (Z.mod_pos_bound (Z.max (16 + size) 32 + 15) 16 ltac:(lia)).
    split_and!; [lia|lia| |lia]. by rewrite Z.mod_mul.
Qed.

(** ** Carving from the top *)

(** The top chunk of the current frame can serve a chunk of [req] bytes, and no
    free chunk of that size or more is in the bins. *)
Record top_serves (s : SlobAllocator) (req : Z) : Prop := {
  ts_begin : 0 < s_begin s /\ s_begin s mod 4096 = 0 /\ s_begin s + 4096 < 2 ^ 64;
  ts_end : s_end s = s_begin s + 4096;
  ts_top : s_begin s <= s_top s /\ s_top s + req < s_end s /\ s_top s mod 16 = 0;
  ts_cell : is_Some (s_mem s !! s_top s);
  ts_unsorted : s_unsorted s = 0;
  ts_len : length (s_bins s) = 7%nat;
  ts_bins : forall i, get_bin_index req <= i < nr_bins -> arr_get (s_bins s) i = Some 0
}.

Lemma rd_bin_run s i b : 0 <= i < nr_bins -> arr_get (s_bins s) i = Some b -> rd_bin i s = Ret (b, s).
Proof.
  intros Hi Hb. unfold rd_bin. msimpl. rewrite (proj2 (Z.leb_gt nr_bins i)) by lia. by rewrite Hb.
Qed.

Lemma search_bins_none n i req s :
  0 <= i -> i + Z.of_nat n = nr_bins \/ n = O -> (forall j, i <= j < nr_bins -> arr_get (s_bins s) j = Some 0) ->
  search_bins n i req s = Ret (None, s).
Proof.
  revert i. induction n as [|n IH]; intros i Hi Hn Hb; cbn [search_bins]; [done|].
  mrun (rd_bin_run s i 0 ltac:(lia) ltac:(apply Hb; lia)). cbn [Z.eqb negb]. apply IH; [lia|lia|]. intros. apply Hb. lia.
Qed.

Section top.
Context (junk : Z -> ChunkHeader) (s : SlobAllocator) (size : Z).
Abbreviation req := (chunk_size_of size).

Lemma slob_allocate_from_top :
  0 < size < 2 ^ 30 -> top_serves s req ->
  slob_allocate junk size s = Ret (s_top s + 16,
    set_top (s_top s + req) req (set_mem (<[s_top s := top_header s req]> (s_mem s)) s)).
Proof.
  intros Hs HT. destruct (slob_normalize_spec size Hs) as (Hn & Hr & Hm & Hle).
  destruct HT as [(Hb0 & Hbm & Hb) He (Ht1 & Ht2 & Ht3) Hc Hu Hl Hbins].
  assert (Hidx : 0 <= get_bin_index req) by (rewrite get_bin_index_small by done; assert (2 <= req / 16) by (apply Z.div_le_lower_bound; lia); lia).
  unfold slob_allocate. rewrite (proj2 (Z.eqb_neq size 0)) by lia. rewrite Hn. msimpl.
  assert (Hhead : (if get_bin_index req <? nr_bins then rd_bin (get_bin_index req) else mret 0) s = Ret (0, s)).
  { destruct (Z.ltb_spec (get_bin_index req) nr_bins); [|done]. apply rd_bin_run; [lia|]. apply Hbins. lia. }
  mrun Hhead. cbn [Z.eqb negb]. msimpl. rewrite Hu.
  assert (Hsu : search_unsorted (S (S (base.size (s_mem s)))) 0 req s = Ret (None, s)) by done.
  mrun Hsu.
  assert (Hsb : search_bins (Z.to_nat (nr_bins - get_bin_index req)) (get_bin_index req) req s = Ret (None, s)).
  { apply search_bins_none; [done| |done]. destruct (Z.le_gt_cases nr_bins (get_bin_index req)); lia. }
  mrun Hsb.
  assert (Hts : get_top_chunk_size s = s_end s - s_top s) by (unfold get_top_chunk_size; rewrite u64_id; lia).
  assert (Htop : take_from_top junk req s = Ret (Some (s_top s),
    set_top (s_top s + req) req (set_mem (<[s_top s := top_header s req]> (s_mem s)) s))).
  { unfold take_from_top. msimpl. unfold is_top_chunk_used_up, is_top_chunk_large_enough. rewrite Hts.
    rewrite (proj2 (Z.eqb_neq _ 0)) by lia. rewrite (proj2 (Z.leb_le req _)) by lia. cbn [negb]. msimpl. cbn [negb].
    erewrite bind_run; [|apply split_top_run; [done|rewrite Hts; lia]].
    rewrite u64_id, s32_id by lia. done. }
  mrun Htop. unfold slob_out. rewrite u64_id by lia.
  destruct (is_aligned (s_top s + 16)) eqn:Ha; [|done]. exfalso.
  apply is_aligned_spec in Ha. pose proof (Z.div_mod (s_top s + 16) 4096 ltac:(lia)).
  pose proof (Z.div_mod (s_begin s) 4096 ltac:(lia)). lia.
Qed.
End top.

(** ** Giving back the last chunk *)

Lemma testbit_1 i : 0 <= i -> Z.testbit 1 i = bool_decide (i = 0).
Proof.
  intros Hi. case_bool_decide as H0; [by subst|]. change 1 with (2 ^ 0). apply Z.pow2_bits_false. lia.
Qed.

Lemma clear_flag p : p mod 2 = 0 -> Z.land (Z.lor p 1) (Z.lnot 1) = p.
Proof.
  intros Hp. apply Z.bits_inj'. intros i Hi. rewrite Z.land_spec, Z.lor_spec, Z.lnot_spec, testbit_1 by lia.
  case_bool_decide as H0; [|by rewrite orb_false_r, andb_true_r].
  subst. rewrite Z.bit0_odd. rewrite andb_false_r. symmetry. rewrite <- Z.negb_even. apply negb_false_iff.
  apply Z.even_spec. exists (p / 2). pose proof (Z.div_mod p 2). lia.
Qed.

Lemma flag_set n i p : is_allocated (mkChunk n i (Z.lor p 1)) = true.
Proof.
  unfold is_allocated. cbn [c_prev_chunk_size]. apply negb_true_iff, Z.eqb_neq. intros H.
  assert (Hb : Z.testbit (Z.land (Z.lor p 1) 1) 0 = true) by (by rewrite Z.land_spec, Z.lor_spec, orb_true_r).
  by rewrite H in Hb.
Qed.

(** The chunk before the top chunk, as the header to be made of it records it. *)
Record prev_in_use (s : SlobAllocator) : Prop := {
  pu_range : 0 <= s_top_prev s < 2 ^ 31 /\ s_top_prev s <= s_top s /\ s_top_prev s mod 2 = 0;
  pu_cell : is_Some (s_mem s !! (s_top s - s_top_prev s));
  pu_alloc : s_top s = s_begin s \/
    (0 < s_top_prev s /\ exists c, s_mem s !! (s_top s - s_top_prev s) = Some c /\ is_allocated c = true)
}.

Lemma merge_prev_none s mid prev next size p :
  s_mem s !! prev = Some p -> is_allocated p = true \/ is_aligned mid = true ->
  merge_prev mid prev next size s = Ret ((mid, size), s).
Proof.
  intros Hp Hor. unfold merge_prev. mrun (rd_chunk_run _ _ _ Hp).
  replace (negb (is_allocated p) && negb (is_aligned mid)) with false; [done|].
  destruct Hor as [-> | ->]; [done|]. by rewrite andb_false_r.
Qed.

Lemma not_page_aligned b a : b mod 4096 = 0 -> b < a < b + 4096 -> is_aligned a = false.
Proof.
  intros Hb Ha. destruct (is_aligned a) eqn:E; [|done]. apply is_aligned_spec in E.
  pose proof (Z.div_mod a 4096 ltac:(lia)). pose proof (Z.div_mod b 4096 ltac:(lia)). lia.
Qed.

Lemma slob_release_last s req :
  32 <= req < 2 ^ 31 -> req mod 16 = 0 -> top_serves s req -> prev_in_use s ->
  let s1 := set_top (s_top s + req) req (set_mem (<[s_top s := top_header s req]> (s_mem s)) s) in
  slob_deallocate (s_top s + 16) s1 = Ret (tt,
    set_top (s_top s) (s_top_prev s)
      (set_mem (<[s_top s := mkChunk 0 (get_bin_index req) (s_top_prev s)]> (s_mem s)) s)).
Proof.
  intros Hr Hm HT [(Hp1 & Hp2 & Hp3) [pc Hpc] Hpa] s1.
  destruct HT as [(Hb0 & Hbm & Hb) He (Ht1 & Ht2 & Ht3) _ _ _ _].
  assert (Hcell : s_mem s1 !! s_top s = Some (top_header s req)) by (unfold s1; simpl; apply lookup_insert_eq).
  unfold slob_deallocate. rewrite (proj2 (Z.eqb_neq _ 0)) by lia.
  replace (s_top s + 16 - 16) with (s_top s) by lia. rewrite u64_id by lia.
  mrun (rd_chunk_run _ _ _ Hcell). mrun (wr_chunk_run _ _ _ (set_allocated false) Hcell).
  unfold get_prev_chunk, get_next_chunk, get_prev_chunk_size, top_header. rewrite get_size_index by done.
  cbn [c_prev_chunk_size]. rewrite clear_flag by done. rewrite !u64_id by lia.
  set (hdr := set_allocated false (mkChunk 0 (get_bin_index req) (Z.lor (s_top_prev s) 1))).
  assert (Hhdr : hdr = mkChunk 0 (get_bin_index req) (s_top_prev s)).
  { unfold hdr, set_allocated. cbn [c_next c_index c_prev_chunk_size]. by rewrite clear_flag. }
  set (s2 := set_mem (<[s_top s := hdr]> (s_mem s1)) s1).
  assert (Hmem2 : s_mem s2 = <[s_top s := hdr]> (s_mem s)) by (unfold s2, s1; simpl; by rewrite insert_insert_eq).
  assert (Hprev : exists p, s_mem s2 !! (s_top s - s_top_prev s) = Some p /\
    (is_allocated p = true \/ is_aligned (s_top s) = true)).
  { rewrite Hmem2. destruct Hpa as [Htop|(Hpos & c & Hc & Hal)].
    - assert (Ha : is_aligned (s_top s) = true) by (apply is_aligned_spec; by rewrite Htop).
      rewrite lookup_insert. case_decide; eauto.
    - exists c. rewrite lookup_insert_ne by lia. auto. }
  destruct Hprev as (p & Hp & Hor). mrun (merge_prev_none s2 (s_top s) _ (s_top s + req) req p Hp Hor).
  cbn [fst snd]. unfold merge_next. msimpl.
  rewrite (not_page_aligned (s_begin s)) by (done || lia).
  replace (s_top s2) with (s_top s + req) by done. rewrite Z.eqb_refl.
  assert (Hmid : s_mem s2 !! s_top s = Some hdr) by (rewrite Hmem2; apply lookup_insert_eq).
  mrun (rd_chunk_run _ _ _ Hmid). unfold modify. rewrite Hhdr. unfold get_prev_chunk_size. cbn [c_prev_chunk_size].
  do 2 f_equal. unfold set_top. unfold s2, s1, set_mem, set_top. simpl. rewrite insert_insert_eq, Hhdr. f_equal.
  rewrite <- (clear_flag (s_top_prev s)) at 1 by done. rewrite <- Z.land_assoc, Z.land_diag. by apply clear_flag.
Qed.

(** ** A frame of chunks in use

    The chunks of the current frame, all in use, from its beginning to the top:
    taking one from the top adds it to the list, and giving back the last one
    takes it off again. *)

Definition sum_list (cs : list Z) : Z := foldr Z.add 0 cs.
Definition last_size (q : Z) (cs : list Z) : Z := default q (list.last cs).

(** Each header records its own size, the one before, and that it is in use. *)
Fixpoint headers (m : gmap Z ChunkHeader) (a q : Z) (cs : list Z) : Prop :=
  match cs with
  | [] => True
  | c :: cs => m !! a = Some (mkChunk 0 (get_bin_index c) (Z.lor q 1)) /\ 32 <= c /\ c mod 16 = 0 /\ headers m (a + c) c cs
  end.

(** The user areas: where each begins and how many bytes it has. *)
Fixpoint areas (a : Z) (cs : list Z) : list (Z * Z) :=
  match cs with [] => [] | c :: cs => (a + 16, c - 16) :: areas (a + c) cs end.

Record carved (s : SlobAllocator) (cs : list Z) : Prop := {
  cv_frame : slob_zone_begin <= s_begin s /\ s_begin s mod 4096 = 0 /\ s_begin s + 4096 <= slob_zone_end;
  cv_end : s_end s = s_begin s + 4096;
  cv_top : s_top s = s_begin s + sum_list cs /\ s_top s < s_end s;
  cv_cells : forall i, 0 <= i < 256 -> is_Some (s_mem s !! (s_begin s + i * 16));
  cv_headers : exists q, 0 <= q < 2 ^ 31 /\ q <= s_begin s /\ q mod 2 = 0 /\ is_Some (s_mem s !! (s_begin s - q)) /\
    s_top_prev s = last_size q cs /\ headers (s_mem s) (s_begin s) q cs;
  cv_bins : s_bins s = replicate 7 0 /\ s_unsorted s = 0
}.

Lemma sum_list_app cs c : sum_list (cs ++ [c]) = sum_list cs + c.
Proof. induction cs as [|d cs IH]; simpl; [lia|]. unfold sum_list in *. lia. Qed.
Lemma last_size_app q cs c : last_size q (cs ++ [c]) = c.
Proof. unfold last_size. by rewrite last_snoc. Qed.
Lemma last_size_cons q c cs : last_size q (c :: cs) = last_size c cs.
Proof. unfold last_size. rewrite last_cons. by destruct (list.last cs). Qed.

Lemma headers_app m a q cs c : headers m a q (cs ++ [c]) <->
  headers m a q cs /\ m !! (a + sum_list cs) = Some (mkChunk 0 (get_bin_index c) (Z.lor (last_size q cs) 1)) /\ 32 <= c /\ c mod 16 = 0.
Proof.
  revert a q. induction cs as [|d cs IH]; intros a q; cbn [app headers].
  - unfold last_size. simpl. rewrite Z.add_0_r. tauto.
  - rewrite IH, last_size_cons. unfold sum_list. simpl. rewrite Z.add_assoc. tauto.
Qed.

(** What the headers say of the sizes. *)
Lemma headers_sizes m a q cs : headers m a q cs -> 0 <= sum_list cs /\ sum_list cs mod 16 = 0 /\ Forall (fun c => 32 <= c /\ c mod 16 = 0) cs.
Proof.
  revert a q. induction cs as [|c cs IH]; intros a q H; cbn [headers] in H; [by split_and!|]. destruct H as (_ & H1 & H2 & H).
  destruct (IH _ _ H) as (H3 & H4 & H5). unfold sum_list in *. simpl. split_and!; [lia| |by constructor].
  by rewrite Z.add_mod, H2, H4 by lia.
Qed.

(** The headers are below the top: a write there does not change them. *)
Lemma headers_insert m a q cs x h : headers m a q cs -> a + sum_list cs <= x -> headers (<[x := h]> m) a q cs.
Proof.
  revert a q. induction cs as [|c cs IH]; intros a q H Hx; cbn [headers] in *; [done|]. destruct H as (Hm & H1 & H2 & H).
  pose proof (headers_sizes _ _ _ _ H) as (H0 & _). unfold sum_list in *. simpl in Hx. split_and!; [rewrite lookup_insert_ne by lia; done|done|done|].
  apply IH; [done|lia].
Qed.

Lemma areas_below a cs q n : (q, n) ∈ areas a cs -> Forall (fun c => 32 <= c /\ c mod 16 = 0) cs -> a + 16 <= q /\ 16 <= n /\ q + n <= a + sum_list cs.
Proof.
  revert a. induction cs as [|c cs IH]; intros a Hin Hall; cbn [areas] in Hin; [by apply elem_of_nil in Hin|].
  apply list.Forall_cons in Hall as [Hc Hall].
  assert (0 <= sum_list cs) by (clear -Hall; induction Hall; unfold sum_list in *; simpl; lia). unfold sum_list in *. simpl.
  apply elem_of_cons in Hin as [[= -> ->]|Hin]; [lia|]. specialize (IH (a + c) Hin Hall). lia.
Qed.

Section frame.
Context (s : SlobAllocator) (cs : list Z) (Hc : carved s cs).

Lemma carved_top_cell : is_Some (s_mem s !! s_top s) /\ s_top s mod 16 = 0 /\ s_begin s <= s_top s.
Proof.
  destruct Hc as [(Hb & Hm & He) Hend [Ht Hlt] Hcells (q & _ & _ & _ & _ & _ & Hh) _]. destruct (headers_sizes _ _ _ _ Hh) as (H0 & H16 & _).
  pose proof (Z.div_mod (sum_list cs) 16 ltac:(lia)) as Hd. rewrite H16 in Hd. split_and!; [|rewrite Ht|lia].
  - rewrite Ht. replace (sum_list cs) with (sum_list cs / 16 * 16) by lia. apply Hcells. lia.
  - pose proof (Z.div_mod (s_begin s) 4096 ltac:(lia)). replace (s_begin s + sum_list cs) with ((s_begin s / 4096 * 256 + sum_list cs / 16) * 16) by lia. by rewrite Z.mod_mul.
Qed.

Lemma carved_serves req : 32 <= req < 2 ^ 31 -> req mod 16 = 0 -> s_top s + req < s_end s -> top_serves s req.
Proof.
  intros Hr Hm Hfit. destruct carved_top_cell as (Hcell & H16 & Hge). destruct Hc as [(Hb & Hbm & He) Hend [Ht Hlt] Hcells _ [Hbins Hu]].
  unfold slob_zone_begin, slob_zone_end in *. split; [lia|done|done|done|done|by rewrite Hbins|].
  intros i Hi. rewrite get_bin_index_small in Hi by done. assert (2 <= req / 16) by (apply Z.div_le_lower_bound; lia).
  rewrite Hbins. unfold nr_bins, largest_chunk_size, smallest_chunk_size, chunk_size_gap in Hi. change ((128 - 32) / 16 + 1) with 7 in Hi.
  unfold arr_get. rewrite decide_True by lia. apply lookup_replicate. split; [done|lia].
Qed.

Lemma carved_prev : prev_in_use s.
Proof.
  destruct carved_top_cell as (Hcell & H16 & Hge). destruct Hc as [(Hb & Hbm & He) Hend [Ht Hlt] Hcells (q & Hq & Hqb & Hq2 & Hqc & Hprev & Hh) _].
  unfold slob_zone_begin in Hb. destruct cs as [|c cs' _] using rev_ind.
  - unfold last_size, sum_list in *. simpl in *. rewrite Z.add_0_r in Ht. split; [rewrite Hprev, Ht; split_and!; lia|by rewrite Hprev, Ht|by left].
  - rewrite last_size_app in Hprev. rewrite sum_list_app in Ht. apply headers_app in Hh as (Hh & Hm & H32 & Hc16).
    destruct (headers_sizes _ _ _ _ Hh) as (H0 & _). assert (Heq : s_top s - s_top_prev s = s_begin s + sum_list cs') by lia.
    assert (Hc2 : c mod 2 = 0) by (pose proof (Z.div_mod c 16 ltac:(lia)); replace c with (c / 16 * 8 * 2) by lia; by rewrite Z.mod_mul).
    split; rewrite ?Heq; [rewrite Hprev; split_and!; (done || lia)|by rewrite Hm|]. right. split; [lia|].
    exists (mkChunk 0 (get_bin_index c) (Z.lor (last_size q cs') 1)). split; [done|apply flag_set].
Qed.

Lemma carved_push junk size : 0 < size < 4080 -> s_top s + chunk_size_of size < s_end s ->
  exists s1, slob_allocate junk size s = Ret (s_top s + 16, s1) /\ carved s1 (cs ++ [chunk_size_of size]) /\ s_begin s1 = s_begin s.
Proof.
  intros Hs Hfit. destruct (slob_normalize_spec size ltac:(lia)) as (_ & Hr & Hm & Hle). destruct carved_top_cell as (Hcell & H16 & Hge).
  eexists. split; [apply slob_allocate_from_top; [lia|by apply carved_serves]|]. split; [|done].
  destruct Hc as [Hfr Hend [Ht Hlt] Hcells (q & Hq & Hqb & Hq2 & Hqc & Hprev & Hh) Hbins]. split; simpl; [done|done| | | |done].
  - rewrite sum_list_app. lia.
  - intros i Hi. rewrite lookup_insert_is_Some'. right. by apply Hcells.
  - exists q. split_and!; try lia; [ |by rewrite last_size_app|].
    + rewrite lookup_insert_is_Some'. by right.
    + apply headers_app. split_and!; [apply headers_insert; [done|lia]| |lia|done]. rewrite <- Ht, lookup_insert_eq. unfold top_header. by rewrite Hprev.
Qed.
End frame.

Lemma carved_pop s cs c : carved s (cs ++ [c]) ->
  exists s', slob_deallocate (s_top s - c + 16) s = Ret (tt, s') /\ carved s' cs /\ s_top s' = s_top s - c /\ s_begin s' = s_begin s.
Proof.
  intros [Hfr Hend [Ht Hlt] Hcells (q & Hq & Hqb & Hq2 & Hqc & Hprev & Hh) Hbins]. rewrite sum_list_app in Ht. rewrite last_size_app in Hprev.
  apply headers_app in Hh as (Hh & Hm & H32 & Hc16). destruct (headers_sizes _ _ _ _ Hh) as (H0 & _).
  set (s0 := set_top (s_top s - c) (last_size q cs) s).
  assert (Hc0 : carved s0 cs).
  { split; simpl; [done|done|lia|done| |done]. exists q. split_and!; done || lia. }
  assert (Hs : s = set_top (s_top s0 + c) c (set_mem (<[s_top s0 := top_header s0 c]> (s_mem s0)) s0)).
  { unfold top_header. simpl. rewrite insert_id; [|by replace (s_top s - c) with (s_begin s + sum_list cs) by lia].
    unfold set_top, set_mem, s0. destruct s. simpl in *. f_equal; lia. }
  assert (Hlen : c < 4096) by (unfold slob_zone_begin in Hfr; lia).
  pose proof (slob_release_last s0 c ltac:(lia) Hc16 (carved_serves s0 cs Hc0 c ltac:(lia) Hc16 ltac:(simpl; lia)) (carved_prev s0 cs Hc0)) as Hrel.
  cbn zeta in Hrel. rewrite <- Hs in Hrel. eexists. split; [exact Hrel|]. split; [|done].
  split; simpl; [done|done|lia| | |done].
  - intros i Hi. rewrite lookup_insert_is_Some'. right. by apply Hcells.
  - exists q. split_and!; try done; try lia; [rewrite lookup_insert_is_Some'; by right|]. apply headers_insert; [done|lia].
Qed.

(** ** A chunk between two chunks in use *)

(** The chunk at [a] and its two neighbours. *)
Record between_live (s : SlobAllocator) (a : Z) (c : ChunkHeader) : Prop := {
  bl_cell : s_mem s !! a = Some c;
  bl_addr : 0 < a /\ a + 16 < 2 ^ 64;
  bl_prev : exists p, get_prev_chunk a c <> a /\ s_mem s !! get_prev_chunk a c = Some p /\ is_allocated p = true;
  bl_next : exists n, get_next_chunk a c <> a /\ s_mem s !! get_next_chunk a c = Some n /\ is_allocated n = true;
  bl_next_addr : is_aligned (get_next_chunk a c) = false /\ get_next_chunk a c <> s_top s
}.

Lemma slob_free_between s a c :
  between_live s a c ->
  slob_deallocate (a + 16) s = Ret (tt, set_mem (<[a := set_allocated false c]> (s_mem s)) s).
Proof.
  intros [Hc Ha (p & Hpa & Hp & Hpal) (n & Hna & Hn & Hnal) [Hnp Hnt]].
  unfold slob_deallocate. rewrite (proj2 (Z.eqb_neq _ 0)) by lia.
  replace (a + 16 - 16) with a by lia. rewrite u64_id by lia.
  mrun (rd_chunk_run _ _ _ Hc). mrun (wr_chunk_run _ _ _ (set_allocated false) Hc).
  set (s2 := set_mem (<[a := set_allocated false c]> (s_mem s)) s).
  assert (Hp2 : s_mem s2 !! get_prev_chunk a c = Some p) by (unfold s2; simpl; by rewrite lookup_insert_ne).
  assert (Hn2 : s_mem s2 !! get_next_chunk a c = Some n) by (unfold s2; simpl; by rewrite lookup_insert_ne).
  mrun (merge_prev_none s2 a _ (get_next_chunk a c) (get_size c) p Hp2 (or_introl Hpal)).
  cbn [fst snd]. unfold merge_next. msimpl. rewrite Hnp, (proj2 (Z.eqb_neq _ _)) by done.
  mrun (rd_chunk_run _ _ _ Hn2). by rewrite Hnal.
Qed.

(** ** Theorems *)

(** A request that the top of the current frame can serve gets the chunk at
    the top: its user area of at least [size] bytes starts right after a header
    that records its exact size, lies inside the frame and below the new top;
    and giving it back at once, while the chunk before it is in use, restores
    the top, its recorded predecessor, the bins and the page allocator. *)
Theorem slob_top_roundtrip junk s size :
  0 < size < 2 ^ 30 -> top_serves s (chunk_size_of size) -> prev_in_use s ->
  exists s1 s2, slob_allocate junk size s = Ret (s_top s + 16, s1) /\
    slob_deallocate (s_top s + 16) s1 = Ret (tt, s2) /\
    (exists h, s_mem s1 !! s_top s = Some h /\ get_size h = chunk_size_of size /\ is_allocated h = true) /\
    s_top s + 16 + size <= s_top s1 < s_end s /\
    s_top s2 = s_top s /\ s_top_prev s2 = s_top_prev s /\ s_bins s2 = s_bins s /\
    s_unsorted s2 = s_unsorted s /\ s_buddy s2 = s_buddy s /\
    forall a, a <> s_top s -> s_mem s2 !! a = s_mem s !! a.
Proof.
  intros Hs HT HP. destruct (slob_normalize_spec size Hs) as (_ & Hr & Hm & Hle).
  eexists _, _. split; [by apply slob_allocate_from_top|]. split; [by apply slob_release_last|].
  destruct HT as [_ _ (Ht1 & Ht2 & _) _ _ _ _].
  split_and!; try done; cbn [s_top set_top]; try lia.
  - exists (top_header s (chunk_size_of size)). simpl. split_and!; [apply lookup_insert_eq| |apply flag_set].
    by apply get_size_index.
  - intros a Ha. simpl. by rewrite lookup_insert_ne.
Qed.

(** A chunk released while both its neighbours are in use is never put on a
    bin: the bins, the unsorted bin and the top chunk stay as they were, so no
    later request can be served from it. *)
Theorem slob_freed_between_live_is_lost s a c :
  between_live s a c ->
  exists s', slob_deallocate (a + 16) s = Ret (tt, s') /\
    s_bins s' = s_bins s /\ s_unsorted s' = s_unsorted s /\ s_top s' = s_top s /\ s_end s' = s_end s /\
    forall b, b <> a -> s_mem s' !! b = s_mem s !! b.
Proof.
  intros HB. eexists. split; [by apply slob_free_between|]. split_and!; try done.
  intros b Hb. simpl. by rewrite lookup_insert_ne.
Qed.

(** Three requests on a fresh zone whose second frame follows the first. *)
Definition slob_zone : Z := 0x10200000.
Definition no_junk (a : Z) : ChunkHeader := mkChunk 0 0 0.
Definition fresh_slob : SlobAllocator := new_slob (fresh_buddy slob_zone).

Definition three_requests : M SlobAllocator (Z * Z * Z) :=
  p1 ← slob_allocate no_junk 3920; p2 ← slob_allocate no_junk 200;
  p3 ← slob_allocate no_junk 144; mret (p1, p2, p3).

Definition header_lost (o : outcome (Z * Z * Z * SlobAllocator)) : bool :=
  match o with
  | Ret ((p1, p2, p3), s) =>
      (p3 + 144 <=? p2 - 16) &&
      match s_mem s !! (p2 - 16) with
      | Some h => (c_index h =? -2) && (get_size h =? 0)
      | None => false
      end
  | _ => false
  end.

Lemma three_requests_lose : header_lost (three_requests fresh_slob) = true.
Proof. vm_compute. reflexivity. Qed.

(** An exact fit from the unsorted bin overwrites the header of the chunk
    that follows: after requests of 3920, 200 and 144 bytes, none of them yet
    released, the header of the 200-byte block has lost its size. *)
Theorem slob_exact_fit_corrupts :
  exists s p1 p2 p3, three_requests fresh_slob = Ret ((p1, p2, p3), s) /\ p3 + 144 <= p2 - 16 /\
    exists h, s_mem s !! (p2 - 16) = Some h /\ c_index h = -2 /\ get_size h = 0.
Proof.
  pose proof three_requests_lose as Hl. unfold header_lost in Hl.
  destruct (three_requests fresh_slob) as [[[[p1 p2] p3] s]| | |]; try done.
  apply andb_true_iff in Hl as [Hle Hl]. destruct (s_mem s !! (p2 - 16)) as [h|] eqn:Hh; [|done].
  apply andb_true_iff in Hl as [Hi Hsz]. exists s, p1, p2, p3. split_and!; [done|lia|].
  exists h. split_and!; [done|lia|lia].
Qed.

(** ** Witnesses *)

(** A frame of which the first 64 bytes are in use. *)
Definition carved_slob : SlobAllocator :=
  mkSlob (fresh_buddy slob_zone) slob_zone (slob_zone + 64) (slob_zone + 4096) 64 (replicate 7 0) 0
    (<[slob_zone := mkChunk 0 2 1]> (<[slob_zone + 64 := mkChunk 0 0 0]> ∅)).

Lemma slob_top_roundtrip_witness :
  exists s1 s2, slob_allocate no_junk 100 carved_slob = Ret (slob_zone + 80, s1) /\
    slob_deallocate (slob_zone + 80) s1 = Ret (tt, s2) /\ s_top s2 = slob_zone + 64.
Proof.
  destruct (slob_top_roundtrip no_junk carved_slob 100) as (s1 & s2 & H1 & H2 & _ & _ & Ht & _).
  - lia.
  - change (chunk_size_of 100) with 128. split; simpl.
    + unfold slob_zone. split_and!; [lia|reflexivity|lia].
    + reflexivity.
    + unfold slob_zone. split_and!; [lia|lia|reflexivity].
    + exists (mkChunk 0 0 0). reflexivity.
    + reflexivity.
    + reflexivity.
    + intros i Hi. change (get_bin_index 128) with 6 in Hi. change nr_bins with 7 in Hi.
      assert (i = 6) as -> by lia. reflexivity.
  - split; simpl.
    + unfold slob_zone. split_and!; [lia|lia|lia|reflexivity].
    + exists (mkChunk 0 2 1). reflexivity.
    + right. split; [lia|]. exists (mkChunk 0 2 1). split; reflexivity.
  - exists s1, s2. split_and!; [exact H1|exact H2|exact Ht].
Defined.

(** Three chunks of 64 bytes, all in use. *)
Definition busy_slob : SlobAllocator :=
  mkSlob (fresh_buddy slob_zone) slob_zone (slob_zone + 192) (slob_zone + 4096) 64 (replicate 7 0) 0
    (<[slob_zone := mkChunk 0 2 1]> (<[slob_zone + 64 := mkChunk 0 2 65]> (<[slob_zone + 128 := mkChunk 0 2 65]> ∅))).

Lemma slob_freed_between_live_is_lost_witness :
  exists s', slob_deallocate (slob_zone + 64 + 16) busy_slob = Ret (tt, s') /\
    s_bins s' = replicate 7 0 /\ s_unsorted s' = 0 /\ s_top s' = slob_zone + 192 /\ s_end s' = slob_zone + 4096 /\
    forall b, b <> slob_zone + 64 -> s_mem s' !! b = s_mem busy_slob !! b.
Proof.
  apply (slob_freed_between_live_is_lost busy_slob (slob_zone + 64) (mkChunk 0 2 65)). split.
  - reflexivity.
  - unfold slob_zone. lia.
  - exists (mkChunk 0 2 1). split_and!; [done|reflexivity|reflexivity].
  - exists (mkChunk 0 2 65). split_and!; [done|reflexivity|reflexivity].
  - split; [reflexivity|done].
Defined.
