(* ===== verification/Memory.v ===== *)
(** * mm/MemoryManager.cc, mm/AddressSanitizer.cc, include/mm/Zone.h

    The two zones, the table of allocated pointers that detects double frees,
    the reference counts of the page frames, and the kernel's allocation
    functions, each a critical section of the kernel lock.  The contents a
    frame has when the small-object allocator receives it are [junk]; the size
    of the RAM, which the mailbox reports, is an argument of the constructor. *)

From Stdlib Require Import ZArith Lia.
From stdpp Require Import base gmap list numbers.
From S2P Require Import Prelude Math Mmu Mutex Buddy BuddyProof BuddySpec Slob.

Open Scope Z_scope.

(** ** AddressSanitizer *)

Definition NR_SLOTS : nat := 1000.

(** [void *_allocated_pointers[1000]] *)
Abbreviation AddressSanitizer := (list Z) (only parsing).
Definition new_kasan : AddressSanitizer := replicate NR_SLOTS 0.

(** The loop of [mark_free_chk]: clears the first slot that holds [p]. *)
Fixpoint clear_slot (p : Z) (slots : AddressSanitizer) : option AddressSanitizer :=
  match slots with
  | [] => None
  | q :: slots => if p =? q then Some (0 :: slots) else cons q <$> clear_slot p slots
  end.

Definition mark_free_chk (p : Z) : M AddressSanitizer bool :=
  slots ← get;
  match clear_slot p slots with
  | Some slots => put slots;; mret true
  | None => panic
  end.

(** The second loop of [mark_allocated]: fills the first empty slot, if any. *)
Fixpoint fill_slot (p : Z) (slots : AddressSanitizer) : AddressSanitizer :=
  match slots with
  | [] => []
  | q :: slots => if q =? 0 then p :: slots else q :: fill_slot p slots
  end.

Definition mark_allocated (p : Z) : M AddressSanitizer unit :=
  slots ← get;
  if existsb (Z.eqb p) slots then panic else put (fill_slot p slots).

#[global] Arguments mark_allocated : simpl never.
#[global] Arguments mark_free_chk : simpl never.

(** ** Zones and the memory manager *)

(** The zone's buddy allocator is the one its slob allocator points to. *)
Record Zone := mkZone { begin_addr : Z; slob_allocator : SlobAllocator }.
Definition buddy_allocator (z : Zone) : BuddyAllocator := s_buddy (slob_allocator z).
Definition set_slob_allocator (s : SlobAllocator) (z : Zone) : Zone := mkZone (begin_addr z) s.
Definition set_buddy_allocator (b : BuddyAllocator) (z : Zone) : Zone :=
  mkZone (begin_addr z) (set_buddy b (slob_allocator z)).
Definition new_zone (begin_addr : Z) : outcome Zone :=
  b ← new_buddy begin_addr; Ret (mkZone begin_addr (new_slob b)).

Record MemoryManager := mkMM {
  ram_size : Z;
  mm_zone0 : Zone;
  mm_zone1 : Zone;
  ref_counts : list Z;
  page_writable : list bool;
  kasan : AddressSanitizer
}.
Definition set_zone0 (z : Zone) (m : MemoryManager) : MemoryManager :=
  mkMM (ram_size m) z (mm_zone1 m) (ref_counts m) (page_writable m) (kasan m).
Definition set_zone1 (z : Zone) (m : MemoryManager) : MemoryManager :=
  mkMM (ram_size m) (mm_zone0 m) z (ref_counts m) (page_writable m) (kasan m).
Definition set_ref_counts (r : list Z) (m : MemoryManager) : MemoryManager :=
  mkMM (ram_size m) (mm_zone0 m) (mm_zone1 m) r (page_writable m) (kasan m).
Definition set_kasan (k : AddressSanitizer) (m : MemoryManager) : MemoryManager :=
  mkMM (ram_size m) (mm_zone0 m) (mm_zone1 m) (ref_counts m) (page_writable m) k.

Definition new_memory_manager (ram : Z) : outcome MemoryManager :=
  z0 ← new_zone 0x10000000;
  z1 ← new_zone 0x10200000;
  Ret (mkMM ram z0 z1 (replicate (Z.to_nat MAX_ORDER_NR_PAGES) 0)
         (replicate (Z.to_nat MAX_ORDER_NR_PAGES) false) new_kasan).

(** The manager and the lock that protects it. *)
Record Kernel := mkKernel { k_cpu : Cpu; k_mm : MemoryManager }.
Definition set_k_mm (m : MemoryManager) (k : Kernel) : Kernel := mkKernel (k_cpu k) m.
#[export] Instance kernel_has_cpu : HasCpu Kernel :=
  { cpu_of := k_cpu; with_cpu c k := mkKernel c (k_mm k) }.
#[export] Instance kernel_cpu_laws : HasCpuLaws Kernel.
Proof. split; [done|by intros []|done]. Qed.

Definition on_mm {A} (m : M MemoryManager A) : M Kernel A := zoom k_mm set_k_mm m.
Definition on_buddy0 {A} : M BuddyAllocator A -> M MemoryManager A :=
  zoom (fun m => buddy_allocator (mm_zone0 m)) (fun b m => set_zone0 (set_buddy_allocator b (mm_zone0 m)) m).
Definition on_slob1 {A} : M SlobAllocator A -> M MemoryManager A :=
  zoom (fun m => slob_allocator (mm_zone1 m)) (fun s m => set_zone1 (set_slob_allocator s (mm_zone1 m)) m).
Definition on_kasan {A} : M AddressSanitizer A -> M MemoryManager A := zoom kasan set_kasan.

Section allocation.
Context (junk : Z -> ChunkHeader).

Definition get_free_page (physical : bool) : M Kernel Z :=
  guarded (on_mm (
    ret ← on_buddy0 allocate_one_page_frame;
    on_kasan (mark_allocated ret);;
    mret (if physical then ret else u64 (KERNEL_VA_BASE + ret)))).

Definition kmalloc (size : Z) : M Kernel Z :=
  guarded (on_mm (
    ret ← (if PAGE_SIZE <=? u64 (size + get_chunk_header_size)
           then on_buddy0 (Buddy.allocate size)
           else on_slob1 (slob_allocate junk size));
    on_kasan (mark_allocated ret);;
    mret ret)).

Definition kfree (p : Z) : M Kernel unit :=
  let p := if KERNEL_VA_BASE <=? p then p - KERNEL_VA_BASE else p in
  guarded (on_mm (
    on_kasan (mark_free_chk p);;
    if is_aligned p then on_buddy0 (Buddy.deallocate p) else on_slob1 (slob_deallocate p))).
End allocation.

Definition get_page_ref_idx (addr : Z) : M MemoryManager Z :=
  m ← get;
  if (addr <? begin_addr (mm_zone0 m)) || (begin_addr (mm_zone1 m) <=? addr) then panic
  else if negb (is_aligned addr) then panic
  else mret (s32 (Z.shiftr (u64 (addr - begin_addr (mm_zone0 m))) 12)).

(** [_ref_counts[idx] += d], the new value. *)
Definition add_ref (d : Z) (idx : Z) : M MemoryManager Z :=
  m ← get;
  c ← deref (arr_get (ref_counts m) idx);
  c ← lift (int_ck (c + d));
  r ← deref (arr_set (ref_counts m) idx c);
  put (set_ref_counts r m);;
  mret c.

Definition inc_page_ref_count (p_addr : Z) : M Kernel Z :=
  idx ← on_mm (get_page_ref_idx p_addr); guarded (on_mm (add_ref 1 idx)).
Definition dec_page_ref_count (p_addr : Z) : M Kernel Z :=
  idx ← on_mm (get_page_ref_idx p_addr); guarded (on_mm (add_ref (-1) idx)).
Definition get_page_ref_count (p_addr : Z) : M Kernel Z :=
  idx ← on_mm (get_page_ref_idx p_addr);
  guarded (on_mm (m ← get; deref (arr_get (ref_counts m) idx))).
