(* ===== verification/MemInfo.v ===== *)
(** * [to_string] of the allocators, [get_buddy_info] and [get_slob_info]

    The reports of mm/BuddyAllocator.cc and mm/SlobAllocator.cc that
    /proc/buddyinfo and /proc/slobinfo show.  A line is formatted into
    [linebuf] (64 bytes) and appended to the text; a text is the list of its
    characters. *)

From Stdlib Require Import ZArith Lia String Ascii.
From stdpp Require Import base gmap list numbers.
From S2P Require Import Prelude Math Mmu Mutex Tiling Buddy BuddyProof BuddySpec Slob Memory CString Printf.

Open Scope Z_scope.

(** The characters of a literal. *)
Fixpoint txt (s : string) : list Z :=
  match s with EmptyString => [] | String c s => Z.of_nat (nat_of_ascii c) :: txt s end.
Arguments txt s%_string.
Definition nl : list Z := [10].

Definition LINEBUF : nat := 64.

(** [sprintf(linebuf, ...)] *)
Definition fmt_line (fmt : list Z) (va : list va_arg) : outcome (list Z) :=
  t ← tfp_sprintf fmt va;
  if decide (length t < LINEBUF)%nat then Ret t else Fault.

Definition fmt_block : list Z := txt "[%d 0x%x] -> ".
Definition fmt_null : list Z := txt "(null)" ++ nl.

(** ** BuddyAllocator::to_string *)

(** [while (ptr)] over a free list. *)
Fixpoint buddy_blocks (fuel : nat) (ptr : option Z) (ret : list Z) : M BuddyAllocator (list Z) :=
  match ptr with
  | None => mret ret
  | Some ptr =>
      match fuel with
      | O => out_of_fuel
      | S fuel =>
          h ← read_header ptr;
          frame ← get_page_frame (index h);
          line ← lift (fmt_line fmt_block [VInt (index h); VInt frame]);
          buddy_blocks fuel (next h) (ret ++ line)
      end
  end.

(** [for (int i = 0; i < MAX_ORDER; i++)] *)
Fixpoint buddy_lists (n : nat) (i : Z) (ret : list Z) : M BuddyAllocator (list Z) :=
  match n with
  | O => mret ret
  | S n =>
      line ← lift (fmt_line (txt "_free_lists[%d]: ") [VInt i]);
      ptr ← read_free_list i;
      s ← get;
      ret ← buddy_blocks (length (headers s)) ptr (ret ++ line);
      line ← lift (fmt_line fmt_null []);
      buddy_lists n (i + 1) (ret ++ line)
  end.

Definition buddy_to_string : M BuddyAllocator (list Z) :=
  buddy_lists (Z.to_nat MAX_ORDER) 0 (txt "buddyinfo" ++ nl ++ txt "---------" ++ nl).

(** ** SlobAllocator::to_string *)

(** [while (ptr)] over a bin. *)
Fixpoint slob_chunks (fuel : nat) (ptr : Z) (ret : list Z) : M SlobAllocator (list Z) :=
  if ptr =? 0 then mret ret
  else
    match fuel with
    | O => out_of_fuel
    | S fuel =>
        c ← rd_chunk ptr;
        line ← lift (fmt_line fmt_block [VInt (get_size c); VInt ptr]);
        slob_chunks fuel (c_next c) (ret ++ line)
    end.

Fixpoint slob_bins (n : nat) (i : Z) (ret : list Z) : M SlobAllocator (list Z) :=
  match n with
  | O => mret ret
  | S n =>
      line ← lift (fmt_line (txt "_bins[%d] (%d): ") [VInt i; VInt (u64 (smallest_chunk_size + chunk_size_gap * i))]);
      s ← get;
      ptr ← deref (arr_get (s_bins s) i);
      ret ← slob_chunks (size (s_mem s)) ptr (ret ++ line);
      line ← lift (fmt_line fmt_null []);
      slob_bins n (i + 1) (ret ++ line)
  end.

Definition slob_to_string : M SlobAllocator (list Z) :=
  ret ← slob_bins (Z.to_nat nr_bins) 0 (txt "slobinfo" ++ nl ++ txt "--------" ++ nl);
  line ← lift (fmt_line (txt "_unsorted_bin: ") []);
  s ← get;
  ret ← slob_chunks (size (s_mem s)) (s_unsorted s) (ret ++ line);
  l0 ← lift (fmt_line (fmt_null ++ nl) []);
  l1 ← lift (fmt_line (txt "_page_frame_allocatable_begin = 0x%x" ++ nl) [VInt (s_begin s)]);
  l2 ← lift (fmt_line (txt "_top_chunk                    = 0x%x" ++ nl) [VInt (s_top s)]);
  l3 ← lift (fmt_line (txt "_page_frame_allocatable_end   = 0x%x" ++ nl) [VInt (s_end s)]);
  mret (ret ++ l0 ++ l1 ++ l2 ++ l3).

(** ** MemoryManager *)

Definition get_buddy_info : M Kernel (list Z) := guarded (on_mm (on_buddy0 buddy_to_string)).
Definition get_slob_info : M Kernel (list Z) := guarded (on_mm (on_slob1 slob_to_string)).

(** ** The reports are right *)

(** Decimal and hexadecimal numerals. *)
Definition shown (o : outcome (list Z)) : list Z := match o with Ret t => t | _ => [] end.
Definition dec (z : Z) : list Z := shown (i2a z).
Definition hex (z : Z) : list Z := shown (ui2a z 16 false).

Lemma i2a_dec z : - 2 ^ 31 < z < 2 ^ 31 -> i2a z = Ret (dec z) /\ (length (dec z) <= 11)%nat.
Proof.
  intros Hz. destruct (i2a_spec z Hz) as (ds & Hr & Hl & _). unfold dec. rewrite Hr. split; [done|]. simpl.
  rewrite length_app. destruct (z <? 0); simpl; lia.
Qed.
Lemma ui2a_hex z : 0 <= z < 2 ^ 32 -> ui2a z 16 false = Ret (hex z) /\ (length (hex z) <= 10)%nat.
Proof. intros Hz. destruct (ui2a_spec z 16 false) as (ds & Hr & _ & Hl & _); [by right|done|]. unfold hex. rewrite Hr. split; [done|]. simpl. lia. Qed.

Definition pair_text (a b : Z) : list Z := txt "[" ++ dec (s32 a) ++ txt " 0x" ++ hex (u32 b) ++ txt "] -> ".
Lemma fmt_block_line a b : s32 a <> - 2 ^ 31 -> fmt_line fmt_block [VInt a; VInt b] = Ret (pair_text a b).
Proof.
  intros Ha. pose proof (s32_range a). pose proof (u32_range b).
  destruct (i2a_dec (s32 a)) as [Hd Hdl]; [lia|]. destruct (ui2a_hex (u32 b)) as [Hh Hhl]; [done|].
  unfold fmt_line. change fmt_block with (txt "[" ++ 37 :: 100 :: txt " 0x" ++ 37 :: 120 :: txt "] -> " ++ []).
  rewrite sprintf_lit, sprintf_d, Hd by done. cbn [mbind outcome_bind].
  rewrite sprintf_lit, sprintf_x, Hh by done. cbn [mbind outcome_bind].
  rewrite sprintf_lit, sprintf_nil by done. cbn [mbind outcome_bind].
  rewrite app_nil_r, decide_True; [done|]. rewrite !length_app. unfold LINEBUF. simpl. lia.
Qed.

(** The free list of an order, and the whole report. *)
Definition list_report (zone k : Z) (blocks : list Z) : list Z :=
  txt "_free_lists[" ++ dec k ++ txt "]: " ++ concat ((fun b => pair_text b (u64 (zone + b * PAGE_SIZE))) <$> blocks) ++ txt "(null)" ++ nl.
Definition buddy_report (zone : Z) (L : Z -> list Z) : list Z :=
  txt "buddyinfo" ++ nl ++ txt "---------" ++ nl ++ concat ((fun k => list_report zone k (L k)) <$> seqZ 0 MAX_ORDER).

Lemma buddy_blocks_run s p l fuel ret :
  headers_ok s -> lseg (headers s) p l -> (length l <= fuel)%nat ->
  buddy_blocks fuel p ret s = Ret (ret ++ concat ((fun b => pair_text b (u64 (zone_begin s + b * PAGE_SIZE))) <$> l), s).
Proof.
  intros Hok. revert p fuel ret. induction l as [|b l IH]; intros p fuel ret; cbn [lseg].
  - intros ->  _. destruct fuel; cbn [buddy_blocks]; simpl; by rewrite app_nil_r.
  - intros [-> (h & Hh & Hl)] Hf. destruct fuel as [|fuel]; [simpl in Hf; lia|]. cbn [buddy_blocks].
    mrun (read_header_run _ _ _ Hh). pose proof (ho_index _ Hok _ _ Hh) as Hi. rewrite Hi.
    assert (Hfr : get_page_frame b s = Ret (u64 (zone_begin s + b * PAGE_SIZE), s)) by done. mrun Hfr.
    apply arr_get_Some_range in Hh. rewrite (ho_len _ Hok) in Hh.
    rewrite fmt_block_line by (rewrite s32_id; lia). msimpl. rewrite IH; [|done|simpl in Hf; lia].
    rewrite fmap_cons. cbn [concat]. by rewrite <- app_assoc.
Qed.

Lemma fmt_null_line : fmt_line fmt_null [] = Ret fmt_null.
Proof. reflexivity. Qed.

Lemma list_head_line k : 0 <= k < 10 -> fmt_line (txt "_free_lists[%d]: ") [VInt k] = Ret (txt "_free_lists[" ++ dec k ++ txt "]: ").
Proof.
  intros Hk. destruct (i2a_dec k) as [Hd Hl]; [lia|]. unfold fmt_line.
  change (txt "_free_lists[%d]: ") with (txt "_free_lists[" ++ 37 :: 100 :: txt "]: " ++ []).
  rewrite sprintf_lit, sprintf_d, s32_id, Hd by (done || lia). cbn [mbind outcome_bind].
  rewrite sprintf_lit, sprintf_nil by done. cbn [mbind outcome_bind].
  rewrite app_nil_r, decide_True; [done|]. rewrite !length_app. unfold LINEBUF. simpl. lia.
Qed.

Lemma lseg_valid hs p l b : lseg hs p l -> b ∈ l -> 0 <= b < Z.of_nat (length hs).
Proof.
  revert p. induction l as [|x l IH]; intros p; cbn [lseg]; [intros _ []%elem_of_nil|].
  intros [-> (h & Hh & Hl)] [->|Hb]%elem_of_cons; [by eapply arr_get_Some_range|by eapply IH].
Qed.

(** A free list is no longer than the array of headers. *)
Lemma lseg_length hs p l : lseg hs p l -> NoDup l -> (length l <= length hs)%nat.
Proof.
  intros Hl Hn. assert (Hs : l ⊆ seqZ 0 (Z.of_nat (length hs))).
  { intros b Hb. apply elem_of_seqZ. pose proof (lseg_valid _ _ _ _ Hl Hb). lia. }
  pose proof (NoDup_submseteq _ _ Hn Hs) as Hm. apply submseteq_length in Hm. rewrite length_seqZ in Hm. lia.
Qed.

Lemma buddy_lists_run s L n i ret :
  headers_ok s -> lists_ok s L -> 0 <= i -> i + Z.of_nat n = 10 ->
  buddy_lists n i ret s = Ret (ret ++ concat ((fun k => list_report (zone_begin s) k (L k)) <$> seqZ i (Z.of_nat n)), s).
Proof.
  intros Hok HL. revert i ret. induction n as [|n IH]; intros i ret Hi Hn; [simpl; by rewrite app_nil_r|].
  cbn [buddy_lists]. rewrite list_head_line by lia. msimpl.
  destruct (lo_seg _ _ HL i) as (p & Hp & Hseg); [unfold NR_ORDERS; lia|]. mrun (read_free_list_run _ _ _ Hp). msimpl.
  erewrite bind_run; [|apply buddy_blocks_run; [done|exact Hseg|apply (lseg_length _ _ _ Hseg), HL]]. cbn beta iota.
  rewrite fmt_null_line. msimpl. rewrite IH by lia.
  rewrite (seqZ_cons i) by lia. rewrite fmap_cons. cbn [concat]. unfold list_report.
  replace (Z.pred (Z.of_nat (S n))) with (Z.of_nat n) by lia. replace (Z.succ i) with (i + 1) by lia.
  by rewrite <- !app_assoc.
Qed.

(** The report of the buddy allocator shows exactly its free blocks, and
    neither the traversal nor the line buffer goes out of bounds. *)
Lemma buddy_to_string_run s live : buddy_rep s live ->
  exists L, buddy_inv s live L None /\ buddy_to_string s = Ret (buddy_report (zone_begin s) L, s).
Proof.
  intros [L Hinv]. exists L. split; [done|]. unfold buddy_to_string.
  rewrite (buddy_lists_run s L) by (apply Hinv || done). unfold buddy_report. by rewrite <- !app_assoc.
Qed.

Lemma get_buddy_info_run k live : cpu_ok (k_cpu k) -> buddy_rep (buddy_allocator (mm_zone0 (k_mm k))) live ->
  exists L, buddy_inv (buddy_allocator (mm_zone0 (k_mm k))) live L None /\
    get_buddy_info k = Ret (buddy_report (zone_begin (buddy_allocator (mm_zone0 (k_mm k)))) L, k).
Proof.
  intros Hok Hrep. destruct (buddy_to_string_run _ _ Hrep) as (L & Hinv & Hrun). exists L. split; [done|].
  destruct k as [c mm]. unfold get_buddy_info.
  refine (guarded_spec _ (mkKernel c mm) (mkKernel c mm) _ Hok _).
  unfold on_mm, on_buddy0, zoom. cbn in *. rewrite Hrun. destruct mm as [? [? []] ? ? ? ?]. done.
Qed.
