(* ===== verification/MemorySpec.v ===== *)
(** * The promises of the memory manager

    The table of allocated pointers is a set, page frames are handed out and
    taken back as the abstract map of live blocks says, a double free stops the
    kernel, each pointer goes back to the allocator it came from, and the
    reference counts are the balance of the calls made. *)

From Stdlib Require Import ZArith Lia.
From stdpp Require Import base gmap list numbers.
From S2P Require Import Prelude Math Mmu Mutex Tiling Buddy BuddyProof BuddySpec Slob SlobSpec Memory.

Open Scope Z_scope.

(** ** The table of allocated pointers *)

(** The pointers in the table; an empty slot holds 0. *)
Definition tracked (slots : list Z) : list Z := filter (fun x => x <> 0) slots.

Record kasan_rep (slots : list Z) (live : gset Z) : Prop := {
  kr_length : length slots = NR_SLOTS;
  kr_nodup : NoDup (tracked slots);
  kr_live : live = list_to_set (tracked slots)
}.

Lemma tracked_cons x slots : tracked (x :: slots) = if decide (x = 0) then tracked slots else x :: tracked slots.
Proof. unfold tracked. rewrite list.filter_cons. by repeat case_decide. Qed.

Lemma elem_of_tracked p slots : p ∈ tracked slots <-> p ∈ slots /\ p <> 0.
Proof. unfold tracked. rewrite list_elem_of_filter. tauto. Qed.

Lemma tracked_length slots : (length (tracked slots) <= length slots)%nat.
Proof. apply list.length_filter. Qed.

Lemma tracked_full slots : 0 ∉ slots <-> length (tracked slots) = length slots.
Proof.
  induction slots as [|x slots IH]; [split; [done|set_solver]|].
  rewrite tracked_cons, not_elem_of_cons, IH. pose proof (tracked_length slots).
  case_decide; simpl; [|split; [intros []|split]; lia]. split; [intros []|]; lia.
Qed.

Lemma fill_slot_full p slots : 0 ∉ slots -> fill_slot p slots = slots.
Proof.
  induction slots as [|x slots IH]; [done|]. rewrite not_elem_of_cons. intros [Hx Hs]. simpl.
  rewrite (proj2 (Z.eqb_neq x 0)) by lia. by rewrite IH.
Qed.

Lemma fill_slot_spec p slots :
  p <> 0 -> 0 ∈ slots ->
  length (fill_slot p slots) = length slots /\ tracked (fill_slot p slots) ≡ₚ p :: tracked slots.
Proof.
  intros Hp. induction slots as [|x slots IH]; [by intros ?%elem_of_nil|]. simpl.
  destruct (Z.eqb_spec x 0) as [->|Hx].
  - intros _. rewrite !tracked_cons, decide_False, decide_True by done. done.
  - intros [|Hin]%elem_of_cons; [done|]. destruct (IH Hin) as [Hl Ht].
    rewrite !tracked_cons, !decide_False by done. simpl. split; [by rewrite Hl|]. rewrite Ht. constructor.
Qed.

Lemma clear_slot_spec p slots :
  p <> 0 ->
  if decide (p ∈ slots) then exists slots', clear_slot p slots = Some slots' /\
    length slots' = length slots /\ p :: tracked slots' ≡ₚ tracked slots
  else clear_slot p slots = None.
Proof.
  intros Hp. induction slots as [|x slots IH]; [done|]. cbn [clear_slot].
  destruct (Z.eqb_spec p x) as [->|Hx].
  - rewrite decide_True by set_solver. exists (0 :: slots). split_and!; [done..|].
    by rewrite !tracked_cons, decide_True, decide_False.
  - revert IH. destruct (decide (p ∈ slots)) as [Hin|Hin]; intros IH.
    + rewrite decide_True by set_solver. destruct IH as (slots' & -> & Hl & Ht). exists (x :: slots').
      split_and!; [done|simpl; by rewrite Hl|]. rewrite !tracked_cons. case_decide; [done|].
      rewrite <- Ht. constructor.
    + rewrite decide_False by set_solver. by rewrite IH.
Qed.

Section kasan_rep.
Context (slots : list Z) (live : gset Z) (Hrep : kasan_rep slots live).

Lemma kasan_live p : p ∈ live <-> p ∈ slots /\ p <> 0.
Proof. rewrite (kr_live _ _ Hrep), elem_of_list_to_set. apply elem_of_tracked. Qed.

Lemma kasan_size : size live = length (tracked slots).
Proof. rewrite (kr_live _ _ Hrep). apply size_list_to_set, Hrep. Qed.

Lemma kasan_room : 0 ∈ slots <-> (size live < NR_SLOTS)%nat.
Proof.
  rewrite kasan_size, <- (kr_length _ _ Hrep). pose proof (tracked_full slots) as Hf.
  pose proof (tracked_length slots). destruct (decide (0 ∈ slots)) as [Hin|Hin].
  - split; [|done]. intros _. destruct (Nat.eq_dec (length (tracked slots)) (length slots)) as [He|]; [|lia].
    by apply Hf in He.
  - split; [done|]. apply Hf in Hin. lia.
Qed.

Lemma existsb_slot p : existsb (Z.eqb p) slots = bool_decide (p ∈ slots).
Proof.
  apply eq_bool_prop_intro. rewrite bool_decide_spec, Is_true_true, existsb_exists. split.
  - intros (x & Hx & ->%Z.eqb_eq). by apply list_elem_of_In.
  - intros Hp. exists p. rewrite Z.eqb_refl. by rewrite <- list_elem_of_In.
Qed.

Lemma mark_allocated_fresh p :
  p <> 0 -> p ∉ live -> (size live < NR_SLOTS)%nat ->
  exists slots', mark_allocated p slots = Ret (tt, slots') /\ kasan_rep slots' ({[p]} ∪ live).
Proof.
  intros Hp Hfresh Hroom. exists (fill_slot p slots). unfold mark_allocated. msimpl.
  rewrite existsb_slot, bool_decide_eq_false_2 by (intros ?; by apply Hfresh, kasan_live).
  split; [done|]. apply kasan_room in Hroom. destruct (fill_slot_spec p slots Hp Hroom) as [Hl Ht]. split.
  - rewrite Hl. apply Hrep.
  - rewrite Ht. apply list.NoDup_cons. split; [|apply Hrep]. intros Hin. apply Hfresh.
    by rewrite (kr_live _ _ Hrep), elem_of_list_to_set.
  - rewrite (kr_live _ _ Hrep). apply leibniz_equiv. rewrite Ht. done.
Qed.

Lemma mark_allocated_panics p : p ∈ live \/ p = 0 /\ (size live < NR_SLOTS)%nat -> mark_allocated p slots = Panic.
Proof.
  intros Hp. unfold mark_allocated. msimpl. rewrite existsb_slot, bool_decide_eq_true_2; [done|].
  destruct Hp as [Hp|[-> Hp]]; [by apply kasan_live|by apply kasan_room].
Qed.

Lemma mark_allocated_full p : p ∉ live -> size live = NR_SLOTS -> mark_allocated p slots = Ret (tt, slots).
Proof.
  intros Hp Hfull. assert (H0 : 0 ∉ slots) by (rewrite kasan_room; lia).
  unfold mark_allocated. msimpl. rewrite existsb_slot, bool_decide_eq_false_2.
  - by rewrite fill_slot_full.
  - intros Hin. destruct (decide (p = 0)) as [->|Hne]; [done|]. by apply Hp, kasan_live.
Qed.

Lemma mark_free_spec p :
  p <> 0 ->
  if decide (p ∈ live) then exists slots', mark_free_chk p slots = Ret (true, slots') /\ kasan_rep slots' (live ∖ {[p]})
  else mark_free_chk p slots = Panic.
Proof.
  intros Hp. pose proof (clear_slot_spec p slots Hp) as Hc. unfold mark_free_chk. msimpl.
  destruct (decide (p ∈ live)) as [Hin|Hin].
  - rewrite decide_True in Hc by by apply kasan_live. destruct Hc as (slots' & -> & Hl & Ht).
    exists slots'. split; [done|]. pose proof (kr_nodup _ _ Hrep) as Hnd. rewrite <- Ht in Hnd.
    apply list.NoDup_cons in Hnd as [Hni Hnd]. split; [|done|].
    + rewrite Hl. apply Hrep.
    + rewrite (kr_live _ _ Hrep). apply leibniz_equiv. rewrite <- Ht. set_solver.
  - rewrite decide_False in Hc; [by rewrite Hc|]. intros Hs. by apply Hin, kasan_live.
Qed.
End kasan_rep.

Lemma new_kasan_rep : kasan_rep new_kasan ∅.
Proof.
  assert (Ht : tracked new_kasan = []) by reflexivity.
  split; [reflexivity|rewrite Ht; constructor|by rewrite Ht].
Qed.

(** ** Critical sections of the manager *)

Lemma guarded_mm {A} (body : M MemoryManager A) k a m' :
  cpu_ok (k_cpu k) -> body (k_mm k) = Ret (a, m') -> guarded (on_mm body) k = Ret (a, set_k_mm m' k).
Proof.
  intros Hok Hb. destruct k as [c m]. refine (guarded_spec (on_mm body) (mkKernel c m) (mkKernel c m') a Hok _).
  unfold on_mm, zoom. simpl in *. by rewrite Hb.
Qed.

Lemma guarded_mm_panic {A} (body : M MemoryManager A) k :
  cpu_ok (k_cpu k) -> body (k_mm k) = Panic -> guarded (on_mm body) k = Panic.
Proof.
  intros Hok Hb. apply guarded_panic; [done|]. unfold on_mm, zoom. simpl. by rewrite Hb.
Qed.

Lemma guarded_mm_inv {A} (body : M MemoryManager A) k a k' :
  cpu_ok (k_cpu k) -> guarded (on_mm body) k = Ret (a, k') ->
  exists m', body (k_mm k) = Ret (a, m') /\ k' = set_k_mm m' k.
Proof.
  intros Hok H. destruct (body (k_mm k)) as [[b m']| | |] eqn:Hb.
  - rewrite (guarded_mm body k b m' Hok Hb) in H. injection H as -> <-. by exists m'.
  - by rewrite guarded_mm_panic in H.
  - exfalso. minv H as u k1 H1. unfold zoom in H1. change (cpu_of k) with (k_cpu k) in H1. rewrite (lock_spec _ Hok) in H1. injection H1 as <- <-.
    minv H as b k2 H2. unfold on_mm, zoom in H2. simpl in H2. by rewrite Hb in H2.
  - exfalso. minv H as u k1 H1. unfold zoom in H1. change (cpu_of k) with (k_cpu k) in H1. rewrite (lock_spec _ Hok) in H1. injection H1 as <- <-.
    minv H as b k2 H2. unfold on_mm, zoom in H2. simpl in H2. by rewrite Hb in H2.
Qed.

(** ** Page frames *)

Definition page_addr (b : Z) : Z := 0x10000000 + b * 4096.
Definition kernel_va (pa : Z) : Z := KERNEL_VA_BASE + pa.

(** The live blocks of zone 0 and the pointers handed out and not yet taken
    back; the page-aligned ones are exactly the addresses of the live blocks. *)
Record mm_rep (m : MemoryManager) (live : gmap Z Z) (ptrs : gset Z) : Prop := {
  mr_begin0 : begin_addr (mm_zone0 m) = 0x10000000;
  mr_zone0 : zone_begin (buddy_allocator (mm_zone0 m)) = 0x10000000;
  mr_buddy : buddy_rep (buddy_allocator (mm_zone0 m)) live;
  mr_begin1 : begin_addr (mm_zone1 m) = 0x10200000;
  mr_kasan : kasan_rep (kasan m) ptrs;
  mr_pages : forall p, is_aligned p = true -> (p ∈ ptrs <-> exists b, b ∈ dom live /\ p = page_addr b);
  mr_refs : length (ref_counts m) = 512%nat
}.

Lemma page_addr_aligned b : is_aligned (page_addr b) = true.
Proof.
  apply is_aligned_spec. unfold page_addr. replace (0x10000000 + b * 4096) with ((65536 + b) * 4096) by lia.
  by rewrite Z.mod_mul.
Qed.

Lemma page_addr_inj b c : page_addr b = page_addr c -> b = c.
Proof. unfold page_addr. lia. Qed.

Lemma mm_live_range m live ptrs b : mm_rep m live ptrs -> b ∈ dom live -> 0 <= b < 512.
Proof.
  intros Hm [k Hb]%elem_of_dom. pose proof (rep_live_wf _ _ _ _ (mr_buddy _ _ _ Hm) Hb) as (Hk & H0 & _ & He).
  pose proof (pow2_pos k ltac:(lia)). unfold NR_FRAMES in *. lia.
Qed.

(** Handing out a block of zone 0: what [get_free_page] and a large [kmalloc] share. *)
Definition take_block (size : Z) : M MemoryManager Z :=
  ret ← on_buddy0 (Buddy.allocate size); on_kasan (mark_allocated ret);; mret ret.

Inductive takes (m : MemoryManager) (live : gmap Z Z) (ptrs : gset Z) (k : Z) : outcome (Z * MemoryManager) -> Prop :=
| takes_block b m' :
    wf_block b k -> live !! b = None ->
    (forall c j i, live !! c = Some j -> in_block i c j -> ~ in_block i b k) ->
    mm_rep m' (<[b := k]> live) ({[page_addr b]} ∪ ptrs) -> ref_counts m' = ref_counts m ->
    takes m live ptrs k (Ret (page_addr b, m'))
| takes_nothing :
    NR_ORDERS <= k \/ exhausted live k -> takes m live ptrs k Panic.

Lemma take_block_spec m live ptrs sz :
  mm_rep m live ptrs -> 0 <= sz <= 2 ^ 42 -> (size ptrs < NR_SLOTS)%nat ->
  takes m live ptrs (order_of_size sz) (take_block sz m).
Proof.
  intros Hm Hs Hroom. destruct Hm as [Hb0 Hz0 Hb Hb1 Hk Hp Hr]. destruct m as [ram [zb slob] z1 refs pw ks]. simpl in *.
  unfold buddy_allocator in *. simpl in *.
  destruct (serve_spec (s_buddy slob) live (RAlloc sz) Hb Hs) as (a & live' & b' & Hrun & Hstep & Hz' & Hrep').
  cbn [serve] in Hrun. unfold take_block. unfold mbind at 1, M_bind at 1, on_buddy0, zoom at 1. simpl.
  unfold buddy_allocator. simpl. rewrite Hrun, Hz0. inversion Hstep as [? ? b Hwf Hdis|? ? Hex|]; subst; cbn [answer_addr].
  - rewrite PAGE_SIZE_eq. change (0x10000000 + b * 4096) with (page_addr b).
    destruct Hwf as (Hk0 & H0 & Hdiv & Hend).
    pose proof (pow2_pos (order_of_size sz) ltac:(lia)) as Hpow.
    assert (Hnone : live !! b = None).
    { destruct (live !! b) as [j|] eqn:Hj; [|done]. exfalso.
      apply (Hdis b j b Hj); unfold in_block; [|lia]. pose proof (rep_live_wf _ _ _ _ Hb Hj) as (Hj0 & _).
      pose proof (pow2_pos j ltac:(lia)). lia. }
    destruct (mark_allocated_fresh ks ptrs Hk (page_addr b)) as (ks' & Hmark & Hk'); [| |done|].
    { unfold page_addr. lia. }
    { rewrite Hp by apply page_addr_aligned. intros (c & Hc & ->%page_addr_inj). by apply elem_of_dom in Hc as [? ?]; congruence. }
    unfold mbind, M_bind, on_kasan, zoom. simpl. rewrite Hmark. simpl. eapply takes_block; [done|done|done| |done].
    split; simpl; [done|by unfold buddy_allocator; simpl; congruence|done|done|done| |done].
    intros p Ha. rewrite elem_of_union, elem_of_singleton, Hp by done. rewrite dom_insert_L. split.
    + intros [->|(c & Hc & ->)]; [exists b|exists c]; set_solver.
    + intros (c & [->%elem_of_singleton|Hc]%elem_of_union & ->); [by left|right; eauto].
  - unfold mbind, M_bind, on_kasan, zoom. simpl. rewrite (mark_allocated_panics ks ptrs Hk) by auto.
    by apply takes_nothing.
Qed.

(** The address [kfree] works with, for a physical address of zone 0 or its
    kernel virtual address. *)
Lemma kfree_address b p :
  0 <= b < 512 -> p = page_addr b \/ p = kernel_va (page_addr b) ->
  (if KERNEL_VA_BASE <=? p then p - KERNEL_VA_BASE else p) = page_addr b.
Proof.
  unfold kernel_va, page_addr, KERNEL_VA_BASE. intros Hb Hp. destruct (Z.leb_spec 0xffff000000000000 p); lia.
Qed.

Lemma kfree_page_spec k live ptrs b p :
  cpu_ok (k_cpu k) -> mm_rep (k_mm k) live ptrs -> 0 <= b < 512 -> p = page_addr b \/ p = kernel_va (page_addr b) ->
  if decide (b ∈ dom live) then exists k', kfree p k = Ret (tt, k') /\ k_cpu k' = k_cpu k /\
    mm_rep (k_mm k') (delete b live) (ptrs ∖ {[page_addr b]})
  else kfree p k = Panic.
Proof.
  intros Hok Hm Hb Hp. unfold kfree. rewrite (kfree_address b p Hb Hp), page_addr_aligned.
  assert (Hne : page_addr b <> 0) by (unfold page_addr; lia).
  pose proof (mark_free_spec _ _ (mr_kasan _ _ _ Hm) (page_addr b) Hne) as Hf.
  pose proof (mr_pages _ _ _ Hm _ (page_addr_aligned b)) as Hin.
  destruct (decide (b ∈ dom live)) as [Hd|Hd].
  - rewrite decide_True in Hf by (apply Hin; eauto). destruct Hf as (ks' & Hmark & Hk').
    apply elem_of_dom in Hd as [j Hj].
    destruct (deallocate_spec _ _ _ _ (mr_buddy _ _ _ Hm) Hj) as (b' & Hrun & Hz & Hrep').
    rewrite (mr_zone0 _ _ _ Hm) in Hrun. fold (page_addr b) in Hrun.
    eexists. split; [apply guarded_mm; [done|]|split; [done|]].
    { unfold mbind, M_bind, on_kasan, on_buddy0, zoom. rewrite Hmark. simpl. unfold set_kasan. simpl.
      rewrite Hrun. done. }
    simpl. destruct Hm as [Hb0 Hz0 Hbr Hb1 Hk Hpg Hr]. split; simpl; [done|by unfold buddy_allocator; simpl; congruence|done..| |done].
    intros q Ha. rewrite elem_of_difference, elem_of_singleton, Hpg, dom_delete_L by done. split.
    + intros [(c & Hc & ->) Hn]. exists c. split; [|done]. apply elem_of_difference. split; [done|]. intros ->%elem_of_singleton. done.
    + intros (c & [Hc Hn]%elem_of_difference & ->). split; [eauto|]. intros ->%page_addr_inj. set_solver.
  - rewrite decide_False in Hf.
    + apply guarded_mm_panic; [done|]. unfold mbind, M_bind, on_kasan, zoom. by rewrite Hf.
    + rewrite Hin. intros (c & Hc & ->%page_addr_inj). done.
Qed.

(** [get_free_page], physical or virtual. *)
Lemma get_free_page_spec k live ptrs physical :
  cpu_ok (k_cpu k) -> mm_rep (k_mm k) live ptrs -> (size ptrs < NR_SLOTS)%nat ->
  (exists b k', get_free_page physical k = Ret ((if physical then page_addr b else kernel_va (page_addr b)), k') /\
     0 <= b < 512 /\ (forall c j, live !! c = Some j -> ~ in_block b c j) /\ k_cpu k' = k_cpu k /\
     mm_rep (k_mm k') (<[b := 0]> live) ({[page_addr b]} ∪ ptrs) /\ ref_counts (k_mm k') = ref_counts (k_mm k)) \/
  (get_free_page physical k = Panic /\ exhausted live 0).
Proof.
  intros Hok Hm Hroom. pose proof (take_block_spec (k_mm k) live ptrs 4096 Hm ltac:(lia) Hroom) as Ht.
  change (order_of_size 4096) with 0 in Ht. unfold get_free_page, allocate_one_page_frame.
  assert (Hcut : forall r, take_block 4096 (k_mm k) = r ->
     (ret ← on_buddy0 (Buddy.allocate PAGE_SIZE); on_kasan (mark_allocated ret);;
      mret (if physical then ret else u64 (KERNEL_VA_BASE + ret))) (k_mm k) =
     match r with Ret (p, m') => Ret (if physical then p else u64 (KERNEL_VA_BASE + p), m')
     | Panic => Panic | Fault => Fault | OutOfFuel => OutOfFuel end).
  { intros r <-. unfold take_block, mbind, M_bind, mret, M_ret. change PAGE_SIZE with 4096.
    destruct (on_buddy0 _ _) as [[p m1]| | |]; [|done..]. by destruct (on_kasan _ _) as [[p' m2]| | |]. }
  specialize (Hcut _ eq_refl). inversion Ht as [b m' Hwf Hnone Hdis Hm' Hrefs Heq|Hex Heq].
  - left. rewrite <- Heq in Hcut. destruct Hwf as (_ & H0 & _ & He). unfold NR_FRAMES in He.
    exists b, (set_k_mm m' k). split_and!; [|lia|lia| |done|done|done].
    + rewrite (guarded_mm _ k _ _ Hok Hcut). destruct physical; [done|].
      unfold kernel_va. rewrite u64_id; [done|]. unfold KERNEL_VA_BASE, page_addr. lia.
    + intros c j Hc Hi. apply (Hdis c j b Hc Hi). unfold in_block. lia.
  - right. rewrite <- Heq in Hcut. split; [by apply guarded_mm_panic|].
    destruct Hex as [Hbig|Hex]; [|done]. unfold NR_ORDERS in Hbig. lia.
Qed.

(** A [kmalloc] that goes to zone 0. *)
Lemma kmalloc_large_spec junk k live ptrs sz :
  cpu_ok (k_cpu k) -> mm_rep (k_mm k) live ptrs -> (size ptrs < NR_SLOTS)%nat -> 4080 <= sz <= 2 ^ 42 ->
  (exists b k', kmalloc junk sz k = Ret (page_addr b, k') /\ wf_block b (order_of_size sz) /\
     (forall c j i, live !! c = Some j -> in_block i c j -> ~ in_block i b (order_of_size sz)) /\ k_cpu k' = k_cpu k /\
     mm_rep (k_mm k') (<[b := order_of_size sz]> live) ({[page_addr b]} ∪ ptrs)) \/
  (kmalloc junk sz k = Panic /\ (NR_ORDERS <= order_of_size sz \/ exhausted live (order_of_size sz))).
Proof.
  intros Hok Hm Hroom Hsz. pose proof (take_block_spec (k_mm k) live ptrs sz Hm ltac:(lia) Hroom) as Ht.
  unfold kmalloc, get_chunk_header_size. rewrite u64_id, PAGE_SIZE_eq by lia.
  rewrite (proj2 (Z.leb_le 4096 (sz + 16))) by lia. fold (take_block sz).
  inversion Ht as [b m' Hwf Hnone Hdis Hm' Hrefs Heq|Hex Heq].
  - left. exists b, (set_k_mm m' k). split_and!; [|done..]. by apply guarded_mm.
  - right. split; [|done]. by apply guarded_mm_panic.
Qed.

(** ** Small objects *)

Lemma slob_out_unaligned v s p s' : slob_out v s = Ret (p, s') -> p = 0 \/ is_aligned p = false.
Proof.
  unfold slob_out. destruct v as [v|]; [|intros [= <- _]; by left].
  destruct (is_aligned (u64 (v + 16))) eqn:Ha; [done|]. intros [= <- _]. by right.
Qed.

Lemma slob_allocate_unaligned junk sz s p s' :
  slob_allocate junk sz s = Ret (p, s') -> p = 0 \/ is_aligned p = false.
Proof.
  unfold slob_allocate. destruct (sz =? 0); [intros [= <- _]; by left|]. intros H.
  minv H as req s1 H1. minv H as head s2 H2. destruct (negb (head =? 0)).
  - minv H as u1 s3 H3. minv H as u2 s4 H4. by eapply slob_out_unaligned.
  - minv H as s3 s4 H3. minv H as v s5 H5. destruct v; [by eapply slob_out_unaligned|].
    minv H as v s6 H6. destruct v; [by eapply slob_out_unaligned|].
    minv H as v s7 H7. by eapply slob_out_unaligned.
Qed.

Lemma slob_touches_zone1 m live ptrs slob ks ptrs' :
  mm_rep m live ptrs -> kasan_rep ks ptrs' ->
  (forall p, is_aligned p = true -> (p ∈ ptrs' <-> p ∈ ptrs)) ->
  mm_rep (set_kasan ks (set_zone1 (set_slob_allocator slob (mm_zone1 m)) m)) live ptrs'.
Proof.
  intros [] Hk Hp. split; simpl; try done. intros p Ha. rewrite Hp by done. by apply mr_pages0.
Qed.

Lemma kmalloc_small_spec junk k live ptrs sz p k' :
  cpu_ok (k_cpu k) -> mm_rep (k_mm k) live ptrs -> (size ptrs < NR_SLOTS)%nat -> 0 <= sz < 4080 ->
  kmalloc junk sz k = Ret (p, k') ->
  is_aligned p = false /\ (p ∉ ptrs) /\ k_cpu k' = k_cpu k /\ mm_rep (k_mm k') live ({[p]} ∪ ptrs).
Proof.
  intros Hok Hm Hroom Hsz. unfold kmalloc, get_chunk_header_size. rewrite u64_id, PAGE_SIZE_eq by lia.
  rewrite (proj2 (Z.leb_gt 4096 (sz + 16))) by lia. intros (m' & H & ->)%guarded_mm_inv; [|done].
  minv H as q m1 Hs. unfold on_slob1, zoom in Hs.
  destruct (slob_allocate junk sz _) as [[q' s']| | |] eqn:Hsl; [|done..]. injection Hs as -> <-.
  pose proof (slob_allocate_unaligned _ _ _ _ _ Hsl) as Hq.
  minv H as u m2 Hmk. injection H as -> ->. unfold on_kasan, zoom in Hmk. simpl in Hmk.
  assert (Hnp : forall o, mark_allocated p (kasan (k_mm k)) = o -> o <> Panic) by (intros o <- Ho; by rewrite Ho in Hmk).
  destruct (decide (p ∈ ptrs)) as [Hin|Hin].
  { exfalso. eapply (Hnp Panic); [|done]. eapply mark_allocated_panics; [apply Hm|by left]. }
  destruct (decide (p = 0)) as [->|Hne].
  { exfalso. eapply (Hnp Panic); [|done]. eapply mark_allocated_panics; [apply Hm|by right]. }
  destruct Hq as [|Hq]; [done|].
  destruct (mark_allocated_fresh _ _ (mr_kasan _ _ _ Hm) p Hne Hin Hroom) as (ks' & Hks & Hrep).
  rewrite Hks in Hmk. injection Hmk as _ <-. split_and!; [done..|]. simpl.
  apply (slob_touches_zone1 (k_mm k) live ptrs s'); [done..|].
  intros r Hr. rewrite elem_of_union, elem_of_singleton. split; [|by right]. intros [->|?]; congruence.
Qed.

Lemma kfree_small_spec k live ptrs p :
  cpu_ok (k_cpu k) -> mm_rep (k_mm k) live ptrs -> 0 <= p < KERNEL_VA_BASE -> is_aligned p = false ->
  (p ∉ ptrs -> kfree p k = Panic) /\
  (forall k', kfree p k = Ret (tt, k') -> k_cpu k' = k_cpu k /\ mm_rep (k_mm k') live (ptrs ∖ {[p]})).
Proof.
  intros Hok Hm Hp Ha. unfold kfree. rewrite (proj2 (Z.leb_gt KERNEL_VA_BASE p)), Ha by lia.
  assert (Hne : p <> 0) by (intros ->; done).
  pose proof (mark_free_spec _ _ (mr_kasan _ _ _ Hm) p Hne) as Hf. destruct (decide (p ∈ ptrs)) as [Hin|Hin].
  - split; [done|]. destruct Hf as (ks' & Hmark & Hk'). intros k' (m' & H & ->)%guarded_mm_inv; [|done].
    minv H as u m1 H1. unfold on_kasan, zoom in H1. rewrite Hmark in H1. injection H1 as _ <-.
    unfold on_slob1, zoom in H. simpl in H. destruct (slob_deallocate p _) as [[[] s']| | |]; [|done..]. injection H as <-.
    split; [done|]. simpl. apply (slob_touches_zone1 (k_mm k) live ptrs s'); [done..|].
    intros r Hr. rewrite elem_of_difference, elem_of_singleton. split; [by intros []|]. intros ?. split; [done|]. intros ->. congruence.
  - split; [|intros k']; intros H; [|exfalso; revert H]; (rewrite guarded_mm_panic; [done|done|]);
      unfold mbind, M_bind, on_kasan, zoom; by rewrite Hf.
Qed.

(** A block of zone 0 goes back. *)
Lemma kmalloc_large_roundtrip junk k live ptrs sz :
  cpu_ok (k_cpu k) -> mm_rep (k_mm k) live ptrs -> (size ptrs < NR_SLOTS)%nat -> 4080 <= sz <= 2 ^ 42 ->
  (exists b k1, kmalloc junk sz k = Ret (page_addr b, k1) /\ wf_block b (order_of_size sz) /\
     (forall c j i, live !! c = Some j -> in_block i c j -> ~ in_block i b (order_of_size sz)) /\ k_cpu k1 = k_cpu k /\
     mm_rep (k_mm k1) (<[b := order_of_size sz]> live) ({[page_addr b]} ∪ ptrs) /\
     exists k2, kfree (page_addr b) k1 = Ret (tt, k2) /\ k_cpu k2 = k_cpu k /\ mm_rep (k_mm k2) live ptrs /\ kfree (page_addr b) k2 = Panic) \/
  (kmalloc junk sz k = Panic /\ (NR_ORDERS <= order_of_size sz \/ exhausted live (order_of_size sz))).
Proof.
  intros Hok Hm Hroom Hsz. destruct (kmalloc_large_spec junk k live ptrs sz Hok Hm Hroom Hsz) as [(b & k1 & Hr & Hwf & Hdis & Hc1 & Hm1)|?]; [left|by right].
  exists b, k1. split_and!; [done..|]. pose proof Hwf as (Hk0 & Hb0 & _ & Hend). pose proof (pow2_pos (order_of_size sz) ltac:(lia)) as Hpow.
  assert (Hb : 0 <= b < 512) by (unfold NR_FRAMES in *; lia).
  assert (Hnone : live !! b = None).
  { destruct (live !! b) as [j|] eqn:Hj; [|done]. exfalso. pose proof (rep_live_wf _ _ _ _ (mr_buddy _ _ _ Hm) Hj) as (Hj0 & _).
    pose proof (pow2_pos j ltac:(lia)). apply (Hdis b j b Hj); unfold in_block; lia. }
  assert (Hnp : page_addr b ∉ ptrs).
  { rewrite (mr_pages _ _ _ Hm) by apply page_addr_aligned. intros (c & [j Hj]%elem_of_dom & ->%page_addr_inj). congruence. }
  pose proof (kfree_page_spec k1 _ _ b (page_addr b) ltac:(congruence) Hm1 Hb (or_introl eq_refl)) as Hf.
  rewrite decide_True in Hf by (rewrite dom_insert_L; set_solver). destruct Hf as (k2 & Hf & Hc2 & Hm2).
  rewrite delete_insert_id in Hm2 by done. replace (({[page_addr b]} ∪ ptrs) ∖ {[page_addr b]}) with ptrs in Hm2 by set_solver.
  exists k2. split_and!; [done|congruence|done|].
  pose proof (kfree_page_spec k2 _ _ b (page_addr b) ltac:(congruence) Hm2 Hb (or_introl eq_refl)) as Hf2.
  rewrite decide_False in Hf2; [done|]. by apply not_elem_of_dom.
Qed.

(** *** The current frame of the small-object allocator *)

Definition frame_begin (m : MemoryManager) : Z := s_begin (slob_allocator (mm_zone1 m)).
Definition frame_top (m : MemoryManager) : Z := s_top (slob_allocator (mm_zone1 m)).

(** Its chunks are all in use, and the live pointers into it are theirs. *)
Record small_rep (m : MemoryManager) (cs : list Z) (ptrs : gset Z) : Prop := {
  sr_carved : carved (slob_allocator (mm_zone1 m)) cs;
  sr_ptrs : forall p, frame_begin m <= p < frame_begin m + 4096 -> (p ∈ ptrs <-> p ∈ (areas (frame_begin m) cs).*1)
}.

Lemma areas_app a cs c : areas a (cs ++ [c]) = areas a cs ++ [(a + sum_list cs + 16, c - 16)].
Proof.
  revert a. induction cs as [|d cs IH]; intros a; cbn [app areas]; [unfold sum_list; simpl; by rewrite Z.add_0_r|].
  rewrite IH. unfold sum_list. simpl. by rewrite Z.add_assoc.
Qed.

(** Where a pointer into the rest of the frame lies. *)
Lemma small_top m cs ptrs : small_rep m cs ptrs ->
  frame_top m = frame_begin m + sum_list cs /\ frame_begin m <= frame_top m < frame_begin m + 4096 /\
  (frame_begin m <= frame_top m /\ frame_begin m mod 4096 = 0 /\ slob_zone_begin <= frame_begin m /\ frame_begin m + 4096 <= slob_zone_end) /\
  (forall q n, (q, n) ∈ areas (frame_begin m) cs -> q + n <= frame_top m /\ q < frame_top m) /\ (frame_top m + 16 ∉ ptrs \/ frame_begin m + 4096 <= frame_top m + 16).
Proof.
  intros [Hcv Hp]. destruct (carved_top_cell _ _ Hcv) as (_ & _ & Hge). pose proof Hcv as [(Hz & Hal & Hze) He [Ht Hlt] _ (q0 & _ & _ & _ & _ & _ & Hh) _].
  destruct (headers_sizes _ _ _ _ Hh) as (H0 & _ & Hall). unfold frame_begin, frame_top in *.
  assert (Hlow : forall q n, (q, n) ∈ areas (s_begin (slob_allocator (mm_zone1 m))) cs -> q + n <= s_top (slob_allocator (mm_zone1 m)) /\ q < s_top (slob_allocator (mm_zone1 m))).
  { intros q n Hin. pose proof (areas_below _ _ _ _ Hin Hall) as Hb. rewrite Ht. lia. }
  split_and!; try done; try lia. destruct (decide (s_top (slob_allocator (mm_zone1 m)) + 16 < s_begin (slob_allocator (mm_zone1 m)) + 4096)); [left|right; lia].
  rewrite Hp by lia. intros ((q & n) & Heq & Hin)%list_elem_of_fmap. simpl in Heq. specialize (Hlow q n Hin). lia.
Qed.

(** [kfree] of the last block of the frame. *)
Lemma kfree_last k live ptrs cs c a :
  cpu_ok (k_cpu k) -> mm_rep (k_mm k) live ptrs -> small_rep (k_mm k) (cs ++ [c]) ptrs ->
  let p := frame_top (k_mm k) - c + 16 in a = p \/ a = kernel_va p -> p < frame_begin (k_mm k) + 4096 ->
  exists k', kfree a k = Ret (tt, k') /\ k_cpu k' = k_cpu k /\ mm_rep (k_mm k') live (ptrs ∖ {[p]}) /\
    small_rep (k_mm k') cs (ptrs ∖ {[p]}) /\ frame_top (k_mm k') = frame_top (k_mm k) - c /\ frame_begin (k_mm k') = frame_begin (k_mm k).
Proof.
  intros Hok Hm Hsm p Ha Hlt. destruct (small_top _ _ _ Hsm) as (Ht & Htop & (_ & Hal & Hz & Hze) & _). pose proof Hsm as [Hcv Hp].
  pose proof Hcv as [_ _ _ _ (q0 & _ & _ & _ & _ & _ & Hh) _]. apply headers_app in Hh as (Hh & _ & H32 & _). destruct (headers_sizes _ _ _ _ Hh) as (H0 & _ & Hall).
  rewrite sum_list_app in Ht. assert (Hpe : p = frame_begin (k_mm k) + sum_list cs + 16) by (unfold p; lia).
  unfold slob_zone_begin, slob_zone_end in *.
  assert (Hin : p ∈ ptrs) by (apply Hp; [lia|]; rewrite areas_app, fmap_app; apply elem_of_app; right; rewrite Hpe; left).
  assert (Hna : is_aligned p = false) by (apply (not_page_aligned (frame_begin (k_mm k))); lia).
  assert (Hphys : (if KERNEL_VA_BASE <=? a then a - KERNEL_VA_BASE else a) = p).
  { unfold kernel_va, KERNEL_VA_BASE in *. destruct (Z.leb_spec 0xffff000000000000 a); lia. }
  unfold kfree. rewrite Hphys, Hna. pose proof (mark_free_spec _ _ (mr_kasan _ _ _ Hm) p ltac:(lia)) as Hf.
  rewrite decide_True in Hf by done. destruct Hf as (ks' & Hmark & Hk').
  destruct (carved_pop _ _ _ Hcv) as (s' & Hrel & Hcv' & Htop' & Hbeg'). fold (frame_top (k_mm k)) p in Hrel.
  eexists. split; [apply guarded_mm; [done|]; unfold mbind, M_bind, on_kasan, on_slob1, zoom; rewrite Hmark; simpl; rewrite Hrel; reflexivity|].
  split; [done|]. split; [|split; [|split; [exact Htop'|exact Hbeg']]].
  - apply (slob_touches_zone1 (k_mm k) live ptrs s'); [done|done|]. intros r Hr. rewrite elem_of_difference, elem_of_singleton. split; [by intros []|]. intros ?. split; [done|]. intros ->. congruence.
  - split; [exact Hcv'|]. unfold frame_begin in *. simpl. rewrite Hbeg'. intros r Hr. rewrite elem_of_difference, elem_of_singleton, Hp by done.
    rewrite areas_app, fmap_app, elem_of_app. cbn [fmap list_fmap fst]. rewrite list_elem_of_singleton, <- Hpe. split.
    + by intros [[?| ?] ?].
    + intros Hin'. split; [by left|]. intros ->. apply list_elem_of_fmap in Hin' as ((q & n) & Heq & Hin'). simpl in Heq. subst q.
      pose proof (areas_below _ _ _ _ Hin' Hall). lia.
Qed.

(** [kmalloc] of a block that the rest of the frame has room for. *)
Lemma kmalloc_from_top junk k live ptrs cs sz :
  cpu_ok (k_cpu k) -> mm_rep (k_mm k) live ptrs -> (size ptrs < NR_SLOTS)%nat -> 0 < sz < 4080 ->
  small_rep (k_mm k) cs ptrs -> frame_top (k_mm k) + chunk_size_of sz < frame_begin (k_mm k) + 4096 ->
  let p := frame_top (k_mm k) + 16 in
  (p ∉ ptrs) /\ exists k1, kmalloc junk sz k = Ret (p, k1) /\ k_cpu k1 = k_cpu k /\
    mm_rep (k_mm k1) live ({[p]} ∪ ptrs) /\ small_rep (k_mm k1) (cs ++ [chunk_size_of sz]) ({[p]} ∪ ptrs) /\
    frame_begin (k_mm k1) = frame_begin (k_mm k).
Proof.
  intros Hok Hm Hroom Hsz Hsm Hfit p. destruct (small_top _ _ _ Hsm) as (Ht & Htop & (_ & Hal & Hz & Hze) & _ & Hnew). pose proof Hsm as [Hcv Hp].
  destruct (slob_normalize_spec sz ltac:(lia)) as (_ & Hr & _ & Hle).
  destruct Hnew as [Hnew|Hnew]; [|lia]. unfold slob_zone_begin, slob_zone_end in *. fold p in Hnew. split; [done|].
  assert (Hend : s_end (slob_allocator (mm_zone1 (k_mm k))) = frame_begin (k_mm k) + 4096) by apply Hcv.
  destruct (carved_push _ _ Hcv junk sz Hsz) as (s1 & Hrun & Hcv1 & Hb1); [by rewrite Hend|].
  destruct (mark_allocated_fresh _ _ (mr_kasan _ _ _ Hm) p ltac:(lia) Hnew Hroom) as (ks' & Hmark & Hk').
  assert (Hna : is_aligned p = false) by (apply (not_page_aligned (frame_begin (k_mm k))); unfold p; lia).
  eexists. split; [unfold kmalloc, get_chunk_header_size; rewrite u64_id, PAGE_SIZE_eq, (proj2 (Z.leb_gt 4096 (sz + 16))) by lia; apply guarded_mm; [done|];
    unfold mbind, M_bind, on_slob1, on_kasan, zoom; rewrite Hrun; simpl; fold (frame_top (k_mm k)) p; rewrite Hmark; reflexivity|].
  split; [done|]. split; [|split; [|exact Hb1]].
  - apply (slob_touches_zone1 (k_mm k) live ptrs s1); [done|done|]. intros r Hr'. rewrite elem_of_union, elem_of_singleton. split; [|by right]. intros [->|?]; congruence.
  - split; [exact Hcv1|]. unfold frame_begin in *. simpl. rewrite Hb1. intros r Hr'. rewrite elem_of_union, elem_of_singleton, Hp by done.
    rewrite areas_app, fmap_app, elem_of_app. cbn [fmap list_fmap fst]. rewrite list_elem_of_singleton. unfold p. rewrite Ht. tauto.
Qed.

Lemma kmalloc_small_roundtrip junk k live ptrs cs sz :
  cpu_ok (k_cpu k) -> mm_rep (k_mm k) live ptrs -> (size ptrs < NR_SLOTS)%nat -> 0 < sz < 4080 ->
  small_rep (k_mm k) cs ptrs -> frame_top (k_mm k) + chunk_size_of sz < frame_begin (k_mm k) + 4096 ->
  let p := frame_top (k_mm k) + 16 in
  (p ∉ ptrs) /\ frame_begin (k_mm k) < p /\ p + sz < frame_begin (k_mm k) + 4096 /\
  (forall q n, (q, n) ∈ areas (frame_begin (k_mm k)) cs -> q + n <= p - 16) /\
  exists k1, kmalloc junk sz k = Ret (p, k1) /\ k_cpu k1 = k_cpu k /\
    mm_rep (k_mm k1) live ({[p]} ∪ ptrs) /\ small_rep (k_mm k1) (cs ++ [chunk_size_of sz]) ({[p]} ∪ ptrs) /\
    frame_begin (k_mm k1) = frame_begin (k_mm k) /\
    forall a, a = p \/ a = kernel_va p ->
      exists k2, kfree a k1 = Ret (tt, k2) /\ k_cpu k2 = k_cpu k /\ mm_rep (k_mm k2) live ptrs /\ small_rep (k_mm k2) cs ptrs /\
        frame_top (k_mm k2) = frame_top (k_mm k) /\ kfree a k2 = Panic.
Proof.
  intros Hok Hm Hroom Hsz Hsm Hfit p. destruct (small_top _ _ _ Hsm) as (Ht & Htop & (_ & Hal & Hz & Hze) & Hlow & _).
  destruct (slob_normalize_spec sz ltac:(lia)) as (_ & Hr & _ & Hle).
  destruct (kmalloc_from_top junk k live ptrs cs sz Hok Hm Hroom Hsz Hsm Hfit) as (Hnew & k1 & Hrun & Hc1 & Hm1 & Hsm1 & Hb1). fold p in Hnew, Hrun, Hm1, Hsm1.
  split_and!; [done|unfold p; lia|unfold p; lia|intros q n Hin; destruct (Hlow q n Hin); unfold p; lia|].
  exists k1. split_and!; [done..|]. intros a Ha. destruct (small_top _ _ _ Hsm1) as (Ht1 & _). rewrite sum_list_app, Hb1 in Ht1.
  assert (Hpe : frame_top (k_mm k1) - chunk_size_of sz + 16 = p) by (unfold p; lia).
  destruct (kfree_last k1 live ({[p]} ∪ ptrs) cs (chunk_size_of sz) a) as (k2 & Hf & Hc2 & Hm2 & Hsm2 & Ht2 & Hb2); [congruence|done|done|by rewrite Hpe|rewrite Hpe, Hb1; unfold p; lia|].
  rewrite Hpe in Hm2, Hsm2. replace (({[p]} ∪ ptrs) ∖ {[p]}) with ptrs in Hm2, Hsm2 by set_solver.
  exists k2. split_and!; [done|congruence|done|done|lia|]. unfold slob_zone_begin, slob_zone_end in *.
  assert (Hna : is_aligned p = false) by (apply (not_page_aligned (frame_begin (k_mm k))); unfold p; lia).
  assert (Hphys : (if KERNEL_VA_BASE <=? a then a - KERNEL_VA_BASE else a) = p).
  { unfold kernel_va, KERNEL_VA_BASE, p in *. destruct (Z.leb_spec 0xffff000000000000 a); lia. }
  pose proof (mark_free_spec _ _ (mr_kasan _ _ _ Hm2) p ltac:(unfold p; lia)) as Hmf. rewrite decide_False in Hmf by done.
  unfold kfree. rewrite Hphys, Hna. apply guarded_mm_panic; [congruence|]. unfold mbind, M_bind, on_kasan, zoom. by rewrite Hmf.
Qed.

(** No bytes: the null pointer of the small-object allocator is not accepted. *)
Lemma kmalloc_nothing junk k live ptrs :
  cpu_ok (k_cpu k) -> mm_rep (k_mm k) live ptrs -> (size ptrs < NR_SLOTS)%nat -> kmalloc junk 0 k = Panic.
Proof.
  intros Hok Hm Hroom. unfold kmalloc. apply guarded_mm_panic; [done|]. change (PAGE_SIZE <=? u64 (0 + get_chunk_header_size)) with false.
  unfold mbind, M_bind, on_slob1, on_kasan, zoom. simpl. by rewrite (mark_allocated_panics _ _ (mr_kasan _ _ _ Hm) 0) by (right; done).
Qed.


(** ** Reference counts *)

Inductive ref_op := Inc (b : Z) | Dec (b : Z).
Definition run_ref (o : ref_op) : M Kernel Z :=
  match o with Inc b => inc_page_ref_count (page_addr b) | Dec b => dec_page_ref_count (page_addr b) end.
Fixpoint run_refs (ops : list ref_op) : M Kernel unit :=
  match ops with [] => mret tt | o :: ops => run_ref o;; run_refs ops end.

Definition ref_page (o : ref_op) : Z := match o with Inc b => b | Dec b => b end.
Definition ref_delta (o : ref_op) : Z := match o with Inc _ => 1 | Dec _ => -1 end.

(** Increments less decrements of one page. *)
Fixpoint balance (b : Z) (ops : list ref_op) : Z :=
  match ops with
  | [] => 0
  | o :: ops => (if ref_page o =? b then ref_delta o else 0) + balance b ops
  end.

(** Counts far enough from the ends of [int] for [n] more calls. *)
Definition refs_room (m : MemoryManager) (n : Z) : Prop :=
  forall i c, arr_get (ref_counts m) i = Some c -> - 2 ^ 31 <= c - n /\ c + n < 2 ^ 31.

Lemma page_ref_idx_spec m live ptrs b :
  mm_rep m live ptrs -> 0 <= b < 512 -> get_page_ref_idx (page_addr b) m = Ret (b, m).
Proof.
  intros Hm Hb. unfold get_page_ref_idx. msimpl. rewrite (mr_begin0 _ _ _ Hm), (mr_begin1 _ _ _ Hm), page_addr_aligned.
  rewrite (proj2 (Z.ltb_ge (page_addr b) 0x10000000)), (proj2 (Z.leb_gt 0x10200000 (page_addr b))) by (unfold page_addr; lia).
  cbn [orb negb]. unfold page_addr. replace (0x10000000 + b * 4096 - 0x10000000) with (b * 2 ^ 12) by lia.
  rewrite u64_id, Z.shiftr_div_pow2, Z.div_mul, s32_id by lia. done.
Qed.

Lemma run_ref_spec k live ptrs o n c :
  cpu_ok (k_cpu k) -> mm_rep (k_mm k) live ptrs -> 0 <= ref_page o < 512 -> refs_room (k_mm k) (n + 1) -> 0 <= n ->
  arr_get (ref_counts (k_mm k)) (ref_page o) = Some c ->
  exists k', run_ref o k = Ret (c + ref_delta o, k') /\ k_cpu k' = k_cpu k /\ mm_rep (k_mm k') live ptrs /\
    refs_room (k_mm k') n /\
    forall i, arr_get (ref_counts (k_mm k')) i =
      if decide (ref_page o = i) then Some (c + ref_delta o) else arr_get (ref_counts (k_mm k)) i.
Proof.
  intros Hok Hm Hb Hroom Hn Hc. pose proof (Hroom _ _ Hc) as Hcr.
  assert (Hlen : 0 <= ref_page o < Z.of_nat (length (ref_counts (k_mm k)))) by (rewrite (mr_refs _ _ _ Hm); lia).
  pose proof (arr_set_is_Some (ref_counts (k_mm k)) (ref_page o) (c + ref_delta o) Hlen) as Hset.
  set (r := <[Z.to_nat (ref_page o) := c + ref_delta o]> (ref_counts (k_mm k))) in *.
  exists (set_k_mm (set_ref_counts r (k_mm k)) k). split_and!.
  - assert (Hadd : forall d, d = ref_delta o -> guarded (on_mm (add_ref d (ref_page o))) k =
              Ret (c + ref_delta o, set_k_mm (set_ref_counts r (k_mm k)) k)).
    { intros d ->. apply guarded_mm; [done|]. unfold add_ref. msimpl. rewrite Hc. msimpl.
      rewrite int_ck_ok by (destruct o; simpl; lia). msimpl. rewrite Hset. done. }
    assert (Hidx : on_mm (get_page_ref_idx (page_addr (ref_page o))) k = Ret (ref_page o, k)).
    { unfold on_mm, zoom. rewrite (page_ref_idx_spec _ _ _ _ Hm Hb). by destruct k. }
    destruct o; cbn [run_ref ref_page]; unfold inc_page_ref_count, dec_page_ref_count; mrun Hidx; by apply Hadd.
  - done.
  - destruct Hm. split; simpl; try done. unfold r. by rewrite length_insert.
  - intros i x. simpl. rewrite (arr_get_set _ _ i _ _ Hset). case_decide; [|intros Hx; pose proof (Hroom _ _ Hx); lia].
    intros [= <-]. destruct o; simpl; lia.
  - intros i. simpl. by rewrite (arr_get_set _ _ i _ _ Hset).
Qed.

Lemma run_refs_spec ops k live ptrs :
  cpu_ok (k_cpu k) -> mm_rep (k_mm k) live ptrs -> Forall (fun o => 0 <= ref_page o < 512) ops ->
  refs_room (k_mm k) (Z.of_nat (length ops)) ->
  exists k', run_refs ops k = Ret (tt, k') /\ k_cpu k' = k_cpu k /\ mm_rep (k_mm k') live ptrs /\
    forall i c, arr_get (ref_counts (k_mm k)) i = Some c -> arr_get (ref_counts (k_mm k')) i = Some (c + balance i ops).
Proof.
  revert k. induction ops as [|o ops IH]; intros k Hok Hm Hf Hroom.
  - exists k. split_and!; [done..|]. intros i c ->. simpl. by rewrite Z.add_0_r.
  - apply list.Forall_cons in Hf as [Ho Hf]. simpl in Hroom. rewrite Nat2Z.inj_succ in Hroom.
    destruct (arr_get_is_Some (ref_counts (k_mm k)) (ref_page o)) as [c Hc]; [rewrite (mr_refs _ _ _ Hm); lia|].
    destruct (run_ref_spec k live ptrs o (Z.of_nat (length ops)) c) as (k1 & Hr1 & Hc1 & Hm1 & Hroom1 & Hget1); [done..|lia|done|].
    destruct (IH k1) as (k' & Hr & Hcpu & Hm' & Hget); [congruence|done..|].
    exists k'. split_and!; [|congruence|done|].
    + cbn [run_refs]. mrun Hr1. exact Hr.
    + intros i x Hx. specialize (Hget1 i). cbn [balance]. destruct (Z.eqb_spec (ref_page o) i) as [He|He].
      * rewrite decide_True in Hget1 by done. rewrite <- He, Hc in Hx. injection Hx as <-.
        apply Hget in Hget1. rewrite Hget1. f_equal. lia.
      * rewrite decide_False in Hget1 by done. rewrite Hx in Hget1. apply Hget in Hget1. rewrite Hget1. done.
Qed.

Lemma get_page_ref_count_spec k live ptrs b c :
  cpu_ok (k_cpu k) -> mm_rep (k_mm k) live ptrs -> 0 <= b < 512 -> arr_get (ref_counts (k_mm k)) b = Some c ->
  get_page_ref_count (page_addr b) k = Ret (c, k).
Proof.
  intros Hok Hm Hb Hc. unfold get_page_ref_count.
  assert (Hidx : on_mm (get_page_ref_idx (page_addr b)) k = Ret (b, k)).
  { unfold on_mm, zoom. rewrite (page_ref_idx_spec _ _ _ _ Hm Hb). by destruct k. }
  mrun Hidx. erewrite guarded_mm; [|done|msimpl; rewrite Hc; done]. by destruct k.
Qed.

(** ** Claims *)

(** C7. The table of allocated pointers is a set of at most 1000 pointers: a
    new pointer is added, a pointer already in it stops the kernel, a pointer
    taken back is removed, and taking back one that is not in it (a double
    free) stops the kernel.  With 1000 pointers in it a new one is dropped, so
    that taking it back stops the kernel as well. *)
Theorem kasan_refines_pointer_set slots live p :
  kasan_rep slots live -> p <> 0 ->
  (p ∈ live -> mark_allocated p slots = Panic /\
     exists slots', mark_free_chk p slots = Ret (true, slots') /\ kasan_rep slots' (live ∖ {[p]})) /\
  (p ∉ live -> mark_free_chk p slots = Panic) /\
  (p ∉ live -> (size live < NR_SLOTS)%nat ->
     exists slots', mark_allocated p slots = Ret (tt, slots') /\ kasan_rep slots' ({[p]} ∪ live)) /\
  (p ∉ live -> size live = NR_SLOTS -> mark_allocated p slots = Ret (tt, slots)).
Proof.
  intros Hr Hp. pose proof (mark_free_spec slots live Hr p Hp) as Hf. split_and!.
  - intros Hin. rewrite decide_True in Hf by done. split; [|done]. by eapply mark_allocated_panics; [|left].
  - intros Hin. by rewrite decide_False in Hf.
  - intros Hin Hroom. by apply mark_allocated_fresh.
  - intros Hin Hfull. by eapply mark_allocated_full.
Qed.

(** C5. While fewer than 1000 pointers are tracked, [get_free_page] hands out a
    page frame of zone 0 that no live block contains, as its physical or its
    kernel virtual address, and stops the kernel only when no frame is free;
    [kfree], given either address of a frame of zone 0, gives back the block
    that starts there, and stops the kernel if there is none. *)
Theorem page_frames_refine k live ptrs :
  cpu_ok (k_cpu k) -> mm_rep (k_mm k) live ptrs ->
  ((size ptrs < NR_SLOTS)%nat -> forall physical,
     (exists b k', get_free_page physical k = Ret ((if physical then page_addr b else kernel_va (page_addr b)), k') /\
        0 <= b < 512 /\ (forall c j, live !! c = Some j -> ~ in_block b c j) /\ k_cpu k' = k_cpu k /\
        mm_rep (k_mm k') (<[b := 0]> live) ({[page_addr b]} ∪ ptrs)) \/
     (get_free_page physical k = Panic /\ exhausted live 0)) /\
  (forall b p, 0 <= b < 512 -> p = page_addr b \/ p = kernel_va (page_addr b) ->
     if decide (b ∈ dom live) then exists k', kfree p k = Ret (tt, k') /\ k_cpu k' = k_cpu k /\
       mm_rep (k_mm k') (delete b live) (ptrs ∖ {[page_addr b]})
     else kfree p k = Panic).
Proof.
  intros Hok Hm. split.
  - intros Hroom physical. destruct (get_free_page_spec k live ptrs physical) as [(b & k' & ? & ? & ? & ? & ? & _)|?];
      [done..|left; by exists b, k'|by right].
  - intros b p. by apply kfree_page_spec.
Qed.

(** C6. Each pointer goes back to the allocator it came from, while the
    double-free detector has a free slot.  A [kmalloc] of 4080 bytes or more (up
    to 2^42) is a page-aligned block of zone 0, disjoint from every live block,
    or stops the kernel because zone 0 has none; [kfree] gives it back, and a
    second [kfree] stops the kernel.  A smaller one, when the chunks
    of the small-object allocator's current frame are all in use, no free chunk
    is in its bins and the rest of the frame has room for it, returns a pointer
    into that frame, which is in zone 1: it was not handed out before, the bytes
    asked for end before the end of the frame, and every other block of the
    frame ends before its header; [kfree] of it, under its physical or its
    kernel virtual address, gives it back, leaves everything as it was before,
    and a second [kfree] stops the kernel.  A [kmalloc] of no bytes stops the
    kernel. *)
Theorem kmalloc_kfree_allocator junk k live ptrs sz :
  cpu_ok (k_cpu k) -> mm_rep (k_mm k) live ptrs -> (size ptrs < NR_SLOTS)%nat ->
  (4080 <= sz <= 2 ^ 42 ->
    (exists b k1, kmalloc junk sz k = Ret (page_addr b, k1) /\ wf_block b (order_of_size sz) /\
       (forall c j i, live !! c = Some j -> in_block i c j -> ~ in_block i b (order_of_size sz)) /\ k_cpu k1 = k_cpu k /\
       mm_rep (k_mm k1) (<[b := order_of_size sz]> live) ({[page_addr b]} ∪ ptrs) /\
       exists k2, kfree (page_addr b) k1 = Ret (tt, k2) /\ k_cpu k2 = k_cpu k /\ mm_rep (k_mm k2) live ptrs /\ kfree (page_addr b) k2 = Panic) \/
    (kmalloc junk sz k = Panic /\ (NR_ORDERS <= order_of_size sz \/ exhausted live (order_of_size sz)))) /\
  (0 < sz < 4080 -> forall cs, small_rep (k_mm k) cs ptrs -> frame_top (k_mm k) + chunk_size_of sz < frame_begin (k_mm k) + 4096 ->
    let p := frame_top (k_mm k) + 16 in
    (p ∉ ptrs) /\ frame_begin (k_mm k) < p /\ p + sz < frame_begin (k_mm k) + 4096 /\
    (forall q n, (q, n) ∈ areas (frame_begin (k_mm k)) cs -> q + n <= p - 16) /\
    exists k1, kmalloc junk sz k = Ret (p, k1) /\ k_cpu k1 = k_cpu k /\
      mm_rep (k_mm k1) live ({[p]} ∪ ptrs) /\ small_rep (k_mm k1) (cs ++ [chunk_size_of sz]) ({[p]} ∪ ptrs) /\
      frame_begin (k_mm k1) = frame_begin (k_mm k) /\
      forall a, a = p \/ a = kernel_va p ->
        exists k2, kfree a k1 = Ret (tt, k2) /\ k_cpu k2 = k_cpu k /\ mm_rep (k_mm k2) live ptrs /\ small_rep (k_mm k2) cs ptrs /\
          frame_top (k_mm k2) = frame_top (k_mm k) /\ kfree a k2 = Panic) /\
  kmalloc junk 0 k = Panic.
Proof.
  intros Hok Hm Hroom. split_and!.
  - by apply kmalloc_large_roundtrip.
  - intros Hsz cs Hsm Hfit. by apply kmalloc_small_roundtrip.
  - by apply (kmalloc_nothing junk k live ptrs).
Qed.

(** C8. The reference count of a page is the balance of the calls made on it:
    after any sequence of increments and decrements of pages of zone 0, each
    count has grown by its increments and shrunk by its decrements, and the
    counts of the other pages are as before. *)
Theorem page_ref_balance ops k live ptrs :
  cpu_ok (k_cpu k) -> mm_rep (k_mm k) live ptrs -> Forall (fun o => 0 <= ref_page o < 512) ops ->
  refs_room (k_mm k) (Z.of_nat (length ops)) ->
  exists k', run_refs ops k = Ret (tt, k') /\ mm_rep (k_mm k') live ptrs /\
    forall b, 0 <= b < 512 -> exists c, get_page_ref_count (page_addr b) k = Ret (c, k) /\
      get_page_ref_count (page_addr b) k' = Ret (c + balance b ops, k').
Proof.
  intros Hok Hm Hf Hroom. destruct (run_refs_spec ops k live ptrs Hok Hm Hf Hroom) as (k' & Hr & Hc & Hm' & Hget).
  exists k'. split_and!; [done..|]. intros b Hb.
  destruct (arr_get_is_Some (ref_counts (k_mm k)) b) as [c Hc0]; [rewrite (mr_refs _ _ _ Hm); lia|].
  exists c. split; [by eapply get_page_ref_count_spec|]. eapply get_page_ref_count_spec; [congruence|done|done|auto].
Qed.

(** ** Witnesses *)

Definition fresh_zone (zb : Z) : Zone := mkZone zb (new_slob (fresh_buddy zb)).
Definition fresh_mm : MemoryManager :=
  mkMM 0 (fresh_zone 0x10000000) (fresh_zone 0x10200000) (replicate 512 0) (replicate 512 false) new_kasan.
Definition fresh_kernel : Kernel := mkKernel (held 0) fresh_mm.

Lemma zones_ok : zone_ok 0x10000000 /\ zone_ok 0x10200000.
Proof. unfold zone_ok. split_and!; (reflexivity || lia). Qed.

(** The manager as its constructor leaves it. *)
Lemma new_memory_manager_run : new_memory_manager 0 = Ret fresh_mm.
Proof.
  unfold new_memory_manager, new_zone. rewrite !new_buddy_run by apply zones_ok. reflexivity.
Qed.

Lemma fresh_mm_rep : mm_rep fresh_mm ∅ ∅.
Proof.
  split; [done|done|apply fresh_rep, zones_ok|done|apply new_kasan_rep| |done].
  intros p _. rewrite dom_empty_L. split; [done|]. by intros (b & Hb & _).
Qed.

Lemma fresh_cpu_ok : cpu_ok (k_cpu fresh_kernel).
Proof. by apply held_ok. Qed.

Lemma kasan_refines_pointer_set_witness :
  exists slots', mark_allocated 4096 new_kasan = Ret (tt, slots') /\ kasan_rep slots' ({[4096]} ∪ ∅).
Proof.
  destruct (kasan_refines_pointer_set new_kasan ∅ 4096 new_kasan_rep ltac:(lia)) as (_ & _ & H & _).
  apply H; [apply not_elem_of_empty|rewrite size_empty; unfold NR_SLOTS; lia].
Defined.

Lemma page_frames_refine_witness : kfree (page_addr 3) fresh_kernel = Panic.
Proof.
  destruct (page_frames_refine fresh_kernel ∅ ∅ fresh_cpu_ok fresh_mm_rep) as [_ H].
  specialize (H 3 (page_addr 3) ltac:(lia) (or_introl eq_refl)). rewrite decide_False in H; [exact H|].
  rewrite dom_empty_L. apply not_elem_of_empty.
Defined.

Lemma exhausted_empty k : 0 <= k < NR_ORDERS -> ~ exhausted ∅ k.
Proof.
  intros Hk He. destruct (He 0) as (c & j & i & Hc & _); [|by rewrite lookup_empty in Hc].
  split_and!; [lia|lia|lia|apply Z.divide_0_r|]. unfold NR_FRAMES, NR_ORDERS in *.
  change 512 with (2 ^ 9). apply Z.pow_le_mono_r; lia.
Qed.

(** The kernel after a first request of 100 bytes: a frame of zone 1 with one
    chunk of 128 bytes. *)
Definition blank (a : Z) : ChunkHeader := mkChunk 0 0 0.
Definition one_small : Kernel := match kmalloc blank 100 fresh_kernel with Ret (_, k) => k | _ => fresh_kernel end.
Definition first_frame : Z := 0x10200000.

Definition one_chunk (k : Kernel) : bool :=
  let s := slob_allocator (mm_zone1 (k_mm k)) in
  (s_begin s =? first_frame) && (s_top s =? first_frame + 128) && (s_end s =? first_frame + 4096) && (s_top_prev s =? 128) &&
  bool_decide (s_bins s = replicate 7 0) && (s_unsorted s =? 0) &&
  forallb (fun i => bool_decide (is_Some (s_mem s !! (first_frame + i * 16)))) (seqZ 0 256) &&
  match s_mem s !! first_frame with Some (mkChunk n i q) => (n =? 0) && (i =? 6) && (q =? 1) | None => false end.

Lemma one_chunk_rep k : one_chunk k = true ->
  small_rep (k_mm k) [128] {[first_frame + 16]} /\ frame_begin (k_mm k) = first_frame /\ frame_top (k_mm k) = first_frame + 128.
Proof.
  intros Hk. unfold one_chunk in Hk. rewrite !andb_true_iff in Hk.
  destruct Hk as [[[[[[[Hb%Z.eqb_eq Ht%Z.eqb_eq] He%Z.eqb_eq] Hq%Z.eqb_eq] Hbins%bool_decide_eq_true] Hu%Z.eqb_eq] Hcells] Hh].
  split; [|by split]. rewrite forallb_forall in Hcells. destruct (s_mem _ !! first_frame) as [[n i q]|] eqn:Hf; [|done].
  rewrite !andb_true_iff in Hh. destruct Hh as [[->%Z.eqb_eq ->%Z.eqb_eq] ->%Z.eqb_eq].
  split; [split|].
  - rewrite Hb. unfold first_frame, slob_zone_begin, slob_zone_end. split_and!; [lia|reflexivity|lia].
  - by rewrite Hb, He.
  - rewrite Ht, Hb, He. unfold sum_list. simpl. lia.
  - intros x Hx. rewrite Hb. apply (bool_decide_eq_true_1 (is_Some _)), Hcells, list_elem_of_In, elem_of_seqZ. lia.
  - exists 0. rewrite Hb, Hq, Z.sub_0_r, Hf. unfold first_frame at 1. split_and!; [lia|lia|lia|done|by eexists|done|].
    cbn [headers]. rewrite Hf. split_and!; [done|lia|done|done].
  - done.
  - unfold frame_begin. rewrite Hb. intros x _. simpl. by rewrite elem_of_singleton, list_elem_of_singleton.
Qed.

Lemma one_small_checked :
  match kmalloc blank 100 fresh_kernel with Ret (p, k) => (p =? first_frame + 16) && one_chunk k | _ => false end = true.
Proof. vm_compute. reflexivity. Qed.

Lemma one_small_run : kmalloc blank 100 fresh_kernel = Ret (first_frame + 16, one_small) /\ one_chunk one_small = true.
Proof.
  pose proof one_small_checked as H. unfold one_small. destruct (kmalloc blank 100 fresh_kernel) as [[p k]| | |]; [|done..].
  by apply andb_true_iff in H as [->%Z.eqb_eq H].
Qed.

Lemma one_small_mm : cpu_ok (k_cpu one_small) /\ mm_rep (k_mm one_small) ∅ {[first_frame + 16]}.
Proof.
  destruct one_small_run as [Hrun _]. revert Hrun. generalize one_small. intros k Hrun.
  destruct (kmalloc_small_spec blank fresh_kernel ∅ ∅ 100 (first_frame + 16) k) as (_ & _ & Hc & Hm);
    [exact fresh_cpu_ok|exact fresh_mm_rep|rewrite size_empty; unfold NR_SLOTS; lia|lia|exact Hrun|].
  rewrite union_empty_r_L in Hm. split; [rewrite Hc; exact fresh_cpu_ok|exact Hm].
Qed.

(** Both kinds of request: 5000 bytes on the fresh kernel, and 300 bytes when a
    block of 100 is in use. *)
Lemma kmalloc_kfree_allocator_witness :
  (exists b k1 k2, kmalloc blank 5000 fresh_kernel = Ret (page_addr b, k1) /\ wf_block b 1 /\ kfree (page_addr b) k1 = Ret (tt, k2) /\ kfree (page_addr b) k2 = Panic) /\
  (exists k1 k2, kmalloc blank 300 one_small = Ret (first_frame + 144, k1) /\ kfree (kernel_va (first_frame + 144)) k1 = Ret (tt, k2) /\
     mm_rep (k_mm k2) ∅ {[first_frame + 16]} /\ small_rep (k_mm k2) [128] {[first_frame + 16]} /\ kfree (kernel_va (first_frame + 144)) k2 = Panic).
Proof.
  split.
  - destruct (kmalloc_kfree_allocator blank fresh_kernel ∅ ∅ 5000 fresh_cpu_ok fresh_mm_rep) as [H _]; [rewrite size_empty; unfold NR_SLOTS; lia|].
    destruct (H ltac:(lia)) as [(b & k1 & H1 & Hwf & _ & _ & _ & k2 & H2 & _ & _ & H3)|(_ & [Hx|Hx])].
    + exists b, k1, k2. split_and!; [exact H1|exact Hwf|exact H2|exact H3].
    + change (order_of_size 5000) with 1 in Hx. unfold NR_ORDERS in Hx. lia.
    + exfalso. apply (exhausted_empty 1); [unfold NR_ORDERS; lia|exact Hx].
  - destruct one_small_mm as [Hok Hm]. destruct (one_chunk_rep one_small (proj2 one_small_run)) as (Hsm & Hb & Ht). revert Hok Hm Hsm Hb Ht. generalize one_small. intros k Hok Hm Hsm Hb Ht.
    destruct (kmalloc_kfree_allocator blank k ∅ {[first_frame + 16]} 300 Hok Hm) as (_ & H & _); [rewrite size_singleton; unfold NR_SLOTS; lia|].
    rewrite Hb, Ht in H. destruct (H ltac:(lia) [128] Hsm ltac:(change (chunk_size_of 300) with 320; lia)) as (_ & _ & _ & _ & k1 & H1 & _ & _ & _ & _ & Hf).
    replace (first_frame + 128 + 16) with (first_frame + 144) in * by lia.
    destruct (Hf _ (or_intror eq_refl)) as (k2 & H2 & _ & Hm2 & Hs2 & _ & H3). exists k1, k2. split_and!; [exact H1|exact H2|exact Hm2|exact Hs2|exact H3].
Defined.

Lemma page_ref_balance_witness :
  exists k', run_refs [Inc 7; Inc 7; Dec 7; Inc 8] fresh_kernel = Ret (tt, k') /\
    exists c, get_page_ref_count (page_addr 7) fresh_kernel = Ret (c, fresh_kernel) /\
      get_page_ref_count (page_addr 7) k' = Ret (c + 1, k').
Proof.
  destruct (page_ref_balance [Inc 7; Inc 7; Dec 7; Inc 8] fresh_kernel ∅ ∅ fresh_cpu_ok fresh_mm_rep) as (k' & Hr & _ & Hc).
  - repeat constructor; simpl; lia.
  - intros i c. change (ref_counts (k_mm fresh_kernel)) with (replicate 512 0). unfold arr_get. destruct (decide (0 <= i)); [|done].
    intros [-> _]%lookup_replicate. simpl. lia.
  - exists k'. split; [exact Hr|]. apply (Hc 7). lia.
Defined.
