(* ===== verification/PageTable.v ===== *)
(** * mm/VirtualMemoryMap.cc, include/mm/VirtualMemoryMap.h: page tables

    A [VMMap] is the physical address of its page global directory.  The state
    is the memory manager and the contents of physical memory as 64-bit words
    at 8-byte aligned addresses, which the kernel reaches directly.  A [memset]
    or [memcpy] of a page frame sets or copies its 512 words. *)

From Stdlib Require Import ZArith Lia.
From stdpp Require Import base gmap list numbers.
From S2P Require Import Prelude Math Mmu Mutex Buddy Slob Memory.

Open Scope Z_scope.

Record VM := mkVM { vm_kernel : Kernel; vm_mem : Z -> Z }.
Definition set_vm_kernel (k : Kernel) (s : VM) : VM := mkVM k (vm_mem s).
Definition set_vm_mem (m : Z -> Z) (s : VM) : VM := mkVM (vm_kernel s) m.
Definition on_kernel {A} (m : M Kernel A) : M VM A := zoom vm_kernel set_vm_kernel m.

(** ** Memory *)

Definition upd_word (a v : Z) (mem : Z -> Z) : Z -> Z := fun x => if x =? a then v else mem x.

Definition in_frame (frame x : Z) : bool := (frame <=? x) && (x <? frame + PAGE_SIZE).
Definition zero_frame (frame : Z) (mem : Z -> Z) : Z -> Z := fun x => if in_frame frame x then 0 else mem x.
Definition copy_frame (dst src : Z) (mem : Z -> Z) : Z -> Z :=
  fun x => if in_frame dst x then mem (src + (x - dst)) else mem x.

Definition rd_word (a : Z) : M VM Z := s ← get; mret (vm_mem s a).
Definition wr_word (a v : Z) : M VM unit := modify (fun s => set_vm_mem (upd_word a v (vm_mem s)) s).

(** [&pt[i]] *)
Definition entry (pt i : Z) : Z := pt + 8 * i.

Definition page_table_depth : nat := 4.
Definition nr_entries_per_pt : Z := PAGE_SIZE / 8.

(** [for (size_t i = 0; i < nr_entries_per_pt; i++)] *)
Fixpoint for_entries (n : nat) (i : Z) (body : Z -> M VM unit) : M VM unit :=
  match n with
  | O => mret tt
  | S n => body i;; for_entries n (i + 1) body
  end.

(** A page frame for a table, cleared. *)
Definition new_table : M VM Z :=
  page_frame ← on_kernel (get_free_page true);
  modify (fun s => set_vm_mem (zero_frame page_frame (vm_mem s)) s);;
  mret page_frame.

(** ** Walking *)

(** The loop of [walk] over the indices of the upper levels. *)
Fixpoint walk_loop (create_pte : bool) (indices : list Z) (pt : Z) : M VM (option Z) :=
  match indices with
  | [] => mret (Some pt)
  | pt_index :: indices =>
      d ← rd_word (entry pt pt_index);
      if negb (PD_INVALID d) then walk_loop create_pte indices (Z.land d PD_PAGE_MASK)
      else if negb create_pte then mret None
      else
        next_level_pt_addr ← new_table;
        wr_word (entry pt pt_index) (Z.lor next_level_pt_addr PD_TABLE);;
        walk_loop create_pte indices next_level_pt_addr
  end.

(** The address of the PTE, [None] for [nullptr]. *)
Definition walk (pgd v_addr : Z) (create_pte : bool) : M VM (option Z) :=
  pt ← walk_loop create_pte [PGD_INDEX v_addr; PUD_INDEX v_addr; PMD_INDEX v_addr] pgd;
  match pt with
  | None => mret None
  | Some pt => mret (Some (entry pt (PTE_INDEX v_addr)))
  end.

(** ** Operations *)

Definition new_vmmap : M VM Z :=
  pgd ← on_kernel (get_free_page true);
  if pgd =? 0 then mret pgd
  else modify (fun s => set_vm_mem (zero_frame pgd (vm_mem s)) s);; mret pgd.

Definition vm_map (pgd v_addr p_addr attr : Z) : M VM unit :=
  pte ← walk pgd v_addr true;
  match pte with
  | None => fault
  | Some pte =>
      d ← rd_word pte;
      if negb (PD_INVALID d) then panic
      else
        let attr := if Z.land attr PD_RDONLY =? 0 then Z.lor attr PD_COW_PAGE else attr in
        wr_word pte (Z.lor p_addr attr);;
        on_kernel (inc_page_ref_count p_addr);;
        mret tt
  end.

Definition unmap (pgd v_addr : Z) : M VM unit :=
  pte ← walk pgd v_addr false;
  match pte with
  | None => panic
  | Some pte =>
      d ← rd_word pte;
      wr_word pte 0;;
      on_kernel (dec_page_ref_count (Z.land d PD_PAGE_MASK));;
      mret tt
  end.

Definition is_cow_page (pgd v_addr : Z) : M VM bool :=
  if negb (is_aligned v_addr) then panic
  else
    pte ← walk pgd v_addr false;
    match pte with
    | None => mret false
    | Some pte => d ← rd_word pte; mret (negb (Z.land d PD_COW_PAGE =? 0))
    end.

(** 0 for [nullptr]. *)
Definition get_physical_address (pgd v_addr : Z) : M VM Z :=
  pte ← walk pgd v_addr false;
  match pte with
  | None => mret 0
  | Some pte => d ← rd_word pte; mret (Z.land d PD_PAGE_MASK + PAGE_OFFSET v_addr)
  end.

Definition get_unmapped_area (pgd len : Z) : Z := 0.

Definition not64 (x : Z) : Z := 2 ^ 64 - 1 - x.

Definition copy_page_frame (pgd v_addr : Z) : M VM unit :=
  pte ← walk pgd v_addr false;
  match pte with
  | None => panic
  | Some pte =>
      d ← rd_word pte;
      let old_page_frame := Z.land d PD_PAGE_MASK in
      let old_attr := Z.land d PD_ATTR_MASK in
      refs ← on_kernel (get_page_ref_count old_page_frame);
      if refs =? 1 then
        wr_word pte (Z.land d (not64 PD_COW_PAGE));;
        d ← rd_word pte;
        wr_word pte (Z.land d (not64 PD_RDONLY))
      else
        new_page_frame ← on_kernel (get_free_page true);
        modify (fun s => set_vm_mem (copy_frame new_page_frame old_page_frame (vm_mem s)) s);;
        wr_word pte (Z.lor new_page_frame old_attr);;
        d ← rd_word pte;
        wr_word pte (Z.land d (not64 PD_RDONLY));;
        on_kernel (dec_page_ref_count old_page_frame);;
        on_kernel (inc_page_ref_count new_page_frame);;
        mret tt
  end.

(** [below] is the number of levels below the table: [level] is [3 - below]. *)
Fixpoint dfs_kfree_page (below : nat) (pt : Z) : M VM unit :=
  for_entries (Z.to_nat nr_entries_per_pt) 0 (fun i =>
    d ← rd_word (entry pt i);
    if PD_INVALID d then mret tt
    else
      match below with
      | O =>
          let p_addr := Z.land d PD_PAGE_MASK in
          refs ← on_kernel (dec_page_ref_count p_addr);
          if refs =? 0 then on_kernel (kfree p_addr) else mret tt
      | S below =>
          dfs_kfree_page below (Z.land d PD_PAGE_MASK);;
          d ← rd_word (entry pt i);
          on_kernel (kfree (Z.land d PD_PAGE_MASK))
      end).

Fixpoint dfs_copy_page_tables (below : nat) (pt_old pt_new : Z) : M VM unit :=
  for_entries (Z.to_nat nr_entries_per_pt) 0 (fun i =>
    d ← rd_word (entry pt_old i);
    if PD_INVALID d then mret tt
    else
      match below with
      | O =>
          let page_frame_addr := Z.land d PD_PAGE_MASK in
          let v := Z.lor (Z.lor page_frame_addr USER_PAGE_RX) PD_COW_PAGE in
          wr_word (entry pt_new i) v;;
          wr_word (entry pt_old i) v;;
          on_kernel (inc_page_ref_count page_frame_addr);;
          mret tt
      | S below =>
          let old_page_frame := Z.land d PD_PAGE_MASK in
          new_page_frame ← new_table;
          wr_word (entry pt_new i) (Z.lor new_page_frame PD_TABLE);;
          dfs_copy_page_tables below old_page_frame new_page_frame
      end).

Definition vm_reset (pgd : Z) : M VM unit :=
  dfs_kfree_page 3 pgd;;
  modify (fun s => set_vm_mem (zero_frame pgd (vm_mem s)) s).

Definition copy_from (r_pgd pgd : Z) : M VM unit := dfs_copy_page_tables 3 r_pgd pgd.

Definition delete_vmmap (pgd : Z) : M VM unit := vm_reset pgd;; on_kernel (kfree pgd).

(** ** The CoW branch of [handle_page_fault] (kernel/Exception.cc)

    [true] if the fault was resolved, [false] if the task is to be killed. *)
Definition get_fault_page_addr (far_el1 : Z) : Z := Z.land far_el1 PAGE_MASK.
Definition resolve_page_fault (pgd far_el1 : Z) : M VM bool :=
  let fault_page_addr := get_fault_page_addr far_el1 in
  cow ← is_cow_page pgd fault_page_addr;
  if (cow : bool) then copy_page_frame pgd fault_page_addr;; mret true else mret false.
