(* ===== verification/PageTableSpec.v ===== *)
(** * What the page tables promise

    The tables of a map form a tree of distinct page frames.  The translation a
    map describes is a function on page numbers: walking creates tables without
    changing it, [map] and [unmap] change it at one page, and
    [get_physical_address] reads it. *)

From Stdlib Require Import ZArith Lia.
From stdpp Require Import base gmap list numbers.
From S2P Require Import Prelude Math Mmu Mutex Tiling Buddy BuddyProof BuddySpec Slob Memory MemorySpec PageTable.

Open Scope Z_scope.

(** ** Descriptors *)

(** Attributes of a valid descriptor, outside the address field. *)
Definition attr_ok (attr : Z) : Prop := Z.land attr PD_PAGE_MASK = 0 /\ Z.land attr 1 = 1.

Lemma page_addr_mask b : 0 <= b < 512 -> Z.land (page_addr b) PD_PAGE_MASK = page_addr b.
Proof.
  intros Hb. change PD_PAGE_MASK with (2 ^ 47 - 2 ^ 12). rewrite land_high_mask; [|lia|unfold page_addr; lia].
  change (2 ^ 12) with 4096. rewrite (proj1 (is_aligned_spec _) (page_addr_aligned b)). lia.
Qed.

Lemma page_addr_even b : Z.land (page_addr b) 1 = 0.
Proof.
  change 1 with (Z.ones 1). rewrite Z.land_ones by lia. unfold page_addr.
  replace (0x10000000 + b * 4096) with ((134217728 + b * 2048) * 2 ^ 1) by lia. by rewrite Z.mod_mul.
Qed.

Lemma descriptor_frame b attr : 0 <= b < 512 -> attr_ok attr -> Z.land (Z.lor (page_addr b) attr) PD_PAGE_MASK = page_addr b.
Proof. intros Hb [Ha _]. by rewrite Z.land_lor_distr_l, page_addr_mask, Ha, Z.lor_0_r. Qed.

Lemma descriptor_valid b attr : attr_ok attr -> PD_INVALID (Z.lor (page_addr b) attr) = false.
Proof. intros [_ Ha]. unfold PD_INVALID. by rewrite Z.land_lor_distr_l, page_addr_even, Ha. Qed.

Lemma table_attr_ok : attr_ok PD_TABLE.
Proof. done. Qed.

Lemma cow_attr_ok attr : attr_ok attr -> attr_ok (Z.lor attr PD_COW_PAGE).
Proof. intros [Ha Hb]. split; rewrite Z.land_lor_distr_l; [rewrite Ha|rewrite Hb]; done. Qed.

(** ** Virtual addresses *)

Definition indices (v : Z) : list Z := [PGD_INDEX v; PUD_INDEX v; PMD_INDEX v; PTE_INDEX v].
Definition user_va (v : Z) : Prop := 0 <= v < 2 ^ 48.

Lemma index_eq v k : 0 <= k -> Z.land (Z.shiftr v k) 0x1ff = (v / 2 ^ k) mod 512.
Proof. intros Hk. change 0x1ff with (Z.ones 9). by rewrite Z.land_ones, Z.shiftr_div_pow2 by lia. Qed.

Lemma indices_range v : Forall (fun i => 0 <= i < 512) (indices v).
Proof.
  unfold indices, PGD_INDEX, PUD_INDEX, PMD_INDEX, PTE_INDEX. rewrite !index_eq by lia.
  repeat constructor; apply Z.mod_pos_bound; lia.
Qed.

(** Two user addresses have the same indices exactly if they are in the same page. *)
Lemma indices_page v w : user_va v -> user_va w -> (indices v = indices w <-> v / 4096 = w / 4096).
Proof.
  unfold user_va, indices, PGD_INDEX, PUD_INDEX, PMD_INDEX, PTE_INDEX. intros Hv Hw. rewrite !index_eq by lia.
  change (2 ^ 39) with (4096 * 134217728). change (2 ^ 30) with (4096 * 262144). change (2 ^ 21) with (4096 * 512).
  change (2 ^ 12) with 4096. rewrite <- !Z.div_div by lia.
  assert (0 <= v / 4096 < 2 ^ 36) by (split; [apply Z.div_pos; lia|apply Z.div_lt_upper_bound; lia]).
  assert (0 <= w / 4096 < 2 ^ 36) by (split; [apply Z.div_pos; lia|apply Z.div_lt_upper_bound; lia]).
  generalize dependent (v / 4096). generalize dependent (w / 4096). intros b Hb a Ha. split; [|by intros ->].
  intros [= H1 H2 H3 H4]. Z.to_euclidean_division_equations. lia.
Qed.

(** ** The tree of tables *)

Definition child (mem : Z -> Z) (f i : Z) : Z := Z.land (mem (entry f i)) PD_PAGE_MASK.
Definition valid (mem : Z -> Z) (f i : Z) : bool := negb (PD_INVALID (mem (entry f i))).

(** [T] gives the level of each table frame of the map. *)
Record pt_wf (mem : Z -> Z) (pgd : Z) (T : gmap Z nat) : Prop := {
  pw_root : T !! pgd = Some 0%nat;
  pw_addr : forall f l, T !! f = Some l -> exists b, 0 <= b < 512 /\ f = page_addr b;
  pw_child : forall f l i, T !! f = Some l -> (l < 3)%nat -> 0 <= i < 512 -> valid mem f i = true ->
    T !! child mem f i = Some (S l);
  pw_inj : forall f l i f' l' i', T !! f = Some l -> (l < 3)%nat -> 0 <= i < 512 -> valid mem f i = true ->
    T !! f' = Some l' -> (l' < 3)%nat -> 0 <= i' < 512 -> valid mem f' i' = true ->
    child mem f i = child mem f' i' -> f = f' /\ i = i'
}.

(** The table a path of indices leads to, and the descriptor at its end. *)
Fixpoint find_table (mem : Z -> Z) (ps : list Z) (f : Z) : option Z :=
  match ps with
  | [] => Some f
  | i :: ps => if valid mem f i then find_table mem ps (child mem f i) else None
  end.
Definition descriptor (mem : Z -> Z) (f i : Z) : option Z :=
  if valid mem f i then Some (mem (entry f i)) else None.
Definition upper (v : Z) : list Z := [PGD_INDEX v; PUD_INDEX v; PMD_INDEX v].
Definition trans (mem : Z -> Z) (pgd v : Z) : option Z :=
  match find_table mem (upper v) pgd with Some t => descriptor mem t (PTE_INDEX v) | None => None end.

Lemma upper_range v : Forall (fun i => 0 <= i < 512) (upper v).
Proof. pose proof (indices_range v) as H. unfold indices in H. do 3 (apply list.Forall_cons in H as [? H]).
  constructor; [done|constructor; [done|constructor; [done|constructor]]]. Qed.
Lemma pte_range v : 0 <= PTE_INDEX v < 512.
Proof. pose proof (indices_range v) as H. unfold indices in H. do 4 apply list.Forall_cons in H as [? H]. done. Qed.

Lemma find_table_app mem ps qs f :
  find_table mem (ps ++ qs) f = match find_table mem ps f with Some t => find_table mem qs t | None => None end.
Proof. revert f. induction ps as [|i ps IH]; intros f; simpl; [done|]. by destruct (valid mem f i). Qed.

Lemma find_table_level mem pgd T ps f l t :
  pt_wf mem pgd T -> Forall (fun i => 0 <= i < 512) ps -> T !! f = Some l -> (l + length ps <= 3)%nat ->
  find_table mem ps f = Some t -> T !! t = Some (l + length ps)%nat.
Proof.
  intros Hw. revert f l. induction ps as [|i ps IH]; intros f l Hr Hf Hl; simpl.
  - intros [= <-]. by rewrite Nat.add_0_r.
  - apply list.Forall_cons in Hr as [Hi Hr]. destruct (valid mem f i) eqn:Hv; [|done]. intros Ht. simpl in Hl.
    rewrite <- Nat.add_succ_comm. apply (IH (child mem f i)); [done| |lia|done]. apply (pw_child _ _ _ Hw f l i); [done|lia|done..].
Qed.

(** A table is reached by one path only. *)
Lemma find_table_inj mem pgd T ps qs t :
  pt_wf mem pgd T -> Forall (fun i => 0 <= i < 512) ps -> Forall (fun i => 0 <= i < 512) qs ->
  length ps = length qs -> (length ps <= 3)%nat ->
  find_table mem ps pgd = Some t -> find_table mem qs pgd = Some t -> ps = qs.
Proof.
  intros Hw. revert qs t. induction ps as [|i ps IH] using rev_ind; intros qs t Hi Hj Hlen H3.
  - by destruct qs.
  - destruct qs as [|j qs _] using rev_ind; [rewrite length_app in Hlen; simpl in Hlen; lia|].
    rewrite !length_app in *. simpl in *. apply list.Forall_app in Hi as [His Hi], Hj as [Hjs Hj].
    apply list.Forall_cons in Hi as [Hi _], Hj as [Hj _]. rewrite !find_table_app.
    destruct (find_table mem ps pgd) as [f|] eqn:Hf; [|done]. destruct (find_table mem qs pgd) as [g|] eqn:Hg; [|done].
    simpl. destruct (valid mem f i) eqn:Hvf; [|done]. destruct (valid mem g j) eqn:Hvg; [|done]. intros [= H1] [= H2].
    pose proof (find_table_level _ _ _ ps pgd 0 f Hw His (pw_root _ _ _ Hw) ltac:(lia) Hf) as Hlf.
    pose proof (find_table_level _ _ _ qs pgd 0 g Hw Hjs (pw_root _ _ _ Hw) ltac:(lia) Hg) as Hlg.
    destruct (pw_inj _ _ _ Hw f (0 + length ps)%nat i g (0 + length qs)%nat j Hlf) as [<- <-]; [lia|done|done|exact Hlg|lia|done|done|congruence|].
    f_equal. apply (IH qs f); [done|done|lia|lia|done|done].
Qed.

(** ** Updates of the tree *)

Lemma entry_inj b i c j : 0 <= i < 512 -> 0 <= j < 512 -> entry (page_addr b) i = entry (page_addr c) j -> b = c /\ i = j.
Proof. unfold entry, page_addr. lia. Qed.

Lemma zero_frame_own mem b i : 0 <= i < 512 -> zero_frame (page_addr b) mem (entry (page_addr b) i) = 0.
Proof.
  intros Hi. unfold zero_frame, in_frame. rewrite PAGE_SIZE_eq.
  by rewrite (proj2 (Z.leb_le _ _)), (proj2 (Z.ltb_lt _ _)) by (unfold entry, page_addr; lia).
Qed.

Lemma zero_frame_other mem b c i : 0 <= i < 512 -> b <> c -> zero_frame (page_addr b) mem (entry (page_addr c) i) = mem (entry (page_addr c) i).
Proof.
  intros Hi Hbc. unfold zero_frame, in_frame. rewrite PAGE_SIZE_eq.
  destruct (Z.leb_spec (page_addr b) (entry (page_addr c) i)), (Z.ltb_spec (entry (page_addr c) i) (page_addr b + 4096));
    try done. unfold entry, page_addr in *. lia.
Qed.

Lemma upd_word_eq mem a d : upd_word a d mem a = d.
Proof. unfold upd_word. by rewrite Z.eqb_refl. Qed.
Lemma upd_word_ne mem a d x : x <> a -> upd_word a d mem x = mem x.
Proof. intros H. unfold upd_word. by rewrite (proj2 (Z.eqb_neq x a)). Qed.

Lemma same_entry mem mem' f i :
  mem' (entry f i) = mem (entry f i) -> valid mem' f i = valid mem f i /\ child mem' f i = child mem f i.
Proof. intros H. unfold valid, child. by rewrite H. Qed.

(** Hanging a cleared table [page_addr b] into an empty slot of the tree. *)
Section new_child.
Context (mem : Z -> Z) (pgd : Z) (T : gmap Z nat) (Hw : pt_wf mem pgd T).
Context (f0 : Z) (l0 : nat) (i0 b : Z) (Hf0 : T !! f0 = Some l0) (Hl0 : (l0 < 3)%nat) (Hi0 : 0 <= i0 < 512).
Context (Hempty : valid mem f0 i0 = false) (Hb : 0 <= b < 512) (Hnew : T !! page_addr b = None).

Let mem' : Z -> Z := upd_word (entry f0 i0) (Z.lor (page_addr b) PD_TABLE) (zero_frame (page_addr b) mem).

Lemma new_child_at : valid mem' f0 i0 = true /\ child mem' f0 i0 = page_addr b.
Proof.
  unfold valid, child, mem'. rewrite upd_word_eq, descriptor_valid, descriptor_frame by (done || apply table_attr_ok). done.
Qed.

Lemma new_child_other f l i : T !! f = Some l -> 0 <= i < 512 -> ~ (f = f0 /\ i = i0) -> mem' (entry f i) = mem (entry f i).
Proof.
  intros Hf Hi Hne. destruct (pw_addr _ _ _ Hw _ _ Hf) as (c & Hc & ->). destruct (pw_addr _ _ _ Hw _ _ Hf0) as (c0 & Hc0 & ->).
  unfold mem'. rewrite upd_word_ne by (intros [-> ->]%entry_inj; auto). apply zero_frame_other; [done|]. intros ->. congruence.
Qed.

Lemma new_child_empty i : 0 <= i < 512 -> valid mem' (page_addr b) i = false.
Proof.
  intros Hi. destruct (pw_addr _ _ _ Hw _ _ Hf0) as (c0 & Hc0 & Hc). unfold valid, mem'.
  rewrite upd_word_ne, zero_frame_own; [done|done|]. rewrite Hc. intros [-> ->]%entry_inj; [|done..]. congruence.
Qed.

Lemma new_child_wf : pt_wf mem' pgd (<[page_addr b := S l0]> T).
Proof.
  destruct new_child_at as [Hv0 Hc0].
  assert (Hne : forall f l, T !! f = Some l -> page_addr b <> f) by (intros f l Hf <-; congruence).
  (* what a valid entry above the leaves is *)
  assert (Hcases : forall f l i, <[page_addr b := S l0]> T !! f = Some l -> (l < 3)%nat -> 0 <= i < 512 -> valid mem' f i = true ->
    (f = f0 /\ i = i0 /\ l = l0) \/ (T !! f = Some l /\ valid mem f i = true /\ child mem' f i = child mem f i)).
  { intros f l i Hf Hl Hi Hv. destruct (decide (f = page_addr b)) as [->|Hfb]; [by rewrite new_child_empty in Hv|].
    rewrite lookup_insert_ne in Hf by done. destruct (decide (f = f0 /\ i = i0)) as [[-> ->]|Hd]; [left; naive_solver|].
    right. destruct (same_entry mem mem' f i (new_child_other f l i Hf Hi Hd)) as [Hvv Hcc]. by rewrite <- Hvv. }
  split.
  - rewrite lookup_insert_ne; [apply Hw|]. apply (Hne pgd 0%nat), Hw.
  - intros f l. destruct (decide (page_addr b = f)) as [<-|Hd]; [eauto|]. rewrite lookup_insert_ne by done. apply Hw.
  - intros f l i Hf Hl Hi Hv. destruct (Hcases f l i Hf Hl Hi Hv) as [(-> & -> & ->)|(Hf' & Hv' & ->)].
    + rewrite Hc0. apply lookup_insert_eq.
    + pose proof (pw_child _ _ _ Hw f l i Hf' Hl Hi Hv') as Hc. rewrite lookup_insert_ne; [done|]. by eapply Hne.
  - intros f l i g k j Hf Hl Hi Hv Hg Hk Hj Hv'.
    destruct (Hcases f l i Hf Hl Hi Hv) as [(-> & -> & ->)|(Hf' & Hvf & ->)];
      destruct (Hcases g k j Hg Hk Hj Hv') as [(-> & -> & ->)|(Hg' & Hvg & ->)]; rewrite ?Hc0; intros Heq; [done|exfalso..|].
    + eapply Hne; [|exact Heq]. by eapply (pw_child _ _ _ Hw g k j).
    + eapply Hne; [|symmetry; exact Heq]. by eapply (pw_child _ _ _ Hw f l i).
    + by eapply (pw_inj _ _ _ Hw f l i g k j).
Qed.

Definition path_end (m : Z -> Z) (ps : list Z) (j f : Z) : option Z :=
  match find_table m ps f with Some t => descriptor m t j | None => None end.

Lemma new_child_path ps f l j :
  Forall (fun i => 0 <= i < 512) ps -> 0 <= j < 512 -> T !! f = Some l -> (l + length ps = 3)%nat ->
  path_end mem' ps j f = path_end mem ps j f.
Proof.
  intros Hr Hj. revert f l. induction ps as [|i ps IH]; intros f l Hf Hl; unfold path_end; simpl in *.
  - assert (Hd : ~ (f = f0 /\ j = i0)) by (intros [-> ->]; rewrite Hf0 in Hf; injection Hf as <-; lia).
    unfold descriptor, valid. by rewrite (new_child_other f l j Hf Hj Hd).
  - apply list.Forall_cons in Hr as [Hi Hr]. destruct (decide (f = f0 /\ i = i0)) as [[-> ->]|Hd].
    + destruct new_child_at as [-> ->]. rewrite Hempty. destruct ps as [|i1 ps]; simpl.
      * unfold descriptor. by rewrite new_child_empty.
      * apply list.Forall_cons in Hr as [Hi1 _]. by rewrite new_child_empty.
    + destruct (same_entry mem mem' f i (new_child_other f l i Hf Hi Hd)) as [-> ->].
      destruct (valid mem f i) eqn:Hv; [|done]. apply (IH Hr (child mem f i) (S l)); [|lia].
      apply (pw_child _ _ _ Hw f l i); [done|lia|done..].
Qed.
End new_child.

(** Writing a descriptor into a last-level table. *)
Section leaf.
Context (mem : Z -> Z) (pgd : Z) (T : gmap Z nat) (Hw : pt_wf mem pgd T).
Context (t j d : Z) (Ht : T !! t = Some 3%nat) (Hj : 0 <= j < 512).
Let mem' : Z -> Z := upd_word (entry t j) d mem.

Lemma leaf_other f l i : T !! f = Some l -> 0 <= i < 512 -> ~ (f = t /\ i = j) -> mem' (entry f i) = mem (entry f i).
Proof.
  intros Hf Hi Hne. destruct (pw_addr _ _ _ Hw _ _ Hf) as (c & _ & ->). destruct (pw_addr _ _ _ Hw _ _ Ht) as (c0 & _ & ->).
  unfold mem'. rewrite upd_word_ne; [done|]. intros [-> ->]%entry_inj; auto.
Qed.

Lemma leaf_upper f l i : T !! f = Some l -> (l < 3)%nat -> 0 <= i < 512 -> valid mem' f i = valid mem f i /\ child mem' f i = child mem f i.
Proof.
  intros Hf Hl Hi. apply same_entry, (leaf_other f l i Hf Hi). intros [-> ->]. rewrite Ht in Hf. injection Hf as <-. lia.
Qed.

Lemma leaf_wf : pt_wf mem' pgd T.
Proof.
  split; [apply Hw|apply Hw|..].
  - intros f l i Hf Hl Hi. destruct (leaf_upper f l i Hf Hl Hi) as [-> ->]. by apply Hw.
  - intros f l i g k i' Hf Hl Hi Hv Hg Hk Hi'. destruct (leaf_upper f l i Hf Hl Hi) as [Hv1 ->].
    destruct (leaf_upper g k i' Hg Hk Hi') as [-> ->]. rewrite Hv1 in Hv. by apply (pw_inj _ _ _ Hw f l i g k i').
Qed.

Lemma leaf_find ps f l : Forall (fun i => 0 <= i < 512) ps -> T !! f = Some l -> (l + length ps <= 3)%nat ->
  find_table mem' ps f = find_table mem ps f.
Proof.
  revert f l. induction ps as [|i ps IH]; intros f l Hr Hf Hl; simpl in *; [done|].
  apply list.Forall_cons in Hr as [Hi Hr]. destruct (leaf_upper f l i Hf ltac:(lia) Hi) as [-> ->].
  destruct (valid mem f i) eqn:Hv; [|done]. apply (IH _ (S l)); [done| |lia]. apply (pw_child _ _ _ Hw f l i); [done|lia|done..].
Qed.

(** The translation changes at the page of [t] and [j] only. *)
Lemma leaf_trans v w :
  user_va v -> user_va w -> find_table mem (upper v) pgd = Some t -> PTE_INDEX v = j ->
  trans mem' pgd w = if decide (w / 4096 = v / 4096) then (if PD_INVALID d then None else Some d) else trans mem pgd w.
Proof.
  intros Hv Hu Hft Hjv. unfold trans. rewrite (leaf_find (upper w) pgd 0%nat (upper_range w) (pw_root _ _ _ Hw)) by (simpl; lia).
  pose proof (indices_page w v Hu Hv) as Hidx. destruct (decide (w / 4096 = v / 4096)) as [He|He].
  - apply Hidx in He. unfold indices in He. injection He as E1 E2 E3 E4.
    assert (Hup : upper w = upper v) by (unfold upper; congruence). rewrite Hup, Hft, E4, Hjv.
    unfold descriptor, valid, mem'. rewrite upd_word_eq. by destruct (PD_INVALID d).
  - destruct (find_table mem (upper w) pgd) as [t'|] eqn:Hft'; [|done].
    pose proof (find_table_level _ _ _ _ _ _ _ Hw (upper_range w) (pw_root _ _ _ Hw) ltac:(simpl; lia) Hft') as Hl'.
    unfold descriptor, valid. rewrite (leaf_other t' _ (PTE_INDEX w) Hl' (pte_range w)); [done|]. intros [-> Hp].
    apply He, Hidx. pose proof (find_table_inj _ _ _ _ _ _ Hw (upper_range w) (upper_range v) eq_refl ltac:(simpl; lia) Hft' Hft) as Hup.
    unfold upper in Hup. unfold indices. injection Hup as -> -> ->. by rewrite Hp, Hjv.
Qed.
End leaf.

(** ** Walking *)

(** A map whose tables are live page frames. *)
Record vm_ok (s : VM) (pgd : Z) (T : gmap Z nat) (live : gmap Z Z) (ptrs : gset Z) : Prop := {
  vo_cpu : cpu_ok (k_cpu (vm_kernel s));
  vo_mm : mm_rep (k_mm (vm_kernel s)) live ptrs;
  vo_wf : pt_wf (vm_mem s) pgd T;
  vo_live : forall b l, T !! page_addr b = Some l -> live !! b = Some 0
}.

Definition refs (s : VM) : list Z := ref_counts (k_mm (vm_kernel s)).

(** Entries of [T] that were in use are as before. *)
Definition grows (T : gmap Z nat) (mem mem' : Z -> Z) : Prop :=
  forall f l i, T !! f = Some l -> 0 <= i < 512 -> valid mem f i = true -> mem' (entry f i) = mem (entry f i).

Lemma rd_word_run a s : rd_word a s = Ret (vm_mem s a, s).
Proof. done. Qed.

Lemma walk_loop_find ps f s : walk_loop false ps f s = Ret (find_table (vm_mem s) ps f, s).
Proof.
  revert f. induction ps as [|i ps IH]; intros f; cbn [walk_loop find_table]; [done|].
  unfold valid, child. mrun (rd_word_run (entry f i) s). destruct (PD_INVALID (vm_mem s (entry f i))); [done|apply IH].
Qed.

Lemma walk_find pgd v s :
  walk pgd v false s = Ret ((fun t => entry t (PTE_INDEX v)) <$> find_table (vm_mem s) (upper v) pgd, s).
Proof. unfold walk. mrun (walk_loop_find (upper v) pgd s). by destruct (find_table _ _ _). Qed.

(** One new table, hung into an empty slot. *)
(** Memory outside the tables is as before. *)
Definition same_outside (T : gmap Z nat) (mem mem' : Z -> Z) : Prop :=
  forall x, (forall f l, T !! f = Some l -> in_frame f x = false) -> mem' x = mem x.

Lemma same_outside_trans T T' m1 m2 m3 : T ⊆ T' -> same_outside T m1 m2 -> same_outside T' m2 m3 -> same_outside T' m1 m3.
Proof. intros HT H1 H2 x Hx. rewrite (H2 x Hx). apply H1. intros f l Hf. apply (Hx f l). by eapply lookup_weaken. Qed.

Lemma entry_in_frame b i : 0 <= i < 512 -> in_frame (page_addr b) (entry (page_addr b) i) = true.
Proof. intros Hi. unfold in_frame, entry. change PAGE_SIZE with 4096. apply andb_true_iff. rewrite Z.leb_le, Z.ltb_lt. lia. Qed.

Lemma same_outside_entry T mem b l i d : T !! page_addr b = Some l -> 0 <= i < 512 -> same_outside T mem (upd_word (entry (page_addr b) i) d mem).
Proof.
  intros Hf Hi x Hx. apply upd_word_ne. intros ->. specialize (Hx _ _ Hf). by rewrite entry_in_frame in Hx.
Qed.

(** The page frame handed out was not live. *)
Lemma fresh_not_live m live ptrs b : mm_rep m live ptrs -> (forall c j, live !! c = Some j -> ~ in_block b c j) -> live !! b = None.
Proof.
  intros Hm Hfree. destruct (live !! b) as [j|] eqn:Hj; [|done]. exfalso. apply (Hfree b j Hj).
  pose proof (rep_live_wf _ _ _ _ (mr_buddy _ _ _ Hm) Hj) as (Hj0 & _). pose proof (pow2_pos j ltac:(lia)). unfold in_block. lia.
Qed.

Lemma new_table_spec s pgd T live ptrs f l i :
  vm_ok s pgd T live ptrs -> (size ptrs < NR_SLOTS)%nat ->
  T !! f = Some l -> (l < 3)%nat -> 0 <= i < 512 -> valid (vm_mem s) f i = false ->
  (exists b s1 s2, new_table s = Ret (page_addr b, s1) /\ wr_word (entry f i) (Z.lor (page_addr b) PD_TABLE) s1 = Ret (tt, s2) /\
     T !! page_addr b = None /\ 0 <= b < 512 /\
     vm_ok s2 pgd (<[page_addr b := S l]> T) (<[b := 0]> live) ({[page_addr b]} ∪ ptrs) /\ live !! b = None /\
     valid (vm_mem s2) f i = true /\ child (vm_mem s2) f i = page_addr b /\ grows T (vm_mem s) (vm_mem s2) /\
     (forall v, trans (vm_mem s2) pgd v = trans (vm_mem s) pgd v) /\ same_outside (<[page_addr b := S l]> T) (vm_mem s) (vm_mem s2) /\ refs s2 = refs s) \/
  (new_table s = Panic /\ exhausted live 0).
Proof.
  intros [Hc Hm Hw Hl] Hroom Hf Hlt Hi Hempty.
  destruct (get_free_page_spec (vm_kernel s) live ptrs true Hc Hm Hroom) as [(b & k' & Hg & Hb & Hfree & Hc' & Hm' & Hr)|[Hp Hex]].
  2:{ right. split; [|done]. unfold new_table, mbind, M_bind, on_kernel, zoom. by rewrite Hp. }
  left. pose proof (fresh_not_live _ _ _ _ Hm Hfree) as Hnone.
  assert (HTb : T !! page_addr b = None).
  { destruct (T !! page_addr b) as [k|] eqn:Hk; [|done]. apply Hl in Hk. congruence. }
  set (s1 := mkVM k' (zero_frame (page_addr b) (vm_mem s))).
  exists b, s1, (set_vm_mem (upd_word (entry f i) (Z.lor (page_addr b) PD_TABLE) (vm_mem s1)) s1).
  destruct (new_child_at (vm_mem s) f i b Hb) as [Hv Hch].
  split_and!; [|done|done|lia|lia| |done|done|done| | | |done].
  - unfold new_table, mbind, M_bind, on_kernel, zoom. by rewrite Hg.
  - split; simpl; [by rewrite Hc'|done|by eapply new_child_wf|].
    intros c k. destruct (decide (c = b)) as [->|Hcb]; [intros; apply lookup_insert_eq|].
    rewrite !lookup_insert_ne by (auto using page_addr_inj || (intros ?%page_addr_inj; congruence)). apply Hl.
  - intros g k j Hg' Hj Hvj. simpl. eapply (new_child_other (vm_mem s) pgd T Hw f l i b Hf Hi Hempty Hb HTb g k j Hg' Hj). intros [-> ->]. congruence.
  - intros v. apply (new_child_path (vm_mem s) pgd T Hw f l i b Hf Hlt Hi Hempty Hb HTb (upper v) pgd 0);
      [apply upper_range|apply pte_range|apply Hw|done].
  - destruct (pw_addr _ _ _ Hw f l Hf) as (c & Hc0 & ->). assert (Hne : page_addr c <> page_addr b) by congruence.
    eapply (same_outside_trans _ _ _ (vm_mem s1)); [reflexivity| |].
    + intros x Hx. simpl. unfold zero_frame. by rewrite (Hx (page_addr b) (S l)) by apply lookup_insert_eq.
    + simpl. apply (same_outside_entry _ _ c l); [|done]. by rewrite lookup_insert_ne by congruence.
Qed.

Lemma grows_trans T T' m1 m2 m3 : T ⊆ T' -> grows T m1 m2 -> grows T' m2 m3 -> grows T m1 m3.
Proof.
  intros HT H12 H23 f l i Hf Hi Hv. pose proof (H12 f l i Hf Hi Hv) as He.
  rewrite (H23 f l i); [done|by eapply lookup_weaken|done|]. unfold valid. rewrite He. exact Hv.
Qed.

(** Fewer than [n] page frames, taken one by one, exhaust the zone. *)
Definition short_of_frames (live : gmap Z Z) (n : nat) : Prop :=
  exists live', live ⊆ live' /\ (forall b k, live' !! b = Some k -> live !! b = Some k \/ k = 0) /\
    (size live' < size live + n)%nat /\ exhausted live' 0.

Lemma short_of_frames_next live b n :
  live !! b = None -> short_of_frames (<[b := 0]> live) n -> short_of_frames live (S n).
Proof.
  intros Hb (live' & Hsub & Ho & Hsz & Hex). exists live'. split_and!; [|..|done].
  - etrans; [by apply insert_subseteq|done].
  - intros c k Hc. destruct (Ho c k Hc) as [Hi|Hk]; [|by right].
    apply lookup_insert_Some in Hi as [[_ <-]|[_ ?]]; [by right|by left].
  - rewrite map_size_insert_None in Hsz by done. lia.
Qed.

(** When only single pages are live, the count decides. *)
Lemma enough_frames live n :
  (forall b k, live !! b = Some k -> k = 0) -> (size live + n <= 512)%nat -> ~ short_of_frames live n.
Proof.
  intros H0 Hn (live' & Hsub & Ho & Hsz & Hex).
  assert (Hall : list_to_set (seqZ 0 512) ⊆ dom live').
  { intros b Hb. apply elem_of_list_to_set, elem_of_seqZ in Hb. destruct (Hex b) as (c & j & i & Hc & Hi & Hib).
    - split_and!; [done|done|lia|apply Z.divide_1_l|unfold NR_FRAMES; lia].
    - assert (j = 0) as -> by (destruct (Ho c j Hc) as [Hl|Hj]; [by apply (H0 c)|done]). unfold in_block in *. simpl in *.
      assert (b = c) as -> by lia. by apply elem_of_dom. }
  apply subseteq_size in Hall. rewrite size_list_to_set, length_seqZ, size_dom in Hall by apply NoDup_seqZ. lia.
Qed.

(** A walk that creates tables: it finds the last-level table, the translation
    is as before, and only new frames are taken. *)
Definition new_tables (T T' : gmap Z nat) (live : gmap Z Z) : Prop :=
  forall b l, T' !! page_addr b = Some l -> T !! page_addr b = Some l \/ live !! b = None.
(** At most [n] frames were taken. *)
Definition frames_added (n : nat) (live live' : gmap Z Z) : Prop :=
  live ⊆ live' /\ (forall b k, live' !! b = Some k -> live !! b = Some k \/ k = 0) /\ (size live' <= size live + n)%nat.

Lemma frames_added_trans n m l1 l2 l3 : frames_added n l1 l2 -> frames_added m l2 l3 -> frames_added (n + m) l1 l3.
Proof.
  intros (A1 & B1 & C1) (A2 & B2 & C2). split_and!; [by etrans| |lia]. intros b k Hb. destruct (B2 b k Hb) as [H|H]; [by apply B1|by right].
Qed.
Lemma frames_added_weaken n m l1 l2 : frames_added n l1 l2 -> (n <= m)%nat -> frames_added m l1 l2.
Proof. intros (A1 & B1 & C1) H. split_and!; [done|done|lia]. Qed.
Lemma frames_added_insert b live : live !! b = None -> frames_added 1 live (<[b := 0]> live).
Proof.
  intros Hb. split_and!; [by apply insert_subseteq| |by rewrite map_size_insert_None by done; lia].
  intros c k [[_ <-]|[_ ?]]%lookup_insert_Some; [by right|by left].
Qed.
Lemma short_of_frames_added n m l1 l2 : frames_added n l1 l2 -> short_of_frames l2 m -> short_of_frames l1 (n + m).
Proof.
  intros (A1 & B1 & C1) (l3 & A2 & B2 & C2 & Hex). exists l3. split_and!; [by etrans| |lia|done].
  intros b k Hb. destruct (B2 b k Hb) as [H|H]; [by apply B1|by right].
Qed.
Lemma short_of_frames_weaken n m live : short_of_frames live n -> (n <= m)%nat -> short_of_frames live m.
Proof. intros (l & H1 & H2 & H3 & H4) H. exists l. split_and!; [done|done|lia|done]. Qed.

Definition walked (s : VM) (pgd : Z) (T : gmap Z nat) (live : gmap Z Z) (ptrs : gset Z) (ps : list Z) (f : Z) (l : nat) (t : Z) (s' : VM) : Prop :=
  exists T' live' ptrs', vm_ok s' pgd T' live' ptrs' /\ T ⊆ T' /\ frames_added (length ps) live live' /\ new_tables T T' live /\
    (size ptrs' <= size ptrs + length ps)%nat /\ T' !! t = Some (l + length ps)%nat /\
    find_table (vm_mem s') ps f = Some t /\ grows T (vm_mem s) (vm_mem s') /\
    (forall v, trans (vm_mem s') pgd v = trans (vm_mem s) pgd v) /\ same_outside T' (vm_mem s) (vm_mem s') /\ refs s' = refs s.

Lemma walk_loop_create ps f l s pgd T live ptrs :
  vm_ok s pgd T live ptrs -> (size ptrs + length ps <= NR_SLOTS)%nat -> Forall (fun i => 0 <= i < 512) ps ->
  T !! f = Some l -> (l + length ps <= 3)%nat ->
  (exists t s', walk_loop true ps f s = Ret (Some t, s') /\ walked s pgd T live ptrs ps f l t s') \/
  (walk_loop true ps f s = Panic /\ short_of_frames live (length ps)).
Proof.
  revert f l s T live ptrs. induction ps as [|i ps IH]; intros f l s T live ptrs Hok Hroom Hr Hf Hl; cbn [walk_loop].
  { left. exists f, s. split; [done|]. exists T, live, ptrs. split_and!; try done; [split_and!; [done|by left|simpl; lia]|by left|simpl; lia|by rewrite Nat.add_0_r]. }
  apply list.Forall_cons in Hr as [Hi Hr]. simpl in Hroom, Hl. mrun (rd_word_run (entry f i) s).
  assert (Hstep : forall T1 live1 ptrs1 s1 t s', T ⊆ T1 -> frames_added 1 live live1 -> new_tables T T1 live ->
    (size ptrs1 <= size ptrs + 1)%nat -> grows T (vm_mem s) (vm_mem s1) ->
    (forall v, trans (vm_mem s1) pgd v = trans (vm_mem s) pgd v) -> same_outside T1 (vm_mem s) (vm_mem s1) -> refs s1 = refs s -> valid (vm_mem s1) f i = true ->
    walked s1 pgd T1 live1 ptrs1 ps (child (vm_mem s1) f i) (S l) t s' -> walked s pgd T live ptrs (i :: ps) f l t s').
  { intros T1 live1 ptrs1 s1 t s' HT Hlv Hnt Hsz Hg Htr Hso Hrf Hv (T' & live' & ptrs' & Hok' & HT' & Hlv' & Hnt' & Hsz' & Ht & Hfind & Hg' & Htr' & Hso' & Hrf').
    exists T', live', ptrs'. split_and!; [done|by etrans|by eapply (frames_added_trans 1)| |simpl; lia| | |by eapply grows_trans|intros v; by rewrite Htr'|by eapply same_outside_trans|congruence].
    - intros c k Hc. destruct (Hnt' c k Hc) as [H1|H1]; [by apply Hnt|right]. eapply lookup_weaken_None; [done|apply Hlv].
    - rewrite Ht. simpl. f_equal. lia.
    - pose proof (Hg' f l i ltac:(by eapply lookup_weaken) Hi Hv) as He. destruct (same_entry _ _ _ _ He) as [Hv' Hc'].
      cbn [find_table]. by rewrite Hv', Hv, Hc'. }
  destruct (PD_INVALID (vm_mem s (entry f i))) eqn:Hinv; cbn [negb].
  - destruct (new_table_spec s pgd T live ptrs f l i Hok) as [(b & s1 & s2 & Hn & Hwr & HTb & Hb & Hok2 & Hlb & Hv & Hc & Hg & Htr & Hso & Hrf)|[Hp Hex]];
      [lia|done|lia|done|unfold valid; by rewrite Hinv| |].
    2:{ right. split; [unfold mbind, M_bind; by rewrite Hp|]. exists live. simpl. split_and!; [done|by left|lia|done]. }
    assert (Hsz1 : (size ({[page_addr b]} ∪ ptrs) <= size ptrs + 1)%nat).
    { pose proof (size_union_alt {[page_addr b]} ptrs) as H. rewrite size_singleton in H.
      pose proof (subseteq_size (ptrs ∖ {[page_addr b]}) ptrs ltac:(set_solver)). lia. }
    mrun Hn. mrun Hwr. destruct (IH (page_addr b) (S l) s2 _ _ _ Hok2) as [(t & s' & Hrun & Hwk)|(Hrun & Hshort)].
    + lia.
    + done.
    + apply lookup_insert_eq.
    + lia.
    + left. exists t, s'. split; [done|]. eapply Hstep; [by apply insert_subseteq|by apply frames_added_insert| |exact Hsz1|exact Hg|exact Htr|exact Hso|exact Hrf|exact Hv|by rewrite Hc].
      intros c k Hck. destruct (decide (c = b)) as [->|Hne]; [by right|left].
      rewrite lookup_insert_ne in Hck; [done|]. intros ?%page_addr_inj. congruence.
    + right. split; [done|]. by eapply short_of_frames_next.
  - assert (Hv : valid (vm_mem s) f i = true) by (unfold valid; by rewrite Hinv).
    fold (child (vm_mem s) f i).
    destruct (IH (child (vm_mem s) f i) (S l) s T live ptrs Hok) as [(t & s' & Hrun & Hwk)|Hp]; [lia|done| |lia| |].
    { apply (pw_child _ _ _ (vo_wf _ _ _ _ _ Hok) f l i); [done|lia|done..]. }
    { left. exists t, s'. split; [done|]. eapply (Hstep T live ptrs s); [done| |by left|lia|by intros ?|done|done|done|done|done]. split_and!; [done|by left|lia]. }
    right. destruct Hp as [Hp (live' & ? & ? & ? & ?)]. split; [done|]. exists live'. simpl. split_and!; [done..|lia|done].
Qed.

(** ** Mapping and unmapping *)

Lemma on_kernel_run {A} (m : M Kernel A) s a k' : m (vm_kernel s) = Ret (a, k') -> on_kernel m s = Ret (a, set_vm_kernel k' s).
Proof. intros H. unfold on_kernel, zoom. by rewrite H. Qed.

(** A count changed by [d] at one page. *)
Definition refs_added (b d : Z) (r r' : list Z) : Prop :=
  forall i c, arr_get r i = Some c -> arr_get r' i = Some (if decide (b = i) then c + d else c).

Lemma vm_ref_spec s pgd T live ptrs o n :
  vm_ok s pgd T live ptrs -> 0 <= ref_page o < 512 -> refs_room (k_mm (vm_kernel s)) (n + 1) -> 0 <= n ->
  exists c s', on_kernel (run_ref o) s = Ret (c, s') /\ vm_ok s' pgd T live ptrs /\ vm_mem s' = vm_mem s /\
    refs_room (k_mm (vm_kernel s')) n /\ refs_added (ref_page o) (ref_delta o) (refs s) (refs s').
Proof.
  intros [Hc Hm Hw Hl] Hb Hroom Hn.
  destruct (arr_get_is_Some (refs s) (ref_page o)) as [c Hcnt]; [unfold refs; rewrite (mr_refs _ _ _ Hm); lia|].
  destruct (run_ref_spec (vm_kernel s) live ptrs o n c) as (k' & Hrun & Hc' & Hm' & Hroom' & Hget); [done..|].
  exists (c + ref_delta o), (set_vm_kernel k' s). split_and!; [by apply on_kernel_run|split; simpl; [congruence|done..]|done|done|].
  intros i x Hx. unfold refs in *. simpl. rewrite Hget. case_decide; [|done]. subst. congruence.
Qed.

(** The descriptor [map] writes. *)
Definition mapped_descriptor (p_addr attr : Z) : Z :=
  Z.lor p_addr (if Z.land attr PD_RDONLY =? 0 then Z.lor attr PD_COW_PAGE else attr).

Lemma mapped_descriptor_ok b attr :
  0 <= b < 512 -> attr_ok attr ->
  PD_INVALID (mapped_descriptor (page_addr b) attr) = false /\ Z.land (mapped_descriptor (page_addr b) attr) PD_PAGE_MASK = page_addr b.
Proof.
  intros Hb Ha. unfold mapped_descriptor.
  assert (Hok : attr_ok (if Z.land attr PD_RDONLY =? 0 then Z.lor attr PD_COW_PAGE else attr))
    by (destruct (_ =? _); auto using cow_attr_ok).
  by rewrite descriptor_valid, descriptor_frame.
Qed.

Lemma vm_ok_leaf s pgd T live ptrs t j d :
  vm_ok s pgd T live ptrs -> T !! t = Some 3%nat -> 0 <= j < 512 ->
  vm_ok (set_vm_mem (upd_word (entry t j) d (vm_mem s)) s) pgd T live ptrs.
Proof. intros [Hc Hm Hw Hl] Ht Hj. split; [done|done|by eapply leaf_wf|done]. Qed.

Lemma trans_at mem pgd v t :
  find_table mem (upper v) pgd = Some t -> trans mem pgd v = descriptor mem t (PTE_INDEX v).
Proof. intros H. unfold trans. by rewrite H. Qed.

Lemma vm_map_run s pgd T live ptrs v b attr :
  vm_ok s pgd T live ptrs -> user_va v -> 0 <= b < 512 -> attr_ok attr -> (size ptrs + 3 <= NR_SLOTS)%nat ->
  refs_room (k_mm (vm_kernel s)) 1 -> trans (vm_mem s) pgd v = None ->
  (exists s' T' live' ptrs', vm_map pgd v (page_addr b) attr s = Ret (tt, s') /\ vm_ok s' pgd T' live' ptrs' /\
     T ⊆ T' /\ frames_added 3 live live' /\ new_tables T T' live /\ (size ptrs' <= size ptrs + 3)%nat /\ same_outside T' (vm_mem s) (vm_mem s') /\
     (forall w, user_va w -> trans (vm_mem s') pgd w =
        if decide (w / 4096 = v / 4096) then Some (mapped_descriptor (page_addr b) attr) else trans (vm_mem s) pgd w) /\
     refs_added b 1 (refs s) (refs s')) \/
  (vm_map pgd v (page_addr b) attr s = Panic /\ short_of_frames live 3).
Proof.
  intros Hok Hv Hb Ha Hroom Hrefs Hnone.
  destruct (walk_loop_create (upper v) pgd 0 s pgd T live ptrs Hok Hroom (upper_range v) (pw_root _ _ _ (vo_wf _ _ _ _ _ Hok)))
    as [(t & s1 & Hrun & T' & live' & ptrs' & Hok1 & HT & Hlv & Hnt & Hsz & Ht & Hfind & _ & Htr & Hso & Hrf)|[Hp Hex]]; [simpl; lia| |].
  2:{ right. split; [|done]. unfold vm_map, walk, mbind, M_bind. fold (upper v). by rewrite Hp. }
  left. simpl in Ht. destruct (mapped_descriptor_ok b attr Hb Ha) as [Hvd _]. set (d := mapped_descriptor (page_addr b) attr) in *.
  set (s2 := set_vm_mem (upd_word (entry t (PTE_INDEX v)) d (vm_mem s1)) s1).
  assert (Hok2 : vm_ok s2 pgd T' live' ptrs') by (apply vm_ok_leaf; [done|done|apply pte_range]).
  assert (Hroom2 : refs_room (k_mm (vm_kernel s2)) 1).
  { intros i c. change (ref_counts (k_mm (vm_kernel s2))) with (refs s1). rewrite Hrf. apply Hrefs. }
  destruct (vm_ref_spec s2 pgd T' live' ptrs' (Inc b) 0 Hok2 Hb Hroom2 ltac:(lia)) as (c & s3 & Hinc & Hok3 & Hmem & _ & Hadd).
  exists s3, T', live', ptrs'. split_and!; [|done|done|done|done|done| | |].
  - unfold vm_map, walk. fold (upper v).
    assert (Hwalk : (pt ← walk_loop true (upper v) pgd;
       match pt with None => mret None | Some pt => mret (Some (entry pt (PTE_INDEX v))) end) s = Ret (Some (entry t (PTE_INDEX v)), s1))
      by (mrun Hrun; done).
    mrun Hwalk. mrun (rd_word_run (entry t (PTE_INDEX v)) s1).
    assert (Hinv : PD_INVALID (vm_mem s1 (entry t (PTE_INDEX v))) = true).
    { rewrite <- Htr, (trans_at _ _ _ _ Hfind) in Hnone. unfold descriptor, valid in Hnone. by destruct (PD_INVALID _). }
    rewrite Hinv. cbn [negb]. fold d. assert (Hwr : wr_word (entry t (PTE_INDEX v)) d s1 = Ret (tt, s2)) by done.
    mrun Hwr. mrun Hinc. done.
  - rewrite Hmem. destruct (pw_addr _ _ _ (vo_wf _ _ _ _ _ Hok1) t _ Ht) as (c0 & _ & ->).
    eapply same_outside_trans; [reflexivity|exact Hso|]. simpl. eapply same_outside_entry; [done|apply pte_range].
  - intros w Hw. rewrite Hmem. simpl. rewrite (leaf_trans _ _ _ (vo_wf _ _ _ _ _ Hok1) t _ d Ht (pte_range v) v w Hv Hw Hfind eq_refl).
    rewrite Hvd. case_decide; [done|]. apply Htr.
  - by rewrite <- Hrf.
Qed.

Lemma vm_map_again s pgd T live ptrs v p_addr attr d :
  vm_ok s pgd T live ptrs -> trans (vm_mem s) pgd v = Some d -> vm_map pgd v p_addr attr s = Panic.
Proof.
  intros Hok Htr. unfold trans in Htr. destruct (find_table (vm_mem s) (upper v) pgd) as [t|] eqn:Hf; [|done].
  assert (Hwl : forall ps f, find_table (vm_mem s) ps f = Some t -> walk_loop true ps f s = Ret (Some t, s)).
  { intros ps. induction ps as [|i ps IH]; intros f; cbn [find_table walk_loop]; [by intros [= ->]|].
    unfold valid, child. mrun (rd_word_run (entry f i) s). destruct (PD_INVALID _); [done|]. apply IH. }
  unfold vm_map, walk. fold (upper v). pose proof (Hwl _ _ Hf) as Hrun.
  assert (Hwalk : (pt ← walk_loop true (upper v) pgd;
     match pt with None => mret None | Some pt => mret (Some (entry pt (PTE_INDEX v))) end) s = Ret (Some (entry t (PTE_INDEX v)), s))
    by (mrun Hrun; done).
  mrun Hwalk. mrun (rd_word_run (entry t (PTE_INDEX v)) s). unfold descriptor, valid in Htr.
  by destruct (PD_INVALID (vm_mem s (entry t (PTE_INDEX v)))).
Qed.

Lemma gpa_run s pgd v d : trans (vm_mem s) pgd v = Some d ->
  get_physical_address pgd v s = Ret (Z.land d PD_PAGE_MASK + PAGE_OFFSET v, s).
Proof.
  unfold trans, get_physical_address. mrun (walk_find pgd v s). destruct (find_table _ _ _) as [t|]; simpl; [|done].
  mrun (rd_word_run (entry t (PTE_INDEX v)) s). unfold descriptor. destruct (valid _ _ _); [|done]. by intros [= <-].
Qed.

Lemma unmap_run s pgd T live ptrs v b d :
  vm_ok s pgd T live ptrs -> user_va v -> 0 <= b < 512 -> trans (vm_mem s) pgd v = Some d -> Z.land d PD_PAGE_MASK = page_addr b ->
  refs_room (k_mm (vm_kernel s)) 1 ->
  exists s', unmap pgd v s = Ret (tt, s') /\ vm_ok s' pgd T live ptrs /\
    (forall w, user_va w -> trans (vm_mem s') pgd w = if decide (w / 4096 = v / 4096) then None else trans (vm_mem s) pgd w) /\
    refs_added b (-1) (refs s) (refs s').
Proof.
  intros Hok Hv Hb Htr Hd Hroom. pose proof Htr as Htr0. unfold trans in Htr0.
  destruct (find_table (vm_mem s) (upper v) pgd) as [t|] eqn:Hf; [|done].
  pose proof (find_table_level _ _ _ _ _ _ _ (vo_wf _ _ _ _ _ Hok) (upper_range v) (pw_root _ _ _ (vo_wf _ _ _ _ _ Hok)) ltac:(simpl; lia) Hf) as Ht.
  simpl in Ht. set (s2 := set_vm_mem (upd_word (entry t (PTE_INDEX v)) 0 (vm_mem s)) s).
  assert (Hok2 : vm_ok s2 pgd T live ptrs) by (apply vm_ok_leaf; [done|done|apply pte_range]).
  destruct (vm_ref_spec s2 pgd T live ptrs (Dec b) 0 Hok2 Hb Hroom ltac:(lia)) as (c & s3 & Hdec & Hok3 & Hmem & _ & Hadd).
  exists s3. split_and!; [|done| |done].
  - unfold unmap. mrun (walk_find pgd v s). rewrite Hf. simpl. mrun (rd_word_run (entry t (PTE_INDEX v)) s).
    assert (Hwr : wr_word (entry t (PTE_INDEX v)) 0 s = Ret (tt, s2)) by done. mrun Hwr.
    unfold descriptor in Htr0. destruct (valid _ _ _); [|done]. injection Htr0 as ->. rewrite Hd. mrun Hdec. done.
  - intros w Hw. rewrite Hmem. simpl. by rewrite (leaf_trans _ _ _ (vo_wf _ _ _ _ _ Hok) t _ 0 Ht (pte_range v) v w Hv Hw Hf eq_refl).
Qed.

(** ** Copy on write *)

Lemma land_const x c m k : Z.land c m = k -> Z.land (Z.land x c) m = Z.land x k.
Proof. intros <-. by rewrite Z.land_assoc. Qed.

(** The descriptor written when the frame is not shared. *)
Definition own_descriptor (d : Z) : Z := Z.land (Z.land d (not64 PD_COW_PAGE)) (not64 PD_RDONLY).
(** The descriptor of a private copy. *)
Definition copy_descriptor (frame d : Z) : Z := Z.land (Z.lor frame (Z.land d PD_ATTR_MASK)) (not64 PD_RDONLY).

Lemma own_descriptor_ok d : PD_INVALID d = false ->
  PD_INVALID (own_descriptor d) = false /\ Z.land (own_descriptor d) PD_PAGE_MASK = Z.land d PD_PAGE_MASK /\
  Z.land (own_descriptor d) PD_RDONLY = 0 /\ Z.land (own_descriptor d) PD_COW_PAGE = 0.
Proof.
  unfold PD_INVALID, own_descriptor. intros Hd. split_and!.
  - by rewrite (land_const _ _ 1 1), (land_const _ _ 1 1).
  - by rewrite (land_const _ _ _ PD_PAGE_MASK), (land_const _ _ _ PD_PAGE_MASK).
  - rewrite (land_const _ _ _ 0) by done. apply Z.land_0_r.
  - rewrite (land_const _ _ _ PD_COW_PAGE), (land_const _ _ _ 0) by done. apply Z.land_0_r.
Qed.

Lemma copy_descriptor_ok b d : 0 <= b < 512 -> PD_INVALID d = false ->
  PD_INVALID (copy_descriptor (page_addr b) d) = false /\
  Z.land (copy_descriptor (page_addr b) d) PD_PAGE_MASK = page_addr b /\
  Z.land (copy_descriptor (page_addr b) d) PD_RDONLY = 0.
Proof.
  unfold PD_INVALID, copy_descriptor. intros Hb Hd. split_and!.
  - by rewrite (land_const _ _ 1 1), Z.land_lor_distr_l, page_addr_even, (land_const _ _ 1 1).
  - rewrite (land_const _ _ _ PD_PAGE_MASK), Z.land_lor_distr_l, page_addr_mask, (land_const _ _ _ 0) by done.
    by rewrite Z.land_0_r, Z.lor_0_r.
  - rewrite (land_const _ _ _ 0) by done. apply Z.land_0_r.
Qed.

Lemma copy_frame_own mem b c i : 0 <= i < 512 -> copy_frame (page_addr b) (page_addr c) mem (entry (page_addr b) i) = mem (entry (page_addr c) i).
Proof.
  intros Hi. unfold copy_frame, in_frame. rewrite PAGE_SIZE_eq.
  rewrite (proj2 (Z.leb_le _ _)), (proj2 (Z.ltb_lt _ _)) by (unfold entry, page_addr; lia). cbn [andb]. f_equal. unfold entry. lia.
Qed.

Lemma copy_frame_other mem b c x i : 0 <= i < 512 -> b <> x -> copy_frame (page_addr b) (page_addr c) mem (entry (page_addr x) i) = mem (entry (page_addr x) i).
Proof.
  intros Hi Hbx. unfold copy_frame, in_frame. rewrite PAGE_SIZE_eq.
  destruct (Z.leb_spec (page_addr b) (entry (page_addr x) i)), (Z.ltb_spec (entry (page_addr x) i) (page_addr b + 4096));
    try done. unfold entry, page_addr in *. lia.
Qed.

(** A tree is unchanged by writes outside its tables. *)
Lemma pt_wf_ext mem mem' pgd T :
  pt_wf mem pgd T -> (forall f l i, T !! f = Some l -> 0 <= i < 512 -> mem' (entry f i) = mem (entry f i)) ->
  pt_wf mem' pgd T /\ forall v, trans mem' pgd v = trans mem pgd v /\ find_table mem' (upper v) pgd = find_table mem (upper v) pgd.
Proof.
  intros Hw He. assert (Hs : forall f l i, T !! f = Some l -> 0 <= i < 512 -> valid mem' f i = valid mem f i /\ child mem' f i = child mem f i).
  { intros f l i Hf Hi. by eapply same_entry, He. }
  assert (Hft : forall ps f l, Forall (fun i => 0 <= i < 512) ps -> T !! f = Some l -> (l + length ps <= 3)%nat ->
             find_table mem' ps f = find_table mem ps f).
  { intros ps. induction ps as [|i ps IH]; intros f l Hr Hf Hl; [done|]. apply list.Forall_cons in Hr as [Hi Hr].
    simpl in *. destruct (Hs f l i Hf Hi) as [-> ->]. destruct (valid mem f i) eqn:Hv; [|done].
    apply (IH _ (S l)); [done| |lia]. apply (pw_child _ _ _ Hw f l i); [done|lia|done..]. }
  split.
  - split; [apply Hw|apply Hw|..].
    + intros f l i Hf Hl Hi. destruct (Hs f l i Hf Hi) as [-> ->]. by apply Hw.
    + intros f l i g k j Hf Hl Hi Hv Hg Hk Hj. destruct (Hs f l i Hf Hi) as [Hv1 ->]. destruct (Hs g k j Hg Hj) as [-> ->].
      rewrite Hv1 in Hv. by apply (pw_inj _ _ _ Hw f l i g k j).
  - intros v. unfold trans. rewrite (Hft (upper v) pgd 0%nat) by (apply upper_range || apply Hw || simpl; lia). split; [|done].
    destruct (find_table mem (upper v) pgd) as [t|] eqn:Hf; [|done].
    pose proof (find_table_level _ _ _ _ _ _ _ Hw (upper_range v) (pw_root _ _ _ Hw) ltac:(simpl; lia) Hf) as Ht.
    unfold descriptor. destruct (Hs t _ (PTE_INDEX v) Ht (pte_range v)) as [-> _]. by rewrite (He t _ (PTE_INDEX v) Ht (pte_range v)).
Qed.

(** A page of the map that is a live frame [b] and not a table. *)
Record data_page (s : VM) (pgd : Z) (T : gmap Z nat) (live : gmap Z Z) (v d b : Z) : Prop := {
  dp_va : user_va v;
  dp_trans : trans (vm_mem s) pgd v = Some d;
  dp_frame : Z.land d PD_PAGE_MASK = page_addr b;
  dp_range : 0 <= b < 512;
  dp_live : is_Some (live !! b);
  dp_data : T !! page_addr b = None
}.

Lemma data_page_table s pgd T live v d b : pt_wf (vm_mem s) pgd T -> data_page s pgd T live v d b ->
  exists t, find_table (vm_mem s) (upper v) pgd = Some t /\ T !! t = Some 3%nat /\
    vm_mem s (entry t (PTE_INDEX v)) = d /\ PD_INVALID d = false.
Proof.
  intros Hw [_ Htr _ _ _ _]. unfold trans in Htr. destruct (find_table (vm_mem s) (upper v) pgd) as [t|] eqn:Hf; [|done].
  exists t. pose proof (find_table_level _ _ _ _ _ _ _ Hw (upper_range v) (pw_root _ _ _ Hw) ltac:(simpl; lia) Hf) as Ht.
  unfold descriptor, valid in Htr. destruct (PD_INVALID (vm_mem s _)) eqn:Hinv; [done|]. injection Htr as <-. done.
Qed.

Lemma ref_count_run s pgd T live ptrs b c :
  vm_ok s pgd T live ptrs -> 0 <= b < 512 -> arr_get (refs s) b = Some c ->
  on_kernel (get_page_ref_count (page_addr b)) s = Ret (c, s).
Proof.
  intros [Hc Hm _ _] Hb Hcnt. erewrite on_kernel_run; [|by eapply get_page_ref_count_spec]. by destruct s.
Qed.

(** The frame has one user: it becomes writable in place. *)
Lemma copy_page_frame_last s pgd T live ptrs v d b :
  vm_ok s pgd T live ptrs -> data_page s pgd T live v d b -> arr_get (refs s) b = Some 1 ->
  exists s', copy_page_frame pgd v s = Ret (tt, s') /\ vm_ok s' pgd T live ptrs /\ refs s' = refs s /\
    (forall w, user_va w -> trans (vm_mem s') pgd w =
       if decide (w / 4096 = v / 4096) then Some (own_descriptor d) else trans (vm_mem s) pgd w) /\
    (forall x i, 0 <= i < 512 -> T !! page_addr x = None -> vm_mem s' (entry (page_addr x) i) = vm_mem s (entry (page_addr x) i)).
Proof.
  intros Hok Hdp Hc. pose proof (vo_wf _ _ _ _ _ Hok) as Hw.
  destruct (data_page_table _ _ _ _ _ _ _ Hw Hdp) as (t & Hf & Ht & Hd & Hinv).
  set (a := entry t (PTE_INDEX v)) in *.
  set (s1 := set_vm_mem (upd_word a (Z.land d (not64 PD_COW_PAGE)) (vm_mem s)) s).
  set (s2 := set_vm_mem (upd_word a (own_descriptor d) (vm_mem s1)) s1).
  assert (Hok1 : vm_ok s1 pgd T live ptrs) by (apply vm_ok_leaf; [done|done|apply pte_range]).
  exists s2. split_and!; [|apply vm_ok_leaf; [done|done|apply pte_range]|done| |].
  - unfold copy_page_frame. mrun (walk_find pgd v s). rewrite Hf. simpl. fold a. mrun (rd_word_run a s). rewrite Hd.
    rewrite (dp_frame _ _ _ _ _ _ _ Hdp). mrun (ref_count_run _ _ _ _ _ _ _ Hok (dp_range _ _ _ _ _ _ _ Hdp) Hc). rewrite Z.eqb_refl.
    assert (H1 : wr_word a (Z.land d (not64 PD_COW_PAGE)) s = Ret (tt, s1)) by done. mrun H1. mrun (rd_word_run a s1).
    simpl. rewrite upd_word_eq. done.
  - intros w Hwv. pose proof (own_descriptor_ok d Hinv) as (Hio & _ & _). simpl.
    assert (Hext : forall x, upd_word a (own_descriptor d) (upd_word a (Z.land d (not64 PD_COW_PAGE)) (vm_mem s)) x =
                   upd_word a (own_descriptor d) (vm_mem s) x) by (intros x; unfold upd_word; by destruct (x =? a)).
    pose proof (leaf_wf (vm_mem s) pgd T Hw t (PTE_INDEX v) (own_descriptor d) Ht (pte_range v)) as Hwl.
    destruct (pt_wf_ext _ _ pgd T Hwl (fun f l i _ _ => Hext (entry f i))) as [_ Hx]. destruct (Hx w) as [-> _].
    rewrite (leaf_trans _ _ _ Hw t _ (own_descriptor d) Ht (pte_range v) v w (dp_va _ _ _ _ _ _ _ Hdp) Hwv Hf eq_refl).
    by rewrite Hio.
  - intros x i Hi Hx. destruct (pw_addr _ _ _ Hw _ _ Ht) as (bt & _ & Hbt). simpl. unfold a. rewrite Hbt in *.
    rewrite !upd_word_ne; [done|..]; intros [-> _]%entry_inj; (congruence || apply pte_range || done).
Qed.

(** The frame is shared: the map gets a private copy. *)
Lemma copy_page_frame_shared s pgd T live ptrs v d b c :
  vm_ok s pgd T live ptrs -> data_page s pgd T live v d b -> arr_get (refs s) b = Some c -> c <> 1 ->
  (size ptrs < NR_SLOTS)%nat -> refs_room (k_mm (vm_kernel s)) 2 ->
  (exists s' nb, copy_page_frame pgd v s = Ret (tt, s') /\ 0 <= nb < 512 /\ live !! nb = None /\
     vm_ok s' pgd T (<[nb := 0]> live) ({[page_addr nb]} ∪ ptrs) /\
     (forall w, user_va w -> trans (vm_mem s') pgd w =
        if decide (w / 4096 = v / 4096) then Some (copy_descriptor (page_addr nb) d) else trans (vm_mem s) pgd w) /\
     (forall i, 0 <= i < 512 -> vm_mem s' (entry (page_addr nb) i) = vm_mem s (entry (page_addr b) i)) /\
     (forall x i, 0 <= i < 512 -> T !! page_addr x = None -> x <> nb -> vm_mem s' (entry (page_addr x) i) = vm_mem s (entry (page_addr x) i)) /\
     exists r, refs_added b (-1) (refs s) r /\ refs_added nb 1 r (refs s')) \/
  (copy_page_frame pgd v s = Panic /\ exhausted live 0).
Proof.
  intros Hok Hdp Hc Hc1 Hroom Hrr. pose proof (vo_wf _ _ _ _ _ Hok) as Hw. pose proof Hdp as [Hv _ Hfr Hb [k Hlb] Hnt].
  destruct (data_page_table _ _ _ _ _ _ _ Hw Hdp) as (t & Hf & Ht & Hd & Hinv). set (a := entry t (PTE_INDEX v)) in *.
  assert (Hpre : forall o, (new_page_frame ← on_kernel (get_free_page true);
        modify (fun s => set_vm_mem (copy_frame new_page_frame (page_addr b) (vm_mem s)) s);;
        wr_word a (Z.lor new_page_frame (Z.land d PD_ATTR_MASK));;
        d ← rd_word a;
        wr_word a (Z.land d (not64 PD_RDONLY));;
        on_kernel (dec_page_ref_count (page_addr b));;
        on_kernel (inc_page_ref_count new_page_frame);;
        mret tt) s = o -> copy_page_frame pgd v s = o).
  { intros o <-. unfold copy_page_frame. mrun (walk_find pgd v s). rewrite Hf. simpl. fold a. mrun (rd_word_run a s). rewrite Hd, Hfr.
    mrun (ref_count_run _ _ _ _ _ _ _ Hok Hb Hc). by rewrite (proj2 (Z.eqb_neq c 1)). }
  destruct (get_free_page_spec (vm_kernel s) live ptrs true (vo_cpu _ _ _ _ _ Hok) (vo_mm _ _ _ _ _ Hok) Hroom)
    as [(nb & k' & Hg & Hnb & Hfree & Hcpu & Hm' & Hrf)|[Hp Hex]].
  2:{ right. split; [|done]. apply Hpre. unfold mbind, M_bind, on_kernel, zoom. by rewrite Hp. }
  left. assert (Hnone : live !! nb = None).
  { destruct (live !! nb) as [j|] eqn:Hj; [|done]. exfalso. apply (Hfree nb j Hj).
    pose proof (rep_live_wf _ _ _ _ (mr_buddy _ _ _ (vo_mm _ _ _ _ _ Hok)) Hj) as (Hj0 & _). pose proof (pow2_pos j ltac:(lia)). unfold in_block. lia. }
  assert (HTn : T !! page_addr nb = None).
  { destruct (T !! page_addr nb) as [j|] eqn:Hj; [|done]. apply (vo_live _ _ _ _ _ Hok) in Hj. congruence. }
  set (s1 := mkVM k' (copy_frame (page_addr nb) (page_addr b) (vm_mem s))).
  destruct (pt_wf_ext (vm_mem s) (vm_mem s1) pgd T Hw) as [Hw1 Htr1].
  { intros f l i Hfl Hi. destruct (pw_addr _ _ _ Hw _ _ Hfl) as (bf & _ & ->). apply copy_frame_other; [done|]. intros ->. congruence. }
  assert (Hok1 : vm_ok s1 pgd T (<[nb := 0]> live) ({[page_addr nb]} ∪ ptrs)).
  { split; [by simpl; rewrite Hcpu; apply Hok|done|done|]. intros x l Hx. rewrite lookup_insert_ne; [by apply (vo_live _ _ _ _ _ Hok x l)|].
    intros ->. congruence. }
  set (s2 := set_vm_mem (upd_word a (Z.lor (page_addr nb) (Z.land d PD_ATTR_MASK)) (vm_mem s1)) s1).
  assert (Hok2 : vm_ok s2 pgd T (<[nb := 0]> live) ({[page_addr nb]} ∪ ptrs)) by (apply vm_ok_leaf; [done|done|apply pte_range]).
  set (s3 := set_vm_mem (upd_word a (copy_descriptor (page_addr nb) d) (vm_mem s2)) s2).
  assert (Hok3 : vm_ok s3 pgd T (<[nb := 0]> live) ({[page_addr nb]} ∪ ptrs)) by (apply vm_ok_leaf; [done|done|apply pte_range]).
  assert (Hr3 : refs_room (k_mm (vm_kernel s3)) (1 + 1)) by (unfold refs_room; simpl; rewrite Hrf; exact Hrr).
  destruct (vm_ref_spec s3 _ _ _ _ (Dec b) 1 Hok3 Hb Hr3 ltac:(lia)) as (c4 & s4 & Hdec & Hok4 & Hm4 & Hr4 & Ha4).
  destruct (vm_ref_spec s4 _ _ _ _ (Inc nb) 0 Hok4 Hnb Hr4 ltac:(lia)) as (c5 & s5 & Hinc & Hok5 & Hm5 & _ & Ha5).
  exists s5, nb. split_and!; [|lia|lia|done|done| | | |].
  - apply Hpre. mrun (on_kernel_run _ _ _ _ Hg).
    assert (H1 : modify (fun s => set_vm_mem (copy_frame (page_addr nb) (page_addr b) (vm_mem s)) s) (set_vm_kernel k' s) = Ret (tt, s1)) by done.
    mrun H1. assert (H2 : wr_word a (Z.lor (page_addr nb) (Z.land d PD_ATTR_MASK)) s1 = Ret (tt, s2)) by done. mrun H2.
    mrun (rd_word_run a s2). simpl. rewrite upd_word_eq. fold (copy_descriptor (page_addr nb) d).
    assert (H3 : wr_word a (copy_descriptor (page_addr nb) d) s2 = Ret (tt, s3)) by done. mrun H3. mrun Hdec. mrun Hinc. done.
  - intros w Hwv. destruct (copy_descriptor_ok nb d Hnb Hinv) as (Hio & _ & _). rewrite Hm5, Hm4.
    change (vm_mem s3) with (upd_word a (copy_descriptor (page_addr nb) d) (upd_word a (Z.lor (page_addr nb) (Z.land d PD_ATTR_MASK)) (vm_mem s1))).
    assert (Hext : forall x, upd_word a (copy_descriptor (page_addr nb) d) (upd_word a (Z.lor (page_addr nb) (Z.land d PD_ATTR_MASK)) (vm_mem s1)) x =
                   upd_word a (copy_descriptor (page_addr nb) d) (vm_mem s1) x) by (intros x; unfold upd_word; by destruct (x =? a)).
    pose proof (leaf_wf (vm_mem s1) pgd T Hw1 t (PTE_INDEX v) (copy_descriptor (page_addr nb) d) Ht (pte_range v)) as Hwl.
    destruct (pt_wf_ext _ _ pgd T Hwl (fun f l i _ _ => Hext (entry f i))) as [_ Hx]. destruct (Hx w) as [-> _].
    rewrite (leaf_trans _ _ _ Hw1 t _ (copy_descriptor (page_addr nb) d) Ht (pte_range v) v w Hv Hwv) by (done || rewrite (proj2 (Htr1 v)); done).
    rewrite Hio. case_decide; [done|]. apply Htr1.
  - intros i Hi. destruct (pw_addr _ _ _ Hw _ _ Ht) as (bt & _ & Hbt). rewrite Hm5, Hm4. simpl. unfold a. rewrite Hbt in *.
    rewrite !upd_word_ne by (intros [-> _]%entry_inj; (congruence || apply pte_range || done)). by apply copy_frame_own.
  - intros x i Hi Hx Hxn. destruct (pw_addr _ _ _ Hw _ _ Ht) as (bt & _ & Hbt). rewrite Hm5, Hm4. simpl. unfold a. rewrite Hbt in *.
    rewrite !upd_word_ne by (intros [-> _]%entry_inj; (congruence || apply pte_range || done)). by apply copy_frame_other.
  - exists (refs s4). split; [|done]. unfold refs in *. simpl in *. by rewrite Hrf in Ha4.
Qed.

Lemma is_cow_run s pgd v : is_aligned v = true ->
  is_cow_page pgd v s = Ret (match find_table (vm_mem s) (upper v) pgd with
    | Some t => negb (Z.land (vm_mem s (entry t (PTE_INDEX v))) PD_COW_PAGE =? 0) | None => false end, s).
Proof.
  intros Ha. unfold is_cow_page. rewrite Ha. cbn [negb]. mrun (walk_find pgd v s). by destruct (find_table _ _ _) as [t|].
Qed.

(** ** Construction *)

Lemma new_vmmap_spec k mem live ptrs :
  cpu_ok (k_cpu k) -> mm_rep (k_mm k) live ptrs -> (size ptrs < NR_SLOTS)%nat -> ~ exhausted live 0 ->
  exists b s, new_vmmap (mkVM k mem) = Ret (page_addr b, s) /\ 0 <= b < 512 /\ refs s = ref_counts (k_mm k) /\
    vm_ok s (page_addr b) {[page_addr b := 0%nat]} (<[b := 0]> live) ({[page_addr b]} ∪ ptrs) /\
    forall v, trans (vm_mem s) (page_addr b) v = None.
Proof.
  intros Hc Hm Hroom Hex.
  destruct (get_free_page_spec k live ptrs true Hc Hm Hroom) as [(b & k' & Hg & Hb & _ & Hc' & Hm' & Hr)|[_ ?]]; [|done].
  exists b, (mkVM k' (zero_frame (page_addr b) mem)).
  assert (Hz : forall i, 0 <= i < 512 -> valid (zero_frame (page_addr b) mem) (page_addr b) i = false)
    by (intros i Hi; unfold valid; by rewrite zero_frame_own).
  split_and!; [|lia|lia|done| |].
  - unfold new_vmmap, mbind, M_bind, on_kernel, zoom. simpl. rewrite Hg.
    by rewrite (proj2 (Z.eqb_neq (page_addr b) 0)) by (unfold page_addr; lia).
  - split; simpl; [by rewrite Hc'|done| |].
    + split; [apply lookup_singleton_eq|..].
      * intros f l [<- <-]%lookup_singleton_Some. eauto.
      * intros f l i [<- <-]%lookup_singleton_Some _ Hi Hv. by rewrite Hz in Hv.
      * intros f l i g j i' [<- <-]%lookup_singleton_Some _ Hi Hv. by rewrite Hz in Hv.
    + intros c l [->%page_addr_inj <-]%lookup_singleton_Some. apply lookup_insert_eq.
  - intros v. unfold trans. cbn [upper find_table vm_mem]. rewrite Hz; [done|].
    pose proof (upper_range v) as Hur. by apply list.Forall_cons in Hur as [? _].
Qed.

(** ** Claims *)

(** C9. Mapping a page that is not mapped changes the translation at that page
    and nowhere else, whatever tables have to be created, and counts one more
    reference to the frame; it stops the kernel only if fewer than three frames
    are left for tables.  The physical address of any address in the page is then the frame
    plus the page offset, unmapping restores the translation, and mapping a
    mapped page stops the kernel. *)
Theorem map_unmap_translation s pgd T live ptrs v b attr :
  vm_ok s pgd T live ptrs -> user_va v -> 0 <= b < 512 -> attr_ok attr -> (size ptrs + 3 <= NR_SLOTS)%nat ->
  refs_room (k_mm (vm_kernel s)) 2 -> trans (vm_mem s) pgd v = None ->
  (vm_map pgd v (page_addr b) attr s = Panic /\ short_of_frames live 3) \/
  exists s1 T' live' ptrs', vm_map pgd v (page_addr b) attr s = Ret (tt, s1) /\ vm_ok s1 pgd T' live' ptrs' /\
    (forall w, user_va w -> w / 4096 = v / 4096 -> get_physical_address pgd w s1 = Ret (page_addr b + PAGE_OFFSET w, s1)) /\
    (forall w, user_va w -> w / 4096 <> v / 4096 -> trans (vm_mem s1) pgd w = trans (vm_mem s) pgd w) /\
    refs_added b 1 (refs s) (refs s1) /\
    (forall p' attr', vm_map pgd v p' attr' s1 = Panic) /\
    (refs_room (k_mm (vm_kernel s1)) 1 ->
     exists s2, unmap pgd v s1 = Ret (tt, s2) /\ vm_ok s2 pgd T' live' ptrs' /\ refs_added b (-1) (refs s1) (refs s2) /\
       forall w, user_va w -> trans (vm_mem s2) pgd w = trans (vm_mem s) pgd w).
Proof.
  intros Hok Hv Hb Ha Hroom Hrefs Hnone. assert (Hrefs1 : refs_room (k_mm (vm_kernel s)) 1) by (intros i c Hi; specialize (Hrefs i c Hi); lia).
  destruct (vm_map_run s pgd T live ptrs v b attr Hok Hv Hb Ha Hroom Hrefs1 Hnone)
    as [(s1 & T' & live' & ptrs' & Hrun & Hok1 & _ & _ & _ & _ & _ & Htr & Hadd)|Hp]; [right|by left].
  destruct (mapped_descriptor_ok b attr Hb Ha) as [_ Hfr].
  pose proof (Htr v Hv) as Hat. rewrite decide_True in Hat by done.
  exists s1, T', live', ptrs'. split_and!; [done|done| | |done| |].
  - intros w Hw He. specialize (Htr w Hw). rewrite decide_True in Htr by done. rewrite (gpa_run _ _ _ _ Htr). by rewrite Hfr.
  - intros w Hw He. specialize (Htr w Hw). by rewrite decide_False in Htr.
  - intros p' attr'. by eapply vm_map_again.
  - intros Hroom1. destruct (unmap_run s1 pgd T' live' ptrs' v b _ Hok1 Hv Hb Hat Hfr Hroom1) as (s2 & Hun & Hok2 & Htr2 & Hadd2).
    exists s2. split_and!; [done..|]. intros w Hw. rewrite (Htr2 w Hw), (Htr w Hw). case_decide as He; [|done].
    pose proof (proj2 (indices_page w v Hw Hv) He) as Hix.
    unfold indices in Hix. injection Hix as E1 E2 E3 E4. unfold trans, upper in *. by rewrite E1, E2, E3, E4.
Qed.

(** C10. A write fault on a copy-on-write page is resolved with a private,
    writable page: the frame itself if the map is its only user, else a new
    frame with the same contents, the counts of both adjusted; no other page
    of the map and no other data frame changes, and the kernel stops only if no
    frame is left.  A fault on a page that is not copy-on-write is left to the
    caller, which kills the task. *)
Theorem cow_fault_private_page s pgd T live ptrs far d b c :
  vm_ok s pgd T live ptrs -> data_page s pgd T live (align_down far) d b -> user_va far ->
  arr_get (refs s) b = Some c -> (size ptrs < NR_SLOTS)%nat -> refs_room (k_mm (vm_kernel s)) 2 ->
  if Z.land d PD_COW_PAGE =? 0 then resolve_page_fault pgd far s = Ret (false, s)
  else
    (resolve_page_fault pgd far s = Panic /\ c <> 1 /\ exhausted live 0) \/
    exists s' x d' live' ptrs', resolve_page_fault pgd far s = Ret (true, s') /\ vm_ok s' pgd T live' ptrs' /\
      (if decide (c = 1) then x = b else live !! x = None) /\
      Z.land d' PD_RDONLY = 0 /\ Z.land d' PD_PAGE_MASK = page_addr x /\
      (forall w, user_va w -> trans (vm_mem s') pgd w =
         if decide (w / 4096 = align_down far / 4096) then Some d' else trans (vm_mem s) pgd w) /\
      (forall i, 0 <= i < 512 -> vm_mem s' (entry (page_addr x) i) = vm_mem s (entry (page_addr b) i)) /\
      (forall y i, 0 <= i < 512 -> T !! page_addr y = None -> y <> x -> vm_mem s' (entry (page_addr y) i) = vm_mem s (entry (page_addr y) i)) /\
      (if decide (c = 1) then refs s' = refs s else exists r, refs_added b (-1) (refs s) r /\ refs_added x 1 r (refs s')).
Proof.
  intros Hok Hdp Hfar Hc Hroom Hrefs. pose proof (vo_wf _ _ _ _ _ Hok) as Hw.
  assert (Hal : is_aligned (align_down far) = true) by (apply align_down_aligned; unfold user_va in Hfar; lia).
  destruct (data_page_table _ _ _ _ _ _ _ Hw Hdp) as (t & Hf & Ht & Hd & Hinv).
  pose proof (is_cow_run s pgd (align_down far) Hal) as Hcow. rewrite Hf, Hd in Hcow.
  unfold resolve_page_fault, get_fault_page_addr. fold (align_down far).
  destruct (Z.land d PD_COW_PAGE =? 0); [by mrun Hcow|]. 
  destruct (decide (c = 1)) as [->|Hc1].
  - destruct (copy_page_frame_last s pgd T live ptrs _ d b Hok Hdp Hc) as (s' & Hrun & Hok' & Hrf & Htr & Hmem).
    destruct (own_descriptor_ok d Hinv) as (_ & Hfr & Hro & _). right. exists s', b, (own_descriptor d), live, ptrs.
    split_and!; [|done|done|done|by rewrite Hfr; apply Hdp|done| |auto|done].
    + mrun Hcow. cbn [negb]. mrun Hrun. done.
    + intros i Hi. apply Hmem; [done|apply Hdp].
  - destruct (copy_page_frame_shared s pgd T live ptrs _ d b c Hok Hdp Hc Hc1 Hroom Hrefs)
      as [(s' & nb & Hrun & Hnb & Hnone & Hok' & Htr & Hcp & Hmem & Hr)|[Hp Hex]].
    + destruct (copy_descriptor_ok nb d Hnb Hinv) as (_ & Hfr & Hro). right. eexists s', nb, (copy_descriptor (page_addr nb) d), _, _.
      split_and!; [mrun Hcow; cbn [negb]; mrun Hrun; done|exact Hok'|done..].
    + left. split_and!; [|done..]. mrun Hcow. cbn [negb]. unfold mbind at 1, M_bind at 1. by rewrite Hp.
Qed.

(** ** Witnesses *)

Lemma fresh_room n : n < 2 ^ 30 -> refs_room fresh_mm n.
Proof.
  intros Hn i c. change (ref_counts fresh_mm) with (replicate 512 0). unfold arr_get. destruct (decide (0 <= i)); [|done].
  intros [-> _]%lookup_replicate. lia.
Qed.

(** A map made by the constructor, in a kernel that has allocated nothing else. *)
Lemma first_vmmap : exists b s, 0 <= b < 512 /\
  vm_ok s (page_addr b) {[page_addr b := 0%nat]} {[b := 0]} {[page_addr b]} /\ refs s = replicate 512 0 /\
  forall v, trans (vm_mem s) (page_addr b) v = None.
Proof.
  destruct (new_vmmap_spec fresh_kernel (fun _ => 0) ∅ ∅ fresh_cpu_ok fresh_mm_rep) as (b & s & _ & Hb & Hr & Hok & Htr).
  - rewrite size_empty. unfold NR_SLOTS. lia.
  - apply exhausted_empty. unfold NR_ORDERS. lia.
  - exists b, s. split_and!; [lia|lia| |done|done]. rewrite union_empty_r_L in Hok. exact Hok.
Qed.

Lemma refs_room_of s n : refs s = replicate 512 0 -> n < 2 ^ 30 -> refs_room (k_mm (vm_kernel s)) n.
Proof.
  intros Hr Hn i c. unfold refs in Hr. rewrite Hr. unfold arr_get. destruct (decide (0 <= i)); [|done].
  intros [-> _]%lookup_replicate. lia.
Qed.

Lemma first_enough b n : (n <= 511)%nat -> ~ short_of_frames {[b := 0]} n.
Proof.
  intros Hn. apply enough_frames; [by intros c k [_ <-]%lookup_singleton_Some|]. rewrite map_size_singleton. lia.
Qed.

Lemma map_unmap_translation_witness :
  exists pgd s s1, vm_map pgd 0x400000 (page_addr 500) USER_PAGE_RW s = Ret (tt, s1) /\
    get_physical_address pgd 0x400123 s1 = Ret (page_addr 500 + 0x123, s1).
Proof.
  destruct first_vmmap as (b & s & Hb & Hok & Hr & Htr). exists (page_addr b), s.
  destruct (map_unmap_translation s (page_addr b) _ _ _ 0x400000 500 USER_PAGE_RW Hok) as [[_ Hs]|(s1 & _ & _ & _ & Hrun & _ & Hgpa & _)].
  - unfold user_va. lia.
  - lia.
  - split; reflexivity.
  - rewrite size_singleton. unfold NR_SLOTS. lia.
  - apply refs_room_of; [exact Hr|lia].
  - apply Htr.
  - exfalso. revert Hs. apply first_enough. lia.
  - exists s1. split; [exact Hrun|]. apply (Hgpa 0x400123); [unfold user_va; lia|reflexivity].
Defined.

(** A page frame for data. *)
Lemma data_frame s pgd T live ptrs :
  vm_ok s pgd T live ptrs -> (size ptrs < NR_SLOTS)%nat -> ~ exhausted live 0 ->
  exists x s', 0 <= x < 512 /\ vm_ok s' pgd T (<[x := 0]> live) ({[page_addr x]} ∪ ptrs) /\ T !! page_addr x = None /\
    live !! x = None /\ vm_mem s' = vm_mem s /\ refs s' = refs s.
Proof.
  intros [Hc Hm Hw Hl] Hroom Hex.
  destruct (get_free_page_spec _ live ptrs true Hc Hm Hroom) as [(x & k' & _ & Hx & Hfree & Hc' & Hm' & Hr)|[_ ?]]; [|done].
  pose proof (fresh_not_live _ _ _ _ Hm Hfree) as Hnone.
  exists x, (set_vm_kernel k' s). split_and!; [lia|lia| | |done|done|done].
  - split; simpl; [by rewrite Hc'|done|done|]. intros b l Hb. pose proof (Hl b l Hb). rewrite lookup_insert_ne; [done|]. congruence.
  - destruct (T !! page_addr x) as [j|] eqn:Hj; [|done]. apply Hl in Hj. congruence.
Qed.

(** A page [x] mapped at 0x400000 and counted once. *)
Lemma first_page : exists pgd s T live ptrs x d, vm_ok s pgd T live ptrs /\ data_page s pgd T live 0x400000 d x /\
  arr_get (refs s) x = Some 1 /\ (size ptrs < NR_SLOTS)%nat /\ refs_room (k_mm (vm_kernel s)) 2 /\ Z.land d PD_COW_PAGE <> 0.
Proof.
  destruct first_vmmap as (b & s0 & Hb & Hok0 & Hr0 & Htr0).
  assert (Hord : forall x c k : Z, (<[x := 0]> {[b := 0]} : gmap Z Z) !! c = Some k -> k = 0).
  { intros x c k [[_ <-]|[_ [_ <-]%lookup_singleton_Some]]%lookup_insert_Some; done. }
  destruct (data_frame _ _ _ _ _ Hok0) as (x & s & Hx & Hok & HTx & Hlx & Hmem & Hr).
  { rewrite size_singleton. unfold NR_SLOTS. lia. }
  { intros Hex. apply (first_enough b 1 ltac:(lia)). exists {[b := 0]}. split_and!; [done|by left|lia|done]. }
  assert (Hptrs : size ({[page_addr x]} ∪ {[page_addr b]} : gset Z) = 2%nat).
  { rewrite size_union, !size_singleton; [done|]. apply disjoint_singleton_l. intros He%elem_of_singleton%page_addr_inj.
    subst. by rewrite lookup_singleton_eq in Hlx. }
  rewrite Hr0 in Hr. rewrite <- Hmem in Htr0.
  destruct (vm_map_run s (page_addr b) _ _ _ 0x400000 x USER_PAGE_RW Hok) as [(s1 & T' & live' & ptrs' & _ & Hok1 & _ & [Hlv _] & Hnt & Hsz & _ & Htr1 & Hadd)|[_ Hs]];
    [unfold user_va; lia|lia|done| |by apply refs_room_of|apply Htr0| |].
  - rewrite Hptrs. unfold NR_SLOTS. lia.
  - destruct (mapped_descriptor_ok x USER_PAGE_RW Hx ltac:(done)) as [_ Hfr].
    exists (page_addr b), s1, T', live', ptrs', x, (mapped_descriptor (page_addr x) USER_PAGE_RW). split_and!; [done| | | | |].
    + split; [unfold user_va; lia| |done|lia| |].
      * rewrite (Htr1 0x400000) by (unfold user_va; lia). done.
      * exists 0. eapply lookup_weaken; [apply lookup_insert_eq|done].
      * destruct (T' !! page_addr x) as [j|] eqn:Hj; [|done]. destruct (Hnt x j Hj) as [He|He]; [congruence|].
        by rewrite lookup_insert_eq in He.
    + rewrite Hr in Hadd. rewrite (Hadd x 0); [by rewrite decide_True|]. unfold arr_get. rewrite decide_True by lia.
      apply lookup_replicate. split; [done|lia].
    + rewrite Hptrs in Hsz. unfold NR_SLOTS. lia.
    + intros i c Hi. pose proof (arr_get_Some_range _ _ _ Hi) as Hir. rewrite (mr_refs _ _ _ (vo_mm _ _ _ _ _ Hok1)) in Hir.
      rewrite Hr in Hadd. unfold refs in Hadd. rewrite (Hadd i 0) in Hi; [destruct (decide (x = i)); injection Hi as <-; lia|].
      unfold arr_get. rewrite decide_True by lia. apply lookup_replicate. split; [done|lia].
    + unfold mapped_descriptor. change (Z.land USER_PAGE_RW PD_RDONLY =? 0) with true. cbn iota.
      rewrite Z.land_lor_distr_l. intros Hz%Z.lor_eq_0_iff. destruct Hz as [_ Hz]. revert Hz. vm_compute. discriminate.
  - exfalso. revert Hs. apply enough_frames; [apply Hord|].
    rewrite map_size_insert_None, map_size_singleton by done. lia.
Qed.

Lemma cow_fault_private_page_witness :
  exists pgd s s', resolve_page_fault pgd 0x400008 s = Ret (true, s') /\ refs s' = refs s.
Proof.
  destruct first_page as (pgd & s & T & live & ptrs & x & d & Hok & Hdp & Hc & Hsz & Hr & Hcow). exists pgd, s.
  pose proof (cow_fault_private_page s pgd T live ptrs 0x400008 d x 1 Hok) as H.
  change (align_down 0x400008) with 0x400000 in H. rewrite (proj2 (Z.eqb_neq _ 0) Hcow) in H.
  destruct H as [(_ & H & _)|(s' & y & d' & live' & ptrs' & Hrun & _ & _ & _ & _ & _ & _ & _ & Hrf)].
  - exact Hdp.
  - unfold user_va. lia.
  - exact Hc.
  - exact Hsz.
  - exact Hr.
  - exfalso. apply H. reflexivity.
  - exists s'. split; [exact Hrun|]. rewrite decide_True in Hrf by reflexivity. exact Hrf.
Defined.
