(* ===== verification/Proc.v ===== *)
(** * proc/Task.cc, proc/TaskScheduler.cc, proc/Signal.cc: tasks and the scheduler

    A [Task *] is a number, 0 for [nullptr]; the tasks are a map from numbers
    to records.  A [List] is the sequence of its elements.  A switch of context
    makes another task current: what a function does after it is done when its
    task is switched back in, so a function that may block is modelled up to
    the switch, with the rest as a function of its own.  An opened file is a
    number, 0 for a null [SharedPtr]; [closed] records the files handed to
    [VFS::close]. *)

From Stdlib Require Import ZArith Lia.
From stdpp Require Import base gmap list numbers.
From S2P Require Import Prelude Math Mmu Mutex Buddy Slob Memory PageTable CString.

Open Scope Z_scope.

(** ** Data *)

Definition TASK_TIME_SLICE : Z := 64.
Definition TASK_NAME_MAX_LEN : Z := 16.
Definition NR_TASK_FD_LIMITS : Z := 16.

Definition SIGKILL : Z := 9.
Definition SIGSEGV : Z := 11.
Definition NR_signals : Z := 12.
Definition is_signal_valid (signal : Z) : bool := (0 <=? signal) && (signal <? NR_signals).

Inductive State := CREATED | RUNNING | SLEEPING | TERMINATED.

(** The saved registers: the callee-saved ones, the return address and [sp]. *)
Record Context := mkContext { c_regs : list Z; c_lr : Z; c_sp : Z }.

Record Task := mkTask {
  t_context : Context;
  t_is_user : bool;
  t_parent : Z;
  t_active : list Z;
  t_terminated : list Z;
  t_state : State;
  t_error_code : Z;
  t_pid : Z;
  t_time_slice : Z;
  t_vmmap : Z;
  t_entry_point : Z;
  t_kstack : Page;
  t_ustack : Page;
  t_trap_frame : Z;
  t_name : list Z;
  t_pending : list Z;
  t_handlers : list Z;
  t_fds : list Z;
  t_cwd : Z;
  t_in_kernel : bool  (** suspended inside a critical section, to be left on resumption *)
}.

Record Sys := mkSys {
  sy_vm : VM;
  sy_tasks : gmap Z Task;
  sy_next_id : Z;
  sy_next_pid : Z;
  sy_init : Z;
  sy_kthreadd : Z;
  sy_current : Z;
  sy_need_reschedule : bool;
  sy_runqueue : list Z;
  sy_closed : list Z;
  sy_next_file : Z
}.

(** Updates of single fields. *)
Definition set_sy_vm (x : VM) (s : Sys) : Sys :=
  mkSys x (sy_tasks s) (sy_next_id s) (sy_next_pid s) (sy_init s) (sy_kthreadd s) (sy_current s) (sy_need_reschedule s) (sy_runqueue s) (sy_closed s) (sy_next_file s).
Definition set_sy_tasks (x : gmap Z Task) (s : Sys) : Sys :=
  mkSys (sy_vm s) x (sy_next_id s) (sy_next_pid s) (sy_init s) (sy_kthreadd s) (sy_current s) (sy_need_reschedule s) (sy_runqueue s) (sy_closed s) (sy_next_file s).
Definition set_sy_ids (id pid : Z) (s : Sys) : Sys :=
  mkSys (sy_vm s) (sy_tasks s) id pid (sy_init s) (sy_kthreadd s) (sy_current s) (sy_need_reschedule s) (sy_runqueue s) (sy_closed s) (sy_next_file s).
Definition set_sy_init (x : Z) (s : Sys) : Sys :=
  mkSys (sy_vm s) (sy_tasks s) (sy_next_id s) (sy_next_pid s) x (sy_kthreadd s) (sy_current s) (sy_need_reschedule s) (sy_runqueue s) (sy_closed s) (sy_next_file s).
Definition set_sy_kthreadd (x : Z) (s : Sys) : Sys :=
  mkSys (sy_vm s) (sy_tasks s) (sy_next_id s) (sy_next_pid s) (sy_init s) x (sy_current s) (sy_need_reschedule s) (sy_runqueue s) (sy_closed s) (sy_next_file s).
Definition set_sy_current (x : Z) (s : Sys) : Sys :=
  mkSys (sy_vm s) (sy_tasks s) (sy_next_id s) (sy_next_pid s) (sy_init s) (sy_kthreadd s) x (sy_need_reschedule s) (sy_runqueue s) (sy_closed s) (sy_next_file s).
Definition set_sy_need (x : bool) (s : Sys) : Sys :=
  mkSys (sy_vm s) (sy_tasks s) (sy_next_id s) (sy_next_pid s) (sy_init s) (sy_kthreadd s) (sy_current s) x (sy_runqueue s) (sy_closed s) (sy_next_file s).
Definition set_sy_runqueue (x : list Z) (s : Sys) : Sys :=
  mkSys (sy_vm s) (sy_tasks s) (sy_next_id s) (sy_next_pid s) (sy_init s) (sy_kthreadd s) (sy_current s) (sy_need_reschedule s) x (sy_closed s) (sy_next_file s).
Definition set_sy_closed (x : list Z) (s : Sys) : Sys :=
  mkSys (sy_vm s) (sy_tasks s) (sy_next_id s) (sy_next_pid s) (sy_init s) (sy_kthreadd s) (sy_current s) (sy_need_reschedule s) (sy_runqueue s) x (sy_next_file s).
Definition set_sy_file (x : Z) (s : Sys) : Sys :=
  mkSys (sy_vm s) (sy_tasks s) (sy_next_id s) (sy_next_pid s) (sy_init s) (sy_kthreadd s) (sy_current s) (sy_need_reschedule s) (sy_runqueue s) (sy_closed s) x.

Definition with_family (p : Z) (a t : list Z) (k : Task) : Task :=
  mkTask (t_context k) (t_is_user k) p a t (t_state k) (t_error_code k) (t_pid k) (t_time_slice k) (t_vmmap k) (t_entry_point k) (t_kstack k) (t_ustack k) (t_trap_frame k) (t_name k) (t_pending k) (t_handlers k) (t_fds k) (t_cwd k) (t_in_kernel k).
Definition with_run (st : State) (err slice : Z) (k : Task) : Task :=
  mkTask (t_context k) (t_is_user k) (t_parent k) (t_active k) (t_terminated k) st err (t_pid k) slice (t_vmmap k) (t_entry_point k) (t_kstack k) (t_ustack k) (t_trap_frame k) (t_name k) (t_pending k) (t_handlers k) (t_fds k) (t_cwd k) (t_in_kernel k).
Definition with_signals (p h : list Z) (k : Task) : Task :=
  mkTask (t_context k) (t_is_user k) (t_parent k) (t_active k) (t_terminated k) (t_state k) (t_error_code k) (t_pid k) (t_time_slice k) (t_vmmap k) (t_entry_point k) (t_kstack k) (t_ustack k) (t_trap_frame k) (t_name k) p h (t_fds k) (t_cwd k) (t_in_kernel k).
Definition with_fds (f : list Z) (k : Task) : Task :=
  mkTask (t_context k) (t_is_user k) (t_parent k) (t_active k) (t_terminated k) (t_state k) (t_error_code k) (t_pid k) (t_time_slice k) (t_vmmap k) (t_entry_point k) (t_kstack k) (t_ustack k) (t_trap_frame k) (t_name k) (t_pending k) (t_handlers k) f (t_cwd k) (t_in_kernel k).
Definition with_context (c : Context) (frame : Z) (k : Task) : Task :=
  mkTask c (t_is_user k) (t_parent k) (t_active k) (t_terminated k) (t_state k) (t_error_code k) (t_pid k) (t_time_slice k) (t_vmmap k) (t_entry_point k) (t_kstack k) (t_ustack k) frame (t_name k) (t_pending k) (t_handlers k) (t_fds k) (t_cwd k) (t_in_kernel k).
Definition with_cwd (c : Z) (k : Task) : Task :=
  mkTask (t_context k) (t_is_user k) (t_parent k) (t_active k) (t_terminated k) (t_state k) (t_error_code k) (t_pid k) (t_time_slice k) (t_vmmap k) (t_entry_point k) (t_kstack k) (t_ustack k) (t_trap_frame k) (t_name k) (t_pending k) (t_handlers k) (t_fds k) c (t_in_kernel k).
Definition with_in_kernel (b : bool) (k : Task) : Task :=
  mkTask (t_context k) (t_is_user k) (t_parent k) (t_active k) (t_terminated k) (t_state k) (t_error_code k) (t_pid k) (t_time_slice k) (t_vmmap k) (t_entry_point k) (t_kstack k) (t_ustack k) (t_trap_frame k) (t_name k) (t_pending k) (t_handlers k) (t_fds k) (t_cwd k) b.

#[export] Instance sys_has_cpu : HasCpu Sys := {
  cpu_of s := k_cpu (vm_kernel (sy_vm s));
  with_cpu c s := set_sy_vm (set_vm_kernel (mkKernel c (k_mm (vm_kernel (sy_vm s)))) (sy_vm s)) s
}.
#[export] Instance sys_cpu_laws : HasCpuLaws Sys.
Proof. split; [done|by intros [[[] ?]]|done]. Qed.

Abbreviation SysM := (M Sys).
Definition on_vm {A} (m : M VM A) : SysM A := zoom sy_vm set_sy_vm m.

(** [task->f] and [task->f = v]. *)
Definition rd_task (t : Z) : SysM Task := s ← get; deref (sy_tasks s !! t).
Definition wr_task (t : Z) (f : Task -> Task) : SysM unit :=
  k ← rd_task t; s ← get; put (set_sy_tasks (<[t := f k]> (sy_tasks s)) s).

Definition set_state (t : Z) (st : State) : SysM unit := wr_task t (fun k => with_run st (t_error_code k) (t_time_slice k) k).
Definition set_time_slice (t slice : Z) : SysM unit := wr_task t (fun k => with_run (t_state k) (t_error_code k) slice k).
Definition push_active (p c : Z) : SysM unit := wr_task p (fun k => with_family (t_parent k) (t_active k ++ [c]) (t_terminated k) k).

(** [List::remove] and [List::remove_if]: the first match only. *)
Fixpoint remove_first (x : Z) (l : list Z) : list Z :=
  match l with
  | [] => []
  | y :: l => if y =? x then l else y :: remove_first x l
  end.

(** ** Construction and destruction *)

(** [rootfs] is the root directory's vnode.  A name that does not fit [_name]
    faults when the copy passes its end.  [pid_t] is [uint32_t]. *)
Definition new_task (rootfs : Z) (is_user : bool) (parent entry_point : Z) (name : reader) : SysM Z :=
  s ← get;
  let id := sy_next_id s in
  let pid := sy_next_pid s in
  put (set_sy_ids (id + 1) (u32 (pid + 1)) s);;
  pgd ← on_vm new_vmmap;
  kstack ← on_vm (on_kernel (get_free_page true));
  ustack ← on_vm (on_kernel (get_free_page true));
  (if pid =? 1 then modify (set_sy_init id) else if pid =? 2 then modify (set_sy_kthreadd id) else mret tt);;
  (if negb (parent =? 0) then push_active parent id else mret tt);;
  nm ← lift (strcpy (S (Z.to_nat TASK_NAME_MAX_LEN)) (fun _ => name) 0 0 (replicate (Z.to_nat TASK_NAME_MAX_LEN) 0));
  s ← get;
  let opened := sy_next_file s in
  put (set_sy_file (opened + 1) s);;
  modify (fun s => set_sy_tasks (<[id :=
    mkTask (mkContext (replicate 11 0) entry_point (page_end (mkPage kstack 0))) is_user parent [] [] CREATED 0 pid
      TASK_TIME_SLICE pgd entry_point (mkPage kstack 0) (mkPage ustack 0) 0 (snd nm) []
      (replicate (Z.to_nat NR_signals) 0) ([opened; opened; opened] ++ replicate 13 0) rootfs false]> (sy_tasks s)) s);;
  mret id.

(** [while (!_active_children.empty())] of the destructor. *)
Fixpoint adopt (children : list Z) (t : Z) : SysM unit :=
  match children with
  | [] => mret tt
  | child :: rest =>
      s ← get;
      push_active (sy_init s) child;;
      wr_task child (fun k => with_family (sy_init s) (t_active k) (t_terminated k) k);;
      wr_task t (fun k => with_family (t_parent k) rest (t_terminated k) k);;
      adopt rest t
  end.

(** The destructor of a task ends with that of its terminated children, which
    the task owns: [ts] are the tasks still to be destroyed. *)
Fixpoint delete_tasks (fuel : nat) (ts : list Z) : SysM unit :=
  match ts with
  | [] => mret tt
  | t :: ts =>
      match fuel with
      | O => out_of_fuel
      | S fuel =>
          k ← rd_task t;
          adopt (t_active k) t;;
          on_vm (on_kernel (kfree (p_addr (t_kstack k))));;
          on_vm (delete_vmmap (t_vmmap k));;
          modify (fun s => set_sy_tasks (delete t (sy_tasks s)) s);;
          delete_tasks fuel (t_terminated k ++ ts)
      end
  end.
Definition delete_task (t : Z) : SysM unit := s ← get; delete_tasks (size (sy_tasks s)) [t].

(** ** The process tree *)

(** The breadth-first search of [get_active_tasks]. *)
Fixpoint bfs_all (fuel : nat) (q ret : list Z) : SysM (list Z) :=
  match q with
  | [] => mret ret
  | task :: q =>
      match fuel with
      | O => out_of_fuel
      | S fuel => k ← rd_task task; bfs_all fuel (q ++ t_active k) (ret ++ [task])
      end
  end.
Definition get_active_tasks : SysM (list Z) :=
  s ← get;
  bfs_all (S (size (sy_tasks s))) [sy_init s] [sy_init s; sy_kthreadd s].

(** [find_if] on the pids of a list of children. *)
Fixpoint find_child (pid : Z) (children : list Z) : SysM (option Z) :=
  match children with
  | [] => mret None
  | c :: children => k ← rd_task c; if t_pid k =? pid then mret (Some c) else find_child pid children
  end.
Fixpoint bfs_pid (fuel : nat) (pid : Z) (q : list Z) : SysM Z :=
  match q with
  | [] => mret 0
  | task :: q =>
      match fuel with
      | O => out_of_fuel
      | S fuel =>
          k ← rd_task task;
          it ← find_child pid (t_active k);
          match it with
          | Some c => mret c
          | None => bfs_pid fuel pid (q ++ t_active k)
          end
      end
  end.
Definition get_by_pid (pid : Z) : SysM Z :=
  s ← get;
  if pid =? 1 then mret (sy_init s)
  else if pid =? 2 then mret (sy_kthreadd s)
  else bfs_pid (S (size (sy_tasks s))) pid [sy_init s].

(** ** TaskScheduler *)

Definition enqueue_task (t : Z) : SysM unit :=
  guarded (
    if t =? 0 then panic
    else
      set_state t RUNNING;;
      modify (fun s => set_sy_runqueue (sy_runqueue s ++ [t]) s)).

Definition remove_task (t : Z) : SysM Z :=
  guarded (
    s ← get;
    if decide (t ∈ sy_runqueue s) then
      put (set_sy_runqueue (remove_first t (sy_runqueue s)) s);; mret t
    else panic).

(** [switch_to(prev, next)] *)
Definition switch_to (next : Z) : SysM unit := modify (set_sy_current next).

(** The lock taken here is released by the task switched to, if that task was
    suspended inside a critical section. *)
Definition schedule : SysM unit :=
  zoom cpu_of with_cpu lock;;
  s ← get;
  (match sy_runqueue s with
   | x :: y :: q => put (set_sy_runqueue (y :: q ++ [x]) s)
   | _ => mret tt
   end);;
  s ← get;
  set_state (sy_current s) SLEEPING;;
  wr_task (sy_current s) (with_in_kernel true);;
  match head (sy_runqueue s) with
  | None => fault
  | Some next =>
      set_state next RUNNING;;
      switch_to next;;
      k ← rd_task next;
      if t_in_kernel k then zoom cpu_of with_cpu unlock else mret tt
  end.

Definition sched_run : SysM unit :=
  s ← get;
  match sy_runqueue s with [] => panic | t :: _ => switch_to t end.

Definition maybe_schedule : SysM unit :=
  s ← get;
  if negb (sy_need_reschedule s) then mret tt
  else
    put (set_sy_need false s);;
    set_time_slice (sy_current s) TASK_TIME_SLICE;;
    schedule.

Definition task_tick (t : Z) : SysM unit :=
  wr_task t (fun k => if 0 <? t_time_slice k then with_run (t_state k) (t_error_code k) (t_time_slice k - 1) k else k).
Definition sched_tick : SysM unit :=
  s ← get;
  task_tick (sy_current s);;
  k ← rd_task (sy_current s);
  if t_time_slice k <=? 0 then modify (set_sy_need true) else mret tt.

(** ** File descriptors *)

Definition is_fd_valid (fd : Z) : bool := (0 <=? fd) && (fd <? NR_TASK_FD_LIMITS).

(** The loop of [allocate_fd_for_file]. *)
Fixpoint free_fd (fds : list Z) (i : Z) : option Z :=
  match fds with
  | [] => None
  | f :: fds => if f =? 0 then Some i else free_fd fds (i + 1)
  end.
Definition allocate_fd_for_file (t file : Z) : SysM Z :=
  if file =? 0 then panic
  else
    k ← rd_task t;
    match free_fd (t_fds k) 0 with
    | Some i => fds ← deref (arr_set (t_fds k) i file); wr_task t (with_fds fds);; mret i
    | None => mret (-1)
    end.
Definition release_fd_and_get_file (t fd : Z) : SysM Z :=
  if is_fd_valid fd then
    k ← rd_task t;
    f ← deref (arr_get (t_fds k) fd);
    fds ← deref (arr_set (t_fds k) fd 0);
    wr_task t (with_fds fds);;
    mret f
  else mret 0.
Definition get_file_by_fd (t fd : Z) : SysM Z :=
  if is_fd_valid fd then k ← rd_task t; deref (arr_get (t_fds k) fd) else mret 0.

Definition sys_close (fd : Z) : SysM Z :=
  s ← get;
  file ← release_fd_and_get_file (sy_current s) fd;
  if file =? 0 then mret (-1)
  else modify (fun s => set_sy_closed (sy_closed s ++ [file]) s);; mret 0.

(** ** exit and wait *)

(** [for (int i = 3; i < NR_TASK_FD_LIMITS; i++)] of [exit]. *)
Fixpoint close_fds (n : nat) (t i : Z) : SysM unit :=
  match n with
  | O => mret tt
  | S n =>
      k ← rd_task t;
      f ← deref (arr_get (t_fds k) i);
      (if negb (f =? 0) then sys_close i;; mret tt else mret tt);;
      close_fds n t (i + 1)
  end.

(** Up to the switch to the next task; the lock is not released by [t]. *)
Definition exit (t error_code : Z) : SysM unit :=
  k ← rd_task t;
  if t_parent k =? 0 then panic
  else
    wr_task t (fun k => with_run TERMINATED error_code (t_time_slice k) k);;
    zoom cpu_of with_cpu lock;;
    close_fds 13 t 3;;
    wr_task (t_parent k) (fun p => with_family (t_parent p) (remove_first t (t_active p)) (t_terminated p) p);;
    removed ← remove_task t;
    wr_task (t_parent k) (fun p => with_family (t_parent p) (t_active p) (t_terminated p ++ [removed]) p);;
    schedule.

(** [wait] up to its loop: [Some r] if it returns [r] at once. *)
Definition wait_begin (t : Z) : SysM (option Z) :=
  zoom cpu_of with_cpu lock;;
  k ← rd_task t;
  if Z.of_nat (length (t_active k) + length (t_terminated k)) =? 0 then
    zoom cpu_of with_cpu unlock;; mret (Some (-1))
  else mret None.

(** One turn of the loop: [None] after a call of [schedule], else the pid of
    the child and its error code. *)
Definition wait_poll (t : Z) : SysM (option (Z * Z)) :=
  k ← rd_task t;
  match t_terminated k with
  | [] => schedule;; mret None
  | child :: rest =>
      c ← rd_task child;
      wr_task t (fun k => with_family (t_parent k) (t_active k) rest k);;
      delete_task child;;
      zoom cpu_of with_cpu unlock;;
      mret (Some (t_pid c, t_error_code c))
  end.

(** ** Signals *)

Definition kill (t pid signal : Z) : SysM Z :=
  if negb (is_signal_valid signal) then mret (-1)
  else
    guarded (
      k ← rd_task t;
      task ← (if pid =? t_pid k then mret t else get_by_pid pid);
      if task =? 0 then mret (-1)
      else wr_task task (fun k => with_signals (t_pending k ++ [signal]) (t_handlers k) k);; mret 0).

Definition signal (t sig handler : Z) : SysM Z :=
  guarded (
    if negb (is_signal_valid sig) then mret (-1)
    else
      k ← rd_task t;
      h ← deref (arr_set (t_handlers k) sig handler);
      wr_task t (with_signals (t_pending k) h);;
      mret 0).

(** [__default_signal_handler_table]: the exit code, if the handler exits. *)
Definition default_signal_handler (sig : Z) : option Z :=
  if sig =? SIGKILL then Some SIGKILL else if sig =? SIGSEGV then Some 139 else None.

(** [true] if the task has exited. *)
Fixpoint handle_pending_loop (fuel : nat) (t : Z) : SysM bool :=
  match fuel with
  | O => out_of_fuel
  | S fuel =>
      k ← rd_task t;
      match t_pending k with
      | [] => mret false
      | sig :: rest =>
          wr_task t (with_signals rest (t_handlers k));;
          if negb (is_signal_valid sig) then panic
          else
            h ← deref (arr_get (t_handlers k) sig);
            if h =? 0 then
              match default_signal_handler sig with
              | Some code => s ← get; exit (sy_current s) code;; mret true
              | None => handle_pending_loop fuel t
              end
            else panic
      end
  end.
Definition handle_pending_signals (t : Z) : SysM bool :=
  k ← rd_task t; handle_pending_loop (S (length (t_pending k))) t.

(** ** fork *)

(** [saved] are the registers [save_context] stores and [out] the address of
    the label the child starts from. *)
Definition fork (rootfs : Z) (saved : Context) (out t : Z) : SysM Z :=
  guarded (
    k ← rd_task t;
    wr_task t (with_context saved (t_trap_frame k));;
    let kernel_sp_offset := offset_of (t_kstack k) (c_sp saved) in
    let trap_frame_offset := offset_of (t_kstack k) (t_trap_frame k) in
    child ← new_task rootfs (t_is_user k) t (t_entry_point k) (arr_get (t_name k));
    c ← rd_task child;
    if (p_addr (t_kstack c) =? 0) || (p_addr (t_ustack c) =? 0) then delete_task child;; mret (-1)
    else
      enqueue_task child;;
      on_vm (modify (fun v => set_vm_mem (copy_frame (p_addr (t_kstack c)) (p_addr (t_kstack k)) (vm_mem v)) v));;
      on_vm (modify (fun v => set_vm_mem (copy_frame (p_addr (t_ustack c)) (p_addr (t_ustack k)) (vm_mem v)) v));;
      wr_task child (with_context (mkContext (c_regs saved) out (add_offset (t_kstack c) kernel_sp_offset))
                       (add_offset (t_kstack c) trap_frame_offset));;
      on_vm (copy_from (t_vmmap k) (t_vmmap c));;
      wr_task child (with_cwd (t_cwd k));;
      wr_task child (with_in_kernel true);;
      mret (t_pid c)).
