(* ===== verification/ProcSpec.v ===== *)
(** * What tasks and the scheduler promise

    Round-robin scheduling, the hand-over of an exiting task to its parent, and
    the file descriptor table. *)

From Stdlib Require Import ZArith Lia.
From stdpp Require Import base gmap list numbers.
From S2P Require Import Prelude Math Mmu Mutex Buddy Slob Memory MemorySpec PageTable CString Proc.

Open Scope Z_scope.

(** ** Single steps *)

Lemma rd_task_run s t k : sy_tasks s !! t = Some k -> rd_task t s = Ret (k, s).
Proof. intros H. unfold rd_task. msimpl. by rewrite H. Qed.

Lemma wr_task_run s t k f : sy_tasks s !! t = Some k -> wr_task t f s = Ret (tt, set_sy_tasks (<[t := f k]> (sy_tasks s)) s).
Proof. intros H. unfold wr_task. mrun (rd_task_run _ _ _ H). by msimpl. Qed.

Lemma sys_lock s : cpu_ok (cpu_of s) -> zoom cpu_of with_cpu lock s = Ret (tt, with_cpu (entered (cpu_of s)) s).
Proof. intros H. unfold zoom. by rewrite lock_spec. Qed.

Lemma sys_unlock s c : cpu_ok c -> cpu_of s = entered c -> zoom cpu_of with_cpu unlock s = Ret (tt, with_cpu c s).
Proof. intros H He. unfold zoom. by rewrite He, unlock_spec. Qed.

(** ** Round robin *)

Definition rot1 (q : list Z) : list Z := match q with x :: y :: q => y :: q ++ [x] | q => q end.

(** All tasks of the runqueue exist and have run before. *)
Record sched_ok (s : Sys) : Prop := {
  so_cpu : cpu_ok (cpu_of s);
  so_queue : sy_runqueue s <> [];
  so_tasks : forall t, t ∈ sy_runqueue s -> exists k, sy_tasks s !! t = Some k /\ t_in_kernel k = true;
  so_current : is_Some (sy_tasks s !! sy_current s)
}.

(** What a switch does to the tasks: state and suspension of the two tasks. *)
Definition suspend (k : Task) : Task := with_in_kernel true (with_run SLEEPING (t_error_code k) (t_time_slice k) k).
Definition resume (k : Task) : Task := with_run RUNNING (t_error_code k) (t_time_slice k) k.
Definition switched (cur next : Z) (ts : gmap Z Task) : gmap Z Task := alter resume next (alter suspend cur ts).

Lemma switched_lookup cur next ts t k :
  ts !! t = Some k -> exists k', switched cur next ts !! t = Some k' /\ t_fds k' = t_fds k /\ t_parent k' = t_parent k /\
    t_active k' = t_active k /\ t_terminated k' = t_terminated k /\ t_error_code k' = t_error_code k /\ t_pid k' = t_pid k /\
    (t_in_kernel k = true -> t_in_kernel k' = true).
Proof.
  intros H. unfold switched. rewrite lookup_alter. case_decide; rewrite lookup_alter; case_decide; subst; rewrite H; simpl; eauto 10.
Qed.

(** The tail of [schedule], once the queue has been rotated. *)
Lemma schedule_run s q' next :
  cpu_ok (cpu_of s) -> sy_runqueue s <> [] -> rot1 (sy_runqueue s) = next :: q' ->
  is_Some (sy_tasks s !! sy_current s) -> (exists k, sy_tasks s !! next = Some k /\ t_in_kernel k = true) ->
  exists s', schedule s = Ret (tt, s') /\ sy_runqueue s' = next :: q' /\ sy_current s' = next /\ cpu_of s' = cpu_of s /\
    sy_tasks s' = switched (sy_current s) next (sy_tasks s) /\ sy_closed s' = sy_closed s /\ sy_init s' = sy_init s.
Proof.
  intros Hcpu Hne Hrot [kc Hc] (kn & Hn & Hk). unfold schedule.
  mrun (sys_lock s Hcpu). msimpl. set (s1 := with_cpu (entered (cpu_of s)) s).
  assert (Hq : exists s2, (match sy_runqueue s1 with x :: y :: q => put (set_sy_runqueue (y :: q ++ [x]) s1) | _ => mret tt end) s1 = Ret (tt, s2) /\
            s2 = set_sy_runqueue (next :: q') s1).
  { change (sy_runqueue s1) with (sy_runqueue s). destruct (sy_runqueue s) as [|x [|y q]] eqn:E; [done|..]; simpl in Hrot; simplify_eq.
    - exists s1. split; [done|]. unfold s1. destruct s. simpl in *. by subst.
    - eexists. split; [reflexivity|done]. }
  destruct Hq as (s2 & Hrun & ->). mrun Hrun. msimpl. cbn [sy_current set_sy_runqueue].
  change (sy_current s1) with (sy_current s).
  unfold set_state. erewrite bind_run; [|apply (wr_task_run _ _ kc); exact Hc]. cbn beta iota.
  erewrite bind_run; [|apply (wr_task_run _ _ (with_run SLEEPING (t_error_code kc) (t_time_slice kc) kc)); apply lookup_insert_eq].
  cbn beta iota. cbn [head sy_runqueue set_sy_tasks set_sy_runqueue].
  set (ts := <[sy_current s := _]> _).
  assert (Hts : exists kn', ts !! next = Some kn' /\ t_in_kernel kn' = true).
  { unfold ts. simpl. rewrite insert_insert_eq. destruct (decide (sy_current s = next)) as [<-|Hd].
    - rewrite lookup_insert_eq. eauto.
    - rewrite lookup_insert_ne by done. eauto. }
  destruct Hts as (kn' & Hkn' & Hik). erewrite bind_run; [|apply (wr_task_run _ _ kn'); exact Hkn']. cbn beta iota.
  set (s3 := set_sy_tasks (<[next := with_run RUNNING (t_error_code kn') (t_time_slice kn') kn']> ts) (set_sy_runqueue (next :: q') s1)).
  assert (Hsw : switch_to next s3 = Ret (tt, set_sy_current next s3)) by done. 
  erewrite bind_run; [|exact Hsw]. cbn beta iota.
  erewrite bind_run; [|apply rd_task_run; apply lookup_insert_eq]. cbn beta iota.
  cbn [t_in_kernel with_run]. rewrite Hik.
  rewrite (sys_unlock _ (cpu_of s)); [|exact Hcpu|done].
  eexists. split; [reflexivity|]. split_and!; try done.
  simpl. unfold switched, ts. simpl. rewrite insert_insert_eq. apply map_eq. intros i.
  rewrite lookup_insert, !lookup_alter. unfold ts in Hkn'. simpl in Hkn'. rewrite insert_insert_eq in Hkn'.
  destruct (decide (next = i)) as [<-|Hi].
  - destruct (decide (sy_current s = next)) as [<-|Hd].
    + rewrite lookup_insert_eq in Hkn'. injection Hkn' as <-. by rewrite Hc.
    + rewrite lookup_insert_ne in Hkn' by done. rewrite Hkn'. done.
  - rewrite lookup_insert. destruct (decide (sy_current s = i)) as [<-|]; [by rewrite Hc|done].
Qed.

Lemma rot1_cons x l : rot1 (x :: l) = l ++ [x].
Proof. by destruct l. Qed.

Fixpoint run_schedules (n : nat) : SysM unit :=
  match n with O => mret tt | S n => run_schedules n;; schedule end.

(** The current task is the first of the queue, and RUNNING. *)
Definition current_runs (s : Sys) : Prop := exists k,
  head (sy_runqueue s) = Some (sy_current s) /\ sy_tasks s !! sy_current s = Some k /\ t_state k = RUNNING.

Lemma schedule_ok s : sched_ok s ->
  exists s', schedule s = Ret (tt, s') /\ sched_ok s' /\ sy_runqueue s' = rot1 (sy_runqueue s) /\
    cpu_of s' = cpu_of s /\ current_runs s'.
Proof.
  intros [Hcpu Hq Ht Hc]. destruct (sy_runqueue s) as [|x l] eqn:E; [done|].
  destruct (rot1 (x :: l)) as [|next q'] eqn:Hr; [rewrite rot1_cons in Hr; by destruct l|].
  assert (Hperm : forall t, t ∈ next :: q' <-> t ∈ x :: l).
  { intros t. rewrite <- Hr, rot1_cons. rewrite elem_of_app, !elem_of_cons, elem_of_nil. tauto. }
  assert (Hnext : exists k, sy_tasks s !! next = Some k /\ t_in_kernel k = true) by (apply Ht, Hperm; left).
  destruct (schedule_run s q' next Hcpu) as (s' & Hrun & Hq' & Hcur & Hcpu' & Hts & _); [by rewrite E|by rewrite E|done|done|].
  exists s'. split_and!; [done| |by rewrite Hq'|done|].
  2:{ unfold current_runs. rewrite Hq', Hcur, Hts. unfold switched. rewrite lookup_alter_eq.
      destruct Hnext as (k & Hk & _). rewrite lookup_alter. case_decide as E'; [rewrite ?E'|]; rewrite Hk; simpl; eauto. }
  split.
  - by rewrite Hcpu'.
  - by rewrite Hq'.
  - intros t. rewrite Hq', Hperm. intros Hin. destruct (Ht t Hin) as (k & Hk & Hi).
    destruct (switched_lookup (sy_current s) next _ _ _ Hk) as (k' & Hk' & _ & _ & _ & _ & _ & _ & Hi'). rewrite Hts. eauto.
  - rewrite Hcur, Hts. destruct Hnext as (k & Hk & _). destruct (switched_lookup (sy_current s) next _ _ _ Hk) as (k' & Hk' & _). eauto.
Qed.

Lemma run_schedules_spec n s : sched_ok s -> (n <= length (sy_runqueue s))%nat ->
  exists s', run_schedules n s = Ret (tt, s') /\ sched_ok s' /\
    sy_runqueue s' = drop n (sy_runqueue s) ++ take n (sy_runqueue s) /\
    cpu_of s' = cpu_of s /\ (n <> 0%nat -> current_runs s').
Proof.
  intros Hok. induction n as [|n IH]; intros Hn; [exists s; by rewrite drop_0, take_0, app_nil_r|].
  destruct (IH ltac:(lia)) as (s1 & Hr1 & Hok1 & Hq1 & Hc1 & _). destruct (schedule_ok s1 Hok1) as (s2 & Hr2 & Hok2 & Hq2 & Hc2 & Hh).
  exists s2. split_and!; [cbn [run_schedules]; by mrun Hr1|done| |by rewrite Hc2|done]. rewrite Hq2, Hq1.
  destruct (lookup_lt_is_Some_2 (sy_runqueue s) n ltac:(lia)) as [x Hx].
  rewrite (drop_S _ x) by done. cbn [app]. rewrite rot1_cons, (take_S_r _ _ x) by done. by rewrite <- app_assoc.
Qed.

(** ** File descriptors *)

Lemma free_fd_spec fds i :
  match free_fd fds i with
  | Some j => exists n, j = i + Z.of_nat n /\ fds !! n = Some 0 /\ forall m, (m < n)%nat -> exists f, fds !! m = Some f /\ f <> 0
  | None => forall m f, fds !! m = Some f -> f <> 0
  end.
Proof.
  revert i. induction fds as [|f fds IH]; intros i; cbn [free_fd]; [done|].
  destruct (Z.eqb_spec f 0) as [->|Hf].
  - exists 0%nat. split_and!; [lia|done|]. lia.
  - specialize (IH (i + 1)). destruct (free_fd fds (i + 1)) as [j|].
    + destruct IH as (n & -> & Hn & Hm). exists (S n). split_and!; [lia|done|]. intros [|m] Hlt; [by exists f|]. apply Hm. lia.
    + intros [|m] g; simpl; [by intros [= <-]|]. apply IH.
Qed.

Lemma is_fd_valid_nat fd : is_fd_valid fd = true -> exists i, (i < 16)%nat /\ fd = Z.of_nat i.
Proof.
  unfold is_fd_valid, NR_TASK_FD_LIMITS. intros [?%Z.leb_le ?%Z.ltb_lt]%andb_true_iff. exists (Z.to_nat fd). lia.
Qed.
Lemma is_fd_valid_of_nat i : (i < 16)%nat -> is_fd_valid (Z.of_nat i) = true.
Proof. intros. unfold is_fd_valid, NR_TASK_FD_LIMITS. apply andb_true_iff. split; [apply Z.leb_le|apply Z.ltb_lt]; lia. Qed.

Lemma get_file_run s t k i f : sy_tasks s !! t = Some k -> (i < 16)%nat -> t_fds k !! i = Some f ->
  get_file_by_fd t (Z.of_nat i) s = Ret (f, s).
Proof.
  intros Hk Hi Hf. unfold get_file_by_fd. rewrite is_fd_valid_of_nat by done. mrun (rd_task_run _ _ _ Hk).
  by rewrite arr_get_nat, Hf.
Qed.

Lemma release_fd_run s t k fd f : sy_tasks s !! t = Some k -> (fd < 16)%nat -> t_fds k !! fd = Some f ->
  length (t_fds k) = 16%nat ->
  release_fd_and_get_file t (Z.of_nat fd) s = Ret (f, set_sy_tasks (<[t := with_fds (<[fd := 0]> (t_fds k)) k]> (sy_tasks s)) s).
Proof.
  intros Hk Hfd Hf Hlen. unfold release_fd_and_get_file. rewrite is_fd_valid_of_nat by done.
  mrun (rd_task_run _ _ _ Hk). rewrite arr_get_nat, Hf. msimpl. rewrite arr_set_is_Some by (rewrite Hlen; lia). msimpl.
  rewrite Nat2Z.id. by mrun (wr_task_run s t k (with_fds (<[fd := 0]> (t_fds k))) Hk).
Qed.

(** ** Exit *)

Definition closed_by (n : nat) (i : nat) (fds : list Z) : list Z := filter (fun f => f <> 0) (take n (drop i fds)).
Definition clear_fds (n i : nat) (fds : list Z) : list Z := take i fds ++ replicate n 0 ++ drop (i + n) fds.

Lemma clear_fds_step n i fds f : fds !! i = Some f -> (i + S n <= length fds)%nat ->
  clear_fds n (S i) (<[i := 0]> fds) = clear_fds (S n) i fds.
Proof.
  intros Hf Hl. unfold clear_fds. rewrite (take_S_r _ _ 0) by (apply list_lookup_insert_eq; lia).
  rewrite take_insert_ge, drop_insert_lt by lia. cbn [replicate]. rewrite <- app_assoc. simpl.
  replace (i + S n)%nat with (S (i + n)) by lia. done.
Qed.

Lemma clear_fds_skip n i fds : fds !! i = Some 0 -> clear_fds n (S i) fds = clear_fds (S n) i fds.
Proof.
  intros Hf. unfold clear_fds. rewrite (take_S_r _ _ 0) by done. cbn [replicate]. rewrite <- app_assoc. simpl.
  by replace (i + S n)%nat with (S (i + n)) by lia.
Qed.

Lemma clear_fds_lookup n i fds j : length fds = (i + n)%nat -> (j < i + n)%nat ->
  clear_fds n i fds !! j = if decide (j < i)%nat then fds !! j else Some 0.
Proof.
  intros Hl Hj. unfold clear_fds. case_decide.
  - rewrite lookup_app_l by (rewrite length_take; lia). by rewrite lookup_take_lt.
  - rewrite lookup_app_r by (rewrite length_take; lia). rewrite length_take, drop_ge, app_nil_r by lia.
    apply lookup_replicate_2. lia.
Qed.

Lemma sys_close_run s t k fd f : sy_current s = t -> sy_tasks s !! t = Some k -> (fd < 16)%nat -> t_fds k !! fd = Some f ->
  length (t_fds k) = 16%nat -> f <> 0 ->
  sys_close (Z.of_nat fd) s =
    Ret (0, set_sy_closed (sy_closed s ++ [f]) (set_sy_tasks (<[t := with_fds (<[fd := 0]> (t_fds k)) k]> (sy_tasks s)) s)).
Proof.
  intros Hcur Hk Hfd Hf Hlen Hf0. unfold sys_close. msimpl. rewrite Hcur.
  mrun (release_fd_run s t k fd f Hk Hfd Hf Hlen). by rewrite (proj2 (Z.eqb_neq f 0)).
Qed.

Lemma close_fds_spec n i s t k : sy_current s = t -> sy_tasks s !! t = Some k -> length (t_fds k) = 16%nat -> (i + n <= 16)%nat ->
  close_fds n t (Z.of_nat i) s =
    Ret (tt, set_sy_closed (sy_closed s ++ closed_by n i (t_fds k))
               (set_sy_tasks (<[t := with_fds (clear_fds n i (t_fds k)) k]> (sy_tasks s)) s)).
Proof.
  revert i s k. induction n as [|n IH]; intros i s k Hcur Hk Hlen Hn; cbn [close_fds].
  { unfold closed_by, clear_fds. simpl. rewrite app_nil_r, Nat.add_0_r, take_drop.
    replace (with_fds (t_fds k) k) with k by (by destruct k). rewrite insert_id by done. by destruct s. }
  mrun (rd_task_run _ _ _ Hk). destruct (lookup_lt_is_Some_2 (t_fds k) i ltac:(lia)) as [f Hf].
  rewrite arr_get_nat, Hf. msimpl. replace (Z.of_nat i + 1) with (Z.of_nat (S i)) by lia.
  assert (Hcb : closed_by (S n) i (t_fds k) = (if decide (f <> 0) then [f] else []) ++ closed_by n (S i) (t_fds k)).
  { unfold closed_by. rewrite (drop_S _ f) by done. cbn [take]. rewrite list.filter_cons. by case_decide. }
  destruct (Z.eqb_spec f 0) as [->|Hf0]; cbn [negb].
  - msimpl. rewrite (IH (S i) s k) by (done || lia). rewrite Hcb, decide_False by auto. by rewrite clear_fds_skip.
  - set (s1 := set_sy_closed (sy_closed s ++ [f]) (set_sy_tasks (<[t := with_fds (<[i := 0]> (t_fds k)) k]> (sy_tasks s)) s)).
    assert (Hc : (sys_close (Z.of_nat i);; mret tt) s = Ret (tt, s1)).
    { mrun (sys_close_run s t k i f Hcur Hk ltac:(lia) Hf Hlen Hf0). done. }
    mrun Hc. rewrite (IH (S i) s1 (with_fds (<[i := 0]> (t_fds k)) k)); [|done|apply lookup_insert_eq|simpl; by rewrite length_insert|lia].
    rewrite Hcb, decide_True by done. simpl. unfold set_sy_closed, set_sy_tasks. simpl.
    rewrite insert_insert_eq, <- app_assoc. simpl. unfold closed_by. rewrite drop_insert_lt by lia.
    rewrite (clear_fds_step n i _ f) by (done || lia). done.
Qed.

Lemma remove_task_run s t : cpu_ok (cpu_of s) -> t ∈ sy_runqueue s ->
  remove_task t s = Ret (t, set_sy_runqueue (remove_first t (sy_runqueue s)) s).
Proof.
  intros Hok Hin. unfold remove_task. destruct s as [[[c m] mem] ts ni np i kt cur nd q cl nf]. simpl in *.
  refine (guarded_spec _ (mkSys (mkVM (mkKernel c m) mem) ts ni np i kt cur nd q cl nf)
    (mkSys (mkVM (mkKernel c m) mem) ts ni np i kt cur nd (remove_first t q) cl nf) t Hok _).
  msimpl. cbn [sy_runqueue with_cpu sys_has_cpu set_sy_vm]. destruct (decide (t ∈ q)); done.
Qed.

Lemma remove_first_notin x q : NoDup q -> (x ∉ remove_first x q).
Proof.
  induction q as [|y q IH]; intros Hn; cbn [remove_first]; [apply not_elem_of_nil|].
  apply list.NoDup_cons in Hn as [Hy Hq]. destruct (Z.eqb_spec y x) as [->|Hne]; [done|].
  rewrite elem_of_cons. intros [->|H]; [done|]. by apply IH.
Qed.

Lemma remove_first_elem x y q : y ∈ remove_first x q -> y ∈ q.
Proof.
  induction q as [|z q IH]; cbn [remove_first]; [done|]. case_match; rewrite ?elem_of_cons; [by right|].
  intros [->|Hin]; [by left|right; auto].
Qed.

Lemma rot1_elem x q : x ∈ rot1 q <-> x ∈ q.
Proof. destruct q as [|a q]; [done|]. rewrite rot1_cons, elem_of_app, !elem_of_cons, elem_of_nil. tauto. Qed.

(** What [exit] has done to the exiting task and its parent. *)
Definition exited (error_code : Z) (k : Task) : Task :=
  with_fds (clear_fds 13 3 (t_fds k)) (with_run TERMINATED error_code (t_time_slice k) k).
Definition bereaved (t : Z) (p : Task) : Task :=
  with_family (t_parent p) (remove_first t (t_active p)) (t_terminated p ++ [t]) p.

(** [exit] up to its call of [schedule]. *)
Lemma exit_before_schedule s t k p error_code :
  sy_current s = t -> sy_tasks s !! t = Some k -> length (t_fds k) = 16%nat -> t_parent k <> 0 -> t_parent k <> t ->
  sy_tasks s !! t_parent k = Some p -> t ∈ sy_runqueue s -> cpu_ok (cpu_of s) -> cpu_ok (entered (cpu_of s)) ->
  exists s1, exit t error_code s = schedule s1 /\ sy_runqueue s1 = remove_first t (sy_runqueue s) /\ sy_current s1 = t /\
    cpu_of s1 = entered (cpu_of s) /\
    sy_tasks s1 = <[t_parent k := bereaved t p]> (<[t := exited error_code k]> (sy_tasks s)) /\
    sy_closed s1 = sy_closed s ++ closed_by 13 3 (t_fds k) /\ sy_init s1 = sy_init s.
Proof.
  intros Hcur Hk Hlen Hp0 Hpt Hp Hin Hcpu Hcpu1. unfold exit. mrun (rd_task_run _ _ _ Hk).
  rewrite (proj2 (Z.eqb_neq (t_parent k) 0) Hp0). mrun (wr_task_run s t k (fun k => with_run TERMINATED error_code (t_time_slice k) k) Hk).
  set (k1 := with_run TERMINATED error_code (t_time_slice k) k).
  set (s0 := set_sy_tasks (<[t := k1]> (sy_tasks s)) s).
  mrun (sys_lock s0 Hcpu). change (cpu_of s0) with (cpu_of s).
  set (s2 := with_cpu (entered (cpu_of s)) s0).
  mrun (close_fds_spec 13 3 s2 t k1 Hcur (lookup_insert_eq _ _ _) Hlen ltac:(lia)).
  set (s3 := set_sy_closed _ _).
  assert (Hts3 : sy_tasks s3 = <[t := exited error_code k]> (sy_tasks s)).
  { unfold s3, s2, s0. simpl. by rewrite insert_insert_eq. }
  assert (Hp3 : sy_tasks s3 !! t_parent k = Some p) by (rewrite Hts3; by rewrite lookup_insert_ne).
  mrun (wr_task_run s3 (t_parent k) p (fun p => with_family (t_parent p) (remove_first t (t_active p)) (t_terminated p) p) Hp3).
  set (s4 := set_sy_tasks _ s3).
  mrun (remove_task_run s4 t Hcpu1 Hin). set (s5 := set_sy_runqueue _ s4).
  erewrite bind_run; [|apply (wr_task_run s5 (t_parent k)); apply lookup_insert_eq]. cbn beta iota.
  eexists. split; [reflexivity|]. split_and!; try done.
  unfold s5, s4. cbn [sy_tasks set_sy_tasks set_sy_runqueue]. rewrite Hts3, insert_insert_eq. done.
Qed.

(** ** Claims *)

(** C16. Round robin: in a kernel whose queued tasks have all run before, [n]
    calls of [schedule] rotate the queue by [n] places and leave the mutex as
    it was, every task of the queue becomes the current one, in state RUNNING,
    within as many calls as there are tasks, and after that many calls the
    queue is in its first order again. *)
Theorem round_robin s : sched_ok s ->
  (forall n, (n <= length (sy_runqueue s))%nat ->
     exists s', run_schedules n s = Ret (tt, s') /\ sched_ok s' /\ cpu_of s' = cpu_of s /\
       sy_runqueue s' = drop n (sy_runqueue s) ++ take n (sy_runqueue s)) /\
  (forall x, x ∈ sy_runqueue s -> exists m s' k, (1 <= m <= length (sy_runqueue s))%nat /\
     run_schedules m s = Ret (tt, s') /\ sy_current s' = x /\ sy_tasks s' !! x = Some k /\ t_state k = RUNNING) /\
  (exists s', run_schedules (length (sy_runqueue s)) s = Ret (tt, s') /\ sy_runqueue s' = sy_runqueue s).
Proof.
  intros Hok. split_and!.
  - intros n Hn. destruct (run_schedules_spec n s Hok Hn) as (s' & ? & ? & ? & ? & ?). eauto 10.
  - intros x [i Hi]%list_elem_of_lookup. pose proof (lookup_lt_Some _ _ _ Hi) as Hlt.
    assert (Hm : exists m, (1 <= m <= length (sy_runqueue s))%nat /\
              head (drop m (sy_runqueue s) ++ take m (sy_runqueue s)) = Some x).
    { destruct i as [|i].
      - exists (length (sy_runqueue s)). split; [lia|]. rewrite drop_all, take_ge by lia. by destruct (sy_runqueue s).
      - exists (S i). split; [lia|]. by rewrite (drop_S _ x). }
    destruct Hm as (m & Hm & Hh). destruct (run_schedules_spec m s Hok ltac:(lia)) as (s' & Hr & _ & Hq & _ & Hc).
    rewrite <- Hq in Hh. destruct (Hc ltac:(lia)) as (k & Hc' & Hk & Hrun). rewrite Hc' in Hh. injection Hh as <-.
    exists m, s', k. done.
  - destruct (run_schedules_spec _ s Hok (Nat.le_refl _)) as (s' & Hr & _ & Hq & _). exists s'. split; [done|].
    by rewrite Hq, drop_all, take_ge.
Qed.

(** C17. A task with a parent that exits leaves the runqueue and is handed
    over: it becomes the last of its parent's terminated children, with its
    error code, and is no active child any more; its descriptors from 3 on are
    released and their files closed in order; the task after the next of the
    queue runs.  The task's state is SLEEPING, not TERMINATED, and the mutex is
    held once more than before. *)
Theorem exit_hands_over s t k p next q' kn error_code :
  sy_current s = t -> sy_tasks s !! t = Some k -> length (t_fds k) = 16%nat -> t_parent k <> 0 -> t_parent k <> t ->
  sy_tasks s !! t_parent k = Some p -> t ∈ sy_runqueue s -> NoDup (sy_runqueue s) ->
  cpu_ok (cpu_of s) -> cpu_ok (entered (cpu_of s)) ->
  rot1 (remove_first t (sy_runqueue s)) = next :: q' -> sy_tasks s !! next = Some kn -> t_in_kernel kn = true ->
  exists s' k' p', exit t error_code s = Ret (tt, s') /\ sy_current s' = next /\
    sy_runqueue s' = next :: q' /\ (t ∉ sy_runqueue s') /\
    sy_tasks s' !! t_parent k = Some p' /\ t_terminated p' = t_terminated p ++ [t] /\ t_active p' = remove_first t (t_active p) /\
    sy_tasks s' !! t = Some k' /\ t_error_code k' = error_code /\ t_state k' = SLEEPING /\
    (forall i, (i < 16)%nat -> t_fds k' !! i = if decide (i < 3)%nat then t_fds k !! i else Some 0) /\
    sy_closed s' = sy_closed s ++ filter (fun f => f <> 0) (drop 3 (t_fds k)) /\
    cpu_of s' = entered (cpu_of s).
Proof.
  intros Hcur Hk Hlen Hp0 Hpt Hp Hin Hnd Hcpu Hcpu1 Hrot Hn Hik.
  destruct (exit_before_schedule s t k p error_code Hcur Hk Hlen Hp0 Hpt Hp Hin Hcpu Hcpu1)
    as (s1 & -> & Hq1 & Hcur1 & Hc1 & Hts1 & Hcl1 & _).
  assert (Hnq : t ∉ next :: q') by (rewrite <- Hrot, rot1_elem; by apply remove_first_notin).
  assert (Hnt : next <> t) by (intros ->; apply Hnq; left).
  assert (Ht1 : sy_tasks s1 !! t = Some (exited error_code k)) by (rewrite Hts1, lookup_insert_ne by done; apply lookup_insert_eq).
  assert (Hp1 : sy_tasks s1 !! t_parent k = Some (bereaved t p)) by (rewrite Hts1; apply lookup_insert_eq).
  assert (Hn1 : exists k, sy_tasks s1 !! next = Some k /\ t_in_kernel k = true).
  { destruct (decide (next = t_parent k)) as [->|Hd]; [rewrite Hp1; simplify_eq; eauto|].
    exists kn. by rewrite Hts1, !lookup_insert_ne by done. }
  destruct (schedule_run s1 q' next) as (s' & Hr & Hq & Hc & Hcpu' & Hts & Hcl & _);
    [by rewrite Hc1|intros E; rewrite <- Hq1, E in Hrot; done|by rewrite Hq1|rewrite Hcur1; eauto|done|].
  destruct (switched_lookup (sy_current s1) next _ _ _ Hp1) as (p' & Hp' & _ & _ & Ha & Ht & _).
  exists s', (suspend (exited error_code k)), p'. rewrite Hq, Hcl, Hcl1, Hcpu', Hc1, Hts. unfold closed_by.
  rewrite (take_ge (drop 3 (t_fds k))) by (rewrite length_drop; lia). split_and!; try done.
  - unfold switched. rewrite Hcur1, lookup_alter_ne, lookup_alter_eq, Ht1 by done. done.
  - intros i Hi. change (t_fds (suspend (exited error_code k))) with (clear_fds 13 3 (t_fds k)). by apply clear_fds_lookup.
Qed.

(** C18. The descriptor table: a file gets the lowest free descriptor, which
    then gives that file and no other descriptor's file changes; releasing it
    gives the file back and restores the table; -1 is returned exactly when no
    descriptor is free, and an invalid descriptor gives no file. *)
Theorem fd_table_roundtrip s t k file : sy_tasks s !! t = Some k -> length (t_fds k) = 16%nat -> file <> 0 ->
  ((forall i f, t_fds k !! i = Some f -> f <> 0) /\ allocate_fd_for_file t file s = Ret (-1, s)) \/
  (exists n s1, (n < 16)%nat /\ t_fds k !! n = Some 0 /\ (forall m f, (m < n)%nat -> t_fds k !! m = Some f -> f <> 0) /\
     allocate_fd_for_file t file s = Ret (Z.of_nat n, s1) /\
     get_file_by_fd t (Z.of_nat n) s1 = Ret (file, s1) /\
     (forall fd, fd <> Z.of_nat n -> exists f, get_file_by_fd t fd s = Ret (f, s) /\ get_file_by_fd t fd s1 = Ret (f, s1) /\
        (is_fd_valid fd = false -> f = 0)) /\
     release_fd_and_get_file t (Z.of_nat n) s1 = Ret (file, s)).
Proof.
  intros Hk Hlen Hf. unfold allocate_fd_for_file. rewrite (proj2 (Z.eqb_neq file 0) Hf).
  rewrite (bind_run _ _ _ _ _ (rd_task_run _ _ _ Hk)). cbn beta iota. pose proof (free_fd_spec (t_fds k) 0) as Hs.
  destruct (free_fd (t_fds k) 0) as [j|]; [right|left; by split; [exact Hs|]].
  destruct Hs as (n & -> & Hn & Hlow). rewrite Z.add_0_l. pose proof (lookup_lt_Some _ _ _ Hn) as Hlt. rewrite Hlen in Hlt.
  rewrite arr_set_is_Some by lia. msimpl. rewrite Nat2Z.id. mrun (wr_task_run s t k (with_fds (<[n := file]> (t_fds k))) Hk).
  set (k1 := with_fds _ k). set (s1 := set_sy_tasks _ s).
  assert (Hk1 : sy_tasks s1 !! t = Some k1) by apply lookup_insert_eq.
  assert (Hlen1 : length (t_fds k1) = 16%nat) by (simpl; by rewrite length_insert).
  exists n, s1. split_and!; [done|done| |done| | |].
  - intros m f Hm Hmf. destruct (Hlow m Hm) as (f' & Hf' & ?). by simplify_eq.
  - rewrite (get_file_run _ _ _ _ file Hk1) by (done || simpl; apply list_lookup_insert_eq; lia). done.
  - intros fd Hfd. unfold get_file_by_fd. destruct (is_fd_valid fd) eqn:Hv; [|by exists 0].
    apply is_fd_valid_nat in Hv as (i & Hi & ->). destruct (lookup_lt_is_Some_2 (t_fds k) i ltac:(lia)) as [f Hfi].
    exists f. mrun (rd_task_run _ _ _ Hk). mrun (rd_task_run _ _ _ Hk1). rewrite !arr_get_nat. simpl.
    rewrite list_lookup_insert_ne, Hfi by lia. done.
  - rewrite (release_fd_run s1 t k1 n file) by (done || simpl; apply list_lookup_insert_eq; lia).
    simpl. rewrite insert_insert_eq, list_insert_insert_eq, (list_insert_id (t_fds k)) by done.
    replace (with_fds (t_fds k) _) with k by (by destruct k). rewrite insert_id by done. by destruct s.
Qed.

(** ** Witnesses *)

(** A kernel with the tasks 1 (the parent), 2 and 3, all run before. *)
Definition demo_task (pid parent : Z) (active fds : list Z) : Task :=
  mkTask (mkContext [] 0 0) true parent active [] RUNNING 0 pid TASK_TIME_SLICE 0 0 (mkPage 0 0) (mkPage 0 0) 0 [] []
    (replicate 12 0) fds 0 true.
Definition demo_fds : list Z := [7; 7; 7; 8; 0; 9] ++ replicate 10 0.
Definition demo_sys : Sys :=
  mkSys (mkVM fresh_kernel (fun _ => 0))
    (<[1 := demo_task 1 0 [2; 3] demo_fds]> (<[2 := demo_task 2 1 [] demo_fds]> {[3 := demo_task 3 1 [] demo_fds]}))
    4 4 1 2 2 false [2; 3; 1] [] 10.

Lemma demo_sched_ok : sched_ok demo_sys.
Proof.
  split; [apply held_ok; unfold INT_MAX; lia|done| |by eexists].
  intros t. simpl. rewrite !elem_of_cons, elem_of_nil. intros [->|[->|[->|[]]]]; by eexists.
Qed.

Lemma round_robin_witness : exists s', run_schedules 3 demo_sys = Ret (tt, s') /\ sy_runqueue s' = [2; 3; 1].
Proof. exact (proj2 (proj2 (round_robin demo_sys demo_sched_ok))). Defined.

Lemma exit_hands_over_witness : exists s' p', exit 2 42 demo_sys = Ret (tt, s') /\ sy_runqueue s' = [1; 3] /\
  sy_tasks s' !! 1 = Some p' /\ t_terminated p' = [2] /\ t_active p' = [3] /\ sy_closed s' = [8; 9].
Proof.
  destruct (exit_hands_over demo_sys 2 (demo_task 2 1 [] demo_fds) (demo_task 1 0 [2; 3] demo_fds) 1 [3]
    (demo_task 1 0 [2; 3] demo_fds) 42) as (s' & k' & p' & Hr & _ & Hq & _ & Hp & Ht & Ha & _ & _ & _ & _ & Hc & _);
    try reflexivity; try (simpl; lia).
  - left.
  - by apply (bool_decide_unpack _).
  - apply held_ok. unfold INT_MAX. lia.
  - apply (held_ok 1). unfold INT_MAX. lia.
  - exists s', p'. split_and!; done.
Defined.

Lemma fd_table_roundtrip_witness : exists s1, allocate_fd_for_file 2 11 demo_sys = Ret (4, s1) /\
  release_fd_and_get_file 2 4 s1 = Ret (11, demo_sys).
Proof.
  destruct (fd_table_roundtrip demo_sys 2 (demo_task 2 1 [] demo_fds) 11) as [[H _]|(n & s1 & Hn & H0 & Hm & Hr & _ & _ & Hrel)];
    [reflexivity|reflexivity|lia| |].
  - exfalso. exact (H 4%nat 0 eq_refl eq_refl).
  - assert (n = 4)%nat as ->; [|by exists s1].
    destruct (Nat.lt_trichotomy n 4) as [Hlt|[Heq|Hgt]]; [|done|].
    + exfalso. do 4 (destruct n as [|n]; [discriminate H0|]). lia.
    + exfalso. exact (Hm 4%nat 0 Hgt eq_refl eq_refl).
Defined.
