(* ===== verification/TaskTree.v ===== *)
(** * The process tree

    What the breadth-first searches of [Task::get_active_tasks] and
    [Task::get_by_pid] find, on a family of tasks in which every task is the
    child of its parent; and that exiting, adopting orphans and reaping keep
    the family consistent. *)

From Stdlib Require Import ZArith Lia.
From stdpp Require Import base gmap list numbers fin_maps.
From S2P Require Import Prelude Math Mmu Mutex Buddy Slob Memory MemorySpec PageTable CString Proc ProcSpec.

Open Scope Z_scope.

Abbreviation tasks := (gmap Z Task).

(** ** The family *)

Definition child_of_task (ts : tasks) (p c : Z) : Prop := exists k, ts !! p = Some k /\ c ∈ t_active k.

(** The active descendants of a task, itself included. *)
Inductive descendant (ts : tasks) (root : Z) : Z -> Prop :=
| desc_root : descendant ts root root
| desc_child p c : descendant ts root p -> child_of_task ts p c -> descendant ts root c.

Definition parent (ts : tasks) (t : Z) : option Z := t_parent <$> ts !! t.
Definition listed (k : Task) : list Z := t_active k ++ t_terminated k.

(** A task lists exactly the tasks whose parent it is, and parents exist; but
    for the tasks [D] that are being destroyed, which nobody lists. *)
Record family_but (D : list Z) (ts : tasks) : Prop := {
  fam_nonnull : ts !! 0 = None;
  fam_lists p k : ts !! p = Some k -> NoDup (listed k) /\ forall c, c ∈ listed k <-> (c ∉ D) /\ parent ts c = Some p;
  fam_up c p : parent ts c = Some p -> c ∉ D -> p = 0 \/ is_Some (ts !! p);
  fam_detached c : c ∈ D -> exists p, parent ts c = Some p /\ p <> 0;
  fam_distinct : NoDup D
}.
Abbreviation family := (family_but []).

Lemma parent_inv ts c p : parent ts c = Some p -> exists k, ts !! c = Some k /\ t_parent k = p.
Proof. unfold parent. intros (k & Hp & Hk)%fmap_Some. eauto. Qed.

Lemma fam_child D ts p k c : family_but D ts -> ts !! p = Some k -> c ∈ t_active k -> exists kc, ts !! c = Some kc /\ t_parent kc = p.
Proof.
  intros Hf Hk Hc. destruct (fam_lists _ _ Hf p k Hk) as [_ Hl]. apply parent_inv, Hl, elem_of_app. by left.
Qed.
Lemma fam_active_nodup D ts p k : family_but D ts -> ts !! p = Some k -> NoDup (t_active k).
Proof. intros Hf Hk. by apply (fam_lists _ _ Hf), proj1, NoDup_app in Hk as [? _]. Qed.

(** A root is no task's child. *)
Definition is_root (ts : tasks) (r : Z) : Prop := exists k, ts !! r = Some k /\ t_parent k = 0.

Create HintDb family.
#[local] Hint Constructors descendant : family.

Section search.
Context (s : Sys) (Hfam : family (sy_tasks s)).
Local Abbreviation ts := (sy_tasks s).

Lemma child_parent p q c : child_of_task ts p c -> child_of_task ts q c -> p = q.
Proof.
  intros (k & Hk & Hc) (k' & Hk' & Hc').
  destruct (fam_child _ _ _ _ _ Hfam Hk Hc) as (kc & H1 & <-). destruct (fam_child _ _ _ _ _ Hfam Hk' Hc') as (? & H2 & <-). congruence.
Qed.
Lemma child_exists p c : child_of_task ts p c -> is_Some (ts !! c).
Proof. intros (k & Hk & Hc). destruct (fam_child _ _ _ _ _ Hfam Hk Hc) as (kc & ? & _). eauto. Qed.
Lemma root_no_child r p : is_root ts r -> ~ child_of_task ts p r.
Proof.
  intros (k & Hk & Hp) (kp & Hkp & Hc). destruct (fam_child _ _ _ _ _ Hfam Hkp Hc) as (k' & Hk' & Hp').
  assert (k' = k) as -> by congruence. rewrite Hp in Hp'. subst p. rewrite (fam_nonnull _ _ Hfam) in Hkp. done.
Qed.

(** The state of a search: [V] has been taken from the queue [q]. *)
Record searched (r : Z) (V q : list Z) : Prop := {
  se_nodup : NoDup (V ++ q);
  se_exists t : t ∈ V ++ q -> is_Some (ts !! t);
  se_from t : t ∈ V ++ q -> t = r \/ exists p, p ∈ V /\ child_of_task ts p t;
  se_closed p c : p ∈ V -> child_of_task ts p c -> c ∈ V ++ q;
  se_desc t : t ∈ V ++ q -> descendant ts r t;
  se_root : r ∈ V ++ q
}.

Lemma searched_init r : is_root ts r -> searched r [] [r].
Proof.
  intros (k & Hk & _). split; cbn [app].
  - apply NoDup_singleton.
  - intros t ->%list_elem_of_singleton. eauto.
  - intros t ->%list_elem_of_singleton. by left.
  - intros p c []%elem_of_nil.
  - intros t ->%list_elem_of_singleton. constructor.
  - apply list_elem_of_singleton. done.
Qed.

Lemma searched_step r V x q k : is_root ts r -> searched r V (x :: q) -> ts !! x = Some k ->
  searched r (V ++ [x]) (q ++ t_active k).
Proof.
  intros Hr [Hn He Hf Hc Hd Hroot] Hk.
  assert (Happ : (V ++ [x]) ++ q ++ t_active k = (V ++ x :: q) ++ t_active k) by (by rewrite <- !app_assoc).
  assert (Hch : forall c, c ∈ t_active k <-> child_of_task ts x c).
  { intros c. split; [intros ?; by exists k|]. intros (k' & Hk' & ?). congruence. }
  split; rewrite ?Happ.
  - apply NoDup_app. split_and!; [done| |by eapply fam_active_nodup].
    intros t Ht Hta%Hch. destruct (Hf t Ht) as [->|(p & Hp & Hpt)]; [by eapply root_no_child|].
    assert (p = x) as -> by (by eapply child_parent). apply NoDup_app in Hn as (_ & Hdis & _). apply (Hdis x Hp). left.
  - intros t [Ht|Ht%Hch]%elem_of_app; [by apply He|by eapply child_exists].
  - intros t [Ht|Ht%Hch]%elem_of_app.
    + destruct (Hf t Ht) as [->|(p & Hp & Hpt)]; [by left|right]. exists p. split; [|done]. apply elem_of_app. by left.
    + right. exists x. split; [|done]. apply elem_of_app. right. by apply list_elem_of_singleton.
  - intros p c [Hp| ->%list_elem_of_singleton]%elem_of_app Hpc; apply elem_of_app; [left; by eapply Hc|right; by apply Hch].
  - intros t [Ht|Ht%Hch]%elem_of_app; [by apply Hd|]. econstructor; [|done]. apply Hd, elem_of_app. right. left.
  - apply elem_of_app. by left.
Qed.

(** Fuel for the tasks not yet visited is enough. *)
Lemma searched_room r V x q : searched r V (x :: q) -> (length V < size ts)%nat.
Proof.
  intros [Hn He _ _ _ _]. assert (Hsub : list_to_set (V ++ x :: q) ⊆ dom ts).
  { intros t Ht%elem_of_list_to_set. apply elem_of_dom. by apply He. }
  apply subseteq_size in Hsub. rewrite size_list_to_set, size_dom, length_app in Hsub by done. simpl in Hsub. lia.
Qed.

Lemma searched_done r V : searched r V [] -> forall t, t ∈ V <-> descendant ts r t.
Proof.
  intros [Hn He Hf Hc Hd Hroot] t. rewrite app_nil_r in *. split; [by apply Hd|].
  induction 1 as [|p c _ IH Hpc]; [done|]. by eapply Hc.
Qed.

Lemma bfs_all_spec r fuel V q ret : is_root ts r -> searched r V q -> (size ts < fuel + length V)%nat ->
  exists W, bfs_all fuel q ret s = Ret (ret ++ W, s) /\ searched r (V ++ W) [].
Proof.
  intros Hr. revert V q ret. induction fuel as [|fuel IH]; intros V q ret Hse Hfu.
  { destruct q as [|x q]; [|apply searched_room in Hse; lia].
    exists []. cbn [bfs_all]. by rewrite !app_nil_r. }
  destruct q as [|x q]; [exists []; cbn [bfs_all]; by rewrite !app_nil_r|]. cbn [bfs_all].
  destruct (se_exists _ _ _ Hse x) as [k Hk]; [apply elem_of_app; right; left|].
  mrun (rd_task_run _ _ _ Hk). destruct (IH (V ++ [x]) (q ++ t_active k) (ret ++ [x])) as (W & HW & Hse').
  - by apply searched_step.
  - rewrite length_app. simpl. lia.
  - exists (x :: W). rewrite HW, <- !app_assoc. rewrite <- app_assoc in Hse'. done.
Qed.

Lemma find_child_spec pid l : (forall c, c ∈ l -> is_Some (ts !! c)) ->
  exists r, find_child pid l s = Ret (r, s) /\
    match r with
    | Some c => c ∈ l /\ exists k, ts !! c = Some k /\ t_pid k = pid
    | None => forall c k, c ∈ l -> ts !! c = Some k -> t_pid k <> pid
    end.
Proof.
  induction l as [|c l IH]; intros He; cbn [find_child].
  { exists None. split; [done|]. intros c k []%elem_of_nil. }
  destruct (He c) as [k Hk]; [left|]. mrun (rd_task_run _ _ _ Hk). destruct (Z.eqb_spec (t_pid k) pid) as [Hp|Hp].
  - exists (Some c). split_and!; [done|left|eauto].
  - destruct IH as (r & -> & Hr); [intros c' ?; apply He; by right|]. exists r. split; [done|]. destruct r as [c'|].
    + destruct Hr as [? ?]. split; [by right|done].
    + intros c' k' [->|?]%elem_of_cons ?; [congruence|by eapply Hr].
Qed.

Lemma bfs_pid_spec r pid fuel V q : is_root ts r -> searched r V q -> (size ts < fuel + length V)%nat ->
  (forall p c k, p ∈ V -> child_of_task ts p c -> ts !! c = Some k -> t_pid k <> pid) ->
  exists t, bfs_pid fuel pid q s = Ret (t, s) /\
    ((t <> 0 /\ exists p k, descendant ts r p /\ child_of_task ts p t /\ ts !! t = Some k /\ t_pid k = pid) \/
     (t = 0 /\ forall p c k, descendant ts r p -> child_of_task ts p c -> ts !! c = Some k -> t_pid k <> pid)).
Proof.
  intros Hr. revert V q. induction fuel as [|fuel IH]; intros V q Hse Hfu Hno.
  { destruct q as [|x q]; [|apply searched_room in Hse; lia].
    exists 0. split; [done|]. right. split; [done|]. intros p c k Hp%(searched_done _ _ Hse). by apply Hno. }
  destruct q as [|x q].
  { exists 0. split; [done|]. right. split; [done|]. intros p c k Hp%(searched_done _ _ Hse). by apply Hno. }
  cbn [bfs_pid]. destruct (se_exists _ _ _ Hse x) as [k Hk]; [apply elem_of_app; right; left|].
  mrun (rd_task_run _ _ _ Hk).
  destruct (find_child_spec pid (t_active k)) as (o & Ho & Hspec).
  { intros c Hc. apply (child_exists x). by exists k. }
  mrun Ho. destruct o as [c|].
  - destruct Hspec as (Hc & kc & Hkc & Hpid). exists c. split; [done|]. left. split.
    + intros ->. rewrite (fam_nonnull _ _ Hfam) in Hkc. done.
    + exists x, kc. split_and!; [|by exists k|done..]. apply (se_desc _ _ _ Hse), elem_of_app. right. left.
  - apply (IH (V ++ [x])); [by apply searched_step|rewrite length_app; simpl; lia|].
    intros p c kc [Hp| ->%list_elem_of_singleton]%elem_of_app Hpc; [by eapply Hno|].
    destruct Hpc as (k' & Hk' & Hin). assert (k' = k) as -> by congruence. by apply Hspec.
Qed.
End search.

(** ** Searches *)

Lemma get_active_tasks_run s : family (sy_tasks s) -> is_root (sy_tasks s) (sy_init s) ->
  exists W, get_active_tasks s = Ret (sy_init s :: sy_kthreadd s :: W, s) /\ NoDup W /\
    forall t, t ∈ W <-> descendant (sy_tasks s) (sy_init s) t.
Proof.
  intros Hf Hr. unfold get_active_tasks. msimpl.
  destruct (bfs_all_spec s Hf (sy_init s) (S (size (sy_tasks s))) [] [sy_init s] [sy_init s; sy_kthreadd s])
    as (W & -> & Hse); [done|by apply searched_init|simpl; lia|]. cbn [app] in *.
  exists W. split_and!; [done| |by apply searched_done]. apply se_nodup in Hse. by rewrite app_nil_r in Hse.
Qed.

Lemma get_by_pid_run s pid : family (sy_tasks s) -> is_root (sy_tasks s) (sy_init s) -> pid <> 1 -> pid <> 2 ->
  exists t, get_by_pid pid s = Ret (t, s) /\
    ((t <> 0 /\ exists p k, descendant (sy_tasks s) (sy_init s) p /\ child_of_task (sy_tasks s) p t /\
        sy_tasks s !! t = Some k /\ t_pid k = pid) \/
     (t = 0 /\ forall p c k, descendant (sy_tasks s) (sy_init s) p -> child_of_task (sy_tasks s) p c ->
        sy_tasks s !! c = Some k -> t_pid k <> pid)).
Proof.
  intros Hf Hr H1 H2. unfold get_by_pid. msimpl. rewrite (proj2 (Z.eqb_neq pid 1)), (proj2 (Z.eqb_neq pid 2)) by done.
  apply (bfs_pid_spec s Hf (sy_init s) pid _ []); [done|by apply searched_init|simpl; lia|]. intros p c k []%elem_of_nil.
Qed.

Definition distinct_pids (ts : tasks) : Prop :=
  forall a b ka kb, ts !! a = Some ka -> ts !! b = Some kb -> t_pid ka = t_pid kb -> a = b.

Lemma get_by_pid_found s p c kc : family (sy_tasks s) -> is_root (sy_tasks s) (sy_init s) -> distinct_pids (sy_tasks s) ->
  descendant (sy_tasks s) (sy_init s) p -> child_of_task (sy_tasks s) p c -> sy_tasks s !! c = Some kc ->
  t_pid kc <> 1 -> t_pid kc <> 2 -> get_by_pid (t_pid kc) s = Ret (c, s).
Proof.
  intros Hf Hr Hd Hp Hc Hk H1 H2. destruct (get_by_pid_run s (t_pid kc)) as (t & -> & [(_ & q & k & _ & _ & Hk' & He)|[_ Hno]]); [done..| |].
  - by rewrite (Hd t c k kc).
  - by destruct (Hno p c kc).
Qed.

(** ** Operations that leave the tree alone *)

Definition fview (k : Task) : Z * list Z * list Z * Z := (t_parent k, t_active k, t_terminated k, t_pid k).
Record same_tree (s s' : Sys) : Prop := {
  st_tasks : fview <$> sy_tasks s' = fview <$> sy_tasks s;
  st_init : sy_init s' = sy_init s;
  st_kthreadd : sy_kthreadd s' = sy_kthreadd s;
  st_id : sy_next_id s' = sy_next_id s;
  st_pid : sy_next_pid s' = sy_next_pid s;
  st_queue : sy_runqueue s' ≡ₚ sy_runqueue s
}.
#[export] Instance same_tree_preorder : PreOrder same_tree.
Proof. split; [done|]. intros a b c [] []. split; try congruence. by etransitivity. Qed.

Definition quiet {A} (m : SysM A) (s : Sys) : Prop := forall a s', m s = Ret (a, s') -> same_tree s s'.

Lemma quiet_bind {A B} (m : SysM A) (f : A -> SysM B) s :
  quiet m s -> (forall a s1, quiet (f a) s1) -> quiet (m ≫= f) s.
Proof. intros Hm Hf b s' H. minv H as a s1 H1. etransitivity; [by eapply Hm|by eapply Hf]. Qed.
Lemma quiet_get_bind {B} (f : Sys -> SysM B) s : quiet (f s) s -> quiet (get ≫= f) s.
Proof. done. Qed.
Lemma quiet_ret {A} (a : A) s : quiet (mret a) s.
Proof. by intros b s' [= <- <-]. Qed.
Lemma quiet_put s' s : same_tree s s' -> quiet (put s') s.
Proof. by intros ? b s'' [= <- <-]. Qed.
Lemma quiet_modify f s : same_tree s (f s) -> quiet (modify f) s.
Proof. by intros ? b s'' [= <- <-]. Qed.
Lemma quiet_fault {A} s : quiet (fault : SysM A) s.
Proof. done. Qed.
Lemma quiet_panic {A} s : quiet (panic : SysM A) s.
Proof. done. Qed.
Lemma quiet_deref {A} (o : option A) s : quiet (deref o) s.
Proof. destruct o; [apply quiet_ret|done]. Qed.
Lemma quiet_lift {A} (o : outcome A) s : quiet (lift o) s.
Proof. destruct o; [|done..]. by intros b s'' [= <- <-]. Qed.
Lemma quiet_on_vm {A} (m : M VM A) s : quiet (on_vm m) s.
Proof. intros a s'. unfold on_vm, zoom. destruct (m (sy_vm s)) as [[b v]| | |]; [|done..]. by intros [= <- <-]. Qed.
Lemma quiet_cpu {A} (m : M Cpu A) s : quiet (zoom cpu_of with_cpu m) s.
Proof. intros a s'. unfold zoom. destruct (m (cpu_of s)) as [[b c]| | |]; [|done..]. by intros [= <- <-]. Qed.
Lemma quiet_guarded {A} (m : SysM A) s : (forall s, quiet m s) -> quiet (guarded m) s.
Proof.
  intros Hm. unfold guarded. apply quiet_bind; [apply quiet_cpu|]. intros _ s1. apply quiet_bind; [done|]. intros a s2.
  apply quiet_bind; [apply quiet_cpu|]. intros _ s3. apply quiet_ret.
Qed.
Lemma quiet_rd_task t s : quiet (rd_task t) s.
Proof. apply quiet_get_bind, quiet_deref. Qed.

Lemma rd_task_inv t s k s' : rd_task t s = Ret (k, s') -> sy_tasks s !! t = Some k /\ s' = s.
Proof. unfold rd_task, mbind, M_bind, get. destruct (sy_tasks s !! t); simpl; [|done]. by intros [= <- <-]. Qed.
Lemma wr_task_inv t f s u s' : wr_task t f s = Ret (u, s') ->
  exists k, sy_tasks s !! t = Some k /\ s' = set_sy_tasks (<[t := f k]> (sy_tasks s)) s.
Proof. unfold wr_task. intros H. minv H as k s1 H1. apply rd_task_inv in H1 as [Hk ->]. injection H as <- <-. eauto. Qed.

Lemma quiet_wr_task t f s : (forall k, fview (f k) = fview k) -> quiet (wr_task t f) s.
Proof.
  intros Hf a s' (k & Hk & ->)%wr_task_inv. split; try done. simpl. rewrite fmap_insert, Hf.
  apply insert_id. by rewrite lookup_fmap, Hk.
Qed.

(** [schedule] rotates the queue. *)
Ltac solve_queue := match goal with H : sy_runqueue _ = _ |- _ => rewrite H; symmetry; apply (Permutation_middle _ [] _) || (rewrite app_comm_cons; apply Permutation_cons_append) end.

(** Takes a computation apart down to accesses that keep the tree. *)
Ltac quiet_tac :=
  repeat match goal with
  | |- quiet (match ?x with _ => _ end) _ => destruct x eqn:?
  | |- quiet (get ≫= _) _ => apply quiet_get_bind
  | |- quiet (_ ≫= _) _ => apply quiet_bind; [|intros ? ?]
  | |- quiet (mret _) _ => apply quiet_ret
  | |- quiet fault _ => apply quiet_fault
  | |- quiet panic _ => apply quiet_panic
  | |- quiet (deref _) _ => apply quiet_deref
  | |- quiet (lift _) _ => apply quiet_lift
  | |- quiet (on_vm _) _ => apply quiet_on_vm
  | |- quiet (zoom cpu_of with_cpu _) _ => apply quiet_cpu
  | |- quiet (rd_task _) _ => apply quiet_rd_task
  | |- quiet (wr_task _ _) _ => apply quiet_wr_task; intros ?; reflexivity
  | |- quiet (modify _) _ => apply quiet_modify; by split
  | |- quiet (put _) _ => apply quiet_put; split; cbn; try done; try solve_queue
  | |- quiet (guarded _) _ => apply quiet_guarded; intros ?
  end.

Lemma quiet_schedule s : quiet schedule s.
Proof. unfold schedule, set_state, switch_to. quiet_tac. Qed.
Lemma quiet_close_fds n t i s : quiet (close_fds n t i) s.
Proof.
  revert i s. induction n as [|n IH]; intros i s; cbn [close_fds]; [apply quiet_ret|].
  unfold sys_close, release_fd_and_get_file. quiet_tac; apply IH.
Qed.

(** ** The tree under changes *)

Lemma fview_eq k k' : fview k = fview k' -> t_parent k = t_parent k' /\ t_active k = t_active k' /\ t_terminated k = t_terminated k' /\ t_pid k = t_pid k'.
Proof. unfold fview. by intros [= -> -> -> ->]. Qed.

Lemma fview_lookup (ts ts' : tasks) t k : fview <$> ts' = fview <$> ts -> ts !! t = Some k ->
  exists k', ts' !! t = Some k' /\ fview k' = fview k.
Proof.
  intros He Hk. assert (H : (fview <$> ts') !! t = Some (fview k)) by (by rewrite He, lookup_fmap, Hk).
  rewrite lookup_fmap in H. destruct (ts' !! t) as [k'|]; [|done]. exists k'. split; [done|]. apply (inj Some) in H. exact H.
Qed.

Lemma fview_parent (ts ts' : tasks) t : fview <$> ts' = fview <$> ts -> parent ts' t = parent ts t.
Proof.
  intros He. unfold parent. destruct (ts !! t) as [k|] eqn:E.
  - destruct (fview_lookup ts ts' t k He E) as (k' & -> & (H & _)%fview_eq). cbn. by rewrite H.
  - destruct (ts' !! t) as [k'|] eqn:E'; [|done]. destruct (fview_lookup ts' ts t k') as (k & ? & _); [done..|congruence].
Qed.

Lemma family_same D (ts ts' : tasks) : fview <$> ts' = fview <$> ts -> family_but D ts -> family_but D ts'.
Proof.
  intros He [H0 Hl Hu Hd HD]. pose proof (fun t => fview_parent ts ts' t He) as Hpar. split; [| | | |done].
  - destruct (ts' !! 0) as [k'|] eqn:E; [|done]. destruct (fview_lookup ts' ts 0 k') as (k & ? & _); [done..|congruence].
  - intros p k' Hp. destruct (fview_lookup ts' ts p k') as (k & Hk & (_ & E2 & E3 & _)%fview_eq); [done..|].
    unfold listed. rewrite <- E2, <- E3. setoid_rewrite Hpar. by apply Hl.
  - intros c p. rewrite Hpar. intros Hc Hni. destruct (Hu c p Hc Hni) as [->|[k Hk]]; [by left|right].
    destruct (fview_lookup ts ts' p k He Hk) as (k' & ? & _). eauto.
  - intros c. rewrite Hpar. apply Hd.
Qed.

Lemma is_root_parent (ts : tasks) r : is_root ts r <-> parent ts r = Some 0.
Proof.
  split; [intros (k & Hk & Hp); unfold parent; rewrite Hk; simpl; by rewrite Hp|]. intros (k & ? & ?)%parent_inv. by exists k.
Qed.
Lemma is_root_same (ts ts' : tasks) r : fview <$> ts' = fview <$> ts -> is_root ts r -> is_root ts' r.
Proof. intros He. rewrite !is_root_parent. by rewrite (fview_parent ts ts'). Qed.

Lemma parent_insert (ts : tasks) t k c : parent (<[t := k]> ts) c = if decide (t = c) then Some (t_parent k) else parent ts c.
Proof. unfold parent. rewrite lookup_insert. by case_decide. Qed.
Lemma parent_delete (ts : tasks) t c : parent (delete t ts) c = if decide (t = c) then None else parent ts c.
Proof. unfold parent. rewrite lookup_delete. by case_decide. Qed.

Section changes.
Context (D : list Z) (ts : tasks).

Lemma fam_exists p k : family_but D ts -> ts !! p = Some k -> p <> 0.
Proof. intros Hf Hk ->. rewrite (fam_nonnull _ _ Hf) in Hk. done. Qed.

(** A new task, known to its parent. *)
Lemma fam_spawn p kp id kid : family_but D ts -> ts !! id = None -> id <> 0 -> listed kid = [] -> t_parent kid = p -> ts !! p = Some kp ->
  family_but D (<[id := kid]> (<[p := with_family (t_parent kp) (t_active kp ++ [id]) (t_terminated kp) kp]> ts)).
Proof.
  intros Hf Hid Hnz Hl Hpar Hp. pose proof (fam_exists p kp Hf Hp) as Hp0. assert (Hpi : p <> id) by congruence.
  assert (Hpid : parent ts id = None) by (unfold parent; by rewrite Hid).
  assert (HidD : id ∉ D) by (intros Hin; destruct (fam_detached _ _ Hf id Hin) as (? & ? & _); congruence).
  assert (Hpp : parent ts p = Some (t_parent kp)) by (unfold parent; by rewrite Hp).
  assert (HP : forall c, parent (<[id := kid]> (<[p := with_family (t_parent kp) (t_active kp ++ [id]) (t_terminated kp) kp]> ts)) c =
            if decide (id = c) then Some p else parent ts c).
  { intros c. rewrite !parent_insert, Hpar. repeat case_decide; subst; done. }
  assert (Hno : forall c, c ∉ D -> parent ts c <> Some id).
  { intros c Hc Hci. destruct (fam_up _ _ Hf c id Hci Hc) as [|[? ?]]; congruence. }
  destruct (fam_lists _ _ Hf p kp Hp) as [Hnp Hlp].
  split; [rewrite !lookup_insert_ne by done; apply Hf| | | |apply Hf].
  - intros q kq Hq. setoid_rewrite HP. rewrite lookup_insert in Hq. case_decide as E.
    { injection Hq as <-. subst q. rewrite Hl. split; [constructor|]. intros c. split; [intros []%elem_of_nil|].
      intros [HcD Hc]. case_decide; [by simplify_eq|]. by destruct (Hno c HcD). }
    rewrite lookup_insert in Hq. case_decide as E2.
    + injection Hq as <-. subst q. set (kp' := with_family _ _ _ _).
      assert (Hperm : listed kp' ≡ₚ id :: listed kp) by (unfold listed, kp'; simpl; rewrite <- app_assoc; symmetry; apply Permutation_middle).
      split; [rewrite Hperm; apply list.NoDup_cons; split; [intros Hin%Hlp; naive_solver|done]|].
      intros c. rewrite Hperm, elem_of_cons, Hlp. case_decide; naive_solver.
    + destruct (fam_lists _ _ Hf q kq Hq) as [Hn Hlq]. split; [done|]. intros c. rewrite Hlq. case_decide; naive_solver.
  - intros c q. rewrite HP. intros Hc HcD. case_decide as E.
    + injection Hc as <-. right. rewrite lookup_insert_ne, lookup_insert_eq by done. eauto.
    + destruct (fam_up _ _ Hf c q Hc HcD) as [->|[kq Hq]]; [by left|right]. rewrite !lookup_insert. repeat case_decide; eauto.
  - intros c Hc. destruct (fam_detached _ _ Hf c Hc) as (q & Hq & ?). exists q. split; [|done]. rewrite HP, decide_False; [done|congruence].
Qed.

(** A change of what a task lists, and of its other fields. *)
Lemma fam_relist p kp kp' : family_but D ts -> ts !! p = Some kp -> t_parent kp' = t_parent kp -> listed kp' ≡ₚ listed kp ->
  family_but D (<[p := kp']> ts).
Proof.
  intros Hf Hp Hpar Hl. destruct (fam_lists _ _ Hf p kp Hp) as [Hnp Hlp].
  assert (HP : forall c, parent (<[p := kp']> ts) c = parent ts c).
  { intros c. rewrite parent_insert. case_decide; [|done]. subst. unfold parent. rewrite Hp. simpl. by rewrite Hpar. }
  split; [rewrite lookup_insert_ne by (by eapply fam_exists); apply Hf| | | |apply Hf].
  - intros q kq Hq. setoid_rewrite HP. rewrite lookup_insert in Hq. case_decide.
    + injection Hq as <-. subst q. split; [by rewrite Hl|]. intros c. by rewrite Hl, Hlp.
    + by apply Hf.
  - intros c q. rewrite HP. intros Hc HcD. destruct (fam_up _ _ Hf c q Hc HcD) as [->|[kq Hq]]; [by left|right].
    rewrite lookup_insert. case_decide; eauto.
  - intros c Hc. setoid_rewrite HP. by apply Hf.
Qed.

(** A child leaves its parent's lists. *)
Lemma fam_detach p kp c kp' : family_but D ts -> ts !! p = Some kp -> t_parent kp' = t_parent kp -> listed kp ≡ₚ c :: listed kp' ->
  family_but (c :: D) (<[p := kp']> ts).
Proof.
  intros Hf Hp Hpar Hl. destruct (fam_lists _ _ Hf p kp Hp) as [Hnp Hlp]. rewrite Hl in Hnp. apply list.NoDup_cons in Hnp as [Hc Hnp].
  assert (HP : forall c, parent (<[p := kp']> ts) c = parent ts c).
  { intros x. rewrite parent_insert. case_decide; [|done]. subst. unfold parent. rewrite Hp. simpl. by rewrite Hpar. }
  assert (Hcp : (c ∉ D) /\ parent ts c = Some p) by (apply Hlp; rewrite Hl; left). destruct Hcp as [HcD Hcp].
  split; [rewrite lookup_insert_ne by (by eapply fam_exists); apply Hf| | | |].
  - intros q kq Hq. setoid_rewrite HP. setoid_rewrite not_elem_of_cons. rewrite lookup_insert in Hq. case_decide as E.
    + injection Hq as <-. subst q. split; [done|]. intros x. specialize (Hlp x). rewrite Hl, elem_of_cons in Hlp.
      destruct (decide (x = c)) as [->|]; naive_solver.
    + destruct (fam_lists _ _ Hf q kq Hq) as [Hn Hlq]. split; [done|]. intros x. rewrite Hlq. naive_solver.
  - intros x q. rewrite HP, not_elem_of_cons. intros Hx [Hxc HxD]. destruct (fam_up _ _ Hf x q Hx HxD) as [->|[kq Hq]]; [by left|right].
    rewrite lookup_insert. case_decide; eauto.
  - intros x [->|Hx]%elem_of_cons; setoid_rewrite HP; [|by apply Hf]. exists p. split; [done|by eapply fam_exists].
  - apply list.NoDup_cons. split; [done|apply Hf].
Qed.

(** A detached child is taken by another task. *)
Lemma fam_attach i ki ki' c kc kc' : family_but (c :: D) ts -> ts !! i = Some ki -> i <> c -> t_parent ki' = t_parent ki ->
  listed ki' ≡ₚ c :: listed ki -> ts !! c = Some kc -> t_parent kc' = i -> listed kc' = listed kc ->
  family_but D (<[c := kc']> (<[i := ki']> ts)).
Proof.
  intros Hf Hi Hic Hpar Hl Hc Hpc Hlc.
  assert (Hnz : i <> 0) by (intros ->; rewrite (fam_nonnull _ _ Hf) in Hi; done).
  assert (Hnc : c <> 0) by (intros ->; rewrite (fam_nonnull _ _ Hf) in Hc; done).
  pose proof (fam_distinct _ _ Hf) as [HcD HD]%list.NoDup_cons.
  assert (HP : forall x, parent (<[c := kc']> (<[i := ki']> ts)) x = if decide (c = x) then Some i else parent ts x).
  { intros x. rewrite !parent_insert, Hpc, Hpar. repeat case_decide; subst; try done. unfold parent. by rewrite Hi. }
  split; [rewrite !lookup_insert_ne by done; apply Hf| | | |done].
  - intros q kq Hq. setoid_rewrite HP. rewrite lookup_insert in Hq.
    assert (Hlq : exists k0, ts !! q = Some k0 /\ listed kq ≡ₚ (if decide (q = i) then c :: listed k0 else listed k0)).
    { case_decide as E; [subst; injection Hq as <-; exists kc; rewrite decide_False by done; split; [done|by rewrite Hlc]|].
      rewrite lookup_insert in Hq. case_decide as E2; [subst; injection Hq as <-; exists ki; by rewrite decide_True|].
      exists kq. by rewrite decide_False. }
    destruct Hlq as (k0 & Hk0 & Hq'). destruct (fam_lists _ _ Hf q k0 Hk0) as [Hn Hlq0].
    setoid_rewrite not_elem_of_cons in Hlq0. destruct (decide (q = i)) as [->|Hqi].
    + split; [rewrite Hq'; apply list.NoDup_cons; split; [rewrite Hlq0; naive_solver|done]|]. intros x. rewrite Hq', elem_of_cons, Hlq0.
      destruct (decide (c = x)) as [<-|Hcx]; [tauto|]. assert (x <> c) by congruence. tauto.
    + split; [by rewrite Hq'|]. intros x. rewrite Hq', Hlq0.
      destruct (decide (c = x)) as [<-|Hcx]; [split; [tauto|intros [_ E]; congruence]|]. assert (x <> c) by congruence. tauto.
  - intros x q. rewrite HP. intros Hx HxD. case_decide as E.
    + injection Hx as <-. right. rewrite lookup_insert_ne, lookup_insert_eq by done. eauto.
    + destruct (fam_up _ _ Hf x q Hx) as [->|[kq Hq]]; [by apply not_elem_of_cons|by left|right]. rewrite !lookup_insert. repeat case_decide; eauto.
  - intros x Hx. rewrite HP, decide_False by (intros ->; done). apply (fam_detached _ _ Hf). by right.
Qed.

(** A detached task without active children is destroyed: those it lists are next. *)
Lemma fam_delete t k : family_but (t :: D) ts -> ts !! t = Some k -> family_but (listed k ++ D) (delete t ts).
Proof.
  intros Hf Hk. pose proof (fam_distinct _ _ Hf) as [HtD HD]%list.NoDup_cons. destruct (fam_lists _ _ Hf t k Hk) as [Hn Hl].
  assert (Htn : t ∉ listed k) by (rewrite Hl, not_elem_of_cons; naive_solver).
  split.
  - rewrite lookup_delete. case_decide; [done|apply Hf].
  - intros q kq Hq. rewrite lookup_delete in Hq. case_decide as Htq; [done|]. setoid_rewrite parent_delete.
    destruct (fam_lists _ _ Hf q kq Hq) as [Hnq Hlq]. split; [done|]. intros x. specialize (Hl x). specialize (Hlq x).
    rewrite not_elem_of_cons in Hl, Hlq. rewrite not_elem_of_app, Hlq. case_decide as Htx; [subst; split; [tauto|by intros []]|].
    split; [intros [[_ HxD] Hx]|assert (x <> t) by congruence; tauto]. split_and!; [|done|done]. rewrite Hl. intros [_ Hx']. congruence.
  - intros x q. rewrite parent_delete, not_elem_of_app. case_decide as Htx; [done|]. intros Hx [Hxl HxD].
    assert (Hxn : x ∉ t :: D) by (apply not_elem_of_cons; split; [congruence|done]).
    destruct (fam_up _ _ Hf x q Hx Hxn) as [->|[kq Hq]]; [by left|right]. rewrite lookup_delete. case_decide as E; [|eauto].
    subst. destruct Hxl. by apply Hl.
  - intros x [Hx|Hx]%elem_of_app.
    + assert (Hxt : t <> x) by congruence. apply Hl in Hx as [Hxn Hx]. rewrite parent_delete, decide_False by done.
      exists t. split; [done|]. intros ->. rewrite (fam_nonnull _ _ Hf) in Hk. done.
    + rewrite parent_delete, decide_False by (by intros ->). apply (fam_detached _ _ Hf). by right.
  - apply NoDup_app. split_and!; [done| |done]. intros x Hx%Hl. rewrite not_elem_of_cons in Hx. naive_solver.
Qed.
End changes.

(** ** The invariant of the process tree *)

Definition terminated_by_someone (ts : tasks) (t : Z) : Prop := exists p k, ts !! p = Some k /\ t ∈ t_terminated k.

Record tree_but (D : list Z) (s : Sys) : Prop := {
  tb_family : family_but D (sy_tasks s);
  tb_init : is_root (sy_tasks s) (sy_init s);
  tb_kthreadd : is_root (sy_tasks s) (sy_kthreadd s);
  tb_ids t : is_Some (sy_tasks s !! t) -> 0 < t < sy_next_id s;
  tb_pids t k : sy_tasks s !! t = Some k -> t_pid k < sy_next_pid s;
  tb_distinct : distinct_pids (sy_tasks s);
  tb_boot : 2 < sy_next_pid s;
  tb_nodup : NoDup (sy_runqueue s);
  tb_queue t : t ∈ sy_runqueue s -> is_Some (sy_tasks s !! t) /\ (t ∉ D) /\ ~ terminated_by_someone (sy_tasks s) t
}.
Abbreviation tree := (tree_but []).

(** What a change of single tasks keeps: [ts'] is [ts] up to the children. *)
Definition pids_from (ts ts' : tasks) : Prop :=
  forall t k', ts' !! t = Some k' -> exists k, ts !! t = Some k /\ t_pid k' = t_pid k.

Lemma pids_from_fview ts ts' : fview <$> ts' = fview <$> ts -> pids_from ts ts'.
Proof. intros He t k' Hk'. destruct (fview_lookup ts' ts t k') as (k & Hk & (_ & _ & _ & E)%fview_eq); [done..|]. eauto. Qed.

Lemma terminated_same ts ts' t : fview <$> ts' = fview <$> ts -> terminated_by_someone ts' t -> terminated_by_someone ts t.
Proof.
  intros He (p & k' & Hk' & Ht). destruct (fview_lookup ts' ts p k') as (k & Hk & (_ & _ & E & _)%fview_eq); [done..|].
  exists p, k. by rewrite E.
Qed.

Lemma tree_change D D' s s' : tree_but D s -> family_but D' (sy_tasks s') ->
  (forall r, is_root (sy_tasks s) r -> is_root (sy_tasks s') r) -> pids_from (sy_tasks s) (sy_tasks s') ->
  sy_init s' = sy_init s -> sy_kthreadd s' = sy_kthreadd s -> sy_next_id s' = sy_next_id s -> sy_next_pid s' = sy_next_pid s ->
  NoDup (sy_runqueue s') ->
  (forall t, t ∈ sy_runqueue s' -> is_Some (sy_tasks s' !! t) /\ (t ∉ D') /\ ~ terminated_by_someone (sy_tasks s') t) ->
  tree_but D' s'.
Proof.
  intros [Hf Hi Hk Hid Hp Hd Hb Hn Hq] Hf' Hr Hpf E1 E2 E3 E4 Hn' Hq'. split; rewrite ?E1, ?E2, ?E3, ?E4; auto.
  - intros t [k' Hk']. destruct (Hpf t k' Hk') as (k & ? & _). apply Hid. eauto.
  - intros t k' Hk'. destruct (Hpf t k' Hk') as (k & ? & ->). eauto.
  - intros a b ka kb Ha Hb'. destruct (Hpf a ka Ha) as (k1 & ? & ->). destruct (Hpf b kb Hb') as (k2 & ? & ->). by apply Hd.
Qed.

Lemma tree_same D s s' : same_tree s s' -> tree_but D s -> tree_but D s'.
Proof.
  intros [He E1 E2 E3 E4 Eq] Ht. apply (tree_change D D s s'); try done.
  - by eapply family_same, Ht.
  - intros r. by apply is_root_same.
  - by apply pids_from_fview.
  - rewrite Eq. apply Ht.
  - intros t. rewrite Eq. intros Hin. destruct (tb_queue _ _ Ht t Hin) as ([k Hk] & HD & Hz). split_and!; [|done|].
    + destruct (fview_lookup _ (sy_tasks s') t k He Hk) as (k' & ? & _). eauto.
    + intros Hz'. by apply Hz, (terminated_same _ (sy_tasks s')).
Qed.

Lemma tree_quiet {A} D (m : SysM A) s a s' : quiet m s -> m s = Ret (a, s') -> tree_but D s -> tree_but D s'.
Proof. intros Hq Hr. apply tree_same. by eapply Hq. Qed.

Lemma same_tree_tasks s ts' : fview <$> ts' = fview <$> sy_tasks s -> same_tree s (set_sy_tasks ts' s).
Proof. by split. Qed.

(** ** exit *)

Lemma remove_first_perm x l : x ∈ l -> l ≡ₚ x :: remove_first x l.
Proof.
  induction l as [|y l IH]; intros Hin; [by apply elem_of_nil in Hin|]. cbn [remove_first].
  destruct (Z.eqb_spec y x) as [->|Hne]; [done|]. apply elem_of_cons in Hin as [->|Hin]; [done|].
  rewrite (IH Hin) at 1. apply Permutation_swap.
Qed.

Lemma remove_task_inv t s r s' : remove_task t s = Ret (r, s') ->
  r = t /\ t ∈ sy_runqueue s /\ exists s1, same_tree s s1 /\ same_tree (set_sy_runqueue (remove_first t (sy_runqueue s1)) s1) s' /\ sy_runqueue s1 = sy_runqueue s.
Proof.
  unfold remove_task, guarded. intros H. minv H as u s1 H1. pose proof (quiet_cpu _ _ _ _ H1) as Hs1.
  assert (Hq1 : sy_runqueue s1 = sy_runqueue s).
  { unfold zoom in H1. destruct (lock (cpu_of s)) as [[? ?]| | |]; [|done..]. by injection H1 as <- <-. }
  minv H as r1 s2 H2. unfold mbind, M_bind, get in H2.
  case_decide as Hin; [|done]. injection H2 as <- <-. minv H as u2 s3 H3. injection H as <- <-. rewrite Hq1 in Hin.
  split_and!; [done|done|]. exists s1. split_and!; [done| |done]. by eapply quiet_cpu.
Qed.

(** A queued task moves to its parent's terminated children. *)
Lemma tree_hand_over s t pp p : tree s -> parent (sy_tasks s) t = Some pp -> sy_tasks s !! pp = Some p -> t ∈ sy_runqueue s ->
  tree (set_sy_runqueue (remove_first t (sy_runqueue s))
    (set_sy_tasks (<[pp := with_family (t_parent p) (remove_first t (t_active p)) (t_terminated p ++ [t]) p]> (sy_tasks s)) s)).
Proof.
  intros Ht Hpar Hp Hq. set (b := with_family _ _ _ _). destruct (tb_queue _ _ Ht t Hq) as (_ & _ & Hz).
  assert (Hact : t ∈ t_active p).
  { destruct (fam_lists _ _ (tb_family _ _ Ht) pp p Hp) as [_ Hl]. assert (Hin : t ∈ listed p) by (apply Hl; split; [apply not_elem_of_nil|done]).
    apply elem_of_app in Hin as [|Hin]; [done|]. destruct Hz. by exists pp, p. }
  assert (Hperm : listed b ≡ₚ listed p).
  { unfold listed, b. cbn. rewrite (remove_first_perm t (t_active p) Hact) at 2. rewrite (app_assoc _ _ [t]), <- Permutation_cons_append. done. }
  apply (tree_change [] [] s); try done; cbn.
  - by apply (fam_relist _ _ _ p); [apply Ht|..].
  - intros r. rewrite !is_root_parent, parent_insert. case_decide; [|done]. subst. unfold parent. by rewrite Hp.
  - intros x k' Hx. rewrite lookup_insert in Hx. case_decide; [|by exists k']. injection Hx as <-. subst. by exists p.
  - pose proof (tb_nodup _ _ Ht) as Hn. rewrite (remove_first_perm t _ Hq) in Hn. by apply list.NoDup_cons in Hn as [_ ?].
  - intros x Hx. assert (Hxt : x <> t) by (intros ->; by apply (remove_first_notin t (sy_runqueue s)); [apply Ht|]).
    destruct (tb_queue _ _ Ht x (remove_first_elem _ _ _ Hx)) as (He & _ & Hxz). split_and!; [|apply not_elem_of_nil|].
    + rewrite lookup_insert. case_decide; eauto.
    + intros (q & kq & Hkq & Hin). apply Hxz. rewrite lookup_insert in Hkq. case_decide; [|by exists q, kq].
      injection Hkq as <-. subst. exists q, p. split; [done|]. cbn in Hin. apply elem_of_app in Hin as [|Hin%list_elem_of_singleton]; done.
Qed.

Lemma tree_exit t error_code s s' : tree s -> exit t error_code s = Ret (tt, s') -> tree s'.
Proof.
  intros Ht H. unfold exit in H. minv H as k s0 H0. apply rd_task_inv in H0 as [Hk ->].
  destruct (Z.eqb_spec (t_parent k) 0) as [|Hp0]; [done|].
  minv H as u1 s1 H1. assert (S1 : same_tree s s1) by (by apply (quiet_wr_task t _ s) in H1).
  minv H as u2 s2 H2. assert (S2 : same_tree s1 s2) by (by eapply quiet_cpu).
  minv H as u3 s3 H3. assert (S3 : same_tree s2 s3) by (by eapply quiet_close_fds).
  assert (T3 : tree s3) by (eapply tree_same, Ht; do 2 (etransitivity; [eassumption|]); done).
  assert (Hk3 : parent (sy_tasks s3) t = Some (t_parent k)).
  { assert (He : fview <$> sy_tasks s3 = fview <$> sy_tasks s) by (rewrite (st_tasks _ _ S3), (st_tasks _ _ S2); apply S1).
    rewrite (fview_parent (sy_tasks s)) by done. unfold parent. by rewrite Hk. }
  minv H as u4 s4 H4. apply wr_task_inv in H4 as (p & Hp & ->).
  minv H as r s5 H5. apply remove_task_inv in H5 as (-> & Hin & s6 & S6 & S5 & Hq6). cbn in Hin, Hq6.
  minv H as u7 s7 H7. apply wr_task_inv in H7 as (p' & Hp' & ->). apply quiet_schedule in H.
  set (b := with_family (t_parent p) (remove_first t (t_active p)) (t_terminated p ++ [t]) p).
  apply (tree_same [] (set_sy_runqueue (remove_first t (sy_runqueue s3)) (set_sy_tasks (<[t_parent k := b]> (sy_tasks s3)) s3))).
  { etransitivity; [|exact H]. pose proof S5 as [E5 Ei5 Ek5 Ed5 Ep5 Eq5]. pose proof S6 as [E6 Ei6 Ek6 Ed6 Ep6 Eq6]. cbn in *.
    split; cbn; [|congruence..|by rewrite Eq5, Hq6].
    rewrite !fmap_insert, E5, E6, fmap_insert, insert_insert_eq. f_equal.
    assert (Hv : fview p' = fview (with_family (t_parent p) (remove_first t (t_active p)) (t_terminated p) p)).
    { apply (inj Some). transitivity ((fview <$> sy_tasks s5) !! t_parent k); [by rewrite lookup_fmap, Hp'|].
      by rewrite E5, E6, lookup_fmap, lookup_insert_eq. }
    apply fview_eq in Hv as (V1 & V2 & V3 & V4). unfold fview, b. cbn in *. congruence. }
  by apply tree_hand_over.
Qed.

(** ** Reaping *)

Lemma detached_not_root D ts t : family_but (t :: D) ts -> ~ is_root ts t.
Proof. intros Hf Hr%is_root_parent. destruct (fam_detached _ _ Hf t) as (p & ? & ?); [left|congruence]. Qed.

(** The orphan [c] of [t] becomes a child of [init]. *)
Lemma tree_adopt_one D s t k c rest i ki kc : tree_but (t :: D) s -> sy_init s = i ->
  sy_tasks s !! t = Some k -> t_active k = c :: rest -> sy_tasks s !! i = Some ki -> sy_tasks s !! c = Some kc ->
  tree_but (t :: D) (set_sy_tasks
    (<[t := with_family (t_parent k) rest (t_terminated k) k]>
      (<[c := with_family i (t_active kc) (t_terminated kc) kc]>
        (<[i := with_family (t_parent ki) (t_active ki ++ [c]) (t_terminated ki) ki]> (sy_tasks s)))) s).
Proof.
  intros Ht Hi Hk Hact Hki Hkc. pose proof (tb_family _ _ Ht) as Hf. pose proof (tb_init _ _ Ht) as Hr. rewrite Hi in Hr.
  assert (Hcl : (c ∉ t :: D) /\ parent (sy_tasks s) c = Some t).
  { destruct (fam_lists _ _ Hf t k Hk) as [_ Hl]. apply Hl. unfold listed. rewrite Hact. left. }
  destruct Hcl as [HcD Hcp]. apply not_elem_of_cons in HcD as [Hct HcD].
  assert (Ht0 : t <> 0) by (by eapply fam_exists).
  assert (Hit : i <> t) by (intros ->; by eapply detached_not_root).
  assert (Hci : c <> i) by (intros ->; apply is_root_parent in Hr; congruence).
  set (k' := with_family (t_parent k) _ _ k). set (kc' := with_family i _ _ kc). set (ki' := with_family (t_parent ki) _ _ ki).
  assert (Hcomm : <[t := k']> (<[c := kc']> (<[i := ki']> (sy_tasks s))) = <[c := kc']> (<[i := ki']> (<[t := k']> (sy_tasks s)))).
  { rewrite (insert_insert_ne _ t c), (insert_insert_ne _ t i) by congruence. done. }
  apply (tree_change (t :: D) (t :: D) s); try done; cbn; rewrite ?Hcomm.
  - apply (fam_attach (t :: D) (<[t := k']> (sy_tasks s)) i ki ki' c kc kc').
    + apply (fam_detach _ _ t k c k'); [done..|]. unfold listed, k'. rewrite Hact. done.
    + by rewrite lookup_insert_ne.
    + congruence.
    + done.
    + unfold listed, ki'. cbn. rewrite <- app_assoc. symmetry. apply Permutation_middle.
    + by rewrite lookup_insert_ne.
    + done.
    + done.
  - intros r. rewrite !is_root_parent, !parent_insert. repeat case_decide; subst; try done; unfold parent; rewrite ?Hk, ?Hki, ?Hkc; cbn; try done.
    intros [= E]. unfold parent in Hcp. rewrite Hkc in Hcp. cbn in Hcp. congruence.
  - intros x kx Hx. rewrite !lookup_insert in Hx. repeat case_decide; simplify_eq; eauto.
  - apply Ht.
  - intros x Hx. destruct (tb_queue _ _ Ht x Hx) as ([kx Hkx] & HxD & Hz). split_and!; [|done|].
    + rewrite !lookup_insert. repeat case_decide; eauto.
    + intros (p & kp & Hp & Hin). apply Hz. rewrite !lookup_insert in Hp. repeat case_decide; simplify_eq; unfold terminated_by_someone; eauto.
Qed.

Lemma tree_adopt D t k l s s' : tree_but (t :: D) s -> sy_tasks s !! t = Some k -> t_active k = l -> adopt l t s = Ret (tt, s') ->
  tree_but (t :: D) s' /\ exists k', sy_tasks s' !! t = Some k' /\ t_active k' = [] /\ t_terminated k' = t_terminated k.
Proof.
  revert s k. induction l as [|c rest IH]; intros s k Ht Hk Hact; cbn [adopt].
  { intros [= <-]. split; [done|]. by exists k. }
  intros H. apply bind_inv in H as (s0 & s1 & [= <- <-] & H).
  minv H as u1 s1 H1. apply wr_task_inv in H1 as (ki & Hki & ->).
  minv H as u2 s2 H2. apply wr_task_inv in H2 as (kc & Hkc & ->).
  minv H as u3 s3 H3. apply wr_task_inv in H3 as (k0 & Hk0 & ->). cbn in *.
  pose proof (tb_family _ _ Ht) as Hf.
  assert (Hcl : (c ∉ t :: D) /\ parent (sy_tasks s) c = Some t).
  { destruct (fam_lists _ _ Hf t k Hk) as [_ Hl]. apply Hl. unfold listed. rewrite Hact. left. }
  destruct Hcl as [HcD Hcp]. apply not_elem_of_cons in HcD as [Hct HcD].
  assert (Ht0 : t <> 0) by (by eapply fam_exists).
  assert (Hit : sy_init s <> t) by (intros Hi; eapply detached_not_root; [exact Hf|]; rewrite <- Hi; apply Ht).
  assert (Hci : sy_init s <> c) by (pose proof (tb_init _ _ Ht) as Hr; apply is_root_parent in Hr; congruence).
  rewrite !lookup_insert_ne in Hk0 by congruence. assert (k0 = k) as -> by congruence.
  rewrite lookup_insert_ne in Hkc by congruence.
  refine (IH _ (with_family (t_parent k) rest (t_terminated k) k) _ _ eq_refl H); [|cbn; by rewrite lookup_insert_eq].
  by apply (tree_adopt_one D s t k c rest).
Qed.

Lemma tree_delete_one D s t k : tree_but (t :: D) s -> sy_tasks s !! t = Some k -> t_active k = [] ->
  tree_but (t_terminated k ++ D) (set_sy_tasks (delete t (sy_tasks s)) s).
Proof.
  intros Ht Hk Hact. pose proof (tb_family _ _ Ht) as Hf.
  apply (tree_change (t :: D) _ s); try done; cbn.
  - replace (t_terminated k) with (listed k) by (unfold listed; by rewrite Hact). by apply fam_delete.
  - intros r Hr. rewrite is_root_parent, parent_delete in *. rewrite decide_False; [done|].
    intros <-. by apply (detached_not_root D (sy_tasks s) t), is_root_parent.
  - intros x kx Hx. rewrite lookup_delete in Hx. case_decide; [done|]. eauto.
  - apply Ht.
  - intros x Hx. destruct (tb_queue _ _ Ht x Hx) as (He & HxD & Hz). apply not_elem_of_cons in HxD as [Hxt HxD]. split_and!.
    + by rewrite lookup_delete_ne by congruence.
    + intros [Hin|]%elem_of_app; [|done]. apply Hz. by exists t, k.
    + intros (p & kp & Hp & Hin). apply Hz. rewrite lookup_delete in Hp. case_decide; [done|]. by exists p, kp.
Qed.

Lemma tree_delete_tasks fuel D s s' : tree_but D s -> delete_tasks fuel D s = Ret (tt, s') -> tree s'.
Proof.
  revert D s. induction fuel as [|fuel IH]; intros [|t D] s Ht; cbn [delete_tasks]; try done; try (by intros [= <-]).
  intros H. minv H as k s0 H0. apply rd_task_inv in H0 as [Hk ->].
  minv H as u1 s1 H1. destruct u1. destruct (tree_adopt D t k (t_active k) s s1 Ht Hk eq_refl H1) as (Ht1 & k1 & Hk1 & Ha1 & Hl1).
  minv H as u2 s2 H2. pose proof (quiet_on_vm _ _ _ _ H2) as S2.
  minv H as u3 s3 H3. pose proof (quiet_on_vm _ _ _ _ H3) as S3.
  minv H as u4 s4 H4. injection H4 as <- <-.
  assert (S13 : same_tree s1 s3) by (etransitivity; eassumption).
  destruct (fview_lookup _ _ t k1 (st_tasks _ _ S13) Hk1) as (k3 & Hk3 & (_ & E2 & E3 & _)%fview_eq).
  rewrite <- Hl1, <- E3 in H. apply (IH _ _ (tree_delete_one D s3 t k3 (tree_same _ _ _ S13 Ht1) Hk3 ltac:(by rewrite E2, Ha1))). done.
Qed.

Lemma tree_wait_poll t s r s' : tree s -> wait_poll t s = Ret (r, s') -> tree s'.
Proof.
  intros Ht H. unfold wait_poll in H. minv H as k s0 H0. apply rd_task_inv in H0 as [Hk ->].
  destruct (t_terminated k) as [|c rest] eqn:Hz.
  { minv H as u s1 H1. injection H as <- <-. eapply tree_quiet; [apply quiet_schedule|exact H1|done]. }
  minv H as kc s0 H0. apply rd_task_inv in H0 as [Hkc ->].
  minv H as u1 s1 H1. apply wr_task_inv in H1 as (k0 & Hk0 & ->). assert (k0 = k) as -> by congruence.
  minv H as u2 s2 H2. minv H as u3 s3 H3. injection H as <- <-.
  eapply tree_quiet; [apply quiet_cpu|exact H3|]. unfold delete_task in H2.
  apply bind_inv in H2 as (x & s1 & [= <- <-] & H2). destruct u2. eapply tree_delete_tasks; [|exact H2]. clear H2 H3.
  apply (tree_change [] _ s); try done; cbn.
  - apply (fam_detach _ _ _ k); [apply Ht|done..|]. unfold listed. rewrite Hz. cbn. symmetry. apply Permutation_middle.
  - intros q. rewrite !is_root_parent, parent_insert. case_decide; [|done]. subst. unfold parent. by rewrite Hk.
  - intros x kx Hx. rewrite lookup_insert in Hx. case_decide; [|by exists kx]. simplify_eq. by exists k.
  - apply Ht.
  - intros x Hx. destruct (tb_queue _ _ Ht x Hx) as ([kx Hkx] & _ & Hnz). split_and!.
    + rewrite lookup_insert. case_decide; eauto.
    + intros ->%list_elem_of_singleton. apply Hnz. exists t, k. rewrite Hz. split; [done|left].
    + intros (p & kp & Hp & Hin). apply Hnz. rewrite lookup_insert in Hp. case_decide; [|by exists p, kp].
      simplify_eq. exists p, k. rewrite Hz. split; [done|]. by right.
Qed.

(** ** fork *)

Lemma tree_spawn s p kp kid : tree s -> sy_tasks s !! p = Some kp -> listed kid = [] -> t_parent kid = p -> t_pid kid = sy_next_pid s ->
  tree (set_sy_ids (sy_next_id s + 1) (sy_next_pid s + 1) (set_sy_tasks
    (<[sy_next_id s := kid]> (<[p := with_family (t_parent kp) (t_active kp ++ [sy_next_id s]) (t_terminated kp) kp]> (sy_tasks s))) s)).
Proof.
  intros Ht Hp Hl Hpar Hpid. pose proof Ht as [Hf Hi Hkt Hid Hps Hd Hb Hn Hq].
  assert (Hfr : sy_tasks s !! sy_next_id s = None).
  { destruct (sy_tasks s !! sy_next_id s) eqn:E; [|done]. specialize (Hid _ (mk_is_Some _ _ E)). lia. }
  assert (Hid0 : 0 < p < sy_next_id s) by (apply Hid; eauto).
  assert (Hz : t_terminated kid = []) by (by apply app_eq_nil in Hl as [_ ?]).
  assert (Hold : forall x kx, (<[sy_next_id s := kid]> (<[p := with_family (t_parent kp) (t_active kp ++ [sy_next_id s]) (t_terminated kp) kp]> (sy_tasks s))) !! x = Some kx ->
    (x = sy_next_id s /\ kx = kid) \/ (x <> sy_next_id s /\ exists k, sy_tasks s !! x = Some k /\ t_pid kx = t_pid k /\ t_terminated kx = t_terminated k)).
  { intros x kx Hx. rewrite !lookup_insert in Hx. repeat case_decide; simplify_eq; [by left|right..]; (split; [congruence|eauto]). }
  assert (Hroot : forall r, is_root (sy_tasks s) r ->
    is_root (<[sy_next_id s := kid]> (<[p := with_family (t_parent kp) (t_active kp ++ [sy_next_id s]) (t_terminated kp) kp]> (sy_tasks s))) r).
  { intros r. rewrite !is_root_parent, !parent_insert. repeat case_decide; subst; unfold parent; rewrite ?Hfr, ?Hp; done. }
  split; cbn.
  - apply fam_spawn; (done || lia).
  - by apply Hroot.
  - by apply Hroot.
  - intros t Hs. rewrite !lookup_insert in Hs. repeat case_decide; subst; try lia. specialize (Hid t Hs). lia.
  - intros t k [[-> ->]|(_ & k0 & Hk0 & -> & _)]%Hold; [lia|]. specialize (Hps _ _ Hk0). lia.
  - intros a b ka kb [[-> ->]|(Ha & k1 & Hk1 & -> & _)]%Hold [[-> ->]|(Hb' & k2 & Hk2 & -> & _)]%Hold; [done|..].
    + specialize (Hps _ _ Hk2). lia.
    + specialize (Hps _ _ Hk1). lia.
    + by apply Hd.
  - lia.
  - done.
  - intros t Hin. destruct (Hq t Hin) as (He & _ & Hnz). split_and!; [|apply not_elem_of_nil|].
    + rewrite !lookup_insert. repeat case_decide; eauto.
    + intros (q & kq & [[-> ->]|(_ & k0 & Hk0 & _ & E)]%Hold & Hin'); [rewrite Hz in Hin'; by apply elem_of_nil in Hin'|].
      apply Hnz. exists q, k0. by rewrite <- E.
Qed.

Lemma on_vm_inv {A} (m : M VM A) s a s' : on_vm m s = Ret (a, s') -> exists v, s' = set_sy_vm v s.
Proof. unfold on_vm, zoom. destruct (m (sy_vm s)) as [[b v]| | |]; [|done..]. intros [= <- <-]. eauto. Qed.

Lemma new_task_inv rootfs u p e name s id s' : 2 < sy_next_pid s -> sy_next_pid s + 1 < 2 ^ 32 -> p <> 0 -> new_task rootfs u p e name s = Ret (id, s') ->
  id = sy_next_id s /\ exists kp kid, sy_tasks s !! p = Some kp /\
    sy_tasks s' = <[id := kid]> (<[p := with_family (t_parent kp) (t_active kp ++ [id]) (t_terminated kp) kp]> (sy_tasks s)) /\
    listed kid = [] /\ t_parent kid = p /\ t_pid kid = sy_next_pid s /\
    sy_init s' = sy_init s /\ sy_kthreadd s' = sy_kthreadd s /\ sy_next_id s' = sy_next_id s + 1 /\ sy_next_pid s' = sy_next_pid s + 1 /\
    sy_runqueue s' = sy_runqueue s.
Proof.
  intros Hpid Hwrap Hp H. assert (Hu := u32_id (sy_next_pid s + 1) ltac:(lia)). unfold new_task in H. apply bind_inv in H as (x & s0 & [= <- <-] & H). minv H as u0 s1 H1. injection H1 as <- <-.
  minv H as pgd s1 H1. apply on_vm_inv in H1 as (v1 & ->). minv H as ks s1 H1. apply on_vm_inv in H1 as (v2 & ->).
  minv H as us s1 H1. apply on_vm_inv in H1 as (v3 & ->).
  rewrite (proj2 (Z.eqb_neq _ 1)), (proj2 (Z.eqb_neq _ 2)), (proj2 (Z.eqb_neq p 0)) in H by (done || lia).
  cbn [negb] in H. minv H as u1 s1 H1. injection H1 as <- <-. minv H as u2 s1 H1. apply wr_task_inv in H1 as (kp & Hkp & ->).
  minv H as nm s1 H1. destruct (strcpy _ _ _ _ _) as [nm'| | |]; [|done..]. injection H1 as <- <-.
  apply bind_inv in H as (x & s0 & [= <- <-] & H). minv H as u3 s1 H1. injection H1 as <- <-.
  minv H as u4 s1 H1. injection H1 as <- <-. injection H as <- <-. cbn in *.
  split; [done|]. eexists kp, _. split_and!; done.
Qed.

Lemma enqueue_task_inv t s u s' : enqueue_task t s = Ret (u, s') ->
  exists s1, same_tree s s1 /\ sy_runqueue s1 = sy_runqueue s /\ same_tree (set_sy_runqueue (sy_runqueue s1 ++ [t]) s1) s'.
Proof.
  unfold enqueue_task, guarded. intros H. minv H as u1 s1 H1. pose proof (quiet_cpu _ _ _ _ H1) as S1.
  assert (Q1 : sy_runqueue s1 = sy_runqueue s).
  { unfold zoom in H1. destruct (lock (cpu_of s)) as [[? ?]| | |]; [|done..]. by injection H1 as <- <-. }
  minv H as u2 s2 H2. destruct (t =? 0); [done|]. minv H2 as u3 s3 H3. injection H2 as <- <-.
  minv H as u4 s4 H4. injection H as <- <-. pose proof (quiet_cpu _ _ _ _ H4) as S4.
  pose proof H3 as (k & Hk & ->)%wr_task_inv. exists (set_sy_tasks (<[t := with_run RUNNING (t_error_code k) (t_time_slice k) k]> (sy_tasks s1)) s1).
  split_and!; [|done|done]. etransitivity; [exact S1|]. by apply (quiet_wr_task t _ s1) in H3.
Qed.

Lemma tree_enqueue s t p kp : tree s -> sy_tasks s !! p = Some kp -> t ∈ t_active kp -> t ∉ sy_runqueue s ->
  tree (set_sy_runqueue (sy_runqueue s ++ [t]) s).
Proof.
  intros Ht Hp Hin Hni. pose proof (tb_family _ _ Ht) as Hf. destruct (fam_lists _ _ Hf p kp Hp) as [Hn Hl].
  assert (Hpar : parent (sy_tasks s) t = Some p) by (apply Hl, elem_of_app; by left).
  apply (tree_change [] [] s); try done; cbn.
  - intros x k Hx. eauto.
  - apply NoDup_app. split_and!; [apply Ht| |apply NoDup_singleton]. intros x Hx ->%list_elem_of_singleton. done.
  - intros x [Hx| ->%list_elem_of_singleton]%elem_of_app; [by apply Ht|].
    split_and!; [apply parent_inv in Hpar as (k & ? & _); eauto|apply not_elem_of_nil|].
    intros (q & kq & Hq & Hz). destruct (fam_lists _ _ Hf q kq Hq) as [_ Hlq].
    assert (parent (sy_tasks s) t = Some q) by (apply Hlq, elem_of_app; by right). assert (q = p) as -> by congruence.
    assert (kq = kp) as -> by congruence. apply NoDup_app in Hn as (_ & Hdis & _). by apply (Hdis t).
Qed.

Lemma tree_fork rootfs saved out t s r s' : tree s -> sy_next_pid s + 1 < 2 ^ 32 -> fork rootfs saved out t s = Ret (r, s') -> r <> -1 -> tree s'.
Proof.
  intros Ht Hwrap H Hr. unfold fork, guarded in H. minv H as u0 s0 H0. pose proof (quiet_cpu _ _ _ _ H0) as S0.
  rewrite <- (st_pid _ _ S0) in Hwrap.
  minv H as r1 s9 H9. minv H as u8 s8 H8. injection H as <- <-. pose proof (quiet_cpu _ _ _ _ H8) as S8.
  apply (tree_same _ _ _ S8). clear H8 S8. apply (tree_same _ _ _ S0) in Ht. clear H0 S0 s.
  minv H9 as k s1 H1. apply rd_task_inv in H1 as [Hk ->]. minv H9 as u1 s1 H1.
  pose proof H1 as S1. apply (quiet_wr_task t _ s0) in S1; [|done]. rewrite <- (st_pid _ _ S1) in Hwrap.
  apply (tree_same [] s0 s1 S1) in Ht. clear S1.
  assert (Hst : exists k1, sy_tasks s1 !! t = Some k1) by (apply wr_task_inv in H1 as (k1 & _ & ->); cbn; rewrite lookup_insert_eq; eauto).
  destruct Hst as [k1 Hk1]. clear H1. minv H9 as child s2 H2.
  apply new_task_inv in H2 as (-> & kp & kid & Hkp & Hts & Hl & Hpar & Hpid & E1 & E2 & E3 & E4 & Eq);
    [|apply Ht|done|intros ->; rewrite (fam_nonnull _ _ (tb_family _ _ Ht)) in Hk1; done].
  assert (T2 : tree s2).
  { eapply tree_same, (tree_spawn s1 t kp kid Ht Hkp Hl Hpar Hpid). split; cbn; [by rewrite Hts|congruence..|by rewrite Eq]. }
  assert (Hti : t <> sy_next_id s1) by (pose proof (tb_ids _ _ Ht t (mk_is_Some _ _ Hk1)); lia).
  assert (Hnq : sy_next_id s1 ∉ sy_runqueue s2).
  { rewrite Eq. intros Hin. destruct (tb_queue _ _ Ht _ Hin) as (He & _). pose proof (tb_ids _ _ Ht _ He). lia. }
  minv H9 as c s3 H3. apply rd_task_inv in H3 as [Hc ->]. destruct (_ || _).
  { minv H9 as u5 s5 H5. by injection H9 as <- <-. }
  minv H9 as u5 s5 H5. apply enqueue_task_inv in H5 as (s6 & S6 & Q6 & S5).
  assert (T5 : tree s5).
  { apply (tree_same _ _ _ S5). destruct (fview_lookup _ _ t (with_family (t_parent kp) (t_active kp ++ [sy_next_id s1]) (t_terminated kp) kp)
      (st_tasks _ _ S6)) as (k6 & Hk6 & (_ & Ea & _)%fview_eq); [by rewrite Hts, lookup_insert_ne, lookup_insert_eq by done|].
    apply (tree_enqueue s6 _ t k6); [by apply (tree_same _ _ _ S6)|done| |by rewrite Q6].
    rewrite Ea. cbn. apply elem_of_app. right. by apply list_elem_of_singleton. }
  eapply tree_quiet; [|exact H9|exact T5]. quiet_tac.
Qed.

(** ** Theorems *)

(** The calls that change the tree, on the current task or a new child: a fork
    that succeeds, while the counter of pids has not reached its last value. *)
Inductive tree_step : Sys -> Sys -> Prop :=
| step_fork rootfs saved out s r s' : fork rootfs saved out (sy_current s) s = Ret (r, s') -> r <> -1 -> sy_next_pid s + 1 < 2 ^ 32 -> tree_step s s'
| step_exit code s s' : exit (sy_current s) code s = Ret (tt, s') -> tree_step s s'
| step_wait s r s' : wait_poll (sy_current s) s = Ret (r, s') -> tree_step s s'
| step_schedule s s' : schedule s = Ret (tt, s') -> tree_step s s'.

Lemma tree_steps s s' : rtc tree_step s s' -> tree s -> tree s'.
Proof.
  induction 1 as [|s s1 s2 Hst _ IH]; [done|]. intros Ht. apply IH. destruct Hst.
  - by eapply tree_fork.
  - by eapply tree_exit.
  - by eapply tree_wait_poll.
  - by eapply tree_quiet; [apply quiet_schedule|..].
Qed.

(** C19. From a consistent process tree, whatever sequence of exits, waits,
    switches and of forks that succeed before the 32-bit counter of pids wraps
    is run, the tree stays consistent (every task is listed once, by its parent;
    pids are distinct; no terminated task is queued to run; orphans of a reaped
    task are children of init; init is not destroyed), and [get_by_pid] then
    decides: it returns the task with that pid if one is an active descendant
    of init, and null otherwise, and [get_active_tasks] lists the descendants
    of init, each once after the first two entries.  A fork that fails after it
    has made the child leaves the tree inconsistent, and is no step here. *)
Theorem tree_consistent_and_searched s s' : tree s -> rtc tree_step s s' ->
  tree s' /\
  (exists W, get_active_tasks s' = Ret (sy_init s' :: sy_kthreadd s' :: W, s') /\ NoDup W /\
     forall t, t ∈ W <-> descendant (sy_tasks s') (sy_init s') t) /\
  (forall p c kc, descendant (sy_tasks s') (sy_init s') p -> child_of_task (sy_tasks s') p c -> sy_tasks s' !! c = Some kc ->
     t_pid kc <> 1 -> t_pid kc <> 2 -> get_by_pid (t_pid kc) s' = Ret (c, s')) /\
  (forall pid, pid <> 1 -> pid <> 2 ->
     (forall p c kc, descendant (sy_tasks s') (sy_init s') p -> child_of_task (sy_tasks s') p c -> sy_tasks s' !! c = Some kc -> t_pid kc <> pid) ->
     get_by_pid pid s' = Ret (0, s')).
Proof.
  intros Ht Hst. apply (tree_steps _ _ Hst) in Ht. pose proof Ht as [Hf Hi _ _ _ Hd _ _ _]. split_and!; [done|..].
  - by apply get_active_tasks_run.
  - intros p c kc. by apply get_by_pid_found.
  - intros pid H1 H2 Hno. destruct (get_by_pid_run s' pid) as (t & -> & [(_ & p & k & Hp & Hc & Hk & He)|[-> _]]); [done..| |done].
    by destruct (Hno p t k).
Qed.

(** ** Witness *)

Definition kin (pid parent : Z) (active : list Z) : Task :=
  mkTask (mkContext [] 0 0) true parent active [] RUNNING 0 pid TASK_TIME_SLICE 0 0 (mkPage 0 0) (mkPage 0 0) 0 [115; 104; 0] []
    (replicate 12 0) demo_fds 0 true.
Definition kin_tasks : tasks := <[1 := kin 1 0 [3]]> (<[2 := kin 2 0 []]> (<[3 := kin 3 1 [4]]> (<[4 := kin 4 3 []]> ∅))).
Definition kin_sys : Sys := mkSys (mkVM fresh_kernel (fun _ => 0)) kin_tasks 5 5 1 2 3 false [3; 1; 2; 4] [] 10.

Lemma kin_lookup t k : kin_tasks !! t = Some k ->
  (t = 1 /\ k = kin 1 0 [3]) \/ (t = 2 /\ k = kin 2 0 []) \/ (t = 3 /\ k = kin 3 1 [4]) \/ (t = 4 /\ k = kin 4 3 []).
Proof.
  unfold kin_tasks. intros H. repeat (apply lookup_insert_Some in H as [[<- <-]|[_ H]]; [tauto|]). by apply lookup_empty_Some in H.
Qed.

Lemma kin_tree : tree kin_sys.
Proof.
  assert (HP : forall c p, parent kin_tasks c = Some p <-> (c = 1 /\ p = 0) \/ (c = 2 /\ p = 0) \/ (c = 3 /\ p = 1) \/ (c = 4 /\ p = 3)).
  { intros c p. split.
    - intros (k & Hk & <-)%parent_inv. apply kin_lookup in Hk. naive_solver.
    - intros [[-> ->]|[[-> ->]|[[-> ->]|[-> ->]]]]; reflexivity. }
  assert (Hz : forall t, ~ terminated_by_someone kin_tasks t).
  { intros t (p & k & Hk & Hin). apply kin_lookup in Hk. destruct Hk as [[-> ->]|[[-> ->]|[[-> ->]|[-> ->]]]]; by apply elem_of_nil in Hin. }
  split; cbn.
  - split; [reflexivity| | |by intros c ?%elem_of_nil|constructor].
    + intros p k Hk. setoid_rewrite HP. apply kin_lookup in Hk.
      assert (Hnil : forall c : Z, c ∉ @nil Z) by (intros; apply not_elem_of_nil).
      destruct Hk as [[-> ->]|[[-> ->]|[[-> ->]|[-> ->]]]]; (split; [repeat constructor; set_solver|]);
        intros c; unfold listed; cbn; rewrite ?list_elem_of_singleton, ?elem_of_nil; specialize (Hnil c); naive_solver lia.
    + intros c p Hc%HP _. destruct Hc as [[-> ->]|[[-> ->]|[[-> ->]|[-> ->]]]]; [by left|by left|right; cbn; eauto..].
  - by eexists.
  - by eexists.
  - intros t [k Hk]. apply kin_lookup in Hk. naive_solver lia.
  - intros t k Hk. apply kin_lookup in Hk. naive_solver.
  - intros a b ka kb Ha%kin_lookup Hb%kin_lookup. naive_solver.
  - done.
  - apply (bool_decide_unpack _). by vm_compute.
  - intros t Ht. split_and!; [|apply not_elem_of_nil|apply Hz].
    repeat (apply elem_of_cons in Ht as [->|Ht]; [by eexists|]). by apply elem_of_nil in Ht.
Qed.

Definition kin_context : Context := mkContext (replicate 11 0) 0 0.

Lemma kin_forks :
  match fork 7 kin_context 0 (sy_current kin_sys) kin_sys with
  | Ret (r, s1) => match exit (sy_current s1) 7 s1 with Ret _ => r =? 5 | _ => false end
  | _ => false
  end = true.
Proof. vm_compute. reflexivity. Qed.

(** A search, and a fork followed by the exit of the parent. *)
Lemma tree_consistent_and_searched_witness :
  get_by_pid 4 kin_sys = Ret (4, kin_sys) /\
  exists s1 s2, fork 7 kin_context 0 (sy_current kin_sys) kin_sys = Ret (5, s1) /\ exit (sy_current s1) 7 s1 = Ret (tt, s2) /\ tree s2.
Proof.
  split.
  - destruct (tree_consistent_and_searched kin_sys kin_sys kin_tree (rtc_refl _ _)) as (_ & _ & H & _).
    apply (H 3 4 (kin 4 3 [])); [|by exists (kin 3 1 [4]); split; [|left]|done..].
    apply (desc_child _ _ 1); [constructor|]. exists (kin 1 0 [3]). split; [done|left].
  - pose proof kin_forks as Hb. destruct (fork 7 kin_context 0 (sy_current kin_sys) kin_sys) as [[r s1]| | |] eqn:E1; [|done..].
    destruct (exit (sy_current s1) 7 s1) as [[[] s2]| | |] eqn:E2; [|done..]. apply Z.eqb_eq in Hb as ->.
    exists s1, s2. split; [done|]. split; [exact E2|]. apply (tree_consistent_and_searched kin_sys s2 kin_tree).
    apply (rtc_l _ _ s1); [by apply (step_fork 7 kin_context 0 kin_sys 5 s1)|]. apply rtc_once. by apply (step_exit 7).
Defined.

(** The child of a task that has exited is not found, nor signalled, until the
    parent of that task waits for it. *)
Lemma orphan_not_found : exists s', exit 3 7 kin_sys = Ret (tt, s') /\ get_by_pid 4 s' = Ret (0, s') /\ is_Some (sy_tasks s' !! 4).
Proof. eexists. split; [vm_compute; reflexivity|]. split; [vm_compute; reflexivity|]. vm_compute. eauto. Qed.
