(* ===== verification/Encoding.v ===== *)
(** * lib/Encoding.cc: UTF-8 and UCS-2

    The conversions work on arrays; a write past the end of the destination
    faults.  They are inverse on characters of one and of three bytes; those of
    two bytes are converted wrongly in both directions. *)

From Stdlib Require Import ZArith Lia.
From stdpp Require Import base list numbers sets.
From S2P Require Import Prelude CString.

Open Scope Z_scope.

Definition wr {A} (l : list A) (i : Z) (x : A) : outcome (list A) :=
  match arr_set l i x with Some l => Ret l | None => Fault end.

(** ** The conversions *)

(** The character at [src[i]] and how many bytes it takes. *)
Definition utf2ucs_char (src : reader) (i : Z) : outcome (Z * Z) :=
  c ← rd src i;
  three ← (if Z.land c 0x80 =? 0 then Ret false else c1 ← rd src (i + 1); Ret (negb (Z.land c1 0x80 =? 0)));
  if (three : bool) then
    c1 ← rd src (i + 1);
    c2 ← rd src (i + 2);
    let temp := Z.lor 0 (u16 (Z.shiftl (Z.land c 0xf) 12)) in
    let temp := Z.lor temp (u16 (Z.shiftl (Z.land c1 0x3f) 6)) in
    Ret (Z.lor temp (Z.land c2 0x3f), 3)
  else
    two ← (if Z.land c 0x80 =? 0 then Ret false else c1 ← rd src (i + 1); Ret (negb (Z.land c1 0xc0 =? 0)));
    if (two : bool) then
      c1 ← rd src (i + 1);
      Ret (Z.lor (Z.lor 0 (Z.shiftl (Z.land c 0x1f) 6)) (Z.land c1 0x3f), 2)
    else Ret (c, 1).

Fixpoint utf2ucs_loop (fuel : nat) (dst : list Z) (src : reader) (i j : Z) : outcome (list Z) :=
  match fuel with
  | O => OutOfFuel
  | S fuel =>
      c ← rd src i;
      if c =? 0 then wr dst j 0
      else
        cn ← utf2ucs_char src i;
        dst ← wr dst j (fst cn);
        utf2ucs_loop fuel dst src (i + snd cn) (j + 1)
  end.
(** [fuel] is more than the characters of [src]. *)
Definition utf2ucs (fuel : nat) (dst : list Z) (src : reader) : outcome (list Z) := utf2ucs_loop fuel dst src 0 0.

(** The bytes of a character. *)
Definition ucs2utf_char (c : Z) : list Z :=
  if c <? 0x80 then [u8 c]
  else if c <? 0x800 then [u8 (Z.lor (Z.land (Z.land c 0x3f) 0x1f) 0xc0); u8 (Z.lor (Z.land c 0x3f) 0x80)]
  else
    [u8 (Z.lor 0 (Z.lor (Z.land (u8 (Z.shiftr c 12)) 0xf) 0xe0));
     u8 (Z.lor 0 (Z.lor (Z.land (u8 (Z.shiftr c 6)) 0x3f) 0x80));
     u8 (Z.lor 0 (Z.lor (Z.land (u8 c) 0x3f) 0x80))].

(** [dst[j], dst[j + 1], ...] *)
Fixpoint wr_bytes (dst : list Z) (j : Z) (bytes : list Z) : outcome (list Z) :=
  match bytes with [] => Ret dst | b :: bytes => dst ← wr dst j b; wr_bytes dst (j + 1) bytes end.

Fixpoint ucs2utf_loop (fuel : nat) (dst : list Z) (src : reader) (i j : Z) : outcome (list Z) :=
  match fuel with
  | O => OutOfFuel
  | S fuel =>
      c ← rd src i;
      if c =? 0 then wr dst j 0
      else
        let bytes := ucs2utf_char c in
        dst ← wr_bytes dst j bytes;
        ucs2utf_loop fuel dst src (i + 1) (j + Z.of_nat (length bytes))
  end.
Definition ucs2utf (fuel : nat) (dst : list Z) (src : reader) : outcome (list Z) := ucs2utf_loop fuel dst src 0 0.

(** ** Correctness *)

(** Characters that UTF-8 encodes in one or in three bytes. *)
Definition good_char (c : Z) : Prop := 0 < c < 0x80 \/ 0x800 <= c < 0x10000.

(** Decoding what [ucs2utf_char] gives. *)
Definition decode (bytes : list Z) : Z :=
  match bytes with
  | [b] => b
  | [b; b1; b2] => Z.lor (Z.lor (Z.lor 0 (u16 (Z.shiftl (Z.land b 0xf) 12))) (u16 (Z.shiftl (Z.land b1 0x3f) 6))) (Z.land b2 0x3f)
  | _ => -1
  end.
Definition three_ok (c : Z) : bool :=
  match ucs2utf_char c with
  | [b; b1; b2] => (decode [b; b1; b2] =? c) && negb (Z.land b 0x80 =? 0) && negb (Z.land b1 0x80 =? 0) && negb (b =? 0)
  | _ => false
  end.
Lemma all_three_ok : all_from (Z.to_nat 0xf800) three_ok 0x800 = true.
Proof. by vm_compute. Qed.

Lemma three_bytes c : 0x800 <= c < 0x10000 -> exists b b1 b2, ucs2utf_char c = [b; b1; b2] /\ decode [b; b1; b2] = c /\
  b <> 0 /\ Z.land b 0x80 <> 0 /\ Z.land b1 0x80 <> 0.
Proof.
  intros Hc. pose proof (all_from_spec _ _ _ c all_three_ok) as H. rewrite Z2Nat.id in H by lia. specialize (H ltac:(lia)).
  unfold three_ok in H. destruct (ucs2utf_char c) as [|b [|b1 [|b2 [|]]]]; try done. exists b, b1, b2.
  rewrite !andb_true_iff, !negb_true_iff, Z.eqb_eq, !Z.eqb_neq in H. tauto.
Qed.

Lemma one_byte_small c : 0 < c < 0x80 -> Z.land c 0x80 = 0.
Proof.
  intros Hc. assert (H : all_from 127 (fun c => Z.land c 0x80 =? 0) 1 = true) by (by vm_compute).
  apply Z.eqb_eq. apply (all_from_spec _ _ _ c H). lia.
Qed.

(** The units or bytes at an address, then a terminator. *)
Definition text_at (src : reader) (i : Z) (l : list Z) : Prop :=
  (forall k c, l !! k = Some c -> rd src (i + Z.of_nat k) = Ret c) /\ rd src (i + Z.of_nat (length l)) = Ret 0.

Lemma text_at_app src i l l' : text_at src i (l ++ l') -> (forall k c, l !! k = Some c -> rd src (i + Z.of_nat k) = Ret c) /\ text_at src (i + Z.of_nat (length l)) l'.
Proof.
  intros [H0 H1]. split.
  - intros k c Hk. apply H0. by apply lookup_app_l_Some.
  - split.
    + intros k c Hk. rewrite <- Z.add_assoc, <- Nat2Z.inj_add. apply H0. rewrite lookup_app_r by lia. by replace (length l + k - length l)%nat with k by lia.
    + by rewrite length_app, Nat2Z.inj_add, Z.add_assoc in H1.
Qed.

Lemma wr_bytes_run dst out bytes : holds dst out -> (length out + length bytes <= length dst)%nat ->
  exists dst', wr_bytes dst (Z.of_nat (length out)) bytes = Ret dst' /\ length dst' = length dst /\ holds dst' (out ++ bytes).
Proof.
  revert dst out. induction bytes as [|b bytes IH]; intros dst out Hh Hl; cbn [wr_bytes].
  { exists dst. by rewrite app_nil_r. }
  simpl in Hl. destruct (holds_app dst out b Hh ltac:(lia)) as [Hs Hh']. unfold wr. rewrite Hs. cbn [mbind outcome_bind].
  destruct (IH (<[length out := b]> dst) (out ++ [b]) Hh') as (d & Hr & Hlen & Hd); [rewrite length_insert, length_app; simpl; lia|].
  rewrite length_app in Hr. simpl in Hr. replace (Z.of_nat (length out) + 1) with (Z.of_nat (length out + 1)) by lia.
  exists d. rewrite length_insert in Hlen. rewrite <- app_assoc in Hd. done.
Qed.

Definition encoded (l : list Z) : list Z := concat (map ucs2utf_char l).

Lemma ucs2utf_run fuel dst src i out l : text_at src i l -> Forall (fun c => c <> 0) l -> holds dst out ->
  (length out + length (encoded l) < length dst)%nat -> (length l < fuel)%nat ->
  exists dst', ucs2utf_loop fuel dst src i (Z.of_nat (length out)) = Ret dst' /\ holds dst' (out ++ encoded l ++ [0]).
Proof.
  revert fuel dst i out. induction l as [|c l IH]; intros fuel dst i out Ht Hnz Hh Hl Hf; (destruct fuel as [|fuel]; [simpl in Hf; lia|]); cbn [ucs2utf_loop].
  - destruct Ht as [_ Ht]. rewrite Z.add_0_r in Ht. rewrite Ht. cbn [mbind outcome_bind]. rewrite Z.eqb_refl. simpl in Hl.
    destruct (holds_app dst out 0 Hh ltac:(lia)) as [Hs Hh']. unfold wr. rewrite Hs. eauto.
  - apply list.Forall_cons in Hnz as [Hc Hnz]. destruct (text_at_app src i [c] l Ht) as [H0 H1].
    specialize (H0 0%nat c eq_refl). rewrite Z.add_0_r in H0. rewrite H0. cbn [mbind outcome_bind]. rewrite (proj2 (Z.eqb_neq c 0) Hc).
    unfold encoded in Hl |- *. cbn [map concat] in *. rewrite length_app in Hl.
    destruct (wr_bytes_run dst out (ucs2utf_char c) Hh ltac:(lia)) as (d & -> & Hlen & Hd). cbn [mbind outcome_bind].
    rewrite <- Nat2Z.inj_add, <- length_app. destruct (IH fuel d (i + 1) _ H1 Hnz Hd) as (d' & Hr & Hd');
      [rewrite length_app; unfold encoded; lia|simpl in Hf; lia|].
    exists d'. rewrite <- !app_assoc in *. done.
Qed.

Lemma utf2ucs_run fuel dst src i out l : text_at src i (encoded l) -> Forall good_char l -> holds dst out ->
  (length out + length l < length dst)%nat -> (length l < fuel)%nat ->
  exists dst', utf2ucs_loop fuel dst src i (Z.of_nat (length out)) = Ret dst' /\ holds dst' (out ++ l ++ [0]).
Proof.
  revert fuel dst i out. induction l as [|c l IH]; intros fuel dst i out Ht Hg Hh Hl Hf; (destruct fuel as [|fuel]; [simpl in Hf; lia|]); cbn [utf2ucs_loop].
  - destruct Ht as [_ Ht]. rewrite Z.add_0_r in Ht. rewrite Ht. cbn [mbind outcome_bind]. rewrite Z.eqb_refl. simpl in Hl.
    destruct (holds_app dst out 0 Hh ltac:(lia)) as [Hs Hh']. unfold wr. rewrite Hs. eauto.
  - apply list.Forall_cons in Hg as [Hc Hg]. unfold encoded in Ht. cbn [map concat] in Ht. fold (encoded l) in Ht.
    destruct (text_at_app src i _ _ Ht) as [H0 H1]. simpl in Hl, Hf.
    assert (Hchar : exists b, rd src i = Ret b /\ b <> 0 /\ utf2ucs_char src i = Ret (c, Z.of_nat (length (ucs2utf_char c)))).
    { destruct Hc as [Hc|Hc].
      - pose proof (one_byte_small c Hc) as Hz. assert (Hb : ucs2utf_char c = [c]).
        { unfold ucs2utf_char. rewrite (proj2 (Z.ltb_lt c 0x80)) by lia. by rewrite u8_id by lia. }
        rewrite Hb in H0 |- *. specialize (H0 0%nat c eq_refl). rewrite Z.add_0_r in H0. exists c. split_and!; [done|lia|].
        unfold utf2ucs_char. rewrite H0. cbn [mbind outcome_bind]. by rewrite Hz.
      - destruct (three_bytes c Hc) as (b & b1 & b2 & Hb & Hdec & Hb0 & Hb8 & Hb18). rewrite Hb in H0 |- *.
        pose proof (H0 0%nat b eq_refl) as E0. pose proof (H0 1%nat b1 eq_refl) as E1. pose proof (H0 2%nat b2 eq_refl) as E2.
        rewrite Z.add_0_r in E0. exists b. split_and!; [done|done|]. unfold utf2ucs_char. rewrite E0. cbn [mbind outcome_bind].
        rewrite (proj2 (Z.eqb_neq _ 0) Hb8). change (i + 1) with (i + Z.of_nat 1). rewrite E1. cbn [mbind outcome_bind].
        rewrite (proj2 (Z.eqb_neq _ 0) Hb18). cbn [negb]. change (i + 2) with (i + Z.of_nat 2). rewrite E2. cbn [mbind outcome_bind].
        rewrite <- Hdec at 1. done. }
    destruct Hchar as (b & Hb & Hb0 & Hch). rewrite Hb. cbn [mbind outcome_bind]. rewrite (proj2 (Z.eqb_neq b 0) Hb0), Hch.
    cbn [mbind outcome_bind fst snd]. destruct (holds_app dst out c Hh ltac:(lia)) as [Hs Hh']. unfold wr. rewrite Hs. cbn [mbind outcome_bind].
    destruct (IH fuel (<[length out := c]> dst) _ (out ++ [c]) H1 Hg Hh') as (d' & Hr & Hd');
      [rewrite length_insert, length_app; simpl; lia|lia|].
    rewrite length_app in Hr. simpl in Hr. replace (Z.of_nat (length out) + 1) with (Z.of_nat (length out + 1)) by lia.
    exists d'. rewrite <- app_assoc in Hd'. done.
Qed.

(** ** Claims *)

(** For a string of characters that take one or three bytes in UTF-8 and
    buffers with room for the results, converting from UCS-2 and back gives the
    string again, with its terminator. *)
Theorem ucs2_utf8_roundtrip l src dst dst2 fuel fuel2 :
  Forall good_char l -> text_at src 0 l -> (length (encoded l) < length dst)%nat -> (length l < length dst2)%nat ->
  (length l < fuel)%nat -> (length l < fuel2)%nat ->
  exists bytes units, ucs2utf fuel dst src = Ret bytes /\ text_at (arr_get bytes) 0 (encoded l) /\
    utf2ucs fuel2 dst2 (arr_get bytes) = Ret units /\ take (S (length l)) units = l ++ [0].
Proof.
  intros Hg Ht Hd Hd2 Hf Hf2.
  assert (Hnz : Forall (fun c => c <> 0) l) by (eapply Forall_impl; [exact Hg|]; intros c [?|?]; lia).
  destruct (ucs2utf_run fuel dst src 0 [] l Ht Hnz (holds_nil _) Hd Hf) as (bytes & Hr & Hb). simpl in Hb.
  assert (Hta : text_at (arr_get bytes) 0 (encoded l)).
  { split; [intros k c Hk|]; rewrite Z.add_0_l; unfold rd; rewrite arr_get_nat, (holds_lookup bytes _ _ Hb).
    - by rewrite (lookup_app_l_Some _ _ _ _ Hk).
    - rewrite length_app. simpl. pose proof (lookup_lt_Some _ _ _ Hk). lia.
    - by rewrite lookup_app_r, Nat.sub_diag by lia.
    - rewrite length_app. simpl. lia. }
  destruct (utf2ucs_run fuel2 dst2 (arr_get bytes) 0 [] l Hta Hg (holds_nil _) Hd2 Hf2) as (units & Hr2 & Hu).
  exists bytes, units. split_and!; [exact Hr|exact Hta|exact Hr2|].
  unfold holds in Hu. simpl in Hu. rewrite length_app, Nat.add_1_r in Hu. exact Hu.
Qed.

(** A character of two bytes is encoded wrongly (U+00E9 becomes U+0029 of two
    bytes), and the bytes of one are decoded as if there were three. *)
Example two_bytes_wrong : ucs2utf_char 0xe9 = [0xc9; 0xa9] /\
  utf2ucs_char (arr_get [0xc3; 0xa9; 0x61; 0]) 0 = Ret (0x3a61, 3).
Proof. by vm_compute. Qed.

(** "A" and U+4E2D. *)
Lemma ucs2_utf8_roundtrip_witness : exists bytes units,
  ucs2utf 3 (replicate 8 0) (arr_get [65; 0x4e2d; 0]) = Ret bytes /\ utf2ucs 3 (replicate 4 0) (arr_get bytes) = Ret units /\
  take 3 units = [65; 0x4e2d; 0].
Proof.
  destruct (ucs2_utf8_roundtrip [65; 0x4e2d] (arr_get [65; 0x4e2d; 0]) (replicate 8 0) (replicate 4 0) 3 3) as (b & u & H1 & _ & H2 & H3).
  - apply list.Forall_cons. split; [left; lia|]. apply list.Forall_cons. split; [right; lia|]. apply list.Forall_nil. exact I.
  - split; [|reflexivity]. intros [|[|k]] c Hk; [injection Hk as <-; reflexivity|injection Hk as <-; reflexivity|discriminate Hk].
  - vm_compute. lia.
  - simpl. lia.
  - simpl. lia.
  - simpl. lia.
  - exists b, u. split; [exact H1|]. split; [exact H2|exact H3].
Defined.
