(* ===== verification/Disk.v ===== *)
(** * dev/StorageDevice.cc, dev/DiskPartition.cc, include/dev/MasterBootRecord.h: disks

    A disk is the bytes of its blocks of 512 bytes; the file systems
    take the driver of the SD card to read and write whole blocks, which SdSpec.v
    shows of it.  Integers on disk are little-endian. *)

From Stdlib Require Import ZArith Lia.
From stdpp Require Import base gmap list numbers.
From S2P Require Import Prelude.

Open Scope Z_scope.

Definition BLOCK_SIZE : Z := 512.

(** A block that was never written reads as zeros. *)
Definition Disk : Type := gmap Z (list Z).
Definition block_at (d : Disk) (i : Z) : list Z := default (replicate (Z.to_nat BLOCK_SIZE) 0) (d !! i).

(** ** Bytes *)

(** [*reinterpret_cast<uintN_t *>(b + i)] *)
Definition get8 (b : list Z) (i : Z) : outcome Z := match arr_get b i with Some x => Ret x | None => Fault end.
Definition get16 (b : list Z) (i : Z) : outcome Z := lo ← get8 b i; hi ← get8 b (i + 1); Ret (lo + 256 * hi).
Definition get32 (b : list Z) (i : Z) : outcome Z := lo ← get16 b i; hi ← get16 b (i + 2); Ret (lo + 65536 * hi).

Definition set8 (b : list Z) (i x : Z) : outcome (list Z) := match arr_set b i (u8 x) with Some b => Ret b | None => Fault end.
Definition set16 (b : list Z) (i x : Z) : outcome (list Z) := b ← set8 b i x; set8 b (i + 1) (x / 256).
Definition set32 (b : list Z) (i x : Z) : outcome (list Z) := b ← set16 b i x; set16 b (i + 2) (x / 65536).

(** [memcpy(b + i, bytes, length(bytes))] *)
Fixpoint set_bytes (b : list Z) (i : Z) (bytes : list Z) : outcome (list Z) :=
  match bytes with [] => Ret b | x :: bytes => b ← set8 b i x; set_bytes b (i + 1) bytes end.

(** The [n] bytes at [b + i]. *)
Fixpoint get_bytes (n : nat) (b : list Z) (i : Z) : outcome (list Z) :=
  match n with O => Ret [] | S n => x ← get8 b i; rest ← get_bytes n b (i + 1); Ret (x :: rest) end.

(** ** Partitions *)

Record Partition := mkPart { start_block : Z; end_block : Z }.

(** [DiskPartition::read_block] into [buf], which is left alone when the block
    is outside the partition; a buffer shorter than a block is overrun. *)
Definition part_read (p : Partition) (d : Disk) (block_index : Z) (buf : list Z) : outcome (list Z) :=
  if end_block p <? u32 (start_block p + block_index) then Ret buf
  else if decide (Z.of_nat (length buf) < BLOCK_SIZE) then Fault
  else Ret (block_at d (u32 (start_block p + block_index)) ++ drop (Z.to_nat BLOCK_SIZE) buf).

Definition part_write (p : Partition) (d : Disk) (block_index : Z) (buf : list Z) : outcome Disk :=
  if end_block p <? u32 (start_block p + block_index) then Ret d
  else if decide (Z.of_nat (length buf) < BLOCK_SIZE) then Fault
  else Ret (<[u32 (start_block p + block_index) := take (Z.to_nat BLOCK_SIZE) buf]> d).

(** ** The master boot record *)

Definition NR_MAX_PARTITIONS : Z := 4.
(** Offsets of [partitions[i]] and of its fields [lba_addr_partition_start] and
    [nr_sectors]. *)
Definition partition_offset (i : Z) : Z := 446 + 16 * i.
Definition lba_offset : Z := 8.
Definition nr_sectors_offset : Z := 12.

(** The loop of [StorageDevice::StorageDevice], from entry [i] on. *)
Fixpoint scan_partitions (n : nat) (mbr : list Z) (i : Z) : outcome (list Partition) :=
  match n with
  | O => Ret []
  | S n =>
      start ← get32 mbr (partition_offset i + lba_offset);
      if start =? 0 then scan_partitions n mbr (i + 1)
      else
        sectors ← get32 mbr (partition_offset i + nr_sectors_offset);
        rest ← scan_partitions n mbr (i + 1);
        Ret (mkPart start (u32 (sectors + (start - 1))) :: rest)
  end.
Definition new_storage_device (d : Disk) : outcome (list Partition) :=
  scan_partitions (Z.to_nat (NR_MAX_PARTITIONS - 1)) (block_at d 0) 1.
Definition get_root_partition (ps : list Partition) : outcome Partition :=
  match ps with [] => Fault | p :: _ => Ret p end.

(** ** Lemmas *)

Definition bytes (b : list Z) : Prop := Forall (fun x => 0 <= x < 256) b.
Definition is_block (b : list Z) : Prop := length b = 512%nat /\ bytes b.
Definition disk_ok (d : Disk) : Prop := forall i b, d !! i = Some b -> is_block b.

Lemma block_at_ok d i : disk_ok d -> is_block (block_at d i).
Proof.
  intros Hd. unfold block_at. destruct (d !! i) as [b|] eqn:E; [by apply (Hd i)|]. split; [done|].
  apply Forall_replicate. lia.
Qed.

Lemma disk_ok_insert d i b : disk_ok d -> is_block b -> disk_ok (<[i := b]> d).
Proof. intros Hd Hb j c [[_ <-]|[_ H]]%lookup_insert_Some; [done|by apply (Hd j)]. Qed.

Lemma bytes_insert b i x : bytes b -> bytes (<[i := u8 x]> b).
Proof. intros. apply Forall_insert; [done|]. apply u8_range. Qed.

Lemma get8_byte b i : bytes b -> 0 <= i < Z.of_nat (length b) -> exists x, get8 b i = Ret x /\ 0 <= x < 256.
Proof.
  intros Hb Hi. destruct (arr_get_is_Some b i Hi) as [x Hx]. exists x. unfold get8. rewrite Hx. split; [done|].
  unfold arr_get in Hx. rewrite decide_True in Hx by lia. by apply (list.Forall_lookup_1 _ _ _ _ Hb Hx).
Qed.

Lemma get8_insert b i j x : 0 <= i < Z.of_nat (length b) ->
  get8 (<[Z.to_nat i := x]> b) j = if decide (j = i) then Ret x else get8 b j.
Proof.
  intros Hi. unfold get8. rewrite (arr_get_set b i j x) by (by apply arr_set_is_Some). repeat case_decide; congruence.
Qed.

Lemma get16_byte b i : bytes b -> 0 <= i -> i + 2 <= Z.of_nat (length b) -> exists v, get16 b i = Ret v /\ 0 <= v < 2 ^ 16.
Proof.
  intros Hb ??. destruct (get8_byte b i Hb) as (x & Hx & ?); [lia|]. destruct (get8_byte b (i + 1) Hb) as (y & Hy & ?); [lia|].
  exists (x + 256 * y). unfold get16. rewrite Hx, Hy. split; [done|lia].
Qed.

Lemma get32_byte b i : bytes b -> 0 <= i -> i + 4 <= Z.of_nat (length b) -> exists v, get32 b i = Ret v /\ 0 <= v < 2 ^ 32.
Proof.
  intros Hb ??. destruct (get16_byte b i Hb) as (x & Hx & ?); [lia..|]. destruct (get16_byte b (i + 2) Hb) as (y & Hy & ?); [lia..|].
  exists (x + 65536 * y). unfold get32. rewrite Hx, Hy. split; [done|lia].
Qed.

Lemma get16_ext b b' i : (forall k, i <= k < i + 2 -> get8 b' k = get8 b k) -> get16 b' i = get16 b i.
Proof. intros H. unfold get16. by rewrite !H by lia. Qed.

Lemma get32_ext b b' i : (forall k, i <= k < i + 4 -> get8 b' k = get8 b k) -> get32 b' i = get32 b i.
Proof. intros H. unfold get32. rewrite !(get16_ext b b'); [done|intros; apply H; lia..]. Qed.

(** [b'] is [b] but for the [n] bytes at [i]. *)
Definition updated (b b' : list Z) (i n : Z) : Prop :=
  length b' = length b /\ bytes b' /\ forall j, j < i \/ i + n <= j -> get8 b' j = get8 b j.

Lemma set8_run (b : list Z) i x : 0 <= i < Z.of_nat (length b) -> set8 b i x = Ret (<[Z.to_nat i := u8 x]> b).
Proof. intros Hi. unfold set8. by rewrite arr_set_is_Some. Qed.

Lemma set8_updated b i x : bytes b -> 0 <= i < Z.of_nat (length b) ->
  exists b', set8 b i x = Ret b' /\ updated b b' i 1 /\ get8 b' i = Ret (u8 x).
Proof.
  intros Hb Hi. rewrite set8_run by done. eexists. split; [done|]. split.
  - split_and!; [apply length_insert|by apply bytes_insert|]. intros j Hj. rewrite get8_insert by done. by rewrite decide_False by lia.
  - rewrite get8_insert by done. by rewrite decide_True.
Qed.

Lemma updated_trans b b1 b2 i n : updated b b1 i n -> updated b1 b2 (i + n) n -> updated b b2 i (n + n).
Proof.
  intros (? & ? & H1) (? & ? & H2). split_and!; [congruence|done|]. intros j Hj. destruct (decide (0 <= n)).
  - rewrite H2, H1 by lia. done.
  - rewrite H2, H1 by lia. done.
Qed.

Lemma set16_updated b i v : bytes b -> 0 <= i -> i + 2 <= Z.of_nat (length b) ->
  exists b', set16 b i v = Ret b' /\ updated b b' i 2 /\ get16 b' i = Ret (u16 v).
Proof.
  intros Hb Hi Hl. destruct (set8_updated b i v Hb) as (b1 & E1 & U1 & G1); [lia|].
  destruct (set8_updated b1 (i + 1) (v / 256) (proj1 (proj2 U1))) as (b2 & E2 & U2 & G2); [rewrite (proj1 U1); lia|].
  exists b2. split; [|split].
  - unfold set16. rewrite E1. cbn [mbind outcome_bind]. exact E2.
  - by apply (updated_trans _ b1 _ _ 1).
  - unfold get16. rewrite (proj2 (proj2 U2) i), G1, G2 by lia. cbn [mbind outcome_bind]. f_equal. unfold u8, u16. Z.div_mod_to_equations. lia.
Qed.

(** A word written to a buffer. *)
Lemma set32_updated b i v : bytes b -> 0 <= i -> i + 4 <= Z.of_nat (length b) ->
  exists b', set32 b i v = Ret b' /\ updated b b' i 4 /\ get32 b' i = Ret (u32 v).
Proof.
  intros Hb Hi Hl. destruct (set16_updated b i v Hb) as (b1 & E1 & U1 & G1); [lia..|].
  destruct (set16_updated b1 (i + 2) (v / 65536) (proj1 (proj2 U1))) as (b2 & E2 & U2 & G2); [lia|rewrite (proj1 U1); lia|].
  exists b2. split; [|split].
  - unfold set32. rewrite E1. cbn [mbind outcome_bind]. exact E2.
  - by apply (updated_trans _ b1 _ _ 2).
  - unfold get32. rewrite (get16_ext b1 b2 i), G1, G2 by (intros; apply (proj2 (proj2 U2)); lia).
    cbn [mbind outcome_bind]. f_equal. unfold u16, u32. Z.div_mod_to_equations. lia.
Qed.

Lemma get_bytes_run n b i : 0 <= i -> i + Z.of_nat n <= Z.of_nat (length b) ->
  get_bytes n b i = Ret (take n (drop (Z.to_nat i) b)).
Proof.
  revert i. induction n as [|n IH]; intros i Hi Hl; [done|]. cbn [get_bytes].
  destruct (arr_get_is_Some b i) as [x Hx]; [lia|]. unfold get8. rewrite Hx, IH by lia. cbn [mbind outcome_bind].
  unfold arr_get in Hx. rewrite decide_True in Hx by lia. rewrite (drop_S _ _ _ Hx).
  by replace (Z.to_nat (i + 1)) with (S (Z.to_nat i)) by lia.
Qed.

Lemma set_bytes_run b i e : bytes e -> 0 <= i -> i + Z.of_nat (length e) <= Z.of_nat (length b) ->
  set_bytes b i e = Ret (take (Z.to_nat i) b ++ e ++ drop (Z.to_nat i + length e) b).
Proof.
  intros He. revert b i. induction He as [|x e Hx He IH]; intros b i Hi Hl; cbn [set_bytes length app] in *.
  - by rewrite Nat.add_0_r, take_drop.
  - rewrite set8_run by lia. cbn [mbind outcome_bind]. rewrite u8_id by lia. rewrite IH by (rewrite ?length_insert; lia).
    replace (Z.to_nat (i + 1)) with (S (Z.to_nat i)) by lia.
    rewrite (take_S_r _ _ x) by (apply list_lookup_insert_eq; lia).
    rewrite take_insert_ge, drop_insert_lt by lia. rewrite <- app_assoc.
    by replace (Z.to_nat i + S (length e))%nat with (S (Z.to_nat i) + length e)%nat by lia.
Qed.
