(* ===== verification/Elf.v ===== *)
(** * include/fs/ELF.h: executables

    The header and the program headers of an executable, read from the bytes of
    its file.  A read outside the file faults: the code does not compare offsets
    with the length. *)

From Stdlib Require Import ZArith Lia.
From stdpp Require Import base gmap list numbers.
From S2P Require Import Prelude Disk.

Open Scope Z_scope.

Definition ELF_DEFAULT_BASE : Z := 0x400000.
Definition magic : list Z := [0x7f; 0x45; 0x4c; 0x46].

Definition get64 (b : list Z) (i : Z) : outcome Z := lo ← get32 b i; hi ← get32 b (i + 4); Ret (lo + 2 ^ 32 * hi).

(** ** Data *)

(** The fields of [ELF::Header] that are used, with their offsets. *)
Record ElfHeader := mkElfHeader { e_entry : Z; e_phoff : Z; e_phentsize : Z; e_phnum : Z }.
Definition off_entry : Z := 24.
Definition off_phoff : Z := 32.
Definition off_phentsize : Z := 54.
Definition off_phnum : Z := 56.

Definition SEGMENT_LOAD : Z := 1.
Definition SEG_X : Z := 1.
Definition SEG_W : Z := 2.
Definition SEG_R : Z := 4.

Record Segment := mkSegment {
  seg_type : Z;
  seg_flags : Z;
  seg_file_offset : Z;
  seg_virtual_address : Z;
  seg_physical_address : Z;
  seg_physical_size : Z;
  seg_virtual_size : Z;
  seg_alignment : Z
}.
#[export] Instance segment_eq_dec : EqDecision Segment.
Proof. solve_decision. Defined.

(** [_base], [_elf_header->...] and [_segments]; without a file, the base is null. *)
Record ELF := mkELF { elf_base : option (list Z); elf_segments : list Segment }.

(** ** Operations *)

(** [*reinterpret_cast<const Segment *>(ptr)] *)
Definition read_segment (b : list Z) (ptr : Z) : outcome Segment :=
  ty ← get32 b ptr;
  flags ← get32 b (ptr + 4);
  off ← get64 b (ptr + 8);
  va ← get64 b (ptr + 16);
  pa ← get64 b (ptr + 24);
  fsz ← get64 b (ptr + 32);
  msz ← get64 b (ptr + 40);
  al ← get64 b (ptr + 48);
  Ret (mkSegment ty flags off va pa fsz msz al).

(** [for (int i = 0; i < _elf_header->phnum; i++)] *)
Fixpoint read_segments (n : nat) (b : list Z) (phentsize ptr : Z) : outcome (list Segment) :=
  match n with
  | O => Ret []
  | S n => seg ← read_segment b ptr; rest ← read_segments n b phentsize (ptr + phentsize); Ret (seg :: rest)
  end.

(** [ELF(file)]: [content] is [None] for a null file, [Some None] for a file
    whose content is null. *)
Definition new_elf (content : option (option (list Z))) : outcome ELF :=
  match content with
  | None => Ret (mkELF None [])
  | Some None => Fault
  | Some (Some b) =>
      phoff ← get64 b off_phoff;
      phnum ← get16 b off_phnum;
      phentsize ← (if phnum =? 0 then Ret 0 else get16 b off_phentsize);
      segs ← read_segments (Z.to_nat phnum) b phentsize phoff;
      Ret (mkELF (Some b) segs)
  end.

Definition elf_exists (e : ELF) : bool := match elf_base e with Some _ => true | None => false end.

(** [!memcmp(_elf_header->ident, ELF::magic, ELF::magic_len)]; the comparison
    ends at the first byte that differs. *)
Fixpoint starts_with (m : list Z) (b : list Z) (i : Z) : outcome bool :=
  match m with
  | [] => Ret true
  | c :: m => x ← get8 b i; if x =? c then starts_with m b (i + 1) else Ret false
  end.
Definition elf_is_valid (e : ELF) : outcome bool :=
  match elf_base e with Some b => starts_with magic b 0 | None => Fault end.

Definition get_entry_point (e : ELF) : outcome Z :=
  match elf_base e with Some b => entry ← get64 b off_entry; Ret (u64 (ELF_DEFAULT_BASE + entry)) | None => Fault end.

(** ** Encoding

    The bytes that stand for a number, a program header and a header. *)

Fixpoint le_bytes (n : nat) (x : Z) : list Z := match n with O => [] | S n => x mod 256 :: le_bytes n (x / 256) end.

Definition bytes_in (b : list Z) (i : Z) (l : list Z) : Prop := forall k c, l !! k = Some c -> arr_get b (i + Z.of_nat k) = Some c.

Lemma bytes_in_app b i l l' : bytes_in b i (l ++ l') <-> bytes_in b i l /\ bytes_in b (i + Z.of_nat (length l)) l'.
Proof.
  unfold bytes_in. split.
  - intros H. split.
    + intros k c Hk. apply H. by apply lookup_app_l_Some.
    + intros k c Hk. rewrite <- Z.add_assoc, <- Nat2Z.inj_add. apply H. rewrite lookup_app_r by lia. by replace (length l + k - length l)%nat with k by lia.
  - intros [H1 H2] k c Hk. apply lookup_app_Some in Hk as [Hk|[Hk Hk']]; [by apply H1|].
    specialize (H2 _ _ Hk'). by replace (i + Z.of_nat (length l) + Z.of_nat (k - length l)) with (i + Z.of_nat k) in H2 by lia.
Qed.

Lemma length_le_bytes n x : length (le_bytes n x) = n.
Proof. revert x. induction n; intros x; simpl; [done|by rewrite IHn]. Qed.

Lemma bytes_in_cons b i x l : bytes_in b i (x :: l) -> arr_get b i = Some x /\ bytes_in b (i + 1) l.
Proof.
  intros H. split; [specialize (H 0%nat x eq_refl); by rewrite Z.add_0_r in H|].
  intros k c Hk. replace (i + 1 + Z.of_nat k) with (i + Z.of_nat (S k)) by lia. by apply H.
Qed.

Lemma get8_in b i x l : bytes_in b i (x :: l) -> get8 b i = Ret x.
Proof. intros [H _]%bytes_in_cons. unfold get8. by rewrite H. Qed.

Lemma get16_le b i x : bytes_in b i (le_bytes 2 x) -> 0 <= x < 2 ^ 16 -> get16 b i = Ret x.
Proof.
  intros H Hx. unfold get16. cbn [le_bytes] in H. rewrite (get8_in _ _ _ _ H). apply bytes_in_cons in H as [_ H]. rewrite (get8_in _ _ _ _ H).
  cbn. f_equal. rewrite (Z.mod_small (x / 256)) by (split; [apply Z.div_pos; lia|apply Z.div_lt_upper_bound; lia]).
  pose proof (Z.div_mod x 256). lia.
Qed.

Lemma le_bytes_split n m x : 0 <= x -> le_bytes (n + m) x = le_bytes n x ++ le_bytes m (x / 256 ^ Z.of_nat n).
Proof.
  revert x. induction n as [|n IH]; intros x Hx; cbn [le_bytes Nat.add app]; [by rewrite Z.div_1_r|].
  rewrite IH by (apply Z.div_pos; lia). f_equal. f_equal. rewrite Z.div_div by (try apply Z.pow_pos_nonneg; lia).
  f_equal. f_equal. rewrite Nat2Z.inj_succ, Z.pow_succ_r by lia. done.
Qed.

Lemma le_bytes_mod n x : le_bytes n (x mod 256 ^ Z.of_nat n) = le_bytes n x.
Proof.
  revert x. induction n as [|n IH]; intros x; cbn [le_bytes]; [done|].
  assert (Hp : 256 ^ Z.of_nat (S n) = 256 * 256 ^ Z.of_nat n) by (rewrite Nat2Z.inj_succ, Z.pow_succ_r by lia; done).
  assert (0 < 256 ^ Z.of_nat n) by (apply Z.pow_pos_nonneg; lia).
  rewrite Hp, Z.rem_mul_r by lia. f_equal.
  - rewrite (Z.mul_comm 256), Z.mod_add, Z.mod_mod by lia. done.
  - rewrite <- (IH (x / 256)). f_equal. pose proof (Z.mod_pos_bound x 256 ltac:(lia)).
    rewrite (Z.mul_comm 256), Z.div_add, (Z.div_small (x mod 256)) by lia. lia.
Qed.

(** A number of twice the width is its two halves. *)
Lemma get_le_double (get : list Z -> Z -> outcome Z) n b i x :
  (forall i x, bytes_in b i (le_bytes n x) -> 0 <= x < 256 ^ Z.of_nat n -> get b i = Ret x) ->
  bytes_in b i (le_bytes (n + n) x) -> 0 <= x < 256 ^ Z.of_nat n * 256 ^ Z.of_nat n ->
  get b i = Ret (x mod 256 ^ Z.of_nat n) /\ get b (i + Z.of_nat n) = Ret (x / 256 ^ Z.of_nat n) /\
  x mod 256 ^ Z.of_nat n + 256 ^ Z.of_nat n * (x / 256 ^ Z.of_nat n) = x.
Proof.
  intros Hget Hb Hx. assert (Hp : 0 < 256 ^ Z.of_nat n) by (apply Z.pow_pos_nonneg; lia).
  rewrite le_bytes_split in Hb by lia. apply bytes_in_app in Hb as [Hl Hh]. rewrite length_le_bytes in Hh. split_and!.
  - apply Hget; [by rewrite le_bytes_mod|by apply Z.mod_pos_bound].
  - apply Hget; [done|]. split; [apply Z.div_pos; lia|apply Z.div_lt_upper_bound; lia].
  - pose proof (Z.div_mod x (256 ^ Z.of_nat n)). lia.
Qed.

Lemma get32_le b i x : bytes_in b i (le_bytes 4 x) -> 0 <= x < 2 ^ 32 -> get32 b i = Ret x.
Proof.
  intros Hb Hx. destruct (get_le_double get16 2 b i x) as (H1 & H2 & H3); [intros; by apply get16_le|done|done|].
  unfold get32. rewrite H1. cbn [mbind outcome_bind]. change (i + 2) with (i + Z.of_nat 2). rewrite H2. cbn [mbind outcome_bind]. f_equal. exact H3.
Qed.
Lemma get64_le b i x : bytes_in b i (le_bytes 8 x) -> 0 <= x < 2 ^ 64 -> get64 b i = Ret x.
Proof.
  intros Hb Hx. destruct (get_le_double get32 4 b i x) as (H1 & H2 & H3); [intros; by apply get32_le|done|done|].
  unfold get64. rewrite H1. cbn [mbind outcome_bind]. change (i + 4) with (i + Z.of_nat 4). rewrite H2. cbn [mbind outcome_bind]. f_equal. exact H3.
Qed.

Lemma get32_at b i j x : bytes_in b j (le_bytes 4 x) -> j = i -> in_u32 x -> get32 b i = Ret x.
Proof. intros H <-. by apply get32_le. Qed.
Lemma get64_at b i j x : bytes_in b j (le_bytes 8 x) -> j = i -> in_u64 x -> get64 b i = Ret x.
Proof. intros H <-. by apply get64_le. Qed.

Definition segment_ok (s : Segment) : Prop :=
  in_u32 (seg_type s) /\ in_u32 (seg_flags s) /\ in_u64 (seg_file_offset s) /\ in_u64 (seg_virtual_address s) /\
  in_u64 (seg_physical_address s) /\ in_u64 (seg_physical_size s) /\ in_u64 (seg_virtual_size s) /\ in_u64 (seg_alignment s).

Definition segment_bytes (s : Segment) : list Z :=
  le_bytes 4 (seg_type s) ++ le_bytes 4 (seg_flags s) ++ le_bytes 8 (seg_file_offset s) ++ le_bytes 8 (seg_virtual_address s) ++
  le_bytes 8 (seg_physical_address s) ++ le_bytes 8 (seg_physical_size s) ++ le_bytes 8 (seg_virtual_size s) ++ le_bytes 8 (seg_alignment s).

Lemma read_segment_run b i s : bytes_in b i (segment_bytes s) -> segment_ok s -> read_segment b i = Ret s.
Proof.
  intros Hb (H1 & H2 & H3 & H4 & H5 & H6 & H7 & H8). unfold segment_bytes in Hb. rewrite !bytes_in_app in Hb. rewrite !length_le_bytes in Hb.
  destruct Hb as (B1 & B2 & B3 & B4 & B5 & B6 & B7 & B8). unfold read_segment. rewrite (get32_le _ _ _ B1 H1).
  cbn [mbind outcome_bind]. rewrite (get32_at b (i + 4) _ _ B2 ltac:(lia) H2). cbn [mbind outcome_bind].
  rewrite (get64_at b (i + 8) _ _ B3 ltac:(lia) H3). cbn [mbind outcome_bind]. rewrite (get64_at b (i + 16) _ _ B4 ltac:(lia) H4). cbn [mbind outcome_bind].
  rewrite (get64_at b (i + 24) _ _ B5 ltac:(lia) H5). cbn [mbind outcome_bind]. rewrite (get64_at b (i + 32) _ _ B6 ltac:(lia) H6). cbn [mbind outcome_bind].
  rewrite (get64_at b (i + 40) _ _ B7 ltac:(lia) H7). cbn [mbind outcome_bind]. rewrite (get64_at b (i + 48) _ _ B8 ltac:(lia) H8). by destruct s.
Qed.

Lemma read_segments_run b phentsize ptr segs :
  (forall k s, segs !! k = Some s -> segment_ok s /\ bytes_in b (ptr + Z.of_nat k * phentsize) (segment_bytes s)) ->
  read_segments (length segs) b phentsize ptr = Ret segs.
Proof.
  revert ptr. induction segs as [|s segs IH]; intros ptr H; cbn [length read_segments]; [done|].
  destruct (H 0%nat s eq_refl) as [Hs Hb]. rewrite (read_segment_run b ptr s); [|by rewrite Z.add_0_r in Hb|done]. cbn [mbind outcome_bind].
  rewrite IH; [done|]. intros k s' Hk. destruct (H (S k) s' Hk) as [Hs' Hb']. split; [done|].
  by replace (ptr + phentsize + Z.of_nat k * phentsize) with (ptr + Z.of_nat (S k) * phentsize) by lia.
Qed.

(** A file that is an executable with this entry point and these segments. *)
Record elf_image (b : list Z) (entry phoff phentsize : Z) (segs : list Segment) : Prop := {
  im_magic : bytes_in b 0 magic;
  im_entry : in_u64 entry /\ bytes_in b off_entry (le_bytes 8 entry);
  im_phoff : in_u64 phoff /\ bytes_in b off_phoff (le_bytes 8 phoff);
  im_phentsize : 0 <= phentsize < 2 ^ 16 /\ bytes_in b off_phentsize (le_bytes 2 phentsize);
  im_phnum : Z.of_nat (length segs) < 2 ^ 16 /\ bytes_in b off_phnum (le_bytes 2 (Z.of_nat (length segs)));
  im_segments k s : segs !! k = Some s -> segment_ok s /\ bytes_in b (phoff + Z.of_nat k * phentsize) (segment_bytes s)
}.

(** Parsing recovers what the image encodes. *)
Lemma elf_parse b entry phoff phentsize segs : elf_image b entry phoff phentsize segs ->
  new_elf (Some (Some b)) = Ret (mkELF (Some b) segs) /\ elf_exists (mkELF (Some b) segs) = true /\
  elf_is_valid (mkELF (Some b) segs) = Ret true /\ get_entry_point (mkELF (Some b) segs) = Ret (u64 (ELF_DEFAULT_BASE + entry)).
Proof.
  intros [Hm [He1 He2] [Ho1 Ho2] [Hs1 Hs2] [Hn1 Hn2] Hseg]. split_and!; [|done| |].
  - unfold new_elf. rewrite (get64_le _ _ _ Ho2 Ho1), (get16_le _ _ _ Hn2) by lia. cbn [mbind outcome_bind].
    rewrite Nat2Z.id. destruct segs as [|s segs]; [done|]. rewrite (proj2 (Z.eqb_neq _ 0)) by (simpl; lia).
    rewrite (get16_le _ _ _ Hs2 Hs1). cbn [mbind outcome_bind]. by rewrite read_segments_run.
  - unfold elf_is_valid, magic in *. cbn [elf_base starts_with]. rewrite (get8_in _ _ _ _ Hm). apply bytes_in_cons in Hm as [_ Hm].
    cbn [mbind outcome_bind Z.eqb Pos.eqb]. rewrite (get8_in _ _ _ _ Hm). apply bytes_in_cons in Hm as [_ Hm].
    cbn [mbind outcome_bind Z.eqb Pos.eqb]. rewrite (get8_in _ _ _ _ Hm). apply bytes_in_cons in Hm as [_ Hm].
    cbn [mbind outcome_bind Z.eqb Pos.eqb]. by rewrite (get8_in _ _ _ _ Hm).
  - unfold get_entry_point. cbn [elf_base]. by rewrite (get64_le _ _ _ He2 He1).
Qed.
