(* ===== verification/SdCard.v ===== *)
(** * driver/SDCardDriver.cc: the SD card

    The driver over an arbitrary device.  Loops that poll a register until it
    changes have the bound of the code, or fuel where the code has none. *)

From Stdlib Require Import ZArith Lia.
From stdpp Require Import base gmap list numbers.
From S2P Require Import Prelude Mmu Disk Elf Mmio.

Open Scope Z_scope.

(** ** Commands and registers *)

Definition GO_IDLE_STATE : Z := 0.
Definition ALL_SEND_CID : Z := 2.
Definition SEND_RELATIVE_ADDR : Z := 3.
Definition SELECT_CARD : Z := 7.
Definition SEND_IF_COND : Z := 8.
Definition VOLTAGE_CHECK_PATTERN : Z := 0x1aa.
Definition STOP_TRANSMISSION : Z := 12.
Definition SET_BLOCKLEN : Z := 16.
Definition READ_SINGLE_BLOCK : Z := 17.
Definition WRITE_SINGLE_BLOCK : Z := 24.
Definition SD_APP_OP_COND : Z := 41.
Definition APP_CMD : Z := 55.
Definition SDCARD_3_3V : Z := Z.shiftl 1 21.
Definition SDCARD_ISHCS : Z := Z.shiftl 1 30.
Definition SDCARD_READY : Z := Z.shiftl 1 31.

Definition SDHOST_BASE : Z := 0x202000.
Definition SDHOST_CMD : Reg := reg SDHOST_BASE.
Definition SDHOST_READ : Z := 0x40.
Definition SDHOST_WRITE : Z := 0x80.
Definition SDHOST_LONG_RESPONSE : Z := 0x200.
Definition SDHOST_NO_REPONSE : Z := 0x400.
Definition SDHOST_BUSY : Z := 0x800.
Definition SDHOST_NEW_CMD : Z := 0x8000.
Definition SDHOST_ARG : Reg := reg (SDHOST_BASE + 0x4).
Definition SDHOST_TOUT : Reg := reg (SDHOST_BASE + 0x8).
Definition SDHOST_TOUT_DEFAULT : Z := 0xf00000.
Definition SDHOST_CDIV : Reg := reg (SDHOST_BASE + 0xc).
Definition SDHOST_CDIV_DEFAULT : Z := 0x148.
Definition SDHOST_RESP0 : Reg := reg (SDHOST_BASE + 0x10).
Definition SDHOST_HSTS : Reg := reg (SDHOST_BASE + 0x20).
Definition SDHOST_HSTS_MASK : Z := 0x7f8.
Definition SDHOST_HSTS_ERR_MASK : Z := 0xf8.
Definition SDHOST_HSTS_DATA : Z := 1.
Definition SDHOST_PWR : Reg := reg (SDHOST_BASE + 0x30).
Definition SDHOST_DBG : Reg := reg (SDHOST_BASE + 0x34).
Definition SDHOST_DBG_FSM_MASK : Z := 0xf.
Definition SDHOST_DBG_MASK : Z := Z.lor (Z.shiftl 0x1f 14) (Z.shiftl 0x1f 9).
Definition SDHOST_DBG_FIFO : Z := Z.lor (Z.shiftl 0x4 14) (Z.shiftl 0x4 9).
Definition SDHOST_CFG : Reg := reg (SDHOST_BASE + 0x38).
Definition SDHOST_CFG_DATA_EN : Z := Z.shiftl 1 4.
Definition SDHOST_CFG_SLOW : Z := Z.shiftl 1 3.
Definition SDHOST_CFG_INTBUS : Z := Z.shiftl 1 1.
Definition SDHOST_SIZE : Reg := reg (SDHOST_BASE + 0x3c).
Definition SDHOST_DATA : Reg := reg (SDHOST_BASE + 0x40).
Definition SDHOST_CNT : Reg := reg (SDHOST_BASE + 0x50).

(** ** The driver *)

Section driver.
Context {D : Type} `{Device D}.

(** [do { if (cnt == 0) return -1; ... --cnt; } while (...)] on one register. *)
Fixpoint poll (cnt : nat) (r : Reg) (again : Z -> bool) : M D Z :=
  match cnt with
  | O => mret (-1)
  | S cnt => x ← io_get r; if again x then poll cnt r again else mret 0
  end.
Definition MAX_POLLS : nat := Z.to_nat 1000000.
Definition wait_sd : M D Z := poll MAX_POLLS SDHOST_CMD (fun cmd => negb (Z.land cmd SDHOST_NEW_CMD =? 0)).
Definition wait_fifo : M D Z := poll MAX_POLLS SDHOST_HSTS (fun hsts => Z.land hsts SDHOST_HSTS_DATA =? 0).
Fixpoint wait_finish (fuel : nat) : M D unit :=
  match fuel with
  | O => out_of_fuel
  | S fuel => dbg ← io_get SDHOST_DBG; if negb (Z.land dbg SDHOST_DBG_FSM_MASK =? SDHOST_HSTS_DATA) then wait_finish fuel else mret tt
  end.

Definition sd_cmd (cmd arg : Z) : M D Z :=
  io_put SDHOST_ARG arg;;
  io_put SDHOST_CMD (Z.lor cmd SDHOST_NEW_CMD);;
  wait_sd.
Definition set_block (size cnt : Z) : M D unit := io_put SDHOST_SIZE size;; io_put SDHOST_CNT cnt.

(** *** Set-up *)

Definition pin_setup : M D unit :=
  io_put GPFSEL4 0x24000000;;
  io_put GPFSEL5 0x924;;
  io_put GPPUD 0;;
  delay (Z.to_nat 15000);;
  io_put GPPUDCLK1 0xffffffff;;
  delay (Z.to_nat 15000);;
  io_put GPPUDCLK1 0.

Definition sdhost_setup : M D unit :=
  io_put SDHOST_PWR 0;;
  io_put SDHOST_CMD 0;;
  io_put SDHOST_ARG 0;;
  io_put SDHOST_TOUT SDHOST_TOUT_DEFAULT;;
  io_put SDHOST_CDIV 0;;
  io_put SDHOST_HSTS SDHOST_HSTS_MASK;;
  io_put SDHOST_CFG 0;;
  io_put SDHOST_CNT 0;;
  io_put SDHOST_SIZE 0;;
  tmp ← io_get SDHOST_DBG;
  io_put SDHOST_DBG (Z.lor (Z.land tmp (not32 SDHOST_DBG_MASK)) SDHOST_DBG_FIFO);;
  delay (Z.to_nat 250000);;
  io_put SDHOST_PWR 1;;
  delay (Z.to_nat 250000);;
  io_put SDHOST_CFG (Z.lor (Z.lor SDHOST_CFG_SLOW SDHOST_CFG_INTBUS) SDHOST_CFG_DATA_EN);;
  io_put SDHOST_CDIV SDHOST_CDIV_DEFAULT.

(** [while (true)] until the card is ready: its operating conditions. *)
Fixpoint wait_card (fuel : nat) : M D Z :=
  match fuel with
  | O => out_of_fuel
  | S fuel =>
      r ← sd_cmd APP_CMD 0;
      if r =? -1 then wait_card fuel
      else
        sd_cmd SD_APP_OP_COND (Z.lor SDCARD_3_3V SDCARD_ISHCS);;
        tmp ← io_get SDHOST_RESP0;
        if negb (Z.land tmp SDCARD_READY =? 0) then mret tmp
        else delay (Z.to_nat 1000000);; wait_card fuel
  end.

(** The result and [_is_high_capacity]. *)
Definition sdcard_setup (fuel : nat) : M D (Z * bool) :=
  sd_cmd (Z.lor GO_IDLE_STATE SDHOST_NO_REPONSE) 0;;
  sd_cmd SEND_IF_COND VOLTAGE_CHECK_PATTERN;;
  tmp ← io_get SDHOST_RESP0;
  if negb (tmp =? VOLTAGE_CHECK_PATTERN) then mret (-1, false)
  else
    tmp ← wait_card fuel;
    let is_high_capacity := negb (Z.land tmp SDCARD_ISHCS =? 0) in
    sd_cmd (Z.lor ALL_SEND_CID SDHOST_LONG_RESPONSE) 0;;
    sd_cmd SEND_RELATIVE_ADDR 0;;
    tmp ← io_get SDHOST_RESP0;
    sd_cmd SELECT_CARD tmp;;
    sd_cmd SET_BLOCKLEN 512;;
    mret (0, is_high_capacity).

Definition new_sdcard_driver (fuel : nat) : M D bool :=
  pin_setup;; sdhost_setup;; r ← sdcard_setup fuel; mret (snd r).

(** *** Blocks *)

(** The argument of the command: a block of a high-capacity card, else a byte. *)
Definition block_arg (is_high_capacity : bool) (block_index : Z) : Z :=
  u32 (if is_high_capacity then block_index else s32 (Z.shiftl block_index 9)).

Fixpoint read_words (n : nat) : M D (list Z) :=
  match n with O => mret [] | S n => _ ← wait_fifo; w ← io_get SDHOST_DATA; ws ← read_words n; mret (w :: ws) end.
Fixpoint write_words (ws : list Z) : M D unit :=
  match ws with [] => mret tt | w :: ws => _ ← wait_fifo; io_put SDHOST_DATA w;; write_words ws end.

(** What follows the data: [true] for success. *)
Definition end_transfer : M D bool :=
  hsts ← io_get SDHOST_HSTS;
  if negb (Z.land hsts SDHOST_HSTS_ERR_MASK =? 0) then
    io_put SDHOST_HSTS SDHOST_HSTS_ERR_MASK;;
    _ ← sd_cmd (Z.lor STOP_TRANSMISSION SDHOST_BUSY) 0;
    mret false
  else mret true.

Definition start_transfer (cmd arg : Z) : M D unit := set_block 512 1;; _ ← sd_cmd cmd arg; mret tt.

Fixpoint read_loop (fuel : nat) (arg : Z) : M D (list Z) :=
  match fuel with
  | O => out_of_fuel
  | S fuel =>
      start_transfer (Z.lor READ_SINGLE_BLOCK SDHOST_READ) arg;;
      ws ← read_words 128;
      success ← end_transfer;
      if (success : bool) then mret ws else read_loop fuel arg
  end.
Fixpoint write_loop (fuel : nat) (arg : Z) (ws : list Z) : M D unit :=
  match fuel with
  | O => out_of_fuel
  | S fuel =>
      start_transfer (Z.lor WRITE_SINGLE_BLOCK SDHOST_WRITE) arg;;
      write_words ws;;
      success ← end_transfer;
      if (success : bool) then mret tt else write_loop fuel arg ws
  end.

(** The words of a buffer, [buf_u[i]]. *)
Fixpoint buf_words (n : nat) (buf : list Z) (i : Z) : outcome (list Z) :=
  match n with O => Ret [] | S n => w ← get32 buf i; ws ← buf_words n buf (i + 4); Ret (w :: ws) end.
Definition words_bytes (ws : list Z) : list Z := ws ≫= le_bytes 4.

(** The bytes that are written to the buffer. *)
Definition read_block (fuel : nat) (is_high_capacity : bool) (block_index : Z) : M D (list Z) :=
  ws ← read_loop fuel (block_arg is_high_capacity block_index);
  wait_finish fuel;;
  mret (words_bytes ws).
Definition write_block (fuel : nat) (is_high_capacity : bool) (block_index : Z) (buf : list Z) : M D unit :=
  ws ← lift (buf_words 128 buf 0);
  write_loop fuel (block_arg is_high_capacity block_index) ws;;
  wait_finish fuel.
End driver.
