(* ===== verification/SdSpec.v ===== *)
(** * The SD card: theorems

    What the driver relies on of the host controller and the card is a class,
    [SdHost]: register accesses step an abstract view, which holds the data of
    the card, the argument, block size and block count last written, and the
    transfer in progress.  A command for a single block transfers 128 words of
    the addressed block when the controller is idle without error flags and has
    been set up for one block of 512 bytes; nothing is said of it otherwise.  A
    transfer may fail: its data is then arbitrary, the FIFO need not become
    ready, a block being written may be spoilt, and an error flag is up when
    the driver has been through its data.  The flags stay until ones are
    written to them, and the controller is idle again after a stop command that
    finds them clear.  Finitely many transfers fail, the FIFO of a transfer
    that does not fail gets ready within the polls the driver makes, and the
    controller's state machine comes to rest.  On any such controller the
    driver's loops end, and reading and writing a block do what the disk model
    of the file systems takes them to do. *)

From Stdlib Require Import ZArith Lia.
From stdpp Require Import base gmap list numbers.
From S2P Require Import Prelude Mmu Disk Elf Mmio SdCard.

Open Scope Z_scope.

(** ** The controller *)

Inductive Xfer :=
| NoXfer                                     (* idle, and no error flag up *)
| Reading (ws : list Z)                      (* the words still to be read *)
| Writing (block : Z) (ws : list Z)          (* the words received *)
| Failing (block : option Z) (n : nat)       (* the error shows after [n] accesses to the data; the block being written *)
| Halted.                                    (* failed, the flags cleared *)

Record SdView := mkView {
  sv_disk : Disk; sv_high : bool; sv_arg : Z; sv_size : Z; sv_cnt : Z; sv_xfer : Xfer; sv_faults : nat
}.
Definition set_arg (x : Z) (v : SdView) : SdView :=
  mkView (sv_disk v) (sv_high v) x (sv_size v) (sv_cnt v) (sv_xfer v) (sv_faults v).
Definition set_size (x : Z) (v : SdView) : SdView :=
  mkView (sv_disk v) (sv_high v) (sv_arg v) x (sv_cnt v) (sv_xfer v) (sv_faults v).
Definition set_cnt (x : Z) (v : SdView) : SdView :=
  mkView (sv_disk v) (sv_high v) (sv_arg v) (sv_size v) x (sv_xfer v) (sv_faults v).
Definition set_xfer (x : Xfer) (v : SdView) : SdView :=
  mkView (sv_disk v) (sv_high v) (sv_arg v) (sv_size v) (sv_cnt v) x (sv_faults v).
Definition set_disk (x : Disk) (v : SdView) : SdView :=
  mkView x (sv_high v) (sv_arg v) (sv_size v) (sv_cnt v) (sv_xfer v) (sv_faults v).

(** The block that the argument names. *)
Definition addressed (v : SdView) : Z := if sv_high v then sv_arg v else sv_arg v / 512.

(** Idle, and set up for one block of 512 bytes. *)
Definition single_block (v : SdView) : Prop := sv_xfer v = NoXfer /\ sv_size v = 512 /\ sv_cnt v = 1.

Definition same_card (v v' : SdView) : Prop := sv_disk v' = sv_disk v /\ sv_high v' = sv_high v.
(** The same but for the block [b], if any, whose data may be lost. *)
Definition same_but (b : option Z) (v v' : SdView) : Prop :=
  match b with None => sv_disk v' = sv_disk v | Some b => delete b (sv_disk v') = delete b (sv_disk v) end /\
  sv_high v' = sv_high v.

(** A transfer either is good or uses up one of the faults to come. *)
Definition starts (b : option Z) (good : Xfer -> Prop) (v v' : SdView) : Prop :=
  (same_card v v' /\ good (sv_xfer v') /\ sv_faults v' = sv_faults v) \/
  (same_but b v v' /\ (exists n, sv_xfer v' = Failing b n /\ (n <= 128)%nat) /\ sv_faults v = S (sv_faults v')).
Definition starts_read (v : SdView) : SdView -> Prop :=
  starts None (fun x => exists ws, x = Reading ws /\ length ws = 128%nat /\ Forall in_u32 ws /\
                          words_bytes ws = block_at (sv_disk v) (addressed v)) v.
Definition starts_write (v : SdView) : SdView -> Prop :=
  starts (Some (addressed v)) (fun x => x = Writing (addressed v) []) v.

(** A word leaves or arrives; the last one of a good transfer ends it, and
    completes the block that is written. *)
Definition pop_word (ws : list Z) (v : SdView) : SdView := set_xfer (match ws with [] => NoXfer | _ => Reading ws end) v.
Definition push_word (b : Z) (ws : list Z) (w : Z) (v : SdView) : SdView :=
  if bool_decide (length ws = 127%nat) then set_disk (<[b := words_bytes (ws ++ [w])]> (sv_disk v)) (set_xfer NoXfer v)
  else set_xfer (Writing b (ws ++ [w])) v.
(** An access to the data of a transfer that fails. *)
Definition fails_on (b : option Z) (n : nat) (v v' : SdView) : Prop :=
  same_but b v v' /\ sv_xfer v' = Failing b (Nat.pred n) /\ sv_faults v' = sv_faults v.

(** A transfer that goes well is under way. *)
Definition moving (x : Xfer) : Prop := match x with Reading _ | Writing _ _ => True | _ => False end.

Class SdHost (D : Type) `{Device D} := {
  view : D -> SdView;
  (* the polls until the controller has something to say, and the FIFO is ready *)
  waits : D -> nat;
  fifo_ready : D -> Prop;
  max_wait : nat;
  waits_bound d : (waits d <= max_wait)%nat;
  max_wait_bound : Z.of_nat max_wait < 1000000;
  get_range r d : in_u32 (fst (dev_get r d));
  (* the argument, the size and the number of blocks are kept for the next command *)
  put_arg x d : view (dev_put SDHOST_ARG x d) = set_arg x (view d);
  put_size x d : view (dev_put SDHOST_SIZE x d) = set_size x (view d);
  put_cnt x d : view (dev_put SDHOST_CNT x d) = set_cnt x (view d);
  (* commands *)
  put_read d : single_block (view d) -> disk_ok (sv_disk (view d)) ->
    starts_read (view d) (view (dev_put SDHOST_CMD (Z.lor (Z.lor READ_SINGLE_BLOCK SDHOST_READ) SDHOST_NEW_CMD) d));
  put_write d : single_block (view d) ->
    starts_write (view d) (view (dev_put SDHOST_CMD (Z.lor (Z.lor WRITE_SINGLE_BLOCK SDHOST_WRITE) SDHOST_NEW_CMD) d));
  put_stop d : sv_xfer (view d) = Halted ->
    view (dev_put SDHOST_CMD (Z.lor (Z.lor STOP_TRANSMISSION SDHOST_BUSY) SDHOST_NEW_CMD) d) = set_xfer NoXfer (view d);
  (* reading the command register changes nothing; whether a command is taken in time is not promised *)
  get_cmd d : view (snd (dev_get SDHOST_CMD d)) = view d;
  (* the error flags are cleared by writing ones to them *)
  put_hsts b x d : sv_xfer (view d) = Failing b 0 -> Z.land x SDHOST_HSTS_ERR_MASK = SDHOST_HSTS_ERR_MASK ->
    view (dev_put SDHOST_HSTS x d) = set_xfer Halted (view d);
  (* the status: data is ready in time while a good transfer moves; a failed one shows, and an idle controller has no flags up *)
  get_hsts d : view (snd (dev_get SDHOST_HSTS d)) = view d;
  hsts_data d : moving (sv_xfer (view d)) -> let (x, d') := dev_get SDHOST_HSTS d in
    if Z.land x SDHOST_HSTS_DATA =? 0 then (waits d' < waits d)%nat else fifo_ready d';
  hsts_idle d : sv_xfer (view d) = NoXfer -> Z.land (fst (dev_get SDHOST_HSTS d)) SDHOST_HSTS_ERR_MASK = 0;
  hsts_failed b d : sv_xfer (view d) = Failing b 0 -> Z.land (fst (dev_get SDHOST_HSTS d)) SDHOST_HSTS_ERR_MASK <> 0;
  (* data *)
  get_data w ws d : fifo_ready d -> in_u32 w -> sv_xfer (view d) = Reading (w :: ws) ->
    let (x, d') := dev_get SDHOST_DATA d in x = w /\ view d' = pop_word ws (view d);
  put_data w b ws d : fifo_ready d -> sv_xfer (view d) = Writing b ws -> view (dev_put SDHOST_DATA w d) = push_word b ws w (view d);
  get_data_failing n d : sv_xfer (view d) = Failing None n -> fails_on None n (view d) (view (snd (dev_get SDHOST_DATA d)));
  put_data_failing w b n d : sv_xfer (view d) = Failing (Some b) n -> fails_on (Some b) n (view d) (view (dev_put SDHOST_DATA w d));
  (* the state machine of an idle controller comes to rest *)
  get_dbg d : view (snd (dev_get SDHOST_DBG d)) = view d;
  dbg_idle d : sv_xfer (view d) = NoXfer -> let (x, d') := dev_get SDHOST_DBG d in
    Z.land x SDHOST_DBG_FSM_MASK <> SDHOST_HSTS_DATA -> (waits d' < waits d)%nat
}.

(** ** Words and bytes *)

Lemma le_bytes_4 a b c d : 0 <= a < 256 -> 0 <= b < 256 -> 0 <= c < 256 -> 0 <= d < 256 -> le_bytes 4 (a + 256 * b + 65536 * (c + 256 * d)) = [a; b; c; d].
Proof.
  intros Ha Hb Hc Hd. cbn [le_bytes].
  assert (H : forall x y, 0 <= x < 256 -> (x + 256 * y) mod 256 = x /\ (x + 256 * y) / 256 = y).
  { intros x y Hx. split; [rewrite (Z.mul_comm 256), Z.mod_add by lia; by apply Z.mod_small|rewrite (Z.mul_comm 256), Z.div_add, Z.div_small by lia; lia]. }
  replace (a + 256 * b + 65536 * (c + 256 * d)) with (a + 256 * (b + 256 * (c + 256 * d))) by lia.
  destruct (H a (b + 256 * (c + 256 * d)) Ha) as [-> ->]. destruct (H b (c + 256 * d) Hb) as [-> ->]. destruct (H c d Hc) as [-> ->]. by rewrite Z.mod_small.
Qed.

Lemma get8_at b i x : 0 <= i -> b !! Z.to_nat i = Some x -> get8 b i = Ret x.
Proof. intros Hi Hx. unfold get8, arr_get. rewrite decide_True by done. by rewrite Hx. Qed.

Lemma buf_words_run n pre buf : bytes buf -> length buf = (4 * n)%nat ->
  exists ws, buf_words n (pre ++ buf) (Z.of_nat (length pre)) = Ret ws /\ length ws = n /\ Forall in_u32 ws /\ words_bytes ws = buf.
Proof.
  revert pre buf. induction n as [|n IH]; intros pre buf Hb Hl; cbn [buf_words]; [destruct buf; [|done]; by exists []|].
  destruct buf as [|a [|b [|c [|d buf]]]]; simpl in Hl; try lia. unfold bytes in Hb. apply list.Forall_cons in Hb as [Ha Hb]. apply list.Forall_cons in Hb as [Hb1 Hb]. apply list.Forall_cons in Hb as [Hc Hb]. apply list.Forall_cons in Hb as [Hd Hb].
  assert (Hget : forall k x, [a; b; c; d] !! k = Some x -> get8 (pre ++ a :: b :: c :: d :: buf) (Z.of_nat (length pre) + Z.of_nat k) = Ret x).
  { intros k x Hk. apply get8_at; [lia|]. rewrite lookup_app_r by lia. replace (Z.to_nat (Z.of_nat (length pre) + Z.of_nat k) - length pre)%nat with k by lia.
    change (a :: b :: c :: d :: buf) with ([a; b; c; d] ++ buf). by apply lookup_app_l_Some. }
  unfold get32, get16. pose proof (Hget 0%nat a eq_refl) as H0. rewrite Z.add_0_r in H0. rewrite H0.
  pose proof (Hget 1%nat b eq_refl) as H1. pose proof (Hget 2%nat c eq_refl) as H2. pose proof (Hget 3%nat d eq_refl) as H3.
  change (Z.of_nat 1) with 1 in H1. change (Z.of_nat 2) with 2 in H2. change (Z.of_nat 3) with 3 in H3. replace (Z.of_nat (length pre) + 2 + 1) with (Z.of_nat (length pre) + 3) by lia.
  rewrite H1, H2, H3. destruct (IH (pre ++ [a; b; c; d]) buf Hb ltac:(lia)) as (ws & Hw & Hlen & Hu & Hby).
  rewrite <- app_assoc in Hw. simpl in Hw. rewrite length_app in Hw. simpl in Hw. replace (Z.of_nat (length pre + 4)) with (Z.of_nat (length pre) + 4) in Hw by lia.
  cbn. rewrite Hw. cbn. eexists. split_and!; [done|simpl; lia|apply list.Forall_cons; split; [unfold in_u32; lia|done]|].
  unfold words_bytes in *. rewrite bind_cons, le_bytes_4 by done. by rewrite Hby.
Qed.

Lemma block_words b : is_block b -> exists ws, buf_words 128 b 0 = Ret ws /\ length ws = 128%nat /\ Forall in_u32 ws /\ words_bytes ws = b.
Proof. intros [Hl Hb]. exact (buf_words_run 128 [] b Hb Hl). Qed.

(** ** The driver on a controller *)

Section host.
Context {D : Type} `{HD : Device D} `{HS : !SdHost D}.
Implicit Types d : D.

Lemma io_get_run r d : io_get r d = Ret (fst (dev_get r d), snd (dev_get r d)).
Proof. unfold io_get. pose proof (get_range r d) as Hr. destruct (dev_get r d) as [x d']. simpl in *. by rewrite u32_id. Qed.

(** Polling a register whose reading does not change the view: it ends, in time
    or not; and in time if the register answers. *)
Lemma poll_any r (again : Z -> bool) cnt d :
  (forall d, view (snd (dev_get r d)) = view d) -> exists x d', poll cnt r again d = Ret (x, d') /\ view d' = view d.
Proof.
  intros Hr. revert d. induction cnt as [|cnt IH]; intros d; cbn [poll]; [by exists (-1), d|]. mrun (io_get_run r d).
  destruct (again _); [|exists 0, (snd (dev_get r d)); by rewrite Hr]. destruct (IH (snd (dev_get r d))) as (x & d' & -> & Hv). exists x, d'. by rewrite Hv, Hr.
Qed.

Lemma poll_run r (again : Z -> bool) (P : SdView -> Prop) (Q : D -> Prop) cnt d :
  (forall d, view (snd (dev_get r d)) = view d) ->
  (forall d, P (view d) -> if again (fst (dev_get r d)) then (waits (snd (dev_get r d)) < waits d)%nat else Q (snd (dev_get r d))) ->
  P (view d) -> (waits d < cnt)%nat -> exists d', poll cnt r again d = Ret (0, d') /\ view d' = view d /\ Q d'.
Proof.
  intros Hv Hr. revert d. induction cnt as [|cnt IH]; intros d Hp Hw; [lia|]. cbn [poll]. mrun (io_get_run r d). specialize (Hr d Hp).
  destruct (again (fst (dev_get r d))); [|exists (snd (dev_get r d)); by rewrite Hv].
  destruct (IH (snd (dev_get r d))) as (d' & H1 & H2 & H3); [by rewrite Hv|lia|]. exists d'. by rewrite H2, Hv.
Qed.

Lemma waits_polls d : (waits d < MAX_POLLS)%nat.
Proof. pose proof (waits_bound d). pose proof max_wait_bound. unfold MAX_POLLS. lia. Qed.

Lemma wait_sd_run d : exists x d', wait_sd d = Ret (x, d') /\ view d' = view d.
Proof. apply poll_any, get_cmd. Qed.

Lemma wait_fifo_any d : exists x d', wait_fifo d = Ret (x, d') /\ view d' = view d.
Proof. apply poll_any, get_hsts. Qed.

Lemma wait_fifo_run d : moving (sv_xfer (view d)) -> exists d', wait_fifo d = Ret (0, d') /\ view d' = view d /\ fifo_ready d'.
Proof.
  intros Hm. apply (poll_run _ _ (fun v => moving (sv_xfer v))); [apply get_hsts| |done|apply waits_polls]. clear d Hm. intros d Hm.
  pose proof (hsts_data d Hm) as Hg. by destruct (dev_get SDHOST_HSTS d) as [x d'].
Qed.

Lemma wait_finish_run fuel d : sv_xfer (view d) = NoXfer -> (max_wait < fuel)%nat -> exists d', wait_finish fuel d = Ret (tt, d') /\ view d' = view d.
Proof.
  intros Hx Hf. assert (Hw : (waits d < fuel)%nat) by (pose proof (waits_bound d); lia). clear Hf. revert d Hx Hw. induction fuel as [|fuel IH]; intros d Hi Hw; [lia|].
  cbn [wait_finish]. mrun (io_get_run SDHOST_DBG d). pose proof (get_dbg d) as Hv. pose proof (dbg_idle d Hi) as Hx. destruct (dev_get SDHOST_DBG d) as [x d']. simpl in *.
  destruct (Z.eqb_spec (Z.land x SDHOST_DBG_FSM_MASK) SDHOST_HSTS_DATA) as [He|Hne]; [exists d'; split; [done|done]|]. simpl.
  destruct (IH d') as (d2 & H1 & H2); [by rewrite Hv|specialize (Hx Hne); lia|]. exists d2. split; [done|congruence].
Qed.

Lemma sd_cmd_run cmd arg d : in_u32 (Z.lor cmd SDHOST_NEW_CMD) ->
  exists x d', sd_cmd cmd arg d = Ret (x, d') /\ view d' = view (dev_put SDHOST_CMD (Z.lor cmd SDHOST_NEW_CMD) (dev_put SDHOST_ARG (u32 arg) d)).
Proof.
  intros Hc. unfold sd_cmd. set (d1 := dev_put SDHOST_ARG (u32 arg) d). set (d2 := dev_put SDHOST_CMD (Z.lor cmd SDHOST_NEW_CMD) d1).
  assert (H1 : io_put SDHOST_ARG arg d = Ret (tt, d1)) by done. assert (H2 : io_put SDHOST_CMD (Z.lor cmd SDHOST_NEW_CMD) d1 = Ret (tt, d2)) by (unfold io_put, modify; by rewrite u32_id).
  mrun H1. mrun H2. apply wait_sd_run.
Qed.

(** The view before the command of a transfer: set up for it. *)
Lemma start_transfer_run cmd arg d : in_u32 (Z.lor cmd SDHOST_NEW_CMD) -> in_u32 arg -> sv_xfer (view d) = NoXfer ->
  exists d1 d', start_transfer cmd arg d = Ret (tt, d') /\ view d' = view (dev_put SDHOST_CMD (Z.lor cmd SDHOST_NEW_CMD) d1) /\
    single_block (view d1) /\ same_card (view d) (view d1) /\ sv_faults (view d1) = sv_faults (view d) /\ addressed (view d1) = addressed (set_arg arg (view d)).
Proof.
  intros Hc Ha Hx. unfold start_transfer, set_block. set (d1 := dev_put SDHOST_SIZE (u32 512) d). set (d2 := dev_put SDHOST_CNT (u32 1) d1).
  assert (Hs : (io_put SDHOST_SIZE 512;; io_put SDHOST_CNT 1) d = Ret (tt, d2)) by done. mrun Hs.
  destruct (sd_cmd_run cmd arg d2 Hc) as (x & d3 & H3 & Hv). mrun H3. exists (dev_put SDHOST_ARG (u32 arg) d2), d3. split; [done|]. split; [done|].
  rewrite put_arg. unfold d2, d1. rewrite put_cnt, put_size, u32_id by done. done.
Qed.

(** *** Good transfers *)

Lemma read_words_run ws d : sv_xfer (view d) = Reading ws -> Forall in_u32 ws -> ws <> [] ->
  exists d', read_words (length ws) d = Ret (ws, d') /\ view d' = set_xfer NoXfer (view d).
Proof.
  revert d. induction ws as [|w ws IH]; intros d Hx Hu Hne; [done|]. cbn [read_words length].
  apply list.Forall_cons in Hu as [Hw Hu]. destruct (wait_fifo_run d) as (d1 & H1 & Hv1 & Hr); [by rewrite Hx|]. mrun H1. mrun (io_get_run SDHOST_DATA d1).
  pose proof (get_data w ws d1 Hr Hw ltac:(by rewrite Hv1)) as Hg. destruct (dev_get SDHOST_DATA d1) as [x d2]. destruct Hg as [-> Hv2]. simpl. rewrite Hv1 in Hv2.
  destruct ws as [|w' ws]; [exists d2; by rewrite Hv2|]. destruct (IH d2) as (d3 & H3 & Hv3); [by rewrite Hv2|done|done|]. mrun H3. exists d3. by rewrite Hv3, Hv2.
Qed.

Lemma write_words_run b ws ws0 d : sv_xfer (view d) = Writing b ws0 -> Forall in_u32 ws -> (length ws0 + length ws = 128)%nat -> ws <> [] ->
  exists d', write_words ws d = Ret (tt, d') /\ view d' = set_disk (<[b := words_bytes (ws0 ++ ws)]> (sv_disk (view d))) (set_xfer NoXfer (view d)).
Proof.
  revert d ws0. induction ws as [|w ws IH]; intros d ws0 Hx Hu Hl Hne; [done|]. cbn [write_words]. simpl in Hl.
  apply list.Forall_cons in Hu as [Hw Hu]. destruct (wait_fifo_run d) as (d1 & H1 & Hv1 & Hr); [by rewrite Hx|]. mrun H1. set (d2 := dev_put SDHOST_DATA w d1).
  assert (H2 : io_put SDHOST_DATA w d1 = Ret (tt, d2)) by (unfold io_put, modify; by rewrite u32_id). mrun H2.
  assert (Hv2 : view d2 = push_word b ws0 w (view d)) by (unfold d2; rewrite (put_data w b ws0 d1 Hr), Hv1; [done|by rewrite Hv1]). unfold push_word in Hv2.
  destruct ws as [|w' ws].
  - exists d2. split; [done|]. simpl in Hl. rewrite bool_decide_true in Hv2 by lia. by rewrite Hv2.
  - simpl in Hl. rewrite bool_decide_false in Hv2 by lia. destruct (IH d2 (ws0 ++ [w])) as (d3 & H3 & Hv3); [by rewrite Hv2|done|rewrite length_app; simpl; lia|done|].
    exists d3. split; [done|]. rewrite Hv3, Hv2. simpl. by rewrite <- app_assoc.
Qed.

Lemma end_transfer_good d : sv_xfer (view d) = NoXfer -> exists d', end_transfer d = Ret (true, d') /\ view d' = view d.
Proof.
  intros Hx. unfold end_transfer. mrun (io_get_run SDHOST_HSTS d). rewrite (hsts_idle d Hx). simpl. eexists. split; [done|apply get_hsts].
Qed.

(** *** Transfers that fail *)

Lemma same_but_trans b v1 v2 v3 : same_but b v1 v2 -> same_but b v2 v3 -> same_but b v1 v3.
Proof. intros [] []. split; [destruct b; congruence|congruence]. Qed.

Lemma read_words_failing k n d : sv_xfer (view d) = Failing None n -> (n <= k)%nat ->
  exists ws d', read_words k d = Ret (ws, d') /\ sv_xfer (view d') = Failing None 0 /\ same_but None (view d) (view d') /\ sv_faults (view d') = sv_faults (view d).
Proof.
  revert n d. induction k as [|k IH]; intros n d Hx Hn; cbn [read_words].
  { exists [], d. destruct n; [|lia]. by split_and!. }
  destruct (wait_fifo_any d) as (x & d1 & H1 & Hv1). mrun H1. mrun (io_get_run SDHOST_DATA d1). rewrite <- Hv1 in Hx.
  destruct (get_data_failing n d1 Hx) as (Hsb & Hx2 & Hf2). destruct (IH _ _ Hx2 ltac:(lia)) as (ws & d3 & H3 & Hx3 & Hs3 & Hf3). mrun H3.
  eexists _, d3. split; [reflexivity|]. split; [done|]. rewrite <- Hv1. split; [by eapply same_but_trans|congruence].
Qed.

Lemma write_words_failing ws b n d : sv_xfer (view d) = Failing (Some b) n -> (n <= length ws)%nat ->
  exists d', write_words ws d = Ret (tt, d') /\ sv_xfer (view d') = Failing (Some b) 0 /\ same_but (Some b) (view d) (view d') /\ sv_faults (view d') = sv_faults (view d).
Proof.
  revert n d. induction ws as [|w ws IH]; intros n d Hx Hn; cbn [write_words]; simpl in Hn.
  { exists d. destruct n; [|lia]. by split_and!. }
  destruct (wait_fifo_any d) as (x & d1 & H1 & Hv1). mrun H1. rewrite <- Hv1 in Hx. set (d2 := dev_put SDHOST_DATA (u32 w) d1).
  assert (H2 : io_put SDHOST_DATA w d1 = Ret (tt, d2)) by done. mrun H2.
  destruct (put_data_failing (u32 w) b n d1 Hx) as (Hsb & Hx2 & Hf2). destruct (IH _ _ Hx2 ltac:(lia)) as (d3 & H3 & Hx3 & Hs3 & Hf3).
  exists d3. split; [done|]. split; [done|]. rewrite <- Hv1. split; [by eapply same_but_trans|congruence].
Qed.

(** The flags are cleared and the transfer is stopped: the controller is idle. *)
Lemma end_transfer_failed b d : sv_xfer (view d) = Failing b 0 ->
  exists d', end_transfer d = Ret (false, d') /\ sv_xfer (view d') = NoXfer /\ same_card (view d) (view d') /\ sv_faults (view d') = sv_faults (view d).
Proof.
  intros Hx. unfold end_transfer. mrun (io_get_run SDHOST_HSTS d). rewrite (proj2 (Z.eqb_neq _ _) (hsts_failed b d Hx)). simpl.
  pose proof (get_hsts d) as Hv. set (d1 := snd (dev_get SDHOST_HSTS d)) in *. set (d2 := dev_put SDHOST_HSTS SDHOST_HSTS_ERR_MASK d1).
  assert (H2 : io_put SDHOST_HSTS SDHOST_HSTS_ERR_MASK d1 = Ret (tt, d2)) by done. mrun H2.
  assert (Hv2 : view d2 = set_xfer Halted (view d)) by (unfold d2; rewrite (put_hsts b), Hv; [done|by rewrite Hv|done]).
  destruct (sd_cmd_run (Z.lor STOP_TRANSMISSION SDHOST_BUSY) 0 d2) as (x & d3 & H3 & Hv3); [done|]. mrun H3. exists d3. split; [done|].
  rewrite Hv3, put_stop, put_arg, Hv2; [done|]. by rewrite put_arg, Hv2.
Qed.

(** *** The loops *)

Lemma read_loop_run fuel arg d : in_u32 arg -> sv_xfer (view d) = NoXfer -> disk_ok (sv_disk (view d)) -> (sv_faults (view d) < fuel)%nat ->
  exists ws d', read_loop fuel arg d = Ret (ws, d') /\ words_bytes ws = block_at (sv_disk (view d)) (addressed (set_arg arg (view d))) /\
    same_card (view d) (view d') /\ sv_xfer (view d') = NoXfer.
Proof.
  intros Ha. revert d. induction fuel as [|fuel IH]; intros d Hx Hok Hf; [lia|]. cbn [read_loop].
  destruct (start_transfer_run (Z.lor READ_SINGLE_BLOCK SDHOST_READ) arg d) as (d1 & d2 & H2 & Hv2 & Hsb & [Hk1 Hk2] & Hf1 & Had); [done|done|done|]. mrun H2.
  destruct (put_read d1 Hsb ltac:(by rewrite Hk1)) as [([Hs1 Hs2] & (ws & Hx2 & Hlen & Hu & Hws) & Hf2)|([Hs1 Hs2] & (n & Hx2 & Hn) & Hf2)]; rewrite <- Hv2 in *.
  - destruct (read_words_run ws d2 Hx2 Hu ltac:(by destruct ws)) as (d3 & H3 & Hv3). rewrite Hlen in H3. mrun H3.
    destruct (end_transfer_good d3) as (d4 & H4 & Hv4); [by rewrite Hv3|]. mrun H4. exists ws, d4. rewrite Hws, Hk1, Had, Hv4, Hv3. split_and!; [done|done| |done].
    split; simpl; congruence.
  - destruct (read_words_failing 128 n d2 Hx2 Hn) as (ws & d3 & H3 & Hx3 & [Hs3 Hh3] & Hf3). mrun H3.
    destruct (end_transfer_failed None d3 Hx3) as (d4 & H4 & Hx4 & [Hc4 Hh4] & Hf4). mrun H4.
    assert (Hd : sv_disk (view d4) = sv_disk (view d)) by congruence. assert (Hh : sv_high (view d4) = sv_high (view d)) by congruence.
    destruct (IH d4 Hx4) as (ws' & d5 & H5 & Hw5 & [Hc5 Hc5'] & Hx5); [by rewrite Hd|lia|]. exists ws', d5. split_and!; [done| |split; congruence|done].
    rewrite Hw5, Hd. unfold addressed. simpl. by rewrite Hh.
Qed.

Lemma insert_same_but (b : Z) (x : list Z) (m m' : gmap Z (list Z)) : delete b m' = delete b m -> <[b := x]> m' = <[b := x]> m.
Proof. intros H. by rewrite <- (insert_delete_eq m' b x), H, insert_delete_eq. Qed.

Lemma write_loop_run fuel arg ws d : in_u32 arg -> Forall in_u32 ws -> length ws = 128%nat -> sv_xfer (view d) = NoXfer -> (sv_faults (view d) < fuel)%nat ->
  exists d', write_loop fuel arg ws d = Ret (tt, d') /\ sv_disk (view d') = <[addressed (set_arg arg (view d)) := words_bytes ws]> (sv_disk (view d)) /\
    sv_high (view d') = sv_high (view d) /\ sv_xfer (view d') = NoXfer.
Proof.
  intros Ha Hu Hl. revert d. induction fuel as [|fuel IH]; intros d Hx Hf; [lia|]. cbn [write_loop].
  destruct (start_transfer_run (Z.lor WRITE_SINGLE_BLOCK SDHOST_WRITE) arg d) as (d1 & d2 & H2 & Hv2 & Hsb & [Hk1 Hk2] & Hf1 & Had); [done|done|done|]. mrun H2.
  destruct (put_write d1 Hsb) as [([Hs1 Hs2] & Hx2 & Hf2)|([Hs1 Hs2] & (n & Hx2 & Hn) & Hf2)]; rewrite <- Hv2, ?Had in *.
  - destruct (write_words_run _ ws [] d2 Hx2 Hu Hl ltac:(by destruct ws)) as (d3 & H3 & Hv3). mrun H3.
    destruct (end_transfer_good d3) as (d4 & H4 & Hv4); [by rewrite Hv3|]. mrun H4. exists d4. rewrite Hv4, Hv3. simpl. split_and!; [done| |congruence|done].
    by rewrite Hs1, Hk1.
  - rewrite <- Hl in Hn. destruct (write_words_failing ws _ n d2 Hx2 Hn) as (d3 & H3 & Hx3 & [Hs3 Hh3] & Hf3). mrun H3.
    destruct (end_transfer_failed _ d3 Hx3) as (d4 & H4 & Hx4 & [Hc4 Hh4] & Hf4). mrun H4.
    assert (Hh : sv_high (view d4) = sv_high (view d)) by congruence.
    destruct (IH d4 Hx4) as (d5 & H5 & Hd5 & Hh5 & Hx5); [lia|]. exists d5. split_and!; [done| |congruence|done].
    rewrite Hd5. unfold addressed at 1. simpl. rewrite Hh. change (if sv_high (view d) then arg else arg / 512) with (addressed (set_arg arg (view d))).
    apply insert_same_but. rewrite Hc4. etransitivity; [exact Hs3|]. etransitivity; [exact Hs1|]. by rewrite Hk1.
Qed.

(** The block index that fits the command. *)
Definition index_fits (is_high_capacity : bool) (i : Z) : Prop := 0 <= i < (if is_high_capacity then 2 ^ 31 else 2 ^ 23).

Lemma block_arg_ok v i : index_fits (sv_high v) i -> in_u32 (block_arg (sv_high v) i) /\ addressed (set_arg (block_arg (sv_high v) i) v) = i.
Proof.
  unfold index_fits, block_arg, addressed, in_u32, u32. simpl. intros Hi. split; [by apply Z.mod_pos_bound|]. destruct (sv_high v); [apply Z.mod_small; lia|].
  rewrite Z.shiftl_mul_pow2 by lia. unfold s32. rewrite Zminus_mod, Z.mod_mod, <- Zminus_mod, Z.add_simpl_r, Z.mod_small by lia. by apply Z.div_mul.
Qed.
End host.

(** ** Claims *)

(** C28. On a host controller that keeps the promises of [SdHost] and is idle,
    reading a block returns, after no more attempts than there are transfers
    that fail, with the bytes of the block, and leaves the card's data alone;
    writing a block returns likewise, and changes that block and no other, also
    when attempts that failed have spoilt it.  The controller is idle again
    afterwards.  (The bound of the polls is the one in the code; the card's type
    is the one found at start-up.) *)
Theorem sd_blocks_transferred {D : Type} `{HD : Device D} `{HS : !SdHost D} (d : D) (i : Z) (buf : list Z) (fuel : nat) :
  sv_xfer (view d) = NoXfer -> disk_ok (sv_disk (view d)) -> index_fits (sv_high (view d)) i -> is_block buf ->
  (sv_faults (view d) + max_wait < fuel)%nat ->
  (exists d', read_block fuel (sv_high (view d)) i d = Ret (block_at (sv_disk (view d)) i, d') /\
     same_card (view d) (view d') /\ sv_xfer (view d') = NoXfer) /\
  (exists d', write_block fuel (sv_high (view d)) i buf d = Ret (tt, d') /\
     sv_disk (view d') = <[i := buf]> (sv_disk (view d)) /\ sv_high (view d') = sv_high (view d) /\ sv_xfer (view d') = NoXfer).
Proof.
  intros Hx Hok Hi Hb Hf. destruct (block_arg_ok (view d) i Hi) as [Ha Had]. split.
  - unfold read_block. destruct (read_loop_run fuel _ d Ha Hx Hok ltac:(lia)) as (ws & d1 & H1 & Hw & Hc & Hx1). mrun H1.
    destruct (wait_finish_run fuel d1 Hx1 ltac:(lia)) as (d2 & H2 & Hv). mrun H2. exists d2. by rewrite Hw, Had, Hv.
  - unfold write_block. destruct (block_words buf Hb) as (ws & Hw & Hlen & Hu & Hby).
    assert (Hlift : lift (buf_words 128 buf 0) d = Ret (ws, d)) by (unfold lift; by rewrite Hw). mrun Hlift.
    destruct (write_loop_run fuel _ ws d Ha Hu Hlen Hx ltac:(lia)) as (d1 & H1 & Hd & Hh & Hx1). mrun H1.
    destruct (wait_finish_run fuel d1 Hx1 ltac:(lia)) as (d2 & H2 & Hv). exists d2. by rewrite Hv, Hd, Had, Hby.
Qed.

(** ** A controller

    Its first transfers fail: the data never gets ready, the block that was to
    be written is lost, and the error shows after the third access.  Afterwards
    it makes the driver poll twice for everything.  A block size or count that
    is not the one of a single block makes it ignore the command. *)

Record Sim := mkSim { sim_view : SdView; sim_wait : bool }.
Definition sim_words (v : SdView) : list Z := match buf_words 128 (block_at (sv_disk v) (addressed v)) 0 with Ret ws => ws | _ => replicate 128 0 end.
Definition sim_fail (b : option Z) (v : SdView) : SdView :=
  mkView (match b with Some b => delete b (sv_disk v) | None => sv_disk v end) (sv_high v) (sv_arg v) (sv_size v) (sv_cnt v)
    (Failing b 3) (Nat.pred (sv_faults v)).
Definition sim_command (cmd : Z) (v : SdView) : SdView :=
  let start b x := if bool_decide (sv_faults v = 0%nat) then set_xfer x v else sim_fail b v in
  if negb (sv_size v =? 512) || negb (sv_cnt v =? 1) then set_xfer NoXfer v
  else if cmd =? Z.lor (Z.lor READ_SINGLE_BLOCK SDHOST_READ) SDHOST_NEW_CMD then start None (Reading (sim_words v))
  else if cmd =? Z.lor (Z.lor WRITE_SINGLE_BLOCK SDHOST_WRITE) SDHOST_NEW_CMD then start (Some (addressed v)) (Writing (addressed v) [])
  else set_xfer NoXfer v.
Definition sim_data (x : Z) (v : SdView) : SdView :=
  match sv_xfer v with
  | Writing b ws => push_word b ws x v
  | Failing b n => set_xfer (Failing b (Nat.pred n)) v
  | _ => v
  end.
Definition sim_clear (x : Z) (v : SdView) : SdView :=
  match sv_xfer v with
  | Failing b n => if Z.land x SDHOST_HSTS_ERR_MASK =? SDHOST_HSTS_ERR_MASK then set_xfer Halted v else v
  | _ => v
  end.
Definition sim_put (r : Reg) (x : Z) (s : Sim) : Sim :=
  let v := sim_view s in
  if decide (r = SDHOST_ARG) then mkSim (set_arg x v) (sim_wait s)
  else if decide (r = SDHOST_SIZE) then mkSim (set_size x v) (sim_wait s)
  else if decide (r = SDHOST_CNT) then mkSim (set_cnt x v) (sim_wait s)
  else if decide (r = SDHOST_CMD) then mkSim (sim_command x v) true
  else if decide (r = SDHOST_HSTS) then mkSim (sim_clear x v) (sim_wait s)
  else if decide (r = SDHOST_DATA) then mkSim (sim_data x v) true
  else s.
(** Whether data is ready, and the error flag. *)
Definition sim_status (s : Sim) : Z :=
  match sv_xfer (sim_view s) with
  | Failing _ n => if bool_decide (n = 0%nat) then 0x80 else 0
  | _ => if sim_wait s then 0 else 1
  end.
Definition sim_get (r : Reg) (s : Sim) : Z * Sim :=
  let s' := mkSim (sim_view s) false in
  if decide (r = SDHOST_CMD) then (if sim_wait s then SDHOST_NEW_CMD else 0, s')
  else if decide (r = SDHOST_HSTS) then (sim_status s, s')
  else if decide (r = SDHOST_DBG) then (if sim_wait s then 0 else 1, s')
  else if decide (r = SDHOST_DATA) then
    match sv_xfer (sim_view s) with
    | Reading (w :: ws) => (u32 w, mkSim (pop_word ws (sim_view s)) true)
    | _ => (0, mkSim (sim_data 0 (sim_view s)) true)
    end
  else (0, s).
#[export] Instance sim_device : Device Sim := {| dev_get := sim_get; dev_put := sim_put |}.

Lemma sim_words_ok v : disk_ok (sv_disk v) -> length (sim_words v) = 128%nat /\ Forall in_u32 (sim_words v) /\ words_bytes (sim_words v) = block_at (sv_disk v) (addressed v).
Proof.
  intros Hd. destruct (block_words _ (block_at_ok (sv_disk v) (addressed v) Hd)) as (ws & Hw & Hlen & Hu & Hby). unfold sim_words. by rewrite Hw.
Qed.

Lemma sim_put_cmd x s : dev_put SDHOST_CMD x s = mkSim (sim_command x (sim_view s)) true.
Proof. done. Qed.
Lemma sim_put_hsts x s : dev_put SDHOST_HSTS x s = mkSim (sim_clear x (sim_view s)) (sim_wait s).
Proof. done. Qed.
Lemma sim_put_data x s : dev_put SDHOST_DATA x s = mkSim (sim_data x (sim_view s)) true.
Proof. done. Qed.
Lemma sim_get_hsts s : dev_get SDHOST_HSTS s = (sim_status s, mkSim (sim_view s) false).
Proof. done. Qed.
Lemma sim_get_data s : dev_get SDHOST_DATA s =
  match sv_xfer (sim_view s) with
  | Reading (w :: ws) => (u32 w, mkSim (pop_word ws (sim_view s)) true)
  | _ => (0, mkSim (sim_data 0 (sim_view s)) true)
  end.
Proof. unfold dev_get, sim_device, sim_get. do 3 rewrite decide_False by done. by rewrite decide_True by done. Qed.
Lemma sim_get_dbg s : dev_get SDHOST_DBG s = (if sim_wait s then 0 else 1, mkSim (sim_view s) false).
Proof. done. Qed.

(** A command of a single block. *)
Lemma sim_command_starts cmd v : single_block v ->
  (cmd = Z.lor (Z.lor READ_SINGLE_BLOCK SDHOST_READ) SDHOST_NEW_CMD -> disk_ok (sv_disk v) -> starts_read v (sim_command cmd v)) /\
  (cmd = Z.lor (Z.lor WRITE_SINGLE_BLOCK SDHOST_WRITE) SDHOST_NEW_CMD -> starts_write v (sim_command cmd v)).
Proof.
  intros (Hx & Hs & Hc). unfold sim_command. rewrite Hs, Hc. cbn [Z.eqb Pos.eqb negb orb]. split; intros ->.
  - intros Hd. rewrite Z.eqb_refl. destruct (sim_words_ok v Hd) as (H1 & H2 & H3). case_bool_decide; [left|right].
    + split; [done|]. split; [by exists (sim_words v)|done].
    + split; [done|]. split; [exists 3%nat; split; [done|lia]|simpl; lia].
  - rewrite Z.eqb_refl. case_bool_decide; [left|right].
    + by split_and!.
    + split; [split; [simpl; apply delete_delete_eq|done]|]. split; [exists 3%nat; split; [done|lia]|simpl; lia].
Qed.

#[export] Program Instance sim_host : SdHost Sim := {|
  view := sim_view; waits s := if sim_wait s then 1%nat else 0%nat; fifo_ready s := sim_wait s = false; max_wait := 1
|}.
Next Obligation. intros s. simpl. destruct (sim_wait s); lia. Qed.
Next Obligation. simpl. lia. Qed.
Next Obligation.
  intros r s. simpl. unfold sim_get, in_u32, sim_status. case_decide; [destruct (sim_wait s); simpl; unfold SDHOST_NEW_CMD; lia|]. case_decide.
  { destruct (sv_xfer (sim_view s)), (sim_wait s); simpl; try case_bool_decide; lia. }
  case_decide; [destruct (sim_wait s); simpl; lia|]. case_decide; [|simpl; lia]. destruct (sv_xfer (sim_view s)) as [|[|w ws]| | |]; simpl; try lia. apply u32_range.
Qed.
Next Obligation. done. Qed.
Next Obligation. done. Qed.
Next Obligation. done. Qed.
Next Obligation. intros s Hsb Hd. rewrite sim_put_cmd. by apply sim_command_starts. Qed.
Next Obligation. intros s Hsb. rewrite sim_put_cmd. by apply sim_command_starts. Qed.
Next Obligation. intros s _. rewrite sim_put_cmd. unfold sim_command. simpl. by destruct (_ || _). Qed.
Next Obligation. done. Qed.
Next Obligation. intros b x s Hx Hm. rewrite sim_put_hsts. simpl in *. unfold sim_clear. by rewrite Hx, Hm, Z.eqb_refl. Qed.
Next Obligation. done. Qed.
Next Obligation.
  intros s Hm. rewrite sim_get_hsts. simpl. unfold sim_status. destruct (sv_xfer (sim_view s)); try done; destruct (sim_wait s); simpl; (lia || done).
Qed.
Next Obligation. intros s Hx. rewrite sim_get_hsts. simpl in *. unfold sim_status. rewrite Hx. by destruct (sim_wait s). Qed.
Next Obligation. intros b s Hx. rewrite sim_get_hsts. simpl in *. unfold sim_status. by rewrite Hx. Qed.
Next Obligation. intros w ws s Hr Hw Hx. rewrite sim_get_data. simpl in *. rewrite Hx. by rewrite u32_id. Qed.
Next Obligation. intros w b ws s Hr Hx. rewrite sim_put_data. simpl in *. unfold sim_data. by rewrite Hx. Qed.
Next Obligation. intros n s Hx. rewrite sim_get_data. simpl in *. unfold sim_data. by rewrite !Hx. Qed.
Next Obligation. intros w b n s Hx. rewrite sim_put_data. simpl in *. unfold sim_data. by rewrite Hx. Qed.
Next Obligation. done. Qed.
Next Obligation. intros s _. rewrite sim_get_dbg. simpl. destruct (sim_wait s); [lia|done]. Qed.

(** A card whose next three transfers fail. *)
Definition demo_card : Sim := mkSim (mkView {[5 := replicate 512 7]} false 0 0 0 NoXfer 3) false.

Lemma sd_blocks_transferred_witness :
  (exists d', read_block 5 false 5 demo_card = Ret (replicate 512 7, d')) /\
  (exists d', write_block 5 false 6 (replicate 512 9) demo_card = Ret (tt, d') /\ sv_disk (view d') = <[6 := replicate 512 9]> {[5 := replicate 512 7]}).
Proof.
  assert (Hblk : forall x, 0 <= x < 256 -> is_block (replicate 512 x)) by (intros x Hx; split; [reflexivity|by apply Forall_replicate]).
  assert (Hok : disk_ok (sv_disk (view demo_card))) by (intros j b Hj; apply (lookup_singleton_Some 5 j (replicate 512 7) b) in Hj as [_ <-]; apply Hblk; lia).
  split.
  - destruct (sd_blocks_transferred demo_card 5 (replicate 512 9) 5) as [(d' & H & _) _]; [done|exact Hok|unfold index_fits; simpl; lia|apply Hblk; lia|simpl; lia|].
    exists d'. exact H.
  - destruct (sd_blocks_transferred demo_card 6 (replicate 512 9) 5) as [_ (d' & H & Hd & _)]; [done|exact Hok|unfold index_fits; simpl; lia|apply Hblk; lia|simpl; lia|].
    exists d'. split; [exact H|exact Hd].
Defined.
