(* ===== verification/Mailbox.v ===== *)
(** * driver/Mailbox.cc: properties of the board

    The driver writes a request into a message that it shares with the GPU,
    passes the address, and waits for the answer in the same message.  The GPU
    is a parameter: [gpu_reply] is what it makes of a request. *)

From Stdlib Require Import ZArith Lia.
From stdpp Require Import base gmap list numbers.
From S2P Require Import Prelude Mmu PageTable Mmio.

Open Scope Z_scope.

Definition GET_BOARD_MODEL : Z := 0x00010001.
Definition GET_BOARD_REVISION : Z := 0x00010002.
Definition GET_ARM_MEMORY : Z := 0x00010005.
Definition GET_VC_MEMORY : Z := 0x00010006.
Definition REQUEST_CODE : Z := 0.
Definition TAG_REQUEST_CODE : Z := 0.
Definition END_TAG : Z := 0.
Definition MAILBOX_READ : Reg := reg 0xb880.
Definition MAILBOX_STATUS : Reg := reg (0xb880 + 0x18).
Definition MAILBOX_WRITE : Reg := reg (0xb880 + 0x20).
Definition MAILBOX_EMPTY : Z := 0x40000000.
Definition MAILBOX_FULL : Z := 0x80000000.

Record Message := mkMessage {
  buf_size : Z;
  buf_req_resp_code : Z;
  tag_identifier : Z;
  max_value_buffer_size : Z;
  tag_req_resp_code : Z;
  value_buf : list Z
}.
Definition new_mailbox : Message := mkMessage 0 0 0 0 0 [0; 0; 0].

(** The message in the memory that the device reaches too. *)
Class SharedMessage (D : Type) := { get_msg : D -> Message; set_msg : Message -> D -> D }.

Section driver.
Context {D : Type} `{Device D, SharedMessage D} (msg_addr : Z).

(** [while (io::get<uint32_t>(r) ...);] *)
Fixpoint spin (fuel : nat) (r : Reg) (again : Z -> bool) : M D unit :=
  match fuel with
  | O => out_of_fuel
  | S fuel => x ← io_get r; if again x then spin fuel r again else mret tt
  end.

Definition mbox_addr : Z := u32 (Z.lor (Z.land msg_addr (not64 0xf)) 0x8).
Definition mbox_call (fuel : nat) : M D unit :=
  spin fuel MAILBOX_STATUS (fun x => negb (Z.land x MAILBOX_FULL =? 0));;
  io_put MAILBOX_WRITE mbox_addr;;
  spin fuel MAILBOX_STATUS (fun x => negb (Z.land x MAILBOX_EMPTY =? 0));;
  spin fuel MAILBOX_READ (fun x => negb (x =? mbox_addr)).

(** The assignments to [_msg]; [values] are written from [value_buf[0]] on. *)
Definition write_request (size tag max : Z) (values : list Z) : M D unit :=
  d ← get; put (set_msg (mkMessage size REQUEST_CODE tag max TAG_REQUEST_CODE (values ++ drop (length values) (value_buf (get_msg d)))) d).
Definition value (i : Z) : M D Z := d ← get; deref (arr_get (value_buf (get_msg d)) i).

Definition get_board_model (fuel : nat) : M D Z := write_request (7 * 4) GET_BOARD_MODEL 4 [0; END_TAG];; mbox_call fuel;; value 0.
Definition get_board_revision (fuel : nat) : M D Z := write_request (7 * 4) GET_BOARD_REVISION 4 [0; END_TAG];; mbox_call fuel;; value 0.
Definition get_arm_memory (fuel : nat) : M D (Z * Z) :=
  write_request (8 * 4) GET_ARM_MEMORY 8 [0; 0; END_TAG];; mbox_call fuel;; a ← value 0; b ← value 1; mret (a, b).
Definition get_vc_memory (fuel : nat) : M D (Z * Z) :=
  write_request (8 * 4) GET_VC_MEMORY 8 [0; 0; END_TAG];; mbox_call fuel;; a ← value 0; b ← value 1; mret (a, b).
End driver.

(** ** What the GPU promises

    A request that was passed is answered after a number of polls, and then the
    address of the message can be read. *)
Class Gpu (D : Type) `{Device D, SharedMessage D} (addr : Z) := {
  gpu_reply : Message -> Message;
  gpu_busy : D -> option Message;
  gpu_waits : D -> nat;
  gpu_max : nat;
  gpu_bound d : (gpu_waits d <= gpu_max)%nat;
  gpu_range r d : in_u32 (fst (dev_get r d));
  set_msg_get m d : get_msg (set_msg m d) = m /\ gpu_busy (set_msg m d) = gpu_busy d;
  get_status_full d : gpu_busy d = None -> let (x, d') := dev_get MAILBOX_STATUS d in
    gpu_busy d' = None /\ get_msg d' = get_msg d /\ (Z.land x MAILBOX_FULL <> 0 -> (gpu_waits d' < gpu_waits d)%nat);
  put_request d : gpu_busy d = None -> gpu_busy (dev_put MAILBOX_WRITE addr d) = Some (get_msg d);
  get_status_empty m d : gpu_busy d = Some m -> let (x, d') := dev_get MAILBOX_STATUS d in
    gpu_busy d' = Some m /\ (Z.land x MAILBOX_EMPTY <> 0 -> (gpu_waits d' < gpu_waits d)%nat);
  get_answer m d : gpu_busy d = Some m -> let (x, d') := dev_get MAILBOX_READ d in
    if x =? addr then gpu_busy d' = None /\ get_msg d' = gpu_reply m else gpu_busy d' = Some m /\ (gpu_waits d' < gpu_waits d)%nat
}.

Section gpu.
Context {D : Type} `{HD : Device D, HM : SharedMessage D} (msg_addr : Z) `{HG : !Gpu D (mbox_addr msg_addr)}.
Implicit Types d : D.

(** A loop on a register with an invariant. *)
Lemma spin_run r (again : Z -> bool) (I Q : D -> Prop) fuel d :
  (forall d, I d -> let (x, d') := dev_get r d in if again x then I d' /\ (gpu_waits d' < gpu_waits d)%nat else Q d') ->
  I d -> (gpu_max < fuel)%nat -> exists d', spin fuel r again d = Ret (tt, d') /\ Q d'.
Proof.
  intros Hr Hi Hf. assert (Hw : (gpu_waits d < fuel)%nat) by (pose proof (gpu_bound d); lia). clear Hf. revert d Hi Hw.
  induction fuel as [|fuel IH]; intros d Hi Hw; [lia|]. cbn [spin]. specialize (Hr d Hi).
  assert (Hg : io_get r d = Ret (fst (dev_get r d), snd (dev_get r d))) by (unfold io_get; pose proof (gpu_range r d) as Hx; destruct (dev_get r d); simpl in *; by rewrite u32_id).
  mrun Hg. destruct (dev_get r d) as [x d']. simpl.
  destruct (again x); [|eauto]. destruct Hr as [Hi' Hlt]. apply IH; [done|lia].
Qed.

(** Passing a message gets the answer of the GPU. *)
Lemma mbox_call_run fuel d : gpu_busy d = None -> (gpu_max < fuel)%nat ->
  exists d', mbox_call msg_addr fuel d = Ret (tt, d') /\ gpu_busy d' = None /\ get_msg d' = gpu_reply (get_msg d).
Proof.
  intros Hb Hf. unfold mbox_call.
  destruct (spin_run MAILBOX_STATUS (fun x => negb (Z.land x MAILBOX_FULL =? 0)) (fun e => gpu_busy e = None /\ get_msg e = get_msg d) (fun e => gpu_busy e = None /\ get_msg e = get_msg d) fuel d) as (d1 & H1 & Hb1 & Hm1); [|done|done|].
  { intros e [He Hm]. pose proof (get_status_full e He) as Hg. destruct (dev_get MAILBOX_STATUS e) as [x e']. destruct Hg as (G1 & G2 & G3).
    destruct (Z.eqb_spec (Z.land x MAILBOX_FULL) 0) as [E|E]; simpl; [split; congruence|]. split; [split; congruence|by apply G3]. }
  mrun H1. set (d2 := dev_put MAILBOX_WRITE (mbox_addr msg_addr) d1).
  assert (H2 : io_put MAILBOX_WRITE (mbox_addr msg_addr) d1 = Ret (tt, d2)) by (unfold io_put, modify, d2; do 3 f_equal; apply u32_id, u32_range). mrun H2.
  assert (Hb2 : gpu_busy d2 = Some (get_msg d)) by (unfold d2; rewrite put_request, Hm1; done).
  destruct (spin_run MAILBOX_STATUS (fun x => negb (Z.land x MAILBOX_EMPTY =? 0)) (fun e => gpu_busy e = Some (get_msg d)) (fun e => gpu_busy e = Some (get_msg d)) fuel d2) as (d3 & H3 & Hb3); [|done|done|].
  { intros e He. pose proof (get_status_empty _ e He) as Hg. destruct (dev_get MAILBOX_STATUS e) as [x e']. destruct Hg as (G1 & G3).
    destruct (Z.eqb_spec (Z.land x MAILBOX_EMPTY) 0) as [E|E]; simpl; [done|]. split; [done|by apply G3]. }
  mrun H3. apply (spin_run MAILBOX_READ _ (fun e => gpu_busy e = Some (get_msg d))); [|done|done].
  intros e He. pose proof (get_answer _ e He) as Hg. destruct (dev_get MAILBOX_READ e) as [x e']. by destruct (x =? mbox_addr msg_addr).
Qed.

(** A property of two words is what the GPU put into the answer. *)
Lemma get_arm_memory_run fuel d base size rest : gpu_busy d = None -> (gpu_max < fuel)%nat -> length (value_buf (get_msg d)) = 3%nat ->
  value_buf (gpu_reply (mkMessage 32 REQUEST_CODE GET_ARM_MEMORY 8 TAG_REQUEST_CODE [0; 0; END_TAG])) = base :: size :: rest ->
  exists d', get_arm_memory msg_addr fuel d = Ret ((base, size), d') /\ gpu_busy d' = None.
Proof.
  intros Hb Hf Hl Hr. set (m := mkMessage 32 REQUEST_CODE GET_ARM_MEMORY 8 TAG_REQUEST_CODE [0; 0; END_TAG]) in *. destruct (set_msg_get m d) as [Hm Hbm].
  assert (Hw : write_request (8 * 4) GET_ARM_MEMORY 8 [0; 0; END_TAG] d = Ret (tt, set_msg m d)).
  { unfold write_request. msimpl. change (length [0; 0; END_TAG]) with 3%nat. destruct (value_buf (get_msg d)) as [|x [|y [|z [|]]]]; done. }
  destruct (mbox_call_run fuel (set_msg m d)) as (d' & Hc & Hb' & Hm'); [congruence|done|]. unfold get_arm_memory. mrun Hw. mrun Hc.
  assert (Hv : forall i x, arr_get (base :: size :: rest) i = Some x -> value i d' = Ret (x, d')) by (intros i x Hi; unfold value; msimpl; rewrite Hm', Hm, Hr, Hi; done).
  mrun (Hv 0 base eq_refl). mrun (Hv 1 size eq_refl). exists d'. done.
Qed.
End gpu.
