(* ===== verification/ByteMem.v ===== *)
(** * The bytes of physical memory

    Memory is kept as 64-bit words (PageTable.v); the kernel's copies and the
    accesses through the pointers a program passes are by bytes, in the
    little-endian order of the machine.  The kernel reaches physical memory at
    its physical addresses and at the same addresses above [KERNEL_VA_BASE].
    An access does not wrap around the end of the address space: it faults. *)

From Stdlib Require Import ZArith Lia.
From stdpp Require Import base gmap list numbers.
From S2P Require Import Prelude Math Mmu Mutex Buddy Slob Memory PageTable CString Disk Elf.

Open Scope Z_scope.

(** ** Bytes and ranges *)

Definition byte_at (mem : Z -> Z) (a : Z) : Z := (mem (8 * (a / 8)) / 256 ^ (a mod 8)) mod 256.

(** The number whose bytes are [f x], [f (x + 1)], ... *)
Fixpoint assemble (n : nat) (f : Z -> Z) (x : Z) : Z :=
  match n with O => 0 | S n => f x mod 256 + 256 * assemble n f (x + 1) end.

(** The bytes [a] to [a + n - 1] are given by [f]. *)
Definition patch (a n : Z) (f : Z -> Z) (mem : Z -> Z) : Z -> Z :=
  fun x => if (x + 8 <=? a) || (a + n <=? x) then mem x
           else assemble 8 (fun b => if (a <=? b) && (b <? a + n) then f b else byte_at mem b) x.

Definition kaddr (a : Z) : Z := if KERNEL_VA_BASE <=? a then a - KERNEL_VA_BASE else a.

(** ** Operations *)

Definition in_space (a n : Z) : Prop := 0 <= a /\ a + n <= 2 ^ 64.
#[export] Instance in_space_dec a n : Decision (in_space a n).
Proof. unfold in_space. apply _. Defined.

(** Stores of a byte string and [memset]. *)
Definition store_bytes (a : Z) (l : list Z) (mem : Z -> Z) : Z -> Z :=
  patch a (Z.of_nat (length l)) (fun b => default 0 (arr_get l (b - a))) mem.
Definition put_bytes (a : Z) (l : list Z) : M VM unit :=
  if decide (in_space a (Z.of_nat (length l))) then modify (fun s => set_vm_mem (store_bytes (kaddr a) l (vm_mem s)) s) else fault.
Definition mem_set (a c n : Z) : M VM unit :=
  if decide (in_space a n) then modify (fun s => set_vm_mem (patch (kaddr a) n (fun _ => c) (vm_mem s)) s) else fault.

Definition load_bytes (mem : Z -> Z) (a : Z) (n : nat) : list Z := map (fun k => byte_at mem (a + Z.of_nat k)) (seq 0 n).
Definition get_bytes (a : Z) (n : nat) : M VM (list Z) := s ← get; mret (load_bytes (vm_mem s) (kaddr a) n).

(** A [size_t] or a pointer. *)
Definition load64 (mem : Z -> Z) (a : Z) : Z := assemble 8 (byte_at mem) (kaddr a).

(** A C string is read through this. *)
Definition mem_reader (mem : Z -> Z) : reader := fun a => Some (byte_at mem (kaddr a)).

(** ** Lemmas *)

Lemma byte_range mem a : 0 <= byte_at mem a < 256.
Proof. unfold byte_at. by apply Z.mod_pos_bound. Qed.

Lemma assemble_range n f x : 0 <= assemble n f x < 256 ^ Z.of_nat n.
Proof.
  revert x. induction n as [|n IH]; intros x; cbn [assemble]; [done|].
  rewrite Nat2Z.inj_succ, Z.pow_succ_r by lia. specialize (IH (x + 1)). pose proof (Z.mod_pos_bound (f x) 256). lia.
Qed.

Lemma assemble_byte n f x k : 0 <= k < Z.of_nat n -> (assemble n f x / 256 ^ k) mod 256 = f (x + k) mod 256.
Proof.
  revert x k. induction n as [|n IH]; intros x k Hk; [lia|]. cbn [assemble]. pose proof (Z.mod_pos_bound (f x) 256 ltac:(lia)).
  destruct (decide (k = 0)) as [->|].
  - rewrite Z.div_1_r, (Z.mul_comm 256), Z.mod_add, Z.mod_mod, Z.add_0_r by lia. done.
  - replace (256 ^ k) with (256 * 256 ^ (k - 1)) by (rewrite <- Z.pow_succ_r by lia; f_equal; lia).
    rewrite <- Z.div_div by (try apply Z.pow_pos_nonneg; lia). rewrite (Z.mul_comm 256), Z.div_add, (Z.div_small (f x mod 256)), Z.add_0_l by lia.
    rewrite IH by lia. f_equal. f_equal. lia.
Qed.

Lemma assemble_ext n f g x : (forall k, 0 <= k < Z.of_nat n -> f (x + k) mod 256 = g (x + k) mod 256) -> assemble n f x = assemble n g x.
Proof.
  revert x. induction n as [|n IH]; intros x H; cbn [assemble]; [done|].
  pose proof (H 0 ltac:(lia)) as H0. rewrite Z.add_0_r in H0. rewrite H0. f_equal. f_equal. apply IH. intros k Hk.
  rewrite <- !Z.add_assoc. apply H. lia.
Qed.

(** A number is assembled from its bytes. *)
Lemma assemble_bytes n w x : 0 <= w -> assemble n (fun b => w / 256 ^ (b - x)) x = w mod 256 ^ Z.of_nat n.
Proof.
  revert w x. induction n as [|n IH]; intros w x Hw; cbn [assemble]; [by rewrite Z.mod_1_r|].
  rewrite Z.sub_diag, Z.div_1_r, Nat2Z.inj_succ, Z.pow_succ_r by lia.
  rewrite Z.rem_mul_r by (try apply Z.pow_pos_nonneg; lia). f_equal. f_equal.
  rewrite <- (IH (w / 256) (x + 1)) by (apply Z.div_pos; lia). apply assemble_ext. intros k Hk. f_equal.
  rewrite Z.div_div by (try apply Z.pow_pos_nonneg; lia). f_equal. rewrite <- Z.pow_succ_r by lia. f_equal. lia.
Qed.

Lemma byte_split a : a = 8 * (a / 8) + a mod 8 /\ 0 <= a mod 8 < 8.
Proof. pose proof (Z.div_mod a 8). pose proof (Z.mod_pos_bound a 8). lia. Qed.

Lemma byte_patch a n f mem b : byte_at (patch a n f mem) b = if decide (a <= b < a + n) then f b mod 256 else byte_at mem b.
Proof.
  destruct (byte_split b) as [Hb Hm]. unfold byte_at at 1, patch.
  destruct (Z.leb_spec (8 * (b / 8) + 8) a); [rewrite decide_False by lia; done|].
  destruct (Z.leb_spec (a + n) (8 * (b / 8))); [rewrite decide_False by lia; done|]. cbn [orb].
  rewrite assemble_byte by lia. rewrite <- Hb. case_decide.
  - rewrite (proj2 (Z.leb_le _ _)), (proj2 (Z.ltb_lt _ _)) by lia. done.
  - replace ((a <=? b) && (b <? a + n)) with false by (symmetry; apply andb_false_iff; rewrite Z.leb_gt, Z.ltb_ge; lia).
    apply Z.mod_small, byte_range.
Qed.

Lemma word_patch a n f mem x : x + 8 <= a \/ a + n <= x -> patch a n f mem x = mem x.
Proof.
  intros H. unfold patch. destruct (Z.leb_spec (x + 8) a); [done|]. destruct (Z.leb_spec (a + n) x); [done|lia].
Qed.

(** The bytes from [a] on are [l]. *)
Definition mem_holds (mem : Z -> Z) (a : Z) (l : list Z) : Prop := forall k c, l !! k = Some c -> byte_at mem (a + Z.of_nat k) = c.
Definition is_bytes (l : list Z) : Prop := Forall (fun c => 0 <= c < 256) l.

Lemma mem_holds_app mem a l l' : mem_holds mem a (l ++ l') <-> mem_holds mem a l /\ mem_holds mem (a + Z.of_nat (length l)) l'.
Proof.
  unfold mem_holds. split.
  - intros H. split; [intros k c Hk; apply H; by apply lookup_app_l_Some|]. intros k c Hk. rewrite <- Z.add_assoc, <- Nat2Z.inj_add. apply H.
    rewrite lookup_app_r by lia. by replace (length l + k - length l)%nat with k by lia.
  - intros [H1 H2] k c Hk. apply lookup_app_Some in Hk as [Hk|[Hk Hk']]; [by apply H1|].
    specialize (H2 _ _ Hk'). by replace (a + Z.of_nat (length l) + Z.of_nat (k - length l)) with (a + Z.of_nat k) in H2 by lia.
Qed.

Lemma mem_holds_cons mem a c l : mem_holds mem a (c :: l) <-> byte_at mem a = c /\ mem_holds mem (a + 1) l.
Proof.
  change (c :: l) with ([c] ++ l). rewrite mem_holds_app. cbn [length]. split.
  - intros [H1 H2]. split; [|done]. specialize (H1 0%nat c eq_refl). by rewrite Z.add_0_r in H1.
  - intros [H1 H2]. split; [|done]. intros [|k] x Hk; [|done]. injection Hk as <-. by rewrite Z.add_0_r.
Qed.

Lemma mem_holds_ext mem mem' a l : (forall b, a <= b < a + Z.of_nat (length l) -> byte_at mem' b = byte_at mem b) -> mem_holds mem a l -> mem_holds mem' a l.
Proof. intros He H k c Hk. rewrite He; [by apply H|]. apply lookup_lt_Some in Hk. lia. Qed.

Lemma store_byte a l mem b : byte_at (store_bytes a l mem) b =
  if decide (a <= b < a + Z.of_nat (length l)) then default 0 (arr_get l (b - a)) mod 256 else byte_at mem b.
Proof. unfold store_bytes. by rewrite byte_patch. Qed.

Lemma store_holds a l mem : is_bytes l -> mem_holds (store_bytes a l mem) a l.
Proof.
  intros Hl k c Hk. pose proof (lookup_lt_Some _ _ _ Hk) as Hlt. rewrite store_byte, decide_True by lia.
  replace (a + Z.of_nat k - a) with (Z.of_nat k) by lia. rewrite arr_get_nat, Hk. cbn [default].
  apply Z.mod_small. by apply (Forall_lookup_1 _ _ _ _ Hl Hk).
Qed.

Lemma store_other a l mem b m : b + Z.of_nat (length m) <= a \/ a + Z.of_nat (length l) <= b -> mem_holds mem b m -> mem_holds (store_bytes a l mem) b m.
Proof. intros Hd. apply mem_holds_ext. intros x Hx. rewrite store_byte, decide_False by lia. done. Qed.

Lemma kaddr_low a : a < KERNEL_VA_BASE -> kaddr a = a.
Proof. intros H. unfold kaddr. by rewrite (proj2 (Z.leb_gt _ _)). Qed.

Lemma put_bytes_run a l s : 0 <= a -> a + Z.of_nat (length l) <= KERNEL_VA_BASE -> a < KERNEL_VA_BASE ->
  put_bytes a l s = Ret (tt, set_vm_mem (store_bytes a l (vm_mem s)) s).
Proof.
  intros H0 H1 H2. unfold put_bytes. rewrite decide_True by (split; [done|unfold KERNEL_VA_BASE in *; lia]). by rewrite kaddr_low.
Qed.

Lemma is_bytes_le n x : is_bytes (le_bytes n x).
Proof.
  revert x. induction n as [|n IH]; intros x; cbn [le_bytes]; [by apply list.Forall_nil|]. apply list.Forall_cons. split; [by apply Z.mod_pos_bound|apply IH].
Qed.

(** What little-endian bytes in memory are read as. *)
Lemma holds_assemble n mem a x : mem_holds mem a (le_bytes n x) -> assemble n (byte_at mem) a = x mod 256 ^ Z.of_nat n.
Proof.
  revert a x. induction n as [|n IH]; intros a x H; cbn [assemble le_bytes] in *; [by rewrite Z.mod_1_r|].
  apply mem_holds_cons in H as [H1 H2]. rewrite (IH _ _ H2), H1, Z.mod_mod, Nat2Z.inj_succ, Z.pow_succ_r by lia.
  rewrite Z.rem_mul_r by (try apply Z.pow_pos_nonneg; lia). done.
Qed.

Lemma load64_holds mem a x : a < KERNEL_VA_BASE -> in_u64 x -> mem_holds mem a (le_bytes 8 x) -> load64 mem a = x.
Proof. intros Ha Hx H. unfold load64. rewrite kaddr_low by done. rewrite (holds_assemble 8 _ _ _ H). by apply Z.mod_small. Qed.

Lemma length_load_bytes mem a n : length (load_bytes mem a n) = n.
Proof. unfold load_bytes. by rewrite length_map, length_seq. Qed.

Lemma load_bytes_lookup mem a n k : (k < n)%nat -> load_bytes mem a n !! k = Some (byte_at mem (a + Z.of_nat k)).
Proof. intros Hk. unfold load_bytes. rewrite list_lookup_fmap, lookup_seq_lt by done. done. Qed.

(** A frame that is cleared. *)
Lemma frame_word f x : f mod 8 = 0 -> in_frame f (8 * (x / 8)) = in_frame f x.
Proof.
  intros Hf. unfold in_frame. change PAGE_SIZE with 4096. destruct (byte_split x) as [Hx Hm]. pose proof (Z.div_mod f 8).
  apply eq_iff_eq_true. rewrite !andb_true_iff, !Z.leb_le, !Z.ltb_lt. lia.
Qed.
Lemma zero_frame_byte f mem x : f mod 8 = 0 -> byte_at (zero_frame f mem) x = if in_frame f x then 0 else byte_at mem x.
Proof. intros Hf. unfold byte_at, zero_frame. rewrite frame_word by done. destruct (in_frame f x); [by rewrite Z.div_0_l by (apply Z.pow_nonzero; [lia|apply byte_split])|done]. Qed.
Lemma byte_ext mem mem' x : mem' (8 * (x / 8)) = mem (8 * (x / 8)) -> byte_at mem' x = byte_at mem x.
Proof. intros H. unfold byte_at. by rewrite H. Qed.
