(* ===== verification/Cpio.v ===== *)
(** * fs/CPIOArchive.cc: the archive of the initial RAM disk

    The archive lies in memory, which is read with a [reader].  A callback of
    [for_each] is a computation on the state of its caller. *)

From Stdlib Require Import ZArith Lia.
From stdpp Require Import base gmap list numbers.
From S2P Require Import Prelude CString KString.

Open Scope Z_scope.

Definition CPIO_MAGIC : list Z := [48; 55; 48; 55; 48; 49].
Definition CPIO_TRAILER : list Z := [84; 82; 65; 73; 76; 69; 82; 33; 33; 33].

(** [sizeof(Header)] and the offsets of two of its fields. *)
Definition HEADER_SIZE : Z := 110.
Definition c_filesize : Z := 54.
Definition c_namesize : Z := 94.

(** A null pointer is 0. *)
Record Entry := mkEntry { en_header : Z; pathname : Z; content : Z; pathname_len : Z; content_len : Z }.

Section archive.
Variable r : reader.

(** [memset(buf, 0, 16); strncpy(buf, field, 8); atoi(buf, 16)], as a [size_t]. *)
Definition header_field (p : Z) : outcome Z :=
  res ← strncpy 9 (fun _ => r) 0 p 8 (make_buf 16);
  v ← atoi 17 (arr_get (snd res)) 0 16;
  Ret (u64 v).

(** [while ( !*content) ++content;] *)
Fixpoint skip_nul (fuel : nat) (p : Z) : outcome Z :=
  match fuel with
  | O => OutOfFuel
  | S fuel => c ← rd r p; if c =? 0 then skip_nul fuel (p + 1) else Ret p
  end.

Definition new_entry (fuel : nat) (ptr : Z) : outcome Entry :=
  pl ← header_field (ptr + c_namesize);
  cl ← header_field (ptr + c_filesize);
  let path := if pl =? 0 then 0 else ptr + HEADER_SIZE in
  let cont := if cl =? 0 then 0 else ptr + HEADER_SIZE + pl in
  cont ← (if cl =? 0 then Ret cont else skip_nul fuel cont);
  Ret (mkEntry ptr path cont pl cl).

Definition entry_is_valid (e : Entry) : outcome bool :=
  d ← strncmp 11 r (arr_get (CPIO_TRAILER ++ [0])) (pathname e) 0 10; Ret (negb (d =? 0)).

(** [!strncmp(ptr, CPIO_MAGIC, 6)] *)
Definition is_magic (ptr : Z) : outcome bool :=
  d ← strncmp 7 r (arr_get (CPIO_MAGIC ++ [0])) ptr 0 6; Ret (d =? 0).
Definition archive_is_valid (base : Z) : outcome bool := is_magic base.

Fixpoint next_header (fuel : nat) (ptr : Z) : outcome Z :=
  match fuel with
  | O => OutOfFuel
  | S fuel => b ← is_magic ptr; if (b : bool) then Ret ptr else next_header fuel (ptr + 1)
  end.

(** [while (true)] of [for_each]; [fuel] is more than the length of the archive. *)
Fixpoint for_each_loop {T} (n fuel : nat) (callback : Entry -> M T unit) (ptr : Z) : M T unit :=
  match n with
  | O => out_of_fuel
  | S n =>
      dentry ← lift (new_entry fuel ptr);
      ok ← lift (entry_is_valid dentry);
      if negb ok then mret tt
      else
        callback dentry;;
        ptr ← lift (next_header fuel (ptr + HEADER_SIZE + pathname_len dentry + content_len dentry));
        for_each_loop n fuel callback ptr
  end.
Definition for_each {T} (fuel : nat) (callback : Entry -> M T unit) (base : Z) : M T unit := for_each_loop fuel fuel callback base.

(** The bytes of [p], which a callback reads: a string, or [n] bytes. *)
Fixpoint read_string (fuel : nat) (p : Z) : outcome (list Z) :=
  match fuel with
  | O => OutOfFuel
  | S fuel => c ← rd r p; if c =? 0 then Ret [] else rest ← read_string fuel (p + 1); Ret (c :: rest)
  end.
Fixpoint read_n (n : nat) (p : Z) : outcome (list Z) :=
  match n with O => Ret [] | S n => c ← rd r p; rest ← read_n n (p + 1); Ret (c :: rest) end.
End archive.
