(* ===== verification/Console.v ===== *)
(** * dev/Console.cc and driver/MiniUART.cc: the console

    The UART is the bytes that have arrived and are not yet read, [rx], and
    those sent, [tx]; the configuration of its registers is not modelled.  A
    [recv] with nothing to read polls forever.  [Console::read] edits a line in
    place, as [MiniUART::gets_sync] does. *)

From Stdlib Require Import ZArith Lia.
From stdpp Require Import base list numbers.
From S2P Require Import Prelude CString.

Open Scope Z_scope.

Record Uart := mkUart { rx : list Z; tx : list Z }.
Abbreviation UartM := (M Uart).

Definition BACKSPACE : Z := 0x7f.

(** ** driver/MiniUART.cc *)

Definition recv : UartM Z :=
  u ← get;
  match rx u with
  | [] => out_of_fuel
  | c :: r => put (mkUart r (tx u));; mret c
  end.
Definition send (byte : Z) : UartM unit := modify (fun u => mkUart (rx u) (tx u ++ [u8 byte])).

Definition putchar_sync (c : Z) : UartM unit :=
  if c =? 10 then send 13;; send 10 else send c.
Definition getchar_sync : UartM Z :=
  c ← recv;
  let c := if c =? 13 then 10 else c in
  putchar_sync c;;
  mret c.

(** [puts_sync]: [s] is read up to its end. *)
Fixpoint puts_loop (n : nat) (s : reader) (i : Z) : UartM unit :=
  match n with
  | O => mret tt
  | S n => c ← lift (rd s i); putchar_sync c;; puts_loop n s (i + 1)
  end.
Definition puts_sync (fuel : nat) (s : reader) (newline : bool) : UartM unit :=
  n ← lift (strlen fuel s 0);
  puts_loop (Z.to_nat n) s 0;;
  if newline then putchar_sync 10 else mret tt.

(** The string given to [puts_sync] when a character is erased. *)
Definition erase_seq : list Z := [8; 32; 8].

(** [gets_sync] into the array [b]; [s] is the index of the next character. *)
Fixpoint gets_loop (fuel : nat) (b : list Z) (s : Z) : UartM (list Z) :=
  match fuel with
  | O => out_of_fuel
  | S fuel =>
      c ← getchar_sync;
      if c =? 10 then deref (arr_set b s 0)
      else if c =? BACKSPACE then
        if 0 <? s then
          b ← deref (arr_set b s 0);
          puts_sync 4 (arr_get (erase_seq ++ [0])) false;;
          gets_loop fuel b (s - 1)
        else gets_loop fuel b s
      else
        b ← deref (arr_set b s c);
        gets_loop fuel b (s + 1)
  end.
Definition gets_sync (b : list Z) : UartM (list Z) := u ← get; gets_loop (S (length (rx u))) b 0.

(** ** dev/Console.cc *)

Definition read_char : UartM Z := getchar_sync.
Definition write_char (c : Z) : UartM unit := putchar_sync c.

Fixpoint read_loop (fuel : nat) (size : Z) (buf : list Z) (i : Z) : UartM (list Z * Z) :=
  if negb (i <? size) then mret (buf, s32 size)
  else
    match fuel with
    | O => out_of_fuel
    | S fuel =>
        c ← read_char;
        if c =? 0x7f then
          if 0 <? i then
            buf ← deref (arr_set buf (i - 1) 0);
            write_char 8;; write_char 32;; write_char 8;;
            read_loop fuel size buf (i - 1)
          else read_loop fuel size buf i
        else if c =? 10 then mret (buf, s32 i)
        else
          buf ← deref (arr_set buf i c);
          read_loop fuel size buf (i + 1)
    end.
Definition console_read (buf : list Z) (size : Z) : UartM (list Z * Z) :=
  u ← get; read_loop (S (length (rx u))) size buf 0.

Fixpoint console_write_loop (n : nat) (buf : reader) (i : Z) : UartM unit :=
  match n with
  | O => mret tt
  | S n => c ← lift (rd buf i); write_char c;; console_write_loop n buf (i + 1)
  end.
Definition console_write (buf : reader) (size : Z) : UartM Z :=
  console_write_loop (Z.to_nat size) buf 0;; mret (s32 size).

Definition clear_color : UartM Z := console_write (arr_get [27; 91; 48; 109; 0]) 5.

(** ** What the terminal shows and what is kept *)

(** A key edits the text typed so far. *)
Definition edit (text : list Z) (k : Z) : list Z := if k =? BACKSPACE then removelast text else text ++ [k].
(** The bytes sent for a key: its echo, and the erasure of a character. *)
Definition echo (text : list Z) (k : Z) : list Z :=
  k :: if (k =? BACKSPACE) && negb (bool_decide (text = [])) then erase_seq else [].
Fixpoint echoes (text ks : list Z) : list Z :=
  match ks with [] => [] | k :: ks => echo text k ++ echoes (edit text k) ks end.

(** A key that does not end the line. *)
Definition is_key (k : Z) : Prop := 0 <= k < 256 /\ k <> 10 /\ k <> 13.
Definition is_newline (c : Z) : Prop := c = 10 \/ c = 13.
Definition crlf (c : Z) : list Z := if c =? 10 then [13; 10] else [u8 c].

Lemma putchar_run c u : putchar_sync c u = Ret (tt, mkUart (rx u) (tx u ++ crlf c)).
Proof.
  unfold putchar_sync, crlf. destruct u as [r t]. destruct (c =? 10); [|done].
  unfold send. munfold. simpl. by rewrite <- app_assoc.
Qed.

Lemma getchar_key k r t : is_key k -> getchar_sync (mkUart (k :: r) t) = Ret (k, mkUart r (t ++ [k])).
Proof.
  intros (Hk & Hn & Hc). unfold getchar_sync. assert (Hr : recv (mkUart (k :: r) t) = Ret (k, mkUart r t)) by done.
  mrun Hr. rewrite (proj2 (Z.eqb_neq k 13) Hc). mrun (putchar_run k (mkUart r t)). unfold crlf.
  rewrite (proj2 (Z.eqb_neq k 10) Hn), u8_id by done. done.
Qed.

Lemma getchar_newline c r t : is_newline c -> getchar_sync (mkUart (c :: r) t) = Ret (10, mkUart r (t ++ [13; 10])).
Proof.
  intros Hc. unfold getchar_sync. assert (Hr : recv (mkUart (c :: r) t) = Ret (c, mkUart r t)) by done.
  mrun Hr. replace (if c =? 13 then 10 else c) with 10 by (destruct Hc; subst; done).
  by mrun (putchar_run 10 (mkUart r t)).
Qed.

Lemma holds_removelast (buf text : list Z) j x : holds buf text -> (length text <= S j)%nat -> holds (<[j := x]> buf) (removelast text).
Proof.
  unfold holds. intros Hh Hl. destruct text as [|k text _] using rev_ind; [done|].
  rewrite removelast_last. rewrite length_app in *. simpl in *. rewrite take_insert_ge by lia.
  apply (f_equal (take (length text))) in Hh. rewrite take_take in Hh. rewrite Nat.min_l in Hh by lia.
  by rewrite Hh, take_app_length.
Qed.

(** One key, when the text does not fill the buffer yet. *)
Lemma read_loop_key fuel size buf text k r t :
  is_key k -> holds buf text -> Z.of_nat (length text) < size <= Z.of_nat (length buf) ->
  exists buf', length buf' = length buf /\ holds buf' (edit text k) /\
    read_loop (S fuel) size buf (Z.of_nat (length text)) (mkUart (k :: r) t) =
    read_loop fuel size buf' (Z.of_nat (length (edit text k))) (mkUart r (t ++ echo text k)).
Proof.
  intros Hk Hh Hsz. cbn [read_loop]. rewrite (proj2 (Z.ltb_lt _ size)) by lia. cbn [negb].
  unfold read_char. mrun (getchar_key k r t Hk). unfold edit, echo, BACKSPACE.
  destruct (Z.eqb_spec k 0x7f) as [->|Hb]; cbn [andb].
  - destruct text as [|x text' _] using rev_ind.
    + exists buf. split_and!; done.
    + rewrite bool_decide_eq_false_2 by (by destruct text'). cbn [negb]. rewrite removelast_last.
      assert (Hlen : Z.of_nat (length (text' ++ [x])) = Z.of_nat (length text') + 1) by (rewrite length_app; simpl; lia).
      rewrite !Hlen in *. rewrite (proj2 (Z.ltb_lt 0 _)) by lia. rewrite Z.add_simpl_r.
      exists (<[length text' := 0]> buf). split_and!; [apply length_insert| |].
      * pose proof (holds_removelast buf (text' ++ [x]) (length text') 0 Hh) as Hr. rewrite removelast_last in Hr. apply Hr. lia.
      * rewrite arr_set_is_Some by lia. rewrite Nat2Z.id. msimpl. unfold write_char.
        mrun (putchar_run 8 (mkUart r (t ++ [127]))). erewrite bind_run; [|apply putchar_run]. erewrite bind_run; [|apply putchar_run].
        simpl. by rewrite <- !app_assoc.
  - rewrite (proj2 (Z.eqb_neq k 10)) by apply Hk. destruct (holds_app buf text k Hh ltac:(lia)) as [-> Hh'].
    msimpl. exists (<[length text := k]> buf). split_and!; [apply length_insert|done|]. rewrite length_app. simpl.
    by replace (Z.of_nat (length text) + 1) with (Z.of_nat (length text + 1)) by lia.
Qed.

(** The text has not filled the buffer before the last of the keys. *)
Definition room (size : Z) (text ks : list Z) : Prop :=
  forall p q, ks = p ++ q -> q <> [] -> Z.of_nat (length (foldl edit text p)) < size.

Lemma read_loop_keys ks fuel size buf text r t :
  Forall is_key ks -> room size text ks -> holds buf text -> size <= Z.of_nat (length buf) ->
  exists buf', length buf' = length buf /\ holds buf' (foldl edit text ks) /\
    read_loop (length ks + fuel) size buf (Z.of_nat (length text)) (mkUart (ks ++ r) t) =
    read_loop fuel size buf' (Z.of_nat (length (foldl edit text ks))) (mkUart r (t ++ echoes text ks)).
Proof.
  revert buf text t. induction ks as [|k ks IH]; intros buf text t Hks Hroom Hh Hsz.
  { exists buf. by rewrite app_nil_r. }
  apply list.Forall_cons in Hks as [Hk Hks].
  destruct (read_loop_key (length ks + fuel) size buf text k (ks ++ r) t Hk Hh) as (b1 & Hl1 & Hh1 & Hrun).
  { split; [exact (Hroom [] (k :: ks) eq_refl ltac:(done))|done]. }
  destruct (IH b1 (edit text k) (t ++ echo text k) Hks) as (b2 & Hl2 & Hh2 & Hrun2); [|done|lia|].
  { intros p q -> Hq. exact (Hroom (k :: p) q eq_refl Hq). }
  exists b2. split_and!; [lia|done|]. simpl length. cbn [Nat.add app echoes foldl]. rewrite Hrun, Hrun2. by rewrite <- app_assoc.
Qed.

(** ** Claims *)

(** C39. [Console::read] edits a line: for any keys that do not fill the buffer
    before the last one, the buffer ends up with the text that remains when
    every backspace erases the character before it, if there is one; the call
    returns the length of that text when a carriage return or a line feed ends
    the line, and at once when the text fills the buffer, leaving what follows
    unread; the terminal is sent an echo of each key, a backspace, a blank and a
    backspace for each erased character, and CR LF for the end of the line. *)
Theorem console_read_edits_line ks size buf rest t :
  Forall is_key ks -> room size [] ks -> 0 < size <= Z.of_nat (length buf) -> size < 2 ^ 31 ->
  let text := foldl edit [] ks in
  (Z.of_nat (length text) < size -> forall nl, is_newline nl ->
     exists buf', length buf' = length buf /\ take (length text) buf' = text /\
       console_read buf size (mkUart (ks ++ nl :: rest) t) =
       Ret ((buf', Z.of_nat (length text)), mkUart rest (t ++ echoes [] ks ++ [13; 10]))) /\
  (size <= Z.of_nat (length text) ->
     exists buf', length buf' = length buf /\ take (length text) buf' = text /\
       console_read buf size (mkUart (ks ++ rest) t) = Ret ((buf', size), mkUart rest (t ++ echoes [] ks))).
Proof.
  intros Hks Hroom Hsz Hint text.
  assert (Hrun : forall r, exists buf', length buf' = length buf /\ holds buf' text /\
    console_read buf size (mkUart (ks ++ r) t) =
    read_loop (S (length r)) size buf' (Z.of_nat (length text)) (mkUart r (t ++ echoes [] ks))).
  { intros r. destruct (read_loop_keys ks (S (length r)) size buf [] r t Hks Hroom eq_refl ltac:(lia)) as (b & Hl & Hh & Hr).
    exists b. split_and!; [done..|]. unfold text. rewrite <- Hr. unfold console_read. msimpl. cbn [rx]. rewrite length_app. by rewrite Nat.add_succ_r. }
  split.
  - intros Ht nl Hnl. destruct (Hrun (nl :: rest)) as (b & Hl & Hh & ->). exists b. split_and!; [done..|].
    cbn [read_loop]. rewrite (proj2 (Z.ltb_lt _ size)) by lia. cbn [negb]. unfold read_char. mrun (getchar_newline nl rest (t ++ echoes [] ks) Hnl).
    cbn [Z.eqb]. rewrite s32_id by lia. by rewrite <- app_assoc.
  - intros Ht. destruct (Hrun rest) as (b & Hl & Hh & ->). exists b. split_and!; [done..|].
    cbn [read_loop]. rewrite (proj2 (Z.ltb_ge _ size)) by lia. cbn [negb]. by rewrite s32_id by lia.
Qed.

(** Typing "ax", a backspace, "b" and Return. *)
Lemma console_read_edits_line_witness :
  exists buf', take 2 buf' = [97; 98] /\
    console_read (replicate 4 0) 4 (mkUart ([97; 120; 127; 98] ++ [13]) []) =
    Ret ((buf', 2), mkUart [] ([97; 120; 127; 8; 32; 8; 98] ++ [13; 10])).
Proof.
  destruct (console_read_edits_line [97; 120; 127; 98] 4 (replicate 4 0) [] []) as [H _].
  - unfold is_key. repeat (apply list.Forall_cons; split; [lia|]). by apply list.Forall_nil.
  - intros p q E Hq. do 5 (destruct p as [|? p]; [simplify_eq; vm_compute; reflexivity|]; simplify_eq/=).
  - simpl. lia.
  - lia.
  - destruct (H ltac:(vm_compute; reflexivity) 13 ltac:(by right)) as (b & _ & Hb & Hr). exists b. split; [exact Hb|exact Hr].
Defined.
