(* ===== verification/Vnode.v ===== *)
(** * include/fs/Vnode.h, include/fs/File.h, include/fs/VirtualFileSystem.h: the data of the file system layer

    A vnode is a number, 0 for a null [SharedPtr<Vnode>]; the number stands
    for the vnode's control block, so that equality of shared pointers is
    equality of numbers.  What is behind the numbers is the concern of the
    file systems: [F] is their state, and [Vnodes F] are the virtual functions
    of class [Vnode].  They act on the whole state, since a file system calls
    the VFS back (for inode numbers and for what a root directory is mounted
    on).  A name is the list of its characters.  A file system is given by its
    root vnode.  Inodes are not reclaimed. *)

From Stdlib Require Import ZArith Lia.
From stdpp Require Import base gmap list numbers.
From S2P Require Import Prelude Mutex Console.

Open Scope Z_scope.

(** ** include/fs/Stat.h *)

Definition S_IFMT : Z := 0xf000.
Definition S_IFDIR : Z := 0x4000.
Definition S_IFCHR : Z := 0x2000.
Definition S_IFBLK : Z := 0x6000.
Definition S_IFREG : Z := 0x8000.
Definition S_IFIFO : Z := 0x1000.
Definition S_IFLNK : Z := 0xa000.
Definition S_IFSOCK : Z := 0xc000.
Definition O_CREAT : Z := Z.shiftl 1 3.

Definition is_directory (mode : Z) : bool := Z.land mode S_IFMT =? S_IFDIR.
Definition is_regular_file (mode : Z) : bool := Z.land mode S_IFMT =? S_IFREG.
Definition is_character_device (mode : Z) : bool := Z.land mode S_IFMT =? S_IFCHR.
Definition is_block_device (mode : Z) : bool := Z.land mode S_IFMT =? S_IFBLK.
Definition is_fifo (mode : Z) : bool := Z.land mode S_IFMT =? S_IFIFO.
Definition is_symlink (mode : Z) : bool := Z.land mode S_IFMT =? S_IFLNK.
Definition is_socket (mode : Z) : bool := Z.land mode S_IFMT =? S_IFSOCK.

(** ** include/dev/Device.h *)

Definition minor_bits : Z := 20.
Definition minor_mask : Z := Z.shiftl 1 minor_bits - 1.
Definition dev_major (dev : Z) : Z := Z.shiftr dev minor_bits.
Definition dev_minor (dev : Z) : Z := Z.land dev minor_mask.
Definition dev_encode (major minor : Z) : Z := Z.lor (u32 (Z.shiftl major minor_bits)) minor.

(** The devices the kernel registers. *)
Inductive Device := ConsoleDevice | StorageDev (name : list Z).
Definition console_name : list Z := [99; 111; 110; 115; 111; 108; 101].
Definition device_name (d : Device) : list Z := match d with ConsoleDevice => console_name | StorageDev n => n end.

(** ** State *)

Record File := mkFile { f_vnode : Z; f_pos : Z; f_options : Z }.
Record Mount := mkMount { guest_fs : Z; guest_vnode : Z; host_vnode : Z }.

(** [v_files] holds the [File] objects, by the number of their control block,
    and [v_opened] is [_opened_files]; [v_cwd] is the working directory of the
    current task. *)
Record VFS (F : Type) := mkVFS {
  v_cpu : Cpu;
  v_fs : F;
  v_next_inode_idx : Z;
  v_next_dev_major : Z;
  v_mounts : list Mount;
  v_files : gmap Z File;
  v_next_file : Z;
  v_opened : list Z;
  v_storage : list (list Z);
  v_devices : list (Z * Device);
  v_uart : Uart;
  v_cwd : Z
}.
Arguments mkVFS {F}.
Arguments v_cpu {F}. Arguments v_fs {F}. Arguments v_next_inode_idx {F}. Arguments v_next_dev_major {F}.
Arguments v_mounts {F}. Arguments v_files {F}. Arguments v_next_file {F}. Arguments v_opened {F}.
Arguments v_storage {F}. Arguments v_devices {F}. Arguments v_uart {F}. Arguments v_cwd {F}.

Section vfs_state.
Context {F : Type}.
Implicit Types s : VFS F.
Definition set_v_cpu (x : Cpu) s : VFS F := mkVFS x (v_fs s) (v_next_inode_idx s) (v_next_dev_major s) (v_mounts s) (v_files s) (v_next_file s) (v_opened s) (v_storage s) (v_devices s) (v_uart s) (v_cwd s).
Definition set_v_fs (x : F) s : VFS F := mkVFS (v_cpu s) x (v_next_inode_idx s) (v_next_dev_major s) (v_mounts s) (v_files s) (v_next_file s) (v_opened s) (v_storage s) (v_devices s) (v_uart s) (v_cwd s).
Definition set_v_inode_idx (x : Z) s : VFS F := mkVFS (v_cpu s) (v_fs s) x (v_next_dev_major s) (v_mounts s) (v_files s) (v_next_file s) (v_opened s) (v_storage s) (v_devices s) (v_uart s) (v_cwd s).
Definition set_v_mounts (x : list Mount) s : VFS F := mkVFS (v_cpu s) (v_fs s) (v_next_inode_idx s) (v_next_dev_major s) x (v_files s) (v_next_file s) (v_opened s) (v_storage s) (v_devices s) (v_uart s) (v_cwd s).
Definition set_v_files (x : gmap Z File) (n : Z) s : VFS F := mkVFS (v_cpu s) (v_fs s) (v_next_inode_idx s) (v_next_dev_major s) (v_mounts s) x n (v_opened s) (v_storage s) (v_devices s) (v_uart s) (v_cwd s).
Definition set_v_opened (x : list Z) s : VFS F := mkVFS (v_cpu s) (v_fs s) (v_next_inode_idx s) (v_next_dev_major s) (v_mounts s) (v_files s) (v_next_file s) x (v_storage s) (v_devices s) (v_uart s) (v_cwd s).
Definition set_v_devices (m : Z) (x : list (Z * Device)) s : VFS F := mkVFS (v_cpu s) (v_fs s) (v_next_inode_idx s) m (v_mounts s) (v_files s) (v_next_file s) (v_opened s) (v_storage s) x (v_uart s) (v_cwd s).
Definition set_v_storage (x : list (list Z)) s : VFS F := mkVFS (v_cpu s) (v_fs s) (v_next_inode_idx s) (v_next_dev_major s) (v_mounts s) (v_files s) (v_next_file s) (v_opened s) x (v_devices s) (v_uart s) (v_cwd s).
Definition set_v_uart (x : Uart) s : VFS F := mkVFS (v_cpu s) (v_fs s) (v_next_inode_idx s) (v_next_dev_major s) (v_mounts s) (v_files s) (v_next_file s) (v_opened s) (v_storage s) (v_devices s) x (v_cwd s).
Definition set_v_cwd (x : Z) s : VFS F := mkVFS (v_cpu s) (v_fs s) (v_next_inode_idx s) (v_next_dev_major s) (v_mounts s) (v_files s) (v_next_file s) (v_opened s) (v_storage s) (v_devices s) (v_uart s) x.
End vfs_state.

#[export] Instance vfs_has_cpu {F} : HasCpu (VFS F) := { cpu_of := v_cpu; with_cpu := set_v_cpu }.
#[export] Instance vfs_cpu_laws {F} : HasCpuLaws (VFS F).
Proof. split; [done|by intros []|done]. Qed.

(** ** The virtual functions of a vnode *)

Class Vnodes (F : Type) := {
  create_child : Z -> list Z -> option (list Z) -> Z -> Z -> Z -> Z -> M (VFS F) Z;
  get_child : Z -> list Z -> M (VFS F) Z;
  get_ith_child : Z -> Z -> M (VFS F) Z;
  get_children_count : Z -> M (VFS F) Z;
  get_parent : Z -> M (VFS F) Z;
  get_name : Z -> M (VFS F) (list Z);
  get_content : Z -> M (VFS F) (option (list Z));
  set_content : Z -> option (list Z) -> Z -> M (VFS F) unit;
  hash_code : Z -> M (VFS F) Z;
  (** the fields of the base class *)
  vn_size : Z -> M (VFS F) Z;
  vn_mode : Z -> M (VFS F) Z;
  vn_dev : Z -> M (VFS F) Z;
  set_dev : Z -> Z -> M (VFS F) unit
}.

(** The file systems [VFS::mount] can make: each gives its root vnode. *)
Class FileSystems (F : Type) := { make_tmpfs : M (VFS F) Z; make_procfs : M (VFS F) Z }.

(** ** What a file system asks of the VFS *)

Definition get_next_inode_idx {F} : M (VFS F) Z :=
  s ← get; put (set_v_inode_idx (u64 (v_next_inode_idx s + 1)) s);; mret (v_next_inode_idx s).

(** [_mounts.find_if] on the guest vnode. *)
Definition find_guest (v : Z) (ms : list Mount) : option Mount :=
  snd <$> list_find (fun m => guest_vnode m = v) ms.
Definition get_host_vnode {F} (guest : Z) : M (VFS F) Z :=
  guarded (s ← get; mret (match find_guest guest (v_mounts s) with Some m => host_vnode m | None => 0 end)).
