(* ===== verification/TmpFS.v ===== *)
(** * fs/TmpFS.cc, include/fs/TmpFS.h: the in-memory file system

    The inodes of all mounted TmpFS are in one heap.  [_fs] is given by the
    root inode of the file system, and an inode by the number of its control
    block, which is also what the hash of a [WeakPtr] reads. *)

From Stdlib Require Import ZArith Lia.
From stdpp Require Import base gmap list numbers.
From S2P Require Import Prelude Mutex CString KString Console Vnode.

Open Scope Z_scope.

Definition NR_SPECIAL_ENTRIES : Z := 2.

Record Inode := mkInode {
  i_index : Z;
  i_size : Z;
  i_mode : Z;
  i_uid : Z;
  i_gid : Z;
  i_dev : Z;
  i_fs : Z;
  i_name : list Z;
  i_content : option (list Z);
  i_parent : Z;
  i_children : list Z
}.
Definition with_children (c : list Z) (i : Inode) : Inode := mkInode (i_index i) (i_size i) (i_mode i) (i_uid i) (i_gid i) (i_dev i) (i_fs i) (i_name i) (i_content i) (i_parent i) c.
Definition with_parent (p : Z) (i : Inode) : Inode := mkInode (i_index i) (i_size i) (i_mode i) (i_uid i) (i_gid i) (i_dev i) (i_fs i) (i_name i) (i_content i) p (i_children i).
Definition with_content (c : option (list Z)) (n : Z) (i : Inode) : Inode := mkInode (i_index i) n (i_mode i) (i_uid i) (i_gid i) (i_dev i) (i_fs i) (i_name i) c (i_parent i) (i_children i).
Definition with_dev (d : Z) (i : Inode) : Inode := mkInode (i_index i) (i_size i) (i_mode i) (i_uid i) (i_gid i) d (i_fs i) (i_name i) (i_content i) (i_parent i) (i_children i).

(** [th_next] is the next number not in use. *)
Record TmpHeap := mkHeap { th_inodes : gmap Z Inode; th_next : Z }.
Abbreviation TM := (M (VFS TmpHeap)).

Definition rd_inode (v : Z) : TM Inode := s ← get; deref (th_inodes (v_fs s) !! v).
Definition wr_inode (v : Z) (f : Inode -> Inode) : TM unit :=
  i ← rd_inode v; modify (fun s => set_v_fs (mkHeap (<[v := f i]> (th_inodes (v_fs s))) (th_next (v_fs s))) s).

(** ** Construction *)

(** [make_shared<TmpFSInode>(fs, parent, ...)]; [fs] is [None] when the inode is
    the root of a new file system. *)
Definition new_inode (fs : option Z) (parent : Z) (name : list Z) (content : option (list Z)) (size mode uid gid : Z) : TM Z :=
  idx ← get_next_inode_idx;
  c ← (match content with
       | Some b => if 0 <? size then deref (if decide (size <= Z.of_nat (length b)) then Some (Some (take (Z.to_nat size) b)) else None) else mret None
       | None => mret None
       end);
  s ← get;
  let id := th_next (v_fs s) in
  put (set_v_fs (mkHeap (<[id := mkInode (u32 idx) size mode uid gid 0 (default id fs) name c parent []]> (th_inodes (v_fs s))) (id + 1)) s);;
  mret id.

(** The name of a root directory. *)
Definition root_name : list Z := [47].
Definition new_tmpfs : TM Z := new_inode None 0 root_name None 0 S_IFDIR 0 0.

(** ** Operations *)

Definition tmp_create_child (v : Z) (name : list Z) (content : option (list Z)) (size mode uid gid : Z) : TM Z :=
  i ← rd_inode v;
  inode ← new_inode (Some (i_fs i)) v name content size mode uid gid;
  wr_inode v (fun i => with_children (i_children i ++ [inode]) i);;
  mret inode.

Definition tmp_add_child (v child : Z) : TM unit := wr_inode v (fun i => with_children (i_children i ++ [child]) i).

(** [_children.find_if] on the name. *)
Fixpoint find_named (name : list Z) (children : list Z) : TM Z :=
  match children with
  | [] => mret 0
  | c :: children => i ← rd_inode c; if decide (i_name i = name) then mret c else find_named name children
  end.

(** [remove_if] removes the first match. *)
Fixpoint drop_first (x : Z) (l : list Z) : list Z :=
  match l with [] => [] | y :: l => if y =? x then l else y :: drop_first x l end.
Definition tmp_remove_child (v : Z) (name : list Z) : TM Z :=
  i ← rd_inode v;
  c ← find_named name (i_children i);
  (if c =? 0 then mret tt else wr_inode v (fun i => with_children (drop_first c (i_children i)) i));;
  mret c.

Definition is_root_vnode (v : Z) : TM bool := i ← rd_inode v; mret (v =? i_fs i).

(** A root directory's parent is the parent of what it is mounted on; the
    calls end within [fuel] if they end at all. *)
Fixpoint tmp_get_parent (fuel : nat) (v : Z) : TM Z :=
  match fuel with
  | O => out_of_fuel
  | S fuel =>
      root ← is_root_vnode v;
      if (root : bool) then
        i ← rd_inode v;
        host ← get_host_vnode (i_fs i);
        tmp_get_parent fuel host
      else i ← rd_inode v; mret (i_parent i)
  end.
Definition parent_of (v : Z) : TM Z := s ← get; tmp_get_parent (S (length (v_mounts s))) v.
Definition tmp_set_parent (v parent : Z) : TM unit := wr_inode v (with_parent parent).

Definition dot : list Z := [46].
Definition dotdot : list Z := [46; 46].

Definition tmp_get_child (v : Z) (name : list Z) : TM Z :=
  if decide (name = dot) then mret v
  else if decide (name = dotdot) then parent_of v
  else i ← rd_inode v; find_named name (i_children i).

Definition tmp_get_ith_child (v i : Z) : TM Z :=
  if i =? 0 then mret v
  else if i =? 1 then parent_of v
  else n ← rd_inode v; mret (default 0 (arr_get (i_children n) (i - NR_SPECIAL_ENTRIES))).

Definition tmp_get_children_count (v : Z) : TM Z :=
  i ← rd_inode v; mret (NR_SPECIAL_ENTRIES + Z.of_nat (length (i_children i))).

Definition tmp_set_content (v : Z) (content : option (list Z)) (new_size : Z) : TM unit :=
  wr_inode v (with_content content new_size).

(** [Hash<WeakPtr<T>>] and [Hash<TmpFSInode>]. *)
Definition hash_weak (ctrl : Z) : Z := u64 (7 + 31 * ctrl).
Definition tmp_hash (i : Inode) : Z :=
  u64 (5 + 11 * u64 (i_size i) + 11 * u64 (i_mode i) + hash_chars 5 (i_name i) + 11 * hash_weak (i_parent i)).

#[export] Instance tmp_vnodes : Vnodes TmpHeap := {
  create_child := tmp_create_child;
  get_child := tmp_get_child;
  get_ith_child := tmp_get_ith_child;
  get_children_count := tmp_get_children_count;
  get_parent := parent_of;
  get_name v := i ← rd_inode v; mret (i_name i);
  get_content v := i ← rd_inode v; mret (i_content i);
  set_content := tmp_set_content;
  hash_code v := i ← rd_inode v; mret (tmp_hash i);
  vn_size v := i ← rd_inode v; mret (i_size i);
  vn_mode v := i ← rd_inode v; mret (i_mode i);
  vn_dev v := i ← rd_inode v; mret (i_dev i);
  set_dev v d := wr_inode v (with_dev d)
}.

(** What [VFS::mount] can make, for any model of ProcFS. *)
Definition tmp_systems (procfs : TM Z) : FileSystems TmpHeap := {| make_tmpfs := new_tmpfs; make_procfs := procfs |}.
