(* ===== verification/ProcFS.v ===== *)
(** * fs/ProcFS.cc, include/fs/ProcFS.h: the file system of kernel information

    The state behind the vnodes of the running kernel: the inodes of the
    mounted TmpFS and ProcFS, and the rest of the kernel (tasks and memory), on
    which ProcFS reports.  A vnode's number is in one of the two maps, which is
    how a virtual function is dispatched; numbers are given out by one counter.
    The kernel lock is the one of the whole state.  A [File] that the
    constructor of a task makes is added to the opened files' objects.  Inodes
    are not reclaimed: the directory of a task that has ended, which is no
    longer among the entries, can still be read through its children, where the
    code finds its [WeakPtr] expired; both give a null content, as pids are not
    used again. *)

From Stdlib Require Import ZArith Lia String Ascii.
From stdpp Require Import base gmap list numbers.
From S2P Require Import Prelude Math Mmu Mutex Buddy Slob Memory MemInfo PageTable CString KString Printf Console Vnode TmpFS Proc.

Open Scope Z_scope.

(** ** State *)

Inductive PKind := PDirectory | SwitchInode | HelloInode | BuddyInfoInode | SlobInfoInode | TaskStatusInode.
#[export] Instance pkind_eq_dec : EqDecision PKind.
Proof. solve_decision. Defined.

(** The owner and group are 0. *)
Record PInode := mkPInode {
  pi_kind : PKind;
  pi_index : Z;
  pi_size : Z;
  pi_mode : Z;
  pi_dev : Z;
  pi_fs : Z;
  pi_name : list Z;
  pi_content : option (list Z);
  pi_parent : Z;
  pi_children : list Z
}.
Definition pi_with_children (c : list Z) (i : PInode) : PInode :=
  mkPInode (pi_kind i) (pi_index i) (pi_size i) (pi_mode i) (pi_dev i) (pi_fs i) (pi_name i) (pi_content i) (pi_parent i) c.
Definition pi_with_content (c : list Z) (i : PInode) : PInode :=
  mkPInode (pi_kind i) (pi_index i) (Z.of_nat (length c)) (pi_mode i) (pi_dev i) (pi_fs i) (pi_name i) (Some c) (pi_parent i) (pi_children i).
Definition pi_with_parent (p : Z) (i : PInode) : PInode :=
  mkPInode (pi_kind i) (pi_index i) (pi_size i) (pi_mode i) (pi_dev i) (pi_fs i) (pi_name i) (pi_content i) p (pi_children i).
Definition pi_with_dev (d : Z) (i : PInode) : PInode :=
  mkPInode (pi_kind i) (pi_index i) (pi_size i) (pi_mode i) d (pi_fs i) (pi_name i) (pi_content i) (pi_parent i) (pi_children i).

Record KernelFs := mkKernelFs {
  kf_tmp : TmpHeap;
  kf_proc : gmap Z PInode;
  kf_switch : bool;  (** [is_switch_on] *)
  kf_sys : Sys
}.
Abbreviation KM := (M (VFS KernelFs)).

Definition set_kf_tmp (x : TmpHeap) (f : KernelFs) : KernelFs := mkKernelFs x (kf_proc f) (kf_switch f) (kf_sys f).
Definition set_kf_proc (x : gmap Z PInode) (f : KernelFs) : KernelFs := mkKernelFs (kf_tmp f) x (kf_switch f) (kf_sys f).
Definition set_kf_switch (x : bool) (f : KernelFs) : KernelFs := mkKernelFs (kf_tmp f) (kf_proc f) x (kf_sys f).
Definition set_kf_sys (x : Sys) (f : KernelFs) : KernelFs := mkKernelFs (kf_tmp f) (kf_proc f) (kf_switch f) x.

(** TmpFS code, on its part of the state. *)
Definition tmp_view (s : VFS KernelFs) : VFS TmpHeap :=
  mkVFS (v_cpu s) (kf_tmp (v_fs s)) (v_next_inode_idx s) (v_next_dev_major s) (v_mounts s) (v_files s) (v_next_file s)
    (v_opened s) (v_storage s) (v_devices s) (v_uart s) (v_cwd s).
Definition tmp_back (t : VFS TmpHeap) (s : VFS KernelFs) : VFS KernelFs :=
  mkVFS (v_cpu t) (set_kf_tmp (v_fs t) (v_fs s)) (v_next_inode_idx t) (v_next_dev_major t) (v_mounts t) (v_files t) (v_next_file t)
    (v_opened t) (v_storage t) (v_devices t) (v_uart t) (v_cwd t).
Definition on_tmp {A} (m : M (VFS TmpHeap) A) : KM A := zoom tmp_view tmp_back m.

(** Task and memory code.  The kernel lock is [v_cpu] and the counter of [File]
    objects is [v_next_file]: those in [kf_sys] are not used.  The files made are
    [File(rootfs, nullptr, 0)]. *)
Definition null_file : File := mkFile 0 0 0.
Definition sys_view (s : VFS KernelFs) : Sys := with_cpu (v_cpu s) (set_sy_file (v_next_file s) (kf_sys (v_fs s))).
Definition sys_back (y : Sys) (s : VFS KernelFs) : VFS KernelFs :=
  set_v_files (foldr (fun f m => <[f := null_file]> m) (v_files s) (seqZ (v_next_file s) (sy_next_file y - v_next_file s)))
    (sy_next_file y)
    (set_v_cpu (cpu_of y)
      (set_v_fs (set_kf_sys (with_cpu (cpu_of (kf_sys (v_fs s))) (set_sy_file (sy_next_file (kf_sys (v_fs s))) y)) (v_fs s)) s)).
Definition on_sys {A} (m : SysM A) : KM A := zoom sys_view sys_back m.

Definition rd_pinode (v : Z) : KM PInode := s ← get; deref (kf_proc (v_fs s) !! v).
Definition wr_pinode (v : Z) (f : PInode -> PInode) : KM unit :=
  i ← rd_pinode v; modify (fun s => set_v_fs (set_kf_proc (<[v := f i]> (kf_proc (v_fs s))) (v_fs s)) s).

(** ** Construction *)

(** [make_shared<...>(fs, parent, name, mode)]; [fs] is [None] for the root of a
    new file system. *)
Definition new_pinode (kind : PKind) (fs : option Z) (parent : Z) (name : list Z) (mode : Z) : KM Z :=
  idx ← get_next_inode_idx;
  s ← get;
  let id := th_next (kf_tmp (v_fs s)) in
  let i := mkPInode kind (u32 idx) 0 mode 0 (default id fs) name None parent [] in
  put (set_v_fs (set_kf_proc (<[id := i]> (kf_proc (v_fs s)))
         (set_kf_tmp (mkHeap (th_inodes (kf_tmp (v_fs s))) (id + 1)) (v_fs s))) s);;
  mret id.

Definition proc_add_child (v child : Z) : KM unit := wr_pinode v (fun i => pi_with_children (pi_children i ++ [child]) i).

(** The constructors of the files of the root directory. *)
Definition new_root_file (kind : PKind) (root : Z) (name : list Z) : KM unit :=
  c ← new_pinode kind (Some root) root name S_IFREG;
  proc_add_child root c.

Definition name_switch : list Z := txt "switch".
Definition name_hello : list Z := txt "hello".
Definition name_buddyinfo : list Z := txt "buddyinfo".
Definition name_slobinfo : list Z := txt "slobinfo".
Definition name_status : list Z := txt "status".

(** [ProcFS::ProcFS()]: the root vnode. *)
Definition new_procfs : KM Z :=
  root ← new_pinode PDirectory None 0 root_name S_IFDIR;
  new_root_file SwitchInode root name_switch;;
  new_root_file HelloInode root name_hello;;
  new_root_file BuddyInfoInode root name_buddyinfo;;
  new_root_file SlobInfoInode root name_slobinfo;;
  mret root.

(** ** Tasks *)

Definition all_digits (name : list Z) : bool := negb (bool_decide (name = [])) && forallb is_digit_c name.

(** [atoi(name.c_str())] as a [pid_t]. *)
Definition name_pid (name : list Z) : outcome Z :=
  n ← atoi (S (S (length name))) (arr_get (name ++ [0])) 0 10; Ret (u32 n).

(** A directory for a task, with its status file. *)
Definition new_task_dir (fs : Z) (name : list Z) : KM Z :=
  task_dir ← new_pinode PDirectory (Some fs) fs name S_IFDIR;
  status ← new_pinode TaskStatusInode (Some fs) task_dir name_status S_IFREG;
  proc_add_child task_dir status;;
  mret task_dir.

(** The predicate of [remove_if]: a directory whose task does not exist. *)
Definition is_stale (v : Z) : KM bool :=
  i ← rd_pinode v;
  if all_digits (pi_name i) then
    pid ← lift (name_pid (pi_name i));
    task ← on_sys (get_by_pid pid);
    mret (task =? 0)
  else mret false.

(** [remove_if] with [check_all] false: the first match. *)
Fixpoint first_stale (children : list Z) : KM (option Z) :=
  match children with
  | [] => mret None
  | c :: children => b ← is_stale c; if (b : bool) then mret (Some c) else first_stale children
  end.

(** [find_if] for the directory of a pid. *)
Fixpoint find_task_dir (pid : Z) (children : list Z) : KM bool :=
  match children with
  | [] => mret false
  | c :: children =>
      i ← rd_pinode c;
      found ← (if all_digits (pi_name i) then p ← lift (name_pid (pi_name i)); mret (p =? pid) else mret false);
      if (found : bool) then mret true else find_task_dir pid children
  end.

(** [pid_str] has room for every number. *)
Definition pid_name (pid : Z) : outcome (list Z) := tfp_sprintf (txt "%d") [VInt pid].

Fixpoint add_task_dirs (fs : Z) (tasks : list Z) : KM unit :=
  match tasks with
  | [] => mret tt
  | t :: tasks =>
      k ← on_sys (rd_task t);
      root ← rd_pinode fs;
      found ← find_task_dir (t_pid k) (pi_children root);
      pid_str ← lift (pid_name (t_pid k));
      (if (found : bool) then mret tt
       else task_dir ← new_task_dir fs pid_str; proc_add_child fs task_dir);;
      add_task_dirs fs tasks
  end.

Definition repopulate_task_directories (fs : Z) : KM unit :=
  root ← rd_pinode fs;
  stale ← first_stale (pi_children root);
  (match stale with
   | Some c => wr_pinode fs (fun i => pi_with_children (drop_first c (pi_children i)) i)
   | None => mret tt
   end);;
  tasks ← on_sys get_active_tasks;
  add_task_dirs fs tasks.

(** ** Operations *)

Definition proc_create_child : KM Z := panic.

(** [find_if] on the name. *)
Fixpoint find_pnamed (name : list Z) (children : list Z) : KM Z :=
  match children with
  | [] => mret 0
  | c :: children => i ← rd_pinode c; if decide (pi_name i = name) then mret c else find_pnamed name children
  end.

Definition proc_remove_child (v : Z) (name : list Z) : KM Z :=
  i ← rd_pinode v;
  c ← find_pnamed name (pi_children i);
  (if c =? 0 then mret tt else wr_pinode v (fun i => pi_with_children (drop_first c (pi_children i)) i));;
  mret c.

(** [get_parent]: through the mounts, for the root directories of either file
    system. *)
Fixpoint kf_get_parent (fuel : nat) (v : Z) : KM Z :=
  match fuel with
  | O => out_of_fuel
  | S fuel =>
      s ← get;
      match kf_proc (v_fs s) !! v with
      | Some i =>
          if v =? pi_fs i then host ← get_host_vnode (pi_fs i); kf_get_parent fuel host
          else mret (pi_parent i)
      | None =>
          i ← on_tmp (rd_inode v);
          if v =? i_fs i then host ← get_host_vnode (i_fs i); kf_get_parent fuel host
          else mret (i_parent i)
      end
  end.
Definition kf_parent (v : Z) : KM Z := s ← get; kf_get_parent (S (length (v_mounts s))) v.

Definition proc_get_child (v : Z) (name : list Z) : KM Z :=
  if decide (name = dot) then mret v
  else if decide (name = dotdot) then kf_parent v
  else
    i ← rd_pinode v;
    if (v =? pi_fs i) && all_digits name then
      it ← find_pnamed name (pi_children i);
      pid ← lift (name_pid name);
      task ← on_sys (get_by_pid pid);
      if task =? 0 then
        (if negb (it =? 0) then proc_remove_child v name;; mret tt else mret tt);;
        mret 0
      else if negb (it =? 0) then mret it
      else
        task_dir ← new_task_dir (pi_fs i) name;
        proc_add_child v task_dir;;
        mret task_dir
    else find_pnamed name (pi_children i).

Definition proc_get_ith_child (v i : Z) : KM Z :=
  if i =? 0 then mret v
  else if i =? 1 then kf_parent v
  else n ← rd_pinode v; mret (default 0 (arr_get (pi_children n) (i - NR_SPECIAL_ENTRIES))).

Definition proc_get_children_count (v : Z) : KM Z :=
  i ← rd_pinode v;
  repopulate_task_directories (pi_fs i);;
  i ← rd_pinode v;
  mret (NR_SPECIAL_ENTRIES + Z.of_nat (length (pi_children i))).

Definition proc_set_parent (v parent : Z) : KM unit := wr_pinode v (pi_with_parent parent).

(** [Hash<ProcFSInode>] *)
Definition proc_hash (i : PInode) : Z :=
  u64 (5 + 11 * u64 (pi_mode i) + hash_chars 5 (pi_name i) + 11 * hash_weak (pi_parent i)).

(** ** Contents *)

(** A C string in an array: what precedes the first 0, which must be there. *)
Fixpoint c_str (l : list Z) : option (list Z) :=
  match l with
  | [] => None
  | c :: l => if c =? 0 then Some [] else cons c <$> c_str l
  end.

Definition state_number (st : State) : Z :=
  match st with CREATED => 0 | RUNNING => 1 | SLEEPING => 2 | TERMINATED => 3 end.

Definition STATUS_LEN : nat := 128.
Definition fmt_status : list Z := txt "Name: %s" ++ nl ++ txt "State: %d" ++ nl ++ txt "Pid: %d" ++ nl.

(** [sprintf] into [_content], which is [STATUS_LEN] zeros. *)
Definition status_content (k : Task) : outcome (list Z) :=
  match c_str (t_name k) with
  | None => Fault
  | Some name =>
      t ← tfp_sprintf fmt_status [VStr name; VInt (state_number (t_state k)); VInt (t_pid k)];
      if decide (length t < STATUS_LEN)%nat then Ret (t ++ replicate (STATUS_LEN - length t) 0) else Fault
  end.

(** The content each kind of inode makes when it is read, [None] for a null
    pointer; [_size] is its length. *)
Definition switch_get_content : KM (option (list Z)) :=
  s ← get; mret (Some (txt (if kf_switch (v_fs s) then "1" else "0") ++ nl)).
Definition hello_get_content : KM (option (list Z)) :=
  s ← get; mret (Some (txt (if kf_switch (v_fs s) then "HELLO" else "hello") ++ nl)).
Definition buddyinfo_get_content : KM (option (list Z)) := t ← on_sys (on_vm (on_kernel get_buddy_info)); mret (Some t).
Definition slobinfo_get_content : KM (option (list Z)) := t ← on_sys (on_vm (on_kernel get_slob_info)); mret (Some t).
Definition status_get_content (i : PInode) : KM (option (list Z)) :=
  parent ← rd_pinode (pi_parent i);
  pid ← lift (name_pid (pi_name parent));
  task ← on_sys (get_by_pid pid);
  if task =? 0 then mret None
  else k ← on_sys (rd_task task); c ← lift (status_content k); mret (Some c).

Definition make_content (i : PInode) : KM (option (list Z)) :=
  match pi_kind i with
  | PDirectory => mret None
  | SwitchInode => switch_get_content
  | HelloInode => hello_get_content
  | BuddyInfoInode => buddyinfo_get_content
  | SlobInfoInode => slobinfo_get_content
  | TaskStatusInode => status_get_content i
  end.
Definition proc_get_content (v : Z) : KM (option (list Z)) :=
  i ← rd_pinode v;
  c ← make_content i;
  (match c with Some b => wr_pinode v (pi_with_content b) | None => mret tt end);;
  mret c.

Definition switch_set_content (content : option (list Z)) : KM unit :=
  b ← deref content;
  n ← lift (atoi (S (length b)) (arr_get b) 0 10);
  modify (fun s => set_v_fs (set_kf_switch (negb (n =? 0)) (v_fs s)) s).

(** The other files ignore what is written. *)
Definition proc_set_content (v : Z) (content : option (list Z)) (new_size : Z) : KM unit :=
  i ← rd_pinode v;
  match pi_kind i with SwitchInode => switch_set_content content | _ => mret tt end.

(** ** The vnodes of the kernel *)

(** A virtual call on vnode [v]. *)
Definition dispatch {A} (v : Z) (p t : KM A) : KM A :=
  s ← get; match kf_proc (v_fs s) !! v with Some _ => p | None => t end.

#[export] Instance kernel_vnodes : Vnodes KernelFs := {
  create_child v name content size mode uid gid :=
    dispatch v proc_create_child (on_tmp (tmp_create_child v name content size mode uid gid));
  get_child v name :=
    dispatch v (proc_get_child v name)
      (if decide (name <> dot /\ name = dotdot) then kf_parent v else on_tmp (tmp_get_child v name));
  get_ith_child v i :=
    dispatch v (proc_get_ith_child v i) (if i =? 1 then kf_parent v else on_tmp (tmp_get_ith_child v i));
  get_children_count v := dispatch v (proc_get_children_count v) (on_tmp (tmp_get_children_count v));
  get_parent := kf_parent;
  get_name v := dispatch v (i ← rd_pinode v; mret (pi_name i)) (on_tmp (get_name v));
  get_content v := dispatch v (proc_get_content v) (on_tmp (get_content v));
  set_content v c n := dispatch v (proc_set_content v c n) (on_tmp (tmp_set_content v c n));
  hash_code v := dispatch v (i ← rd_pinode v; mret (proc_hash i)) (on_tmp (hash_code v));
  vn_size v := dispatch v (i ← rd_pinode v; mret (pi_size i)) (on_tmp (vn_size v));
  vn_mode v := dispatch v (i ← rd_pinode v; mret (pi_mode i)) (on_tmp (vn_mode v));
  vn_dev v := dispatch v (i ← rd_pinode v; mret (pi_dev i)) (on_tmp (vn_dev v));
  set_dev v d := dispatch v (wr_pinode v (pi_with_dev d)) (on_tmp (set_dev v d))
}.

#[export] Instance kernel_systems : FileSystems KernelFs := {| make_tmpfs := on_tmp new_tmpfs; make_procfs := new_procfs |}.
