(* ===== verification/Fat32.v ===== *)
(** * fs/FAT32.cc, include/fs/FAT32.h: the FAT32 file system

    The state is the disk with the partition and the metadata of the boot
    sector.  The code makes a new inode object for every lookup, so an inode is
    a record that operations take and return.  A buffer that is not initialised
    and not written faults when it is read; memory next to a buffer that the
    code reads past its end is a parameter ([beyond]). *)

From Stdlib Require Import ZArith Lia.
From stdpp Require Import base gmap list numbers.
From S2P Require Import Prelude Math CString KString Encoding Disk Console Vnode TmpFS.

Open Scope Z_scope.

Definition EOC_MIN : Z := 0x0ffffff8.
Definition EOC_MAX : Z := 0x0fffffff.
Definition is_eoc (x : Z) : bool := (EOC_MIN <=? x) && (x <=? EOC_MAX).
Definition ATTR_DIRECTORY : Z := 0x10.
Definition ATTR_LFN_ENTRY : Z := Z.lor (Z.lor 0x01 0x02) (Z.lor 0x04 0x08).
Definition NONE : Z := u32 (-1).

(** ** Data *)

(** The fields of the boot sector that are used. *)
Record BootSector := mkBoot {
  bytes_per_sector : Z; sectors_per_cluster : Z; reserved_sector_count : Z; table_size_32 : Z; root_cluster : Z
}.
Record Fat := mkFat { fa_disk : Disk; fa_part : Partition; fa_meta : BootSector }.
Abbreviation FatM := (M Fat).

Record FInode := mkFInode {
  fi_name : list Z; fi_first : Z; fi_parent : Z; fi_offset : Z; fi_size : Z; fi_mode : Z
}.
(** A directory entry with its long name. *)
Record View := mkView { vw_name : list Z; vw_entry : list Z; vw_index : Z; vw_cluster : Z; vw_offset : Z }.

(** ** Blocks *)

Definition zeros (n : Z) : list Z := replicate (Z.to_nat n) 0.
Definition rd_block (block : Z) (buf : list Z) : FatM (list Z) :=
  s ← get; lift (part_read (fa_part s) (fa_disk s) (s32 block) buf).
(** Into a local array that is not initialised. *)
Definition rd_block_uninit (block : Z) : FatM (list Z) :=
  s ← get;
  if end_block (fa_part s) <? u32 (start_block (fa_part s) + s32 block) then fault else rd_block block (zeros 512).
Definition wr_block (block : Z) (buf : list Z) : FatM unit :=
  s ← get; d ← lift (part_write (fa_part s) (fa_disk s) (s32 block) buf); put (mkFat d (fa_part s) (fa_meta s)).

(** [BootSector::BootSector] and [FAT32::FAT32]. *)
Definition read_boot_sector (b : list Z) : outcome BootSector :=
  bps ← get16 b 11; spc ← get8 b 13; rsc ← get16 b 14; ts ← get32 b 36; rc ← get32 b 44; Ret (mkBoot bps spc rsc ts rc).
Definition new_fat32 (d : Disk) (p : Partition) : outcome Fat :=
  if end_block p <? u32 (start_block p + 0) then Fault
  else b ← part_read p d 0 (zeros 512); meta ← read_boot_sector b; Ret (mkFat d p meta).

(** ** Geometry *)

Definition entries_per_sector (g : BootSector) : Z := bytes_per_sector g / 4.
Definition fat0_sector_index (g : BootSector) (i : Z) : Z := u32 (reserved_sector_count g + i / entries_per_sector g).
Definition fat1_sector_index (g : BootSector) (i : Z) : Z :=
  u32 (fat0_sector_index g 0 + table_size_32 g + i / entries_per_sector g).
Definition data_region_sector_index (g : BootSector) : Z := u32 (fat1_sector_index g 0 + table_size_32 g).
Definition cluster_sector_index (g : BootSector) (i : Z) : Z :=
  u32 (data_region_sector_index g + u32 (u32 (i - 2) * sectors_per_cluster g)).
Definition nr_single_fat_entries (g : BootSector) : Z := u32 (table_size_32 g * entries_per_sector g).

(** ** The file allocation table *)

Definition fat_read (i : Z) : FatM Z :=
  s ← get;
  let g := fa_meta s in
  if nr_single_fat_entries g <=? i then mret EOC_MAX
  else
    b ← rd_block (fat0_sector_index g i) (zeros (bytes_per_sector g));
    lift (get32 b (4 * (i mod entries_per_sector g))).

Definition fat_write (i val : Z) : FatM unit :=
  s ← get;
  let g := fa_meta s in
  if nr_single_fat_entries g <=? i then mret tt
  else
    b ← rd_block (fat0_sector_index g i) (zeros (bytes_per_sector g));
    b ← lift (set32 b (4 * (i mod entries_per_sector g)) val);
    wr_block (fat0_sector_index g i) b.

(** The inner loop of [fat_find_free_cluster], from entry [i] of a sector on. *)
Fixpoint find_free_in (n : nat) (b : list Z) (i : Z) : outcome (option Z) :=
  match n with
  | O => Ret None
  | S n => v ← get32 b (4 * i); if v =? 0 then Ret (Some i) else find_free_in n b (i + 1)
  end.
Fixpoint find_free_loop (n : nat) (index : Z) : FatM Z :=
  match n with
  | O => mret NONE
  | S n =>
      s ← get;
      let g := fa_meta s in
      b ← rd_block_uninit index;
      r ← lift (find_free_in (Z.to_nat (entries_per_sector g)) b 0);
      match r with
      | Some i => mret (u32 (u32 (index - fat0_sector_index g 0) * entries_per_sector g + i))
      | None => find_free_loop n (index + 1)
      end
  end.
Definition fat_find_free_cluster : FatM Z :=
  s ← get;
  let g := fa_meta s in
  find_free_loop (Z.to_nat (fat1_sector_index g 0 - fat0_sector_index g 0)) (fat0_sector_index g 0).

Definition cluster_read (n : Z) (buf : list Z) : FatM (list Z) := s ← get; rd_block (cluster_sector_index (fa_meta s) n) buf.
Definition cluster_write (n : Z) (buf : list Z) : FatM unit := s ← get; wr_block (cluster_sector_index (fa_meta s) n) buf.

(** ** Names *)

Fixpoint lfn_checksum_loop (name : list Z) (sum : Z) : Z :=
  match name with
  | [] => sum
  | c :: name => lfn_checksum_loop name (u8 (Z.shiftl (Z.land sum 1) 7 + Z.shiftr sum 1 + c))
  end.
(** [name] are the 11 characters of a short name. *)
Definition lfn_checksum (name : list Z) : Z := lfn_checksum_loop name 0.

(** ! # $ % & ' ( ) - @ ^ _ ` { } ~ and the space *)
Definition sfn_punctuation : list Z := [32; 33; 35; 36; 37; 38; 39; 40; 41; 45; 64; 94; 95; 96; 123; 125; 126].
Definition is_valid_short_filename_char (c : Z) : bool :=
  ((65 <=? c) && (c <=? 90)) || ((48 <=? c) && (c <=? 57)) || ((128 <=? c) && (c <=? 228)) || ((230 <=? c) && (c <=? 255)) ||
  bool_decide (c ∈ sfn_punctuation).

Definition can_fit_within_83_short_filename (name : String) : outcome bool :=
  first ← find_first_of name 46 0;
  last ← find_last_of name 46 npos;
  size ← str_size name;
  Ret ((size <=? 11) && ((first =? npos) || (first <=? 8)) && ((last =? npos) || (u64 (size - last) <=? 3))).

(** Step 2: characters a short name cannot hold become '_'. *)
Fixpoint oem_chars (n : nat) (s : String) (i : Z) (lossy : bool) : outcome (String * bool) :=
  match n with
  | O => Ret (s, lossy)
  | S n =>
      c ← str_at s i;
      if is_valid_short_filename_char c then oem_chars n s (i + 1) lossy
      else s ← str_put s i 95; oem_chars n s (i + 1) true
  end.
(** Step 5: every character goes to [basis[7]]. *)
Fixpoint basis_name (n : nat) (s : String) (i : Z) (basis : list Z) : outcome (list Z) :=
  match n with
  | O => Ret basis
  | S n => c ← str_at s i; if c =? 46 then Ret basis else basis_name n s (i + 1) (<[7%nat := c]> basis)
  end.
(** Step 6, from character [i] on. *)
Fixpoint basis_ext (n : nat) (s : String) (i copied : Z) (basis : list Z) : outcome (list Z) :=
  match n with
  | O => Ret basis
  | S n =>
      if 3 <=? copied then Ret basis
      else c ← str_at s i; basis_ext n s (i + 1) (copied + 1) (<[Z.to_nat (8 + copied) := c]> basis)
  end.
(** The 11 characters; [basis11] is what [basis[11]] holds when it is not
    written: the string made of [basis] ends there only if it is 0. *)
Definition generate_short_filename (basis11 : Z) (long_filename : String) : outcome (list Z) :=
  e ← str_empty long_filename;
  if (e : bool) then Panic
  else
    s ← to_upper long_filename;
    n ← str_size s;
    r ← oem_chars (Z.to_nat n) s 0 false;
    let '(s, lossy) := r in
    s ← str_remove s 32;
    p ← find_first_not_of s 46 0;
    s ← substr s p npos;
    n ← str_size s;
    basis ← basis_name (Z.to_nat n) s 0 (replicate 11 32);
    l ← find_last_of s 46 npos;
    basis ← (if l =? npos then Ret basis else basis_ext (Z.to_nat (n - 2)) s 2 0 basis);
    fit ← can_fit_within_83_short_filename s;
    if negb lossy && fit then (if basis11 =? 0 then Ret basis else Fault)
    else Ret (<[7%nat := 49]> (<[6%nat := 126]> basis)).

(** ** Entries *)

Definition is_deleted (entry : list Z) : outcome bool := c ← get8 entry 0; Ret (c =? 0xe5).
Definition is_the_end (entry : list Z) : outcome bool := c ← get8 entry 0; Ret (c =? 0).
Definition attributes (entry : list Z) : outcome Z := get8 entry 11.
Definition get_first_cluster_number (entry : list Z) : outcome Z :=
  hi ← get16 entry 20; lo ← get16 entry 26; Ret (Z.lor (u32 (Z.shiftl hi 16)) lo).
Definition set_first_cluster_number (entry : list Z) (n : Z) : outcome (list Z) :=
  e ← set16 entry 20 (Z.shiftr (Z.land n 0xffff0000) 16); set16 e 26 (Z.land n 0xffff).
Definition entry_size (entry : list Z) : outcome Z := get32 entry 28.

(** [n] characters of 16 bits. *)
Fixpoint get_units (n : nat) (b : list Z) (i : Z) : outcome (list Z) :=
  match n with O => Ret [] | S n => x ← get16 b i; rest ← get_units n b (i + 2); Ret (x :: rest) end.
Definition get_filename (entry : list Z) : outcome (list Z) :=
  p1 ← get_units 5 entry 1; p2 ← get_units 6 entry 14; p3 ← get_units 2 entry 28;
  out ← ucs2utf 15 (zeros 27) (arr_get (p1 ++ p2 ++ p3 ++ [0]));
  n ← strlen 28 (arr_get out) 0;
  Ret (take (Z.to_nat n) out).

(** The name of an entry without a long one: up to the first space or NUL. *)
Fixpoint until_space (l : list Z) : list Z :=
  match l with [] => [] | c :: l => if (c =? 0) || (c =? 32) then [] else c :: until_space l end.

(** The 32 bytes at [off] of a cluster. *)
Definition entry_at (cluster : list Z) (off : Z) : outcome (list Z) := get_bytes 32 cluster off.

(** ** Directories *)

Definition root_inode (g : BootSector) : FInode := mkFInode [47] (root_cluster g) EOC_MAX 0 0 S_IFDIR.
Definition fat_hash (n : FInode) : Z := u64 (7 + 17 * fi_size n + 17 * fi_mode n + 17 * fi_first n).
Definition fat_is_root (n : FInode) : FatM bool := s ← get; mret (fat_hash n =? fat_hash (root_inode (fa_meta s))).
Definition dir_first_cluster_number (n : FInode) : FatM Z :=
  s ← get; mret (if fi_first n =? 0 then root_cluster (fa_meta s) else fi_first n).

(** More than the clusters a chain without a cycle can have. *)
Definition chain_fuel (g : BootSector) : nat := Z.to_nat (nr_single_fat_entries g + 2).

Section iterate.
Context {A : Type} (f : View -> A -> A * bool).

(** The entries of a cluster from [off] on: [inl] when the iteration is over,
    [inr] the name and the index to go on with. *)
Fixpoint iterate_entries (k : nat) (root n : Z) (cluster : list Z) (off : Z) (name : list Z) (index : Z) (a : A) :
    outcome (A * option (list Z * Z)) :=
  match k with
  | O => Ret (a, Some (name, index))
  | S k =>
      entry ← entry_at cluster off;
      del ← is_deleted entry;
      if (del : bool) then iterate_entries k root n cluster (off + 32) name index a
      else
        fin ← is_the_end entry;
        if (fin : bool) then Ret (a, None)
        else
          attr ← attributes entry;
          if attr =? ATTR_LFN_ENTRY then
            part ← get_filename entry;
            iterate_entries k root n cluster (off + 32) (part ++ name) index a
          else
            c ← get_first_cluster_number entry;
            entry' ← set_first_cluster_number entry (if c =? 0 then root else c);
            let name := match name with [] => until_space (take 11 entry) | _ => name end in
            let '(a, stop) := f (mkView name entry' index n off) a in
            if (stop : bool) then Ret (a, None) else iterate_entries k root n cluster (off + 32) [] (u32 (index + 1)) a
  end.

Fixpoint iterate_chain (fuel : nat) (n : Z) (cluster : list Z) (name : list Z) (index : Z) (a : A) : FatM A :=
  if is_eoc n then mret a
  else
    match fuel with
    | O => out_of_fuel
    | S fuel =>
        s ← get;
        cluster ← cluster_read n cluster;
        r ← lift (iterate_entries 16 (root_cluster (fa_meta s)) n cluster 0 name index a);
        match r with
        | (a, None) => mret a
        | (a, Some (name, index)) => n ← fat_read n; iterate_chain fuel n cluster name index a
        end
    end.

Definition iterate_children (d : FInode) (a : A) : FatM A :=
  if negb (is_directory (fi_mode d)) then mret a
  else
    s ← get;
    n ← dir_first_cluster_number d;
    iterate_chain (chain_fuel (fa_meta s)) n (zeros 512) [] 0 a.
End iterate.

Definition find_child_if (d : FInode) (pred : View -> bool) : FatM (option FInode) :=
  v ← iterate_children (fun v a => if pred v then (Some v, true) else (a, false)) d None;
  match v with
  | None => mret None
  | Some v =>
      attr ← lift (attributes (vw_entry v));
      first ← lift (get_first_cluster_number (vw_entry v));
      size ← lift (entry_size (vw_entry v));
      mret (Some (mkFInode (vw_name v) first (vw_cluster v) (vw_offset v) size
                    (if Z.land attr ATTR_DIRECTORY =? 0 then S_IFREG else S_IFDIR)))
  end.

Definition fat_get_child (d : FInode) (name : list Z) : FatM (option FInode) :=
  root ← fat_is_root d;
  if (root : bool) && bool_decide (name = dot \/ name = dotdot) then s ← get; mret (Some (root_inode (fa_meta s)))
  else find_child_if d (fun v => bool_decide (vw_name v = name)).

Definition fat_get_ith_child (d : FInode) (i : Z) : FatM (option FInode) :=
  root ← fat_is_root d;
  if (root : bool) && ((i =? 0) || (i =? 1)) then s ← get; mret (Some (root_inode (fa_meta s)))
  else
    let i := if (root : bool) then u64 (i - NR_SPECIAL_ENTRIES) else i in
    find_child_if d (fun v => vw_index v =? i).

Definition fat_get_children_count (d : FInode) : FatM Z :=
  root ← fat_is_root d;
  iterate_children (fun _ a => (a + 1, false)) d (if (root : bool) then NR_SPECIAL_ENTRIES else 0).

Definition fat_get_parent (d : FInode) : FatM FInode :=
  p ← fat_get_child d dotdot;
  match p with Some p => mret p | None => s ← get; mret (root_inode (fa_meta s)) end.

(** ** Contents *)

(** [cluster_read(n, _content.get() + 512 * i)] *)
Definition read_into (n : Z) (content : list Z) (i : Z) : FatM (list Z) :=
  if decide (512 * i <= Z.of_nat (length content)) then
    b ← cluster_read n (drop (Z.to_nat (512 * i)) content);
    mret (take (Z.to_nat (512 * i)) content ++ b)
  else fault.
Fixpoint content_loop (fuel : nat) (n : Z) (content : list Z) (i : Z) : FatM (list Z) :=
  if is_eoc n then mret content
  else
    match fuel with
    | O => out_of_fuel
    | S fuel => content ← read_into n content i; n ← fat_read n; content_loop fuel n content (i + 1)
    end.
Definition fat_get_content (d : FInode) : FatM (option (list Z)) :=
  if negb (is_regular_file (fi_mode d)) then mret None
  else
    s ← get;
    size ← lift (round_up_to_multiple_of_n (fi_size d) 512);
    c ← content_loop (chain_fuel (fa_meta s)) (fi_first d) (zeros size) 0;
    mret (Some c).

(** [callback] on the directory entry of the inode. *)
Definition update_dentry_to_disk (d : FInode) (callback : list Z -> FatM (list Z)) : FatM unit :=
  if is_eoc (fi_parent d) then mret tt
  else
    s ← get;
    b ← cluster_read (fi_parent d) (zeros (bytes_per_sector (fa_meta s)));
    entry ← lift (entry_at b (fi_offset d));
    entry ← callback entry;
    b ← lift (set_bytes b (fi_offset d) entry);
    cluster_write (fi_parent d) b.

Definition allocate_first_cluster (d : FInode) : FatM unit :=
  if negb (fi_first d =? 0) then mret tt
  else
    update_dentry_to_disk d (fun entry =>
      c ← fat_find_free_cluster;
      if c =? NONE then mret entry else lift (set_first_cluster_number entry c)).

(** The 512 bytes at [content + i]; [beyond] is the memory after the buffer. *)
Definition block_of (beyond : Z -> Z) (content : list Z) (i : Z) : list Z :=
  map (fun k => match arr_get content (i + k) with Some x => x | None => u8 (beyond (i + k)) end) (seqZ 0 512).

(** The loop of [set_content]: [false] when there was no free cluster. *)
Fixpoint write_chain (n : nat) (beyond : Z -> Z) (content : list Z) (i prev curr : Z) : FatM bool :=
  match n with
  | O => mret true
  | S n =>
      if curr =? NONE then mret false
      else
        cluster_write curr (block_of beyond content i);;
        fat_write curr EOC_MAX;;
        (if negb (prev =? 0) then fat_write prev curr else mret tt);;
        next ← fat_find_free_cluster;
        write_chain n beyond content (i + 512) curr next
  end.
Definition fat_set_content (beyond : Z -> Z) (d : FInode) (content : list Z) (new_size : Z) : FatM FInode :=
  buf_size ← lift (round_up_to_multiple_of_n new_size 512);
  (if fi_first d =? 0 then allocate_first_cluster d else mret tt);;
  curr ← fat_find_free_cluster;
  ok ← write_chain (Z.to_nat (buf_size / 512)) beyond content 0 0 curr;
  if (ok : bool) then
    update_dentry_to_disk d (fun entry => lift (set32 entry 28 new_size));;
    mret (mkFInode (fi_name d) (fi_first d) (fi_parent d) (fi_offset d) new_size (fi_mode d))
  else mret d.

(** ** [create_child] *)

(** The array [filename_ucs] after [utf2ucs]: its last element is not
    initialised. *)
Definition filename_ucs (beyond : Z -> Z) (name : list Z) : outcome (list Z) :=
  utf2ucs (S (length name)) (replicate (length name) 0xffff ++ [u16 (beyond (Z.of_nat (length name)))]) (arr_get (name ++ [0])).
Fixpoint unit_count (ucs : list Z) : Z :=
  match ucs with [] => 0 | c :: ucs => if c =? 0 then 0 else 1 + unit_count ucs end.

(** The list of segments, each with its index in [filename_ucs]: the last
    one of the name comes first. *)
Fixpoint name_segments (n : nat) (name_size i : Z) (acc : list Z) : list Z :=
  match n with O => acc | S n => if i <? name_size then name_segments n name_size (i + 13) (i :: acc) else acc end.

(** [ucs] read from [i] on, past its end too. *)
Definition units_at (beyond : Z -> Z) (ucs : list Z) (i : Z) (n : nat) : list Z :=
  map (fun j => default (u16 (beyond j)) (arr_get ucs j)) (seqZ i (Z.of_nat n)).
Fixpoint set_units (b : list Z) (i : Z) (units : list Z) : outcome (list Z) :=
  match units with [] => Ret b | x :: units => b ← set16 b i x; set_units b (i + 2) units end.

(** The search for [need] entries of deleted files or the end of the directory. *)
Record Search := mkSearch { se_number : Z; se_offset : Z; se_counter : Z; keep_searching : bool }.

Fixpoint search_entries (k : nat) (need n : Z) (cluster : list Z) (off : Z) (s : Search) : outcome Search :=
  match k with
  | O => Ret s
  | S k =>
      entry ← entry_at cluster off;
      fin ← is_the_end entry;
      if (fin : bool) then Ret (mkSearch n off 0 false)
      else
        attr ← attributes entry;
        if attr =? ATTR_LFN_ENTRY then
          search_entries k need n cluster (off + 32)
            (if se_counter s =? 0 then mkSearch n off 1 true else mkSearch (se_number s) (se_offset s) (u32 (se_counter s + 1)) true)
        else
          del ← is_deleted entry;
          if negb del then search_entries k need n cluster (off + 32) (mkSearch n off 0 true)
          else
            let counter := u32 (se_counter s + 1) in
            if counter =? need then Ret (mkSearch (se_number s) (se_offset s) counter false)
            else search_entries k need n cluster (off + 32) (mkSearch (se_number s) (se_offset s) counter true)
  end.
Fixpoint search_chain (fuel : nat) (need n : Z) (cluster : list Z) (s : Search) : FatM (list Z * Search) :=
  if is_eoc n || negb (keep_searching s) then mret (cluster, s)
  else
    match fuel with
    | O => out_of_fuel
    | S fuel =>
        cluster ← cluster_read n cluster;
        s ← lift (search_entries 16 need n cluster 0 s);
        n ← fat_read n;
        search_chain fuel need n cluster s
    end.

(** Free entries after the end of the directory, with a new cluster when the
    last entry of a cluster is used; [None] when the disk is full. *)
Fixpoint clear_entries (k : nat) (cluster : list Z) (off : Z) : outcome (list Z) :=
  match k with O => Ret cluster | S k => cluster ← set8 cluster off 0; clear_entries k cluster (off + 32) end.
Definition append_cluster (n : Z) (cluster : list Z) : FatM (option (list Z)) :=
  c ← fat_find_free_cluster;
  if c =? NONE then mret None
  else
    fat_write n c;;
    fat_write c EOC_MAX;;
    cluster ← cluster_read c cluster;
    cluster ← lift (clear_entries 16 cluster 0);
    cluster_write c cluster;;
    mret (Some cluster).
Fixpoint allocate_entries (k : nat) (n : Z) (cluster : list Z) (off todo : Z) : FatM (option (list Z * Z)) :=
  match k with
  | O => mret (Some (cluster, todo))
  | S k =>
      if todo =? 0 then mret (Some (cluster, todo))
      else
        entry ← lift (entry_at cluster off);
        fin ← lift (is_the_end entry);
        if negb fin then allocate_entries k n cluster (off + 32) todo
        else
          cluster ← lift (set8 cluster off 0);
          r ← (if off =? 512 - 32 then append_cluster n cluster else mret (Some cluster));
          match r with
          | None => mret None
          | Some cluster => allocate_entries k n cluster (off + 32) (todo - 1)
          end
  end.
Fixpoint allocate_chain (fuel : nat) (n : Z) (cluster : list Z) (off todo : Z) : FatM (option (list Z)) :=
  if is_eoc n || (todo =? 0) then mret (Some cluster)
  else
    match fuel with
    | O => out_of_fuel
    | S fuel =>
        cluster ← cluster_read n cluster;
        r ← allocate_entries (Z.to_nat ((512 - off) / 32)) n cluster off todo;
        match r with
        | None => mret None
        | Some (cluster, todo) => n ← fat_read n; allocate_chain fuel n cluster off todo
        end
    end.

(** The entry of a segment of the long name. *)
Definition write_fentry (cluster : list Z) (off sequence_number checksum : Z) (name_part : list Z) : outcome (list Z) :=
  c ← set8 cluster off sequence_number;
  c ← set8 c (off + 11) ATTR_LFN_ENTRY;
  c ← set8 c (off + 12) 0;
  c ← set8 c (off + 13) checksum;
  c ← set16 c (off + 26) 0;
  c ← set_units c (off + 1) (take 5 name_part);
  c ← set_units c (off + 14) (take 6 (drop 5 name_part));
  set_units c (off + 28) (drop 11 name_part).

Definition write_dentry (cluster : list Z) (off attr size first : Z) (name : list Z) : outcome (list Z) :=
  entry ← entry_at cluster off;
  entry ← set8 entry 11 attr;
  entry ← set32 entry 28 size;
  entry ← set_first_cluster_number entry first;
  entry ← set_bytes entry 0 name;
  set_bytes cluster off entry.

Definition padded (name : list Z) : list Z := name ++ replicate (11 - length name) 32.

(** The cluster of a new directory. *)
Definition new_directory (first parent : Z) : outcome (list Z) :=
  c ← write_dentry (zeros 512) 0 ATTR_DIRECTORY 0 first (padded dot);
  c ← write_dentry c 32 ATTR_DIRECTORY 0 parent (padded dotdot);
  set8 c 64 0.

(** The branch of the directory entry itself. *)
Definition finish_create (d : FInode) (name short : list Z) (size mode n : Z) (cluster : list Z) (off : Z) : FatM (option FInode) :=
  free ← fat_find_free_cluster;
  if free =? NONE then mret None
  else
    let dir := is_directory mode in
    cluster ← lift (write_dentry cluster off (if dir then ATTR_DIRECTORY else 0) size (if dir then free else 0) short);
    cluster_write n cluster;;
    if negb dir then mret (Some (mkFInode name 0 n off 0 mode))
    else
      cluster_read free cluster;;
      root ← fat_is_root d;
      cluster ← lift (new_directory free (if (root : bool) then 0 else fi_first d));
      cluster_write free cluster;;
      fat_write free EOC_MAX;;
      mret (Some (mkFInode name free n off 0 mode)).

(** What the last loop works with: the name, its short form, the units of the
    name with the memory behind them. *)
Record NewChild := mkNew { nw_name : list Z; nw_short : list Z; nw_units : Z -> list Z; nw_size : Z; nw_mode : Z }.

(** [inl] the value returned, [inr] the cluster, the counter and the segments
    left for the next cluster of the chain. *)
Fixpoint create_entries (k : nat) (d : FInode) (w : NewChild) (n : Z) (cluster : list Z) (off counter : Z) (has_written_0x40 : bool)
    (it : list Z) : FatM (option FInode + list Z * Z * bool * list Z) :=
  match k with
  | O => mret (inr (cluster, counter, has_written_0x40, it))
  | S k =>
      let counter := u32 (counter - 1) in
      if 0 <? counter then
        match it with
        | [] => fault
        | seg :: it =>
            let seq := if has_written_0x40 then u8 counter else Z.lor (u8 counter) 0x40 in
            cluster ← lift (write_fentry cluster off seq (lfn_checksum (nw_short w)) (nw_units w seg));
            cluster_write n cluster;;
            create_entries k d w n cluster (off + 32) counter true it
        end
      else r ← finish_create d (nw_name w) (nw_short w) (nw_size w) (nw_mode w) n cluster off; mret (inl r)
  end.
Fixpoint create_chain (fuel : nat) (d : FInode) (w : NewChild) (n : Z) (cluster : list Z) (off counter : Z) (has_written_0x40 : bool)
    (it : list Z) : FatM (option FInode) :=
  if is_eoc n then lift Panic
  else
    match fuel with
    | O => out_of_fuel
    | S fuel =>
        cluster ← cluster_read n cluster;
        r ← create_entries (Z.to_nat ((512 - off) / 32)) d w n cluster off counter has_written_0x40 it;
        match r with
        | inl r => mret r
        | inr (cluster, counter, has_written_0x40, it) => n ← fat_read n; create_chain fuel d w n cluster 0 counter has_written_0x40 it
        end
    end.

Definition fat_create_child (basis11 : Z) (beyond : Z -> Z) (d : FInode) (name : list Z) (size mode : Z) : FatM (option FInode) :=
  if negb (is_directory (fi_mode d)) then mret None
  else
    short ← lift (generate_short_filename basis11 (Some (name ++ [0])));
    ucs ← lift (filename_ucs beyond name);
    let segments := name_segments (length ucs) (unit_count ucs) 0 [] in
    let need := Z.of_nat (length segments) + 1 in
    s ← get;
    let fuel := chain_fuel (fa_meta s) in
    n ← dir_first_cluster_number d;
    r ← search_chain fuel need n (zeros 512) (mkSearch 0 0 0 true);
    let '(cluster, se) := r in
    r ← (if se_counter se <? need then allocate_chain fuel (se_number se) cluster (se_offset se) (need + 1) else mret (Some cluster));
    match r with
    | None => mret None
    | Some cluster =>
        create_chain fuel d (mkNew name short (fun i => units_at beyond ucs i 13) size mode) (se_number se) cluster (se_offset se) need false segments
    end.
