(* ===== verification/Fat32Spec.v ===== *)
(** * Correctness of FAT32: the table, the clusters and the contents of files

    A volume is seen as two arrays, the entries of the first table
    ([fat_entry]) and the clusters ([data]): [effect] states how an operation
    changes them. *)

From Stdlib Require Import ZArith Lia.
From stdpp Require Import base gmap list numbers.
From S2P Require Import Prelude Math CString KString Encoding Disk Console Vnode TmpFS Fat32.

Open Scope Z_scope.

(** ** The volume as arrays *)

Definition N (s : Fat) : Z := 128 * table_size_32 (fa_meta s).

(** Sectors of 512 bytes, and every cluster that has an entry in the table lies
    inside the partition. *)
Record vol_ok (s : Fat) : Prop := mkVolOk {
  vo_disk : disk_ok (fa_disk s);
  vo_bps : bytes_per_sector (fa_meta s) = 512;
  vo_spc : 1 <= sectors_per_cluster (fa_meta s) < 256;
  vo_rsc : 0 <= reserved_sector_count (fa_meta s) < 65536;
  vo_ts : 1 <= table_size_32 (fa_meta s);
  vo_nr : N s <= EOC_MIN;
  vo_start : 0 <= start_block (fa_part s);
  vo_fits : start_block (fa_part s) + reserved_sector_count (fa_meta s) + 2 * table_size_32 (fa_meta s) +
            (N s - 2) * sectors_per_cluster (fa_meta s) <= end_block (fa_part s) + 1;
  vo_small : end_block (fa_part s) < 2 ^ 31 - 1
}.

Definition fat_block (s : Fat) (i : Z) : Z := start_block (fa_part s) + reserved_sector_count (fa_meta s) + i / 128.
Definition word (b : list Z) (i : Z) : Z := match get32 b i with Ret v => v | _ => 0 end.
Definition fat_entry (s : Fat) (i : Z) : Z := word (block_at (fa_disk s) (fat_block s i)) (4 * (i mod 128)).
Definition data_block (s : Fat) (c : Z) : Z :=
  start_block (fa_part s) + reserved_sector_count (fa_meta s) + 2 * table_size_32 (fa_meta s) + (c - 2) * sectors_per_cluster (fa_meta s).
Definition data (s : Fat) (c : Z) : list Z := block_at (fa_disk s) (data_block s c).

(** From [s] to [s'] the table becomes [fe] and the clusters [da]. *)
Definition effect (s s' : Fat) (fe : Z -> Z) (da : Z -> list Z) : Prop :=
  vol_ok s' /\ fa_part s' = fa_part s /\ fa_meta s' = fa_meta s /\
  (forall i, 0 <= i < N s -> fat_entry s' i = fe i) /\ (forall c, 2 <= c < N s -> data s' c = da c).

(** A disk that differs at one block. *)
Definition with_block (s : Fat) (k : Z) (b : list Z) : Fat := mkFat (<[k := b]> (fa_disk s)) (fa_part s) (fa_meta s).

Lemma block_at_insert d k j b : block_at (<[k := b]> d) j = if decide (j = k) then b else block_at d j.
Proof.
  unfold block_at, Disk in *. case_decide as Hj; [subst; by rewrite lookup_insert_eq|by rewrite lookup_insert_ne].
Qed.

Section volume.
Variable s : Fat.
Hypothesis Hs : vol_ok s.

Local Abbreviation g := (fa_meta s).

Lemma eps : entries_per_sector g = 128.
Proof. unfold entries_per_sector. by rewrite (vo_bps s Hs). Qed.

Lemma nr_entries : nr_single_fat_entries g = N s.
Proof.
  destruct Hs. unfold nr_single_fat_entries. rewrite eps. unfold N, EOC_MIN in *. rewrite u32_id by lia. lia.
Qed.

Lemma fat0_index i : 0 <= i < N s -> fat0_sector_index g i = reserved_sector_count g + i / 128.
Proof.
  destruct Hs. intros Hi. unfold fat0_sector_index. rewrite eps. unfold N, EOC_MIN in *.
  apply u32_id. assert (0 <= i / 128 <= i) by (Z.div_mod_to_equations; lia). lia.
Qed.

Lemma fat1_index : fat1_sector_index g 0 = reserved_sector_count g + table_size_32 g.
Proof.
  destruct Hs. unfold fat1_sector_index. rewrite fat0_index, eps by (unfold N; lia). unfold N, EOC_MIN in *.
  change (0 / 128) with 0. rewrite u32_id; lia.
Qed.

Lemma fat_block_range i : 0 <= i < N s ->
  start_block (fa_part s) + reserved_sector_count g <= fat_block s i < start_block (fa_part s) + reserved_sector_count g + table_size_32 g.
Proof.
  destruct Hs. intros Hi. unfold fat_block, N in *. assert (0 <= i / 128 < table_size_32 g) by (Z.div_mod_to_equations; lia). lia.
Qed.

Lemma fat_block_in i : 0 <= i < N s -> start_block (fa_part s) <= fat_block s i <= end_block (fa_part s).
Proof.
  intros Hi. pose proof (fat_block_range i Hi). destruct Hs. assert (0 <= (N s - 2) * sectors_per_cluster g) by (unfold N; nia). lia.
Qed.

Lemma data_block_range c : 2 <= c < N s ->
  start_block (fa_part s) + reserved_sector_count g + 2 * table_size_32 g <= data_block s c <= end_block (fa_part s).
Proof. destruct Hs. intros Hc. unfold data_block. nia. Qed.

(** The table and the clusters are apart, and clusters from each other. *)
Lemma data_block_fat i c : 0 <= i < N s -> 2 <= c < N s -> data_block s c <> fat_block s i.
Proof. intros Hi Hc. pose proof (fat_block_range i Hi). pose proof (data_block_range c Hc). destruct Hs. lia. Qed.

Lemma data_block_inj c c' : data_block s c = data_block s c' -> c = c'.
Proof. destruct Hs. unfold data_block. intros H. nia. Qed.

Lemma cluster_index c : 2 <= c < N s -> cluster_sector_index g c = data_block s c - start_block (fa_part s).
Proof.
  intros Hc. pose proof (data_block_range c Hc). destruct Hs. unfold cluster_sector_index, data_region_sector_index.
  rewrite fat1_index. unfold N, EOC_MIN in *. rewrite (u32_id (c - 2)) by lia. unfold data_block in *.
  assert (0 <= (c - 2) * sectors_per_cluster g) by nia.
  rewrite (u32_id (_ * _)), (u32_id (_ + table_size_32 _ + table_size_32 _)), u32_id by lia. lia.
Qed.

(** ** Blocks *)

Lemma rd_block_long k buf : start_block (fa_part s) <= k <= end_block (fa_part s) -> (512 <= length buf)%nat ->
  rd_block (k - start_block (fa_part s)) buf s = Ret (block_at (fa_disk s) k ++ drop 512 buf, s).
Proof.
  intros Hk Hl. destruct Hs. unfold rd_block. msimpl. rewrite s32_id by lia. unfold part_read.
  replace (start_block (fa_part s) + (k - start_block (fa_part s))) with k by lia. rewrite u32_id by lia.
  rewrite (proj2 (Z.ltb_ge _ _)) by lia. by rewrite decide_False by (unfold BLOCK_SIZE; lia).
Qed.

Lemma rd_block_run k buf : start_block (fa_part s) <= k <= end_block (fa_part s) -> length buf = 512%nat ->
  rd_block (k - start_block (fa_part s)) buf s = Ret (block_at (fa_disk s) k, s).
Proof. intros Hk Hl. rewrite rd_block_long by lia. by rewrite drop_ge, app_nil_r by lia. Qed.

Lemma wr_block_run k buf : start_block (fa_part s) <= k <= end_block (fa_part s) -> length buf = 512%nat ->
  wr_block (k - start_block (fa_part s)) buf s = Ret (tt, with_block s k buf).
Proof.
  intros Hk Hl. destruct Hs. unfold wr_block. msimpl. rewrite s32_id by lia. unfold part_write.
  replace (start_block (fa_part s) + (k - start_block (fa_part s))) with k by lia. rewrite u32_id by lia.
  rewrite (proj2 (Z.ltb_ge _ _)) by lia. rewrite decide_False by (rewrite Hl; unfold BLOCK_SIZE; lia).
  by rewrite take_ge by (rewrite Hl; unfold BLOCK_SIZE; lia).
Qed.

Lemma with_block_ok k b : is_block b -> vol_ok (with_block s k b).
Proof. intros Hb. destruct Hs. constructor; try done. by apply disk_ok_insert. Qed.

Lemma fat_block_ok i : is_block (block_at (fa_disk s) (fat_block s i)).
Proof. apply block_at_ok, Hs. Qed.

Lemma data_ok c : is_block (data s c).
Proof. apply block_at_ok, Hs. Qed.

(** ** The table and the clusters *)

Lemma word_run b i : is_block b -> 0 <= i <= 508 -> get32 b i = Ret (word b i).
Proof. intros [Hl Hb] Hi. destruct (get32_byte b i Hb) as (v & Hv & _); [lia..|]. unfold word. by rewrite Hv. Qed.

Lemma fat_read_run i : 0 <= i < N s -> fat_read i s = Ret (fat_entry s i, s).
Proof.
  intros Hi. unfold fat_read. msimpl. rewrite nr_entries, (proj2 (Z.leb_gt _ _)) by lia.
  rewrite fat0_index by done. destruct Hs. rewrite vo_bps0.
  replace (reserved_sector_count g + i / 128) with (fat_block s i - start_block (fa_part s)) by (unfold fat_block; lia).
  mrun (rd_block_run (fat_block s i) (zeros 512) (fat_block_in i Hi) eq_refl). rewrite eps.
  by rewrite (word_run _ _ (fat_block_ok i)) by (Z.div_mod_to_equations; lia).
Qed.

Lemma fat_entry_with_fat i v b : 0 <= i < N s ->
  updated (block_at (fa_disk s) (fat_block s i)) b (4 * (i mod 128)) 4 -> get32 b (4 * (i mod 128)) = Ret v ->
  forall j, 0 <= j < N s -> fat_entry (with_block s (fat_block s i) b) j = upd (fat_entry s) i v j.
Proof.
  intros Hi (_ & _ & Hu) Hv j Hj. unfold fat_entry. change (fat_block (with_block _ _ _) j) with (fat_block s j). cbn [fa_disk with_block].
  rewrite block_at_insert. case_decide as Hb; unfold upd; case_decide as Hij; subst; try done.
  - unfold word. by rewrite Hv.
  - unfold word. rewrite (get32_ext (block_at (fa_disk s) (fat_block s i)) b), Hb; [done|]. intros k Hk. apply Hu.
    unfold fat_block in Hb. Z.div_mod_to_equations. lia.
Qed.

Lemma fat_write_run i v : 0 <= i < N s -> 0 <= v < 2 ^ 32 ->
  exists s', fat_write i v s = Ret (tt, s') /\ effect s s' (upd (fat_entry s) i v) (data s).
Proof.
  intros Hi Hv. destruct (fat_block_ok i) as [Hl Hb].
  destruct (set32_updated _ (4 * (i mod 128)) v Hb) as (b & Eb & Ub & Gb); [Z.div_mod_to_equations; lia..|].
  rewrite u32_id in Gb by lia. pose proof Hs as Hs'. destruct Hs'. exists (with_block s (fat_block s i) b). split.
  - unfold fat_write. msimpl. rewrite nr_entries, (proj2 (Z.leb_gt _ _)) by lia. rewrite fat0_index, vo_bps0, eps by done.
    replace (reserved_sector_count g + i / 128) with (fat_block s i - start_block (fa_part s)) by (unfold fat_block; lia).
    mrun (rd_block_run (fat_block s i) (zeros 512) (fat_block_in i Hi) eq_refl). rewrite Eb. msimpl.
    apply wr_block_run; [by apply fat_block_in|]. rewrite (proj1 Ub). done.
  - split_and!; [apply with_block_ok|done..| |].
    + split; [by rewrite (proj1 Ub)|apply Ub].
    + by apply fat_entry_with_fat.
    + intros c Hc. unfold data. cbn [fa_disk with_block]. rewrite block_at_insert, decide_False; [done|]. by apply data_block_fat.
Qed.

Lemma cluster_read_long c buf : 2 <= c < N s -> (512 <= length buf)%nat -> cluster_read c buf s = Ret (data s c ++ drop 512 buf, s).
Proof.
  intros Hc Hl. pose proof (data_block_range c Hc). destruct Hs. unfold cluster_read. msimpl.
  rewrite cluster_index by done. apply rd_block_long; [lia|done].
Qed.

Lemma cluster_read_run c buf : 2 <= c < N s -> length buf = 512%nat -> cluster_read c buf s = Ret (data s c, s).
Proof. intros Hc Hl. rewrite cluster_read_long by lia. by rewrite drop_ge, app_nil_r by lia. Qed.

Lemma cluster_write_run c b : 2 <= c < N s -> is_block b ->
  exists s', cluster_write c b s = Ret (tt, s') /\ effect s s' (fat_entry s) (upd (data s) c b).
Proof.
  intros Hc Hb. pose proof (data_block_range c Hc). pose proof Hs as Hs'. destruct Hs'. exists (with_block s (data_block s c) b). split.
  - unfold cluster_write. msimpl. rewrite cluster_index by done. apply wr_block_run; [lia|apply Hb].
  - split_and!; [by apply with_block_ok|done..| |].
    + intros i Hi. unfold fat_entry. cbn [fa_disk with_block]. rewrite block_at_insert, decide_False; [done|].
      intros E. by apply (data_block_fat i c).
    + intros c' Hc'. unfold data, upd. cbn [fa_disk with_block]. rewrite block_at_insert.
      repeat case_decide; subst; try done. by destruct (data_block_inj c' c).
Qed.
End volume.

(** ** Free clusters *)

Definition free (s : Fat) : list Z := filter (fun i => fat_entry s i = 0) (seqZ 0 (N s)).
Definition first_free (s : Fat) : Z := default NONE (head (free s)).

Lemma find_free_in_run n b (f : Z -> Z) base i :
  (forall j, i <= j < i + Z.of_nat n -> get32 b (4 * j) = Ret (f (base + j))) ->
  find_free_in n b i = Ret ((fun x => x - base) <$> head (filter (fun x => f x = 0) (seqZ (base + i) (Z.of_nat n)))).
Proof.
  revert i. induction n as [|n IH]; intros i Hb; [done|]. cbn [find_free_in].
  rewrite Hb by lia. cbn [mbind outcome_bind]. rewrite seqZ_cons by lia. rewrite list.filter_cons. 
  replace (Z.pred (Z.of_nat (S n))) with (Z.of_nat n) by lia. case_decide as Hf.
  - rewrite (proj2 (Z.eqb_eq _ _)) by done. cbn. do 2 f_equal. lia.
  - rewrite (proj2 (Z.eqb_neq _ _)) by done. rewrite IH by (intros; apply Hb; lia).
    by replace (base + (i + 1)) with (Z.succ (base + i)) by lia.
Qed.

Section free_clusters.
Variable s : Fat.
Hypothesis Hs : vol_ok s.

Lemma rd_block_uninit_run i : 0 <= i < N s ->
  rd_block_uninit (fat_block s i - start_block (fa_part s)) s = Ret (block_at (fa_disk s) (fat_block s i), s).
Proof.
  intros Hi. pose proof (fat_block_in s Hs i Hi). unfold rd_block_uninit. msimpl. pose proof Hs as []. rewrite s32_id by lia.
  rewrite u32_id by lia. rewrite (proj2 (Z.ltb_ge _ _)) by lia. by apply rd_block_run.
Qed.

Lemma find_free_loop_run n k : 0 <= k -> k + Z.of_nat n = table_size_32 (fa_meta s) ->
  find_free_loop n (reserved_sector_count (fa_meta s) + k) s =
    Ret (default NONE (head (filter (fun i => fat_entry s i = 0) (seqZ (128 * k) (128 * Z.of_nat n)))), s).
Proof.
  revert k. induction n as [|n IH]; intros k Hk Hn; [done|]. cbn [find_free_loop]. msimpl.
  assert (Hi : 0 <= 128 * k < N s) by (unfold N; lia).
  assert (Hd : forall j, 0 <= j < 128 -> (128 * k + j) / 128 = k /\ (128 * k + j) mod 128 = j) by (intros; Z.div_mod_to_equations; lia).
  replace (reserved_sector_count (fa_meta s) + k) with (fat_block s (128 * k) - start_block (fa_part s))
    by (unfold fat_block; rewrite (Z.mul_comm 128), Z.div_mul by lia; lia).
  mrun (rd_block_uninit_run (128 * k) Hi). rewrite (eps s Hs).
  rewrite (find_free_in_run _ _ (fat_entry s) (128 * k)).
  2:{ intros j Hj. rewrite Z2Nat.id in Hj by lia. destruct (Hd j ltac:(lia)) as [Hd1 Hd2]. unfold fat_entry. rewrite Hd2.
      replace (fat_block s (128 * k + j)) with (fat_block s (128 * k)).
      - apply word_run; [by apply fat_block_ok|lia].
      - unfold fat_block. rewrite Hd1, (Z.mul_comm 128), Z.div_mul by lia. done. }
  msimpl. rewrite Z2Nat.id, Z.add_0_r by lia.
  replace (128 * Z.of_nat (S n)) with (128 + 128 * Z.of_nat n) by lia. rewrite seqZ_app, list.filter_app by lia.
  destruct (filter _ (seqZ (128 * k) 128)) as [|x xs] eqn:E; cbn [head fmap option_fmap option_map app].
  - replace (fat_block s (128 * k) - start_block (fa_part s) + 1) with (reserved_sector_count (fa_meta s) + (k + 1))
      by (unfold fat_block; rewrite (Z.mul_comm 128), Z.div_mul by lia; lia).
    rewrite IH by lia. by replace (128 * (k + 1)) with (128 * k + 128) by lia.
  - assert (Hx : x ∈ seqZ (128 * k) 128).
    { assert (H : x ∈ filter (fun x => fat_entry s x = 0) (seqZ (128 * k) 128)) by (rewrite E; left). by apply list_elem_of_filter in H as [_ ?]. }
    apply elem_of_seqZ in Hx. rewrite fat0_index by (done || unfold N; lia). change (0 / 128) with 0.
    pose proof Hs as []. unfold N, EOC_MIN in *. cbn [default head]. unfold mret, M_ret. do 2 f_equal.
    unfold fat_block. rewrite (Z.mul_comm 128 k), Z.div_mul by lia.
    rewrite (u32_id (_ - _)) by lia. rewrite u32_id by lia. cbn [default]. unfold id. lia.
Qed.

Lemma find_free_run : fat_find_free_cluster s = Ret (first_free s, s).
Proof.
  pose proof Hs as []. unfold fat_find_free_cluster. msimpl. rewrite (fat1_index s Hs), (fat0_index s Hs) by (unfold N; lia).
  change (0 / 128) with 0. rewrite (find_free_loop_run _ 0) by lia.
  unfold first_free, free, N. by rewrite Z2Nat.id, Z.add_0_r, Z.add_simpl_l by lia.
Qed.

Lemma elem_of_free c : c ∈ free s <-> 0 <= c < N s /\ fat_entry s c = 0.
Proof. unfold free. rewrite list_elem_of_filter, elem_of_seqZ. split; intros []; split; lia || done. Qed.
End free_clusters.

(** Entries 0 and 1 of a table are reserved. *)
Definition reserved (s : Fat) : Prop := fat_entry s 0 <> 0 /\ fat_entry s 1 <> 0.
Definition same_volume (s s' : Fat) : Prop := vol_ok s' /\ fa_part s' = fa_part s /\ fa_meta s' = fa_meta s.

Lemma same_N s s' : same_volume s s' -> N s' = N s.
Proof. intros (_ & _ & H). unfold N. by rewrite H. Qed.
Lemma same_trans s s1 s2 : same_volume s s1 -> same_volume s1 s2 -> same_volume s s2.
Proof. intros (? & ? & ?) (? & ? & ?). split_and!; [done|congruence..]. Qed.
Lemma effect_same s s' fe da : effect s s' fe da -> same_volume s s'.
Proof. intros (? & ? & ? & _). done. Qed.

Lemma filter_ext_in {A} (P Q : A -> Prop) `{!forall x, Decision (P x), !forall x, Decision (Q x)} (l : list A) :
  (forall x, x ∈ l -> P x <-> Q x) -> filter P l = filter Q l.
Proof.
  intros HPQ. induction l as [|x l IH]; [done|]. rewrite !list.filter_cons, IH by (intros; apply HPQ; by right).
  specialize (HPQ x ltac:(left)). repeat case_decide; tauto.
Qed.

(** Using up the first free cluster. *)
Lemma free_effect s s' fe da c rest : effect s s' fe da -> free s = c :: rest ->
  (forall i, 0 <= i < N s -> fe i = 0 <-> fat_entry s i = 0 /\ i <> c) -> free s' = rest.
Proof.
  intros He Hf Hfe. pose proof (same_N _ _ (effect_same _ _ _ _ He)) as HN. destruct He as (_ & _ & _ & He & _).
  assert (Hnd : NoDup (free s)) by (apply list.NoDup_filter, NoDup_seqZ). rewrite Hf in Hnd. apply list.NoDup_cons in Hnd as [Hc _].
  transitivity (filter (fun i => i <> c) (free s)).
  - unfold free. rewrite list_filter_filter, HN. apply filter_ext_in. intros i Hi%elem_of_seqZ.
    rewrite He by lia. rewrite Hfe by lia. tauto.
  - rewrite Hf, list.filter_cons, decide_False by tauto. transitivity (filter (fun _ : Z => True) rest).
    + apply filter_ext_in. intros i Hi. split; [done|]. by intros _ ->.
    + clear. induction rest as [|x l IH]; [done|]. by rewrite list.filter_cons, decide_True, IH.
Qed.

(** ** Chains *)

(** From cluster [c] the table links clusters, in [P], that hold [bl]. *)
Fixpoint chain (P : Z -> Prop) (s : Fat) (c : Z) (bl : list (list Z)) : Prop :=
  match bl with
  | [] => is_eoc c = true
  | b :: bl => 2 <= c < N s /\ P c /\ data s c = b /\ chain P s (fat_entry s c) bl
  end.

Lemma chain_mono (P Q : Z -> Prop) s c bl : (forall c, 2 <= c < N s -> P c -> Q c) -> chain P s c bl -> chain Q s c bl.
Proof.
  intros H. revert c. induction bl as [|b bl IH]; intros c; cbn; [done|]. intros (Hc & HP & Hb & Hch).
  split; [done|]. split; [by apply H|]. split; [done|by apply IH].
Qed.

(** A chain is not affected by what happens to other clusters. *)
Lemma chain_effect P s s' da c bl : effect s s' (fat_entry s) da -> (forall c, 2 <= c < N s -> P c -> da c = data s c) ->
  chain P s c bl -> chain P s' c bl.
Proof.
  intros He Hda. pose proof (same_N _ _ (effect_same _ _ _ _ He)) as HN. destruct He as (_ & _ & _ & A & D). revert c.
  induction bl as [|b bl IH]; intros c; cbn; [done|]. intros (Hc & HP & Hb & Hch). rewrite HN, D, A by lia. split_and!; try (done || lia).
  - by rewrite Hda.
  - by apply IH.
Qed.

Fixpoint blocks (n : nat) (beyond : Z -> Z) (content : list Z) (i : Z) : list (list Z) :=
  match n with O => [] | S n => block_of beyond content i :: blocks n beyond content (i + 512) end.

Lemma block_of_ok beyond content i : bytes content -> is_block (block_of beyond content i).
Proof.
  intros Hc. split; [unfold block_of; by rewrite length_map, length_seqZ|]. unfold block_of. apply list.Forall_fmap, list.Forall_forall.
  intros k _. cbn. destruct (arr_get content (i + k)) as [x|] eqn:E; [|apply u8_range].
  unfold arr_get in E. case_decide; [|done]. by apply (list.Forall_lookup_1 _ _ _ _ Hc E).
Qed.

(** What [write_chain] leaves alone: the clusters in use, but for the entry of
    the one the new chain is linked to. *)
Definition frame (s s' : Fat) (prev : Z) : Prop :=
  forall c, 0 <= c < N s -> fat_entry s c <> 0 -> (2 <= c -> data s' c = data s c) /\ (c <> prev -> fat_entry s' c = fat_entry s c).

Lemma first_free_ok s c rest : reserved s -> free s = c :: rest -> 2 <= c < N s /\ fat_entry s c = 0.
Proof.
  intros [H0 H1] Hf. assert (Hc : c ∈ free s) by (rewrite Hf; left). apply elem_of_free in Hc as [Hc Hz]. split; [|done].
  assert (c <> 0) by (by intros ->). assert (c <> 1) by (by intros ->). lia.
Qed.

Lemma not_none s c : vol_ok s -> 2 <= c < N s -> c <> NONE.
Proof. intros Hs Hc. pose proof (vo_nr s Hs). change NONE with 4294967295. unfold EOC_MIN in *. lia. Qed.

(** One turn of the loop. *)
Lemma write_step s b prev c rest : vol_ok s -> reserved s -> is_block b -> free s = c :: rest ->
  prev = 0 \/ 2 <= prev < N s /\ fat_entry s prev <> 0 ->
  exists s1, (cluster_write c b;; fat_write c EOC_MAX;; (if negb (prev =? 0) then fat_write prev c else mret tt)) s = Ret (tt, s1) /\
    same_volume s s1 /\ reserved s1 /\ free s1 = rest /\ data s1 c = b /\ fat_entry s1 c = EOC_MAX /\
    (prev <> 0 -> fat_entry s1 prev = c) /\ frame s s1 prev.
Proof.
  intros Hs Hr Hb Hf Hp. destruct (first_free_ok s c rest Hr Hf) as [Hc Hz].
  assert (Hpc : prev <> c) by (intros ->; destruct Hp as [|[_ Hp]]; [lia|congruence]).
  destruct (cluster_write_run s Hs c b Hc Hb) as (s1 & E1 & F1). pose proof (same_N _ _ (effect_same _ _ _ _ F1)) as N1.
  destruct (fat_write_run s1 (proj1 F1) c EOC_MAX) as (s2 & E2 & F2); [lia|unfold EOC_MAX; lia|].
  pose proof (same_N _ _ (effect_same _ _ _ _ F2)) as N2.
  set (fe := if decide (prev = 0) then upd (fat_entry s) c EOC_MAX else upd (upd (fat_entry s) c EOC_MAX) prev c).
  assert (H3 : exists s3, (if negb (prev =? 0) then fat_write prev c else mret tt) s2 = Ret (tt, s3) /\ effect s s3 fe (upd (data s) c b)).
  { destruct F1 as (V1 & P1 & M1 & A1 & D1), F2 as (V2 & P2 & M2 & A2 & D2).
    assert (A : forall i, 0 <= i < N s -> fat_entry s2 i = upd (fat_entry s) c EOC_MAX i).
    { intros i Hi. rewrite A2 by lia. unfold upd. case_decide; [done|]. by apply A1. }
    assert (D : forall k, 2 <= k < N s -> data s2 k = upd (data s) c b k) by (intros k Hk; rewrite D2 by lia; by apply D1).
    destruct Hp as [->|[Hp Hp0]].
    - exists s2. split; [done|]. unfold fe. rewrite decide_True by done. split_and!; [done|congruence..|done|done].
    - destruct (fat_write_run s2 V2 prev c) as (s3 & E3 & V3 & P3 & M3 & A3 & D3); [lia|pose proof (vo_nr s Hs); unfold EOC_MIN in *; lia|].
      exists s3. rewrite (proj2 (Z.eqb_neq prev 0)) by lia. split; [done|]. unfold fe. rewrite decide_False by lia.
      split_and!; [done|congruence..| |].
      + intros i Hi. rewrite A3 by lia. unfold upd at 1 2. case_decide; [done|]. by apply A.
      + intros k Hk. rewrite D3 by lia. by apply D. }
  destruct H3 as (s3 & E3 & F3). exists s3. mrun E1. mrun E2. split; [exact E3|].
  assert (Hfe : forall i, fe i = if decide (i = prev /\ prev <> 0) then c else if decide (i = c) then EOC_MAX else fat_entry s i).
  { intros i. unfold fe, upd. repeat case_decide; try done; naive_solver. }
  pose proof F3 as (_ & _ & _ & A & D). assert (128 <= N s) by (pose proof (vo_ts s Hs); unfold N; lia).
  split_and!; [by eapply effect_same| | | | | |].
  - destruct Hr as [R0 R1]. split; rewrite A, Hfe by lia; repeat case_decide; try lia; unfold EOC_MAX; lia.
  - eapply free_effect; [done..|]. intros i Hi. rewrite Hfe. repeat case_decide; unfold EOC_MAX; split; try naive_solver lia.
  - rewrite D by lia. apply upd_eq.
  - rewrite A, Hfe by lia. rewrite decide_False by (intros []; congruence). by rewrite decide_True.
  - intros Hp0. rewrite A, Hfe by lia. by rewrite decide_True.
  - intros i Hi Hi0. assert (i <> c) by congruence. split.
    + intros. rewrite D by lia. by apply upd_ne.
    + intros. rewrite A, Hfe by lia. by rewrite !decide_False by naive_solver.
Qed.

Lemma frame_trans s s1 s2 prev c : frame s s1 prev -> frame s1 s2 c -> N s1 = N s -> fat_entry s c = 0 -> 
  (prev <> 0 -> fat_entry s1 prev <> 0) -> frame s s2 prev.
Proof.
  intros F1 F2 HN Hc Hp i Hi Hi0. destruct (F1 i Hi Hi0) as [D1 A1].
  assert (Hne : i <> c) by congruence. destruct (decide (i = prev)) as [->|Hip].
  - split; [|done]. intros H2. destruct (F2 prev) as [D2 _]; [lia|apply Hp; lia|]. rewrite D2 by done. by apply D1.
  - specialize (A1 Hip). destruct (F2 i) as [D2 A2]; [lia|congruence|]. split; intros; [rewrite D2 by done; by apply D1|].
    rewrite A2 by done. done.
Qed.

Lemma seq3_run {S A B C D} (a : M S A) (b : M S B) (c : M S C) (k : M S D) s r s1 :
  (a;; b;; c) s = Ret (r, s1) -> (a;; b;; c;; k) s = k s1.
Proof.
  unfold mbind, M_bind. destruct (a s) as [[? sa]| | |]; [|done..]. destruct (b sa) as [[? sb]| | |]; [|done..].
  intros ->. done.
Qed.

Lemma write_chain_run n beyond content : bytes content -> forall s i prev, vol_ok s -> reserved s -> (n <= length (free s))%nat ->
  prev = 0 \/ 2 <= prev < N s /\ fat_entry s prev <> 0 ->
  exists s', write_chain n beyond content i prev (first_free s) s = Ret (true, s') /\ same_volume s s' /\ reserved s' /\ frame s s' prev /\
    match n with
    | O => s' = s
    | S _ => chain (fun c => fat_entry s c = 0) s' (first_free s) (blocks n beyond content i) /\ (prev <> 0 -> fat_entry s' prev = first_free s)
    end.
Proof.
  intros Hcb. induction n as [|n IH]; intros s i prev Hs Hr Hn Hp.
  - exists s. by split_and!.
  - destruct (free s) as [|c rest] eqn:Hf; [by apply Nat.nle_succ_0 in Hn|]. destruct (first_free_ok s c rest Hr Hf) as [Hc Hz].
    assert (Hff : first_free s = c) by (unfold first_free; by rewrite Hf). rewrite Hff.
    destruct (write_step s (block_of beyond content i) prev c rest) as (s1 & E1 & V1 & R1 & Hf1 & D1 & A1 & P1 & F1);
      [done|done|by apply block_of_ok|done..|].
    pose proof (same_N _ _ V1) as HN.
    destruct (IH s1 (i + 512) c (proj1 V1) R1) as (s' & E' & V' & R' & F' & C'); [rewrite Hf1; cbn in Hn; lia|right; rewrite A1; unfold EOC_MAX; lia|].
    pose proof (same_N _ _ V') as HN'.
    destruct (F' c) as [D' _]; [lia|rewrite A1; unfold EOC_MAX; lia|].
    exists s'. split; [|split_and!].
    + cbn [write_chain]. rewrite (proj2 (Z.eqb_neq c NONE)) by (by eapply not_none).
      rewrite (seq3_run _ _ _ _ _ _ _ E1). by mrun (find_free_run s1 (proj1 V1)).
    + by eapply same_trans.
    + done.
    + apply (frame_trans _ s1 _ _ c); [done..|]. intros Hp0. rewrite P1 by done. lia.
    + cbn [blocks chain]. rewrite HN', HN, D' by lia. split_and!; [lia..|done|done|]. destruct n; [subst; rewrite A1; done|]. destruct C' as [C' P'].
      rewrite P' by lia. apply (chain_mono (fun c => fat_entry s1 c = 0)); [|done].
      intros k Hk Hk0. destruct (decide (fat_entry s k = 0)) as [|Hk1]; [done|]. destruct (F1 k) as [_ Hk2]; [lia|done|].
      destruct (decide (k = prev)) as [->|]; [rewrite P1 in Hk0; lia|]. rewrite <- Hk2; done.
    + intros Hp0. destruct Hp as [|[Hp Hp1]]; [done|]. destruct (F' prev) as [_ A']; [lia|rewrite P1; lia|].
      rewrite A', P1; [done..|]. intros ->. congruence.
Qed.

(** ** Reading a chain *)

Lemma not_eoc s c : vol_ok s -> 2 <= c < N s -> is_eoc c = false.
Proof. intros Hs Hc. pose proof (vo_nr s Hs). unfold is_eoc. by rewrite (proj2 (Z.leb_gt _ _)) by lia. Qed.

Lemma read_into_run s c content i : vol_ok s -> 2 <= c < N s -> 0 <= i -> 512 * (i + 1) <= Z.of_nat (length content) ->
  read_into c content i s = Ret (take (Z.to_nat (512 * i)) content ++ data s c ++ drop (Z.to_nat (512 * (i + 1))) content, s).
Proof.
  intros Hs Hc Hi Hl. unfold read_into. rewrite decide_True by lia.
  mrun (cluster_read_long s Hs c (drop (Z.to_nat (512 * i)) content) Hc ltac:(rewrite length_drop; lia)).
  rewrite drop_drop. by replace (Z.to_nat (512 * i) + 512)%nat with (Z.to_nat (512 * (i + 1))) by lia.
Qed.

Lemma content_loop_run fuel P s c bl content i : vol_ok s -> chain P s c bl -> 0 <= i ->
  Z.of_nat (length content) = 512 * (i + Z.of_nat (length bl)) -> (length bl <= fuel)%nat ->
  content_loop fuel c content i s = Ret (take (Z.to_nat (512 * i)) content ++ concat bl, s).
Proof.
  intros Hs. revert c content i fuel. induction bl as [|b bl IH]; intros c content i fuel Hc Hi Hl Hf; cbn [chain length concat] in *.
  - rewrite app_nil_r, take_ge by lia. destruct fuel; cbn [content_loop]; by rewrite Hc.
  - destruct Hc as (Hc & _ & Hb & Hch). destruct fuel as [|fuel]; [lia|]. cbn [content_loop].
    assert (Hblk : length b = 512%nat) by (subst; apply (data_ok s Hs)). rewrite (not_eoc s c Hs Hc).
    mrun (read_into_run s c content i Hs Hc Hi ltac:(lia)). mrun (fat_read_run s Hs c ltac:(lia)). rewrite Hb.
    rewrite IH by (done || lia || rewrite ?length_app, ?length_take, ?length_drop; lia).
    rewrite app_assoc, take_app_le by (rewrite length_app, length_take; lia).
    rewrite take_ge by (rewrite length_app, length_take; lia). by rewrite <- app_assoc.
Qed.

Lemma length_blocks n beyond content i : length (blocks n beyond content i) = n.
Proof. revert i. induction n; intros i; cbn; by rewrite ?IHn. Qed.

(** The blocks written start with the content. *)
Lemma blocks_content n beyond content i k x : arr_get content (i + Z.of_nat k) = Some x -> (k < 512 * n)%nat ->
  concat (blocks n beyond content i) !! k = Some x.
Proof.
  revert i k. induction n as [|n IH]; intros i k Hx Hk; [lia|]. cbn [blocks concat].
  assert (Hl : length (block_of beyond content i) = 512%nat) by (unfold block_of; by rewrite length_map, length_seqZ).
  destruct (decide (k < 512)%nat) as [Hlt|Hge].
  - rewrite lookup_app_l by lia. unfold block_of. rewrite list_lookup_fmap, lookup_seqZ_lt by lia. cbn [fmap option_fmap option_map]. by rewrite Z.add_0_l, Hx.
  - rewrite lookup_app_r, Hl by lia. apply IH; [|lia]. replace (i + 512 + Z.of_nat (k - 512)) with (i + Z.of_nat k) by lia. done.
Qed.

Lemma take_blocks n beyond content : (length content <= 512 * n)%nat ->
  take (length content) (concat (blocks n beyond content 0)) = content.
Proof.
  intros Hl. apply list_eq. intros k. destruct (content !! k) as [x|] eqn:E.
  - pose proof (lookup_lt_Some _ _ _ E). rewrite lookup_take_lt by done. apply blocks_content; [|lia].
    by rewrite Z.add_0_l, arr_get_nat.
  - apply lookup_ge_None in E. by rewrite lookup_take_ge by done.
Qed.

(** ** Directory entries *)

Definition dentry_at (b : list Z) (off : Z) : list Z := take 32 (drop (Z.to_nat off) b).
Definition put_entry (b : list Z) (off : Z) (e : list Z) : list Z := take (Z.to_nat off) b ++ e ++ drop (Z.to_nat off + 32) b.
Definition is_entry (e : list Z) : Prop := length e = 32%nat /\ bytes e.

Lemma dentry_at_ok b off : is_block b -> 0 <= off <= 480 -> is_entry (dentry_at b off) /\ entry_at b off = Ret (dentry_at b off).
Proof.
  intros [Hl Hb] Ho. split; [split|].
  - unfold dentry_at. rewrite length_take, length_drop. lia.
  - by apply Forall_take, Forall_drop.
  - apply get_bytes_run; lia.
Qed.

Lemma put_entry_ok b off e : is_block b -> is_entry e -> 0 <= off <= 480 ->
  is_block (put_entry b off e) /\ set_bytes b off e = Ret (put_entry b off e) /\ dentry_at (put_entry b off e) off = e.
Proof.
  intros [Hl Hb] [Hle Hbe] Ho. unfold put_entry. split_and!.
  - split; [rewrite !length_app, length_take, length_drop; lia|]. unfold bytes. rewrite !list.Forall_app. split_and!; [by apply Forall_take|done|by apply Forall_drop].
  - rewrite set_bytes_run by (done || lia). by rewrite Hle.
  - unfold dentry_at. rewrite drop_app_length' by (rewrite length_take; lia). by rewrite take_app_length'.
Qed.

Lemma put_entry_twice b off e e' : is_block b -> is_entry e -> 0 <= off <= 480 -> put_entry (put_entry b off e) off e' = put_entry b off e'.
Proof.
  intros [Hl _] [He _] Ho. unfold put_entry. rewrite take_app_length' by (rewrite length_take; lia). do 2 f_equal.
  rewrite app_assoc, drop_app_length' by (rewrite length_app, length_take; lia). done.
Qed.

Lemma update_dentry_run s d callback e' : vol_ok s -> 2 <= fi_parent d < N s -> 0 <= fi_offset d <= 480 ->
  callback (dentry_at (data s (fi_parent d)) (fi_offset d)) s = Ret (e', s) -> is_entry e' ->
  exists s', update_dentry_to_disk d callback s = Ret (tt, s') /\
    effect s s' (fat_entry s) (upd (data s) (fi_parent d) (put_entry (data s (fi_parent d)) (fi_offset d) e')).
Proof.
  intros Hs Hp Ho Hcb He. destruct (dentry_at_ok (data s (fi_parent d)) (fi_offset d) (data_ok s Hs _) Ho) as [_ Hat].
  destruct (put_entry_ok (data s (fi_parent d)) (fi_offset d) e' (data_ok s Hs _) He Ho) as (Hblk & Hset & _).
  destruct (cluster_write_run s Hs (fi_parent d) _ Hp Hblk) as (s' & E & F). exists s'. split; [|done].
  unfold update_dentry_to_disk. rewrite (not_eoc s _ Hs Hp). msimpl. rewrite (vo_bps s Hs).
  mrun (cluster_read_run s Hs (fi_parent d) (zeros 512) Hp eq_refl). rewrite Hat. msimpl. mrun Hcb. rewrite Hset. msimpl. done.
Qed.

Lemma lor_halves hi lo : 0 <= lo < 2 ^ 16 -> Z.lor (Z.shiftl hi 16) lo = hi * 2 ^ 16 + lo.
Proof.
  intros Hlo. rewrite <- Z.shiftl_mul_pow2 by lia. rewrite <- Z.add_lor_land.
  replace (Z.land (Z.shiftl hi 16) lo) with 0; [lia|]. symmetry. apply Z.bits_inj'. intros i Hi.
  rewrite Z.land_spec, Z.bits_0. destruct (Z.ltb_spec i 16).
  - by rewrite Z.shiftl_spec_low.
  - rewrite <- (Z.mod_small lo (2 ^ 16)) by lia. rewrite Z.mod_pow2_bits_high by lia. apply andb_false_r.
Qed.

Lemma halves n : 0 <= n < 2 ^ 32 ->
  u16 (Z.shiftr (Z.land n 0xffff0000) 16) = n / 2 ^ 16 /\ u16 (Z.land n 0xffff) = n mod 2 ^ 16.
Proof.
  intros Hn. rewrite Z.shiftr_land, Z.shiftr_div_pow2 by lia.
  change (Z.shiftr 0xffff0000 16) with (Z.ones 16). change 0xffff with (Z.ones 16). rewrite !Z.land_ones by lia. unfold u16.
  rewrite !Z.mod_mod by lia. split; [|done]. apply Z.mod_small. Z.div_mod_to_equations. lia.
Qed.

(** [set_first_cluster_number] writes what [get_first_cluster_number] reads. *)
Lemma set_first_run e n : is_entry e -> 0 <= n < 2 ^ 32 -> exists e', set_first_cluster_number e n = Ret e' /\ is_entry e' /\
  get_first_cluster_number e' = Ret n /\ (forall j, ~ (20 <= j < 22 \/ 26 <= j < 28) -> get8 e' j = get8 e j).
Proof.
  intros [Hl Hb] Hn. destruct (halves n Hn) as [Hhi Hlo]. unfold set_first_cluster_number.
  destruct (set16_updated e 20 (Z.shiftr (Z.land n 0xffff0000) 16) Hb) as (e1 & -> & (L1 & B1 & U1) & G1); [lia..|].
  destruct (set16_updated e1 26 (Z.land n 0xffff) B1) as (e2 & E2 & (L2 & B2 & U2) & G2); [lia..|].
  exists e2. cbn [mbind outcome_bind]. split_and!; [exact E2|split; [lia|done]| |].
  - unfold get_first_cluster_number. rewrite (get16_ext e1 e2 20), G1, G2 by (intros; apply U2; lia). cbn [mbind outcome_bind].
    rewrite Hhi, Hlo. f_equal. rewrite Z.shiftl_mul_pow2, u32_id by (Z.div_mod_to_equations; lia).
    rewrite <- Z.shiftl_mul_pow2, lor_halves by (Z.div_mod_to_equations; lia). Z.div_mod_to_equations. lia.
  - intros j Hj. rewrite U2, U1 by lia. done.
Qed.

Lemma get_first_ext e e' : (forall j, j < 28 -> get8 e' j = get8 e j) -> get_first_cluster_number e' = get_first_cluster_number e.
Proof. intros H. unfold get_first_cluster_number. by rewrite !(get16_ext e e') by (intros; apply H; lia). Qed.

(** ** Writing a file and reading it back *)

(** The inode of a file that [create_child] returned. *)
Record new_file (s : Fat) (d : FInode) : Prop := mkNewFile {
  nf_first : fi_first d = 0;
  nf_parent : 2 <= fi_parent d < N s;
  nf_offset : 0 <= fi_offset d <= 480;
  nf_used : fat_entry s (fi_parent d) <> 0
}.

Lemma allocate_first_run s d : vol_ok s -> new_file s d -> free s <> [] -> first_free s < 2 ^ 32 -> 0 <= first_free s -> first_free s <> NONE ->
  exists s' e, allocate_first_cluster d s = Ret (tt, s') /\ is_entry e /\ get_first_cluster_number e = Ret (first_free s) /\
    (forall j, ~ (20 <= j < 22 \/ 26 <= j < 28) -> get8 e j = get8 (dentry_at (data s (fi_parent d)) (fi_offset d)) j) /\
    effect s s' (fat_entry s) (upd (data s) (fi_parent d) (put_entry (data s (fi_parent d)) (fi_offset d) e)).
Proof.
  intros Hs [Hf Hp Ho Hu] Hne Hlt Hge Hnn. destruct (dentry_at_ok (data s (fi_parent d)) (fi_offset d) (data_ok s Hs _) Ho) as [He _].
  destruct (set_first_run _ (first_free s) He) as (e & Hse & Hie & Hg & Hk); [lia|].
  unfold allocate_first_cluster. rewrite Hf. cbn [Z.eqb negb].
  destruct (update_dentry_run s d (fun entry => c ← fat_find_free_cluster; if c =? NONE then mret entry else lift (set_first_cluster_number entry c)) e)
    as (s' & E & F); [done..| |done|].
  - mrun (find_free_run s Hs). rewrite (proj2 (Z.eqb_neq _ _)) by done. by rewrite Hse.
  - exists s', e. split_and!; done.
Qed.

Lemma free_same s s' da : effect s s' (fat_entry s) da -> free s' = free s /\ (reserved s -> reserved s').
Proof.
  intros He. pose proof (same_N _ _ (effect_same _ _ _ _ He)) as HN. destruct He as (V & _ & _ & A & _).
  pose proof (vo_ts _ V). split.
  - unfold free. rewrite HN. apply filter_ext_in. intros i Hi%elem_of_seqZ. by rewrite A by lia.
  - unfold reserved. unfold N in *. by rewrite !A by lia.
Qed.

Lemma length_free s : vol_ok s -> Z.of_nat (length (free s)) <= N s.
Proof.
  intros Hs. pose proof (vo_ts s Hs). unfold free. etransitivity; [apply inj_le, length_filter|]. rewrite length_seqZ. unfold N. lia.
Qed.

(** Reading the file of a chain. *)
Lemma get_content_run P s d bl : vol_ok s -> chain P s (fi_first d) bl -> is_regular_file (fi_mode d) = true ->
  0 <= fi_size d < 2 ^ 63 -> round_up_to_multiple_of_n (fi_size d) 512 = Ret (512 * Z.of_nat (length bl)) -> Z.of_nat (length bl) <= N s ->
  fat_get_content d s = Ret (Some (concat bl), s).
Proof.
  intros Hs Hc Hr Hsz Hru Hl. unfold fat_get_content. rewrite Hr. cbn [negb]. msimpl. rewrite Hru. msimpl.
  assert (Hloop : content_loop (chain_fuel (fa_meta s)) (fi_first d) (zeros (512 * Z.of_nat (length bl))) 0 s = Ret (concat bl, s)).
  { rewrite (content_loop_run _ P _ _ bl); [done|done|done|lia|unfold zeros; rewrite length_replicate; lia|].
    unfold chain_fuel. rewrite (nr_entries s Hs). lia. }
  by mrun Hloop.
Qed.

(** The body of [set_content] between the two updates of the directory entry. *)
Lemma set_content_chain s s1 d e beyond content q : vol_ok s -> reserved s -> new_file s d -> bytes content ->
  (0 < q <= length (free s))%nat -> is_entry e ->
  effect s s1 (fat_entry s) (upd (data s) (fi_parent d) (put_entry (data s (fi_parent d)) (fi_offset d) e)) ->
  exists s2, write_chain q beyond content 0 0 (first_free s1) s1 = Ret (true, s2) /\ same_volume s s2 /\
    chain (fun c => fat_entry s c = 0) s2 (first_free s) (blocks q beyond content 0) /\
    data s2 (fi_parent d) = put_entry (data s (fi_parent d)) (fi_offset d) e /\
    forall c, 2 <= c < N s -> fat_entry s c <> 0 -> fat_entry s2 c = fat_entry s c /\ (c <> fi_parent d -> data s2 c = data s c).
Proof.
  intros Hs Hr [Hf0 Hp Ho Hu] Hb Hq He F1. destruct (free_same _ _ _ F1) as [Hfree Hres]. pose proof (effect_same _ _ _ _ F1) as V1.
  pose proof (same_N _ _ V1) as N1. destruct F1 as (_ & _ & _ & A1 & D1).
  destruct (write_chain_run q beyond content Hb s1 0 0 (proj1 V1) (Hres Hr)) as (s2 & E2 & V2 & R2 & F2 & C2); [rewrite Hfree; lia|by left|].
  destruct q as [|q]; [lia|]. destruct C2 as [C2 _].
  assert (Hff : first_free s1 = first_free s) by (unfold first_free; by rewrite Hfree).
  assert (Hfr : forall c, 2 <= c < N s -> fat_entry s c <> 0 -> fat_entry s2 c = fat_entry s c /\ data s2 c = data s1 c).
  { intros c Hc Hc0. destruct (F2 c) as [Hd Ha]; [lia|rewrite A1; [done|lia]|]. rewrite Ha, A1, Hd by lia. done. }
  exists s2. split; [done|]. split; [by eapply same_trans|]. split; [|split].
  - rewrite <- Hff. apply (chain_mono (fun c => fat_entry s1 c = 0)); [|done]. intros c Hc Hc0. rewrite <- A1; [done|].
    pose proof (same_N _ _ V2). lia.
  - destruct (Hfr (fi_parent d) Hp Hu) as [_ ->]. rewrite D1 by done. apply upd_eq.
  - intros c Hc Hc0. destruct (Hfr c Hc Hc0) as [Ha Hd]. split; [done|]. intros Hne. rewrite Hd, D1 by done. by apply upd_ne.
Qed.

Lemma set_size_run e v : is_entry e -> 0 <= v < 2 ^ 32 -> exists e', set32 e 28 v = Ret e' /\ is_entry e' /\ entry_size e' = Ret v /\
  get_first_cluster_number e' = get_first_cluster_number e /\ (forall j, j < 28 -> get8 e' j = get8 e j).
Proof.
  intros [Hl Hb] Hv. destruct (set32_updated e 28 v Hb) as (e' & E & (L & B & U) & G); [lia..|]. exists e'. rewrite u32_id in G by lia.
  split_and!; [done|split; [lia|done]|done|apply get_first_ext; intros; apply U; lia|intros; apply U; lia].
Qed.

Definition as_inode (d : FInode) (first size : Z) : FInode := mkFInode (fi_name d) first (fi_parent d) (fi_offset d) size S_IFREG.

(** A file that was just created is written with [set_content] while the disk
    has room: its directory entry then holds the size and the first cluster of a
    chain with the content, and clusters in use are left alone, but for those
    two fields. *)
Lemma set_content_spec s d beyond content :
  vol_ok s -> reserved s -> new_file s d -> bytes content -> free s <> [] ->
  Z.of_nat (length content) <= 512 * Z.of_nat (length (free s)) -> Z.of_nat (length content) < 2 ^ 31 ->
  let size := Z.of_nat (length content) in
  exists d' s' e first buf, fat_set_content beyond d content size s = Ret (d', s') /\ fi_size d' = size /\ same_volume s s' /\
    data s' (fi_parent d) = put_entry (data s (fi_parent d)) (fi_offset d) e /\
    get_first_cluster_number e = Ret first /\ 2 <= first < N s /\ is_entry e /\ entry_size e = Ret size /\
    (forall j, j < 20 -> get8 e j = get8 (dentry_at (data s (fi_parent d)) (fi_offset d)) j) /\
    fat_get_content (as_inode d first size) s' = Ret (Some buf, s') /\ take (length content) buf = content /\
    forall c, 2 <= c < N s -> fat_entry s c <> 0 -> fat_entry s' c = fat_entry s c /\ (c <> fi_parent d -> data s' c = data s c).
Proof.
  intros Hs Hr Hd Hb Hne Hroom Hsz size.
  destruct (round_up_multiple_spec size 512) as (q & Hq & Hq1 & Hq2 & Hq3); [lia..|].
  assert (Hqn : (0 < Z.to_nat q <= length (free s))%nat) by (destruct (free s); [done|cbn in *; lia]).
  destruct (free s) as [|c0 rest] eqn:Hf; [done|]. destruct (first_free_ok s c0 rest Hr Hf) as [Hc0 _].
  assert (Hff : first_free s = c0) by (unfold first_free; by rewrite Hf). pose proof (vo_nr s Hs) as Hnr. unfold EOC_MIN in Hnr.
  destruct (allocate_first_run s d Hs Hd) as (s1 & e1 & E1 & I1 & G1 & K1 & F1); [by rewrite Hf|rewrite Hff; lia..|rewrite Hff; by eapply not_none|].
  pose proof Hd as [Hd0 Hp Ho Hu]. rewrite <- Hf in *.
  destruct (set_content_chain s s1 d e1 beyond content (Z.to_nat q) Hs Hr Hd Hb Hqn I1 F1) as (s2 & E2 & V2 & C2 & D2 & A2).
  pose proof (same_N _ _ V2) as N2. destruct (put_entry_ok (data s (fi_parent d)) (fi_offset d) e1 (data_ok s Hs _) I1 Ho) as (_ & _ & Hat1).
  destruct (set_size_run e1 size I1) as (e2 & S2 & I2 & Z2 & G2 & K2); [lia|].
  destruct (update_dentry_run s2 d (fun entry => lift (set32 entry 28 size)) e2 (proj1 V2)) as (s3 & E3 & F3);
    [lia|done|rewrite D2, Hat1; unfold lift; by rewrite S2|done|].
  pose proof (same_N _ _ (effect_same _ _ _ _ F3)) as N3.
  assert (C3 : chain (fun c => fat_entry s c = 0) s3 (first_free s) (blocks (Z.to_nat q) beyond content 0)).
  { apply (chain_effect _ s2 _ _ _ _ F3); [|done]. intros c Hc Hc1. apply upd_ne. congruence. }
  pose proof (same_trans _ _ _ V2 (effect_same _ _ _ _ F3)) as W3. destruct F3 as (V3 & _ & _ & A3 & D3).
  eexists _, s3, e2, (first_free s), (concat (blocks (Z.to_nat q) beyond content 0)). split.
  { unfold fat_set_content. rewrite Hq. msimpl. rewrite Hd0. cbn [Z.eqb]. mrun E1. mrun (find_free_run s1 (proj1 F1)).
    rewrite Z.div_mul by lia. mrun E2. mrun E3. done. }
  split; [done|]. split; [done|]. split; [|split; [congruence|]; split; [lia|]; split; [done|]; split; [done|]; split; [intros; rewrite K2, K1 by lia; done|]; split; [|split]].
  - rewrite D3, upd_eq, D2 by lia. by apply put_entry_twice; [apply data_ok|..].
  - eapply get_content_run; [done|exact C3|done|cbn; lia|rewrite length_blocks, Z2Nat.id by lia; cbn; rewrite Hq; f_equal; lia|].
    rewrite length_blocks. pose proof (length_free s Hs). lia.
  - apply take_blocks. lia.
  - intros c Hc Hc1. destruct (A2 c Hc Hc1) as [Ha Hdc]. rewrite A3 by lia. split; [done|]. intros Hcp. rewrite D3, upd_ne by (done || lia). by apply Hdc.
Qed.

(** ** A small volume *)

(** One table of 128 entries, the root directory in cluster 2. *)
Definition le32 (v : Z) : list Z := [v mod 256; (v / 256) mod 256; (v / 65536) mod 256; v / 16777216].
Definition sector (l : list Z) : list Z := l ++ replicate (512 - length l) 0.
Definition demo_boot : BootSector := mkBoot 512 1 1 1 2.
Definition demo_disk : Disk := {[ 11 := sector (le32 0x0ffffff8 ++ le32 EOC_MAX ++ le32 EOC_MAX) ]}.
Definition demo_fat : Fat := mkFat demo_disk (mkPart 10 200) demo_boot.

Lemma demo_vol_ok : vol_ok demo_fat.
Proof.
  constructor; try done. intros i b H. cbn in H. unfold demo_disk in H. apply lookup_singleton_Some in H as [_ <-]. split; [done|]. by apply (bool_decide_unpack _); vm_compute.
Qed.

(** A file that is found by its name while it is empty has the root directory's
    cluster for its first one, so that what is written to it cannot be read
    back: the directory entry still has no cluster. *)
Definition name_a : list Z := [97; 46; 116; 120; 116].
Definition write_after_lookup : FatM (option (list Z)) :=
  _ ← fat_create_child 0 (fun _ => 0xffff) (root_inode demo_boot) name_a 0 S_IFREG;
  f ← fat_get_child (root_inode demo_boot) name_a;
  match f with
  | None => mret None
  | Some f =>
      fat_set_content (fun _ => 0) f [104; 105] 2;;
      f ← fat_get_child (root_inode demo_boot) name_a;
      match f with None => mret None | Some f => fat_get_content f end
  end.
Example write_after_lookup_lost : match write_after_lookup demo_fat with
  | Ret (Some content, s) => content = data s 2 /\ take 2 content <> [104; 105]
  | _ => False
  end.
Proof. by vm_compute. Qed.

(** Written through the inode that [create_child] returned, it is found and read. *)
Definition write_created : FatM (option (list Z)) :=
  f ← fat_create_child 0 (fun _ => 0xffff) (root_inode demo_boot) name_a 0 S_IFREG;
  match f with
  | None => mret None
  | Some f =>
      fat_set_content (fun _ => 0) f [104; 105] 2;;
      f ← fat_get_child (root_inode demo_boot) name_a;
      match f with None => mret None | Some f => fat_get_content f end
  end.
Example write_created_found : match write_created demo_fat with
  | Ret (Some content, s) => content = sector [104; 105]
  | _ => False
  end.
Proof. by vm_compute. Qed.

(** A live entry followed by two deleted ones without long names: the new file
    is written over the live one. *)
Definition short_entry (c : Z) : list Z := c :: replicate 10 32 ++ replicate 21 0.
Definition deleted_disk : Disk := <[13 := sector (short_entry 65 ++ short_entry 0xe5 ++ short_entry 0xe5)]> demo_disk.
Example create_over_live_entry :
  let s := mkFat deleted_disk (mkPart 10 200) demo_boot in
  let find := fat_get_child (root_inode demo_boot) [65] in
  match find s, (fat_create_child 0 (fun _ => 0xffff) (root_inode demo_boot) name_a 0 S_IFREG;; find) s with
  | Ret (Some _, _), Ret (None, _) => True
  | _, _ => False
  end.
Proof. by vm_compute. Qed.
