(* ===== verification/Fat32Type.v ===== *)
(** * What FAT32 operations leave alone

    Lookups change nothing, by a rule per construct of the monad.  [set_content]
    always returns, takes the first free clusters and touches no cluster in use,
    but for the entry of the file in its directory. *)

From Stdlib Require Import ZArith Lia.
From stdpp Require Import base gmap list numbers.
From S2P Require Import Prelude Math CString KString Encoding Disk Console Vnode TmpFS Fat32 Fat32Spec.

Open Scope Z_scope.

(** [m] does not change the volume. *)
Definition reads {A} (m : FatM A) : Prop := forall s r s', m s = Ret (r, s') -> s' = s.

Section rules.
Context {A B : Type}.

Lemma reads_ret (a : A) : reads (mret a).
Proof. by intros s r s' [= <- <-]. Qed.
Lemma reads_bind (m : FatM A) (k : A -> FatM B) : reads m -> (forall a, reads (k a)) -> reads (mbind k m).
Proof. intros Hm Hk s r s' H. minv H as a s1 H1. rewrite <- (Hm _ _ _ H1). by eapply Hk. Qed.
Lemma reads_get : reads get.
Proof. by intros s r s' [= <- <-]. Qed.
Lemma reads_lift (o : outcome A) : reads (lift o).
Proof. intros s r s'. unfold lift. destruct o; [|done..]. by intros [= <- <-]. Qed.
Lemma reads_fault : reads (fault : FatM A).
Proof. by intros s r s'. Qed.
Lemma reads_fuel : reads (out_of_fuel : FatM A).
Proof. by intros s r s'. Qed.
End rules.

Create HintDb fat_reads.
#[export] Hint Constants Opaque : fat_reads.
#[export] Hint Resolve reads_ret reads_get reads_lift reads_fault reads_fuel : fat_reads.

(** One step along the structure of a computation that only reads. *)
Ltac read_step :=
  first [ solve [eauto with fat_reads]
        | apply reads_bind; [|intros ?]
        | match goal with
          | |- reads (if ?b then _ else _) => destruct b
          | |- reads (match ?x with _ => _ end) => destruct x
          end ].
Ltac reading := repeat read_step.

Lemma reads_rd_block k buf : reads (rd_block k buf).
Proof. unfold rd_block. reading. Qed.
#[export] Hint Resolve reads_rd_block : fat_reads.
Lemma reads_fat_read i : reads (fat_read i).
Proof. unfold fat_read. reading. Qed.
Lemma reads_cluster n buf : reads (cluster_read n buf).
Proof. unfold cluster_read. reading. Qed.
Lemma reads_find_free_loop n i : reads (find_free_loop n i).
Proof. revert i. induction n; intros i; cbn [find_free_loop]; unfold rd_block_uninit; reading. Qed.
#[export] Hint Resolve reads_fat_read reads_cluster reads_find_free_loop : fat_reads.
Lemma reads_find_free : reads fat_find_free_cluster.
Proof. unfold fat_find_free_cluster. reading. Qed.
Lemma reads_is_root d : reads (fat_is_root d).
Proof. unfold fat_is_root. reading. Qed.
Lemma reads_dir_first d : reads (dir_first_cluster_number d).
Proof. unfold dir_first_cluster_number. reading. Qed.
#[export] Hint Resolve reads_find_free reads_is_root reads_dir_first : fat_reads.
Lemma reads_iterate {A} (f : View -> A -> A * bool) d a : reads (iterate_children f d a).
Proof.
  unfold iterate_children. reading. match goal with |- reads (iterate_chain _ ?k ?n ?c ?nm ?i _) => generalize k n c nm i end.
  intros k. revert a. induction k; intros; cbn [iterate_chain]; reading.
Qed.
#[export] Hint Resolve reads_iterate : fat_reads.
Lemma reads_find_child d p : reads (find_child_if d p).
Proof. unfold find_child_if. reading. Qed.
#[export] Hint Resolve reads_find_child : fat_reads.
Lemma reads_get_child d n : reads (fat_get_child d n).
Proof. unfold fat_get_child. reading. Qed.
#[export] Hint Resolve reads_get_child : fat_reads.
Lemma reads_content_loop k n c i : reads (content_loop k n c i).
Proof. revert n c i. induction k; intros; cbn [content_loop]; unfold read_into; reading. Qed.
#[export] Hint Resolve reads_content_loop : fat_reads.
Lemma reads_ith_child d i : reads (fat_get_ith_child d i).
Proof. unfold fat_get_ith_child. reading. Qed.
Lemma reads_count d : reads (fat_get_children_count d).
Proof. unfold fat_get_children_count. reading. Qed.
Lemma reads_parent d : reads (fat_get_parent d).
Proof. unfold fat_get_parent. reading. Qed.
Lemma reads_content d : reads (fat_get_content d).
Proof. unfold fat_get_content. reading. Qed.

(** Lookups, the listing and the reading of contents leave the volume as it is. *)
Lemma fat_lookups_read s :
  (forall d name r s', fat_get_child d name s = Ret (r, s') -> s' = s) /\
  (forall d i r s', fat_get_ith_child d i s = Ret (r, s') -> s' = s) /\
  (forall d r s', fat_get_children_count d s = Ret (r, s') -> s' = s) /\
  (forall d r s', fat_get_parent d s = Ret (r, s') -> s' = s) /\
  (forall d r s', fat_get_content d s = Ret (r, s') -> s' = s).
Proof.
  split_and!; intros * H; [by eapply reads_get_child|by eapply reads_ith_child|by eapply reads_count|by eapply reads_parent|by eapply reads_content].
Qed.

(** ** What [set_content] leaves alone *)

(** The inode has no directory entry, as that of the root, or one in a cluster
    that is in use. *)
Definition has_dentry (s : Fat) (d : FInode) : Prop := 2 <= fi_parent d < N s /\ 0 <= fi_offset d <= 480 /\ fat_entry s (fi_parent d) <> 0.
Definition dentry_of (s : Fat) (d : FInode) : list Z := dentry_at (data s (fi_parent d)) (fi_offset d).

(** From [s] to [s'], the clusters in use keep their entries in the table and
    their data, except for the entry of [d] in its directory, of which the first
    [m] bytes are kept. *)
Record spares (d : FInode) (m : Z) (s s' : Fat) : Prop := mkSpares {
  sp_volume : same_volume s s';
  sp_table : forall c, 2 <= c < N s -> fat_entry s c <> 0 -> fat_entry s' c = fat_entry s c;
  sp_data : forall c, 2 <= c < N s -> fat_entry s c <> 0 -> c <> fi_parent d -> data s' c = data s c;
  sp_dentry : is_eoc (fi_parent d) = false -> exists e, is_entry e /\
    data s' (fi_parent d) = put_entry (data s (fi_parent d)) (fi_offset d) e /\ forall j, j < m -> get8 e j = get8 (dentry_of s d) j
}.

Lemma put_own_entry b off : is_block b -> 0 <= off <= 480 -> put_entry b off (dentry_at b off) = b.
Proof.
  intros [Hl _] Ho. unfold put_entry, dentry_at. rewrite app_assoc. rewrite <- (take_drop (Z.to_nat off) b) at 4. rewrite <- app_assoc. f_equal.
  rewrite <- (take_drop 32 (drop (Z.to_nat off) b)) at 2. f_equal. by rewrite drop_drop.
Qed.

Section sparing.
Context (d : FInode) (m : Z).

Lemma spares_refl s : vol_ok s -> is_eoc (fi_parent d) = true \/ has_dentry s d -> spares d m s s.
Proof.
  intros Hs Hd. split; [done|done|done|]. intros He. destruct Hd as [?|(Hp & Ho & _)]; [congruence|]. exists (dentry_of s d).
  destruct (dentry_at_ok (data s (fi_parent d)) (fi_offset d) (data_ok s Hs _) Ho) as [Hen _]. split; [done|]. split; [|done].
  symmetry. by apply put_own_entry; [apply data_ok|].
Qed.

Lemma spares_has_dentry s s' : spares d m s s' -> is_eoc (fi_parent d) = true \/ has_dentry s d -> is_eoc (fi_parent d) = true \/ has_dentry s' d.
Proof.
  intros [Hv Ht _ _] [?|(Hp & Ho & Hu)]; [by left|right]. pose proof (same_N _ _ Hv). unfold has_dentry. rewrite Ht by (done || lia). split_and!; (done || lia).
Qed.

Lemma spares_trans s s1 s2 : vol_ok s -> is_eoc (fi_parent d) = true \/ has_dentry s d -> spares d m s s1 -> spares d m s1 s2 -> spares d m s s2.
Proof.
  intros Hs Hd [V1 T1 D1 E1] [V2 T2 D2 E2]. pose proof (same_N _ _ V1) as HN. split.
  - by eapply same_trans.
  - intros c Hc H0. rewrite T2, T1; (done || lia || (rewrite T1; (done || lia))).
  - intros c Hc H0 Hne. rewrite D2, D1; (done || lia || (rewrite T1; (done || lia))).
  - intros He. destruct Hd as [?|(Hp & Ho & Hu)]; [congruence|]. destruct (E1 He) as (e1 & I1 & X1 & K1). destruct (E2 He) as (e2 & I2 & X2 & K2).
    exists e2. split; [done|]. split; [rewrite X2, X1; by apply put_entry_twice; [apply data_ok|..]|].
    intros j Hj. rewrite K2, <- K1 by done. unfold dentry_of. rewrite X1.
    by destruct (put_entry_ok (data s (fi_parent d)) (fi_offset d) e1 (data_ok s Hs _) I1 Ho) as (_ & _ & ->).
Qed.

(** The writes of a chain. *)
Lemma spares_frame s s' : vol_ok s -> is_eoc (fi_parent d) = true \/ has_dentry s d -> same_volume s s' -> frame s s' 0 -> spares d m s s'.
Proof.
  intros Hs Hd Hv Hf. assert (Hdata : forall c, 2 <= c < N s -> fat_entry s c <> 0 -> data s' c = data s c) by (intros c Hc H0; apply Hf; (done || lia)).
  split; [done|..].
  - intros c Hc H0. apply Hf; (done || lia).
  - intros c Hc H0 _. by apply Hdata.
  - intros He. destruct (spares_refl s Hs Hd) as [_ _ _ Hown]. destruct Hd as [?|(Hp & Ho & Hu)]; [congruence|]. rewrite Hdata by done. by apply Hown.
Qed.

(** An update of the directory entry. *)
Lemma spares_update s callback e' : vol_ok s -> is_eoc (fi_parent d) = true \/ has_dentry s d ->
  (has_dentry s d -> callback (dentry_of s d) s = Ret (e', s) /\ is_entry e' /\ forall j, j < m -> get8 e' j = get8 (dentry_of s d) j) ->
  exists s', update_dentry_to_disk d callback s = Ret (tt, s') /\ spares d m s s' /\ free s' = free s /\ (reserved s -> reserved s').
Proof.
  intros Hs Hd Hc. destruct (is_eoc (fi_parent d)) eqn:He.
  { exists s. unfold update_dentry_to_disk. rewrite He. split; [done|]. split; [|done]. apply spares_refl; [done|by left]. }
  destruct Hd as [?|Hd]; [congruence|]. destruct (Hc Hd) as (Hcb & Hen & Hk). pose proof Hd as (Hp & Ho & Hu).
  destruct (update_dentry_run s d callback e' Hs Hp Ho Hcb Hen) as (s' & E & F). exists s'. split; [done|].
  destruct (free_same _ _ _ F) as [Hfr Hr]. split; [|done]. pose proof (effect_same _ _ _ _ F) as V. destruct F as (_ & _ & _ & A & D). split; [done|..].
  - intros c Hc' _. apply A. lia.
  - intros c Hc' _ Hne. rewrite D by done. by apply upd_ne.
  - intros _. exists e'. split; [done|]. split; [rewrite D by done; apply upd_eq|done].
Qed.
End sparing.

(** The loop of [set_content], whether the disk has room or not. *)
Lemma write_chain_total n beyond content : bytes content -> forall s i prev, vol_ok s -> reserved s ->
  prev = 0 \/ 2 <= prev < N s /\ fat_entry s prev <> 0 ->
  exists s', write_chain n beyond content i prev (first_free s) s = Ret (bool_decide (n <= length (free s))%nat, s') /\
    same_volume s s' /\ reserved s' /\ frame s s' prev /\ free s' = drop n (free s).
Proof.
  intros Hcb. induction n as [|n IH]; intros s i prev Hs Hr Hp.
  { exists s. rewrite bool_decide_true by lia. by split_and!. }
  cbn [write_chain]. destruct (free s) as [|c rest] eqn:Hf.
  { exists s. unfold first_free. rewrite Hf. by split_and!. }
  destruct (first_free_ok s c rest Hr Hf) as [Hc Hz].
  assert (Hff : first_free s = c) by (unfold first_free; by rewrite Hf). rewrite Hff, (proj2 (Z.eqb_neq c NONE)) by (by eapply not_none).
  destruct (write_step s (block_of beyond content i) prev c rest) as (s1 & E1 & V1 & R1 & Hf1 & D1 & A1 & P1 & F1);
    [done|done|by apply block_of_ok|done..|].
  pose proof (same_N _ _ V1) as HN. rewrite (seq3_run _ _ _ _ _ _ _ E1). mrun (find_free_run s1 (proj1 V1)).
  destruct (IH s1 (i + 512) c (proj1 V1) R1) as (s' & E' & V' & R' & F' & C'); [right; rewrite A1; unfold EOC_MAX; lia|].
  exists s'. rewrite E', Hf1. split_and!; [f_equal; f_equal; apply bool_decide_ext; simpl; lia|by eapply same_trans|done| |by rewrite C', Hf1].
  apply (frame_trans _ s1 _ _ c); [done..|]. intros Hp0. rewrite P1 by done. lia.
Qed.

(** The bytes of the entry that are kept: the first cluster is set only for a
    file that has none. *)
Definition kept (d : FInode) : Z := if fi_first d =? 0 then 20 else 28.

Lemma allocate_spares s d : vol_ok s -> reserved s -> is_eoc (fi_parent d) = true \/ has_dentry s d ->
  exists s', (if fi_first d =? 0 then allocate_first_cluster d else mret tt) s = Ret (tt, s') /\ spares d (kept d) s s' /\ free s' = free s /\ reserved s'.
Proof.
  intros Hs Hr Hd. unfold kept. destruct (Z.eqb_spec (fi_first d) 0) as [E|E]; [|exists s; split; [done|]; split; [by apply spares_refl|done]].
  unfold allocate_first_cluster. rewrite E. cbn [Z.eqb negb].
  assert (Hcb : exists e', has_dentry s d -> (c ← fat_find_free_cluster; if c =? NONE then mret (dentry_of s d) else lift (set_first_cluster_number (dentry_of s d) c)) s = Ret (e', s) /\
    is_entry e' /\ forall j, j < 20 -> get8 e' j = get8 (dentry_of s d) j).
  { destruct Hd as [Hd|(Hp & Ho & Hu)]; [exists []; intros (Hp & _); rewrite (not_eoc s _ Hs Hp) in Hd; done|].
    destruct (dentry_at_ok (data s (fi_parent d)) (fi_offset d) (data_ok s Hs _) Ho) as [He _].
    destruct (free s) as [|c rest] eqn:Hf.
    - exists (dentry_of s d). intros _. mrun (find_free_run s Hs). unfold first_free. rewrite Hf. by split_and!.
    - destruct (first_free_ok s c rest Hr Hf) as [Hc _]. pose proof (vo_nr s Hs). unfold EOC_MIN in *.
      destruct (set_first_run _ c He) as (e & Hse & Hie & _ & Hk); [lia|]. exists e. intros _. mrun (find_free_run s Hs). unfold first_free. rewrite Hf. cbn [default head].
      unfold id. cbn [hd_error default]. rewrite (proj2 (Z.eqb_neq _ _)) by (by eapply not_none). unfold dentry_of. rewrite Hse. split; [done|]. split; [done|]. intros j Hj. apply Hk. lia. }
  destruct Hcb as [e' Hcb]. destruct (spares_update d 20 s (fun entry => c ← fat_find_free_cluster; if c =? NONE then mret entry else lift (set_first_cluster_number entry c)) e' Hs Hd Hcb)
    as (s' & H1 & H2 & H3 & H4). exists s'. split; [done|]. split; [done|]. split; [done|by apply H4].
Qed.

(** C27. [set_content] of any file whose directory entry, if it has one, lies in
    a cluster in use, of whatever length and whether it already has clusters or
    not: it always returns; it takes as many clusters as the content needs (one
    for an empty content), the first free ones, or all there are when the disk gets full; it records the
    new size exactly when there were enough; and every cluster in use keeps its
    entry in the allocation table and its data, except for the 32 bytes of the
    file's own directory entry, of which name and attributes are kept, and the
    first cluster too if the file had one. *)
Theorem fat_set_content_spares s d beyond content n :
  vol_ok s -> reserved s -> bytes content -> 0 <= n < 2 ^ 31 -> is_eoc (fi_parent d) = true \/ has_dentry s d ->
  let q := Z.to_nat (Z.max 1 ((n + 511) / 512)) in
  exists s', fat_set_content beyond d content n s =
      Ret (if decide (q <= length (free s))%nat then mkFInode (fi_name d) (fi_first d) (fi_parent d) (fi_offset d) n (fi_mode d) else d, s') /\
    spares d (kept d) s s' /\ free s' = drop q (free s) /\ reserved s'.
Proof.
  intros Hs Hr Hb Hn Hd q. destruct (allocate_spares s d Hs Hr Hd) as (s1 & E1 & S1 & F1 & R1).
  pose proof (spares_has_dentry _ _ _ _ S1 Hd) as Hd1. pose proof (sp_volume _ _ _ _ S1) as V1.
  destruct (write_chain_total q beyond content Hb s1 0 0 (proj1 V1) R1 (or_introl eq_refl)) as (s2 & E2 & V2 & R2 & Fr2 & F2). rewrite F1 in E2, F2.
  pose proof (spares_frame d (kept d) s1 s2 (proj1 V1) Hd1 V2 Fr2) as S2. pose proof (spares_trans _ _ _ _ _ Hs Hd S1 S2) as S12.
  pose proof (spares_has_dentry _ _ _ _ S12 Hd) as Hd2.
  assert (Hru : exists k, round_up_to_multiple_of_n n 512 = Ret (k * 512) /\ Z.to_nat k = q).
  { destruct (round_up_multiple_spec n 512) as (k & Hk & Hk1 & Hk2 & Hk3); [lia..|]. exists k. split; [done|]. unfold q. f_equal. Z.div_mod_to_equations. lia. }
  destruct Hru as (k & Hk & Hkq). unfold fat_set_content. rewrite Hk. msimpl. mrun E1. mrun (find_free_run s1 (proj1 V1)).
  rewrite Z.div_mul, Hkq by lia. mrun E2. case_bool_decide as Hq; [rewrite decide_True by done|rewrite decide_False by done; by exists s2].
  assert (Hcb : exists e', has_dentry s2 d -> lift (set32 (dentry_of s2 d) 28 n) s2 = Ret (e', s2) /\ is_entry e' /\ forall j, j < kept d -> get8 e' j = get8 (dentry_of s2 d) j).
  { destruct Hd2 as [He|(Hp & Ho & Hu)]; [exists []; intros (Hp & _); rewrite (not_eoc s2 _ (proj1 V2) Hp) in He; done|].
    destruct (dentry_at_ok (data s2 (fi_parent d)) (fi_offset d) (data_ok s2 (proj1 V2) _) Ho) as [He _].
    destruct (set_size_run _ n He) as (e & Hse & Hie & _ & _ & Hke); [lia|]. exists e. intros _. unfold dentry_of, lift. rewrite Hse. split; [done|]. split; [done|].
    intros j Hj. apply Hke. unfold kept in Hj. destruct (_ =? _); lia. }
  destruct Hcb as [e' Hcb].
  destruct (spares_update d (kept d) s2 (fun entry => lift (set32 entry 28 n)) e' (proj1 V2) Hd2 Hcb) as (s3 & E3 & S3 & F3 & R3). mrun E3.
  exists s3. split; [done|]. split; [by eapply spares_trans|]. split; [by rewrite F3|by apply R3].
Qed.

(** A file with clusters of its own on a disk of 125 free clusters is written
    with more than fits, and with less. *)
Definition long_file : FInode := mkFInode name_a 2 2 64 0 S_IFREG.

Lemma fat_set_content_spares_witness :
  (exists s', fat_set_content (fun _ => 0) long_file (replicate 1000 7) 1000 demo_fat = Ret (mkFInode name_a 2 2 64 1000 S_IFREG, s') /\
     spares long_file 28 demo_fat s' /\ free s' = drop 2 (free demo_fat)) /\
  (exists s', fat_set_content (fun _ => 0) long_file [] 100000 demo_fat = Ret (long_file, s') /\ spares long_file 28 demo_fat s' /\ free s' = []).
Proof.
  assert (Hr : reserved demo_fat) by (split; vm_compute; done).
  assert (Hd : is_eoc (fi_parent long_file) = true \/ has_dentry demo_fat long_file) by (right; unfold has_dentry; split_and!; (vm_compute; (done || congruence))).
  assert (Hf : length (free demo_fat) = 125%nat) by (vm_compute; reflexivity).
  split.
  - destruct (fat_set_content_spares demo_fat long_file (fun _ => 0) (replicate 1000 7) 1000 demo_vol_ok Hr) as (s' & H & Hsp & Hfr & _); [by apply Forall_replicate|lia|exact Hd|].
    rewrite Hf in H. exists s'. split; [exact H|]. split; [exact Hsp|exact Hfr].
  - destruct (fat_set_content_spares demo_fat long_file (fun _ => 0) [] 100000 demo_vol_ok Hr) as (s' & H & Hsp & Hfr & _); [constructor|lia|exact Hd|].
    rewrite Hf in H. exists s'. split; [exact H|]. split; [exact Hsp|]. rewrite Hfr. apply drop_ge. rewrite Hf. vm_compute. lia.
Defined.
