(* ===== verification/Fat32Create.v ===== *)
(** * Creating a FAT32 file: long names, directory entries, and the whole way
    from [create_child] over [set_content] to a lookup and the contents *)

From Stdlib Require Import ZArith Lia.
From stdpp Require Import base gmap list numbers.
From S2P Require Import Prelude Math CString KString Encoding Disk Console Vnode TmpFS Fat32 Fat32Spec.

Open Scope Z_scope.

(** ** Names in ASCII *)

Definition ascii (l : list Z) : Prop := Forall (fun c => 0 < c < 128) l.

Lemma ascii_nonzero l : ascii l -> Forall (fun c => c <> 0) l.
Proof. intros H. eapply list.Forall_impl; [exact H|]. cbn. lia. Qed.

Lemma encoded_ascii l : ascii l -> encoded l = l.
Proof.
  induction 1 as [|c l Hc Hl IH]; [done|]. unfold encoded in *. cbn [map concat]. rewrite IH. unfold ucs2utf_char.
  rewrite (proj2 (Z.ltb_lt c 0x80)) by lia. by rewrite u8_id by lia.
Qed.

Lemma arr_get_app_l {A} (l l' : list A) k : (k < length l)%nat -> arr_get (l ++ l') (Z.of_nat k) = l !! k.
Proof. intros Hk. rewrite arr_get_nat. by rewrite lookup_app_l. Qed.

Lemma text_at_list l l' : text_at (arr_get (l ++ 0 :: l')) 0 l.
Proof.
  split.
  - intros k c Hk. unfold rd. rewrite Z.add_0_l, arr_get_app_l by (by apply lookup_lt_Some in Hk). by rewrite Hk.
  - unfold rd. rewrite Z.add_0_l, arr_get_nat. by rewrite lookup_app_r, Nat.sub_diag by lia.
Qed.

Lemma filename_ucs_run beyond name : ascii name -> exists ucs, filename_ucs beyond name = Ret ucs /\ holds ucs (name ++ [0]).
Proof.
  intros Ha. unfold filename_ucs.
  destruct (utf2ucs_run (S (length name)) (replicate (length name) 0xffff ++ [u16 (beyond (Z.of_nat (length name)))])
              (arr_get (name ++ [0])) 0 [] name) as (ucs & Hr & Hh).
  - rewrite (encoded_ascii _ Ha). apply text_at_list.
  - eapply list.Forall_impl; [exact Ha|]. intros c Hc. left. cbn in *. lia.
  - apply holds_nil.
  - rewrite length_app, length_replicate. cbn. lia.
  - lia.
  - by exists ucs.
Qed.

Lemma unit_count_run ucs name : holds ucs (name ++ [0]) -> ascii name -> unit_count ucs = Z.of_nat (length name).
Proof.
  intros Hh Ha. revert ucs Hh. induction Ha as [|c l Hc Hl IH]; intros ucs Hh.
  - destruct ucs as [|u ucs]; [done|]. unfold holds in Hh. cbn in Hh. injection Hh as ->. done.
  - destruct ucs as [|u ucs]; [done|]. unfold holds in *. cbn in Hh. injection Hh as -> Hh. cbn [unit_count length].
    rewrite (proj2 (Z.eqb_neq c 0)), IH by (done || lia). lia.
Qed.

(** The segment of the name that starts at [i]. *)
Definition segment (name : list Z) (i : Z) : list Z := take 13 (drop (Z.to_nat i) name).

Lemma units_text beyond ucs name i : holds ucs (name ++ [0]) -> 0 <= i < Z.of_nat (length name) ->
  text_at (arr_get (units_at beyond ucs i 13 ++ [0])) 0 (segment name i).
Proof.
  intros Hh Hi. assert (Hlen : length (units_at beyond ucs i 13) = 13%nat) by (unfold units_at; by rewrite length_map, length_seqZ).
  assert (Hu : forall k c, (k < 13)%nat -> (name ++ [0]) !! (Z.to_nat i + k)%nat = Some c -> units_at beyond ucs i 13 !! k = Some c).
  { intros k c Hk Hc. unfold units_at. rewrite list_lookup_fmap, lookup_seqZ_lt by lia. cbn [fmap option_fmap option_map].
    replace (i + Z.of_nat k) with (Z.of_nat (Z.to_nat i + k)) by lia. rewrite arr_get_nat.
    rewrite (holds_lookup _ _ _ Hh) by (by apply lookup_lt_Some in Hc). by rewrite Hc. }
  assert (Hseg : length (segment name i) = Nat.min 13 (length name - Z.to_nat i)) by (unfold segment; by rewrite length_take, length_drop).
  split.
  - intros k c Hk. pose proof (lookup_lt_Some _ _ _ Hk). unfold rd. rewrite Z.add_0_l, arr_get_app_l by lia. rewrite (Hu k c); [done|lia|].
    unfold segment in Hk. rewrite lookup_take_lt, lookup_drop in Hk by lia. rewrite lookup_app_l by (apply lookup_lt_Some in Hk; lia). done.
  - unfold rd. rewrite Z.add_0_l. destruct (decide (13 <= length name - Z.to_nat i)%nat).
    + replace (length (segment name i)) with 13%nat by lia. rewrite arr_get_nat, lookup_app_r, Hlen by lia. done.
    + rewrite arr_get_app_l by lia. rewrite (Hu _ 0); [done|lia|]. rewrite lookup_app_r by lia.
      by replace (Z.to_nat i + length (segment name i) - length name)%nat with 0%nat by lia.
Qed.

Lemma ascii_segment name i : ascii name -> ascii (segment name i).
Proof. intros H. by apply Forall_take, Forall_drop. Qed.

Lemma cstr_of_text r i l : text_at r i l -> Forall (fun c => c <> 0) l -> cstr r i l.
Proof.
  intros Ht Hn. revert i Ht. induction Hn as [|c l Hc Hl IH]; intros i Ht; cbn [cstr].
  - destruct Ht as [_ Ht]. rewrite Z.add_0_r in Ht. unfold rd in Ht. destruct (r i); congruence.
  - destruct (text_at_app r i [c] l Ht) as [H0 H1]. specialize (H0 0%nat c eq_refl). rewrite Z.add_0_r in H0.
    unfold rd in H0. split_and!; [destruct (r i); congruence|done|by apply IH].
Qed.

(** [get_filename] of the units of a segment. *)
Lemma decode_units u text : text_at (arr_get (u ++ [0])) 0 text -> ascii text -> (length text <= 13)%nat ->
  (out ← ucs2utf 15 (zeros 27) (arr_get (u ++ [0])); n ← strlen 28 (arr_get out) 0; Ret (take (Z.to_nat n) out)) = Ret text.
Proof.
  intros Ht Ha Hl.
  destruct (ucs2utf_run 15 (zeros 27) (arr_get (u ++ [0])) 0 [] text Ht (ascii_nonzero _ Ha) (holds_nil _)) as (out & Hr & Hh);
    [rewrite (encoded_ascii _ Ha); change (length (zeros 27)) with 27%nat; cbn [length]; lia|lia|]. rewrite (encoded_ascii _ Ha) in Hh. cbn [app] in Hh.
  change (Z.of_nat (length (@nil Z))) with 0 in Hr. unfold ucs2utf. rewrite Hr. cbn [mbind outcome_bind].
  assert (Htx : text_at (arr_get out) 0 text).
  { rewrite <- (take_drop (length (text ++ [0])) out), Hh, <- app_assoc. apply text_at_list. }
  unfold strlen. rewrite (strlen_loop_spec 28 (arr_get out) 0 text 0) by (lia || (apply cstr_of_text; [done|by apply ascii_nonzero])).
  cbn [mbind outcome_bind]. rewrite Z.add_0_l, Nat2Z.id. f_equal. unfold holds in Hh.
  transitivity (take (length text) (take (length (text ++ [0])) out)); [rewrite take_take; f_equal; rewrite length_app; lia|].
  rewrite Hh. apply take_app_length.
Qed.

(** What is stored on disk are 16 bits of a unit. *)
Lemma text_at_u16 u text : text_at (arr_get (u ++ [0])) 0 text -> ascii text -> text_at (arr_get (map u16 u ++ [0])) 0 text.
Proof.
  intros [H0 H1] Ha. assert (Hrd : forall k c, rd (arr_get (u ++ [0])) k = Ret c -> 0 <= c < 128 -> rd (arr_get (map u16 u ++ [0])) k = Ret c).
  { intros k c. unfold rd. change [0] with (map u16 [0]) at 2. rewrite <- map_app. unfold arr_get. case_decide; [|done].
    rewrite list_lookup_fmap. destruct ((u ++ [0]) !! Z.to_nat k) as [x|]; [|done]. cbn. intros [= ->] Hc. by rewrite u16_id by lia. }
  split.
  - intros k c Hk. apply Hrd; [by apply H0|]. pose proof (list.Forall_lookup_1 _ _ _ _ Ha Hk). cbn in *. lia.
  - apply Hrd; [done|lia].
Qed.

(** ** Entries in a cluster *)

Lemma updated_refl b i n : bytes b -> updated b b i n.
Proof. done. Qed.

Lemma updated_within b b1 b2 j m o w : updated b b1 o w -> updated b1 b2 j m -> o <= j -> j + m <= o + w -> updated b b2 o w.
Proof. intros (L1 & B1 & U1) (L2 & B2 & U2) ??. split_and!; [congruence|done|]. intros k Hk. rewrite U2, U1 by lia. done. Qed.

Lemma get_units_ext n b b' i : (forall k, i <= k < i + 2 * Z.of_nat n -> get8 b' k = get8 b k) -> get_units n b' i = get_units n b i.
Proof.
  revert i. induction n as [|n IH]; intros i H; [done|]. cbn [get_units].
  rewrite (get16_ext b b') by (intros; apply H; lia). by rewrite IH by (intros; apply H; lia).
Qed.

Lemma set_units_run us b i : bytes b -> 0 <= i -> i + 2 * Z.of_nat (length us) <= Z.of_nat (length b) ->
  exists b', set_units b i us = Ret b' /\ updated b b' i (2 * Z.of_nat (length us)) /\ get_units (length us) b' i = Ret (map u16 us).
Proof.
  revert b i. induction us as [|u us IH]; intros b i Hb Hi Hl; [by exists b|]. cbn [set_units length get_units map] in *.
  destruct (set16_updated b i u Hb) as (b1 & E1 & U1 & G1); [lia..|].
  destruct (IH b1 (i + 2) (proj1 (proj2 U1))) as (b2 & E2 & U2 & G2); [lia|rewrite (proj1 U1); lia|].
  exists b2. rewrite E1. cbn [mbind outcome_bind]. rewrite E2. split_and!; [done| |].
  - split_and!; [rewrite (proj1 U2); apply U1|apply U2|]. intros j Hj. rewrite (proj2 (proj2 U2)), (proj2 (proj2 U1)) by lia. done.
  - rewrite (get16_ext b1 b2 i), G1, G2 by (intros; apply U2; lia). done.
Qed.

Lemma get8_dentry b off j : is_block b -> 0 <= off <= 480 -> 0 <= j < 32 -> get8 (dentry_at b off) j = get8 b (off + j).
Proof.
  intros [Hl _] Ho Hj. unfold get8, arr_get, dentry_at. rewrite !decide_True by lia. rewrite lookup_take_lt, lookup_drop by lia.
  by replace (Z.to_nat off + Z.to_nat j)%nat with (Z.to_nat (off + j)) by lia.
Qed.

Lemma get8_ext b b' : length b = length b' -> (forall i, 0 <= i < Z.of_nat (length b) -> get8 b i = get8 b' i) -> b = b'.
Proof.
  intros Hl H. apply arr_ext; [done|]. intros i Hi. specialize (H i Hi). unfold get8 in H.
  destruct (arr_get_is_Some b i Hi) as [x Hx], (arr_get_is_Some b' i ltac:(lia)) as [y Hy]. rewrite Hx, Hy in *. congruence.
Qed.

Lemma get8_put b off e j : is_block b -> is_entry e -> 0 <= off <= 480 -> j < off \/ off + 32 <= j -> get8 (put_entry b off e) j = get8 b j.
Proof.
  intros [Hl _] [He _] Ho Hj. unfold get8, arr_get, put_entry. case_decide; [|done]. destruct Hj as [Hj|Hj].
  - by rewrite lookup_app_l, lookup_take_lt by (rewrite ?length_take; lia).
  - rewrite lookup_app_r, lookup_app_r by (rewrite ?length_take; lia). rewrite lookup_drop, length_take, He.
    replace (Z.to_nat off + 32 + (Z.to_nat j - (Z.to_nat off `min` length b) - 32))%nat with (Z.to_nat j) by lia. done.
Qed.

(** A cluster changed in one entry only. *)
Lemma updated_put b b' off : is_block b -> updated b b' off 32 -> 0 <= off <= 480 ->
  b' = put_entry b off (dentry_at b' off) /\ is_entry (dentry_at b' off) /\ is_block b'.
Proof.
  intros Hb (L & B & U) Ho. assert (Hb' : is_block b') by (split; [rewrite L; apply Hb|done]).
  destruct (dentry_at_ok b' off Hb' Ho) as [He _]. destruct (put_entry_ok b off _ Hb He Ho) as (Hp & _ & Hd). split_and!; [|done..|apply Hb'].
  apply get8_ext; [rewrite (proj1 Hp); apply Hb'|]. intros i Hi. destruct (decide (off <= i < off + 32)).
  - replace i with (off + (i - off)) by lia. rewrite <- !get8_dentry by (done || lia). by rewrite Hd.
  - rewrite U, get8_put by (done || lia). done.
Qed.

Lemma get_units_dentry n b off i : is_block b -> 0 <= off <= 480 -> 0 <= i -> i + 2 * Z.of_nat n <= 32 ->
  get_units n (dentry_at b off) i = get_units n b (off + i).
Proof.
  intros Hb Ho. revert i. induction n as [|n IH]; intros i Hi Hl; [done|]. cbn [get_units]. unfold get16.
  rewrite !get8_dentry, IH by (done || lia). by replace (off + i + 2) with (off + (i + 2)) by lia; replace (off + i + 1) with (off + (i + 1)) by lia.
Qed.

(** A step of a computation without state whose result is known. *)
Ltac orun E := rewrite E; cbn [mbind outcome_bind].

(** The bytes of the header of a long name entry, then the units. *)
Lemma fentry_header b off seq ck : is_block b -> 0 <= off <= 480 ->
  exists c, (c ← set8 b off seq; c ← set8 c (off + 11) ATTR_LFN_ENTRY; c ← set8 c (off + 12) 0; c ← set8 c (off + 13) ck; set16 c (off + 26) 0) = Ret c /\
    updated b c off 32 /\ get8 c off = Ret (u8 seq) /\ get8 c (off + 11) = Ret ATTR_LFN_ENTRY.
Proof.
  intros [Hl Hb] Ho.
  destruct (set8_updated b off seq Hb) as (c1 & E1 & (L1 & B1 & U1) & G1); [lia|].
  destruct (set8_updated c1 (off + 11) ATTR_LFN_ENTRY B1) as (c2 & E2 & (L2 & B2 & U2) & G2); [lia|].
  destruct (set8_updated c2 (off + 12) 0 B2) as (c3 & E3 & (L3 & B3 & U3) & _); [lia|].
  destruct (set8_updated c3 (off + 13) ck B3) as (c4 & E4 & (L4 & B4 & U4) & _); [lia|].
  destruct (set16_updated c4 (off + 26) 0 B4) as (c5 & E5 & (L5 & B5 & U5) & _); [lia..|].
  exists c5. split; [orun E1; orun E2; orun E3; orun E4; done|]. split; [|split].
  - split_and!; [lia|done|]. intros j Hj. rewrite U5, U4, U3, U2, U1 by lia. done.
  - rewrite U5, U4, U3, U2 by lia. done.
  - rewrite U5, U4, U3 by lia. done.
Qed.

Lemma write_fentry_run b off seq ck part : is_block b -> 0 <= off <= 480 -> length part = 13%nat ->
  exists e, write_fentry b off seq ck part = Ret (put_entry b off e) /\ is_entry e /\ get8 e 0 = Ret (u8 seq) /\ get8 e 11 = Ret ATTR_LFN_ENTRY /\
    get_units 5 e 1 = Ret (map u16 (take 5 part)) /\ get_units 6 e 14 = Ret (map u16 (take 6 (drop 5 part))) /\
    get_units 2 e 28 = Ret (map u16 (drop 11 part)).
Proof.
  intros Hb Ho Hp. destruct (fentry_header b off seq ck Hb Ho) as (c5 & E5 & U5 & G0 & G11).
  assert (L5 : length c5 = 512%nat) by (rewrite (proj1 U5); apply Hb).
  destruct (set_units_run (take 5 part) c5 (off + 1) (proj1 (proj2 U5))) as (c6 & E6 & U6 & G6); [lia|rewrite length_take; lia|].
  destruct (set_units_run (take 6 (drop 5 part)) c6 (off + 14) (proj1 (proj2 U6))) as (c7 & E7 & U7 & G7);
    [lia|rewrite (proj1 U6), length_take, length_drop; lia|].
  destruct (set_units_run (drop 11 part) c7 (off + 28) (proj1 (proj2 U7))) as (c8 & E8 & U8 & G8);
    [lia|rewrite (proj1 U7), (proj1 U6), length_drop; lia|].
  rewrite length_take, Hp in U6, G6. rewrite length_take, length_drop, Hp in U7, G7. rewrite length_drop, Hp in U8, G8.
  change (5 `min` 13)%nat with 5%nat in *. change (6 `min` (13 - 5))%nat with 6%nat in *. change (13 - 11)%nat with 2%nat in *.
  assert (U : updated b c8 off 32).
  { apply (updated_within b c7 c8 _ _ off 32) with (2 := U8); [|lia..]. apply (updated_within b c6 c7 _ _ off 32) with (2 := U7); [|lia..].
    apply (updated_within b c5 c6 _ _ off 32) with (2 := U6); [done|lia..]. }
  destruct (updated_put b c8 off Hb U Ho) as (Hput & He & Hb8). exists (dentry_at c8 off).
  destruct U6 as (_ & _ & U6), U7 as (_ & _ & U7), U8 as (_ & _ & U8). split_and!.
  - rewrite <- Hput. revert E5. unfold write_fentry. do 4 (destruct (set8 _ _ _); [cbn [mbind outcome_bind]|done..]).
    intros ->. cbn [mbind outcome_bind]. orun E6. orun E7. done.
  - apply He.
  - rewrite get8_dentry, Z.add_0_r by (done || lia). rewrite U8, U7, U6 by lia. done.
  - rewrite get8_dentry by (done || lia). rewrite U8, U7, U6 by lia. done.
  - rewrite get_units_dentry by (done || lia). rewrite (get_units_ext 5 c6 c8); [done|]. intros k Hk. rewrite U8, U7 by lia. done.
  - rewrite get_units_dentry by (done || lia). rewrite (get_units_ext 6 c7 c8); [done|]. intros k Hk. rewrite U8 by lia. done.
  - rewrite get_units_dentry by (done || lia). done.
Qed.

(** An entry with a part of a long name. *)
Definition is_fentry (e text : list Z) : Prop :=
  is_entry e /\ (exists c, get8 e 0 = Ret c /\ c <> 0 /\ c <> 0xe5) /\ get8 e 11 = Ret ATTR_LFN_ENTRY /\ get_filename e = Ret text.
(** The entry of a file. *)
Definition is_dentry (e : list Z) (size first : Z) : Prop :=
  is_entry e /\ (exists c, get8 e 0 = Ret c /\ c <> 0 /\ c <> 0xe5) /\ get8 e 11 = Ret 0 /\ entry_size e = Ret size /\
  get_first_cluster_number e = Ret first.

Lemma fentry_text b off seq ck beyond ucs name i : is_block b -> 0 <= off <= 480 -> holds ucs (name ++ [0]) -> ascii name ->
  0 <= i < Z.of_nat (length name) -> u8 seq <> 0 -> u8 seq <> 0xe5 ->
  exists e, write_fentry b off seq ck (units_at beyond ucs i 13) = Ret (put_entry b off e) /\ is_fentry e (segment name i).
Proof.
  intros Hb Ho Hh Ha Hi H0 He5. assert (Hl : length (units_at beyond ucs i 13) = 13%nat) by (unfold units_at; by rewrite length_map, length_seqZ).
  destruct (write_fentry_run b off seq ck _ Hb Ho Hl) as (e & Hw & He & Hs & Hat & G1 & G2 & G3). exists e. split; [done|].
  split_and!; [done|by eexists|done|]. unfold get_filename. orun G1. orun G2. orun G3.
  rewrite (app_assoc (map u16 _)), (app_assoc (_ ++ _)), <- !map_app.
  replace ((take 5 (units_at beyond ucs i 13) ++ take 6 (drop 5 (units_at beyond ucs i 13))) ++ drop 11 (units_at beyond ucs i 13))
    with (units_at beyond ucs i 13).
  - apply decode_units; [|by apply ascii_segment|unfold segment; rewrite length_take; lia].
    apply text_at_u16; [by apply units_text|by apply ascii_segment].
  - rewrite <- app_assoc. replace (drop 11 (units_at beyond ucs i 13)) with (drop 6 (drop 5 (units_at beyond ucs i 13))) by (by rewrite drop_drop).
    by rewrite !take_drop.
Qed.

Lemma u8_idem x : u8 (u8 x) = u8 x.
Proof. apply u8_id, u8_range. Qed.

Lemma set_bytes_u8 e b i : set_bytes b i (map u8 e) = set_bytes b i e.
Proof.
  revert b i. induction e as [|x e IH]; intros b i; [done|]. cbn [map set_bytes]. unfold set8. rewrite u8_idem.
  destruct (arr_set _ _ _); cbn [mbind outcome_bind]; [apply IH|done].
Qed.

Lemma bytes_u8 e : bytes (map u8 e).
Proof. apply list.Forall_fmap, list.Forall_forall. intros x _. apply u8_range. Qed.

Lemma set_name_run e name : is_entry e -> length name = 11%nat -> exists e', set_bytes e 0 name = Ret e' /\ is_entry e' /\
  (forall j, 11 <= j -> get8 e' j = get8 e j) /\ take 11 e' = map u8 name.
Proof.
  intros [Hl Hb] Hn. rewrite <- set_bytes_u8, set_bytes_run by (apply bytes_u8 || rewrite ?length_map; lia).
  rewrite length_map, Hn. change (Z.to_nat 0) with 0%nat. rewrite take_0. cbn [app Nat.add]. eexists. split; [done|]. split_and!.
  - split; [rewrite length_app, length_map, length_drop; lia|]. apply list.Forall_app. split; [apply bytes_u8|by apply Forall_drop].
  - intros j Hj. unfold get8, arr_get. rewrite !decide_True by lia. rewrite lookup_app_r by (rewrite length_map; lia). rewrite length_map, lookup_drop.
    rewrite Hn. replace (11 + (Z.to_nat j - 11))%nat with (Z.to_nat j) by lia. done.
  - rewrite take_app_length'; [done|by rewrite length_map].
Qed.

Lemma write_dentry_run b off size name c : is_block b -> 0 <= off <= 480 -> length name = 11%nat -> head name = Some c ->
  u8 c <> 0 -> u8 c <> 0xe5 ->
  exists e, write_dentry b off 0 size 0 name = Ret (put_entry b off e) /\ is_dentry e (u32 size) 0.
Proof.
  intros Hb Ho Hn Hc H0 He5. destruct (dentry_at_ok b off Hb Ho) as [He Hat]. unfold write_dentry. orun Hat. destruct He as [L0 B0].
  destruct (set8_updated _ 11 0 B0) as (e1 & E1 & (L1 & B1 & U1) & G1); [lia|]. orun E1.
  destruct (set32_updated e1 28 size B1) as (e2 & E2 & (L2 & B2 & U2) & G2); [lia..|]. orun E2.
  destruct (set_first_run e2 0) as (e3 & E3 & I3 & G3 & K3); [split; [lia|done]|lia|]. orun E3.
  destruct (set_name_run e3 name I3 Hn) as (e4 & E4 & I4 & K4 & T4). orun E4.
  destruct (put_entry_ok b off e4 Hb I4 Ho) as (_ & Hset & _). exists e4. split; [done|]. split_and!; [done| | | |].
  - exists (u8 c). split_and!; [|done..]. destruct name as [|x name]; [done|]. injection Hc as ->. destruct e4 as [|y e4]; [done|].
    cbn in T4. injection T4 as -> _. done.
  - rewrite K4, K3, U2 by lia. done.
  - unfold entry_size. rewrite (get32_ext e2 e4); [done|]. intros k Hk. rewrite K4, K3 by lia. done.
  - rewrite <- G3. unfold get_first_cluster_number. by rewrite !(get16_ext e3 e4) by (intros; apply K4; lia).
Qed.

(** ** A directory with room in its cluster *)

(** [K] entries in use, none deleted, then free ones. *)
Record dir_room (b : list Z) (K : Z) : Prop := mkRoom {
  dr_range : 0 <= K < 16;
  dr_used : forall k, 0 <= k < K -> exists c, get8 b (32 * k) = Ret c /\ c <> 0 /\ c <> 0xe5;
  dr_free : forall k, K <= k < 16 -> get8 b (32 * k) = Ret 0
}.

Section room.
Variables (b : list Z) (K : Z).
Hypotheses (Hb : is_block b) (HK : dir_room b K).

Lemma entry_k k : 0 <= k < 16 -> entry_at b (32 * k) = Ret (dentry_at b (32 * k)) /\ get8 (dentry_at b (32 * k)) 0 = get8 b (32 * k).
Proof.
  intros Hk. destruct (dentry_at_ok b (32 * k) Hb ltac:(lia)) as [_ ->]. split; [done|]. rewrite get8_dentry by (done || lia). by rewrite Z.add_0_r.
Qed.

Lemma attr_k k : 0 <= k < 16 -> exists a, attributes (dentry_at b (32 * k)) = Ret a.
Proof.
  intros Hk. destruct (dentry_at_ok b (32 * k) Hb ltac:(lia)) as [[Hl Hby] _]. unfold attributes.
  destruct (get8_byte (dentry_at b (32 * k)) 11 Hby) as (x & -> & _); [lia|]. by eexists.
Qed.

Lemma search_entries_run m k need n s : 0 <= k <= K -> k + Z.of_nat m = 16 ->
  search_entries m need n b (32 * k) s = Ret (mkSearch n (32 * K) 0 false).
Proof.
  pose proof HK as [Hr Hu Hf]. revert k s. induction m as [|m IH]; intros k s Hk Hm; [lia|]. cbn [search_entries].
  destruct (entry_k k ltac:(lia)) as [He H0]. orun He. unfold is_the_end. rewrite H0. destruct (decide (k = K)) as [->|Hne].
  - rewrite Hf by lia. done.
  - destruct (Hu k ltac:(lia)) as (c & Hc & Hc0 & Hce). orun Hc. rewrite (proj2 (Z.eqb_neq c 0)) by done.
    destruct (attr_k k ltac:(lia)) as [a Ha]. orun Ha. unfold is_deleted. rewrite H0. orun Hc. rewrite (proj2 (Z.eqb_neq c 0xe5)) by done.
    replace (32 * k + 32) with (32 * (k + 1)) by lia. cbn [negb]. rewrite !IH by lia. by case_match.
Qed.

Lemma allocate_entries_run (todo : nat) m k n s : K <= k -> k + Z.of_nat todo <= 15 -> (todo <= m)%nat ->
  allocate_entries m n b (32 * k) (Z.of_nat todo) s = Ret (Some (b, 0), s).
Proof.
  pose proof HK as [Hr _ Hf]. revert m k. induction todo as [|todo IH]; intros m k Hk Hl Hm; (destruct m as [|m]; [try lia; done|]); cbn [allocate_entries]; [done|].
  rewrite (proj2 (Z.eqb_neq _ 0)) by lia. destruct (entry_k k ltac:(lia)) as [He H0]. rewrite He. msimpl. unfold is_the_end. rewrite H0, Hf by lia.
  cbn [mbind outcome_bind]. change (0 =? 0) with true. msimpl. cbn [negb]. pose proof Hb as [Hlen _]. rewrite set8_run by lia. msimpl.
  assert (Hid : <[Z.to_nat (32 * k) := u8 0]> b = b).
  { apply list_insert_id. change (u8 0) with 0. pose proof (Hf k ltac:(lia)) as H. unfold get8, arr_get in H. rewrite decide_True in H by lia.
    destruct (b !! Z.to_nat (32 * k)); congruence. }
  rewrite Hid. rewrite (proj2 (Z.eqb_neq _ _)) by lia. msimpl. replace (32 * k + 32) with (32 * (k + 1)) by lia.
  replace (Z.of_nat (S todo) - 1) with (Z.of_nat todo) by lia. apply IH; lia.
Qed.
End room.

Lemma fuel_two s : vol_ok s -> exists f, chain_fuel (fa_meta s) = S (S f).
Proof.
  intros Hs. unfold chain_fuel. rewrite (nr_entries s Hs). pose proof (vo_ts s Hs). exists (Z.to_nat (N s)). unfold N. lia.
Qed.

Section in_directory.
Variables (s : Fat) (n K : Z).
Hypotheses (Hs : vol_ok s) (Hn : 2 <= n < N s) (HK : dir_room (data s n) K).

Lemma search_chain_run need buf se : keep_searching se = true -> length buf = 512%nat ->
  search_chain (chain_fuel (fa_meta s)) need n buf se s = Ret ((data s n, mkSearch n (32 * K) 0 false), s).
Proof.
  intros Hse Hl. destruct (fuel_two s Hs) as [f ->]. cbn [search_chain]. rewrite (not_eoc s n Hs Hn), Hse. cbn [orb negb].
  mrun (cluster_read_run s Hs n buf Hn Hl). change 0 with (32 * 0) at 2.
  rewrite (search_entries_run (data s n) K (data_ok s Hs n) HK) by (destruct HK; lia). msimpl.
  mrun (fat_read_run s Hs n ltac:(lia)). cbn [keep_searching negb]. by rewrite orb_true_r.
Qed.

Lemma allocate_chain_run (todo : nat) buf : (0 < todo)%nat -> K + Z.of_nat todo <= 15 -> length buf = 512%nat ->
  allocate_chain (chain_fuel (fa_meta s)) n buf (32 * K) (Z.of_nat todo) s = Ret (Some (data s n), s).
Proof.
  intros Ht Hk Hl. destruct (fuel_two s Hs) as [f ->]. cbn [allocate_chain]. rewrite (not_eoc s n Hs Hn), (proj2 (Z.eqb_neq _ 0)) by lia. cbn [orb].
  mrun (cluster_read_run s Hs n buf Hn Hl).
  assert (H : allocate_entries (Z.to_nat ((512 - 32 * K) / 32)) n (data s n) (32 * K) (Z.of_nat todo) s = Ret (Some (data s n, 0), s)).
  { apply (allocate_entries_run (data s n) K (data_ok s Hs n) HK); [lia..|]. replace (512 - 32 * K) with ((16 - K) * 32) by lia.
    rewrite Z.div_mul by lia. lia. }
  mrun H. mrun (fat_read_run s Hs n ltac:(lia)). change (0 =? 0) with true. by rewrite orb_true_r.
Qed.
End in_directory.

(** ** Segments of a name *)

(** The starts of [k] segments, the last one first. *)
Fixpoint down (k : nat) : list Z := match k with O => [] | S k => 13 * Z.of_nat k :: down k end.

Lemma length_down k : length (down k) = k.
Proof. induction k; cbn; congruence. Qed.

Definition nr_segments (name : list Z) : nat := Z.to_nat ((Z.of_nat (length name) + 12) / 13).

Lemma name_segments_run name fuel : (length name < fuel)%nat ->
  name_segments fuel (Z.of_nat (length name)) 0 [] = down (nr_segments name).
Proof.
  intros Hf. set (L := Z.of_nat (length name)).
  assert (Hgen : forall fuel j, (nr_segments name < fuel + j)%nat -> (j <= nr_segments name)%nat ->
    name_segments fuel L (13 * Z.of_nat j) (down j) = down (nr_segments name)).
  { unfold nr_segments. fold L. induction fuel0 as [|f IH]; intros j Hj Hle; [lia|]. cbn [name_segments].
    destruct (Z.ltb_spec (13 * Z.of_nat j) L) as [Hlt|Hge].
    - change (13 * Z.of_nat j :: down j) with (down (S j)). replace (13 * Z.of_nat j + 13) with (13 * Z.of_nat (S j)) by lia.
      apply IH; [lia|]. Z.div_mod_to_equations. lia.
    - f_equal. Z.div_mod_to_equations. lia. }
  apply (Hgen fuel 0%nat); [|lia]. unfold nr_segments. fold L. Z.div_mod_to_equations. lia.
Qed.

(** Reading the segments in the order in which they lie on disk. *)
Lemma read_segments name k :
  foldl (fun nm t => t ++ nm) (drop (13 * k) name) (map (segment name) (down k)) = name.
Proof.
  induction k as [|k IH]; [done|]. cbn [down map foldl]. etransitivity; [|exact IH]. f_equal. unfold segment.
  replace (Z.to_nat (13 * Z.of_nat k)) with (13 * k)%nat by lia. replace (13 * S k)%nat with (13 * k + 13)%nat by lia.
  rewrite <- drop_drop. apply take_drop.
Qed.

Lemma segments_name name : foldl (fun nm t => t ++ nm) [] (map (segment name) (down (nr_segments name))) = name.
Proof.
  etransitivity; [|apply (read_segments name (nr_segments name))]. f_equal. symmetry. apply drop_ge.
  unfold nr_segments. Z.div_mod_to_equations. lia.
Qed.

(** ** Entries next to each other *)

Fixpoint put_entries (b : list Z) (off : Z) (es : list (list Z)) : list Z :=
  match es with [] => b | e :: es => put_entries (put_entry b off e) (off + 32) es end.

Lemma put_entries_ok es b off : is_block b -> Forall is_entry es -> 0 <= off -> off + 32 * Z.of_nat (length es) <= 512 ->
  is_block (put_entries b off es) /\ (forall j e, es !! j = Some e -> dentry_at (put_entries b off es) (off + 32 * Z.of_nat j) = e) /\
  (forall i, i < off \/ off + 32 * Z.of_nat (length es) <= i -> get8 (put_entries b off es) i = get8 b i).
Proof.
  intros Hb He. revert b off Hb. induction He as [|e es He Hes IH]; intros b off Hb Ho Hl; cbn [put_entries length] in *; [done|].
  destruct (put_entry_ok b off e Hb He ltac:(lia)) as (Hb1 & _ & Hd). destruct (IH (put_entry b off e) (off + 32) Hb1) as (Hb2 & Hat & Hk); [lia..|].
  split_and!; [done| |].
  - intros [|j] e' Hj; cbn in Hj.
    + injection Hj as <-. replace (off + 32 * Z.of_nat 0) with off by lia. transitivity (dentry_at (put_entry b off e) off); [|exact Hd]. apply get8_ext.
      * by rewrite (proj1 (proj1 (dentry_at_ok _ off Hb2 ltac:(lia)))), (proj1 (proj1 (dentry_at_ok _ off Hb1 ltac:(lia)))).
      * intros i Hi. rewrite (proj1 (proj1 (dentry_at_ok _ off Hb2 ltac:(lia)))) in Hi. rewrite !get8_dentry by (done || lia). apply Hk. lia.
    + rewrite <- (Hat j e' Hj). f_equal. lia.
  - intros i Hi. rewrite Hk by lia. apply get8_put; [done..|lia|lia].
Qed.

(** ** Writing the entries *)

Lemma effect_twice s s1 s' n b b' : 2 <= n < N s ->
  effect s s1 (fat_entry s) (upd (data s) n b) -> effect s1 s' (fat_entry s1) (upd (data s1) n b') ->
  effect s s' (fat_entry s) (upd (data s) n b').
Proof.
  intros Hn F1 F2. pose proof (same_N _ _ (effect_same _ _ _ _ F1)) as HN. pose proof (effect_same _ _ _ _ F1) as V1.
  destruct (same_trans _ _ _ V1 (effect_same _ _ _ _ F2)) as (? & ? & ?). destruct F1 as (_ & _ & _ & A1 & D1), F2 as (_ & _ & _ & A2 & D2).
  split_and!; [done..| |].
  - intros i Hi. rewrite A2 by lia. by apply A1.
  - intros c Hc. rewrite D2 by lia. unfold upd in *. case_decide; [done|]. rewrite D1 by done. by rewrite decide_False.
Qed.

Lemma first_free_some s : vol_ok s -> free s <> [] -> first_free s <> NONE.
Proof.
  intros Hs Hf. unfold first_free. destruct (free s) as [|c r] eqn:E; [done|]. cbn.
  assert (Hc : c ∈ free s) by (rewrite E; left). apply elem_of_free in Hc as [Hc _]. pose proof (vo_nr s Hs).
  change NONE with 4294967295. unfold EOC_MIN, id in *. lia.
Qed.

Section create.
Variables (d : FInode) (beyond : Z -> Z) (ucs name short : list Z) (c0 size : Z) (n : Z).
Hypotheses (Hucs : holds ucs (name ++ [0])) (Hname : ascii name) (Hshort : length short = 11%nat) (Hc0 : head short = Some c0)
  (H0 : u8 c0 <> 0) (He5 : u8 c0 <> 0xe5).

Let w : NewChild := mkNew name short (fun i => units_at beyond ucs i 13) size S_IFREG.

Lemma finish_create_run s b off : vol_ok s -> free s <> [] -> 2 <= n < N s -> is_block b -> 0 <= off <= 480 ->
  exists s' e, finish_create d name short size S_IFREG n b off s = Ret (Some (mkFInode name 0 n off 0 S_IFREG), s') /\
    is_dentry e (u32 size) 0 /\ effect s s' (fat_entry s) (upd (data s) n (put_entry b off e)).
Proof.
  intros Hs Hf Hn Hb Ho. destruct (write_dentry_run b off size short c0 Hb Ho Hshort Hc0 H0 He5) as (e & Hw & He).
  destruct (cluster_write_run s Hs n (put_entry b off e) Hn) as (s' & E & F); [apply put_entry_ok; [done|apply He|done]|].
  exists s', e. split; [|done]. unfold finish_create. mrun (find_free_run s Hs). rewrite (proj2 (Z.eqb_neq _ _)) by (by apply first_free_some).
  change (is_directory S_IFREG) with false. cbn [negb]. rewrite Hw. msimpl. mrun E. done.
Qed.

Lemma create_entries_run k : (forall i, i ∈ down k -> i < Z.of_nat (length name)) -> Z.of_nat k < 16 -> forall s b off h m,
  vol_ok s -> free s <> [] -> 2 <= n < N s -> is_block b -> 0 <= off -> off + 32 * Z.of_nat k <= 480 -> (k < m)%nat ->
  exists s' es e, create_entries m d w n b off (Z.of_nat k + 1) h (down k) s =
      Ret (inl (Some (mkFInode name 0 n (off + 32 * Z.of_nat k) 0 S_IFREG)), s') /\
    Forall2 is_fentry es (map (segment name) (down k)) /\ is_dentry e (u32 size) 0 /\
    effect s s' (fat_entry s) (upd (data s) n (put_entries b off (es ++ [e]))).
Proof.
  induction k as [|k IH]; intros Hin Hk16 s b off h m Hs Hf Hn Hb Ho Hl Hm; (destruct m as [|m]; [lia|]); cbn [create_entries].
  - change (0 <? u32 (Z.of_nat 0 + 1 - 1)) with false. cbn iota.
    destruct (finish_create_run s b off Hs Hf Hn Hb ltac:(lia)) as (s' & e & E & He & F). exists s', [], e. cbn [nw_name nw_short nw_size nw_mode w].
    mrun E. rewrite Z.add_0_r. by split_and!.
  - replace (Z.of_nat (S k) + 1 - 1) with (Z.of_nat k + 1) by lia. rewrite u32_id by lia. rewrite (proj2 (Z.ltb_lt 0 _)) by lia.
    cbn [down]. set (seq := if h then _ else _).
    assert (Hseq : u8 seq <> 0 /\ u8 seq <> 0xe5).
    { unfold seq. assert (all_from 16 (fun x => negb (u8 (u8 x) =? 0) && negb (u8 (u8 x) =? 0xe5) && negb (u8 (Z.lor (u8 x) 0x40) =? 0) && negb (u8 (Z.lor (u8 x) 0x40) =? 0xe5)) 1 = true) as Hall by done.
      pose proof (all_from_spec _ _ _ (Z.of_nat k + 1) Hall ltac:(lia)) as Hk. cbv beta in Hk. rewrite !andb_true_iff, !negb_true_iff, !Z.eqb_neq in Hk. destruct h; tauto. }
    assert (Hi : 0 <= 13 * Z.of_nat k < Z.of_nat (length name)) by (split; [lia|]; apply Hin; cbn [down]; left).
    destruct (fentry_text b off seq (lfn_checksum short) beyond ucs name (13 * Z.of_nat k) Hb ltac:(lia) Hucs Hname Hi (proj1 Hseq) (proj2 Hseq)) as (e1 & Hw & He1).
    destruct (put_entry_ok b off e1 Hb (proj1 He1) ltac:(lia)) as (Hb1 & _ & _).
    destruct (cluster_write_run s Hs n _ Hn Hb1) as (s1 & E1 & F1). pose proof (same_N _ _ (effect_same _ _ _ _ F1)) as HN.
    destruct (IH ltac:(intros; apply Hin; cbn [down]; by right) ltac:(lia) s1 (put_entry b off e1) (off + 32) true m) as (s' & es & e & E & Hes & He & F);
      [apply F1|by rewrite (proj1 (free_same _ _ _ F1))|lia|done|lia..|].
    exists s', (e1 :: es), e. cbn [nw_short nw_units w] in *. rewrite Hw. msimpl. mrun E1. split_and!; [|by constructor|done|].
    + rewrite E. do 5 f_equal. lia.
    + by eapply effect_twice.
Qed.
End create.

(** ** Finding an entry *)

Section iterate.
Context {A : Type} (f : View -> A -> A * bool) (root n : Z).

Lemma iterate_split K m b off name index a name' index' a' :
  iterate_entries f K root n b off name index a = Ret (a', Some (name', index')) ->
  iterate_entries f (K + m) root n b off name index a = iterate_entries f m root n b (off + 32 * Z.of_nat K) name' index' a'.
Proof.
  revert off name index a. induction K as [|K IH]; intros off name index a H.
  - injection H as <- <- <-. by rewrite Z.add_0_r.
  - replace (off + 32 * Z.of_nat (S K)) with (off + 32 + 32 * Z.of_nat K) by lia. revert H. cbn [iterate_entries Nat.add].
    destruct (entry_at b off) as [e| | |]; cbn [mbind outcome_bind]; [|done..].
    destruct (is_deleted e) as [[]| | |]; cbn [mbind outcome_bind]; [apply IH| |done..].
    destruct (is_the_end e) as [[]| | |]; cbn [mbind outcome_bind]; [done| |done..].
    destruct (attributes e) as [attr| | |]; cbn [mbind outcome_bind]; [|done..]. destruct (attr =? ATTR_LFN_ENTRY).
    + destruct (get_filename e); cbn [mbind outcome_bind]; [apply IH|done..].
    + destruct (get_first_cluster_number e) as [c| | |]; cbn [mbind outcome_bind]; [|done..].
      destruct (set_first_cluster_number _ _); cbn [mbind outcome_bind]; [|done..]. destruct (f _ _) as [a1 []]; [done|apply IH].
Qed.

(** The first entries do not depend on the others. *)
Lemma iterate_prefix K b b' off name index a : is_block b -> is_block b' -> 0 <= off -> off + 32 * Z.of_nat K <= 512 ->
  (forall i, off <= i < off + 32 * Z.of_nat K -> get8 b' i = get8 b i) ->
  iterate_entries f K root n b' off name index a = iterate_entries f K root n b off name index a.
Proof.
  intros Hb Hb'. revert off name index a. induction K as [|K IH]; intros off name index a Ho Hl Hg; [done|]. cbn [iterate_entries].
  assert (He : dentry_at b' off = dentry_at b off).
  { pose proof (dentry_at_ok b off Hb ltac:(lia)) as [[H1 _] _]. pose proof (dentry_at_ok b' off Hb' ltac:(lia)) as [[H2 _] _].
    apply get8_ext; [lia|]. intros i Hi. rewrite !get8_dentry by (done || lia). apply Hg. lia. }
  rewrite (proj2 (dentry_at_ok b off Hb ltac:(lia))), (proj2 (dentry_at_ok b' off Hb' ltac:(lia))), He. cbn [mbind outcome_bind].
  assert (IH' : forall nm ix a, iterate_entries f K root n b' (off + 32) nm ix a = iterate_entries f K root n b (off + 32) nm ix a)
    by (intros; apply IH; [lia..|intros; apply Hg; lia]).
  destruct (is_deleted _) as [[]| | |]; cbn [mbind outcome_bind]; [apply IH'| |done..].
  destruct (is_the_end _) as [[]| | |]; cbn [mbind outcome_bind]; [done| |done..].
  destruct (attributes _) as [attr| | |]; cbn [mbind outcome_bind]; [|done..]. destruct (attr =? ATTR_LFN_ENTRY).
  - destruct (get_filename _); cbn [mbind outcome_bind]; [apply IH'|done..].
  - destruct (get_first_cluster_number _) as [c| | |]; cbn [mbind outcome_bind]; [|done..].
    destruct (set_first_cluster_number _ _); cbn [mbind outcome_bind]; [|done..]. destruct (f _ _) as [a1 []]; [done|apply IH'].
Qed.

(** Entries of a long name. *)
Lemma iterate_fentries es ts m b off name index a : is_block b -> Forall2 is_fentry es ts -> 0 <= off -> off + 32 * Z.of_nat (length es) <= 512 ->
  (forall j e, es !! j = Some e -> dentry_at b (off + 32 * Z.of_nat j) = e) ->
  iterate_entries f (length es + m) root n b off name index a =
  iterate_entries f m root n b (off + 32 * Z.of_nat (length es)) (foldl (fun nm t => t ++ nm) name ts) index a.
Proof.
  intros Hb Hes. revert off name. induction Hes as [|e t es ts He Hes IH]; intros off name Ho Hl Hat; cbn [length Nat.add foldl] in *; [by rewrite Z.add_0_r|].
  cbn [iterate_entries]. destruct He as (Hie & (c & H0 & Hc0 & Hce) & Hattr & Hfn).
  rewrite (proj2 (dentry_at_ok b off Hb ltac:(lia))). pose proof (Hat 0%nat e eq_refl) as He0. replace (off + 32 * Z.of_nat 0) with off in He0 by lia.
  rewrite He0. cbn [mbind outcome_bind]. unfold is_deleted, is_the_end, attributes. orun H0. rewrite (proj2 (Z.eqb_neq c 0xe5)) by done.
  cbn [mbind outcome_bind]. rewrite (proj2 (Z.eqb_neq c 0)) by done. orun Hattr. rewrite Z.eqb_refl. orun Hfn.
  replace (off + 32 * Z.of_nat (S (length es))) with (off + 32 + 32 * Z.of_nat (length es)) by lia. apply IH; [lia..|].
  intros j e' Hj. rewrite <- (Hat (S j) e' Hj). f_equal. lia.
Qed.

(** The entry of the file, with the long name read before it. *)
Lemma iterate_dentry m b off name index a e size first (a' : View -> A) : is_block b -> 0 <= off <= 480 -> dentry_at b off = e -> is_dentry e size first ->
  name <> [] -> 0 <= root < 2 ^ 32 -> 0 <= first < 2 ^ 32 ->
  (forall v, vw_name v = name -> vw_index v = index -> vw_cluster v = n -> vw_offset v = off -> get8 (vw_entry v) 11 = Ret 0 ->
     entry_size (vw_entry v) = Ret size -> get_first_cluster_number (vw_entry v) = Ret (if first =? 0 then root else first) -> f v a = (a' v, true)) ->
  exists v, iterate_entries f (S m) root n b off name index a = Ret (a' v, None) /\ vw_name v = name /\ vw_cluster v = n /\ vw_offset v = off /\
     get8 (vw_entry v) 11 = Ret 0 /\ entry_size (vw_entry v) = Ret size /\ get_first_cluster_number (vw_entry v) = Ret (if first =? 0 then root else first).
Proof.
  intros Hb Ho He (Hie & (c & H0 & Hc0 & Hce) & Hattr & Hsz & Hfst) Hnm Hroot Hfirst Hf. cbn [iterate_entries].
  destruct (set_first_run e (if first =? 0 then root else first) Hie) as (e' & Es & Ie & Ge & Ke); [case_match; lia|].
  assert (Hv : get8 e' 11 = Ret 0 /\ entry_size e' = Ret size).
  { split; [rewrite Ke by lia; done|]. rewrite <- Hsz. apply get32_ext. intros; apply Ke. lia. }
  exists (mkView name e' index n off). rewrite (proj2 (dentry_at_ok b off Hb Ho)), He. cbn [mbind outcome_bind].
  unfold is_deleted, is_the_end, attributes. orun H0. rewrite (proj2 (Z.eqb_neq c 0xe5)) by done.
  cbn [mbind outcome_bind]. rewrite (proj2 (Z.eqb_neq c 0)) by done. orun Hattr. change (0 =? ATTR_LFN_ENTRY) with false. cbn iota. orun Hfst. orun Es.
  destruct name as [|x name]; [done|]. rewrite Hf by (done || apply Hv). split_and!; try done; apply Hv.
Qed.
End iterate.

(** ** A file in a directory *)

Definition find_by (name : list Z) (v : View) (a : option View) : option View * bool :=
  if bool_decide (vw_name v = name) then (Some v, true) else (a, false).

(** Directory [d] with its entries in cluster [n], [K] of them in use. *)
Record directory (s : Fat) (d : FInode) (n : Z) : Prop := mkDirectory {
  di_dir : is_directory (fi_mode d) = true;
  di_first : n = if fi_first d =? 0 then root_cluster (fa_meta s) else fi_first d;
  di_cluster : 2 <= n < N s;
  di_root : 0 <= root_cluster (fa_meta s) < 2 ^ 32
}.
(** The first [K] entries end with one that has no long name before it left over,
    and none of them has the name. *)
Definition absent (s : Fat) (n K : Z) (name : list Z) : Prop :=
  exists index, iterate_entries (find_by name) (Z.to_nat K) (root_cluster (fa_meta s)) n (data s n) 0 [] 0 None = Ret (None, Some ([], index)).

(** The long name entries of [name] and its entry [e] from [off] on. *)
Definition entries_at (b : list Z) (off : Z) (name e : list Z) : Prop :=
  exists es, Forall2 is_fentry es (map (segment name) (down (nr_segments name))) /\
    forall j e', (es ++ [e]) !! j = Some e' -> dentry_at b (off + 32 * Z.of_nat j) = e'.

Lemma dir_first_run s d n : n = (if fi_first d =? 0 then root_cluster (fa_meta s) else fi_first d) -> dir_first_cluster_number d s = Ret (n, s).
Proof. by intros ->. Qed.

Lemma is_root_run s d : exists r, fat_is_root d s = Ret (r, s).
Proof. by eexists. Qed.

(** The iteration over the one cluster of a directory. *)
Lemma iterate_children_run {A} (f : View -> A -> A * bool) s d n (a a' : A) : vol_ok s -> directory s d n ->
  iterate_entries f 16 (root_cluster (fa_meta s)) n (data s n) 0 [] 0 a = Ret (a', None) -> iterate_children f d a s = Ret (a', s).
Proof.
  intros Hs [Hdir Hfirst Hn Hroot] Hit. unfold iterate_children. rewrite Hdir. cbn [negb]. msimpl. mrun (dir_first_run s d n Hfirst).
  destruct (fuel_two s Hs) as [fl ->]. cbn [iterate_chain]. rewrite (not_eoc s n Hs Hn). msimpl.
  mrun (cluster_read_run s Hs n (zeros 512) Hn eq_refl). rewrite Hit. by msimpl.
Qed.

Lemma find_child_run s d n K name e size first : vol_ok s -> directory s d n -> 0 <= K -> K + Z.of_nat (nr_segments name) < 16 ->
  absent s n K name -> entries_at (data s n) (32 * K) name e -> is_dentry e size first -> 0 <= first < 2 ^ 32 -> name <> [] ->
  find_child_if d (fun v => bool_decide (vw_name v = name)) s = Ret (Some (mkFInode name (if first =? 0 then root_cluster (fa_meta s) else first) n
                                        (32 * (K + Z.of_nat (nr_segments name))) size S_IFREG), s).
Proof.
  intros Hs Hd HK Hfit [index Habs] (es & Hes & Hat) He Hf Hne. pose proof (di_root _ _ _ Hd) as Hroot.
  assert (Hlen : length es = nr_segments name) by (rewrite (list.Forall2_length _ _ _ Hes), length_map; apply length_down).
  set (root := root_cluster (fa_meta s)) in *.
  destruct (iterate_dentry (find_by name) root n (15 - Z.to_nat K - length es) (data s n) (32 * K + 32 * Z.of_nat (length es)) name index None e size first Some)
    as (v & Hv & Vn & Vc & Vo & Va & Vs & Vf); [by apply data_ok|lia|apply Hat; by rewrite lookup_app_r, Nat.sub_diag by lia|done..| |].
  { intros v Vn _ _ _ _ _ _. unfold find_by. by rewrite bool_decide_eq_true_2. }
  assert (Hit : iterate_entries (find_by name) 16 root n (data s n) 0 [] 0 None = Ret (Some v, None)).
  { replace 16%nat with (Z.to_nat K + (length es + S (15 - Z.to_nat K - length es)))%nat by lia.
    rewrite (iterate_split _ _ _ _ _ _ _ _ _ _ _ _ _ Habs). rewrite Z.add_0_l, Z2Nat.id by lia.
    rewrite (iterate_fentries _ _ _ es (map (segment name) (down (nr_segments name)))); [|by apply data_ok|done|lia|lia|].
    - by rewrite segments_name.
    - intros j e' Hj. apply Hat. by apply lookup_app_l_Some. }
  unfold find_child_if. mrun (iterate_children_run (find_by name) s d n None (Some v) Hs Hd Hit).
  unfold attributes. rewrite Va. msimpl. rewrite Vf. msimpl. rewrite Vs. msimpl. rewrite Vn, Vc, Vo. rewrite mret_run. do 4 f_equal. lia.
Qed.

(** A name no entry has. *)
Lemma find_child_none s d n K name : vol_ok s -> directory s d n -> dir_room (data s n) K -> absent s n K name ->
  find_child_if d (fun v => bool_decide (vw_name v = name)) s = Ret (None, s).
Proof.
  intros Hs Hd HK [index Habs]. pose proof HK as [Hr _ Hf]. unfold find_child_if.
  assert (Hit : iterate_entries (find_by name) 16 (root_cluster (fa_meta s)) n (data s n) 0 [] 0 None = Ret (None, None));
    [|by mrun (iterate_children_run (find_by name) s d n None None Hs Hd Hit)].
  replace 16%nat with (Z.to_nat K + S (15 - Z.to_nat K))%nat by lia. rewrite (iterate_split _ _ _ _ _ _ _ _ _ _ _ _ _ Habs).
  rewrite Z.add_0_l, Z2Nat.id by lia. cbn [iterate_entries]. destruct (entry_k (data s n) (data_ok s Hs n) K ltac:(lia)) as [He H0]. orun He.
  unfold is_deleted, is_the_end. rewrite H0, Hf by lia. done.
Qed.

Lemma get_child_find s d name : name <> dot -> name <> dotdot ->
  fat_get_child d name s = find_child_if d (fun v => bool_decide (vw_name v = name)) s.
Proof.
  intros Hd1 Hd2. destruct (is_root_run s d) as [r Hr]. unfold fat_get_child. mrun Hr.
  rewrite (bool_decide_eq_false_2 (name = dot \/ name = dotdot)) by tauto. by rewrite andb_false_r.
Qed.

(** ** Creating a file *)

(** The eleven characters of a short name start with a space. *)
Definition short_shape (b : list Z) : Prop := length b = 11%nat /\ head b = Some 32.

Lemma short_insert b i c : (0 < i)%nat -> short_shape b -> short_shape (<[i := c]> b).
Proof. intros Hi [Hl Hh]. split; [by rewrite length_insert|]. destruct b; [done|]. by destruct i; [lia|]. Qed.

Lemma basis_name_shape m s i b b' : basis_name m s i b = Ret b' -> short_shape b -> short_shape b'.
Proof.
  revert i b. induction m as [|m IH]; intros i b H Hb; cbn [basis_name] in H; [by injection H as <-|]. obind_inv H.
  case_match; [by injection H as <-|]. apply (IH _ _ H). apply short_insert; [lia|done].
Qed.

Lemma basis_ext_shape m s i copied b b' : 0 <= copied -> basis_ext m s i copied b = Ret b' -> short_shape b -> short_shape b'.
Proof.
  revert i copied b. induction m as [|m IH]; intros i copied b Hc H Hb; cbn [basis_ext] in H; [by injection H as <-|].
  case_match; [by injection H as <-|]. obind_inv H. eapply IH; [|exact H|]; [lia|]. apply short_insert; [lia|done].
Qed.

Lemma short_name_shape basis11 s short : generate_short_filename basis11 s = Ret short -> short_shape short.
Proof.
  intros H. unfold generate_short_filename in H. obind_inv H. case_match; [done|]. do 3 obind_inv H. destruct c2 as [s2 lossy]. do 6 obind_inv H.
  assert (Hb : short_shape c6) by (eapply basis_name_shape; [eassumption|done]). obind_inv H.
  assert (Hb' : short_shape c8).
  { destruct (c7 =? npos); [by injection Hc9 as <-|]. eapply basis_ext_shape; [|eassumption|done]. lia. }
  obind_inv H. repeat case_match; simplify_eq; try done; by do 2 (apply short_insert; [lia|]).
Qed.

Lemma down_lt name i : i ∈ down (nr_segments name) -> i < Z.of_nat (length name).
Proof.
  assert (H : forall k, i ∈ down k -> i <= 13 * (Z.of_nat k - 1)).
  { induction k as [|k IH]; cbn [down]; [intros H; inversion H|]. intros [->|Hi]%elem_of_cons; [lia|]. specialize (IH Hi). lia. }
  intros Hi. specialize (H _ Hi). unfold nr_segments in H. Z.div_mod_to_equations. lia.
Qed.

(** What creating a file does to the volume: only the cluster of the directory
    changes, after its entries in use. *)
Definition created (s s' : Fat) (n K : Z) (name e : list Z) : Prop :=
  same_volume s s' /\ (forall i, 0 <= i < N s -> fat_entry s' i = fat_entry s i) /\ (forall c, 2 <= c < N s -> c <> n -> data s' c = data s c) /\
  (forall i, i < 32 * K -> get8 (data s' n) i = get8 (data s n) i) /\ entries_at (data s' n) (32 * K) name e /\ free s' = free s.

Lemma entries_created s s' n K name es e : 2 <= n < N s -> vol_ok s -> 0 <= K -> K + Z.of_nat (nr_segments name) < 16 ->
  Forall2 is_fentry es (map (segment name) (down (nr_segments name))) -> is_entry e ->
  effect s s' (fat_entry s) (upd (data s) n (put_entries (data s n) (32 * K) (es ++ [e]))) -> created s s' n K name e.
Proof.
  intros Hn Hs HK Hfit Hes He F. destruct (free_same _ _ _ F) as [Hfree _]. pose proof (effect_same _ _ _ _ F) as V. destruct F as (_ & _ & _ & A & D).
  assert (Hlen : length es = nr_segments name) by (rewrite (list.Forall2_length _ _ _ Hes), length_map; apply length_down).
  assert (Hall : Forall is_entry (es ++ [e])).
  { apply list.Forall_app. split; [|by apply list.Forall_singleton].
    clear -Hes. induction Hes as [|x t es ts Hx Hes IH]; [by apply list.Forall_nil|]. apply list.Forall_cons. split; [apply Hx|done]. }
  destruct (put_entries_ok (es ++ [e]) (data s n) (32 * K) (data_ok s Hs n) Hall) as (_ & Hat & Hk); [lia|rewrite length_app; cbn [length]; lia|].
  assert (Dn : data s' n = put_entries (data s n) (32 * K) (es ++ [e])) by (rewrite D by done; apply upd_eq).
  unfold created. rewrite Dn. split_and!; try done.
  - intros c Hc Hcn. rewrite D by done. by apply upd_ne.
  - intros i Hi. apply Hk. lia.
  - by exists es.
Qed.

Lemma fat_create_run s d n K basis11 beyond name size short : vol_ok s -> free s <> [] -> directory s d n -> dir_room (data s n) K ->
  ascii name -> K + Z.of_nat (nr_segments name) <= 13 -> generate_short_filename basis11 (Some (name ++ [0])) = Ret short ->
  exists s' e, fat_create_child basis11 beyond d name size S_IFREG s =
      Ret (Some (mkFInode name 0 n (32 * (K + Z.of_nat (nr_segments name))) 0 S_IFREG), s') /\
    is_dentry e (u32 size) 0 /\ created s s' n K name e.
Proof.
  intros Hs Hf Hd HK Ha Hfit Hshort. pose proof Hd as [Hdir Hfirst Hn Hroot]. pose proof (dr_range _ _ HK) as HKr.
  destruct (short_name_shape _ _ _ Hshort) as [Hsl Hsh]. destruct (filename_ucs_run beyond name Ha) as (ucs & Hucs & Hh).
  set (k := nr_segments name) in *.
  assert (Hlu : (length name < length ucs)%nat).
  { assert (H : length (take (length (name ++ [0])) ucs) = length (name ++ [0])) by (by rewrite Hh). rewrite length_take, length_app in H. cbn in H. lia. }
  destruct (create_entries_run d beyond ucs name short 32 size n Hh Ha Hsl Hsh ltac:(done) ltac:(done) k (down_lt name) ltac:(lia)
              s (data s n) (32 * K) false (Z.to_nat (16 - K)) Hs Hf Hn (data_ok s Hs n)) as (s' & es & e & E & Hes & He & F); [lia..|].
  exists s', e. split; [|split; [done|]; apply (entries_created s s' n K name es e); [done..|lia|lia|done|apply He|done]].
  unfold fat_create_child. rewrite Hdir. cbn [negb]. rewrite Hshort. msimpl. rewrite Hucs. msimpl.
  rewrite (unit_count_run ucs name Hh Ha), (name_segments_run name (length ucs) Hlu), length_down. fold k. mrun (dir_first_run s d n Hfirst).
  mrun (search_chain_run s n K Hs Hn HK (Z.of_nat k + 1) (zeros 512) (mkSearch 0 0 0 true) eq_refl eq_refl).
  cbn [se_counter se_number se_offset]. rewrite (proj2 (Z.ltb_lt 0 _)) by lia. replace (Z.of_nat k + 1 + 1) with (Z.of_nat (k + 2)) by lia.
  mrun (allocate_chain_run s n K Hs Hn HK (k + 2) (data s n) ltac:(lia) ltac:(lia) (proj1 (data_ok s Hs n))).
  destruct (fuel_two s Hs) as [fl ->]. cbn [create_chain]. rewrite (not_eoc s n Hs Hn).
  mrun (cluster_read_run s Hs n (data s n) Hn (proj1 (data_ok s Hs n))). replace (512 - 32 * K) with ((16 - K) * 32) by lia. rewrite Z.div_mul by lia.
  replace (32 * (K + Z.of_nat k)) with (32 * K + 32 * Z.of_nat k) by lia. by mrun E.
Qed.

(** ** From creation to contents *)

Lemma dentry_put_ne b off off' e : is_block b -> is_entry e -> 0 <= off <= 480 -> 0 <= off' <= 480 -> off' + 32 <= off ->
  dentry_at (put_entry b off e) off' = dentry_at b off'.
Proof.
  intros Hb He Ho Ho' Hlt. destruct (put_entry_ok b off e Hb He Ho) as (Hp & _ & _).
  destruct (dentry_at_ok b off' Hb Ho') as [[L1 _] _], (dentry_at_ok _ off' Hp Ho') as [[L2 _] _].
  apply get8_ext; [lia|]. intros i Hi. rewrite !get8_dentry by (done || lia). apply get8_put; [done..|lia].
Qed.

(** Another entry for the same name. *)
Lemma entries_at_put b off name e e' : is_block b -> entries_at b off name e -> is_entry e' -> 0 <= off ->
  off + 32 * Z.of_nat (nr_segments name) <= 480 -> entries_at (put_entry b (off + 32 * Z.of_nat (nr_segments name)) e') off name e'.
Proof.
  intros Hb (es & Hes & Hat) He' Ho Hl. exists es. split; [done|].
  assert (Hlen : length es = nr_segments name) by (rewrite (list.Forall2_length _ _ _ Hes), length_map; apply length_down).
  intros j x Hj. destruct (decide (j < length es)%nat) as [Hlt|Hge].
  - rewrite dentry_put_ne by (done || lia). apply Hat. rewrite lookup_app_l in * by done. done.
  - rewrite lookup_app_r in Hj by lia. pose proof (lookup_lt_Some _ _ _ Hj) as Hj1. cbn in Hj1. replace (j - length es)%nat with 0%nat in Hj by lia.
    injection Hj as <-. replace j with (nr_segments name) by lia. apply put_entry_ok; [done..|lia].
Qed.

Lemma entries_at_last b off name e : entries_at b off name e -> dentry_at b (off + 32 * Z.of_nat (nr_segments name)) = e.
Proof.
  intros (es & Hes & Hat). assert (Hlen : length es = nr_segments name) by (rewrite (list.Forall2_length _ _ _ Hes), length_map; apply length_down).
  apply Hat. rewrite <- Hlen. by rewrite lookup_app_r, Nat.sub_diag by lia.
Qed.

Lemma absent_prefix s s' n K name : vol_ok s -> vol_ok s' -> fa_meta s' = fa_meta s -> 0 <= K < 16 ->
  (forall i, i < 32 * K -> get8 (data s' n) i = get8 (data s n) i) -> absent s n K name -> absent s' n K name.
Proof.
  intros Hs Hs' Hm HK Hp [index H]. exists index. rewrite <- H, Hm. apply iterate_prefix; [by apply data_ok|by apply data_ok|lia|lia|].
  intros i Hi. apply Hp. lia.
Qed.

(** What the theorem asks of the directory and the name. *)
Record can_create (s : Fat) (d : FInode) (n K basis11 : Z) (name : list Z) : Prop := mkCan {
  cc_dir : directory s d n;
  cc_used : fat_entry s n <> 0;
  cc_room : dir_room (data s n) K;
  cc_absent : absent s n K name;
  cc_ascii : ascii name;
  cc_name : name <> [] /\ name <> dot /\ name <> dotdot;
  cc_fits : K + Z.of_nat (nr_segments name) <= 13;
  cc_short : exists short, generate_short_filename basis11 (Some (name ++ [0])) = Ret short
}.

(** A new file is created, then written: it is found by its name, and the inode
    found reads as what was written. *)
Lemma create_set_find s d n K basis11 beyond name content :
  vol_ok s -> reserved s -> can_create s d n K basis11 name ->
  bytes content -> free s <> [] -> Z.of_nat (length content) <= 512 * Z.of_nat (length (free s)) -> Z.of_nat (length content) < 2 ^ 31 ->
  exists child s1, fat_create_child basis11 beyond d name 0 S_IFREG s = Ret (Some child, s1) /\ same_volume s s1 /\
    fi_mode child = S_IFREG /\ fi_size child = 0 /\ fi_first child = 0 /\
    forall beyond2, exists d' s2 i buf, fat_set_content beyond2 child content (Z.of_nat (length content)) s1 = Ret (d', s2) /\ same_volume s s2 /\
      find_child_if d (fun v => bool_decide (vw_name v = name)) s2 = Ret (Some i, s2) /\
      fi_mode i = S_IFREG /\ fi_size i = Z.of_nat (length content) /\ 0 <= fi_first i < 2 ^ 32 /\
      fat_get_content i s2 = Ret (Some buf, s2) /\ take (length content) buf = content /\
      (forall i, i < 32 * K -> get8 (data s2 n) i = get8 (data s n) i) /\
      (forall c, 2 <= c < N s -> c <> n -> fat_entry s c <> 0 -> fat_entry s2 c = fat_entry s c /\ data s2 c = data s c).
Proof.
  intros Hs Hres [Hd Hused HK Habs Ha (Hne & Hdot & Hdd) Hfit [short Hshort]] Hb Hf Hroom Hsz. pose proof (dr_range _ _ HK) as HKr.
  pose proof Hd as [Hdir Hfirst Hn Hroot]. set (k := nr_segments name) in *. set (off := 32 * (K + Z.of_nat k)).
  destruct (fat_create_run s d n K basis11 beyond name 0 short Hs Hf Hd HK Ha Hfit Hshort) as (s1 & e1 & E1 & He1 & V1 & A1 & D1 & P1 & Q1 & Hfree).
  pose proof (same_N _ _ V1) as N1. fold k off in E1. set (child := mkFInode name 0 n off 0 S_IFREG) in *.
  assert (Hnew : new_file s1 child) by (constructor; cbn; [done|lia|unfold off; lia|rewrite A1; [done|lia]]).
  assert (Hres1 : reserved s1) by (unfold reserved, N in *; pose proof (vo_ts s Hs); by rewrite !A1 by lia).
  exists child, s1. split; [done|]. split; [done|]. split; [done|]. split; [done|]. split; [done|]. intros beyond2.
  destruct (set_content_spec s1 child beyond2 content (proj1 V1) Hres1 Hnew Hb) as (d' & s2 & e2 & first & buf & E2 & _ & V2 & D2 & G2 & F2 & I2 & Z2 & K2 & R2 & T2 & A2);
    [by rewrite Hfree|rewrite Hfree; lia|lia|].
  pose proof (same_trans _ _ _ V1 V2) as V. pose proof (same_N _ _ V2) as N2. cbn [child fi_parent fi_offset] in D2, K2, A2.
  assert (Hoff : off = 32 * K + 32 * Z.of_nat k) by (unfold off; lia). pose proof (entries_at_last _ _ _ _ Q1) as Hlast. fold k in Hlast. rewrite <- Hoff in Hlast.
  rewrite Hlast in K2.
  assert (Hde : is_dentry e2 (Z.of_nat (length content)) first).
  { destruct He1 as (_ & (c & Hc & Hc1) & Hat & _). split_and!; [done|exists c; rewrite K2 by lia; done|rewrite K2 by lia; done|done|done]. }
  assert (Hp2 : forall i, i < 32 * K -> get8 (data s2 n) i = get8 (data s n) i).
  { intros i Hi. rewrite D2, get8_put; [by apply P1|apply data_ok, V1|done|unfold off; lia|unfold off; lia]. }
  assert (Hq2 : entries_at (data s2 n) (32 * K) name e2) by (rewrite D2, Hoff; eapply entries_at_put; [apply data_ok, V1|done..|lia|fold k; lia]).
  assert (Hd2 : directory s2 d n) by (destruct V as (_ & _ & Hm); split; rewrite ?Hm; [done..|lia|done]).
  pose proof (vo_nr s Hs) as Hnr. unfold EOC_MIN in Hnr.
  pose proof (find_child_run s2 d n K name e2 _ first (proj1 V2) Hd2 ltac:(lia) ltac:(fold k; lia)
                (absent_prefix s s2 n K name Hs (proj1 V2) (proj2 (proj2 V)) HKr Hp2 Habs) Hq2 Hde ltac:(lia) Hne) as E3.
  rewrite (proj2 (Z.eqb_neq first 0)) in E3 by lia. eexists d', s2, _, buf. do 3 (split; [done|]).
  split; [done|]. split; [done|]. split; [cbn; lia|]. split; [exact R2|]. split; [done|]. split; [done|].
  intros c Hc Hcn Hc0. destruct (A2 c) as [Ha2 Hd2c]; [lia|rewrite A1; [done|lia]|]. rewrite Ha2, A1, Hd2c by (done || lia). split; [done|]. by apply D1.
Qed.

(** A new file of directory [d] is written, looked up and read. *)
Definition create_write_read (basis11 : Z) (beyond beyond2 : Z -> Z) (d : FInode) (name content : list Z) : FatM (option (list Z)) :=
  c ← fat_create_child basis11 beyond d name 0 S_IFREG;
  match c with
  | None => mret None
  | Some c =>
      fat_set_content beyond2 c content (Z.of_nat (length content));;
      f ← fat_get_child d name;
      match f with None => mret None | Some f => fat_get_content f end
  end.

(** C26. In a directory with room in its cluster, a file with a new ASCII name is
    created, written and looked up by its name: reading the inode found gives the
    bytes written, through the long name entries, the directory entry and the
    cluster chain on disk.  The entries of the directory before the new ones, and
    the data and table entries of all other clusters in use, stay as they were. *)
Theorem fat_create_write_find_read s d n K basis11 beyond beyond2 name content :
  vol_ok s -> reserved s -> can_create s d n K basis11 name ->
  bytes content -> free s <> [] -> Z.of_nat (length content) <= 512 * Z.of_nat (length (free s)) -> Z.of_nat (length content) < 2 ^ 31 ->
  exists buf s', create_write_read basis11 beyond beyond2 d name content s = Ret (Some buf, s') /\
    take (length content) buf = content /\ same_volume s s' /\
    (forall i, i < 32 * K -> get8 (data s' n) i = get8 (data s n) i) /\
    (forall c, 2 <= c < N s -> c <> n -> fat_entry s c <> 0 -> fat_entry s' c = fat_entry s c /\ data s' c = data s c).
Proof.
  intros Hs Hres Hcan Hb Hf Hroom Hsz. destruct (cc_name _ _ _ _ _ _ Hcan) as (_ & Hdot & Hdd).
  destruct (create_set_find s d n K basis11 beyond name content Hs Hres Hcan Hb Hf Hroom Hsz) as (child & s1 & E1 & _ & _ & _ & _ & Hset).
  destruct (Hset beyond2) as (d' & s2 & i & buf & E2 & V & E3 & _ & _ & _ & R & T & P & A). exists buf, s2. split; [|done].
  unfold create_write_read. mrun E1. mrun E2. rewrite <- get_child_find in E3 by done. mrun E3. exact R.
Qed.

Lemma demo_can_create : can_create demo_fat (root_inode demo_boot) 2 0 0 name_a.
Proof.
  constructor.
  - by constructor.
  - by vm_compute.
  - constructor; [lia|lia|]. intros k Hk.
    assert (H : all_from 16 (fun k => match get8 (data demo_fat 2) (32 * k) with Ret 0 => true | _ => false end) 0 = true) by (by vm_compute).
    pose proof (all_from_spec _ _ _ k H ltac:(lia)) as Hg. cbv beta in Hg. destruct (get8 (data demo_fat 2) (32 * k)) as [[]| | |]; done.
  - by exists 0.
  - repeat constructor; lia.
  - by split_and!.
  - by vm_compute.
  - eexists. by vm_compute.
Qed.

Lemma fat_create_write_find_read_witness : exists buf s',
  create_write_read 0 (fun _ => 0) (fun _ => 0) (root_inode demo_boot) name_a [104; 105] demo_fat = Ret (Some buf, s') /\ take 2 buf = [104; 105].
Proof.
  destruct (fat_create_write_find_read demo_fat (root_inode demo_boot) 2 0 0 (fun _ => 0) (fun _ => 0) name_a [104; 105]) as (buf & s' & H1 & H2 & _).
  - exact demo_vol_ok.
  - split; by vm_compute.
  - exact demo_can_create.
  - repeat constructor; lia.
  - by vm_compute.
  - by vm_compute.
  - by vm_compute.
  - exists buf, s'. exact (conj H1 H2).
Defined.
