(* ===== verification/Vfs.v ===== *)
(** * fs/VirtualFileSystem.cc: the virtual file system

    The operations of class [VFS] over the virtual functions of the vnodes. *)

From Stdlib Require Import ZArith Lia.
From stdpp Require Import base gmap list numbers.
From S2P Require Import Prelude Mutex CString KString Printf Cpio Console Vnode TmpFS.

Open Scope Z_scope.

Definition slash : Z := 47.
Definition name_tmpfs : list Z := [116; 109; 112; 102; 115].
Definition name_procfs : list Z := [112; 114; 111; 99; 102; 115].
(** "devtmpfs" *)
Definition name_devtmpfs : list Z := [100; 101; 118; 116; 109; 112; 102; 115].
Definition path_dev : list Z := [47; 100; 101; 118].
Definition path_proc : list Z := [47; 112; 114; 111; 99].
Definition path_console : list Z := path_dev ++ 47 :: console_name.
(** "/dev/sd%c" and "abcd" *)
Definition fmt_sd : list Z := path_dev ++ [47; 115; 100; 37; 99].
Definition sd_table : list Z := [97; 98; 99; 100; 0].
Definition NAME_LEN : Z := 256.

Section vfs.
Context {F : Type} `{Vnodes F} `{FileSystems F}.
Abbreviation FM := (M (VFS F)).

(** [VFS::VFS()], with no file system and no device. *)
Definition new_vfs (c : Cpu) (fs : F) (u : Uart) : VFS F := mkVFS c fs 0 1 [] ∅ 1 [] [] [] u 0.

(** ** Paths *)

(** [_mounts.find_if] on the hash of the host vnode. *)
Fixpoint find_mount (ms : list Mount) (v : Z) : FM (option Mount) :=
  match ms with
  | [] => mret None
  | m :: ms =>
      h1 ← hash_code (host_vnode m);
      h2 ← hash_code v;
      if h1 =? h2 then mret (Some m) else find_mount ms v
  end.
Definition get_mounted_vnode_or_host_vnode (v : Z) : FM Z :=
  guarded (
    if v =? 0 then mret 0
    else
      s ← get;
      m ← find_mount (v_mounts s) v;
      mret (match m with Some m => guest_vnode m | None => v end)).

(** [get_rootfs().get_root_vnode()] *)
Definition root_vnode : FM Z :=
  s ← get; match v_mounts s with [] => fault | m :: _ => mret (guest_fs m) end.

(** The loop over the components: the vnode reached and [*out_parent]. *)
Fixpoint walk_components (cs : list (list Z)) (vnode out_parent : Z) : FM (Z * Z) :=
  match cs with
  | [] => mret (vnode, out_parent)
  | c :: rest =>
      let out_parent := match rest with [] => vnode | _ => out_parent end in
      ch ← get_child vnode c;
      child ← get_mounted_vnode_or_host_vnode ch;
      if child =? 0 then mret (0, out_parent) else walk_components rest child out_parent
  end.

(** The target with what is stored through [out_parent] and [out_basename],
    which are null and empty before the call. *)
Definition resolve_path (pathname : list Z) : FM (Z * Z * list Z) :=
  guarded (
    if decide (pathname = dot) then s ← get; mret (v_cwd s, 0, [])
    else
      let cs := components slash pathname in
      match cs with
      | [] => r ← root_vnode; mret (r, 0, [])
      | c :: rest =>
          root ← (if decide (head pathname = Some slash) then root_vnode else s ← get; mret (v_cwd s));
          match rest with
          | [] =>
              ch ← get_child root c;
              t ← get_mounted_vnode_or_host_vnode ch;
              mret (t, root, c)
          | _ =>
              r ← walk_components cs root 0;
              mret (fst r, snd r, List.last cs [])
          end
      end).

(** ** Opened files *)

Definition rd_file (f : Z) : FM File := s ← get; deref (v_files s !! f).
Definition wr_pos (f pos : Z) : FM unit :=
  x ← rd_file f;
  modify (fun s => set_v_files (<[f := mkFile (f_vnode x) pos (f_options x)]> (v_files s)) (v_next_file s) s).

(** [_opened_files.find_if] on the vnode. *)
Fixpoint find_opened (fs : list Z) (vnode : Z) : FM (option Z) :=
  match fs with
  | [] => mret None
  | f :: fs => x ← rd_file f; if f_vnode x =? vnode then mret (Some f) else find_opened fs vnode
  end.

(** [_opened_files.push_back(make_shared<File>(get_rootfs(), target, options))] *)
Definition push_file (target options : Z) : FM Z :=
  _ ← root_vnode;
  s ← get;
  let f := v_next_file s in
  put (set_v_opened (v_opened s ++ [f]) (set_v_files (<[f := mkFile target 0 options]> (v_files s)) (f + 1) s));;
  mret f.

Definition create (pathname : list Z) (content : option (list Z)) (size mode uid gid : Z) : FM Z :=
  guarded (
    if decide (pathname = dot \/ pathname = dotdot) then mret 0
    else
      r ← resolve_path pathname;
      let '(target, parent, basename) := r in
      if negb (target =? 0) then mret 0
      else if parent =? 0 then mret 0
      else create_child parent basename content size mode 0 0).

Definition open (pathname : list Z) (options : Z) : FM Z :=
  guarded (
    r ← resolve_path pathname;
    let target := fst (fst r) in
    s ← get;
    it ← find_opened (v_opened s) target;
    match it with
    | Some f => mret f
    | None =>
        if negb (target =? 0) then push_file target options
        else if Z.land options O_CREAT =? 0 then mret 0
        else
          target ← create pathname None 0 S_IFREG 0 0;
          push_file target options
    end).

(** [use_count] is the number of references to the file at the test. *)
Definition close (use_count file : Z) : FM Z :=
  guarded (
    if file =? 0 then mret (-1)
    else
      x ← rd_file file;
      s ← get;
      it ← find_opened (v_opened s) (f_vnode x);
      match it with
      | None => mret (-1)
      | Some f =>
          wr_pos file 0;;
          (if use_count <=? 3 then
             modify (fun s => set_v_opened (drop_first f (v_opened s)) s)
           else mret tt);;
          mret 0
      end).

(** ** Devices *)

Definition register_device (d : Device) : FM Z :=
  s ← get;
  let dev := dev_encode (u32 (v_next_dev_major s)) 0 in
  put (set_v_devices (u64 (v_next_dev_major s + 1)) (v_devices s ++ [(dev, d)]) s);;
  mret dev.

Definition find_registered_device (dev : Z) : FM (option Device) :=
  s ← get; mret ((fun x => snd (snd x)) <$> list_find (fun e => dev_major dev = dev_major (fst e)) (v_devices s)).

Definition on_uart {A} (m : M Uart A) : FM A := zoom v_uart set_v_uart m.

(** ** Reading and writing *)

(** [memcpy] of [len] bytes from [b + pos]. *)
Definition slice (b : list Z) (pos len : Z) : option (list Z) :=
  if decide (pos + len <= Z.of_nat (length b)) then Some (take (Z.to_nat len) (drop (Z.to_nat pos) b)) else None.
Definition slice_opt (b : option (list Z)) (pos len : Z) : option (list Z) :=
  if len =? 0 then Some [] else match b with Some b => slice b pos len | None => None end.

(** [buf] is the caller's buffer. *)
Definition write (file : Z) (buf : list Z) (len : Z) : FM Z :=
  guarded (
    if file =? 0 then mret (-1)
    else
      x ← rd_file file;
      mode ← vn_mode (f_vnode x);
      ok ← (if is_regular_file mode then
              new_content ← deref (slice buf 0 len);
              set_content (f_vnode x) (Some new_content) len;;
              mret true
            else if is_character_device mode then
              dev ← vn_dev (f_vnode x);
              cdev ← find_registered_device dev;
              match cdev with
              | Some ConsoleDevice => on_uart (console_write (arr_get buf) len);; mret true
              | Some (StorageDev _) => if len =? 0 then mret true else fault
              | None => fault
              end
            else mret false);
      if (ok : bool) then wr_pos file (u64 (f_pos x + len));; mret (s32 len) else mret (-1)).

(** The bytes of a [DirectoryEntry] with this name: the array is not cleared,
    [junk] is what it holds, and [strncpy] stops at the length of the name. *)
Definition dirent (junk name : list Z) : list Z :=
  let n := Nat.min (length name) (Z.to_nat NAME_LEN) in take n name ++ drop n junk.

(** The bytes put into [buf] and the result; [bufsz] is the size of [buf] and
    [junk] what the stack holds where the directory entry is. *)
Definition read (junk buf : list Z) (file : Z) (len : Z) : FM (list Z * Z) :=
  guarded (
    if file =? 0 then mret (buf, -1)
    else
      x ← rd_file file;
      let v := f_vnode x in
      mode ← vn_mode v;
      if is_regular_file mode then
        content ← get_content v;
        size ← vn_size v;
        let readable_size := u64 (size - f_pos x) in
        let len := Z.min len readable_size in
        data ← deref (slice_opt content (f_pos x) len);
        buf ← deref (if decide (len <= Z.of_nat (length buf)) then Some (data ++ drop (Z.to_nat len) buf) else None);
        wr_pos file (u64 (f_pos x + len));;
        mret (buf, s32 len)
      else if is_directory mode then
        n ← get_children_count v;
        if n <=? f_pos x then wr_pos file 0;; mret (buf, 0)
        else
          child ← get_ith_child v (f_pos x);
          if child =? 0 then panic
          else
            name ← (if f_pos x =? 0 then mret dot else if f_pos x =? 1 then mret dotdot else get_name child);
            buf ← deref (if decide (NAME_LEN <= Z.of_nat (length buf))
                         then Some (dirent junk name ++ drop (Z.to_nat NAME_LEN) buf) else None);
            wr_pos file (u64 (f_pos x + 1));;
            mret (buf, NAME_LEN)
      else if is_character_device mode then
        dev ← vn_dev v;
        cdev ← find_registered_device dev;
        match cdev with
        | Some ConsoleDevice => r ← on_uart (console_read buf len); mret (fst r, s32 len)
        | Some (StorageDev _) => if len =? 0 then mret (buf, 0) else fault
        | None => fault
        end
      else mret (buf, -1)).

(** ** The other calls *)

Definition access (pathname : list Z) (options : Z) : FM Z :=
  guarded (r ← resolve_path pathname; mret (if fst (fst r) =? 0 then -1 else 0)).

Definition mkdir (pathname : list Z) : FM Z :=
  guarded (v ← create pathname None 0 S_IFDIR 0 0; mret (if v =? 0 then -1 else 0)).

Definition rmdir (pathname : list Z) : FM Z := guarded (mret (-1)).
Definition unlink (pathname : list Z) : FM Z := guarded (mret (-1)).

(** [_mounts.push_back(make_unique<Mount>(fs, root, host))] *)
Definition push_mount (root host : Z) : FM unit :=
  modify (fun s => set_v_mounts (v_mounts s ++ [mkMount root root host]) s).

Definition mount (device mountpoint fs_name : list Z) : FM Z :=
  guarded (
    r ← resolve_path mountpoint;
    let vnode := fst (fst r) in
    if vnode =? 0 then mret (-1)
    else
      (if decide (fs_name = name_tmpfs) then root ← make_tmpfs; push_mount root vnode
       else if decide (fs_name = name_procfs) then root ← make_procfs; push_mount root vnode
       else mret tt);;
      mret 0).

(** [_mounts.remove_if] on the guest vnode. *)
Fixpoint drop_guest (v : Z) (ms : list Mount) : list Mount :=
  match ms with [] => [] | m :: ms => if guest_vnode m =? v then ms else m :: drop_guest v ms end.
Definition umount (mountpoint : list Z) : FM Z :=
  guarded (
    r ← resolve_path mountpoint;
    let vnode := fst (fst r) in
    if vnode =? 0 then mret (-1)
    else
      s ← get;
      match find_guest vnode (v_mounts s) with
      | None => mret (-1)
      | Some _ => put (set_v_mounts (drop_guest vnode (v_mounts s)) s);; mret 0
      end).

Definition mknod (pathname : list Z) (mode dev : Z) : FM Z :=
  guarded (
    if (Z.land mode S_IFCHR =? 0) && (Z.land mode S_IFBLK =? 0) && (Z.land mode S_IFIFO =? 0) then mret (-1)
    else
      vnode ← create pathname None 0 mode 0 0;
      if vnode =? 0 then mret (-1)
      else set_dev vnode dev;; mret 0).

(** ** Mounting at boot *)

Definition mount_rootfs (fs_root : Z) : FM unit :=
  s ← get;
  match v_mounts s with
  | [] => push_mount fs_root fs_root
  | _ => panic
  end.

(** The overload that unpacks an archive at [base]: the callback, then the whole. *)
Definition unpack_entry (r : reader) (fuel : nat) (e : Entry) : FM unit :=
  let mode := if content_len e =? 0 then S_IFDIR else S_IFREG in
  path ← lift (read_string r fuel (Cpio.pathname e));
  c ← (if Cpio.content e =? 0 then mret None else bs ← lift (read_n r (Z.to_nat (content_len e)) (Cpio.content e)); mret (Some bs));
  create path c (content_len e) mode 0 0;;
  mret tt.
Definition mount_rootfs_archive (r : reader) (fuel : nat) (base fs_root : Z) : FM unit :=
  mount_rootfs fs_root;;
  ok ← lift (archive_is_valid r base);
  if negb ok then panic else for_each r fuel (unpack_entry r fuel) base.

Definition mount_devtmpfs : FM unit :=
  _ ← mkdir path_dev;
  r ← mount name_devtmpfs path_dev name_tmpfs;
  if r =? -1 then panic else mret tt.

Definition mount_procfs : FM unit :=
  _ ← mkdir path_proc;
  r ← mount name_procfs path_proc name_procfs;
  if r =? -1 then panic else mret tt.

(** The loop over the storage devices of [populate_devtmpfs]; a device node
    that cannot be made is ignored. *)
Fixpoint populate_storage (devs : list (list Z)) (index : Z) : FM unit :=
  match devs with
  | [] => mret tt
  | name :: devs =>
      c ← deref (arr_get sd_table index);
      pathname ← lift (tfp_sprintf fmt_sd [VInt c]);
      dev ← register_device (StorageDev name);
      _ ← mknod pathname S_IFBLK (dev_encode (dev_major dev) 1);
      populate_storage devs (index + 1)
  end.
Definition populate_devtmpfs : FM unit :=
  dev ← register_device ConsoleDevice;
  _ ← mknod path_console S_IFCHR (dev_encode (dev_major dev) 1);
  s ← get;
  populate_storage (v_storage s) 0.
End vfs.
