(* ===== verification/VfsSpec.v ===== *)
(** * What path lookup promises

    Lookups in a file system that does not change when it is read are functions
    of the state; [PureVnodes] states that of a file system, [resolve_path] is
    proved to follow the components of a path against it, and TmpFS is shown to
    satisfy it. *)

From Stdlib Require Import ZArith Lia.
From stdpp Require Import base gmap list numbers.
From S2P Require Import Prelude Mutex CString KString Console Vnode TmpFS Vfs.

Open Scope Z_scope.

(** ** Computations that only read *)

Lemma lift_bind {S A B} (o : outcome A) (k : A -> outcome B) (s : S) :
  lift (o ≫= k) s = match o with Ret a => lift (k a) s | Panic => Panic | Fault => Fault | OutOfFuel => OutOfFuel end.
Proof. by destruct o. Qed.

Lemma bind_lift {S A B} (m : M S A) (k : A -> M S B) (s : S) o g :
  m s = lift o s -> (forall a, o = Ret a -> k a s = lift (g a) s) -> (m ≫= k) s = lift (o ≫= g) s.
Proof. intros Hm Hk. rewrite lift_bind. unfold mbind, M_bind. rewrite Hm. destruct o; simpl; auto. Qed.

Lemma M_assoc {S A B C} (m : M S A) (f : A -> M S B) (g : B -> M S C) s :
  (x ← m; y ← f x; g y) s = (y ← (x ← m; f x); g y) s.
Proof. unfold mbind, M_bind. destruct (m s) as [[a s1]| | |]; done. Qed.

(** Room for [n] more nested critical sections. *)
Definition cpu_room (n : Z) (c : Cpu) : Prop := cpu_ok c /\ depth c + n < INT_MAX.

Lemma cpu_room_ok n c : cpu_room n c -> cpu_ok c.
Proof. by intros []. Qed.
Lemma cpu_room_entered n m c : cpu_room n c -> 0 <= m < n -> cpu_room m (entered c).
Proof.
  intros [Hok Hr] Hm. unfold cpu_room, entered, cpu_ok in *. destruct c as [[] i l d]; simpl in *; [|lia].
  destruct Hok as (? & ? & ?). rewrite (proj2 (Z.eqb_neq (d + 1) 0)) by lia. split_and!; (done || lia).
Qed.
Lemma cpu_room_le n m c : cpu_room n c -> m <= n -> cpu_room m c.
Proof. intros [] ?. split; [done|lia]. Qed.

Lemma guarded_lift {S A} `{HasCpuLaws S} (body : M S A) (s : S) o :
  cpu_ok (cpu_of s) -> body (with_cpu (entered (cpu_of s)) s) = lift o (with_cpu (entered (cpu_of s)) s) ->
  guarded body s = lift o s.
Proof.
  intros Hok Hb. destruct o as [a| | |].
  - rewrite (guarded_spec body s s a Hok Hb). by rewrite with_cpu_of.
  - by apply guarded_panic.
  - unfold guarded, mbind, M_bind, zoom. by rewrite (lock_spec _ Hok), Hb.
  - unfold guarded, mbind, M_bind, zoom. by rewrite (lock_spec _ Hok), Hb.
Qed.

(** ** The interface *)

Class PureVnodes (F : Type) `{Vnodes F} := {
  child_of : VFS F -> Z -> list Z -> outcome Z;
  hash_of : VFS F -> Z -> outcome Z;
  get_child_lift s v name : cpu_ok (cpu_of s) -> get_child v name s = lift (child_of s v name) s;
  hash_code_lift s v : hash_code v s = lift (hash_of s v) s;
  child_of_cpu c s : child_of (with_cpu c s) = child_of s;
  hash_of_cpu c s : hash_of (with_cpu c s) = hash_of s
}.

(** ** Path lookup as a function *)

Section lookup.
Context {F : Type} `{PureVnodes F}.
Implicit Types s : VFS F.

(** What is seen at a vnode: the root of the first file system mounted on a
    vnode of the same hash, or the vnode itself. *)
Fixpoint mount_at (s : VFS F) (ms : list Mount) (v : Z) : outcome Z :=
  match ms with
  | [] => Ret v
  | m :: ms => h1 ← hash_of s (host_vnode m); h2 ← hash_of s v; if h1 =? h2 then Ret (guest_vnode m) else mount_at s ms v
  end.
Definition seen_at (s : VFS F) (v : Z) : outcome Z := if v =? 0 then Ret 0 else mount_at s (v_mounts s) v.
Definition step (s : VFS F) (v : Z) (name : list Z) : outcome Z := c ← child_of s v name; seen_at s c.

(** The vnode that [cs] leads to from [v], 0 if one of them does not exist. *)
Fixpoint follow (s : VFS F) (cs : list (list Z)) (v : Z) : outcome Z :=
  match cs with
  | [] => Ret v
  | c :: cs => w ← step s v c; if w =? 0 then Ret 0 else follow s cs w
  end.

(** Where a path starts. *)
Definition start (s : VFS F) (pathname : list Z) : outcome Z :=
  if decide (head pathname = Some slash) then match v_mounts s with [] => Fault | m :: _ => Ret (guest_fs m) end
  else Ret (v_cwd s).

Lemma mount_at_cpu c s ms v : mount_at (with_cpu c s) ms v = mount_at s ms v.
Proof. induction ms as [|m ms IH]; cbn [mount_at]; [done|]. by rewrite IH, hash_of_cpu. Qed.
Lemma seen_at_cpu c s v : seen_at (with_cpu c s) v = seen_at s v.
Proof. unfold seen_at. by rewrite mount_at_cpu. Qed.
Lemma step_cpu c s v name : step (with_cpu c s) v name = step s v name.
Proof. unfold step. rewrite child_of_cpu. destruct (child_of s v name); simpl; [apply seen_at_cpu|done..]. Qed.
Lemma follow_cpu c s cs v : follow (with_cpu c s) cs v = follow s cs v.
Proof.
  revert v. induction cs as [|x cs IH]; intros v; cbn [follow]; [done|]. rewrite step_cpu.
  destruct (step s v x) as [w| | |]; simpl; [|done..]. destruct (w =? 0); [done|apply IH].
Qed.

Lemma find_mount_lift s ms v :
  (m ← find_mount ms v; mret (match m with Some m => guest_vnode m | None => v end)) s = lift (mount_at s ms v) s.
Proof.
  induction ms as [|m ms IH]; cbn [find_mount mount_at]; [done|].
  unfold mbind, M_bind in IH |- *. rewrite hash_code_lift. destruct (hash_of s (host_vnode m)) as [h1| | |]; simpl; [|done..].
  rewrite hash_code_lift. destruct (hash_of s v) as [h2| | |]; simpl; [|done..]. destruct (h1 =? h2); [done|exact IH].
Qed.

Lemma get_mounted_lift s v : cpu_ok (cpu_of s) -> get_mounted_vnode_or_host_vnode v s = lift (seen_at s v) s.
Proof.
  intros Hok. unfold get_mounted_vnode_or_host_vnode. apply guarded_lift; [done|].
  rewrite <- (seen_at_cpu (entered (cpu_of s)) s v). unfold seen_at. destruct (v =? 0); [done|]. msimpl. apply find_mount_lift.
Qed.

Lemma step_lift s v name : cpu_ok (cpu_of s) ->
  (ch ← get_child v name; get_mounted_vnode_or_host_vnode ch) s = lift (step s v name) s.
Proof. intros Hok. apply bind_lift; [by apply get_child_lift|]. intros c _. by apply get_mounted_lift. Qed.

(** [walk_components] follows the path; the parent is the vnode the path
    without its last component leads to. *)
Lemma walk_components_lift s cs name v p : cpu_ok (cpu_of s) -> v <> 0 ->
  walk_components (cs ++ [name]) v p s =
  lift (par ← follow s cs v; if par =? 0 then Ret (0, p) else t ← step s par name; Ret (t, par)) s.
Proof.
  intros Hok. revert v. induction cs as [|c cs IH]; intros v Hv; cbn [app walk_components follow].
  - rewrite M_assoc, (bind_lift _ _ _ _ (fun t => Ret (t, v)) (step_lift s v name Hok)).
    + cbn [mbind outcome_bind]. by rewrite (proj2 (Z.eqb_neq v 0) Hv).
    + intros t _. destruct (Z.eqb_spec t 0) as [->|]; done.
  - rewrite M_assoc. set (K := fun w : Z => if w =? 0 then Ret (0, p) else
      par ← follow s cs w; if par =? 0 then Ret (0, p) else t ← step s par name; Ret (t, par)).
    rewrite (bind_lift _ _ _ _ K (step_lift s v c Hok)).
    + f_equal. destruct (step s v c) as [w| | |]; [|done..]. unfold K. cbn [mbind outcome_bind]. by destruct (w =? 0).
    + intros w _. unfold K. replace (match cs ++ [name] with [] => v | _ => p end) with p by (by destruct cs).
      destruct (Z.eqb_spec w 0) as [->|Hw]; [done|]. by apply IH.
Qed.

(** [resolve_path], as a function. *)
Definition resolved (s : VFS F) (pathname : list Z) (cs : list (list Z)) (name : list Z) : outcome (Z * Z * list Z) :=
  root ← start s pathname;
  par ← follow s cs root;
  if par =? 0 then Ret (0, 0, name) else t ← step s par name; Ret (t, par, name).

Lemma resolve_path_lift s pathname cs name : cpu_room 2 (cpu_of s) -> pathname <> dot ->
  components slash pathname = cs ++ [name] -> (forall v, start s pathname = Ret v -> v <> 0) ->
  resolve_path pathname s = lift (resolved s pathname cs name) s.
Proof.
  intros Hroom Hdot Hcs Hv. unfold resolve_path. apply guarded_lift; [by eapply cpu_room_ok|].
  set (s1 := with_cpu (entered (cpu_of s)) s).
  assert (Hok1 : cpu_ok (cpu_of s1)) by (apply (cpu_room_ok 1); unfold s1; rewrite cpu_of_with; by eapply cpu_room_entered).
  rewrite decide_False, Hcs by done.
  assert (Hstart : (if decide (head pathname = Some slash) then root_vnode else s ← get; mret (v_cwd s)) s1 = lift (start s pathname) s1).
  { unfold start. case_decide; [|done]. unfold root_vnode. msimpl. change (v_mounts s1) with (v_mounts s). by destruct (v_mounts s). }
  assert (Hf : forall cs v, follow s1 cs v = follow s cs v) by (intros; apply follow_cpu).
  assert (Hst : forall v name, step s1 v name = step s v name) by (intros; apply step_cpu).
  assert (Hlast : List.last (cs ++ [name]) [] = name) by apply List.last_last.
  assert (Hwalk : forall r, r <> 0 -> (x ← walk_components (cs ++ [name]) r 0; mret (fst x, snd x, name)) s1 =
    lift (par ← follow s cs r; if par =? 0 then Ret (0, 0, name) else t ← step s par name; Ret (t, par, name)) s1).
  { intros r Hr. unfold mbind at 1. unfold M_bind at 1. rewrite (walk_components_lift s1 cs name r 0 Hok1 Hr), Hf.
    destruct (follow s cs r) as [par| | |]; [|done..]. cbn [mbind outcome_bind].
    destruct (par =? 0); [done|]. rewrite Hst. by destruct (step s par name). }
  unfold resolved. destruct cs as [|c cs].
  - cbn [app]. apply bind_lift; [exact Hstart|]. intros r Hr. cbn [follow mbind outcome_bind].
    rewrite (proj2 (Z.eqb_neq r 0)) by (by apply Hv). rewrite M_assoc, <- Hst.
    apply (bind_lift _ _ _ _ (fun t => Ret (t, r, name)) (step_lift s1 r name Hok1)). done.
  - destruct cs as [|c' cs]; cbn [app]; (apply bind_lift; [exact Hstart|]); intros r Hr;
      cbn [app] in Hwalk, Hlast; rewrite Hlast; by apply Hwalk, Hv.
Qed.

Lemma resolve_path_dot s : cpu_ok (cpu_of s) -> resolve_path dot s = Ret ((v_cwd s, 0, []), s).
Proof. intros Hok. by apply (guarded_lift _ s (Ret (v_cwd s, 0, [])) Hok). Qed.

Lemma resolve_path_root s pathname : cpu_ok (cpu_of s) -> pathname <> dot -> components slash pathname = [] ->
  resolve_path pathname s = lift (match v_mounts s with [] => Fault | m :: _ => Ret (guest_fs m, 0, []) end) s.
Proof.
  intros Hok Hdot Hcs. unfold resolve_path. apply guarded_lift; [done|]. rewrite decide_False, Hcs by done.
  unfold root_vnode. unfold mbind at 1. unfold M_bind at 1. msimpl. cbn [v_mounts with_cpu vfs_has_cpu set_v_cpu]. by destruct (v_mounts s).
Qed.
End lookup.
