(* ===== verification/TmpFSSpec.v ===== *)
(** * TmpFS as a tree of directories

    Lookups in TmpFS are functions of its heap, so TmpFS is a [PureVnodes];
    creating a file makes exactly its own path resolve to it, and leaves every
    path that resolved before as it was. *)

From Stdlib Require Import ZArith Lia.
From stdpp Require Import base gmap list numbers sets.
From S2P Require Import Prelude Mutex CString KString Console Vnode TmpFS Vfs VfsSpec.

Open Scope Z_scope.

Definition heap (s : VFS TmpHeap) : gmap Z Inode := th_inodes (v_fs s).

(** ** Lookups as functions *)

Definition inode_at (h : gmap Z Inode) (v : Z) : outcome Inode := match h !! v with Some i => Ret i | None => Fault end.
Fixpoint named (h : gmap Z Inode) (name : list Z) (cs : list Z) : outcome Z :=
  match cs with
  | [] => Ret 0
  | c :: cs => i ← inode_at h c; if decide (i_name i = name) then Ret c else named h name cs
  end.
Fixpoint up (fuel : nat) (h : gmap Z Inode) (ms : list Mount) (v : Z) : outcome Z :=
  match fuel with
  | O => OutOfFuel
  | S fuel =>
      i ← inode_at h v;
      if v =? i_fs i then up fuel h ms (match find_guest (i_fs i) ms with Some m => host_vnode m | None => 0 end)
      else Ret (i_parent i)
  end.
Definition tmp_child (h : gmap Z Inode) (ms : list Mount) (v : Z) (name : list Z) : outcome Z :=
  if decide (name = dot) then Ret v
  else if decide (name = dotdot) then up (S (length ms)) h ms v
  else i ← inode_at h v; named h name (i_children i).

Lemma rd_inode_lift s v : rd_inode v s = lift (inode_at (heap s) v) s.
Proof. unfold rd_inode, inode_at, heap. msimpl. by destruct (_ !! v). Qed.

Lemma find_named_lift s name cs : find_named name cs s = lift (named (heap s) name cs) s.
Proof.
  induction cs as [|c cs IH]; cbn [find_named named]; [done|]. apply bind_lift; [apply rd_inode_lift|].
  intros i _. by case_decide.
Qed.

Lemma get_host_lift (s : VFS TmpHeap) v : cpu_ok (cpu_of s) ->
  get_host_vnode v s = lift (Ret (match find_guest v (v_mounts s) with Some m => host_vnode m | None => 0 end)) s.
Proof. intros Hok. unfold get_host_vnode. by apply guarded_lift. Qed.

Lemma tmp_get_parent_lift fuel s v : cpu_ok (cpu_of s) ->
  tmp_get_parent fuel v s = lift (up fuel (heap s) (v_mounts s) v) s.
Proof.
  intros Hok. revert v. induction fuel as [|fuel IH]; intros v; cbn [tmp_get_parent up]; [done|].
  destruct (inode_at (heap s) v) as [i| | |] eqn:Hi;
    [|unfold is_root_vnode, mbind, M_bind; by rewrite rd_inode_lift, Hi..]. cbn [mbind outcome_bind].
  assert (Hr : rd_inode v s = Ret (i, s)) by (by rewrite rd_inode_lift, Hi).
  assert (Hroot : is_root_vnode v s = Ret (v =? i_fs i, s)) by (unfold is_root_vnode; by mrun Hr).
  mrun Hroot. destruct (v =? i_fs i).
  - mrun Hr. mrun (get_host_lift s (i_fs i) Hok). apply IH.
  - by mrun Hr.
Qed.

Lemma tmp_get_child_lift s v name : cpu_ok (cpu_of s) ->
  tmp_get_child v name s = lift (tmp_child (heap s) (v_mounts s) v name) s.
Proof.
  intros Hok. unfold tmp_get_child, tmp_child. case_decide; [done|]. case_decide.
  - unfold parent_of. msimpl. by apply tmp_get_parent_lift.
  - apply bind_lift; [apply rd_inode_lift|]. intros i _. apply find_named_lift.
Qed.

#[export] Instance tmp_pure : PureVnodes TmpHeap.
Proof.
  refine {| child_of := fun s => tmp_child (heap s) (v_mounts s); hash_of := fun s v => i ← inode_at (heap s) v; Ret (tmp_hash i) |}.
  - intros s v name Hok. by apply tmp_get_child_lift.
  - intros s v. apply bind_lift; [apply rd_inode_lift|done].
  - done.
  - done.
Defined.

(** ** The invariant *)

Record tmp_ok (s : VFS TmpHeap) : Prop := {
  to_keys : forall v i, heap s !! v = Some i -> 0 < v < th_next (v_fs s);
  to_next : 0 < th_next (v_fs s);
  to_children : forall v i c, heap s !! v = Some i -> c ∈ i_children i ->
    exists ci, heap s !! c = Some ci /\ i_parent ci = v /\ i_fs ci = i_fs i /\ c <> i_fs ci;
  to_names : forall v i, heap s !! v = Some i -> NoDup (i_children i) /\
    forall c1 c2 i1 i2, c1 ∈ i_children i -> c2 ∈ i_children i -> heap s !! c1 = Some i1 -> heap s !! c2 = Some i2 ->
      i_name i1 = i_name i2 -> c1 = c2;
  to_parent : forall v i, heap s !! v = Some i -> v <> i_fs i -> is_Some (heap s !! i_parent i);
  to_fs : forall v i, heap s !! v = Some i -> is_Some (heap s !! i_fs i);
  to_mounts : forall m, m ∈ v_mounts s ->
    is_Some (heap s !! guest_fs m) /\ is_Some (heap s !! guest_vnode m) /\ is_Some (heap s !! host_vnode m);
  to_mounted : v_mounts s <> [];
  to_cwd : is_Some (heap s !! v_cwd s)
}.

Section invariant.
Context (s : VFS TmpHeap) (Hok : tmp_ok s).

Lemma live_nonzero v : is_Some (heap s !! v) -> v <> 0.
Proof. intros [i Hi]. pose proof (to_keys s Hok v i Hi). lia. Qed.

Lemma named_live name cs : (forall c, c ∈ cs -> is_Some (heap s !! c)) ->
  exists c, named (heap s) name cs = Ret c /\
    (c = 0 \/ (c ∈ cs /\ exists i, heap s !! c = Some i /\ i_name i = name)) /\
    (c = 0 -> forall x i, x ∈ cs -> heap s !! x = Some i -> i_name i <> name).
Proof.
  induction cs as [|x cs IH]; intros Hcs; cbn [named].
  { exists 0. split_and!; [done|by left|]. intros _ x i Hx. by apply elem_of_nil in Hx. }
  destruct (Hcs x) as [i Hi]; [left|]. unfold inode_at at 1. rewrite Hi. cbn [mbind outcome_bind]. case_decide as Hn.
  - exists x. split_and!; [done|right; split; [left|eauto]|]. intros ->. by destruct (live_nonzero 0).
  - destruct IH as (c & Hc & Hor & H0); [intros c Hc; apply Hcs; by right|]. exists c. split_and!; [done| |].
    + destruct Hor as [->|[Hin Hx]]; [by left|right; split; [by right|done]].
    + intros Hz y j Hy Hj. apply elem_of_cons in Hy as [->|Hy]; [by simplify_eq|by apply (H0 Hz y)].
Qed.

(** Going up ends in a live vnode if it ends. *)
Lemma up_live fuel v w : up fuel (heap s) (v_mounts s) v = Ret w -> is_Some (heap s !! w).
Proof.
  revert v. induction fuel as [|fuel IH]; intros v; cbn [up]; [done|]. unfold inode_at.
  destruct (heap s !! v) as [i|] eqn:Hi; cbn [mbind outcome_bind]; [|done]. destruct (Z.eqb_spec v (i_fs i)).
  - apply IH.
  - intros [= <-]. by eapply to_parent.
Qed.

Lemma find_guest_in v ms m : find_guest v ms = Some m -> m ∈ ms /\ guest_vnode m = v.
Proof.
  unfold find_guest. destruct (list_find _ ms) as [[i x]|] eqn:E; [|done]. intros [= ->].
  apply list_find_Some in E as (Hi & Hg & _). split; [by eapply list_elem_of_lookup_2|done].
Qed.

Lemma child_live v name w : is_Some (heap s !! v) -> tmp_child (heap s) (v_mounts s) v name = Ret w -> w <> 0 -> is_Some (heap s !! w).
Proof.
  intros Hv. unfold tmp_child. case_decide; [by intros [= ->]|]. case_decide; [intros Hu _; by eapply up_live|].
  destruct Hv as [i Hi]. unfold inode_at at 1. rewrite Hi. cbn [mbind outcome_bind].
  destruct (named_live name (i_children i)) as (c & -> & Hor & _).
  { intros c Hc. destruct (to_children s Hok v i c Hi Hc) as (ci & ? & _). eauto. }
  intros [= <-] Hw. destruct Hor as [|[_ (j & Hj & _)]]; [done|eauto].
Qed.

Lemma mount_at_live ms v : (forall m, m ∈ ms -> m ∈ v_mounts s) -> is_Some (heap s !! v) ->
  exists w, mount_at s ms v = Ret w /\ is_Some (heap s !! w).
Proof.
  intros Hms [i Hi]. induction ms as [|m ms IH]; cbn [mount_at]; [eauto|].
  destruct (to_mounts s Hok m) as (_ & Hg & [j Hj]); [apply Hms; left|].
  cbn [hash_of tmp_pure]. unfold inode_at. rewrite Hi, Hj. cbn [mbind outcome_bind].
  destruct (_ =? _); [eauto|]. apply IH. intros m' Hm'. apply Hms. by right.
Qed.

Lemma seen_at_live v w : v = 0 \/ is_Some (heap s !! v) -> seen_at s v = Ret w -> (w = 0 <-> v = 0) /\ (w <> 0 -> is_Some (heap s !! w)).
Proof.
  intros Hv. unfold seen_at. destruct (Z.eqb_spec v 0) as [->|Hne]; [by intros [= <-]|].
  destruct Hv as [|Hv]; [done|]. destruct (mount_at_live (v_mounts s) v) as (x & -> & Hx); [done|done|]. intros [= <-].
  pose proof (live_nonzero x Hx). split; [done|done].
Qed.

Lemma step_live v name w : is_Some (heap s !! v) -> step s v name = Ret w -> w <> 0 -> is_Some (heap s !! w).
Proof.
  intros Hv. unfold step. cbn [child_of tmp_pure].
  destruct (tmp_child (heap s) (v_mounts s) v name) as [c| | |] eqn:Hc; cbn [mbind outcome_bind]; try done.
  intros Hs Hw. destruct (seen_at_live c w) as [H0 Hl]; [|done|by apply Hl].
  destruct (decide (c = 0)) as [->|Hc0]; [by left|right]. by eapply child_live.
Qed.

Lemma start_live pathname v : start s pathname = Ret v -> is_Some (heap s !! v).
Proof.
  unfold start. case_decide.
  - destruct (v_mounts s) as [|m ms] eqn:E; [done|]. intros [= <-]. apply (to_mounts s Hok m). rewrite E. left.
  - intros [= <-]. by apply to_cwd.
Qed.
End invariant.

Lemma follow_live s cs v w : tmp_ok s -> is_Some (heap s !! v) -> follow s cs v = Ret w -> w <> 0 -> is_Some (heap s !! w).
Proof.
  intros Hok. revert v. induction cs as [|c cs IH]; intros v Hv; cbn [follow]; [by intros [= ->]|].
  destruct (step s v c) as [x| | |] eqn:Hs; cbn [mbind outcome_bind]; try done.
  destruct (Z.eqb_spec x 0) as [->|Hx]; [by intros [= <-]|]. apply IH. by eapply step_live.
Qed.

(** ** Adding a child *)

(** The inode [create_child] makes for an empty file, and the heap with it. *)
Definition fresh_inode (idx d : Z) (di : Inode) (name : list Z) (mode : Z) : Inode :=
  mkInode (u32 idx) 0 mode 0 0 0 (i_fs di) name None d [].
Definition grown (s : VFS TmpHeap) (d : Z) (di : Inode) (name : list Z) (mode : Z) : VFS TmpHeap :=
  let id := th_next (v_fs s) in
  set_v_fs (mkHeap (<[d := with_children (i_children di ++ [id]) di]>
                     (<[id := fresh_inode (v_next_inode_idx s) d di name mode]> (heap s))) (id + 1))
    (set_v_inode_idx (u64 (v_next_inode_idx s + 1)) s).

Lemma wr_inode_run s v i f : heap s !! v = Some i ->
  wr_inode v f s = Ret (tt, set_v_fs (mkHeap (<[v := f i]> (heap s)) (th_next (v_fs s))) s).
Proof.
  intros Hi. assert (Hr : rd_inode v s = Ret (i, s)) by (by rewrite rd_inode_lift; unfold inode_at; rewrite Hi).
  unfold wr_inode. by mrun Hr.
Qed.

Lemma create_child_run s d di name mode : heap s !! d = Some di -> d <> th_next (v_fs s) ->
  tmp_create_child d name None 0 mode 0 0 s = Ret (th_next (v_fs s), grown s d di name mode).
Proof.
  intros Hd Hne. assert (Hr : rd_inode d s = Ret (di, s)) by (by rewrite rd_inode_lift; unfold inode_at; rewrite Hd).
  unfold tmp_create_child. mrun Hr.
  set (s1 := set_v_fs (mkHeap (<[th_next (v_fs s) := fresh_inode (v_next_inode_idx s) d di name mode]> (heap s)) (th_next (v_fs s) + 1))
               (set_v_inode_idx (u64 (v_next_inode_idx s + 1)) s)).
  assert (Hn : new_inode (Some (i_fs di)) d name None 0 mode 0 0 s = Ret (th_next (v_fs s), s1)) by done.
  assert (Hd1 : heap s1 !! d = Some di) by (unfold s1, heap; simpl; rewrite lookup_insert_ne by auto; exact Hd).
  mrun Hn. by mrun (wr_inode_run s1 d di (fun i => with_children (i_children i ++ [th_next (v_fs s)]) i) Hd1).
Qed.

Lemma named_ext h h' n cs :
  (forall c, c ∈ cs -> exists i i', h !! c = Some i /\ h' !! c = Some i' /\ i_name i' = i_name i) -> named h' n cs = named h n cs.
Proof.
  induction cs as [|c cs IH]; intros Hcs; cbn [named]; [done|]. destruct (Hcs c) as (i & i' & Hi & Hi' & Hn); [left|].
  unfold inode_at. rewrite Hi, Hi'. cbn [mbind outcome_bind]. rewrite Hn. case_decide; [done|]. apply IH. intros x Hx. apply Hcs. by right.
Qed.

Lemma named_app_other h n cs c i : h !! c = Some i -> i_name i <> n -> named h n (cs ++ [c]) = named h n cs.
Proof.
  intros Hi Hn. induction cs as [|x cs IH]; cbn [named app].
  - unfold inode_at. rewrite Hi. cbn [mbind outcome_bind]. by case_decide.
  - by destruct (inode_at h x) as [j| | |]; cbn [mbind outcome_bind]; [case_decide|..].
Qed.

Lemma named_app h n cs c : named h n cs = Ret 0 -> (forall x, x ∈ cs -> x <> 0) -> named h n (cs ++ [c]) = named h n [c].
Proof.
  induction cs as [|x cs IH]; intros Hn Hnz; [done|]. cbn [named app] in *.
  destruct (inode_at h x) as [i| | |]; cbn [mbind outcome_bind] in *; try done. case_decide.
  - injection Hn as ->. destruct (Hnz 0); [left|done].
  - apply IH; [done|]. intros y Hy. apply Hnz. by right.
Qed.

Section grown.
Context (s : VFS TmpHeap) (Hok : tmp_ok s) (d : Z) (di : Inode) (Hd : heap s !! d = Some di) (name : list Z) (mode : Z).
Let id := th_next (v_fs s).
Let s' := grown s d di name mode.

Lemma fresh_id : heap s !! id = None.
Proof. destruct (heap s !! id) as [i|] eqn:E; [|done]. pose proof (to_keys s Hok id i E). unfold id in *. lia. Qed.
Lemma d_not_id : d <> id.
Proof. intros ->. by rewrite fresh_id in Hd. Qed.

(** What an old inode looks like in the new heap. *)
Lemma grown_old v i : heap s !! v = Some i -> exists i', heap s' !! v = Some i' /\
  i' = with_children (if decide (v = d) then i_children i ++ [id] else i_children i) i.
Proof.
  intros Hi. unfold s', grown, heap. simpl. destruct (decide (v = d)) as [->|Hne].
  - rewrite lookup_insert_eq. simplify_eq. eauto.
  - assert (Hni : id <> v) by (intros <-; rewrite fresh_id in Hi; done).
    rewrite lookup_insert_ne by auto. rewrite (lookup_insert_ne _ id v) by done. exists i. split; [exact Hi|by destruct i].
Qed.
Lemma grown_new : heap s' !! id = Some (fresh_inode (v_next_inode_idx s) d di name mode).
Proof. unfold s', grown, heap. simpl. rewrite lookup_insert_ne by apply d_not_id. apply lookup_insert_eq. Qed.
Lemma grown_other v : heap s !! v = None -> v <> id -> heap s' !! v = None.
Proof.
  intros Hn Hv. unfold s', grown, heap. simpl. rewrite lookup_insert_ne by (intros <-; by rewrite Hd in Hn). rewrite (lookup_insert_ne _ id v) by auto. exact Hn.
Qed.
Lemma grown_inv v i' : heap s' !! v = Some i' ->
  (v = id /\ i' = fresh_inode (v_next_inode_idx s) d di name mode) \/
  exists i, heap s !! v = Some i /\ i' = with_children (if decide (v = d) then i_children i ++ [id] else i_children i) i.
Proof.
  intros Hi. destruct (decide (v = id)) as [->|Hne]; [rewrite grown_new in Hi; simplify_eq; by left|right].
  destruct (heap s !! v) as [i|] eqn:E; [|by rewrite grown_other in Hi]. exists i. split; [done|].
  destruct (grown_old v i E) as (j & Hj & ->). by simplify_eq.
Qed.

Lemma named_grown n cs : (forall c, c ∈ cs -> is_Some (heap s !! c)) -> named (heap s') n cs = named (heap s) n cs.
Proof.
  intros Hcs. apply named_ext. intros c Hc. destruct (Hcs c Hc) as [i Hi].
  destruct (grown_old c i Hi) as (i' & Hi' & ->). by exists i, (with_children (if decide (c = d) then i_children i ++ [id] else i_children i) i).
Qed.

Lemma up_grown fuel v : v <> id -> up fuel (heap s') (v_mounts s) v = up fuel (heap s) (v_mounts s) v.
Proof.
  revert v. induction fuel as [|fuel IH]; intros v Hv; cbn [up]; [done|]. unfold inode_at.
  destruct (heap s !! v) as [i|] eqn:E; [|by rewrite grown_other].
  destruct (grown_old v i E) as (i' & -> & ->). cbn [mbind outcome_bind i_fs with_children i_parent].
  destruct (v =? i_fs i); [|done]. apply IH. assert (Hp : 0 < id) by apply (to_next s Hok). destruct (find_guest _ _) as [m|] eqn:Em; [|lia].
  apply find_guest_in in Em as [Hm _]. destruct (to_mounts s Hok m Hm) as (_ & _ & [j Hj]). intros E'. rewrite E', fresh_id in Hj. done.
Qed.

Lemma children_live v i c : heap s !! v = Some i -> c ∈ i_children i -> is_Some (heap s !! c).
Proof. intros Hi Hc. destruct (to_children s Hok v i c Hi Hc) as (ci & ? & _). eauto. Qed.

(** From here on the name is not in the directory. *)
Context (Habs : step s d name = Ret 0).

(** The child that was missing. *)
Lemma absent_child : name <> dot /\ name <> dotdot /\ named (heap s) name (i_children di) = Ret 0.
Proof.
  assert (Hl : is_Some (heap s !! d)) by eauto. revert Habs. unfold step. cbn [child_of tmp_pure]. unfold tmp_child.
  case_decide as H1.
  { cbn [mbind outcome_bind]. intros H0. destruct (seen_at_live s Hok d 0) as [[H _] _]; [by right|done|].
    specialize (H eq_refl). by destruct (live_nonzero s Hok d). }
  case_decide as H2.
  { destruct (up _ _ _ _) as [w| | |] eqn:Hu; cbn [mbind outcome_bind]; try done. intros H0.
    pose proof (up_live s Hok _ _ _ Hu) as Hw. destruct (seen_at_live s Hok w 0) as [[H _] _]; [by right|done|].
    by destruct (live_nonzero s Hok w Hw (H eq_refl)). }
  unfold inode_at at 1. rewrite Hd. cbn [mbind outcome_bind].
  destruct (named_live s Hok name (i_children di)) as (c & -> & Hor & _); [intros; by eapply children_live|].
  cbn [mbind outcome_bind]. intros H0. split_and!; [done..|].
  destruct (seen_at_live s Hok c 0) as [[H _] _]; [|done|by rewrite (H eq_refl)].
  destruct Hor as [->|[_ (j & Hj & _)]]; eauto.
Qed.

(** Old lookups are unchanged, but for the new name in its directory. *)
Lemma child_grown v n : is_Some (heap s !! v) -> v <> d \/ n <> name ->
  tmp_child (heap s') (v_mounts s) v n = tmp_child (heap s) (v_mounts s) v n.
Proof.
  intros [i Hi] Hvn. unfold tmp_child. case_decide; [done|]. case_decide.
  { apply up_grown. intros ->. by rewrite fresh_id in Hi. }
  destruct (grown_old v i Hi) as (i' & Hi' & ->). unfold inode_at at 1 2. rewrite Hi, Hi'.
  cbn [mbind outcome_bind i_children with_children].
  assert (Hcl : forall c, c ∈ i_children i -> is_Some (heap s !! c)) by (intros; by eapply children_live).
  destruct (decide (v = d)) as [->|]; [|by apply named_grown]. destruct Hvn as [|Hn]; [done|].
  erewrite named_app_other; [by apply named_grown|apply grown_new|]. intros E. by apply Hn.
Qed.

Lemma child_grown_new : tmp_child (heap s') (v_mounts s) d name = Ret id.
Proof.
  destruct absent_child as (H1 & H2 & Hn). unfold tmp_child. rewrite !decide_False by done.
  destruct (grown_old d di Hd) as (i' & Hi' & ->). unfold inode_at at 1. rewrite Hi'. cbn [mbind outcome_bind i_children with_children].
  rewrite decide_True by done. rewrite <- (named_grown name) in Hn by (intros; by eapply children_live).
  rewrite named_app; [|done|intros x Hx; apply (live_nonzero s Hok); by eapply children_live].
  cbn [named]. unfold inode_at. rewrite grown_new. cbn [mbind outcome_bind]. by rewrite decide_True.
Qed.

Lemma hash_grown v : is_Some (heap s !! v) -> hash_of s' v = hash_of s v.
Proof.
  intros [i Hi]. destruct (grown_old v i Hi) as (i' & Hi' & ->). cbn [hash_of tmp_pure]. unfold inode_at. by rewrite Hi, Hi'.
Qed.

Lemma mount_at_grown ms v : (forall m, m ∈ ms -> m ∈ v_mounts s) -> is_Some (heap s !! v) -> mount_at s' ms v = mount_at s ms v.
Proof.
  intros Hms Hv. induction ms as [|m ms IH]; cbn [mount_at]; [done|].
  destruct (to_mounts s Hok m) as (_ & _ & Hh); [apply Hms; left|]. rewrite (hash_grown _ Hh), (hash_grown _ Hv), IH; [done|].
  intros m' Hm'. apply Hms. by right.
Qed.

Lemma step_grown v n : is_Some (heap s !! v) -> v <> d \/ n <> name -> step s' v n = step s v n.
Proof.
  intros Hv Hvn. unfold step. cbn [child_of tmp_pure]. change (v_mounts s') with (v_mounts s). rewrite child_grown by done.
  destruct (tmp_child (heap s) (v_mounts s) v n) as [c| | |] eqn:Hc; cbn [mbind outcome_bind]; try done.
  unfold seen_at. destruct (Z.eqb_spec c 0) as [->|Hne]; [done|]. change (v_mounts s') with (v_mounts s).
  apply mount_at_grown; [done|]. by eapply child_live.
Qed.

(** A path that resolved still does. *)
Lemma follow_grown cs v w : is_Some (heap s !! v) -> follow s cs v = Ret w -> w <> 0 -> follow s' cs v = Ret w.
Proof.
  revert v. induction cs as [|c cs IH]; intros v Hv; cbn [follow]; [done|].
  destruct (step s v c) as [x| | |] eqn:Hs; cbn [mbind outcome_bind]; try done.
  destruct (Z.eqb_spec x 0) as [->|Hx]; [by intros [= <-]|]. intros Hf Hw.
  assert (Hvc : v <> d \/ c <> name) by (destruct (decide (v = d)) as [->|]; [right; intros ->; congruence|by left]).
  rewrite step_grown, Hs by done.
  cbn [mbind outcome_bind]. rewrite (proj2 (Z.eqb_neq x 0) Hx). apply IH; [by eapply step_live|done|done].
Qed.

Lemma grown_live v : is_Some (heap s !! v) -> is_Some (heap s' !! v).
Proof. intros [i Hi]. destruct (grown_old v i Hi) as (? & ? & _). eauto. Qed.

Lemma absent_names c i : c ∈ i_children di -> heap s !! c = Some i -> i_name i <> name.
Proof.
  destruct absent_child as (_ & _ & Hn). destruct (named_live s Hok name (i_children di)) as (x & Hx & _ & H0).
  { intros. by eapply children_live. }
  rewrite Hn in Hx. injection Hx as <-. by apply H0.
Qed.

Lemma grown_ok : tmp_ok s'.
Proof.
  pose proof fresh_id as Hfresh. assert (Hpos : 0 < id) by apply (to_next s Hok). split.
  - intros v i' [[-> _]|(i & Hi & _)]%grown_inv; [change (th_next (v_fs s')) with (id + 1); lia|].
    pose proof (to_keys s Hok v i Hi). change (th_next (v_fs s')) with (id + 1). unfold id. lia.
  - change (th_next (v_fs s')) with (id + 1). lia.
  - intros v i' c [[-> ->]|(i & Hi & ->)]%grown_inv; [by intros ?%elem_of_nil|]. simpl. intros Hc.
    assert (Hold : c ∈ i_children i -> exists ci, heap s' !! c = Some ci /\ i_parent ci = v /\ i_fs ci = i_fs i /\ c <> i_fs ci).
    { intros Hc'. destruct (to_children s Hok v i c Hi Hc') as (ci & Hci & H1 & H2 & H3).
      destruct (grown_old c ci Hci) as (ci' & Hci' & ->). eauto 10. }
    destruct (decide (v = d)) as [->|]; [|by apply Hold]. apply elem_of_app in Hc as [Hc|Hc]; [by apply Hold|].
    apply list_elem_of_singleton in Hc as ->. rewrite grown_new. eexists. split; [done|]. simplify_eq. split_and!; [done..|].
    simpl. intros E. destruct (to_fs s Hok d di Hd) as [j Hj]. rewrite <- E, Hfresh in Hj. done.
  - intros v i' [[-> ->]|(i & Hi & ->)]%grown_inv; [split; [constructor|by intros ? ? ? ? ?%elem_of_nil]|]. simpl.
    destruct (to_names s Hok v i Hi) as [Hnd Hun].
    assert (Hnid : id ∉ i_children i).
    { intros Hin. destruct (children_live v i id Hi Hin) as [j Hj]. by rewrite Hfresh in Hj. }
    assert (Hold : forall c ic, c ∈ i_children i -> heap s' !! c = Some ic -> exists jc, heap s !! c = Some jc /\ i_name jc = i_name ic).
    { intros c ic Hc [[-> _]|(jc & Hjc & ->)]%grown_inv; [done|]. eauto. }
    split.
    + destruct (decide (v = d)); [|done]. apply NoDup_app. split_and!; [done| |apply NoDup_singleton].
      intros x Hx ->%list_elem_of_singleton. done.
    + intros c1 c2 i1 i2 H1 H2 Hi1 Hi2 Hn. destruct (decide (v = d)) as [->|].
      * simplify_eq. apply elem_of_app in H1 as [H1|H1], H2 as [H2|H2]; rewrite ?list_elem_of_singleton in *; subst; [|exfalso..|done].
        -- destruct (Hold c1 i1 H1 Hi1) as (j1 & Hj1 & E1), (Hold c2 i2 H2 Hi2) as (j2 & Hj2 & E2). apply (Hun c1 c2 j1 j2); congruence.
        -- rewrite grown_new in Hi2. simplify_eq. destruct (Hold c1 i1 H1 Hi1) as (j1 & Hj1 & E1). apply (absent_names c1 j1 H1 Hj1). simpl in Hn. congruence.
        -- rewrite grown_new in Hi1. simplify_eq. destruct (Hold c2 i2 H2 Hi2) as (j2 & Hj2 & E2). apply (absent_names c2 j2 H2 Hj2). simpl in Hn. congruence.
      * destruct (Hold c1 i1 H1 Hi1) as (j1 & Hj1 & E1), (Hold c2 i2 H2 Hi2) as (j2 & Hj2 & E2). apply (Hun c1 c2 j1 j2); congruence.
  - intros v i' [[-> ->]|(i & Hi & ->)]%grown_inv Hne; apply grown_live; simpl; [eauto|by eapply (to_parent s Hok)].
  - intros v i' [[-> ->]|(i & Hi & ->)]%grown_inv; apply grown_live; simpl; [by eapply (to_fs s Hok)|by eapply (to_fs s Hok)].
  - intros m Hm. destruct (to_mounts s Hok m Hm) as (? & ? & ?). split_and!; by apply grown_live.
  - exact (to_mounted s Hok).
  - apply grown_live, (to_cwd s Hok).
Qed.
End grown.

(** ** Creating through a path *)

(** The hash of an empty file in the directory [d]. *)
Definition entry_hash (mode : Z) (name : list Z) (d : Z) : Z :=
  u64 (5 + 11 * u64 0 + 11 * u64 mode + hash_chars 5 name + 11 * hash_weak d).

(** No file system is mounted on a vnode of this hash. *)
Definition unshadowed (s : VFS TmpHeap) (h : Z) : Prop :=
  forall m i, m ∈ v_mounts s -> heap s !! host_vnode m = Some i -> tmp_hash i <> h.

Lemma seen_at_new s d di name mode : tmp_ok s -> heap s !! d = Some di -> unshadowed s (entry_hash mode name d) ->
  seen_at (grown s d di name mode) (th_next (v_fs s)) = Ret (th_next (v_fs s)).
Proof.
  intros Hok Hd Hun. set (s' := grown s d di name mode). set (id := th_next (v_fs s)).
  unfold seen_at. rewrite (proj2 (Z.eqb_neq id 0)) by (pose proof (to_next s Hok); unfold id; lia).
  change (v_mounts s') with (v_mounts s).
  cut (forall ms, (forall m, m ∈ ms -> m ∈ v_mounts s) -> mount_at s' ms id = Ret id); [intros H; by apply H|].
  intros ms Hms. induction ms as [|m ms IH]; cbn [mount_at]; [done|].
  destruct (to_mounts s Hok m) as (_ & _ & [i Hi]); [apply Hms; left|].
  assert (Hh : hash_of s' (host_vnode m) = Ret (tmp_hash i)).
  { unfold s'. rewrite hash_grown by eauto. cbn [hash_of tmp_pure]. unfold inode_at. by rewrite Hi. }
  assert (Hn : hash_of s' id = Ret (entry_hash mode name d)).
  { cbn [hash_of tmp_pure]. unfold inode_at. unfold s', id. rewrite (grown_new s Hok d di Hd name mode). reflexivity. }
  rewrite Hh, Hn. cbn [mbind outcome_bind].
  rewrite (proj2 (Z.eqb_neq _ _)); [|apply (Hun m i); [apply Hms; left|done]]. apply IH. intros m' Hm'. apply Hms. by right.
Qed.

Lemma components_dotted pathname cs name : components slash pathname = cs ++ [name] -> name <> dot -> name <> dotdot ->
  pathname <> dot /\ pathname <> dotdot.
Proof.
  intros Hc H1 H2. split; intros ->.
  - change (components slash dot) with [dot] in Hc. destruct cs as [|? []]; by simplify_eq/=.
  - change (components slash dotdot) with [dotdot] in Hc. destruct cs as [|? []]; by simplify_eq/=.
Qed.

Lemma resolve_path_run s pathname cs name root d v c :
  tmp_ok s -> cpu_room 2 c -> pathname <> dot -> components slash pathname = cs ++ [name] -> start s pathname = Ret root ->
  follow s cs root = Ret d -> d <> 0 -> step s d name = Ret v ->
  resolve_path pathname (with_cpu c s) = Ret ((v, d, name), with_cpu c s).
Proof.
  intros Hok Hroom Hdot Hcs Hst Hf Hd Hs. rewrite (resolve_path_lift (with_cpu c s) pathname cs name); [|done|done|done|].
  - unfold resolved. change (start (with_cpu c s) pathname) with (start s pathname). rewrite Hst. cbn [mbind outcome_bind].
    rewrite follow_cpu, Hf. cbn [mbind outcome_bind]. rewrite (proj2 (Z.eqb_neq d 0) Hd). by rewrite step_cpu, Hs.
  - intros x Hx. apply (live_nonzero s Hok). by apply (start_live s Hok pathname).
Qed.

Lemma create_new_run s pathname cs name root d di mode :
  tmp_ok s -> cpu_room 3 (cpu_of s) -> components slash pathname = cs ++ [name] -> start s pathname = Ret root ->
  follow s cs root = Ret d -> heap s !! d = Some di -> step s d name = Ret 0 ->
  create pathname None 0 mode 0 0 s = Ret (th_next (v_fs s), grown s d di name mode).
Proof.
  intros Hok Hroom Hcs Hst Hf Hd Hs. destruct (absent_child s Hok d di Hd name Hs) as (H1 & H2 & _).
  destruct (components_dotted pathname cs name Hcs H1 H2) as [Hp1 Hp2].
  assert (Hd0 : d <> 0) by (apply (live_nonzero s Hok); eauto).
  unfold create. change (grown s d di name mode) with (with_cpu (cpu_of s) (grown s d di name mode)).
  apply guarded_spec; [by eapply cpu_room_ok|].
  set (s1 := with_cpu (entered (cpu_of s)) s). rewrite decide_False by tauto.
  pose proof (resolve_path_run s pathname cs name root d 0 (entered (cpu_of s)) Hok ltac:(by eapply cpu_room_entered) Hp1 Hcs Hst Hf Hd0 Hs) as Hr. fold s1 in Hr.
  mrun Hr. cbn [Z.eqb negb]. rewrite (proj2 (Z.eqb_neq d 0) Hd0).
  cbn [create_child tmp_vnodes]. apply (create_child_run s1 d di); [done|].
  pose proof (to_keys s Hok d di Hd). change (th_next (v_fs s1)) with (th_next (v_fs s)). lia.
Qed.

Lemma create_existing_run s pathname cs name root d v mode content size :
  tmp_ok s -> cpu_room 3 (cpu_of s) -> pathname <> dot -> components slash pathname = cs ++ [name] -> start s pathname = Ret root ->
  follow s cs root = Ret d -> d <> 0 -> step s d name = Ret v -> v <> 0 ->
  create pathname content size mode 0 0 s = Ret (0, s).
Proof.
  intros Hok Hroom Hdot Hcs Hst Hf Hd Hs Hv. unfold create. refine (guarded_lift _ s (Ret 0) (cpu_room_ok _ _ Hroom) _).
  set (s1 := with_cpu (entered (cpu_of s)) s). case_decide; [done|].
  pose proof (resolve_path_run s pathname cs name root d v (entered (cpu_of s)) Hok ltac:(by eapply cpu_room_entered) Hdot Hcs Hst Hf Hd Hs) as Hr. fold s1 in Hr.
  mrun Hr. by rewrite (proj2 (Z.eqb_neq v 0) Hv).
Qed.

(** A resolved path keeps its target, parent and name. *)
Lemma resolve_path_grown s d di name mode q t par base :
  tmp_ok s -> heap s !! d = Some di -> step s d name = Ret 0 -> cpu_room 2 (cpu_of s) ->
  resolve_path q s = Ret ((t, par, base), s) -> t <> 0 ->
  resolve_path q (grown s d di name mode) = Ret ((t, par, base), grown s d di name mode).
Proof.
  intros Hok Hd Hs Hroom Hr Ht. set (s' := grown s d di name mode).
  pose proof (cpu_room_ok _ _ Hroom) as Hcpu. destruct (decide (q = dot)) as [->|Hdot].
  { rewrite resolve_path_dot in Hr by done. rewrite resolve_path_dot by done. by injection Hr as <- <- <-. }
  destruct (components slash q) as [|n cs _] eqn:Hcs using rev_ind.
  { rewrite resolve_path_root in Hr by done. rewrite resolve_path_root by done. change (v_mounts s') with (v_mounts s).
    destruct (v_mounts s); [done|]. by injection Hr as <- <- <-. }
  assert (Hsl : forall r, start s q = Ret r -> is_Some (heap s !! r)) by (intros; by apply (start_live s Hok q)).
  assert (Hnz : forall r, start s q = Ret r -> r <> 0) by (intros r Hr'; apply (live_nonzero s Hok); auto).
  rewrite (resolve_path_lift s q cs n) in Hr by done. rewrite (resolve_path_lift s' q cs n) by done.
  unfold resolved in *. change (start s' q) with (start s q). destruct (start s q) as [r| | |] eqn:Hst; try done.
  cbn [mbind outcome_bind] in *. specialize (Hsl r eq_refl).
  destruct (follow s cs r) as [x| | |] eqn:Hf; try done. cbn [mbind outcome_bind] in Hr.
  destruct (Z.eqb_spec x 0) as [->|Hx]; [injection Hr as <- <- <-; done|].
  destruct (step s x n) as [w| | |] eqn:Hw; try done. cbn [mbind outcome_bind] in Hr. injection Hr as <- <- <-.
  unfold s'. rewrite (follow_grown s Hok d di Hd name mode Hs cs r x) by done. cbn [mbind outcome_bind].
  rewrite (proj2 (Z.eqb_neq x 0) Hx). rewrite (step_grown s Hok d di Hd name mode), Hw; [done|by eapply follow_live|].
  destruct (decide (x = d)) as [->|]; [right; intros ->; congruence|by left].
Qed.

(** ** Claims *)

(** C20. On a TmpFS, creating a file at a path whose directory exists and has no
    such entry makes a new vnode; the path resolves to it afterwards, with the
    directory as its parent; every path that resolved before resolves as before,
    and the tree stays well formed (names unique in each directory, parents and
    children in agreement).  Creating it again changes nothing and returns null.
    The new file must not have the hash of a vnode with a file system mounted on
    it, which the lookup would take it for. *)
Theorem create_then_resolve s pathname cs name root d mode :
  tmp_ok s -> cpu_room 3 (cpu_of s) -> components slash pathname = cs ++ [name] -> start s pathname = Ret root ->
  follow s cs root = Ret d -> d <> 0 -> step s d name = Ret 0 -> unshadowed s (entry_hash mode name d) ->
  exists v s', create pathname None 0 mode 0 0 s = Ret (v, s') /\ heap s !! v = None /\ tmp_ok s' /\
    resolve_path pathname s' = Ret ((v, d, name), s') /\
    create pathname None 0 mode 0 0 s' = Ret (0, s') /\
    (forall q t par base, resolve_path q s = Ret ((t, par, base), s) -> t <> 0 -> resolve_path q s' = Ret ((t, par, base), s')).
Proof.
  intros Hok Hroom Hcs Hst Hf Hd Hs Hun.
  assert (Hrl : is_Some (heap s !! root)) by (by apply (start_live s Hok pathname)).
  destruct (follow_live s cs root d Hok Hrl Hf Hd) as [di Hdi].
  destruct (absent_child s Hok d di Hdi name Hs) as (H1 & H2 & _). destruct (components_dotted pathname cs name Hcs H1 H2) as [Hp _].
  set (s' := grown s d di name mode). set (v := th_next (v_fs s)).
  assert (Hok' : tmp_ok s') by (by apply grown_ok).
  assert (Hf' : follow s' cs root = Ret d) by (by apply follow_grown).
  assert (Hs' : step s' d name = Ret v).
  { unfold step. cbn [child_of tmp_pure]. change (v_mounts s') with (v_mounts s). unfold s'. rewrite child_grown_new by done.
    cbn [mbind outcome_bind]. by apply seen_at_new. }
  assert (Hv : v <> 0) by (pose proof (to_next s Hok); unfold v; lia).
  assert (Hroom' : cpu_room 2 (cpu_of s')) by (by apply (cpu_room_le 3)).
  exists v, s'. split_and!; [by eapply create_new_run|by apply fresh_id|done| | |].
  - exact (resolve_path_run s' pathname cs name root d v (cpu_of s') Hok' Hroom' Hp Hcs Hst Hf' Hd Hs').
  - by eapply (create_existing_run s' pathname cs name root d v).
  - intros q t par base. by apply resolve_path_grown.
Qed.

(** ** Witnesses *)

(** A kernel whose root file system is an empty TmpFS. *)
Definition demo_root : Inode := mkInode 0 0 S_IFDIR 0 0 0 1 root_name None 0 [].
Definition demo_vfs : VFS TmpHeap :=
  mkVFS (held 0) (mkHeap {[1 := demo_root]} 2) 1 1 [mkMount 1 1 1] ∅ 1 [] [] [] (mkUart [] []) 1.

Lemma demo_vfs_boot :
  (r ← new_tmpfs; mount_rootfs r) (mkVFS (held 0) (mkHeap ∅ 1) 0 1 [] ∅ 1 [] [] [] (mkUart [] []) 1) = Ret (tt, demo_vfs).
Proof. by vm_compute. Qed.

Lemma demo_vfs_ok : tmp_ok demo_vfs.
Proof.
  assert (Hl : forall v i, heap demo_vfs !! v = Some i -> v = 1 /\ i = demo_root).
  { intros v i Hi. unfold heap in Hi. simpl in Hi. apply lookup_singleton_Some in Hi as [<- <-]. done. }
  split.
  - intros v i [-> _]%Hl. done.
  - done.
  - intros v i c [-> ->]%Hl. by intros ?%elem_of_nil.
  - intros v i [-> ->]%Hl. split; [constructor|by intros ? ? ? ? ?%elem_of_nil].
  - intros v i [-> ->]%Hl. done.
  - intros v i [-> ->]%Hl. by eexists.
  - intros m ->%list_elem_of_singleton. split_and!; by eexists.
  - done.
  - by eexists.
Qed.

Lemma demo_unshadowed mode name : entry_hash mode name 1 <> tmp_hash demo_root -> unshadowed demo_vfs (entry_hash mode name 1).
Proof. intros Hne m i ->%list_elem_of_singleton Hi. injection Hi as <-. intros E. by apply Hne. Qed.

Lemma demo_room n : 0 <= n < 1000 -> cpu_room n (cpu_of demo_vfs).
Proof. intros Hn. split; [by apply held_ok|]. cbn. unfold INT_MAX. lia. Qed.

(** Creating "/dev". *)
Lemma create_then_resolve_witness : exists v s', create path_dev None 0 S_IFDIR 0 0 demo_vfs = Ret (v, s') /\
  resolve_path path_dev s' = Ret ((v, 1, [100; 101; 118]), s').
Proof.
  destruct (create_then_resolve demo_vfs path_dev [] [100; 101; 118] 1 1 S_IFDIR) as (v & s' & Hc & _ & _ & Hr & _).
  - exact demo_vfs_ok.
  - apply demo_room. lia.
  - reflexivity.
  - reflexivity.
  - reflexivity.
  - lia.
  - vm_compute. reflexivity.
  - apply demo_unshadowed. vm_compute. discriminate.
  - exists v, s'. split; [exact Hc|exact Hr].
Defined.
