(* ===== verification/CpioSpec.v ===== *)
(** * The archive reader against the format of archives

    An archive in the "newc" format is the concatenation of its files, each with
    a header of hexadecimal fields, padded to multiples of four bytes, and an end
    marker.  [for_each] calls its callback with the files in order, and unpacking
    an archive at boot is creating its files. *)

From Stdlib Require Import ZArith Lia.
From stdpp Require Import base gmap list numbers.
From S2P Require Import Prelude Mutex CString KString Cpio Console Vnode TmpFS Vfs VfsSpec TmpFSSpec.

Open Scope Z_scope.

(** ** The format *)

Definition hex_digit (d : Z) : Z := if d <? 10 then 48 + d else 55 + d.
Fixpoint hex (n : nat) (v : Z) : list Z := match n with O => [] | S n => hex n (v / 16) ++ [hex_digit (v mod 16)] end.

(** A file: the header fields that are not read ([meta], [dev], [check]), its
    path and its content. *)
Record file := mkFile { f_meta : list Z; f_dev : list Z; f_check : list Z; f_path : list Z; f_content : list Z }.

Definition flen (l : list Z) : Z := Z.of_nat (length l).
Definition pad (k : Z) : list Z := replicate (Z.to_nat (- k mod 4)) 0.
Definition name_size (f : file) : Z := flen (f_path f) + 1.

Definition header (f : file) : list Z :=
  CPIO_MAGIC ++ f_meta f ++ hex 8 (flen (f_content f)) ++ f_dev f ++ hex 8 (name_size f) ++ f_check f.
Definition body (f : file) : list Z := pad (HEADER_SIZE + name_size f) ++ f_content f ++ pad (flen (f_content f)).
Definition encode (f : file) : list Z := header f ++ f_path f ++ 0 :: body f.

(** Sizes that a positive [int] holds; a path that is not the end marker; a
    content that does not start with a NUL byte. *)
Record file_ok (f : file) : Prop := mkFileOk {
  fo_meta : length (f_meta f) = 48%nat;
  fo_dev : length (f_dev f) = 32%nat;
  fo_check : length (f_check f) = 8%nat;
  fo_path : Forall (fun c => c <> 0) (f_path f);
  fo_size : name_size f < 2 ^ 31 /\ flen (f_content f) < 2 ^ 31;
  fo_content : match f_content f with c :: _ => c <> 0 | [] => True end
}.

Definition trailer_ok (f : file) : Prop := file_ok f /\ f_path f = CPIO_TRAILER /\ f_content f = [].
Definition regular_ok (f : file) : Prop := file_ok f /\ ~ (CPIO_TRAILER `prefix_of` f_path f).

Definition archive (files : list file) (trailer : file) : list Z := concat (map encode files) ++ encode trailer.

(** ** Hexadecimal fields *)

Lemma hex_digit_ok d : 0 <= d < 16 -> is_valid 16 (hex_digit d) = true /\ to_decimal (hex_digit d) = d /\ hex_digit d <> 0.
Proof.
  intros Hd. assert (H : all_from 16 (fun d => is_valid 16 (hex_digit d) && (to_decimal (hex_digit d) =? d) && negb (hex_digit d =? 0)) 0 = true) by done.
  pose proof (all_from_spec _ _ _ d H ltac:(lia)) as Hx. cbv beta in Hx. rewrite !andb_true_iff, Z.eqb_eq, negb_true_iff, Z.eqb_neq in Hx. tauto.
Qed.

Lemma length_hex n v : length (hex n v) = n.
Proof. revert v. induction n as [|n IH]; intros v; [done|]. cbn [hex]. rewrite length_app, IH. cbn. lia. Qed.

Lemma hex_valid n v : Forall (fun c => is_valid 16 c = true /\ c <> 0) (hex n v).
Proof.
  revert v. induction n as [|n IH]; intros v; [by apply list.Forall_nil|]. cbn [hex]. apply list.Forall_app. split; [apply IH|].
  apply list.Forall_singleton. destruct (hex_digit_ok (v mod 16)) as (? & _ & ?); [apply Z.mod_pos_bound; lia|done].
Qed.

Lemma hex_value n v : 0 <= v < 16 ^ Z.of_nat n -> digits_value 16 0 (hex n v) = v.
Proof.
  revert v. induction n as [|n IH]; intros v Hv; [cbn in *; unfold digits_value; cbn; lia|]. cbn [hex].
  assert (Hd : 0 <= v / 16 < 16 ^ Z.of_nat n).
  { rewrite Nat2Z.inj_succ, Z.pow_succ_r in Hv by lia. Z.div_mod_to_equations. lia. }
  unfold digits_value. rewrite fold_left_app. fold (digits_value 16 0 (hex n (v / 16))). rewrite IH by done. cbn [fold_left].
  destruct (hex_digit_ok (v mod 16)) as (_ & -> & _); [apply Z.mod_pos_bound; lia|]. Z.div_mod_to_equations. lia.
Qed.

Section reading.
Variable r : reader.

Lemma bytes_at_rd p l k c : bytes_at r p l -> l !! k = Some c -> rd r (p + Z.of_nat k) = Ret c.
Proof.
  revert p k. induction l as [|x l IH]; intros p k Hb Hk; [done|]. cbn [bytes_at] in Hb. destruct Hb as [Hx Hb]. destruct k as [|k]; cbn in Hk.
  - injection Hk as ->. rewrite Z.add_0_r. by apply rd_run.
  - replace (p + Z.of_nat (S k)) with (p + 1 + Z.of_nat k) by lia. by apply IH.
Qed.

Lemma store_list (pre rest : list Z) x c : store (Z.of_nat (length pre)) c (pre ++ x :: rest) = Ret (tt, pre ++ c :: rest).
Proof.
  unfold store. msimpl. cbn [st buf_store]. rewrite arr_set_is_Some by (rewrite length_app; cbn; lia). rewrite Nat2Z.id.
  by rewrite insert_app_r_alt, Nat.sub_diag by lia.
Qed.

(** [strncpy] of a field that is followed by something. *)
Lemma strncpy_field ds x p (pre rest : list Z) : bytes_at r p (ds ++ [x]) -> Forall (fun c => c <> 0) ds -> (length ds < length rest)%nat ->
  strncpy_loop (S (length ds)) (fun _ => r) (Z.of_nat (length pre)) p (Z.of_nat (length ds)) (pre ++ rest) =
  Ret (tt, pre ++ ds ++ 0 :: drop (S (length ds)) rest).
Proof.
  intros Hb Hnz. revert p pre rest Hb. induction Hnz as [|c ds Hc Hds IH]; intros p pre rest Hb Hl; (destruct rest as [|y rest]; [cbn in Hl; lia|]).
  - destruct Hb as [Hx _]. cbn [strncpy_loop length]. mrun (load_run (fun _ => r) (pre ++ y :: rest) p x Hx). rewrite orb_true_r.
    apply store_list.
  - destruct Hb as [Hx Hb]. change (length (c :: ds)) with (S (length ds)) in *. cbn [length] in Hl. remember (S (length ds)) as m eqn:Em. cbn [strncpy_loop].
    mrun (load_run (fun _ => r) (pre ++ y :: rest) p c Hx). rewrite (proj2 (Z.eqb_neq c 0)), (proj2 (Z.eqb_neq (Z.of_nat m) 0)) by lia. cbn [orb].
    mrun (store_list pre rest y c). subst m. replace (pre ++ c :: rest) with ((pre ++ [c]) ++ rest) by (by rewrite <- app_assoc).
    replace (Z.of_nat (length pre) + 1) with (Z.of_nat (length (pre ++ [c]))) by (rewrite length_app; cbn; lia).
    replace (Z.of_nat (S (length ds)) - 1) with (Z.of_nat (length ds)) by lia. rewrite IH by (done || lia). by rewrite <- app_assoc.
Qed.

Lemma bytes_at_cstr (l l' : list Z) : Forall (fun c => c <> 0) l -> cstr (arr_get (l ++ 0 :: l')) 0 l.
Proof.
  intros Hl. assert (H : forall pre, cstr (arr_get (pre ++ l ++ 0 :: l')) (Z.of_nat (length pre)) l).
  { induction Hl as [|c l Hc Hl IH]; intros pre; cbn [cstr app].
    - rewrite arr_get_nat. by rewrite lookup_app_r, Nat.sub_diag by lia.
    - split_and!; [rewrite arr_get_nat; by rewrite lookup_app_r, Nat.sub_diag by lia|done|].
      specialize (IH (pre ++ [c])). rewrite <- app_assoc, length_app in IH. cbn in IH. by replace (Z.of_nat (length pre) + 1) with (Z.of_nat (length pre + 1)) by lia. }
  apply (H []).
Qed.

Lemma header_field_run p v x : bytes_at r p (hex 8 v ++ [x]) -> 0 <= v < 2 ^ 31 -> header_field r p = Ret v.
Proof.
  intros Hb Hv. assert (Hnz : Forall (fun c => c <> 0) (hex 8 v)) by (eapply list.Forall_impl; [apply hex_valid|]; naive_solver).
  pose proof (strncpy_field (hex 8 v) x p [] (make_buf 16) Hb Hnz) as Hc. rewrite length_hex in Hc. specialize (Hc ltac:(change (length (make_buf 16)) with 16%nat; lia)).
  change (Z.of_nat (length (@nil Z))) with 0 in Hc. change (Z.of_nat 8) with 8 in Hc. cbn [app] in Hc.
  assert (Hcp : strncpy 9 (fun _ => r) 0 p 8 (make_buf 16) = Ret (0, hex 8 v ++ 0 :: drop 9 (make_buf 16))) by (unfold strncpy; by mrun Hc).
  unfold header_field. rewrite Hcp. cbn [mbind outcome_bind snd].
  rewrite (atoi_reader 17 _ 0 16 0 None (hex 8 v) []).
  - cbn [mbind outcome_bind default]. unfold clamp_int. rewrite hex_value by (cbn; lia). rewrite (proj2 (Z.leb_le v INT_MAX)) by (unfold INT_MAX; lia).
    by rewrite u64_id by lia.
  - by right.
  - intros H. pose proof (length_hex 8 v) as Hl. by rewrite H in Hl.
  - eapply list.Forall_impl; [apply hex_valid|]. naive_solver.
  - done.
  - cbn [replicate app sign_chars]. rewrite app_nil_r. by apply bytes_at_cstr.
  - cbn [sign_chars app]. rewrite app_nil_r, length_hex. lia.
  - cbn [sign_chars app]. rewrite app_nil_r, length_hex. lia.
Qed.

(** ** Comparing with a word *)

Lemma strncmp_match w x r2 p q : bytes_at r p (w ++ [x]) -> bytes_at r2 q (w ++ [0]) -> Forall (fun c => c <> 0) w ->
  strncmp (S (length w)) r r2 p q (Z.of_nat (length w)) = Ret 0.
Proof.
  intros H1 H2 Hw. revert p q H1 H2. induction Hw as [|c w Hc Hw IH]; intros p q H1 H2; cbn [app bytes_at length] in *.
  - destruct H1 as [H1 _], H2 as [H2 _]. cbn [strncmp]. rewrite (rd_run _ _ _ H1), (rd_run _ _ _ H2). cbn [mbind outcome_bind].
    destruct (x =? 0); done.
  - destruct H1 as [H1 H1'], H2 as [H2 H2']. remember (S (length w)) as m eqn:Em. cbn [strncmp]. rewrite (rd_run _ _ _ H1), (rd_run _ _ _ H2).
    cbn [mbind outcome_bind]. rewrite (proj2 (Z.eqb_neq c 0)) by done. cbn [mbind outcome_bind negb].
    rewrite (proj2 (Z.eqb_neq (Z.of_nat m) 0)), Z.eqb_refl by lia. subst m. replace (Z.of_nat (S (length w)) - 1) with (Z.of_nat (length w)) by lia. by apply IH.
Qed.

Lemma strncmp_differ w l r2 p q k a b : bytes_at r p l -> bytes_at r2 q (w ++ [0]) -> Forall (fun c => c <> 0) w ->
  l !! k = Some a -> w !! k = Some b -> a <> b -> exists d, d <> 0 /\ strncmp (S (length w)) r r2 p q (Z.of_nat (length w)) = Ret d.
Proof.
  intros H1 H2 Hw. revert l p q k H1 H2. induction Hw as [|c w Hc Hw IH]; intros l p q k H1 H2 Ha Hb Hab; [done|].
  destruct l as [|x l]; [done|]. cbn [app bytes_at length] in *. destruct H1 as [H1 H1'], H2 as [H2 H2']. remember (S (length w)) as m eqn:Em. cbn [strncmp].
  rewrite (rd_run _ _ _ H1), (rd_run _ _ _ H2). cbn [mbind outcome_bind].
  assert (Hmore : (if x =? 0 then Ret (negb (c =? 0)) else Ret true) = Ret true) by (rewrite (proj2 (Z.eqb_neq c 0)) by done; by destruct (x =? 0)).
  rewrite Hmore. cbn [mbind outcome_bind negb]. rewrite (proj2 (Z.eqb_neq (Z.of_nat m) 0)) by lia.
  destruct (Z.eqb_spec x c) as [->|Hne]; [|exists (x - c); split; [lia|done]]. destruct k as [|k]; [cbn in *; congruence|].
  subst m. replace (Z.of_nat (S (length w)) - 1) with (Z.of_nat (length w)) by lia. by apply (IH l (p + 1) (q + 1) k).
Qed.

Lemma bytes_at_arr (pre l : list Z) : bytes_at (arr_get (pre ++ l)) (Z.of_nat (length pre)) l.
Proof.
  revert pre. induction l as [|c l IH]; intros pre; [done|]. cbn [bytes_at]. split.
  - rewrite arr_get_nat. by rewrite lookup_app_r, Nat.sub_diag by lia.
  - specialize (IH (pre ++ [c])). rewrite <- app_assoc, length_app in IH. cbn in IH. by replace (Z.of_nat (length pre) + 1) with (Z.of_nat (length pre + 1)) by lia.
Qed.

Lemma is_magic_true p x : bytes_at r p (CPIO_MAGIC ++ [x]) -> is_magic r p = Ret true.
Proof.
  intros H. unfold is_magic. pose proof (strncmp_match CPIO_MAGIC x (arr_get (CPIO_MAGIC ++ [0])) p 0 H (bytes_at_arr [] _)) as Hm.
  cbn [length CPIO_MAGIC] in Hm. change (Z.of_nat 6) with 6 in Hm. rewrite Hm by (repeat constructor; lia). done.
Qed.

Lemma is_magic_false p l k a b : bytes_at r p l -> l !! k = Some a -> CPIO_MAGIC !! k = Some b -> a <> b -> is_magic r p = Ret false.
Proof.
  intros H Ha Hb Hab. destruct (strncmp_differ CPIO_MAGIC l (arr_get (CPIO_MAGIC ++ [0])) p 0 k a b H (bytes_at_arr [] _)) as (d & Hd & Hm); [repeat constructor; lia|done..|].
  cbn [length CPIO_MAGIC] in Hm. change (Z.of_nat 6) with 6 in Hm. unfold is_magic. rewrite Hm. cbn [mbind outcome_bind]. by rewrite (proj2 (Z.eqb_neq d 0)).
Qed.

(** The bytes between two headers hide no other one. *)
Lemma gap_no_magic g : (1 <= length g <= 6)%nat -> (length g = 6%nat -> 0 ∈ g) ->
  exists k a b, (g ++ CPIO_MAGIC) !! k = Some a /\ CPIO_MAGIC !! k = Some b /\ a <> b.
Proof.
  intros Hl H6. destruct (decide (length g = 6%nat)) as [E|E].
  - destruct (list_elem_of_lookup_1 g 0 (H6 E)) as [k Hk]. pose proof (lookup_lt_Some _ _ _ Hk) as Hlt.
    destruct (lookup_lt_is_Some_2 CPIO_MAGIC k) as [b Hb]; [cbn; lia|]. exists k, 0, b. split; [by apply lookup_app_l_Some|]. split; [done|].
    assert (Hnz : Forall (fun c => c <> 0) CPIO_MAGIC) by (repeat constructor; lia). pose proof (list.Forall_lookup_1 _ _ _ _ Hnz Hb) as Hb0. cbn in Hb0. lia.
  - destruct g as [|a1 [|a2 [|a3 [|a4 [|a5 [|a6 g]]]]]]; [cbn in Hl; lia|exists 1%nat, 48, 55|exists 5%nat, 55, 49|exists 3%nat, 48, 55|exists 5%nat, 55, 49|exists 5%nat, 48, 49|cbn in Hl, E; lia]; done.
Qed.

Lemma next_header_run g p fuel x : bytes_at r p (g ++ CPIO_MAGIC ++ [x]) -> (length g <= 6)%nat -> (length g = 6%nat -> 0 ∈ g) -> (length g < fuel)%nat ->
  next_header r fuel p = Ret (p + Z.of_nat (length g)).
Proof.
  revert p fuel. induction g as [|c g IH]; intros p fuel Hb Hl H6 Hf; (destruct fuel as [|fuel]; [cbn in Hf; lia|]); cbn [next_header].
  - rewrite (is_magic_true p x Hb). cbn. by rewrite Z.add_0_r.
  - destruct (gap_no_magic (c :: g)) as (k & a & b & Ha & Hk & Hab); [cbn in *; lia|done|].
    rewrite (is_magic_false p ((c :: g) ++ CPIO_MAGIC ++ [x]) k a b); [|done| |done..].
    2:{ rewrite app_assoc. by apply lookup_app_l_Some. }
    cbn [mbind outcome_bind]. cbn [app bytes_at] in Hb. destruct Hb as [_ Hb]. cbn [length] in *.
    rewrite (IH (p + 1) fuel Hb) by (lia || (intros; lia)). f_equal. lia.
Qed.
End reading.

(** ** Entries *)

Section entries.
Variables (r : reader) (fuel : nat).

Lemma bytes_at_skip p l l' : bytes_at r p (l ++ l') -> bytes_at r (p + flen l) l'.
Proof. rewrite bytes_at_app. by intros []. Qed.
Lemma bytes_at_head p l l' : bytes_at r p (l ++ l') -> bytes_at r p l.
Proof. rewrite bytes_at_app. by intros []. Qed.

Lemma read_string_run l l' p m : bytes_at r p (l ++ 0 :: l') -> Forall (fun c => c <> 0) l -> (length l < m)%nat -> read_string r m p = Ret l.
Proof.
  intros Hb Hl. revert p m Hb. induction Hl as [|c l Hc Hl IH]; intros p m Hb Hm; (destruct m as [|m]; [cbn in Hm; lia|]); cbn [app bytes_at read_string length] in *;
    destruct Hb as [H0 Hb]; rewrite (rd_run _ _ _ H0); cbn [mbind outcome_bind]; [done|].
  rewrite (proj2 (Z.eqb_neq c 0)), IH by (done || lia). done.
Qed.

Lemma read_n_run l p : bytes_at r p l -> read_n r (length l) p = Ret l.
Proof.
  revert p. induction l as [|c l IH]; intros p Hb; [done|]. destruct Hb as [H0 Hb]. cbn [length read_n]. rewrite (rd_run _ _ _ H0), IH by done. done.
Qed.

Lemma skip_nul_run k c l p m : bytes_at r p (replicate k 0 ++ c :: l) -> c <> 0 -> (k < m)%nat -> skip_nul r m p = Ret (p + Z.of_nat k).
Proof.
  revert p m. induction k as [|k IH]; intros p m Hb Hc Hm; (destruct m as [|m]; [lia|]); cbn [replicate app bytes_at skip_nul] in *; destruct Hb as [H0 Hb];
    rewrite (rd_run _ _ _ H0); cbn [mbind outcome_bind].
  - rewrite (proj2 (Z.eqb_neq c 0)) by done. by rewrite Z.add_0_r.
  - rewrite Z.eqb_refl, (IH (p + 1)) by (done || lia). f_equal. lia.
Qed.

(** Entry [e] is that of file [f]. *)
Definition entry_of (e : Entry) (f : file) : Prop :=
  pathname_len e = name_size f /\ content_len e = flen (f_content f) /\ read_string r fuel (pathname e) = Ret (f_path f) /\
  ((f_content f = [] /\ content e = 0) \/ (f_content f <> [] /\ content e <> 0 /\ read_n r (length (f_content f)) (content e) = Ret (f_content f))).

Lemma pad_length k : (length (pad k) <= 3)%nat.
Proof. unfold pad. rewrite length_replicate. pose proof (Z.mod_pos_bound (- k) 4). lia. Qed.

Lemma header_length f : file_ok f -> flen (header f) = 110.
Proof. intros []. unfold header, flen. rewrite !length_app, !length_hex. cbn [length CPIO_MAGIC]. lia. Qed.

(** The two fields that are read. *)
Lemma fields_run f p rest : file_ok f -> bytes_at r p (header f ++ rest) ->
  header_field r (p + c_namesize) = Ret (name_size f) /\ header_field r (p + c_filesize) = Ret (flen (f_content f)).
Proof.
  intros [Hm Hd Hc Hp [Hs1 Hs2] _] Hb. apply bytes_at_head in Hb. unfold header in Hb.
  apply bytes_at_skip in Hb as H1. apply bytes_at_skip in H1. replace (p + flen CPIO_MAGIC + flen (f_meta f)) with (p + c_filesize) in H1
    by (unfold flen, c_filesize; rewrite Hm; cbn; lia).
  pose proof H1 as H2. apply bytes_at_skip in H2. apply bytes_at_skip in H2.
  replace (p + c_filesize + flen (hex 8 (flen (f_content f))) + flen (f_dev f)) with (p + c_namesize) in H2
    by (unfold flen, c_filesize, c_namesize; rewrite length_hex, Hd; lia).
  destruct (f_check f) as [|x check]; [done|]. destruct (f_dev f) as [|y dev]; [done|]. split.
  - apply (header_field_run r _ _ x); [|unfold name_size, flen in *; lia]. apply (bytes_at_head _ _ check). by rewrite <- app_assoc.
  - apply (header_field_run r _ _ y); [|unfold flen in *; lia].
    apply (bytes_at_head _ _ (dev ++ hex 8 (name_size f) ++ x :: check)). by rewrite <- app_assoc.
Qed.

Lemma body_at f p rest : file_ok f -> bytes_at r p (encode f ++ rest) ->
  bytes_at r (p + HEADER_SIZE) (f_path f ++ 0 :: body f ++ rest) /\ bytes_at r (p + HEADER_SIZE + name_size f) (body f ++ rest).
Proof.
  intros Hf Hb. unfold encode in Hb. rewrite <- app_assoc in Hb. apply bytes_at_skip in Hb. rewrite (header_length f Hf) in Hb.
  unfold HEADER_SIZE. rewrite <- app_assoc in Hb. cbn [app] in Hb. split; [done|].
  replace (f_path f ++ 0 :: body f ++ rest) with ((f_path f ++ [0]) ++ body f ++ rest) in Hb by (by rewrite <- app_assoc).
  apply bytes_at_skip in Hb. unfold flen in Hb. rewrite length_app in Hb. cbn [length] in Hb. unfold name_size, flen.
  by replace (p + 110 + (Z.of_nat (length (f_path f)) + 1)) with (p + 110 + Z.of_nat (length (f_path f) + 1)) by lia.
Qed.

Lemma new_entry_run f p rest : file_ok f -> 0 <= p -> bytes_at r p (encode f ++ rest) -> (3 < fuel)%nat -> (length (f_path f) < fuel)%nat ->
  exists e, new_entry r fuel p = Ret e /\ entry_of e f /\ pathname e = p + HEADER_SIZE.
Proof.
  intros Hf Hp Hb Hfuel Hlen. destruct (body_at f p rest Hf Hb) as [Hpath Hbody]. pose proof Hf as [_ _ _ Hnz [Hs1 Hs2] Hc].
  unfold encode in Hb. rewrite <- app_assoc in Hb. destruct (fields_run f p _ Hf Hb) as [F1 F2]. unfold new_entry. rewrite F1, F2. cbn [mbind outcome_bind].
  rewrite (proj2 (Z.eqb_neq (name_size f) 0)) by (unfold name_size, flen; lia).
  assert (Hrs : read_string r fuel (p + HEADER_SIZE) = Ret (f_path f)) by (by eapply read_string_run).
  destruct (f_content f) as [|c cs] eqn:Econt.
  - change (flen [] =? 0) with true. cbn. eexists. split; [done|]. split; [|done]. unfold entry_of. rewrite Econt. split_and!; [done..|by left].
  - rewrite (proj2 (Z.eqb_neq _ 0)) by (unfold flen; cbn [length]; lia). unfold body in Hbody. rewrite Econt in Hbody. unfold pad in Hbody at 1.
    rewrite <- !app_assoc in Hbody. set (k := Z.to_nat (- (HEADER_SIZE + name_size f) mod 4)) in *.
    assert (Hk : (k < 4)%nat) by (unfold k; pose proof (Z.mod_pos_bound (- (HEADER_SIZE + name_size f)) 4); lia).
    rewrite (skip_nul_run k c (cs ++ pad (flen (c :: cs)) ++ rest)) by (done || lia). cbn [mbind outcome_bind]. eexists. split; [done|]. split; [|done].
    unfold entry_of. rewrite Econt. split_and!; [done..|right]. split_and!; [done|cbn [content]; unfold HEADER_SIZE, name_size, flen in *; lia|].
    apply read_n_run. apply bytes_at_skip in Hbody. unfold flen in Hbody at 1. rewrite length_replicate in Hbody. cbn [content]. by eapply bytes_at_head.
Qed.
End entries.

(** ** The whole archive *)

Fixpoint run_all {T} (callback : Entry -> M T unit) (es : list Entry) : M T unit :=
  match es with [] => mret tt | e :: es => callback e;; run_all callback es end.

Lemma not_prefix_differ (w l : list Z) : Forall (fun c => c <> 0) w -> ~ (w `prefix_of` l) ->
  exists k a b, (l ++ [0]) !! k = Some a /\ w !! k = Some b /\ a <> b.
Proof.
  intros Hw. revert l. induction Hw as [|c w Hc Hw IH]; intros l Hn; [by destruct Hn; apply prefix_nil|]. destruct l as [|x l].
  - by exists 0%nat, 0, c.
  - destruct (decide (x = c)) as [->|Hne]; [|by exists 0%nat, x, c].
    destruct (IH l) as (k & a & b & Ha & Hb & Hab); [by intros Hp; apply Hn, prefix_cons|]. by exists (S k), a, b.
Qed.

Section whole.
Variables (r : reader) (fuel : nat).

Lemma entry_valid_path e path rest : bytes_at r (pathname e) (path ++ 0 :: rest) ->
  (path = CPIO_TRAILER -> entry_is_valid r e = Ret false) /\ (~ (CPIO_TRAILER `prefix_of` path) -> entry_is_valid r e = Ret true).
Proof.
  intros Hb. assert (Hw : Forall (fun c => c <> 0) CPIO_TRAILER) by (repeat constructor; lia).
  replace (path ++ 0 :: rest) with ((path ++ [0]) ++ rest) in Hb by (by rewrite <- app_assoc). apply bytes_at_head in Hb.
  unfold entry_is_valid. split.
  - intros ->. pose proof (strncmp_match r CPIO_TRAILER 0 (arr_get (CPIO_TRAILER ++ [0])) _ 0 Hb (bytes_at_arr [] _) Hw) as Hm.
    cbn [length CPIO_TRAILER] in Hm. change (Z.of_nat 10) with 10 in Hm. by rewrite Hm.
  - intros Hn. destruct (not_prefix_differ _ _ Hw Hn) as (k & a & b & Ha & Hk & Hab).
    destruct (strncmp_differ r CPIO_TRAILER _ (arr_get (CPIO_TRAILER ++ [0])) _ 0 k a b Hb (bytes_at_arr [] _) Hw Ha Hk Hab) as (d & Hd & Hm).
    cbn [length CPIO_TRAILER] in Hm. change (Z.of_nat 10) with 10 in Hm. rewrite Hm. cbn [mbind outcome_bind]. by rewrite (proj2 (Z.eqb_neq d 0)).
Qed.

(** From the end of a file's data, as the code counts it, to the next header. *)
Lemma to_next_header f p rest : file_ok f -> bytes_at r p (encode f ++ rest) -> (exists x rest', rest = CPIO_MAGIC ++ x :: rest') -> (6 < fuel)%nat ->
  next_header r fuel (p + HEADER_SIZE + name_size f + flen (f_content f)) = Ret (p + flen (encode f)).
Proof.
  intros Hf Hb (x & rest' & ->) Hfuel. destruct (body_at r f p _ Hf Hb) as [_ Hbody]. set (n := length (f_content f)).
  assert (Hlb : length (body f) = (length (pad (HEADER_SIZE + name_size f)) + n + length (pad (flen (f_content f))))%nat)
    by (unfold body; rewrite !length_app; unfold n; lia).
  pose proof (pad_length (HEADER_SIZE + name_size f)) as Hp1. pose proof (pad_length (flen (f_content f))) as Hp2.
  assert (Hg : length (drop n (body f)) = (length (pad (HEADER_SIZE + name_size f)) + length (pad (flen (f_content f))))%nat) by (rewrite length_drop; lia).
  rewrite (next_header_run r (drop n (body f)) _ fuel x).
  - f_equal. rewrite Hg. clear Hbody Hb. pose proof (header_length f Hf) as Hh. revert Hg Hlb Hp1 Hp2.
    generalize (length (pad (HEADER_SIZE + name_size f))) (length (pad (flen (f_content f)))). intros P1 P2 Hg Hlb Hp1 Hp2.
    unfold encode, flen, name_size, HEADER_SIZE in *. rewrite !length_app. cbn [length]. unfold flen, n in *. lia.
  - assert (Hb2 : bytes_at r (p + HEADER_SIZE + name_size f) (take n (body f) ++ (drop n (body f) ++ CPIO_MAGIC ++ [x]) ++ rest')).
    { rewrite <- !app_assoc. cbn [app]. by rewrite app_assoc, take_drop. }
    apply bytes_at_skip in Hb2. unfold flen in Hb2 at 1. rewrite length_take, Nat.min_l in Hb2 by lia. by apply bytes_at_head in Hb2.
  - lia.
  - intros H6. assert (Hpad : length (pad (flen (f_content f))) = 3%nat) by lia. apply (list_elem_of_lookup_2 _ 5). rewrite lookup_drop. unfold body.
    assert (E1 : length (pad (HEADER_SIZE + name_size f)) = 3%nat) by lia. rewrite lookup_app_r by lia. rewrite E1, lookup_app_r by (fold n; lia). fold n.
    replace (n + 5 - 3 - n)%nat with 2%nat by lia. unfold pad in Hpad |- *. rewrite length_replicate in Hpad. apply lookup_replicate. split; [done|lia].
  - lia.
Qed.

Lemma encode_starts f rest : file_ok f -> exists x rest', encode f ++ rest = CPIO_MAGIC ++ x :: rest'.
Proof.
  intros []. unfold encode, header. destruct (f_meta f) as [|x meta]; [done|]. eexists x, _. rewrite <- !app_assoc. done.
Qed.

Lemma archive_starts files trailer : Forall regular_ok files -> trailer_ok trailer -> exists x rest, archive files trailer = CPIO_MAGIC ++ x :: rest.
Proof.
  intros Hf Ht. unfold archive. destruct Hf as [|f files Hf Hfs]; cbn [map concat app].
  - destruct (encode_starts trailer [] (proj1 Ht)) as (x & rest & E). rewrite app_nil_r in E. eauto.
  - rewrite <- app_assoc. by apply encode_starts, Hf.
Qed.

Lemma for_each_run files trailer p n : Forall regular_ok files -> trailer_ok trailer -> 0 <= p -> bytes_at r p (archive files trailer) ->
  Forall (fun f => (length (f_path f) < fuel)%nat) files -> (10 < fuel)%nat -> (length files < n)%nat ->
  exists es, Forall2 (entry_of r fuel) es files /\ forall T (callback : Entry -> M T unit) s, for_each_loop r n fuel callback p s = run_all callback es s.
Proof.
  intros Hfs Ht Hp Hb Hl Hfuel. revert p n Hp Hb Hl. induction Hfs as [|f files [Hf Hreg] Hfs IH]; intros p n Hp Hb Hl Hn; (destruct n as [|n]; [cbn in Hn; lia|]).
  - exists []. split; [constructor|]. intros T cb s. unfold archive in Hb. cbn [map concat app] in Hb. rewrite <- (app_nil_r (encode trailer)) in Hb.
    destruct Ht as (Hok & Hpath & _). destruct (new_entry_run r fuel trailer p [] Hok Hp Hb ltac:(lia) ltac:(rewrite Hpath; cbn; lia)) as (e & He & _ & Hpn).
    cbn [for_each_loop]. rewrite He. msimpl. destruct (body_at r trailer p [] Hok Hb) as [Hbody _]. rewrite <- Hpn in Hbody.
    rewrite (proj1 (entry_valid_path e _ _ Hbody) Hpath). by msimpl.
  - apply list.Forall_cons in Hl as [Hlf Hl]. unfold archive in Hb. cbn [map concat] in Hb. rewrite <- app_assoc in Hb. fold (archive files trailer) in Hb.
    destruct (new_entry_run r fuel f p _ Hf Hp Hb ltac:(lia) Hlf) as (e & He & Heo & Hpn).
    pose proof Hb as Hnext. apply bytes_at_skip in Hnext.
    destruct (IH (p + flen (encode f)) n ltac:(unfold flen; lia) Hnext Hl ltac:(cbn in Hn; lia)) as (es & Hes & Hrun).
    exists (e :: es). split; [by constructor|]. intros T cb s. cbn [for_each_loop run_all]. rewrite He. msimpl.
    destruct (body_at r f p _ Hf Hb) as [Hbody _]. rewrite <- Hpn in Hbody. rewrite (proj2 (entry_valid_path e _ _ Hbody) Hreg). msimpl. cbn [negb].
    unfold mbind at 1 3. unfold M_bind. destruct (cb e s) as [[[] s1]| | |]; [|done..]. destruct Heo as (Hpl & Hcl & _). rewrite Hpl, Hcl.
    rewrite (to_next_header f p _ Hf Hb (archive_starts files trailer Hfs Ht)) by lia. cbn [lift]. apply Hrun.
Qed.
End whole.

(** ** Unpacking *)

Section unpack.
Context {F : Type} `{Vnodes F}.
Variables (r : reader) (fuel : nat).

(** A file without content is a directory. *)
Definition create_file (f : file) : M (VFS F) unit :=
  match f_content f with
  | [] => create (f_path f) None 0 S_IFDIR 0 0;; mret tt
  | c => create (f_path f) (Some c) (flen c) S_IFREG 0 0;; mret tt
  end.
Fixpoint create_files (files : list file) : M (VFS F) unit :=
  match files with [] => mret tt | f :: files => create_file f;; create_files files end.

Lemma unpack_entry_run e f s : entry_of r fuel e f -> unpack_entry r fuel e s = create_file f s.
Proof.
  intros (_ & Hcl & Hpath & Hc). unfold unpack_entry, create_file. rewrite Hcl, Hpath. msimpl. destruct Hc as [[Hc He]|(Hc & He & Hr)].
  - rewrite Hc, He. change (flen [] =? 0) with true. change (0 =? 0) with true. by msimpl.
  - rewrite (proj2 (Z.eqb_neq _ 0) He). unfold flen. rewrite Nat2Z.id, Hr. destruct (f_content f) as [|c cs]; [done|].
    rewrite (proj2 (Z.eqb_neq _ 0)) by (cbn [length]; lia). done.
Qed.

Lemma unpack_entries_run es files s : Forall2 (entry_of r fuel) es files -> run_all (unpack_entry r fuel) es s = create_files files s.
Proof.
  intros Hes. revert s. induction Hes as [|e f es files He Hes IH]; intros s; [done|]. cbn [run_all create_files].
  unfold mbind, M_bind. rewrite (unpack_entry_run e f s He). destruct (create_file f s) as [[[] s1]| | |]; [apply IH|done..].
Qed.

(** C29. Mounting the root file system with an archive in memory, well formed as
    the "newc" format lays it out, is the same as mounting it and creating the
    archive's files one after the other, with their paths and contents: the
    parser finds every header, name and content in spite of the padding and
    stops at the end marker.  A file must not start with a NUL byte. *)
Theorem unpack_creates_files base root files trailer s :
  bytes_at r base (archive files trailer) -> 0 <= base -> Forall regular_ok files -> trailer_ok trailer ->
  Forall (fun f => (length (f_path f) < fuel)%nat) files -> (10 < fuel)%nat -> (length files < fuel)%nat ->
  mount_rootfs_archive r fuel base root s = (mount_rootfs root;; create_files files) s.
Proof.
  intros Hb Hp Hfs Ht Hl Hf Hn. destruct (archive_starts files trailer Hfs Ht) as (x & rest & E).
  destruct (for_each_run r fuel files trailer base fuel Hfs Ht Hp Hb Hl Hf Hn) as (es & Hes & Hrun). unfold mount_rootfs_archive, mbind, M_bind.
  destruct (mount_rootfs root s) as [[[] s1]| | |]; [|done..]. unfold archive_is_valid. rewrite E in Hb.
  replace (CPIO_MAGIC ++ x :: rest) with ((CPIO_MAGIC ++ [x]) ++ rest) in Hb by done. rewrite (is_magic_true r base x (bytes_at_head r _ _ _ Hb)). cbn [lift negb].
  unfold for_each. rewrite Hrun. by apply unpack_entries_run.
Qed.
End unpack.

(** A directory "a" and a file "a/b". *)
Definition demo_files : list file :=
  [mkFile (replicate 48 48) (replicate 32 48) (replicate 8 48) [47; 97] [];
   mkFile (replicate 48 48) (replicate 32 48) (replicate 8 48) [47; 97; 47; 98] [104; 105]].
Definition demo_trailer : file := mkFile (replicate 48 48) (replicate 32 48) (replicate 8 48) CPIO_TRAILER [].

Lemma demo_file_ok path content : length path = 2%nat \/ length path = 4%nat \/ length path = 10%nat -> Forall (fun c => c <> 0) path ->
  content = [] \/ content = [104; 105] -> file_ok (mkFile (replicate 48 48) (replicate 32 48) (replicate 8 48) path content).
Proof.
  intros Hl Hp Hc. constructor; [done..|unfold name_size, flen; cbn; destruct Hc as [->| ->]; cbn; lia|]. by destruct Hc as [->| ->].
Qed.

Lemma unpack_creates_files_witness :
  let s := set_v_mounts [] demo_vfs in
  mount_rootfs_archive (arr_get (archive demo_files demo_trailer)) 20 0 1 s = (mount_rootfs 1;; create_files demo_files) s.
Proof.
  apply (unpack_creates_files (arr_get (archive demo_files demo_trailer)) 20 0 1 demo_files demo_trailer (set_v_mounts [] demo_vfs)).
  - apply (bytes_at_arr [] (archive demo_files demo_trailer)).
  - lia.
  - apply list.Forall_cons. split; [|apply list.Forall_singleton]; (split; [apply demo_file_ok|]); [by left|repeat constructor; lia|by left|by apply (bool_decide_unpack _)|
      by right; left|repeat constructor; lia|by right|by apply (bool_decide_unpack _)].
  - split_and!; [apply demo_file_ok; [by right; right|repeat constructor; lia|by left]|done..].
  - repeat constructor; cbn; lia.
  - lia.
  - cbn. lia.
Defined.
