(* ===== verification/FilesSpec.v ===== *)
(** * Reading, writing and mounting

    What is written to a file of TmpFS is what is read after the file is closed
    and opened again, and what mounting does to the resolution of paths. *)

From Stdlib Require Import ZArith Lia.
From stdpp Require Import base gmap list numbers sets.
From S2P Require Import Prelude Mutex CString KString Console Vnode TmpFS Vfs VfsSpec TmpFSSpec.

Open Scope Z_scope.

(** Lookups depend on the inodes and the mounts alone. *)
Lemma mount_at_same (s s' : VFS TmpHeap) ms v : heap s' = heap s -> mount_at s' ms v = mount_at s ms v.
Proof. intros Hh. induction ms as [|m ms IH]; cbn [mount_at]; [done|]. rewrite IH. cbn [hash_of tmp_pure]. by rewrite Hh. Qed.
Lemma step_same (s s' : VFS TmpHeap) v n : heap s' = heap s -> v_mounts s' = v_mounts s -> step s' v n = step s v n.
Proof.
  intros Hh Hm. unfold step. cbn [child_of tmp_pure]. rewrite Hh, Hm.
  destruct (tmp_child _ _ _ _) as [c| | |]; cbn [mbind outcome_bind]; try done. unfold seen_at. by rewrite Hm, (mount_at_same s).
Qed.
Lemma follow_same (s s' : VFS TmpHeap) cs v : heap s' = heap s -> v_mounts s' = v_mounts s -> follow s' cs v = follow s cs v.
Proof.
  intros Hh Hm. revert v. induction cs as [|c cs IH]; intros v; cbn [follow]; [done|]. rewrite (step_same s) by done.
  destruct (step s v c) as [x| | |]; cbn [mbind outcome_bind]; try done. destruct (x =? 0); [done|apply IH].
Qed.

(** ** Heaps with the same tree *)

(** The same inodes, up to content, size and device. *)
Definition same_tree (i j : Inode) : Prop :=
  i_fs i = i_fs j /\ i_name i = i_name j /\ i_parent i = i_parent j /\ i_children i = i_children j /\ i_mode i = i_mode j.
Definition alike (h h' : gmap Z Inode) : Prop := forall v, option_Forall2 same_tree (h !! v) (h' !! v).

Lemma alike_Some h h' v i : alike h h' -> h !! v = Some i -> exists i', h' !! v = Some i' /\ same_tree i i'.
Proof. intros Ha Hi. specialize (Ha v). rewrite Hi in Ha. inversion Ha; subst. eauto. Qed.
Lemma alike_is_Some h h' v : alike h h' -> is_Some (h !! v) -> is_Some (h' !! v).
Proof. intros Ha [i Hi]. destruct (alike_Some h h' v i Ha Hi) as (? & ? & _). eauto. Qed.
Lemma alike_refl h : alike h h.
Proof. intros v. destruct (h !! v); constructor. by split_and!. Qed.
Lemma alike_sym h h' : alike h h' -> alike h' h.
Proof.
  intros Ha v. specialize (Ha v). inversion Ha as [i j Hs|]; constructor.
  unfold same_tree in *. destruct Hs as (? & ? & ? & ? & ?). split_and!; congruence.
Qed.

Lemma alike_inode h h' v : alike h h' -> match inode_at h v, inode_at h' v with
  | Ret i, Ret j => same_tree i j | Fault, Fault => True | _, _ => False end.
Proof. intros Ha. unfold inode_at. specialize (Ha v). by inversion Ha. Qed.

Ltac alike_at Ha h h' v :=
  let H := fresh in pose proof (alike_inode h h' v Ha) as H;
  destruct (inode_at h v) as [?i| | |], (inode_at h' v) as [?j| | |]; try done;
  destruct H as (?Efs & ?Enm & ?Epa & ?Ech & ?Emo); cbn [mbind outcome_bind].

Lemma named_alike h h' n cs : alike h h' -> named h' n cs = named h n cs.
Proof.
  intros Ha. induction cs as [|c cs IH]; cbn [named]; [done|]. alike_at Ha h h' c. rewrite Enm, IH. done.
Qed.
Lemma up_alike h h' fuel ms v : alike h h' -> up fuel h' ms v = up fuel h ms v.
Proof.
  intros Ha. revert v. induction fuel as [|fuel IH]; intros v; cbn [up]; [done|]. alike_at Ha h h' v.
  rewrite Efs, Epa. destruct (_ =? _); [apply IH|done].
Qed.
Lemma child_alike h h' ms v n : alike h h' -> tmp_child h' ms v n = tmp_child h ms v n.
Proof.
  intros Ha. unfold tmp_child. case_decide; [done|]. case_decide; [by apply up_alike|]. alike_at Ha h h' v.
  rewrite Ech. by apply named_alike.
Qed.

Lemma tmp_ok_alike s s' : tmp_ok s -> alike (heap s) (heap s') -> th_next (v_fs s') = th_next (v_fs s) ->
  v_mounts s' = v_mounts s -> v_cwd s' = v_cwd s -> tmp_ok s'.
Proof.
  intros Hok Ha Hn Hm Hc. pose proof (alike_sym _ _ Ha) as Hb.
  assert (Hl : forall v, is_Some (heap s !! v) -> is_Some (heap s' !! v)) by (intros v; by apply alike_is_Some).
  assert (Hinv : forall v i', heap s' !! v = Some i' -> exists i, heap s !! v = Some i /\ same_tree i' i)
    by (intros v i'; by apply alike_Some).
  assert (Hfwd : forall v i, heap s !! v = Some i -> exists i', heap s' !! v = Some i' /\ same_tree i i')
    by (intros v i'; by apply alike_Some).
  split.
  - intros v i' (i & Hi & _)%Hinv. rewrite Hn. by eapply to_keys.
  - rewrite Hn. by apply to_next.
  - intros v i' c (i & Hi & Efs & Enm & Epa & Ech & _)%Hinv Hin. rewrite Ech in Hin.
    destruct (to_children s Hok v i c Hi Hin) as (ci & Hci & H1 & H2 & H3).
    destruct (Hfwd c ci Hci) as (ci' & Hci' & Ffs & Fnm & Fpa & Fch & _). exists ci'. split_and!; congruence.
  - intros v i' (i & Hi & Efs & Enm & Epa & Ech & _)%Hinv. rewrite Ech. destruct (to_names s Hok v i Hi) as [Hnd Hun].
    split; [done|]. intros c1 c2 i1 i2 H1 H2 (j1 & Hj1 & _ & E1 & _)%Hinv (j2 & Hj2 & _ & E2 & _)%Hinv En.
    apply (Hun c1 c2 j1 j2); congruence.
  - intros v i' (i & Hi & Efs & Enm & Epa & Ech & _)%Hinv Hne. rewrite Epa. apply Hl. apply (to_parent s Hok v i Hi). congruence.
  - intros v i' (i & Hi & Efs & _)%Hinv. rewrite Efs. apply Hl. by eapply to_fs.
  - intros m. rewrite Hm. intros Hin. destruct (to_mounts s Hok m Hin) as (? & ? & ?). split_and!; by apply Hl.
  - rewrite Hm. by apply to_mounted.
  - rewrite Hc. apply Hl, to_cwd, Hok.
Qed.

(** ** Replacing the content of a file *)

Definition with_inode (s : VFS TmpHeap) (v : Z) (i : Inode) : VFS TmpHeap :=
  set_v_fs (mkHeap (<[v := i]> (heap s)) (th_next (v_fs s))) s.

Section content.
Context (s : VFS TmpHeap) (Hok : tmp_ok s) (v : Z) (i i' : Inode) (Hi : heap s !! v = Some i) (Hsame : same_tree i i').
Context (Hun : unshadowed s (tmp_hash i)) (Hun' : unshadowed s (tmp_hash i')).
Let s' := with_inode s v i'.

Lemma heap_with w : heap s' !! w = if decide (w = v) then Some i' else heap s !! w.
Proof. unfold s', with_inode, heap. simpl. case_decide; subst; [apply lookup_insert_eq|by apply lookup_insert_ne]. Qed.

Lemma alike_with : alike (heap s) (heap s').
Proof.
  intros w. rewrite heap_with. case_decide; subst; [rewrite Hi; by constructor|]. destruct (heap s !! w); constructor.
  split_and!; done.
Qed.

Lemma ok_with : tmp_ok s'.
Proof. by apply (tmp_ok_alike s s' Hok alike_with). Qed.

Lemma hash_with w : w <> v -> hash_of s' w = hash_of s w.
Proof. intros Hw. cbn [hash_of tmp_pure]. unfold inode_at. by rewrite heap_with, decide_False. Qed.

Lemma host_not_v m : m ∈ v_mounts s -> host_vnode m <> v.
Proof. intros Hm E. apply (Hun m i Hm); [by rewrite E|done]. Qed.

Lemma mount_at_with ms w : (forall m, m ∈ ms -> m ∈ v_mounts s) -> mount_at s' ms w = mount_at s ms w.
Proof.
  intros Hms. induction ms as [|m ms IH]; cbn [mount_at]; [done|].
  assert (Hm : m ∈ v_mounts s) by (apply Hms; left). pose proof (host_not_v m Hm) as Hh.
  rewrite (hash_with (host_vnode m) Hh), IH by (intros m' Hm'; apply Hms; by right).
  destruct (decide (w = v)) as [->|Hw]; [|by rewrite hash_with].
  destruct (to_mounts s Hok m Hm) as (_ & _ & [j Hj]). cbn [hash_of tmp_pure]. unfold inode_at.
  rewrite heap_with, decide_True, Hj, Hi by done. cbn [mbind outcome_bind].
  by rewrite (proj2 (Z.eqb_neq _ _) (Hun' m j Hm Hj)), (proj2 (Z.eqb_neq _ _) (Hun m j Hm Hj)).
Qed.

Lemma step_with w n : step s' w n = step s w n.
Proof.
  unfold step. cbn [child_of tmp_pure]. change (v_mounts s') with (v_mounts s).
  rewrite (child_alike _ _ _ _ _ alike_with). destruct (tmp_child _ _ _ _) as [c| | |]; cbn [mbind outcome_bind]; try done.
  unfold seen_at. destruct (c =? 0); [done|]. by apply mount_at_with.
Qed.

Lemma follow_with cs w : follow s' cs w = follow s cs w.
Proof.
  revert w. induction cs as [|c cs IH]; intros w; cbn [follow]; [done|]. rewrite step_with.
  destruct (step s w c) as [x| | |]; cbn [mbind outcome_bind]; try done. destruct (x =? 0); [done|apply IH].
Qed.
End content.

(** ** A file at a path *)

(** The path leads to the regular file [v] in the directory [d], seen through
    no mount. *)
Record at_path (s : VFS TmpHeap) (p : list Z) (cs : list (list Z)) (name : list Z) (root d v : Z) (i : Inode) : Prop := {
  ap_ok : tmp_ok s;
  ap_room : cpu_room 3 (cpu_of s);
  ap_dot : p <> dot;
  ap_cs : components slash p = cs ++ [name];
  ap_start : start s p = Ret root;
  ap_follow : follow s cs root = Ret d;
  ap_d : d <> 0;
  ap_step : step s d name = Ret v;
  ap_inode : heap s !! v = Some i;
  ap_reg : is_regular_file (i_mode i) = true;
  ap_seen : unshadowed s (tmp_hash i)
}.

(** The file table may change. *)
Lemma at_path_files s p cs name root d v i fs n o : at_path s p cs name root d v i ->
  at_path (set_v_opened o (set_v_files fs n s)) p cs name root d v i.
Proof.
  intros []. split; try assumption.
  - by apply (tmp_ok_alike s (set_v_opened o (set_v_files fs n s)) ap_ok0 (alike_refl _)).
  - by rewrite (follow_same s).
  - by rewrite (step_same s).
Qed.

Lemma at_path_content s p cs name root d v i b : at_path s p cs name root d v i ->
  unshadowed s (tmp_hash (with_content (Some b) (Z.of_nat (length b)) i)) ->
  at_path (with_inode s v (with_content (Some b) (Z.of_nat (length b)) i)) p cs name root d v
    (with_content (Some b) (Z.of_nat (length b)) i).
Proof.
  intros [] Hun. set (i' := with_content _ _ i) in *. assert (Hsame : same_tree i i') by (split_and!; done). split; try done.
  - by eapply ok_with.
  - by erewrite follow_with.
  - by erewrite step_with.
  - by rewrite heap_with, decide_True.
  - intros m j Hm Hj. rewrite heap_with, decide_False in Hj by (by eapply host_not_v). by apply (Hun m j).
Qed.

(** A file object for [v]. *)
Definition file_at (s : VFS TmpHeap) (f v pos : Z) : Prop := exists o, v_files s !! f = Some (mkFile v pos o).

(** No opened file is for [v]. *)
Definition not_opened {F} (s : VFS F) (fs : list Z) (v : Z) : Prop :=
  forall g, g ∈ fs -> exists x, v_files s !! g = Some x /\ f_vnode x <> v.

Lemma rd_file_run {F} (s : VFS F) f x : v_files s !! f = Some x -> rd_file f s = Ret (x, s).
Proof. intros Hx. unfold rd_file. msimpl. by rewrite Hx. Qed.

Lemma find_opened_none {F} (s : VFS F) fs v rest : not_opened s fs v -> find_opened (fs ++ rest) v s = find_opened rest v s.
Proof.
  induction fs as [|g fs IH]; intros Hno; cbn [find_opened app]; [done|].
  destruct (Hno g) as (x & Hx & Hv); [left|]. mrun (rd_file_run s g x Hx). rewrite (proj2 (Z.eqb_neq _ _) Hv).
  apply IH. intros g' Hg. apply Hno. by right.
Qed.

Lemma wr_pos_run {F} (s : VFS F) f x pos : v_files s !! f = Some x ->
  wr_pos f pos s = Ret (tt, set_v_files (<[f := mkFile (f_vnode x) pos (f_options x)]> (v_files s)) (v_next_file s) s).
Proof. intros Hx. unfold wr_pos. by mrun (rd_file_run s f x Hx). Qed.

(** The state after [open] made a file object. *)
Definition opened {F} (s : VFS F) (v options : Z) : VFS F :=
  set_v_opened (v_opened s ++ [v_next_file s])
    (set_v_files (<[v_next_file s := mkFile v 0 options]> (v_files s)) (v_next_file s + 1) s).

Lemma open_new_run s p cs name root d v i options : at_path s p cs name root d v i -> not_opened s (v_opened s) v ->
  open p options s = Ret (v_next_file s, opened s v options).
Proof.
  intros [] Hno. unfold open. change (opened s v options) with (with_cpu (cpu_of s) (opened s v options)).
  apply guarded_spec; [by eapply cpu_room_ok|].
  pose proof (resolve_path_run s p cs name root d v (entered (cpu_of s)) ap_ok0 ltac:(by eapply cpu_room_entered) ap_dot0 ap_cs0 ap_start0 ap_follow0 ap_d0 ap_step0) as Hr.
  set (s1 := with_cpu (entered (cpu_of s)) s) in *. mrun Hr. cbn [fst]. msimpl.
  assert (Hf : find_opened (v_opened s1) v s1 = Ret (None, s1)).
  { change (v_opened s1) with (v_opened s). rewrite <- (app_nil_r (v_opened s)), (find_opened_none s1); [done|exact Hno]. }
  mrun Hf. rewrite (proj2 (Z.eqb_neq v 0)) by (apply (live_nonzero s ap_ok0); eauto). cbn [negb].
  unfold push_file, root_vnode. rewrite <- M_assoc. msimpl. change (v_mounts s1) with (v_mounts s).
  pose proof (to_mounted s ap_ok0). by destruct (v_mounts s).
Qed.

(** [write] of the whole of [b]. *)
Lemma write_run s p cs name root d v i f pos o b :
  at_path s p cs name root d v i -> v_files s !! f = Some (mkFile v pos o) -> f <> 0 -> 0 <= pos ->
  pos + Z.of_nat (length b) < 2 ^ 64 -> Z.of_nat (length b) < 2 ^ 31 ->
  write f b (Z.of_nat (length b)) s =
    Ret (Z.of_nat (length b),
      set_v_files (<[f := mkFile v (pos + Z.of_nat (length b)) o]> (v_files s)) (v_next_file s)
        (with_inode s v (with_content (Some b) (Z.of_nat (length b)) i))).
Proof.
  intros [] Hf Hf0 Hpos Hlen Hint. unfold write.
  set (s' := set_v_files _ _ _). change s' with (with_cpu (cpu_of s) s'). apply guarded_spec; [by eapply cpu_room_ok|].
  set (s1 := with_cpu (entered (cpu_of s)) s). rewrite (proj2 (Z.eqb_neq f 0) Hf0).
  mrun (rd_file_run s1 f _ Hf). cbn [f_vnode f_pos].
  assert (Hm : vn_mode v s1 = Ret (i_mode i, s1)).
  { cbn [vn_mode tmp_vnodes]. assert (Hr : rd_inode v s1 = Ret (i, s1)).
    { rewrite rd_inode_lift. unfold inode_at. change (heap s1) with (heap s). by rewrite ap_inode0. }
    by mrun Hr. }
  mrun Hm. rewrite ap_reg0.
  assert (Hslice : slice b 0 (Z.of_nat (length b)) = Some b).
  { unfold slice. rewrite decide_True, Nat2Z.id, drop_0 by lia. by rewrite firstn_all. }
  rewrite Hslice. set (s2 := with_inode s1 v (with_content (Some b) (Z.of_nat (length b)) i)).
  assert (Hset : (set_content v (Some b) (Z.of_nat (length b));; mret true) s1 = Ret (true, s2)).
  { cbn [set_content tmp_vnodes]. unfold tmp_set_content.
    by mrun (wr_inode_run s1 v i (with_content (Some b) (Z.of_nat (length b))) ap_inode0). }
  assert (Hset' : (new_content ← deref (Some b); set_content v (Some new_content) (Z.of_nat (length b));; mret true) s1 = Ret (true, s2))
    by (msimpl; exact Hset).
  mrun Hset'. mrun (wr_pos_run s2 f (mkFile v pos o) (u64 (pos + Z.of_nat (length b))) Hf).
  rewrite u64_id, s32_id by lia. done.
Qed.

(** A file that is opened already is shared. *)
Lemma open_again_run s p cs name root d v i options f fs x : at_path s p cs name root d v i ->
  v_opened s = fs ++ [f] -> not_opened s fs v -> v_files s !! f = Some x -> f_vnode x = v ->
  open p options s = Ret (f, s).
Proof.
  intros [] Hop Hno Hf Hx. unfold open. refine (guarded_lift _ s (Ret f) (cpu_room_ok _ _ ap_room0) _).
  pose proof (resolve_path_run s p cs name root d v (entered (cpu_of s)) ap_ok0 ltac:(by eapply cpu_room_entered) ap_dot0 ap_cs0 ap_start0 ap_follow0 ap_d0 ap_step0) as Hr.
  set (s1 := with_cpu (entered (cpu_of s)) s) in *. mrun Hr. cbn [fst]. msimpl.
  assert (Hfo : find_opened (v_opened s1) v s1 = Ret (Some f, s1)).
  { change (v_opened s1) with (v_opened s). rewrite Hop, (find_opened_none s1) by exact Hno. cbn [find_opened].
    mrun (rd_file_run s1 f x Hf). by rewrite Hx, Z.eqb_refl. }
  by mrun Hfo.
Qed.

Lemma drop_first_last x l : x ∉ l -> drop_first x (l ++ [x]) = l.
Proof.
  induction l as [|y l IH]; intros Hx; cbn [drop_first app]; [by rewrite Z.eqb_refl|].
  rewrite (proj2 (Z.eqb_neq y x)) by set_solver. by rewrite IH by set_solver.
Qed.

Lemma close_run {F} (s : VFS F) f v pos o fs uses : cpu_ok (cpu_of s) -> f <> 0 -> v_files s !! f = Some (mkFile v pos o) ->
  v_opened s = fs ++ [f] -> not_opened s fs v -> uses <= 3 ->
  close uses f s = Ret (0, set_v_opened fs (set_v_files (<[f := mkFile v 0 o]> (v_files s)) (v_next_file s) s)).
Proof.
  intros Hok Hf0 Hf Hop Hno Hu. unfold close.
  set (s' := set_v_opened _ _). change s' with (with_cpu (cpu_of s) s'). apply guarded_spec; [done|].
  set (s1 := with_cpu (entered (cpu_of s)) s). rewrite (proj2 (Z.eqb_neq f 0) Hf0).
  mrun (rd_file_run s1 f _ Hf). cbn [f_vnode]. msimpl.
  assert (Hfo : find_opened (v_opened s1) v s1 = Ret (Some f, s1)).
  { change (v_opened s1) with (v_opened s). rewrite Hop, (find_opened_none s1) by exact Hno. cbn [find_opened].
    mrun (rd_file_run s1 f _ Hf). cbn [f_vnode]. by rewrite Z.eqb_refl. }
  mrun Hfo. mrun (wr_pos_run s1 f _ 0 Hf). cbn [f_vnode f_options].
  rewrite (proj2 (Z.leb_le uses 3) Hu).
  assert (Hnin : f ∉ fs). { intros Hin. destruct (Hno f Hin) as (x & Hx & Hv). by simplify_eq. }
  unfold s'. rewrite <- (drop_first_last f fs Hnin) at 1. rewrite <- Hop. done.
Qed.

Lemma read_run s p cs name root d v i f pos o b n junk buf :
  at_path s p cs name root d v i -> i_content i = Some b -> i_size i = Z.of_nat (length b) ->
  v_files s !! f = Some (mkFile v pos o) -> f <> 0 -> 0 <= pos <= Z.of_nat (length b) -> Z.of_nat (length b) < 2 ^ 31 -> 0 <= n ->
  let len := Z.min n (Z.of_nat (length b) - pos) in
  len <= Z.of_nat (length buf) ->
  read junk buf f n s =
    Ret ((take (Z.to_nat len) (drop (Z.to_nat pos) b) ++ drop (Z.to_nat len) buf, len),
      set_v_files (<[f := mkFile v (pos + len) o]> (v_files s)) (v_next_file s) s).
Proof.
  intros [] Hc Hsz Hf Hf0 Hpos Hint Hn len Hbuf. unfold read.
  set (s' := set_v_files _ _ _). change s' with (with_cpu (cpu_of s) s'). apply guarded_spec; [by eapply cpu_room_ok|].
  set (s1 := with_cpu (entered (cpu_of s)) s). rewrite (proj2 (Z.eqb_neq f 0) Hf0).
  mrun (rd_file_run s1 f _ Hf). cbn [f_vnode f_pos].
  assert (Hr : rd_inode v s1 = Ret (i, s1)).
  { rewrite rd_inode_lift. unfold inode_at. change (heap s1) with (heap s). by rewrite ap_inode0. }
  assert (Hm : vn_mode v s1 = Ret (i_mode i, s1)) by (cbn [vn_mode tmp_vnodes]; by mrun Hr).
  assert (Hgc : get_content v s1 = Ret (i_content i, s1)) by (cbn [get_content tmp_vnodes]; by mrun Hr).
  assert (Hgs : vn_size v s1 = Ret (i_size i, s1)) by (cbn [vn_size tmp_vnodes]; by mrun Hr).
  mrun Hm. rewrite ap_reg0. mrun Hgc. mrun Hgs. rewrite Hc, Hsz, u64_id by lia. fold len.
  assert (Hslice : slice_opt (Some b) pos len = Some (take (Z.to_nat len) (drop (Z.to_nat pos) b))).
  { unfold slice_opt, slice. destruct (Z.eqb_spec len 0) as [->|]; [done|]. by rewrite decide_True by lia. }
  rewrite Hslice. msimpl. rewrite decide_True by lia. msimpl.
  mrun (wr_pos_run s1 f _ (u64 (pos + len)) Hf). rewrite u64_id, s32_id by lia. done.
Qed.

(** A vnode with no mount on its hash is seen itself. *)
Lemma seen_at_plain s : tmp_ok s -> forall v i, heap s !! v = Some i -> unshadowed s (tmp_hash i) -> seen_at s v = Ret v.
Proof.
  intros Hok v i Hi Hun. unfold seen_at. rewrite (proj2 (Z.eqb_neq v 0)) by (apply (live_nonzero s Hok); eauto).
  cut (forall ms, (forall m, m ∈ ms -> m ∈ v_mounts s) -> mount_at s ms v = Ret v); [intros H; by apply H|].
  intros ms Hms. induction ms as [|m ms IH]; cbn [mount_at]; [done|].
  destruct (to_mounts s Hok m) as (_ & _ & [j Hj]); [apply Hms; left|]. cbn [hash_of tmp_pure]. unfold inode_at. rewrite Hi, Hj.
  cbn [mbind outcome_bind]. rewrite (proj2 (Z.eqb_neq _ _)) by (apply (Hun m j); [apply Hms; left|done]).
  apply IH. intros m' Hm'. apply Hms. by right.
Qed.

(** A [read] from beyond the end of a file, where a shorter [write] leaves the
    position, computes a size that wraps around and reads out of bounds. *)
Lemma read_past_end_faults s p cs name root d v i f pos o b n junk buf :
  at_path s p cs name root d v i -> i_content i = Some b -> i_size i = Z.of_nat (length b) ->
  v_files s !! f = Some (mkFile v pos o) -> f <> 0 -> Z.of_nat (length b) < pos < 2 ^ 63 -> 0 < n < 2 ^ 63 ->
  read junk buf f n s = Fault.
Proof.
  intros [] Hc Hsz Hf Hf0 Hpos Hn. unfold read. refine (guarded_lift _ s Fault (cpu_room_ok _ _ ap_room0) _).
  set (s1 := with_cpu (entered (cpu_of s)) s). rewrite (proj2 (Z.eqb_neq f 0) Hf0).
  mrun (rd_file_run s1 f _ Hf). cbn [f_vnode f_pos].
  assert (Hr : rd_inode v s1 = Ret (i, s1)).
  { rewrite rd_inode_lift. unfold inode_at. change (heap s1) with (heap s). by rewrite ap_inode0. }
  assert (Hm : vn_mode v s1 = Ret (i_mode i, s1)) by (cbn [vn_mode tmp_vnodes]; by mrun Hr).
  assert (Hgc : get_content v s1 = Ret (i_content i, s1)) by (cbn [get_content tmp_vnodes]; by mrun Hr).
  assert (Hgs : vn_size v s1 = Ret (i_size i, s1)) by (cbn [vn_size tmp_vnodes]; by mrun Hr).
  mrun Hm. rewrite ap_reg0. mrun Hgc. mrun Hgs. rewrite Hc, Hsz.
  assert (Hu : u64 (Z.of_nat (length b) - pos) = Z.of_nat (length b) - pos + 2 ^ 64).
  { unfold u64. rewrite <- (Z.mod_add _ 1) by lia. apply Z.mod_small. lia. }
  rewrite Hu, Z.min_l by lia. unfold slice_opt, slice. rewrite (proj2 (Z.eqb_neq n 0)), decide_False by lia. done.
Qed.

(** ** Mounting *)

(** The state after a TmpFS has been mounted on [v]. *)
Definition new_root (s : VFS TmpHeap) : Inode :=
  mkInode (u32 (v_next_inode_idx s)) 0 S_IFDIR 0 0 0 (th_next (v_fs s)) root_name None 0 [].
Definition mounted (s : VFS TmpHeap) (v : Z) : VFS TmpHeap :=
  let id := th_next (v_fs s) in
  set_v_mounts (v_mounts s ++ [mkMount id id v])
    (set_v_fs (mkHeap (<[id := new_root s]> (heap s)) (id + 1)) (set_v_inode_idx (u64 (v_next_inode_idx s + 1)) s)).

Section mounted.
Context (s : VFS TmpHeap) (Hok : tmp_ok s) (v : Z) (i : Inode) (Hi : heap s !! v = Some i).
Let id := th_next (v_fs s).
Let s' := mounted s v.

Lemma mounted_heap w : heap s' !! w = if decide (w = id) then Some (new_root s) else heap s !! w.
Proof. unfold s', mounted, heap. simpl. case_decide; subst; [apply lookup_insert_eq|by apply lookup_insert_ne]. Qed.
Lemma mounted_old w j : heap s !! w = Some j -> heap s' !! w = Some j.
Proof. intros Hj. rewrite mounted_heap, decide_False; [done|]. intros ->. pose proof (fresh_id s Hok) as E. fold id in E. congruence. Qed.
Lemma mounted_live w : is_Some (heap s !! w) -> is_Some (heap s' !! w).
Proof. intros [j Hj]. exists j. by apply mounted_old. Qed.

Lemma mounted_ok : tmp_ok s'.
Proof.
  assert (Hinv : forall w j, heap s' !! w = Some j -> (w = id /\ j = new_root s) \/ heap s !! w = Some j).
  { intros w j. rewrite mounted_heap. case_decide; [intros [= <-]; by left|by right]. }
  assert (Hnx : th_next (v_fs s') = id + 1) by done. pose proof (to_next s Hok) as Hp. fold id in Hp. split.
  - intros w j [[-> _]|Hj]%Hinv; rewrite Hnx; [lia|]. pose proof (to_keys s Hok w j Hj). unfold id. lia.
  - lia.
  - intros w j c [[-> ->]|Hj]%Hinv Hc; [by apply elem_of_nil in Hc|].
    destruct (to_children s Hok w j c Hj Hc) as (ci & Hci & ?). exists ci. split; [by apply mounted_old|done].
  - intros w j [[-> ->]|Hj]%Hinv; [split; [constructor|by intros ? ? ? ? ?%elem_of_nil]|].
    destruct (to_names s Hok w j Hj) as [Hnd Hun]. split; [done|]. intros c1 c2 i1 i2 H1 H2 Hi1 Hi2.
    destruct (to_children s Hok w j c1 Hj H1) as (k1 & Hk1 & _), (to_children s Hok w j c2 Hj H2) as (k2 & Hk2 & _).
    rewrite (mounted_old c1 k1 Hk1) in Hi1. rewrite (mounted_old c2 k2 Hk2) in Hi2. simplify_eq. by apply (Hun c1 c2 i1 i2).
  - intros w j [[-> ->]|Hj]%Hinv Hne; [done|]. apply mounted_live. by eapply to_parent.
  - intros w j [[-> ->]|Hj]%Hinv; [rewrite mounted_heap, decide_True by done; by eexists|]. apply mounted_live. by eapply to_fs.
  - intros m [Hm|Hm]%elem_of_app; [|apply list_elem_of_singleton in Hm as ->].
    + destruct (to_mounts s Hok m Hm) as (? & ? & ?). split_and!; by apply mounted_live.
    + assert (Hid : is_Some (heap s' !! id)) by (rewrite mounted_heap, decide_True by done; by eexists).
      split_and!; [exact Hid|exact Hid|]. apply mounted_live. eauto.
  - intros E. by apply app_nil in E as [_ ?].
  - apply mounted_live, (to_cwd s Hok).
Qed.

(** An entry of a directory, other than "..", stays where it was. *)
Lemma child_mounted d di n ms : heap s !! d = Some di -> n <> dotdot ->
  tmp_child (heap s') ms d n = tmp_child (heap s) (v_mounts s) d n.
Proof.
  intros Hd Hn. unfold tmp_child. case_decide; [done|]. rewrite !decide_False by done. unfold inode_at.
  rewrite (mounted_old d di Hd), Hd. cbn [mbind outcome_bind]. apply named_ext. intros c Hc.
  destruct (to_children s Hok d di c Hd Hc) as (ci & Hci & _). exists ci, ci. split_and!; [done|by apply mounted_old|done].
Qed.

Lemma hash_mounted w j : heap s !! w = Some j -> hash_of s' w = Ret (tmp_hash j).
Proof. intros Hj. cbn [hash_of tmp_pure]. unfold inode_at. by rewrite (mounted_old w j Hj). Qed.

(** Every vnode with the hash of [v] leads to the new file system. *)
Lemma seen_at_mounted w j : heap s !! w = Some j -> tmp_hash j = tmp_hash i -> unshadowed s (tmp_hash i) -> seen_at s' w = Ret id.
Proof.
  intros Hj Hh Hun. unfold seen_at. rewrite (proj2 (Z.eqb_neq w 0)) by (apply (live_nonzero s Hok); eauto).
  change (v_mounts s') with (v_mounts s ++ [mkMount id id v]).
  cut (forall ms, (forall m, m ∈ ms -> m ∈ v_mounts s) -> mount_at s' (ms ++ [mkMount id id v]) w = Ret id); [intros H; by apply H|].
  intros ms Hms. induction ms as [|m ms IH]; cbn [mount_at app].
  - cbn [host_vnode]. rewrite (hash_mounted v i Hi), (hash_mounted w j Hj). cbn [mbind outcome_bind]. by rewrite Hh, Z.eqb_refl.
  - destruct (to_mounts s Hok m) as (_ & _ & [k Hk]); [apply Hms; left|].
    rewrite (hash_mounted _ k Hk), (hash_mounted w j Hj). cbn [mbind outcome_bind].
    rewrite (proj2 (Z.eqb_neq _ _)) by (rewrite Hh; apply (Hun m k); [apply Hms; left|done]). apply IH. intros m' Hm'. apply Hms. by right.
Qed.

Lemma step_mounted d di n w j : heap s !! d = Some di -> n <> dotdot -> tmp_child (heap s) (v_mounts s) d n = Ret w ->
  heap s !! w = Some j -> tmp_hash j = tmp_hash i -> unshadowed s (tmp_hash i) -> step s' d n = Ret id.
Proof.
  intros Hd Hn Hc Hj Hh Hun. unfold step. cbn [child_of tmp_pure]. rewrite (child_mounted d di) by done. rewrite Hc.
  cbn [mbind outcome_bind]. by apply (seen_at_mounted w j).
Qed.
End mounted.

Lemma find_guest_new ms id v : (forall m, m ∈ ms -> guest_vnode m <> id) ->
  find_guest id (ms ++ [mkMount id id v]) = Some (mkMount id id v) /\ drop_guest id (ms ++ [mkMount id id v]) = ms.
Proof.
  unfold find_guest. induction ms as [|m ms IH]; intros Hms; cbn [app list_find drop_guest].
  - rewrite decide_True by done. simpl. by rewrite Z.eqb_refl.
  - assert (Hm : guest_vnode m <> id) by (apply Hms; left). rewrite decide_False, (proj2 (Z.eqb_neq _ _) Hm) by done.
    destruct IH as [H1 H2]; [intros m' Hm'; apply Hms; by right|]. rewrite H2. split; [|done].
    by destruct (list_find _ _) as [[]|].
Qed.

Lemma unmount_ok s v : tmp_ok s -> is_Some (heap s !! v) -> tmp_ok (set_v_mounts (v_mounts s) (mounted s v)).
Proof.
  intros Hok [i Hi]. pose proof (to_mounts s Hok) as Hmt. pose proof (to_mounted s Hok) as Hne.
  destruct (mounted_ok s Hok v i Hi). split; try assumption.
  intros m Hm. destruct (Hmt m Hm) as (? & ? & ?). split_and!; by apply (mounted_live s Hok v).
Qed.

(** ** Claims *)

Definition files_ok (s : VFS TmpHeap) : Prop :=
  0 < v_next_file s /\ (forall g, is_Some (v_files s !! g) -> 0 < g < v_next_file s).

(** C21. A regular file of a TmpFS that no task has opened, and whose hash,
    before and after the write, is not that of a vnode with a file system mounted
    on it: opening it and opening it again gives one file object; after the bytes
    [b], fewer than 2^31, are written to it and it is closed by its last holder,
    opening it makes a new object, from which a [read] of [n] bytes into a buffer
    with room for them gives the first [n] bytes of [b] (all of it if [b] is
    shorter) and their number, and leaves the rest of the buffer alone. *)
Theorem write_close_open_read s p cs name root d v i o b n junk buf :
  at_path s p cs name root d v i -> not_opened s (v_opened s) v -> files_ok s ->
  unshadowed s (tmp_hash (with_content (Some b) (Z.of_nat (length b)) i)) ->
  Z.of_nat (length b) < 2 ^ 31 -> 0 <= n -> Z.min n (Z.of_nat (length b)) <= Z.of_nat (length buf) ->
  exists f s1 s2 s3 f' s4 s5,
    open p o s = Ret (f, s1) /\ open p o s1 = Ret (f, s1) /\
    write f b (Z.of_nat (length b)) s1 = Ret (Z.of_nat (length b), s2) /\
    close 3 f s2 = Ret (0, s3) /\ v_opened s3 = v_opened s /\
    open p o s3 = Ret (f', s4) /\ f' <> f /\
    read junk buf f' n s4 =
      Ret ((take (Z.to_nat n) b ++ drop (Z.to_nat (Z.min n (Z.of_nat (length b)))) buf, Z.min n (Z.of_nat (length b))), s5).
Proof.
  intros Hp Hno [Hnf Hfiles] Hun Hlen Hn Hbuf. pose proof (ap_room _ _ _ _ _ _ _ _ Hp) as Hroom.
  set (f := v_next_file s). set (i' := with_content (Some b) (Z.of_nat (length b)) i).
  assert (Hnew : forall g, g ∈ v_opened s -> g <> f).
  { intros g Hg ->. destruct (Hno f Hg) as (x & Hx & _). pose proof (Hfiles f (mk_is_Some _ _ Hx)). unfold f in *. lia. }
  set (s1 := opened s v o).
  assert (Hp1 : at_path s1 p cs name root d v i) by (by apply at_path_files).
  assert (Hf1 : v_files s1 !! f = Some (mkFile v 0 o)) by apply lookup_insert_eq.
  assert (Hno1 : not_opened s1 (v_opened s) v).
  { intros g Hg. destruct (Hno g Hg) as (x & Hx & Hv). exists x. split; [|done]. unfold s1, opened. simpl.
    rewrite lookup_insert_ne; [done|]. intros E. by apply (Hnew g). }
  set (s2 := set_v_files (<[f := mkFile v (0 + Z.of_nat (length b)) o]> (v_files s1)) (v_next_file s1) (with_inode s1 v i')).
  set (s3 := set_v_opened (v_opened s) (set_v_files (<[f := mkFile v 0 o]> (v_files s2)) (v_next_file s2) s2)).
  assert (Hp3 : at_path s3 p cs name root d v i').
  { apply at_path_files. change s2 with (set_v_opened (v_opened s2) s2). apply at_path_files. by apply at_path_content. }
  assert (Hno3 : forall fs', fs' = v_opened s -> not_opened s2 fs' v /\ not_opened s3 fs' v).
  { intros fs' ->. split; intros g Hg; destruct (Hno g Hg) as (x & Hx & Hv); exists x; (split; [|done]); unfold s3, s2, s1; simpl;
      rewrite !lookup_insert_ne by (intros E; by apply (Hnew g)); done. }
  destruct (Hno3 _ eq_refl) as [Hno2 Hno3'].
  assert (Hf4 : v_files (opened s3 v o) !! v_next_file s3 = Some (mkFile v 0 o)) by apply lookup_insert_eq.
  pose proof (read_run (opened s3 v o) p cs name root d v i' (v_next_file s3) 0 o b n junk buf
    (at_path_files _ _ _ _ _ _ _ _ _ _ _ Hp3) eq_refl eq_refl Hf4) as Hread.
  rewrite Z.sub_0_r, drop_0 in Hread.
  exists f, s1, s2, s3, (v_next_file s3), (opened s3 v o). eexists. split_and!.
  - by eapply open_new_run.
  - by eapply (open_again_run s1 p cs name root d v i o f (v_opened s) (mkFile v 0 o)).
  - apply (write_run s1 p cs name root d v i f 0 o b Hp1 Hf1); unfold f; lia.
  - apply (close_run s2 f v (0 + Z.of_nat (length b)) o (v_opened s) 3); try done; [by eapply cpu_room_ok|unfold f; lia|apply lookup_insert_eq].
  - done.
  - by eapply open_new_run.
  - change (v_next_file s3) with (v_next_file s + 1). unfold f. lia.
  - rewrite Hread; [|change (v_next_file s3) with (v_next_file s + 1); lia|lia|done|done|done].
    replace (take (Z.to_nat (Z.min n (Z.of_nat (length b)))) b) with (take (Z.to_nat n) b); [done|].
    destruct (Z.min_spec n (Z.of_nat (length b))) as [[? ->]|[? ->]]; [done|]. by rewrite !take_ge by lia.
Qed.

(** The directory entry [name] is [v], whose inode is [i]. *)
Definition entry (s : VFS TmpHeap) (d : Z) (name : list Z) (v : Z) (i : Inode) : Prop :=
  name <> dotdot /\ tmp_child (heap s) (v_mounts s) d name = Ret v /\ heap s !! v = Some i.

(** C22. Mounting a TmpFS on an entry of the directory a path starts from: the
    path then leads to the root of a new, empty file system, and so does, while
    it is mounted, every other entry of the directory whose inode has the same
    hash; the tree stays well formed.  Unmounting the path takes the mount away
    again, and the path leads to the entry as before. *)
Theorem mount_umount (procfs : TM Z) s p name d v i device :
  tmp_ok s -> cpu_room 3 (cpu_of s) -> p <> dot -> components slash p = [name] -> start s p = Ret d ->
  entry s d name v i -> unshadowed s (tmp_hash i) ->
  exists r s1 s2, mount (H0 := tmp_systems procfs) device p name_tmpfs s = Ret (0, s1) /\
    heap s !! r = None /\ tmp_ok s1 /\ (exists ri, heap s1 !! r = Some ri /\ i_children ri = []) /\
    resolve_path p s1 = Ret ((r, d, name), s1) /\
    (forall q n w j, q <> dot -> components slash q = [n] -> start s q = Ret d -> entry s d n w j -> tmp_hash j = tmp_hash i ->
       resolve_path q s1 = Ret ((r, d, n), s1)) /\
    umount p s1 = Ret (0, s2) /\ v_mounts s2 = v_mounts s /\ resolve_path p s2 = Ret ((v, d, name), s2).
Proof.
  intros Hok Hroom Hdot Hcs Hst (Hnd & Hc & Hi) Hun.
  assert (Hcs' : components slash p = [] ++ [name]) by done.
  assert (Hroom2 : cpu_room 2 (cpu_of s)) by (by apply (cpu_room_le 3)).
  assert (Hen : cpu_room 2 (entered (cpu_of s))) by (by apply (cpu_room_entered 3)).
  destruct (start_live s Hok p d Hst) as [di Hdi]. assert (Hd : d <> 0) by (apply (live_nonzero s Hok); eauto).
  assert (Hstep : step s d name = Ret v).
  { unfold step. cbn [child_of tmp_pure]. rewrite Hc. cbn [mbind outcome_bind]. by apply (seen_at_plain s Hok v i). }
  assert (Hv : v <> 0) by (apply (live_nonzero s Hok); eauto).
  set (id := th_next (v_fs s)). set (s1 := mounted s v). set (s2 := set_v_mounts (v_mounts s) s1).
  assert (Hok1 : tmp_ok s1) by (by eapply mounted_ok).
  assert (Hok2 : tmp_ok s2) by (apply unmount_ok; eauto).
  assert (Hstart1 : forall q, start s1 q = start s q).
  { intros q. unfold start. case_decide; [|done]. change (v_mounts s1) with (v_mounts s ++ [mkMount id id v]).
    pose proof (to_mounted s Hok). by destruct (v_mounts s). }
  assert (Hshadow : forall q n w j c, cpu_room 2 c -> q <> dot -> components slash q = [n] -> start s q = Ret d -> entry s d n w j -> tmp_hash j = tmp_hash i ->
       resolve_path q (with_cpu c s1) = Ret ((id, d, n), with_cpu c s1)).
  { intros q n w j c Hcr Hq Hqc Hqs (Hn & Hw & Hj) Hh. apply (resolve_path_run s1 q [] n d d id c); try done; [by rewrite Hstart1|].
    by eapply (step_mounted s Hok v i Hi d di n w j). }
  exists id, s1, s2. split_and!.
  - unfold mount. change s1 with (with_cpu (cpu_of s) s1). apply guarded_spec; [by eapply cpu_room_ok|].
    pose proof (resolve_path_run s p [] name d d v (entered (cpu_of s)) Hok Hen Hdot Hcs' Hst eq_refl Hd Hstep) as Hr.
    mrun Hr. cbn [fst]. by rewrite (proj2 (Z.eqb_neq v 0) Hv).
  - by apply fresh_id.
  - done.
  - exists (new_root s). split; [|done]. unfold s1, id. rewrite mounted_heap. by rewrite decide_True.
  - exact (Hshadow p name v i (cpu_of s1) Hroom2 Hdot Hcs Hst (conj Hnd (conj Hc Hi)) eq_refl).
  - intros q n w j Hq Hqc Hqs Hent Hh. exact (Hshadow q n w j (cpu_of s1) Hroom2 Hq Hqc Hqs Hent Hh).
  - unfold umount. change s2 with (with_cpu (cpu_of s1) s2). apply guarded_spec; [by eapply cpu_room_ok|].
    mrun (Hshadow p name v i (entered (cpu_of s)) Hen Hdot Hcs Hst (conj Hnd (conj Hc Hi)) eq_refl). cbn [fst].
    assert (Hid : id <> 0) by (pose proof (to_next s Hok); unfold id; lia). rewrite (proj2 (Z.eqb_neq id 0) Hid). msimpl.
    destruct (find_guest_new (v_mounts s) id v) as [H1 H2].
    { intros m Hm E. destruct (to_mounts s Hok m Hm) as (_ & [k Hk] & _). rewrite E in Hk. pose proof (fresh_id s Hok) as Hf. fold id in Hf. congruence. }
    cbn [v_mounts with_cpu vfs_has_cpu set_v_cpu]. change (v_mounts s1) with (v_mounts s ++ [mkMount id id v]). rewrite H1, H2. done.
  - done.
  - assert (Hst2 : step s2 d name = Ret v).
    { unfold step. cbn [child_of tmp_pure]. change (heap s2) with (heap s1). unfold s1. rewrite (child_mounted s Hok v d di) by done.
      rewrite Hc. cbn [mbind outcome_bind]. apply (seen_at_plain s2 Hok2 v i); [exact (mounted_old s Hok v v i Hi)|].
      intros m k Hm Hk. change (v_mounts s2) with (v_mounts s) in Hm. change (heap s2) with (heap (mounted s v)) in Hk.
      destruct (to_mounts s Hok m Hm) as (_ & _ & [k' Hk']). rewrite (mounted_old s Hok v _ k' Hk') in Hk. simplify_eq. by apply (Hun m). }
    exact (resolve_path_run s2 p [] name d d v (cpu_of s2) Hok2 Hroom2 Hdot Hcs' Hst eq_refl Hd Hst2).
Qed.

(** The hash of a name is a sum over its characters: entries of a directory
    whose names are anagrams, as "ab" and "ba", have the same hash. *)
Example anagrams_collide d : entry_hash S_IFDIR [97; 98] d = entry_hash S_IFDIR [98; 97] d.
Proof. reflexivity. Qed.

(** ** Witnesses *)

(** A root directory with a file "a". *)
Definition demo_file : Inode := mkInode 1 0 S_IFREG 0 0 0 1 [97] None 1 [].
Definition demo_files : VFS TmpHeap := grown demo_vfs 1 demo_root [97] S_IFREG.

Lemma demo_files_ok : tmp_ok demo_files.
Proof. apply grown_ok; [exact demo_vfs_ok|reflexivity|vm_compute; reflexivity]. Qed.

Lemma demo_files_unshadowed h : tmp_hash demo_root <> h -> unshadowed demo_files h.
Proof. intros Hne m j ->%list_elem_of_singleton Hj. injection Hj as <-. exact Hne. Qed.

Lemma demo_at_path : at_path demo_files [47; 97] [] [97] 1 1 2 demo_file.
Proof.
  split; [exact demo_files_ok|apply demo_room; lia|done|reflexivity|reflexivity|reflexivity|lia|vm_compute; reflexivity|reflexivity|reflexivity|].
  apply demo_files_unshadowed. vm_compute. discriminate.
Qed.

Lemma write_close_open_read_witness : exists f s1 s2 s3 f' s4 s5,
  open [47; 97] 0 demo_files = Ret (f, s1) /\ write f [104; 105] 2 s1 = Ret (2, s2) /\ close 3 f s2 = Ret (0, s3) /\
  open [47; 97] 0 s3 = Ret (f', s4) /\ read [] (replicate 8 0) f' 8 s4 = Ret (([104; 105] ++ replicate 6 0, 2), s5).
Proof.
  destruct (write_close_open_read demo_files [47; 97] [] [97] 1 1 2 demo_file 0 [104; 105] 8 [] (replicate 8 0))
    as (f & s1 & s2 & s3 & f' & s4 & s5 & H1 & _ & H2 & H3 & _ & H4 & _ & H5).
  - exact demo_at_path.
  - intros g Hg. apply elem_of_nil in Hg. contradiction.
  - split; [reflexivity|]. intros g [x Hx]. discriminate Hx.
  - apply demo_files_unshadowed. vm_compute. discriminate.
  - simpl. lia.
  - lia.
  - simpl. lia.
  - exists f, s1, s2, s3, f', s4, s5. split; [exact H1|]. split; [exact H2|]. split; [exact H3|]. split; [exact H4|exact H5].
Defined.

(** Mounting on "a". *)
Lemma mount_umount_witness : exists r s1 s2,
  mount (H0 := tmp_systems new_tmpfs) [] [47; 97] name_tmpfs demo_files = Ret (0, s1) /\
  resolve_path [47; 97] s1 = Ret ((r, 1, [97]), s1) /\ umount [47; 97] s1 = Ret (0, s2) /\
  resolve_path [47; 97] s2 = Ret ((2, 1, [97]), s2).
Proof.
  destruct (mount_umount new_tmpfs demo_files [47; 97] [97] 1 2 demo_file []) as (r & s1 & s2 & H1 & _ & _ & _ & H2 & _ & H3 & _ & H4).
  - exact demo_files_ok.
  - apply demo_room. lia.
  - discriminate.
  - reflexivity.
  - reflexivity.
  - split; [discriminate|]. split; reflexivity.
  - apply demo_files_unshadowed. vm_compute. discriminate.
  - exists r, s1, s2. split; [exact H1|]. split; [exact H2|]. split; [exact H3|exact H4].
Defined.
