(* ===== verification/FatFs.v ===== *)
(** * FAT32 under the virtual file system

    fs/FAT32.cc and include/fs/FAT32.h as an instance of the virtual functions
    of class [Vnode], dev/DiskPartition.cc as what makes a [FAT32] for each
    partition of the disk, and [VFS::mount_rootfs()], which mounts the one on the
    first partition of the SD card.

    All volumes share the disk.  A [FAT32Inode] is an object of its own: each
    lookup makes a new one ([find_child_if] ends in [make_shared]), so one file
    has as many vnodes as it was looked up.  Objects are not reclaimed. *)

From Stdlib Require Import ZArith Lia.
From stdpp Require Import base gmap list numbers.
From S2P Require Import Prelude Mutex CString KString Console Vnode TmpFS Vfs Disk Fat32.

Open Scope Z_scope.

(** ** State *)

(** A [FAT32] and its [_root_inode]. *)
Record Volume := mkVolume { vl_part : Partition; vl_meta : BootSector; vl_root : Z }.
(** A [FAT32Inode]: [fn_vol] is the position of its [_fs] in [ff_vols]. *)
Record FatNode := mkFatNode { fn_index : Z; fn_vol : nat; fn_inode : FInode; fn_dev : Z }.
(** [ff_devices] are the volumes of each storage device, in the order of
    [_storage_devices] and of [_partitions]; [ff_next] is the next number not in
    use. *)
Record FatFs := mkFatFs {
  ff_disk : Disk; ff_vols : list Volume; ff_nodes : gmap Z FatNode; ff_next : Z; ff_devices : list (list nat)
}.
Definition set_disk (d : Disk) (x : FatFs) : FatFs := mkFatFs d (ff_vols x) (ff_nodes x) (ff_next x) (ff_devices x).
Definition set_nodes (n : gmap Z FatNode) (next : Z) (x : FatFs) : FatFs := mkFatFs (ff_disk x) (ff_vols x) n next (ff_devices x).
Definition add_volume (v : Volume) (x : FatFs) : FatFs := mkFatFs (ff_disk x) (ff_vols x ++ [v]) (ff_nodes x) (ff_next x) (ff_devices x).
Definition add_device (ks : list nat) (x : FatFs) : FatFs := mkFatFs (ff_disk x) (ff_vols x) (ff_nodes x) (ff_next x) (ff_devices x ++ [ks]).

(** What memory that the code reads without having written it holds at a call:
    [basis[11]], the array [filename_ucs] after its end, and what follows the
    buffer given to [set_content]. *)
Class Leftover := {
  left_basis : FatFs -> Z;
  left_units : FatFs -> Z -> Z;
  left_content : FatFs -> Z -> Z
}.

Abbreviation FfM := (M (VFS FatFs)).

(** A member function of volume [k]. *)
Definition on_volume {A} (k : nat) (m : FatM A) : FfM A :=
  s ← get;
  v ← deref (ff_vols (v_fs s) !! k);
  zoom (fun s => mkFat (ff_disk (v_fs s)) (vl_part v) (vl_meta v)) (fun f s => set_v_fs (set_disk (fa_disk f) (v_fs s)) s) m.

Definition rd_fnode (v : Z) : FfM FatNode := s ← get; deref (ff_nodes (v_fs s) !! v).
Definition wr_fnode (v : Z) (n : FatNode) : FfM unit :=
  modify (fun s => set_v_fs (set_nodes (<[v := n]> (ff_nodes (v_fs s))) (ff_next (v_fs s)) (v_fs s)) s).

(** [make_shared<FAT32Inode>(fs, ...)] *)
Definition make_inode (k : nat) (i : FInode) : FfM Z :=
  idx ← get_next_inode_idx;
  s ← get;
  let id := ff_next (v_fs s) in
  put (set_v_fs (set_nodes (<[id := mkFatNode (u32 idx) k i 0]> (ff_nodes (v_fs s))) (id + 1) (v_fs s)) s);;
  mret id.
Definition share (k : nat) (i : option FInode) : FfM Z :=
  match i with Some i => make_inode k i | None => mret 0 end.

(** [_fs._root_inode] *)
Definition root_of (k : nat) : FfM Z := s ← get; v ← deref (ff_vols (v_fs s) !! k); mret (vl_root v).

(** ** The virtual functions *)

Section vnodes.
Context `{Leftover}.

Definition ff_create_child (v : Z) (name : list Z) (content : option (list Z)) (size mode uid gid : Z) : FfM Z :=
  n ← rd_fnode v;
  s ← get;
  c ← on_volume (fn_vol n) (fat_create_child (left_basis (v_fs s)) (left_units (v_fs s)) (fn_inode n) name size mode);
  share (fn_vol n) c.

Definition ff_get_child (v : Z) (name : list Z) : FfM Z :=
  n ← rd_fnode v;
  root ← on_volume (fn_vol n) (fat_is_root (fn_inode n));
  if (root : bool) && bool_decide (name = dot \/ name = dotdot) then root_of (fn_vol n)
  else
    c ← on_volume (fn_vol n) (find_child_if (fn_inode n) (fun w => bool_decide (vw_name w = name)));
    share (fn_vol n) c.

Definition ff_get_ith_child (v i : Z) : FfM Z :=
  n ← rd_fnode v;
  root ← on_volume (fn_vol n) (fat_is_root (fn_inode n));
  if (root : bool) && ((i =? 0) || (i =? 1)) then root_of (fn_vol n)
  else
    let i := if (root : bool) then u64 (i - NR_SPECIAL_ENTRIES) else i in
    c ← on_volume (fn_vol n) (find_child_if (fn_inode n) (fun w => vw_index w =? i));
    share (fn_vol n) c.

Definition ff_get_children_count (v : Z) : FfM Z :=
  n ← rd_fnode v; on_volume (fn_vol n) (fat_get_children_count (fn_inode n)).

Definition ff_get_parent (v : Z) : FfM Z :=
  n ← rd_fnode v;
  p ← ff_get_child v dotdot;
  if p =? 0 then root_of (fn_vol n) else mret p.

Definition ff_get_content (v : Z) : FfM (option (list Z)) :=
  n ← rd_fnode v; on_volume (fn_vol n) (fat_get_content (fn_inode n)).

(** The content is not read when the new size is 0. *)
Definition ff_set_content (v : Z) (content : option (list Z)) (new_size : Z) : FfM unit :=
  n ← rd_fnode v;
  s ← get;
  b ← deref (match content with Some b => Some b | None => if new_size <=? 0 then Some [] else None end);
  i ← on_volume (fn_vol n) (fat_set_content (left_content (v_fs s)) (fn_inode n) b new_size);
  wr_fnode v (mkFatNode (fn_index n) (fn_vol n) i (fn_dev n)).

#[export] Instance fat_vnodes : Vnodes FatFs := {
  create_child := ff_create_child;
  get_child := ff_get_child;
  get_ith_child := ff_get_ith_child;
  get_children_count := ff_get_children_count;
  get_parent := ff_get_parent;
  get_name v := n ← rd_fnode v; mret (fi_name (fn_inode n));
  get_content := ff_get_content;
  set_content := ff_set_content;
  hash_code v := n ← rd_fnode v; mret (fat_hash (fn_inode n));
  vn_size v := n ← rd_fnode v; mret (fi_size (fn_inode n));
  vn_mode v := n ← rd_fnode v; mret (fi_mode (fn_inode n));
  vn_dev v := n ← rd_fnode v; mret (fn_dev n);
  set_dev v d := n ← rd_fnode v; wr_fnode v (mkFatNode (fn_index n) (fn_vol n) (fn_inode n) d)
}.
End vnodes.

(** ** Mounting the root file system *)

(** [DiskPartition::DiskPartition]: its [FAT32], given by its position. *)
Definition new_disk_partition (p : Partition) : FfM nat :=
  s ← get;
  fat ← lift (new_fat32 (ff_disk (v_fs s)) p);
  let k := length (ff_vols (v_fs s)) in
  root ← make_inode k (root_inode (fa_meta fat));
  modify (fun s => set_v_fs (add_volume (mkVolume p (fa_meta fat) root) (v_fs s)) s);;
  mret k.
Fixpoint new_disk_partitions (ps : list Partition) : FfM (list nat) :=
  match ps with
  | [] => mret []
  | p :: ps => k ← new_disk_partition p; ks ← new_disk_partitions ps; mret (k :: ks)
  end.

(** "sda" *)
Definition name_sda : list Z := [115; 100; 97].

(** [VFS::mount_rootfs()]: [make_unique<StorageDevice>] scans the disk for its
    partitions, [get_root_partition] is the first one found. *)
Definition mount_rootfs_sd : FfM unit :=
  s ← get;
  ps ← lift (new_storage_device (ff_disk (v_fs s)));
  ks ← new_disk_partitions ps;
  modify (fun s => set_v_storage (v_storage s ++ [name_sda]) (set_v_fs (add_device ks (v_fs s)) s));;
  s ← get;
  k ← deref (head (ff_devices (v_fs s)) ≫= head);
  root ← root_of k;
  mount_rootfs root.
