(* ===== verification/FatFsSpec.v ===== *)
(** * Files of the root file system on disk

    The VFS over FAT32: what is written to a new file of the root directory is
    what is read after the file was closed and opened again, from the disk up
    through the directory entries, the vnodes and the table of opened files. *)

From Stdlib Require Import ZArith Lia.
From stdpp Require Import base gmap list numbers.
From S2P Require Import Prelude Mutex CString KString Console Vnode TmpFS Vfs VfsSpec FilesSpec Disk Fat32 Fat32Spec Fat32Create FatFs.

Open Scope Z_scope.

(** ** Runs that keep the lock

    [m] takes [s] to [s'] with [n] nested critical sections, whatever the state
    of the lock, which it leaves as it was. *)

Definition runs {F A} (n : Z) (m : M (VFS F) A) (s : VFS F) (a : A) (s' : VFS F) : Prop :=
  forall c, cpu_room n c -> m (with_cpu c s) = Ret (a, with_cpu c s').

Section runs.
Context {F : Type}.
Implicit Types s : VFS F.

Lemma runs_bind {A B} n (m : M (VFS F) A) (k : A -> M (VFS F) B) s a s1 b s2 :
  runs n m s a s1 -> runs n (k a) s1 b s2 -> runs n (m ≫= k) s b s2.
Proof. intros Hm Hk c Hc. mrun (Hm c Hc). by apply Hk. Qed.

Lemma runs_get {B} n (k : VFS F -> M (VFS F) B) s b s2 :
  (forall c, runs n (k (with_cpu c s)) s b s2) -> runs n (get ≫= k) s b s2.
Proof. intros Hk c Hc. msimpl. by apply Hk. Qed.

Lemma runs_deref {A B} n o (x : A) (k : A -> M (VFS F) B) s b s2 :
  o = Some x -> runs n (k x) s b s2 -> runs n (deref o ≫= k) s b s2.
Proof. intros -> Hk c Hc. msimpl. by apply Hk. Qed.

Lemma runs_ret {A} n (a : A) s : runs n (mret a) s a s.
Proof. by intros c Hc. Qed.

Lemma runs_le {A} n m (p : M (VFS F) A) s a s' : runs n p s a s' -> n <= m -> runs m p s a s'.
Proof. intros H Hn c Hc. apply H. by eapply cpu_room_le. Qed.

Lemma runs_guarded {A} n (m : M (VFS F) A) s a s' : 0 <= n -> runs n m s a s' -> runs (n + 1) (guarded m) s a s'.
Proof.
  intros Hn Hm c Hc. pose proof (guarded_spec m (with_cpu c s) s' a) as H. rewrite cpu_of_with in H.
  apply H; [by eapply cpu_room_ok|]. rewrite with_cpu_with. apply Hm. eapply cpu_room_entered; [exact Hc|lia].
Qed.

Lemma runs_at {A} n (m : M (VFS F) A) s a s' : runs n m s a s' -> cpu_room n (cpu_of s) -> m s = Ret (a, with_cpu (cpu_of s) s').
Proof. intros Hm Hc. specialize (Hm _ Hc). by rewrite with_cpu_of in Hm. Qed.
End runs.

(** ** Volumes and vnodes *)

Definition fat_on (s : VFS FatFs) (v : Volume) : Fat := mkFat (ff_disk (v_fs s)) (vl_part v) (vl_meta v).
Definition with_disk (d : Disk) (s : VFS FatFs) : VFS FatFs := set_v_fs (set_disk d (v_fs s)) s.
(** The state after a [FAT32Inode] was made. *)
Definition with_node (k : nat) (i : FInode) (s : VFS FatFs) : VFS FatFs :=
  set_v_fs (set_nodes (<[ff_next (v_fs s) := mkFatNode (u32 (v_next_inode_idx s)) k i 0]> (ff_nodes (v_fs s))) (ff_next (v_fs s) + 1) (v_fs s))
    (set_v_inode_idx (u64 (v_next_inode_idx s + 1)) s).
Definition with_inode_at (v : Z) (x : FatNode) (i : FInode) (s : VFS FatFs) : VFS FatFs :=
  set_v_fs (set_nodes (<[v := mkFatNode (fn_index x) (fn_vol x) i (fn_dev x)]> (ff_nodes (v_fs s))) (ff_next (v_fs s)) (v_fs s)) s.

Lemma with_disk_same s : with_disk (ff_disk (v_fs s)) s = s.
Proof. by destruct s as [? [] ? ? ? ? ? ? ? ? ? ?]. Qed.

Lemma on_volume_runs {A} n k v (m : FatM A) s a f' : ff_vols (v_fs s) !! k = Some v -> m (fat_on s v) = Ret (a, f') ->
  runs n (on_volume k m) s a (with_disk (fa_disk f') s).
Proof.
  intros Hv Hm. apply runs_get. intros c. apply (runs_deref _ _ v); [done|]. intros c' _. unfold zoom.
  change (mkFat _ _ _) with (fat_on s v). by rewrite Hm.
Qed.

(** A member function that does not write. *)
Lemma on_volume_reads {A} n k v (m : FatM A) s a : ff_vols (v_fs s) !! k = Some v -> m (fat_on s v) = Ret (a, fat_on s v) ->
  runs n (on_volume k m) s a s.
Proof. intros Hv Hm. rewrite <- (with_disk_same s) at 2. by apply (on_volume_runs n k v m s a (fat_on s v)). Qed.

Lemma rd_fnode_runs n v x s : ff_nodes (v_fs s) !! v = Some x -> runs n (rd_fnode v) s x s.
Proof. intros Hx. apply runs_get. intros c c' _. cbn. by rewrite Hx. Qed.

Lemma make_inode_runs n k i s : runs n (make_inode k i) s (ff_next (v_fs s)) (with_node k i s).
Proof. by intros c _. Qed.

(** ** The root file system *)

(** The root directory [r] of volume [k] is mounted at the root; vnodes and
    opened files are numbered below the next number, and the directories
    something is mounted on are in the first clusters of the volume, so that no
    regular file has their hash. *)
Record rooted (s : VFS FatFs) (r : Z) (k : nat) (vol : Volume) : Prop := mkRooted {
  ro_mounts : guest_fs <$> head (v_mounts s) = Some r;
  ro_vol : ff_vols (v_fs s) !! k = Some vol;
  ro_node : exists x, ff_nodes (v_fs s) !! r = Some x /\ fn_vol x = k /\ fn_inode x = root_inode (vl_meta vol);
  ro_keys : forall v x, ff_nodes (v_fs s) !! v = Some x -> 0 < v < ff_next (v_fs s);
  ro_hosts : forall m, m ∈ v_mounts s -> exists x, ff_nodes (v_fs s) !! host_vnode m = Some x /\
    fi_mode (fn_inode x) = S_IFDIR /\ fi_size (fn_inode x) = 0 /\ 0 <= fi_first (fn_inode x) < 0x4000;
  ro_opened : forall f, f ∈ v_opened s -> exists x, v_files s !! f = Some x /\ f < v_next_file s /\ 0 < f_vnode x < ff_next (v_fs s);
  ro_file : 0 < v_next_file s
}.

Section rooted.
Context (s : VFS FatFs) (r : Z) (k : nat) (vol : Volume) (Hr : rooted s r k vol).

Lemma rooted_next : 0 < ff_next (v_fs s).
Proof. destruct (ro_node _ _ _ _ Hr) as (x & Hx & _). pose proof (ro_keys _ _ _ _ Hr r x Hx). lia. Qed.

Lemma rooted_r : r <> 0.
Proof. destruct (ro_node _ _ _ _ Hr) as (x & Hx & _). pose proof (ro_keys _ _ _ _ Hr r x Hx). lia. Qed.

Lemma node_fresh v x y : ff_nodes (v_fs s) !! v = Some x -> <[ff_next (v_fs s) := y]> (ff_nodes (v_fs s)) !! v = Some x.
Proof. intros Hx. pose proof (ro_keys _ _ _ _ Hr v x Hx). by rewrite lookup_insert_ne by lia. Qed.

Lemma rooted_with_node j i : rooted (with_node j i s) r k vol.
Proof.
  pose proof rooted_next. destruct Hr as [Hm Hv (x & Hx & Hk & Hi) Hkeys Hh Ho Hf]. split; cbn; [done..| | | | |done].
  - exists x. split; [by apply node_fresh|done].
  - intros v y [[<- <-]|[_ Hy]]%lookup_insert_Some; [lia|]. specialize (Hkeys v y Hy). lia.
  - intros m Hin. destruct (Hh m Hin) as (y & Hy & H1). exists y. split; [by apply node_fresh|done].
  - intros f Hin. destruct (Ho f Hin) as (y & Hy & ? & ?). exists y. split; [done|lia].
Qed.

Lemma rooted_with_disk d : rooted (with_disk d s) r k vol.
Proof. by destruct Hr; split. Qed.

(** The inode of a regular file may change. *)
Lemma rooted_with_inode v x i : ff_nodes (v_fs s) !! v = Some x -> fi_mode (fn_inode x) = S_IFREG -> rooted (with_inode_at v x i s) r k vol.
Proof.
  intros Hx Hreg. destruct Hr as [Hm Hv (y & Hy & Hk & Hi) Hkeys Hh Ho Hf]. split; cbn; [done..| | | |done|done].
  - exists y. rewrite lookup_insert_ne; [done|]. intros ->. rewrite Hx in Hy. injection Hy as ->. by rewrite Hi in Hreg.
  - intros w z [[<- _]|[_ Hz]]%lookup_insert_Some; [by apply (Hkeys v x)|by apply (Hkeys w z)].
  - intros m Hin. destruct (Hh m Hin) as (z & Hz & Hd & Hrest). exists z. rewrite lookup_insert_ne; [done|].
    intros ->. rewrite Hx in Hz. injection Hz as ->. by rewrite Hd in Hreg.
Qed.

Lemma rooted_opened v options : 0 < v < ff_next (v_fs s) -> rooted (opened s v options) r k vol.
Proof.
  intros Hv0. destruct Hr as [Hm Hv Hn Hkeys Hh Ho Hf]. split; cbn; [done..| |lia].
  intros f [Hin|Hin]%elem_of_app.
  - destruct (Ho f Hin) as (x & Hx & Hlt & Hb). exists x. rewrite lookup_insert_ne by lia. split_and!; (done || lia).
  - apply list_elem_of_singleton in Hin as ->. eexists. rewrite lookup_insert_eq. split; [done|]. cbn. lia.
Qed.

(** ** Lookups *)

(** A regular file does not have the hash of a directory something is mounted on. *)
Lemma find_mount_runs `{Leftover} n v x ms : ff_nodes (v_fs s) !! v = Some x -> fi_mode (fn_inode x) = S_IFREG ->
  0 <= fi_size (fn_inode x) < 2 ^ 32 -> 0 <= fi_first (fn_inode x) < 2 ^ 32 -> (forall m, m ∈ ms -> m ∈ v_mounts s) ->
  runs n (find_mount ms v) s None s.
Proof.
  intros Hx Hreg Hsz Hfst. induction ms as [|m ms IH]; intros Hin; cbn [find_mount]; [apply runs_ret|].
  destruct (ro_hosts _ _ _ _ Hr m) as (y & Hy & Hd & Hs0 & Hf); [apply Hin; left|].
  eapply runs_bind; [cbn; eapply runs_bind; [by apply rd_fnode_runs|apply runs_ret]|].
  eapply runs_bind; [cbn; eapply runs_bind; [by apply rd_fnode_runs|apply runs_ret]|].
  rewrite (proj2 (Z.eqb_neq _ _)); [apply IH; intros; apply Hin; by right|].
  unfold fat_hash. rewrite Hd, Hs0, Hreg. change S_IFDIR with 16384. change S_IFREG with 32768. rewrite !u64_id by lia. lia.
Qed.

Lemma get_mounted_runs `{Leftover} v x : ff_nodes (v_fs s) !! v = Some x -> fi_mode (fn_inode x) = S_IFREG ->
  0 <= fi_size (fn_inode x) < 2 ^ 32 -> 0 <= fi_first (fn_inode x) < 2 ^ 32 ->
  runs 1 (get_mounted_vnode_or_host_vnode v) s v s.
Proof.
  intros Hx Hreg Hsz Hf. apply (runs_guarded 0); [lia|]. pose proof (ro_keys _ _ _ _ Hr v x Hx). rewrite (proj2 (Z.eqb_neq v 0)) by lia.
  apply runs_get. intros c. eapply runs_bind; [by apply (find_mount_runs 0 v x)|apply runs_ret].
Qed.

Lemma get_mounted_null `{Leftover} : runs 1 (get_mounted_vnode_or_host_vnode 0) s 0 s.
Proof. apply (runs_guarded 0); [lia|]. apply runs_ret. Qed.

Lemma root_vnode_runs n : runs n root_vnode s r s.
Proof.
  intros c _. unfold root_vnode. msimpl. change (v_mounts (with_cpu c s)) with (v_mounts s).
  pose proof (ro_mounts _ _ _ _ Hr) as Hm. destruct (v_mounts s) as [|m ms]; [done|]. cbn in Hm. injection Hm as Hm. by rewrite <- Hm.
Qed.

Lemma push_file_runs n v options : runs n (push_file v options) s (v_next_file s) (opened s v options).
Proof. intros c Hc. unfold push_file. by mrun (root_vnode_runs n c Hc). Qed.
End rooted.

(** The path of an entry of the root directory. *)
Record root_path (p name : list Z) : Prop := mkRootPath {
  rp_dot : p <> dot;
  rp_cs : components slash p = [name];
  rp_abs : head p = Some slash;
  rp_name : name <> [] /\ name <> dot /\ name <> dotdot
}.

Section paths.
Context `{Leftover} (s : VFS FatFs) (r : Z) (k : nat) (vol : Volume) (Hr : rooted s r k vol) (p name : list Z) (Hp : root_path p name).

(** [get_child] of the root directory. *)
Lemma get_child_runs n i : find_child_if (root_inode (vl_meta vol)) (fun w => bool_decide (vw_name w = name)) (fat_on s vol) = Ret (i, fat_on s vol) ->
  runs n (get_child r name) s (match i with Some _ => ff_next (v_fs s) | None => 0 end)
    (match i with Some i => with_node k i s | None => s end).
Proof.
  intros Hi. destruct (ro_node _ _ _ _ Hr) as (x & Hx & Hk & Hin). pose proof (ro_vol _ _ _ _ Hr) as Hv. destruct (rp_name _ _ Hp) as (_ & Hd & Hdd).
  cbn [get_child fat_vnodes]. eapply runs_bind; [by apply rd_fnode_runs|]. rewrite Hk, Hin.
  eapply runs_bind; [by eapply on_volume_reads|]. cbn beta. rewrite (bool_decide_eq_false_2 (name = dot \/ name = dotdot)) by tauto. rewrite andb_false_r.
  eapply runs_bind; [by eapply on_volume_reads|]. destruct i; [apply make_inode_runs|apply runs_ret].
Qed.

Lemma resolve_runs v s1 : runs 1 (get_child r name) s v s1 -> runs 1 (get_mounted_vnode_or_host_vnode v) s1 v s1 ->
  runs 2 (resolve_path p) s (v, r, name) s1.
Proof.
  intros Hc Hm. apply (runs_guarded 1); [lia|]. destruct Hp as [Hdot Hcs Habs _]. rewrite decide_False, Hcs by done.
  rewrite decide_True by done. eapply runs_bind; [by eapply root_vnode_runs|]. eapply runs_bind; [exact Hc|].
  eapply runs_bind; [exact Hm|]. apply runs_ret.
Qed.

(** A name that is not there. *)
Lemma resolve_none : find_child_if (root_inode (vl_meta vol)) (fun w => bool_decide (vw_name w = name)) (fat_on s vol) = Ret (None, fat_on s vol) ->
  runs 2 (resolve_path p) s (0, r, name) s.
Proof. intros Hi. apply resolve_runs; [by apply (get_child_runs 1 None)|apply get_mounted_null]. Qed.

(** A regular file. *)
Lemma resolve_some i : find_child_if (root_inode (vl_meta vol)) (fun w => bool_decide (vw_name w = name)) (fat_on s vol) = Ret (Some i, fat_on s vol) ->
  fi_mode i = S_IFREG -> 0 <= fi_size i < 2 ^ 32 -> 0 <= fi_first i < 2 ^ 32 ->
  runs 2 (resolve_path p) s (ff_next (v_fs s), r, name) (with_node k i s).
Proof.
  intros Hi Hreg Hs Hf. apply resolve_runs; [by apply (get_child_runs 1 (Some i))|].
  eapply get_mounted_runs; [by apply rooted_with_node|cbn; apply lookup_insert_eq|done..].
Qed.

(** No opened file is for a vnode made just now. *)
Lemma find_opened_fresh n (t : VFS FatFs) v : v_opened t = v_opened s -> v_files t = v_files s -> v = 0 \/ ff_next (v_fs s) <= v ->
  runs n (find_opened (v_opened t) v) t None t.
Proof.
  intros Ho Hf Hv c _. rewrite Ho, <- (app_nil_r (v_opened s)), find_opened_none; [done|]. intros g Hg.
  destruct (ro_opened _ _ _ _ Hr g Hg) as (x & Hx & _ & Hb). exists x. change (v_files (with_cpu c t)) with (v_files t). rewrite Hf.
  split; [done|lia].
Qed.

(** Opening a file that exists makes a vnode and a file object. *)
Lemma open_runs i options : find_child_if (root_inode (vl_meta vol)) (fun w => bool_decide (vw_name w = name)) (fat_on s vol) = Ret (Some i, fat_on s vol) ->
  fi_mode i = S_IFREG -> 0 <= fi_size i < 2 ^ 32 -> 0 <= fi_first i < 2 ^ 32 ->
  runs 3 (open p options) s (v_next_file s) (opened (with_node k i s) (ff_next (v_fs s)) options).
Proof.
  intros Hi Hreg Hs Hf. apply (runs_guarded 2); [lia|]. eapply runs_bind; [by eapply resolve_some|]. cbn [fst]. apply runs_get. intros c.
  eapply runs_bind; [apply (find_opened_fresh 2 (with_node k i s)); [done..|by right]|]. cbn beta iota.
  rewrite (proj2 (Z.eqb_neq _ 0)) by (pose proof (rooted_next _ _ _ _ Hr); lia). cbn [negb].
  eapply (push_file_runs (with_node k i s)). by apply rooted_with_node.
Qed.
End paths.

Section files.
Context `{Leftover} (s : VFS FatFs) (r : Z) (k : nat) (vol : Volume) (Hr : rooted s r k vol).

(** Opening a file that does not exist creates it. *)
Lemma open_create_runs p name child f' : root_path p name ->
  find_child_if (root_inode (vl_meta vol)) (fun w => bool_decide (vw_name w = name)) (fat_on s vol) = Ret (None, fat_on s vol) ->
  fat_create_child (left_basis (v_fs s)) (left_units (v_fs s)) (root_inode (vl_meta vol)) name 0 S_IFREG (fat_on s vol) = Ret (Some child, f') ->
  runs 4 (open p O_CREAT) s (v_next_file s) (opened (with_node k child (with_disk (fa_disk f') s)) (ff_next (v_fs s)) O_CREAT).
Proof.
  intros Hp Hnone Hc. set (s1 := with_node k child (with_disk (fa_disk f') s)).
  pose proof (resolve_none s r k vol Hr p name Hp Hnone) as Hres. pose proof (rooted_r _ _ _ _ Hr) as Hr0.
  apply (runs_guarded 3); [lia|]. eapply runs_bind; [eapply runs_le; [exact Hres|lia]|]. cbn [fst]. apply runs_get. intros c.
  eapply runs_bind; [apply (find_opened_fresh s r k vol Hr 3 s); [done..|by left]|]. cbn beta iota.
  change (negb (0 =? 0)) with false. change (Z.land O_CREAT O_CREAT =? 0) with false. cbn beta iota.
  eapply (runs_bind 3 _ _ s (ff_next (v_fs s)) s1); [|eapply (push_file_runs s1); by apply rooted_with_node, rooted_with_disk].
  apply (runs_guarded 2); [lia|]. destruct (rp_name _ _ Hp) as (_ & Hd & Hdd).
  assert (Hpd : ~ (p = dot \/ p = dotdot)).
  { intros [->| ->]; by pose proof (rp_abs _ _ Hp). }
  rewrite decide_False by done. eapply runs_bind; [exact Hres|]. cbn beta iota. change (negb (0 =? 0)) with false. cbn beta iota.
  rewrite (proj2 (Z.eqb_neq r 0) Hr0). destruct (ro_node _ _ _ _ Hr) as (x & Hx & Hk & Hi).
  cbn [create_child fat_vnodes]. eapply runs_bind; [by apply rd_fnode_runs|]. apply runs_get. intros c'. rewrite Hk, Hi.
  eapply runs_bind; [eapply on_volume_runs; [by apply (ro_vol _ _ _ _ Hr)|exact Hc]|]. apply make_inode_runs.
Qed.

(** The state after [pos] of file [f] was set. *)
Definition at_pos (f v pos o : Z) (t : VFS FatFs) : VFS FatFs := set_v_files (<[f := mkFile v pos o]> (v_files t)) (v_next_file t) t.

Lemma rd_file_runs n f x (t : VFS FatFs) : v_files t !! f = Some x -> runs n (rd_file f) t x t.
Proof. intros Hf c _. by apply rd_file_run. Qed.

Lemma wr_pos_runs n f v p o pos (t : VFS FatFs) : v_files t !! f = Some (mkFile v p o) -> runs n (wr_pos f pos) t tt (at_pos f v pos o t).
Proof. intros Hf c _. exact (wr_pos_run (with_cpu c t) f (mkFile v p o) pos Hf). Qed.

(** Writing the whole of [b] to a regular file. *)
Lemma write_runs f v pos o x b d' f' :
  v_files s !! f = Some (mkFile v pos o) -> f <> 0 -> ff_nodes (v_fs s) !! v = Some x -> fn_vol x = k -> fi_mode (fn_inode x) = S_IFREG ->
  fat_set_content (left_content (v_fs s)) (fn_inode x) b (Z.of_nat (length b)) (fat_on s vol) = Ret (d', f') ->
  0 <= pos -> pos + Z.of_nat (length b) < 2 ^ 64 -> Z.of_nat (length b) < 2 ^ 31 ->
  runs 1 (write f b (Z.of_nat (length b))) s (Z.of_nat (length b))
    (at_pos f v (pos + Z.of_nat (length b)) o (with_inode_at v x d' (with_disk (fa_disk f') s))).
Proof.
  intros Hf Hf0 Hx Hk Hreg Hset Hpos Hlen Hint. set (s1 := with_inode_at v x d' (with_disk (fa_disk f') s)).
  apply (runs_guarded 0); [lia|]. rewrite (proj2 (Z.eqb_neq f 0) Hf0). eapply runs_bind; [by apply rd_file_runs|]. cbn [f_vnode f_pos].
  eapply runs_bind; [cbn; eapply runs_bind; [by apply rd_fnode_runs|apply runs_ret]|]. rewrite Hreg. change (is_regular_file S_IFREG) with true. cbn iota.
  eapply (runs_bind 0 _ _ s true s1).
  - eapply runs_deref; [unfold slice; rewrite decide_True, Nat2Z.id, drop_0 by lia; by rewrite firstn_all|].
    eapply (runs_bind 0 _ _ s tt s1); [|apply runs_ret]. cbn [set_content fat_vnodes]. eapply runs_bind; [by apply rd_fnode_runs|].
    apply runs_get. intros c. eapply runs_deref; [done|]. rewrite Hk.
    eapply runs_bind; [eapply on_volume_runs; [by apply (ro_vol _ _ _ _ Hr)|exact Hset]|]. intros c' _. unfold s1. by rewrite <- Hk.
  - rewrite u64_id by lia. eapply runs_bind; [by apply (wr_pos_runs 0 f v pos o _ s1)|]. rewrite s32_id by lia. apply runs_ret.
Qed.

(** Reading a regular file from its start. *)
Lemma read_runs junk buf f v o x content n : v_files s !! f = Some (mkFile v 0 o) -> f <> 0 -> ff_nodes (v_fs s) !! v = Some x -> fn_vol x = k ->
  fi_mode (fn_inode x) = S_IFREG -> 0 <= fi_size (fn_inode x) < 2 ^ 31 ->
  fat_get_content (fn_inode x) (fat_on s vol) = Ret (Some content, fat_on s vol) -> fi_size (fn_inode x) <= Z.of_nat (length content) -> 0 <= n ->
  let len := Z.min n (fi_size (fn_inode x)) in
  len <= Z.of_nat (length buf) ->
  runs 1 (read junk buf f n) s (take (Z.to_nat len) content ++ drop (Z.to_nat len) buf, len) (at_pos f v len o s).
Proof.
  intros Hf Hf0 Hx Hk Hreg Hsz Hget Hlen Hn len Hbuf. apply (runs_guarded 0); [lia|]. rewrite (proj2 (Z.eqb_neq f 0) Hf0).
  eapply runs_bind; [by apply rd_file_runs|]. cbn [f_vnode f_pos].
  eapply runs_bind; [cbn; eapply runs_bind; [by apply rd_fnode_runs|apply runs_ret]|]. rewrite Hreg. change (is_regular_file S_IFREG) with true. cbn iota.
  eapply runs_bind; [cbn [get_content fat_vnodes]; eapply runs_bind; [by apply rd_fnode_runs|]; rewrite Hk; eapply on_volume_reads; [by apply (ro_vol _ _ _ _ Hr)|exact Hget]|].
  eapply runs_bind; [cbn; eapply runs_bind; [by apply rd_fnode_runs|apply runs_ret]|]. rewrite Z.sub_0_r, u64_id by lia. fold len.
  apply (runs_deref _ _ (take (Z.to_nat len) content)).
  { unfold slice_opt, slice. destruct (Z.eqb_spec len 0) as [->|]; [done|]. rewrite decide_True by lia. by rewrite drop_0. }
  eapply runs_deref; [by rewrite decide_True by lia|]. rewrite Z.add_0_l, u64_id, s32_id by lia.
  eapply runs_bind; [by apply (wr_pos_runs 0 f v 0 o)|apply runs_ret].
Qed.
End files.

(** ** From a new file to its content *)

Lemma rooted_at_pos s r k vol f v p pos o : rooted s r k vol -> v_files s !! f = Some (mkFile v p o) -> rooted (at_pos f v pos o s) r k vol.
Proof.
  intros [Hm Hv Hn Hkeys Hh Ho Hf] Hx. split; cbn; [done..| |done]. intros g Hg. destruct (Ho g Hg) as (x & Hgx & Hlt & Hb).
  destruct (decide (g = f)) as [->|Hne].
  - eexists. rewrite lookup_insert_eq. split; [done|]. rewrite Hx in Hgx. by injection Hgx as <-.
  - exists x. by rewrite lookup_insert_ne.
Qed.

Lemma rooted_closed s r k vol fs : rooted s r k vol -> (forall f, f ∈ fs -> f ∈ v_opened s) -> rooted (set_v_opened fs s) r k vol.
Proof. intros [Hm Hv Hn Hkeys Hh Ho Hf] Hin. split; cbn; [done..| |done]. intros f Hfs. by apply Ho, Hin. Qed.

(** What is on disk determines the volume. *)
Lemma fat_on_volume s vol f t : same_volume (fat_on s vol) f -> ff_disk (v_fs t) = fa_disk f -> fat_on t vol = f.
Proof. intros (_ & Hp & Hm) Hd. unfold fat_on. rewrite Hd. destruct f as [d p m]. cbn in *. by rewrite Hp, Hm. Qed.

(** A new file is written and closed, then opened again and read. *)
Definition create_close `{Leftover} (p b : list Z) : FfM Z :=
  f ← open p O_CREAT;
  _ ← write f b (Z.of_nat (length b));
  close 3 f.
Definition create_close_reread `{Leftover} (p b junk buf : list Z) (n : Z) : FfM (list Z * Z) :=
  _ ← create_close p b;
  g ← open p 0;
  read junk buf g n.

(** The state when the file is closed. *)
Lemma create_close_runs `{Leftover} s r k vol p name child b d' f1 f2 : rooted s r k vol -> root_path p name ->
  find_child_if (root_inode (vl_meta vol)) (fun w => bool_decide (vw_name w = name)) (fat_on s vol) = Ret (None, fat_on s vol) ->
  fat_create_child (left_basis (v_fs s)) (left_units (v_fs s)) (root_inode (vl_meta vol)) name 0 S_IFREG (fat_on s vol) = Ret (Some child, f1) ->
  same_volume (fat_on s vol) f1 -> fi_mode child = S_IFREG ->
  let s1 := opened (with_node k child (with_disk (fa_disk f1) s)) (ff_next (v_fs s)) O_CREAT in
  fat_set_content (left_content (v_fs s1)) child b (Z.of_nat (length b)) f1 = Ret (d', f2) -> same_volume (fat_on s vol) f2 ->
  Z.of_nat (length b) < 2 ^ 31 ->
  exists s3, runs 4 (create_close p b) s 0 s3 /\ rooted s3 r k vol /\
    fat_on s3 vol = f2 /\ v_opened s3 = v_opened s.
Proof.
  intros Hr Hp Hnone Hc V1 Hreg s1 Hset V2 Hlen. pose proof (rooted_next _ _ _ _ Hr) as Hnx. pose proof (ro_file _ _ _ _ Hr) as Hfn.
  set (f := v_next_file s) in *. set (v := ff_next (v_fs s)) in *. set (x := mkFatNode (u32 (v_next_inode_idx s)) k child 0).
  assert (Hr1 : rooted s1 r k vol) by (apply rooted_opened; [by apply rooted_with_node, rooted_with_disk|cbn; unfold v in *; lia]).
  assert (Hf1 : v_files s1 !! f = Some (mkFile v 0 O_CREAT)) by apply lookup_insert_eq.
  assert (Hx1 : ff_nodes (v_fs s1) !! v = Some x) by apply lookup_insert_eq.
  assert (Hfat1 : fat_on s1 vol = f1) by (by apply (fat_on_volume s)).
  set (s2 := at_pos f v (0 + Z.of_nat (length b)) O_CREAT (with_inode_at v x d' (with_disk (fa_disk f2) s1))).
  assert (Hf2 : v_files s2 !! f = Some (mkFile v (0 + Z.of_nat (length b)) O_CREAT)) by apply lookup_insert_eq.
  assert (Hr2 : rooted s2 r k vol) by (eapply rooted_at_pos; [apply rooted_with_inode; [by apply rooted_with_disk|done..]|exact Hf1]).
  assert (Hno : not_opened s2 (v_opened s) v).
  { intros g Hg. destruct (ro_opened _ _ _ _ Hr g Hg) as (y & Hy & Hlt & Hb). exists y. cbn. rewrite !lookup_insert_ne by (unfold f; lia).
    split; [done|unfold v; lia]. }
  exists (set_v_opened (v_opened s) (at_pos f v 0 O_CREAT s2)). split_and!; [| |by apply (fat_on_volume s)|done].
  - eapply runs_bind; [by eapply open_create_runs|]. fold f v s1. eapply runs_bind.
    + eapply runs_le; [eapply (write_runs s1 r k vol Hr1 f v 0 O_CREAT x b d' f2); [done|lia|done..|by rewrite Hfat1|lia|lia|lia]|lia].
    + intros c Hcpu. refine (close_run (with_cpu c s2) f v (0 + Z.of_nat (length b)) O_CREAT (v_opened s) 3 (cpu_room_ok _ _ Hcpu) _ Hf2 eq_refl Hno _); lia.
  - apply rooted_closed; [by eapply rooted_at_pos|]. intros g Hg. cbn. apply elem_of_app. by left.
Qed.

(** C25. The root file system on the SD card behaves as a file system through the
    VFS: a file created in its root directory with [open], written with [write]
    and closed is found by a later [open], and [read] gives the bytes written, cut
    to the number of bytes asked for.  The bytes went to the disk and came back
    through a second vnode and file object.  The volume keeps its layout, the
    clusters in use by other files keep their data and links, and the state is as
    good as before for the next calls. *)
Theorem sd_file_survives_close `{Leftover} s r k vol n K p name b junk buf m :
  rooted s r k vol -> cpu_room 4 (cpu_of s) -> root_path p name ->
  vol_ok (fat_on s vol) -> reserved (fat_on s vol) -> can_create (fat_on s vol) (root_inode (vl_meta vol)) n K (left_basis (v_fs s)) name ->
  bytes b -> free (fat_on s vol) <> [] -> Z.of_nat (length b) <= 512 * Z.of_nat (length (free (fat_on s vol))) -> Z.of_nat (length b) < 2 ^ 31 ->
  0 <= m -> let len := Z.min m (Z.of_nat (length b)) in len <= Z.of_nat (length buf) ->
  exists s', create_close_reread p b junk buf m s = Ret ((take (Z.to_nat len) b ++ drop (Z.to_nat len) buf, len), s') /\
    rooted s' r k vol /\ same_volume (fat_on s vol) (fat_on s' vol) /\ cpu_of s' = cpu_of s /\
    (forall c, 2 <= c < N (fat_on s vol) -> c <> n -> fat_entry (fat_on s vol) c <> 0 ->
      fat_entry (fat_on s' vol) c = fat_entry (fat_on s vol) c /\ data (fat_on s' vol) c = data (fat_on s vol) c).
Proof.
  intros Hr Hcpu Hp Hs Hres Hcan Hb Hfree Hroom Hsz Hm len Hbuf. pose proof (rooted_next _ _ _ _ Hr) as Hnx.
  pose proof (find_child_none _ _ n K name Hs (cc_dir _ _ _ _ _ _ Hcan) (cc_room _ _ _ _ _ _ Hcan) (cc_absent _ _ _ _ _ _ Hcan)) as Hnone.
  destruct (create_set_find _ _ n K _ (left_units (v_fs s)) name b Hs Hres Hcan Hb Hfree Hroom Hsz) as (child & f1 & E1 & V1 & Hreg & _ & _ & Hset).
  destruct (Hset (left_content (v_fs (opened (with_node k child (with_disk (fa_disk f1) s)) (ff_next (v_fs s)) O_CREAT))))
    as (d' & f2 & i & content & E2 & V2 & E3 & Mi & Si & Fi & Rd & Tk & _ & Fr).
  destruct (create_close_runs s r k vol p name child b d' f1 f2 Hr Hp Hnone E1 V1 Hreg E2 V2 Hsz) as (s3 & Hrun & Hr3 & Hfat3 & _).
  rewrite <- Hfat3 in E3, Rd, V2, Fr. pose proof (rooted_next _ _ _ _ Hr3) as Hn3. pose proof (ro_file _ _ _ _ Hr3) as Hf3.
  set (s4 := opened (with_node k i s3) (ff_next (v_fs s3)) 0).
  assert (Hr4 : rooted s4 r k vol) by (apply rooted_opened; [by apply rooted_with_node|cbn; lia]).
  assert (Hf4 : v_files s4 !! v_next_file s3 = Some (mkFile (ff_next (v_fs s3)) 0 0)) by apply lookup_insert_eq.
  assert (Hlen : (length b <= length content)%nat) by (rewrite <- Tk, length_take; lia).
  pose proof (read_runs s4 r k vol Hr4 junk buf (v_next_file s3) (ff_next (v_fs s3)) 0 (mkFatNode (u32 (v_next_inode_idx s3)) k i 0) content m Hf4
                ltac:(lia) (lookup_insert_eq _ _ _) eq_refl Mi ltac:(cbn; lia) Rd ltac:(cbn; lia) Hm) as Hread.
  cbn [fn_inode] in Hread. rewrite Si in Hread. specialize (Hread Hbuf). fold len in Hread.
  set (s5 := at_pos _ _ len 0 s4) in Hread. assert (Hr5 : rooted s5 r k vol) by (by eapply rooted_at_pos).
  assert (Hall : runs 4 (create_close_reread p b junk buf m) s (take (Z.to_nat len) content ++ drop (Z.to_nat len) buf, len) s5).
  { eapply runs_bind; [exact Hrun|]. eapply runs_bind; [|eapply runs_le; [exact Hread|lia]].
    eapply runs_le; [apply (open_runs s3 r k vol Hr3 p name Hp i 0 E3 Mi)|]; rewrite ?Si; lia. }
  exists (with_cpu (cpu_of s) s5). split_and!; [|by destruct Hr5|done|apply cpu_of_with|done].
  rewrite (runs_at 4 _ s _ s5 Hall Hcpu). do 4 f_equal. rewrite <- Tk, take_take. f_equal. lia.
Qed.

(** ** Mounting *)

Definition keys_ok (x : FatFs) : Prop := 0 < ff_next x /\ forall v y, ff_nodes x !! v = Some y -> 0 < v < ff_next x.

(** What scanning partitions leaves alone. *)
Record extends (s s' : VFS FatFs) : Prop := mkExtends {
  ex_disk : ff_disk (v_fs s') = ff_disk (v_fs s);
  ex_vfs : v_mounts s' = v_mounts s /\ v_opened s' = v_opened s /\ v_files s' = v_files s /\ v_next_file s' = v_next_file s;
  ex_devices : ff_devices (v_fs s') = ff_devices (v_fs s);
  ex_vols : forall k v, ff_vols (v_fs s) !! k = Some v -> ff_vols (v_fs s') !! k = Some v;
  ex_nodes : forall v x, ff_nodes (v_fs s) !! v = Some x -> ff_nodes (v_fs s') !! v = Some x;
  ex_keys : keys_ok (v_fs s')
}.

Lemma extends_refl s : keys_ok (v_fs s) -> extends s s.
Proof. by split. Qed.
Lemma extends_trans s s1 s2 : extends s s1 -> extends s1 s2 -> extends s s2.
Proof. intros [? (? & ? & ? & ?) ? ? ? ?] [? (? & ? & ? & ?) ? ? ? ?]. split; [congruence|split_and!; congruence|congruence|by auto..|done]. Qed.

Lemma new_disk_partition_runs n p fat s : keys_ok (v_fs s) -> new_fat32 (ff_disk (v_fs s)) p = Ret fat ->
  let k := length (ff_vols (v_fs s)) in
  exists s', runs n (new_disk_partition p) s k s' /\ extends s s' /\
    ff_vols (v_fs s') !! k = Some (mkVolume p (fa_meta fat) (ff_next (v_fs s))) /\
    exists x, ff_nodes (v_fs s') !! ff_next (v_fs s) = Some x /\ fn_vol x = k /\ fn_inode x = root_inode (fa_meta fat).
Proof.
  intros [Hnx Hkeys] Hfat k. set (s1 := with_node k (root_inode (fa_meta fat)) s).
  exists (set_v_fs (add_volume (mkVolume p (fa_meta fat) (ff_next (v_fs s))) (v_fs s1)) s1). split_and!.
  - intros c _. unfold new_disk_partition. msimpl. change (ff_disk (v_fs (with_cpu c s))) with (ff_disk (v_fs s)). rewrite Hfat. by msimpl.
  - split; cbn; [done..| | |].
    + intros j v Hv. by apply lookup_app_l_Some.
    + intros v x Hx. specialize (Hkeys v x Hx). by rewrite lookup_insert_ne by lia.
    + split; cbn; [lia|]. intros v x [[<- _]|[_ Hx]]%lookup_insert_Some; [lia|]. specialize (Hkeys v x Hx). lia.
  - cbn. rewrite lookup_app_r, Nat.sub_diag by done. done.
  - eexists. cbn. rewrite lookup_insert_eq. done.
Qed.

Lemma new_disk_partitions_runs n ps s : keys_ok (v_fs s) -> Forall (fun p => exists fat, new_fat32 (ff_disk (v_fs s)) p = Ret fat) ps ->
  exists ks s', runs n (new_disk_partitions ps) s ks s' /\ extends s s'.
Proof.
  intros Hk Hps. revert s Hk Hps. induction ps as [|p ps IH]; intros s Hk Hps.
  - exists [], s. split; [apply runs_ret|by apply extends_refl].
  - apply list.Forall_cons in Hps as [[fat Hfat] Hps]. destruct (new_disk_partition_runs n p fat s Hk Hfat) as (s1 & R1 & X1 & _).
    destruct (IH s1 (ex_keys _ _ X1)) as (ks & s2 & R2 & X2); [by rewrite (ex_disk _ _ X1)|].
    exists (length (ff_vols (v_fs s)) :: ks), s2. split; [|by eapply extends_trans].
    eapply runs_bind; [exact R1|]. eapply runs_bind; [exact R2|]. apply runs_ret.
Qed.

(** The VFS before anything is mounted. *)
Definition fat_boot (c : Cpu) (d : Disk) (u : Uart) : VFS FatFs := new_vfs c (mkFatFs d [] ∅ 1 []) u.

(** After the boot the volume of the first partition is the root file system. *)
Lemma mount_rootfs_sd_rooted `{Leftover} c d u p ps fat : cpu_room 0 c -> new_storage_device d = Ret (p :: ps) -> new_fat32 d p = Ret fat ->
  Forall (fun p => exists fat, new_fat32 d p = Ret fat) ps -> 0 <= root_cluster (fa_meta fat) < 0x4000 ->
  exists s', mount_rootfs_sd (fat_boot c d u) = Ret (tt, s') /\ cpu_of s' = c /\
    rooted s' 1 0 (mkVolume p (fa_meta fat) 1) /\ fat_on s' (mkVolume p (fa_meta fat) 1) = mkFat d p (fa_meta fat).
Proof.
  intros Hc Hps Hfat Hall Hroot. set (s := fat_boot c d u). assert (Hk : keys_ok (v_fs s)) by (split; [done|]; intros v y Hy; cbn in Hy; by rewrite lookup_empty in Hy).
  destruct (new_disk_partition_runs 0 p fat s Hk Hfat) as (s1 & R1 & X1 & V1 & x & N1 & K1 & I1). cbn in V1, N1, K1.
  destruct (new_disk_partitions_runs 0 ps s1 (ex_keys _ _ X1)) as (ks & s2 & R2 & X2); [by rewrite (ex_disk _ _ X1)|].
  pose proof (extends_trans _ _ _ X1 X2) as X. pose proof (ex_vols _ _ X2 _ _ V1) as V2. pose proof (ex_nodes _ _ X2 _ _ N1) as N2.
  destruct (ex_vfs _ _ X) as (Xm & Xo & Xf & Xn).
  set (s3 := set_v_storage (v_storage s2 ++ [name_sda]) (set_v_fs (add_device (0%nat :: ks) (v_fs s2)) s2)).
  exists (set_v_mounts [mkMount 1 1 1] (with_cpu c s3)). split_and!; [|done| |].
  - assert (R : runs 0 (new_disk_partitions (p :: ps)) s (0%nat :: ks) s2)
      by (eapply runs_bind; [exact R1|]; eapply runs_bind; [exact R2|]; apply runs_ret).
    specialize (R c Hc). change (with_cpu c s) with s in R. unfold mount_rootfs_sd. msimpl. change (ff_disk (v_fs s)) with d. rewrite Hps. msimpl. mrun R.
    assert (Hdev : head (ff_devices (v_fs s3)) ≫= head = Some 0%nat) by (cbn; by rewrite (ex_devices _ _ X)).
    assert (Hmod : modify (fun s => set_v_storage (v_storage s ++ [name_sda]) (set_v_fs (add_device (0%nat :: ks) (v_fs s)) s)) (with_cpu c s2) = Ret (tt, with_cpu c s3)) by done.
    mrun Hmod. msimpl. change (ff_devices (v_fs (with_cpu c s3))) with (ff_devices (v_fs s3)). rewrite Hdev. msimpl.
    assert (Hro : root_of 0 (with_cpu c s3) = Ret (1, with_cpu c s3)).
    { unfold root_of. msimpl. change (ff_vols (v_fs (with_cpu c s3))) with (ff_vols (v_fs s2)). rewrite V2. by msimpl. }
    mrun Hro. unfold mount_rootfs. msimpl. change (v_mounts (with_cpu c s3)) with (v_mounts s2). rewrite Xm. change (v_mounts s) with (@nil Mount). cbn iota.
    unfold push_mount, modify. cbn beta. change (v_mounts (with_cpu c s3)) with (v_mounts s2). by rewrite Xm.
  - split; cbn; [done|exact V2|by exists x|apply (ex_keys _ _ X)| | |rewrite Xn; cbn; lia].
    + intros m Hm%list_elem_of_singleton. subst m. exists x. rewrite I1. split_and!; [exact N2|done|done|apply Hroot..].
    + intros f. rewrite Xo. intros Hin. by apply elem_of_nil in Hin.
  - unfold fat_on. cbn. by rewrite (ex_disk _ _ X).
Qed.

(** ** A card with one partition *)

Definition put_at (b : list Z) (i : nat) (l : list Z) : list Z := take i b ++ l ++ drop (i + length l) b.
(** Entry 1 of the partition table: blocks 10 to 200. *)
Definition demo_mbr : list Z := put_at (sector []) 470 (le32 10 ++ le32 191).
(** The boot sector of [demo_boot]. *)
Definition demo_boot_sector : list Z := put_at (put_at (put_at (sector []) 11 [0; 2; 1; 1; 0]) 36 (le32 1)) 44 (le32 2).
Definition demo_card : Disk := <[0 := demo_mbr]> (<[10 := demo_boot_sector]> demo_disk).
Definition demo_volume : Volume := mkVolume (mkPart 10 200) demo_boot 1.
Definition path_a : list Z := 47 :: name_a.

#[export] Instance demo_leftover : Leftover := {| left_basis _ := 0; left_units _ _ := 0; left_content _ _ := 0 |}.

Lemma demo_card_booted : exists s, mount_rootfs_sd (fat_boot (held 0) demo_card (mkUart [] [])) = Ret (tt, s) /\ cpu_of s = held 0 /\
  rooted s 1 0 demo_volume /\ fat_on s demo_volume = mkFat demo_card (mkPart 10 200) demo_boot.
Proof.
  apply (mount_rootfs_sd_rooted (held 0) demo_card (mkUart [] []) (mkPart 10 200) [] (mkFat demo_card (mkPart 10 200) demo_boot)).
  - by split.
  - by vm_compute.
  - by vm_compute.
  - constructor.
  - by vm_compute.
Qed.

Lemma sector_ok b : bool_decide (length b = 512%nat /\ Forall (fun x => 0 <= x < 256) b) = true -> is_block b.
Proof. by intros H%bool_decide_eq_true. Qed.

Lemma demo_card_ok : vol_ok (mkFat demo_card (mkPart 10 200) demo_boot).
Proof.
  constructor; try done. apply disk_ok_insert; [apply disk_ok_insert; [apply (vo_disk _ demo_vol_ok)|]|]; apply sector_ok; by vm_compute.
Qed.

Lemma demo_card_can_create : can_create (mkFat demo_card (mkPart 10 200) demo_boot) (root_inode demo_boot) 2 0 0 name_a.
Proof.
  constructor.
  - by constructor.
  - by vm_compute.
  - constructor; [lia|lia|]. intros k Hk.
    assert (H : all_from 16 (fun k => match get8 (data (mkFat demo_card (mkPart 10 200) demo_boot) 2) (32 * k) with Ret 0 => true | _ => false end) 0 = true) by (by vm_compute).
    pose proof (all_from_spec _ _ _ k H ltac:(lia)) as Hg. cbv beta in Hg.
    destruct (get8 (data (mkFat demo_card (mkPart 10 200) demo_boot) 2) (32 * k)) as [[]| | |]; done.
  - by exists 0.
  - repeat constructor; lia.
  - by split_and!.
  - by vm_compute.
  - eexists. by vm_compute.
Qed.

(** The kernel mounts the card, and "/a.txt" is created with "hi" in it. *)
Lemma sd_file_survives_close_witness : exists s s',
  mount_rootfs_sd (fat_boot (held 0) demo_card (mkUart [] [])) = Ret (tt, s) /\
  create_close_reread path_a [104; 105] [] [0; 0; 0] 3 s = Ret (([104; 105; 0], 2), s').
Proof.
  destruct demo_card_booted as (s & Hboot & Hcpu & Hr & Hfat). exists s.
  destruct (sd_file_survives_close s 1 0 demo_volume 2 0 path_a name_a [104; 105] [] [0; 0; 0] 3) as (s' & Hrun & _).
  - exact Hr.
  - rewrite Hcpu. by split.
  - by split.
  - rewrite Hfat. exact demo_card_ok.
  - rewrite Hfat. split; by vm_compute.
  - rewrite Hfat. exact demo_card_can_create.
  - repeat constructor; lia.
  - rewrite Hfat. by vm_compute.
  - rewrite Hfat. by vm_compute.
  - by vm_compute.
  - lia.
  - by vm_compute.
  - exists s'. exact (conj Hboot Hrun).
Defined.

(** ** Where the two layers do not fit *)

Definition demo_boots {A} (m : FfM A) : option A :=
  match (mount_rootfs_sd;; m) (fat_boot (held 0) demo_card (mkUart [] [])) with Ret (a, _) => Some a | _ => None end.

(** A file of the card that has content cannot be written again: "xyz" goes to
    clusters its directory entry does not name, and only the size changes. *)
Example overwrite_lost :
  demo_boots (_ ← create_close path_a [104; 105]; create_close_reread path_a [120; 121; 122] [] [9; 9; 9] 3) = Some ([104; 105; 0], 3).
Proof. by vm_compute. Qed.

(** The VFS recognises an opened file by its vnode, and FAT32 makes a vnode for each
    lookup: two [open] calls on one file share no position, as they do on TmpFS. *)
Lemma open_twice_apart `{Leftover} s r k vol p name i o o' : rooted s r k vol -> cpu_room 3 (cpu_of s) -> root_path p name ->
  find_child_if (root_inode (vl_meta vol)) (fun w => bool_decide (vw_name w = name)) (fat_on s vol) = Ret (Some i, fat_on s vol) ->
  fi_mode i = S_IFREG -> 0 <= fi_size i < 2 ^ 32 -> 0 <= fi_first i < 2 ^ 32 ->
  exists f g s', (f ← open p o; g ← open p o'; mret (f, g)) s = Ret ((f, g), s') /\ f <> g /\ v_opened s' = v_opened s ++ [f; g].
Proof.
  intros Hr Hc Hp Hi Hm Hs Hf. set (s1 := opened (with_node k i s) (ff_next (v_fs s)) o).
  assert (Hr1 : rooted s1 r k vol) by (apply rooted_opened; [by apply rooted_with_node|cbn; pose proof (rooted_next _ _ _ _ Hr); lia]).
  pose proof (open_runs s r k vol Hr p name Hp i o Hi Hm Hs Hf) as R1. pose proof (open_runs s1 r k vol Hr1 p name Hp i o' Hi Hm Hs Hf) as R2.
  assert (R : runs 3 (f ← open p o; g ← open p o'; mret (f, g)) s (v_next_file s, v_next_file s1) (opened (with_node k i s1) (ff_next (v_fs s1)) o')).
  { eapply runs_bind; [exact R1|]. eapply runs_bind; [exact R2|]. apply runs_ret. }
  eexists _, _, _. split; [exact (runs_at 3 _ s _ _ R Hc)|]. split; [cbn; lia|]. cbn. by rewrite <- app_assoc.
Qed.

(** A file and a directory of the same hash: with something mounted on a directory
    in cluster 0x4005, a file of one byte in cluster 4 is seen as what is mounted there. *)
Example file_hidden_by_mount name name' parent off parent' off' :
  fat_hash (mkFInode name 4 parent off 1 S_IFREG) = fat_hash (mkFInode name' 0x4005 parent' off' 0 S_IFDIR).
Proof. done. Qed.
