(* ===== verification/ProcFSSpec.v ===== *)
(** * What ProcFS promises

    Looking up a pid in the root directory finds a directory exactly while the
    task lives, its status file reports the task as it is when it is read, and
    listing the root directory makes a directory for every active task. *)

From Stdlib Require Import ZArith Lia String Ascii.
From stdpp Require Import base gmap list numbers.
From S2P Require Import Prelude Math Mmu Mutex Tiling Buddy BuddyProof BuddySpec Slob Memory MemInfo MemorySpec PageTable CString KString Printf Console Vnode TmpFS Proc ProcSpec TaskTree ProcFS Vfs VfsSpec CpioSpec FilesSpec.

Open Scope Z_scope.

Implicit Types s : VFS KernelFs.

(** ** Reading the tasks *)

Lemma sys_back_view s : sys_back (sys_view s) s = s.
Proof.
  destruct s as [c [t p sw [[[c' mm] mem] ts ni np i kt cur nd q cl nf]] ni2 nd2 ms fs nf2 op st dv u cwd]. unfold sys_back, sys_view. simpl.
  replace (nf2 - nf2) with 0 by lia. by rewrite seqZ_nil by lia.
Qed.

Lemma on_sys_run {A} (m : SysM A) s a : m (sys_view s) = Ret (a, sys_view s) -> on_sys m s = Ret (a, s).
Proof. intros H. unfold on_sys, zoom. by rewrite H, sys_back_view. Qed.

Definition tasks_of s : tasks := sy_tasks (kf_sys (v_fs s)).

Lemma rd_pinode_run s v i : kf_proc (v_fs s) !! v = Some i -> rd_pinode v s = Ret (i, s).
Proof. intros H. unfold rd_pinode. msimpl. by rewrite H. Qed.
Lemma wr_pinode_run s v i f : kf_proc (v_fs s) !! v = Some i ->
  wr_pinode v f s = Ret (tt, set_v_fs (set_kf_proc (<[v := f i]> (kf_proc (v_fs s))) (v_fs s)) s).
Proof. intros H. unfold wr_pinode. by mrun (rd_pinode_run _ _ _ H). Qed.

Definition set_procs (p : gmap Z PInode) s : VFS KernelFs := set_v_fs (set_kf_proc p (v_fs s)) s.
Definition procs s : gmap Z PInode := kf_proc (v_fs s).

(** ** Names of pids *)

Lemma is_digit_nonzero c : is_digit_c c = true -> c <> 0.
Proof. unfold is_digit_c. intros [?%Z.leb_le _]%andb_true_iff. lia. Qed.

Lemma digits_pid ds : ds <> [] -> Forall (fun c => is_digit_c c = true) ds -> Z.of_nat (length ds) < 2 ^ 31 ->
  exists n, name_pid ds = Ret n /\ n = u32 (clamp_int false (digits_value 10 0 ds)).
Proof.
  intros Hne Hd Hl. unfold name_pid.
  rewrite (atoi_reader (S (S (length ds))) (arr_get (ds ++ [0])) 0 10 0 None ds []); [eexists; split; [reflexivity|done]|by left|done|done|done|..].
  - cbn. rewrite app_nil_r. apply (bytes_at_cstr ds []). eapply list.Forall_impl; [exact Hd|]. apply is_digit_nonzero.
  - cbn. by rewrite app_nil_r.
  - cbn. rewrite app_nil_r. lia.
Qed.

Lemma dec_digits pid : 0 <= pid < 2 ^ 31 ->
  i2a pid = Ret (dec pid) /\ all_digits (dec pid) = true /\ name_pid (dec pid) = Ret pid /\ Z.of_nat (length (dec pid)) < 2 ^ 31.
Proof.
  intros Hp. destruct (i2a_spec pid) as (ds & Hr & Hl & Hv & Hnz & Hd); [lia|]. rewrite (proj2 (Z.ltb_ge pid 0)) in Hr by lia. cbn in Hr.
  assert (E : dec pid = ds) by (unfold dec; by rewrite Hr). rewrite E. clear E.
  assert (Hne : ds <> []) by (intros ->; simpl in Hl; lia).
  split_and!; [done| | |lia].
  - unfold all_digits. rewrite bool_decide_eq_false_2 by done. cbn. apply forallb_forall. intros c Hc%list_elem_of_In.
    rewrite list.Forall_forall in Hv. by apply Hv.
  - destruct (digits_pid ds) as (n & -> & ->); [done|done|lia|]. rewrite Hd. unfold clamp_int.
    rewrite (proj2 (Z.leb_le _ _)) by (unfold INT_MAX; lia). rewrite Z.abs_eq, u32_id by lia. done.
Qed.

Lemma all_digits_not_dots name : all_digits name = true -> name <> dot /\ name <> dotdot /\ name <> name_status.
Proof. intros H. split_and!; intros ->; done. Qed.

(** ** The tree of a ProcFS *)

Definition name_of s (v : Z) : option (list Z) := pi_name <$> procs s !! v.

(** A directory of a task: it holds one file, its status. *)
Definition task_dir_ok s (r v : Z) : Prop := exists i f fi,
  procs s !! v = Some i /\ pi_kind i = PDirectory /\ pi_fs i = r /\ pi_children i = [f] /\
  procs s !! f = Some fi /\ pi_kind fi = TaskStatusInode /\ pi_name fi = name_status /\ pi_parent fi = v /\ pi_mode fi = S_IFREG /\
  Z.of_nat (length (pi_name i)) < 2 ^ 31.

(** [r] is the root directory of a ProcFS: its entries exist and have distinct
    names, and those whose names are numbers are directories of tasks. *)
Record proc_ok (r : Z) s : Prop := {
  po_root : exists i, procs s !! r = Some i /\ pi_kind i = PDirectory /\ pi_fs i = r;
  po_children c : forall i, procs s !! r = Some i -> c ∈ pi_children i -> c <> r /\ is_Some (procs s !! c);
  po_names i : procs s !! r = Some i -> NoDup (name_of s <$> pi_children i);
  po_tasks i c ci : procs s !! r = Some i -> c ∈ pi_children i -> procs s !! c = Some ci -> all_digits (pi_name ci) = true -> task_dir_ok s r c;
  po_fresh v : is_Some (procs s !! v) -> 0 < v < th_next (kf_tmp (v_fs s));
  po_next : 0 < th_next (kf_tmp (v_fs s))
}.

Lemma find_pnamed_run s name l : (forall c, c ∈ l -> is_Some (procs s !! c)) ->
  exists v, find_pnamed name l s = Ret (v, s) /\
    ((v = 0 /\ forall c, c ∈ l -> name_of s c <> Some name) \/ (v ∈ l /\ name_of s v = Some name)).
Proof.
  induction l as [|c l IH]; intros He; cbn [find_pnamed].
  { exists 0. split; [done|]. left. split; [done|]. by intros c ?%elem_of_nil. }
  destruct (He c) as [i Hi]; [left|]. mrun (rd_pinode_run _ _ _ Hi). case_decide as E.
  - exists c. split; [done|]. right. split; [left|]. unfold name_of. rewrite Hi. by rewrite <- E.
  - destruct IH as (v & -> & Hv); [intros x ?; apply He; by right|]. exists v. split; [done|].
    destruct Hv as [[-> Hno]|[Hin Hn]]; [left|right; split; [by right|done]]. split; [done|].
    intros x [->|Hx]%elem_of_cons; [|by apply Hno]. unfold name_of. rewrite Hi. cbn. congruence.
Qed.

(** ** Making the directory of a task *)

(** The state with a new inode. *)
Definition next_id s : Z := th_next (kf_tmp (v_fs s)).
Definition with_new (i : PInode) s : VFS KernelFs :=
  set_v_fs (set_kf_proc (<[next_id s := i]> (procs s)) (set_kf_tmp (mkHeap (th_inodes (kf_tmp (v_fs s))) (next_id s + 1)) (v_fs s)))
    (set_v_inode_idx (u64 (v_next_inode_idx s + 1)) s).
Definition fresh_pinode (kind : PKind) (fs par : Z) (name : list Z) (mode : Z) s : PInode :=
  mkPInode kind (u32 (v_next_inode_idx s)) 0 mode 0 fs name None par [].

Lemma new_pinode_run s kind fs par name mode :
  new_pinode kind fs par name mode s = Ret (next_id s, with_new (fresh_pinode kind (default (next_id s) fs) par name mode s) s).
Proof.
  assert (Hidx : get_next_inode_idx s = Ret (v_next_inode_idx s, set_v_inode_idx (u64 (v_next_inode_idx s + 1)) s)) by (by destruct s).
  unfold new_pinode. mrun Hidx. by msimpl.
Qed.

(** What ProcFS does to the rest of the kernel: nothing. *)
Definition same_kernel s s' : Prop := sys_view s' = sys_view s /\ v_cpu s' = v_cpu s /\ v_files s' = v_files s.

Lemma with_new_kernel i s : same_kernel s (with_new i s).
Proof. done. Qed.

Definition task_dir_inode (r : Z) (name : list Z) s : PInode :=
  pi_with_children [next_id s + 1] (fresh_pinode PDirectory r r name S_IFDIR s).
Definition status_inode (r : Z) s : PInode :=
  mkPInode TaskStatusInode (u32 (u64 (v_next_inode_idx s + 1))) 0 S_IFREG 0 r name_status None (next_id s) [].

Lemma new_task_dir_run r name s : exists s',
  new_task_dir r name s = Ret (next_id s, s') /\ same_kernel s s' /\
  procs s' = <[next_id s := task_dir_inode r name s]> (<[next_id s + 1 := status_inode r s]> (procs s)) /\
  next_id s' = next_id s + 2.
Proof.
  unfold new_task_dir. mrun (new_pinode_run s PDirectory (Some r) r name S_IFDIR). set (s1 := with_new _ s).
  mrun (new_pinode_run s1 TaskStatusInode (Some r) (next_id s) name_status S_IFREG). set (s2 := with_new _ s1).
  assert (Hd : kf_proc (v_fs s2) !! next_id s = Some (fresh_pinode PDirectory r r name S_IFDIR s)).
  { change (kf_proc (v_fs s2)) with (<[next_id s + 1 := status_inode r s]> (<[next_id s := fresh_pinode PDirectory r r name S_IFDIR s]> (procs s))).
    rewrite lookup_insert_ne by lia. apply lookup_insert_eq. }
  unfold proc_add_child. mrun (wr_pinode_run s2 _ _ (fun i => pi_with_children (pi_children i ++ [next_id s1]) i) Hd).
  eexists. split; [reflexivity|]. split_and!; [done| |change (next_id s + 1 + 1 = next_id s + 2); lia].
  unfold procs. cbn. change (kf_proc (v_fs s2)) with (<[next_id s + 1 := status_inode r s]> (<[next_id s := fresh_pinode PDirectory r r name S_IFDIR s]> (procs s))).
  rewrite (insert_insert_ne _ (next_id s + 1)) by lia. rewrite insert_insert_eq. done.
Qed.

(** [s'] has the inodes of [s], but for the entries of [r]. *)
Definition grows (r : Z) s s' : Prop :=
  (forall v i, v <> r -> procs s !! v = Some i -> procs s' !! v = Some i) /\ next_id s <= next_id s' /\
  (forall v, is_Some (procs s' !! v) -> is_Some (procs s !! v) \/ next_id s <= v < next_id s').

Lemma grows_name r s s' v : grows r s s' -> v <> r -> is_Some (procs s !! v) -> name_of s' v = name_of s v.
Proof. intros [Hg _] Hv [i Hi]. unfold name_of. by rewrite (Hg v i), Hi. Qed.

Lemma grows_task_dir r s s' v : grows r s s' -> v <> r -> task_dir_ok s r v ->
  (forall i, procs s !! r = Some i -> pi_kind i = PDirectory) -> task_dir_ok s' r v.
Proof.
  intros [Hg _] Hv (i & f & fi & Hi & Hk & Hf & Hc & Hfi & Hkf & Hn & Hp & Hm & Hsh) Hr. exists i, f, fi.
  assert (f <> r) by (intros ->; specialize (Hr _ Hfi); congruence). split_and!; try done; by apply Hg.
Qed.

(** Entries are replaced by entries that are there already, new task directories
    or other new inodes. *)
Definition entry_ok s (r c : Z) : Prop := c <> r /\ exists ci, procs s !! c = Some ci /\ (all_digits (pi_name ci) = true -> task_dir_ok s r c).

Lemma task_dir_entry s r c : c <> r -> task_dir_ok s r c -> entry_ok s r c.
Proof. intros Hc Hd. pose proof Hd as (i & _ & _ & Hi & _). split; [done|]. by exists i. Qed.

Lemma proc_ok_entries r s s' i i' cs : proc_ok r s -> grows r s s' -> procs s !! r = Some i ->
  procs s' !! r = Some i' -> i' = pi_with_children cs i ->
  (forall c, c ∈ cs -> c ∈ pi_children i \/ entry_ok s' r c) -> NoDup (name_of s' <$> cs) -> proc_ok r s'.
Proof.
  intros [(i0 & Hi0 & Hk & Hf) Hc Hn Ht Hfr Hnx] Hg Hi Hi' -> Hcs Hnd. assert (i0 = i) as -> by congruence. split.
  - exists (pi_with_children cs i). done.
  - intros c j Hj Hin. assert (j = pi_with_children cs i) as -> by congruence. cbn in Hin.
    destruct (Hcs c Hin) as [Hold|(Hcr & ci & Hci & _)]; [|eauto].
    destruct (Hc c i Hi Hold) as [Hcr [ci Hci]]. split; [done|]. exists ci. by apply Hg.
  - intros j Hj. assert (j = pi_with_children cs i) as -> by congruence. done.
  - intros j c cj Hj Hin Hcj Hd. assert (j = pi_with_children cs i) as -> by congruence. cbn in Hin.
    destruct (Hcs c Hin) as [Hold|(_ & ci & Hci & Hdir)]; [|apply Hdir; congruence]. destruct (Hc c i Hi Hold) as [Hcr [ci Hci]].
    apply (grows_task_dir r s); [done|done| |intros ? ?; congruence]. apply (Ht i c ci); [done..|].
    destruct Hg as [Hg _]. specialize (Hg c ci Hcr Hci). congruence.
  - intros v Hv. destruct Hg as (_ & Hle & Hg). destruct (Hg v Hv) as [Hold|Hnew]; [specialize (Hfr v Hold)|];
      unfold next_id in *; lia.
  - destruct Hg as (_ & Hle & _). unfold next_id in *. lia.
Qed.

(** Names stay distinct when an entry with a new name is appended. *)
Lemma append_names r s s' i c name : proc_ok r s -> procs s !! r = Some i -> grows r s s' -> name_of s' c = Some name ->
  (forall c, c ∈ pi_children i -> name_of s c <> Some name) -> NoDup (name_of s' <$> pi_children i ++ [c]).
Proof.
  intros Hok Hi Hg Hname Hno. rewrite fmap_app. cbn. rewrite Hname. apply list.NoDup_app.
  assert (Heq : name_of s' <$> pi_children i = name_of s <$> pi_children i).
  { apply list_fmap_ext. intros n x Hx. apply list_elem_of_lookup_2 in Hx.
    destruct (po_children _ _ Hok x i Hi Hx) as [Hxr He]. by apply (grows_name r). }
  rewrite Heq. split_and!; [by apply (po_names _ _ Hok)| |apply NoDup_singleton].
  intros x (y & -> & Hy)%list_elem_of_fmap Hx%list_elem_of_singleton. by apply (Hno y).
Qed.

(** A new directory for a task whose name is not among the entries. *)
Lemma add_task_dir_run r name s i : proc_ok r s -> procs s !! r = Some i -> all_digits name = true -> Z.of_nat (length name) < 2 ^ 31 ->
  (forall c, c ∈ pi_children i -> name_of s c <> Some name) ->
  exists s1 s', new_task_dir r name s = Ret (next_id s, s1) /\ proc_add_child r (next_id s) s1 = Ret (tt, s') /\
    same_kernel s s' /\ grows r s s' /\ proc_ok r s' /\ task_dir_ok s' r (next_id s) /\ name_of s' (next_id s) = Some name /\
    procs s' !! r = Some (pi_with_children (pi_children i ++ [next_id s]) i).
Proof.
  intros Hok Hi Hd Hsh Hno. destruct (new_task_dir_run r name s) as (s1 & Hr1 & Hk1 & Hp1 & Hn1).
  pose proof (po_fresh _ _ Hok r (mk_is_Some _ _ Hi)) as Hr0. change (th_next (kf_tmp (v_fs s))) with (next_id s) in Hr0.
  assert (Hi1 : kf_proc (v_fs s1) !! r = Some i) by (change (kf_proc (v_fs s1)) with (procs s1); rewrite Hp1, !lookup_insert_ne by lia; done).
  exists s1, (set_procs (<[r := pi_with_children (pi_children i ++ [next_id s]) i]> (procs s1)) s1).
  split; [done|]. split; [unfold proc_add_child; by rewrite (wr_pinode_run _ _ _ _ Hi1)|].
  set (s' := set_procs _ _).
  assert (Hp' : procs s' = <[r := pi_with_children (pi_children i ++ [next_id s]) i]>
    (<[next_id s := task_dir_inode r name s]> (<[next_id s + 1 := status_inode r s]> (procs s)))) by (by rewrite <- Hp1).
  assert (Hold : forall v, is_Some (procs s !! v) -> v < next_id s) by (intros v Hv; pose proof (po_fresh _ _ Hok v Hv); unfold next_id; lia).
  assert (Hg : grows r s s').
  { split_and!.
    - intros v j Hv Hj. pose proof (Hold v (mk_is_Some _ _ Hj)). rewrite Hp', !lookup_insert_ne by lia. done.
    - change (next_id s') with (next_id s1). lia.
    - intros v. change (next_id s') with (next_id s1). rewrite Hp', !lookup_insert, Hn1. repeat case_decide; subst; intros Hv; [left; eauto|right; lia|right; lia|by left]. }
  assert (Hdir : task_dir_ok s' r (next_id s)).
  { exists (task_dir_inode r name s), (next_id s + 1), (status_inode r s). rewrite Hp'.
    rewrite (lookup_insert_ne _ r), lookup_insert_eq by lia. rewrite (lookup_insert_ne _ r), lookup_insert_ne, lookup_insert_eq by lia. done. }
  assert (Hname : name_of s' (next_id s) = Some name).
  { unfold name_of. rewrite Hp', (lookup_insert_ne _ r), lookup_insert_eq by lia. done. }
  assert (Hi' : procs s' !! r = Some (pi_with_children (pi_children i ++ [next_id s]) i)) by (by rewrite Hp', lookup_insert_eq).
  split_and!; try done.
  apply (proc_ok_entries r s s' i (pi_with_children (pi_children i ++ [next_id s]) i) (pi_children i ++ [next_id s])); try done.
  - intros c [Hc| ->%list_elem_of_singleton]%elem_of_app; [by left|right]. apply task_dir_entry; [lia|done].
  - by apply (append_names r s s' i _ name).
Qed.

(** ** Construction *)

Lemma new_root_file_run kind r name s i : proc_ok r s -> procs s !! r = Some i -> all_digits name = false ->
  (forall c, c ∈ pi_children i -> name_of s c <> Some name) ->
  exists s', new_root_file kind r name s = Ret (tt, s') /\ same_kernel s s' /\ grows r s s' /\ proc_ok r s' /\
    name_of s' (next_id s) = Some name /\ procs s' !! r = Some (pi_with_children (pi_children i ++ [next_id s]) i).
Proof.
  intros Hok Hi Had Hno. pose proof (po_fresh _ _ Hok r (mk_is_Some _ _ Hi)) as Hr0. change (th_next (kf_tmp (v_fs s))) with (next_id s) in Hr0.
  unfold new_root_file. mrun (new_pinode_run s kind (Some r) r name S_IFREG). set (f := fresh_pinode _ _ _ _ _ _). set (s1 := with_new f s).
  assert (Hi1 : kf_proc (v_fs s1) !! r = Some i) by (cbn; by rewrite lookup_insert_ne by lia).
  unfold proc_add_child. rewrite (wr_pinode_run _ _ _ _ Hi1). eexists. split; [reflexivity|]. set (s' := set_v_fs _ s1).
  assert (Hp' : procs s' = <[r := pi_with_children (pi_children i ++ [next_id s]) i]> (<[next_id s := f]> (procs s))) by done.
  assert (Hold : forall v, is_Some (procs s !! v) -> v < next_id s) by (intros v Hv; pose proof (po_fresh _ _ Hok v Hv); unfold next_id; lia).
  assert (Hg : grows r s s').
  { split_and!.
    - intros v j Hv Hj. pose proof (Hold v (mk_is_Some _ _ Hj)). by rewrite Hp', !lookup_insert_ne by lia.
    - change (next_id s') with (next_id s + 1). lia.
    - intros v. change (next_id s') with (next_id s + 1). rewrite Hp', !lookup_insert. repeat case_decide; subst; intros Hv; [left; eauto|right; lia|by left]. }
  assert (Hf' : procs s' !! next_id s = Some f) by (by rewrite Hp', lookup_insert_ne, lookup_insert_eq by lia).
  assert (Hname : name_of s' (next_id s) = Some name) by (unfold name_of; by rewrite Hf').
  assert (Hi' : procs s' !! r = Some (pi_with_children (pi_children i ++ [next_id s]) i)) by (by rewrite Hp', lookup_insert_eq).
  split_and!; try done.
  apply (proc_ok_entries r s s' i (pi_with_children (pi_children i ++ [next_id s]) i) (pi_children i ++ [next_id s])); try done.
  - intros c [Hc| ->%list_elem_of_singleton]%elem_of_app; [by left|right]. split; [lia|]. exists f. split; [done|]. cbn. by rewrite Had.
  - by apply (append_names r s s' i _ name).
Qed.

(** The file system that the constructor makes. *)
Lemma new_procfs_run s : (forall v, is_Some (procs s !! v) -> 0 < v < next_id s) -> 0 < next_id s ->
  exists s', new_procfs s = Ret (next_id s, s') /\ proc_ok (next_id s) s' /\ same_kernel s s'.
Proof.
  intros Hfr Hn0. set (r := next_id s). unfold new_procfs. mrun (new_pinode_run s PDirectory None 0 root_name S_IFDIR). fold r.
  set (ri := fresh_pinode _ _ _ _ _ _). set (s0 := with_new ri s).
  assert (Hi0 : procs s0 !! r = Some ri) by apply lookup_insert_eq.
  assert (Hok0 : proc_ok r s0).
  { assert (Hall : forall i, procs s0 !! r = Some i -> i = ri) by congruence. split.
    - by exists ri.
    - intros c i ->%Hall Hc. by apply elem_of_nil in Hc.
    - intros i ->%Hall. constructor.
    - intros i c ci ->%Hall Hc. by apply elem_of_nil in Hc.
    - intros v. change (procs s0) with (<[r := ri]> (procs s)). change (th_next _) with (r + 1). rewrite lookup_insert. case_decide; [unfold r in *; lia|].
      intros Hv. specialize (Hfr v Hv). unfold r. lia.
    - change (th_next _) with (r + 1). unfold r. lia. }
  destruct (new_root_file_run SwitchInode r name_switch s0 ri) as (s1 & R1 & K1 & G1 & O1 & N1 & I1); [done..|by intros c ?%elem_of_nil|]. mrun R1.
  destruct (new_root_file_run HelloInode r name_hello s1 _ O1 I1) as (s2 & R2 & K2 & G2 & O2 & N2 & I2); [done| |].
  { intros c ->%list_elem_of_singleton. by rewrite N1. }
  mrun R2. change (pi_children ri) with (@nil Z) in *. cbn [app] in *.
  assert (H1r : next_id s0 <> r /\ is_Some (procs s1 !! next_id s0)) by (apply (po_children _ _ O1 _ _ I1); left).
  assert (N1' : name_of s2 (next_id s0) = Some name_switch) by (rewrite (grows_name r s1 s2) by (done || apply H1r); done).
  destruct (new_root_file_run BuddyInfoInode r name_buddyinfo s2 _ O2 I2) as (s3 & R3 & K3 & G3 & O3 & N3 & I3); [done| |].
  { cbn [pi_children pi_with_children app]. intros c [->|[->|[]%elem_of_nil]%elem_of_cons]%elem_of_cons; by rewrite ?N1', ?N2. }
  mrun R3. cbn [pi_children pi_with_children app] in I2, I3.
  assert (H2 : forall c, c ∈ [next_id s0; next_id s1] -> name_of s3 c = name_of s2 c).
  { intros c Hc. destruct (po_children _ _ O2 c _ I2 Hc) as [? ?]. by apply (grows_name r). }
  destruct (new_root_file_run SlobInfoInode r name_slobinfo s3 _ O3 I3) as (s4 & R4 & K4 & _ & O4 & _ & _); [done| |].
  { cbn [pi_children pi_with_children app]. intros c [->|[->|[->|[]%elem_of_nil]%elem_of_cons]%elem_of_cons]%elem_of_cons; rewrite ?H2 by set_solver; by rewrite ?N1', ?N2, ?N3. }
  mrun R4. exists s4. split_and!; [done|done|].
  destruct K1 as (A1 & B1 & C1), K2 as (A2 & B2 & C2), K3 as (A3 & B3 & C3), K4 as (A4 & B4 & C4). unfold same_kernel.
  by rewrite A4, A3, A2, A1, B4, B3, B2, B1, C4, C3, C2, C1.
Qed.

(** ** Removing the directory of a task *)

Lemma drop_first_perm x l : x ∈ l -> l ≡ₚ x :: drop_first x l.
Proof.
  induction l as [|y l IH]; intros Hin; [by apply elem_of_nil in Hin|]. cbn [drop_first].
  destruct (Z.eqb_spec y x) as [->|Hne]; [done|]. apply elem_of_cons in Hin as [->|Hin]; [done|].
  rewrite (IH Hin) at 1. apply Permutation_swap.
Qed.

Lemma drop_entry_run r s i c : proc_ok r s -> procs s !! r = Some i -> c ∈ pi_children i ->
  exists s', wr_pinode r (fun i => pi_with_children (drop_first c (pi_children i)) i) s = Ret (tt, s') /\
    same_kernel s s' /\ grows r s s' /\ proc_ok r s' /\ procs s' !! r = Some (pi_with_children (drop_first c (pi_children i)) i) /\
    (forall c', c' ∈ drop_first c (pi_children i) -> name_of s' c' <> name_of s c).
Proof.
  intros Hok Hi Hc. rewrite (wr_pinode_run s r i) by done. set (cs := drop_first c (pi_children i)).
  exists (set_procs (<[r := pi_with_children cs i]> (procs s)) s). split; [done|]. set (s' := set_procs _ s).
  assert (Hp' : procs s' = <[r := pi_with_children cs i]> (procs s)) by done.
  assert (Hg : grows r s s').
  { split_and!; [|done|].
    - intros v j Hv Hj. by rewrite Hp', lookup_insert_ne.
    - intros v. rewrite Hp', lookup_insert. case_decide; [subst; eauto|by left]. }
  assert (Hperm : pi_children i ≡ₚ c :: cs) by (by apply drop_first_perm).
  assert (Hin : forall c', c' ∈ cs -> c' ∈ pi_children i) by (intros c' ?; rewrite Hperm; by right).
  assert (Hname : forall c', c' ∈ pi_children i -> name_of s' c' = name_of s c').
  { intros c' Hc'. destruct (po_children _ _ Hok c' i Hi Hc') as [? ?]. by apply (grows_name r). }
  assert (Hnd : NoDup (name_of s c :: (name_of s <$> cs))).
  { pose proof (po_names _ _ Hok i Hi) as Hn. by rewrite Hperm in Hn. }
  apply list.NoDup_cons in Hnd as [Hnc Hnd].
  assert (Heq : name_of s' <$> cs = name_of s <$> cs).
  { apply list_fmap_ext. intros n x Hx. apply Hname, Hin. by eapply list_elem_of_lookup_2. }
  split_and!; [done|done| |by rewrite Hp', lookup_insert_eq|].
  - apply (proc_ok_entries r s s' i (pi_with_children cs i) cs); try done.
    + by rewrite Hp', lookup_insert_eq.
    + intros c' Hc'. left. by apply Hin.
    + by rewrite Heq.
  - intros c' Hc' He. apply Hnc. rewrite <- He, (Hname c') by (by apply Hin). by apply list_elem_of_fmap_2.
Qed.

(** ** Looking up a pid *)

Section lookup.
Context (r : Z) (s : VFS KernelFs) (i : PInode) (pid t : Z).
Context (Hok : proc_ok r s) (Hi : procs s !! r = Some i) (Hpid : 0 <= pid < 2 ^ 31).
Context (Ht : get_by_pid pid (sys_view s) = Ret (t, sys_view s)).

Lemma proc_get_child_start : exists v,
  proc_get_child r (dec pid) s =
    (if t =? 0 then (if negb (v =? 0) then proc_remove_child r (dec pid);; mret tt else mret tt);; mret 0
     else if negb (v =? 0) then mret v
     else task_dir ← new_task_dir r (dec pid); proc_add_child r task_dir;; mret task_dir) s /\
  find_pnamed (dec pid) (pi_children i) s = Ret (v, s) /\
  ((v = 0 /\ forall c, c ∈ pi_children i -> name_of s c <> Some (dec pid)) \/
   (v <> 0 /\ v ∈ pi_children i /\ name_of s v = Some (dec pid))).
Proof.
  destruct (dec_digits pid Hpid) as (_ & Had & Hnp & _). destruct (all_digits_not_dots _ Had) as (Hnd & Hndd & _).
  destruct (po_root _ _ Hok) as (i0 & Hi0 & _ & Hfs). assert (i0 = i) as -> by congruence.
  destruct (find_pnamed_run s (dec pid) (pi_children i)) as (v & Hv & Hspec); [intros c Hc; by apply (po_children _ _ Hok c i)|].
  exists v. unfold proc_get_child. rewrite !decide_False by done. mrun (rd_pinode_run _ _ _ Hi).
  rewrite Hfs, Z.eqb_refl, Had. cbn [andb]. mrun Hv. rewrite Hnp. msimpl. mrun (on_sys_run (get_by_pid pid) s t Ht).
  split_and!; [done|done|]. destruct Hspec as [Hz|[Hin Hn]]; [by left|right]. split_and!; [|done|done].
  destruct (po_children _ _ Hok v i Hi Hin) as [_ He]. pose proof (po_fresh _ _ Hok v He). lia.
Qed.

Lemma proc_get_child_live : t <> 0 -> exists d s', proc_get_child r (dec pid) s = Ret (d, s') /\
  same_kernel s s' /\ proc_ok r s' /\ task_dir_ok s' r d /\ name_of s' d = Some (dec pid) /\ d <> r.
Proof.
  intros Hnz. destruct proc_get_child_start as (v & -> & _ & Hv). rewrite (proj2 (Z.eqb_neq t 0)) by done.
  destruct (dec_digits pid Hpid) as (_ & Had & _ & Hsh). destruct Hv as [[-> Hno]|(Hv0 & Hin & Hn)].
  - destruct (add_task_dir_run r (dec pid) s i) as (s1 & s' & H1 & H2 & Hk & Hg & Hok' & Hd & Hn & _); [done..|].
    cbn [Z.eqb negb]. mrun H1. mrun H2. exists (next_id s), s'. split_and!; try done.
    pose proof (po_fresh _ _ Hok r (mk_is_Some _ _ Hi)). unfold next_id. lia.
  - rewrite (proj2 (Z.eqb_neq v 0)) by done. cbn [negb]. exists v, s. split_and!; try done; [|by apply (po_children _ _ Hok v i)].
    unfold name_of in Hn. destruct (procs s !! v) as [vi|] eqn:E; [|done]. cbn in Hn.
    apply (po_tasks _ _ Hok i v vi); [done..|]. by injection Hn as ->.
Qed.

Lemma proc_get_child_gone : t = 0 -> exists s' i', proc_get_child r (dec pid) s = Ret (0, s') /\
  same_kernel s s' /\ proc_ok r s' /\ procs s' !! r = Some i' /\ forall c, c ∈ pi_children i' -> name_of s' c <> Some (dec pid).
Proof.
  intros Hz. destruct proc_get_child_start as (v & -> & Hf & Hv). rewrite Hz. cbn [Z.eqb].
  destruct Hv as [[-> Hno]|(Hv0 & Hin & Hn)].
  - cbn [Z.eqb negb]. msimpl. by exists s, i.
  - rewrite (proj2 (Z.eqb_neq v 0)) by done. cbn [negb]. destruct (drop_entry_run r s i v) as (s' & Hw & Hk & Hg & Hok' & Hi' & Hno); [done..|].
    assert (Hrm : (proc_remove_child r (dec pid);; mret tt) s = Ret (tt, s')).
    { unfold proc_remove_child. rewrite <- M_assoc. mrun (rd_pinode_run _ _ _ Hi). rewrite <- M_assoc. mrun Hf.
      rewrite (proj2 (Z.eqb_neq v 0)) by done. rewrite <- M_assoc. by mrun Hw. }
    mrun Hrm. eexists s', _. split_and!; [done..|]. cbn. intros c Hc. rewrite <- Hn. by apply Hno.
Qed.
End lookup.

(** ** The status file *)

Definition status_text (name : list Z) (k : Task) : list Z :=
  txt "Name: " ++ name ++ nl ++ txt "State: " ++ dec (state_number (t_state k)) ++ nl ++ txt "Pid: " ++ dec (t_pid k) ++ nl.
Definition zero_padded (n : nat) (t : list Z) : list Z := t ++ replicate (n - length t) 0.

Lemma c_str_length l name : c_str l = Some name -> (length name < length l)%nat.
Proof.
  revert name. induction l as [|c l IH]; intros name; cbn [c_str]; [done|]. destruct (c =? 0); [intros [= <-]; simpl; lia|].
  intros (name' & Hn & ->)%fmap_Some. specialize (IH _ Hn). simpl. lia.
Qed.

Lemma status_content_run k name : length (t_name k) = 16%nat -> c_str (t_name k) = Some name -> 0 <= t_pid k < 2 ^ 31 ->
  status_content k = Ret (zero_padded STATUS_LEN (status_text name k)) /\ (length (status_text name k) < STATUS_LEN)%nat.
Proof.
  intros Hl Hc Hp. pose proof (c_str_length _ _ Hc) as Hln. unfold status_content. rewrite Hc.
  destruct (i2a_dec (t_pid k)) as [Hdp Hlp]; [lia|].
  destruct (i2a_dec (state_number (t_state k))) as [Hds Hls]; [by destruct (t_state k)|].
  assert (Hs : s32 (state_number (t_state k)) = state_number (t_state k)) by (by destruct (t_state k)).
  change fmt_status with (txt "Name: " ++ 37 :: 115 :: (nl ++ txt "State: ") ++ 37 :: 100 :: (nl ++ txt "Pid: ") ++ 37 :: 100 :: nl ++ []).
  rewrite sprintf_lit, sprintf_s by done. rewrite sprintf_lit, sprintf_d, Hs, Hds by done. cbn [mbind outcome_bind].
  rewrite sprintf_lit, sprintf_d, s32_id, Hdp by (done || lia). cbn [mbind outcome_bind]. rewrite sprintf_lit, sprintf_nil by done.
  cbn [mbind outcome_bind]. rewrite app_nil_r, <- !app_assoc. fold (status_text name k).
  assert (Hlt : (length (status_text name k) < STATUS_LEN)%nat).
  { unfold status_text. rewrite !length_app. unfold STATUS_LEN. change (length nl) with 1%nat. simpl. lia. }
  split; [|done]. rewrite decide_True by done. unfold zero_padded, status_text. by rewrite <- !app_assoc.
Qed.

(** [get_by_pid] reads the tasks only. *)
Lemma find_child_same y pid l c y' : find_child pid l y = Ret (c, y') -> y' = y.
Proof.
  induction l as [|x l IH]; cbn [find_child]; [by intros [= _ <-]|]. intros H. minv H as k y1 H1. apply rd_task_inv in H1 as [_ ->].
  destruct (t_pid k =? pid); [by injection H as _ <-|by apply IH].
Qed.
Lemma find_child_tasks y y' pid l c : sy_tasks y = sy_tasks y' -> find_child pid l y = Ret (c, y) -> find_child pid l y' = Ret (c, y').
Proof.
  intros E. induction l as [|x l IH]; cbn [find_child]; [by intros [= <-]|]. unfold rd_task, mbind, M_bind, get. rewrite <- E.
  destruct (sy_tasks y !! x) as [k|]; cbn; [|done]. destruct (t_pid k =? pid); [by intros [= <-]|done].
Qed.
Lemma bfs_pid_tasks y y' pid fuel q t : sy_tasks y = sy_tasks y' -> bfs_pid fuel pid q y = Ret (t, y) -> bfs_pid fuel pid q y' = Ret (t, y').
Proof.
  intros E. revert q. induction fuel as [|fuel IH]; intros [|x q]; cbn [bfs_pid]; try done; try (by intros [= <-]).
  intros H. minv H as k y1 H1. apply rd_task_inv in H1 as [Hk ->]. minv H as o y1 H1.
  pose proof (find_child_same _ _ _ _ _ H1) as ->.
  rewrite E in Hk. mrun (rd_task_run _ _ _ Hk). mrun (find_child_tasks _ _ _ _ _ E H1). destruct o; [by injection H as <-|by apply IH].
Qed.

Lemma get_by_pid_tasks y y' pid t : sy_tasks y = sy_tasks y' -> sy_init y = sy_init y' -> sy_kthreadd y = sy_kthreadd y' ->
  get_by_pid pid y = Ret (t, y) -> get_by_pid pid y' = Ret (t, y').
Proof.
  intros E1 E2 E3. unfold get_by_pid. msimpl. rewrite E2, E3, E1. destruct (pid =? 1); [by intros [= <-]|].
  destruct (pid =? 2); [by intros [= <-]|]. by apply bfs_pid_tasks.
Qed.

Lemma pid_lookup y pid : tree y -> exists t, get_by_pid pid y = Ret (t, y) /\ (t <> 0 -> is_Some (sy_tasks y !! t)).
Proof.
  intros Ht. pose proof Ht as [Hf (ki & Hki & _) (kt & Hkt & _) _ _ _ _ _ _].
  destruct (decide (pid = 1)) as [->|H1]; [exists (sy_init y); split; [done|eauto]|].
  destruct (decide (pid = 2)) as [->|H2]; [exists (sy_kthreadd y); split; [done|eauto]|].
  destruct (get_by_pid_run y pid) as (t & -> & Hs); [done|apply Ht|done..|]. exists t. split; [done|].
  intros Hnz. destruct Hs as [(_ & _ & k & _ & _ & Hk & _)|[? _]]; [eauto|done].
Qed.

Lemma tree_tasks y y' : tree y -> sy_tasks y' = sy_tasks y -> sy_init y' = sy_init y -> sy_kthreadd y' = sy_kthreadd y ->
  sy_next_id y' = sy_next_id y -> sy_next_pid y' = sy_next_pid y -> sy_runqueue y' = sy_runqueue y -> tree y'.
Proof. intros Ht E1 E2 E3 E4 E5 E6. apply (tree_same [] y); [|done]. split; try done; by rewrite ?E1, ?E6. Qed.

(** The directory's status file is found by its name. *)
Lemma status_lookup r s d : proc_ok r s -> task_dir_ok s r d -> d <> r -> exists f fi,
  proc_get_child d name_status s = Ret (f, s) /\ procs s !! f = Some fi /\ pi_kind fi = TaskStatusInode /\ pi_parent fi = d /\ pi_mode fi = S_IFREG.
Proof.
  intros Hok (di & f & fi & Hdi & Hk & Hfs & Hch & Hfi & Hkf & Hn & Hp & Hm & _) Hd. exists f, fi. split_and!; [|done..].
  unfold proc_get_child. rewrite !decide_False by done. mrun (rd_pinode_run _ _ _ Hdi).
  rewrite Hfs, (proj2 (Z.eqb_neq d r)) by done. cbn [andb]. rewrite Hch. cbn [find_pnamed].
  mrun (rd_pinode_run _ _ _ Hfi). by rewrite decide_True.
Qed.

Section status.
Context (s : VFS KernelFs) (d f : Z) (di fi : PInode) (pid t : Z) (k : Task) (name : list Z).
Context (Hdi : procs s !! d = Some di) (Hname : pi_name di = dec pid) (Hpid : 0 <= pid < 2 ^ 31).
Context (Hfi : procs s !! f = Some fi) (Hkind : pi_kind fi = TaskStatusInode) (Hpar : pi_parent fi = d) (Hmode : pi_mode fi = S_IFREG).
Context (Ht : get_by_pid pid (sys_view s) = Ret (t, sys_view s)) (Hnz : t <> 0) (Hk : tasks_of s !! t = Some k).
Context (Hlen : length (t_name k) = 16%nat) (Hcn : c_str (t_name k) = Some name) (Htp : 0 <= t_pid k < 2 ^ 31).

Definition shown_status : list Z := zero_padded STATUS_LEN (status_text name k).

Lemma status_read_run : proc_get_content f s = Ret (Some shown_status, set_procs (<[f := pi_with_content shown_status fi]> (procs s)) s).
Proof.
  destruct (dec_digits pid Hpid) as (_ & _ & Hnp & _). destruct (status_content_run k name) as [Hsc _]; [done..|].
  unfold proc_get_content. mrun (rd_pinode_run _ _ _ Hfi).
  assert (Hmk : make_content fi s = Ret (Some shown_status, s)).
  { unfold make_content. rewrite Hkind. unfold status_get_content. rewrite Hpar. mrun (rd_pinode_run _ _ _ Hdi). rewrite Hname, Hnp. msimpl.
    mrun (on_sys_run (get_by_pid pid) s t Ht). rewrite (proj2 (Z.eqb_neq t 0)) by done.
    mrun (on_sys_run (rd_task t) s k (rd_task_run (sys_view s) t k Hk)). rewrite Hsc. by msimpl. }
  mrun Hmk. by mrun (wr_pinode_run s f fi (pi_with_content shown_status) Hfi).
Qed.

Lemma shown_status_length : length shown_status = STATUS_LEN.
Proof.
  destruct (status_content_run k name) as [_ Hl]; [done..|]. unfold shown_status, zero_padded. rewrite length_app, length_replicate. lia.
Qed.
End status.

Lemma dispatch_proc {A} v (p t : KM A) s i : procs s !! v = Some i -> dispatch v p t s = p s.
Proof. intros H. unfold dispatch. msimpl. by change (kf_proc (v_fs s)) with (procs s); rewrite H. Qed.

(** Reading an opened status file through the VFS. *)
Lemma read_status_run s d f di fi pid t k name junk buf h o len :
  procs s !! d = Some di -> pi_name di = dec pid -> 0 <= pid < 2 ^ 31 ->
  procs s !! f = Some fi -> pi_kind fi = TaskStatusInode -> pi_parent fi = d -> pi_mode fi = S_IFREG ->
  get_by_pid pid (sys_view s) = Ret (t, sys_view s) -> t <> 0 -> tasks_of s !! t = Some k ->
  length (t_name k) = 16%nat -> c_str (t_name k) = Some name -> 0 <= t_pid k < 2 ^ 31 ->
  cpu_ok (v_cpu s) -> h <> 0 -> v_files s !! h = Some (Vnode.mkFile f 0 o) -> 0 <= len <= Z.of_nat (length buf) ->
  exists s', read junk buf h len s =
    Ret ((take (Z.to_nat (Z.min len 128)) (shown_status k name) ++ drop (Z.to_nat (Z.min len 128)) buf, Z.min len 128), s') /\
    v_cpu s' = v_cpu s /\ tasks_of s' = tasks_of s.
Proof.
  intros Hdi Hn Hpid Hfi Hk Hp Hm Ht Hnz Hkt Hl Hc Htp Hcpu Hh Hfile Hlen.
  pose proof (shown_status_length k name Hl Hc Htp) as Hsl. set (c := shown_status k name) in *.
  set (s2 := set_v_files (<[h := Vnode.mkFile f (Z.min len 128) o]> (v_files s)) (v_next_file s) (set_procs (<[f := pi_with_content c fi]> (procs s)) s)).
  exists s2. split; [|done]. unfold read.
  change (Ret (?x, s2)) with (Ret (x, with_cpu (cpu_of s) s2)). apply guarded_spec; [done|].
  set (se := with_cpu (entered (cpu_of s)) s). rewrite (proj2 (Z.eqb_neq h 0)) by done.
  assert (Hrf : rd_file h se = Ret (Vnode.mkFile f 0 o, se)) by (unfold rd_file; msimpl; cbn; by rewrite Hfile).
  mrun Hrf. cbn [f_vnode f_pos].
  assert (Hmode : vn_mode f se = Ret (S_IFREG, se)).
  { cbn [vn_mode kernel_vnodes]. rewrite (dispatch_proc _ _ _ se fi) by done. mrun (rd_pinode_run se f fi Hfi). by rewrite Hm. }
  mrun Hmode. change (is_regular_file S_IFREG) with true. cbn iota.
  assert (Hte : get_by_pid pid (sys_view se) = Ret (t, sys_view se)) by (by apply (get_by_pid_tasks (sys_view s))).
  set (s1 := set_procs (<[f := pi_with_content c fi]> (procs se)) se).
  assert (Hgc : get_content f se = Ret (Some c, s1)).
  { cbn [get_content kernel_vnodes]. rewrite (dispatch_proc _ _ _ se fi) by done.
    by apply (status_read_run se d f di fi pid t k name). }
  mrun Hgc.
  assert (Hsz : vn_size f s1 = Ret (128, s1)).
  { cbn [vn_size kernel_vnodes]. assert (Hl1 : procs s1 !! f = Some (pi_with_content c fi)) by apply lookup_insert_eq.
    rewrite (dispatch_proc _ _ _ s1 _ Hl1). mrun (rd_pinode_run s1 f _ Hl1).
    change (pi_size (pi_with_content c fi)) with (Z.of_nat (length c)). by rewrite Hsl. }
  mrun Hsz. replace (u64 (128 - 0)) with 128 by done.
  assert (Hsli : slice_opt (Some c) 0 (Z.min len 128) = Some (take (Z.to_nat (Z.min len 128)) c)).
  { unfold slice_opt, slice. destruct (Z.eqb_spec (Z.min len 128) 0) as [->|]; [done|].
    rewrite decide_True by (rewrite Hsl; unfold STATUS_LEN; lia). done. }
  rewrite Hsli. msimpl. rewrite decide_True by lia. msimpl.
  assert (Hwp : wr_pos h (u64 (0 + Z.min len 128)) s1 = Ret (tt, with_cpu (entered (cpu_of s)) s2)).
  { unfold wr_pos. assert (Hrf1 : rd_file h s1 = Ret (Vnode.mkFile f 0 o, s1)) by (unfold rd_file; msimpl; cbn; by rewrite Hfile).
    mrun Hrf1. rewrite u64_id by lia. cbn. by rewrite Z.add_0_l. }
  mrun Hwp. rewrite s32_id by lia. done.
Qed.

(** ** Listing the root directory *)

Definition dir_pid s (c : Z) : option Z :=
  match procs s !! c with
  | Some i => if all_digits (pi_name i) then Some (match name_pid (pi_name i) with Ret n => n | _ => 0 end) else None
  | None => None
  end.

(** An entry is the directory of this pid. *)
Definition has_dir (r : Z) s (pid : Z) : Prop := exists i c, procs s !! r = Some i /\ c ∈ pi_children i /\ dir_pid s c = Some pid.

Lemma task_name_pid r s v i : task_dir_ok s r v -> procs s !! v = Some i -> all_digits (pi_name i) = true ->
  exists n, name_pid (pi_name i) = Ret n.
Proof.
  intros (i' & _ & _ & Hi' & _ & _ & _ & _ & _ & _ & _ & _ & Hsh) Hi Had. assert (i' = i) as -> by congruence.
  unfold all_digits in Had. apply andb_true_iff in Had as [Hne Hall]. apply negb_true_iff, bool_decide_eq_false in Hne.
  destruct (digits_pid (pi_name i) Hne) as (n & ? & _); [|done|by exists n].
  rewrite forallb_forall in Hall. apply list.Forall_forall. intros c Hc. by apply Hall, list_elem_of_In.
Qed.

Lemma find_task_dir_run r s i pid l : proc_ok r s -> procs s !! r = Some i -> (forall c, c ∈ l -> c ∈ pi_children i) ->
  exists b, find_task_dir pid l s = Ret (b, s) /\ (b = true <-> exists c, c ∈ l /\ dir_pid s c = Some pid).
Proof.
  intros Hok Hi. induction l as [|c l IH]; intros Hl; cbn [find_task_dir].
  { exists false. split; [done|]. split; [done|]. by intros (c & ?%elem_of_nil & _). }
  destruct (po_children _ _ Hok c i Hi) as [_ [ci Hci]]; [apply Hl; left|]. mrun (rd_pinode_run _ _ _ Hci).
  destruct IH as (b & Hb & Hspec); [intros x ?; apply Hl; by right|].
  assert (Hd : exists f : bool, (if all_digits (pi_name ci) then p ← lift (name_pid (pi_name ci)); mret (p =? pid) else mret false) s = Ret (f, s) /\
            (f = true <-> dir_pid s c = Some pid)).
  { unfold dir_pid. rewrite Hci. destruct (all_digits (pi_name ci)) eqn:Had; [|by exists false].
    destruct (task_name_pid r s c ci) as (n & Hn); [apply (po_tasks _ _ Hok i c ci); (done || apply Hl; left)|done|done|].
    rewrite Hn. msimpl. exists (n =? pid). split; [done|]. rewrite Z.eqb_eq. split; [by intros ->|by intros [= ->]]. }
  destruct Hd as (f & Hf & Hfs). mrun Hf. destruct f.
  - exists true. split; [done|]. split; [|done]. intros _. exists c. split; [left|by apply Hfs].
  - rewrite Hb. exists b. split; [done|]. rewrite Hspec. split.
    + intros (x & ? & ?). exists x. split; [by right|done].
    + intros (x & [->|Hx]%elem_of_cons & Hx'); [|by exists x]. apply Hfs in Hx'. done.
Qed.

(** [s'] has more entries than [s]. *)
Definition more_entries (r : Z) s s' : Prop := grows r s s' /\
  exists i l, procs s !! r = Some i /\ procs s' !! r = Some (pi_with_children (pi_children i ++ l) i).

Lemma more_dirs r s s' pid : proc_ok r s -> more_entries r s s' -> has_dir r s pid -> has_dir r s' pid.
Proof.
  intros Hok (Hg & i & l & Hi & Hi') (i0 & c & Hi0 & Hc & Hp). assert (i0 = i) as -> by congruence.
  exists (pi_with_children (pi_children i ++ l) i), c. split_and!; [done|cbn; apply elem_of_app; by left|].
  destruct (po_children _ _ Hok c i Hi Hc) as [Hcr [ci Hci]]. destruct Hg as [Hg _]. unfold dir_pid in *. by rewrite (Hg c ci), Hci in *.
Qed.

Lemma more_trans r s1 s2 s3 : more_entries r s1 s2 -> more_entries r s2 s3 -> more_entries r s1 s3.
Proof.
  intros ((Hg & Hn & Hn') & i & l & Hi & Hi') ((Hg2 & Hn2 & Hn2') & i2 & l2 & Hi2 & Hi2'). split.
  - split_and!; [intros v j Hv Hj; by apply Hg2, Hg|lia|]. intros v Hv. destruct (Hn2' v Hv) as [Hv2|?]; [|right; lia].
    destruct (Hn' v Hv2) as [?|?]; [by left|right; lia].
  - exists i, (l ++ l2). split; [done|]. assert (i2 = pi_with_children (pi_children i ++ l) i) as -> by congruence.
    rewrite Hi2'. cbn. by rewrite app_assoc.
Qed.

Lemma add_task_dirs_run r l s : proc_ok r s ->
  (forall t, t ∈ l -> exists k, tasks_of s !! t = Some k /\ 0 <= t_pid k < 2 ^ 31) ->
  exists s', add_task_dirs r l s = Ret (tt, s') /\ same_kernel s s' /\ proc_ok r s' /\ more_entries r s s' /\
    forall t k, t ∈ l -> tasks_of s !! t = Some k -> has_dir r s' (t_pid k).
Proof.
  revert s. induction l as [|t l IH]; intros s Hok Hl; cbn [add_task_dirs].
  { pose proof (po_root _ _ Hok) as (i & Hi & _). exists s. split_and!; [done|done|done| |by intros t k ?%elem_of_nil].
    split; [split_and!; [done|lia|by left]|]. exists i, []. rewrite app_nil_r. split; [done|]. by destruct i. }
  destruct (Hl t) as (k & Hk & Hp); [left|]. mrun (on_sys_run (rd_task t) s k (rd_task_run (sys_view s) t k Hk)).
  pose proof (po_root _ _ Hok) as (i & Hi & _). mrun (rd_pinode_run _ _ _ Hi).
  destruct (find_task_dir_run r s i (t_pid k) (pi_children i)) as (b & Hb & Hspec); [done..|]. mrun Hb.
  destruct (dec_digits (t_pid k) Hp) as (Hd & Had & Hnp & Hsh).
  assert (Hpn : pid_name (t_pid k) = Ret (dec (t_pid k))).
  { unfold pid_name. change (txt "%d") with (37 :: 100 :: []). rewrite sprintf_d, s32_id, Hd by lia. cbn. by rewrite app_nil_r. }
  rewrite Hpn. msimpl.
  assert (Hstep : exists s1, (if b then mret tt else task_dir ← new_task_dir r (dec (t_pid k)); proc_add_child r task_dir) s = Ret (tt, s1) /\
            same_kernel s s1 /\ proc_ok r s1 /\ more_entries r s s1 /\ has_dir r s1 (t_pid k)).
  { destruct b.
    - exists s. split_and!; [done|done|done| |]. 2:{ destruct (proj1 Hspec eq_refl) as (c & ? & ?). by exists i, c. }
      split; [split_and!; [done|lia|by left]|]. exists i, []. rewrite app_nil_r. split; [done|]. by destruct i.
    - destruct (add_task_dir_run r (dec (t_pid k)) s i) as (s0 & s1 & H1 & H2 & Hk1 & Hg & Hok1 & Hd1 & Hn1 & Hi1); [done..| |].
      { intros c Hc Hn. unfold name_of in Hn. destruct (procs s !! c) as [ci|] eqn:E; [|done]. injection Hn as Hn.
        assert (false = true); [|done]. apply Hspec. exists c. split; [done|]. unfold dir_pid. by rewrite E, Hn, Had, Hnp. }
      mrun H1. exists s1. split_and!; [done..| |].
      + split; [done|]. by exists i, [next_id s].
      + eexists _, (next_id s). split_and!; [exact Hi1|cbn; apply elem_of_app; right; by apply list_elem_of_singleton|].
        unfold name_of in Hn1. unfold dir_pid. destruct (procs s1 !! next_id s) as [di|]; [|done]. injection Hn1 as ->. by rewrite Had, Hnp. }
  destruct Hstep as (s1 & Hs1 & Hk1 & Hok1 & Hm1 & Hd1). mrun Hs1.
  assert (Hts : tasks_of s1 = tasks_of s) by (destruct Hk1 as [Hv _]; by change (sy_tasks (sys_view s1) = sy_tasks (sys_view s)); rewrite Hv).
  destruct (IH s1 Hok1) as (s' & Hr & Hk' & Hok' & Hm' & Hd'); [intros t' ?; rewrite Hts; apply Hl; by right|].
  exists s'. split_and!; [done| |done|by eapply more_trans|].
  - destruct Hk1 as (V1 & C1 & F1), Hk' as (V2 & C2 & F2). unfold same_kernel. by rewrite V2, C2, F2.
  - intros t' k' [->|Ht']%elem_of_cons Hk''.
    + assert (k' = k) as -> by congruence. by apply (more_dirs r s1).
    + apply (Hd' t'); [done|]. by rewrite Hts.
Qed.

(** The first directory without a task, if any. *)
Definition stale s (c : Z) : Prop := exists pid, dir_pid s c = Some pid /\ get_by_pid pid (sys_view s) = Ret (0, sys_view s).

Lemma first_stale_run r s i l : proc_ok r s -> tree (sys_view s) -> procs s !! r = Some i -> (forall c, c ∈ l -> c ∈ pi_children i) ->
  exists o, first_stale l s = Ret (o, s) /\
    match o with
    | Some c => c ∈ l /\ stale s c
    | None => forall c, c ∈ l -> ~ stale s c
    end.
Proof.
  intros Hok Htree Hi. induction l as [|c l IH]; intros Hl; cbn [first_stale].
  { exists None. split; [done|]. by intros c ?%elem_of_nil. }
  destruct (po_children _ _ Hok c i Hi) as [_ [ci Hci]]; [apply Hl; left|].
  assert (Hd : exists b, is_stale c s = Ret (b, s) /\ (b = true <-> stale s c)).
  { unfold is_stale, stale, dir_pid. mrun (rd_pinode_run _ _ _ Hci). rewrite Hci.
    destruct (all_digits (pi_name ci)) eqn:Had; [|exists false; split; [done|]; split; [done|by intros (? & ? & _)]].
    destruct (task_name_pid r s c ci) as (n & Hn); [apply (po_tasks _ _ Hok i c ci); (done || apply Hl; left)|done|done|].
    rewrite Hn. msimpl. destruct (pid_lookup (sys_view s) n Htree) as (t & Ht & _). mrun (on_sys_run (get_by_pid n) s t Ht).
    exists (t =? 0). split; [done|]. rewrite Z.eqb_eq. split; [intros ->; by exists n|]. intros (pid & [= <-] & Hp). congruence. }
  destruct Hd as (b & Hb & Hbs). mrun Hb. destruct b.
  - exists (Some c). split_and!; [done|left|by apply Hbs].
  - destruct IH as (o & -> & Ho); [intros x ?; apply Hl; by right|]. exists o. split; [done|]. destruct o as [x|].
    + destruct Ho. split; [by right|done].
    + intros x [->|Hx]%elem_of_cons; [|by apply Ho]. intros Hs. by apply Hbs in Hs.
Qed.

Lemma children_count_run r s : proc_ok r s -> tree (sys_view s) ->
  (forall t k, descendant (tasks_of s) (sy_init (sys_view s)) t \/ t = sy_kthreadd (sys_view s) -> tasks_of s !! t = Some k -> 0 <= t_pid k < 2 ^ 31) ->
  exists s' i', get_children_count r s = Ret (2 + Z.of_nat (length (pi_children i')), s') /\ procs s' !! r = Some i' /\
    proc_ok r s' /\ same_kernel s s' /\
    (forall t k, descendant (tasks_of s) (sy_init (sys_view s)) t \/ t = sy_kthreadd (sys_view s) -> tasks_of s !! t = Some k -> has_dir r s' (t_pid k)).
Proof.
  intros Hok Htree Hpids. pose proof (po_root _ _ Hok) as (i & Hi & Hkd & Hfs).
  cbn [get_children_count kernel_vnodes]. rewrite (dispatch_proc _ _ _ s i Hi). unfold proc_get_children_count.
  mrun (rd_pinode_run _ _ _ Hi). rewrite Hfs.
  destruct (first_stale_run r s i (pi_children i)) as (o & Ho & Hos); [done..|].
  assert (H1 : exists s1, (match o with Some c => wr_pinode r (fun i => pi_with_children (drop_first c (pi_children i)) i) | None => mret tt end) s = Ret (tt, s1) /\
            same_kernel s s1 /\ proc_ok r s1).
  { destruct o as [c|]; [|by exists s]. destruct Hos as [Hc _].
    destruct (drop_entry_run r s i c) as (s1 & ? & ? & _ & ? & _); [done..|]. by exists s1. }
  destruct H1 as (s1 & Hs1 & Hk1 & Hok1). assert (Hv1 : sys_view s1 = sys_view s) by apply Hk1.
  assert (Hts1 : tasks_of s1 = tasks_of s) by (by change (sy_tasks (sys_view s1) = sy_tasks (sys_view s)); rewrite Hv1).
  destruct (get_active_tasks_run (sys_view s)) as (W & HW & _ & HWs); [apply Htree..|].
  destruct (add_task_dirs_run r (sy_init (sys_view s) :: sy_kthreadd (sys_view s) :: W) s1 Hok1) as (s' & Hr & Hk' & Hok' & _ & Hd).
  { rewrite Hts1. intros t Ht. assert (Hdt : descendant (tasks_of s) (sy_init (sys_view s)) t \/ t = sy_kthreadd (sys_view s)).
    { rewrite !elem_of_cons, HWs in Ht. destruct Ht as [->|[->|?]]; [left; constructor|by right|by left]. }
    assert (Hex : is_Some (tasks_of s !! t)).
    { destruct Hdt as [Hdt| ->]; [|pose proof (tb_kthreadd _ _ Htree) as (? & ? & _); eauto].
      inversion Hdt as [|p c Hp Hc]; subst; [pose proof (tb_init _ _ Htree) as (? & ? & _); eauto|].
      apply (child_exists (sys_view s) (tb_family _ _ Htree) p t Hc). }
    destruct Hex as [k Hk]. eauto. }
  assert (Hrep : repopulate_task_directories r s = Ret (tt, s')).
  { unfold repopulate_task_directories. mrun (rd_pinode_run _ _ _ Hi). mrun Ho. mrun Hs1.
    rewrite <- Hv1 in HW. mrun (on_sys_run get_active_tasks s1 _ HW). rewrite Hv1. exact Hr. }
  mrun Hrep. pose proof (po_root _ _ Hok') as (i' & Hi' & _). mrun (rd_pinode_run _ _ _ Hi').
  exists s', i'. split_and!; [done..| |].
  - destruct Hk1 as (V1 & C1 & F1), Hk' as (V2 & C2 & F2). unfold same_kernel. by rewrite V2, C2, F2.
  - intros t k Hdt Hk. apply (Hd t k); [|by rewrite Hts1]. rewrite !elem_of_cons, HWs. tauto.
Qed.

(** ** Theorems *)

(** C23. /proc shows the tasks as they are.  Looking up a pid in the root
    directory of a ProcFS gives a directory exactly if [get_by_pid] finds a
    task with that pid, and drops the entry of a task that has ended.  The
    directory has a file "status"; reading it through [VFS::read] gives the
    name, state and pid that the task has at that moment. *)
Theorem proc_status_reports r s pid :
  proc_ok r s -> tree (sys_view s) -> 0 <= pid < 2 ^ 31 ->
  exists t, get_by_pid pid (sys_view s) = Ret (t, sys_view s) /\
    (t = 0 -> exists s' i', get_child r (dec pid) s = Ret (0, s') /\ proc_ok r s' /\ tasks_of s' = tasks_of s /\
       procs s' !! r = Some i' /\ forall c, c ∈ pi_children i' -> name_of s' c <> Some (dec pid)) /\
    (t <> 0 -> exists d s1 f k, get_child r (dec pid) s = Ret (d, s1) /\ get_child d name_status s1 = Ret (f, s1) /\
       proc_ok r s1 /\ tasks_of s1 = tasks_of s /\ tasks_of s !! t = Some k /\
       forall name junk buf h o len, length (t_name k) = 16%nat -> c_str (t_name k) = Some name -> 0 <= t_pid k < 2 ^ 31 ->
         cpu_ok (v_cpu s1) -> h <> 0 -> v_files s1 !! h = Some (Vnode.mkFile f 0 o) -> 128 <= len <= Z.of_nat (length buf) ->
         exists s2, read junk buf h len s1 = Ret ((zero_padded 128 (status_text name k) ++ drop 128 buf, 128), s2)).
Proof.
  intros Hok Htree Hpid. destruct (pid_lookup (sys_view s) pid Htree) as (t & Ht & Hex). exists t. split; [done|].
  pose proof (po_root _ _ Hok) as (i & Hi & Hk & Hfs). split.
  - intros Hz. destruct (proc_get_child_gone r s i pid t Hok Hi Hpid Ht Hz) as (s' & i' & Hr & (Hv & _) & Hok' & Hi' & Hno).
    exists s', i'. cbn [get_child kernel_vnodes]. rewrite (dispatch_proc _ _ _ s i Hi). split_and!; try done.
    by change (sy_tasks (sys_view s') = sy_tasks (sys_view s)); rewrite Hv.
  - intros Hnz. destruct (Hex Hnz) as [k Hkt].
    destruct (proc_get_child_live r s i pid t Hok Hi Hpid Ht Hnz) as (d & s1 & Hr & (Hv & Hcpu & Hfl) & Hok1 & Hd & Hn & Hdr).
    destruct (status_lookup r s1 d Hok1 Hd Hdr) as (f & fi & Hf & Hfi & Hkf & Hpf & Hmf).
    destruct Hd as (di & _ & _ & Hdi & _). assert (Hdn : pi_name di = dec pid) by (unfold name_of in Hn; rewrite Hdi in Hn; by injection Hn).
    assert (Hts : tasks_of s1 = tasks_of s) by (by change (sy_tasks (sys_view s1) = sy_tasks (sys_view s)); rewrite Hv).
    exists d, s1, f, k. cbn [get_child kernel_vnodes]. rewrite (dispatch_proc _ _ _ s i Hi), (dispatch_proc _ _ _ s1 di Hdi).
    split_and!; try done. intros name junk buf h o len Hl Hc Htp Hok2 Hh Hfile Hlen.
    destruct (read_status_run s1 d f di fi pid t k name junk buf h o len) as (s2 & Hrd & _);
      try done; [by rewrite Hv|by rewrite Hts|lia|].
    exists s2. rewrite Hrd. replace (Z.min len 128) with 128 by lia. rewrite take_ge by (rewrite shown_status_length; done). done.
Qed.

(** C24. The constructor of ProcFS gives a well-formed tree, and listing its root
    directory brings it up to date: afterwards every active descendant of init,
    and kthreadd, has a directory whose name is its pid, names are distinct,
    every directory of a task has its status file, and the number of entries
    returned is that of the entries. *)
Theorem proc_listing_covers_tasks s :
  (forall v, is_Some (procs s !! v) -> 0 < v < next_id s) -> 0 < next_id s ->
  (exists s1, new_procfs s = Ret (next_id s, s1) /\ proc_ok (next_id s) s1) /\
  forall r, proc_ok r s -> tree (sys_view s) ->
    (forall t k, descendant (tasks_of s) (sy_init (sys_view s)) t \/ t = sy_kthreadd (sys_view s) -> tasks_of s !! t = Some k -> 0 <= t_pid k < 2 ^ 31) ->
    exists s' i', get_children_count r s = Ret (2 + Z.of_nat (length (pi_children i')), s') /\ procs s' !! r = Some i' /\
      proc_ok r s' /\ tasks_of s' = tasks_of s /\
      (forall t k, descendant (tasks_of s) (sy_init (sys_view s)) t \/ t = sy_kthreadd (sys_view s) -> tasks_of s !! t = Some k -> has_dir r s' (t_pid k)).
Proof.
  intros Hfr Hn. split.
  - destruct (new_procfs_run s Hfr Hn) as (s1 & ? & ? & _). by exists s1.
  - intros r Hok Htree Hp. destruct (children_count_run r s Hok Htree Hp) as (s' & i' & Hr & Hi' & Hok' & (Hv & _) & Hd).
    exists s', i'. split_and!; try done. by change (sy_tasks (sys_view s') = sy_tasks (sys_view s)); rewrite Hv.
Qed.

(** ** Witnesses *)

Definition named (k : Task) : Task :=
  mkTask (t_context k) (t_is_user k) (t_parent k) (t_active k) (t_terminated k) (t_state k) (t_error_code k) (t_pid k) (t_time_slice k)
    (t_vmmap k) (t_entry_point k) (t_kstack k) (t_ustack k) (t_trap_frame k) (txt "sh" ++ replicate 14 0) (t_pending k) (t_handlers k)
    (t_fds k) (t_cwd k) (t_in_kernel k).
Definition named_sys : Sys := set_sy_tasks (named <$> kin_tasks) kin_sys.
Lemma named_tree : tree named_sys.
Proof. apply (tree_same [] kin_sys); [|apply kin_tree]. split; done. Qed.

Definition proc_boot : VFS KernelFs := new_vfs (held 0) (mkKernelFs (mkHeap ∅ 1) ∅ false named_sys) (mkUart [] []).

Lemma boot_tree s1 : same_kernel proc_boot s1 -> tree (sys_view s1).
Proof. intros [-> _]. by apply (tree_tasks named_sys); [apply named_tree|..]. Qed.

Lemma proc_status_reports_witness : exists s1 d s2 f, new_procfs proc_boot = Ret (1, s1) /\
  get_child 1 (dec 4) s1 = Ret (d, s2) /\ get_child d name_status s2 = Ret (f, s2).
Proof.
  destruct (new_procfs_run proc_boot) as (s1 & Hr & Hok & Hk); [by intros v [? ?]|done|].
  destruct (proc_status_reports 1 s1 4 Hok (boot_tree s1 Hk)) as (t & Ht & _ & Hl); [lia|].
  assert (Ht4 : t = 4) by (destruct Hk as [Hv _]; rewrite Hv in Ht; vm_compute in Ht; by injection Ht). subst t.
  destruct (Hl ltac:(done)) as (d & s2 & f & k & H1 & H2 & _). by exists s1, d, s2, f.
Defined.

Lemma proc_listing_covers_tasks_witness : exists s1, new_procfs proc_boot = Ret (1, s1) /\ exists s', get_children_count 1 s1 = Ret (10, s').
Proof.
  destruct (proc_listing_covers_tasks proc_boot) as [(s1 & Hr & Hok) _]; [by intros v [? ?]|done|]. exists s1. split; [exact Hr|].
  assert (Hk : same_kernel proc_boot s1) by (destruct (new_procfs_run proc_boot) as (s1' & Hr' & _ & Hk); [by intros v [? ?]|done|congruence]).
  destruct (proc_listing_covers_tasks s1 (po_fresh _ _ Hok) (po_next _ _ Hok)) as [_ Hl].
  destruct (Hl 1 Hok (boot_tree s1 Hk)) as (s' & i' & Hc & _).
  - intros t k _ Hkt. change (tasks_of s1) with (sy_tasks (sys_view s1)) in Hkt. destruct Hk as [Hv _]. rewrite Hv in Hkt.
    cbn in Hkt. apply lookup_fmap_Some in Hkt as (k0 & <- & H0%kin_lookup).
    destruct H0 as [[-> ->]|[[-> ->]|[[-> ->]|[-> ->]]]]; cbn; lia.
  - exists s'. rewrite Hc. f_equal. f_equal.
    assert (E : match new_procfs proc_boot with Ret (_, s1) => match get_children_count 1 s1 with Ret (n, _) => n | _ => 0 end | _ => 0 end = 10)
      by (vm_compute; reflexivity).
    rewrite Hr, Hc in E. exact E.
Defined.

(** The whole way: mount the file systems, open the file of a task, read it. *)
Definition proc_session : KM (list Z) :=
  root ← on_tmp new_tmpfs;
  mount_rootfs root;;
  mount_procfs;;
  f ← Vfs.open (txt "/proc/4/status") 0;
  r ← read [] (replicate 30 0) f 30;
  mret (fst r).
Lemma proc_session_runs : exists s', proc_session proc_boot = Ret (txt "Name: sh" ++ nl ++ txt "State: 1" ++ nl ++ txt "Pid: 4" ++ nl ++ replicate 5 0, s').
Proof. eexists. vm_compute. reflexivity. Qed.

(** ** switch and hello *)

(** What is written to "switch" decides what "hello" says. *)
Lemma switch_hello s v w vi wi n b :
  procs s !! v = Some vi -> pi_kind vi = SwitchInode -> procs s !! w = Some wi -> pi_kind wi = HelloInode ->
  atoi (S (length b)) (arr_get b) 0 10 = Ret n ->
  exists s1 s2, set_content v (Some b) (Z.of_nat (length b)) s = Ret (tt, s1) /\
    get_content w s1 = Ret (Some (txt (if n =? 0 then "hello" else "HELLO") ++ nl), s2).
Proof.
  intros Hv Hkv Hw Hkw Hn. cbn [set_content get_content kernel_vnodes]. rewrite (dispatch_proc _ _ _ s vi Hv).
  unfold proc_set_content. mrun (rd_pinode_run s v vi Hv). rewrite Hkv. unfold switch_set_content. msimpl. rewrite Hn. msimpl. eexists _, _. split; [reflexivity|].
  set (s1 := set_v_fs _ s). rewrite (dispatch_proc _ _ _ s1 wi Hw). unfold proc_get_content. mrun (rd_pinode_run s1 w wi Hw).
  set (c := txt (if n =? 0 then "hello" else "HELLO") ++ nl).
  assert (Hmk : make_content wi s1 = Ret (Some c, s1)) by (unfold make_content, c; rewrite Hkw; cbn; by destruct (n =? 0)).
  mrun Hmk. by mrun (wr_pinode_run s1 w wi (pi_with_content c) Hw).
Qed.

(** [VFS::write] hands over exactly the bytes written, without a terminator:
    [atoi] reads past the end of "1" and a newline, unless a zero follows. *)
Lemma switch_unterminated :
  atoi 3 (arr_get [49; 10]) 0 10 = Fault /\ atoi 4 (arr_get [49; 10; 0]) 0 10 = Ret 1.
Proof. by vm_compute. Qed.

(** A number with a leading zero is taken for the pid, and gets a directory of
    its own. *)
Lemma leading_zero_directory : exists s1 d s2 d' s3, new_procfs proc_boot = Ret (1, s1) /\
  get_child 1 (txt "1") s1 = Ret (d, s2) /\ get_child 1 (txt "01") s2 = Ret (d', s3) /\ d <> 0 /\ d' <> 0 /\ d <> d'.
Proof. eexists _, _, _, _, _. do 3 (split; [vm_compute; reflexivity|]). done. Qed.

(** ** buddyinfo *)

(** Reading "buddyinfo" gives the free lists of the page frame allocator. *)
Lemma buddyinfo_read s v vi live : procs s !! v = Some vi -> pi_kind vi = BuddyInfoInode -> cpu_ok (v_cpu s) ->
  let b := buddy_allocator (mm_zone0 (k_mm (vm_kernel (sy_vm (sys_view s))))) in
  buddy_rep b live ->
  exists L s', buddy_inv b live L None /\ get_content v s = Ret (Some (buddy_report (zone_begin b) L), s').
Proof.
  intros Hv Hk Hcpu b Hrep. destruct (get_buddy_info_run (vm_kernel (sy_vm (sys_view s))) live) as (L & Hinv & Hr); [done..|].
  set (c := buddy_report (zone_begin b) L).
  assert (Hinfo : on_vm (on_kernel get_buddy_info) (sys_view s) = Ret (c, sys_view s)).
  { unfold on_vm, on_kernel, zoom. rewrite Hr. fold b c. unfold set_vm_kernel, set_sy_vm. by destruct (sys_view s) as [[? ?]]. }
  eexists L, _. split; [done|]. cbn [get_content kernel_vnodes]. rewrite (dispatch_proc _ _ _ s vi Hv).
  unfold proc_get_content. mrun (rd_pinode_run s v vi Hv).
  assert (Hmk : make_content vi s = Ret (Some c, s)).
  { unfold make_content. rewrite Hk. unfold buddyinfo_get_content. by mrun (on_sys_run _ s c Hinfo). }
  mrun Hmk. by mrun (wr_pinode_run s v vi (pi_with_content c) Hv).
Qed.
