(* ===== verification/Exec.v ===== *)
(** * proc/Task.cc: mapping memory and executing programs

    [mmap], the ELF loader and [exec], on the whole kernel: tasks and memory,
    and the virtual file system the program is read from.  A successful [exec]
    ends in [switch_to_user_mode] and does not return: its result is what that
    is called with.  [fuel] bounds the length of the C strings and of [argv],
    [junk] is what the stack holds where a directory entry is made. *)

From Stdlib Require Import ZArith Lia.
From stdpp Require Import base gmap list numbers.
From S2P Require Import Prelude Math Mmu Mutex Buddy Slob Memory PageTable CString KString Disk Elf ByteMem Cpio Console Vnode TmpFS Proc ProcFS Vfs.

Open Scope Z_scope.

Definition USER_STACK_PAGE : Z := 0x00007ffffffff000.

Definition PROT_READ : Z := 1.
Definition PROT_WRITE : Z := 2.
Definition PROT_EXEC : Z := 4.
Definition MAP_PRIVATE : Z := 2.
Definition MAP_FIXED : Z := 0x10.
Definition MAP_ANONYMOUS : Z := 0x20.

Definition on_mem {A} (m : M VM A) : KM A := on_sys (on_vm m).

Definition with_name (n : list Z) (k : Task) : Task :=
  mkTask (t_context k) (t_is_user k) (t_parent k) (t_active k) (t_terminated k) (t_state k) (t_error_code k) (t_pid k) (t_time_slice k) (t_vmmap k) (t_entry_point k) (t_kstack k) (t_ustack k) (t_trap_frame k) n (t_pending k) (t_handlers k) (t_fds k) (t_cwd k) (t_in_kernel k).
Definition with_ustack (u : Page) (k : Task) : Task :=
  mkTask (t_context k) (t_is_user k) (t_parent k) (t_active k) (t_terminated k) (t_state k) (t_error_code k) (t_pid k) (t_time_slice k) (t_vmmap k) (t_entry_point k) (t_kstack k) u (t_trap_frame k) (t_name k) (t_pending k) (t_handlers k) (t_fds k) (t_cwd k) (t_in_kernel k).

(** [v2p] *)
Definition v2p (t va : Z) : KM Z := k ← on_sys (rd_task t); on_mem (get_physical_address (t_vmmap k) va).

(** A C string passed by the caller. *)
Definition user_string (fuel : nat) (a : Z) : KM (list Z) :=
  s ← on_mem get; lift (read_string (mem_reader (vm_mem s)) fuel a).

(** VFS code; a relative path starts at the working directory of the current task. *)
Definition on_vfs {A} (m : KM A) : KM A :=
  s ← get;
  k ← on_sys (rd_task (sy_current (kf_sys (v_fs s))));
  modify (set_v_cwd (t_cwd k));;
  m.

(** The number of references to a file: [held] by the code that runs, by the
    system-wide table and by the descriptors of the tasks. *)
Definition count_file (f : Z) (l : list Z) : Z := Z.of_nat (length (filter (fun x => x = f) l)).
Definition use_count (held f : Z) (s : VFS KernelFs) : Z :=
  held + count_file f (v_opened s) + map_fold (fun _ k n => count_file f (t_fds k) + n) 0 (sy_tasks (kf_sys (v_fs s))).

(** ** mmap *)

Definition mmap_attr (prot : Z) : Z :=
  let attr := USER_PAGE_R in
  let attr := if Z.land prot PROT_WRITE =? 0 then attr else Z.land attr (not64 PD_RDONLY) in
  if Z.land prot PROT_EXEC =? 0 then attr else Z.land attr (not64 PD_EL0_EXEC_NEVER).

(** [static_cast<size_t>(-1)] *)
Definition no_offset : Z := 2 ^ 64 - 1.

(** [VFS::the().read(file, page_frame_addr, PAGE_SIZE)] *)
Definition read_page (junk : list Z) (file frame : Z) : KM unit :=
  buf ← on_mem (get_bytes frame (Z.to_nat PAGE_SIZE));
  r ← read junk buf file PAGE_SIZE;
  on_mem (put_bytes frame (fst r)).

(** The zeroing of what lies behind the file's part of a segment: the flag
    [is_first_time_zeroing] after it. *)
Definition zero_bss (file frame zero_page_file_offset : Z) (first : bool) : KM bool :=
  if zero_page_file_offset =? no_offset then mret first
  else
    x ← rd_file file;
    if zero_page_file_offset <=? u64 (f_pos x + PAGE_SIZE) then
      (if first then
         on_mem (mem_set (u64 (frame + Z.land zero_page_file_offset PAGE_MASK)) 0
                   (u64 (PAGE_SIZE - Z.land zero_page_file_offset PAGE_MASK)))
       else on_mem (mem_set frame 0 PAGE_SIZE));;
      mret false
    else mret first.

(** [for (size_t i = 0; len; i++, len -= PAGE_SIZE)]; [n] is [len / PAGE_SIZE]. *)
Fixpoint mmap_pages (n : nat) (junk : list Z) (pgd attr : Z) (anonymous : bool) (file zero_page_file_offset v_addr i : Z) (first : bool) : KM unit :=
  match n with
  | O => mret tt
  | S n =>
      page_frame_addr ← on_mem (on_kernel (get_free_page true));
      on_mem (vm_map pgd (u64 (v_addr + i * PAGE_SIZE)) page_frame_addr attr);;
      on_mem (modify (fun s => set_vm_mem (zero_frame page_frame_addr (vm_mem s)) s));;
      (if anonymous then mret tt else read_page junk file page_frame_addr);;
      first ← zero_bss file page_frame_addr zero_page_file_offset first;
      mmap_pages n junk pgd attr anonymous file zero_page_file_offset v_addr (i + 1) first
  end.

(** [-1UL] *)
Definition ret_err : Z := 2 ^ 64 - 1.

Definition do_mmap (junk : list Z) (t addr len prot flags file file_offset zero_page_file_offset : Z) : KM Z :=
  guarded (
    let anonymous := negb (Z.land flags MAP_ANONYMOUS =? 0) in
    if negb anonymous && (file =? 0) then mret ret_err
    else if (Z.land flags MAP_FIXED =? 0) && negb (addr =? 0) && negb (is_aligned addr) then mret ret_err
    else
      k ← on_sys (rd_task t);
      let len := align_up len in
      let v_addr := if addr =? 0 then get_unmapped_area (t_vmmap k) len else align_down addr in
      old_file_pos ← (if anonymous then mret 0 else x ← rd_file file; wr_pos file (u64 file_offset);; mret (f_pos x));
      mmap_pages (Z.to_nat (len / PAGE_SIZE)) junk (t_vmmap k) (mmap_attr prot) anonymous file zero_page_file_offset v_addr 0 true;;
      (if anonymous then mret tt else wr_pos file old_file_pos);;
      mret v_addr).

Definition mmap (junk : list Z) (t addr len prot flags fd file_offset : Z) : KM Z :=
  file ← on_sys (get_file_by_fd t fd);
  do_mmap junk t addr len prot flags file file_offset no_offset.

Definition munmap (t addr len : Z) : KM Z := mret (-1).

(** ** The ELF loader *)

(** [PAGE_MASK] is converted to [uint64_t] for the [%]. *)
Definition segment_prot (seg : Segment) : Z :=
  Z.lor (Z.lor (if Z.land (seg_flags seg) SEG_R =? 0 then 0 else PROT_READ)
               (if Z.land (seg_flags seg) SEG_W =? 0 then 0 else PROT_WRITE))
        (if Z.land (seg_flags seg) SEG_X =? 0 then 0 else PROT_EXEC).
Definition map_elf_segment (junk : list Z) (t file : Z) (seg : Segment) : KM unit :=
  if negb (seg_type seg =? SEGMENT_LOAD) then mret tt
  else
    let v_addr := seg_virtual_address seg mod PAGE_MASK in
    let file_offset := seg_file_offset seg mod PAGE_MASK in
    let len := u64 (seg_file_offset seg mod PAGE_SIZE + seg_physical_size seg) in
    let all_bss := (seg_physical_size seg <? seg_virtual_size seg) && (seg_physical_size seg =? 0) in
    let flags := if all_bss then Z.lor MAP_PRIVATE MAP_ANONYMOUS else MAP_PRIVATE in
    let bss_file_offset :=
      if seg_physical_size seg <? seg_virtual_size seg
      then if seg_physical_size seg =? 0 then 0 else seg_physical_size seg
      else no_offset in
    _ ← do_mmap junk t (u64 (ELF_DEFAULT_BASE + v_addr)) len (segment_prot seg) flags file (s32 file_offset) bss_file_offset;
    mret tt.

Fixpoint map_segments (junk : list Z) (t file : Z) (segs : list Segment) : KM unit :=
  match segs with
  | [] => mret tt
  | seg :: segs =>
      (if negb (seg_type seg =? SEGMENT_LOAD) then mret tt else map_elf_segment junk t file seg);;
      map_segments junk t file segs
  end.
Definition load_elf_binary (junk : list Z) (t file : Z) (elf : ELF) : KM bool :=
  valid ← lift (elf_is_valid elf);
  if negb valid then mret false else map_segments junk t file (elf_segments elf);; mret true.

(** ** Arguments *)

(** [for (const char *s = argv[0]; s; s = argv[++argc])] *)
Fixpoint probe_argc (fuel : nat) (mem : Z -> Z) (argv argc : Z) : outcome Z :=
  match fuel with
  | O => OutOfFuel
  | S fuel => if load64 mem (u64 (argv + 8 * argc)) =? 0 then Ret argc else probe_argc fuel mem argv (argc + 1)
  end.

(** [strings[i] = v2p(argv[i])] for [n] indices from [i] on. *)
Fixpoint read_arguments (n fuel : nat) (t argv i : Z) : KM (list (list Z)) :=
  match n with
  | O => mret []
  | S n =>
      s ← on_mem get;
      p ← v2p t (load64 (vm_mem s) (u64 (argv + 8 * i)));
      str ← user_string fuel p;
      rest ← read_arguments n fuel t argv (i + 1);
      mret (str :: rest)
  end.

(** The strings, last one first: the stack pointer and their addresses. *)
Fixpoint push_strings (strings : list (list Z)) (user_sp : Z) (addrs : list Z) : M VM (Z * list Z) :=
  match strings with
  | [] => mret (user_sp, addrs)
  | s :: strings =>
      len ← lift (round_up_to_multiple_of_n (Z.of_nat (length s) + 1) 16);
      let user_sp := u64 (user_sp - len) in
      put_bytes user_sp (s ++ [0]);;
      push_strings strings user_sp (user_sp :: addrs)
  end.

(** The user's address of a byte of the stack page. *)
Definition stack_va (a : Z) : Z := USER_STACK_PAGE + Z.land a 0xfff.

(** [copied_argv[i] = ...] *)
Fixpoint write_pointers (addrs : list Z) (p : Z) : M VM unit :=
  match addrs with
  | [] => mret tt
  | a :: addrs => put_bytes p (le_bytes 8 (stack_va a));; write_pointers addrs (p + 8)
  end.

Definition push_argv (strings : list (list Z)) (user_sp : Z) : M VM (Z * Z) :=
  let argc := Z.of_nat (length strings) in
  r ← push_strings (rev strings) user_sp [];
  len ← lift (round_up_to_multiple_of_n (8 * (argc + 2)) 16);
  let user_sp := u64 (fst r - len) in
  write_pointers (snd r) user_sp;;
  put_bytes (user_sp + 8 * argc) (le_bytes 8 0);;
  mret (user_sp, stack_va user_sp).

(** From the label [out] on. *)
Definition push_argc (argc user_sp copied_argv_ptr : Z) : M VM Z :=
  let user_sp := u64 (user_sp - 8) in
  put_bytes user_sp (le_bytes 8 copied_argv_ptr);;
  let user_sp := u64 (user_sp - 8) in
  put_bytes user_sp (le_bytes 4 argc);;
  if negb (Z.land user_sp 0xf =? 0) then panic else mret user_sp.

Definition copy_arguments_to_user_stack (fuel : nat) (t argv : Z) : KM Z :=
  k ← on_sys (rd_task t);
  let user_sp := page_end (t_ustack k) in
  if argv =? 0 then on_mem (push_argc 0 user_sp 0)
  else
    s ← on_mem get;
    argc ← lift (probe_argc fuel (vm_mem s) argv 0);
    strings ← read_arguments (Z.to_nat argc) fuel t argv 0;
    on_mem (r ← push_argv strings user_sp; push_argc argc (fst r) (snd r)).

(** ** exec *)

(** The arguments of [switch_to_user_mode]. *)
Record Launch := mkLaunch { l_entry_point : Z; l_user_sp : Z; l_kernel_sp : Z; l_page_table : Z }.

Definition open_elf (file : Z) : KM ELF :=
  if file =? 0 then lift (new_elf None)
  else
    x ← rd_file file;
    content ← get_content (f_vnode x);
    _ ← vn_size (f_vnode x);
    lift (new_elf (Some content)).

(** What follows the checks. *)
Definition exec_image (fuel : nat) (junk : list Z) (t name argv file : Z) (elf : ELF) : KM Launch :=
  k ← on_sys (rd_task t);
  s ← on_mem get;
  nm ← lift (strncpy (Z.to_nat TASK_NAME_MAX_LEN) (fun _ => mem_reader (vm_mem s)) 0 name (TASK_NAME_MAX_LEN - 1) (t_name k));
  on_sys (wr_task t (with_name (snd nm)));;
  new_page ← on_mem (on_kernel (get_free_page true));
  user_sp ← copy_arguments_to_user_stack fuel t argv;
  let kernel_sp := u64 (KERNEL_VA_BASE + page_end (t_kstack k)) in
  let user_sp := u64 (USER_STACK_PAGE + offset_of (t_ustack k) user_sp) in
  on_sys (wr_task t (fun k => with_context (mkContext (c_regs (t_context k)) (c_lr (t_context k)) user_sp) (t_trap_frame k) k));;
  on_mem (vm_reset (t_vmmap k));;
  on_mem (vm_map (t_vmmap k) USER_STACK_PAGE (p_addr (t_ustack k)) USER_PAGE_RW);;
  on_sys (wr_task t (with_ustack (mkPage new_page USER_STACK_PAGE)));;
  entry_point ← lift (get_entry_point elf);
  _ ← load_elf_binary junk t file elf;
  s ← get;
  _ ← close (use_count 1 file s) file;
  mret (mkLaunch entry_point user_sp kernel_sp (t_vmmap k)).

(** [None] for the return of -1.  The lock is released on that path only. *)
Definition exec (fuel : nat) (junk : list Z) (t name argv : Z) : KM (option Launch) :=
  zoom cpu_of with_cpu lock;;
  path ← user_string fuel name;
  file ← on_vfs (open path 0);
  elf ← open_elf file;
  valid ← (if elf_exists elf then lift (elf_is_valid elf) else mret false);
  if negb valid then zoom cpu_of with_cpu unlock;; mret None
  else l ← exec_image fuel junk t name argv file elf; mret (Some l).

(** [start_init]: [path] and [argv] are kernel addresses of the string
    "/sbin/init" and of the array that holds it and [nullptr]. *)
Definition start_init (fuel : nat) (junk : list Z) (path argv : Z) : KM Launch :=
  s ← get;
  r ← exec fuel junk (sy_current (kf_sys (v_fs s))) path argv;
  match r with Some l => mret l | None => panic end.
