(* ===== verification/Syscall.v ===== *)
(** * kernel/Syscall.cc, kernel/Exception.cc: system calls and exceptions

    The handlers of the system call table over the whole kernel, the dispatch of
    a call, and the handlers of exceptions and timer interrupts.  A pointer a
    program passes is converted by the page table of its task and then used as a
    physical address.  A call that switches to another task ends there: what
    follows is done when the task runs again, and for [wait], whose loop does
    the switch, a turn of the loop is a function of its own.  An [int] result is
    the low half of the register; the other half is not defined by the code, and
    is not kept. *)

From Stdlib Require Import ZArith Lia.
From stdpp Require Import base gmap list numbers.
From S2P Require Import Prelude Math Mmu Mutex Buddy Slob Memory PageTable CString KString Deque Disk Elf ByteMem Cpio Console Vnode TmpFS Proc ProcFS Vfs Exec.

Open Scope Z_scope.

(** ** The caller *)

Definition current : KM Z := s ← get; mret (sy_current (kf_sys (v_fs s))).
Definition v2p_current (va : Z) : KM Z := t ← current; v2p t va.
(** A pathname passed by the program. *)
Definition user_path (fuel : nat) (va : Z) : KM (list Z) := a ← v2p_current va; user_string fuel a.

(** ** Files *)

(** The bytes a read may write: at least those of a directory entry. *)
Definition read_room (count : Z) : nat := Z.to_nat (Z.max count NAME_LEN).

Definition sys_read (junk : list Z) (fd buf count : Z) : KM Z :=
  buf ← v2p_current buf;
  mem ← on_mem (get_bytes buf (read_room count));
  if fd =? 0 then
    r ← on_uart (console_read mem count);
    on_mem (put_bytes buf (fst r));;
    mret (snd r)
  else
    t ← current;
    file ← on_sys (get_file_by_fd t fd);
    if file =? 0 then mret (-1)
    else
      r ← read junk mem file count;
      on_mem (put_bytes buf (fst r));;
      mret (snd r).

Definition sys_write (fd buf count : Z) : KM Z :=
  buf ← v2p_current buf;
  mem ← on_mem (get_bytes buf (Z.to_nat count));
  if (fd =? 1) || (fd =? 2) then on_uart (console_write (arr_get mem) count)
  else
    t ← current;
    file ← on_sys (get_file_by_fd t fd);
    if file =? 0 then mret (-1) else write file mem count.

Definition sys_open (fuel : nat) (pathname options : Z) : KM Z :=
  path ← user_path fuel pathname;
  file ← on_vfs (open path options);
  if file =? 0 then mret (-1)
  else t ← current; on_sys (allocate_fd_for_file t file).

(** The local [file] and the argument of [VFS::close] hold the file. *)
Definition sys_close (fd : Z) : KM Z :=
  t ← current;
  file ← on_sys (release_fd_and_get_file t fd);
  if file =? 0 then mret (-1)
  else s ← get; close (use_count 2 file s) file.

Definition sys_access (fuel : nat) (pathname options : Z) : KM Z := path ← user_path fuel pathname; on_vfs (access path options).

Definition sys_chdir (fuel : nat) (pathname : Z) : KM Z :=
  path ← user_path fuel pathname;
  r ← on_vfs (access path 0);
  if r =? -1 then mret (-1)
  else
    p ← on_vfs (resolve_path path);
    let vnode := fst (fst p) in
    mode ← vn_mode vnode;
    if negb (is_directory mode) then mret (-1)
    else t ← current; on_sys (wr_task t (with_cwd vnode));; mret 0.

Definition sys_mkdir (fuel : nat) (pathname : Z) : KM Z := path ← user_path fuel pathname; on_vfs (mkdir path).
Definition sys_rmdir (fuel : nat) (pathname : Z) : KM Z := path ← user_path fuel pathname; on_vfs (rmdir path).
Definition sys_unlink (fuel : nat) (pathname : Z) : KM Z := path ← user_path fuel pathname; on_vfs (unlink path).

Definition sys_mount (fuel : nat) (device_name mountpoint fs_name : Z) : KM Z :=
  d ← v2p_current device_name;
  m ← v2p_current mountpoint;
  f ← v2p_current fs_name;
  device ← user_string fuel d;
  mp ← user_string fuel m;
  fs ← user_string fuel f;
  on_vfs (mount device mp fs).
Definition sys_umount (fuel : nat) (mountpoint : Z) : KM Z := path ← user_path fuel mountpoint; on_vfs (umount path).
Definition sys_mknod (fuel : nat) (pathname mode dev : Z) : KM Z := path ← user_path fuel pathname; on_vfs (mknod path mode dev).
Definition sys_getcwd (buf : Z) : KM Z := mret (-1).

(** ** Memory *)

Definition sys_mmap (junk : list Z) (addr len prot flags fd file_offset : Z) : KM Z :=
  t ← current; mmap junk t addr len prot flags fd file_offset.
Definition sys_munmap (addr len : Z) : KM Z := t ← current; munmap t addr len.

(** ** Tasks *)

Definition sys_getpid : KM Z := t ← current; k ← on_sys (rd_task t); mret (t_pid k).
Definition sys_kill (pid signal : Z) : KM Z := t ← current; on_sys (kill t pid signal).
Definition sys_signal (sig handler : Z) : KM Z := t ← current; on_sys (signal t sig handler).
Definition sys_sigreturn : KM Z := mret (-1).
Definition sys_sched_yield : KM Z := on_sys schedule;; mret 0.

Definition sys_fork (rootfs : Z) (saved : Context) (out : Z) : KM Z := t ← current; on_sys (fork rootfs saved out t).

Definition sys_exec (fuel : nat) (junk : list Z) (name argv : Z) : KM (option Launch) :=
  name ← v2p_current name;
  argv ← v2p_current argv;
  t ← current;
  exec fuel junk t name argv.

(** [for (int i = 3; i < NR_TASK_FD_LIMITS; i++)] of [Task::exit]. *)
Fixpoint exit_close_fds (n : nat) (t i : Z) : KM unit :=
  match n with
  | O => mret tt
  | S n =>
      k ← on_sys (rd_task t);
      f ← deref (arr_get (t_fds k) i);
      (if negb (f =? 0) then sys_close i;; mret tt else mret tt);;
      exit_close_fds n t (i + 1)
  end.

(** Up to the switch to the next task; the lock is not released by the task. *)
Definition sys_exit (error_code : Z) : KM unit :=
  t ← current;
  k ← on_sys (rd_task t);
  if t_parent k =? 0 then panic
  else
    on_sys (wr_task t (fun k => with_run TERMINATED error_code (t_time_slice k) k));;
    zoom cpu_of with_cpu lock;;
    exit_close_fds 13 t 3;;
    on_sys (wr_task (t_parent k) (fun p => with_family (t_parent p) (remove_first t (t_active p)) (t_terminated p) p));;
    removed ← on_sys (remove_task t);
    on_sys (wr_task (t_parent k) (fun p => with_family (t_parent p) (t_active p) (t_terminated p ++ [removed]) p));;
    on_sys schedule.

(** [sys_wait] up to its loop: the physical address of the status and the
    result, if it is known. *)
Definition sys_wait_begin (wstatus : Z) : KM (Z * option Z) :=
  p ← v2p_current wstatus;
  t ← current;
  r ← on_sys (wait_begin t);
  mret (p, r).

(** A turn of the loop: [None] after a switch. *)
Definition sys_wait_poll (t wstatus : Z) : KM (option Z) :=
  k ← on_sys (rd_task t);
  match t_terminated k with
  | [] => on_sys schedule;; mret None
  | child :: rest =>
      c ← on_sys (rd_task child);
      (if wstatus =? 0 then mret tt else on_mem (put_bytes wstatus (le_bytes 4 (t_error_code c))));;
      on_sys (wr_task t (fun k => with_family (t_parent k) (t_active k) rest k));;
      on_sys (delete_task child);;
      zoom cpu_of with_cpu unlock;;
      mret (Some (t_pid c))
  end.

(** ** Dispatch *)

(** The calls in the order of the table. *)
Inductive Syscall :=
| SYS_READ | SYS_WRITE | SYS_OPEN | SYS_CLOSE | SYS_FORK | SYS_EXEC | SYS_EXIT | SYS_GETPID | SYS_WAIT | SYS_SCHED_YIELD | SYS_KILL | SYS_SIGNAL
| SYS_ACCESS | SYS_CHDIR | SYS_MKDIR | SYS_RMDIR | SYS_UNLINK | SYS_MOUNT | SYS_UMOUNT | SYS_MKNOD | SYS_GETCWD | SYS_MMAP | SYS_MUNMAP | SYS_SIGRETURN.
Definition syscall_table : list Syscall :=
  [SYS_READ; SYS_WRITE; SYS_OPEN; SYS_CLOSE; SYS_FORK; SYS_EXEC; SYS_EXIT; SYS_GETPID; SYS_WAIT; SYS_SCHED_YIELD; SYS_KILL; SYS_SIGNAL;
   SYS_ACCESS; SYS_CHDIR; SYS_MKDIR; SYS_RMDIR; SYS_UNLINK; SYS_MOUNT; SYS_UMOUNT; SYS_MKNOD; SYS_GETCWD; SYS_MMAP; SYS_MUNMAP; SYS_SIGRETURN].
Definition NR_syscall : Z := 24.
Definition is_syscall_id_valid (id : Z) : bool := id <? NR_syscall.

(** How a call ends: with a value, in the new program, or in another task: for
    good, in the loop of [wait] with the address of the status, or to return 0
    when the task runs again. *)
Inductive SysResult := Value (x : Z) | Launched (l : Launch) | Exited | Waiting (wstatus : Z) | Yielded.

Record Registers := mkRegisters { x0 : Z; x1 : Z; x2 : Z; x3 : Z; x4 : Z; x5 : Z; x8 : Z }.

Section dispatch.
(** The bound on strings, what the stack holds, the root directory a new task
    starts in, and what [save_context] stores for [fork]. *)
Context (fuel : nat) (junk : list Z) (rootfs : Z) (saved : Context) (out : Z).

Definition value (m : KM Z) : KM SysResult := x ← m; mret (Value x).

Definition call (c : Syscall) (r : Registers) : KM SysResult :=
  match c with
  | SYS_READ => value (sys_read junk (s32 (x0 r)) (x1 r) (x2 r))
  | SYS_WRITE => value (sys_write (s32 (x0 r)) (x1 r) (x2 r))
  | SYS_OPEN => value (sys_open fuel (x0 r) (s32 (x1 r)))
  | SYS_CLOSE => value (sys_close (s32 (x0 r)))
  | SYS_FORK => value (sys_fork rootfs saved out)
  | SYS_EXEC => l ← sys_exec fuel junk (x0 r) (x1 r); mret (match l with Some l => Launched l | None => Value (-1) end)
  | SYS_EXIT => sys_exit (s32 (x0 r));; mret Exited
  | SYS_GETPID => value sys_getpid
  | SYS_WAIT => w ← sys_wait_begin (x0 r); mret (match snd w with Some v => Value v | None => Waiting (fst w) end)
  | SYS_SCHED_YIELD => sys_sched_yield;; mret Yielded
  | SYS_KILL => value (sys_kill (u32 (x0 r)) (s32 (x1 r)))
  | SYS_SIGNAL => value (sys_signal (s32 (x0 r)) (x1 r))
  | SYS_ACCESS => value (sys_access fuel (x0 r) (s32 (x1 r)))
  | SYS_CHDIR => value (sys_chdir fuel (x0 r))
  | SYS_MKDIR => value (sys_mkdir fuel (x0 r))
  | SYS_RMDIR => value (sys_rmdir fuel (x0 r))
  | SYS_UNLINK => value (sys_unlink fuel (x0 r))
  | SYS_MOUNT => value (sys_mount fuel (x0 r) (x1 r) (x2 r))
  | SYS_UMOUNT => value (sys_umount fuel (x0 r))
  | SYS_MKNOD => value (sys_mknod fuel (x0 r) (u32 (x1 r)) (u32 (x2 r)))
  | SYS_GETCWD => value (sys_getcwd (x0 r))
  | SYS_MMAP => value (sys_mmap junk (x0 r) (x1 r) (s32 (x2 r)) (s32 (x3 r)) (s32 (x4 r)) (s32 (x5 r)))
  | SYS_MUNMAP => value (sys_munmap (x0 r) (x1 r))
  | SYS_SIGRETURN => value sys_sigreturn
  end.

Definition do_syscall (r : Registers) : KM SysResult :=
  if negb (is_syscall_id_valid (x8 r)) then mret (Value (-1))
  else c ← deref (arr_get syscall_table (x8 r)); call c r.
End dispatch.

(** ** Exceptions *)

(** The kernel with its timers and the register that holds the page table of
    the user's addresses. *)
Record Machine := mkMachine { m_kernel : VFS KernelFs; m_timers : Timers; m_ttbr0 : Z }.
Abbreviation MM := (M Machine).
Definition set_m_kernel (k : VFS KernelFs) (m : Machine) : Machine := mkMachine k (m_timers m) (m_ttbr0 m).
Definition set_m_timers (t : Timers) (m : Machine) : Machine := mkMachine (m_kernel m) t (m_ttbr0 m).
Definition on_machine {A} (m : KM A) : MM A := zoom m_kernel set_m_kernel m.
Definition switch_user_va_space (ttbr0_el1 : Z) : MM unit := modify (fun m => mkMachine (m_kernel m) (m_timers m) ttbr0_el1).

(** [Task::current()->get_ttbr0_el1()] *)
Definition current_ttbr0 : KM Z := t ← current; k ← on_sys (rd_task t); mret (t_vmmap k).

(** The fields of [Exception] that are decoded from ESR_EL1. *)
Definition exception_class (esr_el1 : Z) : Z := Z.shiftr esr_el1 26.
Definition exception_iss (esr_el1 : Z) : Z := Z.land esr_el1 0x1ffffff.

(** The registers of a trap frame in memory: [x0] to [x30] come first. *)
Definition trap_registers (mem : Z -> Z) (tf : Z) : Registers :=
  let x i := load64 mem (tf + 8 * i) in mkRegisters (x 0) (x 1) (x 2) (x 3) (x 4) (x 5) (x 8).

(** [int] results fill the low half of x0; [upper] is what the other half holds. *)
Definition returns_int (id : Z) : bool := negb ((id =? 10) || (id =? 21)).
Definition result_register (upper id x : Z) : Z := if returns_int id then u32 x + 2 ^ 32 * upper else u64 x.

Section traps.
Context (fuel : nat) (junk : list Z) (rootfs : Z) (saved : Context) (out upper : Z).

Definition set_trap_frame (tf : Z) : KM unit := t ← current; on_sys (wr_task t (fun k => with_context (t_context k) tf k)).

(** What follows a call that returned: [true] if the task goes on. *)
Definition leave_syscall (x0 : Z) : KM bool :=
  t ← current;
  k ← on_sys (rd_task t);
  on_mem (put_bytes (t_trap_frame k) (le_bytes 8 x0));;
  zoom cpu_of with_cpu (modify disable_irqs);;
  t ← current;
  exited ← on_sys (handle_pending_signals t);
  if (exited : bool) then mret false else on_sys maybe_schedule;; mret true.

Definition handle_syscall (trap_frame : Z) : MM SysResult :=
  switch_user_va_space 0;;
  on_machine (set_trap_frame trap_frame);;
  on_machine (zoom cpu_of with_cpu (modify enable_irqs));;
  s ← on_machine (on_mem get);
  let r := trap_registers (vm_mem s) trap_frame in
  res ← on_machine (do_syscall fuel junk rootfs saved out r);
  match res with
  | Value x =>
      goes_on ← on_machine (leave_syscall (result_register upper (x8 r) x));
      if (goes_on : bool) then
        t ← on_machine current;
        k ← on_machine (on_sys (rd_task t));
        (if t_is_user k then switch_user_va_space (t_vmmap k) else mret tt);;
        mret (Value x)
      else mret Exited
  | _ => mret res
  end.

Definition handle_page_fault (far_el1 : Z) : MM unit :=
  switch_user_va_space 0;;
  t ← on_machine current;
  k ← on_machine (on_sys (rd_task t));
  resolved ← on_machine (on_mem (resolve_page_fault (t_vmmap k) far_el1));
  (if (resolved : bool) then mret tt else on_machine (on_sys (kill t (t_pid k) SIGSEGV));; mret tt);;
  pgd ← on_machine current_ttbr0;
  switch_user_va_space pgd.

(** Every case of [unhandled_exception] panics. *)
Definition handle_exception (esr_el1 far_el1 trap_frame : Z) : MM (option SysResult) :=
  if (exception_class esr_el1 =? 21) && (exception_iss esr_el1 =? 0) then r ← handle_syscall trap_frame; mret (Some r)
  else if exception_class esr_el1 =? 36 then handle_page_fault far_el1;; mret None
  else panic.

(** [ret_addr] is ELR_EL1. *)
Definition handle_irq (ret_addr : Z) : MM unit :=
  switch_user_va_space 0;;
  m ← get;
  ts ← lift (tick (m_timers m));
  modify (set_m_timers ts);;
  on_machine (on_sys sched_tick);;
  on_machine (on_sys maybe_schedule);;
  t ← on_machine current;
  exited ← on_machine (on_sys (handle_pending_signals t));
  if (exited : bool) then mret tt
  else if ret_addr <? KERNEL_VA_BASE then pgd ← on_machine current_ttbr0; switch_user_va_space pgd
  else mret tt.
End traps.
