(* ===== verification/ExecSpec.v ===== *)
(** * Executing programs: theorems

    What a program finds on its stack, what a mapping of memory or of a file
    holds, and the segments of an executable. *)

From Stdlib Require Import ZArith Lia.
From stdpp Require Import base gmap list numbers.
From S2P Require Import Prelude Math Mmu Mutex Buddy BuddySpec Slob Memory MemorySpec PageTable PageTableSpec CString KString Disk Elf ByteMem Cpio Console Vnode TmpFS Proc ProcFS Vfs Exec.

Open Scope Z_scope.

(** ** The arguments on the stack *)

(** Memory has changed inside the range only. *)
Definition changed_in (lo hi : Z) (mem mem' : Z -> Z) : Prop :=
  (forall x, x + 8 <= lo \/ hi <= x -> mem' x = mem x) /\ (forall b, b < lo \/ hi <= b -> byte_at mem' b = byte_at mem b).

Lemma changed_refl lo hi mem : changed_in lo hi mem mem.
Proof. done. Qed.
Lemma changed_store lo hi a l mem : lo <= a -> a + Z.of_nat (length l) <= hi -> changed_in lo hi mem (store_bytes a l mem).
Proof.
  intros H1 H2. split; intros x Hx; [apply word_patch; lia|]. rewrite store_byte, decide_False by lia. done.
Qed.
Lemma changed_trans lo hi m1 m2 m3 : changed_in lo hi m1 m2 -> changed_in lo hi m2 m3 -> changed_in lo hi m1 m3.
Proof. intros [A1 B1] [A2 B2]. split; intros x Hx; [rewrite A2, A1 by done; done|rewrite B2, B1 by done; done]. Qed.
Lemma changed_weaken lo hi lo' hi' m1 m2 : lo' <= lo -> hi <= hi' -> changed_in lo hi m1 m2 -> changed_in lo' hi' m1 m2.
Proof. intros H1 H2 [A B]. split; intros x Hx; [apply A|apply B]; lia. Qed.
Lemma changed_holds lo hi m1 m2 a l : changed_in lo hi m1 m2 -> a + Z.of_nat (length l) <= lo \/ hi <= a -> mem_holds m1 a l -> mem_holds m2 a l.
Proof. intros [_ B] Hd. apply mem_holds_ext. intros b Hb. apply B. lia. Qed.
#[export] Hint Resolve changed_refl : valkyrie.

(** The bytes of a string on the stack, with its terminator and padding. *)
Definition arg_room (str : list Z) : Z := (Z.of_nat (length str) + 16) / 16 * 16.
Fixpoint args_room (strs : list (list Z)) : Z := match strs with [] => 0 | s :: strs => arg_room s + args_room strs end.

Lemma arg_room_bound str : Z.of_nat (length str) + 1 <= arg_room str /\ arg_room str mod 16 = 0.
Proof.
  unfold arg_room. pose proof (Z.div_mod (Z.of_nat (length str) + 16) 16). pose proof (Z.mod_pos_bound (Z.of_nat (length str) + 16) 16).
  split; [lia|]. apply Z.mod_mul. lia.
Qed.
Lemma args_room_nonneg strs : 0 <= args_room strs /\ args_room strs mod 16 = 0.
Proof.
  induction strs as [|s strs [IH1 IH2]]; cbn [args_room]; [done|]. destruct (arg_room_bound s) as [H1 H2].
  split; [lia|]. rewrite Zplus_mod, H2, IH2. done.
Qed.
Lemma args_room_app l l' : args_room (l ++ l') = args_room l + args_room l'.
Proof. induction l as [|s l IH]; cbn [args_room app]; [lia|]. rewrite IH. lia. Qed.
Lemma args_room_rev l : args_room (rev l) = args_room l.
Proof. induction l as [|s l IH]; cbn [rev]; [done|]. rewrite args_room_app, IH. cbn [args_room]. lia. Qed.

Lemma arg_room_run str : Z.of_nat (length str) < 2 ^ 63 -> round_up_to_multiple_of_n (Z.of_nat (length str) + 1) 16 = Ret (arg_room str).
Proof. intros H. rewrite round_up_multiple_closed by lia. unfold arg_room. do 3 f_equal. lia. Qed.

Lemma write_bytes_run a l s lo hi : lo <= a -> a + Z.of_nat (length l) <= hi -> 0 <= lo -> a < hi -> hi <= KERNEL_VA_BASE -> is_bytes l ->
  exists s', put_bytes a l s = Ret (tt, s') /\ vm_kernel s' = vm_kernel s /\ changed_in lo hi (vm_mem s) (vm_mem s') /\ mem_holds (vm_mem s') a l.
Proof.
  intros H1 H2 H3 H4 H5 Hl. eexists. split; [apply put_bytes_run; lia|]. split_and!; [done|by apply changed_store|by apply store_holds].
Qed.

(** Strings from [sp] down: [a] is where each one is. *)
Definition placed (mem : Z -> Z) (lo hi : Z) (a : Z) (str : list Z) : Prop :=
  lo <= a /\ a + Z.of_nat (length str) + 1 <= hi /\ mem_holds mem a (str ++ [0]).

Lemma placed_changed lo hi lo' hi' m1 m2 a str : changed_in lo' hi' m1 m2 -> hi <= lo' \/ hi' <= lo -> placed m1 lo hi a str -> placed m2 lo hi a str.
Proof.
  intros Hc Hd (H1 & H2 & H3). split_and!; [done|done|]. eapply changed_holds; [exact Hc| |done]. rewrite length_app. simpl. lia.
Qed.
Lemma placed_weaken lo hi lo' hi' m a str : lo' <= lo -> hi <= hi' -> placed m lo hi a str -> placed m lo' hi' a str.
Proof. intros H1 H2 (P1 & P2 & P3). split_and!; [lia|lia|done]. Qed.

Lemma push_strings_run strs sp addrs s :
  Forall is_bytes strs -> 0 <= sp - args_room strs -> sp <= 2 ^ 48 ->
  exists s' new, push_strings strs sp addrs s = Ret ((sp - args_room strs, new ++ addrs), s') /\ vm_kernel s' = vm_kernel s /\
    Forall2 (placed (vm_mem s') (sp - args_room strs) sp) new (rev strs) /\ changed_in (sp - args_room strs) sp (vm_mem s) (vm_mem s').
Proof.
  revert sp addrs s. induction strs as [|str strs IH]; intros sp addrs s Hb Hlo Hhi; cbn [push_strings args_room].
  - exists s, []. rewrite Z.sub_0_r. split_and!; [done|done|constructor|apply changed_refl].
  - apply list.Forall_cons in Hb as [Hb Hbs]. cbn [args_room] in Hlo. destruct (arg_room_bound str) as [Hr _]. destruct (args_room_nonneg strs) as [Hrs _].
    rewrite arg_room_run by lia. msimpl. rewrite u64_id by lia.
    destruct (write_bytes_run (sp - arg_room str) (str ++ [0]) s (sp - arg_room str) sp) as (s1 & Hw & Hk & Hc & Hh);
      [lia|rewrite length_app; simpl; lia|lia|lia|unfold KERNEL_VA_BASE; lia|apply Forall_app; split; [done|by apply list.Forall_singleton]|].
    mrun Hw. destruct (IH (sp - arg_room str) (sp - arg_room str :: addrs) s1 Hbs) as (s2 & new & Hrun & Hk2 & Hp & Hc2); [lia|lia|].
    exists s2, (new ++ [sp - arg_room str]).
    replace (sp - (arg_room str + args_room strs)) with (sp - arg_room str - args_room strs) by lia. rewrite Hrun, <- app_assoc.
    split_and!; [done|congruence| |].
    + cbn [rev]. apply Forall2_app.
      * eapply list.Forall2_impl; [exact Hp|]. intros a x Ha. apply (placed_weaken (sp - arg_room str - args_room strs) (sp - arg_room str)); [lia|lia|exact Ha].
      * constructor; [|constructor]. apply (placed_weaken (sp - arg_room str) sp); [lia|lia|].
        eapply placed_changed; [exact Hc2|lia|]. split_and!; [lia|lia|done].
    + eapply changed_trans; (eapply changed_weaken; [| |done]); lia.
Qed.

Lemma write_pointers_run addrs p s : 0 <= p -> p + 8 * Z.of_nat (length addrs) <= KERNEL_VA_BASE ->
  exists s', write_pointers addrs p s = Ret (tt, s') /\ vm_kernel s' = vm_kernel s /\
    changed_in p (p + 8 * Z.of_nat (length addrs)) (vm_mem s) (vm_mem s') /\
    forall i a, addrs !! i = Some a -> mem_holds (vm_mem s') (p + 8 * Z.of_nat i) (le_bytes 8 (stack_va a)).
Proof.
  revert p s. induction addrs as [|a addrs IH]; intros p s Hp Hhi; cbn [write_pointers length].
  - exists s. split_and!; [done|done|apply changed_refl|done].
  - cbn [length] in Hhi. destruct (write_bytes_run p (le_bytes 8 (stack_va a)) s p (p + 8)) as (s1 & Hw & Hk & Hc & Hh);
      [lia|rewrite length_le_bytes; lia|lia|lia|lia|apply is_bytes_le|].
    mrun Hw. destruct (IH (p + 8) s1) as (s2 & Hrun & Hk2 & Hc2 & Hh2); [lia|lia|]. exists s2. split_and!; [done|congruence| |].
    + eapply changed_trans; (eapply changed_weaken; [| |done]); lia.
    + intros [|i] x Hi; cbn [lookup] in Hi.
      * injection Hi as <-. rewrite Z.mul_0_r, Z.add_0_r. eapply changed_holds; [exact Hc2|rewrite length_le_bytes; lia|done].
      * replace (p + 8 * Z.of_nat (S i)) with (p + 8 + 8 * Z.of_nat i) by lia. by apply Hh2.
Qed.

(** ** The memory of the whole kernel *)

Definition mem_of (s : VFS KernelFs) : VM := sy_vm (sys_view s).
Definition set_mem (v : VM) (s : VFS KernelFs) : VFS KernelFs :=
  set_v_cpu (k_cpu (vm_kernel v))
    (set_v_fs (set_kf_sys (with_cpu (cpu_of (kf_sys (v_fs s))) (set_sy_vm v (kf_sys (v_fs s)))) (v_fs s)) s).
Definition task_of (s : VFS KernelFs) (t : Z) : option Task := sy_tasks (kf_sys (v_fs s)) !! t.

Lemma on_mem_run {A} (m : M VM A) s a v : m (mem_of s) = Ret (a, v) -> on_mem m s = Ret (a, set_mem v s).
Proof.
  intros H. unfold on_mem, on_sys, on_vm, zoom. fold (mem_of s). rewrite H. do 2 f_equal. unfold sys_back. cbn [sy_next_file set_sy_vm sys_view with_cpu sys_has_cpu set_sy_file].
  rewrite Z.sub_diag. change (seqZ (v_next_file s) 0) with (@nil Z). cbn [foldr]. destruct s as [? [? ? ? []] ? ? ? ? ? ? ? ? ? ?]. done.
Qed.
Lemma mem_of_set v s : mem_of (set_mem v s) = v.
Proof. destruct v as [[]]. done. Qed.
Lemma set_mem_set v w s : set_mem v (set_mem w s) = set_mem v s.
Proof. destruct v as [[]]. done. Qed.
Lemma set_mem_id s : set_mem (mem_of s) s = s.
Proof. destruct s as [? [? ? ? [[[]]]]]. done. Qed.
Lemma task_of_set v s t : task_of (set_mem v s) t = task_of s t.
Proof. done. Qed.
Lemma on_mem_get s : on_mem get s = Ret (mem_of s, s).
Proof. rewrite (on_mem_run get s (mem_of s) (mem_of s)) by done. by rewrite set_mem_id. Qed.
Lemma on_mem_same {A} (m : M VM A) s a : m (mem_of s) = Ret (a, mem_of s) -> on_mem m s = Ret (a, s).
Proof. intros H. rewrite (on_mem_run m s a _ H). by rewrite set_mem_id. Qed.
Lemma kf_rd_task s t k : task_of s t = Some k -> on_sys (rd_task t) s = Ret (k, s).
Proof.
  intros H. unfold on_sys, zoom, rd_task. msimpl. change (sy_tasks (sys_view s)) with (sy_tasks (kf_sys (v_fs s))). unfold task_of in H. rewrite H. msimpl.
  do 2 f_equal. unfold sys_back, sys_view. cbn [sy_next_file with_cpu sys_has_cpu set_sy_file set_sy_vm].
  rewrite Z.sub_diag. change (seqZ (v_next_file s) 0) with (@nil Z). cbn [foldr]. by destruct s as [? [? ? ? [[[]]]]].
Qed.

(** ** What the program is started with *)

(** Bytes at an address of the user's stack page, whose frame is [f]. *)
Definition user_holds (mem : Z -> Z) (f u : Z) (l : list Z) : Prop :=
  USER_STACK_PAGE <= u /\ u + Z.of_nat (length l) <= USER_STACK_PAGE + PAGE_SIZE /\ mem_holds mem (f + (u - USER_STACK_PAGE)) l.

(** The stack at the entry of a program with these arguments. *)
Definition started_with (mem : Z -> Z) (f usp : Z) (strs : list (list Z)) : Prop :=
  usp mod 16 = 0 /\ user_holds mem f usp (le_bytes 4 (Z.of_nat (length strs))) /\
  exists argv ptrs, user_holds mem f (usp + 8) (le_bytes 8 argv) /\
    Forall2 (fun p str => user_holds mem f p (str ++ [0])) ptrs strs /\
    (forall i p, ptrs !! i = Some p -> user_holds mem f (argv + 8 * Z.of_nat i) (le_bytes 8 p)) /\
    user_holds mem f (argv + 8 * Z.of_nat (length strs)) (le_bytes 8 0).

Definition pointers_room (n : nat) : Z := (8 * (Z.of_nat n + 2) + 15) / 16 * 16.
Definition fits_stack (strs : list (list Z)) : Prop := args_room strs + pointers_room (length strs) + 16 <= PAGE_SIZE.

Lemma pointers_room_bound n : 8 * (Z.of_nat n + 2) <= pointers_room n /\ pointers_room n mod 16 = 0.
Proof.
  unfold pointers_room. pose proof (Z.div_mod (8 * (Z.of_nat n + 2) + 15) 16). pose proof (Z.mod_pos_bound (8 * (Z.of_nat n + 2) + 15) 16).
  split; [lia|]. apply Z.mod_mul. lia.
Qed.

Lemma stack_va_frame f a : f mod 4096 = 0 -> f <= a < f + 4096 -> stack_va a = USER_STACK_PAGE + (a - f).
Proof.
  intros Hf Ha. unfold stack_va. f_equal. change 0xfff with (Z.ones 12). rewrite Z.land_ones by lia. change (2 ^ 12) with 4096.
  pose proof (Z.div_mod f 4096). replace a with (a - f + f / 4096 * 4096) by lia. rewrite Z.mod_add, Z.mod_small by lia. lia.
Qed.

Lemma user_holds_at mem f a l : f <= a -> a + Z.of_nat (length l) <= f + 4096 -> mem_holds mem a l -> user_holds mem f (USER_STACK_PAGE + (a - f)) l.
Proof.
  intros H1 H2 H. split_and!; [lia|change PAGE_SIZE with 4096; lia|].
  by replace (f + (USER_STACK_PAGE + (a - f) - USER_STACK_PAGE)) with a by lia.
Qed.

Lemma aligned_16 x : x mod 16 = 0 -> Z.land x 15 = 0.
Proof. intros H. change 15 with (Z.ones 4). by rewrite Z.land_ones by lia. Qed.

Section argv.
Context (f : Z) (Hf : f mod 4096 = 0) (Hf0 : 0 <= f) (Hf1 : f + 4096 <= 2 ^ 48).

Lemma push_argv_run strs s : Forall is_bytes strs -> fits_stack strs ->
  exists s' sp ptrs, push_argv strs (f + 4096) s = Ret ((sp, USER_STACK_PAGE + (sp - f)), s') /\ vm_kernel s' = vm_kernel s /\
    sp mod 16 = 0 /\ f + 16 <= sp <= f + 4096 /\ sp = f + 4096 - args_room strs - pointers_room (length strs) /\
    Forall2 (fun p str => exists a, p = stack_va a /\ placed (vm_mem s') (f + 4096 - args_room strs) (f + 4096) a str) ptrs strs /\
    (forall i p, ptrs !! i = Some p -> mem_holds (vm_mem s') (sp + 8 * Z.of_nat i) (le_bytes 8 p)) /\
    mem_holds (vm_mem s') (sp + 8 * Z.of_nat (length strs)) (le_bytes 8 0) /\ changed_in f (f + 4096) (vm_mem s) (vm_mem s').
Proof.
  intros Hb Hfit. unfold fits_stack in Hfit. change PAGE_SIZE with 4096 in Hfit. destruct (args_room_nonneg strs) as [Ha0 Ha16]. destruct (pointers_room_bound (length strs)) as [Hp0 Hp16].
  destruct (push_strings_run (rev strs) (f + 4096) [] s) as (s1 & new & Hrun & Hk1 & Hpl & Hc1);
    [by apply Forall_rev|rewrite args_room_rev; lia|lia|]. rewrite args_room_rev, rev_involutive in *.
  pose proof (list.Forall2_length _ _ _ Hpl) as Hlen. set (sp := f + 4096 - args_room strs - pointers_room (length strs)).
  destruct (write_pointers_run new sp s1) as (s2 & Hwp & Hk2 & Hc2 & Hh2); [lia|unfold KERNEL_VA_BASE; lia|]. rewrite Hlen in Hc2.
  destruct (write_bytes_run (sp + 8 * Z.of_nat (length strs)) (le_bytes 8 0) s2 (sp + 8 * Z.of_nat (length strs)) (sp + 8 * Z.of_nat (length strs) + 8))
    as (s3 & Hwn & Hk3 & Hc3 & Hh3); [lia|rewrite length_le_bytes; lia|lia|lia|unfold KERNEL_VA_BASE; lia|apply is_bytes_le|].
  exists s3, sp, (stack_va <$> new). split_and!.
  - unfold push_argv. rewrite app_nil_r in Hrun. mrun Hrun. cbn [fst snd]. rewrite round_up_multiple_closed by lia.
    replace (8 * (Z.of_nat (length strs) + 2) + 16 - 1) with (8 * (Z.of_nat (length strs) + 2) + 15) by lia. fold (pointers_room (length strs)). msimpl.
    fold sp. rewrite u64_id by lia. mrun Hwp. mrun Hwn. by rewrite (stack_va_frame f) by lia.
  - congruence.
  - unfold sp. rewrite <- (Z.mod_mul (f / 4096 * 256 + 256) 16), <- Z.sub_add_distr by lia. pose proof (Z.div_mod f 4096).
    rewrite Zminus_mod, (Zplus_mod (args_room strs)), Ha16, Hp16. replace (f + 4096) with ((f / 4096 * 256 + 256) * 16) by lia. by rewrite Z.mod_mul.
  - lia.
  - lia.
  - done.
  - apply Forall2_fmap_l. eapply list.Forall2_impl; [exact Hpl|]. intros a str Hp. exists a. split; [done|].
    apply (placed_changed _ _ _ _ _ _ _ _ Hc3); [lia|]. by apply (placed_changed _ _ _ _ _ _ _ _ Hc2); [lia|].
  - intros i p Hi. apply list_lookup_fmap_Some in Hi as (a & -> & Hi). pose proof (lookup_lt_Some _ _ _ Hi).
    apply (changed_holds _ _ _ _ _ _ Hc3); [rewrite length_le_bytes; lia|]. by apply Hh2.
  - done.
  - eapply changed_trans; [eapply changed_trans|]; (eapply changed_weaken; [| |done]); lia.
Qed.

Lemma push_argc_run argc sp ptr s : sp mod 16 = 0 -> f + 16 <= sp <= f + 4096 ->
  exists s', push_argc argc sp ptr s = Ret (sp - 16, s') /\ vm_kernel s' = vm_kernel s /\ changed_in (sp - 16) sp (vm_mem s) (vm_mem s') /\
    mem_holds (vm_mem s') (sp - 16) (le_bytes 4 argc) /\ mem_holds (vm_mem s') (sp - 8) (le_bytes 8 ptr).
Proof.
  intros Hsp Hr. unfold push_argc. rewrite (u64_id (sp - 8)) by lia. replace (sp - 8 - 8) with (sp - 16) by lia. rewrite (u64_id (sp - 16)) by lia.
  destruct (write_bytes_run (sp - 8) (le_bytes 8 ptr) s (sp - 8) sp) as (s1 & Hw1 & Hk1 & Hc1 & Hh1);
    [lia|rewrite length_le_bytes; lia|lia|lia|unfold KERNEL_VA_BASE; lia|apply is_bytes_le|].
  destruct (write_bytes_run (sp - 16) (le_bytes 4 argc) s1 (sp - 16) (sp - 8)) as (s2 & Hw2 & Hk2 & Hc2 & Hh2);
    [lia|rewrite length_le_bytes; lia|lia|lia|unfold KERNEL_VA_BASE; lia|apply is_bytes_le|].
  exists s2. mrun Hw1. mrun Hw2. change 0xf with 15.
  assert ((sp - 16) mod 16 = 0) by (rewrite Zminus_mod, Hsp; done). rewrite aligned_16 by done. split_and!; [done|congruence| |done|].
  - eapply changed_trans; (eapply changed_weaken; [| |done]); lia.
  - apply (changed_holds _ _ _ _ _ _ Hc2); [rewrite length_le_bytes; lia|done].
Qed.

(** The whole block of arguments, in the program's own addresses. *)
Lemma stack_block_run strs s : Forall is_bytes strs -> fits_stack strs ->
  exists s' sp, (r ← push_argv strs (f + 4096); push_argc (Z.of_nat (length strs)) (fst r) (snd r)) s = Ret (sp, s') /\
    vm_kernel s' = vm_kernel s /\ f <= sp < f + 4096 /\ changed_in f (f + 4096) (vm_mem s) (vm_mem s') /\
    started_with (vm_mem s') f (USER_STACK_PAGE + (sp - f)) strs.
Proof.
  intros Hb Hfit. destruct (push_argv_run strs s Hb Hfit) as (s1 & sp & ptrs & H1 & Hk1 & Hal & Hr & Hsp & Hpl & Hpt & Hnull & Hc1).
  destruct (push_argc_run (Z.of_nat (length strs)) sp (USER_STACK_PAGE + (sp - f)) s1 Hal Hr) as (s2 & H2 & Hk2 & Hc2 & Hn & Hav).
  destruct (args_room_nonneg strs) as [Ha0 _]. destruct (pointers_room_bound (length strs)) as [Hp0 _].
  pose proof (list.Forall2_length _ _ _ Hpl) as Hlen. exists s2, (sp - 16). mrun H1. cbn [fst snd]. rewrite H2. split_and!; [done|congruence|lia|lia| |].
  { eapply changed_trans; [done|]. eapply changed_weaken; [| |done]; lia. }
  split_and!.
  - pose proof (Z.div_mod f 4096). replace (USER_STACK_PAGE + (sp - 16 - f)) with (sp + (0x7ffffffff00 - 1 - f / 4096 * 256) * 16) by (unfold USER_STACK_PAGE; lia).
    by rewrite Z.mod_add.
  - apply user_holds_at; [lia|rewrite length_le_bytes; lia|done].
  - exists (USER_STACK_PAGE + (sp - f)), ptrs. split_and!.
    + replace (USER_STACK_PAGE + (sp - 16 - f) + 8) with (USER_STACK_PAGE + (sp - 8 - f)) by lia.
      apply user_holds_at; [lia|rewrite length_le_bytes; lia|done].
    + eapply list.Forall2_impl; [exact Hpl|]. intros p str (a & -> & Hpa). 
      assert (placed (vm_mem s2) (f + 4096 - args_room strs) (f + 4096) a str) as (P1 & P2 & P3) by (eapply placed_changed; [exact Hc2|lia|exact Hpa]).
      rewrite (stack_va_frame f) by lia. apply user_holds_at; [lia|rewrite length_app; simpl; lia|done].
    + intros i p Hi. pose proof (lookup_lt_Some _ _ _ Hi). replace (USER_STACK_PAGE + (sp - f) + 8 * Z.of_nat i) with (USER_STACK_PAGE + (sp + 8 * Z.of_nat i - f)) by lia.
      apply user_holds_at; [lia|rewrite length_le_bytes; lia|]. apply (changed_holds _ _ _ _ _ _ Hc2); [rewrite length_le_bytes; lia|]. by apply Hpt.
    + replace (USER_STACK_PAGE + (sp - f) + 8 * Z.of_nat (length strs)) with (USER_STACK_PAGE + (sp + 8 * Z.of_nat (length strs) - f)) by lia.
      apply user_holds_at; [lia|rewrite length_le_bytes; lia|]. apply (changed_holds _ _ _ _ _ _ Hc2); [rewrite length_le_bytes; lia|done].
Qed.
End argv.

(** ** Reading the caller's arguments *)

Definition c_string (str : list Z) : Prop := Forall (fun c => 0 < c < 256) str.
Lemma c_string_bytes str : c_string str -> is_bytes str.
Proof. intros H. eapply list.Forall_impl; [exact H|]. simpl. lia. Qed.

Lemma read_c_string mem fuel a str : c_string str -> mem_holds mem a (str ++ [0]) -> a + Z.of_nat (length str) < KERNEL_VA_BASE ->
  (length str < fuel)%nat -> read_string (mem_reader mem) fuel a = Ret str.
Proof.
  revert fuel a. induction str as [|c str IH]; intros fuel a Hs Hh Ha Hf; (destruct fuel as [|fuel]; [simpl in Hf; lia|]); cbn [app length] in *;
    apply mem_holds_cons in Hh as [Hc Hh]; cbn [read_string]; unfold rd, mem_reader; rewrite kaddr_low by lia; rewrite Hc; cbn [mbind outcome_bind].
  - done.
  - apply list.Forall_cons in Hs as [Hc0 Hs]. rewrite (proj2 (Z.eqb_neq c 0)) by lia. rewrite IH; [done|done|done|lia|lia].
Qed.

(** [argv] points to pointers to these strings, in the address space of [pgd]. *)
Record passes (fuel : nat) (mem : Z -> Z) (pgd argv : Z) (strs : list (list Z)) : Prop := {
  ps_range : 0 < argv /\ argv + 8 * (Z.of_nat (length strs) + 1) <= 2 ^ 48;
  ps_fuel : (length strs < fuel)%nat;
  ps_end : mem_holds mem (argv + 8 * Z.of_nat (length strs)) (le_bytes 8 0);
  ps_strings i str : strs !! i = Some str -> exists p d, 0 < p < 2 ^ 64 /\ mem_holds mem (argv + 8 * Z.of_nat i) (le_bytes 8 p) /\
    trans mem pgd p = Some d /\ Z.land d PD_PAGE_MASK + PAGE_OFFSET p + Z.of_nat (length str) < 2 ^ 48 /\
    c_string str /\ (length str < fuel)%nat /\ mem_holds mem (Z.land d PD_PAGE_MASK + PAGE_OFFSET p) (str ++ [0])
}.

Lemma argv_slot mem argv i x n : 0 < argv -> argv + 8 * (n + 1) <= 2 ^ 48 -> 0 <= i <= n -> in_u64 x ->
  mem_holds mem (argv + 8 * i) (le_bytes 8 x) -> load64 mem (u64 (argv + 8 * i)) = x.
Proof. intros H0 H1 Hi Hx Hh. rewrite u64_id by lia. apply load64_holds; [unfold KERNEL_VA_BASE; lia|done|done]. Qed.

Lemma probe_run fuel mem pgd argv strs : passes fuel mem pgd argv strs -> probe_argc fuel mem argv 0 = Ret (Z.of_nat (length strs)).
Proof.
  intros [[H0 H1] Hf He Hs].
  assert (H : forall n i, Z.of_nat i + Z.of_nat n = Z.of_nat (length strs) -> forall fu, (n < fu)%nat ->
    probe_argc fu mem argv (Z.of_nat i) = Ret (Z.of_nat (length strs))).
  { induction n as [|n IH]; intros i Hi [|fu] Hfu; [lia| |lia|]; cbn [probe_argc].
    - replace i with (length strs) by lia. by rewrite (argv_slot _ _ _ 0 (Z.of_nat (length strs))) by (try done; lia).
    - destruct (lookup_lt_is_Some_2 strs i) as [str Hstr]; [lia|]. destruct (Hs i str Hstr) as (p & a & Hp & Hh & _).
      rewrite (argv_slot _ _ _ p (Z.of_nat (length strs))) by (try done; unfold in_u64; lia). rewrite (proj2 (Z.eqb_neq p 0)) by lia.
      replace (Z.of_nat i + 1) with (Z.of_nat (S i)) by lia. apply IH; lia. }
  by apply (H (length strs) 0%nat).
Qed.

Lemma read_arguments_run fuel s t k argv strs i : passes fuel (vm_mem (mem_of s)) (t_vmmap k) argv strs -> task_of s t = Some k -> (i <= length strs)%nat ->
  read_arguments (length strs - i) fuel t argv (Z.of_nat i) s = Ret (drop i strs, s).
Proof.
  intros [[H0 H1] Hf He Hs] Ht. remember (length strs - i)%nat as n eqn:Hn. revert i Hn. induction n as [|n IH]; intros i Hn Hi; cbn [read_arguments].
  - by rewrite drop_ge by lia.
  - destruct (lookup_lt_is_Some_2 strs i) as [str Hstr]; [lia|]. destruct (Hs i str Hstr) as (p & d & Hp & Hh & Htr & Ha & Hc & Hfl & Hm). set (a := Z.land d PD_PAGE_MASK + PAGE_OFFSET p) in *.
    mrun (on_mem_get s). rewrite (argv_slot _ _ _ p (Z.of_nat (length strs))) by (try done; unfold in_u64; lia).
    assert (Hv : v2p t p s = Ret (a, s)) by (unfold v2p; mrun (kf_rd_task s t k Ht); apply on_mem_same; by apply gpa_run). mrun Hv.
    assert (Hu : user_string fuel a s = Ret (str, s)).
    { unfold user_string. mrun (on_mem_get s). rewrite (read_c_string _ fuel a str) by (try done; unfold KERNEL_VA_BASE; lia). done. }
    mrun Hu. replace (Z.of_nat i + 1) with (Z.of_nat (S i)) by lia. mrun (IH (S i) ltac:(lia) ltac:(lia)).
    by rewrite (drop_S strs str i Hstr).
Qed.

(** A frame of physical memory. *)
Definition is_frame (f : Z) : Prop := f mod 4096 = 0 /\ 0 <= f /\ f + 4096 <= 2 ^ 48.

Lemma copy_arguments_run fuel s t k argv strs : task_of s t = Some k -> is_frame (p_addr (t_ustack k)) -> fits_stack strs ->
  passes fuel (vm_mem (mem_of s)) (t_vmmap k) argv strs ->
  exists sp v, copy_arguments_to_user_stack fuel t argv s = Ret (sp, set_mem v s) /\ vm_kernel v = vm_kernel (mem_of s) /\
    p_addr (t_ustack k) <= sp < p_addr (t_ustack k) + 4096 /\
    changed_in (p_addr (t_ustack k)) (p_addr (t_ustack k) + 4096) (vm_mem (mem_of s)) (vm_mem v) /\
    started_with (vm_mem v) (p_addr (t_ustack k)) (USER_STACK_PAGE + (sp - p_addr (t_ustack k))) strs.
Proof.
  intros Ht (Hf & Hf0 & Hf1) Hfit Hp. set (f := p_addr (t_ustack k)) in *.
  assert (Hb : Forall is_bytes strs).
  { apply Forall_lookup_2. intros i str Hi. destruct (ps_strings _ _ _ _ _ Hp i str Hi) as (? & ? & ? & ? & ? & ? & Hc & ?). by apply c_string_bytes. }
  destruct (stack_block_run f Hf Hf0 Hf1 strs (mem_of s) Hb Hfit) as (v & sp & Hrun & Hk & Hr & Hc & Hst). exists sp, v. split_and!; try done; try lia.
  unfold copy_arguments_to_user_stack. mrun (kf_rd_task s t k Ht). pose proof (ps_range _ _ _ _ _ Hp). rewrite (proj2 (Z.eqb_neq argv 0)) by lia.
  mrun (on_mem_get s). rewrite (probe_run fuel _ _ argv strs Hp). msimpl. rewrite Nat2Z.id.
  pose proof (read_arguments_run fuel s t k argv strs 0 Hp Ht ltac:(lia)) as Hread. rewrite Nat.sub_0_r, drop_0 in Hread.
  mrun Hread. apply on_mem_run. unfold page_end, page_begin. fold f. change PAGE_SIZE with 4096. rewrite u64_id by lia. exact Hrun.
Qed.

(** Without arguments: [argc] 0 and a null [argv]. *)
Lemma copy_no_arguments_run fuel s t k : task_of s t = Some k -> is_frame (p_addr (t_ustack k)) ->
  exists v, copy_arguments_to_user_stack fuel t 0 s = Ret (p_addr (t_ustack k) + 4080, set_mem v s) /\ vm_kernel v = vm_kernel (mem_of s) /\
    mem_holds (vm_mem v) (p_addr (t_ustack k) + 4080) (le_bytes 4 0) /\ mem_holds (vm_mem v) (p_addr (t_ustack k) + 4088) (le_bytes 8 0).
Proof.
  intros Ht (Hf & Hf0 & Hf1). set (f := p_addr (t_ustack k)) in *.
  assert (Hal : (f + 4096) mod 16 = 0) by (pose proof (Z.div_mod f 4096); replace (f + 4096) with ((f / 4096 * 256 + 256) * 16) by lia; by rewrite Z.mod_mul).
  destruct (push_argc_run f Hf0 Hf1 0 (f + 4096) 0 (mem_of s) Hal ltac:(lia)) as (v & Hrun & Hk & _ & H1 & H2).
  replace (f + 4096 - 16) with (f + 4080) in * by lia. replace (f + 4096 - 8) with (f + 4088) in * by lia.
  exists v. split_and!; try done. unfold copy_arguments_to_user_stack. mrun (kf_rd_task s t k Ht). cbn [Z.eqb]. apply on_mem_run.
  unfold page_end, page_begin. fold f. change PAGE_SIZE with 4096. rewrite u64_id by lia. exact Hrun.
Qed.
