(* ===== verification/MmapSpec.v ===== *)
(** * Mapping memory and files: theorems

    The address space of a program is the partial function from its addresses
    to bytes that the page tables and the memory give.  Mapping adds a region
    to it: zeros, or the bytes of a file. *)

From Stdlib Require Import ZArith Lia.
From stdpp Require Import base gmap list numbers.
From S2P Require Import Prelude Math Mmu Tiling Mutex Buddy BuddyProof BuddySpec Slob SlobSpec Memory MemorySpec PageTable PageTableSpec CString KString Disk Elf ByteMem Cpio Console Vnode TmpFS Proc ProcFS Vfs VfsSpec Exec ExecSpec.

Open Scope Z_scope.

(** ** Address spaces *)

Definition space (mem : Z -> Z) (pgd u : Z) : option Z :=
  match trans mem pgd u with Some d => Some (byte_at mem (Z.land d PD_PAGE_MASK + PAGE_OFFSET u)) | None => None end.

(** The pages of the map are live frames and not tables. *)
Record space_ok (v : VM) (pgd : Z) (T : gmap Z nat) (live : gmap Z Z) (ptrs : gset Z) : Prop := {
  so_vm : vm_ok v pgd T live ptrs;
  so_data u d : user_va u -> trans (vm_mem v) pgd u = Some d ->
    exists b, 0 <= b < 512 /\ Z.land d PD_PAGE_MASK = page_addr b /\ live !! b = Some 0 /\ T !! page_addr b = None
}.

Lemma page_offset_range u : 0 <= PAGE_OFFSET u < 4096.
Proof. unfold PAGE_OFFSET. change 0xfff with (Z.ones 12). rewrite Z.land_ones by lia. by apply Z.mod_pos_bound. Qed.
Lemma page_offset_mod u : PAGE_OFFSET u = u mod 4096.
Proof. unfold PAGE_OFFSET. change 0xfff with (Z.ones 12). by rewrite Z.land_ones by lia. Qed.

Lemma page_addr_frame b : page_addr b mod 8 = 0.
Proof. unfold page_addr. replace (0x10000000 + b * 4096) with ((0x2000000 + b * 512) * 8) by lia. by rewrite Z.mod_mul. Qed.

Lemma frame_disjoint b c o : b <> c -> 0 <= o < 4096 -> in_frame (page_addr b) (page_addr c + o) = false.
Proof.
  intros Hne Ho. unfold in_frame, page_addr. change PAGE_SIZE with 4096. apply andb_false_iff. rewrite Z.leb_gt, Z.ltb_ge. lia.
Qed.
Lemma frame_own b o : 0 <= o < 4096 -> in_frame (page_addr b) (page_addr b + o) = true.
Proof. intros Ho. unfold in_frame. change PAGE_SIZE with 4096. apply andb_true_iff. rewrite Z.leb_le, Z.ltb_lt. lia. Qed.

(** The bytes of a frame that is not a table. *)
Lemma same_outside_bytes T mem mem' c o : (forall f l, T !! f = Some l -> exists b, f = page_addr b) -> same_outside T mem mem' ->
  T !! page_addr c = None -> 0 <= o < 4096 -> byte_at mem' (page_addr c + o) = byte_at mem (page_addr c + o).
Proof.
  intros Ha Hs Hc Ho. apply byte_ext, Hs. intros f l Hf. destruct (Ha f l Hf) as [b ->].
  rewrite frame_word by apply page_addr_frame. apply frame_disjoint; [congruence|done].
Qed.

(** A page was added at [va]: frame [b], which holds [g]. *)
Record page_added (v v' : VM) (pgd : Z) (T T' : gmap Z nat) (live live' : gmap Z Z) (ptrs ptrs' : gset Z) (va b attr : Z) (g : Z -> Z) : Prop := {
  pa_ok : space_ok v' pgd T' live' ptrs';
  pa_range : 0 <= b < 512;
  pa_new : live !! b = None;
  pa_live : live' !! b = Some 0;
  pa_data : T' !! page_addr b = None;
  pa_frames : frames_added 4 live live';
  pa_ptrs : (size ptrs' <= size ptrs + 4)%nat;
  pa_tables c : live !! c = Some 0 -> T !! page_addr c = None -> T' !! page_addr c = None;
  pa_trans w : user_va w -> trans (vm_mem v') pgd w =
    if decide (w / 4096 = va / 4096) then Some (mapped_descriptor (page_addr b) attr) else trans (vm_mem v) pgd w;
  pa_bytes o : 0 <= o < 4096 -> byte_at (vm_mem v') (page_addr b + o) = g o;
  pa_keep c o : live !! c = Some 0 -> T !! page_addr c = None -> 0 <= o < 4096 ->
    byte_at (vm_mem v') (page_addr c + o) = byte_at (vm_mem v) (page_addr c + o);
  pa_refs : refs_added b 1 (refs v) (refs v')
}.

Lemma vm_ok_data v pgd T live ptrs mem' b :
  vm_ok v pgd T live ptrs -> T !! page_addr b = None -> changed_in (page_addr b) (page_addr b + 4096) (vm_mem v) mem' ->
  vm_ok (set_vm_mem mem' v) pgd T live ptrs /\ (forall u, trans mem' pgd u = trans (vm_mem v) pgd u).
Proof.
  intros [Hc Hm Hw Hl] Hb [Hch _]. destruct (pt_wf_ext (vm_mem v) mem' pgd T Hw) as [Hw' Htr].
  { intros f l i Hf Hi. destruct (pw_addr _ _ _ Hw f l Hf) as (c & _ & ->). apply Hch. assert (c <> b) by congruence. unfold entry, page_addr. lia. }
  split; [by split|]. intros u. apply Htr.
Qed.

(** Writing into the new page. *)
Lemma page_added_write v v' pgd T T' live live' ptrs ptrs' va b attr g g' mem' :
  page_added v v' pgd T T' live live' ptrs ptrs' va b attr g -> changed_in (page_addr b) (page_addr b + 4096) (vm_mem v') mem' ->
  (forall o, 0 <= o < 4096 -> byte_at mem' (page_addr b + o) = g' o) ->
  page_added v (set_vm_mem mem' v') pgd T T' live live' ptrs ptrs' va b attr g'.
Proof.
  intros [[Hok Hd] Hb Hn Hl Hda Hfr Hp Ht Htr Hby Hk Hr] Hc Hg. destruct (vm_ok_data _ _ _ _ _ _ _ Hok Hda Hc) as [Hok' Htr']. split; try done.
  - split; [done|]. intros u d Hu. simpl. rewrite Htr'. by apply Hd.
  - intros w Hw. simpl. rewrite Htr'. by apply Htr.
  - intros c o Hlc Htc Ho. simpl. rewrite (proj2 Hc), Hk; [done..|]. assert (c <> b) by congruence. unfold page_addr. lia.
Qed.

Lemma page_added_space v v' pgd T T' live live' ptrs ptrs' va b attr g :
  page_added v v' pgd T T' live live' ptrs ptrs' va b attr g -> space_ok v pgd T live ptrs -> attr_ok attr ->
  forall u, user_va u -> space (vm_mem v') pgd u = if decide (u / 4096 = va / 4096) then Some (g (PAGE_OFFSET u)) else space (vm_mem v) pgd u.
Proof.
  intros Hpa [Hok Hd] Ha u Hu. unfold space. rewrite (pa_trans _ _ _ _ _ _ _ _ _ _ _ _ _ Hpa u Hu). case_decide.
  - destruct (mapped_descriptor_ok b attr (pa_range _ _ _ _ _ _ _ _ _ _ _ _ _ Hpa) Ha) as [_ ->]. f_equal.
    apply (pa_bytes _ _ _ _ _ _ _ _ _ _ _ _ _ Hpa), page_offset_range.
  - destruct (trans (vm_mem v) pgd u) as [d|] eqn:Htr; [|done]. destruct (Hd u d Hu Htr) as (c & Hc & -> & Hlc & Htc). f_equal.
    apply (pa_keep _ _ _ _ _ _ _ _ _ _ _ _ _ Hpa); [done|done|apply page_offset_range].
Qed.

(** A page frame that is not mapped yet. *)
Lemma free_page_space v pgd T live ptrs : space_ok v pgd T live ptrs -> (size ptrs < NR_SLOTS)%nat -> 
  (exists b v', on_kernel (get_free_page true) v = Ret (page_addr b, v') /\ 0 <= b < 512 /\ live !! b = None /\ vm_mem v' = vm_mem v /\ refs v' = refs v /\
    k_cpu (vm_kernel v') = k_cpu (vm_kernel v) /\ space_ok v' pgd T (<[b := 0]> live) ({[page_addr b]} ∪ ptrs) /\ (size ({[page_addr b]} ∪ ptrs) <= size ptrs + 1)%nat) \/
  (on_kernel (get_free_page true) v = Panic /\ exhausted live 0).
Proof.
  intros [[Hc Hm Hw Hl] Hd] Hroom.
  destruct (get_free_page_spec (vm_kernel v) live ptrs true Hc Hm Hroom) as [(b & k' & Hg & Hb & Hfree & Hc' & Hm' & Hr)|[Hp ?]]; [left|right; split; [unfold on_kernel, zoom; by rewrite Hp|done]].
  pose proof (fresh_not_live _ _ _ _ Hm Hfree) as Hnb.
  exists b, (set_vm_kernel k' v). split_and!; [by apply on_kernel_run|lia|lia|done|done|done|done| |].
  - split; [split; simpl; [by rewrite Hc'|done|done|]|].
    + intros c l HT. destruct (decide (c = b)) as [->|Hne]; [apply lookup_insert_eq|]. rewrite lookup_insert_ne by done. by eapply Hl.
    + intros u d Hu Htr. destruct (Hd u d Hu Htr) as (c & Hcr & Hcd & Hlc & HTc). exists c. split_and!; [lia|lia|done| |done].
      rewrite lookup_insert_ne; [done|congruence].
  - rewrite size_union_alt, size_singleton. pose proof (subseteq_size (ptrs ∖ {[page_addr b]}) ptrs ltac:(set_solver)). lia.
Qed.

(** A live frame mapped at an address where nothing was. *)
Record frame_mapped (v v' : VM) (pgd : Z) (T T' : gmap Z nat) (live live' : gmap Z Z) (ptrs ptrs' : gset Z) (va b attr : Z) : Prop := {
  fm_ok : space_ok v' pgd T' live' ptrs';
  fm_frames : frames_added 3 live live';
  fm_ptrs : (size ptrs' <= size ptrs + 3)%nat;
  fm_tables c : live !! c = Some 0 -> T !! page_addr c = None -> T' !! page_addr c = None;
  fm_trans w : user_va w -> trans (vm_mem v') pgd w =
    if decide (w / 4096 = va / 4096) then Some (mapped_descriptor (page_addr b) attr) else trans (vm_mem v) pgd w;
  fm_keep c o : live !! c = Some 0 -> T !! page_addr c = None -> 0 <= o < 4096 ->
    byte_at (vm_mem v') (page_addr c + o) = byte_at (vm_mem v) (page_addr c + o);
  fm_refs : refs_added b 1 (refs v) (refs v')
}.

Lemma map_frame_run v pgd T live ptrs va b attr :
  space_ok v pgd T live ptrs -> user_va va -> attr_ok attr -> (size ptrs + 3 <= NR_SLOTS)%nat -> 0 <= b < 512 -> live !! b = Some 0 -> T !! page_addr b = None ->
  refs_room (k_mm (vm_kernel v)) 1 -> trans (vm_mem v) pgd va = None ->
  (exists v' T' live' ptrs', vm_map pgd va (page_addr b) attr v = Ret (tt, v') /\ frame_mapped v v' pgd T T' live live' ptrs ptrs' va b attr) \/
  (vm_map pgd va (page_addr b) attr v = Panic /\ short_of_frames live 3).
Proof.
  intros [Hok Hd] Hva Ha Hroom Hb Hlb HTb Hrefs Hnone.
  destruct (vm_map_run v pgd T _ _ va b attr Hok Hva Hb Ha Hroom Hrefs Hnone)
    as [(v2 & T' & live' & ptrs' & Hmap & Hok2 & HT & Hfr & Hnt & Hsz & Hso & Htr & Hadd)|Hp]; [left|by right].
  exists v2, T', live', ptrs'. split; [done|].
  assert (Haddr : forall f l, T' !! f = Some l -> exists c, f = page_addr c) by (intros f l Hf; destruct (pw_addr _ _ _ (vo_wf _ _ _ _ _ Hok2) f l Hf) as (c & _ & ->); eauto).
  assert (Htab : forall c, live !! c = Some 0 -> T !! page_addr c = None -> T' !! page_addr c = None).
  { intros c Hlc HTc. destruct (T' !! page_addr c) as [l|] eqn:E; [|done]. destruct (Hnt c l E); congruence. }
  assert (Hlv : forall c, live !! c = Some 0 -> live' !! c = Some 0) by (intros c Hc; eapply lookup_weaken; [exact Hc|apply Hfr]).
  split; try done.
  - split; [done|]. intros u d Hu. rewrite (Htr u Hu). case_decide.
    + intros [= <-]. exists b. split_and!; [lia|lia|by apply mapped_descriptor_ok|by apply Hlv|by apply Htab].
    + intros Hud. destruct (Hd u d Hu Hud) as (c & Hc0 & Hcd & Hlc & HTc). exists c. split_and!; [lia|lia|done|by apply Hlv|by apply Htab].
  - intros c o Hlc HTc Ho. apply (same_outside_bytes T'); [done|done|by apply Htab|done].
Qed.

(** A fresh, cleared page at an address that is not mapped: the three steps of
    the loop's body. *)
Lemma fresh_page_run v pgd T live ptrs va attr :
  space_ok v pgd T live ptrs -> user_va va -> attr_ok attr -> (size ptrs + 4 <= NR_SLOTS)%nat ->
  refs_room (k_mm (vm_kernel v)) 1 -> trans (vm_mem v) pgd va = None ->
  (exists v1 v2 T' live' ptrs' b, on_kernel (get_free_page true) v = Ret (page_addr b, v1) /\ vm_map pgd va (page_addr b) attr v1 = Ret (tt, v2) /\
     page_added v (set_vm_mem (zero_frame (page_addr b) (vm_mem v2)) v2) pgd T T' live live' ptrs ptrs' va b attr (fun _ => 0)) \/
  (on_kernel (get_free_page true) v = Panic \/ (exists b v1, on_kernel (get_free_page true) v = Ret (page_addr b, v1) /\ vm_map pgd va (page_addr b) attr v1 = Panic)) /\
    short_of_frames live 4.
Proof.
  intros Hok Hva Ha Hroom Hrefs Hnone.
  destruct (free_page_space v pgd T live ptrs Hok ltac:(lia)) as [(b & v1 & Hrun1 & Hb & Hnb & Hmem1 & Hr1 & _ & Hok1 & Hsz1)|[Hp Hex]].
  2:{ right. split; [by left|]. exists live. split_and!; [done|by left|lia|done]. }
  assert (HTb : T !! page_addr b = None) by (destruct (T !! page_addr b) as [l|] eqn:E; [apply (vo_live _ _ _ _ _ (so_vm _ _ _ _ _ Hok)) in E; congruence|done]).
  assert (Hrefs1 : refs_room (k_mm (vm_kernel v1)) 1) by (intros i c Hi; fold (refs v1) in Hi; rewrite Hr1 in Hi; by apply (Hrefs i c)).
  destruct (map_frame_run v1 pgd T _ _ va b attr Hok1 Hva Ha ltac:(lia) Hb (lookup_insert_eq _ _ _) HTb Hrefs1 ltac:(by rewrite Hmem1))
    as [(v2 & T' & live' & ptrs' & Hmap & [M1 M2 M3 M4 M5 M6 M7])|[Hmap Hs]].
  2:{ right. split; [right; eauto|]. by eapply (short_of_frames_next live b 3). }
  left. exists v1, v2, T', live', ptrs', b. split_and!; [done|done|].
  assert (Hkeep : forall c, live !! c = Some 0 -> <[b := 0]> live !! c = Some 0) by (intros c Hc; rewrite lookup_insert_ne by congruence; done).
  assert (Hch : changed_in (page_addr b) (page_addr b + 4096) (vm_mem v2) (zero_frame (page_addr b) (vm_mem v2))).
  { split; intros x Hx; [unfold zero_frame|rewrite zero_frame_byte by apply page_addr_frame];
      (replace (in_frame (page_addr b) x) with false; [done|]); symmetry; unfold in_frame; change PAGE_SIZE with 4096; apply andb_false_iff; rewrite Z.leb_gt, Z.ltb_ge; lia. }
  assert (Hpa : page_added v v2 pgd T T' live live' ptrs ptrs' va b attr (fun o => byte_at (vm_mem v2) (page_addr b + o))).
  { split; try done.
    - eapply lookup_weaken; [apply lookup_insert_eq|apply M2].
    - apply M4; [apply lookup_insert_eq|done].
    - eapply (frames_added_trans 1 3); [by apply frames_added_insert|done].
    - lia.
    - intros c Hc HTc. apply M4; [by apply Hkeep|done].
    - intros w Hw. by rewrite (M5 w Hw), Hmem1.
    - intros c o Hc HTc Ho. rewrite M6 by (by try apply Hkeep). by rewrite Hmem1.
    - by rewrite <- Hr1. }
  eapply page_added_write; [exact Hpa|done|]. intros o Ho. rewrite zero_frame_byte by apply page_addr_frame. by rewrite frame_own.
Qed.

(** ** The lock

    Memory operations leave the lock as they found it. *)

Definition keeps_cpu {A} (m : M VM A) : Prop :=
  forall v a v', cpu_ok (k_cpu (vm_kernel v)) -> m v = Ret (a, v') -> k_cpu (vm_kernel v') = k_cpu (vm_kernel v).

Lemma keeps_bind {A B} (m : M VM A) (f : A -> M VM B) : keeps_cpu m -> (forall a, keeps_cpu (f a)) -> keeps_cpu (m ≫= f).
Proof. intros Hm Hf v b v' Hc H. minv H as a v1 H1. rewrite (Hf a v1 b v'), (Hm v a v1); [done..|by rewrite (Hm v a v1)|done]. Qed.
Lemma keeps_ret {A} (a : A) : keeps_cpu (mret a).
Proof. by intros v b v' _ [= _ <-]. Qed.
Lemma keeps_get : keeps_cpu get.
Proof. by intros v b v' _ [= _ <-]. Qed.
Lemma keeps_panic {A} : keeps_cpu (panic : M VM A).
Proof. done. Qed.
Lemma keeps_fault {A} : keeps_cpu (fault : M VM A).
Proof. done. Qed.
Lemma keeps_mem f : keeps_cpu (modify (fun s => set_vm_mem (f s) s)).
Proof. by intros v b v' _ [= _ <-]. Qed.
Lemma on_mm_cpu {A} (m : M MemoryManager A) k a k' : on_mm m k = Ret (a, k') -> k_cpu k' = k_cpu k.
Proof. unfold on_mm, zoom. destruct (m (k_mm k)) as [[b mm]| | |]; [|done..]. intros H. by injection H as <- <-. Qed.
Lemma guarded_mm_cpu {A} (m : M MemoryManager A) k a k' : cpu_ok (k_cpu k) -> guarded (on_mm m) k = Ret (a, k') -> k_cpu k' = k_cpu k.
Proof.
  intros Hc H. unfold guarded in H. minv H as u1 k1 H1. minv H as r k2 H2. minv H as u3 k3 H3. injection H as <- <-.
  unfold zoom in H1. simpl in H1. rewrite (lock_spec _ Hc) in H1. injection H1 as <- <-. apply on_mm_cpu in H2. simpl in H2.
  unfold zoom in H3. simpl in H3. rewrite H2, (unlock_spec _ Hc) in H3. by injection H3 as <- <-.
Qed.
Lemma keeps_mm {A} (m : M MemoryManager A) : keeps_cpu (on_kernel (guarded (on_mm m))).
Proof.
  intros v a v' Hc. unfold on_kernel, zoom at 1. destruct (guarded (on_mm m) (vm_kernel v)) as [[b k']| | |] eqn:E; [|done..].
  intros H. injection H as <- <-. simpl. by eapply guarded_mm_cpu.
Qed.
Lemma keeps_ref (d : Z -> M MemoryManager Z) p : keeps_cpu (on_kernel (idx ← on_mm (get_page_ref_idx p); guarded (on_mm (d idx)))).
Proof.
  set (m := (idx ← on_mm (get_page_ref_idx p); guarded (on_mm (d idx)))). intros v a v' Hc. unfold on_kernel, zoom at 1.
  destruct (m (vm_kernel v)) as [[b k']| | |] eqn:E; [|done..]. intros H. injection H as <- <-. simpl. minv E as idx k1 H1.
  pose proof (on_mm_cpu _ _ _ _ H1) as H2. rewrite <- H2. eapply guarded_mm_cpu; [by rewrite H2|done].
Qed.
Lemma keeps_kfree p : keeps_cpu (on_kernel (kfree p)).
Proof. apply keeps_mm. Qed.
Lemma keeps_page b : keeps_cpu (on_kernel (get_free_page b)).
Proof. apply keeps_mm. Qed.
Lemma keeps_word a : keeps_cpu (rd_word a).
Proof. by intros v b v' _ [= _ <-]. Qed.
Lemma keeps_wr_word a d : keeps_cpu (wr_word a d).
Proof. by intros v b v' _ [= _ <-]. Qed.
#[export] Hint Resolve @keeps_ret keeps_get @keeps_panic @keeps_fault keeps_mem @keeps_mm keeps_ref keeps_kfree keeps_page keeps_word keeps_wr_word : keeps.

Ltac keeps := repeat (intros; first [apply keeps_bind | by eauto with keeps | match goal with |- keeps_cpu (match ?x with _ => _ end) => destruct x end]).

Lemma keeps_new_table : keeps_cpu new_table.
Proof. unfold new_table. keeps. Qed.
#[export] Hint Resolve keeps_new_table : keeps.
Lemma keeps_walk c ps pt : keeps_cpu (walk_loop c ps pt).
Proof. revert pt. induction ps as [|i ps IH]; intros pt; cbn [walk_loop]; keeps. Qed.
#[export] Hint Resolve keeps_walk : keeps.
Lemma keeps_new_vmmap : keeps_cpu new_vmmap.
Proof. unfold new_vmmap. keeps. Qed.
Lemma keeps_vm_map pgd va p attr : keeps_cpu (vm_map pgd va p attr).
Proof. unfold vm_map, walk, inc_page_ref_count. keeps. Qed.
Lemma keeps_for n i body : (forall j, keeps_cpu (body j)) -> keeps_cpu (for_entries n i body).
Proof. intros Hb. revert i. induction n as [|n IH]; intros i; cbn [for_entries]; keeps; apply Hb. Qed.
Lemma keeps_free below pt : keeps_cpu (dfs_kfree_page below pt).
Proof. revert pt. induction below as [|below IH]; intros pt; cbn [dfs_kfree_page]; apply keeps_for; unfold dec_page_ref_count; keeps. Qed.
Lemma keeps_copy below p q : keeps_cpu (dfs_copy_page_tables below p q).
Proof. revert p q. induction below as [|below IH]; intros p q; cbn [dfs_copy_page_tables]; apply keeps_for; unfold inc_page_ref_count; keeps. Qed.

(** ** Regions *)

Definition in_region (va : Z) (n : nat) (u : Z) : Prop := va <= u < va + Z.of_nat n * 4096.
#[export] Instance in_region_dec va n u : Decision (in_region va n u).
Proof. unfold in_region. apply _. Defined.

(** [n] pages were added from [va] on; they hold [G]. *)
Record region_added (v v' : VM) (pgd : Z) (T T' : gmap Z nat) (live live' : gmap Z Z) (ptrs ptrs' : gset Z) (va : Z) (n : nat) (attr : Z) (G : Z -> Z) : Prop := {
  ra_ok : space_ok v' pgd T' live' ptrs';
  ra_cpu : k_cpu (vm_kernel v') = k_cpu (vm_kernel v);
  ra_frames : frames_added (4 * n) live live';
  ra_ptrs : (size ptrs' <= size ptrs + 4 * n)%nat;
  ra_tables c : live !! c = Some 0 -> T !! page_addr c = None -> T' !! page_addr c = None;
  ra_space u : user_va u -> space (vm_mem v') pgd u = if decide (in_region va n u) then Some (G (u - va)) else space (vm_mem v) pgd u;
  ra_trans u : user_va u -> if decide (in_region va n u)
    then exists b, 0 <= b < 512 /\ live !! b = None /\ trans (vm_mem v') pgd u = Some (mapped_descriptor (page_addr b) attr)
    else trans (vm_mem v') pgd u = trans (vm_mem v) pgd u;
  ra_keep c o : live !! c = Some 0 -> T !! page_addr c = None -> 0 <= o < 4096 ->
    byte_at (vm_mem v') (page_addr c + o) = byte_at (vm_mem v) (page_addr c + o);
  ra_refs m : refs_room (k_mm (vm_kernel v)) (m + Z.of_nat n) -> refs_room (k_mm (vm_kernel v')) m
}.

Lemma region_nil v pgd T live ptrs va attr G : space_ok v pgd T live ptrs -> region_added v v pgd T T live live ptrs ptrs va 0 attr G.
Proof.
  intros Hok. split; try done; [split_and!; [done|by left|lia]|lia|..].
  - intros u Hu. rewrite decide_False; [done|unfold in_region; lia].
  - intros u Hu. rewrite decide_False; [done|unfold in_region; lia].
  - intros m H. by rewrite Z.add_0_r in H.
Qed.

Lemma page_in_region va n u : va mod 4096 = 0 -> (u / 4096 = va / 4096 <-> in_region va 1 u) /\
  (in_region va (S n) u <-> in_region va 1 u \/ in_region (va + 4096) n u).
Proof.
  intros Hva. unfold in_region. pose proof (Z.div_mod va 4096). pose proof (Z.div_mod u 4096). pose proof (Z.mod_pos_bound u 4096). lia.
Qed.

Lemma refs_room_added v v' b n : length (refs v') = length (refs v) -> refs_added b 1 (refs v) (refs v') ->
  refs_room (k_mm (vm_kernel v)) (n + 1) -> refs_room (k_mm (vm_kernel v')) n.
Proof.
  intros Hlen Ha Hroom i c Hi. fold (refs v') in Hi.
  destruct (arr_get_is_Some (refs v) i) as [x Hx]; [apply arr_get_Some_range in Hi; lia|].
  pose proof (Ha i x Hx) as Hy. pose proof (Hroom i x Hx) as Hxr. case_decide; rewrite Hi in Hy; injection Hy as ->; lia.
Qed.

Lemma space_refs v pgd T live ptrs : space_ok v pgd T live ptrs -> length (refs v) = 512%nat.
Proof. intros [[? Hm ? ?] ?]. unfold refs. pose proof (mr_refs _ _ _ Hm). lia. Qed.

Lemma region_cons v v1 v2 pgd T T1 T2 live live1 live2 ptrs ptrs1 ptrs2 va n b attr g G :
  space_ok v pgd T live ptrs -> attr_ok attr -> va mod 4096 = 0 -> k_cpu (vm_kernel v1) = k_cpu (vm_kernel v) ->
  page_added v v1 pgd T T1 live live1 ptrs ptrs1 va b attr g -> (forall o, 0 <= o < 4096 -> g o = G o) ->
  region_added v1 v2 pgd T1 T2 live1 live2 ptrs1 ptrs2 (va + 4096) n attr (fun o => G (4096 + o)) ->
  region_added v v2 pgd T T2 live live2 ptrs ptrs2 va (S n) attr G.
Proof.
  intros Hok Ha Hva Hcpu Hpa Hg Hra. pose proof (page_added_space _ _ _ _ _ _ _ _ _ _ _ _ _ Hpa Hok Ha) as Hsp.
  destruct Hpa as [Hok1 Hb Hn Hl Hda Hfr Hp Ht Htr Hby Hk Hr]. destruct Hra as [Hok2 Hcpu2 Hfr2 Hp2 Ht2 Hsp2 Htr2 Hk2 Hr2].
  assert (Hlv : forall c, live !! c = Some 0 -> live1 !! c = Some 0) by (intros c Hc; eapply lookup_weaken; [exact Hc|apply Hfr]).
  assert (Hreg : forall u, (u / 4096 = va / 4096 <-> in_region va 1 u) /\ (in_region va (S n) u <-> in_region va 1 u \/ in_region (va + 4096) n u))
    by (intros u; by apply page_in_region).
  split; [done|congruence|by replace (4 * S n)%nat with (4 + 4 * n)%nat by lia; eapply frames_added_trans|lia|auto|..].
  - intros u Hu. rewrite (Hsp2 u Hu), (Hsp u Hu). destruct (Hreg u) as [H1 H2]. destruct (decide (in_region (va + 4096) n u)) as [Hin|Hin].
    + rewrite decide_True by tauto. do 2 f_equal. lia.
    + destruct (decide (u / 4096 = va / 4096)) as [He|He]; [rewrite decide_True by tauto|by rewrite decide_False by tauto].
      f_equal. rewrite Hg by apply page_offset_range. f_equal. rewrite page_offset_mod. apply H1 in He. unfold in_region in He.
      pose proof (Z.div_mod u 4096). pose proof (Z.div_mod va 4096). pose proof (Z.mod_pos_bound u 4096). lia.
  - intros u Hu. specialize (Htr2 u Hu). destruct (Hreg u) as [H1 H2]. destruct (decide (in_region (va + 4096) n u)) as [Hin|Hin].
    + rewrite decide_True by tauto. destruct Htr2 as (c & Hc & Hlc & Htc). exists c. split_and!; [lia|lia| |done].
      eapply lookup_weaken_None; [exact Hlc|apply Hfr].
    + rewrite Htr2, (Htr u Hu). destruct (decide (u / 4096 = va / 4096)) as [He|He]; [rewrite decide_True by tauto|by rewrite decide_False by tauto].
      exists b. done.
  - intros c o Hc HTc Ho. rewrite Hk2, Hk by auto. done.
  - intros m Hm. apply Hr2. eapply refs_room_added; [|exact Hr|by replace (m + Z.of_nat n + 1) with (m + Z.of_nat (S n)) by lia].
    by rewrite (space_refs _ _ _ _ _ Hok1), (space_refs _ _ _ _ _ Hok).
Qed.

(** ** The loop of [do_mmap] *)

Section loop.
Context (junk : list Z) (pgd attr : Z) (anonymous : bool) (file zero_off : Z).
(** The state, without its memory, and the flag after [i] pages, and what page
    [i] holds when its body is done. *)
Context (base : nat -> VFS KernelFs) (first : nat -> bool) (G : nat -> Z -> Z) (c0 : Cpu).
Context (Hfill : forall i v b, 0 <= b < 512 -> k_cpu (vm_kernel v) = c0 -> (forall o, 0 <= o < 4096 -> byte_at (vm_mem v) (page_addr b + o) = 0) ->
  exists s1 mem', (if anonymous then mret tt else read_page junk file (page_addr b)) (set_mem v (base i)) = Ret (tt, s1) /\
    zero_bss file (page_addr b) zero_off (first i) s1 = Ret (first (S i), set_mem (set_vm_mem mem' v) (base (S i))) /\
    changed_in (page_addr b) (page_addr b + 4096) (vm_mem v) mem' /\
    forall o, 0 <= o < 4096 -> byte_at mem' (page_addr b + o) = G i o).

Lemma mmap_pages_run n i v T live ptrs va :
  space_ok v pgd T live ptrs -> k_cpu (vm_kernel v) = c0 -> attr_ok attr -> va mod 4096 = 0 ->
  0 <= va + Z.of_nat i * 4096 -> va + Z.of_nat (i + n) * 4096 <= 2 ^ 48 ->
  (forall u, user_va u -> in_region (va + Z.of_nat i * 4096) n u -> trans (vm_mem v) pgd u = None) ->
  (size ptrs + 4 * n <= NR_SLOTS)%nat -> refs_room (k_mm (vm_kernel v)) (Z.of_nat n) ->
  (exists v' T' live' ptrs', mmap_pages n junk pgd attr anonymous file zero_off va (Z.of_nat i) (first i) (set_mem v (base i)) = Ret (tt, set_mem v' (base (i + n)%nat)) /\
     region_added v v' pgd T T' live live' ptrs ptrs' (va + Z.of_nat i * 4096) n attr (fun o => G (i + Z.to_nat (o / 4096)) (o mod 4096))) \/
  (mmap_pages n junk pgd attr anonymous file zero_off va (Z.of_nat i) (first i) (set_mem v (base i)) = Panic /\ short_of_frames live (4 * n)).
Proof.
  revert i v T live ptrs. induction n as [|n IH]; intros i v T live ptrs Hok Hcpu Ha Hva Hlo Hhi Hun Hsz Hrefs; cbn [mmap_pages].
  { left. exists v, T, live, ptrs. rewrite Nat.add_0_r. split; [done|by apply region_nil]. }
  set (va' := va + Z.of_nat i * 4096) in *. assert (Hva' : va' mod 4096 = 0) by (unfold va'; by rewrite Z.mod_add).
  assert (Huva : user_va va') by (unfold user_va; lia).
  assert (Hu : u64 (va + Z.of_nat i * PAGE_SIZE) = va') by (change PAGE_SIZE with 4096; apply u64_id; lia). rewrite Hu.
  destruct (fresh_page_run v pgd T live ptrs va' attr Hok Huva Ha) as [(v1 & v2 & T1 & live1 & ptrs1 & b & Hg & Hm & Hpa)|[Hp Hs]];
    [lia|by intros j c Hj; specialize (Hrefs j c Hj); lia|apply Hun; [done|unfold in_region; lia]| |].
  2:{ right. split; [|by eapply short_of_frames_weaken; [exact Hs|lia]]. unfold mbind at 1, M_bind at 1. destruct Hp as [Hp|(b & v1 & Hg & Hp)].
      - unfold on_mem, on_sys, on_vm, zoom. fold (mem_of (set_mem v (base i))). by rewrite mem_of_set, Hp.
      - rewrite (on_mem_run _ _ (page_addr b) v1) by (by rewrite mem_of_set). cbn beta iota. unfold mbind at 1, M_bind at 1.
        unfold on_mem, on_sys, on_vm, zoom. fold (mem_of (set_mem v1 (set_mem v (base i)))). by rewrite mem_of_set, Hp. }
  assert (Hcpu2 : k_cpu (vm_kernel v2) = c0).
  { assert (Hc1 : k_cpu (vm_kernel v1) = c0) by (rewrite <- Hcpu; eapply keeps_page; [apply Hok|done]).
    rewrite <- Hc1. eapply keeps_vm_map; [rewrite Hc1, <- Hcpu; apply Hok|done]. }
  set (v3 := set_vm_mem (zero_frame (page_addr b) (vm_mem v2)) v2) in *.
  destruct (Hfill i v3 b) as (s1 & mem' & Hf & Hz & Hch & Hby); [apply Hpa|done|apply Hpa|].
  assert (Hpa' := page_added_write _ _ _ _ _ _ _ _ _ _ _ _ _ _ _ Hpa Hch Hby). set (v4 := set_vm_mem mem' v3) in *.
  assert (Hstart : mmap_pages (S n) junk pgd attr anonymous file zero_off va (Z.of_nat i) (first i) (set_mem v (base i)) =
    mmap_pages n junk pgd attr anonymous file zero_off va (Z.of_nat (S i)) (first (S i)) (set_mem v4 (base (S i)))).
  { cbn [mmap_pages]. rewrite Hu.
    rewrite (bind_run _ _ _ _ _ (on_mem_run _ (set_mem v (base i)) _ v1 ltac:(rewrite mem_of_set; exact Hg))), set_mem_set.
    rewrite (bind_run _ _ _ _ _ (on_mem_run _ (set_mem v1 (base i)) _ v2 ltac:(rewrite mem_of_set; exact Hm))), set_mem_set.
    rewrite (bind_run _ _ _ _ _ (on_mem_run (modify (fun s => set_vm_mem (zero_frame (page_addr b) (vm_mem s)) s)) (set_mem v2 (base i)) tt v3 ltac:(rewrite mem_of_set; reflexivity))), set_mem_set.
    mrun Hf. mrun Hz. by replace (Z.of_nat i + 1) with (Z.of_nat (S i)) by lia. }
  cbn [mmap_pages] in Hstart. rewrite Hu in Hstart. rewrite Hstart. clear Hstart.
  assert (Hva2 : va + Z.of_nat (S i) * 4096 = va' + 4096) by lia.
  destruct (IH (S i) v4 T1 live1 ptrs1) as [(v' & T' & live' & ptrs' & Hrun & Hra)|[Hrun Hs]];
    [apply Hpa'|done|done|done|lia|by replace (S i + n)%nat with (i + S n)%nat by lia| | | | |].
  - intros u Huu Hin. rewrite Hva2 in Hin. rewrite (pa_trans _ _ _ _ _ _ _ _ _ _ _ _ _ Hpa' u Huu). destruct (page_in_region va' n u Hva') as [H1 H2].
    rewrite decide_False; [apply Hun; [done|by apply H2; right]|]. rewrite H1. unfold in_region in *. lia.
  - pose proof (pa_ptrs _ _ _ _ _ _ _ _ _ _ _ _ _ Hpa'). lia.
  - eapply refs_room_added; [|exact (pa_refs _ _ _ _ _ _ _ _ _ _ _ _ _ Hpa')|by replace (Z.of_nat n + 1) with (Z.of_nat (S n)) by lia].
    rewrite (space_refs _ _ _ _ _ (pa_ok _ _ _ _ _ _ _ _ _ _ _ _ _ Hpa')). by rewrite (space_refs _ _ _ _ _ Hok).
  - left. exists v', T', live', ptrs'. rewrite Hrun. replace (S i + n)%nat with (i + S n)%nat by lia. split; [done|].
    eapply region_cons; [done|done|done| |exact Hpa'| |].
    + unfold v4, v3. simpl. congruence.
    + intros o Ho. cbn beta. rewrite (Z.div_small o), (Z.mod_small o), Nat.add_0_r by lia. done.
    + rewrite Hva2 in Hra. destruct Hra as [A1 A2 A3 A4 A5 A6 A7 A8 A9]. split; try done. intros u Huu. rewrite (A6 u Huu). case_decide as Hin; [|done].
      unfold in_region in Hin. f_equal. replace (4096 + (u - (va' + 4096))) with (u - (va' + 4096) + 1 * 4096) by lia. rewrite Z.div_add, Z.mod_add by lia.
      f_equal. rewrite Z2Nat.inj_add; [lia|apply Z.div_pos; lia|lia].
  - right. rewrite Hrun. split; [done|]. replace (4 * S n)%nat with (4 + 4 * n)%nat by lia.
    eapply short_of_frames_added; [apply Hpa'|done].
Qed.
End loop.

(** ** Files *)

Definition set_pos (f pos : Z) (s : VFS KernelFs) : VFS KernelFs :=
  match v_files s !! f with
  | Some x => set_v_files (<[f := mkFile (f_vnode x) pos (f_options x)]> (v_files s)) (v_next_file s) s
  | None => s
  end.

(** An opened file of a TmpFS with this content, at this position. *)
Definition tmp_file (s : VFS KernelFs) (f : Z) (c : list Z) (pos : Z) : Prop := f <> 0 /\ exists v o i,
  v_files s !! f = Some (mkFile v pos o) /\ kf_proc (v_fs s) !! v = None /\ th_inodes (kf_tmp (v_fs s)) !! v = Some i /\
  is_regular_file (i_mode i) = true /\ i_content i = Some c /\ i_size i = Z.of_nat (length c) /\ Z.of_nat (length c) < 2 ^ 31.

Lemma on_tmp_same {A} (m : M (VFS TmpHeap) A) s a : m (tmp_view s) = Ret (a, tmp_view s) -> on_tmp m s = Ret (a, s).
Proof. intros H. unfold on_tmp, zoom. rewrite H. by destruct s as [? []]. Qed.
Lemma dispatch_tmp {A} v (p t : KM A) s : kf_proc (v_fs s) !! v = None -> dispatch v p t s = t s.
Proof. intros H. unfold dispatch. msimpl. by rewrite H. Qed.
Lemma inode_run {A} (g : Inode -> A) v i s : th_inodes (kf_tmp (v_fs s)) !! v = Some i -> on_tmp (x ← rd_inode v; mret (g x)) s = Ret (g i, s).
Proof.
  intros H. apply on_tmp_same. assert (Hr : rd_inode v (tmp_view s) = Ret (i, tmp_view s)); [|by mrun Hr].
  unfold rd_inode. msimpl. change (th_inodes (v_fs (tmp_view s))) with (th_inodes (kf_tmp (v_fs s))). by rewrite H.
Qed.

Lemma set_pos_run s f x pos : v_files s !! f = Some x -> wr_pos f pos s = Ret (tt, set_pos f pos s).
Proof.
  intros H. assert (Hr : rd_file f s = Ret (x, s)) by (unfold rd_file; msimpl; by rewrite H). unfold wr_pos, set_pos. mrun Hr. by rewrite H.
Qed.

Lemma tmp_file_set_pos s f c pos pos' : tmp_file s f c pos -> tmp_file (set_pos f pos' s) f c pos'.
Proof.
  intros [Hf (v & o & i & H1 & H2)]. split; [done|]. exists v, o, i. unfold set_pos. rewrite H1. split; [apply lookup_insert_eq|done].
Qed.
Lemma tmp_file_set_mem s f c pos v : tmp_file s f c pos -> tmp_file (set_mem v s) f c pos.
Proof. done. Qed.
Lemma set_pos_mem v f pos s : set_pos f pos (set_mem v s) = set_mem v (set_pos f pos s).
Proof. unfold set_pos. simpl. destruct (v_files s !! f); done. Qed.
Lemma set_pos_set f p q s : set_pos f p (set_pos f q s) = set_pos f p s.
Proof.
  unfold set_pos. destruct (v_files s !! f) as [x|] eqn:E; [|by rewrite E]. cbn [v_files set_v_files]. rewrite lookup_insert_eq. cbn. by rewrite insert_insert_eq.
Qed.
Lemma set_pos_id f s c pos : tmp_file s f c pos -> set_pos f pos s = s.
Proof.
  intros [_ (v & o & i & H1 & _)]. unfold set_pos. rewrite H1. cbn. rewrite insert_id by done. by destruct s.
Qed.

(** What a read of up to [n] bytes gets. *)
Definition got (c : list Z) (pos n : Z) : Z := Z.min n (Z.of_nat (length c) - pos).

Lemma read_tmp_run s f c pos junk buf len : cpu_ok (v_cpu s) -> tmp_file s f c pos -> 0 <= pos <= Z.of_nat (length c) -> 0 <= len <= Z.of_nat (length buf) ->
  read junk buf f len s = Ret ((take (Z.to_nat (got c pos len)) (drop (Z.to_nat pos) c) ++ drop (Z.to_nat (got c pos len)) buf, got c pos len),
    set_pos f (pos + got c pos len) s).
Proof.
  intros Hc [Hf (v & o & i & H1 & H2 & H3 & H4 & H5 & H6 & H7)] Hpos Hbuf. set (n := got c pos len).
  assert (Hn : 0 <= n <= len /\ pos + n <= Z.of_nat (length c)) by (unfold n, got; lia).
  set (s1 := with_cpu (entered (cpu_of s)) s).
  assert (Hg : forall A (g : Inode -> A), on_tmp (x ← rd_inode v; mret (g x)) s1 = Ret (g i, s1)) by (intros A g; by apply inode_run).
  replace (set_pos f (pos + n) s) with (with_cpu (cpu_of s) (set_pos f (pos + n) s)) by (unfold set_pos; rewrite H1; by destruct s).
  unfold read. apply guarded_spec; [done|]. rewrite (proj2 (Z.eqb_neq f 0)) by done. fold s1.
  assert (Hrd : rd_file f s1 = Ret (mkFile v pos o, s1)) by (unfold rd_file; msimpl; simpl; by rewrite H1). mrun Hrd. cbn [f_vnode f_pos].
  cbn [vn_mode get_content vn_size kernel_vnodes].
  assert (Hm : dispatch v (i ← rd_pinode v; mret (pi_mode i)) (on_tmp (vn_mode v)) s1 = Ret (i_mode i, s1)) by (rewrite dispatch_tmp by done; apply Hg).
  mrun Hm. rewrite H4.
  assert (Hct : dispatch v (proc_get_content v) (on_tmp (get_content v)) s1 = Ret (Some c, s1)) by (rewrite dispatch_tmp by done; rewrite <- H5; apply (Hg _ i_content)).
  mrun Hct. assert (Hsz : dispatch v (i ← rd_pinode v; mret (pi_size i)) (on_tmp (vn_size v)) s1 = Ret (i_size i, s1)) by (rewrite dispatch_tmp by done; apply (Hg _ i_size)).
  mrun Hsz. rewrite H6, u64_id by lia. fold (got c pos len). fold n.
  assert (Hsl : slice_opt (Some c) pos n = Some (take (Z.to_nat n) (drop (Z.to_nat pos) c))).
  { unfold slice_opt, slice. destruct (Z.eqb_spec n 0) as [->|]; [done|]. by rewrite decide_True by lia. }
  rewrite Hsl. msimpl. rewrite decide_True by lia. msimpl. rewrite u64_id by lia.
  assert (Hw : wr_pos f (pos + n) s1 = Ret (tt, set_pos f (pos + n) s1)) by (eapply set_pos_run; exact H1). mrun Hw. rewrite s32_id by lia.
  unfold mret, M_ret. do 2 f_equal. unfold s1, set_pos. simpl. by rewrite H1.
Qed.

Lemma page_addr_low b : 0 <= b < 512 -> 0 <= page_addr b /\ page_addr b + 4096 <= 2 ^ 48 /\ page_addr b < KERNEL_VA_BASE.
Proof. unfold page_addr, KERNEL_VA_BASE. lia. Qed.

(** Byte [o] of the file from [off] on; zero behind its end. *)
Definition file_byte (c : list Z) (off o : Z) : Z := default 0 (arr_get c (off + o)).

Lemma read_page_run s v f c pos junk b : cpu_ok (k_cpu (vm_kernel v)) -> tmp_file s f c pos -> is_bytes c -> 0 <= pos <= Z.of_nat (length c) -> 0 <= b < 512 ->
  (forall o, 0 <= o < 4096 -> byte_at (vm_mem v) (page_addr b + o) = 0) ->
  exists mem', read_page junk f (page_addr b) (set_mem v s) = Ret (tt, set_mem (set_vm_mem mem' v) (set_pos f (pos + got c pos 4096) s)) /\
    changed_in (page_addr b) (page_addr b + 4096) (vm_mem v) mem' /\
    forall o, 0 <= o < 4096 -> byte_at mem' (page_addr b + o) = file_byte c pos o.
Proof.
  intros Hc Hf Hb Hpos Hr Hz. destruct (page_addr_low b Hr) as (Ha0 & Ha1 & Ha2). set (buf := load_bytes (vm_mem v) (page_addr b) 4096).
  assert (Hlen : length buf = 4096%nat) by apply length_load_bytes. set (n := got c pos 4096).
  assert (Hn : 0 <= n <= 4096 /\ pos + n <= Z.of_nat (length c)) by (unfold n, got; lia).
  set (l := take (Z.to_nat n) (drop (Z.to_nat pos) c) ++ drop (Z.to_nat n) buf).
  assert (Hll : length l = 4096%nat) by (unfold l; rewrite length_app, length_take, !length_drop; lia).
  assert (Hlo : forall k, (k < 4096)%nat -> l !! k = Some (file_byte c pos (Z.of_nat k))).
  { intros k Hk. unfold l, file_byte. destruct (decide (k < Z.to_nat n)%nat) as [Hlt|Hge].
    - rewrite lookup_app_l by (rewrite length_take, length_drop; lia). rewrite lookup_take_lt, lookup_drop by lia.
      replace (Z.to_nat pos + k)%nat with (Z.to_nat (pos + Z.of_nat k)) by lia. unfold arr_get. rewrite decide_True by lia.
      destruct (lookup_lt_is_Some_2 c (Z.to_nat (pos + Z.of_nat k))) as [x Hx]; [lia|]. by rewrite Hx.
    - rewrite lookup_app_r by (rewrite length_take, length_drop; lia). rewrite lookup_drop, length_take, length_drop.
      replace (Z.to_nat n + (k - Z.to_nat n `min` (length c - Z.to_nat pos)))%nat with k by lia. unfold buf. rewrite load_bytes_lookup by done.
      rewrite Hz by lia. unfold arr_get. rewrite decide_True by lia. rewrite lookup_ge_None_2; [done|]. unfold n, got in Hge. lia. }
  exists (store_bytes (page_addr b) l (vm_mem v)). split_and!.
  - unfold read_page. assert (Hg : get_bytes (page_addr b) (Z.to_nat PAGE_SIZE) v = Ret (buf, v)) by (unfold get_bytes; msimpl; by rewrite kaddr_low).
    assert (Hg' : on_mem (get_bytes (page_addr b) (Z.to_nat PAGE_SIZE)) (set_mem v s) = Ret (buf, set_mem v s))
      by (rewrite (on_mem_run _ _ buf v); [by rewrite set_mem_set|by rewrite mem_of_set]).
    mrun Hg'. pose proof (read_tmp_run (set_mem v s) f c pos junk buf PAGE_SIZE Hc Hf Hpos ltac:(rewrite Hlen; change PAGE_SIZE with 4096; lia)) as Hrd. change PAGE_SIZE with 4096 in Hrd at 2 3 4 5. fold n in Hrd. fold l in Hrd. mrun Hrd. cbn [fst].
    rewrite set_pos_mem. rewrite (on_mem_run _ _ tt (set_vm_mem (store_bytes (page_addr b) l (vm_mem v)) v)); [by rewrite set_mem_set|].
    rewrite mem_of_set. apply put_bytes_run; [lia|rewrite Hll; unfold KERNEL_VA_BASE; lia|done].
  - apply changed_store; [lia|rewrite Hll; lia].
  - intros o Ho. rewrite store_byte, decide_True by (rewrite Hll; lia). replace (page_addr b + o - page_addr b) with (Z.of_nat (Z.to_nat o)) by lia.
    rewrite arr_get_nat, Hlo by lia. cbn [default]. rewrite Z2Nat.id by lia. apply Z.mod_small. unfold file_byte, arr_get. case_decide; [|done].
    destruct (c !! _) as [x|] eqn:E; [|done]. by apply (Forall_lookup_1 _ _ _ _ Hb E).
Qed.

(** ** do_mmap *)

Definition vm_cpu (c : Cpu) (v : VM) : VM := set_vm_kernel (mkKernel c (k_mm (vm_kernel v))) v.

Lemma space_ok_cpu c v pgd T live ptrs : cpu_ok c -> space_ok v pgd T live ptrs -> space_ok (vm_cpu c v) pgd T live ptrs.
Proof. intros Hc [[H1 H2 H3 H4] H5]. split; [by split|done]. Qed.
Lemma region_cpu c e v v' pgd T T' live live' ptrs ptrs' va n attr G : cpu_ok c -> k_cpu (vm_kernel v) = c ->
  region_added (vm_cpu e v) v' pgd T T' live live' ptrs ptrs' va n attr G -> region_added v (vm_cpu c v') pgd T T' live live' ptrs ptrs' va n attr G.
Proof. intros Hc Hv [A1 A2 A3 A4 A5 A6 A7 A8 A9]. split; try done. by apply space_ok_cpu. Qed.

(** The bytes of the region: zeros, or the file from [off] on. *)
Definition region_byte (anonymous : bool) (c : list Z) (off o : Z) : Z := if anonymous then 0 else file_byte c off o.

Definition is_anonymous (flags : Z) : bool := negb (Z.land flags MAP_ANONYMOUS =? 0).
Definition pages (len : Z) : nat := Z.to_nat (align_up len / 4096).

Lemma mmap_attr_ok prot : attr_ok (mmap_attr prot).
Proof. unfold attr_ok, mmap_attr. destruct (_ =? 0), (_ =? 0); done. Qed.

Lemma align_down_id a : 0 <= a < 2 ^ 64 -> is_aligned a = true -> align_down a = a.
Proof.
  intros Ha Hal. unfold is_aligned in Hal. apply Z.eqb_eq in Hal. change PAGE_SIZE with 4096 in Hal. unfold align_down.
  assert (Hs : a = Z.shiftl (Z.shiftr a 12) 12) by (rewrite Z.shiftl_mul_pow2, Z.shiftr_div_pow2 by lia; pose proof (Z.div_mod a 4096); change (2 ^ 12) with 4096; lia).
  apply Z.bits_inj'. intros i Hi. rewrite Z.land_spec. destruct (Z.testbit a i) eqn:Hb; [|done]. cbn [andb].
  assert (12 <= i). { destruct (decide (i < 12)); [|lia]. rewrite Hs, Z.shiftl_spec_low in Hb by lia. done. }
  assert (i < 64). { destruct (decide (i < 64)); [lia|]. rewrite Z.bits_above_log2 in Hb; [done|lia|]. destruct (decide (a = 0)) as [->|]; [simpl; lia|]. pose proof (Z.log2_lt_pow2 a 64). lia. }
  change PAGE_MASK with (Z.shiftl (Z.ones 52) 12). rewrite Z.shiftl_spec by lia. apply Z.ones_spec_low. lia.
Qed.

Lemma region_ext v v' pgd T T' live live' ptrs ptrs' va n attr G G' : (forall o, 0 <= o < Z.of_nat n * 4096 -> G o = G' o) ->
  region_added v v' pgd T T' live live' ptrs ptrs' va n attr G -> region_added v v' pgd T T' live live' ptrs ptrs' va n attr G'.
Proof.
  intros He [A1 A2 A3 A4 A5 A6 A7 A8 A9]. split; try done. intros u Hu. rewrite (A6 u Hu). case_decide as Hin; [|done]. f_equal. apply He. unfold in_region in Hin. lia.
Qed.

Lemma mem_of_cpu c s : mem_of (set_v_cpu c s) = vm_cpu c (mem_of s).
Proof. done. Qed.
Lemma set_mem_cpu c v s : set_v_cpu c (set_mem v s) = set_mem (vm_cpu c v) s.
Proof. done. Qed.
Lemma set_cpu_mem v c s : set_mem v (set_v_cpu c s) = set_mem v s.
Proof. done. Qed.
Lemma vm_cpu_id v : vm_cpu (k_cpu (vm_kernel v)) v = v.
Proof. by destruct v as [[]]. Qed.
Lemma set_vm_mem_id v : set_vm_mem (vm_mem v) v = v.
Proof. by destruct v. Qed.

(** Where and how long a region may be. *)
Definition may_map (v : VM) (pgd : Z) (ptrs : gset Z) (addr : Z) (n : nat) : Prop :=
  0 < addr /\ is_aligned addr = true /\ addr + Z.of_nat n * 4096 <= 2 ^ 48 /\
  (forall u, user_va u -> in_region addr n u -> trans (vm_mem v) pgd u = None) /\
  (size ptrs + 4 * n <= NR_SLOTS)%nat /\ refs_room (k_mm (vm_kernel v)) (Z.of_nat n).

(** [do_mmap] around its loop: [base] and [first] describe what the loop does to
    the file, [G] what it puts into the pages. *)
Lemma do_mmap_gen junk s t k addr len prot flags file off zero_off old base first G T live ptrs :
  let s1 := set_v_cpu (entered (v_cpu s)) s in
  task_of s t = Some k -> space_ok (mem_of s) (t_vmmap k) T live ptrs -> cpu_room 1 (v_cpu s) ->
  may_map (mem_of s) (t_vmmap k) ptrs addr (pages len) -> (is_anonymous flags = false -> file <> 0) ->
  (if is_anonymous flags then mret 0 else x ← rd_file file; wr_pos file (u64 off);; mret (f_pos x)) s1 = Ret (old, base 0%nat) ->
  mem_of (base 0%nat) = mem_of s1 -> first 0%nat = true ->
  (forall i v b, 0 <= b < 512 -> k_cpu (vm_kernel v) = entered (v_cpu s) -> (forall o, 0 <= o < 4096 -> byte_at (vm_mem v) (page_addr b + o) = 0) ->
    exists s2 mem', (if is_anonymous flags then mret tt else read_page junk file (page_addr b)) (set_mem v (base i)) = Ret (tt, s2) /\
      zero_bss file (page_addr b) zero_off (first i) s2 = Ret (first (S i), set_mem (set_vm_mem mem' v) (base (S i))) /\
      changed_in (page_addr b) (page_addr b + 4096) (vm_mem v) mem' /\
      forall o, 0 <= o < 4096 -> byte_at mem' (page_addr b + o) = G i o) ->
  (forall v, (if is_anonymous flags then mret tt else wr_pos file old) (set_mem v (base (pages len))) = Ret (tt, set_mem v s1)) ->
  (exists v' T' live' ptrs', do_mmap junk t addr len prot flags file off zero_off s = Ret (addr, set_mem v' s) /\
     region_added (mem_of s) v' (t_vmmap k) T T' live live' ptrs ptrs' addr (pages len) (mmap_attr prot) (fun o => G (Z.to_nat (o / 4096)) (o mod 4096))) \/
  (do_mmap junk t addr len prot flags file off zero_off s = Panic /\ short_of_frames live (4 * pages len)).
Proof.
  intros s1 Ht Hok Hcpu (Ha0 & Hal & Hhi & Hun & Hsz & Hrf) Hfile Hpre Hb0 Hf0 Hfill Hpost.
  pose proof (cpu_room_ok _ _ Hcpu) as Hc. assert (Hce : cpu_ok (entered (v_cpu s))) by (apply (cpu_room_ok 0); by eapply cpu_room_entered).
  assert (Hal' : addr mod 4096 = 0) by (unfold is_aligned in Hal; by apply Z.eqb_eq in Hal).
  assert (Hadd : align_down addr = addr) by (apply align_down_id; [lia|done]).
  assert (Hstart : forall r, (mmap_pages (pages len) junk (t_vmmap k) (mmap_attr prot) (is_anonymous flags) file zero_off addr 0 true;;
      (if is_anonymous flags then mret tt else wr_pos file old);; mret addr) (base 0%nat) = r ->
    (let anonymous := is_anonymous flags in
     if negb anonymous && (file =? 0) then mret ret_err
     else if (Z.land flags MAP_FIXED =? 0) && negb (addr =? 0) && negb (is_aligned addr) then mret ret_err
     else
      k ← on_sys (rd_task t);
      let len := align_up len in
      let v_addr := if addr =? 0 then get_unmapped_area (t_vmmap k) len else align_down addr in
      old_file_pos ← (if anonymous then mret 0 else x ← rd_file file; wr_pos file (u64 off);; mret (f_pos x));
      mmap_pages (Z.to_nat (len / PAGE_SIZE)) junk (t_vmmap k) (mmap_attr prot) anonymous file zero_off v_addr 0 true;;
      (if anonymous then mret tt else wr_pos file old_file_pos);;
      mret v_addr) s1 = r).
  { intros r Hr. cbn zeta. replace (negb (is_anonymous flags) && (file =? 0)) with false; [|symmetry; apply andb_false_iff; destruct (is_anonymous flags); [by left|right; apply Z.eqb_neq; by apply Hfile]].
    rewrite Hal, andb_false_r. mrun (kf_rd_task s1 t k Ht). rewrite (proj2 (Z.eqb_neq addr 0)) by lia. rewrite Hadd. mrun Hpre. exact Hr. }
  assert (Hm1 : mem_of s1 = vm_cpu (entered (v_cpu s)) (mem_of s)) by done.
  pose proof (space_ok_cpu _ _ _ _ _ _ Hce Hok) as Hok1. rewrite <- Hm1 in Hok1.
  destruct (mmap_pages_run junk (t_vmmap k) (mmap_attr prot) (is_anonymous flags) file zero_off base first G (entered (v_cpu s)) Hfill
    (pages len) 0 (mem_of s1) T live ptrs addr Hok1) as [(v' & T' & live' & ptrs' & Hrun & Hra)|[Hrun Hs]];
    [done|apply mmap_attr_ok|done|lia|simpl; lia|by replace (addr + Z.of_nat 0 * 4096) with addr by lia|done|done| |].
  - left. rewrite Hf0 in Hrun. replace (addr + Z.of_nat 0 * 4096) with addr in Hra by lia. pose proof (ra_cpu _ _ _ _ _ _ _ _ _ _ _ _ _ Hra) as Hcv. change (k_cpu (vm_kernel (mem_of s1))) with (entered (v_cpu s)) in Hcv.
    rewrite Hm1 in Hra. apply (region_cpu (v_cpu s)) in Hra; [|done|done]. exists (vm_cpu (v_cpu s) v'), T', live', ptrs'. split; [|exact Hra].
    rewrite <- (set_mem_cpu (v_cpu s) v' s). unfold do_mmap. refine (guarded_spec _ s (set_mem v' s) addr Hc _). etransitivity; [exact (Hstart _ eq_refl)|]. rewrite <- Hb0, set_mem_id in Hrun. mrun Hrun.
    rewrite (bind_run _ _ _ _ _ (Hpost v')). unfold mret, M_ret. do 2 f_equal. change (with_cpu (entered (cpu_of s)) (set_mem v' s)) with (set_v_cpu (entered (v_cpu s)) (set_mem v' s)).
    rewrite set_mem_cpu, <- Hcv, vm_cpu_id. unfold s1. by rewrite set_cpu_mem.
  - right. split; [|done]. unfold do_mmap. apply guarded_panic; [done|]. etransitivity; [exact (Hstart _ eq_refl)|]. rewrite Hf0, <- Hb0, set_mem_id in Hrun.
    unfold mbind at 1, M_bind at 1. change (Z.of_nat 0) with 0 in Hrun. by rewrite Hrun.
Qed.

(** The file's position after [i] pages. *)
Definition pos_after (c : list Z) (off : Z) (i : nat) : Z := Z.min (Z.of_nat (length c)) (off + Z.of_nat i * 4096).

Lemma pos_after_next c off i : 0 <= off <= Z.of_nat (length c) ->
  0 <= pos_after c off i <= Z.of_nat (length c) /\ pos_after c off i + got c (pos_after c off i) 4096 = pos_after c off (S i).
Proof. intros H. unfold pos_after, got. lia. Qed.

Lemma file_byte_after c off i o : 0 <= off <= Z.of_nat (length c) -> 0 <= o -> file_byte c (pos_after c off i) o = file_byte c (off + Z.of_nat i * 4096) o.
Proof.
  intros H Ho. unfold file_byte, pos_after. destruct (decide (off + Z.of_nat i * 4096 <= Z.of_nat (length c))); [by rewrite Z.min_r by lia|].
  rewrite Z.min_l by lia. unfold arr_get. rewrite !decide_True by lia. by rewrite !lookup_ge_None_2 by lia.
Qed.

Lemma zero_bss_none file frame first s : zero_bss file frame no_offset first s = Ret (first, s).
Proof. unfold zero_bss. by rewrite Z.eqb_refl. Qed.

(** What the caller promises of the file. *)
Definition file_ready (s : VFS KernelFs) (flags file : Z) (c : list Z) (off : Z) : Prop :=
  is_anonymous flags = true \/ ((exists pos, tmp_file s file c pos) /\ is_bytes c /\ 0 <= off <= Z.of_nat (length c)).

Lemma set_pos_cpu f p c s : set_pos f p (set_v_cpu c s) = set_v_cpu c (set_pos f p s).
Proof. unfold set_pos. simpl. by destruct (v_files s !! f). Qed.
Lemma set_pos_mem_of f p s : mem_of (set_pos f p s) = mem_of s.
Proof. unfold set_pos. by destruct (v_files s !! f). Qed.

Lemma rd_tmp_file s f c pos : tmp_file s f c pos -> exists x, rd_file f s = Ret (x, s) /\ v_files s !! f = Some x /\ f_pos x = pos.
Proof. intros [_ (v & o & i & H & _)]. exists (mkFile v pos o). split_and!; [unfold rd_file; msimpl; by rewrite H|done|done]. Qed.

Lemma do_mmap_run junk s t k addr len prot flags file c off T live ptrs :
  task_of s t = Some k -> space_ok (mem_of s) (t_vmmap k) T live ptrs -> cpu_room 1 (v_cpu s) ->
  may_map (mem_of s) (t_vmmap k) ptrs addr (pages len) -> file_ready s flags file c off ->
  (exists v' T' live' ptrs', do_mmap junk t addr len prot flags file off no_offset s = Ret (addr, set_mem v' s) /\
     region_added (mem_of s) v' (t_vmmap k) T T' live live' ptrs ptrs' addr (pages len) (mmap_attr prot) (region_byte (is_anonymous flags) c off)) \/
  (do_mmap junk t addr len prot flags file off no_offset s = Panic /\ short_of_frames live (4 * pages len)).
Proof.
  intros Ht Hok Hcpu Hmay Hfile. set (s1 := set_v_cpu (entered (v_cpu s)) s).
  assert (Hce : cpu_ok (entered (v_cpu s))) by (apply (cpu_room_ok 0); by eapply cpu_room_entered).
  destruct (is_anonymous flags) eqn:Han.
  - destruct (do_mmap_gen junk s t k addr len prot flags file off no_offset 0 (fun _ => s1) (fun _ => true) (fun _ _ => 0) T live ptrs Ht Hok Hcpu Hmay)
      as [(v' & T' & live' & ptrs' & Hrun & Hra)|?]; rewrite ?Han; try done; [|left|by right].
    + intros i v b Hb Hv Hz. exists (set_mem v s1), (vm_mem v). rewrite zero_bss_none, set_vm_mem_id. by split_and!.
    + exists v', T', live', ptrs'. by split.
  - destruct Hfile as [?|((pos & Htf) & Hby & Hoff)]; [congruence|].
    assert (Htf1 : tmp_file s1 file c pos) by exact Htf. destruct (rd_tmp_file s1 file c pos Htf1) as (x & Hrd & Hvx & Hpx).
    assert (Hu : u64 off = off) by (destruct Htf as [_ (? & ? & ? & ? & ? & ? & ? & ? & ? & ?)]; apply u64_id; lia).
    set (base := fun i => set_pos file (pos_after c off i) s1).
    assert (Hp0 : pos_after c off 0 = off) by (unfold pos_after; lia).
    destruct (do_mmap_gen junk s t k addr len prot flags file off no_offset pos base (fun _ => true) (fun i o => file_byte c (off + Z.of_nat i * 4096) o) T live ptrs Ht Hok Hcpu Hmay)
      as [(v' & T' & live' & ptrs' & Hrun & Hra)|?]; rewrite ?Han; try done; [by intros _; apply Htf| | | | |left|by right].
    + mrun Hrd. rewrite Hu. rewrite (bind_run _ _ _ _ _ (set_pos_run s1 file x off Hvx)). unfold base. by rewrite Hp0, Hpx.
    + unfold base. by rewrite set_pos_mem_of.
    + intros i v b Hb Hv Hz. destruct (pos_after_next c off i Hoff) as [Hr Hn].
      destruct (read_page_run (base i) v file c (pos_after c off i) junk b) as (mem' & Hrun & Hch & Hbytes);
        [by rewrite Hv|by apply (tmp_file_set_pos s1 file c pos)|done|done|done|done|].
      eexists _, mem'. split_and!; [exact Hrun| |done|].
      * rewrite zero_bss_none. unfold base. by rewrite set_pos_set, Hn.
      * intros o Ho. rewrite Hbytes by done. apply file_byte_after; lia.
    + intros v. assert (Hv2 : tmp_file (set_mem v (base (pages len))) file c (pos_after c off (pages len))) by (by apply (tmp_file_set_pos s1 file c pos)).
      destruct (rd_tmp_file _ _ _ _ Hv2) as (y & _ & Hvy & _). rewrite (set_pos_run _ _ y _ Hvy). unfold base. rewrite set_pos_mem, set_pos_set.
      by rewrite (set_pos_id file s1 c pos).
    + exists v', T', live', ptrs'. split; [done|]. eapply region_ext; [|exact Hra]. intros o Ho. cbn beta. unfold region_byte, file_byte.
      do 2 f_equal. pose proof (Z.div_mod o 4096). assert (0 <= o / 4096) by (apply Z.div_pos; lia). lia.
Qed.

(** ** Segments *)

Definition seg_base (seg : Segment) : Z := ELF_DEFAULT_BASE + seg_virtual_address seg.
Definition seg_pages (seg : Segment) : nat := pages (seg_file_offset seg mod PAGE_SIZE + seg_physical_size seg).
Definition seg_load (seg : Segment) : bool := seg_type seg =? SEGMENT_LOAD.

(** A segment within the file and without a part behind it, at page boundaries. *)
Record seg_ok (c : list Z) (seg : Segment) : Prop := {
  sg_data : seg_virtual_size seg <= seg_physical_size seg;
  sg_aligned : seg_virtual_address seg mod 4096 = 0;
  sg_low : 0 <= seg_virtual_address seg < 2 ^ 47;
  sg_off : 0 <= seg_file_offset seg <= Z.of_nat (length c);
  sg_len : 0 <= seg_physical_size seg < 2 ^ 47
}.

Lemma mod_mask x : 0 <= x < 2 ^ 48 -> x mod PAGE_MASK = x.
Proof. intros H. rewrite PAGE_MASK_eq. apply Z.mod_small. lia. Qed.

Lemma aligned_base va : va mod 4096 = 0 -> is_aligned (ELF_DEFAULT_BASE + va) = true.
Proof.
  intros H. unfold is_aligned, ELF_DEFAULT_BASE. change PAGE_SIZE with 4096. apply Z.eqb_eq. change 0x400000 with (0x400 * 4096).
  rewrite Z.add_comm, Z.mod_add by lia. done.
Qed.

Lemma map_elf_segment_run junk s t k file c seg T live ptrs :
  task_of s t = Some k -> space_ok (mem_of s) (t_vmmap k) T live ptrs -> cpu_room 1 (v_cpu s) ->
  (exists pos, tmp_file s file c pos) -> is_bytes c -> seg_load seg = true -> seg_ok c seg ->
  may_map (mem_of s) (t_vmmap k) ptrs (seg_base seg) (seg_pages seg) ->
  (exists v' T' live' ptrs', map_elf_segment junk t file seg s = Ret (tt, set_mem v' s) /\
     region_added (mem_of s) v' (t_vmmap k) T T' live live' ptrs ptrs' (seg_base seg) (seg_pages seg) (mmap_attr (segment_prot seg)) (file_byte c (seg_file_offset seg))) \/
  (map_elf_segment junk t file seg s = Panic /\ short_of_frames live (4 * seg_pages seg)).
Proof.
  intros Ht Hok Hcpu [pos Hf] Hby Hld [Hd Hal Hlow Hoff Hlen] Hmay. assert (Hl31 : Z.of_nat (length c) < 2 ^ 31) by (by destruct Hf as [_ (? & ? & ? & ? & ? & ? & ? & ? & ? & ?)]).
  pose proof (Z.mod_pos_bound (seg_file_offset seg) 4096 ltac:(lia)) as Hom.
  assert (Heq : map_elf_segment junk t file seg s =
    (_ ← do_mmap junk t (seg_base seg) (seg_file_offset seg mod PAGE_SIZE + seg_physical_size seg) (segment_prot seg) MAP_PRIVATE file (seg_file_offset seg) no_offset; mret tt) s).
  { unfold map_elf_segment. unfold seg_load in Hld. rewrite Hld. cbn [negb]. rewrite (proj2 (Z.ltb_ge (seg_physical_size seg) (seg_virtual_size seg))) by lia. cbn [andb].
    rewrite !mod_mask by lia. rewrite (u64_id (_ mod _ + _)) by (change PAGE_SIZE with 4096; lia). rewrite (u64_id (ELF_DEFAULT_BASE + _)) by (unfold ELF_DEFAULT_BASE; lia).
    by rewrite s32_id by lia. }
  rewrite Heq.
  destruct (do_mmap_run junk s t k (seg_base seg) (seg_file_offset seg mod PAGE_SIZE + seg_physical_size seg) (segment_prot seg) MAP_PRIVATE file c (seg_file_offset seg) T live ptrs)
    as [(v' & T' & live' & ptrs' & Hrun & Hra)|[Hrun Hs]]; [done|done|done|done|right; by eauto| |].
  - left. exists v', T', live', ptrs'. mrun Hrun. split; [done|]. exact Hra.
  - right. split; [|done]. unfold mbind, M_bind. by rewrite Hrun.
Qed.

(** What the segments put at [u]. *)
Fixpoint image_byte (c : list Z) (segs : list Segment) (u : Z) : option Z :=
  match segs with
  | [] => None
  | seg :: segs =>
      if seg_load seg && bool_decide (in_region (seg_base seg) (seg_pages seg) u) then Some (file_byte c (seg_file_offset seg) (u - seg_base seg))
      else image_byte c segs u
  end.
Fixpoint image_pages (segs : list Segment) : nat :=
  match segs with [] => 0 | seg :: segs => (if seg_load seg then seg_pages seg else 0) + image_pages segs end.

(** Segments that can be loaded at once: within the user's addresses, not
    overlapping each other nor what is mapped. *)
Fixpoint disjoint_segs (segs : list Segment) : Prop :=
  match segs with
  | [] => True
  | seg :: segs => (seg_load seg = true -> forall seg' u, seg' ∈ segs -> seg_load seg' = true ->
      in_region (seg_base seg) (seg_pages seg) u -> ~ in_region (seg_base seg') (seg_pages seg') u) /\ disjoint_segs segs
  end.
Record loadable (v : VM) (pgd : Z) (ptrs : gset Z) (c : list Z) (segs : list Segment) : Prop := {
  ld_ok seg : seg ∈ segs -> seg_load seg = true -> seg_ok c seg /\ seg_base seg + Z.of_nat (seg_pages seg) * 4096 <= 2 ^ 48;
  ld_disjoint : disjoint_segs segs;
  ld_free seg u : seg ∈ segs -> seg_load seg = true -> user_va u -> in_region (seg_base seg) (seg_pages seg) u -> trans (vm_mem v) pgd u = None;
  ld_slots : (size ptrs + 4 * image_pages segs <= NR_SLOTS)%nat;
  ld_refs : refs_room (k_mm (vm_kernel v)) (Z.of_nat (image_pages segs))
}.

Lemma loadable_may_map v pgd ptrs c seg segs : loadable v pgd ptrs c (seg :: segs) -> seg_load seg = true ->
  seg_ok c seg /\ may_map v pgd ptrs (seg_base seg) (seg_pages seg).
Proof.
  intros [H1 H2 H3 H4 H5] Hl. destruct (H1 seg (list_elem_of_here _ _) Hl) as [Hok Hhi]. split; [done|]. cbn [image_pages] in H4, H5. rewrite Hl in H4, H5.
  destruct Hok as [? Hal Hlow ? ?]. unfold may_map. split_and!.
  - unfold seg_base, ELF_DEFAULT_BASE. lia.
  - by apply aligned_base.
  - done.
  - intros u. apply H3; [apply list_elem_of_here|done].
  - lia.
  - intros i x Hi. specialize (H5 i x Hi). lia.
Qed.

Lemma loadable_next v v' pgd T T' live live' ptrs ptrs' c seg segs attr G : loadable v pgd ptrs c (seg :: segs) -> seg_load seg = true ->
  region_added v v' pgd T T' live live' ptrs ptrs' (seg_base seg) (seg_pages seg) attr G -> loadable v' pgd ptrs' c segs.
Proof.
  intros [H1 [Hd H2] H3 H4 H5] Hl Hra. cbn [image_pages] in H4, H5. rewrite Hl in H4, H5. split; [|done|..].
  - intros seg' Hs. apply H1. by apply list_elem_of_further.
  - intros seg' u Hs Hl' Hu Hin. pose proof (ra_trans _ _ _ _ _ _ _ _ _ _ _ _ _ Hra u Hu) as Htr.
    rewrite decide_False in Htr by (intros Hin'; by eapply Hd). rewrite Htr. apply (H3 seg'); [by apply list_elem_of_further|done..].
  - pose proof (ra_ptrs _ _ _ _ _ _ _ _ _ _ _ _ _ Hra). lia.
  - apply Hra. by replace (Z.of_nat (image_pages segs) + Z.of_nat (seg_pages seg)) with (Z.of_nat (seg_pages seg + image_pages segs)) by lia.
Qed.

Lemma map_segments_run junk file c t k segs s T live ptrs :
  task_of s t = Some k -> space_ok (mem_of s) (t_vmmap k) T live ptrs -> cpu_room 1 (v_cpu s) ->
  (exists pos, tmp_file s file c pos) -> is_bytes c -> loadable (mem_of s) (t_vmmap k) ptrs c segs ->
  (exists v' T' live' ptrs', map_segments junk t file segs s = Ret (tt, set_mem v' s) /\ space_ok v' (t_vmmap k) T' live' ptrs' /\
     k_cpu (vm_kernel v') = v_cpu s /\ frames_added (4 * image_pages segs) live live' /\
     (forall u, user_va u -> space (vm_mem v') (t_vmmap k) u =
        match image_byte c segs u with Some x => Some x | None => space (vm_mem (mem_of s)) (t_vmmap k) u end)) \/
  (map_segments junk t file segs s = Panic /\ short_of_frames live (4 * image_pages segs)).
Proof.
  revert s T live ptrs. induction segs as [|seg segs IH]; intros s T live ptrs Ht Hok Hcpu Hf Hby Hld; cbn [map_segments image_pages image_byte].
  { left. exists (mem_of s), T, live, ptrs. rewrite set_mem_id. split_and!; [done|done|done|split_and!; [done|by left|lia]|done]. }
  destruct (seg_load seg) eqn:Hl; pose proof Hl as Hl'; unfold seg_load in Hl'; rewrite Hl'; cbn [negb andb].
  2:{ msimpl. assert (Hld' : loadable (mem_of s) (t_vmmap k) ptrs c segs).
      { destruct Hld as [H1 [_ H2] H3 H4 H5]. cbn [image_pages] in H4, H5. rewrite Hl in H4, H5.
        split; [|done| |done|done]; intros seg'; intros; [apply H1|eapply (H3 seg')]; (done || by apply list_elem_of_further). }
      apply (IH s T live ptrs Ht Hok Hcpu Hf Hby Hld'). }
  destruct (loadable_may_map _ _ _ _ _ _ Hld Hl) as [Hsok Hmay].
  destruct (map_elf_segment_run junk s t k file c seg T live ptrs Ht Hok Hcpu Hf Hby Hl Hsok Hmay) as [(v1 & T1 & live1 & ptrs1 & Hrun & Hra)|[Hrun Hs]].
  2:{ right. split; [unfold mbind, M_bind; by rewrite Hrun|]. eapply short_of_frames_weaken; [exact Hs|lia]. }
  mrun Hrun. pose proof (ra_cpu _ _ _ _ _ _ _ _ _ _ _ _ _ Hra) as Hc1. change (k_cpu (vm_kernel (mem_of s))) with (v_cpu s) in Hc1.
  destruct (IH (set_mem v1 s) T1 live1 ptrs1) as [(v2 & T2 & live2 & ptrs2 & Hrun2 & Hok2 & Hc2 & Hfr2 & Hsp2)|[Hrun2 Hs2]];
    [done|by rewrite mem_of_set; apply Hra|simpl; by rewrite Hc1|done|done|rewrite mem_of_set; by eapply loadable_next| |].
  - left. exists v2, T2, live2, ptrs2. rewrite Hrun2, set_mem_set. split_and!; [done|done|by rewrite Hc2; simpl| |].
    + replace (4 * (seg_pages seg + image_pages segs))%nat with (4 * seg_pages seg + 4 * image_pages segs)%nat by lia.
      eapply frames_added_trans; [apply Hra|done].
    + intros u Hu. rewrite (Hsp2 u Hu), mem_of_set, (ra_space _ _ _ _ _ _ _ _ _ _ _ _ _ Hra u Hu).
      destruct (decide (in_region (seg_base seg) (seg_pages seg) u)) as [Hin|Hin]; [rewrite bool_decide_true by done|by rewrite bool_decide_false by done].
      destruct (image_byte c segs u) as [x|] eqn:Hx; [exfalso|done]. destruct (ld_disjoint _ _ _ _ _ Hld) as [Hd _].
      clear - Hx Hd Hin Hl. induction segs as [|seg' segs IH]; [done|]. cbn [image_byte] in Hx.
      destruct (seg_load seg' && bool_decide _) eqn:E.
      * apply andb_true_iff in E as [E1 E2%bool_decide_eq_true]. by eapply (Hd Hl seg' u); [apply list_elem_of_here|..].
      * apply IH; [done|]. intros _ seg2 w Hs. apply (Hd Hl). by apply list_elem_of_further.
  - right. rewrite Hrun2. split; [done|]. replace (4 * (seg_pages seg + image_pages segs))%nat with (4 * seg_pages seg + 4 * image_pages segs)%nat by lia.
    eapply short_of_frames_added; [apply Hra|done].
Qed.

(** ** Segments that are longer in memory than in the file *)

Lemma mask_small x : 0 <= x < 4096 -> Z.land x PAGE_MASK = 0.
Proof.
  intros Hx. change PAGE_MASK with (Z.shiftl (Z.ones 52) 12). apply Z.bits_inj'. intros i Hi. rewrite Z.land_spec, Z.bits_0.
  destruct (decide (i < 12)); [by rewrite Z.shiftl_spec_low, andb_false_r by lia|]. rewrite (Z.bits_above_log2 x); [done|lia|].
  destruct (decide (x = 0)) as [->|]; [simpl; lia|]. pose proof (Z.log2_lt_pow2 x 12). lia.
Qed.

Lemma mem_set_frame b s v : 0 <= b < 512 ->
  on_mem (mem_set (page_addr b) 0 4096) (set_mem v s) = Ret (tt, set_mem (set_vm_mem (patch (page_addr b) 4096 (fun _ => 0) (vm_mem v)) v) s).
Proof.
  intros Hb. destruct (page_addr_low b Hb) as (H0 & H1 & H2).
  rewrite (on_mem_run _ _ tt (set_vm_mem (patch (page_addr b) 4096 (fun _ => 0) (vm_mem v)) v)); [by rewrite set_mem_set|].
  rewrite mem_of_set. unfold mem_set. rewrite decide_True by (split; lia). by rewrite kaddr_low.
Qed.

(** The first turn clears from [zero_off & PAGE_MASK] on, which is 0. *)
Lemma zero_bss_all s v file c pos b zero_off first : tmp_file s file c pos -> 0 <= pos <= Z.of_nat (length c) -> 0 < zero_off < 4096 -> 0 <= b < 512 ->
  zero_bss file (page_addr b) zero_off first (set_mem v s) = Ret (false, set_mem (set_vm_mem (patch (page_addr b) 4096 (fun _ => 0) (vm_mem v)) v) s).
Proof.
  intros Hf Hpos Hz Hb. destruct (rd_tmp_file (set_mem v s) file c pos Hf) as (x & Hrd & _ & Hx). assert (Hl : Z.of_nat (length c) < 2 ^ 31) by (by destruct Hf as [_ (? & ? & ? & ? & ? & ? & ? & ? & ? & ?)]).
  destruct (page_addr_low b Hb) as (H0 & H1 & _). unfold zero_bss, no_offset. rewrite (proj2 (Z.eqb_neq zero_off _)) by lia. mrun Hrd.
  rewrite Hx. change PAGE_SIZE with 4096. rewrite u64_id by lia. rewrite (proj2 (Z.leb_le zero_off _)) by lia. rewrite mask_small, Z.add_0_r, Z.sub_0_r by lia.
  rewrite !(u64_id (page_addr b)) by lia. change (u64 4096) with 4096. destruct first; by rewrite (bind_run _ _ _ _ _ (mem_set_frame b s v Hb)).
Qed.

(** A data segment of less than a page with a zero-initialised part behind it:
    the file's bytes are cleared again, the program sees zeros only. *)
Lemma short_data_segment_cleared junk s t k file c seg T live ptrs :
  task_of s t = Some k -> space_ok (mem_of s) (t_vmmap k) T live ptrs -> cpu_room 1 (v_cpu s) ->
  (exists pos, tmp_file s file c pos) -> is_bytes c -> seg_load seg = true -> 0 < seg_physical_size seg < 4096 -> seg_physical_size seg < seg_virtual_size seg ->
  seg_virtual_address seg mod 4096 = 0 -> 0 <= seg_virtual_address seg < 2 ^ 47 -> 0 <= seg_file_offset seg <= Z.of_nat (length c) ->
  may_map (mem_of s) (t_vmmap k) ptrs (seg_base seg) (seg_pages seg) ->
  (exists v' T' live' ptrs', map_elf_segment junk t file seg s = Ret (tt, set_mem v' s) /\
     region_added (mem_of s) v' (t_vmmap k) T T' live live' ptrs ptrs' (seg_base seg) (seg_pages seg) (mmap_attr (segment_prot seg)) (fun _ => 0)) \/
  (map_elf_segment junk t file seg s = Panic /\ short_of_frames live (4 * seg_pages seg)).
Proof.
  intros Ht Hok Hcpu [pos Hf] Hby Hld Hsz Hbss Hal Hlow Hoff Hmay. assert (Hl31 : Z.of_nat (length c) < 2 ^ 31) by (by destruct Hf as [_ (? & ? & ? & ? & ? & ? & ? & ? & ? & ?)]).
  pose proof (Z.mod_pos_bound (seg_file_offset seg) 4096 ltac:(lia)) as Hom. set (off := seg_file_offset seg) in *. set (s1 := set_v_cpu (entered (v_cpu s)) s).
  assert (Hce : cpu_ok (entered (v_cpu s))) by (apply (cpu_room_ok 0); by eapply cpu_room_entered).
  assert (Heq : map_elf_segment junk t file seg s =
    (_ ← do_mmap junk t (seg_base seg) (off mod PAGE_SIZE + seg_physical_size seg) (segment_prot seg) MAP_PRIVATE file off (seg_physical_size seg); mret tt) s).
  { unfold map_elf_segment. unfold seg_load in Hld. rewrite Hld. cbn [negb]. rewrite (proj2 (Z.ltb_lt (seg_physical_size seg) (seg_virtual_size seg))) by lia.
    rewrite (proj2 (Z.eqb_neq (seg_physical_size seg) 0)) by lia. cbn [andb]. fold off. rewrite !mod_mask by lia.
    rewrite (u64_id (_ mod _ + _)) by (change PAGE_SIZE with 4096; lia). rewrite (u64_id (ELF_DEFAULT_BASE + _)) by (unfold ELF_DEFAULT_BASE; lia). by rewrite s32_id by lia. }
  rewrite Heq. destruct (rd_tmp_file s1 file c pos Hf) as (x & Hrd & Hvx & Hpx). set (base := fun i => set_pos file (pos_after c off i) s1).
  assert (Hbase : forall i, tmp_file (base i) file c (pos_after c off i)) by (intros i; by apply (tmp_file_set_pos s1 file c pos)).
  assert (Hp0 : pos_after c off 0 = off) by (unfold pos_after; lia).
  destruct (do_mmap_gen junk s t k (seg_base seg) (off mod PAGE_SIZE + seg_physical_size seg) (segment_prot seg) MAP_PRIVATE file off (seg_physical_size seg) pos base
    (fun i => match i with O => true | S _ => false end) (fun _ _ => 0) T live ptrs Ht Hok Hcpu Hmay) as [(v' & T' & live' & ptrs' & Hrun & Hra)|[Hrun Hs]]; try done.
  - intros _. apply Hf.
  - change (is_anonymous MAP_PRIVATE) with false. cbn iota. mrun Hrd. rewrite (u64_id off) by lia. rewrite (bind_run _ _ _ _ _ (set_pos_run s1 file x off Hvx)). unfold base. by rewrite Hp0, Hpx.
  - unfold base. by rewrite set_pos_mem_of.
  - intros i v b Hb Hv Hz. change (is_anonymous MAP_PRIVATE) with false. cbn iota. destruct (pos_after_next c off i Hoff) as [Hr Hn].
    destruct (read_page_run (base i) v file c (pos_after c off i) junk b) as (mem' & Hrun & Hch & _); [by rewrite Hv|apply Hbase|done|done|done|done|].
    eexists _, (patch (page_addr b) 4096 (fun _ => 0) mem'). split_and!; [exact Hrun|..].
    + rewrite Hn. unfold base at 1. rewrite set_pos_set. fold (base (S i)).
      rewrite (zero_bss_all (base (S i)) (set_vm_mem mem' v) file c (pos_after c off (S i))) by (done || apply Hbase || (destruct (pos_after_next c off (S i) Hoff); lia)). done.
    + eapply changed_trans; [exact Hch|]. split; intros y Hy; [apply word_patch; lia|by rewrite byte_patch, decide_False by lia].
    + intros o Ho. by rewrite byte_patch, decide_True by lia.
  - intros v. change (is_anonymous MAP_PRIVATE) with false. cbn iota. set (n := pages _). destruct (rd_tmp_file (set_mem v (base n)) _ _ _ (Hbase n)) as (y & _ & Hvy & _).
    rewrite (set_pos_run _ _ y _ Hvy). unfold base. rewrite set_pos_mem, set_pos_set. by rewrite (set_pos_id file s1 c pos).
  - left. exists v', T', live', ptrs'. by mrun Hrun.
  - right. split; [|done]. unfold mbind, M_bind. by rewrite Hrun.
Qed.

(** ** Claims *)


(** ** Witnesses *)

(** A kernel with one task, whose map is [pgd] and whose next stack is frame
    [bu], and one opened file with content [c]. *)
Definition demo_task (pgd bu : Z) : Task :=
  mkTask (mkContext (replicate 11 0) 0 0) true 0 [] [] RUNNING 0 1 TASK_TIME_SLICE pgd 0 (mkPage 0 0) (mkPage (page_addr bu) 0) 0 (replicate 16 0) []
    (replicate 12 0) ([0; 0; 0] ++ replicate 13 0) 1 false.
Definition demo_inode (c : list Z) : Inode := mkInode 1 (Z.of_nat (length c)) S_IFREG 0 0 0 1 [97] (Some c) 1 [].
Definition demo_state (v : VM) (pgd bu : Z) (c : list Z) : VFS KernelFs :=
  mkVFS (k_cpu (vm_kernel v)) (mkKernelFs (mkHeap {[2 := demo_inode c]} 3) ∅ false (mkSys v {[1 := demo_task pgd bu]} 2 2 1 0 1 false [1] [] 1))
    0 1 [] {[1 := mkFile 2 0 0]} 2 [1] [] [] (mkUart [] []) 1.

Lemma demo_mem v pgd bu c : mem_of (demo_state v pgd bu c) = v.
Proof. by destruct v as [[]]. Qed.
Lemma demo_file v pgd bu c : Z.of_nat (length c) < 2 ^ 31 -> tmp_file (demo_state v pgd bu c) 1 c 0.
Proof. intros Hc. split; [done|]. exists 2, 0, (demo_inode c). by split_and!. Qed.

Lemma boot_space mem : exists b v, 0 <= b < 512 /\ space_ok v (page_addr b) {[page_addr b := 0%nat]} {[b := 0]} {[page_addr b]} /\
  refs v = replicate 512 0 /\ (forall u, trans (vm_mem v) (page_addr b) u = None) /\ vm_mem v = zero_frame (page_addr b) mem /\ k_cpu (vm_kernel v) = k_cpu fresh_kernel.
Proof.
  destruct (new_vmmap_spec fresh_kernel mem ∅ ∅ fresh_cpu_ok fresh_mm_rep) as (b & v & Hrun & Hb & Hr & Hok & Htr).
  - rewrite size_empty. unfold NR_SLOTS. lia.
  - apply exhausted_empty. unfold NR_ORDERS. lia.
  - rewrite union_empty_r_L in Hok. exists b, v. split_and!; [lia|lia| |done|done| |].
    + split; [exact Hok|]. intros u d _. by rewrite Htr.
    + unfold new_vmmap in Hrun. minv Hrun as p v1 H1. destruct (p =? 0) eqn:E; [injection Hrun as Hp Hv; apply Z.eqb_eq in E; unfold page_addr in Hp; lia|].
      minv Hrun as u v2 H2. injection H2 as <- <-. injection Hrun as Hp Hv. subst p v. simpl. f_equal. unfold on_kernel, zoom in H1.
      destruct (get_free_page true _) as [[? ?]| | |]; [|done..]. by injection H1 as _ <-.
    + apply (keeps_new_vmmap (mkVM fresh_kernel mem) (page_addr b) v fresh_cpu_ok Hrun).
Qed.

