(* ===== verification/FreeSpec.v ===== *)
(** * Releasing an address space: theorems

    [dfs_kfree_page] visits every table and every page of a map.  It is the run
    of a list of calls, one reference given up for each page and one [kfree] for
    each table; [vm_reset] therefore leaves an empty map and frees the tables
    and the pages nobody else refers to. *)

From Stdlib Require Import ZArith Lia.
From stdpp Require Import base gmap list numbers.
From S2P Require Import Prelude Math Mmu Tiling Mutex Buddy BuddyProof BuddySpec Slob Memory MemorySpec PageTable PageTableSpec ByteMem ExecSpec MmapSpec.

Open Scope Z_scope.

(** ** The calls *)

Inductive fop := Unref (p : Z) | FreeTable (p : Z).
Definition run_fop (o : fop) : M VM unit :=
  match o with
  | Unref p => refs ← on_kernel (dec_page_ref_count p); if refs =? 0 then on_kernel (kfree p) else mret tt
  | FreeTable p => on_kernel (kfree p)
  end.
Fixpoint run_fops (ops : list fop) : M VM unit := match ops with [] => mret tt | o :: ops => run_fop o;; run_fops ops end.

(** The calls for the entries of a table, with [below] levels below it. *)
Definition entry_ops (ops : Z -> list fop) (mem : Z -> Z) (below : nat) (pt i : Z) : list fop :=
  if valid mem pt i then match below with O => [Unref (child mem pt i)] | S _ => ops (child mem pt i) ++ [FreeTable (child mem pt i)] end else [].
Fixpoint dfs_ops (below : nat) (mem : Z -> Z) (pt : Z) : list fop :=
  seqZ 0 512 ≫= entry_ops (match below with O => fun _ => [] | S below => dfs_ops below mem end) mem below pt.

Lemma on_kernel_mem {A} (m : M Kernel A) s a s' : on_kernel m s = Ret (a, s') -> vm_mem s' = vm_mem s.
Proof. unfold on_kernel, zoom. destruct (m (vm_kernel s)) as [[b k]| | |]; [|done..]. intros H. by injection H as <- <-. Qed.
Lemma run_fop_mem o s u s' : run_fop o s = Ret (u, s') -> vm_mem s' = vm_mem s.
Proof.
  destruct o as [p|p]; cbn [run_fop]; [|apply on_kernel_mem]. intros H. minv H as c s1 H1. apply on_kernel_mem in H1. rewrite <- H1.
  destruct (c =? 0); [by apply on_kernel_mem in H|by injection H as _ <-].
Qed.
Lemma run_fops_mem ops s u s' : run_fops ops s = Ret (u, s') -> vm_mem s' = vm_mem s.
Proof.
  revert s. induction ops as [|o ops IH]; intros s H; cbn [run_fops] in H; [by injection H as _ <-|].
  minv H as u1 s1 H1. apply run_fop_mem in H1. rewrite <- H1. by apply IH.
Qed.
Lemma run_fops_app ops ops' s : run_fops (ops ++ ops') s = (run_fops ops;; run_fops ops') s.
Proof.
  revert s. induction ops as [|o ops IH]; intros s; cbn [run_fops app]; [done|]. unfold mbind, M_bind. destruct (run_fop o s) as [[? s1]| | |]; [|done..]. apply IH.
Qed.
Lemma bind_ret_unit {S} (m : M S unit) s : (m;; mret tt) s = m s.
Proof. unfold mbind, M_bind. destruct (m s) as [[[] ?]| | |]; done. Qed.

Lemma bind_congr {S A B} (m m' : M S A) (k k' : A -> M S B) s :
  m s = m' s -> (forall a s', m' s = Ret (a, s') -> k a s' = k' a s') -> mbind k m s = mbind k' m' s.
Proof. intros Hm Hk. unfold mbind, M_bind. rewrite Hm. destruct (m' s) as [[a s1]| | |]; [by apply Hk|done..]. Qed.

(** The loop, when its body at [i] is the run of [ops i]. *)
Lemma for_entries_ops n i body ops mem : (forall j s, vm_mem s = mem -> body j s = run_fops (ops j) s) ->
  forall s, vm_mem s = mem -> for_entries n i body s = run_fops (seqZ i (Z.of_nat n) ≫= ops) s.
Proof.
  intros Hb. revert i. induction n as [|n IH]; intros i s Hs; cbn [for_entries]; [done|].
  rewrite seqZ_cons by lia. rewrite bind_cons, run_fops_app. apply bind_congr; [by apply Hb|]. intros u s1 E. apply run_fops_mem in E.
  rewrite (IH (i + 1) s1) by congruence. replace (Z.pred (Z.of_nat (S n))) with (Z.of_nat n) by lia. done.
Qed.

Lemma dfs_kfree_ops below pt s : dfs_kfree_page below pt s = run_fops (dfs_ops below (vm_mem s) pt) s.
Proof.
  revert pt s. induction below as [|below IH]; intros pt s; cbn [dfs_kfree_page dfs_ops];
    change (seqZ 0 512) with (seqZ 0 (Z.of_nat (Z.to_nat nr_entries_per_pt))); apply (for_entries_ops _ _ _ _ (vm_mem s)); try done;
    intros j s1 <-; mrun (rd_word_run (entry pt j) s1); unfold entry_ops, valid, child; destruct (PD_INVALID _) eqn:Hv; try done; cbn [negb].
  - cbn [run_fops run_fop]. by rewrite bind_ret_unit.
  - rewrite run_fops_app. apply bind_congr; [apply IH|]. intros u s2 E. apply run_fops_mem in E.
    mrun (rd_word_run (entry pt j) s2). rewrite E. cbn [run_fops run_fop]. by rewrite bind_ret_unit.
Qed.

(** ** Their effect *)

Definition op_addr (o : fop) : Z := match o with Unref p => p | FreeTable p => p end.
Definition unref_of (b : Z) (o : fop) : Z := match o with Unref p => if p =? page_addr b then 1 else 0 | FreeTable _ => 0 end.
Fixpoint unrefs (b : Z) (ops : list fop) : Z := match ops with [] => 0 | o :: ops => unref_of b o + unrefs b ops end.
Definition tables (ops : list fop) : list Z := omap (fun o => match o with FreeTable p => Some p | Unref _ => None end) ops.

(** The frame is given back: it is a table, or the last reference to it is given up. *)
Definition released (r : list Z) (ops : list fop) (b : Z) : Prop :=
  FreeTable (page_addr b) ∈ ops \/ (0 < unrefs b ops /\ arr_get r b = Some (unrefs b ops)).
#[export] Instance fop_eq_dec : EqDecision fop.
Proof. solve_decision. Defined.
#[export] Instance released_dec r ops b : Decision (released r ops b).
Proof. unfold released. apply _. Defined.

Lemma unref_of_range b o : 0 <= unref_of b o <= 1.
Proof. destruct o as [p|p]; simpl; [|lia]. destruct (p =? page_addr b); lia. Qed.
Lemma unrefs_range b ops : 0 <= unrefs b ops <= Z.of_nat (length ops).
Proof. induction ops as [|o ops IH]; cbn [unrefs length]; [lia|]. pose proof (unref_of_range b o). lia. Qed.
Lemma unrefs_elem b ops : 0 < unrefs b ops <-> Unref (page_addr b) ∈ ops.
Proof.
  induction ops as [|o ops IH]; cbn [unrefs]; [rewrite elem_of_nil; lia|]. rewrite elem_of_cons, <- IH. pose proof (unrefs_range b ops).
  destruct o as [p|p]; cbn [unref_of].
  - destruct (Z.eqb_spec p (page_addr b)) as [->|Hne]; [split; [by left|lia]|]. split; [right; lia|intros [[= ?]|?]; [congruence|lia]].
  - split; [right; lia|intros [[=]|?]; lia].
Qed.
Lemma tables_elem p ops : p ∈ tables ops <-> FreeTable p ∈ ops.
Proof.
  unfold tables. rewrite list_elem_of_omap. split.
  - intros (o & Ho & Hp). destruct o; [done|]. by injection Hp as ->.
  - intros H. eexists. split; [exact H|done].
Qed.
Lemma unrefs_app b l l' : unrefs b (l ++ l') = unrefs b l + unrefs b l'.
Proof. induction l as [|o l IH]; cbn [unrefs app]; [lia|]. rewrite IH. lia. Qed.

Lemma guarded_mm_body {A} (m : M MemoryManager A) k a k' : guarded (on_mm m) k = Ret (a, k') -> m (k_mm k) = Ret (a, k_mm k').
Proof.
  intros H. unfold guarded in H. minv H as u1 k1 H1. minv H as r k2 H2. minv H as u3 k3 H3. injection H as <- <-.
  assert (E1 : k_mm k1 = k_mm k) by (unfold zoom in H1; destruct (lock _) as [[? ?]| | |]; [by injection H1 as <- <-|done..]).
  assert (E3 : k_mm k3 = k_mm k2) by (unfold zoom in H3; destruct (unlock _) as [[? ?]| | |]; [by injection H3 as <- <-|done..]).
  unfold on_mm, zoom in H2. rewrite E1 in H2. rewrite E3. destruct (m (k_mm k)) as [[? ?]| | |]; [by injection H2 as <- <-|done..].
Qed.

Lemma kfree_refs p k u k' : kfree p k = Ret (u, k') -> ref_counts (k_mm k') = ref_counts (k_mm k).
Proof.
  intros H. apply guarded_mm_body in H. set (q := if KERNEL_VA_BASE <=? p then p - KERNEL_VA_BASE else p) in H. minv H as u1 m1 H1.
  assert (E1 : ref_counts m1 = ref_counts (k_mm k)) by (unfold on_kasan, zoom in H1; destruct (mark_free_chk _ _) as [[? ?]| | |]; [by injection H1 as <- <-|done..]).
  rewrite <- E1. destruct (is_aligned q); [unfold on_buddy0, zoom in H; destruct (Buddy.deallocate _ _) as [[? ?]| | |]|unfold on_slob1, zoom in H; destruct (slob_deallocate _ _) as [[? ?]| | |]];
    (done || by injection H as <- <-).
Qed.

Lemma free_page_run s live ptrs b : cpu_ok (k_cpu (vm_kernel s)) -> mm_rep (k_mm (vm_kernel s)) live ptrs -> 0 <= b < 512 -> live !! b = Some 0 ->
  exists s', on_kernel (kfree (page_addr b)) s = Ret (tt, s') /\ vm_mem s' = vm_mem s /\ k_cpu (vm_kernel s') = k_cpu (vm_kernel s) /\
    mm_rep (k_mm (vm_kernel s')) (delete b live) (ptrs ∖ {[page_addr b]}) /\ refs s' = refs s.
Proof.
  intros Hc Hm Hb Hl. pose proof (kfree_page_spec (vm_kernel s) live ptrs b (page_addr b) Hc Hm Hb (or_introl eq_refl)) as H.
  rewrite decide_True in H by (apply elem_of_dom; eauto). destruct H as (k' & Hrun & Hk & Hrep).
  exists (set_vm_kernel k' s). split_and!; [by apply on_kernel_run|done|done|done|]. unfold refs. simpl. by eapply kfree_refs.
Qed.

Lemma run_unref s live ptrs b c n : cpu_ok (k_cpu (vm_kernel s)) -> mm_rep (k_mm (vm_kernel s)) live ptrs -> 0 <= b < 512 -> live !! b = Some 0 ->
  arr_get (refs s) b = Some c -> refs_room (k_mm (vm_kernel s)) (n + 1) -> 0 <= n ->
  exists s' ptrs', run_fop (Unref (page_addr b)) s = Ret (tt, s') /\ vm_mem s' = vm_mem s /\ k_cpu (vm_kernel s') = k_cpu (vm_kernel s) /\
    mm_rep (k_mm (vm_kernel s')) (if decide (c = 1) then delete b live else live) ptrs' /\ (size ptrs' <= size ptrs)%nat /\
    refs_room (k_mm (vm_kernel s')) n /\ forall i, arr_get (refs s') i = if decide (b = i) then Some (c - 1) else arr_get (refs s) i.
Proof.
  intros Hc Hm Hb Hl Hr Hroom Hn. destruct (run_ref_spec (vm_kernel s) live ptrs (Dec b) n c Hc Hm Hb Hroom Hn Hr) as (k1 & Hrun & Hc1 & Hm1 & Hroom1 & Hget).
  cbn [ref_page ref_delta] in *. set (s1 := set_vm_kernel k1 s).
  assert (Hdec : on_kernel (dec_page_ref_count (page_addr b)) s = Ret (c + -1, s1)) by (by apply on_kernel_run). cbn [run_fop]. mrun Hdec.
  destruct (decide (c = 1)) as [->|Hne].
  - destruct (free_page_run s1 live ptrs b) as (s2 & Hfree & Hmem & Hcpu & Hrep & Hrf); [by rewrite <- Hc1 in Hc|done|done|done|].
    exists s2, (ptrs ∖ {[page_addr b]}). split_and!; [done|done|by rewrite Hcpu|done|apply subseteq_size; set_solver| |].
    + intros i x Hi. fold (refs s2) in Hi. rewrite Hrf in Hi. by apply (Hroom1 i x).
    + intros i. rewrite Hrf. apply Hget.
  - exists s1, ptrs. rewrite (proj2 (Z.eqb_neq (c + -1) 0)) by lia. split_and!; [done|done|done|done|done|done|]. intros i. apply Hget.
Qed.

(** Calls that are in order: each on a live page, a table once and not also a
    page, and no more references given up than there are. *)
Record ops_ok (s : VM) (live : gmap Z Z) (ops : list fop) : Prop := {
  oo_live o : o ∈ ops -> exists b, 0 <= b < 512 /\ op_addr o = page_addr b /\ live !! b = Some 0;
  oo_tables : NoDup (tables ops);
  oo_apart p : FreeTable p ∈ ops -> Unref p ∉ ops;
  oo_refs b c : arr_get (refs s) b = Some c -> unrefs b ops <= c
}.

(** One call, on page [b]. *)
Definition gone (c : Z) (o : fop) : bool := match o with FreeTable _ => true | Unref _ => c =? 1 end.

Lemma unref_of_at b i o : op_addr o = page_addr b -> unref_of i o = match o with Unref _ => if decide (b = i) then 1 else 0 | FreeTable _ => 0 end.
Proof.
  intros Ho. destruct o as [p|p]; [|done]. simpl in *. subst p. case_decide; [subst; by rewrite Z.eqb_refl|].
  rewrite (proj2 (Z.eqb_neq _ _)); [done|]. intros ?%page_addr_inj. congruence.
Qed.

Lemma run_fop_spec o s live ptrs b c n : cpu_ok (k_cpu (vm_kernel s)) -> mm_rep (k_mm (vm_kernel s)) live ptrs -> 0 <= b < 512 ->
  op_addr o = page_addr b -> live !! b = Some 0 -> arr_get (refs s) b = Some c -> refs_room (k_mm (vm_kernel s)) (n + 1) -> 0 <= n ->
  exists s' ptrs', run_fop o s = Ret (tt, s') /\ vm_mem s' = vm_mem s /\ k_cpu (vm_kernel s') = k_cpu (vm_kernel s) /\
    mm_rep (k_mm (vm_kernel s')) (if gone c o then delete b live else live) ptrs' /\ (size ptrs' <= size ptrs)%nat /\ refs_room (k_mm (vm_kernel s')) n /\
    forall i x, arr_get (refs s) i = Some x -> arr_get (refs s') i = Some (x - unref_of i o).
Proof.
  intros Hc Hm Hb Ho Hl Hr Hroom Hn. assert (Hat := fun i => unref_of_at b i o Ho). destruct o as [p|p]; simpl in Ho; subst p; cbn [gone].
  - destruct (run_unref s live ptrs b c n Hc Hm Hb Hl Hr Hroom Hn) as (s' & ptrs' & H1 & H2 & H3 & H4 & H5 & H6 & H7). exists s', ptrs'.
    replace (if c =? 1 then delete b live else live) with (if decide (c = 1) then delete b live else live) by (case_decide; subst; [done|by rewrite (proj2 (Z.eqb_neq c 1))]).
    split_and!; try done. intros i x Hx. rewrite H7, Hat. destruct (decide (b = i)) as [<-|]; [congruence|]. by rewrite Z.sub_0_r.
  - destruct (free_page_run s live ptrs b Hc Hm Hb Hl) as (s' & H1 & H2 & H3 & H4 & H5). exists s', (ptrs ∖ {[page_addr b]}).
    split_and!; [done|done|done|done|apply subseteq_size; set_solver| |].
    + intros i x Hi. fold (refs s') in Hi. rewrite H5 in Hi. specialize (Hroom i x Hi). lia.
    + intros i x Hx. rewrite H5, Hat, Z.sub_0_r. done.
Qed.

Lemma released_cons r ops o b x c : op_addr o = page_addr b -> arr_get r x = Some c ->
  (forall p, FreeTable p ∈ o :: ops -> Unref p ∉ o :: ops) ->
  released r (o :: ops) x <-> (x = b /\ (exists p, o = FreeTable p)) \/ FreeTable (page_addr x) ∈ ops \/ (0 < unref_of x o + unrefs x ops /\ c = unref_of x o + unrefs x ops).
Proof.
  intros Ho Hc Ha. unfold released. rewrite Hc, elem_of_cons. cbn [unrefs]. split.
  - intros [[H|H]|[H1 H2]]; [|by right; left|right; right; by injection H2].
    left. split; [|eauto]. subst o. simpl in Ho. by apply page_addr_inj in Ho.
  - intros [[-> [p ->]]|[H|[H1 ->]]]; [|by left; right|by right]. left. left. simpl in Ho. by rewrite Ho.
Qed.

Lemma run_fops_spec ops s live ptrs :
  cpu_ok (k_cpu (vm_kernel s)) -> mm_rep (k_mm (vm_kernel s)) live ptrs -> ops_ok s live ops -> refs_room (k_mm (vm_kernel s)) (Z.of_nat (length ops)) ->
  exists s' live' ptrs', run_fops ops s = Ret (tt, s') /\ vm_mem s' = vm_mem s /\ k_cpu (vm_kernel s') = k_cpu (vm_kernel s) /\
    mm_rep (k_mm (vm_kernel s')) live' ptrs' /\ (size ptrs' <= size ptrs)%nat /\
    (forall b, 0 <= b < 512 -> live' !! b = if decide (released (refs s) ops b) then None else live !! b) /\
    (forall i c, arr_get (refs s) i = Some c -> arr_get (refs s') i = Some (c - unrefs i ops)).
Proof.
  revert s live ptrs. induction ops as [|o ops IH]; intros s live ptrs Hc Hm Hok Hroom; cbn [run_fops unrefs].
  { exists s, live, ptrs. split_and!; [done..| |intros i c Hi; by rewrite Z.sub_0_r].
    intros b _. rewrite decide_False; [done|]. intros [H|[H _]]; [by apply elem_of_nil in H|simpl in H; lia]. }
  destruct Hok as [H1 H2 H3 H4]. destruct (H1 o (list_elem_of_here _ _)) as (b & Hb & Ho & Hl). cbn [length] in Hroom.
  assert (Hall : forall x, 0 <= x < 512 -> exists d, arr_get (refs s) x = Some d) by (intros x Hx; apply arr_get_is_Some; unfold refs; rewrite (mr_refs _ _ _ Hm); lia).
  destruct (Hall b Hb) as [c Hcb].
  destruct (run_fop_spec o s live ptrs b c (Z.of_nat (length ops)) Hc Hm Hb Ho Hl Hcb) as (s1 & ptrs1 & R1 & R2 & R3 & R4 & R5 & R6 & R7);
    [by replace (Z.of_nat (length ops) + 1) with (Z.of_nat (S (length ops))) by lia|lia|].
  assert (Hgone : gone c o = true -> forall o', o' ∈ ops -> op_addr o' <> page_addr b).
  { intros Hg o' Ho' Hx. assert (Hin : o' ∈ o :: ops) by (by apply list_elem_of_further). destruct o as [p|p]; simpl in Ho; subst p; destruct o' as [q|q]; simpl in Hx; subst q.
    - cbn [gone] in Hg. apply Z.eqb_eq in Hg as ->. specialize (H4 b 1 Hcb). cbn [unrefs unref_of] in H4. rewrite Z.eqb_refl in H4.
      apply unrefs_elem in Ho'. lia.
    - by apply (H3 (page_addr b) Hin), list_elem_of_here.
    - by apply (H3 (page_addr b) (list_elem_of_here _ _)).
    - cbn [tables omap list_omap] in H2. apply list.NoDup_cons in H2 as [H2 _]. by apply H2, tables_elem. }
  assert (Hl1 : forall o' x, o' ∈ ops -> op_addr o' = page_addr x -> (if gone c o then delete b live else live) !! x = live !! x).
  { intros o' x Ho' Hx. destruct (gone c o) eqn:Hg; [|done]. rewrite lookup_delete_ne; [done|]. intros ->. by eapply Hgone. }
  destruct (IH s1 _ ptrs1 ltac:(by rewrite R3) R4) as (s2 & live2 & ptrs2 & T1 & T2 & T3 & T4 & T5 & T6 & T7).
  { split.
    - intros o' Ho'. destruct (H1 o' (list_elem_of_further _ _ _ Ho')) as (x & Hx & Hax & Hlx). exists x. by rewrite (Hl1 o' x Ho' Hax).
    - destruct o as [p|p]; [done|]. cbn [tables omap list_omap] in H2. by apply list.NoDup_cons in H2 as [_ ?].
    - intros p Hp Hu. apply (H3 p); by apply list_elem_of_further.
    - intros x d Hd. destruct (Hall x) as [y Hy]; [apply arr_get_Some_range in Hd; unfold refs in Hd; rewrite (mr_refs _ _ _ R4) in Hd; lia|].
      rewrite (R7 x y Hy) in Hd. injection Hd as <-. specialize (H4 x y Hy). cbn [unrefs] in H4. lia. }
  { done. }
  exists s2, live2, ptrs2. mrun R1. split_and!; [done|congruence|congruence|done|lia| |].
  - intros x Hx. destruct (Hall x Hx) as [d Hd]. rewrite (T6 x Hx).
    pose proof (released_cons (refs s) ops o b x d Ho Hd H3) as E. specialize (H4 x d Hd). cbn [unrefs] in H4. pose proof (unrefs_range x ops) as Hr0.
    assert (E1 : released (refs s1) ops x <-> FreeTable (page_addr x) ∈ ops \/ (0 < unrefs x ops /\ d - unref_of x o = unrefs x ops)).
    { unfold released. rewrite (R7 x d Hd). split; (intros [?|[? Heq]]; [by left|right; split; [done|]]); [by injection Heq|by rewrite Heq]. }
    destruct (decide (x = b)) as [->|Hne].
    + assert (d = c) as -> by congruence. rewrite (unref_of_at b b o Ho) in *. destruct (gone c o) eqn:Hg.
      * rewrite lookup_delete_eq. assert (Hrel : released (refs s) (o :: ops) b); [apply E|by destruct (decide (released (refs s1) ops b)), (decide (released (refs s) (o :: ops) b))]. destruct o as [p|p]; [|by left; eauto]. cbn [gone] in Hg. apply Z.eqb_eq in Hg as ->.
        rewrite decide_True in * by done. right. right. lia.
      * destruct o as [p|p]; [|done]. cbn [gone] in Hg. apply Z.eqb_neq in Hg. rewrite decide_True in * by done.
        assert (Hiff : released (refs s1) ops b <-> released (refs s) (Unref p :: ops) b).
        { rewrite E, E1. split; [intros [?|?]; [by right; left|right; right; lia]|]. intros [[_ [q ?]]|[?|?]]; [done|by left|right; lia]. }
        destruct (decide (released (refs s1) ops b)), (decide (released (refs s) _ b)); tauto.
    + assert (Hu0 : unref_of x o = 0) by (rewrite (unref_of_at b x o Ho); destruct o; [by rewrite decide_False by congruence|done]).
      rewrite Hu0 in *. assert (Hiff : released (refs s1) ops x <-> released (refs s) (o :: ops) x).
      { rewrite E, E1. split; [intros [?|?]; [by right; left|right; right; lia]|]. intros [[? _]|[?|?]]; [done|by left|right; lia]. }
      replace ((if gone c o then delete b live else live) !! x) with (live !! x) by (destruct (gone c o); [by rewrite lookup_delete_ne by congruence|done]).
      destruct (decide (released (refs s1) ops x)), (decide (released (refs s) (o :: ops) x)); tauto.
  - intros i d Hd. rewrite (T7 i (d - unref_of i o) (R7 i d Hd)). f_equal. lia.
Qed.

(** ** The calls for a tree *)

Definition in_table (i : Z) : Prop := 0 <= i < 512.

Lemma tables_app l l' : tables (l ++ l') = tables l ++ tables l'.
Proof. unfold tables. apply omap_app. Qed.
Lemma tables_bind {A} (f : A -> list fop) l : tables (l ≫= f) = l ≫= (fun x => tables (f x)).
Proof. induction l as [|x l IH]; [done|]. by rewrite !bind_cons, tables_app, IH. Qed.

(** A call is for a table below [pt] or for a page of the last level. *)
Lemma dfs_ops_elem below mem pt o : o ∈ dfs_ops below mem pt ->
  (exists ps f, o = FreeTable f /\ ps <> [] /\ (length ps <= below)%nat /\ Forall in_table ps /\ find_table mem ps pt = Some f) \/
  (exists ps t i, o = Unref (child mem t i) /\ length ps = below /\ Forall in_table ps /\ find_table mem ps pt = Some t /\ in_table i /\ valid mem t i = true).
Proof.
  revert pt. induction below as [|below IH]; intros pt (i & Ho & Hi%elem_of_seqZ)%list_elem_of_bind; unfold entry_ops in Ho;
    (destruct (valid mem pt i) eqn:Hv; [|by apply elem_of_nil in Ho]).
  - apply list_elem_of_singleton in Ho as ->. right. exists [], pt, i. unfold in_table. split_and!; try done; lia.
  - apply elem_of_app in Ho as [Ho|Ho].
    + destruct (IH _ Ho) as [(ps & f & -> & Hne & Hlen & Hr & Hf)|(ps & t & j & -> & Hlen & Hr & Hf & Hj & Hvj)]; [left|right].
      * exists (i :: ps), f. split_and!; [done|done|simpl; lia|by apply list.Forall_cons; split; [unfold in_table; lia|]|]. simpl. by rewrite Hv.
      * exists (i :: ps), t, j. split_and!; [done|simpl; lia|by apply list.Forall_cons; split; [unfold in_table; lia|]| |done|done]. simpl. by rewrite Hv.
    + apply list_elem_of_singleton in Ho as ->. left. exists [i], (child mem pt i).
      split_and!; [done|done|simpl; lia|apply list.Forall_singleton; unfold in_table; lia|]. simpl. by rewrite Hv.
Qed.

(** Every table below [pt] is among them. *)
Lemma path_in_ops below mem pt ps f : ps <> [] -> (length ps <= below)%nat -> Forall in_table ps -> find_table mem ps pt = Some f ->
  FreeTable f ∈ dfs_ops below mem pt.
Proof.
  revert pt ps. induction below as [|below IH]; intros pt ps Hne Hl Hr Hf; (destruct ps as [|i ps]; [done|]); [simpl in Hl; lia|].
  apply list.Forall_cons in Hr as [Hi Hr]. simpl in Hf. destruct (valid mem pt i) eqn:Hv; [|done]. cbn [dfs_ops].
  apply list_elem_of_bind. exists i. split; [|apply elem_of_seqZ; unfold in_table in Hi; lia]. unfold entry_ops. rewrite Hv. apply elem_of_app.
  destruct ps as [|j ps]; [right; injection Hf as <-; by apply list_elem_of_singleton|left]. apply (IH _ (j :: ps)); [done|simpl in *; lia|done|done].
Qed.

Section tree.
Context (mem : Z -> Z) (pgd : Z) (T : gmap Z nat) (Hw : pt_wf mem pgd T).

Lemma path_level ps t : Forall in_table ps -> (length ps <= 3)%nat -> find_table mem ps pgd = Some t -> T !! t = Some (length ps).
Proof. intros Hr Hl Hf. apply (find_table_level _ _ _ ps pgd 0 t Hw Hr); [apply Hw|lia|done]. Qed.

(** Two paths to a table are the same path. *)
Lemma path_unique ps qs t : Forall in_table ps -> Forall in_table qs -> (length ps <= 3)%nat -> (length qs <= 3)%nat ->
  find_table mem ps pgd = Some t -> find_table mem qs pgd = Some t -> ps = qs.
Proof.
  intros Hp Hq Hlp Hlq Hfp Hfq. pose proof (path_level _ _ Hp Hlp Hfp) as H1. pose proof (path_level _ _ Hq Hlq Hfq) as H2.
  eapply (find_table_inj mem pgd T ps qs t); [done|done|done| |done|done|done]. congruence.
Qed.

Lemma dfs_tables_nodup below pre pt : (length pre + below = 3)%nat -> Forall in_table pre -> find_table mem pre pgd = Some pt ->
  NoDup (tables (dfs_ops below mem pt)).
Proof.
  revert pre pt. induction below as [|below IH]; intros pre pt Hlen Hr Hf; cbn [dfs_ops]; rewrite tables_bind; apply NoDup_bind.
  - intros i j y _ _ Hi. unfold entry_ops in Hi. by destruct (valid mem pt i); apply elem_of_nil in Hi.
  - intros i _. unfold entry_ops. destruct (valid mem pt i); by apply list.NoDup_nil.
  - apply NoDup_seqZ.
  - assert (Hsub : forall i y, in_table i -> y ∈ tables (entry_ops (dfs_ops below mem) mem (S below) pt i) ->
      exists ps, Forall in_table ps /\ (length ps <= below)%nat /\ find_table mem (pre ++ i :: ps) pgd = Some y).
    { intros i y Hi Hy. apply tables_elem in Hy. unfold entry_ops in Hy. destruct (valid mem pt i) eqn:Hv; [|by apply elem_of_nil in Hy].
      assert (Hstep : forall ps, find_table mem (pre ++ i :: ps) pgd = find_table mem ps (child mem pt i)) by (intros ps; rewrite find_table_app, Hf; simpl; by rewrite Hv).
      apply elem_of_app in Hy as [Hy|Hy].
      - destruct (dfs_ops_elem _ _ _ _ Hy) as [(ps & f & [= ->] & _ & Hl & Hps & Hfp)|(? & ? & ? & ? & _)]; [|done]. exists ps. by rewrite Hstep.
      - apply list_elem_of_singleton in Hy as [= ->]. exists []. split_and!; [done|simpl; lia|by rewrite Hstep]. }
    intros i j y Hi%elem_of_seqZ Hj%elem_of_seqZ Hyi Hyj.
    destruct (Hsub i y) as (ps & Hps & Hlp & Hfp); [unfold in_table; lia|done|]. destruct (Hsub j y) as (qs & Hqs & Hlq & Hfq); [unfold in_table; lia|done|].
    assert (Heq : pre ++ i :: ps = pre ++ j :: qs).
    { apply (path_unique _ _ y); [..|done|done]; try (apply Forall_app; split; [done|apply list.Forall_cons; split; [unfold in_table; lia|done]]); rewrite length_app; simpl; lia. }
    apply (inj (app pre)) in Heq. by injection Heq.
  - intros i Hi%elem_of_seqZ. unfold entry_ops. destruct (valid mem pt i) eqn:Hv; [|constructor]. rewrite tables_app. cbn [tables omap list_omap].
    assert (Hstep : forall ps, find_table mem (pre ++ i :: ps) pgd = find_table mem ps (child mem pt i)) by (intros ps; rewrite find_table_app, Hf; simpl; by rewrite Hv).
    assert (Hri : Forall in_table (pre ++ [i])) by (apply Forall_app; split; [done|apply list.Forall_singleton; unfold in_table; lia]).
    apply list.NoDup_app. split_and!; [|..].
    + apply (IH (pre ++ [i])); [rewrite length_app; simpl; lia|done|by rewrite Hstep].
    + intros y Hy%tables_elem Hy2%list_elem_of_singleton. subst y. destruct (dfs_ops_elem _ _ _ _ Hy) as [(ps & f & [= <-] & Hne & Hl & Hps & Hfp)|(? & ? & ? & ? & _)]; [|done].
      assert (Heq : pre ++ i :: ps = pre ++ [i]).
      { apply (path_unique _ _ (child mem pt i)); [|done|rewrite length_app; simpl; lia..|by rewrite Hstep|by rewrite Hstep].
        apply Forall_app. split; [done|]. apply list.Forall_cons. split; [unfold in_table; lia|done]. }
      apply (inj (app pre)) in Heq. by injection Heq.
    + apply list.NoDup_singleton.
  - apply NoDup_seqZ.
Qed.

(** The calls depend on the entries of the tables only: which are valid, and
    the frames they name. *)
Definition same_shape (mem' : Z -> Z) : Prop :=
  forall f l i, T !! f = Some l -> in_table i -> valid mem' f i = valid mem f i /\ child mem' f i = child mem f i.
Lemma dfs_ops_shape mem' below pt l : T !! pt = Some l -> (l + below = 3)%nat -> same_shape mem' -> dfs_ops below mem' pt = dfs_ops below mem pt.
Proof.
  intros Hl Hb He. revert pt l Hl Hb. induction below as [|below IH]; intros pt l Hl Hb; cbn [dfs_ops];
    (assert (Hbind : forall (f g : Z -> list fop) js, (forall i, i ∈ js -> f i = g i) -> js ≫= f = js ≫= g)
      by (intros f g js; induction js as [|i js IHi]; intros Hfg; [done|]; rewrite !bind_cons, Hfg, IHi; [done|intros j Hj; apply Hfg; by apply list_elem_of_further|apply list_elem_of_here]));
    apply Hbind; intros i Hi%elem_of_seqZ; unfold entry_ops; destruct (He pt l i Hl) as [-> ->]; (try (unfold in_table; lia)); [done|].
  destruct (valid mem pt i) eqn:Hv; [|done]. f_equal. apply (IH _ (S l)); [|lia]. apply (pw_child _ _ _ Hw pt l i); [done|lia|lia|done].
Qed.
Lemma dfs_ops_ext mem' below pt l : T !! pt = Some l -> (l + below = 3)%nat ->
  (forall f l i, T !! f = Some l -> 0 <= i < 512 -> mem' (entry f i) = mem (entry f i)) -> dfs_ops below mem' pt = dfs_ops below mem pt.
Proof. intros Hl Hb He. apply (dfs_ops_shape mem' below pt l Hl Hb). intros f k i Hf Hi. by eapply same_entry, He. Qed.

(** An address for each path. *)
Definition address_of (i0 i1 i2 i3 : Z) : Z := ((i0 * 512 + i1) * 512 + i2) * 512 * 4096 + i3 * 4096.
Lemma address_indices i0 i1 i2 i3 : in_table i0 -> in_table i1 -> in_table i2 -> in_table i3 ->
  user_va (address_of i0 i1 i2 i3) /\ upper (address_of i0 i1 i2 i3) = [i0; i1; i2] /\ PTE_INDEX (address_of i0 i1 i2 i3) = i3.
Proof.
  unfold in_table, user_va, address_of, upper, PGD_INDEX, PUD_INDEX, PMD_INDEX, PTE_INDEX. intros H0 H1 H2 H3. rewrite !index_eq by lia.
  change (2 ^ 39) with (512 * (512 * (512 * 4096))). change (2 ^ 30) with (512 * (512 * 4096)). change (2 ^ 21) with (512 * 4096). change (2 ^ 12) with 4096.
  split; [lia|]. set (a := ((i0 * 512 + i1) * 512 + i2) * 512 * 4096 + i3 * 4096).
  assert (E3 : a / 4096 = ((i0 * 512 + i1) * 512 + i2) * 512 + i3) by (unfold a; symmetry; apply Z.div_unique with 0; lia).
  assert (E2 : a / (512 * 4096) = (i0 * 512 + i1) * 512 + i2) by (unfold a; symmetry; apply Z.div_unique with (i3 * 4096); lia).
  assert (E1 : a / (512 * (512 * 4096)) = i0 * 512 + i1) by (unfold a; symmetry; apply Z.div_unique with (i2 * 512 * 4096 + i3 * 4096); lia).
  assert (E0 : a / (512 * (512 * (512 * 4096))) = i0) by (unfold a; symmetry; apply Z.div_unique with ((i1 * 512 + i2) * 512 * 4096 + i3 * 4096); lia).
  assert (Hm : forall q i, 0 <= i < 512 -> (q * 512 + i) mod 512 = i) by (intros q i Hi; rewrite Z.add_comm, Z.mod_add by lia; apply Z.mod_small; lia).
  rewrite E0, E1, E2, E3, (Z.mod_small i0), !Hm by lia. done.
Qed.
End tree.

(** ** Releasing a map *)

(** A table without entries. *)
Lemma dfs_ops_empty below mem pt : (forall i, 0 <= i < 512 -> valid mem pt i = false) -> dfs_ops below mem pt = [].
Proof.
  intros H. assert (Hnil : forall (f : Z -> list fop) js, (forall i, i ∈ js -> f i = []) -> js ≫= f = []).
  { intros f js. induction js as [|i js IH]; intros Hf; [done|]. rewrite bind_cons, Hf, IH; [done|intros j Hj; apply Hf; by apply list_elem_of_further|apply list_elem_of_here]. }
  destruct below; cbn [dfs_ops]; apply Hnil; intros i Hi%elem_of_seqZ; unfold entry_ops; by rewrite H by lia.
Qed.

#[local] Opaque dfs_ops.

(** The number of pages of the map that are frame [b]. *)
Definition mappings (mem : Z -> Z) (pgd b : Z) : Z := unrefs b (dfs_ops 3 mem pgd).
(** Every page of the map is counted. *)
Definition counted (v : VM) (pgd : Z) : Prop := forall b c, arr_get (refs v) b = Some c -> mappings (vm_mem v) pgd b <= c.

Lemma leaf_data v pgd T live ptrs ps t i : space_ok v pgd T live ptrs -> Forall in_table ps -> length ps = 3%nat -> in_table i ->
  find_table (vm_mem v) ps pgd = Some t -> valid (vm_mem v) t i = true ->
  exists u b, user_va u /\ trans (vm_mem v) pgd u = Some (vm_mem v (entry t i)) /\
    0 <= b < 512 /\ child (vm_mem v) t i = page_addr b /\ live !! b = Some 0 /\ T !! page_addr b = None.
Proof.
  intros [Hok Hd] Hr Hl Hi Hf Hv. destruct ps as [|i0 [|i1 [|i2 [|]]]]; try done. do 3 apply list.Forall_cons in Hr as [? Hr].
  destruct (address_indices i0 i1 i2 i) as (Hu & Hup & Hpt); [done..|].
  assert (Htr : trans (vm_mem v) pgd (address_of i0 i1 i2 i) = Some (vm_mem v (entry t i))) by (unfold trans; rewrite Hup, Hf, Hpt; unfold descriptor; by rewrite Hv).
  destruct (Hd _ _ Hu Htr) as (b & Hb & Hc & Hlb & HTb). exists (address_of i0 i1 i2 i), b. done.
Qed.

Lemma tree_ops_ok v pgd T live ptrs : space_ok v pgd T live ptrs -> counted v pgd -> ops_ok v live (dfs_ops 3 (vm_mem v) pgd).
Proof.
  intros Hok Hcnt. pose proof (so_vm _ _ _ _ _ Hok) as Hvm. pose proof (vo_wf _ _ _ _ _ Hvm) as Hw.
  assert (Htab : forall f, FreeTable f ∈ dfs_ops 3 (vm_mem v) pgd -> exists l, T !! f = Some (S l)).
  { intros f Hf. destruct (dfs_ops_elem _ _ _ _ Hf) as [(ps & g & [= <-] & Hne & Hl & Hr & Hp)|(? & ? & ? & ? & _)]; [|done].
    pose proof (path_level _ _ _ Hw ps f Hr Hl Hp) as HT. destruct ps; [done|]. eauto. }
  assert (Hleaf : forall p, Unref p ∈ dfs_ops 3 (vm_mem v) pgd -> exists b, 0 <= b < 512 /\ p = page_addr b /\ live !! b = Some 0 /\ T !! page_addr b = None).
  { intros p Hp. destruct (dfs_ops_elem _ _ _ _ Hp) as [(? & ? & ? & _)|(ps & t & i & [= ->] & Hl & Hr & Hf & Hi & Hv)]; [done|].
    destruct (leaf_data v pgd T live ptrs ps t i Hok Hr Hl Hi Hf Hv) as (u & b & _ & _ & Hb & Hc & Hlb & HTb). exists b. done. }
  split.
  - intros [p|p] Ho; [destruct (Hleaf p Ho) as (b & Hb & Hp & Hlb & _); by exists b|]. destruct (Htab p Ho) as [l Hl]. destruct (pw_addr _ _ _ Hw p _ Hl) as (b & Hb & ->).
    exists b. split_and!; [lia|lia|done|by eapply (vo_live _ _ _ _ _ Hvm)].
  - apply (dfs_tables_nodup (vm_mem v) pgd T Hw 3 [] pgd); done.
  - intros p Hf Hu. destruct (Htab p Hf) as [l Hl]. destruct (Hleaf p Hu) as (b & _ & -> & _ & HTb). congruence.
  - exact Hcnt.
Qed.

Lemma root_not_freed v pgd T live ptrs b : space_ok v pgd T live ptrs -> pgd = page_addr b -> ~ released (refs v) (dfs_ops 3 (vm_mem v) pgd) b.
Proof.
  intros Hok -> Hrel. pose proof (vo_wf _ _ _ _ _ (so_vm _ _ _ _ _ Hok)) as Hw. pose proof (pw_root _ _ _ Hw) as Hroot.
  destruct Hrel as [Hf|[Hu%unrefs_elem _]].
  - destruct (dfs_ops_elem _ _ _ _ Hf) as [(ps & g & [= <-] & Hne & Hl & Hr & Hp)|(? & ? & ? & ? & _)]; [|done].
    pose proof (path_level _ _ _ Hw ps _ Hr Hl Hp) as HT. destruct ps; [done|]. simpl in HT; congruence.
  - destruct (dfs_ops_elem _ _ _ _ Hu) as [(? & ? & ? & _)|(ps & t & i & [= Hc] & Hl & Hr & Hf & Hi & Hv)]; [done|].
    destruct (leaf_data v _ T live ptrs ps t i Hok Hr Hl Hi Hf Hv) as (u & x & _ & _ & _ & Hcx & _ & HTx). congruence.
Qed.

(** An empty map. *)
Lemma empty_space_ok v b live ptrs : cpu_ok (k_cpu (vm_kernel v)) -> mm_rep (k_mm (vm_kernel v)) live ptrs -> 0 <= b < 512 -> live !! b = Some 0 ->
  let v' := set_vm_mem (zero_frame (page_addr b) (vm_mem v)) v in
  space_ok v' (page_addr b) {[page_addr b := 0%nat]} live ptrs /\ forall u, trans (vm_mem v') (page_addr b) u = None.
Proof.
  intros Hc Hm Hb Hl v'. assert (Hz : forall i, 0 <= i < 512 -> valid (vm_mem v') (page_addr b) i = false) by (intros i Hi; unfold valid; simpl; by rewrite zero_frame_own).
  assert (Htr : forall u, trans (vm_mem v') (page_addr b) u = None).
  { intros u. unfold trans. cbn [upper find_table]. rewrite Hz; [done|]. pose proof (upper_range u) as Hur. by apply list.Forall_cons in Hur as [? _]. }
  split; [|done]. split; [|intros u d _; by rewrite Htr]. split; [done|done| |].
  - split; [apply lookup_singleton_eq|..].
    + intros f l [<- <-]%lookup_singleton_Some. eauto.
    + intros f l i [<- <-]%lookup_singleton_Some _ Hi Hv. by rewrite Hz in Hv.
    + intros f l i g j i' [<- <-]%lookup_singleton_Some _ Hi Hv. by rewrite Hz in Hv.
  - intros c l [->%page_addr_inj <-]%lookup_singleton_Some. done.
Qed.

(** What [vm_reset] does. *)
Record reset_of (v v' : VM) (pgd : Z) (live live' : gmap Z Z) (ptrs ptrs' : gset Z) : Prop := {
  rs_ok : space_ok v' pgd {[pgd := 0%nat]} live' ptrs';
  rs_empty u : trans (vm_mem v') pgd u = None;
  rs_cpu : k_cpu (vm_kernel v') = k_cpu (vm_kernel v);
  rs_live b : 0 <= b < 512 -> live' !! b = if decide (released (refs v) (dfs_ops 3 (vm_mem v) pgd) b) then None else live !! b;
  rs_refs b c : arr_get (refs v) b = Some c -> arr_get (refs v') b = Some (c - mappings (vm_mem v) pgd b);
  rs_mem x : in_frame pgd x = false -> vm_mem v' x = vm_mem v x;
  rs_ptrs : (size ptrs' <= size ptrs)%nat
}.

Lemma vm_reset_run v pgd T live ptrs : space_ok v pgd T live ptrs -> counted v pgd ->
  refs_room (k_mm (vm_kernel v)) (Z.of_nat (length (dfs_ops 3 (vm_mem v) pgd))) ->
  exists v' live' ptrs', vm_reset pgd v = Ret (tt, v') /\ reset_of v v' pgd live live' ptrs ptrs'.
Proof.
  intros Hok Hcnt Hroom. pose proof (so_vm _ _ _ _ _ Hok) as [Hc Hm Hw Hl].
  destruct (run_fops_spec (dfs_ops 3 (vm_mem v) pgd) v live ptrs Hc Hm (tree_ops_ok _ _ _ _ _ Hok Hcnt) Hroom) as (v1 & live' & ptrs' & H1 & H2 & H3 & H4 & H5 & H6 & H7).
  destruct (pw_addr _ _ _ Hw pgd 0 (pw_root _ _ _ Hw)) as (b & Hb & Hpgd).
  assert (Hlb : live' !! b = Some 0). { rewrite (H6 b Hb), decide_False by (by eapply root_not_freed). eapply Hl. rewrite <- Hpgd. apply Hw. }
  destruct (empty_space_ok v1 b live' ptrs' ltac:(by rewrite H3) H4 Hb Hlb) as [Hok' Hemp]. rewrite <- Hpgd in Hok', Hemp.
  eexists _, live', ptrs'. split; [unfold vm_reset; rewrite (bind_run _ _ _ tt v1); [reflexivity|by rewrite dfs_kfree_ops]|].
  split; try done. intros x Hx. simpl. unfold zero_frame. by rewrite Hx, H2.
Qed.

(** ** Claims *)

(** C15. Resetting the address space of a program whose pages are all counted
    leaves it empty and returns normally: every table but the root is given
    back, a page is given back when the map held the last references to it and
    else loses as many references as the map had pages on it; no other frame is
    given back, and memory outside the root table is not written. *)
Theorem reset_releases_space v pgd T live ptrs : space_ok v pgd T live ptrs -> counted v pgd ->
  refs_room (k_mm (vm_kernel v)) (Z.of_nat (length (dfs_ops 3 (vm_mem v) pgd))) ->
  exists v' live' ptrs', vm_reset pgd v = Ret (tt, v') /\ space_ok v' pgd {[pgd := 0%nat]} live' ptrs' /\
    (forall u, space (vm_mem v') pgd u = None) /\ (forall x, in_frame pgd x = false -> vm_mem v' x = vm_mem v x) /\
    (forall b c, arr_get (refs v) b = Some c -> arr_get (refs v') b = Some (c - mappings (vm_mem v) pgd b)) /\
    (forall b c, arr_get (refs v) b = Some c -> T !! page_addr b = None ->
       live' !! b = if decide (0 < mappings (vm_mem v) pgd b /\ c = mappings (vm_mem v) pgd b) then None else live !! b) /\
    (forall ps b, Forall in_table ps -> ps <> [] -> (length ps <= 3)%nat -> find_table (vm_mem v) ps pgd = Some (page_addr b) -> live' !! b = None).
Proof.
  intros Hok Hcnt Hroom. destruct (vm_reset_run v pgd T live ptrs Hok Hcnt Hroom) as (v' & live' & ptrs' & Hrun & [A1 A2 A3 A4 A5 A6 A7]).
  pose proof (vo_wf _ _ _ _ _ (so_vm _ _ _ _ _ Hok)) as Hw. exists v', live', ptrs'. split_and!; [done|done| |done|done| |].
  - intros u. unfold space. by rewrite A2.
  - intros b c Hc HT. rewrite A4 by (apply arr_get_Some_range in Hc; rewrite (space_refs _ _ _ _ _ Hok) in Hc; lia).
    assert (Hiff : released (refs v) (dfs_ops 3 (vm_mem v) pgd) b <-> 0 < mappings (vm_mem v) pgd b /\ c = mappings (vm_mem v) pgd b).
    { unfold released. rewrite Hc. split; [|intros [? ->]; by right]. intros [Hf|[H1 H2]]; [|by apply (inj Some) in H2].
      destruct (dfs_ops_elem _ _ _ _ Hf) as [(ps & g & [= <-] & _ & Hl & Hr & Hp)|(? & ? & ? & ? & _)]; [|done].
      pose proof (path_level _ _ _ Hw ps _ Hr Hl Hp). congruence. }
    destruct (decide (released _ _ b)), (decide (0 < _ /\ _)); tauto.
  - intros ps b Hr Hne Hl Hf. pose proof (path_level _ _ _ Hw ps _ Hr Hl Hf) as HT. destruct (pw_addr _ _ _ Hw _ _ HT) as (x & Hx & Hxb%page_addr_inj). subst x.
    rewrite A4, decide_True; [done| |done]. left. apply (path_in_ops 3 (vm_mem v) pgd ps); done.
Qed.

(** ** Witness *)

Lemma zero_frame_ops mem b below : dfs_ops below (zero_frame (page_addr b) mem) (page_addr b) = [].
Proof. apply dfs_ops_empty. intros i Hi. unfold valid. by rewrite zero_frame_own. Qed.

Lemma reset_releases_space_witness : exists pgd v v', vm_reset pgd v = Ret (tt, v') /\ space (vm_mem v') pgd 0x400000 = None.
Proof.
  destruct (boot_space (fun _ => 0)) as (b & v & Hb & Hok & Hr & Htr & Hmem & Hc). exists (page_addr b), v.
  assert (Hops : dfs_ops 3 (vm_mem v) (page_addr b) = []) by (rewrite Hmem; apply zero_frame_ops).
  destruct (reset_releases_space v (page_addr b) _ _ _ Hok) as (v' & live' & ptrs' & Hrun & _ & Hsp & _).
  - intros x c Hx. unfold mappings. rewrite Hops. rewrite Hr in Hx. unfold arr_get in Hx. destruct (decide (0 <= x)); [|discriminate].
    apply lookup_replicate in Hx as [-> _]. simpl. lia.
  - rewrite Hops. apply refs_room_of; [exact Hr|simpl; lia].
  - exists v'. split; [exact Hrun|apply Hsp].
Defined.
