(* ===== verification/ProgramSpec.v ===== *)
(** * Starting a program: theorem

    [exec] once its file is open: the new program finds its arguments on its
    stack and its address space is the segments of the executable and the stack,
    with nothing left of the old program. *)

From Stdlib Require Import ZArith Lia.
From stdpp Require Import base gmap list numbers.
From S2P Require Import Prelude Math Mmu Tiling Mutex Buddy BuddyProof BuddySpec Slob Memory MemorySpec PageTable PageTableSpec CString KString Disk Elf ByteMem Cpio Console Vnode TmpFS Proc ProcFS Vfs VfsSpec Exec ExecSpec MmapSpec FreeSpec.

Open Scope Z_scope.
#[local] Opaque dfs_ops.

(** ** The name *)

(** Copying [str], whose first [j] bytes are copied, into [_name]. *)
Lemma name_copy_loop mem a str j fuel buf : c_string str -> mem_holds mem a (str ++ [0]) -> a + Z.of_nat (length str) < KERNEL_VA_BASE ->
  length buf = 16%nat -> holds buf (take j str) -> (j <= 15)%nat -> (j <= length str)%nat -> (15 - j < fuel)%nat ->
  exists buf', strncpy_loop fuel (fun _ => mem_reader mem) (Z.of_nat j) (a + Z.of_nat j) (15 - Z.of_nat j) buf = Ret (tt, buf') /\
    length buf' = 16%nat /\ holds buf' (take 15 str ++ [0]).
Proof.
  intros Hs Hh Ha. revert j buf. induction fuel as [|fuel IH]; intros j buf Hb Hpre Hj Hjl Hf; [lia|]. cbn [strncpy_loop].
  destruct (lookup_lt_is_Some_2 (str ++ [0]) j) as [c Hc]; [rewrite length_app; simpl; lia|].
  assert (Hload : load (fun _ : list Z => mem_reader mem) (a + Z.of_nat j) buf = Ret (c, buf)).
  { unfold load. msimpl. unfold rd, mem_reader. rewrite kaddr_low by (pose proof (lookup_lt_Some _ _ _ Hc); lia). by rewrite (Hh j c Hc). }
  mrun Hload. assert (Hlt : length (take j str) = j) by (rewrite length_take; lia).
  assert (Hst : forall x, exists buf', store (Z.of_nat j) x buf = Ret (tt, buf') /\ length buf' = 16%nat /\ holds buf' (take j str ++ [x])).
  { intros x. destruct (holds_app buf (take j str) x Hpre ltac:(lia)) as [H1 H2]. rewrite Hlt in H1, H2.
    eexists. split; [unfold store; msimpl; cbn [st buf_store]; by rewrite H1|]. by rewrite length_insert. }
  destruct (decide (j < length str)%nat) as [Hjs|Hjs].
  - rewrite lookup_app_l in Hc by done. pose proof (Forall_lookup_1 _ _ _ _ Hs Hc) as Hc0. simpl in Hc0. rewrite (proj2 (Z.eqb_neq c 0)) by lia. cbn [orb].
    destruct (Z.eqb_spec (15 - Z.of_nat j) 0) as [Hj0|Hj0]; [by replace j with 15%nat in * by lia; apply Hst|].
    destruct (Hst c) as (b1 & H1 & Hl1 & Hh1). mrun H1. replace (Z.of_nat j + 1) with (Z.of_nat (S j)) by lia.
    replace (a + Z.of_nat j + 1) with (a + Z.of_nat (S j)) by lia. replace (15 - Z.of_nat j - 1) with (15 - Z.of_nat (S j)) by lia.
    apply IH; [done|by rewrite (take_S_r _ _ c Hc)|lia|lia|lia].
  - assert (j = length str) as -> by lia. rewrite lookup_app_r, Nat.sub_diag in Hc by lia. injection Hc as <-. cbn [Z.eqb orb].
    destruct (Hst 0) as (b1 & H1 & Hl1 & Hh1). exists b1. split_and!; [done|done|]. rewrite take_ge in Hh1 by lia. by rewrite take_ge by lia.
Qed.

Lemma name_copy mem a str buf : c_string str -> mem_holds mem a (str ++ [0]) -> a + Z.of_nat (length str) < KERNEL_VA_BASE -> length buf = 16%nat ->
  exists buf', strncpy (Z.to_nat TASK_NAME_MAX_LEN) (fun _ => mem_reader mem) 0 a (TASK_NAME_MAX_LEN - 1) buf = Ret (0, buf') /\
    length buf' = 16%nat /\ holds buf' (take 15 str ++ [0]).
Proof.
  intros Hs Hh Ha Hb. destruct (name_copy_loop mem a str 0 16 buf Hs Hh Ha Hb) as (buf' & Hrun & Hl & Hho); [done|lia|lia|lia|].
  exists buf'. split_and!; [|done|done]. unfold strncpy. rewrite Z.add_0_r in Hrun. by mrun Hrun.
Qed.

(** ** Steps *)

Definition set_task (t : Z) (k : Task) (s : VFS KernelFs) : VFS KernelFs :=
  set_v_fs (set_kf_sys (set_sy_tasks (<[t := k]> (sy_tasks (kf_sys (v_fs s)))) (kf_sys (v_fs s))) (v_fs s)) s.

Lemma kf_wr_task s t k f : task_of s t = Some k -> on_sys (wr_task t f) s = Ret (tt, set_task t (f k) s).
Proof.
  intros H. unfold on_sys, zoom. assert (Hr : rd_task t (sys_view s) = Ret (k, sys_view s)).
  { unfold rd_task. msimpl. change (sy_tasks (sys_view s)) with (sy_tasks (kf_sys (v_fs s))). unfold task_of in H. by rewrite H. }
  unfold wr_task. mrun Hr. msimpl. do 2 f_equal. unfold sys_back, sys_view, set_task. cbn [sy_next_file with_cpu sys_has_cpu set_sy_file set_sy_vm set_sy_tasks].
  rewrite Z.sub_diag. change (seqZ (v_next_file s) 0) with (@nil Z). cbn [foldr]. by destruct s as [? [? ? ? [[[]]]]].
Qed.
Lemma mem_of_task t k s : mem_of (set_task t k s) = mem_of s.
Proof. done. Qed.
Lemma set_task_mem v t k s : set_mem v (set_task t k s) = set_task t k (set_mem v s).
Proof. done. Qed.
Lemma set_task_set t k k' s : set_task t k (set_task t k' s) = set_task t k s.
Proof. unfold set_task. simpl. by rewrite insert_insert_eq. Qed.
Lemma task_of_task t k s : task_of (set_task t k s) t = Some k.
Proof. apply lookup_insert_eq. Qed.
Lemma tmp_file_task t k s f c pos : tmp_file s f c pos -> tmp_file (set_task t k s) f c pos.
Proof. done. Qed.


(** ** What a program sees *)

Definition sees (mem : Z -> Z) (pgd u : Z) (l : list Z) : Prop := forall j c, l !! j = Some c -> space mem pgd (u + Z.of_nat j) = Some c.

(** [argc] at the stack pointer and [argv] behind it, in the program's addresses. *)
Definition program_args (mem : Z -> Z) (pgd usp : Z) (strs : list (list Z)) : Prop :=
  usp mod 16 = 0 /\ sees mem pgd usp (le_bytes 4 (Z.of_nat (length strs))) /\
  exists argv ptrs, sees mem pgd (usp + 8) (le_bytes 8 argv) /\ Forall2 (fun p str => sees mem pgd p (str ++ [0])) ptrs strs /\
    (forall i p, ptrs !! i = Some p -> sees mem pgd (argv + 8 * Z.of_nat i) (le_bytes 8 p)) /\
    sees mem pgd (argv + 8 * Z.of_nat (length strs)) (le_bytes 8 0).

Definition in_stack (u : Z) : Prop := USER_STACK_PAGE <= u < USER_STACK_PAGE + 4096.

Lemma stack_seen mem mem' pgd f usp strs : (forall u, in_stack u -> space mem' pgd u = Some (byte_at mem (f + (u - USER_STACK_PAGE)))) ->
  started_with mem f usp strs -> program_args mem' pgd usp strs.
Proof.
  intros Hs (Hal & Hc & argv & ptrs & Hav & Hst & Hpt & Hnull).
  assert (Hsee : forall u l, user_holds mem f u l -> sees mem' pgd u l).
  { intros u l (Hlo & Hhi & Hh) j c Hj. pose proof (lookup_lt_Some _ _ _ Hj). change PAGE_SIZE with 4096 in Hhi.
    rewrite Hs by (unfold in_stack; lia). f_equal. rewrite <- (Hh j c Hj). f_equal. lia. }
  split_and!; [done|by apply Hsee|]. exists argv, ptrs. split_and!; [by apply Hsee| |intros i p Hi; by apply Hsee, Hpt|by apply Hsee].
  eapply list.Forall2_impl; [exact Hst|]. intros p str. apply Hsee.
Qed.

(** ** Closing the file *)

Definition opened_ok (s : VFS KernelFs) : Prop := forall f, f ∈ v_opened s -> is_Some (v_files s !! f).

Lemma find_opened_some (s : VFS KernelFs) fs v : (forall f, f ∈ fs -> is_Some (v_files s !! f)) -> exists o, find_opened fs v s = Ret (o, s).
Proof.
  induction fs as [|f fs IH]; intros H; cbn [find_opened]; [eauto|]. destruct (H f (list_elem_of_here _ _)) as [x Hx].
  assert (Hr : rd_file f s = Ret (x, s)) by (unfold rd_file; msimpl; by rewrite Hx). mrun Hr.
  destruct (f_vnode x =? v); [eauto|]. apply IH. intros g Hg. apply H. by apply list_elem_of_further.
Qed.

Lemma close_some s f c pos n : cpu_ok (v_cpu s) -> tmp_file s f c pos -> opened_ok s ->
  exists r s', close n f s = Ret (r, s') /\ mem_of s' = mem_of s /\ v_cpu s' = v_cpu s /\ forall t, task_of s' t = task_of s t.
Proof.
  intros Hc [Hf (v & o & i & Hv & _)] Ho. set (s1 := with_cpu (entered (cpu_of s)) s).
  destruct (find_opened_some s1 (v_opened s1) v Ho) as [it Hit].
  assert (Hrd : rd_file f s1 = Ret (mkFile v pos o, s1)) by (unfold rd_file; msimpl; simpl; by rewrite Hv).
  assert (Hbody : exists r s', (if f =? 0 then mret (-1) else x ← rd_file f; s ← get; it ← find_opened (v_opened s) (f_vnode x);
      match it with None => mret (-1) | Some g => wr_pos f 0;; (if n <=? 3 then modify (fun s => set_v_opened (drop_first g (v_opened s)) s) else mret tt);; mret 0 end) s1
      = Ret (r, with_cpu (entered (cpu_of s)) s') /\ mem_of s' = mem_of s /\ forall t, task_of s' t = task_of s t).
  { rewrite (proj2 (Z.eqb_neq f 0)) by done. mrun Hrd. msimpl. cbn [f_vnode]. mrun Hit. destruct it as [g|].
    - assert (Hw : wr_pos f 0 s1 = Ret (tt, set_pos f 0 s1)) by (by eapply set_pos_run). mrun Hw.
      destruct (n <=? 3); [exists 0, (set_v_opened (drop_first g (v_opened (set_pos f 0 s))) (set_pos f 0 s))|exists 0, (set_pos f 0 s)]; unfold s1, set_pos; simpl; rewrite Hv; done.
    - exists (-1), s. done. }
  destruct Hbody as (r & s' & Hrun & Hm & Ht). exists r, (with_cpu (cpu_of s) s'). split; [|split_and!; [|done|done]].
  - unfold close. by apply guarded_spec.
  - change (mem_of (with_cpu (cpu_of s) s')) with (vm_cpu (v_cpu s) (mem_of s')). rewrite Hm. exact (vm_cpu_id (mem_of s)).
Qed.

(** ** The new address space *)

#[export] Instance in_stack_dec u : Decision (in_stack u).
Proof. unfold in_stack. apply _. Defined.

Lemma in_stack_page u : user_va u -> u / 4096 = USER_STACK_PAGE / 4096 <-> in_stack u.
Proof. intros Hu. unfold in_stack, user_va, USER_STACK_PAGE in *. pose proof (Z.div_mod u 4096). pose proof (Z.mod_pos_bound u 4096). change (0x00007ffffffff000 / 4096) with 0x7ffffffff. lia. Qed.

Lemma live_after_reset v v' pgd live live' ptrs ptrs' : reset_of v v' pgd live live' ptrs ptrs' -> live' ⊆ live.
Proof.
  intros Hr. apply map_subseteq_spec. intros b k Hb.
  pose proof (rep_live_wf _ _ _ _ (mr_buddy _ _ _ (vo_mm _ _ _ _ _ (so_vm _ _ _ _ _ (rs_ok _ _ _ _ _ _ _ Hr)))) Hb) as (Hk & Hb0 & _ & Hb1).
  pose proof (pow2_pos k ltac:(lia)). rewrite (rs_live _ _ _ _ _ _ _ Hr) in Hb by (unfold NR_FRAMES in *; lia). by destruct (decide _).
Qed.

Lemma not_released v pgd T live ptrs b : space_ok v pgd T live ptrs -> T !! page_addr b = None -> mappings (vm_mem v) pgd b = 0 ->
  ~ released (refs v) (dfs_ops 3 (vm_mem v) pgd) b.
Proof.
  intros Hok HT Hm [Hf|[Hu _]]; [|unfold mappings in Hm; lia]. pose proof (vo_wf _ _ _ _ _ (so_vm _ _ _ _ _ Hok)) as Hw.
  destruct (dfs_ops_elem _ _ _ _ Hf) as [(ps & g & E & _ & Hl & Hr & Hp)|(? & ? & ? & ? & _)]; [|done]. injection E as <-.
  pose proof (path_level _ _ _ Hw ps _ Hr Hl Hp). congruence.
Qed.

Lemma refs_after_reset v v' pgd T live live' ptrs ptrs' n : space_ok v pgd T live ptrs -> counted v pgd -> reset_of v v' pgd live live' ptrs ptrs' ->
  refs_room (k_mm (vm_kernel v)) n -> 0 <= n < 2 ^ 31 -> refs_room (k_mm (vm_kernel v')) n.
Proof.
  intros Hok Hcnt Hr Hroom Hn i c Hi. fold (refs v') in Hi. destruct (arr_get_is_Some (refs v) i) as [x Hx].
  { apply arr_get_Some_range in Hi. rewrite (space_refs _ _ _ _ _ Hok). rewrite (space_refs _ _ _ _ _ (rs_ok _ _ _ _ _ _ _ Hr)) in Hi. done. }
  rewrite (rs_refs _ _ _ _ _ _ _ Hr i x Hx) in Hi. apply (inj Some) in Hi. specialize (Hcnt i x Hx). specialize (Hroom i x Hx).
  pose proof (unrefs_range i (dfs_ops 3 (vm_mem v) pgd)). unfold mappings in *. lia.
Qed.

(** Only single pages are live, and [n] more fit. *)
Definition frames_left (live : gmap Z Z) (n : nat) : Prop := (forall b k, live !! b = Some k -> k = 0) /\ (size live + n <= 512)%nat.

Lemma frames_left_enough live n : frames_left live n -> ~ short_of_frames live n.
Proof. intros [H1 H2]. by apply enough_frames. Qed.
Lemma frames_left_added live live' n m : frames_left live (n + m) -> frames_added n live live' -> frames_left live' m.
Proof. intros [H1 H2] (A & B & C). split; [|lia]. intros b k Hb. destruct (B b k Hb) as [H|H]; [by apply (H1 b)|done]. Qed.
Lemma frames_left_sub live live' n : frames_left live n -> live' ⊆ live -> frames_left live' n.
Proof. intros [H1 H2] Hs. split; [intros b k Hb; apply (H1 b); by eapply lookup_weaken|]. pose proof (map_subseteq_size _ _ Hs). lia. Qed.

Lemma new_space_run v pgd T live ptrs bu n m :
  space_ok v pgd T live ptrs -> counted v pgd -> refs_room (k_mm (vm_kernel v)) (Z.of_nat (length (dfs_ops 3 (vm_mem v) pgd))) ->
  refs_room (k_mm (vm_kernel v)) (n + 1) -> 0 <= n < 2 ^ 30 -> (size ptrs + 3 <= NR_SLOTS)%nat -> frames_left live (3 + m) ->
  0 <= bu < 512 -> live !! bu = Some 0 -> T !! page_addr bu = None -> mappings (vm_mem v) pgd bu = 0 ->
  exists v3 v4 T4 live4 ptrs4, vm_reset pgd v = Ret (tt, v3) /\ vm_map pgd USER_STACK_PAGE (page_addr bu) USER_PAGE_RW v3 = Ret (tt, v4) /\
    space_ok v4 pgd T4 live4 ptrs4 /\ (size ptrs4 <= size ptrs + 3)%nat /\ refs_room (k_mm (vm_kernel v4)) n /\ frames_left live4 m /\
    k_cpu (vm_kernel v4) = k_cpu (vm_kernel v) /\ (forall u, user_va u -> ~ in_stack u -> trans (vm_mem v4) pgd u = None) /\
    (forall u, user_va u -> space (vm_mem v4) pgd u = if decide (in_stack u) then Some (byte_at (vm_mem v) (page_addr bu + (u - USER_STACK_PAGE))) else None).
Proof.
  intros Hok Hcnt Hro Hrn Hn Hsz Hfl Hb Hlb HTb Hmb.
  destruct (vm_reset_run v pgd T live ptrs Hok Hcnt Hro) as (v3 & live3 & ptrs3 & H3 & Hr3). pose proof Hr3 as [R1 R2 R3 R4 R5 R6 R7].
  pose proof (pw_root _ _ _ (vo_wf _ _ _ _ _ (so_vm _ _ _ _ _ Hok))) as Hroot. assert (Hne : pgd <> page_addr bu) by congruence.
  assert (Hl3 : live3 !! bu = Some 0) by (rewrite R4, decide_False by (done || by eapply not_released); done).
  assert (HT3 : ({[pgd := 0%nat]} : gmap Z nat) !! page_addr bu = None) by (by apply lookup_singleton_None).
  assert (Hrn3 : refs_room (k_mm (vm_kernel v3)) (n + 1)) by (apply (refs_after_reset v v3 pgd T live live3 ptrs ptrs3); [done|done|done|done|lia]).
  assert (Hfl3 : frames_left live3 (3 + m)) by (eapply frames_left_sub; [done|by eapply live_after_reset]).
  destruct (map_frame_run v3 pgd _ live3 ptrs3 USER_STACK_PAGE bu USER_PAGE_RW R1) as [(v4 & T4 & live4 & ptrs4 & H4 & [M1 M2 M3 M4 M5 M6 M7])|[_ Hs]];
    [unfold user_va, USER_STACK_PAGE; lia|by split|lia|done|done|done|by intros i c Hi; specialize (Hrn3 i c Hi); lia|apply R2| |].
  2:{ exfalso. revert Hs. apply frames_left_enough. destruct Hfl3. split; [done|lia]. }
  exists v3, v4, T4, live4, ptrs4. split_and!; [done|done|done|lia| |by eapply frames_left_added| | |].
  - eapply refs_room_added; [|exact M7|done]. by rewrite (space_refs _ _ _ _ _ M1), (space_refs _ _ _ _ _ R1).
  - rewrite <- R3. eapply keeps_vm_map; [apply R1|done].
  - intros u Hu Hin. rewrite (M5 u Hu), decide_False by (by rewrite in_stack_page). apply R2.
  - intros u Hu. unfold space. rewrite (M5 u Hu). destruct (decide (in_stack u)) as [Hin|Hin]; [rewrite decide_True by (by apply in_stack_page)|rewrite decide_False by (by rewrite in_stack_page); by rewrite R2].
    destruct (mapped_descriptor_ok bu USER_PAGE_RW Hb) as [_ ->]; [by split|]. f_equal.
    assert (Ho : PAGE_OFFSET u = u - USER_STACK_PAGE).
    { rewrite page_offset_mod. unfold in_stack, USER_STACK_PAGE in *. pose proof (Z.div_mod u 4096). pose proof (Z.mod_pos_bound u 4096). lia. }
    rewrite <- Ho, M6 by (done || apply page_offset_range). apply byte_ext, R6. rewrite frame_word.
    + destruct (pw_addr _ _ _ (vo_wf _ _ _ _ _ (so_vm _ _ _ _ _ Hok)) pgd 0 Hroot) as (bp & _ & ->). apply frame_disjoint; [congruence|apply page_offset_range].
    + destruct (pw_addr _ _ _ (vo_wf _ _ _ _ _ (so_vm _ _ _ _ _ Hok)) pgd 0 Hroot) as (bp & _ & ->). apply page_addr_frame.
Qed.

(** ** The claim *)

(** What [exec] finds: the task [k] whose program is replaced, with the stack
    frame [bu] that is not mapped yet, the arguments [strs], and the opened file,
    an executable with these segments.  [n] is the number of pages of the image. *)
Record exec_ready (fuel : nat) (s : VFS KernelFs) (t : Z) (k : Task) (name argv file : Z) (str : list Z) (strs : list (list Z))
    (c : list Z) (entry : Z) (segs : list Segment) (T : gmap Z nat) (live : gmap Z Z) (ptrs : gset Z) (bu : Z) : Prop := {
  er_task : task_of s t = Some k;
  er_cpu : cpu_room 1 (v_cpu s);
  er_space : space_ok (mem_of s) (t_vmmap k) T live ptrs;
  er_counted : counted (mem_of s) (t_vmmap k);
  er_refs : refs_room (k_mm (vm_kernel (mem_of s))) (Z.max (Z.of_nat (length (dfs_ops 3 (vm_mem (mem_of s)) (t_vmmap k)))) (Z.of_nat (image_pages segs) + 1));
  er_slots : (size ptrs + 4 + 4 * image_pages segs <= NR_SLOTS)%nat;
  er_frames : frames_left live (4 + 4 * image_pages segs);
  er_stack : 0 <= bu < 512 /\ p_addr (t_ustack k) = page_addr bu /\ live !! bu = Some 0 /\ T !! page_addr bu = None /\
    mappings (vm_mem (mem_of s)) (t_vmmap k) bu = 0;
  er_name : length (t_name k) = 16%nat /\ c_string str /\ mem_holds (vm_mem (mem_of s)) name (str ++ [0]) /\ name + Z.of_nat (length str) < KERNEL_VA_BASE;
  er_args : passes fuel (vm_mem (mem_of s)) (t_vmmap k) argv strs /\ fits_stack strs;
  er_file : (exists pos, tmp_file s file c pos) /\ is_bytes c /\ opened_ok s;
  er_elf : exists phoff phentsize, elf_image c entry phoff phentsize segs;
  er_segs seg : seg ∈ segs -> seg_load seg = true -> seg_ok c seg /\ seg_base seg + Z.of_nat (seg_pages seg) * 4096 <= USER_STACK_PAGE;
  er_disjoint : disjoint_segs segs
}.

Lemma segs_loadable v pgd ptrs c segs : (forall seg, seg ∈ segs -> seg_load seg = true -> seg_ok c seg /\ seg_base seg + Z.of_nat (seg_pages seg) * 4096 <= USER_STACK_PAGE) ->
  disjoint_segs segs -> (size ptrs + 4 * image_pages segs <= NR_SLOTS)%nat -> refs_room (k_mm (vm_kernel v)) (Z.of_nat (image_pages segs)) ->
  (forall u, user_va u -> ~ in_stack u -> trans (vm_mem v) pgd u = None) -> loadable v pgd ptrs c segs.
Proof.
  intros Hs Hd Hsz Hr Htr. split; [|done| |done|done].
  - intros seg Hin Hl. destruct (Hs seg Hin Hl). split; [done|]. unfold USER_STACK_PAGE in *. lia.
  - intros seg u Hin Hl Hu Hreg. destruct (Hs seg Hin Hl) as [_ Hhi]. apply Htr; [done|]. unfold in_region, in_stack in *. lia.
Qed.

Lemma image_below_stack c segs u : (forall seg, seg ∈ segs -> seg_load seg = true -> seg_base seg + Z.of_nat (seg_pages seg) * 4096 <= USER_STACK_PAGE) ->
  in_stack u -> image_byte c segs u = None.
Proof.
  intros Hs Hu. induction segs as [|seg segs IH]; [done|]. cbn [image_byte]. destruct (seg_load seg) eqn:Hl; cbn [andb].
  - rewrite bool_decide_false; [apply IH; intros seg' Hin; apply Hs; by apply list_elem_of_further|].
    specialize (Hs seg (list_elem_of_here _ _) Hl). unfold in_region, in_stack in *. lia.
  - apply IH. intros seg' Hin. apply Hs. by apply list_elem_of_further.
Qed.

(** The stack frame is written while the old program is still mapped. *)
Lemma args_space v v' pgd T live ptrs bu : space_ok v pgd T live ptrs -> T !! page_addr bu = None -> vm_kernel v' = vm_kernel v ->
  changed_in (page_addr bu) (page_addr bu + 4096) (vm_mem v) (vm_mem v') ->
  space_ok v' pgd T live ptrs /\ dfs_ops 3 (vm_mem v') pgd = dfs_ops 3 (vm_mem v) pgd.
Proof.
  intros Hok HT Hk Hc. destruct (vm_ok_data v pgd T live ptrs (vm_mem v') bu (so_vm _ _ _ _ _ Hok) HT Hc) as [Hvm Htr].
  replace (set_vm_mem (vm_mem v') v) with v' in Hvm by (destruct v, v'; simpl in *; unfold set_vm_mem; simpl; by rewrite Hk). split.
  - split; [done|]. intros u d Hu Hd. rewrite Htr in Hd. by apply (so_data _ _ _ _ _ Hok u d).
  - pose proof (vo_wf _ _ _ _ _ (so_vm _ _ _ _ _ Hok)) as Hw. apply (dfs_ops_ext (vm_mem v) pgd T Hw (vm_mem v') 3 pgd 0); [apply Hw|done|].
    intros f l i Hf Hi. destruct (pw_addr _ _ _ Hw f l Hf) as (x & _ & ->). apply (proj1 Hc). assert (x <> bu) by congruence. unfold entry, page_addr. lia.
Qed.

(** The arguments are copied: the task with its new name and the memory before
    the old address space is released. *)
Lemma exec_args_run fuel s t k name argv file str strs c entry segs T live ptrs bu :
  exec_ready fuel s t k name argv file str strs c entry segs T live ptrs bu ->
  exists nm nb v1 v2 sp, strncpy (Z.to_nat TASK_NAME_MAX_LEN) (fun _ => mem_reader (vm_mem (mem_of s))) 0 name (TASK_NAME_MAX_LEN - 1) (t_name k) = Ret (0, nm) /\
    on_mem (on_kernel (get_free_page true)) (set_task t (with_name nm k) s) = Ret (page_addr nb, set_mem v1 (set_task t (with_name nm k) s)) /\
    copy_arguments_to_user_stack fuel t argv (set_mem v1 (set_task t (with_name nm k) s)) = Ret (sp, set_mem v2 (set_task t (with_name nm k) s)) /\
    page_addr bu <= sp < page_addr bu + 4096 /\ started_with (vm_mem v2) (page_addr bu) (USER_STACK_PAGE + (sp - page_addr bu)) strs /\
    space_ok v2 (t_vmmap k) T (<[nb := 0]> live) ({[page_addr nb]} ∪ ptrs) /\ live !! nb = None /\ (size ({[page_addr nb]} ∪ ptrs) <= size ptrs + 1)%nat /\
    k_cpu (vm_kernel v2) = v_cpu s /\ refs v2 = refs (mem_of s) /\ dfs_ops 3 (vm_mem v2) (t_vmmap k) = dfs_ops 3 (vm_mem (mem_of s)) (t_vmmap k).
Proof.
  intros [Ht Hcpu Hsp Hcnt Hrf Hsl Hfr (Hb & Hpa & Hlb & HTb & Hmb) (Hnl & Hns & Hnh & Hna) [Hps Hfit] _ _ _ _].
  destruct (name_copy (vm_mem (mem_of s)) name str (t_name k) Hns Hnh Hna Hnl) as (nm & Hnm & _ & _). set (s1 := set_task t (with_name nm k) s).
  destruct (free_page_space (mem_of s) _ T live ptrs Hsp ltac:(lia)) as [(nb & v1 & Hg & Hnb & Hnl1 & Hm1 & Hr1 & Hc1 & Hok1 & Hsz1)|[_ Hex]].
  2:{ exfalso. apply (frames_left_enough live 1); [destruct Hfr; split; [done|lia]|]. exists live. split_and!; [done|by left|lia|done]. }
  assert (Ht1 : task_of (set_mem v1 s1) t = Some (with_name nm k)) by (rewrite task_of_set; apply task_of_task).
  destruct (copy_arguments_run fuel (set_mem v1 s1) t (with_name nm k) argv strs Ht1) as (sp & v2 & Hcp & Hk2 & Hspr & Hch & Hst).
  { change (t_ustack (with_name nm k)) with (t_ustack k). rewrite Hpa. split; [|pose proof (page_addr_low bu Hb); lia].
    unfold page_addr. replace (0x10000000 + bu * 4096) with ((0x10000 + bu) * 4096) by lia. by rewrite Z.mod_mul. }
  { done. }
  { rewrite mem_of_set, Hm1. exact Hps. }
  rewrite mem_of_set in *. rewrite set_mem_set in Hcp. change (t_ustack (with_name nm k)) with (t_ustack k) in *. rewrite Hpa in *.
  destruct (args_space v1 v2 (t_vmmap k) T _ _ bu Hok1 HTb Hk2 Hch) as [Hok2 Hops].
  exists nm, nb, v1, v2, sp. split_and!; [done| |done|lia|lia|done|done|done|done| | |].
  - fold s1. by rewrite (on_mem_run _ s1 (page_addr nb) v1 Hg).
  - by rewrite Hk2, Hc1.
  - unfold refs in *. by rewrite Hk2.
  - by rewrite Hops, Hm1.
Qed.

(** The task when the new program starts. *)
Definition exec_task (nm : list Z) (nb usp : Z) (k : Task) : Task :=
  with_ustack (mkPage (page_addr nb) USER_STACK_PAGE)
    (with_context (mkContext (c_regs (t_context k)) (c_lr (t_context k)) usp) (t_trap_frame k) (with_name nm k)).

(** The steps of [exec_image], put together. *)
Lemma exec_image_steps fuel junk s t k name argv file c entry segs bu nm nb v1 v2 v3 v4 v5 sp r s9 :
  let usp := USER_STACK_PAGE + (sp - page_addr bu) in
  let s7 := set_mem v4 (set_task t (exec_task nm nb usp k) s) in
  task_of s t = Some k -> p_addr (t_ustack k) = page_addr bu -> 0 <= bu < 512 -> page_addr bu <= sp < page_addr bu + 4096 ->
  strncpy (Z.to_nat TASK_NAME_MAX_LEN) (fun _ => mem_reader (vm_mem (mem_of s))) 0 name (TASK_NAME_MAX_LEN - 1) (t_name k) = Ret (0, nm) ->
  on_mem (on_kernel (get_free_page true)) (set_task t (with_name nm k) s) = Ret (page_addr nb, set_mem v1 (set_task t (with_name nm k) s)) ->
  copy_arguments_to_user_stack fuel t argv (set_mem v1 (set_task t (with_name nm k) s)) = Ret (sp, set_mem v2 (set_task t (with_name nm k) s)) ->
  vm_reset (t_vmmap k) v2 = Ret (tt, v3) -> vm_map (t_vmmap k) USER_STACK_PAGE (page_addr bu) USER_PAGE_RW v3 = Ret (tt, v4) ->
  elf_is_valid (mkELF (Some c) segs) = Ret true -> get_entry_point (mkELF (Some c) segs) = Ret entry ->
  map_segments junk t file segs s7 = Ret (tt, set_mem v5 s7) ->
  close (use_count 1 file (set_mem v5 s7)) file (set_mem v5 s7) = Ret (r, s9) ->
  exec_image fuel junk t name argv file (mkELF (Some c) segs) s = Ret (mkLaunch entry usp (u64 (KERNEL_VA_BASE + page_end (t_kstack k))) (t_vmmap k), s9).
Proof.
  intros usp s7 Ht Hpa Hb Hspr Hnm Hg Hcp H3 H4 Hval Hent H5 Hcl. destruct (page_addr_low bu Hb) as (Hp0 & Hp1 & _). set (k1 := with_name nm k).
  assert (Husp : u64 (USER_STACK_PAGE + offset_of (t_ustack k) sp) = usp).
  { unfold offset_of, page_begin. rewrite Hpa. rewrite (u64_id (sp - page_addr bu)) by lia. unfold usp, USER_STACK_PAGE. apply u64_id. lia. }
  set (k2 := with_context (mkContext (c_regs (t_context k1)) (c_lr (t_context k1)) usp) (t_trap_frame k1) k1).
  unfold exec_image. mrun (kf_rd_task s t k Ht). mrun (on_mem_get s). rewrite Hnm. msimpl. cbn [snd]. mrun (kf_wr_task s t k (with_name nm) Ht). mrun Hg. mrun Hcp. rewrite Husp.
  rewrite (bind_run _ _ _ _ _ (kf_wr_task (set_mem v2 (set_task t k1 s)) t k1 _ (task_of_task t k1 s))). fold k2. rewrite <- set_task_mem, set_task_set.
  rewrite (bind_run _ _ _ _ _ (on_mem_run (vm_reset (t_vmmap k)) (set_mem v2 (set_task t k2 s)) tt v3 ltac:(rewrite mem_of_set; exact H3))), set_mem_set.
  rewrite Hpa, (bind_run _ _ _ _ _ (on_mem_run _ (set_mem v3 (set_task t k2 s)) tt v4 ltac:(rewrite mem_of_set; exact H4))), set_mem_set.
  rewrite (bind_run _ _ _ _ _ (kf_wr_task (set_mem v4 (set_task t k2 s)) t k2 _ (task_of_task t k2 s))). rewrite <- set_task_mem, set_task_set.
  change (with_ustack (mkPage (page_addr nb) USER_STACK_PAGE) k2) with (exec_task nm nb usp k). fold s7. rewrite Hent. msimpl.
  assert (Hload : load_elf_binary junk t file (mkELF (Some c) segs) s7 = Ret (true, set_mem v5 s7)) by (unfold load_elf_binary; rewrite Hval; msimpl; cbn [negb elf_segments]; by mrun H5).
  mrun Hload. msimpl. by mrun Hcl.
Qed.

(** C12. [exec] of an executable that is an opened file of a TmpFS and passes the
    checks of its header, whose loadable segments start on page boundaries (in
    memory and in the file), are disjoint, lie below the stack page and have no
    part that is not in the file (no .bss; on other segments the loader goes
    wrong), and whose argument strings fit the stack: the entry point is that of
    the header, the program finds [argc], [argv] and its argument strings on its
    stack, and outside the stack page its address space is the pages of the
    loadable segments.  These are whole pages, read from the file from the
    segment's offset on: after the end of a segment the last page shows the
    bytes that follow in the file, and zeros after its end ([image_byte]).
    Nothing that the old program had mapped is left.  The call does not fail if
    four frames and four per page of the image are left, and as many slots of
    the double-free detector, and the reference counts have room. *)
Theorem exec_starts_program fuel junk s t k name argv file str strs c entry segs T live ptrs bu :
  exec_ready fuel s t k name argv file str strs c entry segs T live ptrs bu ->
  exists l s', exec_image fuel junk t name argv file (mkELF (Some c) segs) s = Ret (l, s') /\
    l_entry_point l = u64 (ELF_DEFAULT_BASE + entry) /\ l_page_table l = t_vmmap k /\ l_kernel_sp l = u64 (KERNEL_VA_BASE + page_end (t_kstack k)) /\
    program_args (vm_mem (mem_of s')) (t_vmmap k) (l_user_sp l) strs /\
    forall u, user_va u -> ~ in_stack u -> space (vm_mem (mem_of s')) (t_vmmap k) u = image_byte c segs u.
Proof.
  intros Hr. pose proof Hr as [Ht Hcpu Hsp Hcnt Hrf Hsl Hfr (Hb & Hpa & Hlb & HTb & Hmb) _ _ ([pos Hfile] & Hby & Hop) (phoff & phsz & Himg) Hsegs Hdis].
  destruct (exec_args_run _ _ _ _ _ _ _ _ _ _ _ _ _ _ _ _ Hr) as (nm & nb & v1 & v2 & sp & Hnm & Hg & Hcp & Hspr & Hst & Hok2 & Hnl & Hsz2 & Hc2 & Hr2 & Hops).
  destruct (elf_parse c entry phoff phsz segs Himg) as (_ & _ & Hval & Hent).
  assert (Hmap : forall b, mappings (vm_mem v2) (t_vmmap k) b = mappings (vm_mem (mem_of s)) (t_vmmap k) b) by (intros b; unfold mappings; by rewrite Hops).
  assert (Hrr : forall n, n <= Z.max (Z.of_nat (length (dfs_ops 3 (vm_mem (mem_of s)) (t_vmmap k)))) (Z.of_nat (image_pages segs) + 1) -> refs_room (k_mm (vm_kernel v2)) n).
  { intros n Hn i x Hi. fold (refs v2) in Hi. rewrite Hr2 in Hi. specialize (Hrf i x Hi). lia. }
  destruct (new_space_run v2 (t_vmmap k) T _ _ bu (Z.of_nat (image_pages segs)) (4 * image_pages segs) Hok2) as (v3 & v4 & T4 & live4 & ptrs4 & H3 & H4 & Hok4 & Hsz4 & Hr4 & Hf4 & Hc4 & Htr4 & Hsp4).
  { intros b x Hx. rewrite Hr2 in Hx. rewrite Hmap. by apply Hcnt. }
  { rewrite Hops. apply Hrr. lia. }
  { apply Hrr. lia. }
  { unfold NR_SLOTS in Hsl. lia. }
  { lia. }
  { eapply (frames_left_added _ _ 1); [|by apply frames_added_insert]. replace (1 + (3 + 4 * image_pages segs))%nat with (4 + 4 * image_pages segs)%nat by lia. done. }
  { done. }
  { rewrite lookup_insert_ne; [done|congruence]. }
  { done. }
  { by rewrite Hmap. }
  set (usp := USER_STACK_PAGE + (sp - page_addr bu)). set (k3 := exec_task nm nb usp k). set (s7 := set_mem v4 (set_task t k3 s)).
  assert (Hcr : cpu_room 1 (v_cpu s7)) by (unfold s7; simpl; by rewrite Hc4, Hc2).
  destruct (map_segments_run junk file c t k3 segs s7 T4 live4 ptrs4) as [(v5 & T5 & live5 & ptrs5 & H5 & Hok5 & Hc5 & _ & Hsp5)|[_ Hs]];
    [unfold s7; rewrite task_of_set; apply task_of_task|by unfold s7; rewrite mem_of_set|done|by exists pos|done|unfold s7; rewrite mem_of_set; apply segs_loadable; [done|done|lia|done|done]| |].
  2:{ exfalso. by apply (frames_left_enough live4 (4 * image_pages segs)). }
  set (s8 := set_mem v5 s7). destruct (close_some s8 file c pos (use_count 1 file s8)) as (r & s9 & Hcl & Hm9 & Hc9 & _); [unfold s8; simpl; rewrite Hc5; by eapply cpu_room_ok|exact Hfile|exact Hop|].
  exists (mkLaunch (u64 (ELF_DEFAULT_BASE + entry)) usp (u64 (KERNEL_VA_BASE + page_end (t_kstack k))) (t_vmmap k)), s9.
  unfold s7 in Hsp5. rewrite mem_of_set in Hsp5. change (t_vmmap k3) with (t_vmmap k) in Hsp5. rewrite Hm9. unfold s8. rewrite mem_of_set. cbn [l_entry_point l_page_table l_kernel_sp l_user_sp]. split_and!; [|done|done|done| |].
  - by apply (exec_image_steps fuel junk s t k name argv file c _ segs bu nm nb v1 v2 v3 v4 v5 sp r s9).
  - eapply stack_seen; [|exact Hst]. intros u Hu. assert (Huv : user_va u) by (unfold in_stack, user_va, USER_STACK_PAGE in *; lia).
    rewrite (Hsp5 u Huv), image_below_stack by (done || intros seg H1 H2; by apply Hsegs). by rewrite (Hsp4 u Huv), decide_True by done.
  - intros u Huv Hns. rewrite (Hsp5 u Huv). rewrite (Hsp4 u Huv), decide_False by done. by destruct (image_byte c segs u).
Qed.

(** ** Witness *)

(** An executable: one segment that is the whole file, four bytes of code
    behind the headers. *)
Definition demo_seg : Segment := mkSegment SEGMENT_LOAD (Z.lor SEG_R SEG_X) 0 0 0 124 124 4096.
Definition demo_elf : list Z :=
  magic ++ replicate 20 0 ++ le_bytes 8 120 ++ le_bytes 8 64 ++ replicate 14 0 ++ le_bytes 2 56 ++ le_bytes 2 1 ++ replicate 6 0 ++
  segment_bytes demo_seg ++ [1; 2; 3; 4].

Lemma bytes_in_slice b i l : 0 <= i -> take (length l) (drop (Z.to_nat i) b) = l -> bytes_in b i l.
Proof.
  intros Hi Hl k c Hk. pose proof (lookup_lt_Some _ _ _ Hk). rewrite <- Hl, lookup_take_lt, lookup_drop in Hk by done.
  unfold arr_get. rewrite decide_True by lia. by replace (Z.to_nat (i + Z.of_nat k)) with (Z.to_nat i + k)%nat by lia.
Qed.

Lemma demo_image : elf_image demo_elf 120 64 56 [demo_seg].
Proof.
  assert (Hs : forall i l, 0 <= i -> take (length l) (drop (Z.to_nat i) demo_elf) = l -> bytes_in demo_elf i l) by (intros; by apply bytes_in_slice).
  split; [apply Hs; [lia|reflexivity]|..]; try (split; [by split|apply Hs; [vm_compute; discriminate|reflexivity]]).
  intros k s Hk. destruct k as [|k]; [|done]. injection Hk as <-. split; [by repeat split|]. apply Hs; [lia|reflexivity].
Qed.

Definition demo_name : list Z := [47; 98; 105; 110; 47; 97].
Definition demo_mem0 : Z -> Z := store_bytes 0x1000 (demo_name ++ [0]) (fun _ => 0).

Lemma exec_starts_program_witness : exists s l s', exec_image 8 [] 1 0x1000 0x2000 1 (mkELF (Some demo_elf) [demo_seg]) s = Ret (l, s') /\
  l_entry_point l = 0x400078 /\ space (vm_mem (mem_of s')) (l_page_table l) 0x400078 = Some 1 /\ space (vm_mem (mem_of s')) (l_page_table l) 0x40007b = Some 4.
Proof.
  destruct (boot_space demo_mem0) as (b & v & Hb & Hok & Hr & Htr & Hmem & Hc).
  destruct (free_page_space v (page_addr b) _ _ _ Hok) as [(bu & v1 & _ & Hbu & Hnl & Hm1 & Hr1 & Hc1 & Hok1 & Hsz1)|[_ Hex]];
    [rewrite size_singleton; unfold NR_SLOTS; lia| |].
  2:{ exfalso. apply (first_enough b 1); [lia|]. exists {[b := 0]}. split_and!; [done|by left|rewrite map_size_singleton; lia|exact Hex]. }
  rewrite size_singleton in Hsz1. set (s := demo_state v1 (page_addr b) bu demo_elf). assert (Hms : mem_of s = v1) by apply demo_mem.
  assert (Hops : forall n, dfs_ops n (vm_mem v1) (page_addr b) = []) by (intros n; rewrite Hm1, Hmem; apply zero_frame_ops).
  assert (Hbne : bu <> b) by (intros ->; by rewrite lookup_singleton_eq in Hnl).
  assert (Hlow : forall a l, 0 <= a -> a + Z.of_nat (length l) <= 0x10000000 -> mem_holds demo_mem0 a l -> mem_holds (vm_mem (mem_of s)) a l).
  { intros a l Ha Hl. apply mem_holds_ext. intros x Hx. rewrite Hms, Hm1, Hmem, zero_frame_byte by apply page_addr_frame.
    replace (in_frame (page_addr b) x) with false; [done|]. symmetry. apply andb_false_iff. left. apply Z.leb_gt. unfold page_addr. lia. }
  exists s. destruct (exec_starts_program 8 [] s 1 (demo_task (page_addr b) bu) 0x1000 0x2000 1 demo_name [] demo_elf 120 [demo_seg]
    {[page_addr b := 0%nat]} (<[bu := 0]> {[b := 0]}) ({[page_addr bu]} ∪ {[page_addr b]}) bu) as (l & s' & Hrun & He & Hp & _ & _ & Hsp).
  { split; rewrite ?Hms.
    - reflexivity.
    - change (v_cpu s) with (k_cpu (vm_kernel v1)). rewrite Hc1, Hc. split; [exact fresh_cpu_ok|reflexivity].
    - exact Hok1.
    - intros x c Hx. unfold mappings. cbn [t_vmmap demo_task]. rewrite Hops. rewrite Hr1, Hr in Hx. unfold arr_get in Hx. destruct (decide (0 <= x)); [|done].
      apply lookup_replicate in Hx as [-> _]. simpl. lia.
    - cbn [t_vmmap demo_task]. rewrite Hops. apply refs_room_of; [by rewrite Hr1|vm_compute; reflexivity].
    - change (image_pages [demo_seg]) with 1%nat. unfold NR_SLOTS. lia.
    - split; [|change (image_pages [demo_seg]) with 1%nat; rewrite map_size_insert_None, map_size_singleton by done; lia].
      intros x k [[_ <-]|[_ [_ <-]%lookup_singleton_Some]]%lookup_insert_Some; done.
    - cbn [t_ustack t_vmmap demo_task p_addr]. unfold mappings. rewrite Hops. split_and!; [lia|lia|done|apply lookup_insert_eq| |done].
      apply lookup_singleton_None. intros ?%page_addr_inj. congruence.
    - split_and!; [done|by repeat (constructor; [lia|])| |vm_compute; reflexivity]. rewrite <- Hms. apply Hlow; [lia|simpl; lia|]. apply store_holds. by repeat (constructor; [lia|]).
    - split; [|vm_compute; discriminate]. split; [simpl; lia|simpl; lia| |by intros [|]]. rewrite <- Hms. apply Hlow; [lia|simpl; lia|].
      intros k c Hk. unfold demo_mem0. rewrite store_byte, decide_False by (simpl; lia).
      unfold byte_at. rewrite Z.div_0_l by (apply Z.pow_nonzero; [lia|apply byte_split]). do 8 (destruct k as [|k]; [by injection Hk|]). done.
    - split_and!; [exists 0; apply demo_file; vm_compute; reflexivity|by repeat (constructor; [vm_compute; split; [discriminate|reflexivity]|])|].
      intros f [->|[]%elem_of_nil]%elem_of_cons. eexists. reflexivity.
    - exists 64, 56. exact demo_image.
    - intros seg [->|[]%elem_of_nil]%elem_of_cons _. split; [split; vm_compute; repeat split; (discriminate || reflexivity)|vm_compute; discriminate].
    - cbn [disjoint_segs]. split; [|done]. intros _ seg' u []%elem_of_nil. }
  exists l, s'. split_and!; [exact Hrun|by rewrite He|..]; (rewrite Hp; cbn [t_vmmap demo_task] in *; rewrite Hsp; [reflexivity|unfold user_va; lia|unfold in_stack, USER_STACK_PAGE; lia]).
Defined.
