(* ===== verification/CopySpec.v ===== *)
(** * Copying an address space: theorems

    [copy_from] gives a new task the tables of its parent.  Every page becomes
    copy on write in both maps, so that both see the same bytes, and a write
    fault in one of them leaves the other as it was. *)

From Stdlib Require Import ZArith Lia.
From stdpp Require Import base gmap list numbers.
From S2P Require Import Prelude Math Mmu Tiling Mutex Buddy BuddyProof BuddySpec Slob Memory MemorySpec PageTable PageTableSpec ByteMem ExecSpec MmapSpec FreeSpec.

Open Scope Z_scope.

(** ** Descriptors and paths *)

(** The descriptor both maps get for a page. *)
Definition cow_descriptor (d : Z) : Z := Z.lor (Z.lor (Z.land d PD_PAGE_MASK) USER_PAGE_RX) PD_COW_PAGE.

Lemma cow_descriptor_ok b d : 0 <= b < 512 -> Z.land d PD_PAGE_MASK = page_addr b ->
  PD_INVALID (cow_descriptor d) = false /\ Z.land (cow_descriptor d) PD_PAGE_MASK = page_addr b /\
  Z.land (cow_descriptor d) PD_COW_PAGE <> 0 /\ Z.land (cow_descriptor d) PD_RDONLY <> 0.
Proof.
  intros Hb Hd. unfold cow_descriptor. rewrite Hd, <- Z.lor_assoc.
  assert (Ha : attr_ok (Z.lor USER_PAGE_RX PD_COW_PAGE)) by done.
  split_and!; [by apply descriptor_valid|by apply descriptor_frame|..];
    (intros Hz; rewrite Z.land_lor_distr_l in Hz; apply Z.lor_eq_0_iff in Hz as [_ Hz]; discriminate).
Qed.

(** Addresses whose path of indices goes through [pre] and then through an
    index from [lo] to [hi]. *)
Definition covers (pre : list Z) (lo hi u : Z) : bool :=
  let j := nth (length pre) (indices u) 0 in
  bool_decide (take (length pre) (indices u) = pre) && (lo <=? j) && (j <? hi).

Lemma covers_split pre lo mid hi u : lo <= mid <= hi ->
  covers pre lo hi u = covers pre lo mid u || covers pre mid hi u /\ (covers pre lo mid u = true -> covers pre mid hi u = false).
Proof.
  intros H. unfold covers. set (j := nth (length pre) (indices u) 0). destruct (bool_decide _); simpl; [|done].
  destruct (Z.leb_spec lo j), (Z.ltb_spec j hi), (Z.ltb_spec j mid), (Z.leb_spec mid j); simpl; split; try done; lia.
Qed.

Lemma covers_empty pre lo u : covers pre lo lo u = false.
Proof. unfold covers. set (j := nth (length pre) (indices u) 0). destruct (bool_decide _), (Z.leb_spec lo j), (Z.ltb_spec j lo); simpl; try done; lia. Qed.

Lemma nth_index_range k u : (k < 4)%nat -> 0 <= nth k (indices u) 0 < 512.
Proof.
  intros Hk. pose proof (indices_range u) as Hr. rewrite list.Forall_forall in Hr. apply Hr, list_elem_of_In, nth_In. simpl. lia.
Qed.

Lemma covers_in pre lo hi u : take (length pre) (indices u) = pre -> lo <= nth (length pre) (indices u) 0 < hi -> covers pre lo hi u = true.
Proof. intros Ht Hj. unfold covers. rewrite bool_decide_true by done. set (j := nth _ (indices u) 0) in *. destruct (Z.leb_spec lo j), (Z.ltb_spec j hi); try done; lia. Qed.
Lemma covers_out pre lo hi u : take (length pre) (indices u) <> pre \/ ~ lo <= nth (length pre) (indices u) 0 < hi -> covers pre lo hi u = false.
Proof.
  intros H. unfold covers. set (j := nth _ (indices u) 0) in *. destruct (bool_decide_reflect (take (length pre) (indices u) = pre)), (Z.leb_spec lo j), (Z.ltb_spec j hi); try done.
  destruct H; [done|lia].
Qed.

Lemma covers_all u : covers [] 0 512 u = true.
Proof. apply covers_in; [done|]. apply (nth_index_range 0 u). lia. Qed.

Lemma covers_one pre i u : (length pre < 4)%nat -> covers pre i (i + 1) u = bool_decide (take (S (length pre)) (indices u) = pre ++ [i]).
Proof.
  intros Hl.
  assert (Ht : take (S (length pre)) (indices u) = take (length pre) (indices u) ++ [nth (length pre) (indices u) 0]).
  { apply take_S_r. destruct (nth_lookup_or_length (indices u) (length pre) 0) as [H|H]; [done|simpl in H; lia]. }
  rewrite Ht. destruct (decide (take (length pre) (indices u) = pre)) as [E|E].
  - rewrite E. destruct (decide (nth (length pre) (indices u) 0 = i)) as [Hj|Hne].
    + rewrite covers_in, bool_decide_true; [done|by rewrite Hj|done|lia].
    + rewrite covers_out, bool_decide_false; [done| |right; lia]. intros H. by apply app_inj_2 in H as [_ [= ?]].
  - rewrite covers_out, bool_decide_false; [done| |by left]. intros H. by apply app_inj_2 in H as [? _].
Qed.

Lemma covers_sub pre i u : (length pre < 3)%nat -> covers (pre ++ [i]) 0 512 u = covers pre i (i + 1) u.
Proof.
  intros Hl. rewrite covers_one by lia. assert (Hlen : length (pre ++ [i]) = S (length pre)) by (rewrite length_app; simpl; lia).
  pose proof (nth_index_range (S (length pre)) u ltac:(lia)) as H.
  destruct (decide (take (S (length pre)) (indices u) = pre ++ [i])) as [E|E].
  - rewrite covers_in, bool_decide_true; [done|done|by rewrite Hlen|by rewrite Hlen].
  - rewrite covers_out, bool_decide_false; [done|done|]. left. by rewrite Hlen.
Qed.

(** The path of an address that is covered. *)
Lemma covers_upper pre i u : covers pre i (i + 1) u = true -> (length pre < 3)%nat -> exists qs, upper u = pre ++ i :: qs.
Proof.
  intros Hc Hl. rewrite covers_one in Hc by lia. apply bool_decide_eq_true in Hc. exists (drop (S (length pre)) (upper u)).
  rewrite <- (take_drop (S (length pre)) (upper u)) at 1. change (pre ++ i :: drop (S (length pre)) (upper u)) with (pre ++ [i] ++ drop (S (length pre)) (upper u)).
  rewrite app_assoc, <- Hc. f_equal. change (indices u) with (upper u ++ [PTE_INDEX u]). symmetry. apply take_app_le. simpl. lia.
Qed.
Lemma covers_leaf pre i u : length pre = 3%nat -> covers pre i (i + 1) u = true <-> upper u = pre /\ PTE_INDEX u = i.
Proof.
  intros Hl. rewrite covers_one, bool_decide_eq_true by lia. rewrite Hl. change (take 4 (indices u)) with (upper u ++ [PTE_INDEX u]). split.
  - intros H. apply app_inj_2 in H as [-> [= ->]]; [done|done].
  - by intros [-> ->].
Qed.

Lemma dead_path mem f pre t i u : (length pre <= 3)%nat -> find_table mem pre f = Some t -> valid mem t i = false -> covers pre i (i + 1) u = true ->
  trans mem f u = None.
Proof.
  intros Hl Hf Hv Hc. unfold trans. destruct (decide (length pre = 3%nat)) as [He|He].
  - apply covers_leaf in Hc as [-> ->]; [|done]. rewrite Hf. unfold descriptor. by rewrite Hv.
  - destruct (covers_upper pre i u Hc ltac:(lia)) as [qs ->]. rewrite find_table_app, Hf. simpl. by rewrite Hv.
Qed.

(** A page for every slot of a last-level table. *)
Lemma leaf_address pre i : Forall in_table pre -> length pre = 3%nat -> in_table i ->
  exists u, user_va u /\ upper u = pre /\ PTE_INDEX u = i /\ forall w, user_va w -> (w / 4096 = u / 4096 <-> covers pre i (i + 1) w = true).
Proof.
  intros Hr Hl Hi. destruct pre as [|i0 [|i1 [|i2 [|]]]]; try done. do 3 apply list.Forall_cons in Hr as [? Hr].
  destruct (address_indices i0 i1 i2 i) as (Hu & Hup & Hpt); [done..|]. exists (address_of i0 i1 i2 i). split_and!; [done..|].
  intros w Hw. rewrite covers_leaf, <- (indices_page w _ Hw Hu) by done.
  change (indices w) with (upper w ++ [PTE_INDEX w]). change (indices (address_of i0 i1 i2 i)) with (upper (address_of i0 i1 i2 i) ++ [PTE_INDEX (address_of i0 i1 i2 i)]).
  rewrite Hup, Hpt. split; [intros Hx; apply app_inj_2 in Hx as [-> [= ->]]; done|by intros [-> ->]].
Qed.

(** ** Two maps *)

Section copying.
Context (r_pgd pgd : Z) (T : gmap Z nat).

(** The parent's map, whose tables are [T], and the child's, with tables [N]. *)
Record both (s : VM) (N : gmap Z nat) (live : gmap Z Z) (ptrs : gset Z) : Prop := {
  bo_old : space_ok s r_pgd T live ptrs;
  bo_new : vm_ok s pgd N live ptrs;
  bo_apart f l : T !! f = Some l -> N !! f = None
}.

(** What copying the entries [lo] to [hi] of the tables at [pre] does, [nt] being
    the child's table; [ops] are the entries as calls of the release. *)
Record copied (pre : list Z) (nt lo hi : Z) (ops : list fop) (s s' : VM) (N N' : gmap Z nat) (live live' : gmap Z Z) (ptrs ptrs' : gset Z) : Prop := {
  cp_both : both s' N' live' ptrs';
  cp_shape : same_shape (vm_mem s) T (vm_mem s');
  cp_old u : user_va u -> trans (vm_mem s') r_pgd u = if covers pre lo hi u then cow_descriptor <$> trans (vm_mem s) r_pgd u else trans (vm_mem s) r_pgd u;
  cp_new u : user_va u -> trans (vm_mem s') pgd u = if covers pre lo hi u then cow_descriptor <$> trans (vm_mem s) r_pgd u else trans (vm_mem s) pgd u;
  cp_refs b c : arr_get (refs s) b = Some c -> arr_get (refs s') b = Some (c + unrefs b ops);
  cp_frames : frames_added (length (tables ops)) live live';
  cp_ptrs : (size ptrs' <= size ptrs + length (tables ops))%nat;
  cp_tables : N ⊆ N' /\ new_tables N N' live;
  cp_keep f l j : N !! f = Some l -> in_table j -> ~ (f = nt /\ lo <= j < hi) -> vm_mem s' (entry f j) = vm_mem s (entry f j);
  cp_out x : (forall f l, T !! f = Some l -> in_frame f x = false) -> (forall f l, N' !! f = Some l -> in_frame f x = false) -> vm_mem s' x = vm_mem s x
}.

Lemma shape_trans m1 m2 m3 : same_shape m1 T m2 -> same_shape m2 T m3 -> same_shape m1 T m3.
Proof. intros H1 H2 f l i Hf Hi. destruct (H1 f l i Hf Hi) as [<- <-]. by apply (H2 f l i). Qed.

Lemma copied_none pre nt lo s N live ptrs : both s N live ptrs -> copied pre nt lo lo [] s s N N live live ptrs ptrs.
Proof.
  intros Hb. split; try done; try (intros; by rewrite covers_empty).
  - intros b c Hc. simpl. by rewrite Z.add_0_r.
  - split_and!; [done|by left|simpl; lia].
  - simpl. lia.
  - split; [done|by left].
Qed.

Lemma copied_trans pre nt lo mid hi ops1 ops2 s1 s2 s3 N1 N2 N3 live1 live2 live3 ptrs1 ptrs2 ptrs3 : lo <= mid <= hi ->
  copied pre nt lo mid ops1 s1 s2 N1 N2 live1 live2 ptrs1 ptrs2 -> copied pre nt mid hi ops2 s2 s3 N2 N3 live2 live3 ptrs2 ptrs3 ->
  copied pre nt lo hi (ops1 ++ ops2) s1 s3 N1 N3 live1 live3 ptrs1 ptrs3.
Proof.
  intros Hm [A1 A2 A3 A4 A5 A6 A7 [A8 A8'] A9 A10] [B1 B2 B3 B4 B5 B6 B7 [B8 B8'] B9 B10].
  split; [done|by eapply shape_trans|..].
  - intros u Hu. destruct (covers_split pre lo mid hi u Hm) as [-> Hd]. rewrite (B3 u Hu), (A3 u Hu). destruct (covers pre lo mid u); simpl; [by rewrite Hd|done].
  - intros u Hu. destruct (covers_split pre lo mid hi u Hm) as [-> Hd]. rewrite (B4 u Hu), (A4 u Hu), (A3 u Hu). destruct (covers pre lo mid u); simpl; [by rewrite Hd|done].
  - intros b c Hc. rewrite (B5 b _ (A5 b c Hc)), unrefs_app. f_equal. lia.
  - rewrite tables_app, length_app. by eapply frames_added_trans.
  - rewrite tables_app, length_app. lia.
  - split; [by etrans|]. intros b l Hb. destruct (B8' b l Hb) as [H|H]; [by apply A8'|right]. eapply lookup_weaken_None; [done|apply A6].
  - intros f l j Hf Hj Hne. rewrite (B9 f l j), (A9 f l j); [done|done|done|naive_solver lia|by eapply lookup_weaken|done|naive_solver lia].
  - intros x H1 H2. rewrite B10, A10; [done|done| |done|done]. intros f l Hf. apply (H2 f l). by eapply lookup_weaken.
Qed.

(** *** Single writes *)

Lemma other_table mem pg N' f l g j k d : pt_wf mem pg N' -> N' !! f = Some l -> (exists c, g = page_addr c) -> N' !! g = None -> in_table j -> in_table k ->
  upd_word (entry g j) d mem (entry f k) = mem (entry f k).
Proof.
  intros Hw Hf [c ->] Hg Hj Hk. destruct (pw_addr _ _ _ Hw f l Hf) as (x & _ & ->). apply upd_word_ne. intros [-> _]%entry_inj; [congruence|done..].
Qed.

Lemma both_kernel s s' N live ptrs : both s N live ptrs -> vm_mem s' = vm_mem s -> vm_ok s' r_pgd T live ptrs -> both s' N live ptrs.
Proof.
  intros [[_ Hd] [_ _ Hw Hl] Ha] Hm [Hc Hmm Hw' Hl']. split; [split; [by split|by rewrite Hm]| |done]. split; [done|done|by rewrite Hm|done].
Qed.

Lemma write_new s N live ptrs pn i d : both s N live ptrs -> N !! pn = Some 3%nat -> in_table i ->
  let s' := set_vm_mem (upd_word (entry pn i) d (vm_mem s)) s in
  both s' N live ptrs /\ (forall f l j, T !! f = Some l -> in_table j -> vm_mem s' (entry f j) = vm_mem s (entry f j)) /\
  (forall u, trans (vm_mem s') r_pgd u = trans (vm_mem s) r_pgd u).
Proof.
  intros [[Hok Hd] Hn Ha] Hpn Hi s'. destruct Hok as [Hc Hm Hw Hl]. destruct (pw_addr _ _ _ (vo_wf _ _ _ _ _ Hn) pn _ Hpn) as (c & _ & Hpc).
  assert (Hother : forall f l j, T !! f = Some l -> in_table j -> vm_mem s' (entry f j) = vm_mem s (entry f j)).
  { intros f l j Hf Hj. eapply other_table; [exact Hw|exact Hf|eauto| |done|done]. destruct (T !! pn) as [k|] eqn:E; [|done]. rewrite (Ha _ _ E) in Hpn. done. }
  destruct (pt_wf_ext (vm_mem s) (vm_mem s') r_pgd T Hw Hother) as [Hw' Htr]. split_and!; [|done|intros u; apply Htr].
  split; [split; [by split|]|by apply vm_ok_leaf|done]. intros u x Hu. rewrite (proj1 (Htr u)). by apply Hd.
Qed.

Lemma write_old s N live ptrs pre po i : both s N live ptrs -> Forall in_table pre -> length pre = 3%nat -> find_table (vm_mem s) pre r_pgd = Some po ->
  in_table i -> valid (vm_mem s) po i = true ->
  let d := cow_descriptor (vm_mem s (entry po i)) in let s' := set_vm_mem (upd_word (entry po i) d (vm_mem s)) s in
  both s' N live ptrs /\ same_shape (vm_mem s) T (vm_mem s') /\
  (forall f l j, N !! f = Some l -> in_table j -> vm_mem s' (entry f j) = vm_mem s (entry f j)) /\
  (forall u, trans (vm_mem s') pgd u = trans (vm_mem s) pgd u) /\
  (forall u, user_va u -> trans (vm_mem s') r_pgd u = if covers pre i (i + 1) u then cow_descriptor <$> trans (vm_mem s) r_pgd u else trans (vm_mem s) r_pgd u).
Proof.
  intros [Hold Hn Ha] Hr Hl Hf Hi Hv d s'. pose proof Hold as [Hok Hd]. pose proof (vo_wf _ _ _ _ _ Hok) as Hw. pose proof (vo_wf _ _ _ _ _ Hn) as Hwn.
  pose proof (path_level _ _ _ Hw pre po Hr ltac:(lia) Hf) as Hpo. rewrite Hl in Hpo. destruct (pw_addr _ _ _ Hw po _ Hpo) as (c & _ & Hpc).
  destruct (leaf_data s r_pgd T live ptrs pre po i Hold Hr Hl Hi Hf Hv) as (u0 & b & Hu0 & Htr0 & Hb & Hcb & Hlb & HTb).
  destruct (cow_descriptor_ok b (vm_mem s (entry po i)) Hb Hcb) as (Hdv & Hdc & _).
  assert (Hother : forall f l j, N !! f = Some l -> in_table j -> vm_mem s' (entry f j) = vm_mem s (entry f j)).
  { intros f l j Hfn Hj. eapply other_table; [exact Hwn|exact Hfn|eauto|by eapply Ha|done|done]. }
  destruct (pt_wf_ext (vm_mem s) (vm_mem s') pgd N Hwn Hother) as [Hwn' Htrn].
  assert (Htr : forall u, user_va u -> trans (vm_mem s') r_pgd u = if covers pre i (i + 1) u then cow_descriptor <$> trans (vm_mem s) r_pgd u else trans (vm_mem s) r_pgd u).
  { destruct (leaf_address pre i Hr Hl Hi) as (u1 & Hu1 & Hup & Hpt & Hpage). intros w Hw1. simpl.
    rewrite (leaf_trans _ _ _ Hw po i d Hpo Hi u1 w Hu1 Hw1) by (by rewrite ?Hup). fold d in Hdv. rewrite Hdv.
    destruct (covers pre i (i + 1) w) eqn:Hcov; [rewrite decide_True by (by apply Hpage)|rewrite decide_False; [done|]; intros He%Hpage; congruence; done].
    apply covers_leaf in Hcov as [Huw Hpw]; [|done]. unfold trans. rewrite Huw, Hf. unfold descriptor. rewrite Hpw, Hv. done. }
  split_and!; [|..|done|intros u; apply Htrn|done].
  - split; [split; [by apply vm_ok_leaf|]|split; [apply Hok|apply Hok|done|apply Hn]|done].
    intros u x Hu. rewrite (Htr u Hu). destruct (covers pre i (i + 1) u); [|by apply Hd]. intros (y & Hy & ->)%fmap_Some.
    destruct (Hd u y Hu Hy) as (b' & Hb' & Hcb' & Hrest). exists b'. destruct (cow_descriptor_ok b' y Hb' Hcb') as (_ & ? & _). done.
  - intros f l j Hft Hj. destruct (decide (f = po /\ j = i)) as [[-> ->]|Hne].
    + unfold valid, child. simpl. rewrite upd_word_eq. unfold d. rewrite Hdv, Hdc. split; [exact (eq_sym Hv)|exact (eq_sym Hcb)].
    + apply same_entry. simpl. destruct (pw_addr _ _ _ Hw f l Hft) as (x & _ & ->). rewrite Hpc. apply upd_word_ne. intros [-> ->]%entry_inj; [|done..]. by apply Hne; rewrite Hpc.
Qed.

(** *** One entry *)

(** The body of the loop. *)
Definition copy_entry (below : nat) (po pn i : Z) : M VM unit :=
  d ← rd_word (entry po i);
  if PD_INVALID d then mret tt
  else
    match below with
    | O =>
        wr_word (entry pn i) (cow_descriptor d);;
        wr_word (entry po i) (cow_descriptor d);;
        on_kernel (inc_page_ref_count (Z.land d PD_PAGE_MASK));;
        mret tt
    | S below =>
        new_page_frame ← new_table;
        wr_word (entry pn i) (Z.lor new_page_frame PD_TABLE);;
        dfs_copy_page_tables below (Z.land d PD_PAGE_MASK) new_page_frame
    end.
Lemma dfs_copy_entries below po pn : dfs_copy_page_tables below po pn = for_entries 512 0 (copy_entry below po pn).
Proof. by destruct below. Qed.

(** The calls of the release for one entry. *)
Definition slot_ops (below : nat) (mem : Z -> Z) (pt i : Z) : list fop :=
  entry_ops (match below with O => fun _ => [] | S below => dfs_ops below mem end) mem below pt i.

(** An entry that is not in use. *)
Lemma copied_skip pre po pn i s N live ptrs : both s N live ptrs -> (length pre <= 3)%nat -> find_table (vm_mem s) pre r_pgd = Some po ->
  find_table (vm_mem s) pre pgd = Some pn -> valid (vm_mem s) po i = false -> valid (vm_mem s) pn i = false ->
  copied pre pn i (i + 1) [] s s N N live live ptrs ptrs.
Proof.
  intros Hb Hl Ho Hn Hvo Hvn. destruct (copied_none pre pn i s N live ptrs Hb) as [A1 A2 _ _ A5 A6 A7 A8 A9 A10]. split; try done.
  - intros u _. destruct (covers pre i (i + 1) u) eqn:Hc; [|done]. by rewrite (dead_path _ _ _ _ _ _ Hl Ho Hvo Hc).
  - intros u _. destruct (covers pre i (i + 1) u) eqn:Hc; [|done]. by rewrite (dead_path _ _ _ _ _ _ Hl Ho Hvo Hc), (dead_path _ _ _ _ _ _ Hl Hn Hvn Hc).
Qed.

Lemma frame_of_entry pg mem N' f l j x : pt_wf mem pg N' -> N' !! f = Some l -> in_table j -> (forall g k, N' !! g = Some k -> in_frame g x = false) -> x <> entry f j.
Proof. intros Hw Hf Hj Hx ->. specialize (Hx f l Hf). destruct (pw_addr _ _ _ Hw f l Hf) as (c & _ & ->). by rewrite entry_in_frame in Hx. Qed.

Lemma copy_leaf_run pre po pn i s N live ptrs : both s N live ptrs -> Forall in_table pre -> length pre = 3%nat -> in_table i ->
  find_table (vm_mem s) pre r_pgd = Some po -> find_table (vm_mem s) pre pgd = Some pn -> valid (vm_mem s) pn i = false ->
  refs_room (k_mm (vm_kernel s)) (Z.of_nat (length (slot_ops 0 (vm_mem s) po i))) ->
  exists s', copy_entry 0 po pn i s = Ret (tt, s') /\ copied pre pn i (i + 1) (slot_ops 0 (vm_mem s) po i) s s' N N live live ptrs ptrs.
Proof.
  intros Hb Hr Hl Hi Ho Hn Hvn Hroom. unfold copy_entry, slot_ops, entry_ops in *. mrun (rd_word_run (entry po i) s).
  destruct (valid (vm_mem s) po i) eqn:Hv; unfold valid in Hv; destruct (PD_INVALID (vm_mem s (entry po i))) eqn:Hinv; try done.
  2:{ exists s. split; [done|]. apply (copied_skip pre po); try done; [lia|]. unfold valid. by rewrite Hinv. }
  assert (Hvo : valid (vm_mem s) po i = true) by (unfold valid; by rewrite Hinv).
  pose proof (path_level _ _ _ (vo_wf _ _ _ _ _ (bo_new _ _ _ _ Hb)) pre pn Hr ltac:(lia) Hn) as Hpn. rewrite Hl in Hpn.
  pose proof (path_level _ _ _ (vo_wf _ _ _ _ _ (so_vm _ _ _ _ _ (bo_old _ _ _ _ Hb))) pre po Hr ltac:(lia) Ho) as Hpo. rewrite Hl in Hpo.
  destruct (leaf_data s r_pgd T live ptrs pre po i (bo_old _ _ _ _ Hb) Hr Hl Hi Ho Hvo) as (_ & b & _ & _ & Hbr & Hcb & _ & _).
  set (d := vm_mem s (entry po i)) in *. set (s1 := set_vm_mem (upd_word (entry pn i) (cow_descriptor d) (vm_mem s)) s).
  destruct (write_new s N live ptrs pn i (cow_descriptor d) Hb Hpn Hi) as (Hb1 & He1 & Ht1). fold s1 in Hb1, He1, Ht1.
  assert (Hd1 : vm_mem s1 (entry po i) = d) by (by eapply He1).
  assert (Ho1 : find_table (vm_mem s1) pre r_pgd = Some po).
  { destruct (leaf_address pre i Hr Hl Hi) as (u & _ & Hup & _ & _). rewrite <- Hup in *.
    destruct (pt_wf_ext (vm_mem s) (vm_mem s1) r_pgd T (vo_wf _ _ _ _ _ (so_vm _ _ _ _ _ (bo_old _ _ _ _ Hb))) He1) as [_ Hx]. destruct (Hx u) as [_ ->]. done. }
  destruct (write_old s1 N live ptrs pre po i Hb1 Hr Hl Ho1 Hi) as (Hb2 & Hsh2 & He2 & Htn2 & Hto2); [unfold valid; by rewrite Hd1, Hinv|].
  rewrite Hd1 in *. set (s2 := set_vm_mem (upd_word (entry po i) (cow_descriptor d) (vm_mem s1)) s1) in *.
  destruct (vm_ref_spec s2 r_pgd T live ptrs (Inc b) 0 (so_vm _ _ _ _ _ (bo_old _ _ _ _ Hb2)) Hbr Hroom ltac:(lia)) as (c & s3 & Hinc & Hok3 & Hmem & _ & Hadd).
  exists s3. assert (Hw1 : wr_word (entry pn i) (cow_descriptor d) s = Ret (tt, s1)) by done. assert (Hw2 : wr_word (entry po i) (cow_descriptor d) s1 = Ret (tt, s2)) by done.
  split. { mrun Hw1. mrun Hw2. change (Z.land d PD_PAGE_MASK) with (child (vm_mem s) po i). rewrite Hcb. mrun Hinc. done. }
  assert (Htn : forall u, user_va u -> trans (vm_mem s1) pgd u = if covers pre i (i + 1) u then cow_descriptor <$> trans (vm_mem s) r_pgd u else trans (vm_mem s) pgd u).
  { destruct (leaf_address pre i Hr Hl Hi) as (u1 & Hu1 & Hup & Hpt & Hpage). intros w Hw. simpl. destruct (cow_descriptor_ok b d Hbr Hcb) as (Hdv & _).
    rewrite (leaf_trans _ _ _ (vo_wf _ _ _ _ _ (bo_new _ _ _ _ Hb)) pn i (cow_descriptor d) Hpn Hi u1 w Hu1 Hw) by (by rewrite ?Hup). rewrite Hdv.
    destruct (covers pre i (i + 1) w) eqn:Hcov; [rewrite decide_True by (by apply Hpage)|rewrite decide_False; [done|]; intros He%Hpage; congruence].
    apply covers_leaf in Hcov as [Huw Hpw]; [|done]. unfold trans. rewrite Huw, Ho. unfold descriptor. by rewrite Hpw, Hvo. }
  split.
  - by eapply both_kernel.
  - rewrite Hmem. eapply shape_trans; [|exact Hsh2]. intros f l j Hf Hj. by eapply same_entry, He1.
  - intros u Hu. by rewrite Hmem, Hto2, !Ht1.
  - intros u Hu. by rewrite Hmem, Htn2, Htn.
  - intros x y Hx. rewrite (Hadd x y Hx). cbn [unrefs unref_of ref_page ref_delta]. rewrite Hcb. f_equal.
    destruct (decide (b = x)) as [->|Hne]; [rewrite Z.eqb_refl; lia|]. rewrite (proj2 (Z.eqb_neq _ _)); [lia|]. intros ?%page_addr_inj. congruence.
  - split_and!; [done|by left|simpl; lia].
  - simpl. lia.
  - split; [done|by left].
  - intros f l j Hf Hj Hne. rewrite Hmem, (He2 f l j Hf Hj). simpl. destruct (pw_addr _ _ _ (vo_wf _ _ _ _ _ (bo_new _ _ _ _ Hb)) f l Hf) as (x & _ & ->).
    destruct (pw_addr _ _ _ (vo_wf _ _ _ _ _ (bo_new _ _ _ _ Hb)) pn _ Hpn) as (y & _ & Hy). rewrite Hy in *. apply upd_word_ne. intros [-> ->]%entry_inj; [|done..]. apply Hne. split; [done|lia].
  - intros x H1 H2. rewrite Hmem. simpl. rewrite !upd_word_ne; [done|..].
    + eapply (frame_of_entry pgd _ N); [apply (vo_wf _ _ _ _ _ (bo_new _ _ _ _ Hb))|done..].
    + eapply (frame_of_entry r_pgd _ T); [apply (vo_wf _ _ _ _ _ (so_vm _ _ _ _ _ (bo_old _ _ _ _ Hb)))|done..].
Qed.

(** *** Paths through changed memory *)

Lemma find_same mem mem' pg N' ps t : pt_wf mem pg N' -> Forall in_table ps -> (length ps <= 3)%nat ->
  (forall f l i, N' !! f = Some l -> (l < length ps)%nat -> in_table i -> valid mem f i = true -> valid mem' f i = true /\ child mem' f i = child mem f i) ->
  find_table mem ps pg = Some t -> find_table mem' ps pg = Some t.
Proof.
  intros Hw. revert t. induction ps as [|i ps IH] using rev_ind; intros t Hr Hl Hs Hf; [done|]. rewrite length_app in Hl, Hs. simpl in Hl, Hs.
  apply list.Forall_app in Hr as [Hr Hi]. apply list.Forall_cons in Hi as [Hi _]. rewrite find_table_app in *.
  destruct (find_table mem ps pg) as [f|] eqn:Hfp; [|done]. pose proof (path_level _ _ _ Hw ps f Hr ltac:(lia) Hfp) as Hlv.
  rewrite (IH f Hr ltac:(lia)); [|intros g l j Hg Hlt; apply (Hs g l j Hg); lia|done]. simpl in *. destruct (valid mem f i) eqn:Hv; [|done].
  destruct (Hs f _ i Hlv ltac:(lia) Hi Hv) as [-> ->]. done.
Qed.

Lemma copied_paths pre nt lo hi ops s s' N N' live live' ptrs ptrs' po : both s N live ptrs -> copied pre nt lo hi ops s s' N N' live live' ptrs ptrs' ->
  Forall in_table pre -> (length pre <= 3)%nat -> find_table (vm_mem s) pre r_pgd = Some po -> find_table (vm_mem s) pre pgd = Some nt ->
  find_table (vm_mem s') pre r_pgd = Some po /\ find_table (vm_mem s') pre pgd = Some nt.
Proof.
  intros Hb Hc Hr Hl Ho Hn. pose proof (vo_wf _ _ _ _ _ (bo_new _ _ _ _ Hb)) as Hw. split.
  - eapply (find_same _ _ r_pgd T); [apply Hb|done|done| |done]. intros f l i Hf _ Hi Hv.
    destruct (cp_shape _ _ _ _ _ _ _ _ _ _ _ _ _ Hc f l i Hf Hi) as [-> ->]. done.
  - eapply (find_same _ _ pgd N); [done|done|done| |done]. intros f l i Hf Hlt Hi Hv.
    destruct (same_entry (vm_mem s) (vm_mem s') f i) as [-> ->]; [|done]. eapply (cp_keep _ _ _ _ _ _ _ _ _ _ _ _ _ Hc); [done|done|].
    intros [-> _]. pose proof (path_level _ _ _ Hw pre nt Hr Hl Hn). assert (l = length pre) by congruence. lia.
Qed.

Lemma slot_ops_shape below s N live ptrs mem' pre po i : both s N live ptrs -> same_shape (vm_mem s) T mem' -> Forall in_table pre -> (length pre + below = 3)%nat ->
  find_table (vm_mem s) pre r_pgd = Some po -> in_table i -> slot_ops below mem' po i = slot_ops below (vm_mem s) po i.
Proof.
  intros Hb Hs Hr Hl Ho Hi. pose proof (vo_wf _ _ _ _ _ (so_vm _ _ _ _ _ (bo_old _ _ _ _ Hb))) as Hw.
  pose proof (path_level _ _ _ Hw pre po Hr ltac:(lia) Ho) as Hlv. unfold slot_ops, entry_ops. destruct (Hs po _ i Hlv Hi) as [-> ->].
  destruct (valid (vm_mem s) po i) eqn:Hv; [|done]. destruct below as [|below]; [done|].
  rewrite (dfs_ops_shape (vm_mem s) r_pgd T Hw mem' below (child (vm_mem s) po i) (S (length pre))); [done| |lia|done].
  apply (pw_child _ _ _ Hw po (length pre) i); [done|lia|done..].
Qed.

Lemma dfs_ops_slots below mem pt : dfs_ops below mem pt = seqZ 0 512 ≫= slot_ops below mem pt.
Proof. by destruct below. Qed.

Lemma refs_length s N live ptrs : both s N live ptrs -> length (refs s) = 512%nat.
Proof. intros Hb. by eapply space_refs, Hb. Qed.

Lemma copied_room pre nt lo hi ops s s' N N' live live' ptrs ptrs' n : both s N live ptrs -> copied pre nt lo hi ops s s' N N' live live' ptrs ptrs' ->
  refs_room (k_mm (vm_kernel s)) (Z.of_nat (length ops) + n) -> 0 <= n -> refs_room (k_mm (vm_kernel s')) n.
Proof.
  intros Hb Hc Hroom Hn i c Hi. fold (refs s') in Hi.
  destruct (arr_get_is_Some (refs s) i) as [x Hx].
  { apply arr_get_Some_range in Hi. rewrite (refs_length _ _ _ _ (cp_both _ _ _ _ _ _ _ _ _ _ _ _ _ Hc)) in Hi. rewrite (refs_length _ _ _ _ Hb). lia. }
  rewrite (cp_refs _ _ _ _ _ _ _ _ _ _ _ _ _ Hc i x Hx) in Hi. injection Hi as <-. specialize (Hroom i x Hx). pose proof (unrefs_range i ops). lia.
Qed.

(** *** The loop *)

(** What a step on entry [i] is to do. *)
Definition step_ok (below : nat) (pre : list Z) (po pn : Z) : Prop := forall i s N live ptrs, both s N live ptrs -> in_table i ->
  find_table (vm_mem s) pre r_pgd = Some po -> find_table (vm_mem s) pre pgd = Some pn -> valid (vm_mem s) pn i = false ->
  let ops := slot_ops below (vm_mem s) po i in
  refs_room (k_mm (vm_kernel s)) (Z.of_nat (length ops)) -> (size ptrs + length (tables ops) <= NR_SLOTS)%nat ->
  (exists s' N' live' ptrs', copy_entry below po pn i s = Ret (tt, s') /\ copied pre pn i (i + 1) ops s s' N N' live live' ptrs ptrs') \/
  (copy_entry below po pn i s = Panic /\ short_of_frames live (length (tables ops))).

Lemma copy_loop_run below pre po pn : step_ok below pre po pn -> Forall in_table pre -> (length pre + below = 3)%nat -> forall n i s N live ptrs,
  both s N live ptrs -> 0 <= i -> i + Z.of_nat n <= 512 -> find_table (vm_mem s) pre r_pgd = Some po -> find_table (vm_mem s) pre pgd = Some pn ->
  (forall j, i <= j < i + Z.of_nat n -> valid (vm_mem s) pn j = false) ->
  let ops := seqZ i (Z.of_nat n) ≫= slot_ops below (vm_mem s) po in
  refs_room (k_mm (vm_kernel s)) (Z.of_nat (length ops)) -> (size ptrs + length (tables ops) <= NR_SLOTS)%nat ->
  (exists s' N' live' ptrs', for_entries n i (copy_entry below po pn) s = Ret (tt, s') /\ copied pre pn i (i + Z.of_nat n) ops s s' N N' live live' ptrs ptrs') \/
  (for_entries n i (copy_entry below po pn) s = Panic /\ short_of_frames live (length (tables ops))).
Proof.
  intros Hstep Hr Hl n. induction n as [|n IH]; intros i s N live ptrs Hb Hi0 Hin Ho Hn Hv ops Hroom Hslots.
  { left. exists s, N, live, ptrs. split; [done|]. replace (i + Z.of_nat 0) with i by lia. by apply copied_none. }
  assert (Hit : in_table i) by (unfold in_table; lia). cbn [for_entries].
  assert (Hops : ops = slot_ops below (vm_mem s) po i ++ (seqZ (i + 1) (Z.of_nat n) ≫= slot_ops below (vm_mem s) po)).
  { unfold ops. rewrite seqZ_cons by lia. rewrite bind_cons. replace (Z.pred (Z.of_nat (S n))) with (Z.of_nat n) by lia. done. }
  rewrite Hops in *. clear ops Hops. set (ops1 := slot_ops below (vm_mem s) po i) in *. set (ops2 := seqZ (i + 1) (Z.of_nat n) ≫= slot_ops below (vm_mem s) po) in *.
  rewrite length_app in Hroom. rewrite tables_app, length_app in *.
  destruct (Hstep i s N live ptrs Hb Hit Ho Hn ltac:(apply Hv; lia)) as [(s1 & N1 & live1 & ptrs1 & Hrun & Hc)|[Hp Hs]].
  { intros j c Hj. specialize (Hroom j c Hj). fold ops1. lia. }
  { fold ops1. lia. }
  2:{ right. split; [unfold mbind, M_bind; by rewrite Hp|]. eapply short_of_frames_weaken; [exact Hs|fold ops1; lia]. }
  mrun Hrun. fold ops1 in Hc. pose proof (cp_both _ _ _ _ _ _ _ _ _ _ _ _ _ Hc) as Hb1.
  destruct (copied_paths _ _ _ _ _ _ _ _ _ _ _ _ _ po Hb Hc Hr ltac:(lia) Ho Hn) as [Ho1 Hn1].
  assert (Hops2 : (seqZ (i + 1) (Z.of_nat n) ≫= slot_ops below (vm_mem s1) po) = ops2).
  { unfold ops2. assert (Hbind : forall js, (forall j, j ∈ js -> in_table j) -> js ≫= slot_ops below (vm_mem s1) po = js ≫= slot_ops below (vm_mem s) po).
    { intros js. induction js as [|j js IHj]; intros Hj; [done|]. rewrite !bind_cons, IHj by (intros k Hk; apply Hj; by apply list_elem_of_further). f_equal.
      eapply slot_ops_shape; [exact Hb|apply (cp_shape _ _ _ _ _ _ _ _ _ _ _ _ _ Hc)|done|done|done|apply Hj, list_elem_of_here]. }
    apply Hbind. intros j Hj%elem_of_seqZ. unfold in_table. lia. }
  destruct (IH (i + 1) s1 N1 live1 ptrs1 Hb1) as [(s2 & N2 & live2 & ptrs2 & Hrun2 & Hc2)|[Hp Hs]]; [lia|lia|done|done|..].
  - intros j Hj. destruct (same_entry (vm_mem s) (vm_mem s1) pn j) as [-> _]; [|apply Hv; lia].
    eapply (cp_keep _ _ _ _ _ _ _ _ _ _ _ _ _ Hc); [|unfold in_table; lia|intros [_ ?]; lia].
    apply (path_level _ _ _ (vo_wf _ _ _ _ _ (bo_new _ _ _ _ Hb)) pre pn Hr); [lia|done].
  - rewrite Hops2. eapply copied_room; [exact Hb|exact Hc| |lia]. by rewrite Nat2Z.inj_add in Hroom.
  - rewrite Hops2. pose proof (cp_ptrs _ _ _ _ _ _ _ _ _ _ _ _ _ Hc). lia.
  - left. exists s2, N2, live2, ptrs2. split; [done|]. rewrite Hops2 in Hc2. replace (i + Z.of_nat (S n)) with (i + 1 + Z.of_nat n) by lia.
    eapply (copied_trans pre pn i (i + 1)); [lia|exact Hc|exact Hc2].
  - right. split; [done|]. rewrite Hops2 in Hs. eapply short_of_frames_added; [apply (cp_frames _ _ _ _ _ _ _ _ _ _ _ _ _ Hc)|done].
Qed.

(** *** An entry above the last level *)

(** What [new_table] and the write into the slot do to both maps. *)
Lemma new_slot_run s N live ptrs pn l i : both s N live ptrs -> (size ptrs < NR_SLOTS)%nat -> N !! pn = Some l -> (l < 3)%nat -> in_table i -> valid (vm_mem s) pn i = false ->
  (exists b s1 s2, new_table s = Ret (page_addr b, s1) /\ wr_word (entry pn i) (Z.lor (page_addr b) PD_TABLE) s1 = Ret (tt, s2) /\
     N !! page_addr b = None /\ live !! b = None /\ both s2 (<[page_addr b := S l]> N) (<[b := 0]> live) ({[page_addr b]} ∪ ptrs) /\
     (size ({[page_addr b]} ∪ ptrs) <= size ptrs + 1)%nat /\ valid (vm_mem s2) pn i = true /\ child (vm_mem s2) pn i = page_addr b /\
     (forall j, in_table j -> valid (vm_mem s2) (page_addr b) j = false) /\
     (forall f k j, T !! f = Some k -> in_table j -> vm_mem s2 (entry f j) = vm_mem s (entry f j)) /\
     (forall f k j, N !! f = Some k -> in_table j -> ~ (f = pn /\ j = i) -> vm_mem s2 (entry f j) = vm_mem s (entry f j)) /\
     (forall u, trans (vm_mem s2) pgd u = trans (vm_mem s) pgd u) /\ (forall u, trans (vm_mem s2) r_pgd u = trans (vm_mem s) r_pgd u) /\
     same_outside (<[page_addr b := S l]> N) (vm_mem s) (vm_mem s2) /\ refs s2 = refs s) \/
  (new_table s = Panic /\ exhausted live 0).
Proof.
  intros [[[Hc Hm Hw Hl] Hd] Hn Ha] Hroom Hpn Hlt Hi Hv.
  destruct (new_table_spec s pgd N live ptrs pn l i Hn Hroom Hpn Hlt Hi Hv) as [(b & s1 & s2 & H1 & H2 & HN & Hb & Hok2 & Hlb & Hv2 & Hc2 & _ & Htr & Hso & Hrf)|?]; [left|by right].
  assert (Hmem : vm_mem s2 = upd_word (entry pn i) (Z.lor (page_addr b) PD_TABLE) (zero_frame (page_addr b) (vm_mem s))).
  { pose proof H1 as H. unfold new_table in H. minv H as p s3 H3. minv H as u s4 H4. injection H as -> <-. apply on_kernel_mem in H3. injection H4 as _ <-. injection H2 as <-. simpl. by rewrite H3. }
  assert (HT : forall f k, T !! f = Some k -> exists c, f = page_addr c /\ c <> b).
  { intros f k Hf. destruct (pw_addr _ _ _ Hw f k Hf) as (c & _ & ->). exists c. split; [done|]. intros ->. apply Hl in Hf. congruence. }
  assert (Hapart : forall f k, T !! f = Some k -> <[page_addr b := S l]> N !! f = None).
  { intros f k Hf. destruct (HT f k Hf) as (c & -> & Hne). rewrite lookup_insert_ne; [by eapply Ha|]. intros ?%page_addr_inj. congruence. }
  assert (Hold : forall f k j, T !! f = Some k -> in_table j -> vm_mem s2 (entry f j) = vm_mem s (entry f j)).
  { intros f k j Hf Hj. apply Hso. intros g m Hg. destruct (pw_addr _ _ _ (vo_wf _ _ _ _ _ Hok2) g m Hg) as (y & _ & ->). destruct (HT f k Hf) as (c & -> & _).
    apply (frame_disjoint y c (8 * j)); [|unfold in_table in Hj; lia]. intros ->. by rewrite (Hapart _ _ Hf) in Hg. }
  destruct (pt_wf_ext (vm_mem s) (vm_mem s2) r_pgd T Hw Hold) as [Hw2 Htr2].
  destruct (pw_addr _ _ _ (vo_wf _ _ _ _ _ Hn) pn l Hpn) as (pb & _ & Hpb).
  assert (Hpnb : page_addr pb <> page_addr b) by congruence.
  exists b, s1, s2. split_and!; try done.
  - split; [split; [split; [apply Hok2|apply Hok2|done|]|]|done|done].
    + intros c k Hf. rewrite lookup_insert_ne; [by eapply Hl|]. intros ->. apply Hl in Hf. congruence.
    + intros u d Hu. rewrite (proj1 (Htr2 u)). intros Hud. destruct (Hd u d Hu Hud) as (c & Hcr & Hcd & Hlc & HTc). exists c. split_and!; [lia|lia|done| |done].
      rewrite lookup_insert_ne; [done|congruence].
  - rewrite size_union_alt, size_singleton. pose proof (subseteq_size (ptrs ∖ {[page_addr b]}) ptrs ltac:(set_solver)). lia.
  - intros j Hj. unfold valid. rewrite Hmem, upd_word_ne, zero_frame_own; [done|done|]. rewrite Hpb. intros [-> _]%entry_inj; [done|done|done].
  - intros f k j Hf Hj Hne. destruct (pw_addr _ _ _ (vo_wf _ _ _ _ _ Hn) f k Hf) as (c & _ & ->). rewrite Hmem, upd_word_ne, zero_frame_other; [done|done|congruence|].
    rewrite Hpb in *. intros [-> ->]%entry_inj; [|done..]. by apply Hne.
  - intros u. apply Htr2.
Qed.

(** From the copy of the subtree to the copy of the entry. *)
Lemma copied_entry pre pn i b ops s s2 s3 N N3 live live3 ptrs ptrs3 c : (length pre < 3)%nat -> N !! pn = Some (length pre) ->
  N !! page_addr b = None -> live !! b = None -> (size ({[page_addr b]} ∪ ptrs) <= size ptrs + 1)%nat ->
  (forall f k j, T !! f = Some k -> in_table j -> vm_mem s2 (entry f j) = vm_mem s (entry f j)) ->
  (forall f k j, N !! f = Some k -> in_table j -> ~ (f = pn /\ j = i) -> vm_mem s2 (entry f j) = vm_mem s (entry f j)) ->
  (forall u, trans (vm_mem s2) pgd u = trans (vm_mem s) pgd u) -> (forall u, trans (vm_mem s2) r_pgd u = trans (vm_mem s) r_pgd u) ->
  same_outside (<[page_addr b := S (length pre)]> N) (vm_mem s) (vm_mem s2) -> refs s2 = refs s ->
  copied (pre ++ [i]) (page_addr b) 0 512 ops s2 s3 (<[page_addr b := S (length pre)]> N) N3 (<[b := 0]> live) live3 ({[page_addr b]} ∪ ptrs) ptrs3 ->
  copied pre pn i (i + 1) (ops ++ [FreeTable c]) s s3 N N3 live live3 ptrs ptrs3.
Proof.
  intros Hl Hpn HN Hlb Hsz Hold Hnew Htn Hto Hso Hrf [A1 A2 A3 A4 A5 A6 A7 [A8 A8'] A9 A10].
  assert (Htab : length (tables (ops ++ [FreeTable c])) = (1 + length (tables ops))%nat) by (rewrite tables_app, length_app; simpl; lia).
  split; [done|..].
  - eapply shape_trans; [|exact A2]. intros f l j Hf Hj. by eapply same_entry, Hold.
  - intros u Hu. by rewrite A3, covers_sub, Hto.
  - intros u Hu. by rewrite A4, covers_sub, Hto, Htn.
  - intros x y Hx. rewrite (A5 x y) by (by rewrite Hrf). rewrite unrefs_app. cbn [unrefs unref_of]. f_equal. lia.
  - rewrite Htab. eapply frames_added_trans; [by apply frames_added_insert|done].
  - rewrite Htab. lia.
  - split; [etrans; [by apply insert_subseteq|exact A8]|]. intros x l Hx. destruct (A8' x l Hx) as [H|H].
    + destruct (decide (x = b)) as [->|Hne]; [by right|left]. rewrite lookup_insert_ne in H; [done|]. intros ?%page_addr_inj. congruence.
    + right. destruct (decide (x = b)) as [->|Hne]; [done|]. by rewrite lookup_insert_ne in H by congruence.
  - intros f l j Hf Hj Hne. rewrite (A9 f l j), (Hnew f l j); [done|done|done|intros [-> ->]; apply Hne; split; [done|lia]| |done|intros [-> _]; congruence].
    rewrite lookup_insert_ne; [done|congruence].
  - intros x H1 H2. rewrite A10 by done. apply Hso. intros f l Hf. apply (H2 f l). by eapply lookup_weaken.
Qed.

(** *** The whole tree *)

Definition copy_ok (below : nat) : Prop := forall pre po pn s N live ptrs, both s N live ptrs -> Forall in_table pre -> (length pre + below = 3)%nat ->
  find_table (vm_mem s) pre r_pgd = Some po -> find_table (vm_mem s) pre pgd = Some pn -> (forall i, in_table i -> valid (vm_mem s) pn i = false) ->
  let ops := dfs_ops below (vm_mem s) po in
  refs_room (k_mm (vm_kernel s)) (Z.of_nat (length ops)) -> (size ptrs + length (tables ops) <= NR_SLOTS)%nat ->
  (exists s' N' live' ptrs', dfs_copy_page_tables below po pn s = Ret (tt, s') /\ copied pre pn 0 512 ops s s' N N' live live' ptrs ptrs') \/
  (dfs_copy_page_tables below po pn s = Panic /\ short_of_frames live (length (tables ops))).

#[local] Opaque dfs_ops dfs_copy_page_tables.

Lemma copy_upper_run below pre po pn : copy_ok below -> Forall in_table pre -> (length pre + S below = 3)%nat -> step_ok (S below) pre po pn.
Proof.
  intros IH Hr Hl i s N live ptrs Hb Hi Ho Hn Hvn ops Hroom Hslots. unfold copy_entry. mrun (rd_word_run (entry po i) s).
  unfold ops, slot_ops, entry_ops in *. clear ops. destruct (valid (vm_mem s) po i) eqn:Hv; unfold valid in Hv; destruct (PD_INVALID (vm_mem s (entry po i))) eqn:Hinv; try done.
  2:{ left. exists s, N, live, ptrs. split; [done|]. apply (copied_skip pre po); try done; [lia|]. unfold valid. by rewrite Hinv. }
  assert (Hvo : valid (vm_mem s) po i = true) by (unfold valid; by rewrite Hinv). fold (child (vm_mem s) po i).
  pose proof (vo_wf _ _ _ _ _ (bo_new _ _ _ _ Hb)) as Hwn. pose proof (vo_wf _ _ _ _ _ (so_vm _ _ _ _ _ (bo_old _ _ _ _ Hb))) as Hw.
  pose proof (path_level _ _ _ Hwn pre pn Hr ltac:(lia) Hn) as Hpn. pose proof (path_level _ _ _ Hw pre po Hr ltac:(lia) Ho) as Hpo.
  pose proof (pw_child _ _ _ Hw po (length pre) i Hpo ltac:(lia) Hi Hvo) as Hch.
  set (ops := dfs_ops below (vm_mem s) (child (vm_mem s) po i)) in *. rewrite tables_app, length_app in *. simpl in Hroom, Hslots.
  destruct (new_slot_run s N live ptrs pn (length pre) i Hb ltac:(lia) Hpn ltac:(lia) Hi Hvn)
    as [(b & s1 & s2 & H1 & H2 & HN & Hlb & Hb2 & Hsz & Hv2 & Hc2 & Hz & Hold & Hnew & Htn & Hto & Hso & Hrf)|[Hp Hex]].
  2:{ right. split; [unfold mbind, M_bind; by rewrite Hp|]. exists live. simpl. split_and!; [done|by left|lia|done]. }
  mrun H1. mrun H2.
  assert (Hro : Forall in_table (pre ++ [i])) by (apply Forall_app; split; [done|by apply list.Forall_singleton]).
  assert (Ho2 : find_table (vm_mem s2) (pre ++ [i]) r_pgd = Some (child (vm_mem s) po i)).
  { rewrite find_table_app, (find_same (vm_mem s) (vm_mem s2) r_pgd T pre po Hw Hr ltac:(lia)); [|intros f l j Hf _ Hj Hvj; by destruct (same_entry _ _ _ _ (Hold f l j Hf Hj)) as [-> ->]|done].
    simpl. destruct (same_entry _ _ _ _ (Hold po _ i Hpo Hi)) as [-> ->]. by rewrite Hvo. }
  assert (Hn2 : find_table (vm_mem s2) (pre ++ [i]) pgd = Some (page_addr b)).
  { rewrite find_table_app, (find_same (vm_mem s) (vm_mem s2) pgd N pre pn Hwn Hr ltac:(lia)); [simpl; by rewrite Hv2, Hc2| |done].
    intros f l j Hf Hlt Hj Hvj. destruct (same_entry _ _ _ _ (Hnew f l j Hf Hj ltac:(intros [-> ->]; congruence))) as [-> ->]. done. }
  assert (Hops : dfs_ops below (vm_mem s2) (child (vm_mem s) po i) = ops) by (apply (dfs_ops_ext (vm_mem s) r_pgd T Hw (vm_mem s2) below _ (S (length pre))); [done|lia|done]).
  destruct (IH (pre ++ [i]) (child (vm_mem s) po i) (page_addr b) s2 _ _ _ Hb2 Hro) as [(s3 & N3 & live3 & ptrs3 & Hrun & Hc)|[Hp Hs]]; try done.
  - rewrite length_app. simpl. lia.
  - rewrite Hops. intros j c Hj. fold (refs s2) in Hj. rewrite Hrf in Hj. specialize (Hroom j c Hj). lia.
  - rewrite Hops. lia.
  - left. exists s3, N3, live3, ptrs3. split; [done|]. rewrite Hops in Hc. by eapply (copied_entry pre pn i b ops s s2); [lia|..].
  - right. split; [done|]. rewrite Hops in Hs. simpl. rewrite Nat.add_1_r. by eapply short_of_frames_next.
Qed.

Lemma dfs_copy_run below : copy_ok below.
Proof.
  induction below as [|below IH]; intros pre po pn s N live ptrs Hb Hr Hl Ho Hn Hz; cbv zeta; rewrite dfs_copy_entries, dfs_ops_slots; intros Hroom Hslots;
    apply (copy_loop_run _ pre po pn); try done; try lia; try (intros; by apply Hz).
  - intros i s1 N1 live1 ptrs1 Hb1 Hi Ho1 Hn1 Hv1 ops Hroom1 _. left.
    destruct (copy_leaf_run pre po pn i s1 N1 live1 ptrs1 Hb1 Hr ltac:(lia) Hi Ho1 Hn1 Hv1 Hroom1) as (s' & Hrun & Hc). by exists s', N1, live1, ptrs1.
  - by apply copy_upper_run.
Qed.
End copying.

(** ** Sizes *)

#[local] Opaque dfs_ops.

Lemma leaf_in_ops below mem pt ps t i : length ps = below -> Forall in_table ps -> find_table mem ps pt = Some t -> in_table i -> valid mem t i = true ->
  Unref (child mem t i) ∈ dfs_ops below mem pt.
Proof.
  revert pt ps. induction below as [|below IH]; intros pt ps Hl Hr Hf Hi Hv; rewrite dfs_ops_slots; apply list_elem_of_bind.
  - destruct ps; [|done]. injection Hf as ->. exists i. unfold slot_ops, entry_ops. rewrite Hv. split; [by apply list_elem_of_singleton|]. apply elem_of_seqZ. unfold in_table in Hi. lia.
  - destruct ps as [|j ps]; [done|]. apply list.Forall_cons in Hr as [Hj Hr]. simpl in Hf. destruct (valid mem pt j) eqn:Hvj; [|done].
    exists j. unfold slot_ops, entry_ops. rewrite Hvj. split; [apply elem_of_app; left|apply elem_of_seqZ; unfold in_table in Hj; lia]. apply (IH _ ps); [simpl in Hl; lia|done..].
Qed.

Lemma mapped_counts mem pgd u d b : trans mem pgd u = Some d -> Z.land d PD_PAGE_MASK = page_addr b -> 0 < mappings mem pgd b.
Proof.
  intros Ht Hd. apply unrefs_elem. rewrite <- Hd. unfold trans in Ht. destruct (find_table mem (upper u) pgd) as [t|] eqn:Hf; [|done].
  unfold descriptor in Ht. destruct (valid mem t (PTE_INDEX u)) eqn:Hv; [|done]. injection Ht as <-.
  apply (leaf_in_ops 3 mem pgd (upper u)); [done|apply upper_range|done|apply pte_range|done].
Qed.

Lemma bind_length_bound {A} (f : A -> list fop) (k : nat) l : (forall x, (length (f x) <= k * length (tables (f x)))%nat) -> (length (l ≫= f) <= k * length (tables (l ≫= f)))%nat.
Proof. intros H. induction l as [|x l IH]; [simpl; lia|]. rewrite bind_cons, tables_app, !length_app. specialize (H x). lia. Qed.

Lemma dfs_ops_length below mem pt : (length (dfs_ops below mem pt) <= 512 + 513 * length (tables (dfs_ops below mem pt)))%nat.
Proof.
  revert pt. induction below as [|below IH]; intros pt; rewrite dfs_ops_slots.
  - assert (H : forall l, (length (l ≫= slot_ops 0 mem pt) <= length l)%nat).
    { intros l. induction l as [|i l IHl]; [done|]. rewrite bind_cons, length_app. unfold slot_ops at 1, entry_ops. destruct (valid mem pt i); simpl; lia. }
    specialize (H (seqZ 0 512)). rewrite length_seqZ in H. lia.
  - etrans; [apply (bind_length_bound _ 513)|lia]. intros i. unfold slot_ops, entry_ops. destruct (valid mem pt i); [|simpl; lia].
    rewrite tables_app, !length_app. specialize (IH (child mem pt i)). simpl. lia.
Qed.

Lemma tree_size mem pgd T : pt_wf mem pgd T -> (length (tables (dfs_ops 3 mem pgd)) <= size T)%nat.
Proof.
  intros Hw. pose proof (dfs_tables_nodup mem pgd T Hw 3 [] pgd eq_refl (list.Forall_nil_2 _) eq_refl) as Hnd. rewrite <- size_dom.
  rewrite <- (size_list_to_set (C := gset Z) _ Hnd). apply subseteq_size. intros f Hf%elem_of_list_to_set%tables_elem. apply elem_of_dom.
  destruct (dfs_ops_elem _ _ _ _ Hf) as [(ps & g & [= <-] & _ & Hl & Hr & Hp)|(? & ? & ? & ? & _)]; [|done]. rewrite (path_level _ _ _ Hw ps _ Hr Hl Hp). eauto.
Qed.

(** ** Write faults *)

Lemma frame_bytes mem mem' x y o : (forall i, in_table i -> mem' (entry (page_addr x) i) = mem (entry (page_addr y) i)) -> 0 <= o < 4096 ->
  byte_at mem' (page_addr x + o) = byte_at mem (page_addr y + o).
Proof.
  intros H Ho. unfold byte_at. pose proof (page_addr_frame x) as Hx. pose proof (page_addr_frame y) as Hy.
  pose proof (Z.div_mod o 8 ltac:(lia)). pose proof (Z.mod_pos_bound o 8 ltac:(lia)).
  assert (Hdiv : forall a, a mod 8 = 0 -> 8 * ((a + o) / 8) = a + 8 * (o / 8) /\ (a + o) mod 8 = o mod 8).
  { intros a Ha. pose proof (Z.div_mod a 8 ltac:(lia)). split; [|rewrite Zplus_mod, Ha, Z.add_0_l, Z.mod_mod by lia; done].
    assert ((a + o) / 8 = a / 8 + o / 8) as ->; [|lia]. symmetry. apply Z.div_unique with (o mod 8); lia. }
  destruct (Hdiv _ Hx) as [-> ->]. destruct (Hdiv _ Hy) as [-> ->]. f_equal. f_equal. apply (H (o / 8)). unfold in_table. split; [apply Z.div_pos; lia|apply Z.div_lt_upper_bound; lia].
Qed.

(** A write by [writer] to an address that faults, and the byte then written. *)
Definition isolated_write (s : VM) (writer other far c : Z) (live : gmap Z Z) : Prop :=
  (exists s' p, resolve_page_fault writer far s = Ret (true, s') /\ get_physical_address writer far s' = Ret (p, s') /\
     (forall u, user_va u -> space (store_bytes p [c] (vm_mem s')) writer u = if decide (u = far) then Some c else space (vm_mem s) writer u) /\
     (forall u, user_va u -> space (store_bytes p [c] (vm_mem s')) other u = space (vm_mem s) other u)) \/
  (resolve_page_fault writer far s = Panic /\ exhausted live 0).

Section fault.
Context (s : VM) (A B : Z) (TA TB : gmap Z nat) (live : gmap Z Z) (ptrs : gset Z).
Context (HA : space_ok s A TA live ptrs) (HB : space_ok s B TB live ptrs) (Hap : forall f l, TB !! f = Some l -> TA !! f = None).
Context (HBA : forall u d, user_va u -> trans (vm_mem s) B u = Some d -> TA !! Z.land d PD_PAGE_MASK = None).

Lemma fault_page far d : user_va far -> trans (vm_mem s) A far = Some d -> user_va (align_down far) /\ trans (vm_mem s) A (align_down far) = Some d /\ align_down far / 4096 = far / 4096.
Proof.
  intros Hf Ht. assert (E : align_down far = 4096 * (far / 4096)).
  { rewrite align_down_spec by (unfold user_va in Hf; lia). change PAGE_SIZE with 4096. pose proof (Z.div_mod far 4096). lia. }
  assert (Hq : align_down far / 4096 = far / 4096) by (rewrite E, Z.mul_comm; apply Z.div_mul; lia).
  assert (Hu : user_va (align_down far)) by (unfold user_va in *; rewrite E; pose proof (Z.div_mod far 4096); pose proof (Z.mod_pos_bound far 4096); lia).
  split_and!; [done| |done]. pose proof (proj2 (indices_page _ far Hu Hf) Hq) as Hix. unfold indices in Hix. injection Hix as E1 E2 E3 E4.
  unfold trans, upper in *. by rewrite E1, E2, E3, E4.
Qed.

Lemma write_fault_isolated far d b x c : user_va far -> trans (vm_mem s) A far = Some d -> Z.land d PD_COW_PAGE <> 0 -> Z.land d PD_PAGE_MASK = page_addr b -> 0 <= b < 512 ->
  arr_get (refs s) b = Some x -> x <> 1 -> (size ptrs < NR_SLOTS)%nat -> refs_room (k_mm (vm_kernel s)) 2 -> 0 <= c < 256 -> isolated_write s A B far c live.
Proof.
  intros Hf Ht Hcow Hd Hb Hx Hx1 Hroom Hrr Hc. destruct (fault_page far d Hf Ht) as (Hu & Ht' & Hq).
  destruct (so_data _ _ _ _ _ HA far d Hf Ht) as (b' & _ & Hb' & Hlb & HTb). assert (b' = b) as -> by (apply page_addr_inj; congruence).
  assert (Hdp : data_page s A TA live (align_down far) d b) by (split; eauto).
  pose proof (so_vm _ _ _ _ _ HA) as HvA. pose proof (vo_wf _ _ _ _ _ HvA) as HwA. pose proof (so_vm _ _ _ _ _ HB) as HvB. pose proof (vo_wf _ _ _ _ _ HvB) as HwB.
  destruct (data_page_table _ _ _ _ _ _ _ HwA Hdp) as (t & Hft & _ & Hdt & Hinv).
  assert (Hic : is_cow_page A (align_down far) s = Ret (true, s)).
  { rewrite is_cow_run, Hft, Hdt by (apply align_down_aligned; unfold user_va in Hf; lia). by rewrite (proj2 (Z.eqb_neq _ _)). }
  unfold isolated_write, resolve_page_fault, get_fault_page_addr. fold (align_down far).
  destruct (copy_page_frame_shared s A TA live ptrs _ d b x HvA Hdp Hx Hx1 Hroom Hrr) as [(s' & nb & Hrun & Hnb & Hnl & Hok & Htr & Hcp & Hmem & _)|[Hp Hex]].
  2:{ right. split; [|done]. mrun Hic. unfold mbind, M_bind. by rewrite Hp. }
  left. destruct (copy_descriptor_ok nb d Hnb Hinv) as (_ & Hnd & _).
  assert (HTn : TA !! page_addr nb = None) by (destruct (TA !! page_addr nb) as [k|] eqn:E; [apply (vo_live _ _ _ _ _ HvA) in E; congruence|done]).
  assert (Htf : trans (vm_mem s') A far = Some (copy_descriptor (page_addr nb) d)) by (rewrite (Htr far Hf), decide_True by done; done).
  set (p := page_addr nb + PAGE_OFFSET far). exists s', p. pose proof (page_offset_range far) as Hpo.
  assert (Hst : changed_in (page_addr nb) (page_addr nb + 4096) (vm_mem s') (store_bytes p [c] (vm_mem s'))) by (apply changed_store; unfold p; simpl; lia).
  assert (Hp0 : byte_at (store_bytes p [c] (vm_mem s')) p = c) by (rewrite store_byte, decide_True by (simpl; lia); rewrite Z.sub_diag; simpl; by rewrite Z.mod_small).
  assert (Hother : forall y o, y <> nb -> TA !! page_addr y = None -> 0 <= o < 4096 -> byte_at (store_bytes p [c] (vm_mem s')) (page_addr y + o) = byte_at (vm_mem s) (page_addr y + o)).
  { intros y o Hy HTy Ho. rewrite (proj2 Hst) by (unfold page_addr; lia). apply frame_bytes; [|done]. intros i Hi. by apply Hmem. }
  destruct (vm_ok_data _ _ _ _ _ _ _ Hok HTn Hst) as [_ HtrA].
  destruct (pt_wf_ext (vm_mem s) (store_bytes p [c] (vm_mem s')) B TB HwB) as [_ HtrB].
  { intros f l i HfB Hi. destruct (pw_addr _ _ _ HwB f l HfB) as (y & _ & ->). assert (y <> nb) by (intros ->; apply (vo_live _ _ _ _ _ HvB) in HfB; congruence).
    rewrite (proj1 Hst) by (unfold entry, page_addr; lia). apply Hmem; [done|by eapply Hap|done]. }
  split_and!; [by mrun Hic; mrun Hrun|by rewrite (gpa_run _ _ _ _ Htf), Hnd|..].
  - intros u Hu1. unfold space. rewrite HtrA, (Htr u Hu1), Hq. destruct (decide (u / 4096 = far / 4096)) as [He|He].
    + rewrite Hnd. destruct (decide (u = far)) as [->|Hne]; [fold p; by rewrite Hp0|].
      assert (Hut : trans (vm_mem s) A u = Some d).
      { pose proof (proj2 (indices_page u far Hu1 Hf) He) as Hix. unfold indices in Hix. injection Hix as E1 E2 E3 E4. unfold trans, upper in *. by rewrite E1, E2, E3, E4. }
      rewrite Hut, Hd. f_equal. rewrite store_byte, decide_False.
      * apply frame_bytes; [|apply page_offset_range]. done.
      * unfold p. simpl. intros Hin. apply Hne. rewrite !page_offset_mod in Hin. pose proof (Z.div_mod u 4096). pose proof (Z.div_mod far 4096). lia.
    + rewrite decide_False by congruence. destruct (trans (vm_mem s) A u) as [e|] eqn:Hue; [|done].
      destruct (so_data _ _ _ _ _ HA u e Hu1 Hue) as (y & _ & -> & Hly & HTy). f_equal. apply Hother; [congruence|done|apply page_offset_range].
  - intros u Hu1. unfold space. rewrite (proj1 (HtrB u)). destruct (trans (vm_mem s) B u) as [e|] eqn:Hue; [|done].
    destruct (so_data _ _ _ _ _ HB u e Hu1 Hue) as (y & _ & Hy & Hly & _). pose proof (HBA u e Hu1 Hue) as HTy. rewrite Hy in *. f_equal. apply Hother; [congruence|done|apply page_offset_range].
Qed.
End fault.

(** ** A map for the child *)

Lemma new_map_run s r_pgd T live ptrs : space_ok s r_pgd T live ptrs -> (size ptrs < NR_SLOTS)%nat ->
  (exists b s1, new_vmmap s = Ret (page_addr b, s1) /\ 0 <= b < 512 /\ live !! b = None /\
     both r_pgd (page_addr b) T s1 {[page_addr b := 0%nat]} (<[b := 0]> live) ({[page_addr b]} ∪ ptrs) /\
     (size ({[page_addr b]} ∪ ptrs) <= size ptrs + 1)%nat /\ (forall i, in_table i -> valid (vm_mem s1) (page_addr b) i = false) /\
     (forall f l i, T !! f = Some l -> in_table i -> vm_mem s1 (entry f i) = vm_mem s (entry f i)) /\
     (forall u, space (vm_mem s1) r_pgd u = space (vm_mem s) r_pgd u \/ ~ user_va u) /\ refs s1 = refs s) \/
  (new_vmmap s = Panic /\ exhausted live 0).
Proof.
  intros Hok Hroom. destruct (free_page_space s r_pgd T live ptrs Hok Hroom) as [(b & s0 & Hrun & Hb & Hlb & Hmem & Hrf & Hcpu & Hok0 & Hsz)|[Hp Hex]].
  2:{ right. split; [|done]. unfold new_vmmap, mbind, M_bind. by rewrite Hp. }
  left. pose proof (so_vm _ _ _ _ _ Hok) as [_ _ Hw Hl]. pose proof (so_vm _ _ _ _ _ Hok0) as [Hc0 Hm0 Hw0 Hl0].
  destruct (empty_space_ok s0 b _ _ Hc0 Hm0 Hb (lookup_insert_eq _ _ _)) as [[Hok1 _] _]. set (s1 := set_vm_mem (zero_frame (page_addr b) (vm_mem s0)) s0) in *.
  assert (HTb : forall f l, T !! f = Some l -> exists c, f = page_addr c /\ b <> c).
  { intros f l Hf. destruct (pw_addr _ _ _ Hw f l Hf) as (c & _ & ->). exists c. split; [done|]. intros <-. apply Hl in Hf. congruence. }
  assert (Hsame : forall f l i, T !! f = Some l -> in_table i -> vm_mem s1 (entry f i) = vm_mem s (entry f i)).
  { intros f l i Hf Hi. destruct (HTb f l Hf) as (c & -> & Hne). simpl. rewrite zero_frame_other, Hmem by done. done. }
  destruct (pt_wf_ext (vm_mem s) (vm_mem s1) r_pgd T Hw Hsame) as [Hw1 Htr].
  exists b, s1. split_and!; [|lia|lia|done| |done| |done| |done].
  - unfold new_vmmap. mrun Hrun. by rewrite (proj2 (Z.eqb_neq (page_addr b) 0)) by (unfold page_addr; lia).
  - split; [split; [by split|]|done|].
    + intros u d Hu. rewrite (proj1 (Htr u)), <- Hmem. by apply (so_data _ _ _ _ _ Hok0).
    + intros f l Hf. destruct (HTb f l Hf) as (c & -> & Hne). apply lookup_singleton_None. intros ?%page_addr_inj. congruence.
  - intros i Hi. unfold valid. simpl. by rewrite zero_frame_own.
  - intros u. destruct (decide (0 <= u < 2 ^ 48)) as [Hu|]; [left|by right]. unfold space. rewrite (proj1 (Htr u)).
    destruct (trans (vm_mem s) r_pgd u) as [d|] eqn:Hd; [|done]. destruct (so_data _ _ _ _ _ Hok u d Hu Hd) as (c & _ & -> & Hlc & _). f_equal.
    apply frame_bytes; [|apply page_offset_range]. intros i Hi. simpl. rewrite zero_frame_other, Hmem by (done || congruence). done.
Qed.

(** What the two maps show after the copy. *)
Lemma copied_spaces r_pgd b T ops s s' N' live live' ptrs ptrs' : both r_pgd (page_addr b) T s {[page_addr b := 0%nat]} live ptrs ->
  copied r_pgd (page_addr b) T [] (page_addr b) 0 512 ops s s' {[page_addr b := 0%nat]} N' live live' ptrs ptrs' ->
  (forall u d, user_va u -> trans (vm_mem s) r_pgd u = Some d -> Z.land d PD_PAGE_MASK <> page_addr b) ->
  space_ok s' (page_addr b) N' live' ptrs' /\ forall u, user_va u ->
    space (vm_mem s') r_pgd u = space (vm_mem s) r_pgd u /\ space (vm_mem s') (page_addr b) u = space (vm_mem s) r_pgd u.
Proof.
  intros Hb Hc Hroot. pose proof Hc as [Hb' _ Hto Htn _ Hfr _ [_ Hnt] _ Hout]. pose proof (so_data _ _ _ _ _ (bo_old _ _ _ _ _ _ _ Hb)) as Hd.
  assert (Hlive : forall c, live !! c = Some 0 -> live' !! c = Some 0) by (intros c Hlc; eapply lookup_weaken; [exact Hlc|apply Hfr]).
  assert (HN : forall u d c, user_va u -> trans (vm_mem s) r_pgd u = Some d -> Z.land d PD_PAGE_MASK = page_addr c -> live !! c = Some 0 -> N' !! page_addr c = None).
  { intros u d c Hu Hud Hdc Hlc. destruct (N' !! page_addr c) as [l|] eqn:E; [|done]. destruct (Hnt c l E) as [H|H]; [|congruence].
    apply lookup_singleton_Some in H as [H _]. destruct (Hroot u d Hu Hud). congruence. }
  split.
  - split; [apply Hb'|]. intros u d Hu. rewrite (Htn u Hu), covers_all. intros (e & He & ->)%fmap_Some. destruct (Hd u e Hu He) as (c & Hcr & Hce & Hlc & HTc).
    exists c. destruct (cow_descriptor_ok c e Hcr Hce) as (_ & ? & _). split_and!; [lia|lia|done|by apply Hlive|by eapply HN].
  - intros u Hu. unfold space. rewrite (Hto u Hu), (Htn u Hu), covers_all. destruct (trans (vm_mem s) r_pgd u) as [e|] eqn:He; [|done]. simpl.
    destruct (Hd u e Hu He) as (c & Hcr & Hce & Hlc & HTc). destruct (cow_descriptor_ok c e Hcr Hce) as (_ & -> & _). rewrite Hce.
    assert (Hby : byte_at (vm_mem s') (page_addr c + PAGE_OFFSET u) = byte_at (vm_mem s) (page_addr c + PAGE_OFFSET u)); [|by rewrite Hby].
    apply byte_ext, Hout; intros f l Hf.
    + destruct (pw_addr _ _ _ (vo_wf _ _ _ _ _ (so_vm _ _ _ _ _ (bo_old _ _ _ _ _ _ _ Hb))) f l Hf) as (y & _ & ->). rewrite frame_word by apply page_addr_frame. apply frame_disjoint; [congruence|apply page_offset_range].
    + destruct (pw_addr _ _ _ (vo_wf _ _ _ _ _ (bo_new _ _ _ _ _ _ _ Hb')) f l Hf) as (y & _ & ->). rewrite frame_word by apply page_addr_frame. apply frame_disjoint; [|apply page_offset_range].
      intros ->. rewrite (HN u e c Hu He Hce Hlc) in Hf. done.
Qed.

(** A fault of either task after the copy. *)
Lemma fork_fault r_pgd b T ops s s' N' live live' ptrs ptrs' far c W O : both r_pgd (page_addr b) T s {[page_addr b := 0%nat]} live ptrs ->
  ops = dfs_ops 3 (vm_mem s) r_pgd -> counted s r_pgd ->
  copied r_pgd (page_addr b) T [] (page_addr b) 0 512 ops s s' {[page_addr b := 0%nat]} N' live live' ptrs ptrs' ->
  (forall u d, user_va u -> trans (vm_mem s) r_pgd u = Some d -> Z.land d PD_PAGE_MASK <> page_addr b) ->
  (W, O) = (r_pgd, page_addr b) \/ (W, O) = (page_addr b, r_pgd) -> user_va far -> is_Some (space (vm_mem s) r_pgd far) -> 0 <= c < 256 ->
  (size ptrs' < NR_SLOTS)%nat -> refs_room (k_mm (vm_kernel s')) 2 -> isolated_write s' W O far c live'.
Proof.
  intros Hb -> Hcnt Hc Hroot Hwo Hf Hsome Hcr Hroom Hrr. destruct (copied_spaces _ _ _ _ _ _ _ _ _ _ _ Hb Hc Hroot) as [Hok' _].
  pose proof Hc as [Hb' _ Hto Htn Hrefs _ _ _ _ _]. pose proof (bo_old _ _ _ _ _ _ _ Hb') as Hold'.
  destruct (trans (vm_mem s) r_pgd far) as [e|] eqn:He; [|unfold space in Hsome; rewrite He in Hsome; by destruct Hsome].
  destruct (so_data _ _ _ _ _ (bo_old _ _ _ _ _ _ _ Hb) far e Hf He) as (y & Hy & Hye & _ & _). destruct (cow_descriptor_ok y e Hy Hye) as (_ & Hfr & Hcow & _).
  assert (Htro : trans (vm_mem s') r_pgd far = Some (cow_descriptor e)) by (rewrite (Hto far Hf), covers_all, He; done).
  assert (Htrn : trans (vm_mem s') (page_addr b) far = Some (cow_descriptor e)) by (rewrite (Htn far Hf), covers_all, He; done).
  destruct (arr_get_is_Some (refs s) y) as [x Hx]; [rewrite (refs_length _ _ _ _ _ _ _ Hb); lia|].
  pose proof (mapped_counts _ _ _ _ _ He Hye) as Hpos. pose proof (Hcnt y x Hx) as Hle. pose proof (Hrefs y x Hx) as Hx'. unfold mappings in *.
  assert (Hpages : forall u d, user_va u -> trans (vm_mem s') (page_addr b) u = Some d -> T !! Z.land d PD_PAGE_MASK = None).
  { intros u d Hu. rewrite (Htn u Hu), covers_all. intros Hd. pose proof (Hto u Hu) as Ho. rewrite covers_all, Hd in Ho. clear Hd. rename Ho into Hd. by destruct (so_data _ _ _ _ _ Hold' u d Hu Hd) as (z & _ & -> & _ & ?). }
  assert (Hpagen : forall u d, user_va u -> trans (vm_mem s') r_pgd u = Some d -> N' !! Z.land d PD_PAGE_MASK = None).
  { intros u d Hu. rewrite (Hto u Hu), covers_all. intros Hd. pose proof (Htn u Hu) as Hn. rewrite covers_all, Hd in Hn. by destruct (so_data _ _ _ _ _ Hok' u d Hu Hn) as (z & _ & -> & _ & ?). }
  destruct Hwo as [[= -> ->]|[= -> ->]].
  - eapply (write_fault_isolated s' r_pgd (page_addr b) T N' live' ptrs' Hold' Hok'); [|done|done|done|done|done|done|exact Hx'|lia|done|done|done].
    intros f l HfN. destruct (T !! f) as [k|] eqn:E; [|done]. by rewrite (bo_apart _ _ _ _ _ _ _ Hb' f k E) in HfN.
  - eapply (write_fault_isolated s' (page_addr b) r_pgd N' T live' ptrs' Hok' Hold'); [|done|done|done|done|done|done|exact Hx'|lia|done|done|done].
    apply (bo_apart _ _ _ _ _ _ _ Hb').
Qed.

(** ** Claims *)

(** C11. Copying the address space of a task into a new map, as [fork] does,
    leaves both tasks with the bytes the parent had, on shared frames that each
    count one more user per page.  A write by either of them then goes to a
    page of its own: the writer sees the new byte at that address and nothing
    else changed, and the other task sees what it saw before.  The copy stops
    the kernel only if fewer frames are left than the parent has tables, plus
    one, and the fault only if no frame is left. *)
Theorem fork_isolates s r_pgd T live ptrs :
  space_ok s r_pgd T live ptrs -> counted s r_pgd -> refs_room (k_mm (vm_kernel s)) (514 + 513 * Z.of_nat (size T)) -> (size ptrs + size T + 1 < NR_SLOTS)%nat ->
  (exists pgd s1 s' N live' ptrs', new_vmmap s = Ret (pgd, s1) /\ copy_from r_pgd pgd s1 = Ret (tt, s') /\
     space_ok s' r_pgd T live' ptrs' /\ space_ok s' pgd N live' ptrs' /\ frames_added (S (size T)) live live' /\
     (forall u, user_va u -> space (vm_mem s') r_pgd u = space (vm_mem s) r_pgd u /\ space (vm_mem s') pgd u = space (vm_mem s) r_pgd u) /\
     (forall b c, arr_get (refs s) b = Some c -> arr_get (refs s') b = Some (c + mappings (vm_mem s) r_pgd b)) /\
     (forall writer other far c, (writer, other) = (r_pgd, pgd) \/ (writer, other) = (pgd, r_pgd) -> user_va far -> is_Some (space (vm_mem s) r_pgd far) ->
        0 <= c < 256 -> isolated_write s' writer other far c live')) \/
  ((new_vmmap s = Panic \/ exists pgd s1, new_vmmap s = Ret (pgd, s1) /\ copy_from r_pgd pgd s1 = Panic) /\ short_of_frames live (S (size T))).
Proof.
  intros Hok Hcnt Hroom Hslots. pose proof (vo_wf _ _ _ _ _ (so_vm _ _ _ _ _ Hok)) as Hw. pose proof (tree_size _ _ _ Hw) as Hts.
  destruct (new_map_run s r_pgd T live ptrs Hok ltac:(lia)) as [(b & s1 & Hrun & Hb & Hlb & Hboth & Hsz & Hz & Hsame & Hsp & Hrf)|[Hp Hex]].
  2:{ right. split; [by left|]. exists live. split_and!; [done|by left|lia|done]. }
  assert (Hops : dfs_ops 3 (vm_mem s1) r_pgd = dfs_ops 3 (vm_mem s) r_pgd) by (apply (dfs_ops_ext (vm_mem s) r_pgd T Hw (vm_mem s1) 3 r_pgd 0); [apply Hw|done|done]).
  pose proof (dfs_ops_length 3 (vm_mem s) r_pgd) as Hlen. set (ops := dfs_ops 3 (vm_mem s) r_pgd) in *.
  assert (Hroot : forall u d, user_va u -> trans (vm_mem s1) r_pgd u = Some d -> Z.land d PD_PAGE_MASK <> page_addr b).
  { intros u d Hu Hd. destruct (pt_wf_ext (vm_mem s) (vm_mem s1) r_pgd T Hw Hsame) as [_ Htr]. rewrite (proj1 (Htr u)) in Hd.
    destruct (so_data _ _ _ _ _ Hok u d Hu Hd) as (c & _ & -> & Hlc & _). intros ->%page_addr_inj. congruence. }
  assert (Hr1 : forall n, n <= 514 + 513 * Z.of_nat (size T) -> refs_room (k_mm (vm_kernel s1)) n).
  { intros n Hn i c Hi. fold (refs s1) in Hi. rewrite Hrf in Hi. specialize (Hroom i c Hi). lia. }
  destruct (dfs_copy_run r_pgd (page_addr b) T 3 [] r_pgd (page_addr b) s1 _ _ _ Hboth (list.Forall_nil_2 _) eq_refl eq_refl eq_refl Hz) as [(s' & N & live' & ptrs' & Hcp & Hc)|[Hp Hs]].
  { rewrite Hops. apply Hr1. lia. }
  { rewrite Hops. lia. }
  2:{ right. split; [right; eauto|]. rewrite Hops in Hs. eapply short_of_frames_next; [exact Hlb|]. by eapply short_of_frames_weaken. }
  left. rewrite Hops in Hc. destruct (copied_spaces _ _ _ _ _ _ _ _ _ _ _ Hboth Hc Hroot) as [Hok' Hspaces].
  exists (page_addr b), s1, s', N, live', ptrs'. split_and!; [done|done|apply (cp_both _ _ _ _ _ _ _ _ _ _ _ _ _ _ _ _ Hc)|done|..].
  - eapply frames_added_weaken; [eapply (frames_added_trans 1); [by apply frames_added_insert|apply (cp_frames _ _ _ _ _ _ _ _ _ _ _ _ _ _ _ _ Hc)]|lia].
  - intros u Hu. destruct (Hspaces u Hu) as [-> ->]. by destruct (Hsp u) as [->|?].
  - intros x c Hx. apply (cp_refs _ _ _ _ _ _ _ _ _ _ _ _ _ _ _ _ Hc). by rewrite Hrf.
  - intros W O far c Hwo Hf Hsome Hcr. eapply (fork_fault r_pgd b T ops s1 s' N); [exact Hboth|by rewrite Hops| |exact Hc|exact Hroot|done|done| |done| |].
    + intros x y Hx. unfold mappings. rewrite Hops. rewrite Hrf in Hx. by apply Hcnt.
    + destruct (Hsp far) as [->|?]; done.
    + pose proof (cp_ptrs _ _ _ _ _ _ _ _ _ _ _ _ _ _ _ _ Hc). lia.
    + eapply (copied_room r_pgd (page_addr b) T); [exact Hboth|exact Hc|apply Hr1; lia|lia].
Qed.

(** ** Witness *)

Lemma unrefs_bind_one b (f : Z -> list fop) i0 l : NoDup l -> (forall i, i ∈ l -> i <> i0 -> unrefs b (f i) = 0) -> unrefs b (l ≫= f) <= unrefs b (f i0).
Proof.
  intros Hnd. pose proof (unrefs_range b (f i0)) as H0. induction Hnd as [|i l Hi Hnd IH]; intros H; [simpl; lia|]. rewrite bind_cons, unrefs_app.
  destruct (decide (i = i0)) as [->|Hne].
  - assert (Hz : forall js, (forall j, j ∈ js -> unrefs b (f j) = 0) -> unrefs b (js ≫= f) = 0).
    { intros js. induction js as [|j js IHj]; intros Hj; [done|]. rewrite bind_cons, unrefs_app, Hj by apply list_elem_of_here. rewrite IHj; [done|]. intros k Hk. apply Hj. by apply list_elem_of_further. }
    rewrite (Hz l); [lia|]. intros j Hj. apply H; [by apply list_elem_of_further|]. by intros ->.
  - rewrite (H i) by (done || apply list_elem_of_here). rewrite Z.add_0_l. apply IH. intros j Hj. apply H. by apply list_elem_of_further.
Qed.

(** A tree with one leaf at most. *)
Lemma single_leaf below mem pt b path : Forall in_table path ->
  (forall ps t j, length ps = below -> Forall in_table ps -> find_table mem ps pt = Some t -> in_table j -> valid mem t j = true -> ps ++ [j] = path) ->
  unrefs b (dfs_ops below mem pt) <= 1.
Proof.
  revert pt path. induction below as [|below IH]; intros pt path Hin Hp; rewrite dfs_ops_slots; (etrans; [apply (unrefs_bind_one b _ (hd 0 path)); [apply NoDup_seqZ|]|]).
  - intros i Hi%elem_of_seqZ Hne. unfold slot_ops, entry_ops. destruct (valid mem pt i) eqn:Hv; [|done]. destruct Hne. by rewrite <- (Hp [] pt i eq_refl (list.Forall_nil_2 _) eq_refl ltac:(unfold in_table; lia) Hv).
  - unfold slot_ops, entry_ops. destruct (valid mem pt _); [|simpl; lia]. cbn [unrefs]. match goal with |- unref_of b ?o + 0 <= 1 => pose proof (unref_of_range b o) end. lia.
  - intros i Hi%elem_of_seqZ Hne. unfold slot_ops, entry_ops. destruct (valid mem pt i) eqn:Hv; [|done]. rewrite unrefs_app. cbn [unrefs unref_of].
    pose proof (unrefs_range b (dfs_ops below mem (child mem pt i))) as Hr. destruct (decide (0 < unrefs b (dfs_ops below mem (child mem pt i)))) as [Hpos|]; [|lia].
    exfalso. apply Hne. apply unrefs_elem in Hpos. destruct (dfs_ops_elem _ _ _ _ Hpos) as [(? & ? & ? & _)|(ps & t & j & _ & Hl & Hrp & Hf & Hj & Hvj)]; [done|].
    rewrite <- (Hp (i :: ps) t j); [done|simpl; lia|apply list.Forall_cons; split; [unfold in_table; lia|done]|simpl; by rewrite Hv|done|done].
  - unfold slot_ops, entry_ops. destruct (valid mem pt (hd 0 path)) eqn:Hv; [|simpl; lia]. rewrite unrefs_app. cbn [unrefs unref_of].
    enough (unrefs b (dfs_ops below mem (child mem pt (hd 0 path))) <= 1) by lia.
    assert (Hi : in_table (hd 0 path) /\ Forall in_table (tl path)) by (destruct path as [|i path]; [split; [unfold in_table; simpl; lia|constructor]|exact (proj1 (list.Forall_cons _ _ _) Hin)]).
    apply (IH _ (tl path)); [apply Hi|]. intros ps t j Hl Hr Hf Hj Hvj.
    rewrite <- (Hp (hd 0 path :: ps) t j); [done|simpl; lia|apply list.Forall_cons; split; [apply Hi|done]|simpl; by rewrite Hv|done|done].
Qed.

Lemma tables_live s pgd T live ptrs : vm_ok s pgd T live ptrs -> (size T <= size live)%nat.
Proof.
  intros [_ _ Hw Hl]. rewrite <- !size_dom. unfold size, set_size. simpl. rewrite <- (length_fmap page_addr (elements (dom live))). apply submseteq_length, NoDup_submseteq; [apply NoDup_elements|].
  intros f Hf%elem_of_elements%elem_of_dom. destruct Hf as [l Hf]. destruct (pw_addr _ _ _ Hw f l Hf) as (b & _ & ->).
  apply list_elem_of_fmap. exists b. split; [done|]. apply elem_of_elements, elem_of_dom. rewrite (Hl b l Hf). eauto.
Qed.

(** A map with one cleared page. *)
Lemma one_page_space : exists s pgd T live ptrs, space_ok s pgd T live ptrs /\ (size T <= 5)%nat /\ (size ptrs <= 5)%nat /\ (size live <= 5)%nat /\
  (forall b k, live !! b = Some k -> k = 0) /\ refs_room (k_mm (vm_kernel s)) 5000 /\ counted s pgd /\ space (vm_mem s) pgd 0x400000 = Some 0.
Proof.
  destruct (boot_space (fun _ => 0)) as (b & v & Hb & Hok & Hr & Htr & Hmem & Hc).
  assert (Hrr : forall n, 0 <= n <= 6000 -> refs_room (k_mm (vm_kernel v)) n) by (intros n Hn; apply refs_room_of; [exact Hr|lia]).
  destruct (fresh_page_run v (page_addr b) _ _ _ 0x400000 USER_PAGE_RW Hok) as [(v1 & v2 & T' & live' & ptrs' & x & _ & _ & Hpa)|[_ Hs]];
    [unfold user_va; lia|done|rewrite size_singleton; unfold NR_SLOTS; lia|apply Hrr; lia|apply Htr| |].
  2:{ exfalso. revert Hs. apply enough_frames; [intros y k [_ <-]%lookup_singleton_Some; done|rewrite map_size_singleton; lia]. }
  pose proof Hpa as [Hok' Hx Hn Hl Hda Hfr Hp Ht Htr' Hby Hk Hrf]. set (s := set_vm_mem _ v2) in *.
  assert (Hlive : (size live' <= 5)%nat) by (destruct Hfr as (_ & _ & H); rewrite map_size_singleton in H; lia).
  assert (Hrefs : forall y c, arr_get (refs s) y = Some c -> c = if decide (x = y) then 1 else 0).
  { intros y c Hy. destruct (arr_get_is_Some (refs v) y) as [c0 Hc0]; [apply arr_get_Some_range in Hy; rewrite (space_refs _ _ _ _ _ Hok') in Hy; rewrite Hr, length_replicate; lia|].
    rewrite (Hrf y c0 Hc0) in Hy. rewrite Hr in Hc0. unfold arr_get in Hc0. destruct (decide (0 <= y)); [|done]. apply lookup_replicate in Hc0 as [-> _]. case_decide; by injection Hy. }
  exists s, (page_addr b), T', live', ptrs'. split_and!; [done| |rewrite size_singleton in Hp; lia|done|..].
  - etrans; [by eapply tables_live, Hok'|done].
  - intros y k Hy. destruct Hfr as (_ & H & _). destruct (H y k Hy) as [H1|H1]; [|done]. by apply lookup_singleton_Some in H1 as [_ <-].
  - intros y c Hy. rewrite (Hrefs y c Hy). case_decide; lia.
  - intros y c Hy. rewrite (Hrefs y c Hy).
    assert (Hpath : forall ps t j, length ps = 3%nat -> Forall in_table ps -> find_table (vm_mem s) ps (page_addr b) = Some t -> in_table j -> valid (vm_mem s) t j = true ->
      ps ++ [j] = indices 0x400000 /\ child (vm_mem s) t j = page_addr x).
    { intros ps t j Hlen Hps Hf Hj Hv. destruct (leaf_address ps j Hps Hlen Hj) as (u & Hu & Hup & Hpt & _).
      assert (Htu : trans (vm_mem s) (page_addr b) u = Some (vm_mem s (entry t j))) by (unfold trans; rewrite Hup, Hf, Hpt; unfold descriptor; by rewrite Hv).
      pose proof (Htr' u Hu) as Hu'. rewrite Htu in Hu'. destruct (decide (u / 4096 = 0x400000 / 4096)) as [He|He]; [|by rewrite Htr in Hu'].
      split; [|unfold child; apply (inj Some) in Hu'; rewrite Hu'; by apply mapped_descriptor_ok]. apply (indices_page u 0x400000 Hu ltac:(unfold user_va; lia)) in He. rewrite <- He.
      change (indices u) with (upper u ++ [PTE_INDEX u]). by rewrite Hup, Hpt. }
    destruct (decide (0 < mappings (vm_mem s) (page_addr b) y)) as [Hpos|]; [|case_decide; lia].
    pose proof Hpos as Hin. apply unrefs_elem in Hin. destruct (dfs_ops_elem _ _ _ _ Hin) as [(? & ? & ? & _)|(ps & t & j & Hop & Hlen & Hps & Hf & Hj & Hv)]; [done|].
    destruct (Hpath ps t j Hlen Hps Hf Hj Hv) as [_ Hch]. assert (Hxy : x = y) by (apply page_addr_inj; congruence). rewrite decide_True by done.
    apply (single_leaf 3 _ _ _ (indices 0x400000)); [apply indices_range|]. intros. by eapply Hpath.
  - rewrite (page_added_space _ _ _ _ _ _ _ _ _ _ _ _ _ Hpa Hok ltac:(done)) by (unfold user_va; lia). by rewrite decide_True.
Qed.

Lemma fork_isolates_witness : exists r_pgd s pgd s1 s' s2 p, new_vmmap s = Ret (pgd, s1) /\ copy_from r_pgd pgd s1 = Ret (tt, s') /\
  resolve_page_fault pgd 0x400000 s' = Ret (true, s2) /\ get_physical_address pgd 0x400000 s2 = Ret (p, s2) /\
  space (store_bytes p [7] (vm_mem s2)) pgd 0x400000 = Some 7 /\ space (store_bytes p [7] (vm_mem s2)) r_pgd 0x400000 = Some 0.
Proof.
  destruct one_page_space as (s & r_pgd & T & live & ptrs & Hok & HT & Hp & Hl & H0 & Hrr & Hcnt & Hsp).
  destruct (fork_isolates s r_pgd T live ptrs Hok Hcnt) as [(pgd & s1 & s' & N & live' & ptrs' & H1 & H2 & _ & _ & Hfr & Hs & _ & Hw)|[_ Hs]].
  - intros i c Hi. specialize (Hrr i c Hi). lia.
  - unfold NR_SLOTS. lia.
  - assert (Hsome : is_Some (space (vm_mem s) r_pgd 0x400000)) by (rewrite Hsp; eauto).
    destruct (Hw pgd r_pgd 0x400000 7 (or_intror eq_refl) ltac:(unfold user_va; lia) Hsome ltac:(lia)) as [(s2 & p & Hr & Hg & Hwr & Hot)|[_ Hex]].
    + exists r_pgd, s, pgd, s1, s', s2, p. rewrite Hwr, Hot by (unfold user_va; lia). rewrite decide_True by reflexivity.
      destruct (Hs 0x400000 ltac:(unfold user_va; lia)) as [-> _]. split_and!; assumption || reflexivity.
    + exfalso. destruct Hfr as (Hsub & Hz & Hsz). apply (enough_frames live' 1).
      * intros b k Hb. destruct (Hz b k Hb) as [H|H]; [by apply (H0 b)|assumption].
      * lia.
      * exists live'. split_and!; [reflexivity|by left|lia|assumption].
  - exfalso. revert Hs. apply enough_frames; [exact H0|lia].
Defined.
