(* ===== verification/SyscallSpec.v ===== *)
(** * System calls: theorems

    [read] and [write] between the memory of a program and a file: the pointer
    a program passes goes through its page tables, the descriptor through its
    table of files, and the bytes through the virtual file system. *)

From Stdlib Require Import ZArith Lia.
From stdpp Require Import base gmap list numbers.
From S2P Require Import Prelude Math Mmu Tiling Mutex Buddy BuddyProof BuddySpec Slob Memory MemorySpec PageTable PageTableSpec CString KString Deque Disk Elf ByteMem Cpio Console Vnode TmpFS Proc ProcSpec ProcFS Vfs VfsSpec ProcFSSpec Exec Syscall ExecSpec MmapSpec FreeSpec CopySpec.

Open Scope Z_scope.

(** ** Files *)

Definition opened (s : VFS KernelFs) (f v pos : Z) : Prop := f <> 0 /\ exists o, v_files s !! f = Some (mkFile v pos o).

(** A regular file of a TmpFS. *)
Definition regular (s : VFS KernelFs) (v : Z) (c : list Z) : Prop := kf_proc (v_fs s) !! v = None /\ exists i,
  th_inodes (kf_tmp (v_fs s)) !! v = Some i /\ is_regular_file (i_mode i) = true /\
  i_content i = Some c /\ i_size i = Z.of_nat (length c) /\ Z.of_nat (length c) < 2 ^ 31.

Lemma opened_tmp_file s f v pos c : opened s f v pos -> regular s v c -> tmp_file s f c pos.
Proof. intros [Hf [o Ho]] [Hp (i & H)]. split; [done|]. exists v, o, i. split; [done|]. by split. Qed.

(** The state after the content of [v] was replaced. *)
Definition put_content (v : Z) (c : list Z) (s : VFS KernelFs) : VFS KernelFs :=
  match th_inodes (kf_tmp (v_fs s)) !! v with
  | Some i => set_v_fs (set_kf_tmp (mkHeap (<[v := with_content (Some c) (Z.of_nat (length c)) i]> (th_inodes (kf_tmp (v_fs s)))) (th_next (kf_tmp (v_fs s)))) (v_fs s)) s
  | None => s
  end.

Lemma put_content_regular s v c c' : regular s v c -> Z.of_nat (length c') < 2 ^ 31 -> regular (put_content v c' s) v c'.
Proof.
  intros [Hp (i & Hi & Hm & _)] Hc. unfold put_content. rewrite Hi. split; [done|]. eexists. split; [apply lookup_insert_eq|]. by split_and!.
Qed.
Lemma put_content_frame s v c : mem_of (put_content v c s) = mem_of s /\ kf_sys (v_fs (put_content v c s)) = kf_sys (v_fs s) /\
  v_files (put_content v c s) = v_files s /\ v_cpu (put_content v c s) = v_cpu s.
Proof. unfold put_content. destruct (th_inodes _ !! v); done. Qed.

Lemma set_content_run s v c l : regular s v c -> set_content v (Some l) (Z.of_nat (length l)) s = Ret (tt, put_content v l s).
Proof.
  intros [Hp (i & Hi & _)]. cbn [set_content kernel_vnodes]. rewrite dispatch_tmp by exact Hp. unfold on_tmp, zoom, tmp_set_content, wr_inode.
  assert (Hr : rd_inode v (tmp_view s) = Ret (i, tmp_view s)).
  { unfold rd_inode. msimpl. change (th_inodes (v_fs (tmp_view s))) with (th_inodes (kf_tmp (v_fs s))). by rewrite Hi. }
  mrun Hr. unfold put_content. rewrite Hi. by destruct s.
Qed.

(** [VFS::write] of the whole of [l]. *)
Lemma write_tmp_run s f v pos c l : cpu_ok (v_cpu s) -> opened s f v pos -> regular s v c -> 0 <= pos -> pos + Z.of_nat (length l) < 2 ^ 64 -> Z.of_nat (length l) < 2 ^ 31 ->
  write f l (Z.of_nat (length l)) s = Ret (Z.of_nat (length l), set_pos f (pos + Z.of_nat (length l)) (put_content v l s)).
Proof.
  intros Hc [Hf [o Ho]] Hr Hpos Hl Hint. pose proof Hr as [Hp (i & Hi & Hm & _)]. set (s1 := with_cpu (entered (cpu_of s)) s).
  set (s2 := set_pos f (pos + Z.of_nat (length l)) (put_content v l s)).
  replace s2 with (with_cpu (cpu_of s) s2) by (unfold s2, put_content, set_pos; rewrite Hi; cbn; rewrite Ho; by destruct s).
  unfold write. apply guarded_spec; [done|]. fold s1. rewrite (proj2 (Z.eqb_neq f 0)) by done.
  assert (Hrd : rd_file f s1 = Ret (mkFile v pos o, s1)) by (unfold rd_file; msimpl; simpl; by rewrite Ho). mrun Hrd. cbn [f_vnode f_pos].
  assert (Hmode : vn_mode v s1 = Ret (i_mode i, s1)) by (cbn [vn_mode kernel_vnodes]; rewrite dispatch_tmp by exact Hp; exact (inode_run i_mode v i s1 Hi)).
  mrun Hmode. rewrite Hm. unfold slice. rewrite decide_True, Nat2Z.id, drop_0, firstn_all by lia.
  assert (Hset : (new_content ← deref (Some l); set_content v (Some new_content) (Z.of_nat (length l));; mret true) s1 = Ret (true, put_content v l s1))
    by (msimpl; by mrun (set_content_run s1 v c l Hr)).
  mrun Hset. assert (Hfile : v_files (put_content v l s1) !! f = Some (mkFile v pos o)) by (by rewrite (proj1 (proj2 (proj2 (put_content_frame s1 v l))))).
  mrun (set_pos_run _ f _ (u64 (pos + Z.of_nat (length l))) Hfile). rewrite u64_id, s32_id by lia. unfold mret, M_ret. do 2 f_equal. unfold s2, s1, put_content, set_pos. cbn. rewrite Hi. cbn. by rewrite Ho.
Qed.

(** ** Buffers *)

(** The physical address of a byte of the program. *)
Definition phys (mem : Z -> Z) (pgd u : Z) : option Z :=
  match trans mem pgd u with Some d => Some (Z.land d PD_PAGE_MASK + PAGE_OFFSET u) | None => None end.
(** [n] bytes from [u] on are in one page. *)
Definition in_page (u n : Z) : Prop := user_va u /\ 0 <= n /\ PAGE_OFFSET u + n <= 4096.
(** The program sees the bytes [l] at [u]. *)
Definition sees (mem : Z -> Z) (pgd u : Z) (l : list Z) : Prop := forall i c, l !! i = Some c -> space mem pgd (u + Z.of_nat i) = Some c.

Lemma space_phys mem pgd u : space mem pgd u = byte_at mem <$> phys mem pgd u.
Proof. unfold space, phys. by destruct (trans mem pgd u). Qed.

Lemma in_page_same u n i : in_page u n -> 0 <= i < n -> (u + i) / 4096 = u / 4096 /\ PAGE_OFFSET (u + i) = PAGE_OFFSET u + i /\ user_va (u + i).
Proof.
  rewrite !page_offset_mod. unfold in_page, user_va. rewrite page_offset_mod. intros (Hu & Hn & Hp) Hi. pose proof (Z.div_mod u 4096). pose proof (Z.mod_pos_bound u 4096).
  assert (Hd : (u + i) / 4096 = u / 4096) by (symmetry; apply Z.div_unique with (u mod 4096 + i); lia).
  assert (Hm : (u + i) mod 4096 = u mod 4096 + i) by (rewrite Z.mod_eq, Hd by lia; lia).
  split_and!; [done|done|lia|]. assert (u / 4096 < 2 ^ 36) by (apply Z.div_lt_upper_bound; lia). lia.
Qed.

(** Addresses of one page translate alike. *)
Lemma trans_page mem pgd u w : user_va u -> user_va w -> u / 4096 = w / 4096 -> trans mem pgd u = trans mem pgd w.
Proof.
  intros Hu Hw He. pose proof (proj2 (indices_page u w Hu Hw) He) as Hix. unfold indices in Hix. injection Hix as E1 E2 E3 E4. unfold trans, upper. by rewrite E1, E2, E3, E4.
Qed.

Lemma phys_page mem pgd u n i a : in_page u n -> phys mem pgd u = Some a -> 0 <= i < n -> phys mem pgd (u + i) = Some (a + i).
Proof.
  intros Hp Ha Hi. destruct (in_page_same u n i Hp Hi) as (Hd & Ho & Hv). unfold phys in *. rewrite (trans_page _ _ (u + i) u); [|done|apply Hp|done].
  destruct (trans mem pgd u); [|done]. injection Ha as <-. rewrite Ho. f_equal. lia.
Qed.

(** ** Bytes that arrive in memory *)

(** What a map shows after the bytes [l] were put at the physical address [a]. *)
Definition landed (mem mem' : Z -> Z) (pgd a : Z) (l : list Z) : Prop := forall u, user_va u ->
  space mem' pgd u = match phys mem pgd u with
                     | Some x => if decide (a <= x < a + Z.of_nat (length l)) then l !! Z.to_nat (x - a) else Some (byte_at mem x)
                     | None => None
                     end.

Lemma landed_sees mem mem' pgd u a l : landed mem mem' pgd a l -> in_page u (Z.of_nat (length l)) -> phys mem pgd u = Some a -> sees mem' pgd u l.
Proof.
  intros Hl Hp Ha i c Hi. pose proof (lookup_lt_Some _ _ _ Hi) as Hlt. assert (Hr : 0 <= Z.of_nat i < Z.of_nat (length l)) by lia.
  rewrite Hl by apply (in_page_same _ _ _ Hp Hr). rewrite (phys_page _ _ _ _ _ _ Hp Ha Hr), decide_True by lia. by replace (Z.to_nat (a + Z.of_nat i - a)) with i by lia.
Qed.

(** A store into a frame that is not a table; behind [l] it stores what was there. *)
Lemma store_landed v pgd T live ptrs b a l n : space_ok v pgd T live ptrs -> T !! page_addr b = None ->
  page_addr b <= a -> a + Z.of_nat n <= page_addr b + 4096 -> (length l <= n)%nat -> is_bytes l ->
  let mem' := store_bytes a (l ++ drop (length l) (load_bytes (vm_mem v) a n)) (vm_mem v) in
  space_ok (set_vm_mem mem' v) pgd T live ptrs /\ landed (vm_mem v) mem' pgd a l.
Proof.
  intros [Hv Hd] HT Ha Hn Hln Hb mem'. set (m := l ++ drop (length l) (load_bytes (vm_mem v) a n)) in *.
  assert (Hlen : length m = n) by (unfold m; rewrite length_app, length_drop, length_load_bytes; lia).
  destruct (vm_ok_data v pgd T live ptrs mem' b Hv HT) as [Hv' Htr]; [apply changed_store; lia|].
  split; [split; [done|intros u d Hu; simpl; rewrite Htr; by apply Hd]|]. intros u Hu. rewrite space_phys. unfold phys. rewrite Htr.
  destruct (trans (vm_mem v) pgd u) as [d|]; [|done]. simpl. set (x := Z.land d PD_PAGE_MASK + PAGE_OFFSET u). unfold mem'. rewrite store_byte.
  destruct (decide (a <= x < a + Z.of_nat (length l))) as [Hx|Hx].
  - rewrite decide_True by lia. destruct (lookup_lt_is_Some_2 l (Z.to_nat (x - a))) as [y Hy]; [lia|]. rewrite Hy.
    unfold arr_get, m. rewrite decide_True, lookup_app_l, Hy by lia. simpl. f_equal. apply Z.mod_small. by apply (Forall_lookup_1 _ _ _ _ Hb Hy).
  - case_decide as Hx'; [|done]. f_equal. unfold arr_get, m. rewrite decide_True, lookup_app_r, lookup_drop by lia.
    replace (length l + (Z.to_nat (x - a) - length l))%nat with (Z.to_nat (x - a)) by lia. rewrite load_bytes_lookup by lia. simpl.
    replace (a + Z.of_nat (Z.to_nat (x - a))) with x by lia. apply Z.mod_small, byte_range.
Qed.

(** ** Calls *)

Section caller.
(** The calling task and its address space. *)
Context (s : VFS KernelFs) (t : Z) (k : Task) (T : gmap Z nat) (live : gmap Z Z) (ptrs : gset Z).
Context (Hcur : sy_current (kf_sys (v_fs s)) = t) (Ht : task_of s t = Some k) (Hok : space_ok (mem_of s) (t_vmmap k) T live ptrs).
Abbreviation mem := (vm_mem (mem_of s)).
Abbreviation pgd := (t_vmmap k).

Lemma current_run : current s = Ret (t, s).
Proof. unfold current. msimpl. by rewrite Hcur. Qed.
Lemma v2p_run u a : phys mem pgd u = Some a -> v2p_current u s = Ret (a, s).
Proof.
  unfold phys. intros H. unfold v2p_current, v2p. mrun current_run. mrun (kf_rd_task s t k Ht). apply on_mem_same.
  destruct (trans _ _ _) as [d|] eqn:Htr; [|done]. injection H as <-. by apply gpa_run.
Qed.
Lemma fd_run fd f : (fd < 16)%nat -> t_fds k !! fd = Some f -> on_sys (get_file_by_fd t (Z.of_nat fd)) s = Ret (f, s).
Proof. intros Hfd Hf. apply on_sys_run. exact (get_file_run (sys_view s) t k fd f Ht Hfd Hf). Qed.

(** The frame of a buffer. *)
Lemma buffer_frame u n a : in_page u n -> phys mem pgd u = Some a ->
  exists b, 0 <= b < 512 /\ page_addr b <= a /\ a + n <= page_addr b + 4096 /\ T !! page_addr b = None.
Proof.
  intros (Hu & Hn & Hp). unfold phys. destruct (trans mem pgd u) as [d|] eqn:Htr; [|done]. intros [= <-].
  destruct (so_data _ _ _ _ _ Hok u d Hu Htr) as (b & Hb & -> & _ & HT). pose proof (page_offset_range u). exists b. split_and!; [lia..|done].
Qed.

Lemma get_buffer_run a n : 0 <= a < KERNEL_VA_BASE -> on_mem (get_bytes a n) s = Ret (load_bytes mem a n, s).
Proof. intros Ha. apply on_mem_same. unfold get_bytes. msimpl. by rewrite kaddr_low by lia. Qed.

Lemma load_sees u n a : in_page u (Z.of_nat n) -> phys mem pgd u = Some a -> sees mem pgd u (load_bytes mem a n).
Proof.
  intros Hp Ha i c Hi. pose proof (lookup_lt_Some _ _ _ Hi) as Hlt. rewrite length_load_bytes in Hlt. rewrite load_bytes_lookup in Hi by done. injection Hi as <-.
  rewrite space_phys, (phys_page _ _ _ _ (Z.of_nat i) _ Hp Ha) by lia. done.
Qed.

Lemma sys_write_run u a fd f v pos c (l := load_bytes mem a) n : (3 <= fd < 16)%nat -> t_fds k !! fd = Some f -> opened s f v pos -> regular s v c ->
  0 <= pos -> pos + Z.of_nat n < 2 ^ 64 -> in_page u (Z.of_nat n) -> phys mem pgd u = Some a ->
  sys_write (Z.of_nat fd) u (Z.of_nat n) s = Ret (Z.of_nat n, set_pos f (pos + Z.of_nat n) (put_content v (l n) s)).
Proof.
  intros Hfd Hf Ho Hr Hpos Hlen Hp Ha. destruct (buffer_frame u _ a Hp Ha) as (b & Hb & Hlo & Hhi & _). destruct (page_addr_low b Hb) as (H0 & H1 & H2).
  unfold sys_write. mrun (v2p_run u a Ha). rewrite Nat2Z.id. assert (Hn : (n <= 4096)%nat) by (pose proof (page_offset_range u); destruct Hp; lia).
  mrun (get_buffer_run a n ltac:(unfold KERNEL_VA_BASE in *; lia)). fold l. rewrite !(proj2 (Z.eqb_neq _ _)) by lia. cbn [orb]. mrun current_run.
  mrun (fd_run fd f ltac:(lia) Hf). rewrite (proj2 (Z.eqb_neq f 0)) by apply Ho.
  pose proof (write_tmp_run s f v pos c (l n) (vo_cpu _ _ _ _ _ (so_vm _ _ _ _ _ Hok)) Ho Hr Hpos) as Hw. subst l. cbn beta in Hw. rewrite length_load_bytes in Hw. apply Hw; lia.
Qed.

(** The bytes a read of [n] gets. *)
Definition read_bytes (c : list Z) (pos n : Z) : list Z := take (Z.to_nat n) (drop (Z.to_nat pos) c).

Lemma read_bytes_got c pos n : 0 <= pos <= Z.of_nat (length c) -> 0 <= n ->
  Z.of_nat (length (read_bytes c pos n)) = got c pos n /\ take (Z.to_nat (got c pos n)) (drop (Z.to_nat pos) c) = read_bytes c pos n.
Proof.
  intros Hp Hn. unfold read_bytes, got. split; [rewrite length_take, length_drop; lia|].
  destruct (Z.min_spec n (Z.of_nat (length c) - pos)) as [[? ->]|[? ->]]; [done|]. rewrite !take_ge by (rewrite length_drop; lia). done.
Qed.

Lemma sys_read_run junk u a fd f v pos c n (l := read_bytes c pos n)
  (mem' := store_bytes a (l ++ drop (length l) (load_bytes mem a (read_room n))) mem) :
  (3 <= fd < 16)%nat -> t_fds k !! fd = Some f -> opened s f v pos -> regular s v c -> 0 <= pos <= Z.of_nat (length c) -> 0 <= n ->
  in_page u (Z.max n NAME_LEN) -> phys mem pgd u = Some a ->
  sys_read junk (Z.of_nat fd) u n s = Ret (Z.of_nat (length l), set_mem (set_vm_mem mem' (mem_of s)) (set_pos f (pos + Z.of_nat (length l)) s)).
Proof.
  intros Hfd Hf Ho Hr Hpos Hn Hp Ha. destruct (buffer_frame u _ a Hp Ha) as (b & Hb & Hlo & Hhi & _). destruct (page_addr_low b Hb) as (H0 & H1 & H2).
  destruct (read_bytes_got c pos n Hpos Hn) as [Hgot Htake]. fold l in Hgot, Htake.
  unfold sys_read. mrun (v2p_run u a Ha). mrun (get_buffer_run a (read_room n) ltac:(unfold KERNEL_VA_BASE in *; lia)).
  rewrite (proj2 (Z.eqb_neq _ _)) by lia. mrun current_run. mrun (fd_run fd f ltac:(lia) Hf). rewrite (proj2 (Z.eqb_neq f 0)) by apply Ho.
  set (old := load_bytes mem a (read_room n)) in *. assert (Hold : Z.of_nat (length old) = Z.max n NAME_LEN) by (unfold old, read_room; rewrite length_load_bytes, Z2Nat.id; lia).
  pose proof (read_tmp_run s f c pos junk old n (vo_cpu _ _ _ _ _ (so_vm _ _ _ _ _ Hok)) (opened_tmp_file _ _ _ _ _ Ho Hr) Hpos ltac:(lia)) as Hrd.
  rewrite Htake, <- Hgot, Nat2Z.id in Hrd. mrun Hrd. cbn [fst snd].
  assert (Hll : Z.of_nat (length (l ++ drop (length l) old)) = Z.max n NAME_LEN) by (rewrite length_app, length_drop; unfold got in Hgot; lia).
  assert (Hput : put_bytes a (l ++ drop (length l) old) (mem_of (set_pos f (pos + Z.of_nat (length l)) s)) = Ret (tt, set_vm_mem mem' (mem_of s))).
  { rewrite set_pos_mem_of. apply put_bytes_run; unfold KERNEL_VA_BASE in *; lia. }
  by mrun (on_mem_run _ _ _ _ Hput).
Qed.

Lemma no_file_run junk u a fd n : phys mem pgd u = Some a -> 0 <= a < KERNEL_VA_BASE -> ~ 0 <= fd < 3 -> (is_fd_valid fd = true -> t_fds k !! Z.to_nat fd = Some 0) ->
  sys_read junk fd u n s = Ret (-1, s) /\ sys_write fd u n s = Ret (-1, s).
Proof.
  intros Ha Hk Hfd Hz. assert (Hf : on_sys (get_file_by_fd t fd) s = Ret (0, s)).
  { destruct (is_fd_valid fd) eqn:Hv; [|apply on_sys_run; unfold get_file_by_fd; by rewrite Hv].
    destruct (is_fd_valid_nat fd Hv) as (i & Hi & ->). rewrite Nat2Z.id in Hz. apply fd_run; [done|]. by apply Hz. }
  split; [unfold sys_read|unfold sys_write]; mrun (v2p_run u a Ha); [mrun (get_buffer_run a (read_room n) Hk)|mrun (get_buffer_run a (Z.to_nat n) Hk)];
    rewrite !(proj2 (Z.eqb_neq _ _)) by lia; cbn [orb]; mrun current_run; by mrun Hf.
Qed.
End caller.

(** ** Claims *)


(** The address a program passes is translated for a write even if its page is
    shared copy on write: what [read] puts into a page that a fork left shared is
    seen by the other task too. *)
Theorem read_reaches_shared_pages junk s t k T live ptrs fd f v pos c buf n a other T' :
  sy_current (kf_sys (v_fs s)) = t -> task_of s t = Some k -> space_ok (mem_of s) (t_vmmap k) T live ptrs -> space_ok (mem_of s) other T' live ptrs ->
  (3 <= fd < 16)%nat -> t_fds k !! fd = Some f -> opened s f v pos -> regular s v c -> is_bytes c -> 0 <= pos <= Z.of_nat (length c) ->
  in_page buf (Z.max (Z.of_nat n) NAME_LEN) -> phys (vm_mem (mem_of s)) (t_vmmap k) buf = Some a -> phys (vm_mem (mem_of s)) other buf = Some a ->
  exists s', sys_read junk (Z.of_nat fd) buf (Z.of_nat n) s = Ret (Z.of_nat (length (read_bytes c pos (Z.of_nat n))), s') /\
    sees (vm_mem (mem_of s')) other buf (read_bytes c pos (Z.of_nat n)).
Proof.
  intros Hcur Ht Hok Hok' Hfd Hf Ho Hr Hc Hpos Hp Ha Ha'. destruct (read_bytes_got c pos (Z.of_nat n) Hpos ltac:(lia)) as [Hgot _]. unfold got in Hgot.
  eexists. split; [apply (sys_read_run s t k T live ptrs Hcur Ht Hok junk buf a fd f v pos c); done || lia|]. rewrite mem_of_set. cbn [vm_mem set_vm_mem].
  pose proof Hp as (Hu & Hn & Hpg). pose proof Ha' as Hph. unfold phys in Hph. destruct (trans _ other buf) as [d|] eqn:Htr; [|done]. injection Hph as Hd.
  destruct (so_data _ _ _ _ _ Hok' buf d Hu Htr) as (b & Hb & Hdb & _ & HT). rewrite Hdb in Hd. pose proof (page_offset_range buf).
  eapply (landed_sees _ _ other buf a); [|split_and!; [done|lia|lia]|done]. eapply (store_landed (mem_of s) other T' live ptrs b); [done|done|lia|..].
  - unfold read_room. rewrite Z2Nat.id; lia.
  - unfold read_room. lia.
  - apply Forall_take, Forall_drop, Hc.
Qed.

(** ** Witness *)

(** A task with one page and one file, open as descriptor 3. *)
Definition reader_task (pgd : Z) : Task := with_fds ([0; 0; 0; 1] ++ replicate 12 0) (demo_task pgd 0).
Definition reader_state (v : VM) (pgd : Z) (c : list Z) : VFS KernelFs :=
  mkVFS (k_cpu (vm_kernel v)) (mkKernelFs (mkHeap {[2 := demo_inode c]} 3) ∅ false (mkSys v {[1 := reader_task pgd]} 2 2 1 0 1 false [1] [] 1))
    0 1 [] {[1 := mkFile 2 1 0]} 2 [1] [] [] (mkUart [] []) 1.

