(* ===== verification/UserProg.v ===== *)
(** * usr/: the programs

    A program is an interaction tree: its events are the system calls it makes,
    with the bytes the kernel finds behind the pointers it passes, and the text
    it prints.  What it does with its own memory is computed, and an access
    outside of its buffers is the event [Segv]. *)

From ITree Require Import ITree ITreeFacts.
From Stdlib Require Import ZArith Lia String Ascii.
From stdpp Require Import base gmap list numbers.
From S2P Require Import Prelude CString Printf Cpio MemInfo.

Open Scope Z_scope.

(** ** Events *)

(** A path that is [nullptr] is [None]; [read] gives its result and the bytes
    that are put at the start of the buffer, [wait] its result and the status. *)
Inductive userE : Type -> Type :=
| Print (text : list Z) : userE unit
| Read (fd count : Z) : userE (Z * list Z)
| Write (fd : Z) (bytes : list Z) : userE Z
| Open (path : option (list Z)) (options : Z) : userE Z
| Close (fd : Z) : userE Z
| Access (path : option (list Z)) (options : Z) : userE Z
| Chdir (path : option (list Z)) : userE Z
| Mkdir (path : option (list Z)) : userE Z
| Unlink (path : option (list Z)) : userE Z
| Fork : userE Z
| Exec (path : list Z) (argv : list (list Z)) : userE Z
| Wait : userE (Z * Z)
| Exit (code : Z) : userE Empty_set
| Segv : userE Empty_set.

Abbreviation Prog := (itree userE).
#[export] Instance prog_ret : MRet Prog := fun A a => ITreeDefinition.Ret a.
#[export] Instance prog_bind : MBind Prog := fun A B k t => ITree.bind t k.

Definition perform {A} (e : userE A) : Prog A := ITree.trigger e.
Definition segv {A} : Prog A := x ← perform Segv; match (x : Empty_set) with end.
(** Computation in the memory of the program. *)
Definition local {A} (o : outcome A) : Prog A :=
  match o with
  | Ret a => mret a
  | OutOfFuel => ITree.spin
  | _ => segv
  end.
(** [%s] of a pointer. *)
Definition shown_arg (a : option (list Z)) : Prog (list Z) := match a with Some s => mret s | None => segv end.

(** ** usr/sh: the line *)

Definition SPACE : Z := 32.
Definition buf_size : nat := 256.

(** The loop of [get_argc]: [begin] and [ret]. *)
Fixpoint argc_loop (n : nat) (s : list Z) (i begin ret : Z) : outcome (Z * Z) :=
  match n with
  | O => Ret (begin, ret)
  | S n =>
      c ← rd (arr_get s) i;
      if c =? SPACE then argc_loop n s (i + 1) (i + 1) (if u64 (i - begin) =? 0 then ret else ret + 1)
      else argc_loop n s (i + 1) begin ret
  end.
Definition get_argc (s : list Z) : outcome Z :=
  len ← strlen (S (length s)) (arr_get s) 0;
  r ← argc_loop (Z.to_nat len) s 0 0 0;
  let '(begin, ret) := r in
  Ret (if u64 (len - begin) =? 0 then ret else ret + 1).

(** [while ( *s && *s != ' ') s++] and [while ( *s && *s == ' ') s++] *)
Fixpoint skip (fuel : nat) (space : bool) (buf : list Z) (s : Z) : outcome Z :=
  match fuel with
  | O => OutOfFuel
  | S fuel =>
      c ← rd (arr_get buf) s;
      if negb (c =? 0) && Bool.eqb (c =? SPACE) space then skip fuel space buf (s + 1) else Ret s
  end.
Definition get_next_arg (buf : list Z) (s : Z) : outcome (list Z * Z) :=
  s ← skip (S (length buf)) false buf s;
  buf ← (match arr_set buf s 0 with Some buf => Ret buf | None => Fault end);
  s ← skip (S (length buf)) true buf (s + 1);
  Ret (buf, s).
(** [while ( *str && *str == ' ' && str < buf + sizeof(buf)) str++] *)
Fixpoint skip_leading (fuel : nat) (buf : list Z) (str : Z) : outcome Z :=
  match fuel with
  | O => OutOfFuel
  | S fuel =>
      c ← rd (arr_get buf) str;
      if negb (c =? 0) && (c =? SPACE) && (str <? Z.of_nat buf_size) then skip_leading fuel buf (str + 1) else Ret str
  end.
Fixpoint next_args (n : nat) (buf : list Z) (str : Z) : outcome (list Z * list Z) :=
  match n with
  | O => Ret (buf, [])
  | S n =>
      r ← get_next_arg buf str;
      rest ← next_args n (fst r) (snd r);
      Ret (fst rest, snd r :: snd rest)
  end.
(** The buffer afterwards and the pointers before [arguments[argc]], which is
    [nullptr]: with no argument it replaces [arguments[0]]. *)
Definition split_line (buf : list Z) : outcome (list Z * list Z) :=
  argc ← get_argc buf;
  str ← skip_leading (S (length buf)) buf 0;
  r ← next_args (Z.to_nat (argc - 1)) buf str;
  Ret (fst r, if argc =? 0 then [] else str :: snd r).

Definition string_at (buf : list Z) (p : Z) : outcome (list Z) := read_string (arr_get buf) (S (length buf)) p.
Fixpoint strings_at (buf : list Z) (ps : list Z) : outcome (list (list Z)) :=
  match ps with [] => Ret [] | p :: ps => s ← string_at buf p; rest ← strings_at buf ps; Ret (s :: rest) end.

(** [!strncmp(buf, word, n)] *)
Definition is_string (buf word : list Z) (n : Z) : outcome bool :=
  r ← strncmp (S (length buf)) (arr_get buf) (arr_get (word ++ [0])) 0 0 n; Ret (r =? 0).

(** ** usr/sh: the shell *)

Definition command_not_found (argv : list (list Z)) : Prog unit :=
  s ← shown_arg (head argv); perform (Print (txt "sh: command not found: " ++ s ++ nl)).

(** The status that [wait] stores is in a variable of the block. *)
Definition run_command (argv : list (list Z)) : Prog unit :=
  pid ← perform Fork;
  if pid =? -1 then perform (Print (txt "fork failed" ++ nl))
  else if pid =? 0 then
    path ← shown_arg (head argv);
    _ ← perform (Exec path argv);
    perform (Print (txt "exec failed" ++ nl));;
    x ← perform (Exit (-1)); match (x : Empty_set) with end
  else _ ← perform Wait; mret tt.

(** What follows the [read]: [inl] for the next turn, [inr] for the end. *)
Definition run_line (wstatus : Z) (buf : list Z) : Prog (Z + Z) :=
  r ← local (split_line buf);
  let '(buf, ps) := r in
  len ← local (strlen (S (length buf)) (arr_get buf) 0);
  if len =? 0 then mret (inl wstatus)
  else
    is_exit ← local (is_string buf (txt "exit") 256);
    if (is_exit : bool) then mret (inr 0)
    else
      argv ← local (strings_at buf ps);
      is_cd ← local (is_string buf (txt "cd") 256);
      if (is_cd : bool) then
        ret ← perform (Chdir (argv !! 1%nat));
        (if ret =? -1 then
           s ← shown_arg (argv !! 1%nat);
           perform (Print (txt "cd: no such file or directory: " ++ s ++ nl))
         else mret tt);;
        mret (inl wstatus)
      else
        is_echo ← local (is_string buf (txt "echo $?") 256);
        if (is_echo : bool) then perform (Print (dec wstatus ++ nl));; mret (inl wstatus)
        else
          ret ← perform (Access (head argv) 0);
          (if negb (ret =? -1) then run_command argv else command_not_found argv);;
          mret (inl wstatus).

(** The buffer after [memset] and [read(0, buf, 255)]. *)
Definition line_buffer (line : list Z) : list Z := take 255 line ++ replicate (buf_size - length (take 255 line)) 0.

Definition shell_turn (username : list Z) (prompt wstatus : Z) : Prog (Z + Z) :=
  perform (Print (txt "[" ++ username ++ txt "@localhost]" ++ [prompt] ++ txt " "));;
  r ← perform (Read 0 255);
  run_line wstatus (line_buffer (snd r)).

Definition run_shell (username : list Z) : Prog Z :=
  is_root ← local (is_string (username ++ [0]) (txt "root") 4);
  ITree.iter (shell_turn username (if (is_root : bool) then 35 else 36)) 0.

(** [run_shell(argv[1])]; a null pointer is read. *)
Definition sh_main (argv : list (list Z)) : Prog Z := match argv !! 1%nat with Some u => run_shell u | None => segv end.

(** ** usr/login, usr/init *)

Definition validate_user (username password : list Z) : outcome bool :=
  len ← strlen (S (length username)) (arr_get username) 0; Ret (negb (len =? 0)).

Definition login_turn (n : unit) : Prog (unit + Z) :=
  perform (Print (txt "Localhost login: "));;
  u ← perform (Read 0 31);
  perform (Print (txt "Password: "));;
  p ← perform (Read 0 31);
  let username := take 31 (snd u) ++ replicate (32 - length (take 31 (snd u))) 0 in
  let password := take 31 (snd p) ++ replicate (32 - length (take 31 (snd p))) 0 in
  valid ← local (validate_user username password);
  if negb valid then mret (inl tt)
  else
    pid ← perform Fork;
    (if pid =? -1 then perform (Print (txt "fork failed" ++ nl))
     else if pid =? 0 then
       name ← local (string_at username 0);
       _ ← perform (Exec (txt "/bin/sh") [txt "/bin/sh"; name]); mret tt
     else _ ← perform Wait; mret tt);;
    mret (inl tt).
Definition login_main : Prog Z := ITree.iter login_turn tt.

Definition reap (n : unit) : Prog (unit + Z) :=
  r ← perform Wait;
  (if negb (fst r =? -1) then perform (Print (txt "init: reaped zombie: pid = " ++ dec (fst r) ++ txt " with error_code = " ++ dec (snd r) ++ nl)) else mret tt);;
  mret (inl tt).
Definition init_main : Prog Z :=
  pid ← perform Fork;
  if pid =? -1 then perform (Print (txt "init: fork failed" ++ nl));; mret 0
  else if pid =? 0 then _ ← perform (Exec (txt "/sbin/login") [txt "/sbin/login"]); mret 0
  else ITree.iter reap tt.

(** ** usr/cat, usr/ls, usr/mkdir, usr/touch, usr/unlink

    [argc] is the length of [argv]. *)

Definition cat_main (argv : list (list Z)) : Prog Z :=
  match argv with
  | [] => perform (Print (txt "cat: argv[0] should be the path to cat" ++ nl));; mret (-1)
  | [name] => perform (Print (txt "usage: " ++ name ++ txt " <file>" ++ nl));; mret 0
  | name :: file :: _ =>
      fd ← perform (Open (Some file) 0);
      if fd =? -1 then perform (Print (txt "ls: cannot access '" ++ file ++ txt "': No such file or directory" ++ nl));; mret 2
      else
        r ← perform (Read fd 512);
        let buf := take 512 (snd r) ++ replicate (512 - length (take 512 (snd r))) 0 in
        if negb (fst r =? -1) then _ ← perform (Write 1 (take (Z.to_nat (fst r)) buf)); mret 0
        else perform (Print (name ++ txt ": " ++ file ++ txt ": Permission denied" ++ nl));; mret (fst r)
  end.

(** [dentry] is what the structure holds before a [read]. *)
Definition ls_turn (fd : Z) (dentry : list Z) : Prog (list Z + Z) :=
  r ← perform (Read fd 256);
  let dentry := take 256 (snd r) ++ drop (length (take 256 (snd r))) dentry in
  if fst r =? 0 then mret (inr (fst r))
  else name ← local (string_at dentry 0); perform (Print (name ++ txt " "));; mret (inl dentry).
Definition ls_main (junk : list Z) (argv : list (list Z)) : Prog Z :=
  match argv with
  | [] => perform (Print (txt "ls: argv[0] should be the path to ls" ++ nl));; mret (-1)
  | _ :: rest =>
      let dir := default (txt ".") (head rest) in
      fd ← perform (Open (Some dir) 0);
      if fd =? -1 then perform (Print (txt "ls: cannot access '" ++ dir ++ txt "': No such file or directory" ++ nl));; mret 2
      else ret ← ITree.iter (ls_turn fd) junk; perform (Print nl);; mret ret
  end.

Definition mkdir_main (argv : list (list Z)) : Prog Z :=
  match argv !! 1%nat with
  | None => perform (Print (txt "mkdir: missing operand" ++ nl));; mret 0
  | Some path => ret ← perform (Mkdir (Some path)); if ret =? -1 then perform (Print (txt "mkdir: cannot create '" ++ path ++ txt "'" ++ nl));; mret 1 else mret ret
  end.

(** [ret] is not initialised on the path that succeeds. *)
Definition touch_main (ret : Z) (argv : list (list Z)) : Prog Z :=
  match argv !! 1%nat with
  | None => name ← shown_arg (head argv); perform (Print (name ++ txt ": missing file operand" ++ nl));; mret 1
  | Some path =>
      a ← perform (Access (Some path) 0);
      (if a =? -1 then fd ← perform (Open (Some path) (Z.shiftl 1 3)); _ ← perform (Close fd); mret tt else mret tt);;
      mret ret
  end.

Definition unlink_main (argv : list (list Z)) : Prog Z :=
  match argv !! 1%nat with
  | None => perform (Print (txt "unlink: missing operand" ++ nl));; mret 0
  | Some path => ret ← perform (Unlink (Some path)); if ret =? -1 then perform (Print (txt "unlink: cannot unlink '" ++ path ++ txt "'" ++ nl));; mret 1 else mret ret
  end.

(** [_start]: [exit(main(argc, argv))]. *)
Definition start (main : Prog Z) : Prog Z := ret ← main; x ← perform (Exit ret); match (x : Empty_set) with end.
