(* ===== verification/ShellSpec.v ===== *)
(** * The shell: theorems

    A line is words between spaces.  [run_prog] runs a program against given
    answers of the kernel and records the calls it makes; the calls of a turn of
    the shell are written out in [command_calls]. *)

From ITree Require Import ITree ITreeFacts.
From Paco Require Import paco.
From Stdlib Require Import ZArith Lia String Ascii.
From stdpp Require Import base gmap list numbers.
From S2P Require Import Prelude CString Printf Cpio MemInfo UserProg.

Open Scope Z_scope.

(** ** Buffers *)

Lemma bytes_buf (pre l post : list Z) : bytes_at (arr_get (pre ++ l ++ post)) (Z.of_nat (length pre)) l.
Proof.
  revert pre. induction l as [|c l IH]; intros pre; cbn [bytes_at]; [done|]. split.
  - rewrite arr_get_nat, lookup_app_r, Nat.sub_diag by lia. done.
  - replace (Z.of_nat (length pre) + 1) with (Z.of_nat (length (pre ++ [c]))) by (rewrite length_app; simpl; lia).
    replace (pre ++ (c :: l) ++ post) with ((pre ++ [c]) ++ l ++ post) by (by rewrite <- app_assoc). apply IH.
Qed.
Lemma char_buf (pre : list Z) c post : arr_get (pre ++ c :: post) (Z.of_nat (length pre)) = Some c.
Proof. by rewrite arr_get_nat, lookup_app_r, Nat.sub_diag by lia. Qed.
Lemma cstr_buf (pre s post : list Z) : Forall (fun c => c <> 0) s -> cstr (arr_get (pre ++ s ++ 0 :: post)) (Z.of_nat (length pre)) s.
Proof. intros Hs. apply cstr_bytes. split; [|done]. change (0 :: post) with ([0] ++ post). rewrite (app_assoc s). apply bytes_buf. Qed.
Lemma set_buf (pre : list Z) c post x : arr_set (pre ++ c :: post) (Z.of_nat (length pre)) x = Some (pre ++ x :: post).
Proof. rewrite arr_set_is_Some by (rewrite length_app; simpl; lia). rewrite Nat2Z.id, insert_app_r_alt, Nat.sub_diag by lia. done. Qed.

Lemma read_cstr r fuel p s : cstr r p s -> (length s < fuel)%nat -> read_string r fuel p = Ret s.
Proof.
  revert fuel p. induction s as [|c s IH]; intros [|fuel] p Hs Hf; cbn [length cstr read_string] in *; try lia.
  - by rewrite (rd_run _ _ _ Hs).
  - destruct Hs as (Hc & Hne & Hs). rewrite (rd_run _ _ _ Hc). cbn [mbind outcome_bind]. rewrite (proj2 (Z.eqb_neq c 0)) by done. by rewrite IH by (done || lia).
Qed.

(** ** Lines *)

Definition is_word (w : list Z) : Prop := w <> [] /\ Forall (fun c => c <> 0 /\ c <> SPACE) w.
Definition spaces (g : list Z) : Prop := Forall (fun c => c = SPACE) g.

(** Words, each with the spaces that follow it: at least one before the next. *)
Fixpoint items_ok (items : list (list Z * list Z)) : Prop :=
  match items with
  | [] => True
  | (w, g) :: more => is_word w /\ spaces g /\ (more <> [] -> g <> []) /\ items_ok more
  end.
Fixpoint flat (items : list (list Z * list Z)) : list Z :=
  match items with [] => [] | (w, g) :: more => w ++ g ++ flat more end.

(** The line after the words were cut off, where they are, and what they are:
    the spaces behind the last word are part of it. *)
Fixpoint cut (items : list (list Z * list Z)) : list Z :=
  match items with
  | [] => []
  | [(w, g)] => w ++ g
  | (w, g) :: more => w ++ 0 :: tail g ++ cut more
  end.
Fixpoint ptrs (p : Z) (items : list (list Z * list Z)) : list Z :=
  match items with [] => [] | (w, g) :: more => p :: ptrs (p + Z.of_nat (length w) + Z.of_nat (length g)) more end.
Fixpoint args (items : list (list Z * list Z)) : list (list Z) :=
  match items with
  | [] => []
  | [(w, g)] => [w ++ g]
  | (w, g) :: more => w :: args more
  end.

Lemma word_chars w : is_word w -> Forall (fun c => c <> 0) w.
Proof. intros [_ H]. eapply list.Forall_impl; [exact H|]. by intros c [? _]. Qed.
Lemma space_chars g : spaces g -> Forall (fun c => c <> 0) g.
Proof. intros H. eapply list.Forall_impl; [exact H|]. by intros c ->. Qed.

(** ** Counting *)

Lemma argc_word n s i b r w : bytes_at (arr_get s) i w -> Forall (fun c => c <> SPACE) w ->
  argc_loop (length w + n) s i b r = argc_loop n s (i + Z.of_nat (length w)) b r.
Proof.
  revert i. induction w as [|c w IH]; intros i Hb Hw; cbn [length Nat.add argc_loop bytes_at] in *; [by rewrite Z.add_0_r|].
  destruct Hb as [Hc Hb]. apply list.Forall_cons in Hw as [Hne Hw]. rewrite (rd_run _ _ _ Hc). cbn [mbind outcome_bind]. rewrite (proj2 (Z.eqb_neq c SPACE)) by done.
  rewrite IH by done. f_equal. lia.
Qed.
Lemma argc_spaces n s i r g : bytes_at (arr_get s) i g -> spaces g ->
  argc_loop (length g + n) s i i r = argc_loop n s (i + Z.of_nat (length g)) (i + Z.of_nat (length g)) r.
Proof.
  revert i. induction g as [|c g IH]; intros i Hb Hg; cbn [length Nat.add argc_loop bytes_at] in *; [by rewrite Z.add_0_r|].
  destruct Hb as [Hc Hb]. apply list.Forall_cons in Hg as [-> Hg]. rewrite (rd_run _ _ _ Hc). cbn [mbind outcome_bind]. rewrite Z.eqb_refl, Z.sub_diag. change (u64 0 =? 0) with true. cbn iota.
  rewrite IH by done. f_equal; lia.
Qed.

Lemma argc_items items s i r : items_ok items -> bytes_at (arr_get s) i (flat items) -> 0 <= i -> i + Z.of_nat (length (flat items)) < 2 ^ 64 ->
  exists b k, argc_loop (length (flat items)) s i i r = Ret (b, k) /\ b <= i + Z.of_nat (length (flat items)) /\
    (if u64 (i + Z.of_nat (length (flat items)) - b) =? 0 then k else k + 1) = r + Z.of_nat (length items).
Proof.
  revert i r. induction items as [|[w g] more IH]; intros i r Hok Hb Hi Hlen; cbn [flat length] in *.
  - exists i, r. cbn [length argc_loop]. split_and!; [done|lia|]. replace (i + Z.of_nat 0 - i) with 0 by lia. change (u64 0 =? 0) with true. cbn iota. lia.
  - destruct Hok as (Hw & Hg & Hgap & Hok). apply bytes_at_app in Hb as [Hbw Hb]. apply bytes_at_app in Hb as [Hbg Hb]. rewrite !length_app in *.
    assert (Hwl : (0 < length w)%nat) by (destruct Hw as [Hne _]; destruct w; [done|simpl; lia]).
    rewrite argc_word; [|done|destruct Hw as [_ Hw]; eapply list.Forall_impl; [exact Hw|by intros c [_ ?]]]. destruct g as [|c g].
    + destruct more as [|m more]; [|destruct Hgap; done]. cbn [flat length Nat.add app argc_loop] in *. eexists _, _. split_and!; [done|lia|].
      rewrite u64_id, (proj2 (Z.eqb_neq _ _)) by lia. lia.
    + apply list.Forall_cons in Hg as [-> Hg]. cbn [length Nat.add argc_loop bytes_at] in *. destruct Hbg as [Hc Hbg]. rewrite (rd_run _ _ _ Hc). cbn [mbind outcome_bind]. rewrite Z.eqb_refl.
      rewrite u64_id, (proj2 (Z.eqb_neq _ _)) by lia. rewrite argc_spaces by done.
      destruct (IH (i + Z.of_nat (length w) + 1 + Z.of_nat (length g)) (r + 1)) as (b & k & Hrun & Hle & Hk); [done| |lia|lia|].
      { by replace (i + Z.of_nat (length w) + 1 + Z.of_nat (length g)) with (i + Z.of_nat (length w) + Z.of_nat (S (length g))) by lia. }
      exists b, k. split; [exact Hrun|]. split; [lia|]. replace (i + Z.of_nat (length w + S (length g + length (flat more)))) with (i + Z.of_nat (length w) + 1 + Z.of_nat (length g) + Z.of_nat (length (flat more))) by lia. rewrite Hk. lia.
Qed.

Lemma flat_chars items : items_ok items -> Forall (fun c => c <> 0) (flat items).
Proof.
  induction items as [|[w g] more IH]; intros Hok; cbn [flat]; [done|]. destruct Hok as (Hw & Hg & _ & Hok).
  rewrite !list.Forall_app. split_and!; [by apply word_chars|by apply space_chars|by apply IH].
Qed.

Lemma get_argc_run lead items z : spaces lead -> items_ok items -> Z.of_nat (length (lead ++ flat items)) < 2 ^ 31 ->
  get_argc (lead ++ flat items ++ 0 :: z) = Ret (Z.of_nat (length items)).
Proof.
  intros Hl Hok Hlen. unfold get_argc. rewrite length_app in Hlen.
  pose proof (cstr_buf [] (lead ++ flat items) z) as Hs. rewrite list.Forall_app in Hs. specialize (Hs (conj (space_chars _ Hl) (flat_chars _ Hok))). cbn [app length] in Hs. rewrite <- app_assoc in Hs.
  rewrite (strlen_spec _ _ _ (lead ++ flat items) Hs) by (rewrite !length_app; simpl; lia). cbn [mbind outcome_bind]. rewrite Nat2Z.id, length_app.
  rewrite argc_spaces; [|apply (bytes_buf [] lead)|done]. rewrite Z.add_0_l.
  destruct (argc_items items (lead ++ flat items ++ 0 :: z) (Z.of_nat (length lead)) 0 Hok (bytes_buf lead (flat items) (0 :: z)) ltac:(lia) ltac:(lia)) as (b & k & -> & _ & Hk). cbn [mbind outcome_bind].
  by rewrite Nat2Z.inj_add, Hk.
Qed.

(** ** Cutting *)

Lemma skip_run fuel space buf s l c : bytes_at (arr_get buf) s l -> Forall (fun c => c <> 0 /\ (c =? SPACE) = space) l ->
  arr_get buf (s + Z.of_nat (length l)) = Some c -> c = 0 \/ (c =? SPACE) = negb space -> (length l < fuel)%nat -> skip fuel space buf s = Ret (s + Z.of_nat (length l)).
Proof.
  revert fuel s. induction l as [|x l IH]; intros [|fuel] s Hb Hl Hc Hstop Hf; cbn [length bytes_at skip] in *; try lia.
  - rewrite Z.add_0_r in *. rewrite (rd_run _ _ _ Hc). cbn [mbind outcome_bind]. destruct Hstop as [->|Hs]; [done|]. rewrite Hs. by destruct (c =? 0), space.
  - destruct Hb as [Hx Hb]. apply list.Forall_cons in Hl as [[Hx0 Hxs] Hl]. rewrite (rd_run _ _ _ Hx). cbn [mbind outcome_bind].
    rewrite (proj2 (Z.eqb_neq x 0)), Hxs by done. rewrite Bool.eqb_reflx. cbn [negb andb]. rewrite IH; [f_equal; lia|done|done| |done|lia].
    rewrite <- Hc. f_equal. lia.
Qed.

Lemma word_skipped w : is_word w -> Forall (fun c => c <> 0 /\ (c =? SPACE) = false) w.
Proof. intros [_ H]. eapply list.Forall_impl; [exact H|]. intros c [? ?]. by rewrite (proj2 (Z.eqb_neq _ _)). Qed.
Lemma spaces_skipped g : spaces g -> Forall (fun c => c <> 0 /\ (c =? SPACE) = true) g.
Proof. intros H. eapply list.Forall_impl; [exact H|]. by intros c ->. Qed.

(** The first character behind the spaces. *)
Lemma flat_head items z : items_ok items -> exists c rest, flat items ++ 0 :: z = c :: rest /\ (c = 0 \/ (c =? SPACE) = negb true).
Proof.
  destruct items as [|[w g] more]; [by eauto|]. intros ([Hne Hw] & _). destruct w as [|c w]; [done|]. cbn [flat app]. eexists _, _. split; [done|]. right.
  apply list.Forall_cons in Hw as [[_ ?] _]. by rewrite (proj2 (Z.eqb_neq _ _)).
Qed.

Lemma next_arg_run pre w g more z : is_word w -> spaces g -> items_ok more ->
  get_next_arg (pre ++ w ++ SPACE :: g ++ flat more ++ 0 :: z) (Z.of_nat (length pre)) =
    Ret (pre ++ w ++ 0 :: g ++ flat more ++ 0 :: z, Z.of_nat (length (pre ++ w ++ 0 :: g))).
Proof.
  intros Hw Hg Hok. unfold get_next_arg. set (buf := pre ++ w ++ SPACE :: g ++ flat more ++ 0 :: z).
  rewrite (skip_run _ false buf _ w SPACE); [|apply bytes_buf|by apply word_skipped| |by right|unfold buf; rewrite !length_app; lia].
  2:{ rewrite <- Nat2Z.inj_add, <- length_app. unfold buf. rewrite app_assoc. apply char_buf. }
  cbn [mbind outcome_bind]. rewrite <- Nat2Z.inj_add, <- length_app. unfold buf. rewrite (app_assoc pre w), set_buf. cbn [mbind outcome_bind].
  destruct (flat_head more z Hok) as (c & rest & Heq & Hstop). rewrite Heq.
  assert (Hp : Z.of_nat (length (pre ++ w)) + 1 = Z.of_nat (length ((pre ++ w) ++ [0]))) by (rewrite (length_app (pre ++ w)); simpl; lia). rewrite Hp.
  replace ((pre ++ w) ++ 0 :: g ++ c :: rest) with (((pre ++ w) ++ [0]) ++ g ++ c :: rest) by (by rewrite <- app_assoc).
  rewrite (skip_run _ true _ _ g c); [|apply bytes_buf|by apply spaces_skipped| |done|rewrite !length_app; lia].
  2:{ rewrite <- Nat2Z.inj_add, <- length_app, (app_assoc _ g). apply char_buf. }
  cbn [mbind outcome_bind]. rewrite <- Nat2Z.inj_add, <- length_app. do 2 f_equal; [by rewrite <- !app_assoc|]. f_equal. by rewrite <- !app_assoc.
Qed.

Lemma next_args_run items pre z : items_ok items -> items <> [] ->
  next_args (length items - 1) (pre ++ flat items ++ 0 :: z) (Z.of_nat (length pre)) = Ret (pre ++ cut items ++ 0 :: z, tail (ptrs (Z.of_nat (length pre)) items)).
Proof.
  revert pre. induction items as [|[w g] more IH]; intros pre Hok Hne; [done|]. destruct Hok as (Hw & Hg & Hgap & Hok). destruct more as [|m more].
  - cbn. by rewrite app_nil_r.
  - destruct g as [|c g]; [by destruct Hgap|]. apply list.Forall_cons in Hg as [-> Hg]. set (items := m :: more) in *.
    replace (length ((w, SPACE :: g) :: items) - 1)%nat with (S (length items - 1)) by (unfold items; simpl; lia). cbn [next_args flat]. rewrite <- !app_assoc. cbn [app].
    rewrite next_arg_run by done. cbn [mbind outcome_bind fst snd].
    replace (pre ++ w ++ 0 :: g ++ flat items ++ 0 :: z) with ((pre ++ w ++ 0 :: g) ++ flat items ++ 0 :: z) by (rewrite <- !app_assoc; done).
    rewrite IH by done. cbn [mbind outcome_bind fst snd]. do 2 f_equal.
    + unfold items. cbn [cut tail]. rewrite <- !app_assoc. cbn [app]. by rewrite <- !app_assoc.
    + cbn [ptrs tail]. unfold items. destruct m as [w' g']. cbn [ptrs tail]. f_equal; [rewrite !length_app; simpl; lia|f_equal; rewrite !length_app; simpl; lia].
Qed.

Lemma args_chars items : items_ok items -> Forall (Forall (fun c => c <> 0)) (args items).
Proof.
  induction items as [|[w g] more IH]; intros Hok; [constructor|]. destruct Hok as (Hw & Hg & _ & Hok). destruct more as [|m more].
  - cbn. constructor; [|constructor]. apply list.Forall_app. split; [by apply word_chars|by apply space_chars].
  - cbn [args]. constructor; [by apply word_chars|by apply IH].
Qed.

Lemma strings_run items pre z : items_ok items -> strings_at (pre ++ cut items ++ 0 :: z) (ptrs (Z.of_nat (length pre)) items) = Ret (args items).
Proof.
  revert pre. induction items as [|[w g] more IH]; intros pre Hok; [done|]. pose proof (args_chars _ Hok) as Hch. destruct Hok as (Hw & Hg & Hgap & Hok). destruct more as [|m more].
  - cbn [cut ptrs args strings_at]. unfold string_at. cbn in Hch. apply list.Forall_cons in Hch as [Hch _].
    rewrite (read_cstr _ _ _ (w ++ g)); [done|by apply cstr_buf|rewrite !length_app; lia].
  - destruct g as [|c g]; [by destruct Hgap|]. apply list.Forall_cons in Hg as [-> Hg]. set (items := m :: more) in *.
    change (cut ((w, SPACE :: g) :: items)) with (w ++ 0 :: g ++ cut items). change (args ((w, SPACE :: g) :: items)) with (w :: args items).
    cbn [ptrs strings_at]. unfold string_at at 1. rewrite <- app_assoc. cbn [app].
    rewrite (read_cstr _ _ _ w); [|apply cstr_buf; by apply word_chars|rewrite !length_app; lia]. cbn [mbind outcome_bind].
    replace (pre ++ w ++ 0 :: (g ++ cut items) ++ 0 :: z) with ((pre ++ w ++ 0 :: g) ++ cut items ++ 0 :: z) by (rewrite <- !app_assoc; done).
    replace (Z.of_nat (length pre) + Z.of_nat (length w) + Z.of_nat (length (SPACE :: g))) with (Z.of_nat (length (pre ++ w ++ 0 :: g))) by (rewrite !length_app; simpl; lia).
    by rewrite IH.
Qed.

(** The command: what the buffer holds as a string. *)
Lemma command_string items lead z : items_ok items -> items <> [] -> spaces lead -> exists w, head (args items) = Some w /\ cstr (arr_get (lead ++ cut items ++ 0 :: z)) 0 (lead ++ w).
Proof.
  intros Hok Hne Hl. pose proof (args_chars _ Hok) as Hch. destruct items as [|[w g] more]; [done|]. destruct more as [|m more].
  - exists (w ++ g). split; [done|]. cbn in Hch. apply list.Forall_cons in Hch as [Hch _]. pose proof (cstr_buf [] (lead ++ w ++ g) z) as H. cbn [app length] in H. rewrite <- app_assoc in H.
    apply H. apply list.Forall_app. split; [by apply space_chars|done].
  - exists w. split; [done|]. cbn [cut]. pose proof (cstr_buf [] (lead ++ w) (tail g ++ cut (m :: more) ++ 0 :: z)) as H. cbn [app length] in H. rewrite <- !app_assoc in *. cbn [app] in *.
    rewrite <- app_assoc. apply H. apply list.Forall_app. split; [by apply space_chars|by apply word_chars, Hok].
Qed.

Lemma skip_leading_run fuel buf s l c : bytes_at (arr_get buf) s l -> spaces l -> arr_get buf (s + Z.of_nat (length l)) = Some c -> c = 0 \/ (c =? SPACE) = false ->
  s + Z.of_nat (length l) <= 256 -> (length l < fuel)%nat -> skip_leading fuel buf s = Ret (s + Z.of_nat (length l)).
Proof.
  revert fuel s. induction l as [|x l IH]; intros [|fuel] s Hb Hl Hc Hstop Hs Hf; cbn [length bytes_at skip_leading] in *; try lia.
  - rewrite Z.add_0_r in *. rewrite (rd_run _ _ _ Hc). cbn [mbind outcome_bind]. destruct Hstop as [->|Hn]; [done|]. by rewrite Hn, andb_false_r.
  - destruct Hb as [Hx Hb]. apply list.Forall_cons in Hl as [-> Hl]. rewrite (rd_run _ _ _ Hx). cbn [mbind outcome_bind].
    rewrite (proj2 (Z.ltb_lt _ _)) by (unfold buf_size; lia). cbn [negb andb Z.eqb SPACE Pos.eqb]. rewrite IH; [f_equal; lia|done|done| |done|lia|lia]. rewrite <- Hc. f_equal. lia.
Qed.

Lemma split_line_run lead items z : spaces lead -> items_ok items -> (length (lead ++ flat items) <= 255)%nat ->
  split_line (lead ++ flat items ++ 0 :: z) = Ret (lead ++ cut items ++ 0 :: z, ptrs (Z.of_nat (length lead)) items).
Proof.
  intros Hl Hok Hlen. unfold split_line. rewrite get_argc_run by (done || lia). cbn [mbind outcome_bind]. rewrite length_app in Hlen.
  destruct (flat_head items z Hok) as (c & rest & Heq & Hstop).
  assert (Hs : skip_leading (S (length (lead ++ flat items ++ 0 :: z))) (lead ++ flat items ++ 0 :: z) 0 = Ret (Z.of_nat (length lead))).
  { rewrite (skip_leading_run _ _ 0 lead c); [done|apply (bytes_buf [] lead)|done|rewrite Heq; apply char_buf|done|lia|rewrite !length_app; lia]. }
  rewrite Hs. cbn [mbind outcome_bind]. destruct items as [|it items]; [done|]. replace (Z.to_nat (Z.of_nat (length (it :: items)) - 1)) with (length (it :: items) - 1)%nat by lia.
  rewrite next_args_run by done. cbn [mbind outcome_bind fst snd]. rewrite (proj2 (Z.eqb_neq _ _)) by (simpl; lia). by destruct it.
Qed.

Lemma is_string_run buf cmd word : cstr (arr_get buf) 0 cmd -> Forall (fun c => c <> 0) word -> (length cmd <= 255)%nat -> (length word <= 255)%nat -> (length cmd <= length buf)%nat ->
  is_string buf word 256 = Ret (bool_decide (cmd = word)).
Proof.
  intros Hc Hw Hl1 Hl2 Hb. unfold is_string. rewrite (strncmp_spec _ _ _ 0 0 cmd word); [|done|apply (cstr_buf [] word [] Hw)|lia|lia]. cbn [mbind outcome_bind].
  rewrite !take_ge by lia. do 2 f_equal. apply cstr_bytes in Hc as [_ Hc]. pose proof (strdiff_0 cmd word Hc Hw) as Hd. case_bool_decide as E; [by apply Z.eqb_eq, Hd|apply Z.eqb_neq; naive_solver].
Qed.

(** ** Trees *)

Lemma local_run {A B} (o : outcome A) (k : A -> Prog B) a : o = Ret a -> eq_itree eq (local o ≫= k) (k a).
Proof. intros ->. apply bind_ret_l. Qed.

(** What the shell does with a command. *)
Definition shell_acts (wstatus : Z) (cmd : list Z) (argv : list (list Z)) : Prog (Z + Z) :=
  if decide (cmd = txt "exit") then mret (inr 0)
  else if decide (cmd = txt "cd") then
    ret ← perform (Chdir (argv !! 1%nat));
    (if ret =? -1 then s ← shown_arg (argv !! 1%nat); perform (Print (txt "cd: no such file or directory: " ++ s ++ nl)) else mret tt);;
    mret (inl wstatus)
  else
    ret ← perform (Access (head argv) 0);
    (if negb (ret =? -1) then run_command argv else command_not_found argv);;
    mret (inl wstatus).

(** A command has no space between other characters. *)
Lemma not_echo lead w g : spaces lead -> is_word w -> spaces g -> lead ++ w ++ g <> txt "echo $?".
Proof.
  intros Hl [Hne Hw] Hg He. destruct lead as [|c lead]; [|apply list.Forall_cons in Hl as [-> _]; done]. cbn [app] in He. destruct g as [|y g' _] using rev_ind.
  - rewrite app_nil_r in He. subst w. cbn in Hw. rewrite !list.Forall_cons in Hw. unfold SPACE in Hw. naive_solver.
  - rewrite app_assoc in He. change (txt "echo $?") with ([101; 99; 104; 111; 32; 36] ++ [63]) in He. apply app_inj_tail in He as [_ ->].
    apply list.Forall_app in Hg as [_ Hg]. apply list.Forall_cons in Hg as [Hg _]. discriminate.
Qed.

Lemma first_arg items : items_ok items -> items <> [] -> exists w g, head (args items) = Some (w ++ g) /\ is_word w /\ spaces g.
Proof.
  destruct items as [|[w g] more]; [done|]. intros (Hw & Hg & _) _. destruct more; [by exists w, g|]. exists w, []. cbn. rewrite app_nil_r. split_and!; [done|done|constructor].
Qed.

Lemma cut_length items : items_ok items -> length (cut items) = length (flat items).
Proof.
  induction items as [|[w g] more IH]; [done|]. intros (Hw & Hg & Hgap & Hok). destruct more as [|m more]; [cbn; by rewrite app_nil_r|].
  destruct g as [|c g]; [by destruct Hgap|]. change (cut ((w, c :: g) :: m :: more)) with (w ++ 0 :: g ++ cut (m :: more)). change (flat ((w, c :: g) :: m :: more)) with (w ++ (c :: g) ++ flat (m :: more)).
  rewrite !length_app. cbn [length]. rewrite !length_app, IH by done. simpl. lia.
Qed.

Lemma args_words items w g : args (items ++ [(w, g)]) = items.*1 ++ [w ++ g].
Proof.
  induction items as [|[w' g'] more IH]; [done|]. cbn [app fmap list_fmap fst]. rewrite <- IH. by destruct (more ++ [(w, g)]) eqn:E; [destruct more|].
Qed.

Lemma line_buffer_short line : (length line <= 255)%nat -> line_buffer line = line ++ 0 :: replicate (255 - length line) 0.
Proof. intros H. unfold line_buffer, buf_size. rewrite take_ge by lia. by replace (256 - length line)%nat with (S (255 - length line)) by lia. Qed.

Lemma run_line_acts wstatus lead items w : spaces lead -> items_ok items -> items <> [] -> (length (lead ++ flat items) <= 255)%nat -> head (args items) = Some w ->
  eq_itree eq (run_line wstatus (line_buffer (lead ++ flat items))) (shell_acts wstatus (lead ++ w) (args items)).
Proof.
  intros Hl Hok Hne Hlen Hw. rewrite line_buffer_short by done. set (z := replicate _ 0). rewrite <- app_assoc. unfold run_line, shell_acts.
  etransitivity; [by apply local_run, split_line_run|]. cbn beta iota zeta. set (buf := lead ++ cut items ++ 0 :: z).
  destruct (command_string items lead z Hok Hne Hl) as (w' & Hw' & Hcmd). rewrite Hw in Hw'. injection Hw' as <-. fold buf in Hcmd.
  destruct (first_arg items Hok Hne) as (x & g & Hx & Hxw & Hg). rewrite Hw in Hx. injection Hx as Hx.
  assert (Hb : length buf = S (length (lead ++ flat items) + length z)) by (unfold buf; rewrite !length_app, cut_length by done; simpl; lia).
  assert (Hlw : (length (lead ++ w) <= length (lead ++ flat items))%nat).
  { rewrite !length_app. destruct items as [|[v h] more]; [done|]. destruct more; cbn in Hw; injection Hw as <-; cbn [flat]; rewrite !length_app; lia. }
  assert (Hstr : forall word, Forall (fun c => c <> 0) word -> (length word <= 255)%nat -> is_string buf word 256 = Ret (bool_decide (lead ++ w = word)))
    by (intros word Hw1 Hw2; apply is_string_run; [done|done|lia|done|lia]).
  assert (Hpos : (0 < length w)%nat) by (rewrite Hx, length_app; destruct Hxw as [Hn _]; destruct x; [done|simpl; lia]).
  etransitivity; [apply local_run, (strlen_spec _ _ _ (lead ++ w)); [done|lia]|]. cbn beta. rewrite (proj2 (Z.eqb_neq _ _)) by (rewrite length_app; lia).
  etransitivity; [apply local_run, Hstr; [repeat constructor; done|simpl; lia]|]. cbn beta. case_bool_decide as E1; [rewrite decide_True by done; reflexivity|rewrite decide_False by done].
  etransitivity; [apply local_run, (strings_run items lead z Hok)|]. cbn beta.
  etransitivity; [apply local_run, Hstr; [repeat constructor; done|simpl; lia]|]. cbn beta. case_bool_decide as E2; [rewrite decide_True by done; reflexivity|rewrite decide_False by done].
  etransitivity; [apply local_run, Hstr; [repeat constructor; done|simpl; lia]|]. cbn beta. rewrite bool_decide_false by (rewrite Hx; by apply not_echo). reflexivity.
Qed.

(** A line of spaces only: [arguments[0]] is the null pointer. *)
Lemma blank_line wstatus lead : spaces lead -> lead <> [] -> (length lead <= 255)%nat ->
  eq_itree eq (run_line wstatus (line_buffer lead))
    (ret ← perform (Access None 0); (if negb (ret =? -1) then run_command [] else command_not_found []);; mret (inl wstatus)).
Proof.
  intros Hl Hne Hlen. rewrite line_buffer_short by done. set (z := replicate _ 0). unfold run_line.
  pose proof (split_line_run lead [] z Hl I ltac:(by rewrite app_nil_r)) as Hs. cbn [flat cut app ptrs] in Hs. etransitivity; [apply local_run, Hs|]. cbn beta iota zeta.
  pose proof (cstr_buf [] lead z (space_chars _ Hl)) as Hc. cbn [app length] in Hc. set (buf := lead ++ 0 :: z) in *. assert (Hb : (length lead < length buf)%nat) by (unfold buf; rewrite length_app; simpl; lia).
  etransitivity; [apply local_run, (strlen_spec _ _ _ lead Hc); lia|]. cbn beta. rewrite (proj2 (Z.eqb_neq _ _)) by (destruct lead; [done|simpl; lia]).
  assert (Hstr : forall c word, c <> SPACE -> c <> 0 -> Forall (fun c => c <> 0) word -> (length word < 255)%nat -> is_string buf (c :: word) 256 = Ret false).
  { intros c word Hc1 Hc2 Hw1 Hw2. rewrite (is_string_run buf lead (c :: word)) by (done || (by constructor) || (simpl; lia)). rewrite bool_decide_false; [done|].
    intros ->. apply list.Forall_cons in Hl as [? _]. done. }
  etransitivity; [apply local_run, Hstr; [done|done|repeat constructor; done|simpl; lia]|]. cbn beta iota.
  etransitivity; [by apply (local_run (strings_at buf []))|]. cbn beta.
  do 2 (etransitivity; [apply local_run, Hstr; [done|done|repeat constructor; done|simpl; lia]|]; cbn beta iota). reflexivity.
Qed.

(** An empty line does nothing. *)
Lemma empty_line wstatus : eq_itree eq (run_line wstatus (line_buffer [])) (mret (inl wstatus)).
Proof. unfold run_line. etransitivity; [by apply local_run|]. cbn beta iota zeta. by etransitivity; [by apply local_run|]. Qed.

(** The loop: a turn, and then the loop again unless the shell ended. *)
Lemma shell_loop user prompt wstatus : eutt eq (ITree.iter (shell_turn user prompt) wstatus)
  (r ← shell_turn user prompt wstatus; match r with inl wstatus => ITree.iter (shell_turn user prompt) wstatus | inr ret => mret ret end).
Proof.
  rewrite unfold_iter. unfold mbind, prog_bind. apply eqit_bind; [reflexivity|]. intros [w|ret]; [apply tau_eutt|reflexivity].
Qed.

(** ** What the shell asks the kernel for *)

(** The answers to the calls of one turn: what [read] delivers, and the results;
    [exec] may not return. *)
Record Answers := mkAnswers {
  an_line : list Z; an_access : Z; an_chdir : Z; an_fork : Z; an_exec : option Z; an_wait : Z * Z
}.
Definition answer (a : Answers) {A} (e : userE A) : option A :=
  match e with
  | Print _ => Some tt
  | Read _ _ => Some (Z.of_nat (length (an_line a)), an_line a)
  | Write _ bytes => Some (Z.of_nat (length bytes))
  | Open _ _ | Close _ | Mkdir _ | Unlink _ => Some (-1)
  | Access _ _ => Some (an_access a)
  | Chdir _ => Some (an_chdir a)
  | Fork => Some (an_fork a)
  | Exec _ _ => an_exec a
  | Wait => Some (an_wait a)
  | Exit _ | Segv => None
  end.

(** The calls a program makes, in order, and how it ends: it returns, a call does
    not come back, or the fuel is used up first. *)
Definition call : Type := {A : Type & userE A}.
Definition called {A} (e : userE A) : call := existT A e.
Inductive ending (R : Type) := Returns (r : R) | Gone | Running.
Arguments Returns {R} r. Arguments Gone {R}. Arguments Running {R}.

Fixpoint run_prog {R} (fuel : nat) (a : Answers) (t : Prog R) : list call * ending R :=
  match fuel with
  | O => ([], Running)
  | S fuel =>
      match observe t with
      | RetF r => ([], Returns r)
      | TauF t => run_prog fuel a t
      | VisF e k =>
          match answer a e with
          | Some x => let r := run_prog fuel a (k x) in (called e :: fst r, snd r)
          | None => ([called e], Gone)
          end
      end
  end.

Lemma run_prog_eq {R} fuel a (t u : Prog R) : eq_itree eq t u -> run_prog fuel a t = run_prog fuel a u.
Proof.
  revert t u. induction fuel as [|fuel IH]; intros t u H; [done|]. cbn [run_prog]. punfold H. red in H.
  destruct H as [r1 r2 ->|t1 t2 H|X e k1 k2 H|t1 ot2 Hc|ot1 t2 Hc]; try discriminate; [done| |].
  - pclearbot. by apply IH.
  - destruct (answer a e) as [x|]; [|done]. specialize (H x). pclearbot. by rewrite (IH _ _ H).
Qed.

(** The calls of a turn for a command and its arguments, written out. *)
Definition next_turn (wstatus : Z) : ending (Z + Z) := Returns (inl wstatus).
Definition cd_calls (a : Answers) (dir : option (list Z)) (wstatus : Z) : list call * ending (Z + Z) :=
  if decide (an_chdir a <> -1) then ([called (Chdir dir)], next_turn wstatus)
  else match dir with
       | Some d => ([called (Chdir dir); called (Print (txt "cd: no such file or directory: " ++ d ++ nl))], next_turn wstatus)
       | None => ([called (Chdir dir); called Segv], Gone)
       end.
Definition program_calls (a : Answers) (name : list Z) (argv : list (list Z)) (wstatus : Z) : list call * ending (Z + Z) :=
  if decide (an_access a = -1) then
    ([called (Access (Some name) 0); called (Print (txt "sh: command not found: " ++ name ++ nl))], next_turn wstatus)
  else if decide (an_fork a = -1) then
    ([called (Access (Some name) 0); called Fork; called (Print (txt "fork failed" ++ nl))], next_turn wstatus)
  else if decide (an_fork a = 0) then
    match an_exec a with
    | None => ([called (Access (Some name) 0); called Fork; called (Exec name argv)], Gone)
    | Some _ => ([called (Access (Some name) 0); called Fork; called (Exec name argv); called (Print (txt "exec failed" ++ nl)); called (Exit (-1))], Gone)
    end
  else ([called (Access (Some name) 0); called Fork; called Wait], next_turn wstatus).
Definition command_calls (a : Answers) (wstatus : Z) (cmd name : list Z) (argv : list (list Z)) : list call * ending (Z + Z) :=
  if decide (cmd = txt "exit") then ([], Returns (inr 0))
  else if decide (cmd = txt "cd") then cd_calls a (argv !! 1%nat) wstatus
  else program_calls a name argv wstatus.

Section steps.
Context {A B R : Type} (a : Answers) (fuel : nat).

Lemma run_return (r : R) : run_prog (S fuel) a (mret r) = ([], Returns r).
Proof. done. Qed.
Lemma run_call (e : userE A) (k : A -> Prog R) x : answer a e = Some x ->
  run_prog (S fuel) a (perform e ≫= k) = (called e :: fst (run_prog fuel a (k x)), snd (run_prog fuel a (k x))).
Proof.
  intros He. rewrite <- (run_prog_eq fuel a (ITree.bind (ITreeDefinition.Ret x) k) (k x)) by apply bind_ret_l.
  cbn [run_prog]. cbn. by rewrite He.
Qed.
Lemma run_gone (e : userE A) (k : A -> Prog R) : answer a e = None -> run_prog (S fuel) a (perform e ≫= k) = ([called e], Gone).
Proof. intros He. cbn [run_prog]. cbn. by rewrite He. Qed.
Lemma run_then (x : A) (k : A -> Prog R) : run_prog fuel a (mret x ≫= k) = run_prog fuel a (k x).
Proof. apply run_prog_eq, bind_ret_l. Qed.
Lemma run_assoc (t : Prog A) (k : A -> Prog B) (h : B -> Prog R) : run_prog fuel a ((t ≫= k) ≫= h) = run_prog fuel a (t ≫= fun x => k x ≫= h).
Proof. apply run_prog_eq, bind_bind. Qed.
End steps.

Ltac run_step := first
  [ rewrite run_assoc | rewrite run_then | erewrite run_call by reflexivity | erewrite run_gone by reflexivity | rewrite run_return ]; cbn beta iota.

Lemma cd_runs fuel a dir wstatus : (3 <= fuel)%nat ->
  run_prog fuel a (ret ← perform (Chdir dir);
    (if ret =? -1 then s ← shown_arg dir; perform (Print (txt "cd: no such file or directory: " ++ s ++ nl)) else mret tt);; mret (inl wstatus)) =
  cd_calls a dir wstatus.
Proof.
  intros Hf. do 3 (destruct fuel as [|fuel]; [lia|]). unfold cd_calls. run_step. destruct (Z.eqb_spec (an_chdir a) (-1)) as [E|E].
  - rewrite decide_False by (by intros []). destruct dir as [d|]; unfold shown_arg, segv; repeat run_step; done.
  - rewrite decide_True by done. repeat run_step. done.
Qed.

Lemma program_runs fuel a name argv wstatus : (6 <= fuel)%nat -> head argv = Some name ->
  run_prog fuel a (ret ← perform (Access (head argv) 0); (if negb (ret =? -1) then run_command argv else command_not_found argv);; mret (inl wstatus)) =
  program_calls a name argv wstatus.
Proof.
  intros Hf Hn. do 6 (destruct fuel as [|fuel]; [lia|]). unfold program_calls, run_command, command_not_found. rewrite Hn. cbn [shown_arg]. run_step.
  destruct (Z.eqb_spec (an_access a) (-1)) as [E|E]; cbn [negb].
  { rewrite decide_True by done. repeat run_step. done. }
  rewrite decide_False by done. do 2 run_step. destruct (Z.eqb_spec (an_fork a) (-1)) as [E1|E1].
  { rewrite decide_True by done. repeat run_step. done. }
  rewrite decide_False by done. destruct (Z.eqb_spec (an_fork a) 0) as [E2|E2].
  - rewrite decide_True by done. do 2 run_step. destruct (an_exec a) as [r|] eqn:E3.
    + run_step. rewrite (run_call _ _ _ _ r) by (by cbn). cbn beta. repeat run_step. done.
    + run_step. rewrite run_gone by (by cbn). done.
  - rewrite decide_False by done. repeat run_step. done.
Qed.

Lemma acts_calls fuel a wstatus cmd name argv : (6 <= fuel)%nat -> head argv = Some name ->
  run_prog fuel a (shell_acts wstatus cmd argv) = command_calls a wstatus cmd name argv.
Proof.
  intros Hf Hn. unfold shell_acts, command_calls. case_decide; [destruct fuel; [lia|done]|].
  case_decide; [apply cd_runs; lia|by apply program_runs].
Qed.

(** ** Claims *)

(** C40. One turn of the shell on a line of words, of at most 255 characters,
    for any answers of the kernel: it prints the prompt and reads the line, and
    then [exit] ends it; [cd] changes the directory to the second word, and
    complains if that fails; for anything else it asks for access to the first
    word as a file, and if there is none says that the command was not found.
    If there is, it forks: if that fails it says so; the child executes the file
    with all the words as arguments, and if that comes back says so and exits
    with -1; the parent waits for a child once, before the next turn.  These are
    all the calls it makes, in this order.  The words are those of the line
    except that the spaces behind the last word stay part of it, and spaces
    before the first one are part of what is compared with the built-in
    commands. *)
Theorem shell_runs_line fuel a user prompt wstatus lead init w g :
  (8 <= fuel)%nat -> spaces lead -> items_ok (init ++ [(w, g)]) -> (length (lead ++ flat (init ++ [(w, g)])) <= 255)%nat ->
  an_line a = lead ++ flat (init ++ [(w, g)]) ->
  let argv := init.*1 ++ [w ++ g] in
  let name := default [] (head argv) in
  let turn := command_calls a wstatus (lead ++ name) name argv in
  run_prog fuel a (shell_turn user prompt wstatus) =
    (called (Print (txt "[" ++ user ++ txt "@localhost]" ++ [prompt] ++ txt " ")) :: called (Read 0 255) :: fst turn, snd turn).
Proof.
  intros Hf Hl Hok Hlen Hline argv name turn. do 2 (destruct fuel as [|fuel]; [lia|]).
  assert (Hh : head argv = Some name) by (unfold name, argv; by destruct init).
  assert (Hrun : run_prog fuel a (run_line wstatus (line_buffer (an_line a))) = turn).
  { rewrite Hline. unfold turn. rewrite <- (acts_calls fuel) by (done || lia). apply run_prog_eq. unfold argv. rewrite <- args_words.
    apply run_line_acts; [done|done|by destruct init|done|]. rewrite args_words. exact Hh. }
  unfold shell_turn. do 2 run_step. cbn [snd]. by rewrite Hrun.
Qed.

(** "ls -l  /mnt": the parent and the child, which executes the program. *)
Lemma shell_runs_line_witness :
  let line := txt "ls -l  /mnt" in let argv := [txt "ls"; txt "-l"; txt "/mnt"] in
  let prompt := called (Print (txt "[root@localhost]# ")) in let access := called (Access (Some (txt "ls")) 0) in
  run_prog 8 (mkAnswers line 0 0 7 None (7, 0)) (shell_turn (txt "root") 35 0) =
    ([prompt; called (Read 0 255); access; called Fork; called Wait], Returns (inl 0)) /\
  run_prog 8 (mkAnswers line 0 0 0 None (0, 0)) (shell_turn (txt "root") 35 0) =
    ([prompt; called (Read 0 255); access; called Fork; called (Exec (txt "ls") argv)], Gone) /\
  run_prog 8 (mkAnswers line (-1) 0 7 None (7, 0)) (shell_turn (txt "root") 35 0) =
    ([prompt; called (Read 0 255); access; called (Print (txt "sh: command not found: ls" ++ nl))], Returns (inl 0)).
Proof.
  cbn zeta. assert (Hw : forall x l, Forall (fun c => c <> 0 /\ c <> SPACE) (x :: l) -> is_word (x :: l)) by (intros; split; done).
  assert (Hok : items_ok ([(txt "ls", txt " "); (txt "-l", txt "  ")] ++ [(txt "/mnt", [])]))
    by (cbn [app items_ok]; split_and!; try (apply Hw; repeat constructor; done); try (repeat constructor; done)).
  split_and!; (etransitivity;
    [apply (shell_runs_line 8 _ (txt "root") 35 0 [] [(txt "ls", txt " "); (txt "-l", txt "  ")] (txt "/mnt") []);
       [lia|constructor|exact Hok|simpl; lia|reflexivity]
    |vm_compute; reflexivity]).
Defined.

(** The shell compares the line with "echo $?" after it was cut: it looks for a
    program "echo" instead. *)
Lemma echo_status_not_built_in wstatus : eq_itree eq (run_line wstatus (line_buffer (txt "echo $?"))) (shell_acts wstatus (txt "echo") [txt "echo"; txt "$?"]).
Proof.
  apply (run_line_acts wstatus [] [(txt "echo", txt " "); (txt "$?", [])] (txt "echo")); [constructor| |done|simpl; lia|done].
  cbn [items_ok]. unfold is_word. split_and!; try done; repeat constructor; done.
Qed.
